(* ===== verification/_CoqProject ===== *)
-Q . S2P
Prelude.v
Memory.v
Float32.v
CStr.v
OsQueue.v
OsThread.v
SimClock.v
Config.v
MathUtils.v
MathLoops.v
MathReal.v
Sql.v
SqlMini.v
Storage.v
StorageRam.v
StorageFlash.v
FlashLaws.v
FlashPayload.v
RepoCommand.v
Schema.v
StorageSqlite.v
RepoData.v
Locks.v
FlashRepo.v
SqliteRepo.v
CmdFP.v
CmdGSSB.v
CmdDRP.v
Telemetry.v
FileTransfer.v
CmdTM.v
Downlink.v
FpDownlink.v
MergeFile.v
FileParts.v
CmdAPP.v
Dispatcher.v
Registry.v
Clients.v
Tasks.v
FlashStart.v
ComServer.v
Boot.v
CmdSys.v
Log.v
CmdHost.v
Sensors.v
Adcs.v
AdcsReal.v
Igrf.v
IgrfLaws.v
IgrfReal.v
Geodetic.v
I2cBus.v
I2cUart.v
System.v
