(* ===== verification/Prelude.v ===== *)
(** * Verification library of the SUCHAI flight software

    ** The program

    The flight software of the SUCHAI satellites is a command processor.
    Client tasks (watchdog, flight plan, console, communications,
    housekeeping) build commands from text and send them to a queue; a
    dispatcher takes them out and hands them one at a time to an executer,
    which calls the command's function and reports its result.  The functions
    work on two repositories: the command repository, a table of names,
    formats and functions, and the data repository, which keeps status
    variables, the flight plan and payload samples in one of three storage
    back ends (RAM, FLASH with FRAM, SQLite).  Telemetry and files go to other
    nodes in frames of 200 bytes over the CSP network.  The application
    [suchai] adds attitude control, a magnetic field model, the deployment of
    the antennas and a sampling state machine.

    ** The files

    The library follows the layers of the program from the bottom up; paths are
    under [src/], most of them under [src/src/].

    Foundations:
    - Prelude: the fault and state monad [M S A] ([S -> res (A * S)], a fault
      stands for undefined behaviour or a failed assertion), 32-bit and 64-bit
      integers as [Z] with their wrap-around written out ([i32_of], [u32_of],
      [cint] for checked [int] arithmetic), array access, lenses, the tactics
      and the hint databases [suchai].
    - Memory, Float32, CStr: byte buffers with [memcpy] and [memset], the bits
      of a [float], the string functions with [sscanf] and [sprintf].
    - Config: [config.h] with the default values and the return codes.

    Operating system layer:
    - OsQueue: [os/linux/pthread_queue.c] (the file of [os/sim] is the same),
      [osSemphr.c], [osDelay.c].  Module [Queue] is the ring buffer with its mutex
      and condition variables, one step for each statement of a call, [Deadline] the
      arithmetic of the timeouts, [Delay] that of the ticks.
    - OsThread: [osThread.c] and [osScheduler.c]; Boot keeps of [osCreateTask]
      its effect on the other tasks.
    - SimClock: [os/sim/osDelay.c], the clock of the simulator and the threads
      that wait on it, as a transition system.

    Data:
    - Storage: [lib/storage/include/suchai/storage.h].  Class [Storage] has the
      operations; [StorageLaws], [StorageSlotLaws], [StorageIndexLaws] and
      [PayloadLaws] say what the data repository relies on, over the view of a back
      end as an array of variables and a table of slots.  RAM has them all, FLASH all
      but [StorageIndexLaws] (it does not read free slots), SQLite none.
    - StorageRam: [lib/storage/storage_ram.c] and its instances of the classes.
    - StorageFlash, FlashLaws, FlashPayload: [lib/storage/storage_flash.c] over
      the emulated chips, its representation invariant, its instances.
    - Sql, SqlMini, StorageSqlite: [lib/storage/storage_sqlite.c] over a
      parameter [Sqlite]; [SqliteLaws] says that it executes a text as the
      statement it spells, and SqlMini is a concrete one.
    - Schema, RepoData: [system/repoDataSchema.c] with the schema of the
      application [simple], and [system/repoData.c] over any [Storage].
    - Locks: the functions of [system/repoData.c] again, as programs that take
      and give [repo_data_sem] ([os/linux/osSemphr.c]) around each call of the
      storage, and the tasks that call them at the same time.
    - FlashRepo, SqliteRepo: the data repository on those two back ends.

    Commands:
    - RepoCommand: [system/repoCommand.c].  Strings are live, freed or null
      ([ptr]), so that a use after free or a missing terminator is a fault.
    - CmdFP, CmdDRP: the handlers of [system/cmdFP.c] and [system/cmdDRP.c].
    - Telemetry, FileTransfer, CmdTM: the senders of [system/cmdCOM.c], the
      receiver of files, the handlers of [system/cmdTM.c].  Downlink,
      FpDownlink, FileParts and MergeFile hold the theorems that join the two
      ends: samples, flight plan, files by ranges of parts, and the join of
      the parts.
    - CmdSys, CmdHost, Log: the other handlers of [system/cmdCOM.c],
      [system/cmdOBC.c] with [drivers/x86/cpu.c] and [drivers/rpi/cpu.c],
      [system/cmdConsole.c], [lib/utils/log_utils.c].
    - CmdAPP: the handlers of [apps/simple/src/system/cmdAPP.c].
    - Registry: the commands that [cmd_repo_init] and the application register.

    Tasks:
    - Dispatcher: [system/taskDispatcher.c] and [system/taskExecuter.c] as a
      transition system; its queues are the bounded lists OsQueue shows its
      ring buffer to be.
    - Clients, Tasks: the loops of [system/taskWatchdog.c],
      [taskFlightPlan.c], [taskConsole.c], [taskCommunications.c] and
      [apps/simple/src/system/taskHousekeeping.c], the start of [taskInit.c],
      and their theorems.
    - FlashStart: the start of [taskInit.c] after a restart on the FLASH chips.
    - ComServer: the loop of [taskCommunications.c] over connections and
      packets, with the owner of each buffer of libcsp; what a packet does to
      the repositories is [com_packet] of Clients.
    - Boot: [system/mainFS.c], [taskInit.c] and the hooks of the applications
      ([apps/simple/src/system/main.c], [apps/suchai/src/initApp.c]) as programs
      that run beside the tasks they create.
    - System: the executer of Dispatcher calling the handlers on the data
      repository, with the clients that send to it.

    The application [suchai] and the drivers:
    - MathUtils, MathLoops, MathReal: [lib/utils/math_utils.c] over any
      arithmetic (classes [Num] and [Double]), its loops, and its formulas over
      the real numbers.
    - Adcs, AdcsReal: [apps/suchai/src/cmdADCS.c] and [taskADCS.c].
    - Igrf, IgrfLaws, IgrfReal: [lib/igrf/igrf13.c] (class [Transcendental]).
    - Geodetic: [eci_to_geo] of [taskADCS.c].
    - Sensors: [apps/suchai/src/taskSensors.c] and [cmdSensors.c].
    - CmdGSSB: [apps/suchai/src/cmdGSSB.c] and [cmdRW.c] over any device (class
      [Bus]).
    - I2cBus: [drivers/x86/i2c.c], the same file as [drivers/rpi/i2c.c].
    - I2cUart: [drivers/rpi/libcsp/src/interfaces/csp_if_i2c_uart.c] and
      [.../drivers/i2c_usart_linux.c], CSP over a serial line.

    In each file a module with the name of the component holds the
    definitions, one for each C function and with its name; modules named
    [...Laws] hold the lemmas and modules named [...Theorems] or [...Real] the
    properties with an instance of each at a concrete state.

    ** What is proved

    - Commands: whatever the interleaving, what was sent is executed in order,
      once, and completely, and the counters of executed and failed commands
      are exact when only the dispatcher writes them (Dispatcher); the queues, the dispatcher and the executer do
      what running the commands one after the other does, and a telecommand
      that plans a command leads to its execution at its time (System); the
      queue is first in, first out for any number of threads, statement by
      statement, never holds more than its length and loses no wake-up (OsQueue); every
      line of text builds the command it names without leaving a buffer
      (RepoCommand), and every registered name resolves (Registry).
    - Data: a status variable that is written is read back, also with one of
      three copies corrupted; payload samples are a stack; on RAM and FLASH the
      flight plan refines a table of slots, with an exact counter, for histories of
      calls with strings that fit and without the time -1 in a get or a delete
      (RepoData).  On FLASH, while the section has room, this holds with restarts
      anywhere in the history, and the results are those of the RAM back end (FlashRepo);
      a start with a used first slot purges what is past and keeps the rest
      (FlashStart).  On SQLite variables and plan are two finite
      maps; the counter counts calls, not entries (SqliteRepo).
    - Tasks: when the watchdog sends its commands, what a turn of the flight plan
      task does, that a periodic entry runs as often as it says, what a
      telecommand frame sends, what a start does to the data it finds (Tasks); the
      simulator's tasks keep their phase (SimClock); whatever the interleaving
      of the start, no task uses what is not set up yet, if the data repository
      is ready within the watchdog's first second (Boot).
    - Communication: frames carry every structure in order (Telemetry), a file
      arrives with its bytes (FileTransfer), or part by part (FileParts), unless it
      ends in the padding byte or is too large for the numbers and names of its parts,
      and the join of the parts reports exactly what is missing (MergeFile); status,
      payload samples and flight plan reach the ground station complete
      (Downlink, FpDownlink); one node sets the clock of another (CmdSys); the
      server releases each packet once and owns one buffer more for each reply
      the network refuses (ComServer); over the serial line packets arrive
      unchanged, the senders exclude each other and a success confirms the frame of its
      own thread, also when writes are cut short, and the receiving thread stays in
      its buffers (I2cUart).
    - Handlers: effect and result on each branch (CmdFP, CmdDRP, CmdTM,
      CmdAPP, CmdHost); where a log message goes (Log).
    - The application [suchai]: the sampling machine keeps its quota and its
      ranges (Sensors); the burn of an antenna is requested only after the
      settings and the arming succeeded (CmdGSSB); matrices and quaternions are
      rotations (MathReal), where a target attitude points and what the torque
      is (AdcsReal); the field is the gradient of a harmonic potential and
      [IgrfCalc] a function of its arguments (IgrfReal, IgrfLaws); the loop for
      the geodetic latitude is a contraction and ends within six turns
      (Geodetic).
    - Limits of the code, where it has them: theorems such as
      [ram_reset_clears_only_first_slot], [flash_section_full_faults],
      [com_send_file_multiple_never_ends], [fp_counter_lost_update],
      [sqlite_counter_counts_calls], [i2c_closes_other_file],
      [debug_packet_printed], [refused_replies_silence], [cut_frame_confirmed],
      [sensors_restart_drops_large_step] or [watchdog_may_be_early] state what happens beyond them.

    ** Bounds and fuel

    Loops over arrays recurse on lists.  The loops without a bound in the code
    take fuel and return [None] when it ends: [fill_null] of [cmd_repo_init],
    the send loops of Telemetry, [missing_frames] of CmdTM, [geo_loop] of
    Geodetic.  The theorems give a fuel that is enough (the number of free
    entries plus one, the number of frames plus one, six) or show that none
    is.  The clients' tasks recurse on the number of turns; transition systems, the
    waiting calls of OsQueue among them, have no bound on their steps.  Arithmetic on [int] that overflows is a fault, so every
    theorem whose result is not a fault also excludes overflow.
    Null results of [malloc] are not modelled, except where a result of the
    code depends on them.
    The flight plan of the FLASH back end has room for 512 entries since the
    last erasure; the laws state the room as a number ([st_room]) that each
    operation preserves or uses.  The field model has degree 13, and a frame of
    the serial line 265 bytes.

    Real arithmetic (MathReal, AdcsReal, IgrfReal, GeodeticReal) leaves the rounding of
    [double] aside: those theorems are about the formulas.

    ** What is not modelled

    Code that is not in the repository is a parameter: libcsp (fields of the
    state of the callers or arguments, which say what each call returns; the
    headers of libcsp in the repository document what ComServer relies on),
    SQLite, the GSSB and wheel drivers, pthreads, linenoise, the sidereal time
    of the orbit propagator, the system calls.  Output to the log and the
    console has no effect on the state, except where a handler's printed text
    is its result.

    Not modelled, and why:
    - [take_sample] of [apps/suchai/src/cmdSensors.c], which fills structures of
      a data schema that is not in the repository.
    - [calc_magnetic_model] of [taskADCS.c], which nothing calls and which passes
      five arguments to the six of [IgrfCalc]; [flight_plan_find_index] of
      [storage_flash.c], which nothing calls.
    - The ports to FreeRTOS, NanoMind and AVR32 ([drivers/nanomind],
      [drivers/atmel]), which call their vendors' libraries; [os/sim] and
      [drivers/rpi/i2c.c] repeat files that are modelled, except for the clock of
      the simulator, which is (SimClock).
    - The back end for PostgreSQL, which the configuration names and the
      repository does not have; the tests, with their own schemas. *)

From stdpp Require Export base list list_numbers gmap strings.
From Stdlib Require Export ZArith Lia.

Close Scope string_scope.
Open Scope Z_scope.

(** ** Faults

    A C program that reads outside an object, dereferences a null pointer or
    overflows a signed integer has no defined continuation.  Every operation
    of the model that can do so returns a [Fault] that says why; [AssertFail]
    is a failed [assert()], which aborts the program. *)
Inductive fault :=
  | OutOfBounds | NullDeref | UseAfterFree | DoubleFree | Unterminated
  | SignedOverflow | DivByZero | BadShift | Uninitialized | ScanOverflow
  | BadFormat | AssertFail | FloatRange.

#[export] Instance fault_eq_dec : EqDecision fault.
Proof. solve_decision. Defined.

Inductive res (A : Type) : Type :=
  | Ret (a : A)
  | Fault (f : fault).
Arguments Ret {A} a.
Arguments Fault {A} f.

#[export] Instance res_eq_dec {A} `{EqDecision A} : EqDecision (res A).
Proof. solve_decision. Defined.

(** ** The state and fault monad

    [M S A] is a C function over the global state [S] with result [A]. *)
Definition M (S A : Type) : Type := S -> res (A * S).

Definition ret {S A} (a : A) : M S A := fun s => Ret (a, s).
Definition fail {S A} (f : fault) : M S A := fun _ => Fault f.
Definition bind {S A B} (m : M S A) (k : A -> M S B) : M S B :=
  fun s => match m s with
           | Ret (a, s') => k a s'
           | Fault f => Fault f
           end.
Definition get {S} : M S S := fun s => Ret (s, s).
Definition gets {S A} (f : S -> A) : M S A := fun s => Ret (f s, s).
Definition put {S} (s : S) : M S unit := fun _ => Ret (tt, s).
Definition modify {S} (f : S -> S) : M S unit := fun s => Ret (tt, f s).
Definition lift {S A} (r : res A) : M S A :=
  fun s => match r with Ret a => Ret (a, s) | Fault f => Fault f end.

Declare Scope suchai_scope.
Delimit Scope suchai_scope with suchai.
Notation "'let!' x := c 'in' k" := (bind c (fun x => k))
  (at level 10, x name, c at level 100, k at level 200) : suchai_scope.
Notation "'let!' ' pat := c 'in' k" := (bind c (fun x => match x with pat => k end))
  (at level 10, pat pattern, c at level 100, k at level 200) : suchai_scope.
Notation "c1 ;! c2" := (bind c1 (fun _ => c2))
  (at level 100, c2 at level 200, right associativity) : suchai_scope.
Open Scope suchai_scope.

(** A component of a larger state: [zoom] runs an operation of the component
    inside the state that contains it. *)
Record lens (S T : Type) := Lens { lget : S -> T; lset : T -> S -> S }.
Arguments Lens {S T} _ _.
Arguments lget {S T} _ _.
Arguments lset {S T} _ _ _.

Definition zoom {S T A} (l : lens S T) (m : M T A) : M S A :=
  fun s => match m (lget l s) with
           | Ret (a, t) => Ret (a, lset l t s)
           | Fault f => Fault f
           end.

Class LensLaws {S T} (l : lens S T) : Prop := {
  lget_lset : forall t s, lget l (lset l t s) = t;
  lset_lget : forall s, lset l (lget l s) s = s;
  lset_lset : forall t1 t2 s, lset l t2 (lset l t1 s) = lset l t2 s
}.

(** ** Loops

    [for_ xs body] is [for (i in xs) body(i)], without early exit. *)
Fixpoint for_ {S X} (xs : list X) (body : X -> M S unit) : M S unit :=
  match xs with
  | [] => ret tt
  | x :: xs => body x ;! for_ xs body
  end.

(** A loop that threads local variables [a] (the C locals of the enclosing
    function) through its iterations. *)
Fixpoint fold_m {S X A} (xs : list X) (body : A -> X -> M S A) (a : A) : M S A :=
  match xs with
  | [] => ret a
  | x :: xs => let! a := body a x in fold_m xs body a
  end.

(** A loop with an early [return]: the body returns [Some r] to leave the
    enclosing function with [r]. *)
Fixpoint for_ret {S X R} (xs : list X) (body : X -> M S (option R)) : M S (option R) :=
  match xs with
  | [] => ret None
  | x :: xs => let! r := body x in
               match r with Some r => ret (Some r) | None => for_ret xs body end
  end.

(** The index range of [for(i=0; i<n; i++)]. *)
Definition range (n : Z) : list Z := seqZ 0 n.

(** ** C integers

    An [int] is a [Z] in [[INT_MIN, INT_MAX]]; signed arithmetic that leaves
    the range is a fault.  Unsigned arithmetic wraps. *)
Definition INT_MIN : Z := -2147483648.
Definition INT_MAX : Z := 2147483647.
Definition is_int (z : Z) : bool := (INT_MIN <=? z) && (z <=? INT_MAX).
Definition cint {S} (z : Z) : M S Z := if is_int z then ret z else fail SignedOverflow.

Definition u8_of (z : Z) : Z := z mod 2 ^ 8.
Definition u16_of (z : Z) : Z := z mod 2 ^ 16.
Definition u32_of (z : Z) : Z := z mod 2 ^ 32.
(** Conversion to [int] of an out-of-range value (two's complement, as gcc
    defines it), and the [.i] member of [value32_t] read from its bits. *)
Definition i32_of (z : Z) : Z := (z + 2 ^ 31) mod 2 ^ 32 - 2 ^ 31.

(** C division and remainder of [int]s, truncated towards zero. *)
Definition cdiv {S} (a b : Z) : M S Z := if b =? 0 then fail DivByZero else ret (Z.quot a b).
Definition cmod {S} (a b : Z) : M S Z := if b =? 0 then fail DivByZero else ret (Z.rem a b).

(** ** Pointers to one heap object *)
Inductive ptr (A : Type) : Type :=
  | Null
  | Live (a : A)
  | Freed.
Arguments Null {A}.
Arguments Live {A} a.
Arguments Freed {A}.

Definition is_null {A} (p : ptr A) : bool := match p with Null => true | _ => false end.
Definition deref {S A} (p : ptr A) : M S A :=
  match p with Live a => ret a | Null => fail NullDeref | Freed => fail UseAfterFree end.
Definition free_ptr {S A} (p : ptr A) : M S unit :=
  match p with Freed => fail DoubleFree | _ => ret tt end.

(** ** Options as tests *)
Definition issome {A} (o : option A) : bool := match o with Some _ => true | None => false end.

(** ** Automation *)
Create HintDb suchai discriminated.
Create Rewrite HintDb suchai.
#[export] Hint Constants Opaque : suchai.
#[export] Hint Variables Opaque : suchai.

(** Case analysis on the scrutinee of the innermost [match] or [if]. *)
Ltac case_head :=
  match goal with
  | |- context [match ?x with _ => _ end] =>
      lazymatch x with context [match _ with _ => _ end] => fail | _ => destruct x eqn:? end
  | H : context [match ?x with _ => _ end] |- _ =>
      lazymatch x with context [match _ with _ => _ end] => fail | _ => destruct x eqn:? end
  end.

(** Boolean tests of the code as propositions. *)
Ltac bool_to_prop :=
  repeat match goal with
  | H : (_ && _) = true |- _ => apply andb_true_iff in H; destruct H
  | H : (_ && _) = false |- _ => apply andb_false_iff in H
  | H : (_ || _) = false |- _ => apply orb_false_iff in H; destruct H
  | H : (_ || _) = true |- _ => apply orb_true_iff in H
  | H : negb _ = true |- _ => apply negb_true_iff in H
  | H : negb _ = false |- _ => apply negb_false_iff in H
  | H : (_ =? _) = true |- _ => apply Z.eqb_eq in H
  | H : (_ =? _) = false |- _ => apply Z.eqb_neq in H
  | H : (_ <? _) = true |- _ => apply Z.ltb_lt in H
  | H : (_ <? _) = false |- _ => apply Z.ltb_ge in H
  | H : (_ <=? _) = true |- _ => apply Z.leb_le in H
  | H : (_ <=? _) = false |- _ => apply Z.leb_gt in H
  end.

(** Split a conjunction without unfolding definitions. *)
Ltac splits := lazymatch goal with |- _ /\ _ => split; [|splits] | _ => idtac end.

(** Symbolic execution of the monad's plumbing. *)
Ltac munfold := cbv [bind ret fail get gets put modify lift].
Ltac mred := unfold bind, ret, fail, get, gets, put, modify, lift in *; cbn beta iota in *.

(** ** Lemmas on the monad *)
Lemma bind_step {S A B} (m : M S A) (k : A -> M S B) s a s' :
  m s = Ret (a, s') -> bind m k s = k a s'.
Proof. unfold bind. by intros ->. Qed.

Lemma bind_fault {S A B} (m : M S A) (k : A -> M S B) s f :
  m s = Fault f -> bind m k s = Fault f.
Proof. unfold bind. by intros ->. Qed.

Lemma bind_inv {S A B} (m : M S A) (k : A -> M S B) s b s' :
  bind m k s = Ret (b, s') -> exists a s1, m s = Ret (a, s1) /\ k a s1 = Ret (b, s').
Proof. unfold bind. destruct (m s) as [[a s1]|] eqn:E; [eauto | done]. Qed.

Lemma zoom_step {S T A} (l : lens S T) (m : M T A) s a t :
  m (lget l s) = Ret (a, t) -> zoom l m s = Ret (a, lset l t s).
Proof. unfold zoom. by intros ->. Qed.

Lemma cint_ok {S} z (s : S) : INT_MIN <= z <= INT_MAX -> cint z s = Ret (z, s).
Proof. intros H. unfold cint, is_int.
  destruct (INT_MIN <=? z) eqn:?, (z <=? INT_MAX) eqn:?; bool_to_prop; try lia; done.
Qed.

(** A loop whose body keeps an invariant keeps it. *)
Lemma for_inv {S X} (I : S -> Prop) (xs : list X) (body : X -> M S unit) s :
  (forall x s, x ∈ xs -> I s -> exists s', body x s = Ret (tt, s') /\ I s') ->
  I s -> exists s', for_ xs body s = Ret (tt, s') /\ I s'.
Proof.
  revert s. induction xs as [|x xs IH]; intros s Hb HI; cbn; [eauto|].
  destruct (Hb x s) as (s1 & E & HI1); [set_solver|done|].
  destruct (IH s1) as (s2 & E2 & HI2); [intros; apply Hb; [set_solver|done]|done|].
  exists s2. split; [|done]. by rewrite (bind_step _ _ _ _ _ E).
Qed.

(** *** Frames

    [keeps R m]: whenever [m] returns, the states before and after it are
    related.  [keeps_tac] follows the structure of an operation. *)
Definition keeps {S A} (R : S -> S -> Prop) (m : M S A) : Prop :=
  forall s a s', m s = Ret (a, s') -> R s s'.

Section keeps.
Context {S : Type} (R : S -> S -> Prop) `{!PreOrder R}.

Lemma keeps_ret {A} (a : A) : keeps R (ret a).
Proof. intros s b s' [= <- <-]. reflexivity. Qed.
Lemma keeps_fail {A} f : keeps R (fail (A := A) f).
Proof. by intros s b s'. Qed.
Lemma keeps_get : keeps R get.
Proof. intros s b s' [= <- <-]. reflexivity. Qed.
Lemma keeps_gets {A} (f : S -> A) : keeps R (gets f).
Proof. intros s b s' [= <- <-]. reflexivity. Qed.
Lemma keeps_lift {A} (r : res A) : keeps R (lift r).
Proof. intros s b s'. unfold lift. destruct r; [intros [= <- <-]; reflexivity|done]. Qed.
Lemma keeps_cint z : keeps R (cint z).
Proof. unfold cint. destruct (is_int z); [apply keeps_ret|apply keeps_fail]. Qed.
Lemma keeps_cdiv a b : keeps R (cdiv a b).
Proof. unfold cdiv. destruct (b =? 0); [apply keeps_fail|apply keeps_ret]. Qed.
Lemma keeps_cmod a b : keeps R (cmod a b).
Proof. unfold cmod. destruct (b =? 0); [apply keeps_fail|apply keeps_ret]. Qed.
Lemma keeps_deref {A} (p : ptr A) : keeps R (deref p).
Proof. destruct p; [apply keeps_fail|apply keeps_ret|apply keeps_fail]. Qed.
Lemma keeps_modify f : (forall s, R s (f s)) -> keeps R (modify f).
Proof. intros H s a s' [= <- <-]. apply H. Qed.
Lemma keeps_bind {A B} (m : M S A) (k : A -> M S B) :
  keeps R m -> (forall a, keeps R (k a)) -> keeps R (bind m k).
Proof.
  intros Hm Hk s b s' (a & s1 & E1 & E2)%bind_inv. transitivity s1; [by eapply Hm|by eapply Hk].
Qed.
Lemma keeps_fold {X A} (xs : list X) (body : A -> X -> M S A) a :
  (forall a x, keeps R (body a x)) -> keeps R (fold_m xs body a).
Proof.
  intros H. revert a. induction xs as [|x xs IH]; intros a; [apply keeps_ret|]. cbn. apply keeps_bind; auto.
Qed.
Lemma keeps_for_ret {X A} (xs : list X) (body : X -> M S (option A)) :
  (forall x, keeps R (body x)) -> keeps R (for_ret xs body).
Proof.
  intros H. induction xs as [|x xs IH]; [apply keeps_ret|]. cbn. apply keeps_bind; [done|].
  intros [a|]; [apply keeps_ret|done].
Qed.
End keeps.

Create HintDb keeps discriminated.

Ltac keeps_tac :=
  repeat (first
    [ solve [auto 2 with keeps nocore]
    | lazymatch goal with
      | |- keeps _ (ret _) => apply (keeps_ret _)
      | |- keeps _ (fail _) => apply (keeps_fail _)
      | |- keeps _ get => apply (keeps_get _)
      | |- keeps _ (gets _) => apply (keeps_gets _)
      | |- keeps _ (lift _) => apply (keeps_lift _)
      | |- keeps _ (cint _) => apply (keeps_cint _)
      | |- keeps _ (cdiv _ _) => apply (keeps_cdiv _)
      | |- keeps _ (cmod _ _) => apply (keeps_cmod _)
      | |- keeps _ (deref _) => apply (keeps_deref _)
      | |- keeps _ (bind _ _) => apply (keeps_bind _); [|intros ?]
      | |- keeps _ (fold_m _ _ _) => apply (keeps_fold _); intros ? ?
      | |- keeps _ (for_ret _ _) => apply (keeps_for_ret _); intros ?
      | |- keeps _ (match ?x with _ => _ end) => destruct x
      end ]).

(** ** Lemmas on C integers *)
Lemma i32_of_id z : INT_MIN <= z <= INT_MAX -> i32_of z = z.
Proof. unfold i32_of, INT_MIN, INT_MAX. intros. rewrite Z.mod_small; lia. Qed.

Lemma i32_of_range z : INT_MIN <= i32_of z <= INT_MAX.
Proof.
  unfold i32_of, INT_MIN, INT_MAX.
  pose proof (Z.mod_pos_bound (z + 2 ^ 31) (2 ^ 32) ltac:(lia)). lia.
Qed.

Lemma u32_of_range z : 0 <= u32_of z < 2 ^ 32.
Proof. unfold u32_of. apply Z.mod_pos_bound. lia. Qed.

Lemma u32_of_id z : 0 <= z < 2 ^ 32 -> u32_of z = z.
Proof. apply Z.mod_small. Qed.

Lemma i32_of_u32_of z : i32_of (u32_of z) = i32_of z.
Proof. unfold i32_of, u32_of. rewrite Zplus_mod_idemp_l. done. Qed.

Lemma u32_of_i32_of z : u32_of (i32_of z) = u32_of z.
Proof.
  unfold i32_of, u32_of. rewrite Zminus_mod_idemp_l. f_equal. lia.
Qed.

Lemma i32_of_u32_id z : INT_MIN <= z <= INT_MAX -> i32_of (u32_of z) = z.
Proof. intros. rewrite i32_of_u32_of. by apply i32_of_id. Qed.

(** ** Lemmas on lists indexed by [Z] *)
Definition zlookup {A} (l : list A) (i : Z) : option A :=
  if i <? 0 then None else l !! Z.to_nat i.
Definition zinsert {A} (l : list A) (i : Z) (x : A) : list A :=
  if i <? 0 then l else <[Z.to_nat i := x]> l.
Definition zlength {A} (l : list A) : Z := Z.of_nat (length l).

Lemma zlookup_lt {A} (l : list A) i : 0 <= i < zlength l -> is_Some (zlookup l i).
Proof.
  intros. unfold zlookup, zlength in *. destruct (i <? 0) eqn:?; bool_to_prop; [lia|].
  apply lookup_lt_is_Some. lia.
Qed.

Lemma zlookup_Some_lt {A} (l : list A) i x : zlookup l i = Some x -> 0 <= i < zlength l.
Proof.
  unfold zlookup, zlength. destruct (i <? 0) eqn:?; bool_to_prop; [done|].
  intros H%lookup_lt_Some. lia.
Qed.

Lemma zlookup_None {A} (l : list A) i : zlookup l i = None -> i < 0 \/ zlength l <= i.
Proof.
  unfold zlookup, zlength. destruct (i <? 0) eqn:?; bool_to_prop; [lia|].
  intros H%lookup_ge_None. lia.
Qed.

Lemma zlookup_ge {A} (l : list A) i : zlength l <= i -> zlookup l i = None.
Proof.
  unfold zlookup, zlength. destruct (i <? 0) eqn:?; [done|].
  intros. apply lookup_ge_None. lia.
Qed.

Lemma zlength_cons {A} (x : A) l : zlength (x :: l) = Z.succ (zlength l).
Proof. unfold zlength. cbn. lia. Qed.
Lemma zlength_app {A} (l k : list A) : zlength (l ++ k) = zlength l + zlength k.
Proof. unfold zlength. rewrite length_app. lia. Qed.

Lemma zlength_zinsert {A} (l : list A) i x : zlength (zinsert l i x) = zlength l.
Proof. unfold zlength, zinsert. destruct (i <? 0); [done|]. by rewrite length_insert. Qed.

Lemma zlookup_zinsert_eq {A} (l : list A) i x :
  0 <= i < zlength l -> zlookup (zinsert l i x) i = Some x.
Proof.
  unfold zlookup, zinsert, zlength. destruct (i <? 0) eqn:?; bool_to_prop; [lia|].
  intros. apply list_lookup_insert_eq. lia.
Qed.

Lemma zlookup_zinsert_ne {A} (l : list A) i j x :
  i <> j -> zlookup (zinsert l i x) j = zlookup l j.
Proof.
  unfold zlookup, zinsert. destruct (i <? 0) eqn:?, (j <? 0) eqn:?; bool_to_prop; try done.
  intros. apply list_lookup_insert_ne. lia.
Qed.

(** [arr_get]/[arr_set]: [a[i]] and [a[i] = x] on an array object. *)
Definition arr_get {S A} (l : list A) (i : Z) : M S A :=
  match zlookup l i with Some x => ret x | None => fail OutOfBounds end.
Definition arr_set {S A} (l : list A) (i : Z) (x : A) : M S (list A) :=
  match zlookup l i with Some _ => ret (zinsert l i x) | None => fail OutOfBounds end.

Lemma arr_get_Some {S A} (l : list A) i x (s : S) :
  zlookup l i = Some x -> arr_get l i s = Ret (x, s).
Proof. unfold arr_get. by intros ->. Qed.

Lemma keeps_arr_get {S A} (R : S -> S -> Prop) `{!PreOrder R} (l : list A) i : keeps R (arr_get l i).
Proof. unfold arr_get. keeps_tac. Qed.
Lemma keeps_arr_set {S A} (R : S -> S -> Prop) `{!PreOrder R} (l : list A) i x : keeps R (arr_set l i x).
Proof. unfold arr_set. keeps_tac. Qed.
#[export] Hint Extern 1 (keeps _ (arr_get _ _)) => apply keeps_arr_get; apply _ : keeps.
#[export] Hint Extern 1 (keeps _ (arr_set _ _ _)) => apply keeps_arr_set; apply _ : keeps.

Lemma arr_set_ok {S A} (l : list A) i x (s : S) :
  0 <= i < zlength l -> arr_set l i x s = Ret (zinsert l i x, s).
Proof. intros H. unfold arr_set. destruct (zlookup_lt l i H) as [y ->]. done. Qed.

#[export] Hint Resolve i32_of_range u32_of_range : suchai.
#[export] Hint Rewrite @zlength_zinsert i32_of_u32_of u32_of_i32_of : suchai.

(** [list_write l off bs]: the bytes [bs] copied to [l + off], inside the
    array object [l]. *)
Definition list_write {S A} (l : list A) (off : Z) (bs : list A) : M S (list A) :=
  if (0 <=? off) && (off + zlength bs <=? zlength l)
  then ret (take (Z.to_nat off) l ++ bs ++ drop (Z.to_nat off + length bs) l)
  else fail OutOfBounds.

(** [list_read l off n]: the [n] elements at [l + off], inside the object. *)
Definition list_read {S A} (l : list A) (off n : Z) : M S (list A) :=
  if (0 <=? off) && (0 <=? n) && (off + n <=? zlength l)
  then ret (take (Z.to_nat n) (drop (Z.to_nat off) l))
  else fail OutOfBounds.

Lemma list_read_ok {S A} (a b c : list A) (s : S) :
  list_read (a ++ b ++ c) (zlength a) (zlength b) s = Ret (b, s).
Proof.
  unfold list_read, zlength. rewrite !length_app.
  rewrite (proj2 (Z.leb_le _ _)), (proj2 (Z.leb_le 0 (Z.of_nat (length b)))), (proj2 (Z.leb_le (_ + _) _)) by lia.
  cbn [andb]. by rewrite !Nat2Z.id, drop_app_length, take_app_length.
Qed.

Lemma list_write_ok {S A} (a b c bs : list A) (s : S) :
  length bs = length b -> list_write (a ++ b ++ c) (zlength a) bs s = Ret (a ++ bs ++ c, s).
Proof.
  intros H. unfold list_write, zlength. rewrite !length_app.
  destruct (0 <=? Z.of_nat (length a)) eqn:E1; bool_to_prop; [|lia].
  destruct (_ <=? _) eqn:E2; bool_to_prop; [|lia]. cbn [andb].
  rewrite Nat2Z.id, take_app_length, H, <- length_app.
  by rewrite (app_assoc a b c), drop_app_length.
Qed.
