(* ===== verification/Memory.v ===== *)
(** * Byte buffers and little-endian integers

    The large memories of the storage back ends (the payload area of
    [storage_ram.c], the simulated FLASH and FRAM arrays of
    [storage_flash.c]) as finite maps from offsets to bytes, with the C
    library calls that act on them ([memcpy], [memset]) and the layout of
    integers in memory on a little-endian host. *)
From S2P Require Import Prelude.

(** ** Buffers

    A buffer of [blen] bytes; a byte that is not in the map is 0, which is
    what [calloc], [memset(..., 0, ...)] and static storage give. *)
Record buffer := Buf { blen : Z; bdata : gmap Z Z }.

Definition byte_at (b : buffer) (a : Z) : Z := default 0 (bdata b !! a).
Definition buf_new (n : Z) : buffer := Buf n ∅.

(** The access [ [a, a+n) ] is inside the object. *)
Definition in_buf (b : buffer) (a n : Z) : bool :=
  (0 <=? a) && (0 <=? n) && (a + n <=? blen b).

Fixpoint write_at (m : gmap Z Z) (a : Z) (bs : list Z) : gmap Z Z :=
  match bs with
  | [] => m
  | x :: bs => <[a := x]> (write_at m (a + 1) bs)
  end.

Definition zero_at (m : gmap Z Z) (a n : Z) : gmap Z Z :=
  filter (fun kv => ~ (a <= kv.1 < a + n)) m.

(** [memcpy(dst, buf + a, n)] *)
Definition buf_read (b : buffer) (a n : Z) : res (list Z) :=
  if in_buf b a n then Ret (map (byte_at b) (seqZ a n)) else Fault OutOfBounds.
(** [memcpy(buf + a, bs, n)] *)
Definition buf_write (b : buffer) (a : Z) (bs : list Z) : res buffer :=
  if in_buf b a (zlength bs) then Ret (Buf (blen b) (write_at (bdata b) a bs))
  else Fault OutOfBounds.
(** [memset(buf + a, 0, n)] *)
Definition buf_zero (b : buffer) (a n : Z) : res buffer :=
  if in_buf b a n then Ret (Buf (blen b) (zero_at (bdata b) a n)) else Fault OutOfBounds.

(** ** Integers in memory *)
Fixpoint le_bytes (n : nat) (z : Z) : list Z :=
  match n with
  | O => []
  | S n => z mod 256 :: le_bytes n (z / 256)
  end.
Fixpoint of_le (bs : list Z) : Z :=
  match bs with
  | [] => 0
  | b :: bs => b + 256 * of_le bs
  end.

(** [csp_hton32] and [csp_ntoh32] on a little-endian host: byte reversal. *)
Definition bswap32 (z : Z) : Z := of_le (rev (le_bytes 4 z)).
Definition bswap16 (z : Z) : Z := of_le (rev (le_bytes 2 z)).

Definition is_bytes (bs : list Z) : Prop := Forall (fun b => 0 <= b < 256) bs.

#[export] Instance is_bytes_dec bs : Decision (is_bytes bs).
Proof. unfold is_bytes. apply _. Defined.

(** ** Lemmas *)
Lemma in_buf_iff b a n : in_buf b a n = true <-> 0 <= a /\ 0 <= n /\ a + n <= blen b.
Proof. unfold in_buf. rewrite !andb_true_iff, !Z.leb_le. tauto. Qed.

Lemma write_at_out m a bs i : i < a \/ a + zlength bs <= i -> write_at m a bs !! i = m !! i.
Proof.
  revert a. induction bs as [|x bs IH]; intros a H; [done|]. cbn.
  unfold zlength in *. cbn [length] in H.
  rewrite lookup_insert_ne by lia. apply IH. lia.
Qed.

Lemma write_at_in m a bs i x :
  zlookup bs i = Some x -> write_at m a bs !! (a + i) = Some x.
Proof.
  revert a i. induction bs as [|y bs IH]; intros a i H.
  { apply zlookup_Some_lt in H. unfold zlength in H. cbn in H. lia. }
  cbn. destruct (decide (i = 0)) as [->|Hne].
  - rewrite Z.add_0_r, lookup_insert_eq. done.
  - rewrite lookup_insert_ne by lia. replace (a + i) with ((a + 1) + (i - 1)) by lia.
    apply IH. pose proof (zlookup_Some_lt _ _ _ H) as Hr.
    unfold zlookup in *. destruct (i <? 0) eqn:?, (i - 1 <? 0) eqn:?; bool_to_prop; try lia.
    replace (Z.to_nat i) with (S (Z.to_nat (i - 1))) in H by lia. done.
Qed.

Lemma zero_at_lookup m a n i :
  default 0 (zero_at m a n !! i) = if decide (a <= i < a + n) then 0 else default 0 (m !! i).
Proof.
  unfold zero_at. rewrite map_lookup_filter. destruct (m !! i) as [x|]; cbn.
  - case_guard; cbn in *; case_decide; try done; tauto.
  - by case_decide.
Qed.

Lemma length_le_bytes n z : length (le_bytes n z) = n.
Proof. revert z. induction n; intros; cbn; [done|]. by rewrite IHn. Qed.

Lemma is_bytes_le_bytes n z : is_bytes (le_bytes n z).
Proof.
  revert z. induction n; intros; cbn; [constructor|].
  constructor; [apply Z.mod_pos_bound; lia | apply IHn].
Qed.

Lemma of_le_bytes n z : of_le (le_bytes n z) = z mod 2 ^ (8 * Z.of_nat n).
Proof.
  revert z. induction n; intros z; cbn [le_bytes of_le].
  - rewrite Z.mod_1_r. done.
  - rewrite IHn. replace (8 * Z.of_nat (S n)) with (8 + 8 * Z.of_nat n) by lia.
    rewrite Z.pow_add_r by lia. change (2 ^ 8) with 256.
    rewrite Z.rem_mul_r by lia. lia.
Qed.

Lemma le_bytes_of_le bs : is_bytes bs -> le_bytes (length bs) (of_le bs) = bs.
Proof.
  induction bs as [|b bs IH]; intros H; [done|]. cbn [length le_bytes of_le].
  inversion H as [|? ? Hb Hbs]; subst.
  replace (b + 256 * of_le bs) with (b + of_le bs * 256) by lia.
  rewrite Z.mod_add by lia. rewrite Z.div_add by lia.
  rewrite Z.mod_small by lia. rewrite Z.div_small by lia. by rewrite Z.add_0_l, IH.
Qed.

Lemma of_le_range bs : is_bytes bs -> 0 <= of_le bs < 2 ^ (8 * zlength bs).
Proof.
  induction bs as [|b bs IH]; intros H; [done|]. inversion H as [|? ? Hb Hbs]; subst.
  specialize (IH Hbs). cbn [of_le]. unfold zlength in *. cbn [length].
  replace (8 * Z.of_nat (S (length bs))) with (8 + 8 * Z.of_nat (length bs)) by lia.
  rewrite Z.pow_add_r by lia. change (2 ^ 8) with 256. lia.
Qed.

Lemma of_le_bytes4 z : of_le (le_bytes 4 z) = u32_of z.
Proof. apply of_le_bytes. Qed.

(** Byte reversal is an involution. *)
Lemma bswap_involutive n z :
  of_le (rev (le_bytes n (of_le (rev (le_bytes n z))))) = z mod 2 ^ (8 * Z.of_nat n).
Proof.
  set (bs := rev (le_bytes n z)).
  assert (is_bytes bs) as Hb by (apply Forall_rev, is_bytes_le_bytes).
  assert (length bs = n) as Hl by (unfold bs; rewrite length_rev; apply length_le_bytes).
  rewrite <- Hl at 1. rewrite le_bytes_of_le by done. unfold bs. rewrite rev_involutive. apply of_le_bytes.
Qed.
Lemma bswap32_involutive z : bswap32 (bswap32 z) = u32_of z.
Proof. apply (bswap_involutive 4). Qed.
Lemma bswap16_involutive z : bswap16 (bswap16 z) = u16_of z.
Proof. apply (bswap_involutive 2). Qed.

Lemma bswap32_range z : 0 <= bswap32 z < 2 ^ 32.
Proof.
  pose proof (of_le_range (rev (le_bytes 4 z)) ltac:(apply Forall_rev, is_bytes_le_bytes)) as H.
  unfold zlength in H. by rewrite length_rev, length_le_bytes in H.
Qed.

(** *** Reading back what was written *)
Lemma buf_read_len b a n bs : buf_read b a n = Ret bs -> zlength bs = n.
Proof.
  unfold buf_read. destruct (in_buf b a n) eqn:E; [|done]. intros [= <-].
  apply in_buf_iff in E. unfold zlength. rewrite length_map, length_seqZ. lia.
Qed.

Lemma map_seqZ_ext {A} (f g : Z -> A) a n :
  (forall i, a <= i < a + n -> f i = g i) -> map f (seqZ a n) = map g (seqZ a n).
Proof. intros H. apply map_ext_in. intros i Hi%list_elem_of_In%elem_of_seqZ. auto. Qed.

Lemma buf_read_write_same b b' a bs :
  buf_write b a bs = Ret b' -> buf_read b' a (zlength bs) = Ret bs.
Proof.
  unfold buf_write, buf_read. destruct (in_buf b a (zlength bs)) eqn:E; [|done].
  intros [= <-]. unfold in_buf in *. cbn [blen]. rewrite E. f_equal.
  apply list_eq. intros i. rewrite list_lookup_fmap.
  destruct (decide (i < length bs)%nat) as [Hi|Hi].
  - rewrite lookup_seqZ_lt by (unfold zlength; lia). cbn.
    destruct (lookup_lt_is_Some_2 bs i Hi) as [x Hx]. rewrite Hx. f_equal.
    unfold byte_at. cbn [bdata]. rewrite (write_at_in _ _ _ _ x); [done|].
    unfold zlookup. destruct (Z.of_nat i <? 0) eqn:?; bool_to_prop; [lia|]. by rewrite Nat2Z.id.
  - rewrite lookup_seqZ_ge by (unfold zlength; lia). cbn.
    symmetry. apply lookup_ge_None. lia.
Qed.

Lemma buf_read_write_other b b' a bs c n :
  buf_write b a bs = Ret b' -> c + n <= a \/ a + zlength bs <= c ->
  buf_read b' c n = buf_read b c n.
Proof.
  unfold buf_write, buf_read. destruct (in_buf b a (zlength bs)) eqn:E; [|done].
  intros [= <-] Hd. unfold in_buf. cbn [blen].
  destruct (_ && _) eqn:E2; [|done]. f_equal. apply map_seqZ_ext. intros i Hi.
  unfold byte_at. cbn [bdata]. rewrite write_at_out by lia. done.
Qed.

Lemma buf_read_zero_other b b' a m c n :
  buf_zero b a m = Ret b' -> c + n <= a \/ a + m <= c -> buf_read b' c n = buf_read b c n.
Proof.
  unfold buf_zero, buf_read. destruct (in_buf b a m) eqn:E; [|done].
  intros [= <-] Hd. unfold in_buf. cbn [blen].
  destruct (_ && _) eqn:E2; [|done]. f_equal. apply map_seqZ_ext. intros i Hi.
  unfold byte_at. cbn [bdata]. rewrite zero_at_lookup. case_decide; [lia|done].
Qed.

Lemma buf_read_zero_same b b' a m c n :
  buf_zero b a m = Ret b' -> a <= c -> c + n <= a + m -> 0 <= n ->
  buf_read b' c n = Ret (replicate (Z.to_nat n) 0).
Proof.
  unfold buf_zero, buf_read. destruct (in_buf b a m) eqn:E; [|done].
  intros [= <-] H1 H2 H3. apply in_buf_iff in E.
  assert (in_buf (Buf (blen b) (zero_at (bdata b) a m)) c n = true) as ->
    by (apply in_buf_iff; cbn; lia).
  f_equal. rewrite (map_seqZ_ext _ (fun _ => 0)).
  - apply list_eq. intros i. rewrite list_lookup_fmap.
    destruct (decide (i < Z.to_nat n)%nat).
    + rewrite lookup_seqZ_lt by lia. rewrite lookup_replicate_2 by done. done.
    + rewrite lookup_seqZ_ge by lia. symmetry. apply lookup_ge_None.
      rewrite length_replicate. lia.
  - intros i Hi. unfold byte_at. cbn [bdata]. rewrite zero_at_lookup. case_decide; [done|lia].
Qed.

Lemma buf_write_len b a bs b' : buf_write b a bs = Ret b' -> blen b' = blen b.
Proof. unfold buf_write. destruct (in_buf _ _ _); [by intros [= <-]|done]. Qed.
Lemma buf_zero_len b a n b' : buf_zero b a n = Ret b' -> blen b' = blen b.
Proof. unfold buf_zero. destruct (in_buf _ _ _); [by intros [= <-]|done]. Qed.

Lemma buf_write_ok b a bs :
  0 <= a -> a + zlength bs <= blen b ->
  buf_write b a bs = Ret (Buf (blen b) (write_at (bdata b) a bs)).
Proof.
  intros. unfold buf_write.
  assert (in_buf b a (zlength bs) = true) as ->; [|done].
  apply in_buf_iff. unfold zlength in *. lia.
Qed.

Lemma buf_zero_ok b a n :
  0 <= a -> 0 <= n -> a + n <= blen b -> buf_zero b a n = Ret (Buf (blen b) (zero_at (bdata b) a n)).
Proof. intros. unfold buf_zero. by assert (in_buf b a n = true) as -> by (apply in_buf_iff; lia). Qed.

Lemma buf_read_ok b a n :
  0 <= a -> 0 <= n -> a + n <= blen b -> exists bs, buf_read b a n = Ret bs /\ zlength bs = n.
Proof.
  intros. assert (in_buf b a n = true) as E by (apply in_buf_iff; lia).
  unfold buf_read. rewrite E. eexists; split; [done|].
  unfold zlength. rewrite length_map, length_seqZ. lia.
Qed.

(** *** Consecutive and partial reads *)
Lemma buf_read_app b a n m x y :
  0 <= n -> 0 <= m -> buf_read b a n = Ret x -> buf_read b (a + n) m = Ret y -> buf_read b a (n + m) = Ret (x ++ y).
Proof.
  intros Hn Hm. unfold buf_read. destruct (in_buf b a n) eqn:E1; [|done]. destruct (in_buf b (a + n) m) eqn:E2; [|done].
  intros [= <-] [= <-]. apply in_buf_iff in E1, E2.
  assert (in_buf b a (n + m) = true) as -> by (apply in_buf_iff; lia).
  by rewrite seqZ_app, map_app by lia.
Qed.

Lemma buf_read_split b a n m bs :
  0 <= n -> 0 <= m -> buf_read b a (n + m) = Ret bs ->
  buf_read b a n = Ret (take (Z.to_nat n) bs) /\ buf_read b (a + n) m = Ret (drop (Z.to_nat n) bs).
Proof.
  intros Hn Hm H. destruct (in_buf b a (n + m)) eqn:E; [|unfold buf_read in H; by rewrite E in H].
  apply in_buf_iff in E.
  destruct (buf_read_ok b a n) as (x & Hx & Hlx); [lia..|].
  destruct (buf_read_ok b (a + n) m) as (y & Hy & _); [lia..|].
  pose proof (buf_read_app _ _ _ _ _ _ Hn Hm Hx Hy) as Hxy. rewrite H in Hxy. injection Hxy as ->.
  rewrite Hx, Hy. assert (Z.to_nat n = length x) as -> by (unfold zlength in Hlx; lia).
  by rewrite take_app_length, drop_app_length.
Qed.

(** Records of [w] bytes, one after the other. *)
Lemma buf_read_concat {A} (f : A -> list Z) b a w (l : list A) :
  0 <= w -> in_buf b a 0 = true -> (forall i x, l !! i = Some x -> buf_read b (a + w * Z.of_nat i) w = Ret (f x)) ->
  buf_read b a (w * zlength l) = Ret (concat (map f l)).
Proof.
  intros Hw. revert a. induction l as [|x l IH]; intros a Ha Hl.
  { change (zlength (@nil A)) with 0. rewrite Z.mul_0_r. unfold buf_read. by rewrite Ha. }
  pose proof (Hl 0%nat x eq_refl) as H0. rewrite Z.mul_0_r, Z.add_0_r in H0.
  rewrite zlength_cons. replace (w * Z.succ (zlength l)) with (w + w * zlength l) by lia. cbn [map concat].
  apply buf_read_app; [done|unfold zlength; lia|done|]. apply IH.
  - unfold buf_read in H0. destruct (in_buf b a w) eqn:E; [|done]. apply in_buf_iff in E. apply in_buf_iff. lia.
  - intros i y Hy. pose proof (Hl (S i) y Hy) as H1.
    replace (a + w * Z.of_nat (S i)) with (a + w + w * Z.of_nat i) in H1 by lia. exact H1.
Qed.

Lemma buf_read_record {A} (f : A -> list Z) b a w (l : list A) i x :
  0 <= w -> (forall y, zlength (f y) = w) -> buf_read b a (w * zlength l) = Ret (concat (map f l)) ->
  l !! i = Some x -> buf_read b (a + w * Z.of_nat i) w = Ret (f x).
Proof.
  intros Hw Hf. revert a i. induction l as [|y l IH]; intros a i H Hi; [done|].
  rewrite zlength_cons in H. replace (w * Z.succ (zlength l)) with (w + w * zlength l) in H by lia. cbn [map concat] in H.
  apply buf_read_split in H as [H1 H2]; [|done|unfold zlength; lia].
  assert (Z.to_nat w = length (f y)) as E by (specialize (Hf y); unfold zlength in Hf; lia).
  rewrite E in H1, H2. rewrite take_app_length in H1. rewrite drop_app_length in H2.
  destruct i as [|i]; [injection Hi as <-; by rewrite Z.mul_0_r, Z.add_0_r|].
  replace (a + w * Z.of_nat (S i)) with (a + w + w * Z.of_nat i) by lia. by apply IH.
Qed.
