(* ===== verification/Float32.v ===== *)
(** * Single precision numbers

    The [float]s of the flight software are the bits of an IEEE 754 binary32
    number.  [f32_of_ratio] rounds a rational to the nearest [float] (ties to
    even), as the conversion [%f] of [sscanf] does; [f32_to_int] is the
    conversion of a [float] to [int32_t]. *)
From S2P Require Import Prelude.

(** [num / den] rounded to an integer, ties to even. *)
Definition round_half_even (num den : Z) : Z :=
  let q := num / den in
  let r := num mod den in
  if 2 * r <? den then q
  else if den <? 2 * r then q + 1
  else if Z.even q then q else q + 1.

(** [num * 2^k / den] as a fraction. *)
Definition scale_num (num k : Z) : Z := if 0 <=? k then num * 2 ^ k else num.
Definition scale_den (den k : Z) : Z := if 0 <=? k then den else den * 2 ^ (- k).

(** The exponent [e] with [2^e <= num/den < 2^(e+1)], for positive arguments. *)
Definition ratio_exp (num den : Z) : Z :=
  let k := Z.log2 num - Z.log2 den in
  if scale_den den (- k) <=? scale_num num (- k) then k else k - 1.

(** The bits of the [float] nearest to [num / den], for [0 <= num], [0 < den]. *)
Definition f32_pos (num den : Z) : Z :=
  if num =? 0 then 0 else
  let e := Z.max (ratio_exp num den) (-126) in
  let m := round_half_even (scale_num num (23 - e)) (scale_den den (23 - e)) in
  let '(e, m) := if m =? 2 ^ 24 then (e + 1, 2 ^ 23) else (e, m) in
  if 127 <? e then 255 * 2 ^ 23
  else if m <? 2 ^ 23 then m
  else (e + 127) * 2 ^ 23 + (m - 2 ^ 23).

Definition f32_of_ratio (neg : bool) (num den : Z) : Z :=
  (if neg then 2 ^ 31 else 0) + f32_pos num den.

Definition f32_sign (bits : Z) : bool := 2 ^ 31 <=? bits.
Definition f32_exp (bits : Z) : Z := (bits / 2 ^ 23) mod 2 ^ 8.
Definition f32_frac (bits : Z) : Z := bits mod 2 ^ 23.

(** The magnitude truncated to an integer; [None] for infinity and NaN. *)
Definition f32_trunc_mag (bits : Z) : option Z :=
  let e := f32_exp bits in
  if e =? 255 then None
  else if e =? 0 then Some 0
  else let m := 2 ^ 23 + f32_frac bits in
       let k := e - 127 - 23 in
       Some (if 0 <=? k then m * 2 ^ k else m / 2 ^ (- k)).

(** [(int32_t)f]: truncation; a value outside the range is undefined. *)
Definition f32_to_int (bits : Z) : option Z :=
  match f32_trunc_mag bits with
  | None => None
  | Some m => let z := if f32_sign bits then - m else m in
              if is_int z then Some z else None
  end.

Example f32_one : f32_of_ratio false 1 1 = 0x3F800000. Proof. reflexivity. Qed.
Example f32_tenth : f32_of_ratio true 1 10 = 0xBDCCCCCD. Proof. reflexivity. Qed.
Example f32_max : f32_of_ratio false (2 ^ 200) 1 = 0x7F800000. Proof. reflexivity. Qed.
Example f32_sub : f32_of_ratio false 1 (2 ^ 149) = 1. Proof. reflexivity. Qed.
Example f32_trunc : f32_to_int 0xC0200000 = Some (-2). Proof. reflexivity. Qed.

(** ** Integers up to [2^24] are exact *)
Lemma ratio_exp_int n : 0 < n -> ratio_exp n 1 = Z.log2 n.
Proof.
  intros Hn. unfold ratio_exp. change (Z.log2 1) with 0. rewrite Z.sub_0_r.
  pose proof (Z.log2_spec n Hn). pose proof (Z.log2_nonneg n).
  destruct (scale_den 1 _ <=? _) eqn:E; [done|]. exfalso. bool_to_prop.
  unfold scale_den, scale_num in E. destruct (0 <=? - Z.log2 n) eqn:E1; bool_to_prop.
  - assert (Z.log2 n = 0) as Hz by lia. rewrite Hz in *. cbn in E. lia.
  - rewrite Z.opp_involutive in E. lia.
Qed.

Lemma round_exact k : round_half_even k 1 = k.
Proof. unfold round_half_even. rewrite Z.div_1_r, Z.mod_1_r. cbn. done. Qed.

Lemma pow2_pos k : 0 <= k -> 0 < 2 ^ k.
Proof. intros. by apply Z.pow_pos_nonneg. Qed.

(** The parts of an encoded number. *)
Lemma f32_parts (neg : bool) e m :
  0 < e < 255 -> 2 ^ 23 <= m < 2 ^ 24 ->
  let bits := (if neg then 2 ^ 31 else 0) + (e * 2 ^ 23 + (m - 2 ^ 23)) in
  f32_sign bits = neg /\ f32_exp bits = e /\ f32_frac bits = m - 2 ^ 23.
Proof.
  intros He Hm bits. unfold f32_sign, f32_exp, f32_frac.
  assert (bits = ((if neg then 256 else 0) + e) * 2 ^ 23 + (m - 2 ^ 23)) as Hb
    by (subst bits; destruct neg; lia).
  assert (bits / 2 ^ 23 = (if neg then 256 else 0) + e) as Hd.
  { rewrite Hb, Z.div_add_l, Z.div_small by lia. lia. }
  split; [|split].
  - subst bits. destruct neg; [apply Z.leb_le|apply Z.leb_gt]; lia.
  - rewrite Hd. change (2 ^ 8) with 256. destruct neg.
    + replace (256 + e) with (e + 1 * 256) by lia. rewrite Z.mod_add by lia. apply Z.mod_small. lia.
    + apply Z.mod_small. lia.
  - rewrite Hb. rewrite Z.add_comm, Z.mod_add by lia. apply Z.mod_small. lia.
Qed.

Lemma f32_pos_int n : 0 < n < 2 ^ 24 ->
  f32_pos n 1 = (Z.log2 n + 127) * 2 ^ 23 + (n * 2 ^ (23 - Z.log2 n) - 2 ^ 23) /\
  2 ^ 23 <= n * 2 ^ (23 - Z.log2 n) < 2 ^ 24 /\ 0 <= Z.log2 n <= 23.
Proof.
  intros Hn. pose proof (Z.log2_spec n ltac:(lia)) as Hs. pose proof (Z.log2_nonneg n) as H0.
  assert (Z.log2 n <= 23) as H23 by (apply Z.lt_succ_r, Z.log2_lt_pow2; [lia|exact (proj2 Hn)]).
  pose proof (pow2_pos (23 - Z.log2 n) ltac:(lia)) as Hp.
  assert (2 ^ Z.log2 n * 2 ^ (23 - Z.log2 n) = 2 ^ 23) as Hmul
    by (rewrite <- Z.pow_add_r by lia; f_equal; lia).
  assert (2 ^ 23 <= n * 2 ^ (23 - Z.log2 n) < 2 ^ 24) as Hm.
  { rewrite Z.pow_succ_r in Hs by lia. change (2 ^ 24) with (2 * 2 ^ 23). rewrite <- Hmul. nia. }
  split; [|done]. unfold f32_pos. rewrite (proj2 (Z.eqb_neq n 0)) by lia.
  rewrite ratio_exp_int by lia. rewrite Z.max_l by lia.
  unfold scale_num, scale_den. rewrite (proj2 (Z.leb_le 0 _)) by lia. rewrite round_exact.
  rewrite (proj2 (Z.eqb_neq (n * 2 ^ (23 - Z.log2 n)) (2 ^ 24))) by lia.
  rewrite (proj2 (Z.ltb_ge _ _)) by lia. rewrite (proj2 (Z.ltb_ge _ (2 ^ 23))) by lia. done.
Qed.

(** An integer of at most 24 bits goes through a [float] unchanged. *)
Lemma f32_int_exact (neg : bool) n : 0 <= n < 2 ^ 24 ->
  f32_to_int (f32_of_ratio neg n 1) = Some (if neg then - n else n).
Proof.
  intros Hn. destruct (Z.eq_dec n 0) as [->|Hne].
  { destruct neg; reflexivity. }
  destruct (f32_pos_int n ltac:(lia)) as (Hp & Hm & Hl).
  unfold f32_of_ratio. rewrite Hp.
  destruct (f32_parts neg (Z.log2 n + 127) (n * 2 ^ (23 - Z.log2 n)) ltac:(lia) Hm) as (Hs & He & Hf).
  unfold f32_to_int, f32_trunc_mag. rewrite Hs, He, Hf.
  rewrite (proj2 (Z.eqb_neq _ 255)), (proj2 (Z.eqb_neq _ 0)) by lia.
  replace (2 ^ 23 + (n * 2 ^ (23 - Z.log2 n) - 2 ^ 23)) with (n * 2 ^ (23 - Z.log2 n)) by lia.
  replace (Z.log2 n + 127 - 127 - 23) with (Z.log2 n - 23) by lia.
  assert ((if 0 <=? Z.log2 n - 23 then n * 2 ^ (23 - Z.log2 n) * 2 ^ (Z.log2 n - 23)
           else n * 2 ^ (23 - Z.log2 n) / 2 ^ (- (Z.log2 n - 23))) = n) as ->.
  { destruct (0 <=? Z.log2 n - 23) eqn:E; bool_to_prop.
    - replace (Z.log2 n) with 23 by lia. cbn. lia.
    - replace (- (Z.log2 n - 23)) with (23 - Z.log2 n) by lia.
      apply Z.div_mul. pose proof (pow2_pos (23 - Z.log2 n) ltac:(lia)). lia. }
  assert (is_int (if neg then - n else n) = true) as ->; [|done].
  unfold is_int, INT_MIN, INT_MAX. rewrite andb_true_iff, !Z.leb_le. destruct neg; lia.
Qed.

(** An odd integer of 25 bits is rounded to an even one. *)
Lemma f32_int_odd25 n : 2 ^ 24 < n < 2 ^ 25 -> Z.odd n = true ->
  exists m, f32_to_int (f32_of_ratio false n 1) = Some (2 * m) /\ 2 ^ 23 <= m <= 2 ^ 24.
Proof.
  intros Hn Hodd. assert (Z.log2 n = 24) as Hl by (apply Z.log2_unique; [lia|cbn; lia]).
  assert (n mod 2 = 1) as Hr by (by rewrite Zmod_odd, Hodd).
  pose proof (Z.div_mod n 2 ltac:(lia)) as Hdm.
  set (m := if Z.even (n / 2) then n / 2 else n / 2 + 1).
  assert (2 ^ 23 <= m <= 2 ^ 24) as Hm by (subst m; destruct (Z.even _); lia).
  assert (round_half_even n 2 = m) as Hround.
  { unfold round_half_even. rewrite Hr. cbn. done. }
  exists m. split; [|done]. unfold f32_of_ratio, f32_pos. rewrite (proj2 (Z.eqb_neq n 0)) by lia.
  rewrite ratio_exp_int, Hl by lia. change (Z.max 24 (-126)) with 24. change (23 - 24) with (-1).
  change (scale_num n (-1)) with n. change (scale_den 1 (-1)) with 2. rewrite Hround, Z.add_0_l.
  destruct (Z.eq_dec m (2 ^ 24)) as [->|Hne]; [vm_compute; reflexivity|].
  rewrite (proj2 (Z.eqb_neq m (2 ^ 24)) Hne). change (127 <? 24) with false. cbn beta iota.
  rewrite (proj2 (Z.ltb_ge _ (2 ^ 23))) by lia.
  destruct (f32_parts false (24 + 127) m ltac:(lia) ltac:(lia)) as (Hs & He & Hf). rewrite Z.add_0_l in *.
  unfold f32_to_int, f32_trunc_mag. rewrite Hs, He, Hf. change (24 + 127 =? 255) with false.
  change (24 + 127 =? 0) with false. cbn beta iota. change (24 + 127 - 127 - 23) with 1.
  change (0 <=? 1) with true. cbn beta iota. change (2 ^ 1) with 2.
  replace (2 ^ 23 + (m - 2 ^ 23)) with m by lia.
  assert (is_int (m * 2) = true) as Hi.
  { unfold is_int, INT_MIN, INT_MAX. rewrite andb_true_iff, !Z.leb_le. lia. }
  rewrite Hi. f_equal. lia.
Qed.
