(* ===== verification/CStr.v ===== *)
(** * C strings

    The string functions of the C library the flight software uses: [strlen],
    [strcmp], [strncpy], [strtok], [sscanf] with the conversions of the
    command formats ([%d], [%u], [%f], [%s], [%n]) and [sprintf("%d")].
    [%f] reads decimal notation; infinities, NaNs and hexadecimal numbers in
    the input of a command are not modelled (they match nothing).

    A character is its code in [1, 255].  A [cstring] is the sequence of the
    characters before the terminating NUL; a char array or a heap buffer is
    the list of all its bytes. *)
From S2P Require Import Prelude Float32.

Abbreviation cstring := (list Z).

(** String literals. *)
Fixpoint cs (s : string) : cstring :=
  match s with
  | EmptyString => []
  | String a s => Z.of_N (Ascii.N_of_ascii a) :: cs s
  end.

Definition chr_space : Z := 32.
Definition chr_percent : Z := 37.
Definition isspace (c : Z) : bool := (c =? 32) || ((9 <=? c) && (c <=? 13)).
Definition isdigit (c : Z) : bool := (48 <=? c) && (c <=? 57).

(** A well formed string: no NUL inside, every character a byte. *)
Definition is_cstr (s : cstring) : Prop := Forall (fun c => 0 < c < 256) s.

#[export] Instance is_cstr_dec s : Decision (is_cstr s).
Proof. unfold is_cstr. apply _. Defined.

Definition strlen (s : cstring) : Z := zlength s.

(** Only the sign of the result is meaningful. *)
Fixpoint strcmp (a b : cstring) : Z :=
  match a, b with
  | [], [] => 0
  | [], _ :: _ => -1
  | _ :: _, [] => 1
  | x :: a, y :: b => if x =? y then strcmp a b else x - y
  end.

(** The string that starts at the first byte of a buffer; a buffer without a
    NUL is read past its end. *)
Fixpoint cstr_of_buf (b : list Z) : res cstring :=
  match b with
  | [] => Fault Unterminated
  | c :: b => if c =? 0 then Ret []
              else match cstr_of_buf b with Ret s => Ret (c :: s) | Fault f => Fault f end
  end.

(** The [n] bytes that [strncpy(dst, src, n)] writes. *)
Definition strncpy_bytes (src : cstring) (n : Z) : list Z :=
  take (Z.to_nat n) (src ++ replicate (Z.to_nat n) 0).

(** The bytes of a string with its terminator. *)
Definition with_nul (s : cstring) : list Z := s ++ [0].

(** *** [strtok(s, delim)], all the tokens in order *)
Fixpoint tokens_acc (delim : Z) (s acc : cstring) : list cstring :=
  match s with
  | [] => match acc with [] => [] | _ => [rev acc] end
  | c :: s => if c =? delim
              then match acc with
                   | [] => tokens_acc delim s []
                   | _ => rev acc :: tokens_acc delim s []
                   end
              else tokens_acc delim s (c :: acc)
  end.
Definition strtok_all (delim : Z) (s : cstring) : list cstring := tokens_acc delim s [].

(** *** [sscanf] *)
Fixpoint skip_space (s : cstring) : cstring :=
  match s with
  | c :: s' => if isspace c then skip_space s' else s
  | [] => []
  end.

(** Longest prefix of non-space characters, and the rest. *)
Fixpoint take_word (s : cstring) : cstring * cstring :=
  match s with
  | c :: s' => if isspace c then ([], s)
               else let (w, r) := take_word s' in (c :: w, r)
  | [] => ([], [])
  end.

Fixpoint take_digits (s : cstring) : cstring * cstring :=
  match s with
  | c :: s' => if isdigit c then let (w, r) := take_digits s' in (c :: w, r) else ([], s)
  | [] => ([], [])
  end.

Definition dec_value (ds : cstring) : Z := fold_left (fun acc c => acc * 10 + (c - 48)) ds 0.

(** [n * 10^k] as a fraction. *)
Definition scale10_num (n k : Z) : Z := if 0 <=? k then n * 10 ^ k else n.
Definition scale10_den (k : Z) : Z := if 0 <=? k then 1 else 10 ^ (- k).

(** An optional sign and the rest. *)
Definition take_sign (s : cstring) : bool * cstring :=
  match s with
  | c :: s' => if c =? 45 then (true, s') else if c =? 43 then (false, s') else (false, s)
  | [] => (false, [])
  end.

(** [strtol] in base 10 on the text after white space: the value and the rest,
    or nothing when there is no digit. *)
Definition scan_dec (s : cstring) : option (Z * cstring) :=
  let (neg, s1) := take_sign s in
  let (ds, r) := take_digits s1 in
  match ds with
  | [] => None
  | _ => Some ((if neg then - dec_value ds else dec_value ds), r)
  end.

(** What one conversion stores. *)
Inductive scanval :=
  | VInt (z : Z)       (** [%d] *)
  | VUInt (z : Z)      (** [%u] *)
  | VFloat (b : Z)     (** [%f], the bits of the [float] *)
  | VStr (s : cstring) (** [%s] *)
  | VPos (n : Z)       (** [%n] *)
  | VDouble (t : cstring). (** a [double] argument, as the text [%lf] gives for it *)

#[export] Instance scanval_eq_dec : EqDecision scanval.
Proof. solve_decision. Defined.

(** The outcome of one conversion: a value and the rest of the input, a
    matching failure, the end of the input, or a value out of range, which C
    leaves undefined. *)
Inductive conv := Conv (v : scanval) (r : cstring) | NoMatch | AtEnd | BadRange.

Definition conv_int (s : cstring) : conv :=
  match skip_space s with
  | [] => AtEnd
  | s1 => match scan_dec s1 with
          | None => NoMatch
          | Some (z, r) => if is_int z then Conv (VInt z) r else BadRange
          end
  end.

(** [strtol] in base 0, for [%i]: [0x] starts hexadecimal digits, another [0]
    octal ones. *)
Definition digit_value (c : Z) : Z :=
  if isdigit c then c - 48
  else if (97 <=? c) && (c <=? 102) then c - 87
  else if (65 <=? c) && (c <=? 70) then c - 55
  else 99.

Fixpoint take_base (base : Z) (s : cstring) : cstring * cstring :=
  match s with
  | c :: s' => if digit_value c <? base then let (w, r) := take_base base s' in (c :: w, r) else ([], s)
  | [] => ([], [])
  end.

Definition base_value (base : Z) (ds : cstring) : Z :=
  fold_left (fun acc c => acc * base + digit_value c) ds 0.

Definition scan_auto (s : cstring) : option (Z * cstring) :=
  let (neg, s1) := take_sign s in
  let '(base, s2) := match s1 with
                     | c :: s' => if c =? 48 then
                         match s' with
                         | x :: s2 => if (x =? 120) || (x =? 88) then (16, s2) else (8, s1)
                         | [] => (8, s1)
                         end
                         else (10, s1)
                     | [] => (10, s1)
                     end in
  let (ds, r) := take_base base s2 in
  match ds with
  | [] => None
  | _ => Some ((if neg then - base_value base ds else base_value base ds), r)
  end.

Definition conv_auto (s : cstring) : conv :=
  match skip_space s with
  | [] => AtEnd
  | s1 => match scan_auto s1 with
          | None => NoMatch
          | Some (z, r) => if is_int z then Conv (VInt z) r else BadRange
          end
  end.

Definition conv_uint (s : cstring) : conv :=
  match skip_space s with
  | [] => AtEnd
  | s1 => match scan_dec s1 with
          | None => NoMatch
          | Some (z, r) => if (- 2 ^ 32 <? z) && (z <? 2 ^ 32) then Conv (VUInt (u32_of z)) r
                           else BadRange
          end
  end.

(** Decimal floating point text: digits with an optional point, and an
    exponent when the mark [e] is followed by a number. *)
Definition scan_exponent (s : cstring) : Z * cstring :=
  match s with
  | c :: s' => if (c =? 101) || (c =? 69)
               then match scan_dec s' with Some (z, r) => (z, r) | None => (0, s) end
               else (0, s)
  | [] => (0, [])
  end.

Definition scan_float (s : cstring) : option (Z * cstring) :=
  let (neg, s1) := take_sign s in
  let (ints, s2) := take_digits s1 in
  let (fracs, s3) := match s2 with
                     | c :: s2' => if c =? 46 then take_digits s2' else ([], s2)
                     | [] => ([], [])
                     end in
  match ints ++ fracs with
  | [] => None
  | ds => let (e, r) := scan_exponent s3 in
          let k := e - zlength fracs in
          Some (f32_of_ratio neg (scale10_num (dec_value ds) k) (scale10_den k), r)
  end.

Definition conv_float (s : cstring) : conv :=
  match skip_space s with
  | [] => AtEnd
  | s1 => match scan_float s1 with
          | None => NoMatch
          | Some (b, r) => Conv (VFloat b) r
          end
  end.

Definition conv_str (s : cstring) : conv :=
  match skip_space s with
  | [] => AtEnd
  | s1 => let (w, r) := take_word s1 in Conv (VStr w) r
  end.

(** [sscanf(input, fmt, ...)]: the returned count ([-1] is EOF) and the values
    stored so far, in the order of the arguments.  [all] is the whole input,
    [s] what is left of it and [cnt] the conversions done. *)
Fixpoint scanf_loop (all : cstring) (fmt s : cstring) (cnt : Z) (acc : list scanval)
  : res (Z * list scanval) :=
  match fmt with
  | [] => Ret (cnt, rev acc)
  | c :: fmt =>
      if isspace c then scanf_loop all fmt (skip_space s) cnt acc
      else if c =? chr_percent then
        match fmt with
        | [] => Ret (cnt, rev acc)
        | d :: fmt =>
            if d =? 110 (* n *) then
              scanf_loop all fmt s cnt (VPos (strlen all - strlen s) :: acc)
            else
              let r := if d =? 100 (* d *) then conv_int s
                       else if d =? 105 (* i *) then conv_auto s
                       else if d =? 117 (* u *) then conv_uint s
                       else if d =? 102 (* f *) then conv_float s
                       else if d =? 115 (* s *) then conv_str s
                       else NoMatch in
              match r with
              | Conv v rest => scanf_loop all fmt rest (cnt + 1) (v :: acc)
              | NoMatch => Ret (cnt, rev acc)
              | AtEnd => Ret (if cnt =? 0 then -1 else cnt, rev acc)
              | BadRange => Fault ScanOverflow
              end
        end
      else
        match s with
        | x :: s' => if x =? c then scanf_loop all fmt s' cnt acc else Ret (cnt, rev acc)
        | [] => Ret (if cnt =? 0 then -1 else cnt, rev acc)
        end
  end.

Definition sscanf (input fmt : cstring) : res (Z * list scanval) :=
  scanf_loop input fmt input 0 [].

(** *** [sprintf("%d")] *)
Fixpoint dec_digits (fuel : nat) (n : Z) (acc : cstring) : cstring :=
  match fuel with
  | O => acc
  | S fuel => if n <? 10 then (48 + n) :: acc
              else dec_digits fuel (n / 10) ((48 + n mod 10) :: acc)
  end.
(** Twenty digits are enough for every 64-bit value. *)
Definition print_dec (z : Z) : cstring :=
  if z <? 0 then 45 :: dec_digits 20 (- z) [] else dec_digits 20 z [].

(** [vsprintf(dst, fmt, args)] for the integer and string conversions of the
    command formats (a [double] comes as its text); a conversion without an argument of its type is a
    [BadFormat].  The result is the string written, without its terminator. *)
Fixpoint vsprintf (fmt : cstring) (args : list scanval) : res cstring :=
  match fmt with
  | [] => Ret []
  | c :: fmt =>
      if c =? chr_percent then
        match fmt, args with
        | d :: fmt, v :: args =>
            let text := match v with
                        | VInt z => if (d =? 100) || (d =? 105) then Some (print_dec z) else None
                        | VUInt z => if d =? 117 then Some (print_dec z) else None
                        | VStr s => if d =? 115 then Some s else None
                        | VPos _ => if d =? 110 then Some [] else None
                        | VFloat _ | VDouble _ => None
                        end in
            match text with
            | None =>
                match fmt, v with
                | e :: fmt, VDouble t =>
                    if (d =? 108) && (e =? 102) (* lf *) then
                      match vsprintf fmt args with
                      | Ret r => Ret (t ++ r)
                      | Fault f => Fault f
                      end
                    else Fault BadFormat
                | _, _ => Fault BadFormat
                end
            | Some w => match vsprintf fmt args with
                        | Ret r => Ret (w ++ r)
                        | Fault f => Fault f
                        end
            end
        | _, _ => Fault BadFormat
        end
      else match vsprintf fmt args with Ret r => Ret (c :: r) | Fault f => Fault f end
  end.

(** ** Lemmas *)
Lemma strcmp_eq a b : strcmp a b = 0 <-> a = b.
Proof.
  revert b. induction a as [|x a IH]; intros [|y b]; cbn; try (split; congruence || lia).
  destruct (x =? y) eqn:E; bool_to_prop.
  - subst. rewrite IH. split; congruence.
  - split; [lia | congruence].
Qed.

Lemma strcmp_refl a : strcmp a a = 0.
Proof. by apply strcmp_eq. Qed.

Lemma strcmp_neq a b : a <> b -> (strcmp a b =? 0) = false.
Proof. intros H. apply Z.eqb_neq. by rewrite strcmp_eq. Qed.

Lemma cstr_of_buf_nul s t : is_cstr s -> cstr_of_buf (s ++ 0 :: t) = Ret s.
Proof.
  induction s as [|c s IH]; intros H; [done|]. inversion H; subst. cbn.
  destruct (c =? 0) eqn:E; bool_to_prop; [lia|]. by rewrite IH.
Qed.

(** A buffer without a NUL is not a string. *)
Lemma cstr_of_buf_unterminated s : is_cstr s -> cstr_of_buf s = Fault Unterminated.
Proof.
  induction s as [|c s IH]; intros H; [done|]. inversion H; subst. cbn.
  destruct (c =? 0) eqn:E; bool_to_prop; [lia|]. by rewrite IH.
Qed.

Lemma strncpy_short s n :
  strlen s < n -> strncpy_bytes s n = s ++ 0 :: replicate (Z.to_nat (n - strlen s - 1)) 0.
Proof.
  unfold strlen, zlength, strncpy_bytes. intros H. rewrite take_app_ge by lia.
  f_equal. rewrite take_replicate.
  rewrite Nat.min_l by lia.
  replace (Z.to_nat n - length s)%nat with (S (Z.to_nat (n - Z.of_nat (length s) - 1))) by lia.
  done.
Qed.

(** [strncpy] of a string that does not fit leaves no terminator. *)
Lemma strncpy_long s n : 0 <= n <= strlen s -> strncpy_bytes s n = take (Z.to_nat n) s.
Proof. unfold strlen, zlength, strncpy_bytes. intros H. apply take_app_le. lia. Qed.

Lemma length_strncpy s n : 0 <= n -> zlength (strncpy_bytes s n) = n.
Proof.
  intros. unfold zlength, strncpy_bytes. rewrite length_take, length_app, length_replicate. lia.
Qed.

Lemma is_cstr_take n s : is_cstr s -> is_cstr (take n s).
Proof. apply Forall_take. Qed.
Lemma is_cstr_app a b : is_cstr (a ++ b) <-> is_cstr a /\ is_cstr b.
Proof. apply Forall_app. Qed.

(** A word: a non-empty string without white space. *)
Definition is_word (w : cstring) : Prop := w <> [] /\ Forall (fun c => isspace c = false) w.

#[export] Instance is_word_dec w : Decision (is_word w).
Proof. unfold is_word. apply _. Defined.

Lemma take_word_app w r :
  Forall (fun c => isspace c = false) w ->
  match r with [] => True | c :: _ => isspace c = true end ->
  take_word (w ++ r) = (w, r).
Proof.
  induction w as [|c w IH]; intros Hw Hr.
  - destruct r as [|c r]; cbn; [done|]. by rewrite Hr.
  - inversion Hw as [|? ? Hc Hw']; subst. cbn. by rewrite Hc, IH.
Qed.

Lemma skip_space_word c w : isspace c = false -> skip_space (c :: w) = c :: w.
Proof. cbn. by intros ->. Qed.

Lemma conv_str_word w r :
  is_word w -> match r with [] => True | c :: _ => isspace c = true end ->
  conv_str (w ++ r) = Conv (VStr w) r.
Proof.
  intros [Hne Hw] Hr. unfold conv_str. destruct w as [|c w]; [done|].
  inversion Hw as [|? ? Hc Hw']; subst.
  change ((c :: w) ++ r) with (c :: (w ++ r)). rewrite skip_space_word by done.
  change (c :: w ++ r) with ((c :: w) ++ r). by rewrite take_word_app.
Qed.

(** *** Printing an [int] and scanning it back *)
Lemma isdigit_dec_digits fuel n acc :
  0 <= n -> Forall (fun c => isdigit c = true) acc ->
  Forall (fun c => isdigit c = true) (dec_digits fuel n acc).
Proof.
  revert n acc. induction fuel as [|fuel IH]; intros n acc Hn Ha; cbn; [done|].
  destruct (n <? 10) eqn:E; bool_to_prop.
  - constructor; [|done]. unfold isdigit. rewrite andb_true_iff, !Z.leb_le. lia.
  - apply IH; [apply Z.div_pos; lia|]. constructor; [|done].
    pose proof (Z.mod_pos_bound n 10 ltac:(lia)).
    unfold isdigit. rewrite andb_true_iff, !Z.leb_le. lia.
Qed.

Lemma dec_value_from x ds :
  fold_left (fun acc c => acc * 10 + (c - 48)) ds x = x * 10 ^ zlength ds + dec_value ds.
Proof.
  unfold dec_value. revert x. induction ds as [|d ds IH]; intros x.
  - cbn. rewrite Z.mul_1_r. lia.
  - cbn [fold_left]. rewrite IH, (IH (0 * 10 + (d - 48))). unfold zlength. cbn [length].
    rewrite Nat2Z.inj_succ, Z.pow_succ_r by lia. lia.
Qed.

Lemma dec_value_cons d ds : dec_value (d :: ds) = (d - 48) * 10 ^ zlength ds + dec_value ds.
Proof. unfold dec_value at 1. cbn [fold_left]. rewrite dec_value_from. lia. Qed.

Lemma dec_value_digits fuel n acc :
  0 <= n < 10 ^ Z.of_nat fuel -> dec_value (dec_digits fuel n acc) = n * 10 ^ zlength acc + dec_value acc.
Proof.
  revert n acc. induction fuel as [|fuel IH]; intros n acc Hn.
  { change (10 ^ Z.of_nat 0) with 1 in Hn. assert (n = 0) as -> by lia. cbn [dec_digits]. lia. }
  cbn [dec_digits]. destruct (n <? 10) eqn:E; bool_to_prop.
  - rewrite dec_value_cons. f_equal. f_equal. lia.
  - rewrite IH.
    + rewrite dec_value_cons. unfold zlength. cbn [length].
      rewrite Nat2Z.inj_succ, Z.pow_succ_r by lia.
      pose proof (Z.div_mod n 10 ltac:(lia)). nia.
    + rewrite Nat2Z.inj_succ, Z.pow_succ_r in Hn by lia.
      split; [apply Z.div_pos; lia | apply Z.div_lt_upper_bound; lia].
Qed.

Lemma dec_digits_ne fuel n acc : fuel <> O -> dec_digits fuel n acc <> [].
Proof.
  revert n acc. induction fuel as [|fuel IH]; intros n acc Hf; [done|]. cbn.
  destruct (n <? 10); [done|]. destruct fuel; [done|]. by apply IH.
Qed.

Lemma take_digits_app ds r :
  Forall (fun c => isdigit c = true) ds ->
  match r with [] => True | c :: _ => isdigit c = false end ->
  take_digits (ds ++ r) = (ds, r).
Proof.
  induction ds as [|c ds IH]; intros Hw Hr.
  - destruct r as [|c r]; cbn; [done|]. by rewrite Hr.
  - inversion Hw as [|? ? Hc Hw']; subst. cbn. by rewrite Hc, IH.
Qed.

Lemma print_dec_cases z : INT_MIN <= z <= INT_MAX ->
  exists neg ds, print_dec z = (if (neg : bool) then 45 :: ds else ds) /\ ds <> [] /\
    Forall (fun c => isdigit c = true) ds /\ (if neg then - dec_value ds else dec_value ds) = z.
Proof.
  unfold INT_MIN, INT_MAX, print_dec. intros Hz.
  assert (forall n, 0 <= n <= 2147483648 -> dec_value (dec_digits 20 n []) = n) as Hv.
  { intros n Hn. rewrite dec_value_digits.
    - change (zlength []) with 0. change (dec_value []) with 0. lia.
    - change (10 ^ Z.of_nat 20) with 100000000000000000000. lia. }
  destruct (z <? 0) eqn:E; bool_to_prop.
  - exists true, (dec_digits 20 (- z) []). repeat split.
    + by apply dec_digits_ne.
    + apply isdigit_dec_digits; [lia|constructor].
    + rewrite Hv by lia. lia.
  - exists false, (dec_digits 20 z []). repeat split.
    + by apply dec_digits_ne.
    + apply isdigit_dec_digits; [lia|constructor].
    + by rewrite Hv by lia.
Qed.

Lemma isdigit_not_space c : isdigit c = true -> isspace c = false /\ c <> 45 /\ c <> 43.
Proof.
  unfold isdigit, isspace. intros H. bool_to_prop.
  split; [|lia]. rewrite orb_false_iff, andb_false_iff, Z.eqb_neq, !Z.leb_gt. lia.
Qed.

(** Scanning with [%d] what [%d] printed gives the number back, whatever
    non-digit follows. *)
Lemma conv_int_print z r :
  INT_MIN <= z <= INT_MAX -> match r with [] => True | c :: _ => isdigit c = false end ->
  conv_int (print_dec z ++ r) = Conv (VInt z) r.
Proof.
  intros Hz Hr. destruct (print_dec_cases z Hz) as (neg & ds & -> & Hne & Hd & Hv).
  assert (is_int z = true) as Hi
    by (unfold is_int, INT_MIN, INT_MAX in *; rewrite andb_true_iff, !Z.leb_le; lia).
  unfold conv_int, scan_dec. destruct neg.
  - cbn [app skip_space]. replace (isspace 45) with false by done. cbn [take_sign].
    change (45 =? 45) with true. cbn beta iota.
    rewrite take_digits_app by done. destruct ds; [done|]. by rewrite Hv, Hi.
  - destruct ds as [|d ds]; [done|]. pose proof (Forall_inv Hd) as Hd1.
    destruct (isdigit_not_space d Hd1) as (Hs & H1 & H2).
    cbn [app]. rewrite skip_space_word by done. cbn [take_sign].
    rewrite (proj2 (Z.eqb_neq d 45) H1), (proj2 (Z.eqb_neq d 43) H2).
    change (d :: ds ++ r) with ((d :: ds) ++ r). rewrite take_digits_app by done.
    by rewrite Hv, Hi.
Qed.

(** A positive number is printed without leading zeros. *)
Lemma dec_digits_head fuel n acc :
  0 < n < 10 ^ Z.of_nat fuel -> match dec_digits fuel n acc with [] => False | d :: _ => d <> 48 end.
Proof.
  revert n acc. induction fuel as [|fuel IH]; intros n acc Hn.
  { change (10 ^ Z.of_nat 0) with 1 in Hn. lia. }
  cbn [dec_digits]. destruct (n <? 10) eqn:E; bool_to_prop; [lia|].
  apply IH. rewrite Nat2Z.inj_succ, Z.pow_succ_r in Hn by lia.
  split; [apply Z.div_str_pos; lia|apply Z.div_lt_upper_bound; lia].
Qed.

Lemma take_base_digits ds r :
  Forall (fun c => isdigit c = true) ds -> match r with [] => True | c :: _ => c = chr_space end ->
  take_base 10 (ds ++ r) = (ds, r).
Proof.
  induction ds as [|c ds IH]; intros Hw Hr.
  - destruct r as [|c r]; cbn; [done|]. by subst.
  - inversion Hw as [|? ? Hc Hw']; subst. cbn [app take_base].
    assert ((digit_value c <? 10) = true) as ->; [|by rewrite IH].
    unfold digit_value. rewrite Hc. unfold isdigit in Hc. bool_to_prop. lia.
Qed.

Lemma base_value_digits ds : Forall (fun c => isdigit c = true) ds -> base_value 10 ds = dec_value ds.
Proof.
  unfold base_value, dec_value. generalize 0. induction ds as [|c ds IH]; intros x Hd; [done|].
  inversion Hd as [|? ? Hc Hd']; subst. cbn [fold_left]. rewrite IH by done.
  unfold digit_value. by rewrite Hc.
Qed.

Lemma scan_auto_digits n r :
  0 <= n <= 2147483648 -> match r with [] => True | c :: _ => c = chr_space end ->
  forall neg s, take_sign s = (neg, dec_digits 20 n [] ++ r) -> scan_auto s = Some ((if neg then - n else n), r).
Proof.
  intros Hn Hr neg s Hs. unfold scan_auto. rewrite Hs. destruct (decide (n = 0)) as [->|Hn0].
  { change (dec_digits 20 0 []) with [48]. cbn [app]. change (48 =? 48) with true. cbn iota.
    destruct r as [|c r]; [by destruct neg|]. subst c. by destruct neg. }
  pose proof (isdigit_dec_digits 20 n [] ltac:(lia) ltac:(constructor)) as Hd.
  pose proof (dec_digits_head 20 n [] ltac:(change (10 ^ Z.of_nat 20) with 100000000000000000000; lia)) as Hh.
  assert (dec_value (dec_digits 20 n []) = n) as Hv.
  { rewrite dec_value_digits by (change (10 ^ Z.of_nat 20) with 100000000000000000000; lia).
    change (zlength []) with 0. change (dec_value []) with 0. lia. }
  destruct (dec_digits 20 n []) as [|d ds]; [done|]. cbn [app]. rewrite (proj2 (Z.eqb_neq d 48) Hh).
  change (d :: ds ++ r) with ((d :: ds) ++ r). rewrite take_base_digits by done.
  by rewrite base_value_digits, Hv.
Qed.

Lemma conv_auto_print z r :
  INT_MIN <= z <= INT_MAX -> match r with [] => True | c :: _ => c = chr_space end ->
  conv_auto (print_dec z ++ r) = Conv (VInt z) r.
Proof.
  unfold INT_MIN, INT_MAX. intros Hz Hr.
  assert (is_int z = true) as Hi
    by (unfold is_int, INT_MIN, INT_MAX in *; rewrite andb_true_iff, !Z.leb_le; lia).
  unfold conv_auto, print_dec. destruct (z <? 0) eqn:E; bool_to_prop.
  - cbn [app skip_space]. replace (isspace 45) with false by done.
    rewrite (scan_auto_digits (- z) r ltac:(lia) Hr true) by done. by rewrite Z.opp_involutive, Hi.
  - pose proof (isdigit_dec_digits 20 z [] ltac:(lia) ltac:(constructor)) as Hd.
    pose proof (dec_digits_ne 20 z [] ltac:(done)) as Hne.
    pose proof (scan_auto_digits z r ltac:(lia) Hr false (dec_digits 20 z [] ++ r)) as Ha.
    destruct (dec_digits 20 z []) as [|d ds]; [done|].
    destruct (isdigit_not_space d (Forall_inv Hd)) as (Hs & H1 & H2).
    cbn [app] in *. rewrite skip_space_word by done. rewrite Ha; [by rewrite Hi|].
    cbn [take_sign]. by rewrite (proj2 (Z.eqb_neq d 45) H1), (proj2 (Z.eqb_neq d 43) H2).
Qed.

Lemma dec_digits_nonneg z : 0 <= z < 10 ^ 20 -> dec_value (dec_digits 20 z []) = z.
Proof.
  intros. rewrite dec_value_digits by (change (Z.of_nat 20) with 20; lia).
  change (zlength []) with 0. change (dec_value []) with 0. lia.
Qed.

Lemma length_dec_digits d : forall fuel n acc,
  0 <= n < 10 ^ Z.of_nat (Datatypes.S d) -> (length (dec_digits fuel n acc) <= length acc + Datatypes.S d)%nat.
Proof.
  induction d as [|d IH]; intros [|fuel] n acc Hn; cbn [dec_digits]; try lia.
  - change (10 ^ Z.of_nat 1) with 10 in Hn. rewrite (proj2 (Z.ltb_lt n 10)) by lia. cbn. lia.
  - destruct (n <? 10); [cbn; lia|].
    etrans; [apply IH|cbn [length]; lia]. replace (Z.of_nat (Datatypes.S (Datatypes.S d))) with (1 + Z.of_nat (Datatypes.S d)) in Hn by lia.
    rewrite Z.pow_add_r in Hn by lia. split; [apply Z.div_pos; lia|apply Z.div_lt_upper_bound; lia].
Qed.
Lemma length_print_int z : INT_MIN <= z <= INT_MAX -> (length (print_dec z) <= 11)%nat.
Proof.
  unfold INT_MIN, INT_MAX, print_dec. intros Hz. destruct (z <? 0) eqn:E; bool_to_prop; cbn [length].
  - pose proof (length_dec_digits 9 20 (- z) [] ltac:(lia)). cbn [length] in *. lia.
  - pose proof (length_dec_digits 9 20 z [] ltac:(lia)). cbn [length] in *. lia.
Qed.

(** A number that [%f] reads as a whole number, whatever follows that is not
    part of one. *)
Definition ends_number (r : cstring) : Prop :=
  match r with [] => True | c :: _ => isdigit c = false /\ c <> 46 /\ c <> 101 /\ c <> 69 end.

Lemma scan_float_print n r :
  - 2 ^ 31 <= n < 2 ^ 31 -> ends_number r ->
  scan_float (print_dec n ++ r) = Some (f32_of_ratio (n <? 0) (Z.abs n) 1, r).
Proof.
  intros Hn Hr. unfold print_dec, scan_float.
  assert (forall m, 0 <= m <= 2 ^ 31 ->
    take_digits (dec_digits 20 m [] ++ r) = (dec_digits 20 m [], r) /\ dec_digits 20 m [] <> [] /\
    dec_value (dec_digits 20 m []) = m /\
    (forall c s, dec_digits 20 m [] = c :: s -> c <> 45 /\ c <> 43)) as Hd.
  { intros m Hm. pose proof (isdigit_dec_digits 20 m [] ltac:(lia) ltac:(constructor)) as Hf.
    split; [|split; [by apply dec_digits_ne|split; [by apply dec_digits_nonneg; lia|]]].
    - apply take_digits_app; [done|]. destruct r; [done|apply Hr].
    - intros c s E. rewrite E in Hf. apply isdigit_not_space, (Forall_inv Hf). }
  assert (match r with c :: s2' => if c =? 46 then take_digits s2' else ([], r) | [] => ([], []) end = ([], r)) as Hp.
  { destruct r as [|c r]; [done|]. destruct Hr as (_ & H & _). by rewrite (proj2 (Z.eqb_neq c 46) H). }
  assert (scan_exponent r = (0, r)) as He.
  { destruct r as [|c r]; [done|]. destruct Hr as (_ & _ & H1 & H2). cbn [scan_exponent].
    by rewrite (proj2 (Z.eqb_neq c 101) H1), (proj2 (Z.eqb_neq c 69) H2). }
  destruct (n <? 0) eqn:E; bool_to_prop.
  - destruct (Hd (- n) ltac:(lia)) as (Ht & Hne & Hv & _). cbn [take_sign Z.eqb Pos.eqb app].
    rewrite Ht. destruct (dec_digits 20 (- n) []) as [|c s] eqn:Ed; [done|].
    rewrite Hp, app_nil_r, He. rewrite Hv. change (zlength (@nil Z)) with 0.
    unfold scale10_num, scale10_den. change (0 <=? 0 - 0) with true. change (10 ^ (0 - 0)) with 1.
    rewrite Z.mul_1_r, Z.abs_neq by lia. done.
  - destruct (Hd n ltac:(lia)) as (Ht & Hne & Hv & Hs).
    destruct (dec_digits 20 n []) as [|c s] eqn:Ed; [done|]. destruct (Hs c s eq_refl) as [H1 H2].
    cbn [take_sign app] in *. rewrite (proj2 (Z.eqb_neq c 45) H1), (proj2 (Z.eqb_neq c 43) H2).
    rewrite Ht, Hp, app_nil_r, He, Hv. change (zlength (@nil Z)) with 0.
    unfold scale10_num, scale10_den. change (0 <=? 0 - 0) with true. change (10 ^ (0 - 0)) with 1.
    rewrite Z.mul_1_r, Z.abs_eq by lia. done.
Qed.

Lemma conv_float_print n r : - 2 ^ 31 <= n < 2 ^ 31 -> ends_number r ->
  conv_float (print_dec n ++ r) = Conv (VFloat (f32_of_ratio (n <? 0) (Z.abs n) 1)) r.
Proof.
  intros Hn Hr. unfold conv_float. pose proof (scan_float_print n r Hn Hr) as Hf.
  destruct (print_dec_cases n) as (neg & ds & E & Hne & Hd & _); [unfold INT_MIN, INT_MAX; lia|].
  rewrite E in *. destruct neg.
  - cbn [app] in *. cbn [skip_space]. replace (isspace 45) with false by done. by rewrite Hf.
  - destruct ds as [|d ds]; [done|]. destruct (isdigit_not_space d (Forall_inv Hd)) as (Hs & _).
    cbn [app] in *. rewrite skip_space_word by done. by rewrite Hf.
Qed.

(** *** Formats: [%d], [%i], [%u] and [%s] separated by single spaces *)
Inductive kind := KInt | KAuto | KUInt | KStr.
Definition kind_fmt (k : kind) : cstring :=
  match k with
  | KInt => [chr_percent; 100] (* %d *)
  | KAuto => [chr_percent; 105] (* %i *)
  | KUInt => [chr_percent; 117] (* %u *)
  | KStr => [chr_percent; 115] (* %s *)
  end.
Fixpoint kinds_fmt (ks : list kind) : cstring :=
  match ks with
  | [] => []
  | [k] => kind_fmt k
  | k :: ks => kind_fmt k ++ chr_space :: kinds_fmt ks
  end.

(** A value that the conversion prints and scans back. *)
Definition kind_val (k : kind) (v : scanval) : Prop :=
  match k, v with
  | KInt, VInt z | KAuto, VInt z => INT_MIN <= z <= INT_MAX
  | KUInt, VUInt z => 0 <= z < 2 ^ 32
  | KStr, VStr s => is_word s /\ is_cstr s
  | _, _ => False
  end.
Definition val_text (v : scanval) : cstring :=
  match v with VInt z | VUInt z => print_dec z | VStr s => s | VPos _ | VFloat _ | VDouble _ => [] end.
Fixpoint vals_text (vs : list scanval) : cstring :=
  match vs with
  | [] => []
  | [v] => val_text v
  | v :: vs => val_text v ++ chr_space :: vals_text vs
  end.

Lemma vsprintf_kinds ks vs :
  Forall2 kind_val ks vs -> vsprintf (kinds_fmt ks) vs = Ret (vals_text vs).
Proof.
  induction 1 as [|k v ks vs Hk Hks IH]; [done|].
  destruct Hks as [|k2 v2 ks vs Hk2 Hks].
  - destruct k, v; cbn in Hk; try done; cbn -[print_dec]; rewrite ?app_nil_r; done.
  - change (vals_text (v :: v2 :: vs)) with (val_text v ++ chr_space :: vals_text (v2 :: vs)).
    change (kinds_fmt (k :: k2 :: ks)) with (kind_fmt k ++ chr_space :: kinds_fmt (k2 :: ks)).
    destruct k, v; cbn in Hk; try done;
      cbn -[kinds_fmt vals_text print_dec]; rewrite IH; done.
Qed.

Lemma conv_uint_print z r :
  0 <= z < 2 ^ 32 -> match r with [] => True | c :: _ => isdigit c = false end ->
  conv_uint (print_dec z ++ r) = Conv (VUInt z) r.
Proof.
  intros Hz Hr. unfold print_dec. destruct (z <? 0) eqn:E; bool_to_prop; [lia|].
  pose proof (isdigit_dec_digits 20 z [] ltac:(lia) ltac:(constructor)) as Hd.
  pose proof (dec_digits_ne 20 z [] ltac:(done)) as Hne.
  pose proof (dec_digits_nonneg z ltac:(lia)) as Hv.
  destruct (dec_digits 20 z []) as [|d ds]; [done|].
  destruct (isdigit_not_space d (Forall_inv Hd)) as (Hs & H1 & H2).
  unfold conv_uint, scan_dec. cbn [app]. rewrite skip_space_word by done. cbn [take_sign].
  rewrite (proj2 (Z.eqb_neq d 45) H1), (proj2 (Z.eqb_neq d 43) H2).
  change (d :: ds ++ r) with ((d :: ds) ++ r). rewrite take_digits_app by done.
  rewrite Hv. rewrite (proj2 (Z.ltb_lt _ _)), (proj2 (Z.ltb_lt z _)) by lia.
  by rewrite u32_of_id.
Qed.

(** What follows a field: the end or a space. *)
Definition field_end (r : cstring) : Prop :=
  match r with [] => True | c :: _ => c = chr_space end.

Lemma conv_field k v r :
  kind_val k v -> field_end r ->
  (match k with KInt => conv_int | KAuto => conv_auto | KUInt => conv_uint | KStr => conv_str end) (val_text v ++ r)
    = Conv v r.
Proof.
  intros Hk Hr. destruct k, v; cbn in Hk; try done; cbn [val_text].
  - apply conv_int_print; [done|]. destruct r; [done|]. cbn in Hr. by subst.
  - by apply conv_auto_print.
  - apply conv_uint_print; [done|]. destruct r; [done|]. cbn in Hr. by subst.
  - apply conv_str_word; [apply Hk|]. destruct r; [done|]. cbn in Hr. by subst.
Qed.

Lemma scanf_field all k v r fmt cnt acc :
  kind_val k v -> field_end r ->
  scanf_loop all (kind_fmt k ++ fmt) (val_text v ++ r) cnt acc =
  scanf_loop all fmt r (cnt + 1) (v :: acc).
Proof.
  intros Hk Hr. pose proof (conv_field k v r Hk Hr) as E.
  destruct k; cbn -[val_text]; by rewrite E.
Qed.

Lemma kind_val_head k v : kind_val k v -> exists c w, val_text v = c :: w /\ isspace c = false.
Proof.
  destruct k, v; cbn; try done; intros H.
  1-2: destruct (print_dec_cases z H) as (neg & ds & E & Hne & Hd & _);
    rewrite E; destruct neg; [by exists 45, ds|]; destruct ds as [|d ds]; [done|];
    exists d, ds; split; [done|]; by apply isdigit_not_space, (Forall_inv Hd).
  - unfold print_dec. destruct (z <? 0) eqn:Ez; bool_to_prop; [lia|].
    pose proof (isdigit_dec_digits 20 z [] ltac:(lia) ltac:(constructor)) as Hd.
    pose proof (dec_digits_ne 20 z [] ltac:(done)) as Hne.
    destruct (dec_digits 20 z []) as [|d ds]; [done|].
    exists d, ds. split; [done|]. by apply isdigit_not_space, (Forall_inv Hd).
  - destruct H as [[Hne Hw] _]. destruct s as [|c s]; [done|]. exists c, s. split; [done|].
    by apply (Forall_inv Hw).
Qed.

(** The fields of a format, followed by the rest of a format. *)
Lemma scanf_kinds_app all ks vs fmt r cnt acc :
  Forall2 kind_val ks vs -> field_end r ->
  scanf_loop all (kinds_fmt ks ++ fmt) (vals_text vs ++ r) cnt acc =
  scanf_loop all fmt r (cnt + zlength vs) (rev vs ++ acc).
Proof.
  intros H Hr. revert cnt acc. induction H as [|k v ks vs Hk Hks IH]; intros cnt acc.
  { cbn. by rewrite Z.add_0_r. }
  assert (cnt + zlength (v :: vs) = cnt + 1 + zlength vs) as -> by (unfold zlength; cbn; lia).
  cbn [rev]. rewrite <- app_assoc. cbn [app]. destruct Hks as [|k2 v2 ks vs Hk2 Hks].
  - cbn [kinds_fmt vals_text]. rewrite scanf_field by done. unfold zlength. cbn. f_equal. lia.
  - change (vals_text (v :: v2 :: vs)) with (val_text v ++ chr_space :: vals_text (v2 :: vs)).
    change (kinds_fmt (k :: k2 :: ks)) with (kind_fmt k ++ chr_space :: kinds_fmt (k2 :: ks)).
    rewrite <- !app_assoc. rewrite scanf_field by done. rewrite <- IH.
    destruct (kind_val_head k2 v2 Hk2) as (c & w & Hv2 & Hc).
    assert (exists t, vals_text (v2 :: vs) = c :: t) as [t Ht].
    { destruct vs; cbn [vals_text]; rewrite Hv2; eauto. }
    rewrite Ht. cbn [app scanf_loop]. replace (isspace chr_space) with true by done.
    cbn [skip_space]. replace (isspace chr_space) with true by done. by rewrite Hc.
Qed.

Lemma scanf_kinds all ks vs cnt acc :
  Forall2 kind_val ks vs ->
  scanf_loop all (kinds_fmt ks) (vals_text vs) cnt acc = Ret (cnt + zlength vs, rev acc ++ vs).
Proof.
  intros H. pose proof (scanf_kinds_app all ks vs [] [] cnt acc H I) as E. rewrite !app_nil_r in E.
  rewrite E. cbn. by rewrite rev_app_distr, rev_involutive.
Qed.

(** The text after the fields: nothing, or a space and a rest that starts
    with another character. *)
Definition tail_text (rest : cstring) : cstring :=
  match rest with [] => [] | _ => chr_space :: rest end.
Definition no_lead (rest : cstring) : Prop :=
  match rest with [] => True | c :: _ => isspace c = false end.

(** Fields followed by [ %n]: the position of the rest. *)
Lemma sscanf_kinds_rest ks vs rest (trail : bool) :
  Forall2 kind_val ks vs -> no_lead rest ->
  sscanf (vals_text vs ++ tail_text rest)
         (kinds_fmt ks ++ [chr_space; chr_percent; 110] ++ (if trail then [chr_space] else [])) =
  Ret (zlength vs, vs ++ [VPos (strlen (vals_text vs ++ tail_text rest) - strlen rest)]).
Proof.
  intros H Hl. unfold sscanf. rewrite scanf_kinds_app; [|done|by destruct rest].
  cbn [app scanf_loop]. replace (isspace chr_space) with true by done.
  assert (skip_space (tail_text rest) = rest) as Hs.
  { destruct rest as [|c rest]; [done|]. cbn [tail_text skip_space].
    replace (isspace chr_space) with true by done. cbn in Hl. by rewrite Hl. }
  rewrite Hs. replace (isspace chr_percent) with false by done. rewrite Z.eqb_refl.
  cbn [Z.eqb Pos.eqb]. rewrite app_nil_r.
  destruct trail; cbn [scanf_loop]; replace (isspace chr_space) with true by done;
    cbn [rev]; rewrite rev_involutive; done.
Qed.

Lemma is_cstr_print_dec z : - 10 ^ 20 < z < 10 ^ 20 -> is_cstr (print_dec z).
Proof.
  intros Hz. assert (forall n, 0 <= n -> is_cstr (dec_digits 20 n [])) as H.
  { intros n Hn. pose proof (isdigit_dec_digits 20 n [] Hn ltac:(constructor)) as Hd.
    eapply Forall_impl; [exact Hd|]. cbn. intros c Hc. unfold isdigit in Hc. bool_to_prop. lia. }
  unfold print_dec. destruct (z <? 0) eqn:E; bool_to_prop; [|by apply H].
  constructor; [lia|]. apply H. lia.
Qed.

Lemma is_cstr_vals_text ks vs : Forall2 kind_val ks vs -> is_cstr (vals_text vs).
Proof.
  assert (forall k v, kind_val k v -> is_cstr (val_text v)) as Hv.
  { intros [] []; cbn -[Z.pow]; try done; unfold INT_MIN, INT_MAX; intros H;
      [apply is_cstr_print_dec; lia..|apply H]. }
  induction 1 as [|k v ks vs Hk Hks IH]; [constructor|].
  destruct Hks; [by apply (Hv k)|]. cbn [vals_text]. apply is_cstr_app. split; [by apply (Hv k)|].
  constructor; [unfold chr_space; lia|done].
Qed.

(** Printing values with a format and scanning the text with the same format
    gives the values back. *)
Lemma sscanf_vsprintf ks vs :
  Forall2 kind_val ks vs ->
  exists txt, vsprintf (kinds_fmt ks) vs = Ret txt /\ sscanf txt (kinds_fmt ks) = Ret (zlength vs, vs).
Proof.
  intros H. exists (vals_text vs). split; [by apply vsprintf_kinds|].
  unfold sscanf. by rewrite scanf_kinds.
Qed.

Example sscanf_cmd : sscanf (cs "obc_reset 1") (cs "%s %n") = Ret (1, [VStr (cs "obc_reset"); VPos 10]).
Proof. reflexivity. Qed.
Example sscanf_eof : sscanf (cs "   ") (cs "%s %n") = Ret (-1, []).
Proof. reflexivity. Qed.
Example sscanf_ints : sscanf (cs "12 -7") (cs "%d %d") = Ret (2, [VInt 12; VInt (-7)]).
Proof. reflexivity. Qed.
Example sscanf_auto : sscanf (cs "0x1F -010 9") (cs "%i %i %i") = Ret (3, [VInt 31; VInt (-8); VInt 9]).
Proof. reflexivity. Qed.
Example sscanf_float : sscanf (cs "6 -2.5e1") (cs "%d %f") = Ret (2, [VInt 6; VFloat 0xC1C80000]).
Proof. reflexivity. Qed.
Example strtok_ex : strtok_all 59 (cs ";help;;ping 1") = [cs "help"; cs "ping 1"].
Proof. reflexivity. Qed.
