(* ===== verification/OsQueue.v ===== *)
(** * The operating system layer: queues, semaphores and delays

    [src/os/linux/pthread_queue.c] (the ring buffer behind [osQueueSend] and
    [osQueueReceive]), the deadline arithmetic it shares with
    [src/os/linux/osSemphr.c], and the tick arithmetic of
    [src/os/linux/osDelay.c] and [src/os/sim/osDelay.c].

    The two functions of the queue are given statement by statement, with the
    mutex and the condition variables of pthreads; any number of threads call
    them.  A wait may end at any time with any result, so the deadline that
    [clock_gettime] and the timeout give ([queue_deadline]) is not part of the
    threads' state. *)
From S2P Require Import Prelude.

(** ** Deadlines *)
Module Deadline.

(** [struct timespec] *)
Record timespec := Ts { tv_sec : Z; tv_nsec : Z }.

Definition portMAX_DELAY : Z := 4294967295.

(** The seconds and nanoseconds of a timeout in milliseconds ([uint32_t]). *)
Definition timeout_sec (timeout : Z) : Z := timeout / 1000.
Definition timeout_nsec (timeout : Z) : Z :=
  u32_of (u32_of (timeout - 1000 * timeout_sec timeout) * 1000000).

(** The absolute deadline of [os_pthread_queue_send] and [_receive]. *)
Definition queue_deadline (now : timespec) (timeout : Z) : timespec :=
  let nsec := timeout_nsec timeout in
  let s := tv_sec now + timeout_sec timeout in
  let s := if 1000000000 <? tv_nsec now + nsec then s + 1 else s in
  Ts s ((tv_nsec now + nsec) mod 1000000000).

(** The absolute deadline of [osSemaphoreTake]. *)
Definition sem_deadline (now : timespec) (timeout : Z) : timespec :=
  let nsec := timeout_nsec timeout in
  let s := tv_sec now + timeout_sec timeout in
  let s := if 1000000000 <=? tv_nsec now + nsec then s + 1 else s in
  Ts s ((tv_nsec now + nsec) mod 1000000000).

Definition nanos (t : timespec) : Z := tv_sec t * 1000000000 + tv_nsec t.
Definition valid_ts (t : timespec) : Prop := 0 <= tv_nsec t < 1000000000.

Definition OS_SEMAPHORE_OK : Z := 1.
Definition OS_SEMAPHORE_ERROR : Z := 2.

(** [osSemaphoreTake]: [lock d] is the return code of [pthread_mutex_lock]
    ([d = None]) or of [pthread_mutex_timedlock] with deadline [d]; [clock] is
    the result of [clock_gettime]. *)
Definition osSemaphoreTake (lock : option timespec -> Z) (clock : option timespec) (timeout : Z) : Z :=
  let taken r := if negb (r =? 0) then OS_SEMAPHORE_ERROR else OS_SEMAPHORE_OK in
  if timeout =? portMAX_DELAY then taken (lock None)
  else match clock with
       | None => OS_SEMAPHORE_ERROR
       | Some now => taken (lock (Some (sem_deadline now timeout)))
       end.

Lemma timeout_split timeout : 0 <= timeout < 2 ^ 32 ->
  timeout_sec timeout * 1000000000 + timeout_nsec timeout = timeout * 1000000 /\
  0 <= timeout_nsec timeout < 1000000000.
Proof.
  intros H. unfold timeout_nsec, timeout_sec.
  pose proof (Z.div_mod timeout 1000 ltac:(lia)).
  pose proof (Z.mod_pos_bound timeout 1000 ltac:(lia)).
  rewrite (u32_of_id (timeout - _)) by lia. rewrite u32_of_id by lia. lia.
Qed.

Lemma mod_once x n : 0 <= x < 2 * n -> x mod n = if n <=? x then x - n else x.
Proof.
  intros H. destruct (n <=? x) eqn:E; bool_to_prop.
  - replace x with ((x - n) + 1 * n) at 1 by lia. rewrite Z.mod_add by lia. apply Z.mod_small. lia.
  - apply Z.mod_small. lia.
Qed.

(** The semaphore's deadline is the current time plus the timeout. *)
Lemma sem_deadline_exact now timeout :
  valid_ts now -> 0 <= timeout < 2 ^ 32 ->
  nanos (sem_deadline now timeout) = nanos now + timeout * 1000000 /\
  valid_ts (sem_deadline now timeout).
Proof.
  unfold valid_ts, nanos, sem_deadline. intros Hn Ht.
  destruct (timeout_split timeout Ht) as [E B]. cbn [tv_sec tv_nsec].
  rewrite mod_once by lia.
  destruct (1000000000 <=? tv_nsec now + timeout_nsec timeout) eqn:C; bool_to_prop; lia.
Qed.

(** The queue's deadline is exact except when the nanoseconds add up to one
    second exactly: then it is one second too early. *)
Lemma queue_deadline_value now timeout :
  valid_ts now -> 0 <= timeout < 2 ^ 32 ->
  nanos (queue_deadline now timeout) =
    nanos now + timeout * 1000000 -
    (if tv_nsec now + timeout_nsec timeout =? 1000000000 then 1000000000 else 0).
Proof.
  unfold valid_ts, nanos, queue_deadline. intros Hn Ht.
  destruct (timeout_split timeout Ht) as [E B]. cbn [tv_sec tv_nsec].
  rewrite mod_once by lia.
  destruct (1000000000 <? tv_nsec now + timeout_nsec timeout) eqn:C,
    (1000000000 <=? tv_nsec now + timeout_nsec timeout) eqn:C2,
    (tv_nsec now + timeout_nsec timeout =? 1000000000) eqn:C3; bool_to_prop; lia.
Qed.

End Deadline.

(** ** The ring buffer *)
Module Queue.

Definition PTHREAD_QUEUE_ERROR : Z := 0.
Definition PTHREAD_QUEUE_EMPTY : Z := 0.
Definition PTHREAD_QUEUE_FULL : Z := 0.
Definition PTHREAD_QUEUE_OK : Z := 1.

Section queue.
Context {A : Type}.

(** [os_pthread_queue_t]; a slot that was never written holds no item. *)
Record os_pthread_queue_t := Q {
  q_buffer : list (option A);
  q_size : Z;
  q_items : Z;
  q_in : Z;
  q_out : Z
}.

Definition os_pthread_queue_create (malloc_ok buffer_ok init_ok : bool) (length : Z)
  : option os_pthread_queue_t :=
  if malloc_ok then
    if buffer_ok then
      if init_ok then Some (Q (replicate (Z.to_nat length) None) length 0 0 0) else None
    else None
  else None.

(** *** The statements on the buffer

    In [os_pthread_queue_send]: copy the item in, count it, advance [in]. *)
Definition copy_in (q : os_pthread_queue_t) (v : A) : res os_pthread_queue_t :=
  match zlookup (q_buffer q) (q_in q) with
  | None => Fault OutOfBounds
  | Some _ => Ret (Q (zinsert (q_buffer q) (q_in q) (Some v)) (q_size q) (q_items q) (q_in q) (q_out q))
  end.
Definition count_in (q : os_pthread_queue_t) : os_pthread_queue_t :=
  Q (q_buffer q) (q_size q) (q_items q + 1) (q_in q) (q_out q).
Definition advanced_in (q : os_pthread_queue_t) : os_pthread_queue_t :=
  Q (q_buffer q) (q_size q) (q_items q) (Z.rem (q_in q + 1) (q_size q)) (q_out q).
Definition advance_in (q : os_pthread_queue_t) : res os_pthread_queue_t :=
  if q_size q =? 0 then Fault DivByZero else Ret (advanced_in q).

(** In [os_pthread_queue_receive]: copy the item out, count, advance [out]. *)
Definition copy_out (q : os_pthread_queue_t) : res A :=
  match zlookup (q_buffer q) (q_out q) with
  | None => Fault OutOfBounds
  | Some None => Fault Uninitialized
  | Some (Some v) => Ret v
  end.
Definition count_out (q : os_pthread_queue_t) : os_pthread_queue_t :=
  Q (q_buffer q) (q_size q) (q_items q - 1) (q_in q) (q_out q).
Definition advanced_out (q : os_pthread_queue_t) : os_pthread_queue_t :=
  Q (q_buffer q) (q_size q) (q_items q) (q_in q) (Z.rem (q_out q + 1) (q_size q)).
Definition advance_out (q : os_pthread_queue_t) : res os_pthread_queue_t :=
  if q_size q =? 0 then Fault DivByZero else Ret (advanced_out q).

(** *** The two functions, statement by statement

    Where a call stands: before [clock_gettime], before [pthread_mutex_lock], at
    the test of the [while], before and inside [pthread_cond_timedwait], woken
    with the result [ret] but without the mutex yet, at the test of [ret], before
    the [return] of a failed wait, at the four statements after the loop, and
    before the broadcast; [got] is what a receiver has copied. *)
Inductive cond := cond_full | cond_empty.
#[local] Instance cond_eq_dec : EqDecision cond.
Proof. solve_decision. Defined.
Inductive place :=
  | AtClock | AtLock | AtTest | AtWait | Waiting (c : cond) | Woken (ret : Z) | AtCheck (ret : Z) | AtGiveUp
  | AtCopy | AtCount (got : option A) | AtAdvance (got : option A) | AtUnlock (got : option A)
  | AtNotify (got : option A).

(** What the next statement does: read the clock, take the mutex, change the
    queue or nothing, give the mutex (a wait gives it too), sleep, give the mutex
    and return, or broadcast and return. *)
Inductive effect :=
  | Clock
  | Acquire (p : place)
  | Move (p : place) (q : os_pthread_queue_t)
  | Release (p : place)
  | Sleep
  | Leave (rc : Z) (got : option A)
  | Notify (c : cond) (rc : Z) (got : option A).

Definition os_pthread_queue_send (value : A) (p : place) (queue : os_pthread_queue_t) : res effect :=
  match p with
  | AtClock => Ret Clock
  | AtLock => Ret (Acquire AtTest)
  | AtTest => Ret (Move (if q_items queue =? q_size queue then AtWait else AtCopy) queue)
  | AtWait => Ret (Release (Waiting cond_full))
  | Waiting _ => Ret Sleep
  | Woken ret => Ret (Acquire (AtCheck ret))
  | AtCheck ret => Ret (Move (if negb (ret =? 0) then AtGiveUp else AtTest) queue)
  | AtGiveUp => Ret (Leave PTHREAD_QUEUE_FULL None)
  | AtCopy => match copy_in queue value with Ret q => Ret (Move (AtCount None) q) | Fault f => Fault f end
  | AtCount got => Ret (Move (AtAdvance got) (count_in queue))
  | AtAdvance got => match advance_in queue with Ret q => Ret (Move (AtUnlock got) q) | Fault f => Fault f end
  | AtUnlock got => Ret (Release (AtNotify got))
  | AtNotify got => Ret (Notify cond_empty PTHREAD_QUEUE_OK got)
  end.

Definition os_pthread_queue_receive (p : place) (queue : os_pthread_queue_t) : res effect :=
  match p with
  | AtClock => Ret Clock
  | AtLock => Ret (Acquire AtTest)
  | AtTest => Ret (Move (if q_items queue =? 0 then AtWait else AtCopy) queue)
  | AtWait => Ret (Release (Waiting cond_empty))
  | Waiting _ => Ret Sleep
  | Woken ret => Ret (Acquire (AtCheck ret))
  | AtCheck ret => Ret (Move (if negb (ret =? 0) then AtGiveUp else AtTest) queue)
  | AtGiveUp => Ret (Leave PTHREAD_QUEUE_EMPTY None)
  | AtCopy => match copy_out queue with Ret v => Ret (Move (AtCount (Some v)) queue) | Fault f => Fault f end
  | AtCount got => Ret (Move (AtAdvance got) (count_out queue))
  | AtAdvance got => match advance_out queue with Ret q => Ret (Move (AtUnlock got) q) | Fault f => Fault f end
  | AtUnlock got => Ret (Release (AtNotify got))
  | AtNotify got => Ret (Notify cond_full PTHREAD_QUEUE_OK got)
  end.

(** *** Threads

    A thread makes its calls one after the other; each result is a return code
    and, for a receiver, the item. *)
Inductive call := Send (v : A) | Receive.
Definition code (c : call) : place -> os_pthread_queue_t -> res effect :=
  match c with Send v => os_pthread_queue_send v | Receive => os_pthread_queue_receive end.

Record thread := Thread {
  th_calls : list call;
  th_place : place;
  th_results : list (call * (Z * option A))
}.
Definition goto (p : place) (t : thread) : thread := Thread (th_calls t) p (th_results t).
Definition return_ (rc : Z) (got : option A) (t : thread) : thread :=
  match th_calls t with
  | [] => t
  | c :: cs => Thread cs AtClock (th_results t ++ [(c, (rc, got))])
  end.

(** [pthread_cond_broadcast] *)
Definition wake (c : cond) (t : thread) : thread :=
  match th_place t with
  | Waiting c' => if bool_decide (c' = c) then goto (Woken 0) t else t
  | _ => t
  end.

(** The queue with its mutex and the threads; [qs_sent] and [qs_recv] log the
    items that were copied in and out, with the thread. *)
Record qsys := QSys {
  qs_queue : os_pthread_queue_t;
  qs_mutex : option nat;
  qs_threads : list thread;
  qs_sent : list (nat * A);
  qs_recv : list (nat * A)
}.
Definition log_in (i : nat) (c : call) (p : place) : list (nat * A) :=
  match c, p with Send v, AtCopy => [(i, v)] | _, _ => [] end.
Definition log_out (i : nat) (c : call) (p p' : place) : list (nat * A) :=
  match c, p, p' with Receive, AtCopy, AtCount (Some x) => [(i, x)] | _, _, _ => [] end.

(** The call that thread [i] is making, and what its next statement does. *)
Definition next_of (s : qsys) (i : nat) (t : thread) (c : call) (r : res effect) : Prop :=
  qs_threads s !! i = Some t /\ head (th_calls t) = Some c /\ code c (th_place t) (qs_queue s) = r.

(** A wait can end at any time: by the broadcast, by the deadline or for no
    reason, with any result. *)
Inductive qstep : qsys -> qsys -> Prop :=
  | step_clock s i t c : next_of s i t c (Ret Clock) ->
      qstep s (QSys (qs_queue s) (qs_mutex s) (<[i := goto AtLock t]> (qs_threads s)) (qs_sent s) (qs_recv s))
  | step_no_clock s i t c : next_of s i t c (Ret Clock) ->
      qstep s (QSys (qs_queue s) (qs_mutex s) (<[i := return_ PTHREAD_QUEUE_ERROR None t]> (qs_threads s)) (qs_sent s) (qs_recv s))
  | step_acquire s i t c p : next_of s i t c (Ret (Acquire p)) -> qs_mutex s = None ->
      qstep s (QSys (qs_queue s) (Some i) (<[i := goto p t]> (qs_threads s)) (qs_sent s) (qs_recv s))
  | step_move s i t c p q : next_of s i t c (Ret (Move p q)) ->
      qstep s (QSys q (qs_mutex s) (<[i := goto p t]> (qs_threads s))
        (qs_sent s ++ log_in i c (th_place t)) (qs_recv s ++ log_out i c (th_place t) p))
  | step_release s i t c p : next_of s i t c (Ret (Release p)) ->
      qstep s (QSys (qs_queue s) None (<[i := goto p t]> (qs_threads s)) (qs_sent s) (qs_recv s))
  | step_wake_up s i t c ret : next_of s i t c (Ret Sleep) ->
      qstep s (QSys (qs_queue s) (qs_mutex s) (<[i := goto (Woken ret) t]> (qs_threads s)) (qs_sent s) (qs_recv s))
  | step_leave s i t c rc got : next_of s i t c (Ret (Leave rc got)) ->
      qstep s (QSys (qs_queue s) None (<[i := return_ rc got t]> (qs_threads s)) (qs_sent s) (qs_recv s))
  | step_notify s i t c cnd rc got : next_of s i t c (Ret (Notify cnd rc got)) ->
      qstep s (QSys (qs_queue s) (qs_mutex s) (<[i := return_ rc got t]> (wake cnd <$> qs_threads s)) (qs_sent s) (qs_recv s)).

Definition qs_start (q : os_pthread_queue_t) (callss : list (list call)) : qsys :=
  QSys q None ((fun cs => Thread cs AtClock []) <$> callss) [] [].

(** *** The abstract queue: a list, oldest item first *)
Definition repr (q : os_pthread_queue_t) (l : list A) : Prop :=
  0 < q_size q /\ zlength (q_buffer q) = q_size q /\
  q_items q = zlength l /\ zlength l <= q_size q /\
  0 <= q_out q < q_size q /\
  q_in q = (q_out q + q_items q) mod q_size q /\
  forall k x, zlookup l k = Some x ->
    zlookup (q_buffer q) ((q_out q + k) mod q_size q) = Some (Some x).

Lemma zlookup_snoc (l : list A) v k x :
  zlookup (l ++ [v]) k = Some x ->
  zlookup l k = Some x \/ (k = zlength l /\ x = v).
Proof.
  unfold zlookup, zlength. destruct (k <? 0) eqn:E; bool_to_prop; [done|].
  intros H. apply lookup_app_Some in H as [H|[H1 H2]]; [by left|right].
  apply list_lookup_singleton_Some in H2 as [H2 ->]. split; [lia|done].
Qed.

Lemma zlookup_tail (x : A) l k y : zlookup l k = Some y -> zlookup (x :: l) (k + 1) = Some y.
Proof.
  intros H. pose proof (zlookup_Some_lt _ _ _ H). unfold zlookup in *.
  destruct (k <? 0) eqn:?, (k + 1 <? 0) eqn:?; bool_to_prop; try lia.
  replace (Z.to_nat (k + 1)) with (S (Z.to_nat k)) by lia. done.
Qed.

Lemma mod_add_inj a i j n :
  0 < n -> 0 <= i < n -> 0 <= j < n -> (a + i) mod n = (a + j) mod n -> i = j.
Proof.
  intros Hn Hi Hj H.
  assert (((a + i) - (a + j)) mod n = 0) as Hz.
  { rewrite Zminus_mod, H, Z.sub_diag. apply Z.mod_0_l. lia. }
  replace (a + i - (a + j)) with (i - j) in Hz by lia.
  apply Z.mod_divide in Hz; [|lia]. destruct Hz as [c Hc].
  assert (c = 0) by nia. lia.
Qed.

Lemma send_repr q l v :
  repr q l -> zlength l < q_size q ->
  exists q', copy_in q v = Ret q' /\ repr (advanced_in (count_in q')) (l ++ [v]) /\ q_size q' = q_size q.
Proof.
  intros (Hs & Hb & Hi & Hl & Ho & Hin & Hk) Hlt.
  assert (0 <= q_in q < q_size q) as Hinb by (rewrite Hin; apply Z.mod_pos_bound; lia).
  unfold copy_in. destruct (zlookup_lt (q_buffer q) (q_in q) ltac:(lia)) as [y Hy]. rewrite Hy.
  eexists; split; [done|]. split; [|done]. unfold repr. cbn.
  assert (zlength (l ++ [v]) = zlength l + 1) as Hlen
    by (unfold zlength; rewrite length_app; cbn; lia).
  rewrite zlength_zinsert, Hlen. repeat split; try lia.
  - rewrite Z.rem_mod_nonneg by lia. rewrite Hin, Zplus_mod_idemp_l. f_equal. lia.
  - intros k x Hx. pose proof (zlookup_Some_lt _ _ _ Hx) as Hkr. rewrite Hlen in Hkr.
    apply zlookup_snoc in Hx as [Hx|[-> ->]].
    + rewrite zlookup_zinsert_ne; [by apply Hk|]. rewrite Hin. intros Heq.
      apply zlookup_Some_lt in Hx.
      apply mod_add_inj in Heq; unfold zlength in *; lia.
    + rewrite <- Hi, <- Hin. apply zlookup_zinsert_eq. lia.
Qed.

Lemma receive_repr q x l :
  repr q (x :: l) -> copy_out q = Ret x /\ repr (advanced_out (count_out q)) l.
Proof.
  intros (Hs & Hb & Hi & Hl & Ho & Hin & Hk).
  pose proof (Hk 0 x eq_refl) as H0. rewrite Z.add_0_r, Z.mod_small in H0 by lia.
  unfold copy_out. rewrite H0. split; [done|]. unfold repr. cbn.
  assert (zlength (x :: l) = zlength l + 1) as Hlen by (unfold zlength; cbn; lia).
  rewrite Hlen in *. rewrite Z.rem_mod_nonneg by lia.
  pose proof (Z.mod_pos_bound (q_out q + 1) (q_size q) ltac:(lia)).
  repeat split; try lia.
  - rewrite Zplus_mod_idemp_l, Hin. f_equal. lia.
  - intros k y Hy. rewrite Zplus_mod_idemp_l. rewrite <- Z.add_assoc, (Z.add_comm 1).
    apply Hk. by apply zlookup_tail.
Qed.

Lemma create_repr n q :
  0 < n -> os_pthread_queue_create true true true n = Some q -> repr q [] /\ q_size q = n.
Proof.
  intros Hn [= <-]. split; [|done]. unfold repr, zlength. cbn.
  rewrite length_replicate. repeat split; try lia.
  intros k x H. apply zlookup_Some_lt in H. unfold zlength in H. cbn in H. lia.
Qed.

(** *** The invariant

    Which places have the mutex, and which come after the copy. *)
Definition holds (p : place) : bool :=
  match p with
  | AtTest | AtWait | AtCheck _ | AtGiveUp | AtCopy | AtCount _ | AtAdvance _ | AtUnlock _ => true
  | _ => false
  end.
Definition copied (p : place) : option (option A) :=
  match p with AtCount got | AtAdvance got | AtUnlock got | AtNotify got => Some got | _ => None end.

(** The queue once the thread that has the mutex has done the statements after
    its copy. *)
Definition completed (c : call) (p : place) (q : os_pthread_queue_t) : os_pthread_queue_t :=
  match c, p with
  | Send _, AtCount _ => advanced_in (count_in q)
  | Send _, AtAdvance _ => advanced_in q
  | Receive, AtCount _ => advanced_out (count_out q)
  | Receive, AtAdvance _ => advanced_out q
  | _, _ => q
  end.

(** What a place says of the queue. *)
Definition place_ok (c : call) (p : place) (q : os_pthread_queue_t) : Prop :=
  match c, p with
  | Send _, AtWait => q_items q = q_size q
  | Send _, AtCopy => q_items q <> q_size q
  | Receive, AtWait => q_items q = 0
  | Receive, AtCopy => q_items q <> 0
  | Send _, (AtCount got | AtAdvance got | AtUnlock got | AtNotify got) => got = None
  | Receive, (AtCount got | AtAdvance got | AtUnlock got | AtNotify got) => is_Some got
  | Send _, Waiting c => c = cond_full
  | Receive, Waiting c => c = cond_empty
  | _, _ => True
  end.

(** The items a thread has put in or taken out, from its results and from the
    call it is making. *)
Definition sent_result (x : call * (Z * option A)) : option A :=
  match x with (Send v, (rc, _)) => if rc =? PTHREAD_QUEUE_OK then Some v else None | _ => None end.
Definition received_result (x : call * (Z * option A)) : option A :=
  match x with (Receive, (rc, got)) => if rc =? PTHREAD_QUEUE_OK then got else None | _ => None end.
Definition sent_now (t : thread) : list A :=
  match head (th_calls t), copied (th_place t) with Some (Send v), Some _ => [v] | _, _ => [] end.
Definition received_now (t : thread) : list A :=
  match head (th_calls t), copied (th_place t) with Some Receive, Some (Some v) => [v] | _, _ => [] end.
Definition of_thread (i : nat) (log : list (nat * A)) : list A :=
  map snd (List.filter (fun x => bool_decide (x.1 = i)) log).

(** A thread that has copied and not broadcast yet. *)
Definition will_notify (cnd : cond) (t : thread) : Prop :=
  is_Some (copied (th_place t)) /\
  match head (th_calls t), cnd with Some (Send _), cond_empty | Some Receive, cond_full => True | _, _ => False end.

Definition thread_ok (i : nat) (t : thread) (m : option nat) (q : os_pthread_queue_t) (sent recv : list (nat * A)) : Prop :=
  (holds (th_place t) = true <-> m = Some i) /\
  match head (th_calls t) with None => th_place t = AtClock | Some c => place_ok c (th_place t) q end /\
  of_thread i sent = omap sent_result (th_results t) ++ sent_now t /\
  of_thread i recv = omap received_result (th_results t) ++ received_now t.

Definition settled (s : qsys) : os_pthread_queue_t :=
  match i ← qs_mutex s; t ← qs_threads s !! i; c ← head (th_calls t); Some (c, th_place t) with
  | Some (c, p) => completed c p (qs_queue s)
  | None => qs_queue s
  end.

(** There is an item to receive, or room for one more. *)
Definition ready (cnd : cond) (n : Z) (l : list A) : Prop :=
  match cnd with cond_empty => l <> [] | cond_full => zlength l < n end.
Definition notified (n : Z) (l : list A) (ts : list thread) : Prop :=
  forall cnd j u, ts !! j = Some u -> th_place u = Waiting cnd -> ready cnd n l ->
    exists k v, ts !! k = Some v /\ will_notify cnd v.

Record qsys_ok (n : Z) (callss : list (list call)) (s : qsys) (l : list A) : Prop := QSysOk {
  qo_threads : forall i t, qs_threads s !! i = Some t ->
    thread_ok i t (qs_mutex s) (qs_queue s) (qs_sent s) (qs_recv s);
  qo_log : map snd (qs_sent s) = map snd (qs_recv s) ++ l;
  qo_repr : repr (settled s) l /\ q_size (qs_queue s) = n;
  qo_notified : notified n l (qs_threads s);
  qo_calls : (fun t => map fst (th_results t) ++ th_calls t) <$> qs_threads s = callss
}.

Lemma place_ok_free c p q q' : holds p = false -> place_ok c p q -> place_ok c p q'.
Proof. by destruct c, p. Qed.

Lemma holds_completed c p q : holds p = false -> completed c p q = q.
Proof. by destruct c, p. Qed.

Lemma of_thread_app i log log' : of_thread i (log ++ log') = of_thread i log ++ of_thread i log'.
Proof. unfold of_thread. by rewrite List.filter_app, map_app. Qed.
Lemma of_thread_one i j v : of_thread i [(j, v)] = if decide (j = i) then [v] else [].
Proof. unfold of_thread. cbn. case_bool_decide; by case_decide. Qed.

Lemma thread_frame i j t m m' q q' sent sent' recv recv' :
  thread_ok j t m q sent recv -> i <> j ->
  (m' = Some j <-> m = Some j) -> (q' = q \/ m = Some i) ->
  of_thread j sent' = of_thread j sent -> of_thread j recv' = of_thread j recv ->
  thread_ok j t m' q' sent' recv'.
Proof.
  intros (H1 & H2 & H3 & H4) Hne Hm Hq Es Er. unfold thread_ok. rewrite Es, Er, Hm.
  split; [done|]. split; [|done]. destruct Hq as [->|Hmi]; [done|].
  destruct (head (th_calls t)); [|done]. apply (place_ok_free _ _ q); [|done].
  destruct (holds (th_place t)); [|done]. destruct H1 as [H1 _]. specialize (H1 eq_refl). congruence.
Qed.

Lemma settled_holder s i t c :
  qs_mutex s = Some i -> qs_threads s !! i = Some t -> head (th_calls t) = Some c ->
  settled s = completed c (th_place t) (qs_queue s).
Proof. intros Hm Ht Hc. unfold settled. rewrite Hm. cbn. rewrite Ht. cbn. by rewrite Hc. Qed.

Lemma settled_free s : qs_mutex s = None -> settled s = qs_queue s.
Proof. intros Hm. unfold settled. by rewrite Hm. Qed.

(** The mutex is with another thread, or free: what [i] does elsewhere does not
    change the settled queue. *)
Lemma settled_other s i t' sent recv :
  qs_mutex s <> Some i ->
  settled (QSys (qs_queue s) (qs_mutex s) (<[i := t']> (qs_threads s)) sent recv) = settled s.
Proof.
  intros Hm. unfold settled. cbn. destruct (qs_mutex s) as [j|]; [|done]. cbn.
  rewrite list_lookup_insert_ne by congruence. done.
Qed.

Lemma notified_step n l l' ts i t t' :
  notified n l ts -> ts !! i = Some t ->
  (forall cnd, th_place t' = Waiting cnd -> ~ ready cnd n l') ->
  (forall cnd, ready cnd n l' -> ready cnd n l \/ will_notify cnd t') ->
  (forall cnd, will_notify cnd t -> will_notify cnd t') ->
  notified n l' (<[i := t']> ts).
Proof.
  intros Hn Hi Hw Hr Hk cnd j u Hj Hp Hrd.
  pose proof (lookup_lt_Some _ _ _ Hi) as Hlt.
  destruct (decide (i = j)) as [->|Hne].
  { rewrite list_lookup_insert_eq in Hj by done. simplify_eq. by destruct (Hw cnd Hp). }
  rewrite list_lookup_insert_ne in Hj by done.
  destruct (Hr cnd Hrd) as [Hrd'|Hwn]; [|exists i, t'; by rewrite list_lookup_insert_eq].
  destruct (Hn cnd j u Hj Hp Hrd') as (k & v & Hv & Hwn).
  destruct (decide (i = k)) as [->|Hne2].
  - exists k, t'. simplify_eq. rewrite list_lookup_insert_eq by done. auto.
  - exists k, v. by rewrite list_lookup_insert_ne.
Qed.

Lemma qsys_step n callss s l i t t' m q sent' recv' l' :
  qsys_ok n callss s l -> qs_threads s !! i = Some t ->
  (forall j, i <> j -> m = Some j <-> qs_mutex s = Some j) ->
  (q = qs_queue s \/ qs_mutex s = Some i) ->
  (forall j, i <> j -> of_thread j sent' = of_thread j (qs_sent s) /\ of_thread j recv' = of_thread j (qs_recv s)) ->
  thread_ok i t' m q sent' recv' ->
  map snd sent' = map snd recv' ++ l' ->
  repr (settled (QSys q m (<[i := t']> (qs_threads s)) sent' recv')) l' -> q_size q = n ->
  (forall cnd, th_place t' = Waiting cnd -> ~ ready cnd n l') ->
  (forall cnd, ready cnd n l' -> ready cnd n l \/ will_notify cnd t') ->
  (forall cnd, will_notify cnd t -> will_notify cnd t') ->
  map fst (th_results t') ++ th_calls t' = map fst (th_results t) ++ th_calls t ->
  qsys_ok n callss (QSys q m (<[i := t']> (qs_threads s)) sent' recv') l'.
Proof.
  intros [Hth Hlog Hrep Hno Hcalls] Hi Hm Hq Hof Hok Hlog' Hrep' Hsz Hw Hr Hk Hc. split; cbn; try done.
  - intros j u Hj. pose proof (lookup_lt_Some _ _ _ Hi) as Hlt. destruct (decide (i = j)) as [->|Hne].
    + rewrite list_lookup_insert_eq in Hj by done. by simplify_eq.
    + rewrite list_lookup_insert_ne in Hj by done. destruct (Hof j Hne).
      eapply (thread_frame i j); [by apply Hth|done|by apply Hm|done|done|done].
  - by eapply notified_step.
  - rewrite list_fmap_insert, Hc. rewrite <- Hcalls. apply list_insert_id. by rewrite list_lookup_fmap, Hi.
Qed.

(** The steps that move thread [i] and touch neither the queue nor the logs. *)
Lemma qsys_move n callss s l i t t' m :
  qsys_ok n callss s l -> qs_threads s !! i = Some t ->
  (forall j, i <> j -> m = Some j <-> qs_mutex s = Some j) ->
  thread_ok i t' m (qs_queue s) (qs_sent s) (qs_recv s) ->
  repr (settled (QSys (qs_queue s) m (<[i := t']> (qs_threads s)) (qs_sent s) (qs_recv s))) l ->
  (forall cnd, th_place t' = Waiting cnd -> ~ ready cnd n l) ->
  (forall cnd, will_notify cnd t -> will_notify cnd t') ->
  map fst (th_results t') ++ th_calls t' = map fst (th_results t) ++ th_calls t ->
  qsys_ok n callss (QSys (qs_queue s) m (<[i := t']> (qs_threads s)) (qs_sent s) (qs_recv s)) l.
Proof.
  intros Hs Hi Hm Hok Hrep Hw Hk Hc. pose proof Hs as [_ Hlog [_ Hsz] _ _].
  eapply (qsys_step n callss s l i t t'); try done; auto.
Qed.

Lemma next_thread s i t c r : next_of s i t c r ->
  qs_threads s !! i = Some t /\ (exists cs, th_calls t = c :: cs) /\ code c (th_place t) (qs_queue s) = r.
Proof. intros (Hi & Hc & Hr). split; [done|]. split; [|done]. destruct (th_calls t); cbn in Hc; simplify_eq. eauto. Qed.

(** The places from which a statement has an effect. *)
Definition waits (c : call) : cond := match c with Send _ => cond_full | Receive => cond_empty end.
Definition notifies (c : call) : cond := match c with Send _ => cond_empty | Receive => cond_full end.
Definition effect_place (c : call) (p : place) (e : effect) : Prop :=
  match e with
  | Clock => p = AtClock
  | Acquire p' => p = AtLock /\ p' = AtTest \/ exists ret, p = Woken ret /\ p' = AtCheck ret
  | Move p' _ => holds p = true /\ holds p' = true
  | Release p' => p = AtWait /\ p' = Waiting (waits c) \/ exists got, p = AtUnlock got /\ p' = AtNotify got
  | Sleep => exists cnd, p = Waiting cnd
  | Leave rc got => p = AtGiveUp /\ rc = 0 /\ got = None
  | Notify cnd rc got => p = AtNotify got /\ rc = PTHREAD_QUEUE_OK /\ cnd = notifies c
  end.
Lemma code_place c p q e : code c p q = Ret e -> effect_place c p e.
Proof.
  destruct c, p; cbn; intros He;
    repeat match type of He with context [match ?x with _ => _ end] => destruct x end; simplify_eq; cbn; eauto 6.
Qed.

Lemma next_place s i t c e : next_of s i t c (Ret e) ->
  qs_threads s !! i = Some t /\ (exists cs, th_calls t = c :: cs) /\
  code c (th_place t) (qs_queue s) = Ret e /\ effect_place c (th_place t) e.
Proof.
  intros (Hi & Hc & Hr). split; [done|]. split; [|split; [done|by eapply code_place]].
  destruct (th_calls t); cbn in Hc; simplify_eq. eauto.
Qed.

Lemma step_clock_ok n callss s l i t c :
  qsys_ok n callss s l -> next_of s i t c (Ret Clock) ->
  qsys_ok n callss (QSys (qs_queue s) (qs_mutex s) (<[i := goto AtLock t]> (qs_threads s)) (qs_sent s) (qs_recv s)) l.
Proof.
  intros Hs (Hi & [cs Hcs] & _ & Hpl)%next_place. pose proof Hs as [Hth _ [Hrep _] _ _].
  pose proof (Hth i t Hi) as (Hm & Hp & H3 & H4). destruct t as [calls p rs]. cbn in Hcs, Hpl. subst.
  eapply qsys_move; [exact Hs|exact Hi| | | | | |].
  - done.
  - split; [exact Hm|]. split; [by destruct c|done].
  - rewrite settled_other; [done|]. intros E. by apply Hm in E.
  - done.
  - by intros cnd [[? ?] _].
  - done.
Qed.

Lemma queue_results_return (f : call * (Z * option A) -> option A) rs c rc got (now : list A) log :
  log = omap f rs ++ now -> now = omap f [(c, (rc, got))] -> log = omap f (rs ++ [(c, (rc, got))]) ++ [].
Proof. intros -> ->. by rewrite omap_app, app_nil_r. Qed.

Lemma now_at_clock cs rs : sent_now (Thread cs AtClock rs) = [] /\ received_now (Thread cs AtClock rs) = [].
Proof. by destruct cs as [|[] ?]. Qed.

(** A call that ends, with what its result says of the items. *)
Lemma return_ok i c cs p rs rc got m m' q q' sent recv :
  thread_ok i (Thread (c :: cs) p rs) m q sent recv -> m' <> Some i ->
  sent_now (Thread (c :: cs) p rs) = omap sent_result [(c, (rc, got))] ->
  received_now (Thread (c :: cs) p rs) = omap received_result [(c, (rc, got))] ->
  thread_ok i (Thread cs AtClock (rs ++ [(c, (rc, got))])) m' q' sent recv.
Proof.
  intros (_ & _ & H3 & H4) Hm Es Er. destruct (now_at_clock cs (rs ++ [(c, (rc, got))])) as [N1 N2].
  split; [by split|]. split; [by destruct cs as [|[]]|]. rewrite N1, N2.
  split; [by apply (queue_results_return sent_result) with (1 := H3)|by apply (queue_results_return received_result) with (1 := H4)].
Qed.

Lemma step_no_clock_ok n callss s l i t c :
  qsys_ok n callss s l -> next_of s i t c (Ret Clock) ->
  qsys_ok n callss (QSys (qs_queue s) (qs_mutex s)
    (<[i := return_ PTHREAD_QUEUE_ERROR None t]> (qs_threads s)) (qs_sent s) (qs_recv s)) l.
Proof.
  intros Hs (Hi & [cs Hcs] & _ & Hpl)%next_place. pose proof Hs as [Hth _ [Hrep _] _ _].
  pose proof (Hth i t Hi) as Hok. pose proof Hok as (Hm & _). destruct t as [calls p rs]. cbn in Hcs, Hpl. subst.
  assert (qs_mutex s <> Some i) as Hfree by (intros E; by apply Hm in E).
  eapply qsys_move; [exact Hs|exact Hi| | | | | |].
  - done.
  - eapply return_ok; [exact Hok|exact Hfree|by destruct c..].
  - by rewrite settled_other.
  - done.
  - by intros cnd [[? ?] _].
  - cbn. by rewrite map_app, <- app_assoc.
Qed.

Lemma step_acquire_ok n callss s l i t c p :
  qsys_ok n callss s l -> next_of s i t c (Ret (Acquire p)) -> qs_mutex s = None ->
  qsys_ok n callss (QSys (qs_queue s) (Some i) (<[i := goto p t]> (qs_threads s)) (qs_sent s) (qs_recv s)) l.
Proof.
  intros Hs (Hi & [cs Hcs] & _ & Hpl)%next_place Hfree. pose proof Hs as [Hth _ [Hrep _] _ _].
  pose proof (Hth i t Hi) as (Hm & Hp & H3 & H4). destruct t as [calls pl rs]. cbn in Hcs, Hpl. subst calls.
  rewrite settled_free in Hrep by done. pose proof (lookup_lt_Some _ _ _ Hi) as Hlt.
  assert (copied pl = None /\ copied p = None /\ holds p = true /\ place_ok c p (qs_queue s) /\
    (forall cnd, p <> Waiting cnd) /\ completed c p (qs_queue s) = qs_queue s) as (N1 & N2 & Hh & Hpo & Hw & Hc)
    by (destruct Hpl as [[-> ->]|(ret & -> & ->)]; destruct c; splits; done).
  eapply qsys_move; [exact Hs|exact Hi| | | | | |].
  - intros j Hne. rewrite Hfree. split; congruence.
  - split; [by split|]. split; [exact Hpo|]. unfold sent_now, received_now in *. cbn in *. rewrite N1 in *. by rewrite N2.
  - rewrite (settled_holder _ i (goto p (Thread (c :: cs) pl rs)) c); cbn; [by rewrite Hc|done|by apply list_lookup_insert_eq|done].
  - intros cnd E. by destruct (Hw cnd).
  - intros cnd [[? E] _]. cbn in E. congruence.
  - done.
Qed.

Lemma step_release_ok n callss s l i t c p :
  qsys_ok n callss s l -> next_of s i t c (Ret (Release p)) ->
  qsys_ok n callss (QSys (qs_queue s) None (<[i := goto p t]> (qs_threads s)) (qs_sent s) (qs_recv s)) l.
Proof.
  intros Hs (Hi & [cs Hcs] & _ & Hpl)%next_place. pose proof Hs as [Hth _ [Hrep Hsz] _ _].
  pose proof (Hth i t Hi) as (Hm & Hp & H3 & H4).
  assert (qs_mutex s = Some i) as Hown by (apply Hm; by destruct Hpl as [[-> _]|(? & -> & _)]).
  rewrite (settled_holder s i t c) in Hrep by (rewrite ?Hcs; done).
  assert (repr (qs_queue s) l) as Hrep' by (destruct Hpl as [[E _]|(? & E & _)]; rewrite E in Hrep; by destruct c).
  clear Hrep. destruct t as [calls pl rs]. cbn in Hcs, Hpl, Hp. subst calls. cbn in Hp.
  eapply qsys_move; [exact Hs|exact Hi| | | | | |].
  - intros j Hne. rewrite Hown. split; congruence.
  - destruct Hpl as [[-> ->]|(got & -> & ->)]; (split; [by split|]); (split; [by destruct c|done]).
  - by rewrite settled_free.
  - intros cnd. destruct Hpl as [[-> ->]|(got & -> & ->)]; [|done]. intros [= <-].
    destruct Hrep' as (_ & _ & Hi1 & _). destruct c; cbn in *; [lia|].
    intros Hl. destruct l; [done|]. unfold zlength in Hi1. cbn in Hi1. lia.
  - intros cnd [[? E] ?]. destruct Hpl as [[-> ->]|(got & -> & ->)]; [done|]. split; [by eexists|done].
  - done.
Qed.

Lemma step_wake_up_ok n callss s l i t c ret :
  qsys_ok n callss s l -> next_of s i t c (Ret Sleep) ->
  qsys_ok n callss (QSys (qs_queue s) (qs_mutex s) (<[i := goto (Woken ret) t]> (qs_threads s)) (qs_sent s) (qs_recv s)) l.
Proof.
  intros Hs (Hi & [cs Hcs] & _ & [cnd Hpl])%next_place. pose proof Hs as [Hth _ [Hrep _] _ _].
  pose proof (Hth i t Hi) as (Hm & Hp & H3 & H4). destruct t as [calls p rs]. cbn in Hcs, Hpl. subst.
  eapply qsys_move; [exact Hs|exact Hi| | | | | |].
  - done.
  - split; [exact Hm|]. split; [by destruct c|done].
  - rewrite settled_other; [done|]. intros E. by apply Hm in E.
  - done.
  - by intros cnd' [[? ?] _].
  - done.
Qed.

Lemma step_leave_ok n callss s l i t c rc got :
  qsys_ok n callss s l -> next_of s i t c (Ret (Leave rc got)) ->
  qsys_ok n callss (QSys (qs_queue s) None (<[i := return_ rc got t]> (qs_threads s)) (qs_sent s) (qs_recv s)) l.
Proof.
  intros Hs (Hi & [cs Hcs] & _ & Hpl & -> & ->)%next_place. pose proof Hs as [Hth _ [Hrep _] _ _].
  pose proof (Hth i t Hi) as Hok. pose proof Hok as (Hm & _).
  assert (qs_mutex s = Some i) as Hown by (apply Hm; by rewrite Hpl).
  rewrite (settled_holder s i t c) in Hrep by (rewrite ?Hcs; done).
  destruct t as [calls p rs]. cbn in Hcs, Hpl. subst.
  eapply qsys_move; [exact Hs|exact Hi| | | | | |].
  - intros j Hne. rewrite Hown. split; congruence.
  - eapply return_ok; [exact Hok|done|by destruct c..].
  - rewrite settled_free by done. by destruct c.
  - done.
  - by intros cnd [[? ?] _].
  - cbn. by rewrite map_app, <- app_assoc.
Qed.

(** A statement on the queue, under the mutex: the copy commits the item, the
    others finish it. *)
Lemma move_ok c p q p' q' l :
  code c p q = Ret (Move p' q') -> place_ok c p q -> repr (completed c p q) l ->
  q_size q' = q_size q /\ place_ok c p' q' /\
  exists l', repr (completed c p' q') l' /\
    match p, c with
    | AtCopy, Send v => l' = l ++ [v] /\ p' = AtCount None
    | AtCopy, Receive => exists x, l = x :: l' /\ p' = AtCount (Some x)
    | _, _ => l' = l /\ copied p' = copied p
    end.
Proof.
  intros Hc Hp Hr. destruct p; try (by destruct c); destruct c; cbn in *.
  - destruct (q_items q =? q_size q) eqn:E; bool_to_prop; simplify_eq; eauto 6.
  - destruct (q_items q =? 0) eqn:E; bool_to_prop; simplify_eq; eauto 6.
  - destruct (negb _); simplify_eq; eauto 6.
  - destruct (negb _); simplify_eq; eauto 6.
  - pose proof Hr as (_ & _ & Hi & Hl & _). destruct (send_repr q l v Hr ltac:(lia)) as (q1 & E & Hr1 & Hs).
    rewrite E in Hc. simplify_eq. eauto 8.
  - destruct l as [|x l]; [by destruct Hp; destruct Hr as (_ & _ & -> & _)|].
    destruct (receive_repr q x l Hr) as [E Hr1]. rewrite E in Hc. simplify_eq. eauto 10.
  - simplify_eq. eauto 6.
  - simplify_eq. eauto 6.
  - unfold advance_in in Hc. destruct (q_size q =? 0); simplify_eq. eauto 6.
  - unfold advance_out in Hc. destruct (q_size q =? 0); simplify_eq. eauto 6.
Qed.

Lemma step_move_ok n callss s l i t c p q :
  qsys_ok n callss s l -> next_of s i t c (Ret (Move p q)) ->
  exists l', qsys_ok n callss (QSys q (qs_mutex s) (<[i := goto p t]> (qs_threads s))
    (qs_sent s ++ log_in i c (th_place t)) (qs_recv s ++ log_out i c (th_place t) p)) l'.
Proof.
  intros Hs (Hi & [cs Hcs] & Hcode & Hh & Hh')%next_place. pose proof Hs as [Hth Hlog [Hrep Hsz] _ _].
  pose proof (Hth i t Hi) as (Hm & Hp & H3 & H4). pose proof (proj1 Hm Hh) as Hown.
  rewrite (settled_holder s i t c) in Hrep by (rewrite ?Hcs; done).
  destruct t as [calls pl rs]. cbn in Hcs, Hh, Hcode, Hp, Hrep. subst calls. cbn in Hp.
  destruct (move_ok c pl (qs_queue s) p q l Hcode Hp Hrep) as (Hsz' & Hp' & l' & Hrep' & Hcase).
  assert (forall j, i <> j -> of_thread j (qs_sent s ++ log_in i c pl) = of_thread j (qs_sent s) /\
    of_thread j (qs_recv s ++ log_out i c pl p) = of_thread j (qs_recv s)) as Hother.
  { intros j Hne. rewrite !of_thread_app. split.
    - destruct c as [v|], pl; try apply app_nil_r.
      change (log_in i (Send v) AtCopy) with [(i, v)]. by rewrite of_thread_one, decide_False, app_nil_r.
    - destruct c as [v|], pl; try apply app_nil_r. destruct p as [| | | | | | | | |[x|]| | |]; try apply app_nil_r.
      change (log_out i Receive AtCopy (AtCount (Some x))) with [(i, x)].
      by rewrite of_thread_one, decide_False, app_nil_r. }
  exists l'. eapply qsys_step; [exact Hs|exact Hi|done|by right|exact Hother| | | |by rewrite Hsz'| | | |done].
  - split; [by cbn; rewrite Hh', Hown|]. split; [exact Hp'|]. unfold sent_now, received_now in *. cbn in *.
    rewrite !of_thread_app, H3, H4. destruct pl; try (by destruct c).
    all: destruct c as [v|]; try (destruct Hcase as [-> Hcp]; cbn in *; rewrite Hcp; by rewrite ?app_nil_r).
    + destruct Hcase as [_ ->]. change (log_in i (Send v) AtCopy) with [(i, v)].
      rewrite of_thread_one, decide_True by done. cbn. by rewrite ?app_nil_r.
    + destruct Hcase as (x & _ & ->). change (log_out i Receive AtCopy (AtCount (Some x))) with [(i, x)].
      rewrite of_thread_one, decide_True by done. cbn. by rewrite ?app_nil_r.
  - rewrite !map_app, Hlog. destruct pl; try (by destruct c).
    all: destruct c; try (destruct Hcase as [-> _]; cbn; by rewrite ?app_nil_r).
    + destruct Hcase as [-> ->]. cbn. by rewrite app_nil_r, app_assoc.
    + destruct Hcase as (x & -> & ->). cbn. by rewrite app_nil_r, <- app_assoc.
  - rewrite (settled_holder _ i (goto p (Thread (c :: cs) pl rs)) c); cbn; try done.
    apply list_lookup_insert_eq. by eapply lookup_lt_Some.
  - intros cnd E. cbn in E. subst. done.
  - intros cnd Hrd. unfold will_notify. cbn. destruct pl; try (by destruct c).
    all: destruct c; try (destruct Hcase as [-> _]; by left).
    + destruct Hcase as [-> ->]. destruct cnd; [|by right]. left. cbn in *. unfold zlength in *. rewrite length_app in Hrd. cbn in Hrd. lia.
    + destruct Hcase as (x & -> & ->). destruct cnd; [by right|]. by left.
  - intros cnd [Hx Hy]. cbn in Hx, Hy |- *. split; [|done]. cbn. destruct pl; try (by destruct c); try (by destruct Hx).
    all: destruct Hcase as [_ ->] || (destruct c; destruct Hcase as [_ ->]); exact Hx.
Qed.

(** *** The broadcast *)
Lemma wake_fields cnd t : th_calls (wake cnd t) = th_calls t /\ th_results (wake cnd t) = th_results t /\
  (wake cnd t = t \/ th_place t = Waiting cnd /\ th_place (wake cnd t) = Woken 0) /\ th_place (wake cnd t) <> Waiting cnd.
Proof.
  unfold wake. destruct (th_place t) eqn:E; try (splits; [done|done|by left|congruence]).
  case_bool_decide as Hc; [subst|]; splits; try done; [by right|by left|congruence].
Qed.

Lemma wake_ok cnd i t m q sent recv : thread_ok i t m q sent recv -> thread_ok i (wake cnd t) m q sent recv.
Proof.
  destruct (wake_fields cnd t) as (Ec & Er & [->|[E1 E2]] & _); [done|].
  intros (Hm & Hp & H3 & H4). unfold thread_ok, sent_now, received_now in *. rewrite Ec, Er, E2. rewrite E1 in *. cbn in *.
  split; [exact Hm|]. split; [|by destruct (head (th_calls t)) as [[]|]].
  destruct (head (th_calls t)) as [c|]; [by destruct c|done].
Qed.

Lemma step_notify_ok n callss s l i t c cnd rc got :
  qsys_ok n callss s l -> next_of s i t c (Ret (Notify cnd rc got)) ->
  qsys_ok n callss (QSys (qs_queue s) (qs_mutex s) (<[i := return_ rc got t]> (wake cnd <$> qs_threads s))
    (qs_sent s) (qs_recv s)) l.
Proof.
  intros Hs (Hi & [cs Hcs] & _ & Hpl & -> & ->)%next_place. pose proof Hs as [Hth Hlog [Hrep Hsz] Hno Hcalls].
  pose proof (Hth i t Hi) as Hok. pose proof Hok as (Hm & Hp & _).
  assert (qs_mutex s <> Some i) as Hfree by (intros E; apply Hm in E; by rewrite Hpl in E).
  pose proof (lookup_lt_Some _ _ _ Hi) as Hlt. assert (i < length (wake (notifies c) <$> qs_threads s))%nat as Hlt'
    by (by rewrite length_fmap).
  destruct t as [calls p rs]. cbn in Hcs, Hpl, Hp. subst calls p. cbn in Hp.
  split; cbn [qs_threads qs_queue qs_mutex qs_sent qs_recv]; try done.
  - intros j u Hj. destruct (decide (i = j)) as [->|Hne].
    + rewrite list_lookup_insert_eq in Hj by done. simplify_eq. cbn. eapply return_ok; [exact Hok|exact Hfree| |].
      * by destruct c.
      * destruct c; cbn in *; [done|]. destruct Hp as [x ->]. done.
    + rewrite list_lookup_insert_ne, list_lookup_fmap in Hj by done.
      destruct (qs_threads s !! j) as [u0|] eqn:Ej; [|done]. cbn in Hj. simplify_eq. apply wake_ok. by apply Hth.
  - split; [|done]. unfold settled in *. cbn. destruct (qs_mutex s) as [j|]; [|done]. cbn in *.
    rewrite list_lookup_insert_ne by congruence. rewrite list_lookup_fmap.
    destruct (qs_threads s !! j) as [u|] eqn:Ej; cbn in *; [|done].
    destruct (wake_fields (notifies c) u) as (-> & _ & [->|[E1 E2]] & _); [done|].
    rewrite E1 in Hrep. rewrite E2. destruct (head (th_calls u)) as [[]|]; exact Hrep.
  - intros cnd j u Hj Hw Hrd. destruct (decide (i = j)) as [->|Hne].
    { rewrite list_lookup_insert_eq in Hj by done. by simplify_eq. }
    rewrite list_lookup_insert_ne, list_lookup_fmap in Hj by done.
    destruct (qs_threads s !! j) as [u0|] eqn:Ej; [|done]. cbn in Hj. simplify_eq.
    destruct (wake_fields (notifies c) u0) as (_ & _ & [E|[_ E]] & Hnw); [|congruence].
    assert (cnd <> notifies c) as Hcnd by (intros ->; done). rewrite E in Hw.
    destruct (Hno cnd j u0 Ej Hw Hrd) as (k & v & Hk & Hv).
    assert (i <> k) as Hik.
    { intros ->. simplify_eq. destruct Hv as [_ Hv]. cbn in Hv. by destruct c, cnd. }
    exists k, v. rewrite list_lookup_insert_ne, list_lookup_fmap, Hk by done. split; [|done]. cbn. f_equal.
    destruct (wake_fields (notifies c) v) as (_ & _ & [->|[Ev _]] & _); [done|].
    destruct Hv as [[? Hv] _]. by rewrite Ev in Hv.
  - rewrite list_fmap_insert. cbn. rewrite map_app, <- app_assoc. cbn.
    assert ((fun t => map fst (th_results t) ++ th_calls t) <$> (wake (notifies c) <$> qs_threads s) = callss) as Ew.
    { rewrite <- Hcalls, <- list_fmap_compose. apply list_fmap_ext. intros _ u _. cbn.
      by destruct (wake_fields (notifies c) u) as (-> & -> & _). }
    rewrite Ew. apply list_insert_id. rewrite <- Hcalls, list_lookup_fmap, Hi. done.
Qed.

Lemma qstep_ok n callss s s' l : qsys_ok n callss s l -> qstep s s' -> exists l', qsys_ok n callss s' l'.
Proof.
  intros Hs Hst. destruct Hst.
  - eexists. by eapply step_clock_ok.
  - eexists. by eapply step_no_clock_ok.
  - eexists. by eapply step_acquire_ok.
  - by eapply step_move_ok.
  - eexists. by eapply step_release_ok.
  - eexists. by eapply step_wake_up_ok.
  - eexists. by eapply step_leave_ok.
  - eexists. by eapply step_notify_ok.
Qed.

Lemma qsteps_ok n callss s s' l : qsys_ok n callss s l -> rtc qstep s s' -> exists l', qsys_ok n callss s' l'.
Proof.
  intros Hs Hst. revert l Hs. induction Hst as [|s s1 s2 H1 _ IH]; intros l Hs; [by exists l|].
  destruct (qstep_ok n callss s s1 l Hs H1) as [l1 Hs1]. by eapply IH.
Qed.

Lemma qs_start_ok n q callss : repr q [] -> q_size q = n -> qsys_ok n callss (qs_start q callss) [].
Proof.
  intros Hr Hsz. split; cbn; try done.
  - intros i t Hi. apply list_lookup_fmap_Some in Hi as (cs & -> & _).
    destruct (now_at_clock cs []) as [N1 N2]. split; [by split|]. split; [by destruct cs as [|[]]|].
    rewrite N1, N2. done.
  - intros cnd j u Hj E. apply list_lookup_fmap_Some in Hj as (cs & -> & _). done.
  - rewrite <- list_fmap_compose. by apply list_fmap_id.
Qed.

(** No statement is undefined: the copies are inside the buffer, what is copied
    out was copied in. *)
Lemma qsys_defined n callss s l i t c f : 0 < n -> qsys_ok n callss s l -> ~ next_of s i t c (Fault f).
Proof.
  intros Hn [Hth _ [Hrep Hsz] _ _] (Hi & Hc & Hcode). pose proof (Hth i t Hi) as (Hm & Hp & _).
  rewrite Hc in Hp. destruct (holds (th_place t)) eqn:Hh; [|by destruct c, (th_place t)].
  rewrite (settled_holder s i t c) in Hrep by (try done; by apply Hm).
  destruct (th_place t), c; cbn in *; try done.
  - pose proof Hrep as (_ & _ & Hi1 & Hl1 & _). destruct (send_repr _ l v Hrep ltac:(lia)) as (q1 & E & _). by rewrite E in Hcode.
  - destruct l as [|x l]; [by destruct Hp; destruct Hrep as (_ & _ & -> & _)|].
    destruct (receive_repr _ x l Hrep) as [E _]. by rewrite E in Hcode.
  - unfold advance_in in Hcode. rewrite (proj2 (Z.eqb_neq _ 0)) in Hcode by lia. done.
  - unfold advance_out in Hcode. rewrite (proj2 (Z.eqb_neq _ 0)) in Hcode by lia. done.
Qed.

Lemma completed_size c p q : q_size (completed c p q) = q_size q.
Proof. by destruct c, p. Qed.
Lemma settled_size s : q_size (settled s) = q_size (qs_queue s).
Proof.
  unfold settled. destruct (qs_mutex s) as [j|]; cbn; [|done]. destruct (qs_threads s !! j); cbn; [|done].
  destruct (head _); cbn; [|done]. apply completed_size.
Qed.

(** *** Runs by evaluation

    [ret] is the result of a wait that ends. *)
Definition qnext (i : nat) (ret : Z) (s : qsys) : option qsys :=
  t ← qs_threads s !! i;
  c ← head (th_calls t);
  let go m q p sent recv := Some (QSys q m (<[i := goto p t]> (qs_threads s)) sent recv) in
  match code c (th_place t) (qs_queue s) with
  | Fault _ => None
  | Ret Clock => go (qs_mutex s) (qs_queue s) AtLock (qs_sent s) (qs_recv s)
  | Ret (Acquire p) =>
      match qs_mutex s with None => go (Some i) (qs_queue s) p (qs_sent s) (qs_recv s) | Some _ => None end
  | Ret (Move p q) =>
      go (qs_mutex s) q p (qs_sent s ++ log_in i c (th_place t)) (qs_recv s ++ log_out i c (th_place t) p)
  | Ret (Release p) => go None (qs_queue s) p (qs_sent s) (qs_recv s)
  | Ret Sleep => go (qs_mutex s) (qs_queue s) (Woken ret) (qs_sent s) (qs_recv s)
  | Ret (Leave rc got) => Some (QSys (qs_queue s) None (<[i := return_ rc got t]> (qs_threads s)) (qs_sent s) (qs_recv s))
  | Ret (Notify cnd rc got) =>
      Some (QSys (qs_queue s) (qs_mutex s) (<[i := return_ rc got t]> (wake cnd <$> qs_threads s)) (qs_sent s) (qs_recv s))
  end.

Fixpoint qplay (order : list (nat * Z)) (s : qsys) : option qsys :=
  match order with
  | [] => Some s
  | (i, ret) :: order => s ← qnext i ret s; qplay order s
  end.

Lemma qnext_step i ret s s' : qnext i ret s = Some s' -> qstep s s'.
Proof.
  unfold qnext. destruct (qs_threads s !! i) as [t|] eqn:Hi; [|done]. cbn.
  destruct (head (th_calls t)) as [c|] eqn:Hc; [|done]. cbn.
  destruct (code c (th_place t) (qs_queue s)) as [e|] eqn:He; [|done].
  assert (next_of s i t c (Ret e)) as Hn by done. destruct e; intros Hx.
  3: by (simplify_eq; eapply step_move).
  2: destruct (qs_mutex s) eqn:Em; simplify_eq; by eapply step_acquire.
  all: injection Hx as <-; by econstructor.
Qed.

Lemma qplay_steps order s s' : qplay order s = Some s' -> rtc qstep s s'.
Proof.
  revert s. induction order as [|[i ret] order IH]; intros s Hp; cbn in Hp; [by simplify_eq|].
  destruct (qnext i ret s) as [s1|] eqn:E; [|done]. eapply rtc_l; [by eapply qnext_step|by apply IH].
Qed.

End queue.
Arguments os_pthread_queue_t : clear implicits.
Arguments place : clear implicits.
Arguments call : clear implicits.
Arguments thread : clear implicits.
Arguments qsys : clear implicits.
End Queue.

(** ** Delays *)
Module Delay.

(** [portTick] is [unsigned long], 64 bits. *)
Definition tick_of (z : Z) : Z := z mod 2 ^ 64.

Definition osDefineTime (mseconds : Z) : Z := tick_of (mseconds * 1000).

(** [osDelay] of the Linux port: the argument of [usleep], a 32-bit product. *)
Definition usleep_arg (mseconds : Z) : Z := u32_of (mseconds * 1000).

(** [osDelay] of the simulator port: the tick at which the thread goes on. *)
Definition sim_wake_tick (ticks_us mseconds : Z) : Z := tick_of (u32_of (mseconds * 1000) + ticks_us).

(** [osTaskDelayUntil(&lastTime, mseconds)]: [c1] is the tick count at the
    call and [c2] the one at the end; the result is the delay requested in
    milliseconds (if any) and the new [*lastTime]. *)
Definition osTaskDelayUntil (last mseconds c1 c2 : Z) : option Z * Z :=
  let d_usec := tick_of (c1 - last) in
  let s_usec := osDefineTime mseconds in
  if s_usec <? d_usec then (None, tick_of (c2 - tick_of (d_usec - s_usec)))
  else (Some (u32_of ((s_usec - d_usec) / 1000)), c2).

(** A periodic task that is late does not sleep and keeps the phase: its next
    reference is the old one plus the period, plus the time of the call. *)
Lemma delay_until_late last ms c1 c2 :
  0 <= last -> last + ms * 1000 < c1 -> c1 <= c2 < 2 ^ 64 -> 0 <= ms < 2 ^ 32 ->
  osTaskDelayUntil last ms c1 c2 = (None, last + ms * 1000 + (c2 - c1)).
Proof.
  intros. unfold osTaskDelayUntil, osDefineTime, tick_of.
  rewrite (Z.mod_small (c1 - last)) by lia. rewrite (Z.mod_small (ms * 1000)) by lia.
  destruct (_ <? _) eqn:E; bool_to_prop; [|lia].
  rewrite (Z.mod_small (c1 - last - ms * 1000)) by lia.
  rewrite Z.mod_small by lia. do 2 f_equal. lia.
Qed.

(** A task that is early sleeps the rest of the period, rounded down to a
    millisecond: it never sleeps past the end of the period. *)
Lemma delay_until_early last ms c1 c2 :
  0 <= last <= c1 -> c1 <= last + ms * 1000 -> c1 < 2 ^ 64 -> 0 <= ms < 2 ^ 32 ->
  exists k, osTaskDelayUntil last ms c1 c2 = (Some k, c2) /\
    0 <= k <= ms /\ c1 + k * 1000 <= last + ms * 1000 < c1 + (k + 1) * 1000.
Proof.
  intros. unfold osTaskDelayUntil, osDefineTime, tick_of.
  rewrite (Z.mod_small (c1 - last)) by lia. rewrite (Z.mod_small (ms * 1000)) by lia.
  destruct (_ <? _) eqn:E; bool_to_prop; [lia|].
  set (x := ms * 1000 - (c1 - last)). pose proof (Z.div_mod x 1000 ltac:(lia)).
  pose proof (Z.mod_pos_bound x 1000 ltac:(lia)).
  exists (x / 1000). rewrite u32_of_id by lia. split; [done|]. lia.
Qed.

End Delay.

(** ** Theorems *)
Module QueueTheorems.
Import Deadline Queue Delay.

(** C33. Whatever the order in which the statements of any number of senders
    and receivers run on a queue created with room for [n > 0] items, however
    their waits end (by a broadcast that wakes several of them, at the deadline, or
    for no reason): the items copied out are, in order, the first items copied in,
    none lost or duplicated, and the rest, never more than [n], is what the ring
    buffer holds when no thread is inside; the calls that returned
    [PTHREAD_QUEUE_OK], with the one under way, are those items thread by thread
    and in the order of each thread's calls; no statement is undefined; and no
    wake-up is lost, for while a thread waits for what there already is, another
    one has the broadcast still to do. *)
Theorem queue_fifo_all_interleavings {A} (n : Z) q (callss : list (list (call A))) (s : qsys A) :
  0 < n -> os_pthread_queue_create true true true n = Some q -> rtc qstep (qs_start q callss) s ->
  exists l, map snd (qs_sent s) = map snd (qs_recv s) ++ l /\ zlength l <= n /\
    (qs_mutex s = None -> repr (qs_queue s) l) /\
    (forall i t, qs_threads s !! i = Some t ->
       callss !! i = Some (map fst (th_results t) ++ th_calls t) /\
       of_thread i (qs_sent s) = omap sent_result (th_results t) ++ sent_now t /\
       of_thread i (qs_recv s) = omap received_result (th_results t) ++ received_now t) /\
    (forall i t c f, ~ next_of s i t c (Fault f)) /\
    (forall i t cnd, qs_threads s !! i = Some t -> th_place t = Waiting cnd -> ready cnd n l ->
       exists j u, qs_threads s !! j = Some u /\ will_notify cnd u).
Proof.
  intros Hn Hc Hs. destruct (create_repr n q Hn Hc) as [Hr Hsz].
  destruct (qsteps_ok n callss _ s [] (qs_start_ok n q callss Hr Hsz) Hs) as [l Hok].
  pose proof Hok as [Hth Hlog [Hrep Hq] Hno Hcalls].
  exists l. split; [exact Hlog|]. split; [|split; [|split; [|split]]].
  - destruct Hrep as (_ & _ & _ & Hl & _). rewrite settled_size in Hl. lia.
  - intros Hm. by rewrite settled_free in Hrep.
  - intros i t Hi. destruct (Hth i t Hi) as (_ & _ & H3 & H4). split; [|done].
    rewrite <- Hcalls, list_lookup_fmap, Hi. done.
  - intros i t c f. by apply (qsys_defined n callss s l).
  - intros i t cnd Hi Hw Hrd. by eapply Hno.
Qed.

(** Room for one item, two senders that wait and a receiver whose broadcast
    wakes both: the first one finds room, the second one waits again. *)
Definition crowd : list (list (call Z)) := [[Send 7; Send 8]; [Send 9]; [Receive]].
Definition crowd_order : list (nat * Z) :=
  map (fun i => (i, 0)) (replicate 8 0 ++ replicate 4 0 ++ replicate 4 1 ++ replicate 8 2 ++ replicate 8 0 ++ replicate 4 1)%nat.

Lemma queue_fifo_all_interleavings_witness :
  exists s, rtc qstep (qs_start (Q [None] 1 0 0 0) crowd) s /\ map snd (qs_recv s) = [7] /\
    (fun t => (th_place t, omap sent_result (th_results t))) <$> qs_threads s =
      [(AtClock, [7; 8]); (Waiting cond_full, []); (AtClock, [])] /\
    exists l, [7; 8] = [7] ++ l /\ zlength l <= 1 /\ repr (qs_queue s) l.
Proof.
  destruct (qplay crowd_order (qs_start (Q [None] 1 0 0 0) crowd)) as [s|] eqn:E; [|by vm_compute in E].
  exists s. apply qplay_steps in E as Hs. split; [exact Hs|]. vm_compute in E. injection E as <-.
  split; [reflexivity|]. split; [reflexivity|].
  destruct (queue_fifo_all_interleavings 1 (Q [None] 1 0 0 0) crowd _ ltac:(lia) eq_refl Hs) as (l & Hl & Hb & Hr & _).
  exists l. split; [exact Hl|]. split; [exact Hb|]. by apply Hr.
Defined.

(** A sender that waits when the deadline comes gives up, with the queue as it is. *)
Example queue_send_times_out :
  option_map (fun s => (qs_queue s, qs_mutex s, th_results <$> qs_threads s))
    (qplay (map (fun ret => (0%nat, ret)) [0; 0; 0; 0; 110; 0; 0; 0])
       (qs_start (Q [Some 7] 1 1 0 0) [[Send 8]])) =
  Some (Q [Some 7] 1 1 0 0, None, [[(Send 8, (PTHREAD_QUEUE_FULL, None))]]).
Proof. reflexivity. Qed.

(** The deadline of a queue operation is the clock plus the timeout, to
    the nanosecond, except when the nanoseconds add up to one second exactly:
    the test is [>] instead of [>=], and the deadline is one second early, so
    a timeout below one second has already expired.  The deadline of
    [osSemaphoreTake] is exact. *)
Theorem deadlines_exact_but_one now timeout :
  valid_ts now -> 0 <= timeout < 2 ^ 32 ->
  nanos (sem_deadline now timeout) = nanos now + timeout * 1000000 /\
  nanos (queue_deadline now timeout) = nanos now + timeout * 1000000 -
    (if tv_nsec now + timeout_nsec timeout =? 1000000000 then 1000000000 else 0).
Proof.
  intros Hv Ht. split; [by apply sem_deadline_exact|by apply queue_deadline_value].
Qed.

Lemma deadlines_exact_but_one_witness :
  nanos (queue_deadline (Ts 10 500000000) 500) = nanos (Ts 10 500000000) - 500000000.
Proof.
  destruct (deadlines_exact_but_one (Ts 10 500000000) 500) as [_ H].
  - unfold valid_ts. cbn. lia.
  - lia.
  - rewrite H. reflexivity.
Defined.

(** [osTaskDelayUntil] keeps the phase of a periodic task: when the
    period is over at the call it does not sleep and moves the reference by
    exactly one period (plus the time between its two readings of the clock);
    otherwise it sleeps the rest of the period, less than a millisecond short
    of its end and never beyond. *)
Theorem delay_until_periodic last ms c1 c2 :
  0 <= last <= c1 -> c1 <= c2 < 2 ^ 64 -> 0 <= ms < 2 ^ 32 ->
  (last + ms * 1000 < c1 /\ osTaskDelayUntil last ms c1 c2 = (None, last + ms * 1000 + (c2 - c1))) \/
  (c1 <= last + ms * 1000 /\
   exists k, osTaskDelayUntil last ms c1 c2 = (Some k, c2) /\
     0 <= k <= ms /\ c1 + k * 1000 <= last + ms * 1000 < c1 + (k + 1) * 1000).
Proof.
  intros. destruct (Z.lt_ge_cases (last + ms * 1000) c1).
  - left. split; [done|]. apply delay_until_late; lia.
  - right. split; [done|]. apply delay_until_early; lia.
Qed.

Lemma delay_until_periodic_witness :
  exists k, osTaskDelayUntil 1000 10 2500 11000 = (Some k, 11000) /\
    2500 + k * 1000 <= 1000 + 10 * 1000 < 2500 + (k + 1) * 1000.
Proof.
  destruct (delay_until_periodic 1000 10 2500 11000) as [[H _]|[_ (k & H1 & _ & H2)]].
  - lia.
  - lia.
  - lia.
  - lia.
  - exists k. split; [exact H1|exact H2].
Defined.

End QueueTheorems.
