(* ===== verification/OsThread.v ===== *)
(** * Threads on Linux

    [os/linux/osThread.c] and [os/linux/osScheduler.c]: tasks as threads of
    pthreads, whose results are fields of the state. *)
From S2P Require Import Prelude CStr.

Module OsThread.

(** A thread: the function it runs, the stack it got, its name and whether it
    has a real-time priority. *)
Record thread := Thread {
  th_id : Z;
  th_function : cstring;
  th_stack : Z;
  th_name : option cstring;
  th_priority : option Z
}.

(** What pthreads and the process offer: the result of the next calls of
    [pthread_create] (0 or an error), the least and the default stack, whether
    real-time priorities are allowed, which threads have ended. *)
Record process := Process {
  p_create : list Z;
  p_stack_min : Z;
  p_stack_default : Z;
  p_realtime : bool;
  p_ended : list Z;
  p_next : Z;
  p_threads : list thread;
  p_cancelled : list Z;
  p_exit : option Z
}.
Definition set_threads (l : list thread) (s : process) : process :=
  Process (p_create s) (p_stack_min s) (p_stack_default s) (p_realtime s) (p_ended s) (p_next s) l (p_cancelled s) (p_exit s).
Definition update_thread (id : Z) (f : thread -> thread) : M process unit :=
  modify (fun s => set_threads (map (fun t => if th_id t =? id then f t else t) (p_threads s)) s).

(** [pthread_create]: the identifier is written only when it succeeds. *)
Definition pthread_create (function : cstring) (stack : Z) : M process (Z * option Z) :=
  let! s := get in
  match p_create s with
  | rc :: rest =>
      if rc =? 0 then
        put (Process rest (p_stack_min s) (p_stack_default s) (p_realtime s) (p_ended s) (p_next s + 1)
               (p_threads s ++ [Thread (p_next s) function stack None None]) (p_cancelled s) (p_exit s)) ;!
        ret (0, Some (p_next s))
      else
        put (Process rest (p_stack_min s) (p_stack_default s) (p_realtime s) (p_ended s) (p_next s)
               (p_threads s) (p_cancelled s) (p_exit s)) ;!
        ret (rc, None)
  | [] => ret (11, None)
  end.

(** [*thread_id], which has no value when no thread was created. *)
Definition thread_of (id : option Z) : M process Z :=
  match id with Some id => ret id | None => fail Uninitialized end.

(** A stack below the least one is refused and the default stays; a name has at
    most 15 characters; the results of both calls are ignored. *)
Definition osCreateTask (function name : cstring) (size priority : Z) : M process (Z * option Z) :=
  let! s := get in
  let stack := if u16_of size <? p_stack_min s then p_stack_default s else u16_of size in
  let! '(created, thread_id) := pthread_create function stack in
  let! id := thread_of thread_id in
  (if strlen name <? 16 then
     update_thread id (fun t => Thread (th_id t) (th_function t) (th_stack t) (Some name) (th_priority t))
   else ret tt) ;!
  let! s := get in
  (if p_realtime s then
     update_thread id (fun t => Thread (th_id t) (th_function t) (th_stack t) (th_name t) (Some (i32_of priority)))
   else ret tt) ;!
  ret (created, thread_id).

(** [self] is the calling thread. *)
Definition osTaskDelete (self : Z) (task_handle : option Z) : M process unit :=
  let thread := default self task_handle in
  modify (fun s => Process (p_create s) (p_stack_min s) (p_stack_default s) (p_realtime s) (p_ended s) (p_next s)
                     (p_threads s) (p_cancelled s ++ [thread]) (p_exit s)).

(** [pthread_join] on each thread in turn, then [exit(0)]; [None] while it
    waits. *)
Fixpoint osScheduler (threads_id : list (option Z)) : M process (option unit) :=
  match threads_id with
  | [] =>
      modify (fun s => Process (p_create s) (p_stack_min s) (p_stack_default s) (p_realtime s) (p_ended s) (p_next s)
                         (p_threads s) (p_cancelled s) (Some 0)) ;!
      ret (Some tt)
  | id :: rest =>
      let! id := thread_of id in
      let! s := get in
      if bool_decide (id ∈ p_ended s) then osScheduler rest else ret None
  end.
End OsThread.

Module OsThreadTheorems.
Import OsThread.

(** The threads have identifiers below the next one. *)
Definition threads_ok (s : process) : Prop := Forall (fun t => th_id t < p_next s) (p_threads s).

Lemma update_last l t f id :
  th_id t = id -> Forall (fun t => th_id t < id) l ->
  map (fun t => if th_id t =? id then f t else t) (l ++ [t]) = l ++ [f t].
Proof.
  intros Ht Hl. rewrite map_app. cbn. rewrite Ht, Z.eqb_refl. f_equal.
  induction Hl as [|x l Hx _ IH]; cbn; [done|]. rewrite (proj2 (Z.eqb_neq _ _)) by lia. by rewrite IH.
Qed.

(** A task that can be created: one new thread with the function, the name and,
    where allowed, the priority; the stack asked for only when it is large
    enough. *)
Theorem osCreateTask_creates s rest function name size priority :
  threads_ok s -> p_create s = 0 :: rest -> strlen name < 16 ->
  exists s', osCreateTask function name size priority s = Ret ((0, Some (p_next s)), s') /\ threads_ok s' /\
    p_create s' = rest /\ p_next s' = p_next s + 1 /\
    p_threads s' = p_threads s ++
      [Thread (p_next s) function (if u16_of size <? p_stack_min s then p_stack_default s else u16_of size)
         (Some name) (if p_realtime s then Some (i32_of priority) else None)].
Proof.
  intros Hok Hc Hn. unfold osCreateTask, pthread_create, bind, get. cbv beta iota. rewrite Hc. cbn [Z.eqb].
  unfold put, ret, thread_of. rewrite (proj2 (Z.ltb_lt _ _) Hn).
  unfold update_thread, modify, set_threads. cbn. rewrite (update_last _ _ _ (p_next s)) by done.
  destruct (p_realtime s); eexists; (split; [reflexivity|]);
    unfold threads_ok; cbn; rewrite ?(update_last _ _ _ (p_next s)) by done;
    (split; [|done]); apply Forall_app; split; try (repeat constructor; cbn; lia);
    eapply Forall_impl; try exact Hok; cbn; intros; lia.
Qed.

(** One that cannot: the identifier that was not written is read for the name. *)
Theorem osCreateTask_failure s rc rest function name size priority :
  p_create s = rc :: rest -> rc <> 0 -> osCreateTask function name size priority s = Fault Uninitialized.
Proof.
  intros Hc Hrc. unfold osCreateTask, pthread_create, bind, get. cbv beta iota. rewrite Hc.
  by rewrite (proj2 (Z.eqb_neq _ _) Hrc).
Qed.

(** The program ends when the last of the threads has ended, not before. *)
Theorem osScheduler_waits s ids :
  (Forall (fun id => id ∈ p_ended s) ids ->
     exists s', osScheduler (map Some ids) s = Ret (Some tt, s') /\ p_exit s' = Some 0) /\
  (Exists (fun id => id ∉ p_ended s) ids -> osScheduler (map Some ids) s = Ret (None, s)).
Proof.
  split.
  - induction 1 as [|id ids Hid _ IH]; cbn; [by eexists|].
    unfold bind, get. cbn. by rewrite bool_decide_true.
  - induction ids as [|id ids IH]; intros He; [by apply Exists_nil in He|]. cbn. unfold bind, get. cbn.
    case_bool_decide as Hid; [|done]. apply Exists_cons in He as [He|He]; [done|by apply IH].
Qed.

End OsThreadTheorems.
