(* ===== verification/SimClock.v ===== *)
(** * The simulated clock

    [os/sim/osDelay.c]: in the simulator the time is a tick count (microseconds)
    that a driver sets with [osTaskSetTickCount]; threads that delay wait on a
    condition variable until the count has reached their target.  The accesses
    are under [tick_mutex], so each critical section is one step of a transition
    system with any number of threads. *)
From stdpp Require Import relations.
From S2P Require Import Prelude OsQueue.

Open Scope Z_scope.

Module SimClock.
Import Delay.

(** ** The state

    A call that a thread is in: [osDelay(ms)] made at tick [from], or
    [osTaskDelayUntil(&lastTime, ms)] with the [last] it was called with. *)
Inductive call :=
  | CDelay (from ms : Z)
  | CUntil (last ms : Z).

(** A thread runs; is about to enter [osDelay]; waits in [pthread_cond_wait];
    has been woken and is about to test its target again; or is about to write
    the tick count, less [back], to [*lastTime]. *)
Inductive pc :=
  | Running
  | Enter (mseconds : Z) (c : call)
  | Waiting (max_ticks_us : Z) (c : call)
  | Woken (max_ticks_us : Z) (c : call)
  | Tag (back : Z) (c : call).

(** The end of a call: the tick at which it returned and the [lastTime] it left. *)
Record event := Event { ev_thread : nat; ev_call : call; ev_tick : Z; ev_last : Z }.

Record sim := Sim {
  ticks_us : Z;
  unixtime : Z;
  pcs : gmap nat pc;
  lastTime : gmap nat Z;
  events : list event
}.
Definition pc_of (s : sim) (t : nat) : pc := default Running (pcs s !! t).
Definition last_of (s : sim) (t : nat) : Z := default 0 (lastTime s !! t).

Definition set_pc (t : nat) (p : pc) (s : sim) : sim :=
  Sim (ticks_us s) (unixtime s) (<[t := p]> (pcs s)) (lastTime s) (events s).

Definition osTaskGetTickCount (s : sim) : Z := ticks_us s.
Definition osGetTimeUnix (s : sim) : Z := unixtime s.
Definition osSetTimeUnix (time : Z) (s : sim) : sim :=
  Sim (ticks_us s) time (pcs s) (lastTime s) (events s).

Definition set_last (t : nat) (last : Z) (s : sim) : sim :=
  Sim (ticks_us s) (unixtime s) (pcs s) (<[t := last]> (lastTime s)) (events s).

(** The call of thread [t] returns. *)
Definition return_with (t : nat) (c : call) (last : Z) (s : sim) : sim :=
  Sim (ticks_us s) (unixtime s) (<[t := Running]> (pcs s)) (lastTime s)
    (events s ++ [Event t c (ticks_us s) last]).

(** The [while] of [osDelay]: wait, or go on; after it [osDelay] returns and
    [osTaskDelayUntil] has the tick count to write. *)
Definition test_ticks (t : nat) (max_ticks_us : Z) (c : call) (s : sim) : sim :=
  if ticks_us s <? max_ticks_us then set_pc t (Waiting max_ticks_us c) s
  else match c with
       | CDelay _ _ => return_with t c (last_of s t) s
       | CUntil _ _ => set_pc t (Tag 0 c) s
       end.

(** [osDelay] up to its first wait: one critical section. *)
Definition delay_for (t : nat) (mseconds : Z) (c : call) (s : sim) : sim :=
  test_ticks t (sim_wake_tick (ticks_us s) mseconds) c s.
Definition osDelay (t : nat) (mseconds : Z) (s : sim) : sim :=
  delay_for t mseconds (CDelay (ticks_us s) mseconds) s.

(** [osTaskDelayUntil] up to the second look at the clock: late, it has the
    phase to write; early, a delay to make. *)
Definition osTaskDelayUntil (t : nat) (mseconds : Z) (s : sim) : sim :=
  let c_usec := osTaskGetTickCount s in
  let last := last_of s t in
  let d_usec := tick_of (c_usec - last) in
  let s_usec := osDefineTime mseconds in
  if s_usec <? d_usec then set_pc t (Tag (tick_of (d_usec - s_usec)) (CUntil last mseconds)) s
  else set_pc t (Enter (u32_of ((s_usec - d_usec) / 1000)) (CUntil last mseconds)) s.

(** Its last line. *)
Definition tag_last (t : nat) (back : Z) (c : call) (s : sim) : sim :=
  let last := tick_of (osTaskGetTickCount s - back) in
  return_with t c last (set_last t last s).

(** [pthread_cond_broadcast] *)
Definition wake (p : pc) : pc := match p with Waiting m c => Woken m c | p => p end.
Definition osTaskSetTickCount (new_tick_us : Z) (s : sim) : sim :=
  Sim new_tick_us (unixtime s) (wake <$> pcs s) (lastTime s) (events s).

(** ** Steps

    [drive s new]: when the driver of the simulation may set the count.  A task
    starts its period by reading the count into [lastTime]. *)
Inductive step (drive : sim -> Z -> Prop) : sim -> sim -> Prop :=
  | step_first s t : pc_of s t = Running -> step drive s (set_last t (osTaskGetTickCount s) s)
  | step_delay s t ms : pc_of s t = Running -> 0 <= ms < 2 ^ 32 -> step drive s (osDelay t ms s)
  | step_until s t ms : pc_of s t = Running -> 0 <= ms < 2 ^ 32 -> step drive s (osTaskDelayUntil t ms s)
  | step_enter s t ms c : pc_of s t = Enter ms c -> step drive s (delay_for t ms c s)
  | step_test s t m c : pc_of s t = Woken m c -> step drive s (test_ticks t m c s)
  | step_spurious s t m c : pc_of s t = Waiting m c -> step drive s (set_pc t (Woken m c) s)
  | step_tag s t b c : pc_of s t = Tag b c -> step drive s (tag_last t b c s)
  | step_ticks s new : drive s new -> step drive s (osTaskSetTickCount new s)
  | step_time s time : step drive s (osSetTimeUnix time s).

(** A driver that advances the clock by one millisecond once no thread is inside
    a call other than waiting. *)
Definition settled (p : pc) : bool := match p with Running | Waiting _ _ => true | _ => false end.
Definition by_millisecond (s : sim) (new : Z) : Prop :=
  new = ticks_us s + 1000 /\ new < 2 ^ 63 /\ forall t, settled (pc_of s t) = true.

Definition sim_start : sim := Sim 0 0 ∅ ∅ [].

End SimClock.

Module SimClockLaws.
Import Delay SimClock.

Lemma pc_of_set s t p t' : pc_of (set_pc t p s) t' = if decide (t = t') then p else pc_of s t'.
Proof.
  unfold pc_of. cbn. case_decide as E; [subst; by rewrite lookup_insert_eq|by rewrite lookup_insert_ne].
Qed.
Lemma pc_of_return s t c l t' : pc_of (return_with t c l s) t' = if decide (t = t') then Running else pc_of s t'.
Proof.
  unfold pc_of. cbn. case_decide as E; [subst; by rewrite lookup_insert_eq|by rewrite lookup_insert_ne].
Qed.
Lemma pc_of_ticks s new t : pc_of (osTaskSetTickCount new s) t = wake (pc_of s t).
Proof. unfold pc_of. cbn. rewrite lookup_fmap. by destruct (pcs s !! t). Qed.
Lemma last_of_set s t l t' : last_of (set_last t l s) t' = if decide (t = t') then l else last_of s t'.
Proof.
  unfold last_of. cbn. case_decide as E; [subst; by rewrite lookup_insert_eq|by rewrite lookup_insert_ne].
Qed.

(** Every step is a change of one thread's counter, a return of one thread, a
    change of its [lastTime] or a change of the clock; an invariant that speaks
    of the threads one by one, of [lastTime] and of the returned calls is kept
    when those four keep it. *)
Section invariant.
Context (P : Z -> pc -> Prop) (L : Z -> Z -> Prop) (E : event -> Prop) (T : Z -> Prop).

Record per_thread (s : sim) : Prop := PerThread {
    pt_ticks : T (ticks_us s);
    pt_pcs : forall t, P (ticks_us s) (pc_of s t);
    pt_last : forall t, L (ticks_us s) (last_of s t);
    pt_events : Forall E (events s)
}.

Lemma per_thread_set_pc s t p : per_thread s -> P (ticks_us s) p -> per_thread (set_pc t p s).
Proof.
    intros [Ht Hp Hl He] H. split; [done| |done|done].
    intros t'. rewrite pc_of_set. by case_decide.
Qed.
Lemma per_thread_set_last s t l : per_thread s -> L (ticks_us s) l -> per_thread (set_last t l s).
Proof.
    intros [Ht Hp Hl He] H. split; [done|done| |done].
    intros t'. rewrite last_of_set. by case_decide.
Qed.
Lemma per_thread_return s t c l :
    per_thread s -> P (ticks_us s) Running -> E (Event t c (ticks_us s) l) -> per_thread (return_with t c l s).
Proof.
    intros [Ht Hp Hl He] H H'. split; [done| |done|].
    - intros t'. rewrite pc_of_return. by case_decide.
    - cbn. apply Forall_app. by split; [|apply Forall_singleton].
Qed.
Lemma per_thread_ticks s new :
    per_thread s -> T new -> (forall t, P new (wake (pc_of s t))) -> (forall t, L new (last_of s t)) ->
    per_thread (osTaskSetTickCount new s).
Proof. intros [Ht Hp Hl He] H1 H2 H3. split; try done. intros t. by rewrite pc_of_ticks. Qed.
Lemma per_thread_time s time : per_thread s -> per_thread (osSetTimeUnix time s).
Proof. by intros [Ht Hp Hl He]. Qed.
End invariant.

(** ** Whatever the driver does *)

Definition awake_pc (ticks : Z) (p : pc) : Prop :=
  match p with
  | Waiting m c => ticks < m /\ match c with CDelay from ms => m = sim_wake_tick from ms | _ => True end
  | Woken m (CDelay from ms) => m = sim_wake_tick from ms
  | Enter _ (CDelay _ _) | Tag _ (CDelay _ _) => False
  | _ => True
  end.
Definition slept (e : event) : Prop :=
  match ev_call e with CDelay from ms => sim_wake_tick from ms <= ev_tick e | CUntil _ _ => True end.
Definition awake : sim -> Prop := per_thread awake_pc (fun _ _ => True) slept (fun _ => True).

Lemma awake_start : awake sim_start.
Proof. by split. Qed.

Lemma awake_test s t m c :
  awake s -> match c with CDelay from ms => m = sim_wake_tick from ms | _ => True end ->
  awake (test_ticks t m c s).
Proof.
  intros H Hc. unfold test_ticks. destruct (_ <? _) eqn:E; bool_to_prop.
  - by apply per_thread_set_pc.
  - destruct c; [|by apply per_thread_set_pc].
    apply per_thread_return; [done|done|]. unfold slept. cbn. by subst m.
Qed.

Lemma awake_step drive s s' : step drive s s' -> awake s -> awake s'.
Proof.
  intros Hs H. pose proof (pt_pcs _ _ _ _ _ H) as Hp. destruct Hs.
  - by apply per_thread_set_last.
  - by apply awake_test.
  - unfold osTaskDelayUntil. case_match; by apply per_thread_set_pc.
  - apply awake_test; [done|]. specialize (Hp t). rewrite H0 in Hp. by destruct c.
  - apply awake_test; [done|]. specialize (Hp t). rewrite H0 in Hp. by destruct c.
  - apply per_thread_set_pc; [done|]. specialize (Hp t). rewrite H0 in Hp. cbn in *. destruct c; tauto.
  - specialize (Hp t). rewrite H0 in Hp. destruct c; [done|].
    apply per_thread_return; [|done|done]. by apply per_thread_set_last.
  - apply per_thread_ticks; [done|done| |done].
    intros t. specialize (Hp t). destruct (pc_of s t) as [| |m c| |]; cbn in *; try done. destruct c; tauto.
  - by apply per_thread_time.
Qed.

(** ** A driver that advances the clock when every thread is settled *)

(** The tick at which the call should end, and the calls short enough for the
    32-bit product of [osDelay]. *)
Definition goal_of (c : call) : Z := match c with CDelay from ms => from + ms * 1000 | CUntil last ms => last + ms * 1000 end.
Definition short (c : call) : Prop := match c with CDelay _ ms | CUntil _ ms => 0 <= ms /\ ms * 1000 < 2 ^ 32 end.

(** A count of milliseconds: a multiple of 1000 in range. *)
Definition millis (x : Z) : Prop := 0 <= x < 2 ^ 63 /\ (1000 | x).
Definition on_phase (ticks : Z) (p : pc) : Prop :=
  match p with
  | Running => True
  | Enter k c => short c -> (1000 | goal_of c) /\ 0 <= k /\ k * 1000 < 2 ^ 32 /\ ticks + k * 1000 = goal_of c
  | Waiting m c => ticks < m /\ (short c -> m = goal_of c /\ (1000 | goal_of c))
  | Woken m c => short c -> m = goal_of c /\ (1000 | goal_of c) /\ ticks <= m
  | Tag b (CDelay _ _) => False
  | Tag b (CUntil _ _ as c) => 0 <= b <= ticks /\ (1000 | b) /\ (short c -> ticks - b = goal_of c)
  end.
(** A call came back on time: [osDelay] at its tick, and [osTaskDelayUntil] with
    the old reference plus the period as the new one. *)
Definition kept_phase (e : event) : Prop :=
  short (ev_call e) ->
  match ev_call e with
  | CDelay _ _ => ev_tick e = goal_of (ev_call e)
  | CUntil _ _ => ev_last e = goal_of (ev_call e)
  end.
Definition phased : sim -> Prop :=
  per_thread on_phase (fun ticks l => millis l /\ l <= ticks) kept_phase millis.
Lemma phased_start : phased sim_start.
Proof.
  assert (millis 0) by (split; [lia|apply Z.divide_0_r]).
  split; [done|done| |constructor]. intros t. by split.
Qed.

Lemma wake_tick_exact ticks ms : 0 <= ticks < 2 ^ 63 -> 0 <= ms -> ms * 1000 < 2 ^ 32 ->
  sim_wake_tick ticks ms = ticks + ms * 1000.
Proof. intros. unfold sim_wake_tick, tick_of. rewrite u32_of_id by lia. rewrite Z.mod_small; lia. Qed.

Lemma phased_test s t m c :
  phased s -> (short c -> m = goal_of c /\ (1000 | goal_of c) /\ ticks_us s <= m) ->
  phased (test_ticks t m c s).
Proof.
  intros H Hc. destruct (pt_ticks _ _ _ _ _ H) as [Hr Hd]. unfold test_ticks. destruct (_ <? _) eqn:E; bool_to_prop.
  - apply per_thread_set_pc; [done|]. split; [done|]. intros Hs. destruct (Hc Hs) as (? & ? & ?). done.
  - destruct c as [from ms|last ms].
    + apply per_thread_return; [done|done|]. intros Hs. cbn in *. destruct (Hc Hs) as (? & ? & ?). lia.
    + apply per_thread_set_pc; [done|]. split; [lia|]. split; [apply Z.divide_0_r|].
      intros Hs. destruct (Hc Hs) as (? & ? & ?). lia.
Qed.

Lemma phased_until s t ms : phased s -> 0 <= ms < 2 ^ 32 -> phased (osTaskDelayUntil t ms s).
Proof.
  intros H Hms. destruct (pt_ticks _ _ _ _ _ H) as [Hr Hd]. destruct (pt_last _ _ _ _ _ H t) as [[Hl Hld] Hle].
  unfold osTaskDelayUntil, osTaskGetTickCount, osDefineTime, tick_of.
  rewrite (Z.mod_small (ticks_us s - last_of s t)) by lia. rewrite (Z.mod_small (ms * 1000)) by lia.
  set (d := ticks_us s - last_of s t).
  assert (Hdd : (1000 | d)) by (by apply Z.divide_sub_r).
  assert (Hds : (1000 | ms * 1000)) by (by apply Z.divide_factor_r).
  destruct (_ <? _) eqn:E; bool_to_prop; apply per_thread_set_pc; try done.
  - rewrite Z.mod_small by lia. split; [lia|]. split; [by apply Z.divide_sub_r|].
    intros _. cbn. lia.
  - intros [_ Hs]. destruct Hld as [kl Hl2], Hdd as [kd Hd2].
    assert (Ek : (ms * 1000 - d) / 1000 = ms - kd)
      by (rewrite Hd2, <- Z.mul_sub_distr_r; by apply Z.div_mul).
    rewrite Ek, u32_of_id by lia. cbn. split; [|lia].
    exists (kl + ms). lia.
Qed.

Lemma phased_tag s t b c : phased s -> pc_of s t = Tag b c -> phased (tag_last t b c s).
Proof.
  intros H Hpc. destruct (pt_ticks _ _ _ _ _ H) as [Hr Hd]. pose proof (pt_pcs _ _ _ _ _ H t) as Hb.
  rewrite Hpc in Hb. destruct c as [|last ms]; [done|]. destruct Hb as (Hb & Hbd & Hg).
  unfold tag_last, osTaskGetTickCount, tick_of. rewrite Z.mod_small by lia.
  apply per_thread_return; [apply per_thread_set_last; [done|]|done|exact Hg].
  split; [split; [lia|by apply Z.divide_sub_r]|lia].
Qed.

Lemma phased_tick s new : by_millisecond s new -> phased s -> phased (osTaskSetTickCount new s).
Proof.
  intros (-> & Hn & Hset) [[Hr Hd] Hp Hl He].
  assert (Hm : millis (ticks_us s + 1000)) by (split; [lia|apply Z.divide_add_r; [done|apply Z.divide_refl]]).
  apply per_thread_ticks; [by split|done| |].
  - intros t. specialize (Hp t). specialize (Hset t).
    destruct (pc_of s t) as [| |m c| |]; try done. destruct Hp as [Hlt Hg]. intros Hs.
    destruct (Hg Hs) as [-> Hdg]. split; [done|]. split; [done|].
    destruct Hd as [a Ha], Hdg as [b Hb]. lia.
  - intros t. destruct (Hl t) as [? ?]. split; [done|lia].
Qed.

Lemma phased_step s s' : step by_millisecond s s' -> phased s -> phased s'.
Proof.
  intros Hs H. destruct (pt_ticks _ _ _ _ _ H) as [Hr Hd]. pose proof (pt_pcs _ _ _ _ _ H) as Hp. destruct Hs.
  - apply per_thread_set_last; [done|]. by split.
  - apply phased_test; [done|]. intros [Hm Hs]. cbn. rewrite wake_tick_exact by lia.
    split; [done|]. split; [|lia]. apply Z.divide_add_r; [done|by apply Z.divide_factor_r].
  - by apply phased_until.
  - apply phased_test; [done|]. intros Hs. specialize (Hp t). rewrite H0 in Hp.
    destruct (Hp Hs) as (? & ? & ? & ?). rewrite wake_tick_exact by lia. lia || (split; [lia|]; split; [done|lia]).
  - apply phased_test; [done|]. intros Hs. specialize (Hp t). rewrite H0 in Hp. by apply Hp.
  - apply per_thread_set_pc; [done|]. specialize (Hp t). rewrite H0 in Hp. destruct Hp as [? Hg].
    intros Hs. destruct (Hg Hs). split; [done|]. split; [done|lia].
  - by apply phased_tag.
  - by apply phased_tick.
  - by apply per_thread_time.
Qed.
End SimClockLaws.

Module SimClockTheorems.
Import Delay SimClock SimClockLaws.

(** Two periods of 1 ms of thread 0: one it waits for, and one it is 1 ms late for. *)
Definition run_waits : sim :=
  delay_for 0 1 (CUntil 0 1) (osTaskDelayUntil 0 1 (set_last 0 (osTaskGetTickCount sim_start) sim_start)).
Definition run_back : sim :=
  tag_last 0 0 (CUntil 0 1) (test_ticks 0 1000 (CUntil 0 1) (osTaskSetTickCount 1000 run_waits)).
Definition run_late : sim :=
  tag_last 0 1000 (CUntil 1000 1)
    (osTaskDelayUntil 0 1 (osTaskSetTickCount 3000 (osTaskSetTickCount 2000 run_back))).
Lemma run_ticks s n :
  (exists p, pcs s = {[0%nat := p]} /\ settled p = true) -> n = ticks_us s + 1000 -> n < 2 ^ 63 ->
  rtc (step by_millisecond) s (osTaskSetTickCount n s).
Proof.
  intros (p & Hp & Hs) Hn Hb. apply rtc_once, step_ticks. split; [done|]. split; [done|].
  intros t. unfold pc_of. rewrite Hp. destruct (decide (t = 0%nat)) as [->|Hne].
  - by rewrite lookup_singleton_eq.
  - by rewrite lookup_singleton_ne.
Qed.
Lemma run_late_reached : rtc (step by_millisecond) sim_start run_late.
Proof.
  unfold run_late, run_back, run_waits.
  eapply rtc_l; [apply (step_first _ _ 0); reflexivity|].
  eapply rtc_l; [apply (step_until _ _ 0 1); [reflexivity|lia]|].
  eapply rtc_l; [apply (step_enter _ _ 0 1 (CUntil 0 1)); reflexivity|].
  etrans; [apply (run_ticks _ 1000); [eexists; split; vm_compute; reflexivity|reflexivity|lia]|].
  eapply rtc_l; [apply (step_test _ _ 0 1000 (CUntil 0 1)); reflexivity|].
  eapply rtc_l; [apply (step_tag _ _ 0 0 (CUntil 0 1)); reflexivity|].
  etrans; [apply (run_ticks _ 2000); [eexists; split; vm_compute; reflexivity|reflexivity|lia]|].
  etrans; [apply (run_ticks _ 3000); [eexists; split; vm_compute; reflexivity|reflexivity|lia]|].
  eapply rtc_l; [apply (step_until _ _ 0 1); [reflexivity|lia]|].
  apply rtc_once, step_tag. reflexivity.
Qed.

(** However the clock is driven, no thread sleeps in [osDelay] once the count
    has reached its target, and no [osDelay] returns before: the count at its
    return is at least the wrapped sum of the delay and the count at its call. *)
Theorem sim_no_lost_wakeup drive s t m c e :
  rtc (step drive) sim_start s ->
  (pc_of s t = Waiting m c -> ticks_us s < m) /\ (e ∈ events s -> slept e).
Proof.
  intros Hs. assert (H : awake s).
  { revert s Hs. apply rtc_ind_r; [apply awake_start|]. intros. by eapply awake_step. }
  destruct H as [_ Hp _ He]. split.
  - intros Hw. specialize (Hp t). rewrite Hw in Hp. apply Hp.
  - by apply Forall_forall.
Qed.

(** C28. With a driver that advances the clock by a millisecond whenever every thread
    is settled, tasks keep their phase: an [osDelay] of at most 4294967 ms ends
    exactly that long after it began, and an [osTaskDelayUntil] leaves in
    [lastTime] exactly the old reference plus the period, whether the task was
    early or late, so that a periodic task never drifts; and no thread is left
    waiting past its target. *)
Theorem sim_tasks_keep_phase s e t m c :
  rtc (step by_millisecond) sim_start s ->
  (e ∈ events s -> kept_phase e) /\ (pc_of s t = Waiting m c -> ticks_us s < m).
Proof.
  intros Hs. assert (H : phased s).
  { revert s Hs. apply rtc_ind_r; [apply phased_start|]. intros. by eapply phased_step. }
  destruct H as [_ Hp _ He]. split.
  - by apply Forall_forall.
  - intros Hw. specialize (Hp t). rewrite Hw in Hp. apply Hp.
Qed.

Lemma sim_tasks_keep_phase_witness :
  let e1 := Event 0 (CUntil 0 1) 1000 1000 in let e2 := Event 0 (CUntil 1000 1) 3000 2000 in
  events run_late = [e1; e2] /\ kept_phase e1 /\ kept_phase e2.
Proof.
  assert (E : events run_late = [Event 0 (CUntil 0 1) 1000 1000; Event 0 (CUntil 1000 1) 3000 2000]) by reflexivity.
  split; [exact E|]. split.
  - apply (sim_tasks_keep_phase run_late _ 0%nat 0 (CUntil 0 1) run_late_reached). rewrite E. constructor.
  - apply (sim_tasks_keep_phase run_late _ 0%nat 0 (CUntil 0 1) run_late_reached). rewrite E. repeat constructor.
Defined.

(** A longer [osDelay] wraps: the 32-bit product makes 4294968 ms, about 50
    days, a delay of 704 microseconds. *)
Lemma sim_long_delay_wraps s t :
  0 <= ticks_us s < 2 ^ 63 -> pc_of (osDelay t 4294968 s) t = Waiting (ticks_us s + 704) (CDelay (ticks_us s) 4294968).
Proof.
  intros H. unfold osDelay, delay_for, test_ticks, sim_wake_tick, tick_of.
  replace (u32_of (4294968 * 1000)) with 704 by reflexivity. rewrite Z.mod_small by lia.
  destruct (_ <? _) eqn:E; bool_to_prop; [|lia]. rewrite pc_of_set. replace (704 + ticks_us s) with (ticks_us s + 704) by lia. by case_decide.
Qed.

End SimClockTheorems.
