(* ===== verification/Config.v ===== *)
(** * Build configuration

    The system wide settings of [include/suchai/config.h.in], with the default
    values of [cmake] (application [simple]: RAM or FLASH storage, no triple
    writing, node 1), and the return codes of the storage system and of the
    commands. *)
From S2P Require Import Prelude.

(** Communications *)
Definition SCH_TRX_PORT_FILE : Z := 9.
Definition SCH_TRX_PORT_TC : Z := 10.
Definition SCH_TRX_PORT_RPT : Z := 11.
Definition SCH_TRX_PORT_CMD : Z := 12.
Definition SCH_TRX_PORT_DBG : Z := 13.
Definition SCH_TRX_PORT_DBG_TM : Z := 14.
Definition SCH_TRX_PORT_TM : Z := 15.
Definition SCH_TRX_PORT_APP : Z := 15.
Definition SCH_COMM_NODE : Z := 1.
Definition SCH_COM_MAX_PACKETS : Z := 10.

(** Watchdog *)
Definition SCH_MAX_WDT_TIMER : Z := 60.
Definition SCH_MAX_GND_WDT_TIMER : Z := 48 * 3600.

(** Repositories *)
Definition SCH_CMD_QUEUE_LEN : Z := 50.
Definition SCH_FP_MAX_ENTRIES : Z := 255.
Definition SCH_CMD_MAX_ENTRIES : Z := 255.
Definition SCH_SECTIONS_PER_PAYLOAD : Z := 10.
Definition SCH_SIZE_PER_SECTION : Z := 256 * 1024.
Definition SCH_FLASH_INIT_MEMORY : Z := 0 * SCH_SIZE_PER_SECTION.
Definition SCH_BUFF_MAX_LEN : Z := 256.
Definition SCH_CMD_MAX_STR_PARAMS : Z := 248.
Definition SCH_CMD_MAX_STR_NAME : Z := 248.

(** Return codes *)
Definition SCH_ST_OK : Z := 0.
Definition SCH_ST_ERROR : Z := -1.
Definition SCH_ST_STR_SIZE : Z := 128.
Definition CMD_OK : Z := 1.
Definition CMD_ERROR : Z := 0.
Definition CMD_SYNTAX_ERROR : Z := -1.

(** Time of a free flight plan slot. *)
Definition ST_FP_NULL : Z := -1.
