(* ===== verification/MathUtils.v ===== *)
(** * Quaternions, vectors and matrices

    [src/lib/utils/math_utils.c].  The type of the numbers is a parameter with
    the operations the code uses: the definitions run on rationals and the
    theorems on rotations and inverses are about real numbers, that is, about
    the formulas and not about the rounding of [double].  The theorems on the
    loops over arrays hold for any arithmetic, with the additions in the order
    of the code.

    Arrays are lists, row by row; an access outside an array is a fault.  A
    result parameter is an argument with its old contents, and a call returns
    the new contents; arguments and results are distinct objects.  [junk]
    stands for the contents of local variables that are not initialised. *)
From S2P Require Import Prelude CStr.

(** ** Numbers *)
Class Num (K : Type) := {
  nadd : K -> K -> K;
  nsub : K -> K -> K;
  nmul : K -> K -> K;
  ndiv : K -> K -> K;
  nopp : K -> K;
  nsqrt : K -> K;
  nsin : K -> K;
  ncos : K -> K;
  nacos : K -> K;
  nltb : K -> K -> bool;
  nleb : K -> K -> bool;
  neqb : K -> K -> bool;
  (** The literals of the code: a quotient of integers. *)
  nlit : Z -> Z -> K
}.

(** Conversions of a [double]. *)
Class Double (K : Type) := {
  of_f32 : Z -> K;                          (** [(double)v.f], from the bits *)
  to_f32 : K -> Z;                          (** the bits of [(float)x] *)
  print_lf : K -> cstring;                  (** [%lf], also [%.06f] *)
  scan_lf : cstring -> option (K * cstring); (** [%lf], after white space *)
  ntrunc : K -> Z;                          (** [(int)x] *)
  nfloor : K -> Z                           (** [floor(x)] *)
}.

(** A [float] has 32 bits. *)
Class DoubleLaws (K : Type) `{Double K} : Prop := {
  to_f32_range : forall x, 0 <= to_f32 x < 2 ^ 32
}.

Declare Scope num_scope.
Delimit Scope num_scope with num.
Infix "+" := nadd : num_scope.
Infix "-" := nsub : num_scope.
Infix "*" := nmul : num_scope.
Infix "/" := ndiv : num_scope.
Notation "- x" := (nopp x) : num_scope.

Module MathUtils.

Record quaternion (K : Type) := Quat { q0 : K; q1 : K; q2 : K; q3 : K }.
Arguments Quat {K}. Arguments q0 {K}. Arguments q1 {K}. Arguments q2 {K}. Arguments q3 {K}.
Record vector3 (K : Type) := Vec { v0 : K; v1 : K; v2 : K }.
Arguments Vec {K}. Arguments v0 {K}. Arguments v1 {K}. Arguments v2 {K}.

Section defs.
Context {K : Type} `{Num K}.
Local Open Scope num_scope.

Definition zero : K := nlit 0 1.
Definition one : K := nlit 1 1.
Definition two : K := nlit 2 1.
Definition sq (x : K) : K := x * x.

Definition std_rw_w : K := nlit 1 1000.
Definition std_rn_w : K := nlit 1 1000.
Definition std_rn_mag : K := nlit 1 1000.

(** ** Quaternions: [q0 i + q1 j + q2 k + q3] *)
Definition quat_map (f : K -> K) (q : quaternion K) : quaternion K := Quat (f (q0 q)) (f (q1 q)) (f (q2 q)) (f (q3 q)).

Definition quat_sum (a b : quaternion K) : quaternion K :=
  Quat (q0 a + q0 b) (q1 a + q1 b) (q2 a + q2 b) (q3 a + q3 b).

Definition quat_mult (l r : quaternion K) : quaternion K :=
  Quat (q3 l * q0 r - q2 l * q1 r + q1 l * q2 r + q0 l * q3 r)
       (q2 l * q0 r + q3 l * q1 r - q0 l * q2 r + q1 l * q3 r)
       (- q1 l * q0 r + q0 l * q1 r + q3 l * q2 r + q2 l * q3 r)
       (- q0 l * q0 r - q1 l * q1 r - q2 l * q2 r + q3 l * q3 r).

(** The sum of squares, in the order of the loop. *)
Definition quat_norm2 (q : quaternion K) : K := zero + sq (q0 q) + sq (q1 q) + sq (q2 q) + sq (q3 q).

(** [None]: nothing is written. *)
Definition quat_normalize (q : quaternion K) : option (quaternion K) :=
  let n := quat_norm2 q in
  if neqb n zero then None else
  let n := one / nsqrt n in
  Some (quat_map (fun x => x * n) q).

Definition quat_conjugate (q : quaternion K) : quaternion K := Quat (- q0 q) (- q1 q) (- q2 q) (q3 q).

(** The normalised quaternion is a local variable. *)
Definition quat_inverse (q junk : quaternion K) : quaternion K :=
  quat_conjugate (default junk (quat_normalize q)).

Definition quat_frame_conv (q_rot_a2b : quaternion K) (v_a : vector3 K) : vector3 K :=
  let q_conj := quat_conjugate q_rot_a2b in
  let temp := quat_mult q_conj (Quat (v0 v_a) (v1 v_a) (v2 v_a) zero) in
  let res := quat_mult temp q_rot_a2b in
  Vec (q0 res) (q1 res) (q2 res).

Definition quat_to_dcm (q : quaternion K) : list K :=
  let '(Quat q1 q2 q3 q4) := q in
  [sq q1 - sq q2 - sq q3 + sq q4; two * (q1 * q2 + q3 * q4); two * (q1 * q3 - q2 * q4);
   two * (q1 * q2 - q3 * q4); nlit (-1) 1 * sq q1 + sq q2 - sq q3 + sq q4; two * (q2 * q3 + q1 * q4);
   two * (q1 * q3 + q2 * q4); two * (q2 * q3 - q1 * q4); nlit (-1) 1 * sq q1 - sq q2 + sq q3 + sq q4].

(** ** Vectors *)
Definition vec_map (f : K -> K) (v : vector3 K) : vector3 K := Vec (f (v0 v)) (f (v1 v)) (f (v2 v)).

Definition axis_rotation_to_quat (axis : vector3 K) (rot : K) : quaternion K :=
  let rot := rot * nlit 1 2 in
  Quat (v0 axis * nsin rot) (v1 axis * nsin rot) (v2 axis * nsin rot) (ncos rot).

Definition vec_norm (v : vector3 K) : K := nsqrt (zero + sq (v0 v) + sq (v1 v) + sq (v2 v)).

Definition vec_cons_mult (a : K) (v : vector3 K) : vector3 K := vec_map (fun x => x * a) v.

Definition vec_to_quat (axis : vector3 K) : quaternion K :=
  let rot := vec_norm axis in
  axis_rotation_to_quat (vec_cons_mult (one / rot) axis) rot.

(** [None] when the result is 0 and nothing is written. *)
Definition vec_normalize (v : vector3 K) : option (vector3 K) :=
  let n := vec_norm v in
  if neqb n zero then None else Some (vec_map (fun x => x * (one / n)) v).

Definition vec_inner_product (l r : vector3 K) : K := zero + v0 l * v0 r + v1 l * v1 r + v2 l * v2 r.

Definition vec_outer_product (l r : vector3 K) : vector3 K :=
  Vec (v1 l * v2 r - v2 l * v1 r) (v2 l * v0 r - v0 l * v2 r) (v0 l * v1 r - v1 l * v0 r).

Definition vec_angle (a b : vector3 K) : K := nacos (vec_inner_product a b / (vec_norm a * vec_norm b)).

Definition vec_sum (l r : vector3 K) : vector3 K := Vec (v0 l + v0 r) (v1 l + v1 r) (v2 l + v2 r).

(** The loop runs over three of the four components: the scalar of the result
    is what it was. *)
Definition quat_cons_mult (a : K) (q res : quaternion K) : quaternion K :=
  Quat (q0 q * a) (q1 q * a) (q2 q * a) (q3 res).

(** ** Arrays *)
Context {S : Type}.

Definition _mat_cons_mult (a : K) (mat res : list K) (n_x n_y : Z) : M S (list K) :=
  fold_m (range (n_x * n_y)%Z) (fun res i =>
    let! x := arr_get mat i in arr_set res i (x * a)) res.

(** With a null result the array itself is scaled. *)
Definition _mat_cons_mult_null (a : K) (mat : list K) (n_x n_y : Z) : M S (list K) :=
  fold_m (range (n_x * n_y)%Z) (fun mat i =>
    let! x := arr_get mat i in arr_set mat i (x * a)) mat.

Definition _mat_vec_mult (mat vec res : list K) (n_x n_y : Z) : M S (list K) :=
  fold_m (range n_x) (fun res i =>
    let! res := arr_set res i zero in
    fold_m (range n_y) (fun res j =>
      let mati := (i * n_y + j)%Z in
      let! r := arr_get res i in
      let! m := arr_get mat mati in
      let! v := arr_get vec j in
      arr_set res i (r + m * v)) res) res.

Definition _mat_mat_mult (lhs rhs res : list K) (n_x n_y n_z : Z) : M S (list K) :=
  fold_m (range n_x) (fun res i =>
    fold_m (range n_z) (fun res k =>
      let ires := (i * n_z + k)%Z in
      let! res := arr_set res ires zero in
      fold_m (range n_y) (fun res j =>
        let il := (i * n_y + j)%Z in
        let ir := (j * n_z + k)%Z in
        let! r := arr_get res ires in
        let! x := arr_get lhs il in
        let! y := arr_get rhs ir in
        arr_set res ires (r + x * y)) res) res) res.

Definition _mat_mat_sum (lhs rhs res : list K) (n_x n_y : Z) : M S (list K) :=
  fold_m (range (n_x * n_y)%Z) (fun res i =>
    let! x := arr_get lhs i in
    let! y := arr_get rhs i in
    arr_set res i (x + y)) res.

Definition _mat_transpose (mat res : list K) (n_x n_y : Z) : M S (list K) :=
  fold_m (range n_x) (fun res i =>
    fold_m (range n_y) (fun res j =>
      let index := (n_y * i + j)%Z in
      let index_t := (n_x * j + i)%Z in
      let! x := arr_get mat index in
      arr_set res index_t x) res) res.

(** The rows are taken to be [matx] and [resx] long. *)
Definition _mat_copy (mat res : list K) (matx maty resx resy p_i p_j : Z) : M S (list K) :=
  fold_m (range matx) (fun res i =>
    fold_m (range maty) (fun res j =>
      let i_mat := (matx * i + j)%Z in
      let i_res := (resx * (i + p_i) + j + p_j)%Z in
      let! x := arr_get mat i_mat in
      arr_set res i_res x) res) res.

Definition _mat_set_diag (m : list K) (val : K) (n_x n_y : Z) : M S (list K) :=
  fold_m (range n_x) (fun m i =>
    fold_m (range n_y) (fun m j =>
      let mi := (i * n_y + j)%Z in
      arr_set m mi (if Z.eqb i j then val else zero)) m) m.

(** ** Matrices of 3 x 3 and 4 x 4 *)
Definition vec_list (v : vector3 K) : list K := [v0 v; v1 v; v2 v].
Definition quat_list (q : quaternion K) : list K := [q0 q; q1 q; q2 q; q3 q].
Definition vec_of (l : list K) : M S (vector3 K) :=
  match l with [x; y; z] => ret (Vec x y z) | _ => fail OutOfBounds end.
Definition quat_of (l : list K) : M S (quaternion K) :=
  match l with [x; y; z; w] => ret (Quat x y z w) | _ => fail OutOfBounds end.

Definition mat_vec_mult (mat : list K) (vec res : vector3 K) : M S (vector3 K) :=
  let! l := _mat_vec_mult mat (vec_list vec) (vec_list res) 3 3 in vec_of l.
Definition mat_quat_mult (mat : list K) (vec res : quaternion K) : M S (quaternion K) :=
  let! l := _mat_vec_mult mat (quat_list vec) (quat_list res) 4 4 in quat_of l.
Definition mat_mat_mult (lhs rhs res : list K) : M S (list K) := _mat_mat_mult lhs rhs res 3 3 3.
Definition mat_mat_sum (lhs rhs res : list K) : M S (list K) := _mat_mat_sum lhs rhs res 3 3.
Definition mat_transpose (mat res : list K) : M S (list K) := _mat_transpose mat res 3 3.

Definition mat_set_diag (a b c : K) : list K :=
  [a; zero; zero; zero; b; zero; zero; zero; c].
Definition mat_set_diag4x (a b c d : K) : list K :=
  [a; zero; zero; zero; zero; b; zero; zero; zero; zero; c; zero; zero; zero; zero; d].
Definition mat_cons_mult (a : K) (m : list K) : list K := map (fun x => x * a) m.

(** The diagonal is not written. *)
Definition mat_skew (v : vector3 K) (res : list K) : M S (list K) :=
  let! res := arr_set res 3 (v2 v) in
  let! res := arr_set res 6 (nlit (-1) 1 * v1 v) in
  let! res := arr_set res 1 (nlit (-1) 1 * v2 v) in
  let! res := arr_set res 2 (v1 v) in
  let! res := arr_set res 7 (v0 v) in
  arr_set res 5 (nlit (-1) 1 * v0 v).

Definition nabs (x : K) : K := if nltb x zero then - x else x.

Definition mat_inverse (mat : list K) : M S (list K) :=
  match mat with
  | [a; b; c; d; e; f; g; h; i] =>
      let A := e * i - f * h in
      let B := nlit (-1) 1 * (d * i - f * g) in
      let C := d * h - e * g in
      let D := nlit (-1) 1 * (b * i - c * h) in
      let E := a * i - c * g in
      let F := nlit (-1) 1 * (a * h - b * g) in
      let G := b * f - c * e in
      let H := nlit (-1) 1 * (a * f - c * d) in
      let I := a * e - b * d in
      let detmat := a * A + b * B + c * C in
      if negb (nleb (nlit 1 (10 ^ 25)) (nabs detmat)) then fail AssertFail else
      ret [A / detmat; D / detmat; G / detmat; B / detmat; E / detmat; H / detmat; C / detmat; F / detmat; I / detmat]
  | _ => fail OutOfBounds
  end.

(** ** Attitude matrix to quaternion *)
Definition abs_double (x : K) : K := nsqrt (sq x).

(** The index of the largest component: the first one, when none is greater
    than zero. *)
Definition max_index (q : quaternion K) : Z :=
  snd (foldl (fun '(maxval, maxidx) '(i, x) =>
    if nltb maxval (abs_double x) then (abs_double x, i) else (maxval, maxidx))
    (zero, 0%Z) [(0%Z, q0 q); (1%Z, q1 q); (2%Z, q2 q); (3%Z, q3 q)]).

Definition quat_from_dcm (dcm : list K) : M S (quaternion K) :=
  match dcm with
  | [m00; m01; m02; m10; m11; m12; m20; m21; m22] =>
      let half x := nsqrt x / two in
      let four := nlit 4 1 in
      let q := Quat (half (one + m00 - m11 - m22)) (half (one - m00 + m11 - m22))
                    (half (one - m00 - m11 + m22)) (half (one + m00 + m11 + m22)) in
      ret (match max_index q with
           | 0%Z => Quat (q0 q) ((m01 + m10) / (four * q0 q)) ((m02 + m20) / (four * q0 q)) ((m12 - m21) / (four * q0 q))
           | 1%Z => Quat ((m01 + m10) / (four * q1 q)) (q1 q) ((m21 + m12) / (four * q1 q)) ((m20 - m02) / (four * q1 q))
           | 2%Z => Quat ((m20 + m02) / (four * q2 q)) ((m21 + m12) / (four * q2 q)) (q2 q) ((m01 - m10) / (four * q2 q))
           | 3%Z => Quat ((m12 - m21) / (four * q3 q)) ((m20 - m02) / (four * q3 q)) ((m01 - m10) / (four * q3 q)) (q3 q)
           | _ => q
           end)
  | _ => fail OutOfBounds
  end.

(** ** Error-state Kalman filter *)
Definition eskf_integrate (q : quaternion K) (omega : vector3 K) (dt : K) : quaternion K :=
  quat_mult q (vec_to_quat (vec_cons_mult dt omega)).

(** Writes a 3 x 3 block of a 6 x 6 matrix. *)
Definition block6 (temp mat : list K) (p_i p_j : Z) : M S (list K) := _mat_copy temp mat 3 3 6 6 p_i p_j.

(** The results are the new [P] and [Q]. *)
Definition eskf_compute_error (omega : vector3 K) (dt : K) (P Q : list K) (junk6 junk3 : list K)
  : M S (list K * list K) :=
  let rwb := quat_to_dcm (vec_to_quat (vec_cons_mult dt omega)) in
  let! temp := mat_transpose rwb junk3 in
  let! F := block6 temp junk6 0 0 in
  let diag_val := nlit (-1) 1 * dt in
  let! F := block6 (mat_set_diag diag_val diag_val diag_val) F 0 3 in
  let! F := block6 (mat_set_diag zero zero zero) F 3 0 in
  let! F := block6 (mat_set_diag one one one) F 3 3 in
  let val00 := sq std_rn_w * sq dt in
  let val11 := sq std_rw_w * dt in
  let! Q := block6 (mat_set_diag val00 val00 val00) Q 0 0 in
  let! Q := block6 (mat_set_diag zero zero zero) Q 0 3 in
  let! Q := block6 (mat_set_diag zero zero zero) Q 3 0 in
  let! Q := block6 (mat_set_diag val11 val11 val11) Q 3 3 in
  let! Ft := _mat_transpose F junk6 6 6 in
  let! FP := _mat_mat_mult F P junk6 6 6 6 in
  let! FPFt := _mat_mat_mult FP Ft junk6 6 6 6 in
  let! P := _mat_mat_sum FPFt Q P 6 6 in
  ret (P, Q).

(** The Jacobian: a 3 x 6 matrix filled with [resx = 3]. *)
Definition mag_jacobian (mag_b : vector3 K) (junk3 junk18 : list K) : M S (list K) :=
  let! temp := mat_skew mag_b junk3 in
  let! Hm := _mat_copy temp junk18 3 3 3 6 0 0 in
  _mat_copy (mat_set_diag zero zero zero) Hm 3 3 3 6 0 3.

(** [P1] is computed but not copied to [P].  The results are the new [R], [q]
    and [wb]. *)
Definition eskf_update_mag (mag_sensor mag_i : vector3 K) (P R : list K) (q : quaternion K) (wb : vector3 K)
    (junk3 junk6 junk18 junk36 : list K) (junkv : vector3 K) : M S (list K * quaternion K * vector3 K) :=
  let mag_i := default mag_i (vec_normalize mag_i) in
  let rwb := quat_to_dcm q in
  let! mag_b := mat_vec_mult rwb mag_i junkv in
  let! Hm := mag_jacobian mag_b junk3 junk18 in
  let! Ht := _mat_transpose Hm junk18 3 6 in
  let! PHt := _mat_mat_mult P Ht junk18 6 6 3 in
  let! S1 := _mat_mat_mult Hm PHt junk3 3 6 3 in
  let rval := sq std_rn_mag in
  let R := mat_set_diag rval rval rval in
  let! Sm := mat_mat_sum S1 R junk3 in
  let! SI := mat_inverse Sm in
  let! Km := _mat_mat_mult PHt SI junk18 6 3 3 in
  let nmag_b := vec_cons_mult (nlit (-1) 1) mag_b in
  let y := vec_sum mag_sensor nmag_b in
  let! dx := _mat_mat_mult Km (vec_list y) junk6 6 3 1 in
  let! I6 := _mat_set_diag junk36 one 6 6 in
  let! KH := _mat_mat_mult Km Hm junk36 6 3 6 in
  let! KH := _mat_cons_mult_null (nlit (-1) 1) KH 6 6 in
  let! IKH := _mat_mat_sum I6 KH junk36 6 6 in
  let! P1 := _mat_mat_mult IKH P junk36 6 6 6 in
  match dx with
  | [d0; d1; d2; d3; d4; d5] =>
      let dq := vec_to_quat (Vec d0 d1 d2) in
      ret (R, quat_mult q dq, vec_sum wb (Vec d3 d4 d5))
  | _ => fail OutOfBounds
  end.

End defs.
End MathUtils.
