(* ===== verification/MathLoops.v ===== *)
(** * The loops over matrices

    What the loops of MathUtils compute, for any arithmetic: each entry of the
    result, with the additions from left to right as in the code. *)
From S2P Require Import Prelude MathUtils.

Module MathLoops.
Import MathUtils.

Section loops.
Context {K : Type} `{Num K} {S : Type}.
Implicit Types (l res : list K) (s : S).

(** Two nested loops are one loop over pairs. *)
Definition pairs (n m : Z) : list (Z * Z) := concat (map (fun i => map (pair i) (range m)) (range n)).

Lemma elem_of_pairs n m i j : (i, j) ∈ pairs n m <-> 0 <= i < n /\ 0 <= j < m.
Proof.
  unfold pairs, range. rewrite list_elem_of_In, in_concat. split.
  - intros (x & (i' & <- & Hi)%in_map_iff & (j' & [= -> ->] & Hj)%in_map_iff).
    apply list_elem_of_In, elem_of_seqZ in Hi. apply list_elem_of_In, elem_of_seqZ in Hj. lia.
  - intros [Hi Hj]. exists (map (pair i) (seqZ 0 m)). split; apply in_map_iff.
    + exists i. split; [done|]. apply list_elem_of_In, elem_of_seqZ. lia.
    + exists j. split; [done|]. apply list_elem_of_In, elem_of_seqZ. lia.
Qed.

Lemma NoDup_pairs n m : NoDup (pairs n m).
Proof.
  unfold pairs, range. assert (NoDup (seqZ 0 n)) as Hn by apply NoDup_seqZ. induction Hn as [|i l Hi Hn IH]; [constructor|].
  cbn [map concat]. apply NoDup_app. split; [|split; [|exact IH]].
  - apply NoDup_fmap_2; [by intros ? ? [= ->]|apply NoDup_seqZ].
  - intros [i' j'] Hx Hy. apply list_elem_of_In, in_map_iff in Hx as (j & [= -> ->] & _).
    apply list_elem_of_In, in_concat in Hy as (x & (i2 & <- & Hi2)%in_map_iff & (j2 & [= -> _] & _)%in_map_iff).
    apply Hi. by apply list_elem_of_In.
Qed.

Lemma fold_m_app {X A} (xs ys : list X) (body : A -> X -> M S A) a s :
  fold_m (xs ++ ys) body a s = bind (fold_m xs body a) (fun a => fold_m ys body a) s.
Proof.
  revert a s. induction xs as [|x xs IH]; intros a s; [done|]. cbn [app fold_m]. unfold bind in *.
  destruct (body a x s) as [[a' s']|]; [apply IH|done].
Qed.

Lemma fold_m_map {X Y A} (f : Y -> X) (ys : list Y) (body : A -> X -> M S A) a s :
  fold_m (map f ys) body a s = fold_m ys (fun a y => body a (f y)) a s.
Proof. revert a s. induction ys as [|y ys IH]; intros a s; [done|]. cbn. unfold bind. by destruct (body a (f y) s) as [[? ?]|]. Qed.

Lemma fold_m_ext {X A} (xs : list X) (b1 b2 : A -> X -> M S A) a s :
  (forall a x s, b1 a x s = b2 a x s) -> fold_m xs b1 a s = fold_m xs b2 a s.
Proof.
  intros Hb. revert a s. induction xs as [|x xs IH]; intros a s; [done|]. cbn. unfold bind. rewrite Hb.
  by destruct (b2 a x s) as [[? ?]|].
Qed.

Lemma fold_nested {A} n m (body : A -> Z -> Z -> M S A) a s :
  fold_m (range n) (fun a i => fold_m (range m) (fun a j => body a i j) a) a s =
  fold_m (pairs n m) (fun a p => body a (fst p) (snd p)) a s.
Proof.
  unfold pairs. revert a s. induction (range n) as [|i l IH]; intros a s; [done|].
  cbn [fold_m map concat]. rewrite fold_m_app. unfold bind. rewrite fold_m_map.
  destruct (fold_m (range m) _ a s) as [[a' s']|]; [apply IH|done].
Qed.

(** A loop that writes one cell per turn: the cells it names have their
    values, the others are as before. *)
Lemma fill_loop {X} (xs : list X) (f : X -> Z) (v : X -> K) (body : list K -> X -> M S (list K)) N : forall res s,
  (forall res x s, x ∈ xs -> zlength res = N -> body res x s = Ret (zinsert res (f x) (v x), s)) ->
  NoDup (map f xs) -> (forall x, x ∈ xs -> 0 <= f x < N) -> zlength res = N ->
  exists res', fold_m xs body res s = Ret (res', s) /\ zlength res' = N /\
    (forall x, x ∈ xs -> zlookup res' (f x) = Some (v x)) /\
    (forall k, (forall x, x ∈ xs -> f x <> k) -> zlookup res' k = zlookup res k).
Proof.
  induction xs as [|x xs IH]; intros res s Hb Hnd Hr Hl; cbn [fold_m].
  { exists res. splits; try done. intros x Hx. by apply elem_of_nil in Hx. }
  cbn in Hnd. apply NoDup_cons in Hnd as [Hx Hnd].
  rewrite (bind_step _ _ _ _ _ (Hb res x s ltac:(left) Hl)).
  assert (forall y, y ∈ xs -> f y <> f x) as Hne.
  { intros y Hy E. apply Hx. rewrite <- E. by apply list_elem_of_In, in_map, list_elem_of_In. }
  destruct (IH (zinsert res (f x) (v x)) s) as (res' & E & Hl' & Hv & Ho).
  - intros. apply Hb; [by right|done].
  - done.
  - intros y Hy. apply Hr. by right.
  - by rewrite zlength_zinsert.
  - exists res'. split; [exact E|]. split; [exact Hl'|]. split.
    + intros y [->|Hy]%elem_of_cons; [|by apply Hv]. rewrite Ho by done.
      apply zlookup_zinsert_eq. rewrite Hl. apply Hr. left.
    + intros k Hk. rewrite Ho by (intros y Hy; apply Hk; by right).
      apply zlookup_zinsert_ne. apply Hk. left.
Qed.

(** The sum of [f 0], ..., [f (n - 1)] added to [a], from left to right. *)
Definition sum_from (a : K) (f : Z -> K) (n : Z) : K := foldl (fun a j => nadd a (f j)) a (range n).

(** The entry in row [i] and column [j]. *)
Definition entry (mat : list K) (n_y i j : Z) : K := default zero (zlookup mat (i * n_y + j)).

Lemma entry_get (mat : list K) n_x n_y i j s :
  zlength mat = n_x * n_y -> 0 <= i < n_x -> 0 <= j < n_y ->
  arr_get mat (i * n_y + j) s = Ret (entry mat n_y i j, s).
Proof.
  intros Hl Hi Hj. destruct (zlookup_lt mat (i * n_y + j)) as [x Hx]; [rewrite Hl; nia|].
  unfold entry. rewrite Hx. by apply arr_get_Some.
Qed.

(** Accumulating into one cell. *)
Lemma accumulate xs (k : Z) (g : Z -> K) (step : list K -> Z -> M S (list K)) : forall (a : K) res s,
  (forall res j s a, j ∈ xs -> zlookup res k = Some a -> step res j s = Ret (zinsert res k (nadd a (g j)), s)) ->
  0 <= k < zlength res -> zlookup res k = Some a ->
  fold_m xs step res s = Ret (zinsert res k (foldl (fun a j => nadd a (g j)) a xs), s).
Proof.
  induction xs as [|j xs IH]; intros a res s Hs Hk Ha; cbn [fold_m foldl].
  { unfold ret. do 2 f_equal. unfold zlookup in Ha. unfold zinsert. destruct (k <? 0); [done|].
    by rewrite list_insert_id. }
  rewrite (bind_step _ _ _ _ _ (Hs res j s a ltac:(left) Ha)).
  rewrite (IH (nadd a (g j))); [|intros; apply Hs; [by right|done]|by rewrite zlength_zinsert|by apply zlookup_zinsert_eq].
  do 2 f_equal. unfold zinsert. destruct (k <? 0); [done|]. by rewrite list_insert_insert_eq.
Qed.

Lemma cells_NoDup (g : Z -> Z -> Z) n m :
  (forall i j i' j', 0 <= i < n -> 0 <= j < m -> 0 <= i' < n -> 0 <= j' < m -> g i j = g i' j' -> i = i' /\ j = j') ->
  NoDup (map (fun p => g (fst p) (snd p)) (pairs n m)).
Proof.
  intros Hg. apply NoDup_fmap_2_strong; [|apply NoDup_pairs].
  intros [i j] [i' j'] Hp%elem_of_pairs Hq%elem_of_pairs E. cbn in E.
  destruct (Hg i j i' j') as [-> ->]; try done; tauto.
Qed.

Lemma row_major_inj m i j i' j' : 0 <= j < m -> 0 <= j' < m -> i * m + j = i' * m + j' -> i = i' /\ j = j'.
Proof. intros Hj Hj' E. assert (i = i') as -> by nia. lia. Qed.

End loops.

(** ** Theorems *)
Section theorems.
Context {K : Type} `{Num K} {S : Type}.
Implicit Types (s : S).

(** [_mat_mat_mult] is the matrix product: for an [n_x] by [n_y] and an
    [n_y] by [n_z] matrix it stays inside the arrays, and entry [(i, k)] of the
    result is the sum of the products of row [i] and column [k], added from
    left to right, whatever the result array held before. *)
Theorem mat_mat_mult_product (lhs rhs res : list K) n_x n_y n_z s :
  0 <= n_x -> 0 <= n_y -> 0 <= n_z ->
  zlength lhs = n_x * n_y -> zlength rhs = n_y * n_z -> zlength res = n_x * n_z ->
  exists res', _mat_mat_mult lhs rhs res n_x n_y n_z s = Ret (res', s) /\ zlength res' = n_x * n_z /\
    forall i k, 0 <= i < n_x -> 0 <= k < n_z ->
      zlookup res' (i * n_z + k) = Some (sum_from zero (fun j => nmul (entry lhs n_y i j) (entry rhs n_z j k)) n_y).
Proof.
  intros Hx Hy Hz Hl Hr Hres. unfold _mat_mat_mult. rewrite fold_nested.
  destruct (fill_loop (pairs n_x n_z) (fun p => fst p * n_z + snd p)
    (fun p => sum_from zero (fun j => nmul (entry lhs n_y (fst p) j) (entry rhs n_z j (snd p))) n_y) 
    (fun res p => let! res := arr_set res (fst p * n_z + snd p) zero in
       fold_m (range n_y) (fun res j => let! r := arr_get res (fst p * n_z + snd p) in
         let! x := arr_get lhs (fst p * n_y + j) in let! y := arr_get rhs (j * n_z + snd p) in
         arr_set res (fst p * n_z + snd p) (nadd r (nmul x y))) res) (n_x * n_z) res s)
    as (res' & E & Hl' & Hv & _).
  - intros l [i k] t [Hi Hk]%elem_of_pairs Hll. cbn [fst snd]. assert (0 <= i * n_z + k < zlength l) as Hb by (rewrite Hll; nia).
    rewrite (bind_step _ _ _ _ _ (arr_set_ok l _ zero t Hb)).
    rewrite (accumulate (range n_y) (i * n_z + k) (fun j => nmul (entry lhs n_y i j) (entry rhs n_z j k)) _ zero).
    + do 2 f_equal. unfold zinsert. rewrite (proj2 (Z.ltb_ge _ 0)) by lia. by rewrite list_insert_insert_eq.
    + intros l2 j t2 a Hj%elem_of_seqZ Ha. rewrite (bind_step _ _ _ _ _ (arr_get_Some _ _ _ t2 Ha)).
      rewrite (bind_step _ _ _ _ _ (entry_get lhs n_x n_y i j t2 Hl Hi ltac:(lia))).
      rewrite (bind_step _ _ _ _ _ (entry_get rhs n_y n_z j k t2 Hr ltac:(lia) Hk)).
      apply arr_set_ok. by apply zlookup_Some_lt in Ha.
    + by rewrite zlength_zinsert.
    + by apply zlookup_zinsert_eq.
  - apply (cells_NoDup (fun i k => i * n_z + k)). intros i j i' j' _ Hj _ Hj'. by apply row_major_inj.
  - intros [i k] [Hi Hk]%elem_of_pairs. cbn [fst snd]. nia.
  - done.
  - exists res'. split; [exact E|]. split; [exact Hl'|]. intros i k Hi Hk.
    apply (Hv (i, k)). apply elem_of_pairs. done.
Qed.

(** The transpose of an [n_x] by [n_y] matrix. *)
Lemma transpose_ok (mat res : list K) n_x n_y s :
  0 <= n_x -> 0 <= n_y -> zlength mat = n_x * n_y -> zlength res = n_x * n_y ->
  exists res', _mat_transpose mat res n_x n_y s = Ret (res', s) /\ zlength res' = n_x * n_y /\
    forall i j, 0 <= i < n_x -> 0 <= j < n_y -> zlookup res' (j * n_x + i) = Some (entry mat n_y i j).
Proof.
  intros Hx Hy Hm Hres. unfold _mat_transpose. rewrite fold_nested.
  destruct (fill_loop (pairs n_x n_y) (fun p => n_x * snd p + fst p) (fun p => entry mat n_y (fst p) (snd p))
    (fun res p => let! x := arr_get mat (n_y * fst p + snd p) in arr_set res (n_x * snd p + fst p) x) (n_x * n_y) res s)
    as (res' & E & Hl' & Hv & _).
  - intros l [i j] t [Hi Hj]%elem_of_pairs Hll. cbn [fst snd].
    replace (n_y * i + j) with (i * n_y + j) by lia.
    rewrite (bind_step _ _ _ _ _ (entry_get mat n_x n_y i j t Hm Hi Hj)). apply arr_set_ok. rewrite Hll. nia.
  - apply (cells_NoDup (fun i j => n_x * j + i)). intros i j i' j' Hi _ Hi' _ E.
    destruct (row_major_inj n_x j i j' i') as [-> ->]; try done. lia.
  - intros [i j] [Hi Hj]%elem_of_pairs. cbn [fst snd]. nia.
  - done.
  - exists res'. split; [exact E|]. split; [exact Hl'|]. intros i j Hi Hj.
    replace (j * n_x + i) with (n_x * j + i) by lia. apply (Hv (i, j)). apply elem_of_pairs. done.
Qed.

(** Transposing twice gives the matrix back, for every shape. *)
Theorem mat_transpose_involutive (mat res res2 : list K) n_x n_y s :
  0 <= n_x -> 0 <= n_y -> zlength mat = n_x * n_y -> zlength res = n_x * n_y -> zlength res2 = n_x * n_y ->
  (let! t := _mat_transpose mat res n_x n_y in _mat_transpose t res2 n_y n_x) s = Ret (mat, s).
Proof.
  intros Hx Hy Hm Hres Hres2. destruct (transpose_ok mat res n_x n_y s Hx Hy Hm Hres) as (t & E & Hl & Ht).
  rewrite (bind_step _ _ _ _ _ E).
  destruct (transpose_ok t res2 n_y n_x s Hy Hx ltac:(lia) ltac:(lia)) as (m' & E' & Hl' & Hm').
  rewrite E'. do 2 f_equal. apply list_eq. intros k.
  destruct (decide (k < length mat)%nat) as [Hk|Hk].
  2: { rewrite !lookup_ge_None_2; [done| |]; unfold zlength in *; lia. }
  unfold zlength in *. assert (0 < n_y) as Hpos by nia.
  pose proof (Z.div_mod (Z.of_nat k) n_y ltac:(lia)) as Hd. pose proof (Z.mod_pos_bound (Z.of_nat k) n_y Hpos) as Hb.
  set (i := Z.of_nat k / n_y) in *. set (j := Z.of_nat k mod n_y) in *.
  assert (0 <= i < n_x) as Hi by (split; [apply Z.div_pos; lia|apply Z.div_lt_upper_bound; nia]).
  specialize (Hm' j i ltac:(lia) ltac:(lia)). unfold entry in Hm'. rewrite (Ht i j Hi Hb) in Hm'. cbn in Hm'.
  unfold entry in Hm'. replace (i * n_y + j) with (Z.of_nat k) in Hm' by lia.
  unfold zlookup in Hm'. rewrite (proj2 (Z.ltb_ge _ 0)) in Hm' by lia. rewrite Nat2Z.id in Hm'.
  destruct (lookup_lt_is_Some_2 mat k Hk) as [x Hx']. rewrite Hx' in Hm'. by rewrite Hm', Hx'.
Qed.

End theorems.
End MathLoops.
