(* ===== verification/MathReal.v ===== *)
(** * Rotations and inverses in real arithmetic

    The formulas of MathUtils over the real numbers: quaternion products,
    rotation matrices, conversion between them, the inverse of a matrix and
    the propagation step of the attitude filter. *)
From Stdlib Require Import Reals Lra.
From S2P Require Import Prelude MathUtils MathLoops.

#[export] Instance R_num : Num R := {
  nadd := Rplus; nsub := Rminus; nmul := Rmult; ndiv := Rdiv; nopp := Ropp;
  nsqrt := sqrt; nsin := sin; ncos := cos; nacos := acos;
  nltb x y := if Rlt_dec x y then true else false;
  nleb x y := if Rle_dec x y then true else false;
  neqb x y := if Req_dec_T x y then true else false;
  nlit p q := Rdiv (IZR p) (IZR q)
}.

Module MathReal.
Import MathUtils MathLoops.

(** ** The fixed-size products, for any arithmetic *)
Section fixed.
Context {K : Type} `{Num K} {S : Type}.
Local Open Scope num_scope.

Lemma mat_vec_mult_3 (a b c d e f g h i x y z : K) res (s : S) :
  mat_vec_mult [a; b; c; d; e; f; g; h; i] (Vec x y z) res s =
    Ret (Vec (zero + a * x + b * y + c * z) (zero + d * x + e * y + f * z) (zero + g * x + h * y + i * z), s).
Proof. destruct res. vm_compute. reflexivity. Qed.

Lemma mat_mat_mult_3 (a b c d e f g h i a' b' c' d' e' f' g' h' i' r0 r1 r2 r3 r4 r5 r6 r7 r8 : K) (s : S) :
  mat_mat_mult [a; b; c; d; e; f; g; h; i] [a'; b'; c'; d'; e'; f'; g'; h'; i'] [r0; r1; r2; r3; r4; r5; r6; r7; r8] s =
    Ret ([zero + a * a' + b * d' + c * g'; zero + a * b' + b * e' + c * h'; zero + a * c' + b * f' + c * i';
          zero + d * a' + e * d' + f * g'; zero + d * b' + e * e' + f * h'; zero + d * c' + e * f' + f * i';
          zero + g * a' + h * d' + i * g'; zero + g * b' + h * e' + i * h'; zero + g * c' + h * f' + i * i'], s).
Proof. vm_compute. reflexivity. Qed.
End fixed.

(** ** Literals and operations as those of [R] *)
Section reals.
Context {S : Type}.
Local Open Scope R_scope.
Implicit Types (q p r : quaternion R) (v w : vector3 R) (s : S).

Lemma lit_zero : (zero : R) = 0. Proof. unfold zero. cbn. lra. Qed.
Lemma lit_one : (one : R) = 1. Proof. unfold one. cbn. lra. Qed.
Lemma lit_two : (two : R) = 2. Proof. unfold two. cbn. lra. Qed.
Lemma lit_four : (nlit 4 1 : R) = 4. Proof. cbn. lra. Qed.
Lemma lit_minus : (nlit (-1) 1 : R) = -1. Proof. cbn. lra. Qed.

Ltac to_R := rewrite ?lit_zero, ?lit_one, ?lit_two, ?lit_four, ?lit_minus;
  cbv [sq]; cbn [nadd nsub nmul ndiv nopp nsqrt nsin ncos nacos R_num q0 q1 q2 q3 v0 v1 v2].

(** The square of the norm. *)
Definition norm2 q : R := q0 q * q0 q + q1 q * q1 q + q2 q * q2 q + q3 q * q3 q.
Definition vnorm2 v : R := v0 v * v0 v + v1 v * v1 v + v2 v * v2 v.
Definition qscale (k : R) q : quaternion R := quat_map (fun x => x * k) q.
Definition qreal (k : R) : quaternion R := Quat 0 0 0 k.

Lemma quat_norm2_eq q : quat_norm2 q = norm2 q.
Proof. unfold quat_norm2, norm2. to_R. ring. Qed.

Lemma quat_ext q p : q0 q = q0 p -> q1 q = q1 p -> q2 q = q2 p -> q3 q = q3 p -> q = p.
Proof. destruct q, p. cbn. by intros -> -> -> ->. Qed.

Ltac quat_eq := apply quat_ext; cbn [quat_mult quat_conjugate quat_map qscale qreal q0 q1 q2 q3]; to_R.

(** [quat_mult] is the product of quaternions: it is associative, the norm
    of a product is the product of the norms, conjugation reverses products,
    and a quaternion times its conjugate is the square of its norm. *)
Theorem quat_mult_algebra q p r :
  quat_mult (quat_mult q p) r = quat_mult q (quat_mult p r) /\
  norm2 (quat_mult q p) = norm2 q * norm2 p /\
  quat_conjugate (quat_mult q p) = quat_mult (quat_conjugate p) (quat_conjugate q) /\
  quat_mult (quat_conjugate q) q = qreal (norm2 q).
Proof.
  destruct q, p, r. split; [quat_eq; ring|]. split; [unfold norm2; cbn [quat_mult q0 q1 q2 q3]; to_R; ring|].
  split; quat_eq; unfold norm2; cbn; ring.
Qed.

(** Rotating a vector with a quaternion is multiplying it with the
    quaternion's rotation matrix: [quat_frame_conv] and [mat_vec_mult] with
    [quat_to_dcm] agree for every quaternion. *)
Theorem frame_conv_is_dcm q v res s :
  mat_vec_mult (quat_to_dcm q) v res s = Ret (quat_frame_conv q v, s).
Proof.
  destruct q, v. cbn [quat_to_dcm]. rewrite mat_vec_mult_3. unfold quat_frame_conv.
  cbn [quat_conjugate quat_mult q0 q1 q2 q3 v0 v1 v2]. do 3 f_equal; to_R; ring.
Qed.

Lemma frame_conv_norm q v : vnorm2 (quat_frame_conv q v) = norm2 q * norm2 q * vnorm2 v.
Proof. destruct q, v. unfold vnorm2, norm2, quat_frame_conv. cbn [quat_conjugate quat_mult q0 q1 q2 q3 v0 v1 v2]. to_R. ring. Qed.

(** A change of frame with a unit quaternion keeps the length of the vector
    and is undone by the change with the conjugate. *)
Theorem frame_conv_roundtrip q v :
  norm2 q = 1 ->
  vnorm2 (quat_frame_conv q v) = vnorm2 v /\
  quat_frame_conv (quat_conjugate q) (quat_frame_conv q v) = v.
Proof.
  intros Hq. split; [rewrite frame_conv_norm, Hq; ring|].
  assert (forall q v, quat_frame_conv (quat_conjugate q) (quat_frame_conv q v) = vec_map (fun x => x * (norm2 q * norm2 q)) v) as E.
  { intros [a b c d] [x y z]. unfold norm2, quat_frame_conv, vec_map. cbn [quat_conjugate quat_mult q0 q1 q2 q3 v0 v1 v2].
    f_equal; to_R; ring. }
  rewrite E, Hq. destruct v. unfold vec_map. cbn. f_equal; ring.
Qed.

Lemma frame_conv_roundtrip_witness :
  quat_frame_conv (quat_conjugate (Quat 0 0 (3/5) (4/5))) (quat_frame_conv (Quat 0 0 (3/5) (4/5)) (Vec 1 2 3)) = Vec 1 2 3.
Proof. apply (frame_conv_roundtrip (Quat 0 0 (3/5) (4/5)) (Vec 1 2 3)). unfold norm2. cbn. lra. Defined.

(** The determinant of a 3 x 3 matrix. *)
Definition det3 (a b c d e f g h i : R) : R := a * (e * i - f * h) - b * (d * i - f * g) + c * (d * h - e * g).
Definition identity3 : list R := [1; 0; 0; 0; 1; 0; 0; 0; 1].

Lemma cons_eq {A} (x y : A) l k : x = y -> l = k -> x :: l = y :: k.
Proof. by intros -> ->. Qed.

Lemma nabs_eq x : nabs x = Rabs x.
Proof.
  unfold nabs. cbn [nltb R_num]. rewrite lit_zero. unfold Rabs.
  destruct (Rlt_dec x 0), (Rcase_abs x); cbn; try done; lra.
Qed.

(** [mat_inverse] inverts: when the determinant is at least [1E-25] in
    magnitude, the result times the matrix is the identity, on both sides;
    below that the program stops at an assertion. *)
Theorem mat_inverse_correct a b c d e f g h i j0 j1 j2 j3 j4 j5 j6 j7 j8 s :
  let mat := [a; b; c; d; e; f; g; h; i] in
  let junk := [j0; j1; j2; j3; j4; j5; j6; j7; j8] in
  if Rlt_dec (Rabs (det3 a b c d e f g h i)) (nlit 1 (10 ^ 25))
  then mat_inverse mat s = Fault AssertFail
  else exists inv, mat_inverse mat s = Ret (inv, s) /\
    mat_mat_mult mat inv junk s = Ret (identity3, s) /\ mat_mat_mult inv mat junk s = Ret (identity3, s).
Proof.
  intros mat junk. unfold mat_inverse, mat. cbv zeta. rewrite nabs_eq. cbn [nleb R_num].
  assert (nadd (nadd (nmul a (nsub (nmul e i) (nmul f h))) (nmul b (nmul (nlit (-1) 1) (nsub (nmul d i) (nmul f g)))))
    (nmul c (nsub (nmul d h) (nmul e g))) = det3 a b c d e f g h i) as ->.
  { unfold det3. to_R. ring. }
  destruct (Rlt_dec (Rabs (det3 a b c d e f g h i)) (nlit 1 (10 ^ 25))) as [Hlt|Hge];
    destruct (Rle_dec (nlit 1 (10 ^ 25)) _) as [Hle|Hle]; cbn [negb]; [exfalso; lra|done| |exfalso; lra].
  assert (det3 a b c d e f g h i <> 0) as Hd.
  { intros E. rewrite E, Rabs_R0 in Hge. apply Hge. cbn [nlit R_num]. apply Rdiv_lt_0_compat; [lra|]. apply IZR_lt. done. }
  eexists. split; [reflexivity|]. unfold junk. rewrite !mat_mat_mult_3. unfold identity3, det3 in *.
  split; do 2 f_equal; repeat (apply cons_eq; [to_R; field; exact Hd|]); done.
Qed.

(** *** Normalisation *)
Lemma norm2_pos q : norm2 q <> 0 -> 0 < norm2 q.
Proof. unfold norm2. intros Hq. nra. Qed.

Lemma normalize_ok q : norm2 q <> 0 -> quat_normalize q = Some (qscale (1 / sqrt (norm2 q)) q).
Proof.
  intros Hq. unfold quat_normalize. rewrite quat_norm2_eq, lit_zero, lit_one. cbn [neqb R_num].
  by destruct (Req_dec_T (norm2 q) 0).
Qed.

Lemma norm2_scale k q : norm2 (qscale k q) = k * k * norm2 q.
Proof. unfold norm2, qscale, quat_map. cbn. ring. Qed.

(** [quat_normalize] gives the unit quaternion of the same direction, and
    [quat_inverse] undoes it: the product of [quat_inverse q] and the
    normalised [q] is one.  A zero quaternion is left alone. *)
Theorem quat_normalize_unit q junk :
  norm2 q <> 0 ->
  exists u, quat_normalize q = Some u /\ norm2 u = 1 /\ qscale (sqrt (norm2 q)) u = q /\
    quat_mult (quat_inverse q junk) u = qreal 1.
Proof.
  intros Hq. pose proof (norm2_pos q Hq) as Hpos. set (n := sqrt (norm2 q)).
  assert (n <> 0) as Hn by (apply Rgt_not_eq, sqrt_lt_R0, Hpos).
  assert (n * n = norm2 q) as Hsq by (apply sqrt_def; lra).
  exists (qscale (1 / n) q). split; [by apply normalize_ok|]. split; [rewrite norm2_scale, <- Hsq; field; exact Hn|].
  split; [destruct q; unfold qscale, quat_map; cbn; f_equal; field; exact Hn|].
  unfold quat_inverse. rewrite normalize_ok by done. change (default junk (Some ?u)) with u. fold n.
  destruct (quat_mult_algebra (qscale (1 / n) q) q q) as (_ & _ & _ & ->). f_equal.
  rewrite norm2_scale, <- Hsq. field. exact Hn.
Qed.

Lemma quat_normalize_unit_witness : exists u, quat_normalize (Quat 0 0 3 4) = Some u /\ norm2 u = 1.
Proof.
  destruct (quat_normalize_unit (Quat 0 0 3 4) (Quat 0 0 0 0)) as (u & H1 & H2 & _).
  - unfold norm2. cbn. lra.
  - exists u. split; [exact H1|exact H2].
Defined.

(** [quat_inverse] is the inverse of the normalised quaternion: for a
    quaternion that is not a unit the product is its norm and not one. *)
Theorem quat_inverse_of_nonunit q junk :
  norm2 q <> 0 -> quat_mult (quat_inverse q junk) q = qreal (sqrt (norm2 q)).
Proof.
  intros Hq. pose proof (norm2_pos q Hq) as Hpos. set (n := sqrt (norm2 q)).
  assert (n <> 0) as Hn by (apply Rgt_not_eq, sqrt_lt_R0, Hpos).
  assert (n * n = norm2 q) as Hsq by (apply sqrt_def; lra).
  unfold quat_inverse. rewrite normalize_ok by done. change (default junk (Some ?u)) with u. fold n.
  assert (quat_mult (quat_conjugate (qscale (1 / n) q)) q = qreal (norm2 q * (1 / n))) as ->.
  { destruct q. quat_eq; unfold norm2; cbn; ring. }
  f_equal. rewrite <- Hsq. field. exact Hn.
Qed.

(** *** Attitude matrix to quaternion *)
Lemma half_sqrt x : sqrt (4 * (x * x)) / 2 = Rabs x.
Proof.
  replace (4 * (x * x)) with (Rsqr (2 * x)) by (unfold Rsqr; ring). rewrite sqrt_Rsqr_abs, Rabs_mult.
  rewrite (Rabs_right 2) by lra. lra.
Qed.

(** The largest of four components that are not all zero is positive. *)
Lemma max_index_pos a b c d :
  0 < Rabs a \/ 0 < Rabs b \/ 0 < Rabs c \/ 0 < Rabs d ->
  let k := max_index (Quat (Rabs a) (Rabs b) (Rabs c) (Rabs d)) in
  (k = 0%Z /\ 0 < Rabs a) \/ (k = 1%Z /\ 0 < Rabs b) \/ (k = 2%Z /\ 0 < Rabs c) \/ (k = 3%Z /\ 0 < Rabs d).
Proof.
  intros Hpos. unfold max_index, abs_double. cbn [foldl q0 q1 q2 q3 nltb R_num nsqrt]. rewrite lit_zero. unfold sq.
  cbn [nmul R_num].
  assert (forall x, sqrt (Rabs x * Rabs x) = Rabs x) as Hs by (intros; apply sqrt_square, Rabs_pos).
  rewrite !Hs. pose proof (Rabs_pos a). pose proof (Rabs_pos b). pose proof (Rabs_pos c). pose proof (Rabs_pos d).
  repeat match goal with |- context [Rlt_dec ?x ?y] => destruct (Rlt_dec x y) end; cbn [snd]; rewrite ?(Hs a), ?(Hs b), ?(Hs c), ?(Hs d) in *.
  all: first [exfalso; destruct Hpos as [?|[?|[?|?]]]; lra | left; split; [done|lra] | right; left; split; [done|lra] | right; right; left; split; [done|lra]
             | right; right; right; split; [done|lra]].
Qed.

(** C36. A unit quaternion survives the conversion to a rotation matrix and back,
    up to the sign that the matrix does not determine. *)
Theorem quat_dcm_roundtrip q s :
  norm2 q = 1 ->
  exists sg, sg * sg = 1 /\ quat_from_dcm (quat_to_dcm q) s = Ret (qscale sg q, s).
Proof.
  destruct q as [a b c d]. unfold norm2. cbn [q0 q1 q2 q3]. intros Hu.
  cbn [quat_to_dcm]. unfold quat_from_dcm. cbv zeta.
  match goal with |- context [max_index ?Q] =>
    assert (Q = Quat (Rabs a) (Rabs b) (Rabs c) (Rabs d)) as EQ end.
  { to_R. rewrite <- (half_sqrt a), <- (half_sqrt b), <- (half_sqrt c), <- (half_sqrt d). rewrite <- Hu.
    f_equal; do 2 f_equal; ring. }
  rewrite EQ. cbn [q0 q1 q2 q3].
  assert (0 < Rabs a \/ 0 < Rabs b \/ 0 < Rabs c \/ 0 < Rabs d) as Hpos.
  { destruct (Req_dec_T a 0) as [->|]; [|left; by apply Rabs_pos_lt]. right.
    destruct (Req_dec_T b 0) as [->|]; [|left; by apply Rabs_pos_lt]. right.
    destruct (Req_dec_T c 0) as [->|]; [|left; by apply Rabs_pos_lt]. right. apply Rabs_pos_lt. nra. }
  assert (forall x, Rabs x * Rabs x = x * x) as Hsq by (intros x; symmetry; apply (Rsqr_abs x)).
  destruct (max_index_pos a b c d Hpos) as [[-> Hk]|[[-> Hk]|[[-> Hk]|[-> Hk]]]]; unfold ret.
  - exists (a / Rabs a). split; [apply (Rmult_eq_reg_r (Rabs a * Rabs a)); [rewrite Hsq at 2; field; lra|nra]|].
    unfold qscale, quat_map. do 2 f_equal. to_R. f_equal; [|field; lra..].
    apply (Rmult_eq_reg_r (Rabs a)); [rewrite Hsq; field; lra|lra].
  - exists (b / Rabs b). split; [apply (Rmult_eq_reg_r (Rabs b * Rabs b)); [rewrite Hsq at 2; field; lra|nra]|].
    unfold qscale, quat_map. do 2 f_equal. to_R. f_equal; [field; lra| |field; lra..].
    apply (Rmult_eq_reg_r (Rabs b)); [rewrite Hsq; field; lra|lra].
  - exists (c / Rabs c). split; [apply (Rmult_eq_reg_r (Rabs c * Rabs c)); [rewrite Hsq at 2; field; lra|nra]|].
    unfold qscale, quat_map. do 2 f_equal. to_R. f_equal; [field; lra|field; lra| |field; lra].
    apply (Rmult_eq_reg_r (Rabs c)); [rewrite Hsq; field; lra|lra].
  - exists (d / Rabs d). split; [apply (Rmult_eq_reg_r (Rabs d * Rabs d)); [rewrite Hsq at 2; field; lra|nra]|].
    unfold qscale, quat_map. do 2 f_equal. to_R. f_equal; [field; lra..|].
    apply (Rmult_eq_reg_r (Rabs d)); [rewrite Hsq; field; lra|lra].
Qed.

(** *** The attitude filter *)
Lemma vec_norm_eq v : vec_norm v = sqrt (vnorm2 v).
Proof. unfold vec_norm, vnorm2. to_R. f_equal. ring. Qed.

Lemma vec_to_quat_unit v : vnorm2 v <> 0 -> norm2 (vec_to_quat v) = 1.
Proof.
  intros Hv. assert (0 < vnorm2 v) as Hpos by (unfold vnorm2 in *; nra).
  unfold vec_to_quat, axis_rotation_to_quat, vec_cons_mult, vec_map. rewrite vec_norm_eq.
  set (n := sqrt (vnorm2 v)). assert (n <> 0) as Hn by (apply Rgt_not_eq, sqrt_lt_R0, Hpos).
  assert (n * n = vnorm2 v) as Hsq by (apply sqrt_def; lra).
  unfold norm2. to_R. set (t := n * nlit 1 2). pose proof (sin2_cos2 t) as Htrig. unfold Rsqr in Htrig.
  transitivity (vnorm2 v / (n * n) * (sin t * sin t) + cos t * cos t); [unfold vnorm2; field; exact Hn|].
  rewrite Hsq. replace (vnorm2 v / vnorm2 v) with 1 by (field; lra). lra.
Qed.

(** The propagation step of the attitude filter keeps the attitude a unit
    quaternion, for every angular rate other than zero. *)
Theorem eskf_integrate_unit q v dt :
  norm2 q = 1 -> vnorm2 v <> 0 -> dt <> 0 -> norm2 (eskf_integrate q v dt) = 1.
Proof.
  intros Hq Hv Hdt. unfold eskf_integrate.
  destruct (quat_mult_algebra q (vec_to_quat (vec_cons_mult dt v)) q) as (_ & -> & _).
  rewrite Hq, vec_to_quat_unit; [ring|].
  assert (vnorm2 (vec_cons_mult dt v) = dt * dt * vnorm2 v) as ->.
  { unfold vnorm2, vec_cons_mult, vec_map. cbn. ring. }
  apply Rmult_integral_contrapositive. split; [|exact Hv]. by apply Rmult_integral_contrapositive.
Qed.

Lemma eskf_integrate_unit_witness : norm2 (eskf_integrate (Quat 0 0 0 1) (Vec 0 0 1) (1/10)) = 1.
Proof.
  apply (eskf_integrate_unit (Quat 0 0 0 1) (Vec 0 0 1) (1/10)).
  - unfold norm2. cbn. lra.
  - unfold vnorm2. cbn. lra.
  - lra.
Defined.

End reals.

Local Open Scope R_scope.
Lemma quat_dcm_roundtrip_witness : exists sg,
  quat_from_dcm (quat_to_dcm (Quat 0 0 (3/5) (4/5))) tt = Ret (qscale sg (Quat 0 0 (3/5) (4/5)), tt).
Proof.
  destruct (quat_dcm_roundtrip (Quat 0 0 (3/5) (4/5)) tt) as (sg & _ & E); [unfold norm2; cbn; lra|].
  exists sg. exact E.
Defined.

Lemma mat_mat_mult_product_witness : exists res',
  _mat_mat_mult [1; 2; 3; 4; 5; 6] [1; 0; 0; 1; 1; 1] [0; 0; 0; 0] 2 3 2 tt = Ret (res', tt) /\
  zlookup res' 3 = Some (sum_from zero (fun j => nmul (entry [1; 2; 3; 4; 5; 6] 3 1 j) (entry [1; 0; 0; 1; 1; 1] 2 j 1)) 3).
Proof.
  destruct (mat_mat_mult_product [1; 2; 3; 4; 5; 6] [1; 0; 0; 1; 1; 1] [0; 0; 0; 0] 2 3 2 tt) as (res' & E & _ & Hv);
    try reflexivity; try lia.
  exists res'. split; [exact E|]. apply (Hv 1%Z 1%Z); lia.
Defined.

Lemma mat_transpose_involutive_witness :
  (let! t := _mat_transpose [1; 2; 3; 4; 5; 6] [0; 0; 0; 0; 0; 0] 2 3 in
   _mat_transpose t [0; 0; 0; 0; 0; 0] 3 2) tt = Ret ([1; 2; 3; 4; 5; 6], tt).
Proof. apply (mat_transpose_involutive [1; 2; 3; 4; 5; 6]); try reflexivity; lia. Defined.

(** *** Limits *)
Section limits.
Context {K : Type} `{Num K} {S : Type}.

(** The Jacobian of [eskf_update_mag] is a 3 x 6 matrix, but it is filled as if
    its rows had three columns and from a matrix whose diagonal was never
    written: only its first row has entries of the skew matrix, the second is
    zero, and the third and the first entry are uninitialised memory. *)
Theorem mag_jacobian_layout (v : vector3 K) j0 j1 j2 j3 j4 j5 j6 j7 j8 (h : list K) (s : S) :
  zlength h = 18%Z ->
  mag_jacobian v [j0; j1; j2; j3; j4; j5; j6; j7; j8] h s =
    Ret ([j0; nmul (nlit (-1) 1) (v2 v); v1 v; zero; zero; zero] ++ replicate 6 zero ++ drop 12 h, s).
Proof.
  intros Hl. do 18 (destruct h as [|? h]; [done|]). destruct h; [|unfold zlength in Hl; cbn in Hl; lia].
  destruct v. vm_compute. reflexivity.
Qed.
End limits.

End MathReal.
