(* ===== verification/Sql.v ===== *)
(** * SQL for the SQLite back end

    SQLite is not part of the repository.  [Sqlite] has the calls the back end
    makes, over the contents of the disc.  The rest of the file describes the
    statements the back end writes, as SQL documents them: their tokens
    ([lex]), their syntax ([stmt], [tokens]) and their meaning on tables
    ([run], undefined where a statement goes beyond what is described here).
    [SqliteLaws] states that SQLite executes a text as the statement it spells. *)
From S2P Require Import Prelude CStr.

Module Sql.

Definition SQLITE_OK : Z := 0.
Definition SQLITE_ERROR : Z := 1.
Definition SQLITE_CONSTRAINT : Z := 19.

(** A value in a table; a real number is kept as its decimal text. *)
Inductive cell := SNull | SInt (z : Z) | SReal (t : cstring) | SText (s : cstring).

#[export] Instance cell_eq_dec : EqDecision cell.
Proof. solve_decision. Defined.

(** ** Words, quoted strings and symbols *)
Inductive token := TWord (w : cstring) | TDq (s : cstring) | TSq (s : cstring) | TSym (c : Z).
Inductive mode := Start | InWord (w : cstring) | InDq (s : cstring) | InSq (s : cstring).

#[export] Instance token_eq_dec : EqDecision token.
Proof. solve_decision. Defined.

Definition chr_dq : Z := 34.
Definition chr_sq : Z := 39.
(** Letters, digits and the characters _ . - of names and numbers. *)
Definition is_word_char (c : Z) : bool :=
  isdigit c || ((65 <=? c) && (c <=? 90)) || ((97 <=? c) && (c <=? 122)) || (c =? 95) || (c =? 46) || (c =? 45).

(** The tokens that end inside a text, and the mode after it. *)
Definition lex_start (c : Z) : list token * mode :=
  if c =? chr_dq then ([], InDq []) else
  if c =? chr_sq then ([], InSq []) else
  if is_word_char c then ([], InWord [c]) else
  if isspace c then ([], Start) else ([TSym c], Start).
Definition lex_char (m : mode) (c : Z) : list token * mode :=
  match m with
  | Start => lex_start c
  | InWord w => if is_word_char c then ([], InWord (w ++ [c]))
                else let '(ts, m) := lex_start c in (TWord w :: ts, m)
  | InDq s => if c =? chr_dq then ([TDq s], Start) else ([], InDq (s ++ [c]))
  | InSq s => if c =? chr_sq then ([TSq s], Start) else ([], InSq (s ++ [c]))
  end.
Fixpoint lex_run (m : mode) (text : cstring) : list token * mode :=
  match text with
  | [] => ([], m)
  | c :: text => let '(t1, m1) := lex_char m c in
                 let '(t2, m2) := lex_run m1 text in (t1 ++ t2, m2)
  end.
Definition lex (text : cstring) : option (list token) :=
  match lex_run Start text with
  | (ts, Start) => Some ts
  | (ts, InWord w) => Some (ts ++ [TWord w])
  | _ => None
  end.

(** ** Statements *)
Record column := Column { col_name : cstring; col_decl : list cstring }.

(** [WHERE column = z], with the number in double quotes or not. *)
Record condition := Cond { cond_col : cstring; cond_quoted : bool; cond_value : Z }.

Inductive expr :=
  | EInt (z : Z) | EReal (t : cstring) | EStr (single : bool) (s : cstring) | ENull | ENow
  | EOther (col t : cstring) (c : condition).

Inductive stmt :=
  | DropTable (if_exists : bool) (t : cstring)
  | CreateTable (t : cstring) (cols : list column)
  | Insert (replace : bool) (t : cstring) (cols : list cstring) (vals : list expr)
  | Delete (t : cstring) (c : option condition)
  | Select (cols : option (list cstring)) (t : cstring) (c : condition) (limit1 : bool).

#[export] Instance column_eq_dec : EqDecision column.
Proof. solve_decision. Defined.

Definition kw (s : string) : token := TWord (cs s).
Definition comma : token := TSym 44.
Fixpoint sep (l : list (list token)) : list token :=
  match l with
  | [] => []
  | [x] => x
  | x :: l => x ++ comma :: sep l
  end.
Definition parens (ts : list token) : list token := TSym 40 :: ts ++ [TSym 41].

Definition cond_tokens (c : condition) : list token :=
  [kw "WHERE"; TWord (cond_col c); TSym 61;
   if cond_quoted c then TDq (print_dec (cond_value c)) else TWord (print_dec (cond_value c))].
Definition expr_tokens (e : expr) : list token :=
  match e with
  | EInt z => [TWord (print_dec z)]
  | EReal t => [TWord t]
  | EStr single s => [if single then TSq s else TDq s]
  | ENull => [kw "NULL"]
  | ENow => [kw "current_timestamp"]
  | EOther col t c => parens ([kw "SELECT"; TWord col; kw "FROM"; TWord t] ++ cond_tokens c)
  end.
Definition column_tokens (c : column) : list token := TWord (col_name c) :: map TWord (col_decl c).
Definition names_tokens (l : list cstring) : list token := sep (map (fun n => [TWord n]) l).

Definition tokens (st : stmt) : list token :=
  match st with
  | DropTable ie t => [kw "DROP"; kw "TABLE"] ++ (if ie then [kw "IF"; kw "EXISTS"] else []) ++ [TWord t]
  | CreateTable t cols =>
      [kw "CREATE"; kw "TABLE"; kw "IF"; kw "NOT"; kw "EXISTS"; TWord t] ++ parens (sep (map column_tokens cols))
  | Insert replace t cols vals =>
      [kw "INSERT"] ++ (if replace then [kw "OR"; kw "REPLACE"] else []) ++ [kw "INTO"; TWord t] ++
      parens (names_tokens cols) ++ [kw "VALUES"] ++ parens (sep (map expr_tokens vals))
  | Delete t c => [kw "DELETE"; kw "FROM"; TWord t] ++ match c with Some c => cond_tokens c | None => [] end
  | Select cols t c limit1 =>
      [kw "SELECT"] ++ match cols with None => [TSym 42] | Some l => names_tokens l end ++
      [kw "FROM"; TWord t] ++ cond_tokens c ++ (if limit1 then [kw "LIMIT"; kw "1"] else [])
  end.

(** The text spells the statement; a semicolon may end it. *)
Definition means (text : cstring) (st : stmt) : Prop :=
  lex text = Some (tokens st) \/ lex text = Some (tokens st ++ [TSym 59]).

(** ** Meaning *)
Record table := Table { tb_cols : list column; tb_rows : list (Z * list cell) }.
Abbreviation database := (gmap cstring table).

Inductive affinity := AInt | AText | AReal | AOther.
#[export] Instance affinity_eq_dec : EqDecision affinity.
Proof. solve_decision. Defined.
Definition col_affinity (c : column) : affinity :=
  match col_decl c with
  | w :: _ => if bool_decide (w ∈ [cs "INTEGER"; cs "INT"; cs "int"; cs "BIGINT"]) then AInt else
              if bool_decide (w ∈ [cs "TEXT"; cs "text"]) then AText else
              if bool_decide (w = cs "REAL") then AReal else AOther
  | [] => AOther
  end.
(** An [INTEGER PRIMARY KEY] is the row number itself. *)
Definition is_rowid (c : column) : bool := bool_decide (col_decl c = [cs "INTEGER"; cs "PRIMARY"; cs "KEY"]).
Definition is_unique (c : column) : bool :=
  bool_decide (cs "PRIMARY" ∈ col_decl c) || bool_decide (cs "UNIQUE" ∈ col_decl c).

(** A value a column keeps as it is. *)
Definition fits_column (c : column) (x : cell) : bool :=
  match x, col_affinity c with
  | SNull, _ => negb (is_rowid c)
  | SInt _, AInt | SText _, AText | SReal _, AReal | SText _, AOther => true
  | _, _ => false
  end.

Definition find_col (cols : list column) (name : cstring) : option nat :=
  fst <$> list_find (fun c => col_name c = name) cols.

(** The rows of a table a condition on an integer column selects. *)
Definition selects (tb : table) (c : condition) : option ((Z * list cell) -> bool) :=
  match find_col (tb_cols tb) (cond_col c) with
  | Some i => if bool_decide (col_affinity <$> tb_cols tb !! i = Some AInt)
              then Some (fun r => bool_decide (snd r !! i = Some (SInt (cond_value c)))) else None
  | None => if bool_decide (cond_col c = cs "rowid") && negb (cond_quoted c)
            then Some (fun r => fst r =? cond_value c) else None
  end.

Definition project (tb : table) (cols : option (list cstring)) (r : list cell) : option (list cell) :=
  match cols with
  | None => Some r
  | Some names => mapM (fun n => i ← find_col (tb_cols tb) n; r !! i) names
  end.

(** The value of an expression; [now] is the text of [current_timestamp]. *)
Definition eval (now : cstring) (db : database) (e : expr) : option cell :=
  match e with
  | EInt z => Some (SInt z)
  | EReal t => Some (SReal t)
  | EStr _ s => Some (SText s)
  | ENull => Some SNull
  | ENow => Some (SText now)
  | EOther col t c =>
      tb ← db !! t; p ← selects tb c; i ← find_col (tb_cols tb) col;
      match List.filter p (tb_rows tb) with
      | [] => Some SNull
      | [r] => snd r !! i
      | _ => None
      end
  end.

Definition conflict (cols : list column) (r1 r2 : list cell) : bool :=
  existsb (fun '(c, (x, y)) => is_unique c && bool_decide (x = y) && negb (bool_decide (x = SNull))) (zip cols (zip r1 r2)).

Definition next_rowid (rows : list (Z * list cell)) : Z := 1 + foldr (fun r m => Z.max (fst r) m) 0 rows.
Definition rowid_for (tb : table) (r : list cell) : Z :=
  match List.find (fun '(c, _) => is_rowid c) (zip (tb_cols tb) r) with
  | Some (_, SInt z) => z
  | _ => next_rowid (tb_rows tb)
  end.
Definition insert_row (replace : bool) (tb : table) (r : list cell) : option table :=
  let clash r' := conflict (tb_cols tb) r (snd r') in
  if replace then Some (Table (tb_cols tb) (List.filter (fun r' => negb (clash r')) (tb_rows tb) ++ [(rowid_for tb r, r)]))
  else if existsb clash (tb_rows tb) then None
  else Some (Table (tb_cols tb) (tb_rows tb ++ [(rowid_for tb r, r)])).

(** The row that named values give, in the order of the columns. *)
Definition row_of (tb : table) (names : list cstring) (vals : list cell) : option (list cell) :=
  if (length names =? length vals)%nat && forallb (fun n => issome (find_col (tb_cols tb) n)) names then
    let r := map (fun c => default SNull (snd <$> List.find (fun '(n, _) => bool_decide (n = col_name c)) (zip names vals))) (tb_cols tb) in
    if forallb (fun '(c, x) => fits_column c x) (zip (tb_cols tb) r) then Some r else None
  else None.

(** Return code, tables and rows; [None] where the meaning is not described. *)
Definition run (now : cstring) (st : stmt) (db : database) : option (Z * database * list (list cell)) :=
  match st with
  | DropTable ie t =>
      Some (if bool_decide (is_Some (db !! t)) || ie then (SQLITE_OK, delete t db, []) else (SQLITE_ERROR, db, []))
  | CreateTable t cols =>
      Some (SQLITE_OK, (match db !! t with Some _ => db | None => <[t := Table cols []]> db end), [])
  | Insert replace t names vals =>
      tb ← db !! t; cells ← mapM (eval now db) vals; r ← row_of tb names cells;
      match insert_row replace tb r with
      | Some tb' => Some (SQLITE_OK, <[t := tb']> db, [])
      | None => Some (SQLITE_CONSTRAINT, db, [])
      end
  | Delete t c =>
      tb ← db !! t; p ← match c with Some c => selects tb c | None => Some (fun _ => true) end;
      Some (SQLITE_OK, <[t := Table (tb_cols tb) (List.filter (fun r => negb (p r)) (tb_rows tb))]> db, [])
  | Select cols t c limit1 =>
      tb ← db !! t; p ← selects tb c;
      rows ← mapM (fun r => project tb cols (snd r)) (List.filter p (tb_rows tb));
      (** the order of several rows is not specified *)
      match rows with [] | [_] => Some (SQLITE_OK, db, rows) | _ => None end
  end.

(** Names that are not numbers nor words of the language, numbers of 32 bits,
    strings without their quote. *)
Definition keywords : list cstring :=
  [cs "IF"; cs "NULL"; cs "current_timestamp"; cs "SELECT"; cs "FROM"; cs "WHERE"; cs "VALUES"; cs "LIMIT"].
Definition is_name (n : cstring) : bool :=
  match n with
  | [] => false
  | c :: _ => negb (isdigit c) && negb (c =? 45) && negb (c =? 46) && forallb is_word_char n &&
              negb (bool_decide (n ∈ keywords))
  end.
Definition int_fine (z : Z) : bool := is_int z.
Definition cond_fine (c : condition) : bool := is_name (cond_col c) && int_fine (cond_value c).
Definition expr_fine (e : expr) : bool :=
  match e with
  | EInt z => int_fine z
  | EReal t => bool_decide (46 ∈ t) && forallb (fun c => isdigit c || (c =? 46) || (c =? 45)) t
  | EStr single s => forallb (fun c => negb (c =? if single then chr_sq else chr_dq)) s
  | ENull | ENow => true
  | EOther col t c => is_name col && is_name t && cond_fine c
  end.
Definition column_fine (c : column) : bool := is_name (col_name c) && forallb is_name (col_decl c).
Definition stmt_fine (st : stmt) : bool :=
  match st with
  | DropTable _ t => is_name t
  | CreateTable t cols => is_name t && negb (bool_decide (cols = [])) && forallb column_fine cols
  | Insert _ t cols vals =>
      is_name t && negb (bool_decide (cols = [])) && forallb is_name cols && negb (bool_decide (length vals = O)) &&
      forallb expr_fine vals
  | Delete t c => is_name t && match c with Some c => cond_fine c | None => true end
  | Select cols t c _ =>
      is_name t && cond_fine c && match cols with Some l => negb (bool_decide (l = [])) && forallb is_name l | None => true end
  end.
End Sql.

(** ** The library *)
Class Sqlite (Db : Type) := {
  sqlite3_open : cstring -> Db -> Z * Db;
  sqlite3_close : Db -> Db;
  sqlite3_exec : cstring -> Db -> Z * Db;
  (** [sqlite3_prepare_v2] with its steps, and [sqlite3_get_table] *)
  sqlite3_rows : cstring -> Db -> Z * list (list Sql.cell);
  sqlite3_column_int : Sql.cell -> Z;
  (** the bits of [(float)sqlite3_column_double(...)] *)
  sqlite3_column_float : Sql.cell -> Z;
  (** [None] is a null pointer *)
  sqlite3_column_text : Sql.cell -> option cstring
}.

Class SqliteLaws (Db : Type) `{Sqlite Db} := {
  (** The tables of the database file. *)
  contents : Db -> Sql.database;
  db_file : cstring;
  law_open d : exists d', sqlite3_open db_file d = (Sql.SQLITE_OK, d') /\ contents d' = contents d;
  law_close d : contents (sqlite3_close d) = contents d;
  law_exec d text st :
    Sql.means text st -> Sql.stmt_fine st = true ->
    exists now d', forall rc db rows, Sql.run now st (contents d) = Some (rc, db, rows) ->
      sqlite3_exec text d = (rc, d') /\ contents d' = db;
  law_rows d text cols t c limit1 :
    Sql.means text (Sql.Select cols t c limit1) -> Sql.stmt_fine (Sql.Select cols t c limit1) = true ->
    forall rc db rows, Sql.run [] (Sql.Select cols t c limit1) (contents d) = Some (rc, db, rows) ->
      sqlite3_rows text d = (rc, rows);
  law_column_int z : sqlite3_column_int (Sql.SInt z) = i32_of z;
  law_column_text s : sqlite3_column_text (Sql.SText s) = Some s;
  law_column_text_int z : sqlite3_column_text (Sql.SInt z) = Some (print_dec z)
}.

(** ** Lemmas *)
Module SqlLaws.
Import Sql.

(** *** Tokens of a text *)
Lemma lex_step m a b ts m' : lex_run m a = (ts, m') ->
  lex_run m (a ++ b) = let '(t2, m2) := lex_run m' b in (ts ++ t2, m2).
Proof.
  revert m ts. induction a as [|c a IH]; intros m ts; cbn.
  { intros [= <- <-]. by destruct (lex_run m b). }
  destruct (lex_char m c) as [t1 m1]. destruct (lex_run m1 a) as [t2 m2] eqn:E. intros [= <- <-].
  rewrite (IH _ _ E). destruct (lex_run m2 b). by rewrite app_assoc.
Qed.

Definition is_word_text (w : cstring) : Prop := w <> [] /\ forallb is_word_char w = true.

Lemma word_char_start c : is_word_char c = true -> lex_start c = ([], InWord [c]).
Proof.
  intros Hc. unfold lex_start.
  destruct (c =? chr_dq) eqn:E1; bool_to_prop; [subst; done|].
  destruct (c =? chr_sq) eqn:E2; bool_to_prop; [subst; done|]. by rewrite Hc.
Qed.

Lemma lex_in_word w : forall w0, forallb is_word_char w = true -> lex_run (InWord w0) w = ([], InWord (w0 ++ w)).
Proof.
  induction w as [|c w IH]; intros w0 Hw; [by rewrite app_nil_r|]. cbn in Hw. bool_to_prop.
  cbn. rewrite H, IH by done. by rewrite <- app_assoc.
Qed.
Lemma lex_word w : is_word_text w -> lex_run Start w = ([], InWord w).
Proof.
  intros [Hne Hw]. destruct w as [|c w]; [done|]. cbn in Hw. bool_to_prop. cbn.
  rewrite word_char_start by done. by rewrite lex_in_word.
Qed.
Lemma lex_dq s : forall s0, forallb (fun c => negb (c =? chr_dq)) s = true -> lex_run (InDq s0) s = ([], InDq (s0 ++ s)).
Proof.
  induction s as [|c s IH]; intros s0 Hs; [by rewrite app_nil_r|]. cbn [forallb] in Hs. bool_to_prop.
  cbn [lex_run lex_char]. rewrite (proj2 (Z.eqb_neq _ _) H), IH by done. by rewrite <- app_assoc.
Qed.

Lemma name_word n : is_name n = true -> is_word_text n.
Proof. unfold is_name. destruct n as [|c n]; [done|]. intros H. bool_to_prop. by split. Qed.

Lemma isdigit_word c : isdigit c = true -> is_word_char c = true.
Proof. unfold is_word_char. by intros ->. Qed.

Lemma dec_word z : INT_MIN <= z < 2 ^ 32 -> is_word_text (print_dec z).
Proof.
  intros Hz. unfold print_dec. unfold INT_MIN in Hz.
  assert (forall n, 0 <= n < 10 ^ 20 -> forallb is_word_char (dec_digits 20 n []) = true) as Hd.
  { intros n Hn. apply forallb_forall. intros c Hc. apply isdigit_word.
    pose proof (isdigit_dec_digits 20 n [] ltac:(lia) ltac:(constructor)) as Hf.
    rewrite List.Forall_forall in Hf. by apply Hf. }
  pose proof (dec_digits_ne 20 (- z) [] ltac:(done)). pose proof (dec_digits_ne 20 z [] ltac:(done)).
  destruct (z <? 0) eqn:E; bool_to_prop; (split; [done|]); [apply andb_true_iff; split; [done|]|]; apply Hd; lia.
Qed.

(** Two numbers are printed the same only when they are equal. *)
Lemma print_dec_inj a b : INT_MIN <= a <= INT_MAX -> INT_MIN <= b <= INT_MAX -> print_dec a = print_dec b -> a = b.
Proof.
  intros Ha Hb E. pose proof (conv_int_print a [] Ha I) as H1. pose proof (conv_int_print b [] Hb I) as H2.
  rewrite E in H1. congruence.
Qed.

(** Reading a printed number. *)
Lemma skip_space_dec z : INT_MIN <= z <= INT_MAX -> skip_space (print_dec z) = print_dec z.
Proof.
  intros Hz. destruct (print_dec_cases z Hz) as (neg & ds & -> & Hne & Hd & _).
  destruct ds as [|d ds]; [done|]. destruct (isdigit_not_space d (Forall_inv Hd)) as (Hs & _ & _).
  destruct neg; by apply skip_space_word.
Qed.
Lemma scan_dec_print z : INT_MIN <= z <= INT_MAX -> scan_dec (print_dec z) = Some (z, []).
Proof.
  intros Hz. pose proof (conv_int_print z [] Hz I) as H. rewrite app_nil_r in H. unfold conv_int in H.
  rewrite skip_space_dec in H by done. destruct (print_dec z) as [|c w]; [done|].
  destruct (scan_dec (c :: w)) as [[v r]|]; [destruct (is_int v); congruence|done].
Qed.
End SqlLaws.

(** Gives the tokens of a text piece by piece; words and quoted strings are
    closed by hypotheses. *)
Ltac lex_piece :=
  first [ apply SqlLaws.lex_word; assumption
        | apply SqlLaws.lex_dq; assumption
        | match goal with |- Sql.lex_run ?m ?a = _ =>
            let r := eval vm_compute in (Sql.lex_run m a) in exact (eq_refl r) end ].
Ltac lex_tac :=
  unfold Sql.lex;
  repeat (match goal with |- context [Sql.lex_run ?m (?a ++ ?b)] => erewrite (SqlLaws.lex_step m a b) by lex_piece end);
  match goal with
  | |- context [Sql.lex_run Sql.Start ?a] => rewrite (SqlLaws.lex_word a) by assumption
  | |- context [Sql.lex_run ?m ?a] => let r := eval vm_compute in (Sql.lex_run m a) in change (Sql.lex_run m a) with r
  end.
