(* ===== verification/SqlMini.v ===== *)
(** * A small SQLite, for the examples

    Executes the statements of Sql from their text: [parse] reads back what
    [tokens] spells, and the tables are changed as [run] says.  It satisfies
    [SqliteLaws], so the theorems about the back end have instances. *)
From S2P Require Import Prelude CStr Sql.

Module SqlMini.
Import Sql SqlLaws.

(** ** Reading statements *)
Fixpoint expect (ks ts : list token) : option (list token) :=
  match ks, ts with
  | [], _ => Some ts
  | k :: ks, t :: ts => if decide (k = t) then expect ks ts else None
  | _, _ => None
  end.
Definition is_sym (t : token) (c : Z) : bool := match t with TSym x => x =? c | _ => false end.
(** The groups between commas, up to the closing parenthesis. *)
Fixpoint split_groups (depth : nat) (cur ts : list token) : option (list (list token) * list token) :=
  match ts with
  | [] => None
  | t :: ts =>
      if is_sym t 40 then split_groups (S depth) (cur ++ [t]) ts else
      if is_sym t 41 then
        match depth with O => Some ([cur], ts) | S d => split_groups d (cur ++ [t]) ts end
      else if is_sym t 44 && (depth =? 0)%nat then
        match split_groups O [] ts with Some (gs, r) => Some (cur :: gs, r) | None => None end
      else split_groups depth (cur ++ [t]) ts
  end.
Definition parse_int (w : cstring) : option Z := match scan_dec w with Some (z, []) => Some z | _ => None end.
Definition parse_cond (ts : list token) : option (condition * list token) :=
  match ts with
  | TWord w :: TWord c :: TSym 61 :: TDq d :: r =>
      if decide (w = cs "WHERE") then (fun z => (Cond c true z, r)) <$> parse_int d else None
  | TWord w :: TWord c :: TSym 61 :: TWord d :: r =>
      if decide (w = cs "WHERE") then (fun z => (Cond c false z, r)) <$> parse_int d else None
  | _ => None
  end.
Definition parse_expr (ts : list token) : option expr :=
  match ts with
  | [TSq s] => Some (EStr true s)
  | [TDq s] => Some (EStr false s)
  | [TWord w] =>
      if decide (w = cs "NULL") then Some ENull else
      if decide (w = cs "current_timestamp") then Some ENow else
      match parse_int w with Some z => Some (EInt z) | None => Some (EReal w) end
  | TSym 40 :: TWord _ :: TWord col :: TWord _ :: TWord t :: r =>
      match parse_cond r with Some (c, [TSym 41]) => Some (EOther col t c) | _ => None end
  | _ => None
  end.
Definition word (t : token) : option cstring := match t with TWord w => Some w | _ => None end.
Definition parse_name (ts : list token) : option cstring := match ts with [t] => word t | _ => None end.
Definition parse_column (ts : list token) : option column :=
  match ts with t :: ts => n ← word t; d ← mapM word ts; Some (Column n d) | [] => None end.
(** The names between SELECT and FROM. *)
Fixpoint parse_names (ts : list token) : option (list cstring * list token) :=
  match ts with
  | TWord w :: ts =>
      match ts with
      | t :: ts' => if is_sym t 44 then match parse_names ts' with Some (l, r) => Some (w :: l, r) | None => None end
                    else Some ([w], ts)
      | [] => Some ([w], [])
      end
  | _ => None
  end.

Definition parse_drop (ts : list token) : option (stmt * list token) :=
  match expect [kw "IF"; kw "EXISTS"] ts, ts with
  | Some (TWord t :: r), _ => Some (DropTable true t, r)
  | None, TWord t :: r => Some (DropTable false t, r)
  | _, _ => None
  end.
Definition parse_create (ts : list token) : option (stmt * list token) :=
  match ts with
  | TWord t :: TSym 40 :: r =>
      '(gs, r) ← split_groups O [] r; cols ← mapM parse_column gs; Some (CreateTable t cols, r)
  | _ => None
  end.
Definition parse_insert (ts : list token) : option (stmt * list token) :=
  let '(replace, ts) := match expect [kw "OR"; kw "REPLACE"] ts with Some r => (true, r) | None => (false, ts) end in
  match expect [kw "INTO"] ts with
  | Some (TWord t :: TSym 40 :: r) =>
      '(gs, r) ← split_groups O [] r; names ← mapM parse_name gs;
      r ← expect [kw "VALUES"; TSym 40] r;
      '(vs, r) ← split_groups O [] r; vals ← mapM parse_expr vs;
      Some (Insert replace t names vals, r)
  | _ => None
  end.
Definition parse_delete (ts : list token) : option (stmt * list token) :=
  match ts with
  | TWord t :: r => match parse_cond r with Some (c, r) => Some (Delete t (Some c), r) | None => Some (Delete t None, r) end
  | _ => None
  end.
Definition parse_select (ts : list token) : option (stmt * list token) :=
  '(cols, r) ← (match ts with
               | TSym 42 :: r => Some (None, r)
               | _ => '(l, r) ← parse_names ts; Some (Some l, r)
               end);
  match expect [kw "FROM"] r with
  | Some (TWord t :: r) =>
      '(c, r) ← parse_cond r;
      match expect [kw "LIMIT"; kw "1"] r with
      | Some r => Some (Select cols t c true, r)
      | None => Some (Select cols t c false, r)
      end
  | _ => None
  end.
Definition parse_stmt (ts : list token) : option (stmt * list token) :=
  match expect [kw "DROP"; kw "TABLE"] ts with Some r => parse_drop r | None =>
  match expect [kw "CREATE"; kw "TABLE"; kw "IF"; kw "NOT"; kw "EXISTS"] ts with Some r => parse_create r | None =>
  match expect [kw "INSERT"] ts with Some r => parse_insert r | None =>
  match expect [kw "DELETE"; kw "FROM"] ts with Some r => parse_delete r | None =>
  match expect [kw "SELECT"] ts with Some r => parse_select r | None => None end end end end end.
Definition parse (ts : list token) : option stmt :=
  match parse_stmt ts with
  | Some (st, []) | Some (st, [TSym 59]) => Some st
  | _ => None
  end.

(** ** What was spelled is read back *)
Lemma expect_app ks r : expect ks (ks ++ r) = Some r.
Proof. induction ks as [|k ks IH]; [done|]. cbn. by rewrite decide_True. Qed.

(** Tokens without parentheses and commas of their own. *)
Definition group (g : list token) : Prop := forall cur r, split_groups O cur (g ++ r) = split_groups O (cur ++ g) r.
Lemma group_nil : group [].
Proof. intros cur r. by rewrite app_nil_r. Qed.
Lemma group_cons t g : match t with TSym _ => false | _ => true end = true -> group g -> group (t :: g).
Proof. intros Ht Hg cur r. destruct t; try done; cbn; rewrite Hg; by rewrite <- app_assoc. Qed.
Lemma split_sep gs r : gs <> [] -> Forall group gs -> split_groups O [] (sep gs ++ TSym 41 :: r) = Some (gs, r).
Proof.
  intros Hne Hg. induction Hg as [|g gs Hg1 Hg IH]; [done|]. destruct gs as [|g2 gs].
  - cbn [sep]. rewrite Hg1. done.
  - change (sep (g :: g2 :: gs)) with (g ++ comma :: sep (g2 :: gs)). rewrite <- app_assoc. rewrite Hg1.
    cbn [app]. change (split_groups 0 g (comma :: sep (g2 :: gs) ++ TSym 41 :: r)) with
      (match split_groups O [] (sep (g2 :: gs) ++ TSym 41 :: r) with Some (gs, r) => Some (g :: gs, r) | None => None end).
    by rewrite IH.
Qed.

Lemma parse_int_dec z : int_fine z = true -> parse_int (print_dec z) = Some z.
Proof. unfold int_fine, is_int. intros H. bool_to_prop. unfold parse_int. by rewrite scan_dec_print. Qed.

Lemma parse_cond_tokens c r : cond_fine c = true -> parse_cond (cond_tokens c ++ r) = Some (c, r).
Proof.
  unfold cond_fine. intros H. bool_to_prop. destruct c as [col q z]. cbn [cond_value cond_col] in *.
  unfold cond_tokens. cbn [cond_quoted cond_col cond_value app].
  destruct q; cbn [parse_cond kw]; rewrite decide_True by done; by rewrite parse_int_dec.
Qed.

(** A number with a point is not an integer. *)
Lemma take_digits_split s : exists d, s = d ++ snd (take_digits s) /\ Forall (fun c => isdigit c = true) d.
Proof.
  induction s as [|c s (d & Hd & Hf)]; [by exists []|]. cbn. destruct (isdigit c) eqn:E; [|by exists []].
  destruct (take_digits s) as [w r] eqn:Et. cbn in *. exists (c :: d). split; [by rewrite Hd at 1|by constructor].
Qed.
Lemma parse_int_point t : 46 ∈ t -> forallb (fun c => isdigit c || (c =? 46) || (c =? 45)) t = true -> parse_int t = None.
Proof.
  intros Hp Hc. unfold parse_int, scan_dec.
  destruct (take_sign t) as [neg s] eqn:Es.
  assert (46 ∈ s) as Hp'.
  { unfold take_sign in Es. destruct t as [|c t]; [by apply elem_of_nil in Hp|].
    destruct (c =? 45) eqn:E1; bool_to_prop; [|destruct (c =? 43) eqn:E2; bool_to_prop]; injection Es as <- <-;
      subst; try done; by apply elem_of_cons in Hp as [|]. }
  destruct (take_digits s) as [ds r] eqn:Ed. destruct ds; [done|]. destruct r; [|done]. exfalso.
  destruct (take_digits_split s) as (d & Hd & Hf). rewrite Ed in Hd. cbn in Hd. rewrite app_nil_r in Hd. subst d.
  rewrite Forall_forall in Hf. by specialize (Hf _ Hp').
Qed.

Lemma parse_expr_tokens e : expr_fine e = true -> parse_expr (expr_tokens e) = Some e /\ group (expr_tokens e).
Proof.
  destruct e as [z|t|single s| | |col t c]; cbn [expr_fine expr_tokens]; intros Hf.
  - split; [|apply group_cons; try done; apply group_nil]. cbn [parse_expr].
    assert (forall w, isdigit (hd 0 w) = false -> hd 0 w <> 45 -> print_dec z <> w) as Hw.
    { intros w H1 H2 E. unfold int_fine, is_int in Hf. bool_to_prop.
      destruct (print_dec_cases z) as (neg & ds & E2 & Hne & Hd & _); [done|]. destruct ds as [|d ds]; [done|].
      apply Forall_inv in Hd. rewrite E in E2. cbn beta in Hd. destruct neg; rewrite E2 in H1, H2; cbn [hd] in H1, H2; congruence. }
    rewrite !decide_False by (by apply Hw). by rewrite parse_int_dec.
  - bool_to_prop. split; [|apply group_cons; try done; apply group_nil]. cbn [parse_expr].
    apply bool_decide_eq_true in H.
    rewrite !decide_False by (intros ->; revert H; apply (bool_decide_unpack _); vm_compute; exact I). by rewrite parse_int_point.
  - destruct single; (split; [done|apply group_cons; try done; apply group_nil]).
  - split; [done|]. apply group_cons; try done. apply group_nil.
  - split; [done|]. apply group_cons; try done. apply group_nil.
  - bool_to_prop. unfold parens. cbn [app parse_expr kw]. rewrite ?parse_cond_tokens by done. split; [done|].
    intros cur r. unfold cond_tokens. destruct (cond_quoted c); cbn; by rewrite <- !app_assoc.
Qed.

Lemma parse_exprs vals : forallb expr_fine vals = true ->
  mapM parse_expr (map expr_tokens vals) = Some vals /\ Forall group (map expr_tokens vals).
Proof.
  induction vals as [|e vals IH]; intros Hf; [done|]. cbn [forallb] in Hf. bool_to_prop.
  destruct (parse_expr_tokens e) as [He Hg]; [done|]. destruct IH as [Hm Hgs]; [done|].
  split; [|by constructor]. cbn [map mapM]. rewrite He. cbn. by rewrite Hm.
Qed.
Lemma parse_name_list l : mapM parse_name (map (fun n => [TWord n]) l) = Some l /\ Forall group (map (fun n => [TWord n]) l).
Proof.
  induction l as [|n l [IH Hg]]; [done|]. split; [cbn [map mapM parse_name word]; cbn; by rewrite IH|].
  constructor; [|done]. apply group_cons; [done|apply group_nil].
Qed.
Lemma words l : mapM word (map TWord l) = Some l /\ group (map TWord l).
Proof.
  induction l as [|w l [IH Hg]]; [split; [done|apply group_nil]|].
  split; [cbn; by rewrite IH|by apply group_cons].
Qed.
Lemma parse_columns cols : mapM parse_column (map column_tokens cols) = Some cols /\ Forall group (map column_tokens cols).
Proof.
  induction cols as [|[n d] cols [IH Hg]]; [done|]. destruct (words d) as [Hw Hwg]. split.
  - assert (parse_column (column_tokens (Column n d)) = Some (Column n d)) as Hc
      by (unfold parse_column, column_tokens; cbn [col_name col_decl]; by rewrite Hw).
    cbn [map mapM]. rewrite Hc. cbn. by rewrite IH.
  - constructor; [|done]. by apply group_cons.
Qed.
Lemma parse_names_tokens l r : l <> [] -> match r with t :: _ => is_sym t 44 = false | [] => True end ->
  parse_names (names_tokens l ++ r) = Some (l, r).
Proof.
  intros Hne Hr. induction l as [|n l IH]; [done|]. destruct l as [|n2 l].
  - cbn. destruct r as [|t r]; [done|]. by rewrite Hr.
  - change (names_tokens (n :: n2 :: l)) with (TWord n :: comma :: names_tokens (n2 :: l)).
    cbn [app parse_names]. unfold comma. by rewrite IH.
Qed.
Lemma names_not_star l r : l <> [] -> exists w ts, names_tokens l ++ r = TWord w :: ts.
Proof. intros Hne. destruct l as [|n [|n2 l]]; [done|by eexists _, _|by eexists _, _]. Qed.

Lemma name_not_if t : is_name t = true -> t <> cs "IF".
Proof. by intros H ->. Qed.

Definition tail_ok (r : list token) : Prop := r = [] \/ r = [TSym 59].

Lemma parse_drop_ok ie t r : is_name t = true -> 
  parse_drop ((if (ie : bool) then [kw "IF"; kw "EXISTS"] else []) ++ [TWord t] ++ r) = Some (DropTable ie t, r).
Proof.
  intros Ht. destruct ie; [reflexivity|]. unfold parse_drop. cbn [app].
  assert (expect [kw "IF"; kw "EXISTS"] (TWord t :: r) = None) as ->; [|done].
  cbn [expect]. rewrite decide_False; [done|]. intros [=E]. by apply (name_not_if t Ht).
Qed.

Lemma parse_stmt_tokens st r : stmt_fine st = true -> tail_ok r -> parse_stmt (tokens st ++ r) = Some (st, r).
Proof.
  intros Hf Hr. destruct st as [ie t|t cols|replace t cols vals|t c|cols t c limit1]; cbn [stmt_fine tokens] in *; bool_to_prop.
  - rewrite <- app_assoc. change (parse_stmt ([kw "DROP"; kw "TABLE"] ++ ?x)) with (parse_drop x).
    rewrite <- app_assoc. by apply parse_drop_ok.
  - destruct (parse_columns cols) as [Hm Hg]. unfold parens. rewrite <- app_assoc.
    change (parse_stmt ([kw "CREATE"; kw "TABLE"; kw "IF"; kw "NOT"; kw "EXISTS"; TWord t] ++ ?x)) with (parse_create (TWord t :: x)).
    cbn [app parse_create]. rewrite <- app_assoc. cbn [app].
    rewrite split_sep; [|by destruct cols; [apply bool_decide_eq_false in H1|]|done]. cbn [mbind option_bind]. by rewrite Hm.
  - destruct (parse_name_list cols) as [Hn Hng]. destruct (parse_exprs vals H0) as [Hv Hvg].
    apply bool_decide_eq_false in H1, H3.
    assert (parse_insert ((if replace then [kw "OR"; kw "REPLACE"] else []) ++ [kw "INTO"; TWord t] ++ parens (names_tokens cols) ++
      [kw "VALUES"] ++ parens (sep (map expr_tokens vals)) ++ r) = Some (Insert replace t cols vals, r)) as E.
    { unfold parse_insert. 
      assert (match expect [kw "OR"; kw "REPLACE"] ((if replace then [kw "OR"; kw "REPLACE"] else []) ++ [kw "INTO"; TWord t] ++
          parens (names_tokens cols) ++ [kw "VALUES"] ++ parens (sep (map expr_tokens vals)) ++ r) with
        Some r => (true, r) | None => (false, (if replace then [kw "OR"; kw "REPLACE"] else []) ++ [kw "INTO"; TWord t] ++
          parens (names_tokens cols) ++ [kw "VALUES"] ++ parens (sep (map expr_tokens vals)) ++ r) end =
        (replace, [kw "INTO"; TWord t] ++ parens (names_tokens cols) ++ [kw "VALUES"] ++ parens (sep (map expr_tokens vals)) ++ r)) as ->
        by (destruct replace; [by rewrite expect_app|done]).
      cbv beta iota. unfold parens. change (expect [kw "INTO"] ([kw "INTO"; TWord t] ++ ?x)) with (Some (TWord t :: x)).
      cbn [app]. rewrite <- app_assoc. cbn [app]. unfold names_tokens. rewrite split_sep; [|by destruct cols|done].
      cbn [mbind option_bind]. rewrite Hn. cbn [mbind option_bind].
      change (expect [kw "VALUES"; TSym 40] (kw "VALUES" :: TSym 40 :: ?x)) with (Some x). cbn [mbind option_bind].
      rewrite <- app_assoc. cbn [app]. rewrite split_sep; [|by destruct vals|done]. cbn [mbind option_bind]. by rewrite Hv. }
    rewrite <- !app_assoc. change (parse_stmt ([kw "INSERT"] ++ ?x)) with (parse_insert x). exact E.
  - rewrite <- app_assoc. change (parse_stmt ([kw "DELETE"; kw "FROM"; TWord t] ++ ?x)) with (parse_delete (TWord t :: x)).
    unfold parse_delete. destruct c as [c|]; [by rewrite parse_cond_tokens|]. by destruct Hr as [->| ->].
  - rewrite <- !app_assoc. change (parse_stmt ([kw "SELECT"] ++ ?x)) with (parse_select x).
    unfold parse_select.
    assert ((match (match cols with None => [TSym 42] | Some l => names_tokens l end ++ [kw "FROM"; TWord t] ++ cond_tokens c ++
        (if limit1 then [kw "LIMIT"; kw "1"] else []) ++ r) with
      | TSym 42 :: r => Some (None, r)
      | _ => '(l, r) ← parse_names (match cols with None => [TSym 42] | Some l => names_tokens l end ++ [kw "FROM"; TWord t] ++ cond_tokens c ++
        (if limit1 then [kw "LIMIT"; kw "1"] else []) ++ r); Some (Some l, r) end) =
      Some (cols, [kw "FROM"; TWord t] ++ cond_tokens c ++ (if limit1 then [kw "LIMIT"; kw "1"] else []) ++ r)) as ->.
    { destruct cols as [l|]; [|done]. bool_to_prop. apply bool_decide_eq_false in H0.
      rewrite parse_names_tokens by done. destruct (names_not_star l ([kw "FROM"; TWord t] ++ cond_tokens c ++
        (if limit1 then [kw "LIMIT"; kw "1"] else []) ++ r) H0) as (w & ts & ->). done. }
    cbn [mbind option_bind]. change (expect [kw "FROM"] ([kw "FROM"; TWord t] ++ ?x)) with (Some (TWord t :: x)).
    cbv beta iota. rewrite parse_cond_tokens by done. cbn [mbind option_bind].
    destruct limit1; [by rewrite expect_app|]. by destruct Hr as [->| ->].
Qed.

Lemma parse_means text st : means text st -> stmt_fine st = true -> exists ts, lex text = Some ts /\ parse ts = Some st.
Proof.
  intros [E|E] Hf; eexists; (split; [exact E|]); unfold parse.
  - pose proof (parse_stmt_tokens st [] Hf (or_introl eq_refl)) as Hp. rewrite app_nil_r in Hp. by rewrite Hp.
  - by rewrite (parse_stmt_tokens st [TSym 59] Hf (or_intror eq_refl)).
Qed.

Definition execute (text : cstring) (d : database) : Z * database * list (list cell) :=
  default (SQLITE_ERROR, d, []) (ts ← lex text; st ← parse ts; run [] st d).
Lemma execute_means text st d r : means text st -> stmt_fine st = true -> run [] st d = Some r -> execute text d = r.
Proof. intros Hm Hf E. destruct (parse_means text st Hm Hf) as (ts & El & Ep). unfold execute. rewrite El. cbn. rewrite Ep. cbn. by rewrite E. Qed.
End SqlMini.

(** ** The instance: the disc is the tables *)
#[export] Instance mini_sqlite : Sqlite Sql.database := {
  sqlite3_open _ d := (Sql.SQLITE_OK, d);
  sqlite3_close d := d;
  sqlite3_exec text d := fst (SqlMini.execute text d);
  sqlite3_rows text d := let '(rc, _, rows) := SqlMini.execute text d in (rc, rows);
  sqlite3_column_int x := match x with Sql.SInt z => i32_of z | _ => 0 end;
  sqlite3_column_float x :=
    match x with Sql.SReal t => match scan_float t with Some (b, _) => b | None => 0 end | _ => 0 end;
  sqlite3_column_text x :=
    match x with Sql.SNull => None | Sql.SInt z => Some (print_dec z) | Sql.SReal t => Some t | Sql.SText s => Some s end
}.

#[export] Instance mini_laws : SqliteLaws Sql.database.
Proof.
  refine {| contents := fun d => d; db_file := cs "suchai.db" |}; try done.
  - intros d. by exists d.
  - intros d text st Hm Hf. exists [], (snd (sqlite3_exec text d)). intros rc db rows E.
    cbn. by rewrite (SqlMini.execute_means _ _ _ _ Hm Hf E).
  - intros d text cols t c l1 Hm Hf rc db rows E. cbn. by rewrite (SqlMini.execute_means _ _ _ _ Hm Hf E).
Defined.
