(* ===== verification/Storage.v ===== *)
(** * The storage interface

    [src/lib/storage/include/suchai/storage.h]: the operations every storage
    back end provides to the data repository, as a type class over the
    state of the back end, and the laws the data repository relies on, stated
    over an abstract view (the array of status variables and the slots of the
    flight plan table). *)
From S2P Require Import Prelude CStr Config.

(** [fp_entry_t]; a null string pointer is [None]. *)
Record fp_entry := FpEntry {
  fp_unixtime : Z;
  fp_executions : Z;
  fp_periodical : Z;
  fp_node : Z;
  fp_cmd : option cstring;
  fp_args : option cstring
}.

#[export] Instance fp_entry_eq_dec : EqDecision fp_entry.
Proof. solve_decision. Defined.

(** [fp_entry_clear]: frees the strings and resets the fields. *)
Definition fp_entry_clear (e : fp_entry) : fp_entry :=
  FpEntry ST_FP_NULL 0 0 SCH_COMM_NODE None None.

(** [fp_entry_copy]: a deep copy, so a copy shares nothing with its source. *)
Definition fp_entry_copy (src : fp_entry) : fp_entry :=
  FpEntry (fp_unixtime src) (fp_executions src) (fp_periodical src) (fp_node src)
          (fp_cmd src) (fp_args src).

(** What [storage_flight_plan_get_args] stores in its output arguments. *)
Record fp_out := FpOut {
  out_cmd : cstring; out_args : cstring;
  out_executions : Z; out_period : Z; out_node : Z
}.

(** ** Operations

    Integer results are the return codes; an output parameter is an [option],
    [None] when the call does not write it. *)
Class Storage (S : Type) := {
  storage_init : M S Z;
  storage_close : M S Z;
  storage_table_status_init : Z -> bool -> M S Z;
  storage_table_flight_plan_init : Z -> bool -> M S Z;
  storage_table_payload_init : Z -> bool -> M S Z;
  storage_status_get_value_idx : Z -> M S (Z * option Z);
  storage_status_set_value_idx : Z -> Z -> M S Z;
  storage_flight_plan_set : Z -> option cstring -> option cstring -> Z -> Z -> Z -> M S Z;
  storage_flight_plan_get_idx : Z -> M S (Z * option fp_entry);
  storage_flight_plan_get_args : Z -> M S (Z * option fp_out);
  storage_flight_plan_delete_row : Z -> M S Z;
  storage_flight_plan_delete_row_idx : Z -> M S Z;
  storage_flight_plan_reset : M S Z;
  (** [data] and the size field of the schema; [None] is a null pointer. *)
  storage_payload_set_data : Z -> Z -> option (list Z) -> option Z -> M S Z;
  storage_payload_get_data : Z -> Z -> option Z -> M S (Z * option (list Z));
  storage_payload_reset : M S Z;
  storage_payload_reset_table : Z -> M S Z
}.

(** ** The abstract view

    A used slot of the flight plan table. *)
Record fp_row := FpRow {
  row_time : Z; row_cmd : cstring; row_args : cstring;
  row_executions : Z; row_period : Z; row_node : Z
}.

#[export] Instance fp_row_eq_dec : EqDecision fp_row.
Proof. solve_decision. Defined.

Definition row_out (r : fp_row) : fp_out :=
  FpOut (row_cmd r) (row_args r) (row_executions r) (row_period r) (row_node r).

Definition row_entry (r : fp_row) : fp_entry :=
  FpEntry (row_time r) (row_executions r) (row_period r) (row_node r)
          (Some (row_cmd r)) (Some (row_args r)).

Definition slot_time (o : option fp_row) : Z :=
  match o with None => ST_FP_NULL | Some r => row_time r end.

(** The first slot with a given time; a free slot has time [ST_FP_NULL]. *)
Fixpoint find_time (t : Z) (slots : list (option fp_row)) : option nat :=
  match slots with
  | [] => None
  | o :: slots => if slot_time o =? t then Some O else S <$> find_time t slots
  end.

(** The specification of the flight plan table. *)
Definition tbl_set (r : fp_row) (slots : list (option fp_row)) : option (list (option fp_row)) :=
  k ← find_time ST_FP_NULL slots; Some (<[k := Some r]> slots).
Definition tbl_get (t : Z) (slots : list (option fp_row)) : option fp_row :=
  k ← find_time t slots; o ← slots !! k; o.
Definition tbl_delete (t : Z) (slots : list (option fp_row)) : option (list (option fp_row)) :=
  k ← find_time t slots; Some (<[k := None]> slots).
Definition tbl_delete_idx (i : Z) (slots : list (option fp_row)) : list (option fp_row) :=
  zinsert slots i None.

(** The number of used slots. *)
Definition used (slots : list (option fp_row)) : Z := zlength (omap id slots).

(** A string that fits with its terminator in [SCH_CMD_MAX_STR_NAME] bytes. *)
Definition fits_fp (s : cstring) : Prop := is_cstr s /\ strlen s < SCH_CMD_MAX_STR_NAME.

#[export] Instance fits_fp_dec s : Decision (fits_fp s).
Proof. unfold fits_fp. apply _. Defined.

(** ** Laws *)
Class StorageLaws (S : Type) `{Storage S} := {
  (** The tables are created and the representation is consistent. *)
  st_ok : S -> Prop;
  st_status_size : S -> Z;
  st_status : S -> Z -> Z;
  st_slots : S -> list (option fp_row);
  (** There is room on the medium for this number of further flight plan
      entries: a medium that is only appended to fills up. *)
  st_room : Z -> S -> Prop;

  law_status_u32 s i : st_ok s -> 0 <= i < st_status_size s -> 0 <= st_status s i < 2 ^ 32;
  law_slots_time s k r : st_ok s -> st_slots s !! k = Some (Some r) -> row_time r <> ST_FP_NULL;
  law_slots_len s : st_ok s -> zlength (st_slots s) = SCH_FP_MAX_ENTRIES;
  law_room_le s n m : m <= n -> st_room n s -> st_room m s;

  law_status_get s i : st_ok s -> 0 <= i < st_status_size s ->
    storage_status_get_value_idx i s = Ret ((SCH_ST_OK, Some (st_status s i)), s);
  law_status_set s i v : st_ok s -> 0 <= i < st_status_size s -> 0 <= v < 2 ^ 32 ->
    exists s', storage_status_set_value_idx i v s = Ret (SCH_ST_OK, s') /\ st_ok s' /\
      st_status_size s' = st_status_size s /\ st_slots s' = st_slots s /\
      (forall n, st_room n s -> st_room n s') /\
      forall j, 0 <= j < st_status_size s ->
        st_status s' j = if decide (j = i) then v else st_status s j;

  law_fp_set s t c a e p n : st_ok s -> st_room 1 s ->
    INT_MIN <= t <= INT_MAX -> INT_MIN <= e <= INT_MAX ->
    INT_MIN <= p <= INT_MAX -> INT_MIN <= n <= INT_MAX -> fits_fp c -> fits_fp a ->
    exists s', storage_flight_plan_set t (Some c) (Some a) e p n s =
        Ret (if t <? 0 then SCH_ST_ERROR
             else if issome (tbl_set (FpRow t c a e p n) (st_slots s)) then SCH_ST_OK else SCH_ST_ERROR, s') /\
      st_ok s' /\ st_status_size s' = st_status_size s /\ (forall k, st_room (k + 1) s -> st_room k s') /\
      (forall j, 0 <= j < st_status_size s -> st_status s' j = st_status s j) /\
      st_slots s' = if t <? 0 then st_slots s
                    else default (st_slots s) (tbl_set (FpRow t c a e p n) (st_slots s));
  law_fp_get_args s t : st_ok s -> t <> ST_FP_NULL ->
    storage_flight_plan_get_args t s =
      Ret (match tbl_get t (st_slots s) with
           | Some r => (SCH_ST_OK, Some (row_out r))
           | None => (SCH_ST_ERROR, None)
           end, s);
  law_fp_delete s t : st_ok s -> t <> ST_FP_NULL ->
    exists s', storage_flight_plan_delete_row t s =
        Ret (if issome (tbl_delete t (st_slots s)) then SCH_ST_OK else SCH_ST_ERROR, s') /\
      st_ok s' /\ st_status_size s' = st_status_size s /\ (forall n, st_room n s -> st_room n s') /\
      (forall j, 0 <= j < st_status_size s -> st_status s' j = st_status s j) /\
      st_slots s' = default (st_slots s) (tbl_delete t (st_slots s))
}.

(** Access to the flight plan table by index. *)
Class StorageIndexLaws (S : Type) `{StorageLaws S} : Prop := {
  law_fp_get_idx s i o : st_ok s -> zlookup (st_slots s) i = Some o ->
    exists e, storage_flight_plan_get_idx i s = Ret ((SCH_ST_OK, Some e), s) /\
      fp_unixtime e = slot_time o /\ (forall r, o = Some r -> e = row_entry r);
  law_fp_delete_idx s i : st_ok s -> 0 <= i < SCH_FP_MAX_ENTRIES ->
    exists s', storage_flight_plan_delete_row_idx i s = Ret (SCH_ST_OK, s') /\ st_ok s' /\
      st_status_size s' = st_status_size s /\ (forall n, st_room n s -> st_room n s') /\
      (forall j, 0 <= j < st_status_size s -> st_status s' j = st_status s j) /\
      st_slots s' = tbl_delete_idx i (st_slots s)
}.

(** The weaker promise that every table of slots keeps: a used slot is read back;
    of a free one either an entry with the time [ST_FP_NULL] is read
    ([st_reads_free]: RAM) or the call fails and nothing is written (FLASH). *)
Class StorageSlotLaws (S : Type) `{StorageLaws S} := {
  st_reads_free : bool;
  law_slot_get s i o : st_ok s -> zlookup (st_slots s) i = Some o ->
    exists rc e, storage_flight_plan_get_idx i s = Ret ((rc, e), s) /\
      match o with
      | Some r => rc = SCH_ST_OK /\ e = Some (row_entry r)
      | None => if st_reads_free then rc = SCH_ST_OK /\ fp_unixtime <$> e = Some ST_FP_NULL
                else rc = SCH_ST_ERROR /\ e = None
      end;
  law_slot_delete s i : st_ok s -> 0 <= i < SCH_FP_MAX_ENTRIES ->
    exists s', storage_flight_plan_delete_row_idx i s = Ret (SCH_ST_OK, s') /\ st_ok s' /\
      st_status_size s' = st_status_size s /\ (forall n, st_room n s -> st_room n s') /\
      (forall j, 0 <= j < st_status_size s -> st_status s' j = st_status s j) /\
      st_slots s' = tbl_delete_idx i (st_slots s)
}.

#[export] Instance index_slot_laws {S : Type} `{StorageIndexLaws S} : StorageSlotLaws S.
Proof.
  refine {| st_reads_free := true |}; [|apply law_fp_delete_idx].
  intros s i o Hs Hi. destruct (law_fp_get_idx s i o Hs Hi) as (e & E & Ht & Hr).
  exists SCH_ST_OK, (Some e). split; [exact E|]. destruct o as [r|]; [by rewrite (Hr r)|]. split; [done|]. cbn in *. by rewrite Ht.
Defined.

(** What [dat_purge_fp] needs: where a free slot is not read, the first one is used. *)
Definition purgeable {S : Type} `{StorageSlotLaws S} (s : S) : Prop :=
  st_reads_free = true \/ exists r, zlookup (st_slots s) 0 = Some (Some r).

(** Payload samples: [pay_read s p i size] are the bytes of sample [i] of
    payload [p]; the samples of one size do not overlap. *)
Class PayloadLaws (S : Type) `{StorageLaws S} := {
  pay_ok : S -> Prop;
  pay_tables : S -> Z;
  pay_capacity : Z -> Z;
  pay_read : S -> Z -> Z -> Z -> list Z;

  law_pay_get s p i size : pay_ok s -> 0 <= p < pay_tables s -> 0 < size < 2 ^ 16 ->
    0 <= i < pay_capacity size ->
    storage_payload_get_data p i (Some size) s = Ret ((SCH_ST_OK, Some (pay_read s p i size)), s);
  law_pay_set s p i data : st_ok s -> pay_ok s -> 0 <= p < pay_tables s ->
    0 < zlength data < 2 ^ 16 -> 0 <= i < pay_capacity (zlength data) ->
    exists s', storage_payload_set_data p i (Some data) (Some (zlength data)) s = Ret (SCH_ST_OK, s') /\
      st_ok s' /\ pay_ok s' /\ pay_tables s' = pay_tables s /\
      st_status_size s' = st_status_size s /\ (forall j, st_status s' j = st_status s j) /\
      st_slots s' = st_slots s /\
      pay_read s' p i (zlength data) = data /\
      (forall i2, 0 <= i2 < pay_capacity (zlength data) -> i2 <> i ->
         pay_read s' p i2 (zlength data) = pay_read s p i2 (zlength data));
  law_pay_status s i v rc s' : pay_ok s -> storage_status_set_value_idx i v s = Ret (rc, s') ->
    pay_ok s' /\ pay_tables s' = pay_tables s /\
    forall p j size, pay_read s' p j size = pay_read s p j size
}.

(** ** Lemmas on the table *)
Lemma find_time_Some t slots k :
  find_time t slots = Some k ->
  (exists o, slots !! k = Some o /\ slot_time o = t) /\
  forall j o, (j < k)%nat -> slots !! j = Some o -> slot_time o <> t.
Proof.
  revert k. induction slots as [|o slots IH]; intros k; cbn; [done|].
  destruct (slot_time o =? t) eqn:E; bool_to_prop.
  - intros [= <-]. split; [eauto|]. lia.
  - destruct (find_time t slots) as [k'|] eqn:Ef; cbn; [|done]. intros [= <-].
    destruct (IH k' eq_refl) as [H1 H2]. split; [done|].
    intros [|j] o' Hj; cbn; [intros [= <-]; done|]. intros. eapply (H2 j); [lia|done].
Qed.

Lemma find_time_None t slots :
  find_time t slots = None -> forall o, o ∈ slots -> slot_time o <> t.
Proof.
  induction slots as [|o slots IH]; cbn; [set_solver|].
  destruct (slot_time o =? t) eqn:E; bool_to_prop; [done|].
  destruct (find_time t slots); [done|]. intros _ o' [->|Hin]%elem_of_cons; [done|]. by apply IH.
Qed.

Lemma find_time_lt t slots k : find_time t slots = Some k -> (k < length slots)%nat.
Proof. intros [(o & H & _) _]%find_time_Some. by apply lookup_lt_Some in H. Qed.

Lemma used_nil : used [] = 0.
Proof. done. Qed.
Lemma used_cons o slots : used (o :: slots) = Z.b2z (issome o) + used slots.
Proof. unfold used, zlength. destruct o; cbn; lia. Qed.
Lemma used_nonneg slots : 0 <= used slots.
Proof. unfold used, zlength. lia. Qed.
Lemma used_le slots : used slots <= zlength slots.
Proof.
  induction slots as [|o slots IH]; [done|]. rewrite used_cons. unfold zlength in *. cbn [length].
  destruct o; cbn; lia.
Qed.

Lemma used_insert (slots : list (option fp_row)) k o o' :
  slots !! k = Some o ->
  used (<[k := o']> slots) = used slots - Z.b2z (issome o) + Z.b2z (issome o').
Proof.
  revert k. induction slots as [|x slots IH]; intros k H; [done|].
  destruct k as [|k].
  - injection H as ->. change (<[0%nat := o']> (o :: slots)) with (o' :: slots).
    rewrite !used_cons. lia.
  - change (<[S k := o']> (x :: slots)) with (x :: <[k := o']> slots).
    rewrite !used_cons, (IH _ H). lia.
Qed.

(** Used slots carry a time other than [ST_FP_NULL]. *)
Definition times_ok (slots : list (option fp_row)) : Prop :=
  forall k r, slots !! k = Some (Some r) -> row_time r <> ST_FP_NULL.

Lemma find_free_None slots k :
  times_ok slots -> find_time ST_FP_NULL slots = Some k -> slots !! k = Some None.
Proof.
  intros Ht [(o & Ho & E) _]%find_time_Some. destruct o as [r|]; [|done].
  exfalso. by apply (Ht k r).
Qed.

Lemma find_used_Some t slots k :
  t <> ST_FP_NULL -> find_time t slots = Some k -> exists r, slots !! k = Some (Some r) /\ row_time r = t.
Proof.
  intros Ht [(o & Ho & E) _]%find_time_Some. destruct o as [r|]; [|done]. eauto.
Qed.

Lemma tbl_set_used r slots slots' :
  times_ok slots -> tbl_set r slots = Some slots' -> used slots' = used slots + 1.
Proof.
  intros Ht. unfold tbl_set. destruct (find_time _ _) as [k|] eqn:E; cbn; [|done].
  intros [= <-]. rewrite (used_insert _ _ None); [cbn; lia|]. by apply find_free_None.
Qed.

Lemma tbl_delete_used t slots slots' :
  t <> ST_FP_NULL -> tbl_delete t slots = Some slots' -> used slots' = used slots - 1.
Proof.
  intros Ht. unfold tbl_delete. destruct (find_time _ _) as [k|] eqn:E; cbn; [|done].
  intros [= <-]. destruct (find_used_Some _ _ _ Ht E) as (r & Hr & _).
  rewrite (used_insert _ _ (Some r)) by done. cbn. lia.
Qed.

(** A table refuses a row only when it is full. *)
Lemma tbl_set_full r slots : tbl_set r slots = None -> used slots = zlength slots.
Proof.
  unfold tbl_set. destruct (find_time _ _) as [k|] eqn:E; cbn; [done|]. intros _.
  pose proof (find_time_None _ _ E) as Hn. clear E. induction slots as [|o slots IH]; [done|].
  rewrite used_cons. destruct o as [r'|].
  - rewrite IH; [|set_solver]. unfold zlength. cbn. lia.
  - exfalso. by apply (Hn None); [left|].
Qed.

Lemma tbl_get_Some t slots r :
  t <> ST_FP_NULL -> tbl_get t slots = Some r ->
  exists k, find_time t slots = Some k /\ slots !! k = Some (Some r) /\ row_time r = t.
Proof.
  intros Ht. unfold tbl_get. destruct (find_time _ _) as [k|] eqn:E; cbn; [|done].
  destruct (find_used_Some _ _ _ Ht E) as (r' & Hr & Htime). rewrite Hr. cbn.
  intros [= ->]. eauto.
Qed.

Lemma tbl_get_delete t slots :
  t <> ST_FP_NULL -> is_Some (tbl_get t slots) <-> is_Some (tbl_delete t slots).
Proof.
  intros Ht. unfold tbl_get, tbl_delete. destruct (find_time _ _) as [k|] eqn:E; cbn.
  - destruct (find_used_Some _ _ _ Ht E) as (r & Hr & _). rewrite Hr. cbn. split; eauto.
  - split; intros [? H]; done.
Qed.

(** The slot of an entry stored under a time that was not in the table. *)
Lemma find_time_set r slots k :
  tbl_get (row_time r) slots = None -> row_time r <> ST_FP_NULL ->
  find_time ST_FP_NULL slots = Some k -> find_time (row_time r) (<[k:=Some r]> slots) = Some k.
Proof.
  intros Hg Ht E. unfold tbl_get in Hg.
  destruct (find_time (row_time r) slots) as [j|] eqn:Ej; cbn in Hg.
  { destruct (find_used_Some _ _ _ Ht Ej) as (r' & Hr & _). by rewrite Hr in Hg. }
  clear Hg. revert k E Ej. induction slots as [|o slots IH]; intros k; cbn; [done|].
  destruct (slot_time o =? ST_FP_NULL) eqn:E1; bool_to_prop.
  - intros [= <-] _. cbn. by rewrite Z.eqb_refl.
  - destruct (find_time ST_FP_NULL slots) as [k'|] eqn:Ek; cbn; [|done]. intros [= <-].
    cbn. destruct (slot_time o =? row_time r); [done|].
    destruct (find_time (row_time r) slots); [done|]. intros _. by rewrite IH.
Qed.

(** What was stored under a free time is found under that time, and deleting
    it gives the table back. *)
Lemma tbl_get_set_same r slots slots' :
  tbl_get (row_time r) slots = None -> row_time r <> ST_FP_NULL ->
  tbl_set r slots = Some slots' -> tbl_get (row_time r) slots' = Some r.
Proof.
  intros Hg Ht. unfold tbl_set. destruct (find_time ST_FP_NULL _) as [k|] eqn:E; cbn; [|done].
  intros [= <-]. unfold tbl_get at 1. rewrite find_time_set by done. cbn.
  rewrite list_lookup_insert_eq; [done|]. by apply find_time_lt in E.
Qed.

Lemma tbl_delete_set_same r slots slots' :
  times_ok slots -> tbl_get (row_time r) slots = None -> row_time r <> ST_FP_NULL ->
  tbl_set r slots = Some slots' -> tbl_delete (row_time r) slots' = Some slots.
Proof.
  intros Hok Hg Ht. unfold tbl_set. destruct (find_time ST_FP_NULL _) as [k|] eqn:E; cbn; [|done].
  intros [= <-]. unfold tbl_delete. rewrite find_time_set by done. cbn. f_equal.
  rewrite list_insert_insert_eq. apply list_insert_id. by apply find_free_None.
Qed.

(** The search loop of a back end over an array of entries: [key e] is the time
    of an entry and [view e] the slot it represents. *)
Lemma find_slot_loop {A S} (key : A -> Z) (view : A -> option fp_row) t (s : S) suf : forall pre post,
  Forall (fun e => slot_time (view e) = key e) suf ->
  for_ret (seqZ (zlength pre) (zlength suf)) (fun i =>
    let! e := arr_get (pre ++ suf ++ post) i in
    ret (if key e =? t then Some i else None)) s =
  Ret ((fun k => zlength pre + Z.of_nat k) <$> find_time t (map view suf), s).
Proof.
  induction suf as [|e suf IH]; intros pre post Hok; [done|].
  inversion Hok as [|? ? He Hok']; subst.
  rewrite seqZ_cons by (unfold zlength; cbn; lia). cbn [for_ret].
  assert (zlookup (pre ++ (e :: suf) ++ post) (zlength pre) = Some e) as Hl.
  { unfold zlookup, zlength. destruct (_ <? 0) eqn:?; bool_to_prop; [lia|].
    rewrite Nat2Z.id. by apply list_lookup_middle. }
  unfold bind at 1 2. rewrite (arr_get_Some _ _ _ _ Hl). cbn [ret map find_time]. rewrite He.
  destruct (key e =? t) eqn:E; cbn.
  { unfold ret. do 2 f_equal. f_equal. lia. }
  specialize (IH (pre ++ [e]) post Hok').
  rewrite <- app_assoc in IH. cbn [app] in IH.
  replace (zlength (pre ++ [e])) with (Z.succ (zlength pre)) in IH
    by (rewrite zlength_app; done).
  replace (Z.pred (zlength (e :: suf))) with (zlength suf) by (rewrite zlength_cons; lia).
  rewrite IH. do 2 f_equal. destruct (find_time t (map view suf)); cbn; [|done].
  f_equal. lia.
Qed.
