(* ===== verification/StorageRam.v ===== *)
(** * The RAM storage back end

    [src/lib/storage/storage_ram.c]: status variables, flight plan entries and
    payload samples in heap buffers.  Every function of the file is modelled,
    with the buffers as heap objects: an index outside a buffer, a null or a
    dangling pointer is a fault. *)
From S2P Require Import Prelude CStr Memory Config Storage.

Module Ram.

(** ** State *)
Record ram_state := Ram {
  status_db : ptr (list Z);
  status_entries : Z;
  flightplan_db : ptr (list fp_entry);
  flightplan_entries : Z;
  payload_db : ptr buffer;
  payloads_sections_addresses : ptr (list Z);  (** offsets in [payload_db] *)
  payloads_entries : Z;
  storage_is_open : bool;
  heap_ok : bool                               (** [malloc] succeeds *)
}.

(** The initial values of the static variables. *)
Definition ram_boot : ram_state := Ram Null 0 Null 0 Null Null 0 false true.

Definition set_status_db p n s := Ram p n (flightplan_db s) (flightplan_entries s) (payload_db s)
  (payloads_sections_addresses s) (payloads_entries s) (storage_is_open s) (heap_ok s).
Definition set_flightplan_db p n s := Ram (status_db s) (status_entries s) p n (payload_db s)
  (payloads_sections_addresses s) (payloads_entries s) (storage_is_open s) (heap_ok s).
Definition set_payload_db p q n s := Ram (status_db s) (status_entries s) (flightplan_db s)
  (flightplan_entries s) p q n (storage_is_open s) (heap_ok s).
Definition set_open b s := Ram (status_db s) (status_entries s) (flightplan_db s)
  (flightplan_entries s) (payload_db s) (payloads_sections_addresses s) (payloads_entries s) b (heap_ok s).

(** [malloc(n * size)] with [n] converted to [size_t]. *)
Definition malloc_n (n : Z) : M ram_state bool := gets (fun s => heap_ok s && (0 <=? n)).

(** ** Open, close, create *)
Definition storage_init : M ram_state Z :=
  modify (set_open true) ;! ret SCH_ST_OK.

(** The section table is freed but its pointer is kept: the statement
    after [free] compares ([==]) where the other three assign. *)
Definition storage_close : M ram_state Z :=
  modify (set_open false) ;!
  let! s := get in
  free_ptr (status_db s) ;!
  free_ptr (flightplan_db s) ;!
  free_ptr (payload_db s) ;!
  free_ptr (payloads_sections_addresses s) ;!
  put (Ram Null 0 Null 0 Null
           (if is_null (payloads_sections_addresses s) then Null else Freed) 0 false (heap_ok s)) ;!
  ret SCH_ST_OK.

Definition storage_table_status_init (n_variables : Z) (drop : bool) : M ram_state Z :=
  let! s := get in
  if negb (storage_is_open s) then ret SCH_ST_ERROR else
  if negb (is_null (status_db s)) && negb drop then ret SCH_ST_ERROR else
  let! ok := malloc_n n_variables in
  if ok then modify (set_status_db (Live (replicate (Z.to_nat n_variables) 0)) n_variables) ;!
             ret SCH_ST_OK
  else modify (set_status_db Null n_variables) ;! ret SCH_ST_ERROR.

Definition storage_table_flight_plan_init (n_entries : Z) (drop : bool) : M ram_state Z :=
  let! s := get in
  if negb (storage_is_open s) then ret SCH_ST_ERROR else
  if negb (is_null (flightplan_db s)) && negb drop then ret SCH_ST_ERROR else
  let! ok := malloc_n n_entries in
  if ok then modify (set_flightplan_db
                      (Live (replicate (Z.to_nat n_entries)
                              (fp_entry_clear (FpEntry 0 0 0 0 None None)))) n_entries) ;!
             ret SCH_ST_OK
  else modify (set_flightplan_db Null n_entries) ;! ret SCH_ST_ERROR.

Definition storage_table_payload_init (n_entries : Z) (drop : bool) : M ram_state Z :=
  let! s := get in
  if negb (storage_is_open s) then ret SCH_ST_ERROR else
  if negb (is_null (payload_db s)) && negb drop then ret SCH_ST_ERROR else
  let! len := cint (SCH_SIZE_PER_SECTION * SCH_SECTIONS_PER_PAYLOAD * n_entries) in
  let! ok := malloc_n n_entries in
  if ok then
    modify (set_payload_db (Live (buf_new len))
      (Live (map (fun i => i * SCH_SIZE_PER_SECTION) (range (SCH_SECTIONS_PER_PAYLOAD * n_entries))))
      n_entries) ;!
    ret SCH_ST_OK
  else modify (set_payload_db Null (payloads_sections_addresses s) n_entries) ;! ret SCH_ST_ERROR.

(** ** Status variables *)
Definition storage_status_get_value_idx (index : Z) : M ram_state (Z * option Z) :=
  let! s := get in
  if negb (storage_is_open s) || is_null (status_db s) then ret (SCH_ST_ERROR, None) else
  if status_entries s <? index then ret (SCH_ST_ERROR, None) else
  let! db := deref (status_db s) in
  let! v := arr_get db index in
  ret (SCH_ST_OK, Some v).

Definition storage_status_set_value_idx (index value : Z) : M ram_state Z :=
  let! s := get in
  if negb (storage_is_open s) || is_null (status_db s) then ret SCH_ST_ERROR else
  let! db := deref (status_db s) in
  let! db := arr_set db index value in
  modify (set_status_db (Live db) (status_entries s)) ;!
  ret SCH_ST_OK.

(** ** Flight plan *)

(** The search loop of the four functions below: the first index whose entry
    has the given time. *)
Definition find_entry (db : list fp_entry) (n t : Z) : M ram_state (option Z) :=
  for_ret (range n) (fun i =>
    let! e := arr_get db i in
    ret (if fp_unixtime e =? t then Some i else None)).

Definition store_fp (db : list fp_entry) : M ram_state unit :=
  let! s := get in put (set_flightplan_db (Live db) (flightplan_entries s) s).

Definition storage_flight_plan_set_st (row : option fp_entry) : M ram_state Z :=
  let! s := get in
  match row with
  | None => ret SCH_ST_ERROR
  | Some row =>
      if negb (storage_is_open s) || is_null (flightplan_db s) then ret SCH_ST_ERROR else
      let! db := deref (flightplan_db s) in
      let! r := find_entry db (flightplan_entries s) ST_FP_NULL in
      match r with
      | Some i => let! db := arr_set db i (fp_entry_copy row) in
                  store_fp db ;! ret SCH_ST_OK
      | None => ret SCH_ST_ERROR
      end
  end.

Definition storage_flight_plan_set (timetodo : Z) (command args : option cstring)
    (executions period node : Z) : M ram_state Z :=
  if (timetodo <? 0) || negb (issome command) || negb (issome args) then ret SCH_ST_ERROR else
  storage_flight_plan_set_st (Some (FpEntry timetodo executions period node command args)).

Definition storage_flight_plan_get (timetodo : Z) : M ram_state (Z * option fp_entry) :=
  let! s := get in
  if negb (storage_is_open s) || is_null (flightplan_db s) then ret (SCH_ST_ERROR, None) else
  let! db := deref (flightplan_db s) in
  let! r := find_entry db (flightplan_entries s) timetodo in
  match r with
  | Some i => let! e := arr_get db i in ret (SCH_ST_OK, Some (fp_entry_copy e))
  | None => ret (SCH_ST_ERROR, None)
  end.

(** [index] is converted to [size_t] in the comparison: a negative index is
    out of range. *)
Definition storage_flight_plan_get_idx (index : Z) : M ram_state (Z * option fp_entry) :=
  let! s := get in
  if negb (storage_is_open s) || is_null (flightplan_db s)
     || ((index <? 0) || (flightplan_entries s <=? index))
  then ret (SCH_ST_ERROR, None) else
  let! db := deref (flightplan_db s) in
  let! e := arr_get db index in
  ret (SCH_ST_OK, Some (fp_entry_copy e)).

(** [strcpy] from the strings of the entry, which faults on a null string.  The
    function is not told the sizes of the buffers it copies to: its callers have
    [SCH_CMD_MAX_STR_NAME] bytes or more, and the rows of a plan are set with strings
    that fit ([fits_fp], a condition of the law of the set). *)
Definition storage_flight_plan_get_args (timetodo : Z) : M ram_state (Z * option fp_out) :=
  let! '(rc, row) := storage_flight_plan_get timetodo in
  match row with
  | Some e =>
      match fp_cmd e, fp_args e with
      | Some c, Some a =>
          ret (SCH_ST_OK, Some (FpOut c a (fp_executions e) (fp_periodical e) (fp_node e)))
      | _, _ => fail NullDeref
      end
  | None => ret (rc, None)
  end.

Definition storage_flight_plan_delete_row (timetodo : Z) : M ram_state Z :=
  let! s := get in
  if negb (storage_is_open s) || is_null (flightplan_db s) then ret SCH_ST_ERROR else
  let! db := deref (flightplan_db s) in
  let! r := find_entry db (flightplan_entries s) timetodo in
  match r with
  | Some i => let! e := arr_get db i in
              let! db := arr_set db i (fp_entry_clear e) in
              store_fp db ;! ret SCH_ST_OK
  | None => ret SCH_ST_ERROR
  end.

Definition storage_flight_plan_delete_row_idx (index : Z) : M ram_state Z :=
  let! s := get in
  if negb (storage_is_open s) || is_null (flightplan_db s) then ret SCH_ST_ERROR else
  if (index <? 0) || (flightplan_entries s <=? index) then ret SCH_ST_ERROR else
  let! db := deref (flightplan_db s) in
  let! e := arr_get db index in
  let! db := arr_set db index (fp_entry_clear e) in
  store_fp db ;! ret SCH_ST_OK.

(** The [return SCH_ST_OK] is inside the body of the loop. *)
Definition storage_flight_plan_reset : M ram_state Z :=
  let! s := get in
  if negb (storage_is_open s) || is_null (flightplan_db s) then ret SCH_ST_ERROR else
  let! db := deref (flightplan_db s) in
  let! r := for_ret (range (flightplan_entries s)) (fun i =>
    let! e := arr_get db i in
    let! db := arr_set db i (fp_entry_clear e) in
    store_fp db ;! ret (Some SCH_ST_OK)) in
  ret (default SCH_ST_ERROR r).

(** ** Payloads *)

(** The offset of a sample in [payload_db], with the checks of the code. *)
Definition _get_sample_address (payload index size : Z) : M ram_state (Z * option Z) :=
  let! s := get in
  let! samples_per_section := cdiv SCH_SIZE_PER_SECTION size in
  let! sample_section := cdiv index samples_per_section in
  let! index_in_section := cmod index samples_per_section in
  let! section_index := cint (payload * SCH_SECTIONS_PER_PAYLOAD + sample_section) in
  if SCH_SECTIONS_PER_PAYLOAD <? sample_section then ret (SCH_ST_ERROR, None) else
  let! lim := cint (payloads_entries s * SCH_SIZE_PER_SECTION) in
  if lim <? section_index then ret (SCH_ST_ERROR, None) else
  let! tbl := deref (payloads_sections_addresses s) in
  let! base := arr_get tbl section_index in
  let address := base + index_in_section * size in
  if payloads_entries s * SCH_SECTIONS_PER_PAYLOAD * SCH_SIZE_PER_SECTION <? address
  then ret (SCH_ST_ERROR, None) else
  ret (SCH_ST_OK, Some address).

Definition storage_payload_set_data (payload index : Z) (data : option (list Z)) (schema : option Z)
  : M ram_state Z :=
  let! s := get in
  if negb (storage_is_open s) then ret SCH_ST_ERROR else
  if is_null (payload_db s) || is_null (payloads_sections_addresses s) then ret SCH_ST_ERROR else
  match data, schema with
  | Some data, Some size =>
      let! '(rc, address) := _get_sample_address payload index size in
      match address with
      | None => ret SCH_ST_ERROR
      | Some address =>
          let! db := deref (payload_db s) in
          if zlength data <? size then fail OutOfBounds else
          let! db := lift (buf_write db address (take (Z.to_nat size) data)) in
          modify (set_payload_db (Live db) (payloads_sections_addresses s) (payloads_entries s)) ;!
          ret SCH_ST_OK
      end
  | _, _ => ret SCH_ST_ERROR
  end.

Definition storage_payload_get_data (payload index : Z) (schema : option Z)
  : M ram_state (Z * option (list Z)) :=
  let! s := get in
  if negb (storage_is_open s) then ret (SCH_ST_ERROR, None) else
  if is_null (payload_db s) || is_null (payloads_sections_addresses s) then ret (SCH_ST_ERROR, None) else
  match schema with
  | Some size =>
      let! '(rc, address) := _get_sample_address payload index size in
      match address with
      | None => ret (SCH_ST_ERROR, None)
      | Some address =>
          let! db := deref (payload_db s) in
          let! bs := lift (buf_read db address size) in
          ret (SCH_ST_OK, Some bs)
      end
  | None => ret (SCH_ST_ERROR, None)
  end.

Definition storage_payload_reset : M ram_state Z :=
  let! n := gets payloads_entries in storage_table_payload_init n true.

Definition storage_payload_reset_table (payload : Z) : M ram_state Z :=
  let! s := get in
  if negb (storage_is_open s) || (payloads_entries s <=? payload) then ret SCH_ST_ERROR else
  if is_null (payload_db s) || is_null (payloads_sections_addresses s) then ret SCH_ST_ERROR else
  let! tbl := deref (payloads_sections_addresses s) in
  let! base := arr_get tbl (payload * SCH_SECTIONS_PER_PAYLOAD) in
  let! db := deref (payload_db s) in
  let! db := lift (buf_zero db base (SCH_SIZE_PER_SECTION * SCH_SECTIONS_PER_PAYLOAD)) in
  modify (set_payload_db (Live db) (payloads_sections_addresses s) (payloads_entries s)) ;!
  ret SCH_ST_OK.

End Ram.

#[export] Instance ram_storage : Storage Ram.ram_state := {
  storage_init := Ram.storage_init;
  storage_close := Ram.storage_close;
  storage_table_status_init := Ram.storage_table_status_init;
  storage_table_flight_plan_init := Ram.storage_table_flight_plan_init;
  storage_table_payload_init := Ram.storage_table_payload_init;
  storage_status_get_value_idx := Ram.storage_status_get_value_idx;
  storage_status_set_value_idx := Ram.storage_status_set_value_idx;
  storage_flight_plan_set := Ram.storage_flight_plan_set;
  storage_flight_plan_get_idx := Ram.storage_flight_plan_get_idx;
  storage_flight_plan_get_args := Ram.storage_flight_plan_get_args;
  storage_flight_plan_delete_row := Ram.storage_flight_plan_delete_row;
  storage_flight_plan_delete_row_idx := Ram.storage_flight_plan_delete_row_idx;
  storage_flight_plan_reset := Ram.storage_flight_plan_reset;
  storage_payload_set_data := Ram.storage_payload_set_data;
  storage_payload_get_data := Ram.storage_payload_get_data;
  storage_payload_reset := Ram.storage_payload_reset;
  storage_payload_reset_table := Ram.storage_payload_reset_table
}.

(** ** The RAM back end satisfies the laws *)
Module RamLaws.
Import Ram.

Definition entry_view (e : fp_entry) : option fp_row :=
  if fp_unixtime e =? ST_FP_NULL then None
  else match fp_cmd e, fp_args e with
       | Some c, Some a =>
           Some (FpRow (fp_unixtime e) c a (fp_executions e) (fp_periodical e) (fp_node e))
       | _, _ => None
       end.

(** A used entry has both strings. *)
Definition entry_ok (e : fp_entry) : Prop :=
  fp_unixtime e <> ST_FP_NULL -> is_Some (fp_cmd e) /\ is_Some (fp_args e).

Definition ram_slots (s : ram_state) : list (option fp_row) :=
  match flightplan_db s with Live db => map entry_view db | _ => [] end.

Definition ram_status (s : ram_state) (i : Z) : Z :=
  match status_db s with Live db => default 0 (zlookup db i) | _ => 0 end.

(** The representation invariant, on the two halves of the state. *)
Definition status_inv (s : ram_state) : Prop :=
  exists db, status_db s = Live db /\ zlength db = status_entries s /\
    Forall (fun v => 0 <= v < 2 ^ 32) db.
Definition fp_inv (s : ram_state) : Prop :=
  exists db, flightplan_db s = Live db /\ zlength db = flightplan_entries s /\
    flightplan_entries s = SCH_FP_MAX_ENTRIES /\ Forall entry_ok db.
Definition ram_ok (s : ram_state) : Prop :=
  storage_is_open s = true /\ status_inv s /\ fp_inv s.

Lemma slot_time_view e : entry_ok e -> slot_time (entry_view e) = fp_unixtime e.
Proof.
  intros H. unfold entry_view. destruct (fp_unixtime e =? ST_FP_NULL) eqn:E; bool_to_prop; [done|].
  destruct (H E) as [[c Hc] [a Ha]]. by rewrite Hc, Ha.
Qed.

Lemma find_entry_spec db n t s :
  Forall entry_ok db -> zlength db = n ->
  find_entry db n t s = Ret (Z.of_nat <$> find_time t (map entry_view db), s).
Proof.
  intros Hok <-. pose proof (find_slot_loop fp_unixtime entry_view t s db [] []) as E.
  cbn [app] in E. rewrite app_nil_r in E. unfold find_entry, range. etransitivity; [apply E|done].
  eapply Forall_impl; [exact Hok|]. intros e He. by apply slot_time_view.
Qed.

Lemma find_view_lookup db t k :
  find_time t (map entry_view db) = Some k ->
  exists e, db !! k = Some e /\ zlookup db (Z.of_nat k) = Some e.
Proof.
  intros H%find_time_lt. rewrite length_map in H.
  destruct (lookup_lt_is_Some_2 db k H) as [e He]. exists e. split; [done|].
  unfold zlookup. destruct (_ <? 0) eqn:?; bool_to_prop; [lia|]. by rewrite Nat2Z.id.
Qed.

Lemma zinsert_of_nat {A} (l : list A) k x : zinsert l (Z.of_nat k) x = <[k := x]> l.
Proof. unfold zinsert. destruct (_ <? 0) eqn:?; bool_to_prop; [lia|]. by rewrite Nat2Z.id. Qed.

(** Guards of an open, initialised back end. *)
Ltac ram_enter db Hdb Hlen Hok :=
  unfold bind at 1; cbn [get];
  match goal with
  | Ho : storage_is_open ?s = true |- _ => rewrite Ho, ?Hdb; cbn [negb orb is_null deref]
  end.

Lemma ram_status_get s i :
  ram_ok s -> 0 <= i < status_entries s ->
  Ram.storage_status_get_value_idx i s = Ret ((SCH_ST_OK, Some (ram_status s i)), s).
Proof.
  intros (Ho & (db & Hdb & Hl & Hu) & _) Hi. unfold Ram.storage_status_get_value_idx.
  unfold bind, get. rewrite Ho, Hdb. cbn [negb orb is_null].
  rewrite (proj2 (Z.ltb_ge _ _)) by lia. cbn [deref ret]. unfold ret.
  unfold ram_status. rewrite Hdb. destruct (zlookup_lt db i ltac:(lia)) as [v Hv].
  rewrite (arr_get_Some _ _ _ _ Hv), Hv. done.
Qed.

Lemma Forall_zinsert {A} (P : A -> Prop) l i x : Forall P l -> P x -> Forall P (zinsert l i x).
Proof. intros. unfold zinsert. destruct (_ <? _); [done|]. by apply Forall_insert. Qed.

Lemma ram_status_set s i v :
  ram_ok s -> 0 <= i < status_entries s -> 0 <= v < 2 ^ 32 ->
  exists s', Ram.storage_status_set_value_idx i v s = Ret (SCH_ST_OK, s') /\ ram_ok s' /\
    status_entries s' = status_entries s /\ ram_slots s' = ram_slots s /\
    forall j, 0 <= j < status_entries s ->
      ram_status s' j = if decide (j = i) then v else ram_status s j.
Proof.
  intros (Ho & (db & Hdb & Hl & Hu) & Hfp) Hi Hv. unfold Ram.storage_status_set_value_idx.
  unfold bind, get. rewrite Ho, Hdb. cbn [negb orb is_null deref]. unfold ret.
  rewrite arr_set_ok by lia. unfold modify. eexists; split; [done|].
  split; [|split; [done|split; [done|]]].
  - split; [done|]. split; [|done]. exists (zinsert db i v). cbn.
    rewrite zlength_zinsert. split; [done|]. split; [done|]. by apply Forall_zinsert.
  - intros j Hj. unfold ram_status. cbn. rewrite Hdb. case_decide as E.
    + subst. rewrite zlookup_zinsert_eq by lia. done.
    + by rewrite zlookup_zinsert_ne by done.
Qed.

(** Replacing the flight plan table leaves the status variables alone. *)
Lemma store_fp_frame s db :
  ram_ok s -> zlength db = SCH_FP_MAX_ENTRIES -> Forall entry_ok db ->
  exists s', store_fp db s = Ret (tt, s') /\ ram_ok s' /\ status_entries s' = status_entries s /\
    (forall j, ram_status s' j = ram_status s j) /\ ram_slots s' = map entry_view db.
Proof.
  intros (Ho & Hst & (db0 & Hdb & Hl & He & Hok)) Hdl Hdo.
  unfold store_fp, bind, get, put. eexists; split; [done|].
  split; [|done]. split; [done|]. split; [done|]. exists db. cbn. by rewrite Hdl, He.
Qed.

Lemma view_clear e : entry_view (fp_entry_clear e) = None.
Proof. done. Qed.
Lemma entry_ok_clear e : entry_ok (fp_entry_clear e).
Proof. by intros []. Qed.

Lemma ram_fp_set s t c a e p n :
  ram_ok s ->
  exists s', Ram.storage_flight_plan_set t (Some c) (Some a) e p n s =
      Ret (if t <? 0 then SCH_ST_ERROR
           else if issome (tbl_set (FpRow t c a e p n) (ram_slots s)) then SCH_ST_OK else SCH_ST_ERROR, s') /\
    ram_ok s' /\ status_entries s' = status_entries s /\
    (forall j, ram_status s' j = ram_status s j) /\
    ram_slots s' = if t <? 0 then ram_slots s
                   else default (ram_slots s) (tbl_set (FpRow t c a e p n) (ram_slots s)).
Proof.
  intros Hk. pose proof Hk as (Ho & Hst & (db & Hdb & Hl & He & Hok)).
  unfold Ram.storage_flight_plan_set. cbn [issome negb]. rewrite !orb_false_r.
  destruct (t <? 0) eqn:Et; bool_to_prop; [exists s; by splits|].
  unfold Ram.storage_flight_plan_set_st. unfold bind at 1. cbn [get]. unfold get.
  rewrite Ho, Hdb. cbn [negb orb is_null]. unfold bind at 1. cbn [deref]. unfold ret at 1.
  unfold bind at 1. rewrite find_entry_spec by done. unfold ram_slots, tbl_set. rewrite Hdb.
  destruct (find_time ST_FP_NULL (map entry_view db)) as [k|] eqn:Ek; cbn.
  2: { exists s. unfold ret. splits; try done. unfold ram_slots. by rewrite Hdb. }
  destruct (find_view_lookup _ _ _ Ek) as (e0 & He0 & Hz0).
  unfold bind at 1. rewrite arr_set_ok by (by apply zlookup_Some_lt in Hz0).
  set (row := fp_entry_copy _). assert (entry_ok row) as Hrow by (intros _; split; eauto).
  destruct (store_fp_frame s (zinsert db (Z.of_nat k) row)) as (s' & Hst' & Hok' & Hse & Hsv & Hsl).
  { done. } { rewrite zlength_zinsert. lia. } { by apply Forall_zinsert. }
  exists s'. unfold bind. rewrite Hst'. unfold ret. split; [done|]. split; [done|]. split; [done|].
  split; [done|]. fold (ram_slots s'). rewrite Hsl, zinsert_of_nat, list_fmap_insert. f_equal.
  unfold entry_view, row. cbn. unfold ST_FP_NULL. destruct (t =? -1) eqn:E; bool_to_prop; [lia|done].
Qed.

Lemma ram_fp_get_args s t :
  ram_ok s -> t <> ST_FP_NULL ->
  Ram.storage_flight_plan_get_args t s =
    Ret (match tbl_get t (ram_slots s) with
         | Some r => (SCH_ST_OK, Some (row_out r))
         | None => (SCH_ST_ERROR, None)
         end, s).
Proof.
  intros (Ho & Hst & (db & Hdb & Hl & He & Hok)) Ht.
  unfold Ram.storage_flight_plan_get_args, Ram.storage_flight_plan_get, bind, get.
  rewrite Ho, Hdb. cbn [negb orb is_null deref]. unfold ret.
  rewrite find_entry_spec by done. unfold ram_slots, tbl_get. rewrite Hdb.
  destruct (find_time t (map entry_view db)) as [k|] eqn:Ek; cbn; [|done].
  destruct (find_view_lookup _ _ _ Ek) as (e0 & He0 & Hz0).
  rewrite (arr_get_Some _ _ _ _ Hz0).
  destruct (find_used_Some _ _ _ Ht Ek) as (r & Hr & Hrt). rewrite Hr. cbn.
  rewrite list_lookup_fmap, He0 in Hr. cbn in Hr. injection Hr as Hr.
  unfold entry_view in Hr. destruct (fp_unixtime e0 =? ST_FP_NULL); [done|].
  destruct (fp_cmd e0); [|done]. destruct (fp_args e0); [|done]. by injection Hr as <-.
Qed.

Lemma ram_fp_delete s t :
  ram_ok s ->
  exists s', Ram.storage_flight_plan_delete_row t s =
      Ret (if issome (tbl_delete t (ram_slots s)) then SCH_ST_OK else SCH_ST_ERROR, s') /\
    ram_ok s' /\ status_entries s' = status_entries s /\
    (forall j, ram_status s' j = ram_status s j) /\
    ram_slots s' = default (ram_slots s) (tbl_delete t (ram_slots s)).
Proof.
  intros Hk. pose proof Hk as (Ho & Hst & (db & Hdb & Hl & He & Hok)).
  unfold Ram.storage_flight_plan_delete_row. unfold bind at 1, get. rewrite Ho, Hdb.
  cbn [negb orb is_null]. unfold bind at 1. cbn [deref]. unfold ret at 1.
  unfold bind at 1. rewrite find_entry_spec by done. unfold ram_slots, tbl_delete. rewrite Hdb.
  destruct (find_time t (map entry_view db)) as [k|] eqn:Ek; cbn.
  2: { exists s. unfold ret. splits; try done. unfold ram_slots. by rewrite Hdb. }
  destruct (find_view_lookup _ _ _ Ek) as (e0 & He0 & Hz0).
  unfold bind at 1. rewrite (arr_get_Some _ _ _ _ Hz0).
  unfold bind at 1. rewrite arr_set_ok by (by apply zlookup_Some_lt in Hz0).
  destruct (store_fp_frame s (zinsert db (Z.of_nat k) (fp_entry_clear e0))) as (s' & Hst' & Hok' & Hse & Hsv & Hsl).
  { done. } { rewrite zlength_zinsert. lia. } { by apply Forall_zinsert; [|apply entry_ok_clear]. }
  exists s'. unfold bind. rewrite Hst'. unfold ret. split; [done|]. split; [done|]. split; [done|].
  split; [done|]. fold (ram_slots s'). by rewrite Hsl, zinsert_of_nat, list_fmap_insert.
Qed.

Lemma ram_fp_get_idx s i o :
  ram_ok s -> zlookup (ram_slots s) i = Some o ->
  exists e, Ram.storage_flight_plan_get_idx i s = Ret ((SCH_ST_OK, Some e), s) /\
    fp_unixtime e = slot_time o /\ (forall r, o = Some r -> e = row_entry r).
Proof.
  intros (Ho & Hst & (db & Hdb & Hl & He & Hok)) Hz. unfold ram_slots in Hz. rewrite Hdb in Hz.
  pose proof (zlookup_Some_lt _ _ _ Hz) as Hb. unfold zlength in Hb. rewrite length_map in Hb.
  destruct (zlookup_lt db i ltac:(unfold zlength; lia)) as [e Hd].
  assert (entry_ok e /\ entry_view e = o) as [Hek Hv].
  { unfold zlookup in Hz, Hd. destruct (i <? 0); [done|].
    split; [by apply (Forall_lookup_1 _ _ _ _ Hok Hd)|].
    rewrite list_lookup_fmap, Hd in Hz. by injection Hz. }
  exists (fp_entry_copy e). unfold Ram.storage_flight_plan_get_idx, bind, get.
  rewrite Ho, Hdb. cbn [negb orb is_null deref].
  rewrite (proj2 (Z.ltb_ge i 0)), (proj2 (Z.leb_gt _ i)) by (unfold zlength in *; lia).
  cbn [orb]. unfold ret at 1. rewrite (arr_get_Some _ _ _ _ Hd). split; [done|].
  split; [by rewrite <- Hv, slot_time_view|]. intros r Hr. rewrite Hr in Hv.
  unfold entry_view in Hv. destruct (_ =? _); [done|]. unfold fp_entry_copy.
  destruct (fp_cmd e), (fp_args e); try done. by injection Hv as <-.
Qed.

Lemma ram_fp_delete_idx s i :
  ram_ok s -> 0 <= i < SCH_FP_MAX_ENTRIES ->
  exists s', Ram.storage_flight_plan_delete_row_idx i s = Ret (SCH_ST_OK, s') /\ ram_ok s' /\
    status_entries s' = status_entries s /\ (forall j, ram_status s' j = ram_status s j) /\
    ram_slots s' = tbl_delete_idx i (ram_slots s).
Proof.
  intros Hk Hi. pose proof Hk as (Ho & Hst & (db & Hdb & Hl & He & Hok)).
  destruct (zlookup_lt db i ltac:(lia)) as [e Hd].
  unfold Ram.storage_flight_plan_delete_row_idx. unfold bind at 1, get.
  rewrite Ho, Hdb. cbn [negb orb is_null].
  rewrite (proj2 (Z.ltb_ge i 0)), (proj2 (Z.leb_gt _ i)) by lia. cbn [orb].
  unfold bind at 1. cbn [deref]. unfold ret at 1. unfold bind at 1.
  rewrite (arr_get_Some _ _ _ _ Hd). unfold bind at 1. rewrite arr_set_ok by lia.
  destruct (store_fp_frame s (zinsert db i (fp_entry_clear e))) as (s' & Hst' & Hok' & Hse & Hsv & Hsl).
  { done. } { rewrite zlength_zinsert. lia. } { by apply Forall_zinsert; [|apply entry_ok_clear]. }
  exists s'. unfold bind. rewrite Hst'. unfold ret. splits; try done.
  rewrite Hsl. unfold tbl_delete_idx, ram_slots. rewrite Hdb.
  replace i with (Z.of_nat (Z.to_nat i)) by lia. by rewrite !zinsert_of_nat, list_fmap_insert.
Qed.

End RamLaws.

#[export] Instance ram_laws : StorageLaws Ram.ram_state.
Proof.
  refine {| st_ok := RamLaws.ram_ok; st_status_size := Ram.status_entries;
            st_status := RamLaws.ram_status; st_slots := RamLaws.ram_slots;
            st_room := fun _ _ => True |}.
  - intros s i (_ & (db & Hdb & Hl & Hu) & _) Hi. unfold RamLaws.ram_status. rewrite Hdb.
    destruct (zlookup_lt db i ltac:(lia)) as [v Hv]. rewrite Hv. cbn.
    unfold zlookup in Hv. destruct (i <? 0); [done|]. by apply (Forall_lookup_1 _ _ _ _ Hu Hv).
  - intros s k r (_ & _ & (db & Hdb & _ & _ & Hok)). unfold RamLaws.ram_slots. rewrite Hdb.
    rewrite list_lookup_fmap. destruct (db !! k) as [e|]; cbn; [|done]. intros [= H].
    unfold RamLaws.entry_view in H. destruct (_ =? _) eqn:E; bool_to_prop; [done|].
    destruct (Storage.fp_cmd e); [|done]. destruct (Storage.fp_args e); [|done]. by injection H as <-.
  - intros s (_ & _ & (db & Hdb & Hl & He & _)). unfold RamLaws.ram_slots. rewrite Hdb.
    unfold zlength in *. rewrite length_map. lia.
  - done.
  - apply RamLaws.ram_status_get.
  - intros s i v H1 H2 H3. destruct (RamLaws.ram_status_set s i v H1 H2 H3) as (s' & ? & ? & ? & ? & ?).
    exists s'. by splits.
  - intros s t c a e p n H _ _ _ _ _ _ _. destruct (RamLaws.ram_fp_set s t c a e p n H) as (s' & ? & ? & ? & ? & ?).
    exists s'. split; [done|]. split; [done|]. split; [done|]. split; [done|]. split; [|done]. intros; auto.
  - apply RamLaws.ram_fp_get_args.
  - intros s t H Ht. destruct (RamLaws.ram_fp_delete s t H) as (s' & ? & ? & ? & ? & ?).
    exists s'. split; [done|]. split; [done|]. split; [done|]. split; [done|]. split; [|done]. intros; auto.
Defined.

#[export] Instance ram_index_laws : StorageIndexLaws Ram.ram_state.
Proof.
  constructor; [apply RamLaws.ram_fp_get_idx|].
  intros s i Hs Hi. destruct (RamLaws.ram_fp_delete_idx s i Hs Hi) as (s' & ? & ? & ? & ? & ?).
  exists s'. cbn. splits; auto.
Qed.

(** ** Payload samples *)
Module RamPayload.
Import Ram.

Definition payload_inv (s : ram_state) : Prop :=
  storage_is_open s = true /\ 0 <= payloads_entries s /\
  payloads_entries s * SCH_SECTIONS_PER_PAYLOAD * SCH_SIZE_PER_SECTION <= INT_MAX /\
  payloads_sections_addresses s =
    Live (map (fun i => i * SCH_SIZE_PER_SECTION)
              (range (SCH_SECTIONS_PER_PAYLOAD * payloads_entries s))) /\
  exists b, payload_db s = Live b /\
    blen b = payloads_entries s * SCH_SECTIONS_PER_PAYLOAD * SCH_SIZE_PER_SECTION.

Definition samples_per_section (size : Z) : Z := SCH_SIZE_PER_SECTION / size.
(** The number of samples of a payload that the area can hold. *)
Definition capacity (size : Z) : Z := SCH_SECTIONS_PER_PAYLOAD * samples_per_section size.

Definition sample_offset (payload index size : Z) : Z :=
  (payload * SCH_SECTIONS_PER_PAYLOAD + index / samples_per_section size) * SCH_SIZE_PER_SECTION
  + (index mod samples_per_section size) * size.

(** A [uint16_t] size, as in [data_map_t]. *)
Definition size_ok (size : Z) : Prop := 0 < size < 2 ^ 16.

Lemma sps_pos size : size_ok size ->
  0 < samples_per_section size /\ samples_per_section size * size <= SCH_SIZE_PER_SECTION.
Proof.
  unfold size_ok, samples_per_section, SCH_SIZE_PER_SECTION. intros.
  split; [apply Z.div_str_pos; lia|]. rewrite Z.mul_comm. apply Z.mul_div_le. lia.
Qed.

Lemma section_bounds index size :
  size_ok size -> 0 <= index < capacity size ->
  0 <= index / samples_per_section size < SCH_SECTIONS_PER_PAYLOAD /\
  0 <= index mod samples_per_section size < samples_per_section size.
Proof.
  intros Hs Hi. destruct (sps_pos size Hs) as [Hp _]. unfold capacity in Hi.
  split; [|by apply Z.mod_pos_bound]. split; [apply Z.div_pos; lia|].
  apply Z.div_lt_upper_bound; lia.
Qed.

(** The sample stays inside its section. *)
Lemma slot_bounds index size :
  size_ok size ->
  0 <= (index mod samples_per_section size) * size /\
  (index mod samples_per_section size) * size + size <= SCH_SIZE_PER_SECTION.
Proof.
  intros Hs. destruct (sps_pos size Hs) as [Hp Hq].
  pose proof (Z.mod_pos_bound index _ Hp). unfold size_ok in Hs. nia.
Qed.

Lemma sections_lookup m k : 0 <= k < m ->
  zlookup (map (fun i => i * SCH_SIZE_PER_SECTION) (range m)) k = Some (k * SCH_SIZE_PER_SECTION).
Proof.
  intros H. unfold zlookup, range. destruct (k <? 0) eqn:?; bool_to_prop; [lia|].
  rewrite list_lookup_fmap, lookup_seqZ_lt by lia. cbn [fmap option_fmap option_map].
  do 2 f_equal. lia.
Qed.

(** What the checks of the code let through: section 10 of a payload is not
    one of its sections, but it is accepted when the table has it. *)
Definition accepted (n payload index size : Z) : Prop :=
  0 <= payload /\ 0 <= index /\ index / samples_per_section size <= SCH_SECTIONS_PER_PAYLOAD /\
  payload * SCH_SECTIONS_PER_PAYLOAD + index / samples_per_section size < SCH_SECTIONS_PER_PAYLOAD * n.

Lemma capacity_accepted n payload index size :
  0 <= payload < n -> size_ok size -> 0 <= index < capacity size -> accepted n payload index size.
Proof.
  intros Hp Hs Hi. destruct (section_bounds _ _ Hs Hi) as [Hsec _].
  unfold accepted, SCH_SECTIONS_PER_PAYLOAD in *. lia.
Qed.

Lemma accepted_bounds n payload index size :
  size_ok size -> accepted n payload index size ->
  0 <= index / samples_per_section size <= SCH_SECTIONS_PER_PAYLOAD /\
  0 <= sample_offset payload index size /\
  sample_offset payload index size + size <= n * SCH_SECTIONS_PER_PAYLOAD * SCH_SIZE_PER_SECTION.
Proof.
  intros Hs (Hp & Hi & Hle & Hlt). destruct (sps_pos size Hs) as [Hsp _].
  destruct (slot_bounds index size Hs) as [Hsl1 Hsl2].
  pose proof (Z.div_pos index _ Hi Hsp).
  unfold sample_offset, SCH_SECTIONS_PER_PAYLOAD, SCH_SIZE_PER_SECTION in *. lia.
Qed.

Lemma sample_address_ok s payload index size :
  payload_inv s -> size_ok size -> accepted (payloads_entries s) payload index size ->
  _get_sample_address payload index size s = Ret ((SCH_ST_OK, Some (sample_offset payload index size)), s).
Proof.
  intros (Ho & Hn & Hmax & Htbl & b & Hb & Hlen) Hs Hacc.
  destruct (accepted_bounds _ _ _ _ Hs Hacc) as (Hsec & Hlo & Hhi). destruct Hacc as (Hp & Hi & Hle & Hlt).
  destruct (sps_pos size Hs) as [Hsp Hsz].
  pose proof (sections_lookup (SCH_SECTIONS_PER_PAYLOAD * payloads_entries s)
    (payload * SCH_SECTIONS_PER_PAYLOAD + index / samples_per_section size)
    ltac:(unfold SCH_SECTIONS_PER_PAYLOAD in *; lia)) as HL.
  unfold _get_sample_address, bind, get, cdiv, cmod, ret.
  rewrite (proj2 (Z.eqb_neq size 0)) by (unfold size_ok in Hs; lia).
  rewrite (Z.quot_div_nonneg SCH_SIZE_PER_SECTION size)
    by (unfold SCH_SIZE_PER_SECTION, size_ok in *; lia).
  fold (samples_per_section size). rewrite (proj2 (Z.eqb_neq _ 0)) by lia.
  rewrite Z.quot_div_nonneg, Z.rem_mod_nonneg by lia.
  rewrite cint_ok by (unfold INT_MIN, INT_MAX, SCH_SECTIONS_PER_PAYLOAD, SCH_SIZE_PER_SECTION in *; lia).
  rewrite (proj2 (Z.ltb_ge _ _)) by lia.
  rewrite cint_ok by (unfold INT_MIN, INT_MAX, SCH_SECTIONS_PER_PAYLOAD, SCH_SIZE_PER_SECTION in *; lia).
  rewrite (proj2 (Z.ltb_ge _ _)) by (unfold SCH_SECTIONS_PER_PAYLOAD, SCH_SIZE_PER_SECTION in *; lia).
  rewrite Htbl. cbn [deref]. unfold ret. rewrite (arr_get_Some _ _ _ s HL).
  fold (sample_offset payload index size).
  rewrite (proj2 (Z.ltb_ge _ _)) by (unfold size_ok in Hs; lia). done.
Qed.

(** Distinct samples do not overlap. *)
Lemma offset_disjoint p1 i1 z1 p2 i2 z2 :
  size_ok z1 -> size_ok z2 -> 0 <= i1 < capacity z1 -> 0 <= i2 < capacity z2 ->
  0 <= p1 -> 0 <= p2 -> p1 <> p2 \/ (z1 = z2 /\ i1 <> i2) ->
  sample_offset p1 i1 z1 + z1 <= sample_offset p2 i2 z2 \/
  sample_offset p2 i2 z2 + z2 <= sample_offset p1 i1 z1.
Proof.
  intros Hz1 Hz2 Hi1 Hi2 Hp1 Hp2 Hd.
  destruct (section_bounds _ _ Hz1 Hi1) as [Hs1 Hm1]. destruct (section_bounds _ _ Hz2 Hi2) as [Hs2 Hm2].
  destruct (slot_bounds i1 z1 Hz1) as [Ha1 Hb1]. destruct (slot_bounds i2 z2 Hz2) as [Ha2 Hb2].
  unfold sample_offset, SCH_SECTIONS_PER_PAYLOAD, SCH_SIZE_PER_SECTION in *.
  destruct Hd as [Hd|[-> Hd]]; [lia|].
  destruct (decide (p1 = p2)) as [->|]; [|lia].
  destruct (decide (i1 / samples_per_section z2 = i2 / samples_per_section z2)) as [E|]; [|lia].
  rewrite E. destruct (sps_pos z2 Hz2) as [Hsp _].
  pose proof (Z.div_mod i1 (samples_per_section z2) ltac:(lia)).
  pose proof (Z.div_mod i2 (samples_per_section z2) ltac:(lia)).
  rewrite E in *. unfold size_ok in *.
  assert (i1 mod samples_per_section z2 < i2 mod samples_per_section z2 \/
          i2 mod samples_per_section z2 < i1 mod samples_per_section z2) as [|] by lia; nia.
Qed.

Lemma set_data_ok s payload index data :
  payload_inv s -> size_ok (zlength data) ->
  accepted (payloads_entries s) payload index (zlength data) ->
  exists b b', payload_db s = Live b /\
    buf_write b (sample_offset payload index (zlength data)) data = Ret b' /\
    storage_payload_set_data payload index (Some data) (Some (zlength data)) s
      = Ret (SCH_ST_OK, set_payload_db (Live b') (payloads_sections_addresses s) (payloads_entries s) s) /\
    payload_inv (set_payload_db (Live b') (payloads_sections_addresses s) (payloads_entries s) s).
Proof.
  intros Hinv Hs Hacc. pose proof Hinv as (Ho & Hn & Hmax & Htbl & b & Hb & Hlen).
  destruct (accepted_bounds _ _ _ _ Hs Hacc) as (_ & Hlo & Hhi).
  exists b. eexists. split; [done|]. split; [by rewrite buf_write_ok by lia|].
  unfold storage_payload_set_data. unfold bind at 1. unfold get. rewrite Ho, Hb, Htbl.
  cbn [negb is_null orb]. unfold bind at 1. rewrite sample_address_ok by done.
  unfold bind at 1. cbn [deref]. unfold ret at 1. rewrite Z.ltb_irrefl.
  rewrite take_ge by (unfold zlength; lia).
  unfold bind at 1. rewrite buf_write_ok by lia. cbn [lift].
  unfold bind, modify, ret. split; [done|].
  unfold payload_inv; cbn; splits; try done; eexists; split; done.
Qed.

Lemma get_data_ok s b payload index size :
  payload_inv s -> payload_db s = Live b -> size_ok size ->
  accepted (payloads_entries s) payload index size ->
  storage_payload_get_data payload index (Some size) s =
    match buf_read b (sample_offset payload index size) size with
    | Ret bs => Ret ((SCH_ST_OK, Some bs), s)
    | Fault f => Fault f
    end.
Proof.
  intros Hinv Hb Hs Hacc. pose proof Hinv as (Ho & Hn & Hmax & Htbl & _).
  unfold storage_payload_get_data. unfold bind at 1. unfold get. rewrite Ho, Hb, Htbl.
  cbn [negb is_null orb]. unfold bind at 1. rewrite sample_address_ok by done.
  unfold bind at 1. cbn [deref]. unfold ret at 1. unfold bind, lift.
  by destruct (buf_read _ _ _).
Qed.

Definition ram_pay_read (s : ram_state) (p i size : Z) : list Z :=
  match payload_db s with
  | Live b => match buf_read b (sample_offset p i size) size with Ret bs => bs | Fault _ => [] end
  | _ => []
  end.

Lemma read_ok s p i size :
  payload_inv s -> 0 <= p < payloads_entries s -> size_ok size -> 0 <= i < capacity size ->
  storage_payload_get_data p i (Some size) s = Ret ((SCH_ST_OK, Some (ram_pay_read s p i size)), s).
Proof.
  intros Hinv Hp Hs Hi. pose proof (capacity_accepted _ _ _ _ Hp Hs Hi) as Hacc.
  destruct (accepted_bounds _ _ _ _ Hs Hacc) as (_ & Hlo & Hhi).
  pose proof Hinv as (_ & _ & _ & _ & b & Hb & Hlen).
  rewrite (get_data_ok s b) by done. unfold ram_pay_read. rewrite Hb.
  destruct (buf_read_ok b (sample_offset p i size) size) as (bs & -> & _);
    [lia|unfold size_ok in *; lia|lia|done].
Qed.

(** A write changes one sample. *)
Lemma write_read s payload index data :
  payload_inv s -> 0 <= payload < payloads_entries s -> size_ok (zlength data) ->
  0 <= index < capacity (zlength data) ->
  exists b', storage_payload_set_data payload index (Some data) (Some (zlength data)) s =
      Ret (SCH_ST_OK, set_payload_db (Live b') (payloads_sections_addresses s) (payloads_entries s) s) /\
    payload_inv (set_payload_db (Live b') (payloads_sections_addresses s) (payloads_entries s) s) /\
    ram_pay_read (set_payload_db (Live b') (payloads_sections_addresses s) (payloads_entries s) s)
      payload index (zlength data) = data /\
    forall p2 i2 size2, 0 <= p2 < payloads_entries s -> size_ok size2 -> 0 <= i2 < capacity size2 ->
      payload <> p2 \/ (zlength data = size2 /\ index <> i2) ->
      ram_pay_read (set_payload_db (Live b') (payloads_sections_addresses s) (payloads_entries s) s) p2 i2 size2
        = ram_pay_read s p2 i2 size2.
Proof.
  intros Hinv Hp Hs Hi. pose proof (capacity_accepted _ _ _ _ Hp Hs Hi) as Hacc.
  destruct (set_data_ok s payload index data Hinv Hs Hacc) as (b & b' & Hb & Hw & E & Hi').
  exists b'. split; [done|]. split; [done|]. unfold ram_pay_read. cbn. rewrite Hb. split.
  { by rewrite (buf_read_write_same _ _ _ _ Hw). }
  intros p2 i2 size2 Hp2 Hs2 Hi2 Hd. rewrite (buf_read_write_other _ _ _ _ _ _ Hw); [done|].
  destruct (offset_disjoint payload index (zlength data) p2 i2 size2); try done; lia.
Qed.

(** The first index after the capacity is the first sample of the next payload. *)
Lemma offset_capacity payload size :
  size_ok size -> sample_offset payload (capacity size) size = sample_offset (payload + 1) 0 size.
Proof.
  intros Hs. destruct (sps_pos size Hs) as [Hsp _]. unfold sample_offset, capacity.
  rewrite Z.div_mul, Z.mod_mul, Z.div_0_l, Z.mod_0_l by lia.
  unfold SCH_SECTIONS_PER_PAYLOAD. lia.
Qed.

Lemma accepted_capacity n payload size :
  size_ok size -> 0 <= payload -> payload + 1 < n -> accepted n payload (capacity size) size.
Proof.
  intros Hs H0 H1. destruct (sps_pos size Hs) as [Hsp _]. unfold accepted, capacity.
  rewrite Z.div_mul by lia. unfold SCH_SECTIONS_PER_PAYLOAD. lia.
Qed.

End RamPayload.

#[export] Instance ram_payload_laws : PayloadLaws Ram.ram_state.
Proof.
  refine {| pay_ok := RamPayload.payload_inv; pay_tables := Ram.payloads_entries;
            pay_capacity := RamPayload.capacity; pay_read := RamPayload.ram_pay_read |}.
  - apply RamPayload.read_ok.
  - intros s p i data Hst Hp Hr Hs Hi.
    destruct (RamPayload.write_read s p i data Hp Hr Hs Hi) as (b' & E & Hi' & Hd & Ho).
    eexists. split; [exact E|]. splits; try done. intros i2 Hi2 Hne. apply Ho; try done. by right.
  - intros s i v rc s' (Ho & Hp) E. cbn in E. unfold Ram.storage_status_set_value_idx, bind, get in E.
    rewrite Ho in E. cbn [negb orb] in E.
    destruct (Ram.status_db s); cbn in E; [by injection E as <- <-| |done].
    unfold arr_set in E. destruct (zlookup a i); [|done]. injection E as <- <-.
    by split.
Defined.

(** ** Theorems *)
Module RamTheorems.
Import Ram RamLaws RamPayload.

(** A payload sample written to the RAM storage is read back unchanged,
    and no other sample changes: for every payload of the table, every sample
    size and every index below the capacity of the payload's ten sections,
    [storage_payload_set_data] returns [SCH_ST_OK], [storage_payload_get_data]
    then returns the bytes written, and a read of another index of the payload
    or of any sample of another payload returns what it returned before. *)
Theorem ram_payload_store s payload index data :
  payload_inv s -> 0 <= payload < payloads_entries s -> size_ok (zlength data) ->
  0 <= index < capacity (zlength data) ->
  exists s', storage_payload_set_data payload index (Some data) (Some (zlength data)) s = Ret (SCH_ST_OK, s') /\
    payload_inv s' /\
    storage_payload_get_data payload index (Some (zlength data)) s' = Ret ((SCH_ST_OK, Some data), s') /\
    forall p2 i2 size2, 0 <= p2 < payloads_entries s -> size_ok size2 -> 0 <= i2 < capacity size2 ->
      payload <> p2 \/ (zlength data = size2 /\ index <> i2) ->
      exists bs, storage_payload_get_data p2 i2 (Some size2) s = Ret ((SCH_ST_OK, Some bs), s) /\
                 storage_payload_get_data p2 i2 (Some size2) s' = Ret ((SCH_ST_OK, Some bs), s').
Proof.
  intros Hinv Hp Hs Hi. destruct (write_read s payload index data Hinv Hp Hs Hi) as (b' & E & Hi' & Hr & Ho).
  eexists. split; [exact E|]. split; [done|]. split.
  { rewrite read_ok by done. by rewrite Hr. }
  intros p2 i2 size2 Hp2 Hs2 Hi2 Hd. eexists. rewrite !read_ok by done. split; [done|].
  by rewrite Ho.
Qed.

(** A back end opened with two payload tables. *)
Definition two_payloads : ram_state :=
  match (storage_init ;! storage_table_payload_init 2 false) ram_boot with
  | Ret (_, s) => s
  | Fault _ => ram_boot
  end.

Lemma two_payloads_inv : payload_inv two_payloads.
Proof.
  unfold payload_inv. splits; try done. eexists; split; reflexivity.
Qed.

Lemma ram_payload_store_witness :
  exists s', storage_payload_set_data 1 3 (Some [10; 20; 30; 40]) (Some 4) two_payloads = Ret (SCH_ST_OK, s') /\
    storage_payload_get_data 1 3 (Some 4) s' = Ret ((SCH_ST_OK, Some [10; 20; 30; 40]), s').
Proof.
  destruct (ram_payload_store two_payloads 1 3 [10; 20; 30; 40]) as (s' & H1 & _ & H2 & _).
  - apply two_payloads_inv.
  - vm_compute. split; [discriminate|reflexivity].
  - vm_compute. split; reflexivity.
  - vm_compute. split; [discriminate|reflexivity].
  - exists s'. split; [exact H1|exact H2].
Defined.

(** The check [sample_section > SCH_SECTIONS_PER_PAYLOAD] lets one section
    too many through: the first index after the capacity of a payload is
    accepted with [SCH_ST_OK] and overwrites the first sample of the next
    payload. *)
Theorem ram_payload_overflows_into_next s payload data :
  payload_inv s -> 0 <= payload -> payload + 1 < payloads_entries s -> size_ok (zlength data) ->
  exists s', storage_payload_set_data payload (capacity (zlength data)) (Some data) (Some (zlength data)) s
      = Ret (SCH_ST_OK, s') /\
    storage_payload_get_data (payload + 1) 0 (Some (zlength data)) s' = Ret ((SCH_ST_OK, Some data), s').
Proof.
  intros Hinv H0 H1 Hs. pose proof (accepted_capacity _ _ _ Hs H0 H1) as Hacc.
  destruct (set_data_ok s payload _ data Hinv Hs Hacc) as (b & b' & Hb & Hw & E & Hi').
  eexists. split; [exact E|]. destruct (sps_pos _ Hs) as [Hsp _].
  rewrite (get_data_ok _ b').
  - rewrite <- offset_capacity by done. by rewrite (buf_read_write_same _ _ _ _ Hw).
  - done.
  - done.
  - done.
  - cbn. apply capacity_accepted; [lia|done|].
    unfold capacity, SCH_SECTIONS_PER_PAYLOAD. lia.
Qed.

Lemma ram_payload_overflows_into_next_witness :
  exists s', storage_payload_set_data 0 (capacity 4) (Some [1; 2; 3; 4]) (Some 4) two_payloads = Ret (SCH_ST_OK, s') /\
    storage_payload_get_data 1 0 (Some 4) s' = Ret ((SCH_ST_OK, Some [1; 2; 3; 4]), s').
Proof.
  apply (ram_payload_overflows_into_next two_payloads 0 [1; 2; 3; 4]).
  - apply two_payloads_inv.
  - lia.
  - vm_compute. reflexivity.
  - vm_compute. split; reflexivity.
Defined.

(** [storage_flight_plan_reset] of the RAM back end reports success but
    clears only the first slot of the table: every other entry stays. *)
Theorem ram_reset_clears_only_first_slot s :
  ram_ok s ->
  exists s', storage_flight_plan_reset s = Ret (SCH_ST_OK, s') /\ ram_ok s' /\
    ram_slots s' = <[0%nat := None]> (ram_slots s).
Proof.
  intros Hk. pose proof Hk as (Ho & Hst & (db & Hdb & Hl & He & Hok)).
  unfold storage_flight_plan_reset. unfold bind at 1, get. rewrite Ho, Hdb. cbn [negb orb is_null].
  unfold bind at 1. cbn [deref]. unfold ret at 1. rewrite He. unfold range.
  rewrite seqZ_cons by done. cbn [for_ret].
  destruct (zlookup_lt db 0) as [e0 Hz0]; [rewrite Hl, He; done|].
  unfold bind at 1 2 3. rewrite (arr_get_Some _ _ _ _ Hz0).
  unfold bind at 1. rewrite arr_set_ok by (by apply zlookup_Some_lt in Hz0).
  destruct (store_fp_frame s (zinsert db 0 (fp_entry_clear e0))) as (s' & Hst' & Hok' & Hse & Hsv & Hsl).
  { done. } { rewrite zlength_zinsert. lia. } { by apply Forall_zinsert; [|apply entry_ok_clear]. }
  exists s'. unfold bind. rewrite Hst'. unfold ret. cbn. split; [done|]. split; [done|].
  rewrite Hsl. unfold ram_slots. rewrite Hdb. change 0 with (Z.of_nat 0).
  by rewrite zinsert_of_nat, list_fmap_insert.
Qed.

(** A back end with the tables of the [simple] application. *)
Definition ram_ready : ram_state :=
  match (storage_init ;! storage_table_status_init 17 false ;!
         storage_table_flight_plan_init SCH_FP_MAX_ENTRIES false) ram_boot with
  | Ret (_, s) => s
  | Fault _ => ram_boot
  end.

Lemma ram_ready_ok : ram_ok ram_ready.
Proof.
  split; [done|]. split.
  - eexists; split; [reflexivity|]. split; [done|].
    apply (bool_decide_unpack _). vm_compute. exact I.
  - eexists; split; [reflexivity|]. split; [vm_compute; reflexivity|]. split; [done|].
    apply Forall_replicate. by intros [].
Qed.

(** The table with two entries. *)
Definition ram_two_entries : ram_state :=
  match (storage_flight_plan_set 100 (Some (cs "help")) (Some []) 1 0 1 ;!
         storage_flight_plan_set 200 (Some (cs "help")) (Some []) 1 0 1) ram_ready with
  | Ret (_, s) => s
  | Fault _ => ram_boot
  end.

Lemma ram_two_entries_ok : ram_ok ram_two_entries.
Proof.
  destruct (ram_fp_set ram_ready 100 (cs "help") [] 1 0 1 ram_ready_ok) as (s1 & E1 & H1 & _).
  destruct (ram_fp_set s1 200 (cs "help") [] 1 0 1 H1) as (s2 & E2 & H2 & _).
  unfold ram_two_entries, bind. by rewrite E1, E2.
Qed.

Lemma ram_reset_clears_only_first_slot_witness :
  exists s', storage_flight_plan_reset ram_two_entries = Ret (SCH_ST_OK, s') /\
    tbl_get 200 (ram_slots s') = Some (FpRow 200 (cs "help") [] 1 0 1).
Proof.
  destruct (ram_reset_clears_only_first_slot ram_two_entries) as (s' & H1 & _ & H2).
  - apply ram_two_entries_ok.
  - exists s'. split; [exact H1|]. rewrite H2. vm_compute. reflexivity.
Defined.

(** Closing the RAM storage twice frees the section table twice: after
    the first [storage_close] the pointer still refers to the freed table. *)
Theorem ram_double_close s :
  ram_ok s -> payload_inv s ->
  exists s', storage_close s = Ret (SCH_ST_OK, s') /\ storage_close s' = Fault DoubleFree.
Proof.
  intros (Ho & (db & Hdb & _) & (fdb & Hfdb & _)) (_ & _ & _ & Htbl & b & Hb & _).
  unfold storage_close, bind, modify, get. cbn. rewrite Hdb, Hfdb, Hb, Htbl. cbn.
  unfold put, ret. eexists; split; [done|]. done.
Qed.

(** All the tables of the [simple] application. *)
Definition ram_all_tables : ram_state :=
  match storage_table_payload_init 1 false ram_ready with
  | Ret (_, s) => s
  | Fault _ => ram_boot
  end.

Lemma ram_double_close_witness :
  exists s', storage_close ram_all_tables = Ret (SCH_ST_OK, s') /\ storage_close s' = Fault DoubleFree.
Proof.
  apply (ram_double_close ram_all_tables).
  - exact ram_ready_ok.
  - unfold payload_inv. splits; try (vm_compute; done). eexists; split; reflexivity.
Defined.

End RamTheorems.
