(* ===== verification/StorageFlash.v ===== *)
(** * The FLASH and FRAM storage back end

    [src/lib/storage/storage_flash.c] in its debug build, where the FLASH and
    FRAM chips are arrays in memory: status variables in FRAM, flight plan
    entries in one FLASH section that is only appended to, found through a
    translation table (TLB) that is kept in RAM and copied to FRAM, and payload
    samples in FLASH pages.  Every function of the file is modelled, for
    [ST_FP_TLB_FRAM]. *)
From S2P Require Import Prelude CStr Memory Config Storage.

Module Flash.

Definition ST_CMD_MAX_STR_PARAMS : Z := 248.
Definition ST_CMD_MAX_STR_NAME : Z := 248.
Definition ST_PAGE_SIZE : Z := 512.
Definition ST_FRAM_SIZE : Z := 32 * 1024.
Definition FLASH_SIZE : Z := 256 * SCH_SIZE_PER_SECTION.
Definition FP_CONTAINER_SIZE : Z := 512.
Definition sizeof_fp_addr : Z := 8.

(** An entry of the TLB: [addr] is a [uint32_t], [unixtime] an [int32_t]. *)
Record fp_addr_t := FpAddr { tl_addr : Z; tl_unixtime : Z }.

#[export] Instance fp_addr_eq_dec : EqDecision fp_addr_t.
Proof. solve_decision. Defined.

(** ** State

    The static variables; [flash] and [fram] are the chips.  [junk] gives the
    bytes of a block of memory that [malloc] returns. *)
Record flash_state := FlashSt {
  st_flightplan_addr : ptr (list Z);
  st_flightplan_base_addr : Z;
  st_flightplan_entries : Z;
  st_flightplan_tlb_base_addr : Z;
  st_flightplan_tlb : list fp_addr_t;
  st_payload_addr : ptr (list Z);
  st_payload_sections : Z;
  st_payloads_entries : Z;
  st_payload_base_addr : Z;
  storage_is_open : bool;
  flash : buffer;
  fram : buffer;
  junk : Z -> Z
}.

Definition st_flightplan_sections : Z :=
  Z.quot (SCH_FP_MAX_ENTRIES * FP_CONTAINER_SIZE) SCH_SIZE_PER_SECTION + 1.
Definition commands_per_section : Z := Z.quot SCH_SIZE_PER_SECTION FP_CONTAINER_SIZE.
Definition tlb_len : Z := SCH_FP_MAX_ENTRIES + 1.
Definition sizeof_tlb : Z := tlb_len * sizeof_fp_addr.
Definition tlb_start : Z := ST_FRAM_SIZE - sizeof_tlb.

(** The static variables when the program starts, on given chips. *)
Definition flash_boot (fl fr : buffer) (jk : Z -> Z) : flash_state :=
  FlashSt Null 0 0 0 (replicate (Z.to_nat tlb_len) (FpAddr 0 0)) Null 0 0 0 false fl fr jk.
Definition blank_flash : buffer := buf_new FLASH_SIZE.
Definition blank_fram : buffer := buf_new ST_FRAM_SIZE.

Definition set_flash b s := FlashSt (st_flightplan_addr s) (st_flightplan_base_addr s) (st_flightplan_entries s)
  (st_flightplan_tlb_base_addr s) (st_flightplan_tlb s) (st_payload_addr s) (st_payload_sections s)
  (st_payloads_entries s) (st_payload_base_addr s) (storage_is_open s) b (fram s) (junk s).
Definition set_fram b s := FlashSt (st_flightplan_addr s) (st_flightplan_base_addr s) (st_flightplan_entries s)
  (st_flightplan_tlb_base_addr s) (st_flightplan_tlb s) (st_payload_addr s) (st_payload_sections s)
  (st_payloads_entries s) (st_payload_base_addr s) (storage_is_open s) (flash s) b (junk s).
Definition set_tlb t s := FlashSt (st_flightplan_addr s) (st_flightplan_base_addr s) (st_flightplan_entries s)
  (st_flightplan_tlb_base_addr s) t (st_payload_addr s) (st_payload_sections s)
  (st_payloads_entries s) (st_payload_base_addr s) (storage_is_open s) (flash s) (fram s) (junk s).
Definition set_fp_table p n s := FlashSt p (st_flightplan_base_addr s) n
  (st_flightplan_tlb_base_addr s) (st_flightplan_tlb s) (st_payload_addr s) (st_payload_sections s)
  (st_payloads_entries s) (st_payload_base_addr s) (storage_is_open s) (flash s) (fram s) (junk s).
Definition set_payload_table p k n s := FlashSt (st_flightplan_addr s) (st_flightplan_base_addr s)
  (st_flightplan_entries s) (st_flightplan_tlb_base_addr s) (st_flightplan_tlb s) p k n
  (st_payload_base_addr s) (storage_is_open s) (flash s) (fram s) (junk s).

(** ** The chips

    [len] is a [uint16_t] in the FLASH functions: a longer request is cut. *)
Definition storage_read_flash (addr len : Z) : M flash_state (Z * list Z) :=
  let! s := get in
  let! bs := lift (buf_read (flash s) addr (u16_of len)) in
  ret (SCH_ST_OK, bs).

Definition storage_write_flash (addr : Z) (data : list Z) (len : Z) : M flash_state Z :=
  let! s := get in
  let len := u16_of len in
  if zlength data <? len then fail OutOfBounds else
  let! b := lift (buf_write (flash s) addr (take (Z.to_nat len) data)) in
  modify (set_flash b) ;! ret SCH_ST_OK.

Definition storage_erase_flash (addr : Z) : M flash_state Z :=
  let! s := get in
  let section := addr / SCH_SIZE_PER_SECTION in
  let addr := u32_of (section * SCH_SIZE_PER_SECTION) in
  let! b := lift (buf_zero (flash s) addr SCH_SIZE_PER_SECTION) in
  modify (set_flash b) ;! ret SCH_ST_OK.

Definition storage_write_fram (add : Z) (value : list Z) : M flash_state Z :=
  let! s := get in
  let! b := lift (buf_write (fram s) add value) in
  modify (set_fram b) ;! ret SCH_ST_OK.

Definition storage_read_fram (add len : Z) : M flash_state (Z * list Z) :=
  let! s := get in
  let! bs := lift (buf_read (fram s) add len) in
  ret (SCH_ST_OK, bs).

(** ** The TLB *)
Definition fp_addr_bytes (e : fp_addr_t) : list Z :=
  le_bytes 4 (tl_addr e) ++ le_bytes 4 (u32_of (tl_unixtime e)).
Definition fp_addr_of (bs : list Z) : fp_addr_t :=
  FpAddr (of_le (take 4 bs)) (i32_of (of_le (take 4 (drop 4 bs)))).
Definition tlb_bytes (t : list fp_addr_t) : list Z := concat (map fp_addr_bytes t).
Fixpoint tlb_of (n : nat) (bs : list Z) : list fp_addr_t :=
  match n with
  | O => []
  | S n => fp_addr_of (take 8 bs) :: tlb_of n (drop 8 bs)
  end.

(** [memset(st_flightplan_tlb, -1, ...)] *)
Definition tlb_null : list fp_addr_t := replicate (Z.to_nat tlb_len) (FpAddr (2 ^ 32 - 1) (-1)).

Definition storage_flightplan_load_tlb : M flash_state Z :=
  let! '(rc, bs) := storage_read_fram tlb_start sizeof_tlb in
  modify (set_tlb (tlb_of (Z.to_nat tlb_len) bs)) ;! ret rc.

Definition storage_flightplan_dump_tlb (index : Z) : M flash_state Z :=
  let! s := get in
  if index <? 0 then storage_write_fram tlb_start (tlb_bytes (st_flightplan_tlb s))
  else let! e := arr_get (st_flightplan_tlb s) index in
       storage_write_fram (u32_of (tlb_start + index * sizeof_fp_addr)) (fp_addr_bytes e).

Definition storage_flightplan_update_tlb (index unixtime addr : Z) : M flash_state Z :=
  let! s := get in
  let! t := arr_set (st_flightplan_tlb s) index (FpAddr addr unixtime) in
  let! c := arr_get t SCH_FP_MAX_ENTRIES in
  let! t := arr_set t SCH_FP_MAX_ENTRIES (FpAddr (u32_of (1 + tl_addr c)) (tl_unixtime c)) in
  modify (set_tlb t) ;!
  let! rc := storage_flightplan_dump_tlb index in
  if rc =? SCH_ST_OK then storage_flightplan_dump_tlb SCH_FP_MAX_ENTRIES else ret rc.

(** The address of entry [index_flash] in the section table. *)
Definition entry_address (index_flash : Z) : M flash_state Z :=
  let! s := get in
  let! section_index := cdiv index_flash commands_per_section in
  let! index_in_section := cmod index_flash commands_per_section in
  let! tbl := deref (st_flightplan_addr s) in
  let! base := arr_get tbl section_index in
  ret (u32_of (base + index_in_section * FP_CONTAINER_SIZE)).

(** One entry of the TLB in the loop of [flight_plan_rebuild_tlb]; [fp_entries]
    is the block that should hold the old section. *)
Definition rebuild_entry (fp_entries : list Z) (rc index_tlb : Z) : M flash_state Z :=
  let! s := get in
  let! e := arr_get (st_flightplan_tlb s) index_tlb in
  if tl_unixtime e =? ST_FP_NULL then ret rc else
  let! tbl := deref (st_flightplan_addr s) in
  let! base := arr_get tbl 0 in
  let old_index_flash := i32_of (u32_of (tl_addr e - base) / FP_CONTAINER_SIZE) in
  let! c := arr_get (st_flightplan_tlb s) SCH_FP_MAX_ENTRIES in
  let! new_addr := entry_address (i32_of (tl_addr c)) in
  let! rc1 := storage_flightplan_update_tlb index_tlb (tl_unixtime e) new_addr in
  let off := old_index_flash * FP_CONTAINER_SIZE in
  if (off <? 0) || (zlength fp_entries <? off + FP_CONTAINER_SIZE) then fail OutOfBounds else
  let! rc2 := storage_write_flash new_addr (take (Z.to_nat FP_CONTAINER_SIZE) (drop (Z.to_nat off) fp_entries))
                FP_CONTAINER_SIZE in
  cint (rc + rc1 + rc2).

(** The length of the read is [512 * 512], which is 0 as a [uint16_t]: the block
    keeps the bytes that [malloc] gave it. *)
Definition flight_plan_rebuild_tlb : M flash_state Z :=
  let! s := get in
  let size := commands_per_section * FP_CONTAINER_SIZE in
  let! tbl := deref (st_flightplan_addr s) in
  let! base := arr_get tbl 0 in
  let! '(rc1, bs) := storage_read_flash base size in
  let fp_entries := bs ++ map (junk s) (seqZ (zlength bs) (size - zlength bs)) in
  let! rc2 := storage_erase_flash base in
  let! t := arr_set (st_flightplan_tlb s) SCH_FP_MAX_ENTRIES (FpAddr 0 0) in
  modify (set_tlb t) ;!
  let! rc := fold_m (range SCH_FP_MAX_ENTRIES) (rebuild_entry fp_entries) (rc1 + rc2) in
  let! rc3 := storage_flightplan_dump_tlb (-1) in
  cint (rc + rc3).

(** [-1] when no entry has the time. *)
Definition storage_flightplan_find_index_tlb (unixtime : Z) : M flash_state Z :=
  let! s := get in
  let! r := for_ret (range SCH_FP_MAX_ENTRIES) (fun i =>
    let! e := arr_get (st_flightplan_tlb s) i in
    ret (if tl_unixtime e =? unixtime then Some i else None)) in
  ret (default (-1) r).

Definition flight_plan_erase_index_tlb (index : Z) : M flash_state Z :=
  let! s := get in
  if (index <? 0) || (st_flightplan_entries s <=? index) then ret (-1) else
  let! t := arr_set (st_flightplan_tlb s) index (FpAddr (u32_of ST_FP_NULL) ST_FP_NULL) in
  modify (set_tlb t) ;!
  storage_flightplan_dump_tlb index.

(** ** Flight plan *)
Definition container_bytes (unixtime executions periodical node : Z) (cmd args : cstring) : list Z :=
  le_bytes 4 (u32_of unixtime) ++ le_bytes 4 (u32_of executions) ++ le_bytes 4 (u32_of periodical) ++
  le_bytes 4 (u32_of node) ++ strncpy_bytes cmd ST_CMD_MAX_STR_PARAMS ++ strncpy_bytes args ST_CMD_MAX_STR_NAME.

Definition storage_flight_plan_set_st (row : option fp_entry) : M flash_state Z :=
  let! s := get in
  match row with
  | None => ret SCH_ST_ERROR
  | Some row =>
      if negb (storage_is_open s) then ret SCH_ST_ERROR else
      let! c := arr_get (st_flightplan_tlb s) SCH_FP_MAX_ENTRIES in
      (if u32_of commands_per_section <? tl_addr c then flight_plan_rebuild_tlb ;! ret tt else ret tt) ;!
      let! index_tlb := storage_flightplan_find_index_tlb ST_FP_NULL in
      if (index_tlb =? -1) || (st_flightplan_entries s <=? index_tlb) then ret SCH_ST_ERROR else
      let! s := get in
      let! c := arr_get (st_flightplan_tlb s) SCH_FP_MAX_ENTRIES in
      let! addr := entry_address (i32_of (tl_addr c)) in
      match fp_cmd row, fp_args row with
      | Some cmd, Some args =>
          let new_entry := container_bytes (fp_unixtime row) (fp_executions row) (fp_periodical row)
                             (fp_node row) cmd args in
          let! rc := storage_flightplan_update_tlb index_tlb (fp_unixtime row) addr in
          if rc =? SCH_ST_OK then storage_write_flash addr new_entry FP_CONTAINER_SIZE else ret rc
      | _, _ => fail NullDeref
      end
  end.

Definition storage_flight_plan_set (timetodo : Z) (command args : option cstring)
    (executions period node : Z) : M flash_state Z :=
  let! s := get in
  if (timetodo <? 0) || negb (issome command) || negb (issome args) || negb (storage_is_open s)
  then ret SCH_ST_ERROR else
  storage_flight_plan_set_st (Some (FpEntry timetodo executions period node command args)).

(** [strdup] of the character arrays of the entry that was read. *)
Definition container_entry (bs : list Z) : M flash_state fp_entry :=
  let field off := i32_of (of_le (take 4 (drop off bs))) in
  let! cmd := lift (cstr_of_buf (take 248 (drop 16 bs))) in
  let! args := lift (cstr_of_buf (take 248 (drop 264 bs))) in
  ret (FpEntry (field 0%nat) (field 4%nat) (field 8%nat) (field 12%nat) (Some cmd) (Some args)).

Definition storage_flight_plan_get_idx (index : Z) : M flash_state (Z * option fp_entry) :=
  let! s := get in
  if st_flightplan_entries s <=? index then ret (SCH_ST_ERROR, None) else
  let! e := arr_get (st_flightplan_tlb s) index in
  if tl_unixtime e =? ST_FP_NULL then ret (SCH_ST_ERROR, None) else
  let! '(rc, bs) := storage_read_flash (tl_addr e) FP_CONTAINER_SIZE in
  if rc =? SCH_ST_OK then let! row := container_entry bs in ret (rc, Some row)
  else ret (rc, None).

Definition storage_flight_plan_get_st (timetodo : Z) : M flash_state (Z * option fp_entry) :=
  let! index := storage_flightplan_find_index_tlb timetodo in
  if index <? 0 then ret (SCH_ST_ERROR, None) else storage_flight_plan_get_idx index.

(** [strncpy] to the caller's arrays of [SCH_CMD_MAX_STR_NAME] bytes: the
    strings come from arrays of that size with a terminator. *)
Definition storage_flight_plan_get_args (timetodo : Z) : M flash_state (Z * option fp_out) :=
  let! _ := storage_flightplan_find_index_tlb timetodo in
  let! '(rc, row) := storage_flight_plan_get_st timetodo in
  if negb (rc =? SCH_ST_OK) then ret (SCH_ST_ERROR, None) else
  match row with
  | None => fail Uninitialized
  | Some e =>
      match fp_cmd e, fp_args e with
      | Some c, Some a =>
          let! command := lift (cstr_of_buf (strncpy_bytes c ST_CMD_MAX_STR_NAME)) in
          let! args := lift (cstr_of_buf (strncpy_bytes a ST_CMD_MAX_STR_PARAMS)) in
          ret (SCH_ST_OK, Some (FpOut command args (fp_executions e) (fp_periodical e) (fp_node e)))
      | _, _ => fail NullDeref
      end
  end.

Definition storage_flight_plan_delete_row_idx (index : Z) : M flash_state Z :=
  let! s := get in
  if st_flightplan_entries s <=? index then ret SCH_ST_ERROR else flight_plan_erase_index_tlb index.

Definition storage_flight_plan_delete_row (timetodo : Z) : M flash_state Z :=
  let! index := storage_flightplan_find_index_tlb timetodo in
  if index <? 0 then ret SCH_ST_ERROR else storage_flight_plan_delete_row_idx index.

Definition storage_flight_plan_reset : M flash_state Z :=
  let! s := get in
  if negb (storage_is_open s) || is_null (st_payload_addr s) then ret SCH_ST_ERROR else
  let! rc := fold_m (range st_flightplan_sections) (fun rc i =>
    let! tbl := deref (st_flightplan_addr s) in
    let! addr := arr_get tbl i in
    let! res := storage_erase_flash addr in
    cint (rc + res)) SCH_ST_OK in
  let! t := arr_set tlb_null SCH_FP_MAX_ENTRIES (FpAddr 0 0) in
  modify (set_tlb t) ;!
  let! res := storage_flightplan_dump_tlb (-1) in
  let! rc := cint (rc + res) in
  ret (if rc =? SCH_ST_OK then SCH_ST_OK else SCH_ST_ERROR).

(** ** Open, close, create *)
Definition storage_init : M flash_state Z :=
  modify (fun s => FlashSt (st_flightplan_addr s) (SCH_FLASH_INIT_MEMORY + SCH_SIZE_PER_SECTION)
    (st_flightplan_entries s) SCH_FLASH_INIT_MEMORY (st_flightplan_tlb s) (st_payload_addr s)
    (st_payload_sections s) (st_payloads_entries s)
    (SCH_FLASH_INIT_MEMORY + SCH_SIZE_PER_SECTION + SCH_SIZE_PER_SECTION * st_flightplan_sections)
    true (flash s) (fram s) (junk s)) ;!
  ret SCH_ST_OK.

Definition storage_close : M flash_state Z :=
  let! s := get in
  free_ptr (st_flightplan_addr s) ;!
  free_ptr (st_payload_addr s) ;!
  put (FlashSt Null 0 0 0 (st_flightplan_tlb s) Null 0 0 0 false (flash s) (fram s) (junk s)) ;!
  ret SCH_ST_OK.

Definition storage_table_status_init (n_variables : Z) (drop : bool) : M flash_state Z :=
  let! s := get in
  ret (if negb (storage_is_open s) then SCH_ST_ERROR else SCH_ST_OK).

(** With [drop] the table is freed before [storage_flight_plan_reset] uses
    it. *)
Definition storage_table_flight_plan_init (n_entries : Z) (drop : bool) : M flash_state Z :=
  let! s := get in
  if negb (storage_is_open s) then ret SCH_ST_ERROR else
  if negb (is_null (st_flightplan_addr s)) && negb drop then ret SCH_ST_ERROR else
  (if negb (is_null (st_flightplan_addr s)) then
     free_ptr (st_flightplan_addr s) ;!
     modify (set_fp_table Freed (st_flightplan_entries s)) ;!
     storage_flight_plan_reset ;! ret tt
   else ret tt) ;!
  let tbl := map (fun i => u32_of (st_flightplan_base_addr s + i * SCH_SIZE_PER_SECTION))
                 (range st_flightplan_sections) in
  modify (set_fp_table (Live tbl) n_entries) ;!
  modify (set_tlb tlb_null) ;!
  storage_flightplan_load_tlb.

Definition storage_table_payload_init (n_entries : Z) (drop : bool) : M flash_state Z :=
  let! s := get in
  if negb (storage_is_open s) then ret SCH_ST_ERROR else
  if negb (is_null (st_payload_addr s)) && negb drop then ret SCH_ST_ERROR else
  free_ptr (st_payload_addr s) ;!
  let! sections := cint (SCH_SECTIONS_PER_PAYLOAD * n_entries) in
  let tbl := map (fun i => u32_of (st_payload_base_addr s + i * SCH_SIZE_PER_SECTION)) (range sections) in
  modify (set_payload_table (Live tbl) sections n_entries) ;!
  ret 0.

(** ** Status variables: four bytes of FRAM each, at a 16-bit address *)
Definition storage_status_get_value_idx (index : Z) : M flash_state (Z * option Z) :=
  let add := u16_of (index * 4) in
  let! '(rc, bs) := storage_read_fram add 4 in
  ret (rc, Some (of_le bs)).

Definition storage_status_set_value_idx (index value : Z) : M flash_state Z :=
  let add := u16_of (index * 4) in
  storage_write_fram add (le_bytes 4 value).

(** ** Payloads *)
Definition check_address_alignment (addr size : Z) : Z :=
  if addr / ST_PAGE_SIZE <? u32_of (addr + size) / ST_PAGE_SIZE then SCH_ST_ERROR else SCH_ST_OK.

Definition write_data_with_check (addr : Z) (data : list Z) (size : Z) : M flash_state Z :=
  if check_address_alignment addr size =? SCH_ST_ERROR then ret SCH_ST_ERROR else
  let! ret_write := storage_write_flash addr data size in
  ret (if negb (ret_write =? 0) then SCH_ST_ERROR else SCH_ST_OK).

Definition read_data_with_check (addr size : Z) : M flash_state (Z * option (list Z)) :=
  if check_address_alignment addr size =? SCH_ST_ERROR then ret (SCH_ST_ERROR, None) else
  let! '(read_ret, bs) := storage_read_flash addr size in
  ret (if negb (read_ret =? 0) then (SCH_ST_ERROR, None) else (SCH_ST_OK, Some bs)).

(** [sample_page] counts the pages from the start of the payload, but is added
    to the address of the section of the sample. *)
Definition _get_sample_address (payload index size : Z) : M flash_state (Z * option Z) :=
  let! s := get in
  if size =? 0 then fail DivByZero else
  let samples_per_page := i32_of (ST_PAGE_SIZE / size) in
  if samples_per_page =? 0 then ret (SCH_ST_ERROR, None) else
  let! sample_page := cdiv index samples_per_page in
  let! index_in_page := cmod index samples_per_page in
  let pages_in_section := Z.quot SCH_SIZE_PER_SECTION ST_PAGE_SIZE in
  let! samples_per_section := cint (samples_per_page * pages_in_section) in
  let! sample_section := cdiv index samples_per_section in
  let! section_index := cint (payload * SCH_SECTIONS_PER_PAYLOAD + sample_section) in
  if SCH_SECTIONS_PER_PAYLOAD <? sample_section then ret (SCH_ST_ERROR, None) else
  let! lim := cint (st_payloads_entries s * SCH_SECTIONS_PER_PAYLOAD) in
  if lim <? section_index then ret (SCH_ST_ERROR, None) else
  let! tbl := deref (st_payload_addr s) in
  let! base := arr_get tbl section_index in
  let! page_off := cint (sample_page * ST_PAGE_SIZE) in
  let address := u32_of (base + page_off + index_in_page * size) in
  let! area := cint (st_payloads_entries s * SCH_SECTIONS_PER_PAYLOAD * SCH_SIZE_PER_SECTION) in
  let! top := cint (SCH_FLASH_INIT_MEMORY + st_flightplan_base_addr s + area) in
  if u32_of top <? address then ret (SCH_ST_ERROR, None) else
  ret (SCH_ST_OK, Some address).

Definition storage_payload_set_data (payload index : Z) (data : option (list Z)) (schema : option Z)
  : M flash_state Z :=
  let! s := get in
  if negb (storage_is_open s) || is_null (st_payload_addr s) then ret SCH_ST_ERROR else
  match data, schema with
  | Some data, Some size =>
      let! '(rc, addr) := _get_sample_address payload index size in
      match addr with
      | None => ret SCH_ST_ERROR
      | Some addr =>
          let! rc := write_data_with_check addr data size in
          ret (if negb (rc =? SCH_ST_ERROR) then SCH_ST_OK else SCH_ST_ERROR)
      end
  | _, _ => ret SCH_ST_ERROR
  end.

Definition storage_payload_get_data (payload index : Z) (schema : option Z)
  : M flash_state (Z * option (list Z)) :=
  let! s := get in
  if negb (storage_is_open s) || is_null (st_payload_addr s) then ret (SCH_ST_ERROR, None) else
  match schema with
  | Some size =>
      let! '(rc, addr) := _get_sample_address payload index size in
      match addr with
      | None => ret (SCH_ST_ERROR, None)
      | Some addr =>
          let! '(rc, bs) := read_data_with_check addr size in
          ret (if negb (rc =? SCH_ST_ERROR) then SCH_ST_OK else SCH_ST_ERROR, bs)
      end
  | None => ret (SCH_ST_ERROR, None)
  end.

Definition storage_payload_reset_table (payload : Z) : M flash_state Z :=
  let! s := get in
  if negb (storage_is_open s) || is_null (st_payload_addr s) || (st_payloads_entries s <=? payload)
  then ret SCH_ST_ERROR else
  for_ (range SCH_SECTIONS_PER_PAYLOAD) (fun i =>
    let! section_idx := cint (i + payload * SCH_SECTIONS_PER_PAYLOAD) in
    let! tbl := deref (st_payload_addr s) in
    let! section_addr := arr_get tbl section_idx in
    storage_erase_flash section_addr ;! ret tt) ;!
  ret SCH_ST_OK.

Definition storage_payload_reset : M flash_state Z :=
  let! s := get in
  if negb (storage_is_open s) || is_null (st_payload_addr s) || (st_payloads_entries s =? 0)
  then ret SCH_ST_ERROR else
  for_ (range (st_payloads_entries s)) (fun i => storage_payload_reset_table i ;! ret tt) ;!
  ret SCH_ST_OK.

End Flash.

#[export] Instance flash_storage : Storage Flash.flash_state := {
  storage_init := Flash.storage_init;
  storage_close := Flash.storage_close;
  storage_table_status_init := Flash.storage_table_status_init;
  storage_table_flight_plan_init := Flash.storage_table_flight_plan_init;
  storage_table_payload_init := Flash.storage_table_payload_init;
  storage_status_get_value_idx := Flash.storage_status_get_value_idx;
  storage_status_set_value_idx := Flash.storage_status_set_value_idx;
  storage_flight_plan_set := Flash.storage_flight_plan_set;
  storage_flight_plan_get_idx := Flash.storage_flight_plan_get_idx;
  storage_flight_plan_get_args := Flash.storage_flight_plan_get_args;
  storage_flight_plan_delete_row := Flash.storage_flight_plan_delete_row;
  storage_flight_plan_delete_row_idx := Flash.storage_flight_plan_delete_row_idx;
  storage_flight_plan_reset := Flash.storage_flight_plan_reset;
  storage_payload_set_data := Flash.storage_payload_set_data;
  storage_payload_get_data := Flash.storage_payload_get_data;
  storage_payload_reset := Flash.storage_payload_reset;
  storage_payload_reset_table := Flash.storage_payload_reset_table
}.
