(* ===== verification/FlashLaws.v ===== *)
(** * The FLASH back end satisfies the storage laws

    The representation invariant of StorageFlash (the TLB in RAM, its copy in
    FRAM and the entries in FLASH agree), and the instances of the classes of
    Storage.  There is room for a new entry as long as fewer than 512 entries
    were written since the section was erased. *)
From S2P Require Import Prelude CStr Memory Config Storage StorageFlash.

Module FlashLaws.
Import Flash.

(** ** Rows in FLASH *)
Definition fp_base : Z := SCH_SIZE_PER_SECTION.
Definition i32_ok (z : Z) : Prop := INT_MIN <= z <= INT_MAX.

Definition row_bytes (r : fp_row) : list Z :=
  container_bytes (row_time r) (row_executions r) (row_period r) (row_node r) (row_cmd r) (row_args r).
Definition row_fine (r : fp_row) : Prop :=
  i32_ok (row_time r) /\ i32_ok (row_executions r) /\ i32_ok (row_period r) /\ i32_ok (row_node r) /\
  fits_fp (row_cmd r) /\ fits_fp (row_args r) /\ row_time r <> ST_FP_NULL.

Definition decode_row (bs : list Z) : option fp_row :=
  let field off := i32_of (of_le (take 4 (drop off bs))) in
  match cstr_of_buf (take 248 (drop 16 bs)), cstr_of_buf (take 248 (drop 264 bs)) with
  | Ret c, Ret a => Some (FpRow (field 0%nat) c a (field 4%nat) (field 8%nat) (field 12%nat))
  | _, _ => None
  end.

Lemma take_drop_middle {A} (a b c : list A) n m :
  length a = n -> length b = m -> take m (drop n (a ++ b ++ c)) = b.
Proof. intros <- <-. by rewrite drop_app_length, take_app_length. Qed.

Lemma container_fields t e p n c a bs :
  bs = container_bytes t e p n c a ->
  take 4 (drop 0 bs) = le_bytes 4 (u32_of t) /\ take 4 (drop 4 bs) = le_bytes 4 (u32_of e) /\
  take 4 (drop 8 bs) = le_bytes 4 (u32_of p) /\ take 4 (drop 12 bs) = le_bytes 4 (u32_of n) /\
  take 248 (drop 16 bs) = strncpy_bytes c 248 /\ take 248 (drop 264 bs) = strncpy_bytes a 248 /\ zlength bs = 512.
Proof.
  intros ->. unfold container_bytes, ST_CMD_MAX_STR_PARAMS, ST_CMD_MAX_STR_NAME.
  pose proof (length_strncpy c 248 ltac:(lia)) as Hc. pose proof (length_strncpy a 248 ltac:(lia)) as Ha.
  unfold zlength in *.
  assert (length (strncpy_bytes c 248) = 248%nat) as Hc' by lia.
  assert (length (strncpy_bytes a 248) = 248%nat) as Ha' by lia.
  pose proof (length_le_bytes 4 (u32_of t)) as L0. pose proof (length_le_bytes 4 (u32_of e)) as L1.
  pose proof (length_le_bytes 4 (u32_of p)) as L2. pose proof (length_le_bytes 4 (u32_of n)) as L3.
  set (x := le_bytes 4 (u32_of t)) in *. set (y := le_bytes 4 (u32_of e)) in *. set (z := le_bytes 4 (u32_of p)) in *.
  set (w := le_bytes 4 (u32_of n)) in *. set (u := strncpy_bytes c 248) in *. set (v := strncpy_bytes a 248) in *.
  splits.
  - by apply (take_drop_middle [] x).
  - by apply (take_drop_middle x y).
  - rewrite app_assoc. apply take_drop_middle; [rewrite length_app; lia|done].
  - rewrite 2 app_assoc. apply take_drop_middle; [rewrite !length_app; lia|done].
  - rewrite 3 app_assoc. apply take_drop_middle; [rewrite !length_app; lia|done].
  - rewrite 4 app_assoc. rewrite <- (app_nil_r v) at 1. apply take_drop_middle; [rewrite !length_app; lia|done].
  - rewrite !length_app. lia.
Qed.

Lemma field_i32 z : i32_ok z -> i32_of (of_le (le_bytes 4 (u32_of z))) = z.
Proof.
  intros H. rewrite of_le_bytes4. rewrite (u32_of_id (u32_of z)) by apply u32_of_range. by apply i32_of_u32_id.
Qed.

Lemma cstr_of_strncpy c : fits_fp c -> cstr_of_buf (strncpy_bytes c 248) = Ret c.
Proof. intros [Hc Hl]. rewrite strncpy_short by done. by apply cstr_of_buf_nul. Qed.

Lemma decode_row_bytes r : row_fine r -> decode_row (row_bytes r) = Some r.
Proof.
  intros (Ht & He & Hp & Hn & Hc & Ha & _). unfold decode_row.
  destruct (container_fields _ _ _ _ _ _ _ (eq_refl (row_bytes r))) as (-> & -> & -> & -> & -> & -> & _).
  rewrite !cstr_of_strncpy, !field_i32 by done. by destruct r.
Qed.

Lemma container_entry_row r s : row_fine r -> container_entry (row_bytes r) s = Ret (row_entry r, s).
Proof.
  intros (Ht & He & Hp & Hn & Hc & Ha & _). unfold container_entry.
  destruct (container_fields _ _ _ _ _ _ _ (eq_refl (row_bytes r))) as (-> & -> & -> & -> & -> & -> & _).
  rewrite !cstr_of_strncpy, !field_i32 by done. done.
Qed.

Lemma zlength_row r : zlength (row_bytes r) = 512.
Proof. by destruct (container_fields _ _ _ _ _ _ _ (eq_refl (row_bytes r))) as (_ & _ & _ & _ & _ & _ & H). Qed.

(** ** The representation invariant *)
Definition slot_of (fl : buffer) (e : fp_addr_t) : option fp_row :=
  if tl_unixtime e =? ST_FP_NULL then None
  else match buf_read fl (tl_addr e) 512 with Ret bs => decode_row bs | Fault _ => None end.

(** An entry of the TLB: one of the first [n] entries of the section holds a
    row with the time of the TLB entry. *)
Definition entry_inv (fl : buffer) (n : Z) (e : fp_addr_t) : Prop :=
  i32_ok (tl_unixtime e) /\ 0 <= tl_addr e < 2 ^ 32 /\
  (tl_unixtime e <> ST_FP_NULL -> exists r k, row_fine r /\ row_time r = tl_unixtime e /\ 0 <= k < n /\
     tl_addr e = fp_base + 512 * k /\ buf_read fl (tl_addr e) 512 = Ret (row_bytes r)).

Definition tlb_inv (fl : buffer) (es : list fp_addr_t) (c : fp_addr_t) : Prop :=
  zlength es = SCH_FP_MAX_ENTRIES /\ 0 <= tl_addr c <= 512 /\ i32_ok (tl_unixtime c) /\
  Forall (entry_inv fl (tl_addr c)) es.

Definition chip_ok (fr : buffer) : Prop :=
  blen fr = ST_FRAM_SIZE /\ forall a, 0 <= byte_at fr a < 256.
Definition copy_ok (fr : buffer) (t : list fp_addr_t) : Prop :=
  forall i e, zlookup t i = Some e -> buf_read fr (tlb_start + 8 * i) 8 = Ret (fp_addr_bytes e).

Definition flash_ok (s : flash_state) : Prop :=
  storage_is_open s = true /\ st_flightplan_addr s = Live [fp_base] /\ st_flightplan_base_addr s = fp_base /\
  st_flightplan_entries s = SCH_FP_MAX_ENTRIES /\ blen (flash s) = FLASH_SIZE /\
  chip_ok (fram s) /\ copy_ok (fram s) (st_flightplan_tlb s) /\
  exists es c, st_flightplan_tlb s = es ++ [c] /\ tlb_inv (flash s) es c.

Definition flash_slots (s : flash_state) : list (option fp_row) :=
  map (slot_of (flash s)) (take 255 (st_flightplan_tlb s)).
Definition flash_status (s : flash_state) (i : Z) : Z :=
  match buf_read (fram s) (4 * i) 4 with Ret bs => of_le bs | Fault _ => 0 end.
(** The entries written to the section. *)
Definition flash_written (s : flash_state) : Z :=
  match zlookup (st_flightplan_tlb s) SCH_FP_MAX_ENTRIES with Some c => tl_addr c | None => 0 end.
Definition flash_status_size : Z := tlb_start / 4.

(** ** Lemmas on the invariant *)
Lemma tlb_parts s es c : st_flightplan_tlb s = es ++ [c] -> zlength es = SCH_FP_MAX_ENTRIES ->
  flash_slots s = map (slot_of (flash s)) es /\ flash_written s = tl_addr c /\
  zlookup (st_flightplan_tlb s) SCH_FP_MAX_ENTRIES = Some c /\ zlength (st_flightplan_tlb s) = tlb_len.
Proof.
  intros E Hl. unfold flash_slots, flash_written. rewrite E.
  assert (length es = 255%nat) as Hn by (unfold zlength, SCH_FP_MAX_ENTRIES in Hl; lia).
  assert (zlookup (es ++ [c]) SCH_FP_MAX_ENTRIES = Some c) as ->.
  { unfold zlookup. change (SCH_FP_MAX_ENTRIES <? 0) with false. cbv iota.
    change (Z.to_nat SCH_FP_MAX_ENTRIES) with 255%nat. rewrite <- Hn. by apply list_lookup_middle. }
  splits; try done.
  - by rewrite <- Hn, take_app_length.
  - rewrite zlength_app, Hl. done.
Qed.

Lemma slot_time_of fl n e : entry_inv fl n e -> slot_time (slot_of fl e) = tl_unixtime e.
Proof.
  intros (Hu & _ & Hr). unfold slot_of. destruct (_ =? _) eqn:E; bool_to_prop; [done|].
  destruct (Hr E) as (r & k & Hf & Ht & _ & _ & ->). by rewrite decode_row_bytes.
Qed.

Lemma slot_used fl n e r : entry_inv fl n e -> slot_of fl e = Some r ->
  tl_unixtime e <> ST_FP_NULL /\ row_fine r /\ row_time r = tl_unixtime e /\
  buf_read fl (tl_addr e) 512 = Ret (row_bytes r).
Proof.
  intros (Hu & _ & Hr). unfold slot_of. destruct (_ =? _) eqn:E; bool_to_prop; [done|].
  destruct (Hr E) as (r' & k & Hf & Ht & _ & _ & Hb). rewrite Hb, decode_row_bytes by done.
  intros [= <-]. done.
Qed.

(** The search loop finds the slot of the specification. *)
Lemma find_index_ok s t : flash_ok s ->
  storage_flightplan_find_index_tlb t s =
    Ret (match find_time t (flash_slots s) with Some k => Z.of_nat k | None => -1 end, s).
Proof.
  intros (_ & _ & _ & _ & _ & _ & _ & es & c & E & (Hl & _ & _ & Hes)).
  destruct (tlb_parts s es c E Hl) as (-> & _).
  unfold storage_flightplan_find_index_tlb. unfold bind at 1, get.
  pose proof (find_slot_loop tl_unixtime (slot_of (flash s)) t s es [] [c]) as F.
  cbn [app] in F. rewrite <- E, Hl in F. change (zlength (@nil fp_addr_t)) with 0 in F. unfold range. unfold bind at 1.
  etransitivity; [erewrite F; [reflexivity|]|].
  { eapply Forall_impl; [exact Hes|]. intros e He. by eapply slot_time_of. }
  by destruct (find_time t (map _ es)).
Qed.

Lemma find_index_entry s t k es c :
  st_flightplan_tlb s = es ++ [c] -> zlength es = SCH_FP_MAX_ENTRIES ->
  find_time t (flash_slots s) = Some k ->
  0 <= Z.of_nat k < SCH_FP_MAX_ENTRIES /\ exists e, es !! k = Some e /\
    zlookup (st_flightplan_tlb s) (Z.of_nat k) = Some e /\ flash_slots s !! k = Some (slot_of (flash s) e).
Proof.
  intros E Hl Hf. destruct (tlb_parts s es c E Hl) as (Hs & _). rewrite Hs in *.
  apply find_time_lt in Hf. rewrite length_map in Hf.
  destruct (lookup_lt_is_Some_2 es k Hf) as [e He].
  split; [unfold zlength in Hl; lia|]. exists e. split; [done|]. split.
  - unfold zlookup. destruct (_ <? 0) eqn:?; bool_to_prop; [lia|].
    rewrite Nat2Z.id, E. by apply lookup_app_l_Some.
  - by rewrite list_lookup_fmap, He.
Qed.

(** *** The chips *)
Lemma chip_write fr a bs b : chip_ok fr -> is_bytes bs -> buf_write fr a bs = Ret b -> chip_ok b.
Proof.
  intros [Hl Hb] Hbs E. split; [by rewrite (buf_write_len _ _ _ _ E)|].
  unfold buf_write in E. destruct (in_buf fr a (zlength bs)); [|done]. injection E as <-.
  intros i. unfold byte_at. cbn [bdata].
  destruct (decide (a <= i < a + zlength bs)) as [Hi|Hi].
  - destruct (zlookup_lt bs (i - a) ltac:(lia)) as [x Hx].
    replace i with (a + (i - a)) by lia. rewrite (write_at_in _ _ _ _ x Hx). cbn.
    unfold zlookup in Hx. destruct (_ <? 0); [done|]. by apply (Forall_lookup_1 _ _ _ _ Hbs Hx).
  - rewrite write_at_out by lia. apply Hb.
Qed.

Lemma write_fram_ok s a bs :
  chip_ok (fram s) -> is_bytes bs -> 0 <= a -> a + zlength bs <= ST_FRAM_SIZE ->
  exists b, storage_write_fram a bs s = Ret (SCH_ST_OK, set_fram b s) /\ chip_ok b /\
    buf_read b a (zlength bs) = Ret bs /\
    forall c n, c + n <= a \/ a + zlength bs <= c -> buf_read b c n = buf_read (fram s) c n.
Proof.
  intros Hc Hb Ha Hl. unfold storage_write_fram, bind, get, lift.
  pose proof (buf_write_ok (fram s) a bs Ha ltac:(destruct Hc as [-> _]; done)) as E. rewrite E.
  eexists. split; [done|]. split; [by eapply chip_write|]. split; [by eapply buf_read_write_same|].
  intros c n Hd. by eapply buf_read_write_other.
Qed.

Lemma fp_addr_bytes_len e : zlength (fp_addr_bytes e) = 8.
Proof. unfold zlength, fp_addr_bytes. by rewrite length_app, !length_le_bytes. Qed.
Lemma fp_addr_bytes_ok e : is_bytes (fp_addr_bytes e).
Proof. apply Forall_app. split; apply is_bytes_le_bytes. Qed.

Lemma dump_tlb_ok s i e :
  chip_ok (fram s) -> 0 <= i <= SCH_FP_MAX_ENTRIES -> zlookup (st_flightplan_tlb s) i = Some e ->
  exists b, storage_flightplan_dump_tlb i s = Ret (SCH_ST_OK, set_fram b s) /\ chip_ok b /\
    buf_read b (tlb_start + 8 * i) 8 = Ret (fp_addr_bytes e) /\
    forall c n, c + n <= tlb_start + 8 * i \/ tlb_start + 8 * i + 8 <= c ->
      buf_read b c n = buf_read (fram s) c n.
Proof.
  intros Hc Hi Hz. unfold storage_flightplan_dump_tlb. unfold bind at 1, get.
  rewrite (proj2 (Z.ltb_ge i 0)) by lia. rewrite (bind_step _ _ _ _ _ (arr_get_Some _ _ _ s Hz)).
  unfold SCH_FP_MAX_ENTRIES in Hi. change tlb_start with 30720.
  replace (u32_of (30720 + i * sizeof_fp_addr)) with (30720 + 8 * i)
    by (unfold sizeof_fp_addr; rewrite u32_of_id; lia).
  destruct (write_fram_ok s (30720 + 8 * i) (fp_addr_bytes e) Hc (fp_addr_bytes_ok e)) as (b & E & Hb & Hr & Ho).
  { lia. } { rewrite fp_addr_bytes_len. unfold ST_FRAM_SIZE. lia. }
  rewrite fp_addr_bytes_len in *. exists b. by splits.
Qed.

(** *** The TLB *)
Lemma zinsert_front {A} (l k : list A) i x : 0 <= i < zlength l ->
  zinsert (l ++ k) i x = <[Z.to_nat i := x]> l ++ k.
Proof.
  intros H. unfold zinsert, zlength in *. rewrite (proj2 (Z.ltb_ge i 0)) by lia. apply insert_app_l. lia.
Qed.
Lemma zinsert_last {A} (l : list A) i x y : i = zlength l -> zinsert (l ++ [x]) i y = l ++ [y].
Proof.
  intros ->. unfold zinsert, zlength. rewrite (proj2 (Z.ltb_ge _ 0)) by lia. rewrite Nat2Z.id.
  rewrite insert_app_r_alt by lia. by rewrite Nat.sub_diag.
Qed.
Lemma zlookup_last {A} (l : list A) i x : i = zlength l -> zlookup (l ++ [x]) i = Some x.
Proof.
  intros ->. unfold zlookup, zlength. rewrite (proj2 (Z.ltb_ge _ 0)) by lia. rewrite Nat2Z.id.
  by apply list_lookup_middle.
Qed.

(** The status variables of the FRAM. *)
Definition same_status (fr fr' : buffer) : Prop :=
  forall j, 0 <= j < flash_status_size -> buf_read fr' (4 * j) 4 = buf_read fr (4 * j) 4.

(** Dumping an entry of the TLB restores the copy of it. *)
Lemma dump_copy s i e t : chip_ok (fram s) -> 0 <= i <= SCH_FP_MAX_ENTRIES ->
  st_flightplan_tlb s = t -> zlookup t i = Some e ->
  exists b, storage_flightplan_dump_tlb i s = Ret (SCH_ST_OK, set_fram b s) /\ chip_ok b /\
    same_status (fram s) b /\
    forall j e', zlookup t j = Some e' ->
      (j <> i -> buf_read (fram s) (tlb_start + 8 * j) 8 = Ret (fp_addr_bytes e')) ->
      buf_read b (tlb_start + 8 * j) 8 = Ret (fp_addr_bytes e').
Proof.
  intros Hc Hi <- Hz. destruct (dump_tlb_ok s i e Hc Hi Hz) as (b & E & Hb & Hr & Ho).
  exists b. split; [exact E|]. split; [exact Hb|]. split.
  - intros j Hj. apply Ho. change flash_status_size with 7680 in Hj. change tlb_start with 30720. lia.
  - intros j e' Hj Hold. destruct (decide (j = i)) as [->|Hne]; [congruence|].
    rewrite Ho by lia. by apply Hold.
Qed.

Lemma update_tlb_ok s es c i u a :
  chip_ok (fram s) -> copy_ok (fram s) (st_flightplan_tlb s) ->
  st_flightplan_tlb s = es ++ [c] -> zlength es = SCH_FP_MAX_ENTRIES -> 0 <= tl_addr c <= 512 ->
  0 <= i < SCH_FP_MAX_ENTRIES ->
  let t' := <[Z.to_nat i := FpAddr a u]> es ++ [FpAddr (tl_addr c + 1) (tl_unixtime c)] in
  exists b, storage_flightplan_update_tlb i u a s = Ret (SCH_ST_OK, set_fram b (set_tlb t' s)) /\
    chip_ok b /\ copy_ok b t' /\ same_status (fram s) b.
Proof.
  intros Hc Hcp E Hl Hn Hi t'. unfold storage_flightplan_update_tlb. unfold bind at 1, get. rewrite E.
  assert (zlength (es ++ [c]) = tlb_len) as HL by (rewrite zlength_app, Hl; done).
  rewrite (bind_step _ _ _ _ _ (arr_set_ok (es ++ [c]) i _ s ltac:(rewrite HL; unfold tlb_len; lia))).
  rewrite zinsert_front by lia. set (es' := <[Z.to_nat i := FpAddr a u]> es).
  assert (zlength es' = SCH_FP_MAX_ENTRIES) as Hl' by (unfold es', zlength in *; by rewrite length_insert).
  rewrite (bind_step _ _ _ _ _ (arr_get_Some _ _ _ s (zlookup_last es' _ c (eq_sym Hl')))).
  rewrite (bind_step _ _ _ _ _ (arr_set_ok (es' ++ [c]) SCH_FP_MAX_ENTRIES _ s
    ltac:(rewrite zlength_app, Hl'; change (zlength [c]) with 1; unfold SCH_FP_MAX_ENTRIES; lia))).
  rewrite zinsert_last by done. rewrite u32_of_id by lia. rewrite Z.add_comm.
  unfold bind at 1, modify. fold t'. set (s1 := set_tlb t' s).
  assert (zlookup t' i = Some (FpAddr a u)) as Hzi.
  { unfold zlookup. rewrite (proj2 (Z.ltb_ge i 0)) by lia. apply lookup_app_l_Some.
    apply list_lookup_insert_eq. unfold zlength in Hl. lia. }
  destruct (dump_copy s1 i (FpAddr a u) t' Hc ltac:(lia) eq_refl Hzi) as (b1 & E1 & Hc1 & Hs1 & Hk1).
  rewrite (bind_step _ _ _ _ _ E1). change (SCH_ST_OK =? SCH_ST_OK) with true. cbv iota.
  destruct (dump_copy (set_fram b1 s1) SCH_FP_MAX_ENTRIES _ t' Hc1 ltac:(unfold SCH_FP_MAX_ENTRIES; lia) eq_refl
    (zlookup_last es' _ _ (eq_sym Hl'))) as (b2 & E2 & Hc2 & Hs2 & Hk2).
  exists b2. split; [exact E2|]. split; [exact Hc2|]. split.
  - intros j e Hj. apply (Hk2 j e Hj). intros Hne. apply (Hk1 j e Hj). intros Hni.
    apply (Hcp j e). rewrite E. rewrite <- Hj. unfold t', es'.
    unfold zlookup. destruct (j <? 0) eqn:E0; [done|]. bool_to_prop.
    pose proof (zlookup_Some_lt _ _ _ Hj) as Hjl.
    assert (Z.to_nat j < length es)%nat as Hlt.
    { unfold t', zlength in Hjl. rewrite length_app, length_insert in Hjl. cbn [length] in Hjl.
      unfold zlength, SCH_FP_MAX_ENTRIES in *. lia. }
    rewrite !lookup_app_l by (rewrite ?length_insert; lia). rewrite list_lookup_insert_ne by lia. done.
  - intros j Hj. rewrite (Hs2 j Hj). exact (Hs1 j Hj).
Qed.

(** The next free entry of the section. *)
Lemma entry_address_ok s k : st_flightplan_addr s = Live [fp_base] -> 0 <= k < 512 ->
  entry_address k s = Ret (fp_base + 512 * k, s).
Proof.
  intros E Hk. unfold entry_address. unfold bind at 1, get.
  unfold bind at 1. change (cdiv k commands_per_section s) with (Ret (Z.quot k 512, s)).
  unfold bind at 1. change (cmod k commands_per_section s) with (Ret (Z.rem k 512, s)).
  unfold bind at 1. rewrite E. cbn [deref]. unfold ret at 1. rewrite Z.quot_small, Z.rem_small by lia.
  rewrite (bind_step _ _ _ _ _ (arr_get_Some [fp_base] 0 fp_base s eq_refl)).
  unfold ret, FP_CONTAINER_SIZE, fp_base, SCH_SIZE_PER_SECTION.
  rewrite u32_of_id by lia. do 2 f_equal. lia.
Qed.

(** Appending an entry to the section leaves the entries before it alone. *)
Lemma entry_inv_write fl b n bs e :
  zlength bs = 512 -> buf_write fl (fp_base + 512 * n) bs = Ret b ->
  entry_inv fl n e -> entry_inv b (n + 1) e /\ slot_of b e = slot_of fl e.
Proof.
  intros Hbs Hw (Hu & Ha & Hr).
  assert (tl_unixtime e <> ST_FP_NULL -> buf_read b (tl_addr e) 512 = buf_read fl (tl_addr e) 512) as Hsame.
  { intros Hne. destruct (Hr Hne) as (r & k & _ & _ & Hk & Hak & _).
    eapply buf_read_write_other; [exact Hw|]. lia. }
  split.
  - split; [done|]. split; [done|]. intros Hne. destruct (Hr Hne) as (r & k & H1 & H2 & H3 & H4 & H5).
    exists r, k. rewrite Hsame by done. splits; try done; lia.
  - unfold slot_of. destruct (_ =? _) eqn:E; bool_to_prop; [done|]. by rewrite Hsame.
Qed.

Lemma write_flash_ok s a bs : zlength bs = 512 -> 0 <= a -> a + 512 <= blen (flash s) ->
  exists b, storage_write_flash a bs 512 s = Ret (SCH_ST_OK, set_flash b s) /\ buf_write (flash s) a bs = Ret b.
Proof.
  intros Hl Ha Hb. unfold storage_write_flash. unfold bind at 1, get. change (u16_of 512) with 512.
  rewrite (proj2 (Z.ltb_ge _ _)) by lia.
  rewrite take_ge by (unfold zlength in Hl; lia).
  pose proof (buf_write_ok (flash s) a bs Ha ltac:(lia)) as E. rewrite E. eexists. split; [|done]. done.
Qed.

(** The slots after one entry of the TLB was changed. *)
Lemma slots_insert fl b es k e :
  Forall (fun x => slot_of b x = slot_of fl x) es ->
  map (slot_of b) (<[k := e]> es) = <[k := slot_of b e]> (map (slot_of fl) es).
Proof.
  intros Hes. rewrite list_fmap_insert. f_equal.
  induction Hes as [|x es Hx _ IH]; [done|]. cbn. by rewrite Hx, IH.
Qed.

(** What an operation on the plan leaves alone. *)
Definition same_rest (s s' : flash_state) : Prop :=
  (forall j, 0 <= j < flash_status_size -> flash_status s' j = flash_status s j) /\
  st_payload_addr s' = st_payload_addr s /\ st_payloads_entries s' = st_payloads_entries s.

Lemma same_rest_refl s : same_rest s s.
Proof. done. Qed.

(** A row is appended to the section and entered in slot [k]. *)
Lemma append_ok s k r :
  flash_ok s -> flash_written s < 512 -> 0 <= Z.of_nat k < SCH_FP_MAX_ENTRIES -> row_fine r ->
  let addr := fp_base + 512 * flash_written s in
  exists s', (let! rc := storage_flightplan_update_tlb (Z.of_nat k) (row_time r) addr in
              if rc =? SCH_ST_OK then storage_write_flash addr (row_bytes r) FP_CONTAINER_SIZE else ret rc) s =
      Ret (SCH_ST_OK, s') /\
    flash_ok s' /\ same_rest s s' /\ flash_written s' = flash_written s + 1 /\
    flash_slots s' = <[k := Some r]> (flash_slots s).
Proof.
  intros Hok Hroom Hk Hr.
  pose proof Hok as (Ho & Hfa & Hba & Hen & Hfl & Hch & Hcp & es & ce & E & (Hl & Hce & Hcu & Hes)).
  destruct (tlb_parts s es ce E Hl) as (Hsl & Hw & Hzc & _). rewrite Hw in *. intros addr.
  destruct (update_tlb_ok s es ce (Z.of_nat k) (row_time r) addr Hch Hcp E Hl Hce Hk) as (b & Eu & Hch' & Hcp' & Hst).
  rewrite (bind_step _ _ _ _ _ Eu). change (SCH_ST_OK =? SCH_ST_OK) with true. cbv iota.
  rewrite Nat2Z.id in *. set (s1 := set_fram _ _) in *.
  assert (addr + 512 <= FLASH_SIZE /\ 0 <= addr < 2 ^ 32) as [Hb1 Hb2].
  { unfold addr, fp_base, FLASH_SIZE, SCH_SIZE_PER_SECTION. lia. }
  destruct (write_flash_ok s1 addr (row_bytes r) (zlength_row r) ltac:(lia)) as (fl & Ew & Hwr).
  { change (flash s1) with (flash s). lia. }
  exists (set_flash fl s1). split; [exact Ew|]. change (flash s1) with (flash s) in Hwr.
  pose proof (buf_read_write_same _ _ _ _ Hwr) as Hrd. rewrite zlength_row in Hrd.
  assert (Forall (entry_inv fl (tl_addr ce + 1)) es /\ Forall (fun x => slot_of fl x = slot_of (flash s) x) es) as [Hes1 Hes2].
  { split; (eapply Forall_impl; [exact Hes|]); intros x Hx;
      by destruct (entry_inv_write _ _ _ _ _ (zlength_row r) Hwr Hx). }
  pose proof Hr as (Ht & _ & _ & _ & _ & _ & Htn). split; [|split].
  - unfold flash_ok. splits; try done; [change (blen fl = FLASH_SIZE); by rewrite (buf_write_len _ _ _ _ Hwr)|].
    eexists _, _. split; [reflexivity|]. unfold tlb_inv; splits; try done.
    + unfold zlength in *. by rewrite length_insert.
    + cbn [tl_addr]. lia.
    + apply Forall_insert; [exact Hes1|]. split; [done|]; split; [exact Hb2|].
      intros _. exists r, (tl_addr ce). cbn [tl_addr tl_unixtime]. splits; try done; lia.
  - split; [|done]. intros j Hj. unfold flash_status. change (fram (set_flash fl s1)) with b. by rewrite (Hst j Hj).
  - destruct (tlb_parts (set_flash fl s1) _ _ eq_refl) as (-> & -> & _).
    { unfold zlength in *. by rewrite length_insert. }
    split; [done|]. rewrite Hsl. change (flash (set_flash fl s1)) with fl. rewrite (slots_insert (flash s)) by done.
    f_equal. unfold slot_of. cbn [tl_unixtime tl_addr]. rewrite (proj2 (Z.eqb_neq _ ST_FP_NULL)) by done.
    by rewrite Hrd, decode_row_bytes.
Qed.

Lemma flash_fp_set s t c a e p n :
  flash_ok s -> flash_written s < 512 -> i32_ok t -> i32_ok e -> i32_ok p -> i32_ok n -> fits_fp c -> fits_fp a ->
  exists s', Flash.storage_flight_plan_set t (Some c) (Some a) e p n s =
      Ret (if t <? 0 then SCH_ST_ERROR
           else if issome (tbl_set (FpRow t c a e p n) (flash_slots s)) then SCH_ST_OK else SCH_ST_ERROR, s') /\
    flash_ok s' /\ same_rest s s' /\ flash_written s' <= flash_written s + 1 /\
    flash_slots s' = if t <? 0 then flash_slots s
                     else default (flash_slots s) (tbl_set (FpRow t c a e p n) (flash_slots s)).
Proof.
  intros Hok Hroom Ht He Hp Hn Hc Ha.
  pose proof Hok as (Ho & Hfa & _ & Hen & _ & _ & _ & es & ce & E & (Hl & Hce & _)).
  destruct (tlb_parts s es ce E Hl) as (_ & Hw & Hzc & _).
  unfold Flash.storage_flight_plan_set. unfold bind at 1, get. rewrite Ho. cbn [issome negb].
  rewrite !orb_false_r. destruct (t <? 0) eqn:Et; bool_to_prop.
  { exists s. split; [done|]. split; [exact Hok|]. split; [apply same_rest_refl|]. split; [lia|done]. }
  unfold Flash.storage_flight_plan_set_st. unfold bind at 1, get. rewrite Ho. cbn [negb].
  rewrite (bind_step _ _ _ _ _ (arr_get_Some _ _ _ s Hzc)).
  change (u32_of commands_per_section) with 512. rewrite (proj2 (Z.ltb_ge 512 _)) by lia.
  unfold bind at 1, ret at 1. rewrite (bind_step _ _ _ _ _ (find_index_ok s ST_FP_NULL Hok)).
  unfold tbl_set. destruct (find_time ST_FP_NULL (flash_slots s)) as [k|] eqn:Ek; cbn [mbind option_bind issome].
  2: { exists s. split; [done|]. split; [exact Hok|]. split; [apply same_rest_refl|]. split; [lia|done]. }
  destruct (find_index_entry s _ k es ce E Hl Ek) as (Hk & _).
  rewrite Hen. rewrite (proj2 (Z.eqb_neq _ (-1))), (proj2 (Z.leb_gt _ (Z.of_nat k))) by lia. cbn [orb].
  unfold bind at 1. rewrite (bind_step _ _ _ _ _ (arr_get_Some _ _ _ s Hzc)).
  rewrite i32_of_id by (unfold INT_MIN, INT_MAX; lia). rewrite <- Hw.
  rewrite (bind_step _ _ _ _ _ (entry_address_ok s (flash_written s) Hfa ltac:(lia))).
  cbn [fp_cmd fp_args fp_unixtime fp_executions fp_periodical fp_node].
  destruct (append_ok s k (FpRow t c a e p n) Hok Hroom Hk) as (s' & E' & Hok' & Hr' & Hw' & Hs').
  { unfold row_fine; cbn; splits; try done; unfold ST_FP_NULL; lia. }
  exists s'. split; [exact E'|]. split; [exact Hok'|]. split; [exact Hr'|]. split; [lia|exact Hs'].
Qed.

Lemma read_row s e r n :
  entry_inv (flash s) n e -> slot_of (flash s) e = Some r ->
  storage_read_flash (tl_addr e) FP_CONTAINER_SIZE s = Ret ((SCH_ST_OK, row_bytes r), s).
Proof.
  intros He Hs. destruct (slot_used _ _ _ _ He Hs) as (_ & _ & _ & Hb).
  unfold storage_read_flash, bind, get. change (u16_of FP_CONTAINER_SIZE) with 512. by rewrite Hb.
Qed.

(** A used slot is read back; a free one is an error and nothing is read. *)
Lemma flash_fp_get_idx s i o :
  flash_ok s -> zlookup (flash_slots s) i = Some o ->
  Flash.storage_flight_plan_get_idx i s =
    Ret (match o with Some r => (SCH_ST_OK, Some (row_entry r)) | None => (SCH_ST_ERROR, None) end, s).
Proof.
  intros (_ & _ & _ & Hen & _ & _ & _ & es & ce & E & (Hl & _ & _ & Hes)) Hz.
  destruct (tlb_parts s es ce E Hl) as (Hsl & _). rewrite Hsl in Hz.
  pose proof (zlookup_Some_lt _ _ _ Hz) as Hi. unfold zlength in Hi. rewrite length_map in Hi.
  unfold zlookup in Hz. rewrite (proj2 (Z.ltb_ge i 0)) in Hz by lia.
  rewrite list_lookup_fmap in Hz. destruct (es !! Z.to_nat i) as [e|] eqn:Ee; [|done]. injection Hz as Hz.
  pose proof (Forall_lookup_1 _ _ _ _ Hes Ee) as He.
  unfold Flash.storage_flight_plan_get_idx. unfold bind at 1, get.
  rewrite (proj2 (Z.leb_gt _ i)) by (unfold zlength in Hl; lia).
  assert (zlookup (st_flightplan_tlb s) i = Some e) as Hze.
  { unfold zlookup. rewrite (proj2 (Z.ltb_ge i 0)) by lia. rewrite E. by apply lookup_app_l_Some. }
  rewrite (bind_step _ _ _ _ _ (arr_get_Some _ _ _ s Hze)).
  destruct o as [r|].
  - destruct (slot_used _ _ _ _ He Hz) as (Hne & Hf & _).
    rewrite (proj2 (Z.eqb_neq _ _)) by done. rewrite (bind_step _ _ _ _ _ (read_row s e r _ He Hz)).
    change (SCH_ST_OK =? SCH_ST_OK) with true. cbv iota.
    by rewrite (bind_step _ _ _ _ _ (container_entry_row r s Hf)).
  - pose proof (slot_time_of _ _ _ He) as Ht. rewrite Hz in Ht. cbn in Ht. by rewrite <- Ht.
Qed.

Lemma flash_fp_get_args s t :
  flash_ok s -> t <> ST_FP_NULL ->
  Flash.storage_flight_plan_get_args t s =
    Ret (match tbl_get t (flash_slots s) with
         | Some r => (SCH_ST_OK, Some (row_out r))
         | None => (SCH_ST_ERROR, None)
         end, s).
Proof.
  intros Hok Ht. unfold Flash.storage_flight_plan_get_args, Flash.storage_flight_plan_get_st.
  rewrite (bind_step _ _ _ _ _ (find_index_ok s t Hok)).
  unfold bind at 1. rewrite (bind_step _ _ _ _ _ (find_index_ok s t Hok)).
  unfold tbl_get. destruct (find_time t (flash_slots s)) as [k|] eqn:Ek; cbn [mbind option_bind]; [|done].
  destruct (find_used_Some _ _ _ Ht Ek) as (r & Hr & _).
  rewrite (proj2 (Z.ltb_ge _ 0)) by lia.
  rewrite (flash_fp_get_idx s _ (Some r) Hok).
  2: { unfold zlookup. rewrite (proj2 (Z.ltb_ge _ 0)) by lia. by rewrite Nat2Z.id. }
  change (negb (SCH_ST_OK =? SCH_ST_OK)) with false. cbv iota. cbn [fp_cmd fp_args row_entry].
  destruct Hok as (_ & _ & _ & _ & _ & _ & _ & es & ce & E & (Hl & _ & _ & Hes)).
  destruct (find_index_entry s _ k es ce E Hl Ek) as (_ & e & He & _ & Hse).
  rewrite Hr in Hse. injection Hse as Hse. symmetry in Hse.
  destruct (slot_used _ _ _ _ (Forall_lookup_1 _ _ _ _ Hes He) Hse) as (_ & (_ & _ & _ & _ & Hc & Ha & _) & _).
  unfold ST_CMD_MAX_STR_NAME, ST_CMD_MAX_STR_PARAMS. unfold bind, lift. rewrite !cstr_of_strncpy by done.
  by rewrite Hr.
Qed.

Lemma flash_fp_delete_idx s i :
  flash_ok s -> 0 <= i < SCH_FP_MAX_ENTRIES ->
  exists s', Flash.storage_flight_plan_delete_row_idx i s = Ret (SCH_ST_OK, s') /\ flash_ok s' /\
    same_rest s s' /\ flash_written s' = flash_written s /\
    flash_slots s' = tbl_delete_idx i (flash_slots s).
Proof.
  intros (Ho & Hfa & Hba & Hen & Hfl & Hch & Hcp & es & ce & E & (Hl & Hce & Hcu & Hes)) Hi.
  destruct (tlb_parts s es ce E Hl) as (Hsl & Hw & Hzc & HL).
  unfold Flash.storage_flight_plan_delete_row_idx. unfold bind at 1, get. rewrite Hen.
  rewrite (proj2 (Z.leb_gt _ i)) by lia. unfold flight_plan_erase_index_tlb. unfold bind at 1, get. rewrite Hen.
  rewrite (proj2 (Z.ltb_ge i 0)), (proj2 (Z.leb_gt _ i)) by lia. cbn [orb].
  rewrite (bind_step _ _ _ _ _ (arr_set_ok _ i _ s ltac:(rewrite HL; unfold tlb_len; lia))).
  rewrite E, zinsert_front by lia. unfold bind at 1, modify.
  set (free := FpAddr (u32_of ST_FP_NULL) ST_FP_NULL). set (t' := <[Z.to_nat i := free]> es ++ [ce]).
  assert (zlookup t' i = Some free) as Hz.
  { unfold zlookup. rewrite (proj2 (Z.ltb_ge i 0)) by lia. apply lookup_app_l_Some, list_lookup_insert_eq.
    unfold zlength in Hl. lia. }
  destruct (dump_copy (set_tlb t' s) i free t' Hch ltac:(lia) eq_refl Hz) as (b & Ed & Hch' & Hst & Hk).
  exists (set_fram b (set_tlb t' s)). split; [exact Ed|].
  assert (zlength (<[Z.to_nat i := free]> es) = SCH_FP_MAX_ENTRIES) as Hl' by (unfold zlength in *; by rewrite length_insert).
  destruct (tlb_parts (set_fram b (set_tlb t' s)) _ ce eq_refl Hl') as (Hsl' & Hw' & _). split; [|split; [|split]].
  - unfold flash_ok. splits; try done.
    + intros j e Hj. apply (Hk j e Hj). intros Hne. apply Hcp. rewrite E. rewrite <- Hj.
      change (st_flightplan_tlb (set_fram b (set_tlb t' s))) with t'. unfold t'. rewrite <- zinsert_front by lia.
      symmetry. apply zlookup_zinsert_ne. done.
    + eexists _, _. split; [reflexivity|]. unfold tlb_inv; splits; try done. apply Forall_insert; [done|]. by split.
  - split; [|done]. intros j Hj. unfold flash_status. change (fram (set_fram b (set_tlb t' s))) with b.
    by rewrite (Hst j Hj).
  - by rewrite Hw', Hw.
  - rewrite Hsl', Hsl. change (flash (set_fram b (set_tlb t' s))) with (flash s).
    rewrite (slots_insert (flash s)) by (by apply Forall_forall).
    unfold tbl_delete_idx, zinsert. by rewrite (proj2 (Z.ltb_ge i 0)) by lia.
Qed.

Lemma flash_fp_delete s t :
  flash_ok s ->
  exists s', Flash.storage_flight_plan_delete_row t s =
      Ret (if issome (tbl_delete t (flash_slots s)) then SCH_ST_OK else SCH_ST_ERROR, s') /\
    flash_ok s' /\ same_rest s s' /\ flash_written s' = flash_written s /\
    flash_slots s' = default (flash_slots s) (tbl_delete t (flash_slots s)).
Proof.
  intros Hok. unfold Flash.storage_flight_plan_delete_row.
  rewrite (bind_step _ _ _ _ _ (find_index_ok s t Hok)). unfold tbl_delete.
  destruct (find_time t (flash_slots s)) as [k|] eqn:Ek; cbn [mbind option_bind issome default].
  2: { exists s. split; [done|]. split; [exact Hok|]. split; [apply same_rest_refl|done]. }
  rewrite (proj2 (Z.ltb_ge _ 0)) by lia.
  pose proof Hok as (_ & _ & _ & _ & _ & _ & _ & es & ce & E & (Hl & _)).
  destruct (find_index_entry s _ k es ce E Hl Ek) as (Hk & _).
  destruct (flash_fp_delete_idx s _ Hok Hk) as (s' & E' & Hok' & Hr & Hw & Hs). exists s'.
  split; [exact E'|]. split; [exact Hok'|]. split; [exact Hr|]. split; [exact Hw|]. rewrite Hs.
  unfold tbl_delete_idx, zinsert. rewrite (proj2 (Z.ltb_ge _ 0)) by lia. by rewrite Nat2Z.id.
Qed.

(** *** Status variables *)
Lemma flash_status_range s i : chip_ok (fram s) -> 0 <= flash_status s i < 2 ^ 32.
Proof.
  intros [_ Hb]. unfold flash_status, buf_read. destruct (in_buf _ _ _); [|lia].
  set (bs := map _ _). assert (is_bytes bs) as Hbs.
  { unfold bs, is_bytes. rewrite Forall_map. apply Forall_forall. intros a _. apply Hb. }
  pose proof (of_le_range bs Hbs) as H. replace (zlength bs) with 4 in H; [done|].
  unfold bs, zlength. by rewrite length_map, length_seqZ.
Qed.

Lemma status_address i : 0 <= i < flash_status_size -> u16_of (i * 4) = 4 * i.
Proof.
  change flash_status_size with 7680. intros Hi. unfold u16_of. rewrite Z.mod_small by lia. lia.
Qed.

Lemma flash_status_get s i : flash_ok s -> 0 <= i < flash_status_size ->
  Flash.storage_status_get_value_idx i s = Ret ((SCH_ST_OK, Some (flash_status s i)), s).
Proof.
  intros (_ & _ & _ & _ & _ & [Hl _] & _) Hi. unfold Flash.storage_status_get_value_idx, storage_read_fram.
  rewrite status_address by done. change flash_status_size with 7680 in Hi.
  destruct (buf_read_ok (fram s) (4 * i) 4) as (bs & E & _); [lia|lia|rewrite Hl; unfold ST_FRAM_SIZE; lia|].
  unfold bind, get, lift, flash_status. by rewrite E.
Qed.

Lemma flash_status_set s i v : flash_ok s -> 0 <= i < flash_status_size -> 0 <= v < 2 ^ 32 ->
  exists b, Flash.storage_status_set_value_idx i v s = Ret (SCH_ST_OK, set_fram b s) /\
    flash_ok (set_fram b s) /\
    forall j, 0 <= j < flash_status_size ->
      flash_status (set_fram b s) j = if decide (j = i) then v else flash_status s j.
Proof.
  intros (Ho & Hfa & Hba & Hen & Hfl & Hch & Hcp & Ht) Hi Hv.
  unfold Flash.storage_status_set_value_idx. rewrite status_address by done.
  change flash_status_size with 7680 in *.
  destruct (write_fram_ok s (4 * i) (le_bytes 4 v) Hch (is_bytes_le_bytes 4 v)) as (b & E & Hb & Hr & Hoth).
  { lia. } { change (zlength (le_bytes 4 v)) with 4. unfold ST_FRAM_SIZE. lia. }
  change (zlength (le_bytes 4 v)) with 4 in *. exists b. split; [exact E|]. split.
  - unfold flash_ok. splits; try done. intros j e Hj. pose proof (zlookup_Some_lt _ _ _ Hj) as Hjl.
    change (fram (set_fram b s)) with b. rewrite Hoth by (change tlb_start with 30720; lia). by apply Hcp.
  - intros j Hj. unfold flash_status. change (fram (set_fram b s)) with b. case_decide as Ej.
    + subst j. rewrite Hr, of_le_bytes4. by apply u32_of_id.
    + by rewrite Hoth by lia.
Qed.

End FlashLaws.

#[export] Instance flash_laws : StorageLaws Flash.flash_state.
Proof.
  refine {| st_ok := FlashLaws.flash_ok; st_status_size := fun _ => FlashLaws.flash_status_size;
            st_status := FlashLaws.flash_status; st_slots := FlashLaws.flash_slots;
            st_room := fun n s => n <= 512 - FlashLaws.flash_written s |}.
  - intros s i (_ & _ & _ & _ & _ & Hc & _) _. by apply FlashLaws.flash_status_range.
  - intros s k r (_ & _ & _ & _ & _ & _ & _ & es & c & E & (Hl & _ & _ & Hes)).
    destruct (FlashLaws.tlb_parts s es c E Hl) as (-> & _). rewrite list_lookup_fmap.
    destruct (es !! k) as [e|] eqn:Ee; [|done]. cbn. intros [= Hs].
    destruct (FlashLaws.slot_used _ _ _ _ (Forall_lookup_1 _ _ _ _ Hes Ee) Hs) as (_ & (_ & _ & _ & _ & _ & _ & H) & _).
    exact H.
  - intros s (_ & _ & _ & _ & _ & _ & _ & es & c & E & (Hl & _)).
    destruct (FlashLaws.tlb_parts s es c E Hl) as (-> & _). unfold zlength in *. by rewrite length_map.
  - cbn. intros. lia.
  - apply FlashLaws.flash_status_get.
  - intros s i v H1 H2 H3. destruct (FlashLaws.flash_status_set s i v H1 H2 H3) as (b & ? & ? & ?).
    exists (Flash.set_fram b s). by splits.
  - cbn. intros s t c a e p n H Hroom Ht He Hp Hn Hc Ha.
    destruct (FlashLaws.flash_fp_set s t c a e p n H ltac:(lia) Ht He Hp Hn Hc Ha) as (s' & ? & ? & [? _] & ? & ?).
    exists s'. splits; try done. intros k. lia.
  - apply FlashLaws.flash_fp_get_args.
  - cbn. intros s t H Ht. destruct (FlashLaws.flash_fp_delete s t H) as (s' & ? & ? & [? _] & Hw & ?).
    exists s'. splits; try done. intros k. lia.
Defined.

(** A free slot is not read. *)
#[export] Instance flash_slot_laws : StorageSlotLaws Flash.flash_state.
Proof.
  refine {| st_reads_free := false |}.
  - intros s i o Hs Hi. destruct o as [r|]; eexists _, _; (split; [exact (FlashLaws.flash_fp_get_idx s i _ Hs Hi)|done]).
  - cbn. intros s i Hs Hi. destruct (FlashLaws.flash_fp_delete_idx s i Hs Hi) as (s' & ? & ? & [? _] & Hw & ?).
    exists s'. splits; try done. intros n. lia.
Defined.
