(* ===== verification/FlashPayload.v ===== *)
(** * Payload samples in FLASH

    The address arithmetic of [_get_sample_address] and the payload laws of
    the FLASH back end.  Samples lie in pages of 512 bytes.  The code adds the
    page counted from the start of the payload to the address of the section
    of the sample, so section [k] of a payload uses the area of section [2k]:
    only sections 0 to 4 stay in the ten sections of the payload.  A sample
    whose last byte is the last byte of its page is refused. *)
From S2P Require Import Prelude CStr Memory Config Storage StorageFlash FlashLaws.

Module FlashPayload.
Import Flash FlashLaws.

Definition pay_base : Z := 2 * SCH_SIZE_PER_SECTION.

Definition payload_inv (s : flash_state) : Prop :=
  storage_is_open s = true /\ 0 <= st_payloads_entries s <= 25 /\
  st_payload_addr s = Live (map (fun i => u32_of (pay_base + i * SCH_SIZE_PER_SECTION))
                                (range (SCH_SECTIONS_PER_PAYLOAD * st_payloads_entries s))) /\
  st_flightplan_base_addr s = fp_base /\ blen (flash s) = FLASH_SIZE.

(** Samples in a page, and the samples of a payload that can be stored. *)
Definition per_page (size : Z) : Z := ST_PAGE_SIZE / size.
Definition capacity (size : Z) : Z :=
  if ST_PAGE_SIZE mod size =? 0 then per_page size - 1 else 5 * (per_page size * 512).

Definition size_ok (size : Z) : Prop := 0 < size < 2 ^ 16.

Definition page_of (i size : Z) : Z := i / per_page size.
Definition sample_at (p i size : Z) : Z :=
  pay_base + p * (SCH_SECTIONS_PER_PAYLOAD * SCH_SIZE_PER_SECTION)
  + (2 * (page_of i size / 512)) * SCH_SIZE_PER_SECTION + (page_of i size mod 512) * ST_PAGE_SIZE
  + (i mod per_page size) * size.

(** A sample that fits a page, and its place in the page. *)
Lemma per_page_ok size i : size_ok size -> 0 <= i < capacity size ->
  1 <= per_page size <= 512 /\ 0 <= i mod per_page size < per_page size /\
  0 <= page_of i size / 512 <= 4 /\ 0 <= page_of i size /\ 0 <= page_of i size mod 512 < 512 /\
  0 <= (i mod per_page size) * size /\ (i mod per_page size) * size + size < 512.
Proof.
  unfold size_ok, capacity, ST_PAGE_SIZE. intros Hs Hi.
  pose proof (Z.div_mod 512 size ltac:(lia)) as Hd. pose proof (Z.mod_pos_bound 512 size ltac:(lia)) as Hm.
  fold (per_page size) in Hd. change (512 / size) with (per_page size) in Hd.
  assert (1 <= per_page size) as H1 by (destruct (_ =? 0); lia).
  assert (per_page size <= 512) as H2 by nia.
  pose proof (Z.mod_pos_bound i (per_page size) ltac:(lia)) as H3.
  pose proof (Z.div_mod i (per_page size) ltac:(lia)) as H4. fold (page_of i size) in H4.
  assert (0 <= page_of i size) as H5 by (apply Z.div_pos; lia).
  pose proof (Z.mod_pos_bound (page_of i size) 512 ltac:(lia)) as H6.
  pose proof (Z.div_mod (page_of i size) 512 ltac:(lia)) as H7.
  assert (page_of i size < 5 * 512 /\ (i mod per_page size) * size + size < 512) as [H8 H9].
  { destruct (_ =? 0) eqn:E; bool_to_prop; split; nia. }
  splits; (done || nia).
Qed.

Lemma sample_at_bounds s p i size :
  payload_inv s -> 0 <= p < st_payloads_entries s -> size_ok size -> 0 <= i < capacity size ->
  pay_base <= sample_at p i size /\ sample_at p i size + size <= FLASH_SIZE /\
  sample_at p i size + size < pay_base + (p * 10 + 9) * SCH_SIZE_PER_SECTION.
Proof.
  intros (_ & He & _) Hp Hs Hi. destruct (per_page_ok size i Hs Hi) as (? & ? & ? & ? & ? & ? & ?).
  unfold sample_at, pay_base, FLASH_SIZE, SCH_SECTIONS_PER_PAYLOAD, SCH_SIZE_PER_SECTION, ST_PAGE_SIZE. lia.
Qed.

Lemma sample_at_start p i size : size_ok size -> 0 <= i < capacity size ->
  pay_base + p * 10 * SCH_SIZE_PER_SECTION <= sample_at p i size /\
  sample_at p i size + size < pay_base + (p * 10 + 9) * SCH_SIZE_PER_SECTION.
Proof.
  intros Hs Hi. destruct (per_page_ok size i Hs Hi) as (? & ? & ? & ? & ? & ? & ?).
  unfold sample_at, pay_base, SCH_SECTIONS_PER_PAYLOAD, SCH_SIZE_PER_SECTION, ST_PAGE_SIZE. lia.
Qed.

Lemma flash_sections_lookup m k : 0 <= k < m -> m <= 250 ->
  zlookup (map (fun i => u32_of (pay_base + i * SCH_SIZE_PER_SECTION)) (range m)) k =
    Some (pay_base + k * SCH_SIZE_PER_SECTION).
Proof.
  intros H Hm. unfold zlookup, range. rewrite (proj2 (Z.ltb_ge k 0)) by lia.
  rewrite list_lookup_fmap, lookup_seqZ_lt by lia. cbn [fmap option_fmap option_map].
  f_equal. unfold pay_base, SCH_SIZE_PER_SECTION. rewrite u32_of_id; lia.
Qed.

(** What the checks of the code let through. *)
Definition accepted (n p i size : Z) : Prop :=
  0 <= p /\ 0 <= i /\ 1 <= per_page size <= 512 /\ page_of i size / 512 <= SCH_SECTIONS_PER_PAYLOAD /\
  p * SCH_SECTIONS_PER_PAYLOAD + page_of i size / 512 < SCH_SECTIONS_PER_PAYLOAD * n /\
  sample_at p i size <= fp_base + n * SCH_SECTIONS_PER_PAYLOAD * SCH_SIZE_PER_SECTION.

Lemma flash_capacity_accepted s p i size :
  payload_inv s -> 0 <= p < st_payloads_entries s -> size_ok size -> 0 <= i < capacity size ->
  accepted (st_payloads_entries s) p i size.
Proof.
  intros Hinv Hp Hs Hi. destruct (sample_at_bounds s p i size Hinv Hp Hs Hi) as (_ & _ & Hhi).
  destruct (per_page_ok size i Hs Hi) as (H1 & H2 & H3 & H4 & H5 & H6 & H7). unfold size_ok in Hs.
  unfold accepted, SCH_SECTIONS_PER_PAYLOAD, fp_base, pay_base, SCH_SIZE_PER_SECTION in *. splits; lia.
Qed.

(** The code computes the address of the sample. *)
Lemma accepted_address s p i size :
  payload_inv s -> size_ok size -> accepted (st_payloads_entries s) p i size ->
  _get_sample_address p i size s = Ret ((SCH_ST_OK, Some (sample_at p i size)), s).
Proof.
  intros (_ & He & Htbl & Hb & _) Hs (Hp & Hi & H1 & H3 & Hsec & Hhi).
  pose proof (Z.mod_pos_bound i (per_page size) ltac:(lia)) as H2.
  assert (0 <= page_of i size) as H4 by (apply Z.div_pos; lia).
  assert (0 <= page_of i size / 512) as H0 by (apply Z.div_pos; lia).
  pose proof (Z.mod_pos_bound (page_of i size) 512 ltac:(lia)) as H5.
  pose proof (Z.div_mod (page_of i size) 512 ltac:(lia)) as Hpg.
  assert (0 <= (i mod per_page size) * size) as H6 by (unfold size_ok in Hs; nia).
  assert (0 <= sample_at p i size) as Hlo.
  { unfold sample_at, ST_PAGE_SIZE, pay_base, SCH_SIZE_PER_SECTION, SCH_SECTIONS_PER_PAYLOAD. lia. }
  assert (i < 2 ^ 32) as Hi32.
  { pose proof (Z.div_mod i (per_page size) ltac:(lia)) as Hd. fold (page_of i size) in Hd.
    unfold SCH_SECTIONS_PER_PAYLOAD in *. nia. }
  unfold _get_sample_address. unfold bind at 1, get. unfold size_ok in Hs.
  rewrite (proj2 (Z.eqb_neq size 0)) by lia. fold (per_page size).
  rewrite i32_of_id by (unfold INT_MIN, INT_MAX; lia). rewrite (proj2 (Z.eqb_neq (per_page size) 0)) by lia.
  unfold cdiv, cmod. rewrite (proj2 (Z.eqb_neq (per_page size) 0)) by lia.
  change (Z.quot SCH_SIZE_PER_SECTION ST_PAGE_SIZE) with 512.
  unfold bind at 1 2, ret at 1 2. rewrite (Z.quot_div_nonneg i (per_page size)), Z.rem_mod_nonneg by lia.
  fold (page_of i size).
  unfold bind at 1. rewrite cint_ok by (unfold INT_MIN, INT_MAX; lia).
  rewrite (proj2 (Z.eqb_neq (per_page size * 512) 0)) by lia. unfold bind at 1, ret at 1.
  rewrite Z.quot_div_nonneg by lia. rewrite <- Z.div_div by lia. fold (page_of i size).
  unfold SCH_SECTIONS_PER_PAYLOAD in *.
  unfold bind at 1. rewrite cint_ok by (unfold INT_MIN, INT_MAX; lia).
  rewrite (proj2 (Z.ltb_ge 10 _)) by lia.
  unfold bind at 1. rewrite cint_ok by (unfold INT_MIN, INT_MAX; lia).
  rewrite (proj2 (Z.ltb_ge _ (p * 10 + _))) by lia. rewrite Htbl. cbn [deref]. unfold bind at 1, ret at 1.
  rewrite (bind_step _ _ _ _ _ (arr_get_Some _ _ _ s (flash_sections_lookup (10 * st_payloads_entries s)
    (p * 10 + page_of i size / 512) ltac:(lia) ltac:(lia)))).
  unfold ST_PAGE_SIZE, pay_base, SCH_SIZE_PER_SECTION in *.
  unfold bind at 1. rewrite cint_ok by (unfold INT_MIN, INT_MAX; lia).
  unfold bind at 1. rewrite cint_ok by (unfold INT_MIN, INT_MAX; lia). rewrite Hb.
  unfold bind at 1. rewrite cint_ok by (unfold INT_MIN, INT_MAX, fp_base, SCH_FLASH_INIT_MEMORY, SCH_SIZE_PER_SECTION; lia).
  match goal with |- context [u32_of (?x + page_of i size * 512 + ?y)] =>
    assert (x + page_of i size * 512 + y = sample_at p i size) as -> end.
  { unfold sample_at, ST_PAGE_SIZE, pay_base, SCH_SIZE_PER_SECTION, SCH_SECTIONS_PER_PAYLOAD. lia. }
  rewrite (u32_of_id (sample_at p i size)) by (unfold fp_base, SCH_SIZE_PER_SECTION in Hhi; lia).
  rewrite u32_of_id by (unfold fp_base, SCH_FLASH_INIT_MEMORY, SCH_SIZE_PER_SECTION; lia).
  by rewrite (proj2 (Z.ltb_ge _ _)) by (unfold fp_base, SCH_FLASH_INIT_MEMORY, SCH_SIZE_PER_SECTION in *; lia).
Qed.

Lemma flash_sample_address_ok s p i size :
  payload_inv s -> 0 <= p < st_payloads_entries s -> size_ok size -> 0 <= i < capacity size ->
  _get_sample_address p i size s = Ret ((SCH_ST_OK, Some (sample_at p i size)), s).
Proof. intros. by apply accepted_address, flash_capacity_accepted. Qed.

(** The alignment check lets the samples below the capacity through. *)
Lemma aligned s p i size :
  payload_inv s -> 0 <= p < st_payloads_entries s -> size_ok size -> 0 <= i < capacity size ->
  check_address_alignment (sample_at p i size) size = SCH_ST_OK.
Proof.
  intros Hinv Hp Hs Hi. pose proof Hinv as (_ & He & _).
  destruct (per_page_ok size i Hs Hi) as (H1 & H2 & H3 & H4 & H5 & H6 & H7).
  destruct (sample_at_bounds s p i size Hinv Hp Hs Hi) as (Hlo & Hhi & _). unfold size_ok in Hs.
  unfold check_address_alignment. unfold FLASH_SIZE, SCH_SIZE_PER_SECTION, ST_PAGE_SIZE in *.
  rewrite u32_of_id by (unfold pay_base, SCH_SIZE_PER_SECTION in Hlo; lia).
  set (k := 1024 + p * 5120 + 2 * (page_of i size / 512) * 512 + page_of i size mod 512).
  assert (sample_at p i size = k * 512 + (i mod per_page size) * size) as E.
  { unfold sample_at, k, ST_PAGE_SIZE, pay_base, SCH_SIZE_PER_SECTION, SCH_SECTIONS_PER_PAYLOAD. lia. }
  rewrite E. rewrite <- Z.add_assoc, !Z.div_add_l, !Z.div_small by lia. by rewrite Z.ltb_irrefl.
Qed.

Definition flash_pay_read (s : flash_state) (p i size : Z) : list Z :=
  match buf_read (flash s) (sample_at p i size) size with Ret bs => bs | Fault _ => [] end.

(** Distinct samples of one size do not overlap. *)
Lemma sample_disjoint p i j size : size_ok size -> 0 <= i < capacity size -> 0 <= j < capacity size -> i <> j ->
  sample_at p i size + size <= sample_at p j size \/ sample_at p j size + size <= sample_at p i size.
Proof.
  intros Hs Hi Hj Hne.
  destruct (per_page_ok size i Hs Hi) as (H1 & H2 & H3 & H4 & H5 & H6 & H7).
  destruct (per_page_ok size j Hs Hj) as (_ & K2 & K3 & K4 & K5 & K6 & K7). unfold size_ok in Hs.
  pose proof (Z.div_mod i (per_page size) ltac:(lia)) as Di. pose proof (Z.div_mod j (per_page size) ltac:(lia)) as Dj.
  fold (page_of i size) in Di. fold (page_of j size) in Dj.
  pose proof (Z.div_mod (page_of i size) 512 ltac:(lia)) as Pi.
  pose proof (Z.div_mod (page_of j size) 512 ltac:(lia)) as Pj.
  unfold sample_at, ST_PAGE_SIZE, SCH_SIZE_PER_SECTION.
  destruct (decide (page_of i size = page_of j size)) as [E|E]; [|lia].
  rewrite E in *. assert (i mod per_page size < j mod per_page size \/ j mod per_page size < i mod per_page size)
    as [|] by lia; nia.
Qed.

(** The flight plan section is out of reach of the samples. *)
Lemma flash_ok_write s a bs b : flash_ok s -> pay_base <= a -> buf_write (flash s) a bs = Ret b ->
  flash_ok (set_flash b s) /\ flash_slots (set_flash b s) = flash_slots s.
Proof.
  intros (Ho & Hfa & Hba & Hen & Hfl & Hch & Hcp & es & c & E & (Hl & Hc & Hu & Hes)) Ha Hw.
  assert (forall e, entry_inv (flash s) (tl_addr c) e ->
    entry_inv b (tl_addr c) e /\ slot_of b e = slot_of (flash s) e) as Hk.
  { intros e (H1 & H2 & H3).
    assert (tl_unixtime e <> ST_FP_NULL -> buf_read b (tl_addr e) 512 = buf_read (flash s) (tl_addr e) 512) as Hs.
    { intros Hne. destruct (H3 Hne) as (r & k & _ & _ & Hk & Hak & _). eapply buf_read_write_other; [exact Hw|].
      unfold pay_base, fp_base, SCH_SIZE_PER_SECTION in *. lia. }
    split; [|unfold slot_of; destruct (_ =? _) eqn:Eq; bool_to_prop; [done|]; by rewrite Hs].
    split; [done|]. split; [done|]. intros Hne. destruct (H3 Hne) as (r & k & K). exists r, k. by rewrite Hs. }
  split.
  - unfold flash_ok. splits; try done; [change (blen b = FLASH_SIZE); by rewrite (buf_write_len _ _ _ _ Hw)|].
    exists es, c. unfold tlb_inv. splits; try done. eapply Forall_impl; [exact Hes|]. intros e He. by apply Hk.
  - destruct (tlb_parts s es c E Hl) as (-> & _). destruct (tlb_parts (set_flash b s) es c E Hl) as (-> & _).
    apply map_ext_in. intros e He%list_elem_of_In. apply Hk. by apply (proj1 (Forall_forall _ _) Hes).
Qed.

Lemma payload_get s p i size :
  payload_inv s -> 0 <= p < st_payloads_entries s -> size_ok size -> 0 <= i < capacity size ->
  Flash.storage_payload_get_data p i (Some size) s = Ret ((SCH_ST_OK, Some (flash_pay_read s p i size)), s).
Proof.
  intros Hinv Hp Hs Hi. pose proof Hinv as (Ho & _ & Htbl & _ & Hfl).
  destruct (sample_at_bounds s p i size Hinv Hp Hs Hi) as (Hlo & Hhi & _).
  unfold Flash.storage_payload_get_data. unfold bind at 1, get. rewrite Ho, Htbl. cbn [negb is_null orb].
  rewrite (bind_step _ _ _ _ _ (flash_sample_address_ok s p i size Hinv Hp Hs Hi)).
  unfold read_data_with_check. rewrite (aligned s p i size) by done.
  change (SCH_ST_OK =? SCH_ST_ERROR) with false. cbv iota. unfold size_ok in Hs.
  unfold storage_read_flash, bind, get, lift. unfold u16_of. rewrite Z.mod_small by lia.
  unfold flash_pay_read. destruct (buf_read_ok (flash s) (sample_at p i size) size) as (bs & -> & _);
    [unfold pay_base, SCH_SIZE_PER_SECTION in Hlo; lia|lia|lia|done].
Qed.

Lemma payload_set s p i data :
  flash_ok s -> payload_inv s -> 0 <= p < st_payloads_entries s -> size_ok (zlength data) ->
  0 <= i < capacity (zlength data) ->
  exists b, Flash.storage_payload_set_data p i (Some data) (Some (zlength data)) s = Ret (SCH_ST_OK, set_flash b s) /\
    buf_write (flash s) (sample_at p i (zlength data)) data = Ret b /\ payload_inv (set_flash b s).
Proof.
  intros Hok Hinv Hp Hs Hi. pose proof Hinv as (Ho & He & Htbl & Hb & Hfl).
  destruct (sample_at_bounds s p i _ Hinv Hp Hs Hi) as (Hlo & Hhi & _).
  pose proof (buf_write_ok (flash s) (sample_at p i (zlength data)) data) as Hw.
  specialize (Hw ltac:(unfold pay_base, SCH_SIZE_PER_SECTION in Hlo; lia) ltac:(lia)).
  eexists. split; [|split; [exact Hw|]].
  - unfold Flash.storage_payload_set_data. unfold bind at 1, get. rewrite Ho, Htbl. cbn [negb is_null orb].
    rewrite (bind_step _ _ _ _ _ (flash_sample_address_ok s p i _ Hinv Hp Hs Hi)).
    unfold write_data_with_check. rewrite (aligned s p i) by done.
    change (SCH_ST_OK =? SCH_ST_ERROR) with false. cbv iota. unfold size_ok in Hs.
    unfold storage_write_flash, get. unfold bind at 1 2 3. unfold u16_of. rewrite Z.mod_small by lia.
    rewrite Z.ltb_irrefl, take_ge by (unfold zlength; lia). unfold bind, lift. by rewrite Hw.
  - unfold payload_inv. cbn. splits; (done || lia).
Qed.

End FlashPayload.

#[export] Instance flash_payload_laws : PayloadLaws Flash.flash_state.
Proof.
  refine {| pay_ok := FlashPayload.payload_inv; pay_tables := Flash.st_payloads_entries;
            pay_capacity := FlashPayload.capacity; pay_read := FlashPayload.flash_pay_read |}.
  - apply FlashPayload.payload_get.
  - cbn. intros s p i data Hst Hinv Hp Hs Hi.
    destruct (FlashPayload.payload_set s p i data Hst Hinv Hp Hs Hi) as (b & E & Hw & Hinv').
    destruct (FlashPayload.sample_at_bounds s p i _ Hinv Hp Hs Hi) as (Hlo & _).
    destruct (FlashPayload.flash_ok_write s _ data b Hst Hlo Hw) as [Hok' Hsl].
    exists (Flash.set_flash b s). splits; try done; unfold FlashPayload.flash_pay_read; cbn.
    + by rewrite (buf_read_write_same _ _ _ _ Hw).
    + intros j Hj Hne. rewrite (buf_read_write_other _ _ _ _ _ _ Hw); [done|].
      by apply or_comm, FlashPayload.sample_disjoint.
  - intros s i v rc s' (Ho & Hp) E. cbn in E.
    unfold Flash.storage_status_set_value_idx, Flash.storage_write_fram, bind, get, lift in E.
    destruct (buf_write _ _ _) as [b|]; [|done]. injection E as <- <-. by split.
Defined.
