(* ===== verification/RepoCommand.v ===== *)
(** * The command repository

    [src/system/repoCommand.c] and [src/system/include/suchai/repoCommand.h]:
    the table of registered commands, the construction of a command from a
    line of text, and its parameters.  A command function is a value of an
    arbitrary type [F]; [malloc] does not fail.

    The strings of the table live from [cmd_add] to [cmd_repo_close] and are
    never written in between, so the format a [cmd_t] shares with the table is
    represented by its contents. *)
From S2P Require Import Prelude CStr Config.

Module RepoCommand.

Section repo.
Context {F : Type}.

(** ** Data *)
Record cmd_list_t := CmdEntry {
  e_nparams : Z;
  e_fmt : ptr cstring;
  e_name : ptr cstring;
  e_function : option F
}.

(** [params] is the heap buffer, with its terminator if it has one. *)
Record cmd_t := Cmd {
  c_id : Z;
  c_nparams : Z;
  c_fmt : ptr cstring;
  c_params : ptr (list Z);
  c_function : option F
}.

Record cmd_repo := Repo {
  cmd_list : list cmd_list_t;
  cmd_index : Z;
  cmd_is_sorted : bool
}.

(** The static initial values: every entry of the array is zero. *)
Definition repo_boot : cmd_repo :=
  Repo (replicate (Z.to_nat SCH_CMD_MAX_ENTRIES) (CmdEntry 0 Null Null None)) 0 true.

Definition set_cmd_index (i : Z) (s : cmd_repo) : cmd_repo := Repo (cmd_list s) i (cmd_is_sorted s).

(** ** Registration *)
Definition cmd_add (name : cstring) (function : F) (fparams : cstring) (nparam : Z) : M cmd_repo Z :=
  let! s := get in
  if cmd_index s <? SCH_CMD_MAX_ENTRIES then
    let cmd_new := CmdEntry nparam (Live fparams) (Live name) (Some function) in
    let! l := arr_set (cmd_list s) (cmd_index s) cmd_new in
    let! sorted :=
      if negb (strcmp name (cs "null") =? 0) && cmd_is_sorted s && (1 <? cmd_index s) then
        let! prev := arr_get l (cmd_index s - 1) in
        let! prev_name := deref (e_name prev) in
        let! cur := arr_get l (cmd_index s) in
        let! cur_name := deref (e_name cur) in
        ret (if 0 <? strcmp prev_name cur_name then false else cmd_is_sorted s)
      else ret (cmd_is_sorted s) in
    put (Repo l (cmd_index s + 1) sorted) ;!
    ret (cmd_index s + 1)
  else ret (-1).

(** ** Look-up *)
Definition cmd_get_idx (idx : Z) : M cmd_repo (ptr cmd_t) :=
  if idx <? SCH_CMD_MAX_ENTRIES then
    let! s := get in
    let! cmd_found := arr_get (cmd_list s) idx in
    ret (Live (Cmd idx (e_nparams cmd_found) (e_fmt cmd_found) Null (e_function cmd_found)))
  else ret Null.

Definition cmd_get_str (name : cstring) : M cmd_repo (ptr cmd_t) :=
  let! r := for_ret (range SCH_CMD_MAX_ENTRIES) (fun i =>
    let! s := get in
    let! e := arr_get (cmd_list s) i in
    let! entry_name := deref (e_name e) in
    if strcmp name entry_name =? 0 then
      let! c := cmd_get_idx i in ret (Some c)
    else ret None) in
  ret (default Null r).

Definition cmd_get_name (idx : Z) : M cmd_repo (ptr cstring) :=
  if idx <? SCH_CMD_MAX_ENTRIES then
    let! s := get in
    let! cmd_found := arr_get (cmd_list s) idx in
    let! name := deref (e_name cmd_found) in
    ret (Live name)
  else ret Null.

(** The 30-byte result buffer is not initialised: a byte without a value. *)
Definition cmd_get_fmt (name : cstring) : M cmd_repo (list (option Z)) :=
  let format := replicate 30 None in
  let! r := for_ret (range SCH_CMD_MAX_ENTRIES) (fun i =>
    let! s := get in
    let! e := arr_get (cmd_list s) i in
    let! entry_name := deref (e_name e) in
    if strcmp name entry_name =? 0 then
      let! fmt := deref (e_fmt e) in
      let! out := list_write format 0 (map Some (with_nul fmt)) in
      ret (Some out)
    else ret None) in
  ret (default format r).

(** ** Parameters

    The functions change the command they are given; they return it. *)
Definition set_params (c : cmd_t) (p : ptr (list Z)) : cmd_t :=
  Cmd (c_id c) (c_nparams c) (c_fmt c) p (c_function c).

(** [params] is the object the pointer refers to, [None] for a null pointer;
    a negative length is a huge [size_t], for which [malloc] returns null. *)
Definition cmd_add_params_raw (cmd : ptr cmd_t) (params : option (list Z)) (len : Z)
  : M cmd_repo (ptr cmd_t) :=
  match is_null cmd, params with
  | false, Some bytes =>
      let! c := deref cmd in
      if len <? 0 then fail NullDeref else
      if zlength bytes <? len then fail OutOfBounds else
      ret (Live (set_params c (Live (take (Z.to_nat len) bytes))))
  | _, _ => ret cmd
  end.

Definition cmd_add_params_str (cmd : ptr cmd_t) (params : cstring) : M cmd_repo (ptr cmd_t) :=
  let len_param := strlen params in
  let len_param := if SCH_CMD_MAX_STR_PARAMS <? len_param then SCH_CMD_MAX_STR_PARAMS else len_param in
  if negb (is_null cmd) && negb (len_param =? 0) then
    let! c := deref cmd in
    ret (Live (set_params c (Live (strncpy_bytes params (len_param + 1)))))
  else ret cmd.

(** [vsprintf] writes to a local array of [SCH_CMD_MAX_STR_PARAMS] bytes. *)
Definition cmd_add_params_var (cmd : ptr cmd_t) (args : list scanval) : M cmd_repo (ptr cmd_t) :=
  if is_null cmd then ret cmd else
  let! c := deref cmd in
  let! fmt := deref (c_fmt c) in
  let! str_params := lift (vsprintf fmt args) in
  if SCH_CMD_MAX_STR_PARAMS <? strlen str_params + 1 then fail OutOfBounds
  else cmd_add_params_str cmd str_params.

Definition cmd_build_from_str (buff : cstring) : M cmd_repo (ptr cmd_t) :=
  let len := strlen buff in
  if 0 <? len then
    let! '(ok, vals) := lift (sscanf buff (cs "%s %n")) in
    if 0 <? ok then
      match vals with
      | [VStr word; VPos next] =>
          (* [%s] writes the word and its terminator to [tmp_cmd[len + 1]] *)
          if len + 1 <? strlen word + 1 then fail OutOfBounds else
          let! new_cmd := cmd_get_str word in
          if negb (is_null new_cmd) then
            if next <? len then
              let tmp_cmd := replicate (Z.to_nat (len + 1)) 0 in
              let! tmp_cmd := list_write tmp_cmd 0
                 (strncpy_bytes (drop (Z.to_nat next) buff) (len - next)) in
              let! args := lift (cstr_of_buf tmp_cmd) in
              cmd_add_params_str new_cmd args
            else cmd_add_params_str new_cmd []
          else ret Null
      | _ => fail Uninitialized
      end
    else ret Null
  else ret Null.

(** ** Release *)
Definition cmd_free (cmd : ptr cmd_t) : M cmd_repo unit :=
  if is_null cmd then ret tt else
  let! c := deref cmd in
  free_ptr (c_params c).

(** The pointers of the table are freed and kept. *)
Definition freed {A} (p : ptr A) : ptr A := if is_null p then Null else Freed.
Definition cmd_repo_close : M cmd_repo unit :=
  for_ (range SCH_CMD_MAX_ENTRIES) (fun i =>
    let! s := get in
    let! e := arr_get (cmd_list s) i in
    free_ptr (e_name e) ;!
    free_ptr (e_fmt e) ;!
    let! l := arr_set (cmd_list s) i
      (CmdEntry (e_nparams e) (freed (e_fmt e)) (freed (e_name e)) (e_function e)) in
    put (Repo l (cmd_index s) (cmd_is_sorted s))) ;!
  modify (set_cmd_index 0).

(** ** Listing *)
Definition pad_left (n : Z) (s : cstring) : cstring :=
  replicate (Z.to_nat (n - strlen s)) chr_space ++ s.
Definition crlf : cstring := [13; 10].

(** The lines that [cmd_print_all] prints. *)
Definition cmd_print_all : M cmd_repo (list cstring) :=
  let! s := get in
  let header := pad_left 5 (cs "Index") ++ [chr_space] ++ cs "Name" ++ [chr_space]
                  ++ pad_left 25 (cs "Params") ++ crlf in
  fold_m (range (cmd_index s)) (fun out i =>
    let! e := arr_get (cmd_list s) i in
    let! name := deref (e_name e) in
    let! fmt := deref (e_fmt e) in
    let line := pad_left 5 (print_dec i) ++ [chr_space] ++ name in
    ret (out ++ [line ++ (match fmt with [] => crlf | _ => chr_space :: fmt ++ crlf end)]))
    [header].

Definition cmd_save_all : M cmd_repo (list Z) :=
  let! s := get in
  let name_of i := (let! e := arr_get (cmd_list s) i in deref (e_name e)) in
  let! names_len := fold_m (range (cmd_index s)) (fun names_len i =>
    let! name := name_of i in cint (names_len + strlen name + 1)) 0 in
  let! _ := cint (names_len + 1) in
  let cmds_list := replicate (Z.to_nat (names_len + 1)) 0 in
  let! '(cmds_list, _) := fold_m (range (cmd_index s)) (fun '(cmds_list, len_cnt) i =>
    let! name := name_of i in
    let! cmds_list := list_write cmds_list len_cnt name in
    let! cmds_list := list_write cmds_list (len_cnt + strlen name) [10] in
    let! len_cnt := cint (len_cnt + strlen name + 1) in
    ret (cmds_list, len_cnt)) (cmds_list, 0) in
  ret cmds_list.

(** ** Start *)
Section init.
(** The command functions of the system modules ([cmd_obc_init], ...) and
    [cmd_null]. *)
Context (module_inits : M cmd_repo unit) (cmd_null : F).

(** [do n_cmd = cmd_add("null", ...); while (n_cmd < SCH_CMD_MAX_ENTRIES)];
    [None] when the fuel ends before the loop does. *)
Fixpoint fill_null (fuel : nat) : M cmd_repo (option unit) :=
  match fuel with
  | O => ret None
  | S fuel =>
      let! n_cmd := cmd_add (cs "null") cmd_null [] 0 in
      if n_cmd <? SCH_CMD_MAX_ENTRIES then fill_null fuel else ret (Some tt)
  end.

Definition cmd_repo_init (fuel : nat) : M cmd_repo (option Z) :=
  modify (set_cmd_index 0) ;!
  module_inits ;!
  let! last_cmd_index := gets cmd_index in
  let! filled := fill_null fuel in
  match filled with
  | None => ret None
  | Some _ => modify (set_cmd_index last_cmd_index) ;! ret (Some CMD_OK)
  end.
End init.

End repo.
Arguments cmd_list_t : clear implicits.
Arguments cmd_t : clear implicits.
Arguments cmd_repo : clear implicits.
(** The [cmd_add] calls of a module: name, function, format, number of parameters. *)
Definition add_entries {F} (l : list (cstring * F * cstring * Z)) : M (cmd_repo F) unit :=
  for_ l (fun '(name, f, fmt, n) => cmd_add name f fmt n ;! ret tt).

End RepoCommand.

(** ** Invariant and look-up *)
Module RepoCommandLaws.
Import RepoCommand.

Section laws.
Context {F : Type}.
Implicit Types (s : cmd_repo F) (e : cmd_list_t F) (l : list (cmd_list_t F)).

(** The entry has its strings. *)
Definition entry_live e : Prop :=
  exists name fmt, e_name e = Live name /\ e_fmt e = Live fmt.

(** During the start: the entries below the index are registered. *)
Definition repo_wf s : Prop :=
  zlength (cmd_list s) = SCH_CMD_MAX_ENTRIES /\
  0 <= cmd_index s <= SCH_CMD_MAX_ENTRIES /\
  forall i e, 0 <= i < cmd_index s -> zlookup (cmd_list s) i = Some e -> entry_live e.

(** After the start: every entry is registered or is a [null] filler. *)
Definition repo_ok s : Prop :=
  zlength (cmd_list s) = SCH_CMD_MAX_ENTRIES /\
  0 <= cmd_index s <= SCH_CMD_MAX_ENTRIES /\
  Forall entry_live (cmd_list s).

(** The same as a test. *)
Definition entry_liveb e : bool :=
  match e_name e, e_fmt e with Live _, Live _ => true | _, _ => false end.
Definition repo_okb s : bool :=
  (zlength (cmd_list s) =? SCH_CMD_MAX_ENTRIES) &&
  ((0 <=? cmd_index s) && (cmd_index s <=? SCH_CMD_MAX_ENTRIES)) &&
  forallb entry_liveb (cmd_list s).
Definition repo_wfb s : bool :=
  (zlength (cmd_list s) =? SCH_CMD_MAX_ENTRIES) &&
  ((0 <=? cmd_index s) && (cmd_index s <=? SCH_CMD_MAX_ENTRIES)) &&
  forallb entry_liveb (take (Z.to_nat (cmd_index s)) (cmd_list s)).

Lemma entry_liveb_ok e : entry_liveb e = true -> entry_live e.
Proof. unfold entry_liveb, entry_live. destruct (e_name e), (e_fmt e); try done. eauto. Qed.

Lemma repo_okb_ok s : repo_okb s = true -> repo_ok s.
Proof.
  unfold repo_okb, repo_ok. intros H. bool_to_prop. split; [done|]. split; [lia|].
  apply Forall_forall. intros e He. apply entry_liveb_ok.
  rewrite forallb_forall in H0. apply H0. by apply list_elem_of_In.
Qed.

Lemma repo_wfb_ok s : repo_wfb s = true -> repo_wf s.
Proof.
  unfold repo_wfb, repo_wf. intros H. bool_to_prop. split; [done|]. split; [lia|].
  intros i e Hi Hz. apply entry_liveb_ok. rewrite forallb_forall in H0. apply H0.
  unfold zlookup in Hz. destruct (i <? 0); [done|].
  apply list_elem_of_In, (list_elem_of_lookup_2 _ (Z.to_nat i)), lookup_take_Some. split; [done|lia].
Qed.

(** The specification of the look-up: the first entry with the name. *)
Fixpoint find_name (name : cstring) l : option (nat * cmd_list_t F) :=
  match l with
  | [] => None
  | e :: l => match e_name e with
              | Live n => if decide (name = n) then Some (O, e) else prod_map S id <$> find_name name l
              | _ => prod_map S id <$> find_name name l
              end
  end.

(** The command made from entry [i] of the table. *)
Definition cmd_of (i : Z) e : cmd_t F :=
  Cmd i (e_nparams e) (e_fmt e) Null (e_function e).

Definition found_cmd (r : option (nat * cmd_list_t F)) : ptr (cmd_t F) :=
  match r with Some (i, e) => Live (cmd_of (Z.of_nat i) e) | None => Null end.

Lemma zlookup_nat {A} (l : list A) (k : nat) : zlookup l (Z.of_nat k) = l !! k.
Proof. unfold zlookup. destruct (_ <? 0) eqn:?; bool_to_prop; [lia|]. by rewrite Nat2Z.id. Qed.

Lemma find_name_Some name l i e :
  find_name name l = Some (i, e) ->
  l !! i = Some e /\ e_name e = Live name /\
  forall j e', (j < i)%nat -> l !! j = Some e' -> e_name e' <> Live name.
Proof.
  revert i. induction l as [|e0 l IH]; intros i; cbn; [done|].
  assert (forall i', prod_map S id <$> find_name name l = Some (i', e) -> e_name e0 <> Live name ->
    (e0 :: l) !! i' = Some e /\ e_name e = Live name /\
    forall j e', (j < i')%nat -> (e0 :: l) !! j = Some e' -> e_name e' <> Live name) as Htl.
  { intros i' H Hne. destruct (find_name name l) as [[k ek]|]; [|done].
    cbn in H. injection H as <- <-. destruct (IH k eq_refl) as (H1 & H2 & H3). split; [done|].
    split; [done|]. intros [|j] e' Hj; cbn; [by intros [= <-]|]. apply H3. lia. }
  destruct (e_name e0) as [|n|] eqn:En.
  - intros H. by apply Htl.
  - destruct (decide (name = n)) as [->|Hn].
    + intros [= <- <-]. split; [done|]. split; [done|]. lia.
    + intros H. apply Htl; [done|]. congruence.
  - intros H. by apply Htl.
Qed.

Lemma find_name_None name l :
  find_name name l = None -> forall j e, l !! j = Some e -> e_name e <> Live name.
Proof.
  induction l as [|e0 l IH]; intros H j e Hj; [by rewrite lookup_nil in Hj|].
  cbn in H. destruct j as [|j]; cbn in Hj.
  - injection Hj as <-. destruct (e_name e0) as [|n|]; try done.
    destruct (decide (name = n)); [done|]. congruence.
  - apply (IH ltac:(by destruct (e_name e0), (find_name name l); repeat case_decide) j e Hj).
Qed.

Lemma find_name_first name l i e :
  l !! i = Some e -> e_name e = Live name ->
  (forall j e', (j < i)%nat -> l !! j = Some e' -> e_name e' <> Live name) ->
  find_name name l = Some (i, e).
Proof.
  intros Hi He Hlt. destruct (find_name name l) as [[k ek]|] eqn:Ef.
  - destruct (find_name_Some _ _ _ _ Ef) as (H1 & H2 & H3).
    destruct (decide (k < i)%nat); [by destruct (Hlt k ek)|].
    destruct (decide (i < k)%nat); [by destruct (H3 i e)|].
    assert (k = i) as -> by lia. by rewrite H1 in Hi; injection Hi as ->.
  - by destruct (find_name_None _ _ Ef i e).
Qed.

(** The search loop of [cmd_get_str] and [cmd_get_fmt] from index [length pre]
    on; [hit] is what the code does with the entry found. *)
Lemma find_loop {R} s name pre l (hit : Z -> cmd_list_t F -> M (cmd_repo F) R) (out : Z -> cmd_list_t F -> R)
    (body : Z -> M (cmd_repo F) (option R)) :
  cmd_list s = pre ++ l -> Forall entry_live l ->
  (forall i e, zlookup (cmd_list s) i = Some e -> e_name e = Live name -> hit i e s = Ret (out i e, s)) ->
  (forall i, body i s = bind get (fun s =>
    let! e := arr_get (cmd_list s) i in
    let! entry_name := deref (e_name e) in
    if strcmp name entry_name =? 0 then
      let! c := hit i e in ret (Some c)
    else ret None) s) ->
  for_ret (seqZ (zlength pre) (zlength l)) body s =
    Ret ((fun '(i, e) => out (zlength pre + Z.of_nat i) e) <$> find_name name l, s).
Proof.
  intros Hl Hlive Hhit Hbody. revert pre Hl Hlive. induction l as [|e l IH]; intros pre Hl Hlive.
  { done. }
  assert (zlength (e :: l) = Z.succ (zlength l)) as -> by (unfold zlength; cbn; lia).
  rewrite seqZ_cons by (unfold zlength; lia). cbn [for_ret].
  inversion Hlive as [|? ? (n & f & Hn & Hf) Hlive']; subst x l0.
  assert (zlookup (cmd_list s) (zlength pre) = Some e) as Hz.
  { unfold zlength. rewrite zlookup_nat, Hl. by apply list_lookup_middle. }
  assert (body (zlength pre) s = Ret (if decide (name = n) then Some (out (zlength pre) e) else None, s)) as E.
  { rewrite Hbody. unfold bind, get. rewrite (arr_get_Some _ _ _ _ Hz), Hn. cbn [deref]. unfold ret at 1.
    destruct (decide (name = n)) as [<-|Hne]; [|by rewrite strcmp_neq by done].
    rewrite strcmp_refl. cbn [Z.eqb]. by rewrite Hhit. }
  rewrite (bind_step _ _ _ _ _ E). cbn [find_name]. rewrite Hn.
  destruct (decide (name = n)) as [<-|Hne].
  - unfold ret. cbn. by rewrite Z.add_0_r.
  - specialize (IH (pre ++ [e]) ltac:(by rewrite <- app_assoc) Hlive').
    assert (zlength (pre ++ [e]) = Z.succ (zlength pre)) as Hp
      by (unfold zlength; rewrite length_app; cbn; lia).
    rewrite Hp in IH. rewrite Z.pred_succ, IH. do 2 f_equal.
    destruct (find_name name l) as [[i e']|]; cbn; [|done]. do 2 f_equal. lia.
Qed.

Lemma cmd_get_str_ok s name :
  repo_ok s -> cmd_get_str name s = Ret (found_cmd (find_name name (cmd_list s)), s).
Proof.
  intros (Hlen & _ & Hlive). unfold cmd_get_str, range.
  rewrite <- Hlen.
  erewrite bind_step; [|eapply (find_loop s name [] (cmd_list s) (fun i _ => cmd_get_idx i)
    (fun i e => Live (cmd_of i e)) _ eq_refl Hlive); [|done]].
  - unfold ret. do 2 f_equal. by destruct (find_name name (cmd_list s)) as [[i e]|].
  - intros i e Hz _. unfold cmd_get_idx. pose proof (zlookup_Some_lt _ _ _ Hz).
    rewrite (proj2 (Z.ltb_lt _ _)) by lia. unfold bind, get. by rewrite (arr_get_Some _ _ _ _ Hz).
Qed.

(** The first format of a command, copied to the 30-byte buffer. *)
Definition fmt_buf (fmt : cstring) : list (option Z) :=
  map Some (with_nul fmt) ++ replicate (29 - length fmt) None.

Definition fmt_of e : cstring := match e_fmt e with Live f => f | _ => [] end.

Lemma cmd_get_fmt_ok s name :
  repo_ok s -> Forall (fun e => strlen (fmt_of e) < 30) (cmd_list s) ->
  cmd_get_fmt name s = Ret (match find_name name (cmd_list s) with
                            | Some (_, e) => fmt_buf (fmt_of e)
                            | None => replicate 30 None
                            end, s).
Proof.
  intros (Hlen & _ & Hlive) Hshort. unfold cmd_get_fmt, range.
  rewrite <- Hlen. erewrite bind_step; [|eapply (find_loop s name [] (cmd_list s)
    (fun i e => let! fmt := deref (e_fmt e) in list_write (replicate 30 None) 0 (map Some (with_nul fmt)))
    (fun i e => fmt_buf (fmt_of e)) _ eq_refl Hlive)].
  - unfold ret. do 2 f_equal. by destruct (find_name name (cmd_list s)) as [[i e]|].
  - intros i e Hz _. assert (cmd_list s !! Z.to_nat i = Some e) as Hi
      by (unfold zlookup in Hz; by case_match).
    pose proof (Forall_lookup_1 _ _ _ _ Hshort Hi) as Hs. cbn in Hs.
    destruct (Forall_lookup_1 _ _ _ _ Hlive Hi) as (n & f & _ & Hf).
    unfold fmt_of in *. rewrite Hf in *. unfold bind, deref, ret. unfold strlen, zlength in Hs.
    replace 30%nat with (length (map Some (with_nul f)) + (29 - length f))%nat
      by (unfold with_nul; rewrite length_map, length_app; cbn; lia).
    rewrite replicate_add. change 0 with (zlength (@nil (option Z))) at 1.
    apply (list_write_ok []). by rewrite length_replicate.
  - intros i. unfold bind, get. destruct (arr_get _ _ _) as [[e ?]|]; [|done].
    destruct (deref (e_name e) _) as [[n ?]|]; [|done]. destruct (strcmp name n =? 0); [|done].
    destruct (deref (e_fmt e) _) as [[f ?]|]; [|done]. by destruct (list_write _ _ _ _) as [[]|].
Qed.

(** ** Registration *)
Definition new_entry (name : cstring) (f : F) (fmt : cstring) (n : Z) : cmd_list_t F :=
  CmdEntry n (Live fmt) (Live name) (Some f).

Lemma cmd_add_room s name f fmt n :
  repo_wf s -> cmd_index s < SCH_CMD_MAX_ENTRIES ->
  exists sorted, cmd_add name f fmt n s =
    Ret (cmd_index s + 1,
         Repo (zinsert (cmd_list s) (cmd_index s) (new_entry name f fmt n)) (cmd_index s + 1) sorted).
Proof.
  intros (Hlen & Hi & Hlive) Hlt. unfold cmd_add. unfold bind at 1, get.
  rewrite (proj2 (Z.ltb_lt _ _) Hlt). unfold bind at 1. rewrite arr_set_ok by lia.
  fold (new_entry name f fmt n).
  unfold bind at 1. destruct (_ && _) eqn:E; [|unfold ret, bind, put; eauto].
  bool_to_prop. destruct (zlookup_lt (cmd_list s) (cmd_index s - 1) ltac:(lia)) as [p Hp].
  destruct (Hlive (cmd_index s - 1) p ltac:(lia) Hp) as (pn & pf & Hpn & _).
  unfold bind. erewrite arr_get_Some by (rewrite zlookup_zinsert_ne by lia; exact Hp).
  rewrite Hpn. cbn [deref]. unfold ret at 1.
  erewrite arr_get_Some by (apply zlookup_zinsert_eq; lia). cbn. unfold ret, put. eauto.
Qed.

Lemma cmd_add_full s name f fmt n :
  SCH_CMD_MAX_ENTRIES <= cmd_index s -> cmd_add name f fmt n s = Ret (-1, s).
Proof.
  intros H. unfold cmd_add, bind, get. by rewrite (proj2 (Z.ltb_ge _ _) H).
Qed.

Lemma cmd_add_wf s name f fmt n i sorted :
  repo_wf s -> cmd_index s < SCH_CMD_MAX_ENTRIES -> i = cmd_index s ->
  repo_wf (Repo (zinsert (cmd_list s) i (new_entry name f fmt n)) (i + 1) sorted).
Proof.
  intros (Hlen & Hi & Hlive) Hlt ->. unfold repo_wf. cbn.
  rewrite zlength_zinsert. split; [done|]. split; [lia|]. intros j e Hj Hz.
  destruct (decide (j = cmd_index s)) as [->|Hne].
  - rewrite zlookup_zinsert_eq in Hz by lia. injection Hz as <-. by exists name, fmt.
  - rewrite zlookup_zinsert_ne in Hz by lia. apply (Hlive j); [lia|done].
Qed.

Lemma Forall_zinsert_live l i e : Forall entry_live l -> entry_live e -> Forall entry_live (zinsert l i e).
Proof. intros. unfold zinsert. case_match; [done|]. by apply Forall_insert. Qed.

Lemma repo_ok_wf s : repo_ok s -> repo_wf s.
Proof.
  intros (Hlen & Hi & Hlive). split; [done|]. split; [done|]. intros i e Hb Hz.
  unfold zlookup in Hz. case_match; [done|]. by eapply (Forall_lookup_1 _ _ _ _ Hlive).
Qed.

(** ** Filling the table with [null] *)
Lemma fill_null_ok (cmd_null : F) (k : nat) : forall s fuel,
  repo_wf s -> SCH_CMD_MAX_ENTRIES - cmd_index s = Z.of_nat (S k) -> (S k <= fuel)%nat ->
  exists s', fill_null cmd_null fuel s = Ret (Some tt, s') /\ repo_wf s' /\
    cmd_index s' = SCH_CMD_MAX_ENTRIES /\
    (forall i, i < cmd_index s -> zlookup (cmd_list s') i = zlookup (cmd_list s) i) /\
    (forall i, cmd_index s <= i < SCH_CMD_MAX_ENTRIES ->
       zlookup (cmd_list s') i = Some (new_entry (cs "null") cmd_null [] 0)).
Proof.
  induction k as [|k IH]; intros s fuel Hwf Hk Hf; (destruct fuel as [|fuel]; [lia|]);
    cbn [fill_null]; destruct (cmd_add_room s (cs "null") cmd_null [] 0 Hwf ltac:(lia)) as [sorted E];
    pose proof (cmd_add_wf s (cs "null") cmd_null [] 0 (cmd_index s) sorted Hwf ltac:(lia) eq_refl) as Hwf';
    pose proof Hwf as (Hlen & Hi & _); rewrite (bind_step _ _ _ _ _ E).
  - rewrite (proj2 (Z.ltb_ge _ _)) by lia. eexists. split; [done|]. split; [done|]. cbn.
    split; [lia|]. split.
    + intros i Hlt. apply zlookup_zinsert_ne. lia.
    + intros i Hb. assert (i = cmd_index s) as -> by lia. apply zlookup_zinsert_eq. lia.
  - rewrite (proj2 (Z.ltb_lt _ _)) by lia.
    edestruct (IH _ fuel Hwf') as (s' & E' & Hw & Hix & Hlo & Hhi); [cbn; lia|lia|].
    exists s'. cbn in Hlo, Hhi. split; [done|]. split; [done|]. split; [done|]. split.
    + intros i Hlt. rewrite Hlo by lia. apply zlookup_zinsert_ne. lia.
    + intros i Hb. destruct (decide (i = cmd_index s)) as [->|].
      * rewrite Hlo by lia. apply zlookup_zinsert_eq. lia.
      * apply Hhi. lia.
Qed.

Lemma fill_null_diverges (cmd_null : F) fuel s :
  SCH_CMD_MAX_ENTRIES <= cmd_index s -> fill_null cmd_null fuel s = Ret (None, s).
Proof.
  intros H. induction fuel as [|fuel IH]; [done|]. cbn [fill_null].
  by rewrite (bind_step _ _ _ _ _ (cmd_add_full s _ _ _ _ H)).
Qed.

Lemma full_wf_ok s i : repo_wf s -> cmd_index s = SCH_CMD_MAX_ENTRIES ->
  0 <= i <= SCH_CMD_MAX_ENTRIES -> repo_ok (set_cmd_index i s).
Proof.
  intros (Hlen & _ & Hlive) Hfull Hi. split; [done|]. split; [done|]. cbn.
  apply Forall_lookup. intros k e Hk. pose proof (lookup_lt_Some _ _ _ Hk) as Hb.
  apply (Hlive (Z.of_nat k)).
  - rewrite Hfull, <- Hlen. unfold zlength. lia.
  - by rewrite zlookup_nat.
Qed.

(** ** Parameters *)

(** The buffer [cmd_add_params_str] allocates for a parameter string. *)
Definition params_buf (args : cstring) : list Z :=
  strncpy_bytes args (Z.min (strlen args) SCH_CMD_MAX_STR_PARAMS + 1).

Definition with_args (c : cmd_t F) (args : cstring) : cmd_t F :=
  match args with [] => c | _ => set_params c (Live (params_buf args)) end.

Lemma add_params_str_ok c args s :
  cmd_add_params_str (Live c) args s = Ret (Live (with_args c args), s).
Proof.
  unfold cmd_add_params_str, with_args, params_buf.
  set (n := if SCH_CMD_MAX_STR_PARAMS <? strlen args then _ else _).
  assert (n = Z.min (strlen args) SCH_CMD_MAX_STR_PARAMS) as -> by (subst n; case_match; bool_to_prop; lia).
  destruct args as [|a args]; [done|]. cbn [is_null negb andb].
  rewrite (proj2 (Z.eqb_neq _ 0)) by (unfold strlen, zlength, SCH_CMD_MAX_STR_PARAMS; cbn; lia).
  done.
Qed.

Lemma params_buf_short args : is_cstr args -> strlen args <= SCH_CMD_MAX_STR_PARAMS ->
  params_buf args = with_nul args.
Proof.
  intros. unfold params_buf. rewrite Z.min_l by lia. rewrite strncpy_short by lia.
  by replace (strlen args + 1 - strlen args - 1) with 0 by lia.
Qed.

Lemma params_buf_long args : is_cstr args -> SCH_CMD_MAX_STR_PARAMS < strlen args ->
  cstr_of_buf (params_buf args) = Fault Unterminated.
Proof.
  intros Ha Hl. unfold params_buf. rewrite Z.min_r by lia.
  rewrite strncpy_long by (unfold SCH_CMD_MAX_STR_PARAMS in *; lia).
  by apply cstr_of_buf_unterminated, is_cstr_take.
Qed.

End laws.
End RepoCommandLaws.

(** ** Parsing a line *)
Module RepoCommandParse.
Import RepoCommand RepoCommandLaws.

Lemma skip_space_suffix s : exists p, s = p ++ skip_space s.
Proof.
  induction s as [|c s [p IH]]; [by exists []|]. cbn. destruct (isspace c); [|by exists []].
  exists (c :: p). by rewrite IH at 1.
Qed.

Lemma take_word_split s w r : take_word s = (w, r) -> s = w ++ r.
Proof.
  revert w r. induction s as [|c s IH]; intros w r; cbn; [by intros [= <- <-]|].
  destruct (isspace c); [by intros [= <- <-]|]. destruct (take_word s) as [w' r'] eqn:E.
  intros [= <- <-]. cbn. f_equal. by apply IH.
Qed.

(** The scan of [cmd_build_from_str]. *)
Lemma sscanf_word_rest buff :
  sscanf buff (cs "%s %n") =
    match skip_space buff with
    | [] => Ret (-1, [])
    | s1 => let (w, r) := take_word s1 in
            Ret (1, [VStr w; VPos (strlen buff - strlen (skip_space r))])
    end.
Proof.
  change (cs "%s %n") with [37; 115; 32; 37; 110]. unfold sscanf. cbn -[conv_str strlen take_word].
  unfold conv_str. destruct (skip_space buff); [done|]. destruct (take_word (z :: l)); done.
Qed.

Section parse.
Context {F : Type}.

(** What [cmd_build_from_str] means: the first word names the command, the
    rest without its leading blanks are the parameters. *)
Definition build_spec (buff : cstring) (l : list (cmd_list_t F)) : ptr (cmd_t F) :=
  let (word, r) := take_word (skip_space buff) in
  match word, find_name word l with
  | _ :: _, Some (i, e) => Live (with_args (cmd_of (Z.of_nat i) e) (skip_space r))
  | _, _ => Null
  end.

Lemma skip_space_head s c s1 : skip_space s = c :: s1 -> isspace c = false.
Proof.
  induction s as [|d s IH]; cbn; [done|]. destruct (isspace d) eqn:E; [done|]. by intros [= <- <-].
Qed.

(** The copy of the rest of the line in the zeroed work buffer. *)
Lemma copy_args {S} pre rest (s : S) : is_cstr rest ->
  bind (list_write (replicate (Z.to_nat (strlen (pre ++ rest) + 1)) 0) 0
         (strncpy_bytes (drop (Z.to_nat (strlen (pre ++ rest) - strlen rest)) (pre ++ rest)) (strlen rest)))
    (fun tmp => lift (cstr_of_buf tmp)) s = Ret (rest, s).
Proof.
  intros Hr. unfold strlen. replace (Z.to_nat (zlength (pre ++ rest) - zlength rest)) with (length pre)
    by (unfold zlength; rewrite length_app; lia).
  rewrite drop_app_length, strncpy_long by (unfold strlen, zlength; lia).
  rewrite take_ge by (unfold zlength; lia).
  replace (Z.to_nat (zlength (pre ++ rest) + 1)) with (length rest + Datatypes.S (length pre))%nat
    by (unfold zlength; rewrite length_app; lia).
  rewrite replicate_add. change 0 with (zlength (@nil Z)) at 3. unfold bind.
  pose proof (list_write_ok (S := S) [] (replicate (length rest) 0) (replicate (Datatypes.S (length pre)) 0) rest s
    ltac:(by rewrite length_replicate)) as E.
  cbn [app] in E. rewrite E. unfold lift. cbn [replicate]. by rewrite cstr_of_buf_nul.
Qed.

Lemma build_ok (s : cmd_repo F) buff :
  repo_ok s -> is_cstr buff ->
  cmd_build_from_str buff s = Ret (build_spec buff (cmd_list s), s).
Proof.
  intros Hok Hb. unfold cmd_build_from_str, build_spec. rewrite sscanf_word_rest.
  destruct (skip_space_suffix buff) as [p Hp].
  destruct (skip_space buff) as [|c s1] eqn:Es; [by destruct (0 <? strlen buff)|].
  pose proof (skip_space_head _ _ _ Es) as Hc.
  rewrite (proj2 (Z.ltb_lt _ _)) by (rewrite Hp; unfold strlen, zlength; rewrite length_app; cbn; lia).
  destruct (take_word (c :: s1)) as [w r] eqn:Ew. pose proof (take_word_split _ _ _ Ew) as Hw.
  destruct w as [|w0 w]; [cbn in Ew; rewrite Hc in Ew; destruct (take_word s1); done|].
  destruct (skip_space_suffix r) as [q Hq]. set (rest := skip_space r) in *.
  assert (buff = (p ++ (w0 :: w) ++ q) ++ rest) as Hbuf by (rewrite Hp, Hw, Hq, <- !app_assoc; done).
  assert (strlen buff = strlen (p ++ (w0 :: w) ++ q) + strlen rest) as Hlen
    by (rewrite Hbuf; unfold strlen, zlength; rewrite length_app; lia).
  unfold bind at 1, lift at 1. cbn [Z.ltb Z.compare].
  rewrite (proj2 (Z.ltb_ge (strlen buff + 1) _))
    by (rewrite Hlen; unfold strlen, zlength; rewrite !length_app; lia).
  rewrite (bind_step _ _ _ _ _ (cmd_get_str_ok s (w0 :: w) Hok)).
  destruct (find_name (w0 :: w) (cmd_list s)) as [[i e]|]; cbn [found_cmd is_null negb]; [|done].
  destruct (_ <? _) eqn:E; bool_to_prop.
  - assert (is_cstr rest) as Hr by (rewrite Hbuf in Hb; apply (proj2 (proj1 (is_cstr_app _ _) Hb))).
    replace (strlen buff - (strlen buff - strlen rest)) with (strlen rest) by lia.
    pose proof (copy_args (p ++ (w0 :: w) ++ q) rest s Hr) as Hcp. rewrite <- Hbuf in Hcp.
    apply bind_inv in Hcp as (tmp & s2 & E1 & E2). rewrite (bind_step _ _ _ _ _ E1).
    rewrite (bind_step _ _ _ _ _ E2). by rewrite add_params_str_ok.
  - destruct rest as [|x rest]; [|unfold strlen, zlength in *; cbn in *; lia].
    by rewrite add_params_str_ok.
Qed.

End parse.
End RepoCommandParse.

(** ** The list of names *)
Module RepoCommandList.
Import RepoCommand RepoCommandLaws.

(** The text that lists the names, one per line. *)
Definition names_text (ns : list cstring) : cstring := concat (map (fun n => n ++ [10]) ns).

Section save.
Context {S : Type} (name_of : Z -> M S cstring) (s : S).

Definition named_from (k : Z) (ns : list cstring) : Prop :=
  forall j n, ns !! j = Some n -> name_of (k + Z.of_nat j) s = Ret (n, s).

Lemma named_from_cons k n ns :
  named_from k (n :: ns) -> name_of k s = Ret (n, s) /\ named_from (Z.succ k) ns.
Proof.
  intros H. split; [by rewrite <- (H O n eq_refl), Z.add_0_r|].
  intros j m Hj. rewrite <- (H (Datatypes.S j) m Hj). f_equal. lia.
Qed.

Lemma names_text_cons n ns : names_text (n :: ns) = n ++ [10] ++ names_text ns.
Proof. unfold names_text. cbn. by rewrite <- app_assoc. Qed.

Lemma count_names k ns acc :
  named_from k ns -> 0 <= acc -> acc + zlength (names_text ns) <= INT_MAX ->
  fold_m (seqZ k (zlength ns)) (fun names_len i =>
    let! name := name_of i in cint (names_len + strlen name + 1)) acc s
    = Ret (acc + zlength (names_text ns), s).
Proof.
  revert k acc. induction ns as [|n ns IH]; intros k acc Hn Ha Hb.
  { cbn. rewrite Z.add_0_r. done. }
  destruct (named_from_cons _ _ _ Hn) as [H1 H2].
  rewrite zlength_cons, seqZ_cons by (unfold zlength; lia). cbn [fold_m].
  rewrite names_text_cons, !zlength_app in *. change (zlength [10]) with 1 in *.
  assert (0 <= zlength n /\ 0 <= zlength (names_text ns)) by (unfold zlength; lia).
  unfold bind at 1. rewrite (bind_step _ _ _ _ _ H1).
  unfold strlen. rewrite cint_ok by (unfold INT_MIN; lia).
  rewrite Z.pred_succ, IH; [|done|lia|lia]. do 2 f_equal. lia.
Qed.

Lemma write_names k ns done :
  named_from k ns -> zlength done + zlength (names_text ns) <= INT_MAX ->
  fold_m (seqZ k (zlength ns)) (fun '(cmds_list, len_cnt) i =>
    let! name := name_of i in
    let! cmds_list := list_write cmds_list len_cnt name in
    let! cmds_list := list_write cmds_list (len_cnt + strlen name) [10] in
    let! len_cnt := cint (len_cnt + strlen name + 1) in
    ret (cmds_list, len_cnt))
    (done ++ replicate (length (names_text ns) + 1) 0, zlength done) s
    = Ret ((done ++ names_text ns ++ [0], zlength done + zlength (names_text ns)), s).
Proof.
  revert k done. induction ns as [|n ns IH]; intros k done Hn Hb.
  { cbn. rewrite Z.add_0_r. done. }
  destruct (named_from_cons _ _ _ Hn) as [H1 H2].
  rewrite zlength_cons, seqZ_cons by (unfold zlength; lia). cbn [fold_m].
  rewrite names_text_cons, !zlength_app in *. change (zlength [10]) with 1 in *.
  assert (0 <= zlength n /\ 0 <= zlength (names_text ns) /\ 0 <= zlength done) by (unfold zlength; lia).
  unfold bind at 1. rewrite (bind_step _ _ _ _ _ H1).
  rewrite !length_app. cbn [length].
  replace (length n + (1 + length (names_text ns)) + 1)%nat
    with (length n + (1 + (length (names_text ns) + 1)))%nat by lia.
  rewrite !replicate_add. rewrite (bind_step _ _ _ _ _ (list_write_ok done (replicate (length n) 0) _ n s
    ltac:(by rewrite length_replicate))).
  change (strlen n) with (zlength n). rewrite <- zlength_app, app_assoc.
  rewrite (bind_step _ _ _ _ _ (list_write_ok (done ++ n) (replicate 1 0) _ [10] s eq_refl)).
  rewrite zlength_app. rewrite (bind_step _ _ _ _ _ (cint_ok (zlength done + zlength n + 1) s ltac:(unfold INT_MIN; lia))). cbn [ret].
  specialize (IH (Z.succ k) (done ++ n ++ [10]) H2).
  rewrite replicate_add, !zlength_app in IH. change (zlength [10]) with 1 in IH.
  rewrite Z.pred_succ, !app_assoc in *. rewrite Z.add_assoc in IH. rewrite IH by lia.
  rewrite !Z.add_assoc. done.
Qed.

End save.

Section names.
Context {F : Type}.

(** The names of the registered commands, in order of registration. *)
Definition table_names (s : cmd_repo F) : list cstring :=
  omap (fun e => match e_name e with Live n => Some n | _ => None end)
       (take (Z.to_nat (cmd_index s)) (cmd_list s)).

Lemma omap_live (l : list (cmd_list_t F)) :
  Forall entry_live l -> exists ns, omap (fun e => match e_name e with Live n => Some n | _ => None end) l = ns /\
    Forall2 (fun e n => e_name e = Live n) l ns.
Proof.
  induction 1 as [|e l (n & f & Hn & _) _ (ns & E & IH)]; [by exists []|].
  exists (n :: ns). cbn. rewrite Hn. split; [|by constructor]. f_equal. done.
Qed.

Lemma table_names_ok s : repo_ok s ->
  zlength (table_names s) = cmd_index s /\
  named_from (fun i => let! e := arr_get (cmd_list s) i in deref (e_name e)) s 0 (table_names s).
Proof.
  intros (Hlen & Hi & Hlive). unfold table_names.
  destruct (omap_live (take (Z.to_nat (cmd_index s)) (cmd_list s)) (Forall_take _ _ _ Hlive)) as (ns & -> & H2).
  pose proof (Forall2_length _ _ _ H2) as Hl. unfold zlength in *. rewrite length_take in Hl.
  split; [lia|]. intros j n Hj. rewrite Z.add_0_l.
  destruct (Forall2_lookup_r _ _ _ _ _ H2 Hj) as (e & He & Hn).
  apply lookup_take_Some in He as [He _].
  unfold bind. rewrite (arr_get_Some _ _ _ _ (eq_trans (zlookup_nat _ _) He)). by rewrite Hn.
Qed.

Lemma save_all_ok s :
  repo_ok s -> zlength (names_text (table_names s)) < INT_MAX ->
  cmd_save_all s = Ret (with_nul (names_text (table_names s)), s).
Proof.
  intros Hok Hb. destruct (table_names_ok s Hok) as [Hlen Hn]. unfold cmd_save_all, range.
  unfold bind at 1, get. rewrite <- Hlen.
  rewrite (bind_step _ _ _ _ _ (count_names _ s 0 _ 0 Hn ltac:(lia) ltac:(lia))).
  rewrite Z.add_0_l. unfold bind at 1. rewrite cint_ok by (unfold INT_MIN, zlength in *; lia).
  replace (Z.to_nat (zlength (names_text (table_names s)) + 1))
    with (length (names_text (table_names s)) + 1)%nat by (unfold zlength; lia).
  pose proof (write_names _ s 0 _ [] Hn ltac:(change (zlength []) with 0; lia)) as E.
  change (zlength (@nil Z)) with 0 in E. cbn [app] in E.
  rewrite (bind_step _ _ _ _ _ E). done.
Qed.

End names.
End RepoCommandList.

(** ** Theorems *)
Module RepoCommandTheorems.
Import RepoCommand RepoCommandLaws RepoCommandParse RepoCommandList.

Section theorems.
Context {F : Type}.
Implicit Types (s : cmd_repo F).

(** Registering a command changes what is found only for names that are not
    registered before it. *)
Lemma find_name_zinsert_old (l : list (cmd_list_t F)) k e name i e' :
  find_name name l = Some (i, e') -> (i < k)%nat ->
  find_name name (zinsert l (Z.of_nat k) e) = Some (i, e').
Proof.
  intros Hf Hi. destruct (find_name_Some _ _ _ _ Hf) as (H1 & H2 & H3).
  apply find_name_first; rewrite <- ?zlookup_nat, ?zlookup_zinsert_ne, ?zlookup_nat by lia; try done.
  intros j e2 Hj. rewrite <- zlookup_nat, zlookup_zinsert_ne, zlookup_nat by lia. by apply H3.
Qed.

Lemma find_name_zinsert_new (l : list (cmd_list_t F)) k e name :
  (k < length l)%nat -> e_name e = Live name -> find_name name (take k l) = None ->
  find_name name (zinsert l (Z.of_nat k) e) = Some (k, e).
Proof.
  intros Hk He Hn. apply find_name_first; [|done|].
  - rewrite <- zlookup_nat. apply zlookup_zinsert_eq. unfold zlength. lia.
  - intros j e2 Hj. rewrite <- zlookup_nat, zlookup_zinsert_ne, zlookup_nat by lia. intros Hl.
    apply (find_name_None _ _ Hn j). by apply lookup_take_Some.
Qed.

(** [cmd_add] with room in the table returns the new number of commands;
    [cmd_get_str] then finds the command under its name, if no command
    registered before has the same name, with the id, format, number of
    parameters and function it was registered with; and every command that was
    registered before is still found, unchanged.  With the table full it
    returns -1 and changes nothing. *)
Theorem cmd_add_then_get s name f fmt nparams :
  repo_ok s ->
  (cmd_index s = SCH_CMD_MAX_ENTRIES /\ cmd_add name f fmt nparams s = Ret (-1, s)) \/
  exists s', cmd_add name f fmt nparams s = Ret (cmd_index s + 1, s') /\ repo_ok s' /\
    cmd_index s' = cmd_index s + 1 /\
    (find_name name (take (Z.to_nat (cmd_index s)) (cmd_list s)) = None ->
       cmd_get_str name s' = Ret (Live (Cmd (cmd_index s) nparams (Live fmt) Null (Some f)), s')) /\
    (forall other i e, find_name other (cmd_list s) = Some (i, e) -> Z.of_nat i < cmd_index s ->
       cmd_get_str other s' = Ret (Live (cmd_of (Z.of_nat i) e), s')).
Proof.
  intros Hok. pose proof Hok as (Hlen & Hi & Hlive).
  destruct (Z.eq_dec (cmd_index s) SCH_CMD_MAX_ENTRIES) as [E|E].
  { left. split; [done|]. apply cmd_add_full. lia. }
  right. destruct (cmd_add_room s name f fmt nparams (repo_ok_wf s Hok) ltac:(lia)) as [sorted Ha].
  eexists. split; [exact Ha|].
  match goal with |- repo_ok ?x /\ _ => assert (repo_ok x) as Hok' end.
  { unfold repo_ok. cbn. rewrite zlength_zinsert. split; [done|]. split; [lia|].
    apply Forall_zinsert_live; [done|]. by exists name, fmt. }
  split; [done|]. split; [done|].
  replace (cmd_index s) with (Z.of_nat (Z.to_nat (cmd_index s))) in Hok' |- * by lia.
  rewrite Nat2Z.id. unfold zlength in Hlen. split.
  - intros Hn. rewrite cmd_get_str_ok by done. cbn [cmd_list].
    rewrite (find_name_zinsert_new _ _ (new_entry name f fmt nparams) name) by (done || lia). done.
  - intros other i e Hf Hlt. rewrite cmd_get_str_ok by done. cbn [cmd_list].
    rewrite (find_name_zinsert_old _ _ _ _ _ _ Hf) by lia. done.
Qed.

(** [cmd_repo_init] ends and leaves a usable table whenever the modules
    register fewer than [SCH_CMD_MAX_ENTRIES] commands: it returns [CMD_OK],
    the commands registered keep their entries and their count, and every other
    entry holds the [null] command, so no look-up meets a missing name. *)
Theorem cmd_repo_init_ready s (inits : M (cmd_repo F) unit) (cmd_null : F) s1 fuel :
  inits (set_cmd_index 0 s) = Ret (tt, s1) -> repo_wf s1 ->
  cmd_index s1 < SCH_CMD_MAX_ENTRIES -> (Z.to_nat SCH_CMD_MAX_ENTRIES <= fuel)%nat ->
  exists s', cmd_repo_init inits cmd_null fuel s = Ret (Some CMD_OK, s') /\ repo_ok s' /\
    cmd_index s' = cmd_index s1 /\
    (forall i, i < cmd_index s1 -> zlookup (cmd_list s') i = zlookup (cmd_list s1) i) /\
    (forall i, cmd_index s1 <= i < SCH_CMD_MAX_ENTRIES ->
       zlookup (cmd_list s') i = Some (CmdEntry 0 (Live []) (Live (cs "null")) (Some cmd_null))).
Proof.
  intros Hin Hwf Hlt Hf. pose proof Hwf as (_ & Hi & _).
  destruct (fill_null_ok cmd_null (Z.to_nat (SCH_CMD_MAX_ENTRIES - cmd_index s1) - 1) s1 fuel Hwf)
    as (s2 & E & Hwf2 & Hfull & Hlo & Hhi); [lia|lia|].
  exists (set_cmd_index (cmd_index s1) s2). unfold cmd_repo_init.
  unfold bind at 1, modify at 1. rewrite (bind_step _ _ _ _ _ Hin).
  unfold bind at 1, gets. rewrite (bind_step _ _ _ _ _ E).
  split; [done|]. split; [by apply full_wf_ok|]. done.
Qed.

(** When the modules have registered [SCH_CMD_MAX_ENTRIES] commands
    already, the loop that fills the table never ends: [cmd_add] returns -1,
    which is below the bound, in every iteration. *)
Theorem cmd_repo_init_diverges_when_full s (inits : M (cmd_repo F) unit) (cmd_null : F) s1 fuel :
  inits (set_cmd_index 0 s) = Ret (tt, s1) -> cmd_index s1 = SCH_CMD_MAX_ENTRIES ->
  cmd_repo_init inits cmd_null fuel s = Ret (None, s1).
Proof.
  intros Hin Hfull. unfold cmd_repo_init. unfold bind at 1, modify at 1.
  rewrite (bind_step _ _ _ _ _ Hin). unfold bind at 1, gets.
  by rewrite (bind_step _ _ _ _ _ (fill_null_diverges cmd_null fuel s1 ltac:(lia))).
Qed.

(** C32. [cmd_build_from_str] on any line: no line makes it read or write
    outside its buffers; the first word selects the command and the rest of
    the line, without leading blanks, becomes its parameters; a blank line or
    an unknown name gives the null pointer, and a line with only a name leaves
    the parameters null.  The table does not change. *)
Theorem cmd_build_from_str_total s buff :
  repo_ok s -> is_cstr buff ->
  cmd_build_from_str buff s = Ret (build_spec buff (cmd_list s), s).
Proof. apply build_ok. Qed.

(** The parameters of a command built from a line are a C string with the
    text of the line, as long as they have at most [SCH_CMD_MAX_STR_PARAMS]
    characters; longer parameters are stored without a terminator, and the
    first function that reads them as a string leaves the buffer. *)
Theorem built_params_string (c : cmd_t F) args :
  is_cstr args -> args <> [] ->
  exists buf, c_params (with_args c args) = Live buf /\
    cstr_of_buf buf = if strlen args <=? SCH_CMD_MAX_STR_PARAMS then Ret args else Fault Unterminated.
Proof.
  intros Ha Hne. exists (params_buf args). split; [by destruct args|].
  destruct (strlen args <=? SCH_CMD_MAX_STR_PARAMS) eqn:E; bool_to_prop.
  - rewrite params_buf_short by done. by apply cstr_of_buf_nul.
  - by apply params_buf_long.
Qed.

(** [cmd_add_params_var] and the [sscanf] of a command agree: for a format
    of [%d], [%u] and [%s] conversions, the parameters printed from values of
    these types are a string that scans back to the same values, with the
    count the handlers compare with [nparams]. *)
Theorem params_var_roundtrip s (c : cmd_t F) ks vs :
  c_fmt c = Live (kinds_fmt ks) -> Forall2 kind_val ks vs -> vs <> [] ->
  strlen (vals_text vs) < SCH_CMD_MAX_STR_PARAMS ->
  exists buf txt, cmd_add_params_var (Live c) vs s = Ret (Live (set_params c (Live buf)), s) /\
    cstr_of_buf buf = Ret txt /\ sscanf txt (kinds_fmt ks) = Ret (zlength vs, vs).
Proof.
  intros Hf Hvs Hne Hlen. pose proof (is_cstr_vals_text _ _ Hvs) as Hc.
  assert (vals_text vs <> []) as Hne2.
  { destruct Hvs as [|k v ? vs' Hk _]; [done|]. destruct (kind_val_head k v Hk) as (x & w & E & _).
    destruct vs'; cbn [vals_text]; by rewrite E. }
  exists (params_buf (vals_text vs)), (vals_text vs). split; [|split].
  - unfold cmd_add_params_var, bind, deref. cbn [is_null]. unfold ret at 1. rewrite Hf.
    unfold ret at 1. rewrite (vsprintf_kinds ks vs Hvs). cbn [lift].
    rewrite (proj2 (Z.ltb_ge _ _)) by lia. rewrite add_params_str_ok. unfold with_args. by case_match.
  - rewrite params_buf_short by (done || lia). by apply cstr_of_buf_nul.
  - unfold sscanf. by rewrite scanf_kinds.
Qed.

(** [cmd_save_all] returns the names of the registered commands in order,
    one per line, in a terminated buffer of exactly their size. *)
Theorem cmd_save_all_lists_names s :
  repo_ok s -> zlength (names_text (table_names s)) < INT_MAX ->
  cmd_save_all s = Ret (with_nul (names_text (table_names s)), s).
Proof. apply save_all_ok. Qed.

(** [cmd_get_fmt] returns the format of the first command with the name,
    as a string at the start of a 30-byte buffer, when every format registered
    is shorter than the buffer; for an unknown name it returns the buffer as
    [malloc] gave it, without any initialised byte. *)
Theorem cmd_get_fmt_returns_format s name :
  repo_ok s -> Forall (fun e => strlen (fmt_of e) < 30) (cmd_list s) ->
  cmd_get_fmt name s = Ret (match find_name name (cmd_list s) with
                            | Some (_, e) => fmt_buf (fmt_of e)
                            | None => replicate 30 None
                            end, s).
Proof. apply cmd_get_fmt_ok. Qed.

End theorems.

(** A table with one command, as [cmd_repo_init] leaves it. *)
Definition one_init : M (cmd_repo nat) unit :=
  cmd_add (cs "obc_reset") 7%nat (cs "%d") 1 ;! ret tt.
Definition one_cmd : cmd_repo nat :=
  match cmd_repo_init one_init 0%nat 255 repo_boot with Ret (_, s) => s | Fault _ => repo_boot end.

Lemma one_cmd_ok : repo_ok one_cmd.
Proof. apply repo_okb_ok. vm_compute. reflexivity. Qed.

Lemma cmd_add_then_get_witness :
  exists s', cmd_add (cs "help") 9%nat [] 0 one_cmd = Ret (2, s') /\
    cmd_get_str (cs "help") s' = Ret (Live (Cmd 1 0 (Live []) Null (Some 9%nat)), s').
Proof.
  destruct (cmd_add_then_get one_cmd (cs "help") 9%nat [] 0 one_cmd_ok)
    as [[H _]|(s' & H1 & _ & _ & H2 & _)].
  - vm_compute in H. discriminate H.
  - exists s'. split; [exact H1|]. apply H2. vm_compute. reflexivity.
Defined.

(** The state after the modules have registered their commands. *)
Definition one_registered : cmd_repo nat :=
  match one_init (set_cmd_index 0 repo_boot) with Ret (_, s) => s | Fault _ => repo_boot end.

Lemma cmd_repo_init_ready_witness :
  exists s', cmd_repo_init one_init 0%nat 255 repo_boot = Ret (Some CMD_OK, s') /\ repo_ok s'.
Proof.
  destruct (cmd_repo_init_ready repo_boot one_init 0%nat one_registered 255) as (s' & H1 & H2 & _).
  - reflexivity.
  - apply repo_wfb_ok. vm_compute. reflexivity.
  - vm_compute. reflexivity.
  - vm_compute. apply le_n.
  - exists s'. split; [exact H1|exact H2].
Defined.

(** Modules that register 255 commands. *)
Definition full_init : M (cmd_repo nat) unit :=
  for_ (range SCH_CMD_MAX_ENTRIES) (fun i => cmd_add (print_dec i) 0%nat [] 0 ;! ret tt).
Definition full_registered : cmd_repo nat :=
  match full_init (set_cmd_index 0 repo_boot) with Ret (_, s) => s | Fault _ => repo_boot end.

Lemma cmd_repo_init_diverges_when_full_witness :
  cmd_repo_init full_init 0%nat 1000 repo_boot = Ret (None, full_registered).
Proof.
  apply cmd_repo_init_diverges_when_full.
  - vm_compute. reflexivity.
  - vm_compute. reflexivity.
Defined.

Lemma cmd_build_from_str_total_witness :
  cmd_build_from_str (cs "  obc_reset  5 ") one_cmd =
    Ret (Live (Cmd 0 1 (Live (cs "%d")) (Live (cs "5 " ++ [0])) (Some 7%nat)), one_cmd).
Proof.
  rewrite (cmd_build_from_str_total one_cmd (cs "  obc_reset  5 ") one_cmd_ok).
  - vm_compute. reflexivity.
  - apply (bool_decide_unpack _). vm_compute. exact I.
Defined.

Lemma built_params_string_witness :
  exists buf, c_params (with_args (Cmd 0 1 Null Null (Some 7%nat)) (replicate 249 65)) = Live buf /\
    cstr_of_buf buf = Fault Unterminated.
Proof.
  destruct (built_params_string (Cmd 0 1 Null Null (Some 7%nat)) (replicate 249 65)) as (buf & H1 & H2).
  - apply (bool_decide_unpack _). vm_compute. exact I.
  - discriminate.
  - exists buf. split; [exact H1|]. rewrite H2. reflexivity.
Defined.

Lemma params_var_roundtrip_witness :
  exists buf txt,
    cmd_add_params_var (Live (Cmd 0 2 (Live (cs "%d %s")) Null (Some 7%nat))) [VInt (-3); VStr (cs "tm")] one_cmd
      = Ret (Live (Cmd 0 2 (Live (cs "%d %s")) (Live buf) (Some 7%nat)), one_cmd) /\
    cstr_of_buf buf = Ret txt /\ sscanf txt (cs "%d %s") = Ret (2, [VInt (-3); VStr (cs "tm")]).
Proof.
  apply (params_var_roundtrip one_cmd (Cmd 0 2 (Live (cs "%d %s")) Null (Some 7%nat))
    [KInt; KStr] [VInt (-3); VStr (cs "tm")]).
  - reflexivity.
  - constructor; [vm_compute; split; discriminate|]. constructor; [|constructor].
    split; apply (bool_decide_unpack _); vm_compute; exact I.
  - discriminate.
  - vm_compute. reflexivity.
Defined.

Lemma cmd_save_all_lists_names_witness :
  cmd_save_all one_cmd = Ret (cs "obc_reset" ++ [10; 0], one_cmd).
Proof.
  rewrite (cmd_save_all_lists_names one_cmd one_cmd_ok); vm_compute; reflexivity.
Defined.

Lemma cmd_get_fmt_returns_format_witness :
  cmd_get_fmt (cs "obc_reset") one_cmd =
    Ret (Some 37 :: Some 100 :: Some 0 :: replicate 27 None, one_cmd).
Proof.
  rewrite (cmd_get_fmt_returns_format one_cmd (cs "obc_reset") one_cmd_ok).
  - vm_compute. reflexivity.
  - apply (bool_decide_unpack _). vm_compute. exact I.
Defined.

End RepoCommandTheorems.
