(* ===== verification/Schema.v ===== *)
(** * The data schema

    [apps/simple/include/app/system/repoDataSchema.h] (addresses, names, types
    and default values of the status variables, and the payloads) with
    [src/system/repoDataSchema.c] (search by address and by name). *)
From S2P Require Import Prelude CStr Config.

(** [dat_status_address_t] *)
Definition dat_obc_opmode : Z := 0.
Definition dat_obc_last_reset : Z := 1.
Definition dat_obc_hrs_alive : Z := 2.
Definition dat_obc_hrs_wo_reset : Z := 3.
Definition dat_obc_reset_counter : Z := 4.
Definition dat_obc_sw_wdt : Z := 5.
Definition dat_obc_temp_1 : Z := 6.
Definition dat_obc_executed_cmds : Z := 7.
Definition dat_obc_failed_cmds : Z := 8.
Definition dat_rtc_date_time : Z := 9.
Definition dat_com_count_tm : Z := 10.
Definition dat_com_count_tc : Z := 11.
Definition dat_com_last_tc : Z := 12.
Definition dat_fpl_last : Z := 13.
Definition dat_fpl_queue : Z := 14.
Definition dat_drp_idx_temp : Z := 15.
Definition dat_drp_ack_temp : Z := 16.
Definition dat_status_last_address : Z := 17.

Definition DAT_OBC_OPMODE_NORMAL : Z := 0.
Definition DAT_IS_CONFIG : Z := 0.
Definition DAT_IS_STATUS : Z := 1.
Definition MAX_VAR_NAME : Z := 24.

(** [dat_sys_var_t]; the value is the bits of the [value32_t] union. *)
Record dat_sys_var_t := SysVar {
  var_address : Z;
  var_name : cstring;
  var_type : Z;
  var_status : Z;
  var_value : Z
}.

#[export] Instance dat_sys_var_eq_dec : EqDecision dat_sys_var_t.
Proof. solve_decision. Defined.

Definition ch_u : Z := 117.
Definition ch_d : Z := 100.
Definition ch_f : Z := 102.

(** [dat_status_list].  An initialiser sets the first member of the union, the
    integer, whatever the type of the variable: -1 is the word [2^32 - 1]. *)
Definition dat_status_list : list dat_sys_var_t := [
  SysVar dat_obc_last_reset (cs "obc_last_reset") ch_u DAT_IS_STATUS 0;
  SysVar dat_obc_hrs_alive (cs "obc_hrs_alive") ch_u DAT_IS_STATUS 0;
  SysVar dat_obc_hrs_wo_reset (cs "obc_hrs_wo_reset") ch_u DAT_IS_STATUS 0;
  SysVar dat_obc_reset_counter (cs "obc_reset_counter") ch_u DAT_IS_STATUS 0;
  SysVar dat_obc_sw_wdt (cs "obc_sw_wdt") ch_u DAT_IS_STATUS 0;
  SysVar dat_obc_temp_1 (cs "obc_temp_1") ch_f DAT_IS_STATUS (u32_of (-1));
  SysVar dat_obc_executed_cmds (cs "obc_executed_cmds") ch_u DAT_IS_STATUS 0;
  SysVar dat_obc_failed_cmds (cs "obc_failed_cmds") ch_u DAT_IS_STATUS 0;
  SysVar dat_com_count_tm (cs "com_count_tm") ch_u DAT_IS_STATUS 0;
  SysVar dat_com_count_tc (cs "com_count_tc") ch_u DAT_IS_STATUS 0;
  SysVar dat_com_last_tc (cs "com_last_tc") ch_u DAT_IS_STATUS 0;
  SysVar dat_fpl_last (cs "fpl_last") ch_u DAT_IS_STATUS 0;
  SysVar dat_fpl_queue (cs "fpl_queue") ch_u DAT_IS_STATUS 0;
  SysVar dat_obc_opmode (cs "obc_opmode") ch_d DAT_IS_CONFIG (u32_of (-1));
  SysVar dat_rtc_date_time (cs "rtc_date_time") ch_d DAT_IS_CONFIG (u32_of (-1));
  SysVar dat_drp_idx_temp (cs "drp_idx_temp") ch_u DAT_IS_STATUS 0;
  SysVar dat_drp_ack_temp (cs "drp_ack_temp") ch_u DAT_IS_CONFIG 0
].
Definition dat_status_last_var : Z := zlength dat_status_list.

(** [data_map_t] *)
Record data_map_t := DataMap {
  map_table : cstring;
  map_size : Z;
  map_sys_index : Z;
  map_sys_ack : Z;
  map_data_order : cstring;
  map_var_names : cstring
}.

(** [payload_id_t]; [temp_data_t] is three packed 32-bit fields. *)
Definition temp_sensors : Z := 0.
Definition last_sensor : Z := 1.
Definition sizeof_temp_data : Z := 12.

Definition data_map : list data_map_t := [
  DataMap (cs "temp_data") sizeof_temp_data dat_drp_idx_temp dat_drp_ack_temp
          (cs "%u %u %f") (cs "sat_index timestamp obc_temp_1")
].

(** ** Search *)
Definition find_var (p : dat_sys_var_t -> bool) : option dat_sys_var_t :=
  List.find p dat_status_list.

(** The zeroed structure when the address is not in the list. *)
Definition dat_get_status_var_def (address : Z) : dat_sys_var_t :=
  let var := SysVar 0 [] 0 0 0 in
  if address <? dat_status_last_address
  then default var (find_var (fun v => var_address v =? address))
  else var.

(** [None] stands for the structure with only [status = -1] set. *)
Definition dat_get_status_var_def_name (name : option cstring) : option dat_sys_var_t :=
  match name with
  | None => None
  | Some name => find_var (fun v => strcmp (var_name v) name =? 0)
  end.

(** ** Lemmas *)
Lemma def_name_of_var v :
  v ∈ dat_status_list -> dat_get_status_var_def_name (Some (var_name v)) = Some v.
Proof.
  intros H. repeat (apply elem_of_cons in H as [->|H]; [reflexivity|]). by apply elem_of_nil in H.
Qed.

Lemma def_of_address a :
  0 <= a < dat_status_last_address ->
  dat_get_status_var_def a ∈ dat_status_list /\ var_address (dat_get_status_var_def a) = a.
Proof.
  intros Ha. assert (a ∈ range dat_status_last_address) as H by (apply elem_of_seqZ; lia).
  revert H. generalize a. apply (proj1 (Forall_forall _ _)).
  apply (bool_decide_unpack _). vm_compute. exact I.
Qed.

Lemma var_value_u32 a : 0 <= var_value (dat_get_status_var_def a) < 2 ^ 32.
Proof.
  unfold dat_get_status_var_def. destruct (a <? _); [|cbn; lia].
  unfold find_var. destruct (List.find _ _) as [v|] eqn:E; [|cbn; lia].
  apply List.find_some in E as [Hin _].
  assert (Forall (fun v => 0 <= var_value v < 2 ^ 32) dat_status_list) as Hall
    by (apply (bool_decide_unpack _); vm_compute; exact I).
  apply (proj1 (Forall_forall _ _) Hall). by apply list_elem_of_In.
Qed.
