(* ===== verification/StorageSqlite.v ===== *)
(** * The SQLite storage back end

    [src/lib/storage/storage_sqlite.c], every function of it: the texts of the
    statements it sends, the buffers it writes them in, and what it does with
    the answers.  SQLite itself is the class [Sqlite] of Sql. *)
From S2P Require Import Prelude CStr Memory Float32 Config Storage Schema Sql.

(** The names of the tables, [repoDataSchema.h] of the application. *)
Definition DAT_TABLE_STATUS : cstring := cs "dat_status".
Definition DAT_TABLE_DATA : cstring := cs "dat_data".
Definition DAT_TABLE_FP : cstring := cs "dat_flightplan".

Module SqlStore.
Import Sql.

Definition ST_SQL_MAX_LEN : Z := 1000.

(** ** State: the static variables, and the disc *)
Record sql_state (Db : Type) := SqlSt {
  fp_table : ptr cstring;
  payloads_entries : Z;
  payloads_schema : option (list data_map_t);
  payloads_table : option cstring;
  storage_is_open : bool;
  db : bool;                        (** [db != NULL] *)
  disc : Db
}.
Arguments SqlSt {Db} _ _ _ _ _ _ _.
Arguments fp_table {Db} _.
Arguments payloads_entries {Db} _.
Arguments payloads_schema {Db} _.
Arguments payloads_table {Db} _.
Arguments storage_is_open {Db} _.
Arguments db {Db} _.
Arguments disc {Db} _.

Section sqlite.
Context {Db : Type} `{Sqlite Db}.
Abbreviation St := (sql_state Db).

Definition sql_boot (d : Db) : St := SqlSt Null 0 None None false false d.
Definition set_disc (d : Db) (s : St) : St :=
  SqlSt (fp_table s) (payloads_entries s) (payloads_schema s) (payloads_table s) (storage_is_open s) (db s) d.
Definition set_db (is_open handle : bool) (d : Db) (s : St) : St :=
  SqlSt (fp_table s) (payloads_entries s) (payloads_schema s) (payloads_table s) is_open handle d.
Definition set_fp_table (p : ptr cstring) (s : St) : St :=
  SqlSt p (payloads_entries s) (payloads_schema s) (payloads_table s) (storage_is_open s) (db s) (disc s).
Definition set_payloads (n : Z) (schema : list data_map_t) (t : cstring) (s : St) : St :=
  SqlSt (fp_table s) n (Some schema) (Some t) (storage_is_open s) (db s) (disc s).

(** A call with a null handle is undefined. *)
Definition exec (sql : cstring) : M St Z :=
  let! s := get in
  if negb (db s) then fail NullDeref else
  let '(rc, d) := sqlite3_exec sql (disc s) in
  put (set_disc d s) ;! ret rc.
Definition rows (sql : cstring) : M St (Z * list (list cell)) :=
  let! s := get in
  if negb (db s) then fail NullDeref else ret (sqlite3_rows sql (disc s)).

(** [sqlite3_exec], then an error for any other code than [SQLITE_OK]. *)
Definition exec_rc (sql : cstring) : M St Z :=
  let! rc := exec sql in
  ret (if rc =? SQLITE_OK then SCH_ST_OK else SCH_ST_ERROR).

Definition dq (s : cstring) : cstring := [chr_dq] ++ s ++ [chr_dq].
Definition nl : cstring := [10].

(** ** Open and close *)
Definition storage_init (db_name : cstring) : M St Z :=
  let! s := get in
  let d := if db s then sqlite3_close (disc s) else disc s in
  let '(rc, d) := sqlite3_open db_name d in
  if negb (rc =? SQLITE_OK) then put (set_db (storage_is_open s) true d s) ;! ret SCH_ST_ERROR
  else put (set_db true true d s) ;! ret SCH_ST_OK.

(** The name of the flight plan table is freed when there is no database, and
    the pointer is kept. *)
Definition storage_close : M St Z :=
  let! s := get in
  if db s then put (set_db false false (sqlite3_close (disc s)) s) ;! ret SCH_ST_OK
  else
    (if negb (is_null (fp_table s)) then free_ptr (fp_table s) ;! modify (set_fp_table Freed) else ret tt) ;!
    ret SCH_ST_ERROR.

(** ** Tables *)
Definition create_status_text (table : cstring) : cstring :=
  cs "CREATE TABLE IF NOT EXISTS " ++ table ++ cs "(idx INTEGER PRIMARY KEY, name TEXT UNIQUE, value INT);".
Definition storage_table_status_init (table : cstring) (n_variables : Z) (drop : bool) : M St Z :=
  let! rc := (if drop then exec_rc (cs "DROP TABLE " ++ table) else ret SCH_ST_OK) in
  if negb (rc =? SCH_ST_OK) then ret SCH_ST_ERROR else
  exec_rc (create_status_text table).

Definition create_fp_text (table : cstring) : cstring :=
  cs "CREATE TABLE IF NOT EXISTS " ++ table ++
  cs "(time int PRIMARY KEY , command text, args text , executions int , periodical int ,node int);".
Definition storage_table_flight_plan_init (table : cstring) (n_entries : Z) (drop : bool) : M St Z :=
  let! rc := (if drop then exec_rc (cs "DROP TABLE IF EXISTS " ++ table) else ret SCH_ST_OK) in
  if negb (rc =? SCH_ST_OK) then ret SCH_ST_ERROR else
  let! rc := exec_rc (create_fp_text table) in
  if negb (rc =? SCH_ST_OK) then ret SCH_ST_ERROR else
  let! s := get in
  (if negb (is_null (fp_table s)) then free_ptr (fp_table s) else ret tt) ;!
  modify (set_fp_table (Live table)) ;!
  ret SCH_ST_OK.

Definition get_sql_type (c_type : cstring) : cstring :=
  if strcmp c_type (cs "%f") =? 0 then cs "REAL" else
  if strcmp c_type (cs "%d") =? 0 then cs "INTEGER" else
  if strcmp c_type (cs "%u") =? 0 then cs "BIGINT" else
  if strcmp c_type (cs "%h") =? 0 then cs "INTEGER" else cs "TEXT".

(** The tokens of the two fields of the schema; the number of names. *)
Definition get_payloads_tokens (order var_names : cstring) : list cstring * list cstring :=
  (strtok_all chr_space order, strtok_all chr_space var_names).

(** [tok_sym[j]]: the array ends with a null pointer. *)
Definition sym_at (tok_sym : list cstring) (j : Z) : M St cstring :=
  match zlookup tok_sym j with
  | Some t => ret t
  | None => fail (if j =? zlength tok_sym then NullDeref else Uninitialized)
  end.

(** [CREATE TABLE IF NOT EXISTS] for a payload, in a buffer of
    [4 * SCH_BUFF_MAX_LEN] bytes, with lines of 100 bytes. *)
Definition create_payload_text (m : data_map_t) : M St cstring :=
  let size := SCH_BUFF_MAX_LEN * 4 in
  let head := take (Z.to_nat (size - 1))
                (cs "CREATE TABLE IF NOT EXISTS " ++ map_table m ++ cs "(id INTEGER, tstz TIMESTAMPTZ,") in
  if (300 <=? strlen (map_data_order m)) || (size <=? strlen (map_var_names m)) then fail OutOfBounds else
  let '(tok_sym, tok_var) := get_payloads_tokens (map_data_order m) (map_var_names m) in
  if 300 <=? zlength tok_var then fail OutOfBounds else
  let! text := fold_m (range (zlength tok_var)) (fun text j =>
    let! name := arr_get tok_var j in
    let! sym := sym_at tok_sym j in
    let line := name ++ [chr_space] ++ get_sql_type sym in
    if 100 <=? strlen line then fail OutOfBounds else
    ret (text ++ line ++ (if negb (j =? zlength tok_var - 1) then cs "," else []))) head in
  let text := text ++ cs ")" in
  if size <=? strlen text then fail OutOfBounds else ret text.

Definition storage_table_payload_init (table : option cstring) (data_map : option (list data_map_t)) (n_entries : Z)
    (drop : bool) : M St Z :=
  match table, data_map with
  | Some table, Some data_map =>
      (if drop then for_ (range n_entries) (fun i =>
         let! m := arr_get data_map i in
         exec (cs "DROP TABLE IF EXISTS " ++ map_table m) ;! ret tt)
       else ret tt) ;!
      let! r := for_ret (range n_entries) (fun i =>
        let! m := arr_get data_map i in
        let! text := create_payload_text m in
        let! rc := exec text in
        ret (if negb (rc =? SQLITE_OK) then Some SCH_ST_ERROR else None)) in
      match r with
      | Some e => ret e
      | None => modify (set_payloads n_entries data_map table) ;! ret SCH_ST_OK
      end
  | _, _ => ret SCH_ST_ERROR
  end.

(** ** Status variables *)
Definition status_get_text (table : cstring) (index : Z) : cstring :=
  cs "SELECT value FROM " ++ table ++ cs " WHERE idx=" ++ dq (print_dec index) ++ cs ";".
Definition storage_status_get_value_idx (index : Z) (table : cstring) : M St (Z * option Z) :=
  let! s := get in
  if negb (storage_is_open s) || negb (db s) then ret (SCH_ST_ERROR, None) else
  let! '(rc, r) := rows (status_get_text table (i32_of index)) in
  if negb (rc =? SQLITE_OK) then ret (SCH_ST_ERROR, None) else
  match r with
  | (x :: _) :: _ => ret (SCH_ST_OK, Some (u32_of (sqlite3_column_int x)))
  | _ => ret (SCH_ST_ERROR, None)
  end.

Definition status_set_text (table : cstring) (index value : Z) : cstring :=
  cs "INSERT OR REPLACE INTO " ++ table ++ cs " (idx, name, value) VALUES (" ++ print_dec index ++
  cs ", (SELECT name FROM " ++ table ++ cs " WHERE idx = " ++ dq (print_dec index) ++ cs "), " ++
  print_dec value ++ cs ");".
Definition storage_status_set_value_idx (index value : Z) (table : cstring) : M St Z :=
  let! s := get in
  if negb (storage_is_open s) || negb (db s) then ret SCH_ST_ERROR else
  exec_rc (status_set_text table index (i32_of value)).

(** ** Flight plan *)
Definition fp_set_text (table : cstring) (row : fp_entry) (command args : cstring) : cstring :=
  cs "INSERT OR REPLACE INTO " ++ table ++ cs " (time, command, args, executions, periodical, node)" ++ nl ++
  cs " VALUES (" ++ print_dec (fp_unixtime row) ++ cs ", " ++ dq command ++ cs ", " ++ dq args ++ cs ", " ++
  print_dec (fp_executions row) ++ cs ", " ++ print_dec (fp_periodical row) ++ cs ", " ++
  print_dec (fp_node row) ++ cs ");".
(** [sqlite3_mprintf] prints nothing for a null string. *)
Definition storage_flight_plan_set_st (row : fp_entry) : M St Z :=
  let! s := get in
  if is_null (fp_table s) then ret SCH_ST_ERROR else
  let! t := deref (fp_table s) in
  exec_rc (fp_set_text t row (default [] (fp_cmd row)) (default [] (fp_args row))).

Definition storage_flight_plan_set (timetodo : Z) (command args : option cstring) (executions period node : Z) : M St Z :=
  if (timetodo <? 0) || negb (issome command) || negb (issome args) then ret SCH_ST_ERROR else
  storage_flight_plan_set_st (FpEntry timetodo executions period node command args).

(** [atoi] of a text that may be null. *)
Definition atoi (p : option cstring) : M St Z :=
  match p with
  | None => fail NullDeref
  | Some s => ret (match scan_dec (skip_space s) with Some (z, _) => i32_of z | None => 0 end)
  end.
Definition strdup (p : option cstring) : M St (option cstring) :=
  match p with None => fail NullDeref | Some s => ret (Some s) end.

Definition fp_get_text (table : cstring) (timetodo : Z) : cstring :=
  cs "SELECT * FROM " ++ table ++ cs " WHERE time = " ++ print_dec timetodo.
Definition fp_get_idx_text (table : cstring) (rowid : Z) : cstring :=
  cs "SELECT * FROM " ++ table ++ cs " WHERE rowid = " ++ print_dec rowid.

(** The first row of [sqlite3_get_table], whose code is ignored. *)
Definition read_entry (sql : cstring) : M St (Z * option fp_entry) :=
  let! '(_, r) := rows sql in
  match r with
  | [] | [] :: _ => ret (SCH_ST_ERROR, None)
  | row :: _ =>
      let result j := let! x := arr_get row j in ret (sqlite3_column_text x) in
      let! p0 := result 0 in let! time := atoi p0 in
      let! p1 := result 1 in let! cmd := strdup p1 in
      let! p2 := result 2 in let! args := strdup p2 in
      let! p3 := result 3 in let! executions := atoi p3 in
      let! p4 := result 4 in let! periodical := atoi p4 in
      let! p5 := result 5 in let! node := atoi p5 in
      ret (SCH_ST_OK, Some (FpEntry time executions periodical node cmd args))
  end.
Definition storage_flight_plan_get_st (timetodo : Z) : M St (Z * option fp_entry) :=
  let! s := get in
  if is_null (fp_table s) then ret (SCH_ST_ERROR, None) else
  let! t := deref (fp_table s) in
  read_entry (fp_get_text t timetodo).
Definition storage_flight_plan_get_idx (index : Z) : M St (Z * option fp_entry) :=
  let! s := get in
  if is_null (fp_table s) then ret (SCH_ST_ERROR, None) else
  let! t := deref (fp_table s) in
  let! rowid := cint (index + 1) in
  read_entry (fp_get_idx_text t rowid).

Definition storage_flight_plan_get_args (timetodo : Z) : M St (Z * option fp_out) :=
  let! '(rc, e) := storage_flight_plan_get_st timetodo in
  if negb (rc =? SCH_ST_OK) then ret (rc, None) else
  match e with
  | None => fail Uninitialized
  | Some e =>
      match fp_cmd e, fp_args e with
      | Some c, Some a => ret (SCH_ST_OK, Some (FpOut c a (fp_executions e) (fp_periodical e) (fp_node e)))
      | _, _ => fail NullDeref
      end
  end.

Definition fp_delete_text (table : cstring) (timetodo : Z) : cstring :=
  cs "DELETE FROM " ++ table ++ nl ++ cs " WHERE time = " ++ print_dec timetodo.
Definition storage_flight_plan_delete_row (timetodo : Z) : M St Z :=
  let! s := get in
  if is_null (fp_table s) then ret SCH_ST_ERROR else
  let! t := deref (fp_table s) in
  exec_rc (fp_delete_text t timetodo).

Definition fp_delete_idx_text (table : cstring) (rowid : Z) : cstring :=
  cs "DELETE FROM " ++ table ++ nl ++ cs " WHERE rowid = " ++ print_dec rowid.
Definition storage_flight_plan_delete_row_idx (index : Z) : M St Z :=
  let! s := get in
  if is_null (fp_table s) then ret SCH_ST_ERROR else
  let! t := deref (fp_table s) in
  let! rowid := cint (index + 1) in
  exec_rc (fp_delete_idx_text t rowid).

Definition storage_flight_plan_reset : M St Z :=
  let! s := get in
  if is_null (fp_table s) then ret SCH_ST_ERROR else
  let! table := deref (fp_table s) in
  storage_table_flight_plan_init table 0 true.

(** ** Payloads

    [sprintf("%f")] of a [float]: six decimals, rounded to even. *)
Definition print_nat (n : Z) : cstring := dec_digits 40 n [].
Definition is_nan (bits : Z) : bool := (f32_exp bits =? 255) && negb (f32_frac bits =? 0).
Definition print_f32 (bits : Z) : cstring :=
  let sign := if f32_sign bits then [45] else [] in
  if is_nan bits then sign ++ cs "nan" else
  if f32_exp bits =? 255 then sign ++ cs "inf" else
  let m := if f32_exp bits =? 0 then f32_frac bits else f32_frac bits + 2 ^ 23 in
  let e := (if f32_exp bits =? 0 then 1 else f32_exp bits) - 150 in
  let n := round_half_even (scale_num (m * 10 ^ 6) e) (scale_den 1 e) in
  sign ++ print_nat (n / 10 ^ 6) ++ [46] ++ List.tl (print_nat (10 ^ 6 + n mod 10 ^ 6)).

Definition type_char (c_type : cstring) : M St Z := arr_get (with_nul c_type) 1.
Definition is_int_type (c : Z) : bool := (c =? 117) || (c =? 105) || (c =? 100).

Definition get_sizeof_type (c_type : cstring) : M St Z :=
  let! c := type_char c_type in
  ret (if c =? 102 then 4 else if is_int_type c then 4 else if c =? 104 then 2 else
       if c =? 115 then SCH_ST_STR_SIZE else -1).

(** [n] bytes of the sample at an offset. *)
Definition read_bytes (data : list Z) (off n : Z) : M St (list Z) :=
  if (0 <=? off) && (off + n <=? zlength data) then ret (take (Z.to_nat n) (drop (Z.to_nat off) data))
  else fail OutOfBounds.
(** [sprintf] to an offset of a buffer; the result is the length of the text. *)
Definition sprintf_at (buf : list Z) (off : Z) (text : cstring) : M St (list Z * Z) :=
  let! buf := list_write buf off (with_nul text) in ret (buf, strlen text).

Definition i16_of (z : Z) : Z := (z + 2 ^ 15) mod 2 ^ 16 - 2 ^ 15.

(** The value of one field with a comma.  For ['u'] there is no [break]: the text
    is written over with the signed one. *)
Definition get_value_string (dest : list Z) (off : Z) (c_type : cstring) (data : list Z) (pos : Z)
    : M St (list Z * Z) :=
  let field text := cs " " ++ text ++ cs "," in
  let! c := type_char c_type in
  if c =? 102 then
    let! b := read_bytes data pos 4 in
    sprintf_at dest off (field (if is_nan (of_le b) then cs "NULL" else print_f32 (of_le b)))
  else if is_int_type c then
    let! b := read_bytes data pos 4 in
    let! dest := (if c =? 117 then let! '(d, _) := sprintf_at dest off (field (print_dec (of_le b))) in ret d
                  else ret dest) in
    sprintf_at dest off (field (print_dec (i32_of (of_le b))))
  else if c =? 104 then
    let! b := read_bytes data pos 2 in
    sprintf_at dest off (field (print_dec (i16_of (of_le b))))
  else if c =? 115 then
    let! _ := (if (0 <=? pos) && (pos <=? zlength data) then ret tt else fail OutOfBounds) in
    let! s := lift (cstr_of_buf (drop (Z.to_nat pos) data)) in
    let text := cs " '" ++ s ++ cs "'," in
    let! dest := list_write dest off (with_nul (take (Z.to_nat (SCH_ST_STR_SIZE + 5 - 1)) text)) in
    ret (dest, strlen text)
  else ret (dest, -1).

(** The two buffers with their positions, and the position in the sample. *)
Record insert_bufs := InsertBufs { b_names : list Z; p_names : Z; b_values : list Z; p_values : Z; p_data : Z }.
Definition insert_field (data : list Z) (b : insert_bufs) (field : cstring * cstring) : M St insert_bufs :=
  let '(tok_type, tok_var) := field in
  let! '(names, name_len) := sprintf_at (b_names b) (p_names b) (cs " " ++ tok_var ++ cs ",") in
  let! value_size := get_sizeof_type tok_type in
  let! '(values, value_len) := get_value_string (b_values b) (p_values b) tok_type data (p_data b) in
  ret (InsertBufs names (p_names b + name_len) values (p_values b + value_len) (p_data b + value_size)).

Definition storage_payload_set_data (payload index : Z) (data : option (list Z)) (schema : option data_map_t) : M St Z :=
  match data, schema with
  | Some data, Some schema =>
      let zeros := replicate (Z.to_nat ST_SQL_MAX_LEN) 0 in
      let types := strtok_all chr_space (map_data_order schema) in
      let vars := strtok_all chr_space (map_var_names schema) in
      let! '(names, n1) := sprintf_at zeros 0 (cs "(id, tstz,") in
      let! '(values, n2) := sprintf_at zeros 0 (cs "(" ++ print_dec index ++ cs ", current_timestamp,") in
      let! b := fold_m (zip types vars) (insert_field data) (InsertBufs names n1 values n2 0) in
      let! names := arr_set (b_names b) (p_names b - 1) 41 in
      let! values := arr_set (b_values b) (p_values b - 1) 41 in
      if negb ((p_values b <? ST_SQL_MAX_LEN) && (p_names b <? ST_SQL_MAX_LEN)) then fail AssertFail else
      let! names := lift (cstr_of_buf names) in
      let! values := lift (cstr_of_buf values) in
      let insert_row := take (Z.to_nat (2 * ST_SQL_MAX_LEN - 1))
        (cs "INSERT INTO " ++ map_table schema ++ cs " " ++ names ++ cs " VALUES " ++ values) in
      let! rc := exec insert_row in
      ret (if negb (rc =? SQLITE_OK) then SCH_ST_ERROR else SCH_ST_OK)
  | _, _ => ret SCH_ST_ERROR
  end.

(** The bytes of a column; a column past the row is [NULL]. *)
Definition get_sqlite_value (c_type : cstring) (x : cell) : M St (list Z) :=
  let! c := type_char c_type in
  if c =? 102 then ret (le_bytes 4 (sqlite3_column_float x)) else
  if is_int_type c then ret (le_bytes 4 (u32_of (sqlite3_column_int x))) else
  if c =? 104 then ret (le_bytes 2 (sqlite3_column_int x)) else
  match sqlite3_column_text x with
  | None => fail NullDeref
  | Some s => ret (strncpy_bytes s SCH_ST_STR_SIZE)
  end.

Definition payload_get_text (schema : data_map_t) (index : Z) : cstring :=
  cs "SELECT " ++ map (fun c => if c =? chr_space then 44 else c) (map_var_names schema) ++
  cs " FROM " ++ map_table schema ++ cs " WHERE id=" ++ print_dec index ++ cs " LIMIT 1".
Definition storage_payload_get_data (payload index : Z) (schema : option data_map_t) : M St (Z * option (list Z)) :=
  match schema with
  | None => ret (SCH_ST_ERROR, None)
  | Some schema =>
      let text := payload_get_text schema index in
      if 2 * ST_SQL_MAX_LEN <=? strlen text then fail OutOfBounds else
      let! '(rc, r) := rows text in
      if negb (rc =? SQLITE_OK) then ret (SCH_ST_ERROR, None) else
      match r with
      | [] => ret (SCH_ST_ERROR, None)
      | row :: _ =>
          let! '(data, _) := fold_m (strtok_all chr_space (map_data_order schema)) (fun '(data, column) tok_type =>
            let! param_size := get_sizeof_type tok_type in
            if param_size <? 0 then fail OutOfBounds else
            let! v := get_sqlite_value tok_type (default SNull (zlookup row column)) in
            ret (data ++ take (Z.to_nat param_size) v, column + 1)) ([], 0) in
          ret (SCH_ST_OK, Some data)
      end
  end.

Definition storage_payload_reset : M St Z :=
  let! s := get in
  storage_table_payload_init (payloads_table s) (payloads_schema s) (payloads_entries s) true.

Definition storage_payload_reset_table (payload : Z) : M St Z :=
  let! s := get in
  match payloads_schema s with
  | None => ret SCH_ST_ERROR
  | Some schema =>
      if negb (db s) || negb (storage_is_open s) || (payloads_entries s <=? payload) then ret SCH_ST_ERROR else
      let! m := arr_get schema payload in
      exec_rc (cs "DELETE FROM " ++ map_table m)
  end.
End sqlite.
Arguments sql_state : clear implicits.
End SqlStore.

(** The back end behind [storage.h], with the arguments the data repository
    gives: its table names, [data_map], and the schema of the payload. *)
Definition sqlite_storage {Db} `{Sqlite Db} (fs_db_file : cstring) : Storage (SqlStore.sql_state Db) := {|
  storage_init := SqlStore.storage_init fs_db_file;
  storage_close := SqlStore.storage_close;
  storage_table_status_init := SqlStore.storage_table_status_init DAT_TABLE_STATUS;
  storage_table_flight_plan_init := SqlStore.storage_table_flight_plan_init DAT_TABLE_FP;
  storage_table_payload_init := SqlStore.storage_table_payload_init (Some DAT_TABLE_DATA) (Some data_map);
  storage_status_get_value_idx i := SqlStore.storage_status_get_value_idx i DAT_TABLE_STATUS;
  storage_status_set_value_idx i v := SqlStore.storage_status_set_value_idx i v DAT_TABLE_STATUS;
  storage_flight_plan_set := SqlStore.storage_flight_plan_set;
  storage_flight_plan_get_idx := SqlStore.storage_flight_plan_get_idx;
  storage_flight_plan_get_args := SqlStore.storage_flight_plan_get_args;
  storage_flight_plan_delete_row := SqlStore.storage_flight_plan_delete_row;
  storage_flight_plan_delete_row_idx := SqlStore.storage_flight_plan_delete_row_idx;
  storage_flight_plan_reset := SqlStore.storage_flight_plan_reset;
  storage_payload_set_data p i data size := SqlStore.storage_payload_set_data p i data (size ≫= fun _ => zlookup data_map p);
  storage_payload_get_data p i size := SqlStore.storage_payload_get_data p i (size ≫= fun _ => zlookup data_map p);
  storage_payload_reset := SqlStore.storage_payload_reset;
  storage_payload_reset_table := SqlStore.storage_payload_reset_table
|}.
