(* ===== verification/RepoData.v ===== *)
(** * The data repository

    [src/system/repoData.c]: status variables, the flight plan, the clock,
    payload samples and the sampling state machine, on top of the storage
    interface.  The functions are sequences of critical sections ([repo_data_sem]
    taken and given), which are storage calls without interruption here; Locks
    has the semaphore.  Without [SCH_STORAGE_TRIPLE_WR], except
    for the two functions at the end of the section. *)
From S2P Require Import Prelude CStr Memory Config Storage StorageRam Schema.

Module RepoData.

Section repo.
Context {S : Type} `{Storage S}.

(** ** State *)
Definition ACT_LAST : Z := 3.
Record dat_stmachine_t := StMachine {
  sm_state : Z;
  sm_action : Z;
  sm_active_payloads : Z;
  sm_step : Z;
  sm_samples_left : Z;
  sm_total_sensors : Z
}.

(** [unixtime] is the system clock (64 bits); [settime_ok] says whether the
    operating system lets the program set it. *)
Record dat := Dat {
  store : S;
  unixtime : Z;
  settime_ok : bool;
  status_machine : dat_stmachine_t
}.

Definition set_store (s : S) (d : dat) : dat := Dat s (unixtime d) (settime_ok d) (status_machine d).
Definition store_lens : lens dat S := Lens store set_store.
Definition st {A} (m : M S A) : M dat A := zoom store_lens m.

(** ** Status variables *)
Definition dat_set_status_var (index value : Z) : M dat Z :=
  st (storage_status_set_value_idx index value).

Definition _dat_set_system_var (index value : Z) : M dat Z :=
  st (storage_status_set_value_idx index (u32_of value)).

Definition dat_set_system_var (index value : Z) : M dat Z :=
  dat_set_status_var index (u32_of value).

(** The return code of the storage is ignored: when it fails, the local
    variable has no value. *)
Definition dat_get_status_var (index : Z) : M dat Z :=
  let! '(_, value_1) := st (storage_status_get_value_idx index) in
  match value_1 with Some v => ret v | None => fail Uninitialized end.

Definition _dat_get_system_var (index : Z) : M dat Z :=
  let! '(_, value) := st (storage_status_get_value_idx index) in
  match value with Some v => ret (i32_of v) | None => fail Uninitialized end.

Definition dat_get_system_var (index : Z) : M dat Z :=
  let! var := dat_get_status_var index in ret (i32_of var).

Definition dat_set_status_var_name (name : option cstring) (value : Z) : M dat Z :=
  match dat_get_status_var_def_name name with
  | None => ret (-1)
  | Some var => dat_set_status_var (var_address var) value
  end.

(** For an unknown name the address is not initialised. *)
Definition dat_get_status_var_name (name : option cstring) : M dat Z :=
  match dat_get_status_var_def_name name with
  | None => fail Uninitialized
  | Some var => dat_get_status_var (var_address var)
  end.

Definition dat_reset_status_vars : M dat Z :=
  let! rc := fold_m (range dat_status_last_address) (fun rc index =>
    let! r := dat_set_status_var index (var_value (dat_get_status_var_def index)) in
    cint (rc + r)) SCH_ST_OK in
  ret (if rc =? SCH_ST_OK then SCH_ST_OK else SCH_ST_ERROR).

(** ** Start and stop

    [ram] says whether the storage is not persistent ([SCH_ST_RAM]). *)
Definition dat_repo_init (ram : bool) : M dat unit :=
  st storage_init ;!
  let! rc := st (storage_table_status_init dat_status_last_var false) in
  (if (rc =? SCH_ST_OK) && ram then dat_reset_status_vars ;! ret tt else ret tt) ;!
  st (storage_table_payload_init last_sensor false) ;!
  st (storage_table_flight_plan_init SCH_FP_MAX_ENTRIES false) ;!
  ret tt.

Definition dat_repo_close : M dat unit := st storage_close ;! ret tt.

(** ** Flight plan

    The counter [dat_fpl_queue] is read before the critical section and
    written after it: [dat_set_fp] is three critical sections. *)
Definition set_fp_store (timetodo : Z) (command args : option cstring) (executions periodical : Z) : M dat Z :=
  st (storage_flight_plan_set timetodo command args executions periodical SCH_COMM_NODE).
Definition set_fp_count (entries rc : Z) : M dat Z :=
  if rc =? SCH_ST_OK then
    let! n := cint (entries + 1) in
    dat_set_system_var dat_fpl_queue n ;! ret rc
  else ret rc.

Definition dat_set_fp (timetodo : Z) (command args : option cstring) (executions periodical : Z) : M dat Z :=
  let! entries := dat_get_system_var dat_fpl_queue in
  let! rc := set_fp_store timetodo command args executions periodical in
  set_fp_count entries rc.

Definition dat_get_fp (elapsed_sec : Z) : M dat (Z * option fp_out) :=
  let! entries := dat_get_system_var dat_fpl_queue in
  let! '(rc, out) := st (storage_flight_plan_get_args elapsed_sec) in
  let! rc := (if rc =? SCH_ST_OK then st (storage_flight_plan_delete_row elapsed_sec) else ret rc) in
  if rc =? SCH_ST_OK then
    let! n := cint (entries - 1) in
    dat_set_system_var dat_fpl_queue n ;! ret (rc, out)
  else ret (rc, out).

Definition dat_del_fp (timetodo : Z) : M dat Z :=
  let! entries := dat_get_system_var dat_fpl_queue in
  let! rc := st (storage_flight_plan_delete_row timetodo) in
  if rc =? SCH_ST_OK then
    let! n := cint (entries - 1) in
    dat_set_system_var dat_fpl_queue n ;! ret rc
  else ret rc.

Definition dat_reset_fp : M dat Z :=
  let! rc := st storage_flight_plan_reset in
  if rc =? SCH_ST_OK then dat_set_system_var dat_fpl_queue 0 ;! ret rc else ret rc.

(** ** Clock *)
Definition dat_get_time : M dat Z := gets unixtime.

(** [osSetTimeUnix] of the x86 port: 0 when the clock was set, 1 otherwise. *)
Definition dat_set_time (new_time : Z) : M dat Z :=
  let! d := get in
  if settime_ok d
  then put (Dat (store d) new_time (settime_ok d) (status_machine d)) ;! ret 0
  else ret 1.

(** What is printed: the date ([true]) or the number ([false]). *)
Definition dat_show_time (format : Z) : M dat (Z * list bool) :=
  let! _ := dat_get_time in
  ret (0, (if (format =? 0) || (1 <? format) then [true] else []) ++
          (if 1 <=? format then [false] else [])).

(** The body of the loop of [dat_purge_fp].  [fp_i] is declared outside the
    loop: when the storage does not write it, it keeps the value of the
    iteration before, or none. *)
Definition purge_entry (time_min : Z) (acc : Z * option fp_entry) (i : Z) : M dat (Z * option fp_entry) :=
  let '(fp_entries, fp_i) := acc in
  let! '(ok, e) := st (storage_flight_plan_get_idx i) in
  let fp_i := match e with Some e => Some e | None => fp_i end in
  let! valid := (if ok =? SCH_ST_OK then
                   match fp_i with Some e => ret (time_min <? fp_unixtime e) | None => fail Uninitialized end
                 else ret false) in
  if (valid : bool) then ret (fp_entries + 1, fp_i)
  else match fp_i with
       | None => fail Uninitialized
       | Some e => (if negb (fp_unixtime e =? ST_FP_NULL)
                    then st (storage_flight_plan_delete_row_idx i) ;! ret tt
                    else ret tt) ;! ret (fp_entries, fp_i)
       end.

Definition dat_purge_fp : M dat Z :=
  let! now := dat_get_time in
  let! time_min := cint (i32_of now + 1) in
  let! '(fp_entries, _) := fold_m (range SCH_FP_MAX_ENTRIES) (purge_entry time_min) (0, None) in
  dat_set_system_var dat_fpl_queue fp_entries ;!
  ret SCH_ST_OK.

(** The entries printed; [fp_i] is local to the loop body. *)
Definition dat_show_fp : M dat (Z * list fp_entry) :=
  let! out := fold_m (range SCH_FP_MAX_ENTRIES) (fun out i =>
    let! '(ok, e) := st (storage_flight_plan_get_idx i) in
    if ok =? SCH_ST_OK then
      match e with
      | None => fail Uninitialized
      | Some e => ret (if negb (fp_unixtime e =? ST_FP_NULL) then out ++ [e] else out)
      end
    else ret out) [] in
  ret (SCH_ST_OK, out).

Definition dat_get_fp_st_index (index : Z) : M dat (Z * option fp_entry) :=
  st (storage_flight_plan_get_idx index).

(** ** Payloads

    [data] is the object the pointer refers to. *)
Definition dat_add_payload_sample (data : option (list Z)) (payload : Z) : M dat Z :=
  match data with
  | None => ret (-1)
  | Some bytes =>
      let! schema := arr_get data_map payload in
      let! index := dat_get_system_var (map_sys_index schema) in
      if zlength bytes <? 4 then fail OutOfBounds else
      if last_sensor <=? payload then ret SCH_ST_ERROR else
      let! r := st (storage_payload_set_data payload index data (Some (map_size schema))) in
      if SCH_ST_OK <=? r then
        let! index := cint (index + 1) in
        dat_set_system_var (map_sys_index schema) index ;! ret 0
      else ret (-1)
  end.

Definition dat_get_payload_sample (payload index : Z) : M dat (Z * option (list Z)) :=
  let! schema := arr_get data_map payload in
  st (storage_payload_get_data payload index (Some (map_size schema))).

Definition dat_get_recent_payload_sample (payload offset : Z) : M dat (Z * option (list Z)) :=
  let! schema := arr_get data_map payload in
  let! index := dat_get_system_var (map_sys_index schema) in
  let! last := cint (index - 1) in
  let! i := cint (last - offset) in
  if 0 <=? i then st (storage_payload_get_data payload i (Some (map_size schema)))
  else ret (-1, None).

Definition dat_delete_payload (payload : Z) : M dat Z :=
  if last_sensor <=? payload then ret SCH_ST_ERROR else
  let! rc := st (storage_payload_reset_table payload) in
  if rc =? SCH_ST_OK then
    let! schema := arr_get data_map payload in
    dat_set_system_var (map_sys_index schema) 0 ;!
    dat_set_system_var (map_sys_ack schema) 0 ;!
    ret rc
  else ret rc.

Definition dat_delete_memory_sections : M dat Z :=
  st storage_payload_reset ;!
  let! r := st storage_flight_plan_reset in
  for_ (range last_sensor) (fun i =>
    let! schema := arr_get data_map i in
    dat_set_system_var (map_sys_index schema) 0 ;! ret tt) ;!
  dat_set_system_var dat_fpl_queue 0 ;!
  ret r.

(** ** Printing a sample

    The walk over the fields that [dat_print_payload_struct] and
    [dat_fprint_payload_struct] share: each type of the format consumes its
    bytes of the sample; the result is the bytes printed for each field. *)
Definition field_size (type : cstring) : M dat Z :=
  match zlookup (with_nul type) 1 with
  | None => fail OutOfBounds
  | Some c =>
      ret (if c =? 102 (* f *) then 4
           else if (c =? 117) || (c =? 105) || (c =? 100) (* u i d *) then 4
           else if c =? 104 (* h *) then 2
           else if c =? 115 (* s *) then SCH_ST_STR_SIZE
           else 1)
  end.

Fixpoint walk_fields (types : list cstring) (data : list Z) : M dat (list (cstring * list Z)) :=
  match types with
  | [] => ret []
  | type :: types =>
      let! n := field_size type in
      if zlength data <? n then fail OutOfBounds else
      let! rest := walk_fields types (drop (Z.to_nat n) data) in
      ret ((type, take (Z.to_nat n) data) :: rest)
  end.

(** A type without a name, or a name without a type, ends the walk. *)
Definition dat_print_payload_struct (data : list Z) (payload : Z)
  : M dat (Z * list (cstring * (cstring * list Z))) :=
  let! schema := arr_get data_map payload in
  let types := strtok_all chr_space (map_data_order schema) in
  let names := strtok_all chr_space (map_var_names schema) in
  let! fields := walk_fields (take (length names) types) data in
  ret (0, zip names fields).

Definition dat_fprint_payload_struct (stream_ok : bool) (data : list Z) (payload : Z)
  : M dat (Z * list (cstring * list Z)) :=
  if negb stream_ok then ret (-1, []) else
  let! schema := arr_get data_map payload in
  let! fields := walk_fields (strtok_all chr_space (map_data_order schema)) data in
  ret (0, fields).

(** ** Sampling state machine *)
Definition dat_set_stmachine_state (action step nsamples : Z) : M dat Z :=
  if (0 <=? action) && (action <? ACT_LAST) && (0 <? step) && (-2 <? nsamples) then
    modify (fun d =>
      let m := status_machine d in
      Dat (store d) (unixtime d) (settime_ok d)
        (StMachine (sm_state m) action (sm_active_payloads m) step nsamples (sm_total_sensors m))) ;!
    ret 1
  else ret 0.

(** [1 << n] is defined for [0 <= n < 31]. *)
Definition shift1 (n : Z) : M dat Z :=
  if (0 <=? n) && (n <? 31) then ret (Z.shiftl 1 n) else fail BadShift.

Definition dat_stmachine_is_sensor_active (payload active_payloads n_payloads : Z) : M dat Z :=
  let! top := shift1 n_payloads in
  if top <=? active_payloads then ret 0 else
  let! bit := shift1 payload in
  ret (if negb (Z.land active_payloads bit =? 0) then 1 else 0).

(** ** Triple writing

    [dat_set_status_var] and [dat_get_status_var] built with
    [SCH_STORAGE_TRIPLE_WR == 1]: three copies, and a majority vote. *)
Definition dat_set_status_var_triple (index value : Z) : M dat Z :=
  let! rc := st (storage_status_set_value_idx index value) in
  let! rc2 := st (storage_status_set_value_idx (index + dat_status_last_address) value) in
  let! rc3 := st (storage_status_set_value_idx (index + dat_status_last_address * 2) value) in
  ret (Z.lor (Z.lor rc rc2) rc3).

Definition vote (v1 v2 v3 : Z) : Z :=
  if (v1 =? v2) || (v1 =? v3) then v1 else if v2 =? v3 then v2 else v1.

Definition dat_get_status_var_triple (index : Z) : M dat Z :=
  let! '(_, value_1) := st (storage_status_get_value_idx index) in
  let! '(_, value_2) := st (storage_status_get_value_idx (index + dat_status_last_var)) in
  let! '(_, value_3) := st (storage_status_get_value_idx (index + dat_status_last_var * 2)) in
  match value_1, value_2, value_3 with
  | Some v1, Some v2, Some v3 => ret (vote v1 v2 v3)
  | _, _, _ => fail Uninitialized
  end.

End repo.
Arguments dat : clear implicits.
End RepoData.

(** ** Laws of the repository, from the laws of the storage *)
Module RepoDataLaws.
Import RepoData.

Section laws.
Context {S : Type} `{StorageLaws S}.
Implicit Types (d : dat S) (s : S).

Lemma st_step {A} (m : M S A) d a s' : m (store d) = Ret (a, s') -> st m d = Ret (a, set_store s' d).
Proof. apply (zoom_step store_lens). Qed.

(** The storage is ready and has every status variable. *)
Definition dat_ok d : Prop :=
  st_ok (store d) /\ dat_status_last_address <= st_status_size (store d).

(** The status variables of a repository. *)
Definition var d (i : Z) : Z := st_status (store d) i.

Lemma set_store_set s1 s2 d : set_store s2 (set_store s1 d) = set_store s2 d.
Proof. done. Qed.

Lemma get_status_ok d i :
  dat_ok d -> 0 <= i < st_status_size (store d) -> dat_get_status_var i d = Ret (var d i, d).
Proof.
  intros [Hok _] Hi. unfold dat_get_status_var, bind.
  rewrite (st_step _ d _ _ (law_status_get _ i Hok Hi)). by destruct d.
Qed.

Lemma get_system_ok d i :
  dat_ok d -> 0 <= i < dat_status_last_address -> dat_get_system_var i d = Ret (i32_of (var d i), d).
Proof.
  intros Hok Hi. pose proof Hok as [_ Hn]. unfold dat_get_system_var.
  rewrite (bind_step _ _ _ _ _ (get_status_ok d i Hok ltac:(lia))). done.
Qed.

Lemma set_status_ok d i v :
  dat_ok d -> 0 <= i < st_status_size (store d) -> 0 <= v < 2 ^ 32 ->
  exists s', storage_status_set_value_idx i v (store d) = Ret (SCH_ST_OK, s') /\
    dat_set_status_var i v d = Ret (SCH_ST_OK, set_store s' d) /\ dat_ok (set_store s' d) /\
    st_status_size s' = st_status_size (store d) /\
    st_slots s' = st_slots (store d) /\ (forall n, st_room n (store d) -> st_room n s') /\
    forall j, 0 <= j < st_status_size (store d) ->
      var (set_store s' d) j = if decide (j = i) then v else var d j.
Proof.
  intros [Hok Hn] Hi Hv.
  destruct (law_status_set _ i v Hok Hi Hv) as (s' & E & Hok' & Hsz & Hsl & Hroom & Hj).
  exists s'. split; [done|]. split; [by apply st_step|]. split; [split; [done|cbn; lia]|]. done.
Qed.

Lemma used_range d : dat_ok d -> 0 <= used (st_slots (store d)) <= SCH_FP_MAX_ENTRIES.
Proof.
  intros [Hok _]. rewrite <- (law_slots_len _ Hok). split; [apply used_nonneg|apply used_le].
Qed.

Lemma slots_times_ok d : dat_ok d -> times_ok (st_slots (store d)).
Proof. intros [Hok _] k r. by apply law_slots_time. Qed.

(** ** The flight plan counter *)
Definition fp_ok d : Prop :=
  dat_ok d /\ var d dat_fpl_queue = used (st_slots (store d)).

Lemma counter_read d : fp_ok d -> dat_get_system_var dat_fpl_queue d = Ret (used (st_slots (store d)), d).
Proof.
  intros [Hok Hq]. rewrite get_system_ok by done. rewrite Hq, i32_of_id; [done|].
  pose proof (used_range d Hok). unfold INT_MIN, INT_MAX, SCH_FP_MAX_ENTRIES in *. lia.
Qed.

(** Writing the number of entries of a changed table restores the invariant. *)
Lemma counter_write d s' n :
  dat_ok (set_store s' d) -> n = used (st_slots s') ->
  exists s'', dat_set_system_var dat_fpl_queue n (set_store s' d) = Ret (SCH_ST_OK, set_store s'' d) /\
    fp_ok (set_store s'' d) /\ st_slots s'' = st_slots s' /\ (forall n, st_room n s' -> st_room n s'') /\
    st_status_size s'' = st_status_size s' /\
    forall j, 0 <= j < st_status_size s' -> j <> dat_fpl_queue -> st_status s'' j = st_status s' j.
Proof.
  intros Hok Hn. pose proof (used_range _ Hok) as Hr. cbn in Hr.
  assert (u32_of n = n) as Hu by (apply u32_of_id; unfold SCH_FP_MAX_ENTRIES in *; lia).
  pose proof Hok as [_ Hsz]. cbn in Hsz. unfold dat_set_system_var. rewrite Hu.
  destruct (set_status_ok (set_store s' d) dat_fpl_queue n Hok) as (s'' & _ & E & Hok' & Hs2 & Hsl & Hroom & Hj).
  { cbn. unfold dat_fpl_queue, dat_status_last_address in *. lia. }
  { unfold SCH_FP_MAX_ENTRIES in *. lia. }
  exists s''. cbn in *. split; [done|]. split.
  - split; [done|]. cbn. rewrite Hsl, Hj by (unfold dat_fpl_queue, dat_status_last_address in *; lia).
    by rewrite decide_True by done.
  - splits; try done. intros j Hb Hne. specialize (Hj j Hb). by rewrite decide_False in Hj.
Qed.

(** ** The flight plan against its specification *)
Definition spec_set (t : Z) (c a : cstring) (e p : Z) (slots : list (option fp_row))
  : Z * list (option fp_row) :=
  if t <? 0 then (SCH_ST_ERROR, slots)
  else match tbl_set (FpRow t c a e p SCH_COMM_NODE) slots with
       | Some slots' => (SCH_ST_OK, slots')
       | None => (SCH_ST_ERROR, slots)
       end.

Definition spec_get (t : Z) (slots : list (option fp_row))
  : (Z * option fp_out) * list (option fp_row) :=
  match tbl_get t slots with
  | Some r => ((SCH_ST_OK, Some (row_out r)), default slots (tbl_delete t slots))
  | None => ((SCH_ST_ERROR, None), slots)
  end.

Definition spec_del (t : Z) (slots : list (option fp_row)) : Z * list (option fp_row) :=
  match tbl_delete t slots with
  | Some slots' => (SCH_ST_OK, slots')
  | None => (SCH_ST_ERROR, slots)
  end.

Definition int_ok (z : Z) : Prop := INT_MIN <= z <= INT_MAX.

Lemma dat_set_fp_ok d t c a e p :
  fp_ok d -> st_room 1 (store d) -> int_ok t -> int_ok e -> int_ok p -> fits_fp c -> fits_fp a ->
  exists s', dat_set_fp t (Some c) (Some a) e p d =
      Ret (fst (spec_set t c a e p (st_slots (store d))), set_store s' d) /\
    fp_ok (set_store s' d) /\ st_slots s' = snd (spec_set t c a e p (st_slots (store d))) /\
    (forall n, st_room (n + 1) (store d) -> st_room n s').
Proof.
  intros Hfp Hroom Ht He Hp Hc Ha. pose proof Hfp as [[Hok Hsz] Hq]. unfold dat_set_fp.
  rewrite (bind_step _ _ _ _ _ (counter_read d Hfp)).
  destruct (law_fp_set (store d) t c a e p SCH_COMM_NODE Hok Hroom Ht He Hp ltac:(done) Hc Ha)
    as (s1 & E & Hok1 & Hsz1 & Hr1 & Hst1 & Hsl1).
  unfold set_fp_store, set_fp_count.
  rewrite (bind_step _ _ _ _ _ (st_step _ d _ _ E)). unfold spec_set.
  assert (dat_ok (set_store s1 d)) as Hd1 by (split; [done|cbn; lia]).
  destruct (t <? 0) eqn:Et.
  { exists s1. split; [done|]. split; [|by split]. split; [done|].
    change (st_status s1 dat_fpl_queue = used (st_slots s1)). rewrite Hsl1, Hst1; [done|].
    unfold dat_fpl_queue, dat_status_last_address in *. lia. }
  destruct (tbl_set _ (st_slots (store d))) as [slots'|] eqn:Es; cbn [issome default] in *.
  - pose proof (tbl_set_used _ _ _ (slots_times_ok d (conj Hok Hsz)) Es) as Hu.
    cbn [Z.eqb SCH_ST_OK]. pose proof (used_range d (conj Hok Hsz)).
    unfold bind at 1. rewrite cint_ok by (unfold INT_MIN, INT_MAX, SCH_FP_MAX_ENTRIES in *; lia).
    destruct (counter_write d s1 (used (st_slots (store d)) + 1) Hd1 ltac:(rewrite Hsl1; cbn; lia))
      as (s2 & E2 & Hfp2 & Hsl2 & Hr2 & _).
    rewrite (bind_step _ _ _ _ _ E2). exists s2. split; [done|]. split; [done|].
    split; [by rewrite Hsl2, Hsl1|]. auto.
  - cbn. exists s1. split; [done|]. split; [|by split]. split; [done|].
    change (st_status s1 dat_fpl_queue = used (st_slots s1)). rewrite Hsl1, Hst1; [done|].
    unfold dat_fpl_queue, dat_status_last_address in *. lia.
Qed.

(** The deletion that [dat_get_fp] and [dat_del_fp] end with. *)
Lemma delete_and_count {R} d t (ok err : R) :
  fp_ok d -> t <> ST_FP_NULL ->
  exists s', (let! rc := st (storage_flight_plan_delete_row t) in
              if rc =? SCH_ST_OK then
                let! n := cint (used (st_slots (store d)) - 1) in
                dat_set_system_var dat_fpl_queue n ;! ret (rc, ok)
              else ret (rc, err)) d =
      Ret ((fst (spec_del t (st_slots (store d))),
            if issome (tbl_delete t (st_slots (store d))) then ok else err), set_store s' d) /\
    fp_ok (set_store s' d) /\ st_slots s' = snd (spec_del t (st_slots (store d))) /\
    (forall n, st_room n (store d) -> st_room n s').
Proof.
  intros Hfp Ht. pose proof Hfp as [[Hok Hsz] Hq].
  destruct (law_fp_delete (store d) t Hok Ht) as (s1 & E & Hok1 & Hsz1 & Hroom1 & Hst1 & Hsl1).
  rewrite (bind_step _ _ _ _ _ (st_step _ d _ _ E)). unfold spec_del.
  assert (dat_ok (set_store s1 d)) as Hd1 by (split; [done|cbn; lia]).
  destruct (tbl_delete t (st_slots (store d))) as [slots'|] eqn:Es; cbn [issome default] in *.
  - pose proof (tbl_delete_used _ _ _ Ht Es) as Hu. pose proof (used_range d (conj Hok Hsz)).
    cbn [Z.eqb SCH_ST_OK]. unfold bind at 1.
    rewrite cint_ok by (unfold INT_MIN, INT_MAX, SCH_FP_MAX_ENTRIES in *; lia).
    destruct (counter_write d s1 (used (st_slots (store d)) - 1) Hd1 ltac:(rewrite Hsl1; cbn; lia))
      as (s2 & E2 & Hfp2 & Hsl2 & Hroom2 & _).
    rewrite (bind_step _ _ _ _ _ E2). exists s2. split; [done|]. split; [done|].
    split; [by rewrite Hsl2, Hsl1|]. auto.
  - cbn. exists s1. split; [done|]. split; [|done]. split; [done|].
    change (st_status s1 dat_fpl_queue = used (st_slots s1)). rewrite Hsl1, Hst1; [done|].
    unfold dat_fpl_queue, dat_status_last_address in *. lia.
Qed.

Lemma dat_del_fp_ok d t :
  fp_ok d -> t <> ST_FP_NULL ->
  exists s', dat_del_fp t d = Ret (fst (spec_del t (st_slots (store d))), set_store s' d) /\
    fp_ok (set_store s' d) /\ st_slots s' = snd (spec_del t (st_slots (store d))) /\
    (forall n, st_room n (store d) -> st_room n s').
Proof.
  intros Hfp Ht. destruct (delete_and_count (R := unit) d t tt tt Hfp Ht) as (s' & E & H1 & H2 & H3).
  exists s'. split; [|done]. unfold dat_del_fp. rewrite (bind_step _ _ _ _ _ (counter_read d Hfp)).
  unfold bind in *. destruct (st _ d) as [[rc d1]|]; [|done].
  destruct (rc =? SCH_ST_OK); [|unfold ret in *; congruence].
  destruct (cint _ d1) as [[n d2]|]; [|done]. destruct (dat_set_system_var _ n d2) as [[x d3]|]; [|done].
  unfold ret in *. congruence.
Qed.

Lemma dat_get_fp_ok d t :
  fp_ok d -> t <> ST_FP_NULL ->
  exists s', dat_get_fp t d = Ret (fst (spec_get t (st_slots (store d))), set_store s' d) /\
    fp_ok (set_store s' d) /\ st_slots s' = snd (spec_get t (st_slots (store d))) /\
    (forall n, st_room n (store d) -> st_room n s').
Proof.
  intros Hfp Ht. pose proof Hfp as [[Hok Hsz] Hq]. unfold dat_get_fp.
  rewrite (bind_step _ _ _ _ _ (counter_read d Hfp)).
  rewrite (bind_step _ _ _ _ _ (st_step _ d _ _ (law_fp_get_args (store d) t Hok Ht))).
  replace (set_store (store d) d) with d by (by destruct d). unfold spec_get.
  pose proof (tbl_get_delete t (st_slots (store d)) Ht) as Hgd.
  destruct (tbl_get t (st_slots (store d))) as [r|] eqn:Eg; cbn [Z.eqb SCH_ST_OK].
  - destruct (delete_and_count d t (Some (row_out r)) (Some (row_out r)) Hfp Ht) as (s' & E & H1 & H2 & H3).
    exists s'. unfold spec_del in *. destruct (tbl_delete t (st_slots (store d))) as [slots'|] eqn:Ed.
    + split; [|done]. exact E.
    + destruct (proj1 Hgd) as [? ?]; [eauto|done].
  - exists (store d). cbn. destruct d. split; [done|]. done.
Qed.

(** ** Purging *)
Definition keep (time_min : Z) (o : option fp_row) : option fp_row :=
  match o with Some r => if time_min <? row_time r then Some r else None | None => None end.

(** What the loop leaves alone. *)
Definition same_vars s s' : Prop :=
  st_status_size s' = st_status_size s /\ (forall n, st_room n s -> st_room n s') /\
  forall j, 0 <= j < st_status_size s -> st_status s' j = st_status s j.

Lemma same_vars_trans s1 s2 s3 : same_vars s1 s2 -> same_vars s2 s3 -> same_vars s1 s3.
Proof.
  intros (E1 & R1 & H1) (E2 & R2 & H2). split; [congruence|]. split; [auto|]. intros j Hj. rewrite H2, H1 by lia. done.
Qed.

Context `{!StorageSlotLaws S}.

(** The deletion of a slot in the middle of the table. *)
Lemma purge_delete d pre o suf :
  dat_ok d -> st_slots (store d) = pre ++ o :: suf ->
  exists s', st (storage_flight_plan_delete_row_idx (zlength pre)) d = Ret (SCH_ST_OK, set_store s' d) /\
    dat_ok (set_store s' d) /\ same_vars (store d) s' /\ st_slots s' = pre ++ None :: suf.
Proof.
  intros [Hst Hsz] Hsl. pose proof (law_slots_len _ Hst) as Hlen. rewrite Hsl in Hlen. unfold zlength in Hlen.
  rewrite length_app in Hlen. cbn [length] in Hlen.
  destruct (law_slot_delete (store d) (zlength pre) Hst ltac:(unfold zlength; lia)) as (s' & Ed & Hok' & Hsz' & Hr & Hv & Hs').
  exists s'. split; [by apply st_step|]. split; [split; [done|cbn; lia]|]. split; [done|].
  rewrite Hs', Hsl. unfold tbl_delete_idx, zinsert, zlength. rewrite (proj2 (Z.ltb_ge _ 0)), Nat2Z.id by lia.
  replace (length pre) with (length pre + 0)%nat by lia. by rewrite insert_app_r.
Qed.

(** One turn, when the slot or a slot before it was read. *)
Lemma purge_entry_ok d time_min n fp pre o suf :
  dat_ok d -> ST_FP_NULL <= time_min -> st_slots (store d) = pre ++ o :: suf ->
  st_reads_free = true \/ issome fp = true \/ issome o = true ->
  exists s' fp', purge_entry time_min (n, fp) (zlength pre) d =
      Ret ((n + Z.b2z (issome (keep time_min o)), Some fp'), set_store s' d) /\
    dat_ok (set_store s' d) /\ same_vars (store d) s' /\ st_slots s' = pre ++ keep time_min o :: suf.
Proof.
  intros Hok Htm Hsl Hread. pose proof Hok as [Hst Hsz].
  assert (zlookup (st_slots (store d)) (zlength pre) = Some o) as Hz.
  { rewrite Hsl. unfold zlookup, zlength. rewrite (proj2 (Z.ltb_ge _ 0)), Nat2Z.id by lia. by apply list_lookup_middle. }
  destruct (law_slot_get (store d) (zlength pre) o Hst Hz) as (rc & e & Eg & He).
  assert (set_store (store d) d = d) as Hd by (by destruct d).
  unfold purge_entry. rewrite (bind_step _ _ _ _ _ (st_step _ d _ _ Eg)), Hd.
  destruct (purge_delete d pre o suf Hok Hsl) as (s' & Ed & Hok' & Hv' & Hs').
  destruct o as [r|]; cbn [keep issome].
  - destruct He as [-> ->]. cbn [Z.eqb SCH_ST_OK]. unfold bind at 1, ret at 1. cbn [fp_unixtime row_entry].
    pose proof (law_slots_time (store d) (length pre) r Hst) as Hne.
    rewrite Hsl in Hne. specialize (Hne ltac:(by apply list_lookup_middle)).
    destruct (time_min <? row_time r) eqn:E; [by exists (store d), (row_entry r); rewrite Hd|].
    rewrite (proj2 (Z.eqb_neq _ _) Hne). cbn [negb]. exists s', (row_entry r).
    unfold bind at 1. rewrite (bind_step _ _ _ _ _ Ed). cbn. by rewrite Z.add_0_r.
  - destruct st_reads_free; destruct He as [-> He].
    + destruct e as [e|]; [|done]. injection He as He. cbn [Z.eqb SCH_ST_OK]. unfold bind at 1, ret at 1. rewrite He.
      rewrite (proj2 (Z.ltb_ge _ _)) by done. exists (store d), e. cbn. by rewrite Z.add_0_r, Hd.
    + subst e. destruct fp as [e|]; [|by destruct Hread as [|[|]]]. cbn [Z.eqb SCH_ST_OK SCH_ST_ERROR]. unfold bind at 1, ret at 1.
      destruct (negb (fp_unixtime e =? ST_FP_NULL)).
      * exists s', e. unfold bind at 1. rewrite (bind_step _ _ _ _ _ Ed). cbn. by rewrite Z.add_0_r.
      * exists (store d), e. cbn. by rewrite Z.add_0_r, Hd.
Qed.

Lemma purge_loop d time_min n fp pre suf :
  dat_ok d -> ST_FP_NULL <= time_min -> st_slots (store d) = pre ++ suf ->
  st_reads_free = true \/ issome fp = true \/ (exists r, head suf = Some (Some r)) ->
  exists s' fp', fold_m (seqZ (zlength pre) (zlength suf)) (purge_entry time_min) (n, fp) d =
      Ret ((n + used (map (keep time_min) suf), fp'), set_store s' d) /\
    dat_ok (set_store s' d) /\ same_vars (store d) s' /\ st_slots s' = pre ++ map (keep time_min) suf.
Proof.
  intros Hok Htm. revert d n fp pre Hok. induction suf as [|o suf IH]; intros d n fp pre Hok Hsl Hread.
  { exists (store d), fp. cbn. rewrite used_nil, Z.add_0_r. destruct d. by splits. }
  assert (zlength (o :: suf) = Z.succ (zlength suf)) as -> by (unfold zlength; cbn; lia).
  rewrite seqZ_cons by (unfold zlength; lia). cbn [fold_m].
  destruct (purge_entry_ok d time_min n fp pre o suf Hok Htm Hsl) as (s1 & fp1 & E1 & Hok1 & Hv1 & Hs1).
  { destruct Hread as [?|[?|[r [= ->]]]]; auto. }
  rewrite (bind_step _ _ _ _ _ E1).
  destruct (IH (set_store s1 d) (n + Z.b2z (issome (keep time_min o))) (Some fp1) (pre ++ [keep time_min o]) Hok1)
    as (s2 & fp2 & E2 & Hok2 & Hv2 & Hs2); [by cbn; rewrite <- app_assoc|by right; left|].
  exists s2, fp2. replace (zlength (pre ++ [keep time_min o])) with (Z.succ (zlength pre)) in E2
    by (unfold zlength; rewrite length_app; cbn; lia).
  rewrite Z.pred_succ, E2. cbn [map]. rewrite used_cons. split; [do 3 f_equal; lia|]. split; [done|].
  split; [by eapply same_vars_trans|]. by rewrite Hs2, <- app_assoc.
Qed.

Lemma dat_purge_fp_vars d :
  dat_ok d -> purgeable (store d) -> 0 <= unixtime d < INT_MAX ->
  exists s', dat_purge_fp d = Ret (SCH_ST_OK, set_store s' d) /\ fp_ok (set_store s' d) /\
    st_slots s' = map (keep (unixtime d + 1)) (st_slots (store d)) /\ (forall n, st_room n (store d) -> st_room n s') /\
    forall j, 0 <= j < dat_status_last_address -> j <> dat_fpl_queue -> var (set_store s' d) j = var d j.
Proof.
  intros Hok Hp Ht. pose proof Hok as [Hst Hsz]. unfold dat_purge_fp.
  unfold bind at 1, dat_get_time, gets. rewrite i32_of_id by (unfold INT_MIN; lia).
  unfold bind at 1. rewrite cint_ok by (unfold INT_MIN; lia).
  destruct (purge_loop d (unixtime d + 1) 0 None [] (st_slots (store d)) Hok)
    as (s1 & fp1 & E1 & Hok1 & (Hss & Hsr & Hsv) & Hs1); [unfold ST_FP_NULL; lia|done| |].
  { destruct Hp as [?|[r Hr]]; [by left|]. right; right. exists r. by destruct (st_slots (store d)). }
  rewrite (law_slots_len _ Hst) in E1. change (zlength (@nil (option fp_row))) with 0 in E1.
  unfold range. rewrite (bind_step _ _ _ _ _ E1). cbn [app] in Hs1. rewrite Z.add_0_l.
  destruct (counter_write d s1 (used (map (keep (unixtime d + 1)) (st_slots (store d)))) Hok1 ltac:(by rewrite Hs1))
    as (s2 & E2 & Hfp2 & Hsl2 & Hr2 & _ & Hv2).
  rewrite (bind_step _ _ _ _ _ E2). exists s2. split; [done|]. split; [done|]. split; [by rewrite Hsl2|]. split; [auto|].
  intros j Hj Hne. unfold var. cbn [store set_store]. rewrite Hv2, Hsv by (done || lia). done.
Qed.

End laws.
End RepoDataLaws.

(** ** Payload samples and status variables *)
Module RepoDataMore.
Import RepoData RepoDataLaws.

Section status.
Context {S : Type} `{StorageLaws S}.
Implicit Types (d : dat S).

(** The loop of [dat_reset_status_vars]. *)
Lemma reset_loop d k n :
  dat_ok d -> 0 <= k -> 0 <= n -> k + n <= dat_status_last_address ->
  exists s', fold_m (seqZ k n) (fun rc index =>
      let! r := dat_set_status_var index (var_value (dat_get_status_var_def index)) in
      cint (rc + r)) SCH_ST_OK d = Ret (SCH_ST_OK, set_store s' d) /\
    dat_ok (set_store s' d) /\ st_slots s' = st_slots (store d) /\
    (forall i, 0 <= i < k -> var (set_store s' d) i = var d i) /\
    (forall i, k <= i < k + n -> var (set_store s' d) i = var_value (dat_get_status_var_def i)).
Proof.
  intros Hok Hk Hn. revert d k Hok Hk. pattern n. apply natlike_ind; [| |done].
  { intros d k Hok Hk Hb. exists (store d). cbn. destruct d. split; [done|]. split; [done|].
    split; [done|]. split; [done|]. lia. }
  intros m Hm IH d k Hok Hk Hb. rewrite seqZ_cons by lia. rewrite Z.pred_succ. cbn [fold_m].
  pose proof Hok as [_ Hsz].
  destruct (set_status_ok d k (var_value (dat_get_status_var_def k)) Hok) as (s1 & _ & E & Hok1 & Hsz1 & Hsl1 & _ & Hv1);
    [lia|apply var_value_u32|].
  unfold bind at 1. rewrite (bind_step _ _ _ _ _ E). change (SCH_ST_OK + SCH_ST_OK) with 0.
  rewrite cint_ok by (unfold INT_MIN, INT_MAX; lia).
  destruct (IH (set_store s1 d) (Z.succ k) Hok1) as (s2 & E2 & Hok2 & Hsl2 & Hlo & Hhi); [lia|lia|].
  exists s2. split; [exact E2|]. split; [done|]. split; [by rewrite Hsl2|].
  assert (forall i, 0 <= i < Z.succ k -> var (set_store s2 d) i = if decide (i = k) then var_value (dat_get_status_var_def k) else var d i) as Hi.
  { intros i Hi. rewrite <- Hv1 by lia. by apply Hlo. }
  split.
  - intros i Hb1. rewrite Hi by lia. by rewrite decide_False by lia.
  - intros i Hb1. destruct (decide (i = k)) as [->|].
    + rewrite Hi by lia. by rewrite decide_True.
    + apply (Hhi i). lia.
Qed.

Lemma reset_vars_ok d :
  dat_ok d ->
  exists s', dat_reset_status_vars d = Ret (SCH_ST_OK, set_store s' d) /\ dat_ok (set_store s' d) /\
    st_slots s' = st_slots (store d) /\
    forall i, 0 <= i < dat_status_last_address ->
      var (set_store s' d) i = var_value (dat_get_status_var_def i).
Proof.
  intros Hok. destruct (reset_loop d 0 dat_status_last_address Hok) as (s' & E & Hok' & Hsl & _ & Hv);
    [lia|unfold dat_status_last_address; lia|lia|].
  exists s'. unfold dat_reset_status_vars, range. by rewrite (bind_step _ _ _ _ _ E).
Qed.

(** *** Triple writing *)
Definition triple_ok d : Prop :=
  st_ok (store d) /\ 3 * dat_status_last_address <= st_status_size (store d).

Lemma vote_majority v w1 w2 w3 :
  (w1 = v /\ w2 = v) \/ (w1 = v /\ w3 = v) \/ (w2 = v /\ w3 = v) -> vote w1 w2 w3 = v.
Proof.
  intros Hm. unfold vote. destruct (w1 =? w2) eqn:E1, (w1 =? w3) eqn:E2, (w2 =? w3) eqn:E3;
    bool_to_prop; cbn [orb]; lia.
Qed.

Lemma set_raw d i v :
  triple_ok d -> 0 <= i < 3 * dat_status_last_address -> 0 <= v < 2 ^ 32 ->
  exists s', st (storage_status_set_value_idx i v) d = Ret (SCH_ST_OK, set_store s' d) /\
    triple_ok (set_store s' d) /\
    forall j, 0 <= j < 3 * dat_status_last_address ->
      var (set_store s' d) j = if decide (j = i) then v else var d j.
Proof.
  intros [Hok Hsz] Hi Hv.
  destruct (law_status_set (store d) i v Hok ltac:(lia) Hv) as (s' & E & Hok' & Hsz' & _ & _ & Hj).
  exists s'. split; [by apply st_step|]. split; [split; [done|cbn; lia]|]. intros j Hb. apply Hj. lia.
Qed.

Lemma get_triple_ok d i :
  triple_ok d -> 0 <= i < dat_status_last_address ->
  dat_get_status_var_triple i d =
    Ret (vote (var d i) (var d (i + dat_status_last_address)) (var d (i + dat_status_last_address * 2)), d).
Proof.
  intros [Hok Hsz] Hi. unfold dat_get_status_var_triple.
  change dat_status_last_var with dat_status_last_address.
  assert (forall j, 0 <= j < 3 * dat_status_last_address ->
    st (storage_status_get_value_idx j) d = Ret ((SCH_ST_OK, Some (var d j)), d)) as Hg.
  { intros j Hj. rewrite (st_step _ d _ _ (law_status_get _ j Hok ltac:(lia))). by destruct d. }
  rewrite (bind_step _ _ _ _ _ (Hg i ltac:(lia))).
  rewrite (bind_step _ _ _ _ _ (Hg (i + dat_status_last_address) ltac:(lia))).
  rewrite (bind_step _ _ _ _ _ (Hg (i + dat_status_last_address * 2) ltac:(lia))). done.
Qed.

Lemma set_triple_ok d i v :
  triple_ok d -> 0 <= i < dat_status_last_address -> 0 <= v < 2 ^ 32 ->
  exists s', dat_set_status_var_triple i v d = Ret (SCH_ST_OK, set_store s' d) /\
    triple_ok (set_store s' d) /\
    var (set_store s' d) i = v /\ var (set_store s' d) (i + dat_status_last_address) = v /\
    var (set_store s' d) (i + dat_status_last_address * 2) = v.
Proof.
  intros Hok Hi Hv. unfold dat_set_status_var_triple. unfold dat_status_last_address in Hi.
  destruct (set_raw d i v Hok) as (s1 & E1 & Hok1 & H1); [unfold dat_status_last_address; lia|done|].
  destruct (set_raw (set_store s1 d) (i + dat_status_last_address) v Hok1) as (s2 & E2 & Hok2 & H2);
    [unfold dat_status_last_address; lia|done|].
  destruct (set_raw (set_store s2 d) (i + dat_status_last_address * 2) v Hok2) as (s3 & E3 & Hok3 & H3);
    [unfold dat_status_last_address; lia|done|].
  rewrite !set_store_set in *.
  rewrite (bind_step _ _ _ _ _ E1), (bind_step _ _ _ _ _ E2), (bind_step _ _ _ _ _ E3).
  exists s3. split; [done|]. split; [done|]. unfold dat_status_last_address in *.
  rewrite !H3, !H2, !H1 by lia. repeat case_decide; try lia; done.
Qed.

End status.

Section payload.
Context {S : Type} `{PayloadLaws S}.
Implicit Types (d : dat S).

(** The repository with its payload tables; [idx] is the number of samples. *)
Definition payload_ok d (idx : Z) : Prop :=
  dat_ok d /\ pay_ok (store d) /\ last_sensor <= pay_tables (store d) /\
  var d dat_drp_idx_temp = idx /\ 0 <= idx <= pay_capacity sizeof_temp_data /\ idx < INT_MAX.

Lemma idx_read d idx :
  payload_ok d idx -> dat_get_system_var dat_drp_idx_temp d = Ret (idx, d).
Proof.
  intros (Hok & _ & _ & Hv & Hi & Hm). rewrite get_system_ok by done.
  rewrite Hv, i32_of_id by (unfold INT_MIN; lia). done.
Qed.

Lemma sample_read d idx i :
  payload_ok d idx -> 0 <= i < pay_capacity sizeof_temp_data ->
  dat_get_payload_sample temp_sensors i d =
    Ret ((SCH_ST_OK, Some (pay_read (store d) temp_sensors i sizeof_temp_data)), d).
Proof.
  intros (Hok & Hp & Ht & _) Hi. unfold dat_get_payload_sample, bind. cbn [arr_get].
  change (arr_get data_map temp_sensors d) with (Ret (DataMap (cs "temp_data") sizeof_temp_data dat_drp_idx_temp dat_drp_ack_temp
          (cs "%u %u %f") (cs "sat_index timestamp obc_temp_1"), d)). cbn [map_size].
  rewrite (st_step _ d _ _ (law_pay_get (store d) temp_sensors i sizeof_temp_data Hp
    ltac:(unfold temp_sensors, last_sensor in *; lia) ltac:(done) Hi)). by destruct d.
Qed.

Lemma recent_read d idx k :
  payload_ok d idx -> 0 <= k < idx ->
  dat_get_recent_payload_sample temp_sensors k d =
    Ret ((SCH_ST_OK, Some (pay_read (store d) temp_sensors (idx - 1 - k) sizeof_temp_data)), d).
Proof.
  intros Hp Hk. pose proof Hp as (_ & _ & _ & _ & Hi & Hm).
  pose proof (sample_read d idx (idx - 1 - k) Hp ltac:(lia)) as Hr.
  unfold dat_get_recent_payload_sample, dat_get_payload_sample, bind in *.
  change (arr_get data_map temp_sensors d) with (Ret (DataMap (cs "temp_data") sizeof_temp_data dat_drp_idx_temp dat_drp_ack_temp
          (cs "%u %u %f") (cs "sat_index timestamp obc_temp_1"), d)) in *. cbn [map_size map_sys_index] in *.
  rewrite (idx_read d idx Hp). rewrite !cint_ok by (unfold INT_MIN; lia).
  rewrite (proj2 (Z.leb_le _ _)) by lia. done.
Qed.

Lemma add_sample_ok d idx data :
  payload_ok d idx -> idx < pay_capacity sizeof_temp_data -> idx + 1 < INT_MAX ->
  zlength data = sizeof_temp_data ->
  exists s', dat_add_payload_sample (Some data) temp_sensors d = Ret (0, set_store s' d) /\
    payload_ok (set_store s' d) (idx + 1) /\
    pay_read s' temp_sensors idx sizeof_temp_data = data /\
    st_slots s' = st_slots (store d) /\
    (forall i, 0 <= i < dat_status_last_address -> i <> dat_drp_idx_temp -> var (set_store s' d) i = var d i) /\
    (forall i, 0 <= i < pay_capacity sizeof_temp_data -> i <> idx ->
       pay_read s' temp_sensors i sizeof_temp_data = pay_read (store d) temp_sensors i sizeof_temp_data).
Proof.
  intros Hp Hc Hm Hlen. pose proof Hp as ([Hst Hsz] & Hpok & Ht & Hv & Hi & _).
  unfold dat_add_payload_sample.
  change (arr_get data_map temp_sensors) with (ret (S := dat S) (DataMap (cs "temp_data") sizeof_temp_data dat_drp_idx_temp dat_drp_ack_temp
          (cs "%u %u %f") (cs "sat_index timestamp obc_temp_1"))). unfold bind at 1, ret at 1. cbn [map_size map_sys_index].
  rewrite (bind_step _ _ _ _ _ (idx_read d idx Hp)). rewrite Hlen. cbn [Z.ltb Z.leb Z.compare].
  change (sizeof_temp_data <? 4) with false. change (last_sensor <=? temp_sensors) with false. cbn beta iota.
  destruct (law_pay_set (store d) temp_sensors idx data Hst Hpok) as
    (s1 & E1 & Hst1 & Hp1 & Ht1 & Hsz1 & Hv1 & Hsl1 & Hr1 & Ho1);
    [unfold temp_sensors, last_sensor in *; lia|by rewrite Hlen|rewrite Hlen; lia|].
  rewrite Hlen in *. rewrite (bind_step _ _ _ _ _ (st_step _ d _ _ E1)).
  change (SCH_ST_OK <=? SCH_ST_OK) with true. cbn beta iota.
  unfold bind at 1. rewrite cint_ok by (unfold INT_MIN; lia).
  assert (dat_ok (set_store s1 d)) as Hd1 by (split; [done|cbn; lia]).
  unfold dat_set_system_var. rewrite u32_of_id by (unfold INT_MAX in *; lia).
  destruct (set_status_ok (set_store s1 d) dat_drp_idx_temp (idx + 1) Hd1) as
    (s2 & Ew & E2 & Hok2 & Hsz2 & Hsl2 & _ & Hv2).
  { cbn. unfold dat_drp_idx_temp, dat_status_last_address in *. lia. }
  { unfold INT_MAX in *. lia. }
  cbn in Ew. destruct (law_pay_status s1 _ _ _ _ Hp1 Ew) as (Hp2 & Ht2 & Hr2).
  rewrite (bind_step _ _ _ _ _ E2). rewrite set_store_set in *. exists s2. split; [done|].
  assert (forall i, 0 <= i < dat_status_last_address ->
    var (set_store s2 d) i = if decide (i = dat_drp_idx_temp) then idx + 1 else var d i) as Hvar.
  { intros i Hb. rewrite Hv2 by (cbn; lia). case_decide; [done|]. apply Hv1. }
  cbn in Hsl2. splits.
  - unfold payload_ok. split; [done|]. split; [done|]. cbn [store set_store] in *. split; [lia|].
    split; [|lia]. by rewrite Hvar by done.
  - by rewrite Hr2.
  - by rewrite Hsl2.
  - intros i Hb Hne. by rewrite Hvar, decide_False.
  - intros i Hb Hne. rewrite Hr2. by apply Ho1.
Qed.

End payload.
End RepoDataMore.

(** ** Histories and interleavings *)
Module RepoDataHistory.
Import RepoData RepoDataLaws RepoDataMore.

(** The operations of the flight plan. *)
Inductive fp_op :=
  | OpSet (t : Z) (c a : cstring) (e p : Z)
  | OpGet (t : Z)
  | OpDel (t : Z).

Definition valid_op (o : fp_op) : Prop :=
  match o with
  | OpSet t c a e p => int_ok t /\ int_ok e /\ int_ok p /\ fits_fp c /\ fits_fp a
  | OpGet t | OpDel t => t <> ST_FP_NULL
  end.

Section history.
Context {S : Type} `{StorageLaws S}.
Implicit Types (d : dat S).

Definition run_op (o : fp_op) : M (dat S) (Z * option fp_out) :=
  match o with
  | OpSet t c a e p => let! rc := dat_set_fp t (Some c) (Some a) e p in ret (rc, None)
  | OpGet t => dat_get_fp t
  | OpDel t => let! rc := dat_del_fp t in ret (rc, None)
  end.

Definition spec_op (o : fp_op) (slots : list (option fp_row))
  : (Z * option fp_out) * list (option fp_row) :=
  match o with
  | OpSet t c a e p => let (rc, slots') := spec_set t c a e p slots in ((rc, None), slots')
  | OpGet t => spec_get t slots
  | OpDel t => let (rc, slots') := spec_del t slots in ((rc, None), slots')
  end.

Fixpoint run_ops (os : list fp_op) : M (dat S) (list (Z * option fp_out)) :=
  match os with
  | [] => ret []
  | o :: os => let! r := run_op o in let! rs := run_ops os in ret (r :: rs)
  end.

Fixpoint spec_ops (os : list fp_op) (slots : list (option fp_row))
  : list (Z * option fp_out) * list (option fp_row) :=
  match os with
  | [] => ([], slots)
  | o :: os => let (r, slots) := spec_op o slots in
               let (rs, slots) := spec_ops os slots in (r :: rs, slots)
  end.

Lemma spec_ops_app os1 os2 slots :
  spec_ops (os1 ++ os2) slots =
    let (rs1, slots1) := spec_ops os1 slots in
    let (rs2, slots2) := spec_ops os2 slots1 in (rs1 ++ rs2, slots2).
Proof.
  revert slots. induction os1 as [|o os1 IH]; intros slots; cbn; [by destruct (spec_ops os2 slots)|].
  destruct (spec_op o slots) as [r slots1]. rewrite IH. destruct (spec_ops os1 slots1) as [rs1 slots2].
  by destruct (spec_ops os2 slots2).
Qed.

Lemma run_op_ok d o :
  fp_ok d -> st_room 1 (store d) -> valid_op o ->
  exists s', run_op o d = Ret (fst (spec_op o (st_slots (store d))), set_store s' d) /\
    fp_ok (set_store s' d) /\ st_slots s' = snd (spec_op o (st_slots (store d))) /\
    (forall n, st_room (n + 1) (store d) -> st_room n s').
Proof.
  intros Hfp Hroom Hv. destruct o as [t c a e p|t|t]; cbn [run_op spec_op valid_op] in *.
  - destruct Hv as (Ht & He & Hp & Hc & Ha).
    destruct (dat_set_fp_ok d t c a e p Hfp Hroom Ht He Hp Hc Ha) as (s' & E & H1 & H2 & H3).
    exists s'. rewrite (bind_step _ _ _ _ _ E). by destruct (spec_set t c a e p (st_slots (store d))).
  - destruct (dat_get_fp_ok d t Hfp Hv) as (s' & E & H1 & H2 & H3). exists s'. splits; try done.
    intros n Hn. apply H3. by apply (law_room_le _ (n + 1)); [lia|].
  - destruct (dat_del_fp_ok d t Hfp Hv) as (s' & E & H1 & H2 & H3).
    exists s'. rewrite (bind_step _ _ _ _ _ E). destruct (spec_del t (st_slots (store d))). splits; try done.
    intros n Hn. apply H3. by apply (law_room_le _ (n + 1)); [lia|].
Qed.

Lemma run_ops_ok os d :
  fp_ok d -> st_room (zlength os) (store d) -> Forall valid_op os ->
  exists s', run_ops os d = Ret (fst (spec_ops os (st_slots (store d))), set_store s' d) /\
    fp_ok (set_store s' d) /\ st_slots s' = snd (spec_ops os (st_slots (store d))) /\
    (forall n, st_room (n + zlength os) (store d) -> st_room n s').
Proof.
  revert d. induction os as [|o os IH]; intros d Hfp Hroom Hv.
  { exists (store d). destruct d. splits; try done. intros n. by rewrite Z.add_0_r. }
  inversion Hv as [|? ? Hv1 Hv2]; subst. cbn [run_ops spec_ops].
  rewrite zlength_cons in Hroom. assert (0 <= zlength os) by (unfold zlength; lia).
  destruct (run_op_ok d o Hfp (law_room_le _ (Z.succ (zlength os)) 1 ltac:(lia) Hroom) Hv1) as (s1 & E1 & Hfp1 & Hs1 & Hr1). rewrite (bind_step _ _ _ _ _ E1).
  destruct (spec_op o (st_slots (store d))) as [r slots1]. cbn in E1, Hs1.
  destruct (IH (set_store s1 d) Hfp1 (Hr1 _ Hroom) Hv2) as (s2 & E2 & Hfp2 & Hs2 & Hr2). cbn [store set_store] in *.
  rewrite Hs1 in *. exists s2. rewrite (bind_step _ _ _ _ _ E2).
  destruct (spec_ops os slots1). splits; try done. intros n Hn. apply Hr2, Hr1.
  replace (n + zlength os + 1) with (n + zlength (o :: os)) by (rewrite zlength_cons; lia). exact Hn.
Qed.

(** Two threads that add an entry each, both reading the counter first. *)
Definition two_set_fp (t1 : Z) (c1 a1 : cstring) (t2 : Z) (c2 a2 : cstring) : M (dat S) (Z * Z) :=
  let! entries1 := dat_get_system_var dat_fpl_queue in
  let! entries2 := dat_get_system_var dat_fpl_queue in
  let! rc1 := set_fp_store t1 (Some c1) (Some a1) 1 0 in
  let! rc2 := set_fp_store t2 (Some c2) (Some a2) 1 0 in
  let! r1 := set_fp_count entries1 rc1 in
  let! r2 := set_fp_count entries2 rc2 in
  ret (r1, r2).

Lemma store_one d t c a :
  dat_ok d -> st_room 1 (store d) -> 0 <= t <= INT_MAX -> fits_fp c -> fits_fp a ->
  used (st_slots (store d)) < SCH_FP_MAX_ENTRIES ->
  exists s', set_fp_store t (Some c) (Some a) 1 0 d = Ret (SCH_ST_OK, set_store s' d) /\
    dat_ok (set_store s' d) /\ used (st_slots s') = used (st_slots (store d)) + 1 /\
    st_status_size s' = st_status_size (store d) /\
    st_status s' dat_fpl_queue = st_status (store d) dat_fpl_queue /\
    (forall n, st_room (n + 1) (store d) -> st_room n s').
Proof.
  intros Hok Hroom Ht Hc Ha Hu. pose proof Hok as [Hst Hsz].
  destruct (law_fp_set (store d) t c a 1 0 SCH_COMM_NODE Hst Hroom
    ltac:(unfold INT_MIN; lia) ltac:(done) ltac:(done) ltac:(done) Hc Ha) as (s' & E & Hst' & Hsz' & Hr & Hv & Hsl).
  rewrite (proj2 (Z.ltb_ge t 0)) in * by lia.
  destruct (tbl_set _ (st_slots (store d))) as [slots'|] eqn:Es.
  2: { apply tbl_set_full in Es. rewrite (law_slots_len _ Hst) in Es. lia. }
  exists s'. split; [by apply st_step|]. split; [split; [done|cbn; lia]|]. split; [|split; [done|]].
  - rewrite Hsl. cbn. by apply (tbl_set_used _ _ _ (slots_times_ok d Hok) Es).
  - split; [|done]. apply Hv. unfold dat_fpl_queue, dat_status_last_address in *. lia.
Qed.

Lemma count_one d n :
  dat_ok d -> 0 <= n < SCH_FP_MAX_ENTRIES ->
  exists s', set_fp_count n SCH_ST_OK d = Ret (SCH_ST_OK, set_store s' d) /\ dat_ok (set_store s' d) /\
    st_slots s' = st_slots (store d) /\ st_status s' dat_fpl_queue = n + 1.
Proof.
  intros Hok Hn. pose proof Hok as [_ Hsz]. unfold set_fp_count. cbn [Z.eqb SCH_ST_OK].
  unfold SCH_FP_MAX_ENTRIES in Hn. unfold bind at 1. rewrite cint_ok by (unfold INT_MIN, INT_MAX; lia).
  unfold dat_set_system_var. rewrite u32_of_id by lia.
  destruct (set_status_ok d dat_fpl_queue (n + 1) Hok) as (s' & _ & E & Hok' & _ & Hsl & _ & Hv);
    [unfold dat_fpl_queue, dat_status_last_address in *; lia|lia|].
  exists s'. rewrite (bind_step _ _ _ _ _ E). split; [done|]. split; [done|]. split; [done|].
  specialize (Hv dat_fpl_queue ltac:(unfold dat_fpl_queue, dat_status_last_address in *; lia)).
  by rewrite decide_True in Hv.
Qed.

Lemma two_set_fp_ok d t1 c1 a1 t2 c2 a2 :
  fp_ok d -> st_room 2 (store d) -> 0 <= t1 <= INT_MAX -> 0 <= t2 <= INT_MAX ->
  fits_fp c1 -> fits_fp a1 -> fits_fp c2 -> fits_fp a2 ->
  used (st_slots (store d)) + 2 <= SCH_FP_MAX_ENTRIES ->
  exists s', two_set_fp t1 c1 a1 t2 c2 a2 d = Ret ((SCH_ST_OK, SCH_ST_OK), set_store s' d) /\
    used (st_slots s') = used (st_slots (store d)) + 2 /\
    st_status s' dat_fpl_queue = used (st_slots (store d)) + 1.
Proof.
  intros Hfp Hroom Ht1 Ht2 Hc1 Ha1 Hc2 Ha2 Hu. pose proof Hfp as [Hok _]. pose proof (used_range d Hok) as Hr.
  unfold two_set_fp. rewrite !(bind_step _ _ _ _ _ (counter_read d Hfp)).
  destruct (store_one d t1 c1 a1 Hok (law_room_le _ 2 1 ltac:(lia) Hroom) Ht1 Hc1 Ha1 ltac:(lia))
    as (s1 & E1 & Hok1 & Hu1 & _ & _ & Hr1).
  rewrite (bind_step _ _ _ _ _ E1).
  destruct (store_one _ t2 c2 a2 Hok1 (Hr1 1 Hroom) Ht2 Hc2 Ha2 ltac:(cbn; lia)) as (s2 & E2 & Hok2 & Hu2 & _).
  rewrite (bind_step _ _ _ _ _ E2). cbn [store set_store] in Hu2. rewrite set_store_set in *.
  destruct (count_one (set_store s2 d) (used (st_slots (store d))) Hok2) as (s3 & E3 & Hok3 & Hs3 & _); [lia|].
  rewrite (bind_step _ _ _ _ _ E3). rewrite set_store_set in *.
  destruct (count_one (set_store s3 d) (used (st_slots (store d))) Hok3) as (s4 & E4 & _ & Hs4 & Hq); [lia|].
  rewrite (bind_step _ _ _ _ _ E4). rewrite set_store_set in *. cbn [store set_store] in *.
  exists s4. split; [done|]. rewrite Hs4, Hs3. split; [lia|done].
Qed.

End history.
End RepoDataHistory.

(** ** Theorems *)
Module RepoDataTheorems.
Import RepoData RepoDataLaws RepoDataMore RepoDataHistory.

Section generic.
Context {S : Type} `{StorageLaws S}.
Implicit Types (d : dat S).

(** On any storage that keeps its laws, a status variable written by
    [dat_set_system_var] is read back by [dat_get_system_var], by address and
    by name, and no other variable nor the flight plan changes. *)
Theorem status_var_roundtrip d v value :
  dat_ok d -> v ∈ dat_status_list -> int_ok value ->
  exists d', dat_set_system_var (var_address v) value d = Ret (SCH_ST_OK, d') /\ dat_ok d' /\
    dat_get_system_var (var_address v) d' = Ret (value, d') /\
    dat_get_status_var_name (Some (var_name v)) d' = Ret (u32_of value, d') /\
    st_slots (store d') = st_slots (store d) /\
    forall j, 0 <= j < dat_status_last_address -> j <> var_address v ->
      dat_get_system_var j d' = Ret (i32_of (var d j), d').
Proof.
  intros Hok Hv Hval. pose proof Hok as [_ Hsz].
  assert (0 <= var_address v < dat_status_last_address) as Ha.
  { assert (Forall (fun v => 0 <= var_address v < dat_status_last_address) dat_status_list) as Hall
      by (apply (bool_decide_unpack _); vm_compute; exact I).
    by apply (proj1 (Forall_forall _ _) Hall). }
  unfold dat_set_system_var.
  destruct (set_status_ok d (var_address v) (u32_of value) Hok ltac:(lia) (u32_of_range _))
    as (s' & _ & E & Hok' & Hsz' & Hsl & _ & Hj).
  exists (set_store s' d). split; [done|]. split; [done|].
  assert (var (set_store s' d) (var_address v) = u32_of value) as Hself
    by (rewrite Hj by lia; by rewrite decide_True).
  split; [|split; [|split; [done|]]].
  - rewrite get_system_ok by done. by rewrite Hself, i32_of_u32_id.
  - unfold dat_get_status_var_name. rewrite def_name_of_var by done.
    rewrite get_status_ok by (try done; cbn; lia). by rewrite Hself.
  - intros j Hb Hne. rewrite get_system_ok by done. by rewrite Hj, decide_False by (done || lia).
Qed.

(** [dat_reset_status_vars] returns [SCH_ST_OK] and leaves every status
    variable with the default of its definition. *)
Theorem reset_status_vars_defaults d :
  dat_ok d ->
  exists d', dat_reset_status_vars d = Ret (SCH_ST_OK, d') /\ dat_ok d' /\
    forall v, v ∈ dat_status_list -> dat_get_status_var (var_address v) d' = Ret (var_value v, d').
Proof.
  intros Hok. destruct (reset_vars_ok d Hok) as (s' & E & Hok' & _ & Hv). pose proof Hok' as [_ Hsz'].
  exists (set_store s' d). split; [done|]. split; [done|]. intros v Hin.
  assert (Forall (fun v => (0 <= var_address v < dat_status_last_address) /\
     dat_get_status_var_def (var_address v) = v) dat_status_list) as Hall
    by (apply (bool_decide_unpack _); vm_compute; exact I).
  destruct (proj1 (Forall_forall _ _) Hall v Hin) as [Ha Hd].
  rewrite get_status_ok by (done || lia). by rewrite Hv, Hd.
Qed.

(** C6. The flight plan refines its specification, on the back ends that keep
    the plan as a table of slots ([StorageLaws]: RAM and FLASH, not SQLite): from a
    data repository that counts its plan right, a history of [dat_set_fp],
    [dat_get_fp] and [dat_del_fp] calls gives the results that the table of slots
    prescribes, leaves the table the specification ends with, and the status variable
    [dat_fpl_queue] equals the number of entries in the table after it.  The calls
    of the history have [int]s for numbers, commands and arguments that fit the
    entry, and times other than -1 in [dat_get_fp] and [dat_del_fp] (-1 marks the
    free slots; [ram_delete_minus_one_drifts] shows what it does), and the medium
    has room for them, which RAM always has. *)
Theorem fp_history_refines_table d os :
  fp_ok d -> st_room (zlength os) (store d) -> Forall valid_op os ->
  exists d', run_ops os d = Ret (fst (spec_ops os (st_slots (store d))), d') /\
    st_slots (store d') = snd (spec_ops os (st_slots (store d))) /\
    dat_get_system_var dat_fpl_queue d' = Ret (used (st_slots (store d')), d') /\ fp_ok d'.
Proof.
  intros Hfp Hroom Hv. destruct (run_ops_ok os d Hfp Hroom Hv) as (s' & E & Hfp' & Hs & _).
  exists (set_store s' d). split; [done|]. split; [done|]. split; [by apply counter_read|done].
Qed.

(** A command put in the flight plan with [dat_set_fp] at a time that no
    other entry has is returned once by [dat_get_fp] at that time, with its
    name, arguments, executions and period; a second [dat_get_fp] at the same
    time finds nothing. *)
Theorem fp_set_get_once d t c a e p :
  fp_ok d -> st_room 1 (store d) -> 0 <= t <= INT_MAX -> int_ok e -> int_ok p -> fits_fp c -> fits_fp a ->
  tbl_get t (st_slots (store d)) = None -> used (st_slots (store d)) < SCH_FP_MAX_ENTRIES ->
  exists d1 d2, dat_set_fp t (Some c) (Some a) e p d = Ret (SCH_ST_OK, d1) /\
    dat_get_fp t d1 = Ret ((SCH_ST_OK, Some (FpOut c a e p SCH_COMM_NODE)), d2) /\
    fst <$> match dat_get_fp t d2 with Ret x => Some x | Fault _ => None end = Some (SCH_ST_ERROR, None).
Proof.
  intros Hfp Hroom Ht He Hp Hc Ha Hnone Hu. pose proof Hfp as [Hok _]. pose proof Hok as [Hst _].
  assert (t <> ST_FP_NULL) as Hne by (unfold ST_FP_NULL; lia).
  destruct (dat_set_fp_ok d t c a e p Hfp Hroom ltac:(unfold int_ok, INT_MIN; lia) He Hp Hc Ha)
    as (s1 & E1 & Hfp1 & Hs1 & _).
  unfold spec_set in *. rewrite (proj2 (Z.ltb_ge t 0)) in * by lia.
  destruct (tbl_set _ (st_slots (store d))) as [slots1|] eqn:Es; cbn [fst snd] in *.
  2: { apply tbl_set_full in Es. rewrite (law_slots_len _ Hst) in Es. lia. }
  pose proof (tbl_get_set_same (FpRow t c a e p SCH_COMM_NODE) _ _ Hnone Hne Es) as Hg.
  pose proof (tbl_delete_set_same (FpRow t c a e p SCH_COMM_NODE) _ _ (slots_times_ok d Hok) Hnone Hne Es) as Hd. cbn [row_time] in Hg, Hd.
  destruct (dat_get_fp_ok (set_store s1 d) t Hfp1 Hne) as (s2 & E2 & Hfp2 & Hs2 & _).
  cbn [store set_store] in *. rewrite Hs1 in *. unfold spec_get in E2, Hs2. rewrite Hg in *. cbn [fst snd] in *.
  exists (set_store s1 d), (set_store s2 d). split; [done|]. split; [done|].
  destruct (dat_get_fp_ok (set_store s2 d) t Hfp2 Hne) as (s3 & -> & _). cbn [fst store set_store].
  rewrite Hs2, Hd. cbn. unfold spec_get. by rewrite Hnone.
Qed.

(** The counter of entries is read outside the critical section that adds
    the entry: when two tasks add an entry and both read the counter first,
    both calls succeed and the table has two more entries, but the counter
    grows by one only. *)
Theorem fp_counter_lost_update d t1 c1 a1 t2 c2 a2 :
  fp_ok d -> st_room 2 (store d) -> 0 <= t1 <= INT_MAX -> 0 <= t2 <= INT_MAX ->
  fits_fp c1 -> fits_fp a1 -> fits_fp c2 -> fits_fp a2 ->
  used (st_slots (store d)) + 2 <= SCH_FP_MAX_ENTRIES ->
  exists s', two_set_fp t1 c1 a1 t2 c2 a2 d = Ret ((SCH_ST_OK, SCH_ST_OK), set_store s' d) /\
    used (st_slots s') = used (st_slots (store d)) + 2 /\
    st_status s' dat_fpl_queue = used (st_slots (store d)) + 1.
Proof. intros. by apply two_set_fp_ok. Qed.

(** C37. With triple writing, [dat_get_status_var] returns the value last
    written by [dat_set_status_var] even after any one of the three copies has
    been overwritten with any value. *)
Theorem triple_write_survives_one_error d i v k w :
  triple_ok d -> 0 <= i < dat_status_last_address -> 0 <= v < 2 ^ 32 -> 0 <= k < 3 -> 0 <= w < 2 ^ 32 ->
  exists d1 d2, dat_set_status_var_triple i v d = Ret (SCH_ST_OK, d1) /\
    st (storage_status_set_value_idx (i + dat_status_last_address * k) w) d1 = Ret (SCH_ST_OK, d2) /\
    dat_get_status_var_triple i d2 = Ret (v, d2).
Proof.
  intros Hok Hi Hv Hk Hw. destruct (set_triple_ok d i v Hok Hi Hv) as (s1 & E1 & Hok1 & H1 & H2 & H3).
  unfold dat_status_last_address in Hi.
  destruct (set_raw (set_store s1 d) (i + dat_status_last_address * k) w Hok1) as (s2 & E2 & Hok2 & Hj);
    [unfold dat_status_last_address; lia|done|].
  exists (set_store s1 d), (set_store s2 d). split; [done|]. split; [done|].
  rewrite get_triple_ok by done. do 2 f_equal. apply vote_majority.
  unfold dat_status_last_address in *. rewrite !Hj by lia.
  assert (k = 0 \/ k = 1 \/ k = 2) as [->|[->| ->]] by lia; repeat case_decide; lia.
Qed.

Context `{!StorageSlotLaws S}.

(** [dat_purge_fp] removes the entries whose time is not after the next
    second, keeps every other entry in its slot, and sets the counter to the
    number of entries kept, whatever it was before: on RAM always, on FLASH when the
    first slot is used. *)
Theorem purge_keeps_future_entries d :
  dat_ok d -> purgeable (store d) -> 0 <= unixtime d < INT_MAX ->
  exists s', dat_purge_fp d = Ret (SCH_ST_OK, set_store s' d) /\
    st_slots s' = map (keep (unixtime d + 1)) (st_slots (store d)) /\
    dat_get_system_var dat_fpl_queue (set_store s' d) = Ret (used (st_slots s'), set_store s' d).
Proof.
  intros Hok Hp Ht. destruct (dat_purge_fp_vars d Hok Hp Ht) as (s' & E & Hfp & Hs & _).
  exists s'. split; [done|]. split; [done|]. by apply counter_read.
Qed.
End generic.

Section payload.
Context {S : Type} `{PayloadLaws S}.

(** A sample added with [dat_add_payload_sample] is the most recent one:
    [dat_get_recent_payload_sample] with offset 0 returns its bytes, and the
    sample that had offset [k] before has offset [k + 1]; the index of the
    payload grows by one and no other status variable changes. *)
Theorem add_sample_then_recent (d : dat S) idx data :
  payload_ok d idx -> idx < pay_capacity sizeof_temp_data -> idx + 1 < INT_MAX ->
  zlength data = sizeof_temp_data ->
  exists d', dat_add_payload_sample (Some data) temp_sensors d = Ret (0, d') /\ payload_ok d' (idx + 1) /\
    dat_get_recent_payload_sample temp_sensors 0 d' = Ret ((SCH_ST_OK, Some data), d') /\
    (forall k bs, 0 <= k < idx ->
       dat_get_recent_payload_sample temp_sensors k d = Ret ((SCH_ST_OK, Some bs), d) ->
       dat_get_recent_payload_sample temp_sensors (k + 1) d' = Ret ((SCH_ST_OK, Some bs), d')) /\
    st_slots (store d') = st_slots (store d) /\
    forall j, 0 <= j < dat_status_last_address -> j <> dat_drp_idx_temp -> var d' j = var d j.
Proof.
  intros Hp Hc Hm Hlen. pose proof Hp as (_ & _ & _ & _ & Hi & _).
  destruct (add_sample_ok d idx data Hp Hc Hm Hlen) as (s' & E & Hp' & Hr & Hsl & Hv & Ho).
  exists (set_store s' d). split; [done|]. split; [done|]. split; [|split; [|done]].
  - rewrite (recent_read _ (idx + 1)) by (done || lia). cbn [store set_store].
    replace (idx + 1 - 1 - 0) with idx by lia. by rewrite Hr.
  - intros k bs Hk Hb. rewrite (recent_read d idx) in Hb by done. injection Hb as <-.
    rewrite (recent_read _ (idx + 1)) by (done || lia). cbn [store set_store].
    replace (idx + 1 - 1 - (k + 1)) with (idx - 1 - k) by lia. rewrite Ho by lia. done.
Qed.

(** The samples of several calls. *)
Fixpoint add_samples (ds : list (list Z)) : M (dat S) (list Z) :=
  match ds with
  | [] => ret []
  | data :: ds => let! rc := dat_add_payload_sample (Some data) temp_sensors in
                  let! rcs := add_samples ds in ret (rc :: rcs)
  end.

(** C34. Payload samples are a stack: on a back end with payload tables (RAM, FLASH)
    and for the payload that the schema declares ([temp_sensors], of 12 bytes), as long as the table has room, every sample of a sequence of
    [dat_add_payload_sample] calls is stored with success; afterwards
    [dat_get_recent_payload_sample] with offset [k] returns the bytes of the sample
    added [k] calls before the last, the samples from before the calls follow them in
    their old order, and apart from the index of the payload no status variable and no
    entry of the flight plan changes. *)
Theorem payload_samples_stack ds : forall (d : dat S) idx,
  payload_ok d idx -> idx + zlength ds <= pay_capacity sizeof_temp_data -> idx + zlength ds < INT_MAX ->
  Forall (fun data => zlength data = sizeof_temp_data) ds ->
  exists d', add_samples ds d = Ret (replicate (length ds) 0, d') /\ payload_ok d' (idx + zlength ds) /\
    (forall k data, zlookup (rev ds) k = Some data ->
       dat_get_recent_payload_sample temp_sensors k d' = Ret ((SCH_ST_OK, Some data), d')) /\
    (forall k bs, 0 <= k < idx ->
       dat_get_recent_payload_sample temp_sensors k d = Ret ((SCH_ST_OK, Some bs), d) ->
       dat_get_recent_payload_sample temp_sensors (zlength ds + k) d' = Ret ((SCH_ST_OK, Some bs), d')) /\
    st_slots (store d') = st_slots (store d) /\
    forall j, 0 <= j < dat_status_last_address -> j <> dat_drp_idx_temp -> var d' j = var d j.
Proof.
  induction ds as [|x ds IH]; intros d idx Hp Hc Hm Hds.
  { exists d. change (zlength []) with 0 in *. rewrite Z.add_0_r in *. splits; try done.
    intros k data. unfold zlookup. by destruct (k <? 0). }
  apply Forall_cons in Hds as [Hx Hds]. rewrite zlength_cons in *. assert (0 <= zlength ds) by (unfold zlength; lia).
  destruct (add_sample_then_recent d idx x Hp ltac:(lia) ltac:(lia) Hx) as (d1 & E1 & Hp1 & Hr1 & Ho1 & Hs1 & Hv1).
  destruct (IH d1 (idx + 1) Hp1 ltac:(lia) ltac:(lia) Hds) as (d' & E & Hp' & Hr & Ho & Hs & Hv).
  assert (0 <= idx) as Hidx by (by destruct Hp as (_ & _ & _ & _ & [? _] & _)).
  exists d'. cbn [add_samples length replicate]. rewrite (bind_step _ _ _ _ _ E1), (bind_step _ _ _ _ _ E). split; [done|].
  split; [by replace (idx + Z.succ (zlength ds)) with (idx + 1 + zlength ds) by lia|].
  split; [|split; [|split; [congruence|intros; rewrite Hv, Hv1; done]]].
  - intros k data Hk. cbn [rev] in Hk. pose proof (zlookup_Some_lt _ _ _ Hk) as Hlt.
    unfold zlookup in Hk. rewrite (proj2 (Z.ltb_ge k 0)) in Hk by lia.
    destruct (decide (k < zlength ds)) as [Hd|Hd].
    + apply Hr. unfold zlookup. rewrite (proj2 (Z.ltb_ge k 0)) by lia.
      rewrite lookup_app_l in Hk; [done|]. rewrite length_rev. unfold zlength in Hd. lia.
    + unfold zlength in Hlt, Hd. rewrite length_app, length_rev in Hlt. cbn [length] in Hlt.
      assert (k = zlength ds + 0) as -> by (unfold zlength; lia).
      rewrite lookup_app_r in Hk by (rewrite length_rev; unfold zlength; lia).
      replace (Z.to_nat (zlength ds + 0) - length (rev ds))%nat with 0%nat in Hk by (rewrite length_rev; unfold zlength; lia).
      injection Hk as <-. apply Ho; [lia|exact Hr1].
  - intros k bs Hk Hb. replace (Z.succ (zlength ds) + k) with (zlength ds + (k + 1)) by lia. apply Ho; [lia|]. by apply Ho1.
Qed.
End payload.

(** *** The RAM back end *)
Import Ram RamLaws RamPayload.
Definition machine0 : dat_stmachine_t := StMachine 0 0 0 0 0 0.

(** The repository after [dat_repo_init] on the RAM storage. *)
Definition ram_data (clock : Z) : dat ram_state :=
  match dat_repo_init true (Dat ram_boot clock true machine0) with
  | Ret (_, d) => d
  | Fault _ => Dat ram_boot clock true machine0
  end.

Lemma ram_data_init clock : dat_repo_init true (Dat ram_boot clock true machine0) = Ret (tt, ram_data clock).
Proof. vm_compute. reflexivity. Qed.

Lemma ram_data_store clock : store (ram_data clock) = store (ram_data 0).
Proof. vm_compute. reflexivity. Qed.

Lemma ram_data_st : ram_ok (store (ram_data 0)).
Proof.
  split; [reflexivity|]. split.
  - eexists; split; [vm_compute; reflexivity|]. split; [vm_compute; reflexivity|].
    apply (bool_decide_unpack _). vm_compute. exact I.
  - exists (replicate 255 (FpEntry (-1) 0 0 1 None None)). split; [vm_compute; reflexivity|].
    split; [vm_compute; reflexivity|]. split; [vm_compute; reflexivity|].
    apply Forall_replicate. by intros [].
Qed.

Lemma ram_data_fp clock : fp_ok (ram_data clock).
Proof.
  unfold fp_ok, dat_ok, var. rewrite ram_data_store. split; [split; [exact ram_data_st|]|].
  - vm_compute. discriminate.
  - vm_compute. reflexivity.
Qed.

Lemma ram_data_payload clock : payload_ok (ram_data clock) 0.
Proof.
  split; [apply ram_data_fp|]. rewrite ram_data_store. split.
  - unfold pay_ok; cbn [ram_payload_laws]. unfold payload_inv. splits; try (vm_compute; done).
    eexists. split; [vm_compute; reflexivity|vm_compute; reflexivity].
  - vm_compute. repeat split; discriminate.
Qed.

(** [dat_repo_init] on the RAM storage from a cold start succeeds and
    leaves the repository in the state the other theorems start from: the
    storage laws hold, every status variable has its default value, the
    flight plan is empty with a counter of zero, and the payload table is
    empty. *)
Theorem ram_repo_init_ready clock :
  exists d, dat_repo_init true (Dat ram_boot clock true machine0) = Ret (tt, d) /\
    fp_ok d /\ payload_ok d 0 /\ used (st_slots (store d)) = 0 /\
    forall v, v ∈ dat_status_list -> dat_get_status_var (var_address v) d = Ret (var_value v, d).
Proof.
  exists (ram_data clock). split; [apply ram_data_init|]. split; [apply ram_data_fp|].
  split; [apply ram_data_payload|]. split; [vm_compute; reflexivity|]. intros v Hv.
  repeat (apply elem_of_cons in Hv as [->|Hv]; [vm_compute; reflexivity|]). by apply elem_of_nil in Hv.
Qed.

(** On the RAM storage the free slots have the time -1, and deleting the
    entry with time -1 "succeeds": the table does not change but the counter
    is decremented, below the number of entries. *)
Theorem ram_delete_minus_one_drifts (d : dat ram_state) :
  fp_ok d -> used (st_slots (store d)) < SCH_FP_MAX_ENTRIES ->
  exists s', dat_del_fp (-1) d = Ret (SCH_ST_OK, set_store s' d) /\
    st_slots s' = st_slots (store d) /\
    st_status s' dat_fpl_queue = u32_of (used (st_slots (store d)) - 1).
Proof.
  intros Hfp Hu. pose proof Hfp as [Hok _]. pose proof Hok as [Hst Hsz]. pose proof (used_range d Hok).
  unfold dat_del_fp. rewrite (bind_step _ _ _ _ _ (counter_read d Hfp)).
  destruct (ram_fp_delete (store d) (-1) Hst) as (s1 & E & Hst1 & Hsz1 & Hv1 & Hs1).
  change (ram_slots (store d)) with (st_slots (store d)) in *.
  assert (tbl_delete (-1) (st_slots (store d)) = Some (st_slots (store d))) as Hd.
  { unfold tbl_delete. destruct (find_time (-1) (st_slots (store d))) as [k|] eqn:Ek; cbn.
    - f_equal. apply list_insert_id. apply (find_free_None _ _ (slots_times_ok d Hok) Ek).
    - assert (tbl_set (FpRow 0 [] [] 0 0 0) (st_slots (store d)) = None) as Hfull
        by (unfold tbl_set; change ST_FP_NULL with (-1); by rewrite Ek).
      apply tbl_set_full in Hfull. rewrite (law_slots_len _ Hst) in Hfull. lia. }
  rewrite Hd in *. cbn [issome default] in *. rewrite (bind_step _ _ _ _ _ (st_step _ d _ _ E)).
  cbn [Z.eqb SCH_ST_OK]. unfold bind at 1.
  rewrite cint_ok by (unfold INT_MIN, INT_MAX, SCH_FP_MAX_ENTRIES in *; lia).
  assert (dat_ok (set_store s1 d)) as Hd1 by (split; [exact Hst1|cbn in *; lia]).
  destruct (set_status_ok (set_store s1 d) dat_fpl_queue (u32_of (used (st_slots (store d)) - 1)) Hd1)
    as (s2 & _ & E2 & _ & _ & Hs2 & _ & Hv2).
  { cbn in *. unfold dat_fpl_queue, dat_status_last_address in *. lia. }
  { apply u32_of_range. }
  unfold dat_set_system_var. rewrite (bind_step _ _ _ _ _ E2). exists s2. split; [done|].
  split; [rewrite Hs2; exact Hs1|].
  specialize (Hv2 dat_fpl_queue). rewrite decide_True in Hv2 by done. apply Hv2.
  cbn in *. unfold dat_fpl_queue, dat_status_last_address in *. lia.
Qed.

(** *** Instances of the theorems on the RAM back end *)
Lemma status_var_roundtrip_witness :
  exists d', dat_set_system_var dat_obc_opmode (-5) (ram_data 0) = Ret (SCH_ST_OK, d') /\
    dat_get_system_var dat_obc_opmode d' = Ret (-5, d').
Proof.
  destruct (status_var_roundtrip (ram_data 0) (dat_get_status_var_def dat_obc_opmode) (-5))
    as (d' & H1 & _ & H2 & _).
  - apply ram_data_fp.
  - apply def_of_address. vm_compute. split; [discriminate|reflexivity].
  - unfold int_ok, INT_MIN, INT_MAX. lia.
  - exists d'. split; [exact H1|exact H2].
Defined.

Lemma reset_status_vars_defaults_witness :
  exists d', dat_reset_status_vars (ram_data 0) = Ret (SCH_ST_OK, d').
Proof.
  destruct (reset_status_vars_defaults (ram_data 0)) as (d' & H1 & _).
  - apply ram_data_fp.
  - exists d'. exact H1.
Defined.

(** Set, delete and get. *)
Definition demo_ops : list fp_op :=
  [OpSet 100 (cs "help") [] 1 0; OpSet 200 (cs "test") (cs "x") 2 5; OpDel 100; OpGet 200; OpGet 100].

Lemma demo_ops_valid : Forall valid_op demo_ops.
Proof.
  repeat constructor; cbn; unfold int_ok, INT_MIN, INT_MAX, ST_FP_NULL; try lia;
    apply (bool_decide_unpack _); vm_compute; exact I.
Qed.

Lemma fp_history_refines_table_witness :
  exists d', run_ops demo_ops (ram_data 0) =
    Ret ([(0, None); (0, None); (0, None); (0, Some (FpOut (cs "test") (cs "x") 2 5 1)); (-1, None)], d').
Proof.
  destruct (fp_history_refines_table (ram_data 0) demo_ops) as (d' & H1 & _).
  - apply ram_data_fp.
  - exact I.
  - apply demo_ops_valid.
  - exists d'. rewrite H1. vm_compute. reflexivity.
Defined.

Lemma fp_set_get_once_witness :
  exists d1 d2, dat_set_fp 100 (Some (cs "help")) (Some []) 1 0 (ram_data 0) = Ret (SCH_ST_OK, d1) /\
    dat_get_fp 100 d1 = Ret ((SCH_ST_OK, Some (FpOut (cs "help") [] 1 0 SCH_COMM_NODE)), d2).
Proof.
  destruct (fp_set_get_once (ram_data 0) 100 (cs "help") [] 1 0) as (d1 & d2 & H1 & H2 & _).
  - apply ram_data_fp.
  - exact I.
  - unfold INT_MAX. lia.
  - unfold int_ok, INT_MIN, INT_MAX. lia.
  - unfold int_ok, INT_MIN, INT_MAX. lia.
  - apply (bool_decide_unpack _). vm_compute. exact I.
  - apply (bool_decide_unpack _). vm_compute. exact I.
  - vm_compute. reflexivity.
  - vm_compute. reflexivity.
  - exists d1, d2. split; [exact H1|exact H2].
Defined.

Lemma fp_counter_lost_update_witness :
  exists s', two_set_fp 100 (cs "help") [] 200 (cs "help") [] (ram_data 0)
      = Ret ((SCH_ST_OK, SCH_ST_OK), set_store s' (ram_data 0)) /\ st_status s' dat_fpl_queue = 1.
Proof.
  destruct (fp_counter_lost_update (ram_data 0) 100 (cs "help") [] 200 (cs "help") [])
    as (s' & H1 & _ & H2).
  - apply ram_data_fp.
  - exact I.
  - unfold INT_MAX. lia.
  - unfold INT_MAX. lia.
  - apply (bool_decide_unpack _). vm_compute. exact I.
  - apply (bool_decide_unpack _). vm_compute. exact I.
  - apply (bool_decide_unpack _). vm_compute. exact I.
  - apply (bool_decide_unpack _). vm_compute. exact I.
  - vm_compute. discriminate.
  - exists s'. split; [exact H1|]. rewrite H2. vm_compute. reflexivity.
Defined.

(** A RAM storage with room for three copies of the status variables. *)
Definition triple_data : dat ram_state :=
  match (Ram.storage_init ;! Ram.storage_table_status_init 51 false ;!
         Ram.storage_table_flight_plan_init SCH_FP_MAX_ENTRIES false) ram_boot with
  | Ret (_, s) => Dat s 0 true machine0
  | Fault _ => Dat ram_boot 0 true machine0
  end.

Lemma triple_data_ok : triple_ok triple_data.
Proof.
  split; [|vm_compute; discriminate]. split; [reflexivity|]. split.
  - eexists; split; [reflexivity|]. split; [vm_compute; reflexivity|].
    apply (bool_decide_unpack _). vm_compute. exact I.
  - eexists; split; [reflexivity|]. split; [vm_compute; reflexivity|]. split; [vm_compute; reflexivity|].
    apply Forall_replicate. by intros [].
Qed.

Lemma triple_write_survives_one_error_witness :
  exists d1 d2, dat_set_status_var_triple 3 77 triple_data = Ret (SCH_ST_OK, d1) /\
    dat_get_status_var_triple 3 d2 = Ret (77, d2).
Proof.
  destruct (triple_write_survives_one_error triple_data 3 77 0 4) as (d1 & d2 & H1 & _ & H2).
  - apply triple_data_ok.
  - vm_compute. split; [discriminate|reflexivity].
  - lia.
  - lia.
  - lia.
  - exists d1, d2. split; [exact H1|exact H2].
Defined.

Lemma purge_keeps_future_entries_witness :
  exists s', dat_purge_fp (ram_data 50) = Ret (SCH_ST_OK, set_store s' (ram_data 50)).
Proof.
  destruct (purge_keeps_future_entries (ram_data 50)) as (s' & H1 & _).
  - apply ram_data_fp.
  - by left.
  - vm_compute. split; [discriminate|reflexivity].
  - exists s'. exact H1.
Defined.

Lemma add_sample_then_recent_witness :
  exists d', dat_add_payload_sample (Some [1; 2; 3; 4; 5; 6; 7; 8; 9; 10; 11; 12]) temp_sensors (ram_data 0) = Ret (0, d') /\
    dat_get_recent_payload_sample temp_sensors 0 d' =
      Ret ((SCH_ST_OK, Some [1; 2; 3; 4; 5; 6; 7; 8; 9; 10; 11; 12]), d').
Proof.
  destruct (add_sample_then_recent (ram_data 0) 0 [1; 2; 3; 4; 5; 6; 7; 8; 9; 10; 11; 12]) as (d' & H1 & _ & H2 & _).
  - apply ram_data_payload.
  - vm_compute. reflexivity.
  - vm_compute. reflexivity.
  - reflexivity.
  - exists d'. split; [exact H1|exact H2].
Defined.

Definition demo_samples : list (list Z) :=
  [[1; 2; 3; 4; 5; 6; 7; 8; 9; 10; 11; 12]; [21; 22; 23; 24; 25; 26; 27; 28; 29; 30; 31; 32]].

Lemma payload_samples_stack_witness :
  exists d', add_samples demo_samples (ram_data 0) = Ret ([0; 0], d') /\
    dat_get_recent_payload_sample temp_sensors 0 d' =
      Ret ((SCH_ST_OK, Some [21; 22; 23; 24; 25; 26; 27; 28; 29; 30; 31; 32]), d') /\
    dat_get_recent_payload_sample temp_sensors 1 d' =
      Ret ((SCH_ST_OK, Some [1; 2; 3; 4; 5; 6; 7; 8; 9; 10; 11; 12]), d').
Proof.
  destruct (payload_samples_stack demo_samples (ram_data 0) 0) as (d' & H1 & _ & H2 & _).
  - apply ram_data_payload.
  - vm_compute. discriminate.
  - vm_compute. reflexivity.
  - repeat constructor.
  - exists d'. split; [exact H1|]. split; apply H2; reflexivity.
Defined.

Lemma ram_delete_minus_one_drifts_witness :
  exists s', dat_del_fp (-1) (ram_data 0) = Ret (SCH_ST_OK, set_store s' (ram_data 0)) /\
    st_status s' dat_fpl_queue = 4294967295.
Proof.
  destruct (ram_delete_minus_one_drifts (ram_data 0)) as (s' & H1 & _ & H2).
  - apply ram_data_fp.
  - vm_compute. reflexivity.
  - exists s'. split; [exact H1|]. rewrite H2. vm_compute. reflexivity.
Defined.

End RepoDataTheorems.
