(* ===== verification/Locks.v ===== *)
(** * Critical sections

    Tasks that share the data repository, at the grain of single storage calls:
    the semaphore [repo_data_sem] of [os/linux/osSemphr.c], the functions of
    [src/system/repoData.c] with the points where they take and give it, and
    the tasks that call them.  RepoData runs a critical section as one step;
    the theorems here show that no interleaving can tell the difference. *)
From S2P Require Import Prelude CStr Memory Config Storage StorageRam Schema RepoData.

Declare Scope prog_scope.

Module Locks.

(** ** Programs that share a state *)
Section prog.
Context {S : Type}.

(** What a task still has to do: [Call] is one call of the storage, which no
    other call interrupts, [Stop] behaviour that C does not define. *)
Inductive prog (A : Type) : Type :=
  | Return (a : A)
  | Take (p : prog A)
  | Given (p : prog A)
  | Call {B : Type} (m : M S B) (k : B -> prog A)
  | Stop (f : fault).
Arguments Return {A} a.
Arguments Take {A} p.
Arguments Given {A} p.
Arguments Call {A B} m k.
Arguments Stop {A} f.

Fixpoint pbind {A B} (p : prog A) (k : A -> prog B) : prog B :=
  match p with
  | Return a => k a
  | Take p => Take (pbind p k)
  | Given p => Given (pbind p k)
  | Call m c => Call m (fun b => pbind (c b) k)
  | Stop f => Stop f
  end.

(** The calls of a function: a call of the storage, a local computation (whose
    only effect on the shared state is a fault), the two of the semaphore.
    The code does not look at the results of the last two. *)
Definition call {B} (m : M S B) : prog B := Call m Return.
Definition local {A} (m : M unit A) : prog A :=
  match m tt with Ret (a, _) => Return a | Fault f => Stop f end.
Definition osSemaphoreTake : prog unit := Take (Return tt).
Definition osSemaphoreGiven : prog unit := Given (Return tt).

Fixpoint fold_p {X A} (xs : list X) (body : A -> X -> prog A) (a : A) : prog A :=
  match xs with
  | [] => Return a
  | x :: xs => pbind (body a x) (fold_p xs body)
  end.

(** A program that no other interrupts. *)
Fixpoint run {A} (p : prog A) : M S A :=
  match p with
  | Return a => ret a
  | Take p | Given p => run p
  | Call m k => bind m (fun b => run (k b))
  | Stop f => fail f
  end.

(** ** Tasks

    One step of task [i]: [None] when it has ended or waits.  The semaphore is
    a mutex of pthreads of the default kind: [pthread_mutex_lock] waits for as
    long as any task has it, the caller too, and unlocking a mutex of somebody
    else is not defined. *)
Definition turn {A} (i : nat) (lock : option nat) (p : prog A) (s : S) : option (res (prog A * option nat * S)) :=
  match p with
  | Return _ => None
  | Take p => match lock with None => Some (Ret (p, Some i, s)) | Some _ => None end
  | Given p => if bool_decide (lock = Some i) then Some (Ret (p, None, s)) else Some (Fault AssertFail)
  | Call m k => Some match m s with Ret (b, s) => Ret (k b, lock, s) | Fault f => Fault f end
  | Stop f => Some (Fault f)
  end.

Record system A := System { shared : S; sem : option nat; tasks : list (prog A) }.
Arguments System {A} _ _ _.
Arguments shared {A} _.
Arguments sem {A} _.
Arguments tasks {A} _.

Inductive step {A} : system A -> system A -> Prop :=
  | TaskStep i p p' s s' l l' ts : ts !! i = Some p -> turn i l p s = Some (Ret (p', l', s')) ->
      step (System s l ts) (System s' l' (<[i := p']> ts)).

Definition faulty {A} (c : system A) (f : fault) : Prop :=
  exists i p, tasks c !! i = Some p /\ turn i (sem c) p (shared c) = Some (Fault f).

(** ** Tasks whose critical sections are single steps

    A section, up to the call that gives the semaphore; [None] if it never
    does. *)
Fixpoint section {A} (p : prog A) (s : S) : option (res (prog A * S)) :=
  match p with
  | Return _ | Take _ => None
  | Given p => Some (Ret (p, s))
  | Call m k => match m s with Ret (b, s) => section (k b) s | Fault f => Some (Fault f) end
  | Stop f => Some (Fault f)
  end.

Definition atom {A} (p : prog A) (s : S) : option (res (prog A * S)) :=
  match p with
  | Take p => section p s
  | Stop f => Some (Fault f)
  | _ => None
  end.

Inductive atom_step {A} : S * list (prog A) -> S * list (prog A) -> Prop :=
  | AtomStep i p p' s s' ts : ts !! i = Some p -> atom p s = Some (Ret (p', s')) ->
      atom_step (s, ts) (s', <[i := p']> ts).

Definition atom_faulty {A} (a : S * list (prog A)) (f : fault) : Prop :=
  exists i p, a.2 !! i = Some p /\ atom p a.1 = Some (Fault f).

(** ** Discipline

    Every call is made with the semaphore, which is taken when it is free and
    given when it is held, on each path; [held] at the start, [after] at the
    end. *)
Fixpoint bracketed {A} (held after : bool) (p : prog A) : Prop :=
  match p with
  | Return _ => held = after
  | Take p => held = false /\ bracketed true after p
  | Given p => held = true /\ bracketed false after p
  | Call m k => held = true /\ forall b, bracketed held after (k b)
  | Stop _ => True
  end.

(** A section with nothing but a local end after it. *)
Fixpoint single {A} (p : prog A) : Prop :=
  match p with
  | Given (Return _) | Given (Stop _) | Stop _ => True
  | Call m k => forall b, single (k b)
  | _ => False
  end.
End prog.
Arguments prog S A : clear implicits.
Arguments system S A : clear implicits.
Arguments Return {S A} a.
Arguments Take {S A} p.
Arguments Given {S A} p.
Arguments Call {S A B} m k.
Arguments Stop {S A} f.
Arguments System {S A} _ _ _.
Arguments shared {S A} _.
Arguments sem {S A} _.
Arguments tasks {S A} _.

Notation "'let?' x := c 'in' k" := (pbind c (fun x => k))
  (at level 10, x name, c at level 100, k at level 200) : prog_scope.
Notation "'let?' ' pat := c 'in' k" := (pbind c (fun x => match x with pat => k end))
  (at level 10, pat pattern, c at level 100, k at level 200) : prog_scope.
Notation "c1 ;? c2" := (pbind c1 (fun _ => c2))
  (at level 100, c2 at level 200, right associativity) : prog_scope.
Open Scope prog_scope.

(** ** The functions of [repoData.c], with the semaphore *)
Section repo.
Context {S : Type} `{Storage S}.

(** A local variable that may not have been written. *)
Definition written {A} (v : option A) : prog S A :=
  match v with Some v => Return v | None => Stop Uninitialized end.

Definition _dat_set_system_var (index value : Z) : prog S Z :=
  osSemaphoreTake ;?
  let? rc := call (storage_status_set_value_idx index (u32_of value)) in
  osSemaphoreGiven ;?
  Return rc.

Definition _dat_get_system_var (index : Z) : prog S Z :=
  osSemaphoreTake ;?
  let? '(_, value) := call (storage_status_get_value_idx index) in
  osSemaphoreGiven ;?
  let? value := written value in Return (i32_of value).

Definition dat_set_status_var (index value : Z) : prog S Z :=
  osSemaphoreTake ;?
  let? rc := call (storage_status_set_value_idx index value) in
  osSemaphoreGiven ;?
  Return rc.

Definition dat_get_status_var (index : Z) : prog S Z :=
  osSemaphoreTake ;?
  let? '(_, value_1) := call (storage_status_get_value_idx index) in
  osSemaphoreGiven ;?
  written value_1.

(** Built with [SCH_STORAGE_TRIPLE_WR == 1]. *)
Definition dat_set_status_var_triple (index value : Z) : prog S Z :=
  osSemaphoreTake ;?
  let? rc := call (storage_status_set_value_idx index value) in
  let? rc2 := call (storage_status_set_value_idx (index + dat_status_last_address) value) in
  let? rc3 := call (storage_status_set_value_idx (index + dat_status_last_address * 2) value) in
  osSemaphoreGiven ;?
  Return (Z.lor (Z.lor rc rc2) rc3).

Definition dat_get_status_var_triple (index : Z) : prog S Z :=
  osSemaphoreTake ;?
  let? '(_, value_1) := call (storage_status_get_value_idx index) in
  let? '(_, value_2) := call (storage_status_get_value_idx (index + dat_status_last_var)) in
  let? '(_, value_3) := call (storage_status_get_value_idx (index + dat_status_last_var * 2)) in
  osSemaphoreGiven ;?
  let? v1 := written value_1 in
  let? v2 := written value_2 in
  let? v3 := written value_3 in
  Return (RepoData.vote v1 v2 v3).

Definition dat_set_system_var (index value : Z) : prog S Z := dat_set_status_var index (u32_of value).
Definition dat_get_system_var (index : Z) : prog S Z :=
  let? var := dat_get_status_var index in Return (i32_of var).

Definition dat_reset_status_vars : prog S Z :=
  let? rc := fold_p (range dat_status_last_address) (fun rc index =>
    let? r := dat_set_status_var index (var_value (dat_get_status_var_def index)) in
    local (cint (rc + r))) SCH_ST_OK in
  Return (if rc =? SCH_ST_OK then SCH_ST_OK else SCH_ST_ERROR).

(** [dat_set_system_var(dat_fpl_queue, n)] after a call that succeeded. *)
Definition set_queue (rc n : Z) : prog S unit :=
  if rc =? SCH_ST_OK then
    let? n := local (cint n) in
    dat_set_system_var dat_fpl_queue n ;? Return tt
  else Return tt.

Definition dat_set_fp (timetodo : Z) (command args : option cstring) (executions periodical : Z) : prog S Z :=
  let? entries := dat_get_system_var dat_fpl_queue in
  osSemaphoreTake ;?
  let? rc := call (storage_flight_plan_set timetodo command args executions periodical SCH_COMM_NODE) in
  osSemaphoreGiven ;?
  set_queue rc (entries + 1) ;? Return rc.

Definition dat_get_fp (elapsed_sec : Z) : prog S (Z * option fp_out) :=
  let? entries := dat_get_system_var dat_fpl_queue in
  osSemaphoreTake ;?
  let? '(rc, out) := call (storage_flight_plan_get_args elapsed_sec) in
  let? rc := (if rc =? SCH_ST_OK then call (storage_flight_plan_delete_row elapsed_sec) else Return rc) in
  osSemaphoreGiven ;?
  set_queue rc (entries - 1) ;? Return (rc, out).

Definition dat_del_fp (timetodo : Z) : prog S Z :=
  let? entries := dat_get_system_var dat_fpl_queue in
  osSemaphoreTake ;?
  let? rc := call (storage_flight_plan_delete_row timetodo) in
  osSemaphoreGiven ;?
  set_queue rc (entries - 1) ;? Return rc.

Definition dat_reset_fp : prog S Z :=
  osSemaphoreTake ;?
  let? rc := call storage_flight_plan_reset in
  osSemaphoreGiven ;?
  set_queue rc 0 ;? Return rc.

Definition dat_show_fp : prog S (Z * list fp_entry) :=
  osSemaphoreTake ;?
  let? out := fold_p (range SCH_FP_MAX_ENTRIES) (fun out i =>
    let? '(ok, e) := call (storage_flight_plan_get_idx i) in
    if ok =? SCH_ST_OK then
      let? e := written e in
      Return (if negb (fp_unixtime e =? ST_FP_NULL) then out ++ [e] else out)
    else Return out) [] in
  osSemaphoreGiven ;?
  Return (SCH_ST_OK, out).

Definition dat_get_fp_st_index (index : Z) : prog S (Z * option fp_entry) :=
  osSemaphoreTake ;?
  let? r := call (storage_flight_plan_get_idx index) in
  osSemaphoreGiven ;?
  Return r.

(** The one function that calls the storage without the semaphore; [now] is
    the clock. *)
Definition dat_purge_fp (now : Z) : prog S Z :=
  let? time_min := local (cint (i32_of now + 1)) in
  let? '(fp_entries, _) := fold_p (range SCH_FP_MAX_ENTRIES) (fun '(fp_entries, fp_i) i =>
    let? '(ok, e) := call (storage_flight_plan_get_idx i) in
    let fp_i := match e with Some e => Some e | None => fp_i end in
    let? valid := (if ok =? SCH_ST_OK then
                     let? e := written fp_i in Return (time_min <? fp_unixtime e)
                   else Return false) in
    if (valid : bool) then Return (fp_entries + 1, fp_i)
    else let? e := written fp_i in
         (if negb (fp_unixtime e =? ST_FP_NULL)
          then call (storage_flight_plan_delete_row_idx i) ;? Return tt
          else Return tt) ;?
         Return (fp_entries, fp_i)) (0, None) in
  dat_set_system_var dat_fpl_queue fp_entries ;?
  Return SCH_ST_OK.

Definition dat_add_payload_sample (data : option (list Z)) (payload : Z) : prog S Z :=
  match data with
  | None => Return (-1)
  | Some bytes =>
      let? schema := local (arr_get data_map payload) in
      let? index := dat_get_system_var (map_sys_index schema) in
      if zlength bytes <? 4 then Stop OutOfBounds else
      if last_sensor <=? payload then Return SCH_ST_ERROR else
      osSemaphoreTake ;?
      let? r := call (storage_payload_set_data payload index data (Some (map_size schema))) in
      osSemaphoreGiven ;?
      if SCH_ST_OK <=? r then
        let? index := local (cint (index + 1)) in
        dat_set_system_var (map_sys_index schema) index ;? Return 0
      else Return (-1)
  end.

Definition dat_get_payload_sample (payload index : Z) : prog S (Z * option (list Z)) :=
  let? schema := local (arr_get data_map payload) in
  osSemaphoreTake ;?
  let? r := call (storage_payload_get_data payload index (Some (map_size schema))) in
  osSemaphoreGiven ;?
  Return r.

Definition dat_get_recent_payload_sample (payload offset : Z) : prog S (Z * option (list Z)) :=
  let? schema := local (arr_get data_map payload) in
  let? index := dat_get_system_var (map_sys_index schema) in
  osSemaphoreTake ;?
  let? last := local (cint (index - 1)) in
  let? i := local (cint (last - offset)) in
  let? r := (if 0 <=? i then call (storage_payload_get_data payload i (Some (map_size schema)))
             else Return (-1, None)) in
  osSemaphoreGiven ;?
  Return r.

Definition dat_delete_payload (payload : Z) : prog S Z :=
  if last_sensor <=? payload then Return SCH_ST_ERROR else
  osSemaphoreTake ;?
  let? rc := call (storage_payload_reset_table payload) in
  osSemaphoreGiven ;?
  if rc =? SCH_ST_OK then
    let? schema := local (arr_get data_map payload) in
    dat_set_system_var (map_sys_index schema) 0 ;?
    dat_set_system_var (map_sys_ack schema) 0 ;?
    Return rc
  else Return rc.

Definition dat_delete_memory_sections : prog S Z :=
  osSemaphoreTake ;?
  call storage_payload_reset ;?
  let? r := call storage_flight_plan_reset in
  osSemaphoreGiven ;?
  fold_p (range last_sensor) (fun _ i =>
    let? schema := local (arr_get data_map i) in
    dat_set_system_var (map_sys_index schema) 0 ;? Return tt) tt ;?
  dat_set_system_var dat_fpl_queue 0 ;?
  Return r.

(** ** Tasks that call them *)
Inductive request :=
  | SetStatusVar (index value : Z) | GetStatusVar (index : Z)
  | SetSystemVar (index value : Z) | GetSystemVar (index : Z)
  | SetOneVar (index value : Z) | GetOneVar (index : Z)
  | SetTriple (index value : Z) | GetTriple (index : Z)
  | ResetStatusVars
  | SetFp (timetodo : Z) (command args : option cstring) (executions periodical : Z)
  | GetFp (elapsed_sec : Z) | DelFp (timetodo : Z) | ResetFp | ShowFp | GetFpIndex (index : Z)
  | AddSample (data : option (list Z)) (payload : Z) | GetSample (payload index : Z)
  | GetRecentSample (payload offset : Z) | DeletePayload (payload : Z) | DeleteMemory.

Inductive reply :=
  | RInt (z : Z)
  | RFp (r : Z * option fp_out)
  | REntries (r : Z * list fp_entry)
  | REntry (r : Z * option fp_entry)
  | RSample (r : Z * option (list Z)).

Definition as_reply {A} (f : A -> reply) (p : prog S A) : prog S reply := let? a := p in Return (f a).

Definition serve (r : request) : prog S reply :=
  match r with
  | SetStatusVar i v => as_reply RInt (dat_set_status_var i v)
  | GetStatusVar i => as_reply RInt (dat_get_status_var i)
  | SetSystemVar i v => as_reply RInt (dat_set_system_var i v)
  | GetSystemVar i => as_reply RInt (dat_get_system_var i)
  | SetOneVar i v => as_reply RInt (_dat_set_system_var i v)
  | GetOneVar i => as_reply RInt (_dat_get_system_var i)
  | SetTriple i v => as_reply RInt (dat_set_status_var_triple i v)
  | GetTriple i => as_reply RInt (dat_get_status_var_triple i)
  | ResetStatusVars => as_reply RInt dat_reset_status_vars
  | SetFp t c a e p => as_reply RInt (dat_set_fp t c a e p)
  | GetFp t => as_reply RFp (dat_get_fp t)
  | DelFp t => as_reply RInt (dat_del_fp t)
  | ResetFp => as_reply RInt dat_reset_fp
  | ShowFp => as_reply REntries dat_show_fp
  | GetFpIndex i => as_reply REntry (dat_get_fp_st_index i)
  | AddSample data p => as_reply RInt (dat_add_payload_sample data p)
  | GetSample p i => as_reply RSample (dat_get_payload_sample p i)
  | GetRecentSample p o => as_reply RSample (dat_get_recent_payload_sample p o)
  | DeletePayload p => as_reply RInt (dat_delete_payload p)
  | DeleteMemory => as_reply RInt dat_delete_memory_sections
  end.

(** A task that makes its calls one after the other and ends with the replies. *)
Fixpoint client (rs : list request) (out : list reply) : prog S (list reply) :=
  match rs with
  | [] => Return out
  | r :: rs => let? a := serve r in client rs (out ++ [a])
  end.

(** The same calls on the data repository of RepoData. *)
Definition reply_of {A} (f : A -> reply) (m : M (RepoData.dat S) A) : M (RepoData.dat S) reply :=
  let! a := m in ret (f a).

Definition dat_call (r : request) : M (RepoData.dat S) reply :=
  match r with
  | SetStatusVar i v => reply_of RInt (RepoData.dat_set_status_var i v)
  | GetStatusVar i => reply_of RInt (RepoData.dat_get_status_var i)
  | SetSystemVar i v => reply_of RInt (RepoData.dat_set_system_var i v)
  | GetSystemVar i => reply_of RInt (RepoData.dat_get_system_var i)
  | SetOneVar i v => reply_of RInt (RepoData._dat_set_system_var i v)
  | GetOneVar i => reply_of RInt (RepoData._dat_get_system_var i)
  | SetTriple i v => reply_of RInt (RepoData.dat_set_status_var_triple i v)
  | GetTriple i => reply_of RInt (RepoData.dat_get_status_var_triple i)
  | ResetStatusVars => reply_of RInt RepoData.dat_reset_status_vars
  | SetFp t c a e p => reply_of RInt (RepoData.dat_set_fp t c a e p)
  | GetFp t => reply_of RFp (RepoData.dat_get_fp t)
  | DelFp t => reply_of RInt (RepoData.dat_del_fp t)
  | ResetFp => reply_of RInt RepoData.dat_reset_fp
  | ShowFp => reply_of REntries RepoData.dat_show_fp
  | GetFpIndex i => reply_of REntry (RepoData.dat_get_fp_st_index i)
  | AddSample data p => reply_of RInt (RepoData.dat_add_payload_sample data p)
  | GetSample p i => reply_of RSample (RepoData.dat_get_payload_sample p i)
  | GetRecentSample p o => reply_of RSample (RepoData.dat_get_recent_payload_sample p o)
  | DeletePayload p => reply_of RInt (RepoData.dat_delete_payload p)
  | DeleteMemory => reply_of RInt RepoData.dat_delete_memory_sections
  end.

(** The calls with one critical section, on every path. *)
Definition one_section (r : request) : bool :=
  match r with
  | SetStatusVar _ _ | GetStatusVar _ | SetSystemVar _ _ | GetSystemVar _ | SetOneVar _ _ | GetOneVar _
  | SetTriple _ _ | GetTriple _ | ShowFp | GetFpIndex _ => true
  | _ => false
  end.

(** Whole calls, one at a time, in the order of each task: a task is the calls
    it has left and the replies it got. *)
Abbreviation caller := (list request * list reply)%type.

Inductive whole_step : RepoData.dat S * list caller -> RepoData.dat S * list caller -> Prop :=
  | WholeStep i r rs out a d d' ts : ts !! i = Some (r :: rs, out) -> dat_call r d = Ret (a, d') ->
      whole_step (d, ts) (d', <[i := (rs, out ++ [a])]> ts).

Definition whole_faulty (o : RepoData.dat S * list caller) : Prop :=
  exists i r rs out f, o.2 !! i = Some (r :: rs, out) /\ dat_call r o.1 = Fault f.
End repo.
End Locks.

(** ** Sections are atomic *)
Module LocksLaws.
Import Locks.

Section generic.
Context {S : Type}.
Implicit Types (s : S).

(** *** Programs *)
Lemma bracketed_bind {A B} (p : prog S A) (k : A -> prog S B) h1 h2 h3 :
  bracketed h1 h2 p -> (forall a, bracketed h2 h3 (k a)) -> bracketed h1 h3 (pbind p k).
Proof.
  intros Hp Hk. revert h1 Hp. induction p as [a|p IH|p IH|X m c IH|f]; intros h1 Hp; cbn in *.
  - subst. apply Hk.
  - destruct Hp. auto.
  - destruct Hp. auto.
  - destruct Hp as [? Hp]. auto.
  - done.
Qed.

Lemma bracketed_local {A} (m : M unit A) h : bracketed h h (@local S A m).
Proof. unfold local. by destruct (m tt) as [[]|]. Qed.

Lemma bracketed_fold {X A} (xs : list X) (body : A -> X -> prog S A) a h :
  (forall a x, bracketed h h (body a x)) -> bracketed h h (fold_p xs body a).
Proof. intros Hb. revert a. induction xs as [|x xs IH]; intros a; cbn; [done|]. by apply bracketed_bind with h. Qed.

Lemma run_bind {A B} (p : prog S A) (k : A -> prog S B) s : run (pbind p k) s = bind (run p) (fun a => run (k a)) s.
Proof.
  revert s. induction p as [a|p IH|p IH|X m c IH|f]; intros s; cbn; try done.
  unfold bind at 1 2 3. destruct (m s) as [[b s']|]; [|done]. by rewrite IH.
Qed.

Lemma single_section {A B} (p : prog S A) (k : A -> prog S B) s :
  single p ->
  match run p s with
  | Ret (a, s') => section (pbind p k) s = Some (Ret (k a, s'))
  | Fault f => section (pbind p k) s = Some (Fault f) \/ exists s', section (pbind p k) s = Some (Ret (Stop f, s'))
  end.
Proof.
  revert s. induction p as [a|p IH|p IH|X m c IH|f]; intros s Hp; cbn in *; try done; try (by left).
  - destruct p; try done; cbn; eauto.
  - unfold bind. destruct (m s) as [[b s']|f]; [|by left]. by apply IH.
Qed.

(** *** The simulation

    With the semaphore free the two systems agree; while task [i] has it, the
    atomic system is where [i] took it, and what is left of the section from
    here does what the whole section does from there. *)
Context {A : Type}.
Implicit Types (p q : prog S A) (ts : list (prog S A)) (c : system S A).

Definition free_tasks ts : Prop := Forall (bracketed false false) ts.

Definition tracks c (a : S * list (prog S A)) : Prop :=
  free_tasks a.2 /\
  match sem c with
  | None => shared c = a.1 /\ tasks c = a.2
  | Some i => exists p q, a.2 !! i = Some (Take p) /\ tasks c = <[i := q]> a.2 /\ bracketed true false q /\
      section p a.1 = section q (shared c)
  end.

Lemma section_bracketed p s p' s' :
  bracketed true false p -> section p s = Some (Ret (p', s')) -> bracketed false false p'.
Proof.
  revert s. induction p as [a|p IH|p IH|X m c IH|f]; intros s Hb Hs; cbn in *; try done.
  - destruct Hb as [_ Hb]. by simplify_eq.
  - destruct Hb as [_ Hb]. destruct (m s) as [[b s1]|] eqn:E; [|done]. by apply (IH b s1).
Qed.

Lemma atom_bracketed p s p' s' :
  bracketed false false p -> atom p s = Some (Ret (p', s')) -> bracketed false false p'.
Proof. destruct p; cbn; try done. intros [_ Hb]. by apply section_bracketed. Qed.

Lemma tracks_task c a i p :
  tracks c a -> tasks c !! i = Some p ->
  (sem c = Some i /\ bracketed true false p) \/
  (sem c <> Some i /\ a.2 !! i = Some p /\ bracketed false false p).
Proof.
  intros [Hf Hc] Hi. destruct (sem c) as [j|].
  - destruct Hc as (q0 & q & Hj & Ht & Hb & _). rewrite Ht in Hi.
    apply list_lookup_insert_Some in Hi as [(-> & -> & _)|[Hne Hi]]; [by left|]. right.
    split; [congruence|]. split; [done|]. by apply (Forall_lookup_1 _ _ _ _ Hf Hi).
  - destruct Hc as [_ Ht]. rewrite Ht in Hi. right. split; [done|]. split; [done|].
    by apply (Forall_lookup_1 _ _ _ _ Hf Hi).
Qed.

Lemma tracks_step c c' a : tracks c a -> step c c' -> exists a', rtc atom_step a a' /\ tracks c' a'.
Proof.
  intros Htr Hst. destruct Hst as [i p p' s s' l l' ts Hi Hturn]. pose proof Htr as [Hf Hc].
  destruct (tracks_task _ _ i p Htr Hi) as [[Hl Hb]|(Hl & Hai & Hb)]; cbn in Hl, Hc.
  - subst l. destruct Hc as (p0 & q & H0 & -> & _ & Hs). cbn in Hs.
    rewrite list_lookup_insert_eq in Hi by (by eapply lookup_lt_Some). simplify_eq.
    destruct p as [x|p|p|X m k|f]; cbn in Hturn, Hb; try done.
    + rewrite bool_decide_true in Hturn by done. simplify_eq. cbn in Hs. rewrite list_insert_insert_eq.
      exists (s', <[i := p']> a.2). destruct a as [s0 ts]. cbn in *. split; [by eapply rtc_once, AtomStep|].
      split; [|done]. cbn. apply Forall_insert; tauto.
    + destruct Hb as [_ Hb]. destruct (m s) as [[b s1]|] eqn:E; [|done]. simplify_eq. cbn in Hs. rewrite E in Hs.
      rewrite list_insert_insert_eq. exists a. split; [done|]. split; [done|]. cbn. by exists p0, (k b).
  - destruct p as [x|p|p|X m k|f]; cbn in Hturn, Hb; try (by destruct Hb); try done.
    destruct l; [done|]. simplify_eq. destruct Hc as [Hs Ht], Hb as [_ Hb]. cbn in *. subst.
    exists a. split; [done|]. split; [done|]. cbn. by eexists _, _.
Qed.

Lemma tracks_faulty c a f : tracks c a -> faulty c f -> atom_faulty a f.
Proof.
  intros Htr (i & p & Hi & Hturn). pose proof Htr as [Hf Hc].
  destruct (tracks_task _ _ i p Htr Hi) as [[Hl Hb]|(Hl & Hai & Hb)].
  - rewrite Hl in *. destruct Hc as (p0 & q & H0 & Ht & _ & Hs). rewrite Ht in Hi.
    rewrite list_lookup_insert_eq in Hi by (by eapply lookup_lt_Some). simplify_eq.
    exists i, (Take p0). split; [done|]. cbn. rewrite Hs. destruct p as [x|p|p|X m k|g]; cbn in *; try done.
    + rewrite (bool_decide_eq_true_2 (Some i = Some i)) in Hturn by done. discriminate.
    + destruct (m (shared c)) as [[]|]; congruence.
    + congruence.
  - exists i, p. split; [done|]. destruct p as [x|p|p|X m k|g]; cbn in *; try (by destruct Hb); try done.
    + destruct (sem c); discriminate.
    + congruence.
Qed.

Lemma tracks_start s ts : free_tasks ts -> tracks (System s None ts) (s, ts).
Proof. done. Qed.

Lemma tracks_steps c c' a : rtc step c c' -> tracks c a -> exists a', rtc atom_step a a' /\ tracks c' a'.
Proof.
  intros Hst. revert a. induction Hst as [c|c c1 c2 H1 _ IH]; intros a Htr; [by exists a|].
  destruct (tracks_step c c1 a Htr H1) as (a1 & Ha1 & Htr1). destruct (IH a1 Htr1) as (a2 & Ha2 & Htr2).
  exists a2. split; [by transitivity a1|done].
Qed.

Lemma step_at i p p' s s' l l' ts :
  (i < length ts)%nat -> turn i l p s = Some (Ret (p', l', s')) ->
  step (System s l (<[i := p]> ts)) (System s' l' (<[i := p']> ts)).
Proof.
  intros Hi Ht. replace (<[i := p']> ts) with (<[i := p']> (<[i := p]> ts)) by apply list_insert_insert_eq.
  eapply TaskStep; [by apply list_lookup_insert_eq|done].
Qed.

Lemma section_steps p s p' s' i ts :
  (i < length ts)%nat -> bracketed true false p -> section p s = Some (Ret (p', s')) ->
  rtc step (System s (Some i) (<[i := p]> ts)) (System s' None (<[i := p']> ts)).
Proof.
  intros Hi. revert s. induction p as [a|p IH|p IH|X m c IH|f]; intros s Hb Hs; cbn in *; try done.
  - simplify_eq. apply rtc_once, step_at; [done|]. cbn. by rewrite bool_decide_true.
  - destruct Hb as [_ Hb]. destruct (m s) as [[b s1]|] eqn:E; [|done].
    eapply rtc_l; [|by apply (IH b s1)]. apply step_at; [done|]. cbn. by rewrite E.
Qed.

Lemma atom_step_steps a a' : free_tasks a.2 -> atom_step a a' ->
  rtc step (System a.1 None a.2) (System a'.1 None a'.2) /\ free_tasks a'.2.
Proof.
  intros Hf Hst. destruct Hst as [i p p' s s' ts Hi Ha]. cbn in *.
  pose proof (Forall_lookup_1 _ _ _ _ Hf Hi) as Hb. split.
  - destruct p as [x|p|p|X m k|g]; cbn in *; try done. destruct Hb as [_ Hb].
    eapply rtc_l; [by eapply TaskStep|]. apply section_steps; try done. by eapply lookup_lt_Some.
  - apply Forall_insert; [done|]. by apply (atom_bracketed p s p' s').
Qed.

Lemma atom_steps_steps a a' : free_tasks a.2 -> rtc atom_step a a' ->
  rtc step (System a.1 None a.2) (System a'.1 None a'.2).
Proof.
  intros Hf Hst. revert Hf. induction Hst as [|a a1 a2 H1 _ IH]; intros Hf; [done|].
  destruct (atom_step_steps a a1 Hf H1) as [Hs Hf1]. etransitivity; [done|]. by apply IH.
Qed.

(** *** No deadlock, and an end *)
Definition is_return p : bool := match p with Return _ => true | _ => false end.
Definition ended c : Prop := Forall (fun p => is_return p = true) (tasks c).

Lemma tracks_progress c a : tracks c a -> ended c \/ (exists c', step c c') \/ exists f, faulty c f.
Proof.
  intros Htr. assert (forall i p, tasks c !! i = Some p ->
      match turn i (sem c) p (shared c) with None => True | Some _ => (exists c', step c c') \/ exists f, faulty c f end)
    as Hmove.
  { intros i p Hi. destruct (turn i (sem c) p (shared c)) as [[[[p' l'] s']|f]|] eqn:E; [left|right|done].
    - destruct c. cbn in *. eexists. by eapply TaskStep.
    - by exists f, i, p. }
  destruct (sem c) as [i|] eqn:El.
  - right. pose proof Htr as [_ Hc]. rewrite El in Hc. destruct Hc as (p0 & q & H0 & Ht & Hb & _).
    assert (tasks c !! i = Some q) as Hi by (rewrite Ht; apply list_lookup_insert_eq; by eapply lookup_lt_Some).
    specialize (Hmove i q Hi). destruct q; cbn in Hb, Hmove; try done; try (by destruct Hb).
    by destruct (bool_decide _).
  - destruct (decide (ended c)) as [|Hn]; [by left|right].
    apply not_Forall_Exists in Hn; [|apply _]. apply Exists_exists in Hn as (p & Hin & Hp).
    apply list_elem_of_lookup in Hin as [i Hi]. specialize (Hmove i p Hi). cbn in Hp.
    destruct (tracks_task _ _ i p Htr Hi) as [[Hl _]|(_ & _ & Hb)]; [congruence|].
    destruct p; cbn in *; try done; by destruct Hb.
Qed.

(** What is left after a step of a task is a part of what was left before. *)
Definition part p' p : Prop :=
  match p with
  | Take q | Given q => p' = q
  | Call m k => exists b, p' = k b
  | _ => False
  end.

Lemma turn_part i l p s p' l' s' : turn i l p s = Some (Ret (p', l', s')) -> part p' p.
Proof.
  destruct p as [x|p|p|X m k|f]; cbn; intros Ht; try done.
  - destruct l; by simplify_eq.
  - destruct (bool_decide _); by simplify_eq.
  - destruct (m s) as [[b ?]|]; simplify_eq. by exists b.
Qed.

Lemma part_wf p : Acc part p.
Proof.
  induction p as [a|p IH|p IH|X m k IH|f]; apply Acc_intro; intros p'; cbn; try (intros []; fail).
  - intros ->. exact IH.
  - intros ->. exact IH.
  - intros [b ->]. apply IH.
Qed.

Definition parts ts' ts : Prop := exists i p p', ts !! i = Some p /\ part p' p /\ ts' = <[i := p']> ts.

Lemma parts_wf ts : Acc parts ts.
Proof.
  induction ts as [|p ts IH]; [by constructor; intros ? (i & ? & ? & ? & _)|].
  revert ts IH. induction (part_wf p) as [p _ IHp]. intros ts IH. induction IH as [ts Hts IHts].
  constructor. intros ? (i & q & q' & Hi & Hq & ->). destruct i as [|i]; cbn in *.
  - simplify_eq. apply IHp; [done|by constructor].
  - apply IHts. by exists i, q, q'.
Qed.

Lemma steps_wf c : Acc (flip step) c.
Proof.
  destruct c as [s l ts]. revert s l. induction (parts_wf ts) as [ts _ IH]. intros s l.
  constructor. intros c' Hst. unfold flip in Hst. inversion Hst; subst. apply IH.
  eexists _, _, _. split; [done|]. split; [by eapply turn_part|done].
Qed.

(** A task that is stuck stays so. *)
Lemma stopped_stays (a a' : S * list (prog S A)) i f : rtc atom_step a a' -> a.2 !! i = Some (Stop f) -> a'.2 !! i = Some (Stop f).
Proof.
  induction 1 as [a|a a1 a2 H1 _ IH]; intros Hi; [done|]. apply IH. destruct H1 as [j p p' s s' ts Hj Ha]. cbn in *.
  destruct (decide (i = j)) as [->|Hne]; [by simplify_eq|]. by rewrite list_lookup_insert_ne.
Qed.
End generic.

(** *** The functions of the repository *)
Section repo.
Context {S : Type} `{Storage S}.
Implicit Types (d : RepoData.dat S).
Abbreviation st := RepoData.st.

(** A program does, run alone, what the function of RepoData does. *)
Definition implements {A} (p : prog S A) (m : M (RepoData.dat S) A) : Prop := forall d, st (run p) d = m d.

Lemma implements_bind {A B} (p : prog S A) (k : A -> prog S B) m c :
  implements p m -> (forall a, implements (k a) (c a)) -> implements (pbind p k) (bind m c).
Proof.
  intros Hp Hk d. unfold bind. rewrite <- Hp. unfold RepoData.st, zoom in *. rewrite run_bind. unfold bind.
  destruct (run p _) as [[a s]|] eqn:E; [|done]. specialize (Hk a (RepoData.set_store s d)). unfold RepoData.st, zoom in Hk. cbn in *.
  rewrite <- Hk. by destruct (run (k a) s) as [[]|].
Qed.

Lemma implements_ret {A} (a : A) : implements (Return a) (ret a).
Proof. by intros []. Qed.

Lemma implements_fold {X A} (xs : list X) (bp : A -> X -> prog S A) bm a :
  (forall a x, implements (bp a x) (bm a x)) -> implements (fold_p xs bp a) (fold_m xs bm a).
Proof.
  intros Hb. revert a. induction xs as [|x xs IH]; intros a; cbn; [apply implements_ret|].
  by apply implements_bind.
Qed.

Lemma implements_cint z : implements (local (cint z)) (cint z).
Proof. intros []. unfold local, cint. by destruct (is_int z). Qed.

Lemma implements_arr_get {A} (l : list A) i : implements (local (arr_get l i)) (arr_get l i).
Proof. intros []. unfold local, arr_get. by destruct (zlookup l i). Qed.

Ltac runs_alike :=
  intros d; destruct d;
  cbv [bind RepoData.st zoom RepoData.store_lens run pbind call local osSemaphoreTake osSemaphoreGiven written
       ret fail lget lset RepoData.store RepoData.set_store
       RepoData.dat_set_system_var RepoData.dat_get_system_var RepoData.dat_set_status_var RepoData.dat_get_status_var
       RepoData._dat_set_system_var RepoData._dat_get_system_var
       RepoData.dat_set_status_var_triple RepoData.dat_get_status_var_triple RepoData.set_fp_store RepoData.set_fp_count
       RepoData.dat_set_fp RepoData.dat_get_fp RepoData.dat_del_fp RepoData.dat_reset_fp RepoData.dat_get_fp_st_index
       RepoData.dat_add_payload_sample RepoData.dat_get_payload_sample RepoData.dat_get_recent_payload_sample
       RepoData.dat_delete_payload
       dat_set_status_var dat_get_status_var dat_set_system_var dat_get_system_var _dat_set_system_var _dat_get_system_var
       dat_set_status_var_triple dat_get_status_var_triple dat_set_fp dat_get_fp dat_del_fp dat_reset_fp set_queue
       dat_get_fp_st_index dat_add_payload_sample dat_get_payload_sample dat_get_recent_payload_sample dat_delete_payload
       cint arr_get];
  repeat (case_match; simplify_eq; cbn); try done.

Lemma set_system_var_run i v : implements (dat_set_system_var i v) (RepoData.dat_set_system_var i v).
Proof. runs_alike. Qed.
Lemma get_system_var_run i : implements (dat_get_system_var i) (RepoData.dat_get_system_var i).
Proof. runs_alike. Qed.
Lemma set_status_var_run i v : implements (dat_set_status_var i v) (RepoData.dat_set_status_var i v).
Proof. runs_alike. Qed.
Lemma get_status_var_run i : implements (dat_get_status_var i) (RepoData.dat_get_status_var i).
Proof. runs_alike. Qed.
Lemma set_triple_run i v : implements (dat_set_status_var_triple i v) (RepoData.dat_set_status_var_triple i v).
Proof. runs_alike. Qed.
Lemma get_triple_run i : implements (dat_get_status_var_triple i) (RepoData.dat_get_status_var_triple i).
Proof. runs_alike. Qed.
Lemma set_fp_run t c a e p : implements (dat_set_fp t c a e p) (RepoData.dat_set_fp t c a e p).
Proof. runs_alike. Qed.
Lemma get_fp_run t : implements (dat_get_fp t) (RepoData.dat_get_fp t).
Proof. runs_alike. Qed.
Lemma del_fp_run t : implements (dat_del_fp t) (RepoData.dat_del_fp t).
Proof. runs_alike. Qed.
Lemma reset_fp_run : implements dat_reset_fp RepoData.dat_reset_fp.
Proof. runs_alike. Qed.
Lemma get_fp_index_run i : implements (dat_get_fp_st_index i) (RepoData.dat_get_fp_st_index i).
Proof. runs_alike. Qed.
Lemma add_sample_run data p : implements (dat_add_payload_sample data p) (RepoData.dat_add_payload_sample data p).
Proof. runs_alike. Qed.
Lemma get_sample_run p i : implements (dat_get_payload_sample p i) (RepoData.dat_get_payload_sample p i).
Proof. runs_alike. Qed.
Lemma get_recent_run p o : implements (dat_get_recent_payload_sample p o) (RepoData.dat_get_recent_payload_sample p o).
Proof. runs_alike. Qed.
Lemma delete_payload_run p : implements (dat_delete_payload p) (RepoData.dat_delete_payload p).
Proof. runs_alike. Qed.

(** The semaphore does not matter to a program that runs alone. *)
Lemma implements_take {A} (p : prog S A) m : implements p m -> implements (osSemaphoreTake ;? p) m.
Proof. intros Hp d. apply Hp. Qed.
Lemma implements_given {A} (p : prog S A) m : implements p m -> implements (osSemaphoreGiven ;? p) m.
Proof. intros Hp d. apply Hp. Qed.
Lemma implements_call {A} (m : M S A) : implements (call m) (st m).
Proof. intros d. unfold RepoData.st, zoom. cbn. unfold bind, ret. by destruct (m _) as [[]|]. Qed.
Lemma implements_written {A} (v : option A) :
  implements (written v) (match v with Some v => ret v | None => fail Uninitialized end).
Proof. intros []. by destruct v. Qed.

Lemma reset_vars_run : implements dat_reset_status_vars RepoData.dat_reset_status_vars.
Proof.
  apply implements_bind; [|intros rc; apply implements_ret]. apply implements_fold. intros rc index.
  apply implements_bind; [apply set_status_var_run|]. intros r. apply implements_cint.
Qed.

Lemma show_fp_run : implements dat_show_fp RepoData.dat_show_fp.
Proof.
  apply implements_take, implements_bind; [|intros out; apply implements_given, implements_ret].
  apply implements_fold. intros out i. apply implements_bind; [apply implements_call|]. intros [ok e].
  destruct (ok =? SCH_ST_OK); [|apply implements_ret]. destruct e; intros []; done.
Qed.

Lemma delete_memory_run : implements dat_delete_memory_sections RepoData.dat_delete_memory_sections.
Proof.
  apply implements_take, implements_bind; [apply implements_call|intros _].
  apply implements_bind; [apply implements_call|intros r]. apply implements_given.
  apply implements_bind; [|intros _; apply implements_bind; [apply set_system_var_run|intros _; apply implements_ret]].
  generalize (range last_sensor). intros xs. induction xs as [|i xs IH]; cbn [fold_p for_]; [apply implements_ret|].
  apply implements_bind; [|by intros []].
  apply implements_bind; [apply implements_arr_get|intros schema].
  apply implements_bind; [apply set_system_var_run|intros _; apply implements_ret].
Qed.

(** Every call, run alone, is the function of RepoData. *)
Lemma serve_run r : implements (serve r) (dat_call r).
Proof.
  destruct r; (apply implements_bind; [|intros ?; apply implements_ret]);
    auto using set_status_var_run, get_status_var_run, set_system_var_run, get_system_var_run, set_triple_run,
      get_triple_run, reset_vars_run, set_fp_run, get_fp_run, del_fp_run, reset_fp_run, show_fp_run,
      get_fp_index_run, add_sample_run, get_sample_run, get_recent_run, delete_payload_run, delete_memory_run;
    runs_alike.
Qed.

(** *** Every function keeps the discipline, but one *)
Lemma bracketed_take {A} (p : prog S A) h : bracketed true h p -> bracketed false h (osSemaphoreTake ;? p).
Proof. done. Qed.
Lemma bracketed_given {A} (p : prog S A) h : bracketed false h p -> bracketed true h (osSemaphoreGiven ;? p).
Proof. done. Qed.
Lemma bracketed_call {A} (m : M S A) : bracketed true true (call m).
Proof. done. Qed.
Lemma bracketed_written {A} (v : option A) h : bracketed h h (@written S A v).
Proof. by destruct v. Qed.
Lemma bracketed_same {A B} (p : prog S A) (k : A -> prog S B) h1 h2 :
  bracketed h1 h1 p -> (forall a, bracketed h1 h2 (k a)) -> bracketed h1 h2 (pbind p k).
Proof. apply bracketed_bind. Qed.

Ltac bracket :=
  repeat match goal with
    | |- bracketed _ _ (pbind osSemaphoreTake _) => apply bracketed_take
    | |- bracketed _ _ (pbind osSemaphoreGiven _) => apply bracketed_given
    | |- bracketed _ _ (pbind _ _) => apply bracketed_same; [|intros ?]
    | |- bracketed _ _ (call _) => apply bracketed_call
    | |- bracketed _ _ (local _) => apply bracketed_local
    | |- bracketed _ _ (written _) => apply bracketed_written
    | |- bracketed _ _ (fold_p _ _ _) => apply bracketed_fold; intros ? ?
    | |- bracketed _ _ (match ?x with _ => _ end) => destruct x
    | |- _ => done
    end.

Lemma serve_bracketed r : bracketed false false (serve r).
Proof.
  destruct r; unfold serve, as_reply, dat_reset_status_vars, dat_set_fp, dat_get_fp, dat_del_fp, dat_reset_fp, set_queue,
    dat_show_fp, dat_get_fp_st_index, dat_add_payload_sample, dat_get_payload_sample, dat_get_recent_payload_sample,
    dat_delete_payload, dat_delete_memory_sections, dat_set_status_var_triple, dat_get_status_var_triple,
    _dat_set_system_var, _dat_get_system_var, dat_set_system_var, dat_get_system_var, dat_set_status_var,
    dat_get_status_var; bracket.
Qed.

Lemma client_bracketed rs out : bracketed false false (client rs out).
Proof.
  revert out. induction rs as [|r rs IH]; intros out; cbn; [done|].
  apply bracketed_same; [apply serve_bracketed|done].
Qed.

(** *** Calls with one section *)
Fixpoint inner {A} (p : prog S A) : Prop :=
  match p with
  | Return _ | Stop _ => True
  | Call _ k => forall b, inner (k b)
  | _ => False
  end.

Lemma inner_bind {A B} (p : prog S A) (k : A -> prog S B) : inner p -> (forall a, inner (k a)) -> inner (pbind p k).
Proof. intros Hp Hk. induction p; cbn in *; auto. Qed.

Lemma inner_fold {X A} (xs : list X) (body : A -> X -> prog S A) a :
  (forall a x, inner (body a x)) -> inner (fold_p xs body a).
Proof. intros Hb. revert a. induction xs as [|x xs IH]; intros a; cbn; [done|]. by apply inner_bind. Qed.

Lemma single_inner {A B} (p : prog S A) (k : A -> prog S B) : inner p -> (forall a, single (k a)) -> single (pbind p k).
Proof. intros Hp Hk. induction p; cbn in *; auto; done. Qed.

Lemma single_bind {A B} (p : prog S A) (k : A -> prog S B) :
  single p -> (forall a, exists b, k a = Return b) -> single (pbind p k).
Proof.
  intros Hp Hk. induction p as [a|p IH|p IH|X m c IH|f]; cbn in *; try done; [|auto].
  destruct p; cbn in *; try done. by destruct (Hk a) as [b ->].
Qed.

Lemma show_fp_single : exists p, dat_show_fp = Take p /\ single p.
Proof.
  eexists. split; [reflexivity|]. apply single_inner; [|done]. apply inner_fold. intros out i [ok e]. cbn.
  destruct (ok =? SCH_ST_OK); [|done]. by destruct e.
Qed.

Lemma serve_single r : one_section r = true -> exists p, serve r = Take p /\ single p.
Proof.
  intros Hr. assert (r = ShowFp \/ r <> ShowFp) as [->|Hne] by (destruct r; (by left) || (by right)).
  - destruct show_fp_single as (p & E & Hp). unfold serve, as_reply. rewrite E.
    eexists. split; [reflexivity|]. apply single_bind; eauto.
  - destruct r; try discriminate; try done; unfold serve, as_reply; eexists; (split; [reflexivity|]);
      repeat match goal with
        | |- forall _, _ => intros ?
        | x : option _ |- _ => destruct x
        | x : _ * _ |- _ => destruct x
        | _ => progress cbn
        end; done.
Qed.

(** *** Whole calls *)
Abbreviation caller := (list request * list reply)%type.
Definition task_of (x : caller) : prog S (list reply) := client x.1 x.2.
Definition tasks_of (ts : list caller) : list (prog S (list reply)) := task_of <$> ts.
Definition begin (rss : list (list request)) : list caller := (fun rs => (rs, [])) <$> rss.
Definition finish (outs : list (list reply)) : list caller := (fun out => ([], out)) <$> outs.
Definition all_single (ts : list caller) : Prop := Forall (fun x => Forall (fun r => one_section r = true) x.1) ts.

Lemma tasks_of_free ts : free_tasks (tasks_of ts).
Proof. apply Forall_fmap, Forall_true. intros x. apply client_bracketed. Qed.

Lemma tasks_of_finish outs : tasks_of (finish outs) = Return <$> outs.
Proof. unfold tasks_of, finish. by rewrite <- list_fmap_compose. Qed.

(** The section of a call with one section is the call. *)
Lemma client_atom d r rs out :
  one_section r = true ->
  match dat_call r d with
  | Ret (a, d') => atom (client (r :: rs) out) (RepoData.store d) = Some (Ret (client rs (out ++ [a]), RepoData.store d'))
  | Fault f => atom (client (r :: rs) out) (RepoData.store d) = Some (Fault f) \/
      exists s', atom (client (r :: rs) out) (RepoData.store d) = Some (Ret (Stop f, s'))
  end.
Proof.
  intros Hr. destruct (serve_single r Hr) as (p & E & Hp).
  pose proof (serve_run r d) as Hrun. unfold RepoData.st, zoom in Hrun. rewrite E in Hrun. cbn in Hrun.
  pose proof (single_section p (fun a => client rs (out ++ [a])) (RepoData.store d) Hp) as Hs.
  rewrite <- Hrun. cbn [client]. rewrite E. cbn [pbind atom].
  destruct (run p (RepoData.store d)) as [[a s']|f]; done.
Qed.

Lemma all_single_insert ts i r rs out a :
  all_single ts -> ts !! i = Some (r :: rs, out) -> one_section r = true /\ all_single (<[i := (rs, out ++ [a])]> ts).
Proof.
  intros Hall Hi. pose proof (Forall_lookup_1 _ _ _ _ Hall Hi) as Hx. cbn in Hx. apply Forall_cons in Hx as [Hr Hrs].
  split; [done|]. by apply Forall_insert.
Qed.

Lemma whole_atom o o' :
  all_single o.2 -> whole_step o o' ->
  atom_step (RepoData.store o.1, tasks_of o.2) (RepoData.store o'.1, tasks_of o'.2) /\ all_single o'.2.
Proof.
  intros Hall Hst. destruct Hst as [i r rs out a d d' ts Hi Hc]. cbn in *.
  destruct (all_single_insert ts i r rs out a Hall Hi) as [Hr Hall']. split; [|done].
  pose proof (client_atom d r rs out Hr) as Ha. rewrite Hc in Ha. unfold tasks_of. rewrite list_fmap_insert.
  eapply AtomStep; [by rewrite list_lookup_fmap, Hi|done].
Qed.

Lemma whole_atoms o o' :
  rtc whole_step o o' -> all_single o.2 ->
  rtc atom_step (RepoData.store o.1, tasks_of o.2) (RepoData.store o'.1, tasks_of o'.2) /\ all_single o'.2.
Proof.
  induction 1 as [o|o o1 o2 H1 _ IH]; intros Hall; [done|].
  destruct (whole_atom o o1 Hall H1) as [Ha Hall1]. destruct (IH Hall1) as [Has Hall2].
  split; [by eapply rtc_l|done].
Qed.

(** A run of sections is a run of whole calls, up to a call that is not
    defined: the task that made it is stuck. *)
Lemma atoms_whole o a :
  all_single o.2 -> rtc atom_step (RepoData.store o.1, tasks_of o.2) a ->
  (exists o', rtc whole_step o o' /\ all_single o'.2 /\ a = (RepoData.store o'.1, tasks_of o'.2)) \/
  (exists o' i f, rtc whole_step o o' /\ whole_faulty o' /\ a.2 !! i = Some (Stop f)).
Proof.
  intros Hall Hst. pattern a. eapply rtc_ind_r; [| |exact Hst]; [left; by exists o|].
  intros a1 a2 _ Hstep [(o' & Hw & Hall' & ->)|(o' & i & f & Hw & Hf & Hi)].
  2: { right. exists o', i, f. split; [done|]. split; [done|]. by apply (stopped_stays a1); [apply rtc_once|]. }
  remember (RepoData.store o'.1, tasks_of o'.2) as a1 eqn:Ea.
  destruct Hstep as [i p p' s s' ts Hi Hp]. simplify_eq. unfold tasks_of in Hi.
  rewrite list_lookup_fmap in Hi. destruct (o'.2 !! i) as [[rs out]|] eqn:Eo; [|done]. cbn in Hi. simplify_eq.
  destruct rs as [|r rs]; [done|]. destruct o' as [d' ts']. cbn [fst snd] in *.
  pose proof (Forall_lookup_1 _ _ _ _ Hall' Eo) as Hx. cbn in Hx. apply Forall_cons in Hx as [Hr _].
  pose proof (client_atom d' r rs out Hr) as Ha. destruct (dat_call r d') as [[x d2]|f] eqn:Ec.
  - rewrite Ha in Hp. simplify_eq. left. exists (d2, <[i := (rs, out ++ [x])]> ts'). split; [|split].
    + eapply rtc_r; [done|]. by eapply WholeStep.
    + by eapply all_single_insert.
    + cbn. unfold tasks_of. by rewrite list_fmap_insert.
  - right. exists (d', ts'), i, f. split; [done|]. split; [by exists i, r, rs, out, f|].
    destruct Ha as [Ha|[s2 Ha]]; rewrite Ha in Hp; simplify_eq. cbn.
    apply list_lookup_insert_eq. unfold tasks_of. rewrite length_fmap. by eapply lookup_lt_Some.
Qed.

Lemma tasks_of_returns ts outs : all_single ts -> tasks_of ts = Return <$> outs -> ts = finish outs.
Proof.
  revert outs. induction ts as [|[rs out] ts IH]; intros [|o outs] Hall E; try done.
  apply Forall_cons in Hall as [Hx Hall]. cbn in *. injection E as E1 E2.
  destruct rs as [|r rs]; cbn in E1.
  - simplify_eq. by rewrite (IH outs).
  - apply Forall_cons in Hx as [Hr _]. destruct (serve_single r Hr) as (p & Ep & _). by rewrite Ep in E1.
Qed.

Lemma atom_faulty_whole o f :
  all_single o.2 -> atom_faulty (RepoData.store o.1, tasks_of o.2) f -> whole_faulty o.
Proof.
  intros Hall (i & p & Hi & Hp). destruct o as [d ts]. cbn [fst snd] in *. unfold tasks_of in Hi.
  rewrite list_lookup_fmap in Hi. destruct (ts !! i) as [[rs out]|] eqn:Eo; [|done]. cbn in Hi. simplify_eq.
  destruct rs as [|r rs]; [done|]. pose proof (Forall_lookup_1 _ _ _ _ Hall Eo) as Hx. cbn in Hx.
  apply Forall_cons in Hx as [Hr _]. pose proof (client_atom d r rs out Hr) as Ha.
  destruct (dat_call r d) as [[x d2]|g] eqn:Ec; [by rewrite Ha in Hp|]. by exists i, r, rs, out, g.
Qed.
End repo.

(** *** Schedules that can be run *)
Definition move {S A} (i : nat) (c : system S A) : option (system S A) :=
  p ← tasks c !! i;
  match turn i (sem c) p (shared c) with
  | Some (Ret (p', l', s')) => Some (System s' l' (<[i := p']> (tasks c)))
  | _ => None
  end.

Fixpoint play {S A} (order : list nat) (c : system S A) : option (system S A) :=
  match order with
  | [] => Some c
  | i :: order => c ← move i c; play order c
  end.

Lemma play_steps {S A} (order : list nat) (c c' : system S A) : play order c = Some c' -> rtc step c c'.
Proof.
  revert c. induction order as [|i order IH]; intros c Hp; cbn in Hp; [by simplify_eq|].
  destruct (move i c) as [c1|] eqn:E; [|done]. cbn in Hp. eapply rtc_l; [|by apply IH].
  unfold move in E. destruct c as [s l ts]. cbn in E. destruct (ts !! i) as [p|] eqn:Hi; [|done]. cbn in E.
  destruct (turn i l p s) as [[[[p' l'] s']|]|] eqn:Et; simplify_eq. by eapply TaskStep.
Qed.

Definition result {S A} (p : prog S A) : option A := match p with Return a => Some a | _ => None end.

Lemma results_return {S A} (ts : list (prog S A)) outs : result <$> ts = Some <$> outs -> ts = Return <$> outs.
Proof.
  revert outs. induction ts as [|p ts IH]; intros [|o outs] E; try done. cbn in *. injection E as E1 E2.
  destruct p; cbn in E1; try done. simplify_eq. by rewrite (IH outs).
Qed.

(** A schedule that ends every task, by evaluation. *)
Lemma play_ends {S A B} (g : S -> B) order (c : system S A) l outs x :
  (c' ← play order c; Some (sem c', result <$> tasks c', g (shared c'))) = Some (l, Some <$> outs, x) ->
  exists s', rtc step c (System s' l (Return <$> outs)) /\ g s' = x.
Proof.
  destruct (play order c) as [[s' l' ts]|] eqn:E; cbn; [|done]. intros Hx. injection Hx as -> Ht <-.
  exists s'. apply play_steps in E. by rewrite (results_return _ _ Ht) in E.
Qed.
End LocksLaws.

(** ** Theorems *)
Module LocksTheorems.
Import Locks LocksLaws.

Section generic.
Context {S : Type} `{Storage S}.
Abbreviation start s rss := (System s None (tasks_of (begin rss))).

(** C7. However many tasks call the functions of the data repository, other
    than [dat_purge_fp], and however their steps interleave, each critical
    section is one step: whenever the semaphore is free, the storage and the
    tasks are in a state that sections run whole, one after the other, reach
    too, and every such state is reached.  No run goes on for ever, and a run
    ends only when every task has made all its calls, with the semaphore free,
    unless a task reaches a fault; then running sections whole reaches a fault
    of the same kind. *)
Theorem repo_sections_atomic (s : S) (rss : list (list request)) :
  (forall s' ts, rtc step (start s rss) (System s' None ts) <->
     rtc atom_step (s, tasks_of (begin rss)) (s', ts)) /\
  Acc (flip step) (start s rss) /\
  forall c, rtc step (start s rss) c ->
    (ended c -> sem c = None) /\
    (ended c \/ (exists c', step c c') \/ exists f, faulty c f) /\
    (forall f, faulty c f -> exists a, rtc atom_step (s, tasks_of (begin rss)) a /\ atom_faulty a f).
Proof.
  pose proof (tasks_of_free (begin rss)) as Hfree.
  pose proof (fun c Hc => tracks_steps _ c _ Hc (tracks_start s _ Hfree)) as Htr.
  split; [|split; [apply steps_wf|]].
  - intros s' ts. split; intros Hst.
    + destruct (Htr _ Hst) as ([s0 ts0] & Ha & _ & Hs & Ht). cbn in *. by subst.
    + by apply (atom_steps_steps (s, tasks_of (begin rss)) (s', ts)).
  - intros c Hc. destruct (Htr c Hc) as (a & Ha & Hca). split; [|split].
    + intros Hend. destruct Hca as [_ Hl]. destruct (sem c) as [i|]; [|done].
      destruct Hl as (p & q & Hi & Ht & Hb & _). unfold ended in Hend. rewrite Ht in Hend.
      apply (Forall_lookup_1 _ _ i q) in Hend; [|apply list_lookup_insert_eq; by eapply lookup_lt_Some]. by destruct q.
    + by eapply tracks_progress.
    + intros f Hf. exists a. split; [done|]. by eapply tracks_faulty.
Qed.

(** C8. Tasks that read and write status variables, single, in the variant
    with one copy or with three, and that read the flight plan by index: the
    results and the storage that any interleaving ends with are those of the
    functions called one after the other, whole, in some order that keeps the
    order of each task, and every such order is an interleaving; a fault is
    reached only if one of those orders reaches one.  So no task sees a
    variable with some of its copies written. *)
Theorem repo_calls_linearizable (d : RepoData.dat S) (rss : list (list request)) :
  Forall (Forall (fun r => one_section r = true)) rss ->
  (forall s' l outs, rtc step (start (RepoData.store d) rss) (System s' l (Return <$> outs)) <->
     l = None /\ exists d', RepoData.store d' = s' /\ rtc whole_step (d, begin rss) (d', finish outs)) /\
  (forall c f, rtc step (start (RepoData.store d) rss) c -> faulty c f ->
     exists o, rtc whole_step (d, begin rss) o /\ whole_faulty o).
Proof.
  intros Hone. assert (all_single (begin rss)) as Hall by (by apply Forall_fmap).
  pose proof (tasks_of_free (begin rss)) as Hfree.
  pose proof (fun c Hc => tracks_steps _ c _ Hc (tracks_start (RepoData.store d) _ Hfree)) as Htr.
  split.
  - intros s' l outs. split.
    + intros Hst. destruct (Htr _ Hst) as (a & Ha & Hca).
      destruct l as [i|].
      { destruct Hca as (_ & p & q & Hi & Ht & Hb & _). cbn in Ht.
        assert ((Return <$> outs) !! i = Some q) as Hq by (rewrite Ht; apply list_lookup_insert_eq; by eapply lookup_lt_Some).
        rewrite list_lookup_fmap in Hq. destruct (outs !! i); [|done]. injection Hq as <-. discriminate Hb. }
      split; [done|]. destruct Hca as (_ & Hs & Ht). cbn in Hs, Ht.
      destruct (atoms_whole (d, begin rss) a Hall Ha) as [(o' & Hw & Hall' & ->)|(o' & i & f & _ & _ & Hi)].
      * cbn in *. exists o'.1. split; [done|]. rewrite <- (tasks_of_returns o'.2 outs Hall') by done. by destruct o'.
      * rewrite <- Ht, list_lookup_fmap in Hi. by destruct (outs !! i).
    + intros (-> & d' & <- & Hw). destruct (whole_atoms _ _ Hw Hall) as [Ha _]. cbn [fst snd] in Ha.
      rewrite tasks_of_finish in Ha. by apply (atom_steps_steps (_, _) (_, _) Hfree).
  - intros c f Hc Hf. destruct (Htr c Hc) as (a & Ha & Hca).
    destruct (atoms_whole (d, begin rss) a Hall Ha) as [(o' & Hw & Hall' & ->)|(o' & i & g & Hw & Hfo & _)].
    + exists o'. split; [done|]. apply (atom_faulty_whole o' f Hall'). by eapply tracks_faulty.
    + by exists o'.
Qed.

(** A call that no other interrupts does what the function of RepoData does. *)
Theorem repo_call_alone (r : request) (d : RepoData.dat S) :
  RepoData.st (run (serve r)) d = dat_call r d.
Proof. apply serve_run. Qed.
End generic.

(** *** On the RAM back end *)
Import RepoDataTheorems Ram RamLaws.
Abbreviation start s rss := (System s None (tasks_of (begin rss))).
Abbreviation ram0 := (RepoData.store (ram_data 0)).
Definition plan_rows (s : ram_state) : Z * Z := (used (st_slots s), st_status s dat_fpl_queue).

(** Two tasks that each add an entry, and between the sections of one the
    other runs: two entries, and a counter of one. *)
Theorem set_fp_loses_count :
  exists s', rtc step (start ram0 [[SetFp 100 (Some (cs "help")) (Some []) 1 0]; [SetFp 200 (Some (cs "test")) (Some []) 1 0]])
      (System s' None (Return <$> [[RInt SCH_ST_OK]; [RInt SCH_ST_OK]])) /\
    plan_rows s' = (2, 1).
Proof. apply (play_ends plan_rows ([0; 0; 0] ++ replicate 9 1 ++ replicate 6 0)%nat). vm_compute. reflexivity. Qed.

(** The plan with one entry, for the time 100. *)
Definition planned : ram_state :=
  match RepoData.dat_set_fp 100 (Some (cs "help")) (Some []) 1 0 (ram_data 0) with
  | Ret (_, d) => RepoData.store d
  | Fault _ => ram_boot
  end.

Definition purge_task : prog ram_state (list reply) := let? rc := dat_purge_fp 1000 in Return [RInt rc].
Definition result_of {A} (m : M ram_state A) (s : ram_state) : option A :=
  match m s with Ret (a, _) => Some a | Fault _ => None end.
Definition entry_100 : fp_out := FpOut (cs "help") [] 1 0 SCH_COMM_NODE.

(** [dat_purge_fp] does not take the semaphore: it deletes an entry while
    another task is between the two calls of its section in [dat_get_fp], which
    then has read the entry and reports an error.  Neither order of the two
    whole functions gives that. *)
Theorem purge_enters_section :
  result_of (run (serve (GetFp 100) : prog ram_state reply)) planned = Some (RFp (SCH_ST_OK, Some entry_100)) /\
  result_of (run (dat_purge_fp 1000 ;? serve (GetFp 100))) planned = Some (RFp (SCH_ST_ERROR, None)) /\
  exists s', rtc step (System planned None [client [GetFp 100] []; purge_task])
      (System s' None (Return <$> [[RFp (SCH_ST_ERROR, Some entry_100)]; [RInt SCH_ST_OK]])).
Proof.
  split; [vm_compute; reflexivity|]. split; [vm_compute; reflexivity|].
  destruct (play_ends plan_rows (replicate 5 0 ++ replicate 256 1 ++ [0; 0] ++ [1; 1; 1])%nat
    (System planned None [client [GetFp 100] []; purge_task]) None
    [[RFp (SCH_ST_ERROR, Some entry_100)]; [RInt SCH_ST_OK]] (0, 0)) as (s' & Hs & _).
  - vm_compute. reflexivity.
  - by exists s'.
Qed.

(** Two tasks write the variable 3, and one reads it, between the writes. *)
Definition triple_tasks : list (list request) := [[SetTriple 3 5]; [GetTriple 3]; [SetTriple 3 7]].

Lemma repo_sections_atomic_witness :
  exists s', rtc step (start ram0 [[SetFp 100 (Some (cs "help")) (Some []) 1 0]; [SetFp 200 (Some (cs "test")) (Some []) 1 0]])
      (System s' None (Return <$> [[RInt SCH_ST_OK]; [RInt SCH_ST_OK]])) /\
    rtc atom_step
      (ram0, tasks_of (begin [[SetFp 100 (Some (cs "help")) (Some []) 1 0]; [SetFp 200 (Some (cs "test")) (Some []) 1 0]]))
      (s', Return <$> [[RInt SCH_ST_OK]; [RInt SCH_ST_OK]]).
Proof.
  destruct set_fp_loses_count as (s' & Hs & _). exists s'. split; [exact Hs|].
  exact (proj1 (proj1 (repo_sections_atomic ram0
    [[SetFp 100 (Some (cs "help")) (Some []) 1 0]; [SetFp 200 (Some (cs "test")) (Some []) 1 0]]) s'
    (Return <$> [[RInt SCH_ST_OK]; [RInt SCH_ST_OK]])) Hs).
Defined.

Lemma repo_calls_linearizable_witness :
  exists d', rtc whole_step (triple_data, begin triple_tasks) (d', finish [[RInt SCH_ST_OK]; [RInt 5]; [RInt SCH_ST_OK]]) /\
    st_status (RepoData.store d') 3 = 7.
Proof.
  destruct (play_ends (fun s => st_status s 3) (replicate 5 0 ++ replicate 5 1 ++ replicate 5 2)%nat
    (start (RepoData.store triple_data) triple_tasks) None [[RInt SCH_ST_OK]; [RInt 5]; [RInt SCH_ST_OK]] 7)
    as (s' & Hs & Hx); [vm_compute; reflexivity|].
  assert (Forall (Forall (fun r => one_section r = true)) triple_tasks) as Hone by (repeat constructor).
  destruct (proj1 (proj1 (repo_calls_linearizable triple_data triple_tasks Hone) s' None _) Hs) as (_ & d' & <- & Hw).
  by exists d'.
Defined.
End LocksTheorems.
