(* ===== verification/FlashRepo.v ===== *)
(** * The data repository on the FLASH back end

    Start-up on given chips, formatting, what survives a restart, agreement
    with the RAM back end, and what happens at the limits of the medium. *)
From S2P Require Import Prelude CStr Memory Config Storage StorageRam StorageFlash FlashLaws FlashPayload.
From S2P Require Import Schema RepoData.

Module FlashRepo.
Import Flash FlashLaws FlashPayload RepoData RepoDataLaws RepoDataMore RepoDataHistory.

(** ** Start-up *)

(** The state after the tables were created, before the TLB is loaded. *)
Definition flash_open (fl fr : buffer) (jk : Z -> Z) : flash_state :=
  FlashSt (Live [fp_base]) fp_base SCH_FP_MAX_ENTRIES 0 tlb_null
    (Live (map (fun i => u32_of (pay_base + i * SCH_SIZE_PER_SECTION)) (range 10))) 10 1 pay_base true fl fr jk.

Lemma repo_init_eq fl fr jk t b m :
  dat_repo_init false (Dat (flash_boot fl fr jk) t b m) =
    match storage_flightplan_load_tlb (flash_open fl fr jk) with
    | Ret (_, s) => Ret (tt, Dat s t b m)
    | Fault f => Fault f
    end.
Proof.
  set (tlb0 := replicate (Z.to_nat tlb_len) (FpAddr 0 0)).
  set (s1 := FlashSt Null fp_base 0 0 tlb0 Null 0 0 pay_base true fl fr jk).
  set (s2 := FlashSt Null fp_base 0 0 tlb0 (st_payload_addr (flash_open fl fr jk)) 10 1 pay_base true fl fr jk).
  assert (Flash.storage_init (flash_boot fl fr jk) = Ret (SCH_ST_OK, s1)) as E1 by reflexivity.
  assert (Flash.storage_table_status_init dat_status_last_var false s1 = Ret (SCH_ST_OK, s1)) as E2 by reflexivity.
  assert (Flash.storage_table_payload_init last_sensor false s1 = Ret (0, s2)) as E3 by reflexivity.
  assert (Storage.storage_table_flight_plan_init SCH_FP_MAX_ENTRIES false s2 =
          storage_flightplan_load_tlb (flash_open fl fr jk)) as E4 by reflexivity.
  unfold dat_repo_init. rewrite (bind_step _ _ _ _ _ (st_step _ (Dat (flash_boot fl fr jk) t b m) _ _ E1)).
  rewrite (bind_step _ _ _ _ _ (st_step _ (set_store s1 _) _ _ E2)). rewrite andb_false_r.
  unfold bind at 1, ret at 1.
  rewrite (bind_step _ _ _ _ _ (st_step _ (set_store s1 _) _ _ E3)).
  unfold bind, st, zoom. cbn [lget lset store_lens store set_store]. rewrite E4.
  by destruct (storage_flightplan_load_tlb (flash_open fl fr jk)) as [[]|].
Qed.

(** ** The TLB and its copy *)
Definition entry_range (e : fp_addr_t) : Prop := 0 <= tl_addr e < 2 ^ 32 /\ i32_ok (tl_unixtime e).

Lemma fp_addr_of_bytes e rest : entry_range e -> fp_addr_of (take 8 (fp_addr_bytes e ++ rest)) = e.
Proof.
  intros [Ha Ht]. rewrite take_app_le by (unfold fp_addr_bytes; rewrite length_app, !length_le_bytes; done).
  rewrite take_ge by (unfold fp_addr_bytes; rewrite length_app, !length_le_bytes; done).
  unfold fp_addr_of, fp_addr_bytes. rewrite take_app_length', drop_app_length' by (by rewrite length_le_bytes).
  rewrite take_ge by (by rewrite length_le_bytes). rewrite field_i32 by done. rewrite of_le_bytes4, u32_of_id by done.
  by destruct e.
Qed.

Lemma tlb_of_bytes t : Forall entry_range t -> tlb_of (length t) (tlb_bytes t) = t.
Proof.
  induction 1 as [|e t He _ IH]; [done|]. unfold tlb_bytes in *. cbn [length tlb_of map concat].
  rewrite fp_addr_of_bytes by done. f_equal. rewrite drop_app_length'; [exact IH|].
  unfold fp_addr_bytes. by rewrite length_app, !length_le_bytes.
Qed.

Lemma load_tlb_ok s t : chip_ok (fram s) -> copy_ok (fram s) t -> zlength t = tlb_len -> Forall entry_range t ->
  storage_flightplan_load_tlb s = Ret (SCH_ST_OK, set_tlb t s).
Proof.
  intros [Hl _] Hcp Hlen Hr. unfold storage_flightplan_load_tlb, storage_read_fram, bind, get.
  assert (buf_read (fram s) tlb_start sizeof_tlb = Ret (tlb_bytes t)) as ->.
  { change sizeof_tlb with (8 * tlb_len). rewrite <- Hlen. apply buf_read_concat; [lia| |].
    - apply in_buf_iff. rewrite Hl. change tlb_start with 30720. unfold ST_FRAM_SIZE. lia.
    - intros i e He. apply Hcp. unfold zlookup. rewrite (proj2 (Z.ltb_ge _ 0)) by lia. by rewrite Nat2Z.id. }
  cbn [lift]. unfold ret, modify.
  replace (Z.to_nat tlb_len) with (length t) by (rewrite <- Hlen; unfold zlength; lia). by rewrite tlb_of_bytes.
Qed.

Lemma inv_ranges fl es c : tlb_inv fl es c -> Forall entry_range (es ++ [c]).
Proof.
  intros (_ & Ha & Hu & Hes). apply Forall_app. split.
  - eapply Forall_impl; [exact Hes|]. by intros e (? & ? & _).
  - constructor; [|constructor]. split; [lia|done].
Qed.

(** Dumping the whole TLB makes the copy. *)
Lemma dump_all_ok s : chip_ok (fram s) -> zlength (st_flightplan_tlb s) = tlb_len ->
  exists b, storage_flightplan_dump_tlb (-1) s = Ret (SCH_ST_OK, set_fram b s) /\ chip_ok b /\
    copy_ok b (st_flightplan_tlb s) /\ same_status (fram s) b.
Proof.
  intros Hc Hl. assert (zlength (tlb_bytes (st_flightplan_tlb s)) = 8 * tlb_len) as Hlen.
  { rewrite <- Hl. clear Hl. unfold tlb_bytes. induction (st_flightplan_tlb s) as [|e t IH]; [done|]. cbn [map concat].
    rewrite zlength_app, zlength_cons, fp_addr_bytes_len, IH. lia. }
  destruct (write_fram_ok s tlb_start (tlb_bytes (st_flightplan_tlb s)) Hc) as (b & E & Hb & Hr & Ho).
  { unfold tlb_bytes. apply Forall_concat, Forall_map, Forall_forall. intros e _. apply fp_addr_bytes_ok. }
  { done. } { rewrite Hlen. done. }
  exists b. split; [exact E|]. split; [exact Hb|]. rewrite Hlen in *. split.
  - intros i e Hi. pose proof (zlookup_Some_lt _ _ _ Hi) as Hlt. unfold zlookup in Hi.
    rewrite (proj2 (Z.ltb_ge i 0)) in Hi by lia. rewrite <- Hl in Hr.
    pose proof (buf_read_record fp_addr_bytes b tlb_start 8 _ _ _ ltac:(lia) fp_addr_bytes_len Hr Hi) as H.
    by rewrite Z2Nat.id in H by lia.
  - intros j Hj. apply Ho. change flash_status_size with 7680 in Hj. change tlb_start with 30720. lia.
Qed.

(** ** Formatting *)

(** The tables exist, whatever the chips hold. *)
Definition tables_ok (s : flash_state) : Prop :=
  storage_is_open s = true /\ st_flightplan_addr s = Live [fp_base] /\ st_flightplan_base_addr s = fp_base /\
  st_flightplan_entries s = SCH_FP_MAX_ENTRIES /\ is_null (st_payload_addr s) = false /\
  blen (flash s) = FLASH_SIZE /\ chip_ok (fram s).

Definition tlb_empty : list fp_addr_t :=
  replicate 255 (FpAddr (2 ^ 32 - 1) (-1)) ++ [FpAddr 0 0].

Lemma tlb_empty_inv fl : tlb_inv fl (replicate 255 (FpAddr (2 ^ 32 - 1) (-1))) (FpAddr 0 0).
Proof.
  unfold tlb_inv. splits; try done. apply Forall_replicate. split; [done|]. split; [|done].
  cbn [tl_addr]. lia.
Qed.

Lemma erase_section s : blen (flash s) = FLASH_SIZE ->
  exists b, storage_erase_flash fp_base s = Ret (SCH_ST_OK, set_flash b s) /\
    buf_zero (flash s) fp_base SCH_SIZE_PER_SECTION = Ret b.
Proof.
  intros Hl. eexists. unfold storage_erase_flash, bind, get, lift.
  change (u32_of (fp_base / SCH_SIZE_PER_SECTION * SCH_SIZE_PER_SECTION)) with fp_base.
  rewrite (buf_zero_ok (flash s) fp_base SCH_SIZE_PER_SECTION ltac:(done) ltac:(done) ltac:(rewrite Hl; done)).
  split; [reflexivity|reflexivity].
Qed.

Lemma reset_ok s : tables_ok s ->
  exists b f, Flash.storage_flight_plan_reset s =
      Ret (SCH_ST_OK, set_fram f (set_tlb tlb_empty (set_flash b s))) /\
    buf_zero (flash s) fp_base SCH_SIZE_PER_SECTION = Ret b /\
    chip_ok f /\ copy_ok f tlb_empty /\ same_status (fram s) f.
Proof.
  intros (Ho & Hfa & Hba & Hen & Hpn & Hfl & Hch).
  destruct (erase_section s Hfl) as (b & Ee & Hz).
  destruct (dump_all_ok (set_tlb tlb_empty (set_flash b s)) Hch ltac:(done)) as (f & Ed & Hf & Hcp & Hst).
  exists b, f. split; [|by splits]. unfold Flash.storage_flight_plan_reset. unfold bind at 1, get. rewrite Ho, Hpn.
  cbn [negb orb]. change (range st_flightplan_sections) with [0]. cbn [fold_m]. rewrite Hfa. cbn [deref].
  unfold bind at 1 2 3, ret at 1.
  rewrite (bind_step _ _ _ _ _ (arr_get_Some [fp_base] 0 fp_base s eq_refl)).
  unfold bind at 1. rewrite Ee. change (cint (SCH_ST_OK + SCH_ST_OK) (set_flash b s)) with (Ret (SCH_ST_OK, set_flash b s)).
  cbv iota beta. unfold ret at 1. unfold bind at 1.
  change (arr_set tlb_null SCH_FP_MAX_ENTRIES (FpAddr 0 0) (set_flash b s)) with (Ret (tlb_empty, set_flash b s)).
  cbv iota beta. unfold bind at 1, modify. rewrite (bind_step _ _ _ _ _ Ed). reflexivity.
Qed.

(** ** Restart *)

(** The processor loses its memory, the chips keep theirs, and the software
    starts again. *)
Definition power_cycle (jk : Z -> Z) : M (dat flash_state) unit :=
  modify (fun d => set_store (flash_boot (flash (store d)) (fram (store d)) jk) d) ;!
  dat_repo_init false.

Lemma restart_ok jk d :
  st_ok (store d) -> pay_ok (store d) -> pay_tables (store d) = last_sensor ->
  exists s', power_cycle jk d = Ret (tt, set_store s' d) /\
    flash s' = flash (store d) /\ fram s' = fram (store d) /\ st_flightplan_tlb s' = st_flightplan_tlb (store d) /\
    flash_ok s' /\ payload_inv s' /\ st_payloads_entries s' = last_sensor.
Proof.
  intros Hok (_ & _ & _ & _ & Hfl) Hp. pose proof Hok as (_ & _ & _ & _ & _ & Hch & Hcp & es & c & E & Hinv).
  pose proof Hinv as (Hl & _). destruct (tlb_parts _ es c E Hl) as (_ & _ & _ & HL).
  pose proof (inv_ranges _ _ _ Hinv) as Hr. rewrite <- E in Hr.
  unfold power_cycle. unfold bind, modify. destruct d as [s t b m]. cbn [store] in *.
  unfold set_store at 1. cbn [unixtime settime_ok status_machine store]. rewrite repo_init_eq.
  rewrite (load_tlb_ok (flash_open (flash s) (fram s) jk) (st_flightplan_tlb s)) by done.
  eexists. split; [reflexivity|]. splits; try done.
  unfold flash_ok. splits; try done. by exists es, c.
Qed.

(** The payload tables are set at start-up only. *)
Definition same_tables (s s' : flash_state) : Prop :=
  st_payload_addr s' = st_payload_addr s /\ st_payloads_entries s' = st_payloads_entries s.

#[export] Instance same_tables_preorder : PreOrder same_tables.
Proof. split; [done|]. intros s1 s2 s3 [H1 H2] [H3 H4]. split; congruence. Qed.

Lemma keeps_set_flash b : keeps same_tables (modify (set_flash b)).
Proof. by apply keeps_modify. Qed.
Lemma keeps_set_fram b : keeps same_tables (modify (set_fram b)).
Proof. by apply keeps_modify. Qed.
Lemma keeps_set_tlb b : keeps same_tables (modify (set_tlb b)).
Proof. by apply keeps_modify. Qed.
#[export] Hint Resolve keeps_set_flash keeps_set_fram keeps_set_tlb : keeps.

Lemma keeps_dump i : keeps same_tables (storage_flightplan_dump_tlb i).
Proof. unfold storage_flightplan_dump_tlb, storage_write_fram. keeps_tac. Qed.
#[export] Hint Resolve keeps_dump : keeps.
Lemma keeps_update i u a : keeps same_tables (storage_flightplan_update_tlb i u a).
Proof. unfold storage_flightplan_update_tlb. keeps_tac. Qed.
Lemma keeps_write_flash a bs n : keeps same_tables (storage_write_flash a bs n).
Proof. unfold storage_write_flash. keeps_tac. Qed.
Lemma keeps_entry_address k : keeps same_tables (entry_address k).
Proof. unfold entry_address. keeps_tac. Qed.
#[export] Hint Resolve keeps_update keeps_write_flash keeps_entry_address : keeps.
Lemma keeps_rebuild : keeps same_tables flight_plan_rebuild_tlb.
Proof. unfold flight_plan_rebuild_tlb, rebuild_entry, storage_read_flash, storage_erase_flash. keeps_tac. Qed.
Lemma keeps_find t : keeps same_tables (storage_flightplan_find_index_tlb t).
Proof. unfold storage_flightplan_find_index_tlb. keeps_tac. Qed.
#[export] Hint Resolve keeps_rebuild keeps_find : keeps.
Lemma keeps_set t c a e p n : keeps same_tables (Flash.storage_flight_plan_set t c a e p n).
Proof. unfold Flash.storage_flight_plan_set, Flash.storage_flight_plan_set_st. keeps_tac. Qed.
Lemma keeps_get_args t : keeps same_tables (Flash.storage_flight_plan_get_args t).
Proof.
  unfold Flash.storage_flight_plan_get_args, storage_flight_plan_get_st, Flash.storage_flight_plan_get_idx,
    container_entry, storage_read_flash. keeps_tac.
Qed.
Lemma keeps_delete t : keeps same_tables (Flash.storage_flight_plan_delete_row t).
Proof.
  unfold Flash.storage_flight_plan_delete_row, Flash.storage_flight_plan_delete_row_idx, flight_plan_erase_index_tlb.
  keeps_tac.
Qed.
Lemma keeps_status_get i : keeps same_tables (Flash.storage_status_get_value_idx i).
Proof. unfold Flash.storage_status_get_value_idx, storage_read_fram. keeps_tac. Qed.
Lemma keeps_status_set i v : keeps same_tables (Flash.storage_status_set_value_idx i v).
Proof. unfold Flash.storage_status_set_value_idx, storage_write_fram. keeps_tac. Qed.

Definition dat_tables (d d' : dat flash_state) : Prop := same_tables (store d) (store d').

#[export] Instance dat_tables_preorder : PreOrder dat_tables.
Proof. split; [by intros d|]. intros d1 d2 d3 H1 H2. unfold dat_tables in *. by transitivity (store d2). Qed.

Lemma keeps_st {A} (m : M flash_state A) : keeps same_tables m -> keeps dat_tables (st m).
Proof.
  intros H d a d' E. unfold st, zoom in E. cbn [lget store_lens] in E.
  destruct (m (store d)) as [[x s']|] eqn:Em; [|done]. injection E as _ <-. by apply (H _ _ _ Em).
Qed.

Lemma keeps_run_ops os : keeps dat_tables (run_ops os).
Proof.
  pose proof keeps_set. pose proof keeps_get_args. pose proof keeps_delete.
  pose proof keeps_status_get. pose proof keeps_status_set.
  assert (forall i, keeps dat_tables (dat_get_system_var i)) as Hg
    by (intros; unfold dat_get_system_var, dat_get_status_var; keeps_tac; by apply keeps_st).
  assert (forall i v, keeps dat_tables (dat_set_system_var i v)) as Hs
    by (intros; unfold dat_set_system_var, dat_set_status_var; keeps_tac; by apply keeps_st).
  induction os as [|o os IH]; cbn [run_ops]; keeps_tac; try done.
  destruct o; cbn [run_op]; unfold dat_set_fp, dat_get_fp, dat_del_fp, set_fp_store, set_fp_count;
    keeps_tac; try done; by apply keeps_st.
Qed.

(** Histories of calls with a restart after each. *)
Fixpoint run_segments (jk : Z -> Z) (oss : list (list fp_op)) : M (dat flash_state) (list (Z * option fp_out)) :=
  match oss with
  | [] => ret []
  | os :: oss =>
      let! rs := run_ops os in
      power_cycle jk ;!
      let! rss := run_segments jk oss in ret (rs ++ rss)
  end.

(** What the theorems assume of a repository on FLASH. *)
Definition flash_repo_ok (d : dat flash_state) : Prop :=
  fp_ok d /\ pay_ok (store d) /\ pay_tables (store d) = last_sensor.

Lemma run_ops_repo os d :
  flash_repo_ok d -> st_room (zlength os) (store d) -> Forall valid_op os ->
  exists s', run_ops os d = Ret (fst (spec_ops os (st_slots (store d))), set_store s' d) /\
    flash_repo_ok (set_store s' d) /\ st_slots s' = snd (spec_ops os (st_slots (store d))) /\
    forall n, st_room (n + zlength os) (store d) -> st_room n s'.
Proof.
  intros (Hfp & Hp & Ht) Hroom Hv. destruct (run_ops_ok os d Hfp Hroom Hv) as (s' & E & Hfp' & Hs & Hr).
  exists s'. split; [exact E|]. split; [|by split]. split; [exact Hfp'|].
  destruct (keeps_run_ops os _ _ _ E) as [H1 H2]. cbn [store set_store] in H1, H2.
  destruct Hfp' as [[(Ho & _ & Hb & _ & Hfl & _) _] _]. destruct Hp as (_ & He & Ha & _).
  cbn in *. unfold payload_inv. rewrite H1, H2. by splits.
Qed.

Lemma restart_repo jk d : flash_repo_ok d ->
  exists s', power_cycle jk d = Ret (tt, set_store s' d) /\ flash_repo_ok (set_store s' d) /\
    st_slots s' = st_slots (store d) /\ (forall j, st_status s' j = st_status (store d) j) /\
    (forall n, st_room n (store d) -> st_room n s') /\
    (forall p i size, pay_read s' p i size = pay_read (store d) p i size).
Proof.
  intros (Hfp & Hp & Ht). pose proof Hfp as [[Hst Hsz] Hq].
  destruct (restart_ok jk d Hst Hp Ht) as (s' & E & Hf1 & Hf2 & Hf3 & Hok & Hpi & Hn).
  assert (flash_slots s' = flash_slots (store d)) as Hsl by (unfold flash_slots; by rewrite Hf1, Hf3).
  assert (forall j, flash_status s' j = flash_status (store d) j) as Hv by (intros; unfold flash_status; by rewrite Hf2).
  exists s'. split; [exact E|]. cbn in *. splits; try done.
  - split; [|by split]. split; [by split|]. change (flash_status s' dat_fpl_queue = used (flash_slots s')).
    by rewrite Hsl, Hv.
  - unfold flash_written. by rewrite Hf3.
  - intros. unfold flash_pay_read. by rewrite Hf1.
Qed.

Lemma run_segments_ok jk oss : forall d,
  flash_repo_ok d -> st_room (zlength (concat oss)) (store d) -> Forall (Forall valid_op) oss ->
  exists s', run_segments jk oss d = Ret (fst (spec_ops (concat oss) (st_slots (store d))), set_store s' d) /\
    flash_repo_ok (set_store s' d) /\ st_slots s' = snd (spec_ops (concat oss) (st_slots (store d))).
Proof.
  induction oss as [|os oss IH]; intros d Hd Hroom Hv; [exists (store d); by destruct d|].
  inversion Hv as [|? ? Hv1 Hv2]; subst. cbn [concat run_segments] in *. rewrite zlength_app in Hroom.
  assert (0 <= zlength (concat oss)) by (unfold zlength; lia).
  destruct (run_ops_repo os d Hd (law_room_le _ (zlength os + zlength (concat oss)) (zlength os) ltac:(lia) Hroom) Hv1)
    as (s1 & E1 & Hd1 & Hs1 & Hr1).
  rewrite (bind_step _ _ _ _ _ E1). destruct (restart_repo jk _ Hd1) as (s2 & E2 & Hd2 & Hs2 & _ & Hr2 & _).
  rewrite (bind_step _ _ _ _ _ E2). rewrite set_store_set in *. cbn [store set_store] in Hs2, Hr2.
  destruct (IH (set_store s2 d) Hd2) as (s3 & E3 & Hd3 & Hs3); [|done|].
  { apply Hr2, Hr1. by rewrite Z.add_comm. }
  rewrite (bind_step _ _ _ _ _ E3). rewrite set_store_set in *. cbn [store set_store] in *. rewrite Hs2, Hs1 in *.
  exists s3. rewrite spec_ops_app. by destruct (spec_ops os (st_slots (store d))), (spec_ops (concat oss) _).
Qed.

End FlashRepo.

(** ** Theorems *)
Module FlashTheorems.
Import Flash FlashLaws FlashPayload RepoData RepoDataLaws RepoDataMore RepoDataHistory FlashRepo.
Import RepoDataTheorems.

(** Formatting: once the tables are created, and whatever the chips hold,
    [storage_flight_plan_reset] of the FLASH back end succeeds and leaves an
    empty flight plan whose TLB, copy of the TLB and section agree, with room
    for 512 entries; status variables and payload samples stay. *)
Theorem flash_format_empties s :
  tables_ok s ->
  exists s', Flash.storage_flight_plan_reset s = Ret (SCH_ST_OK, s') /\ flash_ok s' /\
    flash_slots s' = replicate 255 None /\ flash_written s' = 0 /\ same_rest s s' /\
    forall p i size, payload_inv s -> 0 <= p < st_payloads_entries s -> size_ok size -> 0 <= i < capacity size ->
      payload_inv s' /\ flash_pay_read s' p i size = flash_pay_read s p i size.
Proof.
  intros Ht. destruct (reset_ok s Ht) as (b & f & E & Hz & Hf & Hcp & Hst).
  destruct Ht as (Ho & Hfa & Hba & Hen & Hpn & Hfl & Hch). eexists. split; [exact E|].
  set (s' := set_fram f (set_tlb tlb_empty (set_flash b s))).
  assert (blen b = FLASH_SIZE) as Hb by (by rewrite (buf_zero_len _ _ _ _ Hz)).
  destruct (tlb_parts s' _ (FpAddr 0 0) eq_refl eq_refl) as (Hsl & Hw & _). splits.
  - unfold flash_ok. splits; try done. eexists _, _. split; [reflexivity|]. apply tlb_empty_inv.
  - rewrite Hsl. reflexivity.
  - exact Hw.
  - split; [|done]. intros j Hj. unfold flash_status. change (fram s') with f. by rewrite (Hst j Hj).
  - intros p i size Hinv Hp Hs Hi. pose proof Hinv as (_ & He & Ha & _).
    destruct (sample_at_bounds s p i size Hinv Hp Hs Hi) as (Hlo & _). split; [by unfold payload_inv; splits|].
    unfold flash_pay_read. change (flash s') with b. by rewrite (buf_read_zero_other _ _ _ _ _ _ Hz) by (right; done).
Qed.

(** New chips, with the tables created. *)
Definition flash_new : flash_state := flash_open blank_flash blank_fram (fun _ => 0).

Lemma flash_new_tables : tables_ok flash_new.
Proof.
  unfold tables_ok, chip_ok. splits; done.
Qed.
Lemma flash_new_payload : payload_inv flash_new.
Proof. unfold payload_inv. splits; done. Qed.

Lemma flash_format_empties_witness :
  exists s', Flash.storage_flight_plan_reset flash_new = Ret (SCH_ST_OK, s') /\ flash_slots s' = replicate 255 None.
Proof.
  destruct (flash_format_empties flash_new flash_new_tables) as (s' & H1 & _ & H2 & _).
  exists s'. split; [exact H1|exact H2].
Defined.

(** A formatted repository. *)
Lemma flash_formatted : exists d : dat flash_state,
  flash_repo_ok d /\ st_slots (store d) = replicate 255 None /\ flash_written (store d) = 0.
Proof.
  destruct (reset_ok flash_new flash_new_tables) as (b & f & _ & Hz & Hf & Hcp & Hst).
  set (s' := set_fram f (set_tlb tlb_empty (set_flash b flash_new))).
  assert (blen b = FLASH_SIZE) as Hb by (by rewrite (buf_zero_len _ _ _ _ Hz)).
  destruct (tlb_parts s' _ (FpAddr 0 0) eq_refl eq_refl) as (Hsl & Hw & _).
  assert (flash_slots s' = replicate 255 None) as Hnone by (rewrite Hsl; reflexivity).
  exists (Dat s' 0 true machine0). split; [|by split]. split; [|split; [by unfold payload_inv; splits|done]].
  split; [split; [|done]|].
  - change (flash_ok s'). unfold flash_ok. splits; try done. eexists _, _. split; [reflexivity|]. apply tlb_empty_inv.
  - change (flash_status s' dat_fpl_queue = used (flash_slots s')). rewrite Hnone. unfold flash_status.
    change (fram s') with f. rewrite (Hst dat_fpl_queue ltac:(done)). reflexivity.
Qed.

(** C10. Restart on FLASH: when the processor restarts on the chips it had,
    [dat_repo_init] restores everything: the entries of the flight plan in
    their slots and their counter, every status variable, every payload
    sample, and the room left in the section. *)
Theorem flash_restart_restores jk d :
  flash_repo_ok d ->
  exists d', power_cycle jk d = Ret (tt, d') /\ flash_repo_ok d' /\
    st_slots (store d') = st_slots (store d) /\
    (forall j, 0 <= j < dat_status_last_address -> dat_get_system_var j d' = Ret (i32_of (var d j), d')) /\
    (forall p i size, 0 <= p < last_sensor -> 0 < size < 2 ^ 16 -> 0 <= i < pay_capacity size ->
       storage_payload_get_data p i (Some size) (store d') = Ret ((SCH_ST_OK, Some (pay_read (store d) p i size)), store d')) /\
    forall n, st_room n (store d) -> st_room n (store d').
Proof.
  intros Hd. destruct (restart_repo jk d Hd) as (s' & E & Hd' & Hs & Hv & Hr & Hp).
  exists (set_store s' d). split; [exact E|]. split; [exact Hd'|]. split; [exact Hs|]. split; [|split; [|exact Hr]].
  - intros j Hj. rewrite get_system_ok by (done || apply Hd'). unfold var. cbn [store set_store]. by rewrite Hv.
  - intros p i size Hp1 Hs1 Hi1. destruct Hd' as (_ & Hpay & Htab). cbn [store set_store] in *.
    pose proof (law_pay_get s' p i size Hpay) as L. rewrite Htab in L. cbn [store set_store].
    etransitivity; [by apply L|]. by rewrite Hp.
Qed.

Lemma flash_restart_restores_witness : exists d d' : dat flash_state,
  power_cycle (fun _ => 0) d = Ret (tt, d') /\ st_slots (store d') = replicate 255 None.
Proof.
  destruct flash_formatted as (d & Hd & Hs & _).
  destruct (flash_restart_restores (fun _ => 0) d Hd) as (d' & H1 & _ & H2 & _).
  exists d, d'. split; [exact H1|]. rewrite H2. exact Hs.
Defined.


(** Two entries, a restart, and the entries are found. *)
Definition demo_segments : list (list fp_op) :=
  [[OpSet 100 (cs "help") [] 1 0; OpSet 200 (cs "test") (cs "x") 2 5]; [OpDel 100]; [OpGet 200; OpGet 100]].


(** The FLASH and the RAM back ends are interchangeable while the FLASH section
    has room (at most 512 entries set since the last format): from the same plan, a
    history of [dat_set_fp], [dat_get_fp] and [dat_del_fp] calls, none of the last
    two with the time -1, gives the same results, slots and counter on both. *)
Theorem flash_ram_same_plan os (df : dat flash_state) (dr : dat Ram.ram_state) :
  fp_ok df -> fp_ok dr -> st_slots (store df) = st_slots (store dr) ->
  zlength os <= 512 - flash_written (store df) -> Forall valid_op os ->
  exists rs df' dr', run_ops os df = Ret (rs, df') /\ run_ops os dr = Ret (rs, dr') /\
    st_slots (store df') = st_slots (store dr') /\
    exists n, dat_get_system_var dat_fpl_queue df' = Ret (n, df') /\ dat_get_system_var dat_fpl_queue dr' = Ret (n, dr').
Proof.
  intros Hf Hr Heq Hroom Hv.
  destruct (run_ops_ok os df Hf Hroom Hv) as (sf & Ef & Hf' & Hsf & _).
  destruct (run_ops_ok os dr Hr I Hv) as (sr & Er & Hr' & Hsr & _). rewrite <- Heq in Er, Hsr.
  eexists _, (set_store sf df), (set_store sr dr). split; [exact Ef|]. split; [exact Er|].
  cbn [store set_store]. split; [by rewrite Hsf, Hsr|]. exists (used (st_slots sf)).
  split; [by apply (counter_read (set_store sf df))|].
  rewrite Hsf, <- Hsr. by apply (counter_read (set_store sr dr)).
Qed.

Lemma flash_ram_same_plan_witness : exists (df df' : dat flash_state) dr' rs,
  run_ops demo_ops df = Ret (rs, df') /\ run_ops demo_ops (ram_data 0) = Ret (rs, dr').
Proof.
  destruct flash_formatted as (d & Hd & Hs & Hw).
  destruct (flash_ram_same_plan demo_ops d (ram_data 0)) as (rs & df' & dr' & H1 & H2 & _).
  - apply Hd.
  - apply ram_data_fp.
  - rewrite Hs. vm_compute. reflexivity.
  - rewrite Hw. vm_compute. discriminate.
  - apply demo_ops_valid.
  - exists d, df', dr', rs. split; [exact H1|exact H2].
Defined.

(** A payload sample written to the FLASH back end is read back unchanged,
    and no other sample of the payload and no sample of another payload
changes, nor the flight plan: below the capacity, which is five of the ten
    sections for a size that does not divide a page. *)
Theorem flash_payload_store s p i data :
  flash_ok s -> payload_inv s -> 0 <= p < st_payloads_entries s -> size_ok (zlength data) ->
  0 <= i < capacity (zlength data) ->
  exists s', Flash.storage_payload_set_data p i (Some data) (Some (zlength data)) s = Ret (SCH_ST_OK, s') /\
    Flash.storage_payload_get_data p i (Some (zlength data)) s' = Ret ((SCH_ST_OK, Some data), s') /\
    flash_ok s' /\ flash_slots s' = flash_slots s /\
    forall p2 i2 size2, 0 <= p2 < st_payloads_entries s -> size_ok size2 -> 0 <= i2 < capacity size2 ->
      p <> p2 \/ (zlength data = size2 /\ i <> i2) ->
      exists bs, Flash.storage_payload_get_data p2 i2 (Some size2) s = Ret ((SCH_ST_OK, Some bs), s) /\
                 Flash.storage_payload_get_data p2 i2 (Some size2) s' = Ret ((SCH_ST_OK, Some bs), s').
Proof.
  intros Hok Hinv Hp Hs Hi. destruct (payload_set s p i data Hok Hinv Hp Hs Hi) as (b & E & Hw & Hinv').
  destruct (sample_at_bounds s p i _ Hinv Hp Hs Hi) as (Hlo & _ & Hhi).
  destruct (flash_ok_write s _ data b Hok Hlo Hw) as [Hok' Hsl].
  exists (set_flash b s). split; [exact E|]. split; [|split; [exact Hok'|split; [exact Hsl|]]].
  - rewrite payload_get by done. unfold flash_pay_read. change (flash (set_flash b s)) with b.
    by rewrite (buf_read_write_same _ _ _ _ Hw).
  - intros p2 i2 size2 Hp2 Hs2 Hi2 Hd. exists (flash_pay_read s p2 i2 size2). rewrite !payload_get by done.
    split; [done|]. unfold flash_pay_read. change (flash (set_flash b s)) with b.
    rewrite (buf_read_write_other _ _ _ _ _ _ Hw); [done|].
    destruct (decide (p = p2)) as [<-|Hne].
    { destruct Hd as [Hd|[<- Hd]]; [done|]. by apply or_comm, sample_disjoint. }
    destruct (sample_at_bounds s p2 i2 _ Hinv Hp2 Hs2 Hi2) as (Hlo2 & _ & Hhi2).
    destruct (sample_at_start p i (zlength data) Hs Hi) as [K1 _].
    destruct (sample_at_start p2 i2 size2 Hs2 Hi2) as [K2 _].
    unfold SCH_SIZE_PER_SECTION in *. lia.
Qed.

Lemma flash_payload_store_witness : exists s s',
  Flash.storage_payload_set_data 0 3 (Some [10; 20; 30; 40; 50; 60; 70; 80; 90; 1; 2; 3]) (Some 12) s = Ret (SCH_ST_OK, s') /\
  Flash.storage_payload_get_data 0 3 (Some 12) s' = Ret ((SCH_ST_OK, Some [10; 20; 30; 40; 50; 60; 70; 80; 90; 1; 2; 3]), s').
Proof.
  destruct flash_formatted as (d & ((Hst & _) & Hp & Ht) & _).
  destruct (flash_payload_store (store d) 0 3 [10; 20; 30; 40; 50; 60; 70; 80; 90; 1; 2; 3]) as (s' & H1 & H2 & _).
  - apply Hst.
  - exact Hp.
  - change (0 <= 0 < pay_tables (store d)). rewrite Ht. unfold last_sensor. lia.
  - vm_compute. split; reflexivity.
  - vm_compute. split; [discriminate|reflexivity].
  - exists (store d), s'. split; [exact H1|exact H2].
Defined.

(** *** Limits of the medium *)

(** C35. The section fills up: once 512 entries were written since the last
    format, deleted ones included, the next [storage_flight_plan_set] with a
    free slot reads past the end of the table of sections, although the plan
    may be empty; the test that should rebuild the section fires one entry too
    late. *)
Theorem flash_section_full_faults s t c a e p n :
  flash_ok s -> flash_written s = 512 -> 0 <= t -> used (flash_slots s) < SCH_FP_MAX_ENTRIES ->
  Flash.storage_flight_plan_set t (Some c) (Some a) e p n s = Fault OutOfBounds.
Proof.
  intros Hok Hw Ht Hu. pose proof Hok as (Ho & Hfa & _ & Hen & _ & _ & _ & es & ce & E & (Hl & _)).
  destruct (tlb_parts s es ce E Hl) as (_ & Hw' & Hzc & _). rewrite Hw in Hw'.
  unfold Flash.storage_flight_plan_set. unfold bind at 1, get. rewrite Ho. cbn [issome negb].
  rewrite (proj2 (Z.ltb_ge t 0)) by lia. cbn [orb].
  unfold Flash.storage_flight_plan_set_st. unfold bind at 1, get. rewrite Ho. cbn [negb].
  rewrite (bind_step _ _ _ _ _ (arr_get_Some _ _ _ s Hzc)). rewrite <- Hw'.
  change (u32_of commands_per_section <? 512) with false. cbv iota.
  unfold bind at 1, ret at 1. rewrite (bind_step _ _ _ _ _ (find_index_ok s ST_FP_NULL Hok)).
  destruct (find_time ST_FP_NULL (flash_slots s)) as [k|] eqn:Ek.
  2: { assert (tbl_set (FpRow 0 [] [] 0 0 0) (flash_slots s) = None) as Hf by (unfold tbl_set; by rewrite Ek).
       apply tbl_set_full in Hf. pose proof (law_slots_len s Hok) as HL. change (st_slots s) with (flash_slots s) in HL. lia. }
  destruct (find_index_entry s _ k es ce E Hl Ek) as (Hk & _).
  rewrite Hen. rewrite (proj2 (Z.eqb_neq _ (-1))), (proj2 (Z.leb_gt _ (Z.of_nat k))) by lia. cbn [orb].
  unfold bind at 1. rewrite (bind_step _ _ _ _ _ (arr_get_Some _ _ _ s Hzc)). rewrite <- Hw'.
  apply bind_fault. unfold entry_address, bind, get. rewrite Hfa. reflexivity.
Qed.

(** 512 entries set and deleted again leave an empty plan in a full section. *)
Lemma worn_plan : exists s, flash_ok s /\ flash_written s = 512 /\ flash_slots s = replicate 255 None.
Proof.
  destruct flash_formatted as (d & ((Hst & _) & _) & Hs & Hw). destruct Hst as [Hst _].
  assert (forall n : nat, (n <= 512)%nat -> exists s, flash_ok s /\ flash_written s = Z.of_nat n /\
    flash_slots s = replicate 255 None) as H.
  { induction n as [|n IH]; intros Hn; [by exists (store d)|].
    destruct IH as (s & Hok & Hwn & Hsl); [lia|].
    destruct (append_ok s 0 (FpRow 100 (cs "help") [] 1 0 1) Hok) as (s1 & _ & Hok1 & _ & Hw1 & Hs1).
    - lia.
    - done.
    - unfold row_fine, i32_ok, INT_MIN, INT_MAX, ST_FP_NULL. cbn [row_time row_executions row_period row_node row_cmd row_args].
      splits; try lia; apply (bool_decide_unpack _); vm_compute; exact I.
    - destruct (flash_fp_delete_idx s1 0 Hok1) as (s2 & _ & Hok2 & _ & Hw2 & Hs2); [done|].
      exists s2. split; [exact Hok2|]. split; [lia|]. rewrite Hs2, Hs1, Hsl. reflexivity. }
  destruct (H 512%nat) as (s & H1 & H2 & H3); [lia|]. by exists s.
Qed.

Lemma flash_section_full_faults_witness : exists s,
  flash_slots s = replicate 255 None /\
  Flash.storage_flight_plan_set 100 (Some (cs "help")) (Some []) 1 0 1 s = Fault OutOfBounds.
Proof.
  destruct worn_plan as (s & Hok & Hw & Hs). exists s. split; [exact Hs|].
  apply (flash_section_full_faults s 100 (cs "help") [] 1 0 1 Hok Hw).
  - lia.
  - rewrite Hs. vm_compute. reflexivity.
Defined.

(** The page of a sample is counted twice: the first sample of section 5 of a
    payload is stored with [SCH_ST_OK] over the first sample of the next
    payload. *)
Theorem flash_payload_runs_into_next s p data :
  payload_inv s -> 0 <= p -> p + 1 < st_payloads_entries s -> size_ok (zlength data) ->
  ST_PAGE_SIZE mod zlength data <> 0 -> zlength data < 512 ->
  exists s', Flash.storage_payload_set_data p (capacity (zlength data)) (Some data) (Some (zlength data)) s = Ret (SCH_ST_OK, s') /\
    Flash.storage_payload_get_data (p + 1) 0 (Some (zlength data)) s' = Ret ((SCH_ST_OK, Some data), s').
Proof.
  intros Hinv Hp Hp1 Hs Hd Hl. pose proof Hinv as (Ho & He & Htbl & Hb & Hfl). set (z := zlength data) in *.
  assert (capacity z = 5 * (per_page z * 512)) as Hc by (unfold capacity; by rewrite (proj2 (Z.eqb_neq _ 0))).
  assert (1 <= per_page z <= 512) as Hpp.
  { unfold per_page, ST_PAGE_SIZE, size_ok in *. split; [apply Z.div_le_lower_bound; lia|].
    apply Z.div_le_upper_bound; lia. }
  assert (page_of (capacity z) z = 5 * 512) as Hpg.
  { unfold page_of. rewrite Hc. replace (5 * (per_page z * 512)) with (5 * 512 * per_page z) by lia. by apply Z.div_mul; lia. }
  assert (sample_at p (capacity z) z = sample_at (p + 1) 0 z) as Hat.
  { unfold sample_at. rewrite Hpg. unfold page_of. rewrite !(Z.div_0_l (per_page z)), (Z.mod_0_l (per_page z)) by lia. rewrite Hc.
    replace (5 * (per_page z * 512)) with (5 * 512 * per_page z) by lia. rewrite (Z.mod_mul (5 * 512) (per_page z)) by lia.
    change (5 * 512 / 512) with 5. change ((5 * 512) mod 512) with 0. change (0 / 512) with 0. change (0 mod 512) with 0.
    unfold SCH_SECTIONS_PER_PAYLOAD, SCH_SIZE_PER_SECTION, ST_PAGE_SIZE. lia. }
  assert (0 <= 0 < capacity z) as H0 by lia.
  destruct (sample_at_bounds s (p + 1) 0 z Hinv ltac:(lia) Hs H0) as (Hlo & Hhi & Hhi2).
  assert (accepted (st_payloads_entries s) p (capacity z) z) as Hacc.
  { unfold accepted. rewrite Hpg, Hat. unfold SCH_SECTIONS_PER_PAYLOAD, fp_base, pay_base, SCH_SIZE_PER_SECTION, size_ok in *.
    change (5 * 512 / 512) with 5. splits; lia. }
  pose proof (buf_write_ok (flash s) (sample_at (p + 1) 0 z) data) as Hw.
  specialize (Hw ltac:(unfold pay_base, SCH_SIZE_PER_SECTION in Hlo; lia) ltac:(fold z; lia)).
  eexists. split.
  - unfold Flash.storage_payload_set_data. unfold bind at 1, get. rewrite Ho, Htbl. cbn [negb is_null orb].
    rewrite (bind_step _ _ _ _ _ (accepted_address s p _ z Hinv Hs Hacc)). rewrite Hat.
    unfold write_data_with_check. rewrite (aligned s (p + 1) 0) by (done || lia).
    change (SCH_ST_OK =? SCH_ST_ERROR) with false. cbv iota.
    unfold storage_write_flash, get. unfold bind at 1 2 3. unfold u16_of. rewrite Z.mod_small by (unfold size_ok in Hs; lia).
    fold z. rewrite Z.ltb_irrefl, take_ge by (unfold z, zlength; lia). unfold bind, lift. rewrite Hw. reflexivity.
  - rewrite payload_get; [|by unfold payload_inv; cbn; splits|cbn; lia|done|done].
    unfold flash_pay_read. cbn [flash set_flash].
    pose proof (buf_read_write_same _ _ _ _ Hw) as Hrd. fold z in Hrd. by rewrite Hrd.
Qed.

(** A sample whose last byte is the last byte of a page is refused: for a size
    that divides the page, sample [512 / size - 1] is never stored, and
    [dat_add_payload_sample], which only goes on after a success, stays at this
    index for ever. *)
Theorem flash_page_end_refused s p data :
  payload_inv s -> 0 <= p < st_payloads_entries s -> 0 < zlength data -> ST_PAGE_SIZE mod zlength data = 0 ->
  Flash.storage_payload_set_data p (per_page (zlength data) - 1) (Some data) (Some (zlength data)) s = Ret (SCH_ST_ERROR, s).
Proof.
  intros Hinv Hp Hz Hd. pose proof Hinv as (Ho & He & Htbl & _ & _). set (z := zlength data) in *.
  pose proof (Z.div_mod ST_PAGE_SIZE z ltac:(lia)) as Hdm. rewrite Hd in Hdm. fold (per_page z) in Hdm.
  unfold ST_PAGE_SIZE in Hdm.
  assert (1 <= per_page z) as Hpp1 by nia. assert (z <= 512) as Hz5 by nia. assert (per_page z <= 512) as Hpp by nia.
  assert (page_of (per_page z - 1) z = 0) as Hpg by (unfold page_of; apply Z.div_small; lia).
  assert (sample_at p (per_page z - 1) z + z = (1024 + p * 5120) * 512 + 512) as Hat.
  { unfold sample_at. rewrite Hpg, (Z.mod_small (per_page z - 1)) by lia. change (0 / 512) with 0. change (0 mod 512) with 0.
    unfold pay_base, SCH_SECTIONS_PER_PAYLOAD, SCH_SIZE_PER_SECTION, ST_PAGE_SIZE. lia. }
  unfold Flash.storage_payload_set_data. unfold bind at 1, get. rewrite Ho, Htbl. cbn [negb is_null orb].
  rewrite (bind_step _ _ _ _ _ (accepted_address s p (per_page z - 1) z Hinv ltac:(unfold size_ok; lia)
    ltac:(unfold accepted, SCH_SECTIONS_PER_PAYLOAD, fp_base, SCH_SIZE_PER_SECTION; rewrite Hpg;
          change (0 / 512) with 0; splits; lia))).
  unfold write_data_with_check, check_address_alignment, ST_PAGE_SIZE.
  rewrite Hat, u32_of_id by lia. rewrite Z.div_add_l by lia. change (512 / 512) with 1.
  rewrite (proj2 (Z.ltb_lt _ _)); [reflexivity|]. apply Z.div_lt_upper_bound; lia.
Qed.

(** Creating the flight plan table again with [drop] uses the table of
    sections after it was freed. *)
Theorem flash_drop_uses_freed_table s n :
  flash_ok s -> is_null (st_payload_addr s) = false ->
  Flash.storage_table_flight_plan_init n true s = Fault UseAfterFree.
Proof.
  intros (Ho & Hfa & _) Hp. unfold Flash.storage_table_flight_plan_init. unfold bind at 1, get.
  rewrite Ho, Hfa. cbn [negb is_null andb]. apply bind_fault. unfold bind at 1. cbn [free_ptr]. unfold ret at 1.
  unfold bind at 1, modify. apply bind_fault. unfold Flash.storage_flight_plan_reset. unfold bind at 1, get.
  cbn [storage_is_open st_payload_addr set_fp_table]. rewrite Ho, Hp. cbn [negb orb]. reflexivity.
Qed.

(** A free slot has no entry to read, so [storage_flight_plan_get_idx] does not
    write its output; [dat_purge_fp] then reads an uninitialised variable when
    the first slot is free. *)
Theorem flash_purge_reads_uninitialized (d : dat flash_state) :
  fp_ok d -> 0 <= unixtime d < INT_MAX -> zlookup (flash_slots (store d)) 0 = Some None ->
  dat_purge_fp d = Fault Uninitialized.
Proof.
  intros [[Hst _] _] Ht Hz. unfold dat_purge_fp. unfold bind at 1, dat_get_time, gets.
  rewrite i32_of_id by (unfold INT_MIN; lia). unfold bind at 1. rewrite cint_ok by (unfold INT_MIN; lia).
  apply bind_fault. unfold range. rewrite seqZ_cons by done. cbn [fold_m]. apply bind_fault.
  unfold purge_entry. pose proof (flash_fp_get_idx (store d) 0 None Hst Hz) as E.
  rewrite (bind_step _ _ _ _ _ (st_step _ d _ _ E)). reflexivity.
Qed.

(** On chips that were never formatted every slot looks used, with the time
    0: no entry can be stored until the flight plan is reset. *)
Theorem flash_blank_chip_is_full t c a e p n jk :
  exists s, storage_flightplan_load_tlb (flash_open blank_flash blank_fram jk) = Ret (SCH_ST_OK, s) /\
    Flash.storage_flight_plan_set t (Some c) (Some a) e p n s = Ret (SCH_ST_ERROR, s).
Proof.
  set (tlb := replicate (Z.to_nat tlb_len) (FpAddr 0 0)).
  exists (set_tlb tlb (flash_open blank_flash blank_fram jk)). split; [vm_compute; reflexivity|].
  unfold Flash.storage_flight_plan_set. unfold bind at 1, get. cbn [issome negb storage_is_open set_tlb flash_open].
  rewrite !orb_false_r. destruct (t <? 0); [reflexivity|].
  unfold storage_flight_plan_set_st. unfold bind at 1, get. cbn [storage_is_open set_tlb flash_open negb].
  change (arr_get (st_flightplan_tlb (set_tlb tlb (flash_open blank_flash blank_fram jk))) SCH_FP_MAX_ENTRIES) with
    (ret (S := flash_state) (FpAddr 0 0)). unfold bind at 1, ret at 1. cbn [tl_addr].
  change (u32_of commands_per_section <? 0) with false. cbv iota. unfold bind at 1, ret at 1.
  match goal with |- bind ?m ?k ?s = _ => rewrite (bind_step m k s (-1) s ltac:(vm_compute; reflexivity)) end.
  reflexivity.
Qed.

(** [flight_plan_rebuild_tlb] copies the section with a length of [512 * 512]
    bytes, which is 0 as a [uint16_t]: nothing is read before the section is
    erased, and the entries are rewritten from an uninitialised block. *)
Theorem flash_rebuild_reads_nothing s :
  tables_ok s -> storage_read_flash fp_base (commands_per_section * FP_CONTAINER_SIZE) s = Ret ((SCH_ST_OK, []), s).
Proof.
  intros (_ & _ & _ & _ & _ & Hfl & _). unfold storage_read_flash, bind, get.
  change (u16_of (commands_per_section * FP_CONTAINER_SIZE)) with 0.
  unfold buf_read. assert (in_buf (flash s) fp_base 0 = true) as -> by (apply in_buf_iff; rewrite Hfl; done).
  reflexivity.
Qed.

End FlashTheorems.
