(* ===== verification/SqliteRepo.v ===== *)
(** * The SQLite back end keeps a finite map

    Over any SQLite that executes the statements of Sql as SQL documents them,
    the status variables are a map from addresses to values and the flight plan
    a map from times to entries, also across restarts; and where that differs
    from the table of slots the data repository counts entries by. *)
From S2P Require Import Prelude CStr Memory Float32 Config Storage Schema RepoData Sql StorageSqlite SqlMini.

Module SqlStoreLaws.
Import Sql SqlLaws SqlStore.

(** ** The statements of the texts *)
Definition status_cols : list column :=
  [Column (cs "idx") [cs "INTEGER"; cs "PRIMARY"; cs "KEY"]; Column (cs "name") [cs "TEXT"; cs "UNIQUE"];
   Column (cs "value") [cs "INT"]].
Definition fp_cols : list column :=
  [Column (cs "time") [cs "int"; cs "PRIMARY"; cs "KEY"]; Column (cs "command") [cs "text"];
   Column (cs "args") [cs "text"]; Column (cs "executions") [cs "int"]; Column (cs "periodical") [cs "int"];
   Column (cs "node") [cs "int"]].

Definition status_cond (i : Z) : condition := Cond (cs "idx") true i.
Definition status_set_stmt (t : cstring) (i v : Z) : stmt :=
  Insert true t [cs "idx"; cs "name"; cs "value"] [EInt i; EOther (cs "name") t (status_cond i); EInt v].
Definition status_get_stmt (t : cstring) (i : Z) : stmt := Select (Some [cs "value"]) t (status_cond i) false.
Definition fp_names : list cstring := map col_name fp_cols.
Definition fp_set_stmt (t : cstring) (x : fp_row) : stmt :=
  Insert true t fp_names [EInt (row_time x); EStr false (row_cmd x); EStr false (row_args x);
    EInt (row_executions x); EInt (row_period x); EInt (row_node x)].
Definition fp_get_stmt (t : cstring) (time : Z) : stmt := Select None t (Cond (cs "time") false time) false.
Definition fp_get_idx_stmt (t : cstring) (rowid : Z) : stmt := Select None t (Cond (cs "rowid") false rowid) false.
Definition fp_delete_stmt (t : cstring) (time : Z) : stmt := Delete t (Some (Cond (cs "time") false time)).
Definition fp_delete_idx_stmt (t : cstring) (rowid : Z) : stmt := Delete t (Some (Cond (cs "rowid") false rowid)).

(** A printed number as a word. *)
Ltac gen_dec z := let H := fresh "Hw" in assert (is_word_text (print_dec z)) as H by (apply dec_word; unfold INT_MIN, INT_MAX in *; lia);
  revert H; generalize (print_dec z); intros ? H.
Ltac means_tac := unfold dq, nl; rewrite <- ?app_assoc; lex_tac; reflexivity.

(** Text of SQL: no NUL and no double quote. *)
Definition sql_text (s : cstring) : Prop := is_cstr s /\ forallb (fun c => negb (c =? chr_dq)) s = true.
#[export] Instance sql_text_dec s : Decision (sql_text s).
Proof. unfold sql_text. apply _. Defined.

Section texts.
Variable t : cstring.
Hypothesis Ht : is_name t = true.
Let Hword : is_word_text t := name_word t Ht.

Lemma create_status_means : means (create_status_text t) (CreateTable t status_cols).
Proof. pose proof Hword. right. unfold create_status_text. means_tac. Qed.
Lemma create_fp_means : means (create_fp_text t) (CreateTable t fp_cols).
Proof. pose proof Hword. right. unfold create_fp_text. means_tac. Qed.
Lemma drop_means : means (cs "DROP TABLE IF EXISTS " ++ t) (DropTable true t).
Proof. pose proof Hword. left. means_tac. Qed.
Lemma status_get_means i : INT_MIN <= i <= INT_MAX -> means (status_get_text t i) (status_get_stmt t i).
Proof.
  intros Hi. pose proof Hword. right. unfold status_get_text, status_get_stmt, tokens, cond_tokens, status_cond.
  cbn [cond_value cond_quoted]. assert (forallb (fun c => negb (c =? chr_dq)) (print_dec i) = true) as Hq.
  { destruct (dec_word i ltac:(unfold INT_MIN, INT_MAX in *; lia)) as [_ Hw]. rewrite forallb_forall in *.
    intros c Hc. apply Hw in Hc. destruct (c =? chr_dq) eqn:E; [|done]. bool_to_prop. by subst. }
  revert Hq. generalize (print_dec i). intros w Hq. means_tac.
Qed.
Lemma status_set_means i v : INT_MIN <= i <= INT_MAX -> INT_MIN <= v <= INT_MAX ->
  means (status_set_text t i v) (status_set_stmt t i v).
Proof.
  intros Hi Hv. pose proof Hword. right. unfold status_set_text, status_set_stmt, tokens, expr_tokens, cond_tokens, status_cond, parens.
  cbn [cond_value cond_quoted map]. assert (forallb (fun c => negb (c =? chr_dq)) (print_dec i) = true) as Hq.
  { destruct (dec_word i ltac:(unfold INT_MIN, INT_MAX in *; lia)) as [_ Hw]. rewrite forallb_forall in *.
    intros c Hc. apply Hw in Hc. destruct (c =? chr_dq) eqn:E; [|done]. bool_to_prop. by subst. }
  gen_dec v. revert Hq. gen_dec i. intros Hq. means_tac.
Qed.
Lemma fp_set_means x node cmd args :
  INT_MIN <= row_time x <= INT_MAX -> INT_MIN <= row_executions x <= INT_MAX ->
  INT_MIN <= row_period x <= INT_MAX -> INT_MIN <= row_node x <= INT_MAX ->
  sql_text (row_cmd x) -> sql_text (row_args x) -> node = row_node x ->
  means (fp_set_text t (FpEntry (row_time x) (row_executions x) (row_period x) node cmd args) (row_cmd x) (row_args x))
    (fp_set_stmt t x).
Proof.
  intros H1 H2 H3 H4 [_ H5] [_ H6] ->. pose proof Hword. right.
  unfold fp_set_text, fp_set_stmt, tokens, expr_tokens, parens. cbn [map fp_unixtime fp_executions fp_periodical fp_node].
  destruct x as [time c a e p n]. cbn [row_time row_cmd row_args row_executions row_period row_node] in *.
  gen_dec time. gen_dec e. gen_dec p. gen_dec n. means_tac.
Qed.
Lemma fp_get_means z : INT_MIN <= z <= INT_MAX -> means (fp_get_text t z) (fp_get_stmt t z).
Proof. intros Hz. pose proof Hword. left. unfold fp_get_text, fp_get_stmt, tokens, cond_tokens. cbn [cond_value cond_quoted]. gen_dec z. means_tac. Qed.
Lemma fp_get_idx_means z : INT_MIN <= z <= INT_MAX -> means (fp_get_idx_text t z) (fp_get_idx_stmt t z).
Proof. intros Hz. pose proof Hword. left. unfold fp_get_idx_text, fp_get_idx_stmt, tokens, cond_tokens. cbn [cond_value cond_quoted]. gen_dec z. means_tac. Qed.
Lemma fp_delete_means z : INT_MIN <= z <= INT_MAX -> means (fp_delete_text t z) (fp_delete_stmt t z).
Proof. intros Hz. pose proof Hword. left. unfold fp_delete_text, fp_delete_stmt, tokens, cond_tokens. cbn [cond_value cond_quoted]. gen_dec z. means_tac. Qed.
Lemma fp_delete_idx_means z : INT_MIN <= z <= INT_MAX -> means (fp_delete_idx_text t z) (fp_delete_idx_stmt t z).
Proof. intros Hz. pose proof Hword. left. unfold fp_delete_idx_text, fp_delete_idx_stmt, tokens, cond_tokens. cbn [cond_value cond_quoted]. gen_dec z. means_tac. Qed.
End texts.

(** ** Tables as maps *)
Section keyed.
Context {A B : Type} (key : A -> Z) (val : A -> B).
Definition keyed (l : list A) : gmap Z B := list_to_map (map (fun a => (key a, val a)) l).
Definition drop_key (k : Z) (l : list A) : list A := List.filter (fun a => negb (key a =? k)) l.
Definition with_key (k : Z) (l : list A) : list A := List.filter (fun a => key a =? k) l.

Lemma keyed_None k l : k ∉ map key l -> keyed l !! k = None.
Proof. intros H. apply not_elem_of_list_to_map_1. by rewrite map_map. Qed.

Lemma with_key_cases k l : NoDup (map key l) ->
  with_key k l = [] /\ keyed l !! k = None \/ exists a, with_key k l = [a] /\ key a = k /\ keyed l !! k = Some (val a).
Proof.
  induction l as [|a l IH]; intros Hn; [by left|]. apply NoDup_cons in Hn as [Ha Hn]. cbn.
  destruct (key a =? k) eqn:E; bool_to_prop.
  - right. exists a. assert (with_key k l = []) as Hw.
    { destruct (IH Hn) as [[-> _]|(b & Hb & <- & _)]; [done|]. exfalso. apply Ha. rewrite E.
      assert (b ∈ with_key (key b) l) as H%list_elem_of_In%filter_In by (rewrite Hb; by left).
      apply list_elem_of_fmap. exists b. split; [done|]. apply list_elem_of_In. apply H. }
    unfold with_key in Hw. rewrite Hw. split; [done|]. split; [done|]. unfold keyed. cbn. rewrite E. apply lookup_insert_eq.
  - unfold keyed. cbn. rewrite lookup_insert_ne by done. by apply IH.
Qed.

Lemma elem_drop_key k l a : a ∈ drop_key k l <-> a ∈ l /\ key a <> k.
Proof.
  rewrite !list_elem_of_In. unfold drop_key. rewrite filter_In.
  split; intros [H1 H2]; (split; [done|]); bool_to_prop; [done|]. by apply negb_true_iff, Z.eqb_neq.
Qed.

Lemma keyed_drop k l : keyed (drop_key k l) = delete k (keyed l).
Proof.
  induction l as [|a l IH]; [unfold keyed; cbn; by rewrite delete_empty|]. unfold drop_key. cbn [List.filter].
  destruct (key a =? k) eqn:E; bool_to_prop; cbn [negb].
  - change (keyed (drop_key k l) = delete k (keyed (a :: l))). rewrite IH. unfold keyed. cbn. rewrite E. by rewrite delete_insert_eq.
  - unfold keyed. cbn. change (<[key a:=val a]> (keyed (drop_key k l)) = delete k (<[key a:=val a]> (keyed l))).
    rewrite IH. by rewrite delete_insert_ne.
Qed.

Lemma keyed_put a l : keyed (drop_key (key a) l ++ [a]) = <[key a := val a]> (keyed l).
Proof.
  unfold keyed at 1. rewrite map_app, list_to_map_app. fold (keyed (drop_key (key a) l)). rewrite keyed_drop. cbn.
  rewrite map_union_comm.
  - rewrite <- insert_union_l, (left_id_L ∅ (∪)). by rewrite insert_delete_eq.
  - apply map_disjoint_spec. intros i x y Hx Hy. apply lookup_delete_Some in Hx as [Hi _].
    apply lookup_insert_Some in Hy as [[Hk _]|[_ Hy]]; [congruence|]. by apply lookup_empty_Some in Hy.
Qed.

Lemma NoDup_drop_key k l : NoDup (map key l) -> NoDup (map key (drop_key k l)).
Proof.
  intros Hn. induction l as [|a l IH]; [done|]. apply NoDup_cons in Hn as [Ha Hn]. unfold drop_key. cbn [List.filter].
  destruct (negb _); [|by apply IH]. apply NoDup_cons. split; [|by apply IH].
  intros (b & Hb & Hin)%list_elem_of_fmap. apply elem_drop_key in Hin as [Hin _]. apply Ha. apply list_elem_of_fmap. eauto.
Qed.

Lemma NoDup_put a l : NoDup (map key l) -> NoDup (map key (drop_key (key a) l ++ [a])).
Proof.
  intros Hn. rewrite map_app. apply NoDup_app. splits; [|intros x Hx [->|Hx2%elem_of_nil]%elem_of_cons|apply NoDup_singleton].
  - by apply NoDup_drop_key.
  - apply list_elem_of_fmap in Hx as (b & Hb & Hin). apply elem_drop_key in Hin as [_ Hne]. congruence.
  - done.
Qed.
End keyed.

Lemma filter_map {A B} (f : A -> B) p l : List.filter p (map f l) = map f (List.filter (fun x => p (f x)) l).
Proof. induction l as [|x l IH]; [done|]. cbn. rewrite IH. by destruct (p (f x)). Qed.

(** ** The tables of the back end *)
Definition status_row (x : Z * Z) : Z * list cell := (fst x, [SInt (fst x); SNull; SInt (snd x)]).
Definition status_table (l : list (Z * Z)) : table := Table status_cols (map status_row l).
Definition plan_cells (x : fp_row) : list cell :=
  [SInt (row_time x); SText (row_cmd x); SText (row_args x); SInt (row_executions x); SInt (row_period x); SInt (row_node x)].
Definition plan_line (x : Z * fp_row) : Z * list cell := (fst x, plan_cells (snd x)).
Definition plan_table (l : list (Z * fp_row)) : table := Table fp_cols (map plan_line l).
Definition line_time (x : Z * fp_row) : Z := row_time (snd x).

Definition vars_of (l : list (Z * Z)) : gmap Z Z := keyed fst snd l.
Definition plan_of (l : list (Z * fp_row)) : gmap Z fp_row := keyed line_time snd l.

Lemma bool_decide_int a b : bool_decide (Some (SInt a) = Some (SInt b)) = (a =? b).
Proof. destruct (a =? b) eqn:E; bool_to_prop; [by rewrite bool_decide_eq_true_2; [|by subst]|apply bool_decide_eq_false_2; congruence]. Qed.
Lemma bool_decide_int' a b : bool_decide (SInt a = SInt b) = (a =? b).
Proof. destruct (a =? b) eqn:E; bool_to_prop; [by rewrite bool_decide_eq_true_2; [|by subst]|apply bool_decide_eq_false_2; congruence]. Qed.

Lemma status_conflict x y : conflict status_cols (snd (status_row x)) (snd (status_row y)) = (fst y =? fst x).
Proof.
  unfold conflict, status_row. cbn [snd zip zip_with existsb status_cols]. rewrite bool_decide_int'.
  rewrite (Z.eqb_sym (fst y)). cbn [is_unique col_decl]. rewrite (bool_decide_eq_true_2 (SNull = SNull)) by done.
  rewrite (bool_decide_eq_false_2 (SInt (fst x) = SNull)) by done. cbn [negb]. rewrite !andb_false_r.
  change (is_unique (Column (cs "value") [cs "INT"])) with false.
  change (is_unique (Column (cs "idx") [cs "INTEGER"; cs "PRIMARY"; cs "KEY"])) with true. cbn [andb].
  by rewrite andb_true_r, !orb_false_r.
Qed.
Lemma plan_conflict x y : conflict fp_cols (plan_cells x) (plan_cells y) = (row_time y =? row_time x).
Proof.
  unfold conflict, plan_cells. cbn [zip zip_with existsb fp_cols]. rewrite bool_decide_int'.
  rewrite (Z.eqb_sym (row_time y)). rewrite (bool_decide_eq_false_2 (SInt (row_time x) = SNull)) by done.
  change (is_unique (Column (cs "time") _)) with true.
  change (is_unique (Column (cs "command") _)) with false. change (is_unique (Column (cs "args") _)) with false.
  change (is_unique (Column (cs "executions") _)) with false. change (is_unique (Column (cs "periodical") _)) with false.
  change (is_unique (Column (cs "node") _)) with false. cbn [andb negb]. by rewrite andb_true_r, !orb_false_r.
Qed.

Lemma status_selects l i : selects (status_table l) (status_cond i) =
  Some (fun r => bool_decide (snd r !! 0%nat = Some (SInt i))).
Proof. reflexivity. Qed.
Lemma status_with l i : List.filter (fun r => bool_decide (snd r !! 0%nat = Some (SInt i))) (map status_row l) =
  map status_row (with_key fst i l).
Proof. rewrite filter_map. f_equal. apply filter_ext. intros x. unfold status_row. cbn. apply bool_decide_int. Qed.
Lemma plan_with l t : List.filter (fun r => bool_decide (snd r !! 0%nat = Some (SInt t))) (map plan_line l) =
  map plan_line (with_key line_time t l).
Proof. rewrite filter_map. f_equal. apply filter_ext. intros x. unfold plan_line. cbn. apply bool_decide_int. Qed.

(** *** The statements on these tables *)
Section run.
Variables (now t : cstring) (db : database).

Lemma run_status_set l i v : db !! t = Some (status_table l) -> NoDup (map fst l) ->
  run now (status_set_stmt t i v) db =
    Some (SQLITE_OK, <[t := status_table (drop_key fst i l ++ [(i, v)])]> db, []).
Proof.
  intros Hdb Hn. unfold run, status_set_stmt. rewrite Hdb. cbn [mbind option_bind].
  assert (eval now db (EOther (cs "name") t (status_cond i)) = Some SNull) as He.
  { unfold eval. rewrite Hdb. cbn [mbind option_bind]. rewrite status_selects. cbn [mbind option_bind].
    change (find_col (tb_cols (status_table l)) (cs "name")) with (Some 1%nat). cbn [mbind option_bind].
    unfold status_table. cbn [tb_rows]. rewrite status_with.
    destruct (with_key_cases fst snd i l Hn) as [[-> _]|(a & -> & _)]; [done|]. by destruct a. }
  cbn [mapM]. rewrite He. cbn [mbind option_bind eval mret option_ret].
  assert (row_of (status_table l) [cs "idx"; cs "name"; cs "value"] [SInt i; SNull; SInt v] = Some (snd (status_row (i, v)))) as ->
    by reflexivity.
  cbn [mbind option_bind]. unfold insert_row. do 4 f_equal. unfold status_table at 1 2. cbn [tb_cols tb_rows].
  change (rowid_for (status_table l) (snd (status_row (i, v)))) with i.
  unfold status_table. f_equal. rewrite map_app. f_equal. cbn [tb_rows]. rewrite filter_map. f_equal. apply filter_ext. intros x.
  by rewrite status_conflict.
Qed.

Lemma run_status_get l i : db !! t = Some (status_table l) -> NoDup (map fst l) ->
  run now (status_get_stmt t i) db =
    Some (SQLITE_OK, db, match vars_of l !! i with Some v => [[SInt v]] | None => [] end).
Proof.
  intros Hdb Hn. unfold run, status_get_stmt. rewrite Hdb. cbn [mbind option_bind]. rewrite status_selects.
  cbn [mbind option_bind]. unfold status_table. cbn [tb_rows]. rewrite status_with. unfold vars_of.
  destruct (with_key_cases fst snd i l Hn) as [[-> ->]|(a & -> & _ & ->)]; [done|]. by destruct a.
Qed.

Lemma row_of_plan l x : row_of (plan_table l) fp_names (plan_cells x) = Some (plan_cells x).
Proof. by destruct x. Qed.

Lemma run_fp_set l x : db !! t = Some (plan_table l) ->
  run now (fp_set_stmt t x) db =
    Some (SQLITE_OK, <[t := plan_table (drop_key line_time (row_time x) l ++ [(next_rowid (map plan_line l), x)])]> db, []).
Proof.
  intros Hdb. unfold run, fp_set_stmt. rewrite Hdb. cbn [mbind option_bind].
  change (mapM (eval now db) _) with (Some (plan_cells x)). cbn [mbind option_bind]. rewrite row_of_plan.
  cbn [mbind option_bind]. unfold insert_row. do 4 f_equal. unfold plan_table at 1 2. cbn [tb_cols tb_rows].
  assert (rowid_for (plan_table l) (plan_cells x) = next_rowid (map plan_line l)) as -> by (by destruct x).
  unfold plan_table. f_equal. rewrite map_app. f_equal. cbn [tb_rows]. rewrite filter_map. f_equal. apply filter_ext. intros y.
  unfold plan_line. cbn [snd]. by rewrite plan_conflict.
Qed.

Lemma run_fp_get l time : db !! t = Some (plan_table l) -> NoDup (map line_time l) ->
  run now (fp_get_stmt t time) db =
    Some (SQLITE_OK, db, match plan_of l !! time with Some x => [plan_cells x] | None => [] end).
Proof.
  intros Hdb Hn. unfold run, fp_get_stmt. rewrite Hdb. cbn [mbind option_bind].
  change (selects (plan_table l) (Cond (cs "time") false time)) with
    (Some (fun r : Z * list cell => bool_decide (snd r !! 0%nat = Some (SInt time)))).
  cbn [mbind option_bind]. unfold plan_table. cbn [tb_rows]. rewrite plan_with. unfold plan_of.
  by destruct (with_key_cases line_time snd time l Hn) as [[-> ->]|(a & -> & _ & ->)].
Qed.

Lemma run_fp_delete l time : db !! t = Some (plan_table l) ->
  run now (fp_delete_stmt t time) db = Some (SQLITE_OK, <[t := plan_table (drop_key line_time time l)]> db, []).
Proof.
  intros Hdb. unfold run, fp_delete_stmt. rewrite Hdb. cbn [mbind option_bind].
  change (selects (plan_table l) (Cond (cs "time") false time)) with
    (Some (fun r : Z * list cell => bool_decide (snd r !! 0%nat = Some (SInt time)))).
  cbn [mbind option_bind]. do 4 f_equal. unfold plan_table. cbn [tb_cols tb_rows]. f_equal. rewrite filter_map. f_equal.
  apply filter_ext. intros y. unfold plan_line. cbn. by rewrite bool_decide_int.
Qed.

Lemma run_fp_get_idx l rowid : db !! t = Some (plan_table l) -> NoDup (map fst l) ->
  run now (fp_get_idx_stmt t rowid) db =
    Some (SQLITE_OK, db, match keyed fst snd l !! rowid with Some x => [plan_cells x] | None => [] end).
Proof.
  intros Hdb Hn. unfold run, fp_get_idx_stmt. rewrite Hdb. cbn [mbind option_bind].
  change (selects (plan_table l) (Cond (cs "rowid") false rowid)) with (Some (fun r : Z * list cell => fst r =? rowid)).
  cbn [mbind option_bind]. unfold plan_table. cbn [tb_rows]. rewrite filter_map. cbn [fst plan_line].
  change (List.filter (fun x : Z * fp_row => fst x =? rowid) l) with (with_key fst rowid l).
  by destruct (with_key_cases fst snd rowid l Hn) as [[-> ->]|(a & -> & _ & ->)].
Qed.
End run.

(** ** The state of the back end as two maps *)
Definition fine_row (x : fp_row) : Prop :=
  (INT_MIN <= row_time x <= INT_MAX /\ INT_MIN <= row_executions x <= INT_MAX /\ INT_MIN <= row_period x <= INT_MAX /\
   INT_MIN <= row_node x <= INT_MAX) /\ sql_text (row_cmd x) /\ sql_text (row_args x).

#[export] Instance fine_row_dec x : Decision (fine_row x).
Proof. unfold fine_row. apply _. Defined.

Section state.
Context {Db : Type} `{SqliteLaws Db}.
Implicit Types s : sql_state Db.

Definition holds_vars (c : database) (vars : gmap Z Z) : Prop :=
  exists l, c !! DAT_TABLE_STATUS = Some (status_table l) /\ NoDup (map fst l) /\
    Forall (fun x => INT_MIN <= snd x <= INT_MAX) l /\ vars = u32_of <$> vars_of l.
Definition holds_plan (c : database) (plan : gmap Z fp_row) : Prop :=
  exists l, c !! DAT_TABLE_FP = Some (plan_table l) /\ NoDup (map line_time l) /\
    Forall (fun x => fine_row (snd x)) l /\ plan = plan_of l.
(** A database that is open, with its tables. *)
Definition sql_ok s (vars : gmap Z Z) (plan : gmap Z fp_row) : Prop :=
  db s = true /\ storage_is_open s = true /\ fp_table s = Live DAT_TABLE_FP /\
  holds_vars (contents (disc s)) vars /\ holds_plan (contents (disc s)) plan.

Lemma exec_step s text st : db s = true -> means text st -> stmt_fine st = true ->
  exists now d', forall c r, run now st (contents (disc s)) = Some (SQLITE_OK, c, r) ->
    exec_rc text s = Ret (SCH_ST_OK, set_disc d' s) /\ contents d' = c.
Proof.
  intros Hdb Hm Hf. destruct (law_exec (disc s) text st Hm Hf) as (now & d' & Hr). exists now, d'. intros c r E.
  destruct (Hr _ _ _ E) as [E1 E2]. split; [|done]. unfold exec_rc, exec, bind, get. by rewrite Hdb, E1.
Qed.

Lemma rows_step s text cols t c l1 r : db s = true -> means text (Select cols t c l1) -> stmt_fine (Select cols t c l1) = true ->
  run [] (Select cols t c l1) (contents (disc s)) = Some (SQLITE_OK, contents (disc s), r) ->
  rows text s = Ret ((SQLITE_OK, r), s).
Proof.
  intros Hdb Hm Hf E. unfold rows, bind, get. rewrite Hdb. cbn [negb]. unfold ret.
  by rewrite (law_rows _ _ _ _ _ _ Hm Hf _ _ _ E).
Qed.

Lemma u32_i32 v : 0 <= v < 2 ^ 32 -> u32_of (i32_of v) = v.
Proof. intros. rewrite u32_of_i32_of. by apply u32_of_id. Qed.

Lemma vars_other c (t : cstring) tb vars : t <> DAT_TABLE_STATUS -> holds_vars c vars -> holds_vars (<[t := tb]> c) vars.
Proof. intros Ht (l & E & Hr). exists l. by rewrite lookup_insert_ne. Qed.
Lemma plan_other c (t : cstring) tb plan : t <> DAT_TABLE_FP -> holds_plan c plan -> holds_plan (<[t := tb]> c) plan.
Proof. intros Ht (l & E & Hr). exists l. by rewrite lookup_insert_ne. Qed.
Lemma vars_dropped c (t : cstring) vars : t <> DAT_TABLE_STATUS -> holds_vars c vars -> holds_vars (delete t c) vars.
Proof. intros Ht (l & E & Hr). exists l. by rewrite lookup_delete_ne. Qed.

(** *** Status variables *)
Lemma int_fine_ok z : INT_MIN <= z <= INT_MAX -> int_fine z = true.
Proof. unfold int_fine, is_int. intros. apply andb_true_iff. split; apply Z.leb_le; lia. Qed.

Lemma status_set_ok s vars plan i v : sql_ok s vars plan -> INT_MIN <= i <= INT_MAX -> 0 <= v < 2 ^ 32 ->
  exists s', storage_status_set_value_idx i v DAT_TABLE_STATUS s = Ret (SCH_ST_OK, s') /\ sql_ok s' (<[i := v]> vars) plan.
Proof.
  intros (Hdb & Hop & Hfp & (l & El & Hn & Hi & ->) & Hp) Hi32 Hv. unfold storage_status_set_value_idx, bind, get.
  rewrite Hop, Hdb. cbn [negb orb].
  destruct (exec_step s _ _ Hdb (status_set_means DAT_TABLE_STATUS eq_refl i (i32_of v) Hi32 (i32_of_range v))) as (now & d' & Hx).
  { unfold stmt_fine, status_set_stmt, expr_fine, cond_fine, status_cond. cbn [forallb cond_value cond_col].
    rewrite !int_fine_ok by (done || apply i32_of_range). reflexivity. }
  destruct (Hx _ _ (run_status_set now _ _ l i (i32_of v) El Hn)) as [E Ec]. exists (set_disc d' s). split; [exact E|].
  unfold sql_ok. cbn [db storage_is_open fp_table disc set_disc]. rewrite Ec. splits; try done.
  - exists (drop_key fst i l ++ [(i, i32_of v)]). rewrite lookup_insert_eq. split; [done|].
    split; [exact (NoDup_put fst (i, i32_of v) l Hn)|]. split.
    + apply Forall_app. split; [|constructor; [apply i32_of_range|constructor]].
      rewrite Forall_forall in *. intros x [Hx2 _]%elem_drop_key. by apply Hi.
    + unfold vars_of. pose proof (keyed_put fst snd (i, i32_of v) l) as Hk. cbn [fst snd] in Hk. rewrite Hk.
      rewrite fmap_insert. by rewrite u32_i32.
  - by apply plan_other.
Qed.

Lemma status_get_ok s vars plan i : sql_ok s vars plan -> INT_MIN <= i <= INT_MAX ->
  storage_status_get_value_idx i DAT_TABLE_STATUS s =
    Ret (match vars !! i with Some v => (SCH_ST_OK, Some v) | None => (SCH_ST_ERROR, None) end, s).
Proof.
  intros (Hdb & Hop & Hfp & (l & El & Hn & Hi & ->) & Hp) Hi32. unfold storage_status_get_value_idx, bind at 1, get.
  rewrite Hop, Hdb. cbn [negb orb]. rewrite i32_of_id by done.
  rewrite (bind_step _ _ _ _ _ (rows_step s _ _ _ _ _ _ Hdb (status_get_means DAT_TABLE_STATUS eq_refl i Hi32)
    ltac:(unfold stmt_fine, cond_fine, status_cond; cbn [cond_value]; rewrite int_fine_ok by done; reflexivity)
    (run_status_get [] _ _ l i El Hn))).
  rewrite lookup_fmap. destruct (vars_of l !! i) as [v|]; [|done]. cbn [fmap option_fmap].
  change (SQLITE_OK =? SQLITE_OK) with true. cbn [negb]. unfold ret. cbn [option_map]. rewrite law_column_int.
  by rewrite u32_of_i32_of.
Qed.

(** *** Flight plan *)
Lemma fp_set_ok s vars plan t c a e p n : sql_ok s vars plan -> fine_row (FpRow t c a e p n) ->
  exists s', storage_flight_plan_set t (Some c) (Some a) e p n s =
      Ret (if t <? 0 then SCH_ST_ERROR else SCH_ST_OK, s') /\
    sql_ok s' vars (if t <? 0 then plan else <[t := FpRow t c a e p n]> plan).
Proof.
  intros Hs Hf. unfold storage_flight_plan_set. cbn [issome negb]. rewrite !orb_false_r.
  destruct (t <? 0) eqn:Et; [by exists s|]. destruct Hs as (Hdb & Hop & Hfp & Hv & (l & El & Hn & Hfl & ->)).
  unfold storage_flight_plan_set_st, bind, get. rewrite Hfp. cbn [is_null deref ret fp_cmd fp_args default].
  pose proof Hf as ((H1 & H2 & H3 & H4) & H5 & H6). cbn in H1, H2, H3, H4, H5, H6.
  destruct (exec_step s _ _ Hdb (fp_set_means DAT_TABLE_FP eq_refl (FpRow t c a e p n) n (Some c) (Some a) H1 H2 H3 H4 H5 H6 eq_refl))
    as (now & d' & Hx).
  { unfold stmt_fine, fp_set_stmt, expr_fine. cbn [forallb row_time row_cmd row_args row_executions row_period row_node].
    rewrite !int_fine_ok by done. destruct H5 as [_ ->], H6 as [_ ->]. reflexivity. }
  destruct (Hx _ _ (run_fp_set now _ _ l (FpRow t c a e p n) El)) as [E Ec]. exists (set_disc d' s). split; [exact E|].
  unfold sql_ok. cbn [db storage_is_open fp_table disc set_disc]. rewrite Ec. splits; try done.
  - by apply vars_other.
  - set (x := (next_rowid (map plan_line l), FpRow t c a e p n)).
    exists (drop_key line_time t l ++ [x]). rewrite lookup_insert_eq. split; [done|].
    split; [exact (NoDup_put line_time x l Hn)|]. split.
    + apply Forall_app. split; [|by constructor; [|constructor]].
      rewrite Forall_forall in *. intros y [Hy _]%elem_drop_key. by apply Hfl.
    + symmetry. exact (keyed_put line_time snd x l).
Qed.

Lemma column_text_at s (row : list cell) j x t : zlookup row j = Some x -> sqlite3_column_text x = Some t ->
  (let! x := arr_get row j in ret (sqlite3_column_text x)) s = Ret (Some t, s).
Proof. intros E Et. rewrite (bind_step _ _ _ _ _ (arr_get_Some _ _ _ _ E)). unfold ret. by rewrite Et. Qed.
Lemma atoi_print s z : INT_MIN <= z <= INT_MAX -> atoi (Some (print_dec z)) s = Ret (z, s).
Proof. intros Hz. unfold atoi, ret. rewrite skip_space_dec, scan_dec_print by done. by rewrite i32_of_id. Qed.

Lemma read_entry_ok s x text : rows text s = Ret ((SQLITE_OK, [plan_cells x]), s) -> fine_row x ->
  read_entry text s = Ret ((SCH_ST_OK, Some (row_entry x)), s).
Proof.
  intros E ((H1 & H2 & H3 & H4) & _). unfold read_entry. rewrite (bind_step _ _ _ _ _ E). cbv beta iota zeta.
  set (row := plan_cells x). change row with (plan_cells x) at 1. cbn [plan_cells]. fold (plan_cells x). fold row.
  rewrite (bind_step _ _ _ _ _ (column_text_at s row 0 _ _ eq_refl (law_column_text_int _))).
  rewrite (bind_step _ _ _ _ _ (atoi_print s _ H1)).
  rewrite (bind_step _ _ _ _ _ (column_text_at s row 1 _ _ eq_refl (law_column_text _))). unfold strdup at 1, bind at 1, ret at 1.
  rewrite (bind_step _ _ _ _ _ (column_text_at s row 2 _ _ eq_refl (law_column_text _))). unfold strdup at 1, bind at 1, ret at 1.
  rewrite (bind_step _ _ _ _ _ (column_text_at s row 3 _ _ eq_refl (law_column_text_int _))).
  rewrite (bind_step _ _ _ _ _ (atoi_print s _ H2)).
  rewrite (bind_step _ _ _ _ _ (column_text_at s row 4 _ _ eq_refl (law_column_text_int _))).
  rewrite (bind_step _ _ _ _ _ (atoi_print s _ H3)).
  rewrite (bind_step _ _ _ _ _ (column_text_at s row 5 _ _ eq_refl (law_column_text_int _))).
  by rewrite (bind_step _ _ _ _ _ (atoi_print s _ H4)).
Qed.

Lemma fine_lookup l k x : Forall (fun x => fine_row (snd x)) l -> plan_of l !! k = Some x -> fine_row x /\ row_time x = k.
Proof.
  intros Hf Hk. unfold plan_of, keyed in Hk. apply elem_of_list_to_map_2 in Hk.
  apply list_elem_of_fmap in Hk as ((i & y) & [= -> ->] & Hin). rewrite Forall_forall in Hf. split; [by apply (Hf _ Hin)|done].
Qed.

Lemma fp_get_args_ok s vars plan t : sql_ok s vars plan -> INT_MIN <= t <= INT_MAX ->
  storage_flight_plan_get_args t s =
    Ret (match plan !! t with Some x => (SCH_ST_OK, Some (row_out x)) | None => (SCH_ST_ERROR, None) end, s).
Proof.
  intros (Hdb & Hop & Hfp & Hv & (l & El & Hn & Hfl & ->)) Ht. unfold storage_flight_plan_get_args, storage_flight_plan_get_st.
  unfold bind at 2, get. cbv beta iota. unfold bind at 1. rewrite Hfp. cbn [is_null]. unfold bind at 1. cbn [deref]. unfold ret at 1.
  pose proof (rows_step s _ _ _ _ _ _ Hdb (fp_get_means DAT_TABLE_FP eq_refl t Ht)
    ltac:(unfold stmt_fine, cond_fine; cbn [cond_value]; rewrite int_fine_ok by done; reflexivity) (run_fp_get [] _ _ l t El Hn)) as Er.
  destruct (plan_of l !! t) as [x|] eqn:Ex.
  - rewrite (read_entry_ok s x _ Er (proj1 (fine_lookup l t x Hfl Ex))). by destruct x.
  - unfold read_entry. rewrite (bind_step _ _ _ _ _ Er). done.
Qed.

Lemma fp_delete_ok s vars plan t : sql_ok s vars plan -> INT_MIN <= t <= INT_MAX ->
  exists s', storage_flight_plan_delete_row t s = Ret (SCH_ST_OK, s') /\ sql_ok s' vars (delete t plan).
Proof.
  intros (Hdb & Hop & Hfp & Hv & (l & El & Hn & Hfl & ->)) Ht. unfold storage_flight_plan_delete_row, bind, get.
  rewrite Hfp. cbn [is_null deref ret].
  destruct (exec_step s _ _ Hdb (fp_delete_means DAT_TABLE_FP eq_refl t Ht)) as (now & d' & Hx).
  { unfold stmt_fine, fp_delete_stmt, cond_fine. cbn [cond_value]. rewrite int_fine_ok by done. reflexivity. }
  destruct (Hx _ _ (run_fp_delete now _ _ l t El)) as [E Ec]. exists (set_disc d' s). split; [exact E|].
  unfold sql_ok. cbn [db storage_is_open fp_table disc set_disc]. rewrite Ec. splits; try done; [by apply vars_other|].
  exists (drop_key line_time t l). rewrite lookup_insert_eq. split; [done|]. split; [by apply NoDup_drop_key|]. split.
  - rewrite Forall_forall in *. intros y [Hy _]%elem_drop_key. by apply Hfl.
  - symmetry. apply keyed_drop.
Qed.

Lemma create_step s text t cols : db s = true -> means text (CreateTable t cols) -> stmt_fine (CreateTable t cols) = true ->
  exists d', exec_rc text s = Ret (SCH_ST_OK, set_disc d' s) /\
    contents d' = match contents (disc s) !! t with Some _ => contents (disc s) | None => <[t := Table cols []]> (contents (disc s)) end.
Proof.
  intros Hdb Hm Hf. destruct (exec_step s _ _ Hdb Hm Hf) as (now & d' & Hx). exists d'. by apply (Hx _ []).
Qed.

Lemma fp_reset_ok s vars plan : sql_ok s vars plan ->
  exists s', storage_flight_plan_reset s = Ret (SCH_ST_OK, s') /\ sql_ok s' vars ∅.
Proof.
  intros (Hdb & Hop & Hfp & Hv & _). unfold storage_flight_plan_reset. unfold bind at 1, get at 1. rewrite Hfp. cbn [is_null].
  unfold bind at 1. cbn [deref ret]. unfold storage_table_flight_plan_init.
  destruct (exec_step s _ _ Hdb (drop_means DAT_TABLE_FP eq_refl) eq_refl) as (now & d1 & Hx).
  destruct (Hx _ [] ltac:(unfold run; by rewrite orb_true_r)) as [E1 Ec1]. clear Hx.
  rewrite (bind_step _ _ _ _ _ E1). change (negb (SCH_ST_OK =? SCH_ST_OK)) with false. cbv iota.
  destruct (create_step (set_disc d1 s) _ _ _ Hdb (create_fp_means DAT_TABLE_FP eq_refl) eq_refl) as (d2 & E2 & Ec2).
  rewrite (bind_step _ _ _ _ _ E2). change (negb (SCH_ST_OK =? SCH_ST_OK)) with false. cbv iota.
  unfold bind, get. cbn [fp_table set_disc]. rewrite Hfp. eexists. split; [reflexivity|].
  unfold sql_ok. cbn [db storage_is_open fp_table disc set_disc set_fp_table]. cbn [disc set_disc] in Ec2.
  rewrite Ec1, lookup_delete_eq in Ec2. rewrite Ec2. splits; try done.
  - apply vars_other; [done|]. by apply vars_dropped.
  - exists []. rewrite lookup_insert_eq. splits; [done|constructor|constructor|done].
Qed.
End state.

(** ** A start of the program on the same disc *)
Section restart.
Context {Db : Type} `{SqliteLaws Db}.
Implicit Types s : sql_state Db.

(** The storage calls of [dat_repo_init], with the static variables as the
    program has them when it starts. *)
Definition restart : M (sql_state Db) Z :=
  modify (fun s => sql_boot (disc s)) ;!
  storage_init db_file ;!
  storage_table_status_init DAT_TABLE_STATUS dat_status_last_var false ;!
  storage_table_payload_init (Some DAT_TABLE_DATA) (Some data_map) last_sensor false ;!
  storage_table_flight_plan_init DAT_TABLE_FP SCH_FP_MAX_ENTRIES false.

(** A database without the tables, or with those the back end made. *)
Definition tables_ok (c : database) (vars : gmap Z Z) (plan : gmap Z fp_row) : Prop :=
  (c !! DAT_TABLE_STATUS = None /\ vars = ∅ \/ holds_vars c vars) /\
  (c !! DAT_TABLE_FP = None /\ plan = ∅ \/ holds_plan c plan).

Definition temp_cols : list column :=
  [Column (cs "id") [cs "INTEGER"]; Column (cs "tstz") [cs "TIMESTAMPTZ"]; Column (cs "sat_index") [cs "BIGINT"];
   Column (cs "timestamp") [cs "BIGINT"]; Column (cs "obc_temp_1") [cs "REAL"]].
Definition temp_text : cstring :=
  cs "CREATE TABLE IF NOT EXISTS temp_data(id INTEGER, tstz TIMESTAMPTZ,sat_index BIGINT,timestamp BIGINT,obc_temp_1 REAL)".
Lemma temp_means : means temp_text (CreateTable (cs "temp_data") temp_cols).
Proof. left. vm_compute. reflexivity. Qed.

Lemma status_created (c c' : database) vars :
  (c !! DAT_TABLE_STATUS = None /\ vars = ∅ \/ holds_vars c vars) ->
  c' = match c !! DAT_TABLE_STATUS with Some _ => c | None => <[DAT_TABLE_STATUS := Table status_cols []]> c end ->
  holds_vars c' vars.
Proof.
  intros [[E ->]|Hv] ->.
  - rewrite E. exists []. rewrite lookup_insert_eq. splits; [done|constructor|constructor|done].
  - pose proof Hv as (l & E & _). by rewrite E.
Qed.
Lemma plan_created (c c' : database) plan :
  (c !! DAT_TABLE_FP = None /\ plan = ∅ \/ holds_plan c plan) ->
  c' = match c !! DAT_TABLE_FP with Some _ => c | None => <[DAT_TABLE_FP := Table fp_cols []]> c end ->
  holds_plan c' plan.
Proof.
  intros [[E ->]|Hp] ->.
  - rewrite E. exists []. rewrite lookup_insert_eq. splits; [done|constructor|constructor|done].
  - pose proof Hp as (l & E & _). by rewrite E.
Qed.
(** Creating another table. *)
Lemma tables_keep (c c' : database) (t : cstring) cols vars plan : t <> DAT_TABLE_STATUS -> t <> DAT_TABLE_FP ->
  c' = match c !! t with Some _ => c | None => <[t := Table cols []]> c end ->
  holds_vars c vars -> (c !! DAT_TABLE_FP = None /\ plan = ∅ \/ holds_plan c plan) ->
  holds_vars c' vars /\ (c' !! DAT_TABLE_FP = None /\ plan = ∅ \/ holds_plan c' plan).
Proof.
  intros H1 H2 -> Hv Hp. destruct (c !! t); [done|]. split; [by apply vars_other|].
  destruct Hp as [[E ->]|Hp]; [left|right; by apply plan_other]. by rewrite lookup_insert_ne.
Qed.

Lemma sql_restart_ok s vars plan : tables_ok (contents (disc s)) vars plan ->
  exists s', restart s = Ret (SCH_ST_OK, s') /\ sql_ok s' vars plan.
Proof.
  intros [Hv Hp]. unfold restart. unfold bind at 1, modify at 1.
  destruct (law_open (disc s)) as (d0 & E0 & Ec0).
  assert (storage_init db_file (sql_boot (disc s)) = Ret (SCH_ST_OK, set_db true true d0 (sql_boot (disc s)))) as E1.
  { unfold storage_init, bind, get. cbn [db sql_boot disc]. by rewrite E0. }
  rewrite (bind_step _ _ _ _ _ E1). set (s1 := set_db _ _ _ _).
  destruct (create_step s1 _ _ _ eq_refl (create_status_means DAT_TABLE_STATUS eq_refl) eq_refl) as (d1 & E2 & Ec1).
  assert (storage_table_status_init DAT_TABLE_STATUS dat_status_last_var false s1 = Ret (SCH_ST_OK, set_disc d1 s1)) as E2'
    by exact E2.
  rewrite (bind_step _ _ _ _ _ E2').
  set (s2 := set_disc d1 s1). cbn [disc s1 set_db] in Ec1. rewrite Ec0 in Ec1.
  pose proof (status_created _ _ _ Hv Ec1) as Hv1.
  assert (contents d1 !! DAT_TABLE_FP = None /\ plan = ∅ \/ holds_plan (contents d1) plan) as Hp1.
  { rewrite Ec1. destruct (contents (disc s) !! DAT_TABLE_STATUS); [done|].
    destruct Hp as [[E ->]|Hp]; [left; by rewrite lookup_insert_ne|right; by apply plan_other]. }
  (** the payload table *)
  destruct (law_exec d1 temp_text _ temp_means eq_refl) as (now & d2 & Hx).
  destruct (Hx _ _ [] eq_refl) as [E3 Ec2].
  destruct (tables_keep _ _ (cs "temp_data") temp_cols _ _ ltac:(done) ltac:(done) Ec2 Hv1 Hp1) as [Hv2 Hp2].
  assert (storage_table_payload_init (Some DAT_TABLE_DATA) (Some data_map) last_sensor false s2 =
    Ret (SCH_ST_OK, set_payloads last_sensor data_map DAT_TABLE_DATA (set_disc d2 s2))) as E4.
  { unfold storage_table_payload_init. cbv iota. rewrite (bind_step (ret tt) _ s2 _ _ eq_refl).
    change (range last_sensor) with [0]. cbn [for_ret].
    assert (exec temp_text s2 = Ret (SQLITE_OK, set_disc d2 s2)) as Ee.
    { unfold exec, bind, get. change (db s2) with true. cbn [negb]. change (disc s2) with d1. by rewrite E3. }
    assert (create_payload_text (DataMap (cs "temp_data") sizeof_temp_data dat_drp_idx_temp dat_drp_ack_temp
              (cs "%u %u %f") (cs "sat_index timestamp obc_temp_1")) s2 = Ret (temp_text, s2)) as Et by reflexivity.
    change (arr_get data_map 0) with (ret (S := sql_state Db) (DataMap (cs "temp_data") sizeof_temp_data dat_drp_idx_temp dat_drp_ack_temp
              (cs "%u %u %f") (cs "sat_index timestamp obc_temp_1"))).
    unfold bind at 1 2 3, ret at 1. unfold bind at 1. rewrite Et. unfold bind at 1. rewrite Ee. reflexivity. }
  rewrite (bind_step _ _ _ _ _ E4). set (s3 := set_payloads _ _ _ _).
  destruct (create_step s3 _ _ _ eq_refl (create_fp_means DAT_TABLE_FP eq_refl) eq_refl) as (d3 & E5 & Ec3).
  unfold storage_table_flight_plan_init. cbv iota. rewrite (bind_step (ret SCH_ST_OK) _ s3 _ _ eq_refl).
  change (negb (SCH_ST_OK =? SCH_ST_OK)) with false. cbv iota. rewrite (bind_step _ _ _ _ _ E5).
  eexists. split; [reflexivity|]. unfold sql_ok. cbn [db storage_is_open fp_table disc set_disc set_fp_table]. splits; try done.
  - rewrite Ec3. change (disc s3) with d2. destruct (contents d2 !! DAT_TABLE_FP); [done|]. by apply vars_other.
  - apply (plan_created _ _ _ Hp2). exact Ec3.
Qed.
End restart.
End SqlStoreLaws.

(** ** Theorems *)
Module SqliteTheorems.
Import Sql SqlLaws SqlStore SqlStoreLaws RepoData RepoDataLaws.

Section history.
Context {Db : Type} `{SqliteLaws Db}.
Implicit Types s : sql_state Db.

(** Calls on the back end, and a start of the program anywhere between them. *)
Inductive sql_call :=
  | CSetVar (i v : Z) | CGetVar (i : Z)
  | CSet (t : Z) (c a : cstring) (e p n : Z) | CGet (t : Z) | CDelete (t : Z) | CReset | CRestart.
Inductive outcome := Code (rc : Z) | Value (rc : Z) (v : option Z) | Entry (rc : Z) (e : option fp_out).

Definition call_fine (c : sql_call) : Prop :=
  match c with
  | CSetVar i v => INT_MIN <= i <= INT_MAX /\ 0 <= v < 2 ^ 32
  | CGetVar i => INT_MIN <= i <= INT_MAX
  | CSet t c a e p n => fine_row (FpRow t c a e p n)
  | CGet t | CDelete t => INT_MIN <= t <= INT_MAX
  | CReset | CRestart => True
  end.

Definition run_call (c : sql_call) : M (sql_state Db) outcome :=
  match c with
  | CSetVar i v => let! rc := storage_status_set_value_idx i v DAT_TABLE_STATUS in ret (Code rc)
  | CGetVar i => let! '(rc, v) := storage_status_get_value_idx i DAT_TABLE_STATUS in ret (Value rc v)
  | CSet t c a e p n => let! rc := storage_flight_plan_set t (Some c) (Some a) e p n in ret (Code rc)
  | CGet t => let! '(rc, e) := storage_flight_plan_get_args t in ret (Entry rc e)
  | CDelete t => let! rc := storage_flight_plan_delete_row t in ret (Code rc)
  | CReset => let! rc := storage_flight_plan_reset in ret (Code rc)
  | CRestart => let! rc := restart in ret (Code rc)
  end.

(** The same calls on a map of variables and a map of entries by time. *)
Definition maps : Type := gmap Z Z * gmap Z fp_row.
Definition spec_call (c : sql_call) (m : maps) : outcome * maps :=
  let '(vars, plan) := m in
  match c with
  | CSetVar i v => (Code SCH_ST_OK, (<[i := v]> vars, plan))
  | CGetVar i => (match vars !! i with Some v => Value SCH_ST_OK (Some v) | None => Value SCH_ST_ERROR None end, m)
  | CSet t c a e p n => if t <? 0 then (Code SCH_ST_ERROR, m) else (Code SCH_ST_OK, (vars, <[t := FpRow t c a e p n]> plan))
  | CGet t => (match plan !! t with Some x => Entry SCH_ST_OK (Some (row_out x)) | None => Entry SCH_ST_ERROR None end, m)
  | CDelete t => (Code SCH_ST_OK, (vars, delete t plan))
  | CReset => (Code SCH_ST_OK, (vars, ∅))
  | CRestart => (Code SCH_ST_OK, m)
  end.

Fixpoint run_calls (cs : list sql_call) : M (sql_state Db) (list outcome) :=
  match cs with
  | [] => ret []
  | c :: cs => let! o := run_call c in let! os := run_calls cs in ret (o :: os)
  end.
Fixpoint spec_calls (cs : list sql_call) (m : maps) : list outcome * maps :=
  match cs with
  | [] => ([], m)
  | c :: cs => let '(o, m) := spec_call c m in let '(os, m) := spec_calls cs m in (o :: os, m)
  end.

Lemma run_call_ok s m c : sql_ok s (fst m) (snd m) -> call_fine c ->
  exists s', run_call c s = Ret (fst (spec_call c m), s') /\
    sql_ok s' (fst (snd (spec_call c m))) (snd (snd (spec_call c m))).
Proof.
  intros Hs Hc. destruct m as [vars plan]. cbn [fst snd] in Hs. destruct c as [i v|i|t c a e p n|t|t| |]; cbn [run_call spec_call call_fine] in *.
  - destruct Hc as [Hi Hv]. destruct (status_set_ok s vars plan i v Hs Hi Hv) as (s' & E & Hs').
    exists s'. by rewrite (bind_step _ _ _ _ _ E).
  - exists s. rewrite (bind_step _ _ _ _ _ (status_get_ok s vars plan i Hs Hc)). by destruct (vars !! i).
  - destruct (fp_set_ok s vars plan t c a e p n Hs Hc) as (s' & E & Hs'). exists s'. rewrite (bind_step _ _ _ _ _ E).
    by destruct (t <? 0).
  - exists s. rewrite (bind_step _ _ _ _ _ (fp_get_args_ok s vars plan t Hs Hc)). by destruct (plan !! t).
  - destruct (fp_delete_ok s vars plan t Hs Hc) as (s' & E & Hs'). exists s'. by rewrite (bind_step _ _ _ _ _ E).
  - destruct (fp_reset_ok s vars plan Hs) as (s' & E & Hs'). exists s'. by rewrite (bind_step _ _ _ _ _ E).
  - destruct Hs as (_ & _ & _ & Hv & Hp).
    destruct (sql_restart_ok s vars plan (conj (or_intror Hv) (or_intror Hp))) as (s' & E & Hs').
    exists s'. by rewrite (bind_step _ _ _ _ _ E).
Qed.


(** The first start, on a file without tables. *)
Theorem sqlite_first_start s : contents (disc s) = ∅ ->
  exists s', restart s = Ret (SCH_ST_OK, s') /\ sql_ok s' ∅ ∅.
Proof.
  intros E. apply sql_restart_ok. rewrite E. split; left; (split; [apply lookup_empty|done]).
Qed.
End history.

(** *** The data repository on this back end *)
Section repo.
Context {Db : Type} `{SqliteLaws Db}.
#[local] Instance sqlite_repo : Storage (sql_state Db) := sqlite_storage db_file.
Implicit Types d : dat (sql_state Db).

(** The stored maps, with [q] in the counter of the flight plan. *)
Definition repo_ok d (vars : gmap Z Z) (plan : gmap Z fp_row) : Prop := sql_ok (store d) vars plan.

Lemma st_run {A} (m : M (sql_state Db) A) d a s' : m (store d) = Ret (a, s') -> st m d = Ret (a, set_store s' d).
Proof. apply (zoom_step store_lens). Qed.

Lemma get_queue d vars plan q : repo_ok d vars plan -> vars !! dat_fpl_queue = Some (u32_of q) -> INT_MIN <= q <= INT_MAX ->
  dat_get_system_var dat_fpl_queue d = Ret (q, d).
Proof.
  intros Hd Hq Hr. unfold dat_get_system_var, dat_get_status_var.
  pose proof (status_get_ok (store d) vars plan dat_fpl_queue Hd ltac:(unfold dat_fpl_queue, INT_MIN, INT_MAX; lia)) as E.
  rewrite Hq in E. unfold bind. rewrite (st_run (@Storage.storage_status_get_value_idx _ sqlite_repo dat_fpl_queue) d (SCH_ST_OK, Some (u32_of q)) (store d) E). unfold ret. rewrite i32_of_u32_of, i32_of_id by done.
  by destruct d.
Qed.

Lemma set_queue d vars plan q : repo_ok d vars plan ->
  exists d', dat_set_system_var dat_fpl_queue q d = Ret (SCH_ST_OK, d') /\ repo_ok d' (<[dat_fpl_queue := u32_of q]> vars) plan.
Proof.
  intros Hd. destruct (status_set_ok (store d) vars plan dat_fpl_queue (u32_of q) Hd
    ltac:(unfold dat_fpl_queue, INT_MIN, INT_MAX; lia) (u32_of_range q)) as (s' & E & Hs').
  exists (set_store s' d). split; [exact (st_run (@Storage.storage_status_set_value_idx _ sqlite_repo dat_fpl_queue (u32_of q)) d SCH_ST_OK s' E)|exact Hs'].
Qed.

(** C13. The counter of the flight plan on SQLite counts calls, not entries:
    [dat_set_fp] adds one also when it replaces the entry of its time, and
    [dat_del_fp] succeeds and takes one off also when there is no entry to
    delete. *)
Theorem sqlite_counter_counts_calls d vars plan q t c a e p :
  repo_ok d vars plan -> vars !! dat_fpl_queue = Some (u32_of q) -> INT_MIN < q < INT_MAX ->
  0 <= t -> fine_row (FpRow t c a e p SCH_COMM_NODE) ->
  (exists d', dat_set_fp t (Some c) (Some a) e p d = Ret (SCH_ST_OK, d') /\
     repo_ok d' (<[dat_fpl_queue := u32_of (q + 1)]> vars) (<[t := FpRow t c a e p SCH_COMM_NODE]> plan) /\
     (is_Some (plan !! t) -> size (<[t := FpRow t c a e p SCH_COMM_NODE]> plan) = size plan)) /\
  (exists d', dat_del_fp t d = Ret (SCH_ST_OK, d') /\
     repo_ok d' (<[dat_fpl_queue := u32_of (q - 1)]> vars) (delete t plan) /\
     (plan !! t = None -> delete t plan = plan)).
Proof.
  intros Hd Hq Hr Ht Hf. pose proof (get_queue d vars plan q Hd Hq ltac:(lia)) as Eq. split.
  - unfold dat_set_fp. rewrite (bind_step _ _ _ _ _ Eq). unfold set_fp_store.
    destruct (fp_set_ok (store d) vars plan t c a e p SCH_COMM_NODE Hd Hf) as (s' & E & Hs').
    rewrite (proj2 (Z.ltb_ge t 0)) in E, Hs' by lia.
    rewrite (bind_step _ _ _ _ _ (st_run (@Storage.storage_flight_plan_set _ sqlite_repo t (Some c) (Some a) e p SCH_COMM_NODE) d SCH_ST_OK s' E)).
    unfold set_fp_count. rewrite Z.eqb_refl.
    rewrite (bind_step _ _ _ _ _ (cint_ok (q + 1) _ ltac:(unfold INT_MIN, INT_MAX in *; lia))).
    destruct (set_queue (set_store s' d) vars _ (q + 1) Hs') as (d' & E' & Hd'). rewrite (bind_step _ _ _ _ _ E').
    exists d'. split; [done|]. split; [done|]. intros Hin. by rewrite map_size_insert_Some.
  - unfold dat_del_fp. rewrite (bind_step _ _ _ _ _ Eq).
    destruct Hf as [(Hti & _) _]. cbn in Hti.
    destruct (fp_delete_ok (store d) vars plan t Hd Hti) as (s' & E & Hs').
    rewrite (bind_step _ _ _ _ _ (st_run (@Storage.storage_flight_plan_delete_row _ sqlite_repo t) d SCH_ST_OK s' E)).
    rewrite Z.eqb_refl.
    rewrite (bind_step _ _ _ _ _ (cint_ok (q - 1) _ ltac:(unfold INT_MIN, INT_MAX in *; lia))).
    destruct (set_queue (set_store s' d) vars _ (q - 1) Hs') as (d' & E' & Hd'). rewrite (bind_step _ _ _ _ _ E').
    exists d'. split; [done|]. split; [done|]. apply delete_id.
Qed.

(** A status variable that was never written, as every one after the first
    start, is read from an uninitialised local variable. *)
Theorem sqlite_unwritten_var d vars plan i : repo_ok d vars plan -> INT_MIN <= i <= INT_MAX -> vars !! i = None ->
  dat_get_system_var i d = Fault Uninitialized.
Proof.
  intros Hd Hi Hv. unfold dat_get_system_var, dat_get_status_var, bind.
  pose proof (status_get_ok (store d) vars plan i Hd Hi) as E. rewrite Hv in E.
  by rewrite (st_run (@Storage.storage_status_get_value_idx _ sqlite_repo i) d (SCH_ST_ERROR, None) (store d) E).
Qed.

(** With an empty plan, [dat_purge_fp] compares the time of an entry that was
    never read. *)
Theorem sqlite_purge_empty_uninitialized d vars :
  repo_ok d vars ∅ -> INT_MIN <= i32_of (unixtime d) + 1 <= INT_MAX -> dat_purge_fp d = Fault Uninitialized.
Proof.
  intros (Hdb & Hop & Hfp & Hv & (l & El & Hn & Hfl & Hl)) Ht.
  assert (l = []) as ->.
  { destruct l as [|x l]; [done|]. exfalso. symmetry in Hl. unfold plan_of, keyed in Hl. cbn in Hl. by apply insert_non_empty in Hl. }
  unfold dat_purge_fp, dat_get_time, gets. unfold bind at 1. rewrite (bind_step _ _ _ _ _ (cint_ok _ _ Ht)).
  apply bind_fault. change (range SCH_FP_MAX_ENTRIES) with (0 :: seqZ 1 254). cbn [fold_m]. apply bind_fault.
  unfold purge_entry.
  assert (storage_flight_plan_get_idx 0 (store d) = Ret ((SCH_ST_ERROR, None), store d)) as E.
  { unfold storage_flight_plan_get_idx. change (SqlStore.storage_flight_plan_get_idx 0 (store d) = Ret ((SCH_ST_ERROR, None), store d)).
    unfold SqlStore.storage_flight_plan_get_idx. unfold bind at 1, get. rewrite Hfp. cbn [is_null].
    unfold bind at 1. cbn [deref ret]. unfold bind at 1. change (cint (0 + 1) (store d)) with (Ret (1, store d)).
    unfold read_entry.
    by rewrite (bind_step _ _ _ _ _ (rows_step (store d) _ _ _ _ _ _ Hdb (fp_get_idx_means DAT_TABLE_FP eq_refl 1 ltac:(unfold INT_MIN, INT_MAX; lia))
      eq_refl (run_fp_get_idx [] _ _ [] 1 El ltac:(constructor)))). }
  by rewrite (bind_step _ _ _ _ _ (zoom_step store_lens _ d _ _ E)).
Qed.
End repo.

(** *** Concrete histories, on the small SQLite *)
Lemma small_start : exists s, restart (sql_boot (∅ : database)) = Ret (SCH_ST_OK, s) /\ sql_ok s ∅ ∅.
Proof. apply sqlite_first_start. reflexivity. Qed.

Definition demo_calls : list sql_call :=
  [CSet 100 (cs "obc_reset") (cs "1") 1 0 0; CSet 100 (cs "test") (cs "it's late") 3 60 0; CSetVar 5 (2 ^ 32 - 1);
   CDelete 7; CRestart; CGet 100; CGetVar 5; CGetVar 6; CReset; CGet 100].


Lemma sqlite_counter_counts_calls_witness : exists (d d' : dat (sql_state database)) (vars : gmap Z Z),
  @dat_del_fp _ sqlite_repo 100 d = Ret (SCH_ST_OK, d') /\ repo_ok d' (<[dat_fpl_queue := u32_of (0 - 1)]> vars) ∅.
Proof.
  destruct small_start as (s0 & _ & Hok).
  destruct (status_set_ok s0 ∅ ∅ dat_fpl_queue 0 Hok) as (s1 & _ & Hok1);
    [unfold dat_fpl_queue, INT_MIN, INT_MAX; lia|lia|].
  set (d := Dat s1 0 true (StMachine 0 0 0 0 0 0)).
  destruct (sqlite_counter_counts_calls d (<[dat_fpl_queue := 0]> ∅) ∅ 0 100 (cs "test") (cs "1") 1 0) as (_ & d' & E & Hd & Hn).
  - exact Hok1.
  - apply lookup_insert_eq.
  - unfold INT_MIN, INT_MAX. lia.
  - lia.
  - repeat constructor; unfold INT_MIN, INT_MAX, SCH_COMM_NODE; cbn; lia.
  - exists d, d', (<[dat_fpl_queue := 0]> ∅). split; [exact E|]. rewrite Hn in Hd by (apply lookup_empty). exact Hd.
Defined.

(** A sample of [temp_data] is stored as SQL text and read back; a [float] keeps
    six decimals, so a small one is read back as zero. *)
Definition temp_sample (index time temp : Z) : list Z := le_bytes 4 index ++ le_bytes 4 time ++ le_bytes 4 temp.
Definition after_store (data : list Z) : res (Z * option (list Z)) :=
  let m :=
    restart ;! SqlStore.storage_payload_set_data 0 3 (Some data) (zlookup data_map 0) ;!
    SqlStore.storage_payload_get_data 0 3 (zlookup data_map 0) in
  match m (sql_boot (∅ : database)) with Ret (r, _) => Ret r | Fault f => Fault f end.

Example sample_stored : after_store (temp_sample 7 (2 ^ 32 - 2) 0xC1CC0000) =
  Ret (SCH_ST_OK, Some (temp_sample 7 (2 ^ 32 - 2) 0xC1CC0000)).
Proof. vm_compute. reflexivity. Qed.
Example small_float_lost : after_store (temp_sample 7 8 0x33D6BF95) = Ret (SCH_ST_OK, Some (temp_sample 7 8 0)).
Proof. vm_compute. reflexivity. Qed.

(** A double quote in a parameter ends the string it is written in: the text
    is no statement. *)
Example quote_in_args : lex (fp_set_text DAT_TABLE_FP (FpEntry 5 1 0 0 None None) (cs "test") [chr_dq]) = None.
Proof. vm_compute. reflexivity. Qed.
End SqliteTheorems.
