(* ===== verification/CmdFP.v ===== *)
(** * Flight plan commands

    [src/system/cmdFP.c]: the handlers that add, delete, show, reset and purge
    flight plan entries, with the calendar arithmetic of [mktime] (the
    satellite runs in UTC). *)
From S2P Require Import Prelude CStr Config Storage StorageRam Schema RepoData.

(** ** Parameters of a handler

    A handler receives the buffer of [cmd_t.params], [None] for a null
    pointer, and reads it as a C string. *)
Definition scan_params {T} (params : option (list Z)) (fmt : cstring) : M T (option (cstring * Z * list scanval)) :=
  match params with
  | None => ret None
  | Some buf =>
      let! s := lift (cstr_of_buf buf) in
      let! '(n, vals) := lift (sscanf s fmt) in
      ret (Some (s, n, vals))
  end.

(** The parameters of a handler as text. *)
Definition params_of (vs : list scanval) : option (list Z) := Some (with_nul (vals_text vs)).

(** A parameter text with one field per conversion. *)
Lemma scan_kinds {T} ks vs (s : T) :
  Forall2 kind_val ks vs ->
  scan_params (Some (with_nul (vals_text vs))) (kinds_fmt ks) s = Ret (Some (vals_text vs, zlength vs, vs), s).
Proof.
  intros Hk. unfold scan_params, bind, lift, with_nul.
  rewrite cstr_of_buf_nul by (by eapply is_cstr_vals_text). unfold sscanf. by rewrite scanf_kinds.
Qed.

(** [%s] into [char dst[size]]. *)
Definition scan_into {T} (w : cstring) (size : Z) : M T unit :=
  if size <? strlen w + 1 then fail OutOfBounds else ret tt.

(** [memset(args, 0, n); strncpy(args, src, n)], then [args] read as a string. *)
Definition copy_string {T} (src : cstring) (n : Z) : M T cstring :=
  lift (cstr_of_buf (strncpy_bytes src n)).

(** ** [mktime] *)
Module Calendar.

(** Days from 1970-01-01 to the given day of the Gregorian calendar, months
    from 1 to 12. *)
Definition days_from_civil (y m d : Z) : Z :=
  let y := if m <=? 2 then y - 1 else y in
  let era := y / 400 in
  let yoe := y mod 400 in
  let mp := (m + 9) mod 12 in
  let doy := (153 * mp + 2) / 5 + d - 1 in
  let doe := yoe * 365 + yoe / 4 - yoe / 100 + doy in
  era * 146097 + doe - 719468.

(** [struct tm] fields, normalised as [mktime] does in UTC. *)
Definition mktime (tm_mday tm_mon tm_year tm_hour tm_min tm_sec : Z) : Z :=
  let y := tm_year + 1900 + tm_mon / 12 in
  let m := tm_mon mod 12 + 1 in
  (days_from_civil y m 1 + tm_mday - 1) * 86400 + tm_hour * 3600 + tm_min * 60 + tm_sec.

Example epoch : mktime 1 0 70 0 0 0 = 0. Proof. reflexivity. Qed.
Example date_2017 : mktime 23 5 117 3 59 0 = 1498190340. Proof. reflexivity. Qed.
Example date_2038 : mktime 19 0 138 3 14 7 = 2147483647. Proof. reflexivity. Qed.
Example date_2000 : mktime 29 1 100 12 0 0 = 951825600. Proof. reflexivity. Qed.
(** Day 32 of December is January 1st. *)
Example date_norm : mktime 32 11 99 0 0 0 = mktime 1 0 100 0 0 0. Proof. reflexivity. Qed.

End Calendar.

Module CmdFP.
Import RepoData Calendar.

Section handlers.
Context {S : Type} `{Storage S}.

Definition rc_cmd (rc : Z) : Z := if rc =? 0 then CMD_OK else CMD_ERROR.

Definition fp_set (fmt : cstring) (params : option (list Z)) (nparams : Z) : M (dat S) Z :=
  let! r := scan_params params fmt in
  match r with
  | None => ret CMD_SYNTAX_ERROR
  | Some (text, n, vals) =>
      if negb (n =? nparams - 1) then ret CMD_SYNTAX_ERROR else
      match vals with
      | [VInt day; VInt month; VInt year; VInt hour; VInt min; VInt sec;
         VInt executions; VInt period; VStr command; VPos next] =>
          scan_into command SCH_CMD_MAX_STR_PARAMS ;!
          let! tm_mon := cint (month - 1) in
          let! tm_year := cint (year - 1900) in
          let unixtime := mktime day tm_mon tm_year hour min sec in
          let! args := copy_string (drop (Z.to_nat next) text) SCH_CMD_MAX_STR_PARAMS in
          let! rc := dat_set_fp (i32_of unixtime) (Some command) (Some args) executions period in
          ret (rc_cmd rc)
      | _ => fail Uninitialized
      end
  end.

Definition fp_set_unix (fmt : cstring) (params : option (list Z)) (nparams : Z) : M (dat S) Z :=
  let! r := scan_params params fmt in
  match r with
  | None => ret CMD_SYNTAX_ERROR
  | Some (text, n, vals) =>
      if negb (n =? nparams - 1) then ret CMD_SYNTAX_ERROR else
      match vals with
      | [VInt unixtime; VInt executions; VInt periodical; VStr command; VPos next] =>
          scan_into command SCH_CMD_MAX_STR_PARAMS ;!
          let! args := copy_string (drop (Z.to_nat next) text) SCH_CMD_MAX_STR_PARAMS in
          let! rc := dat_set_fp unixtime (Some command) (Some args) executions periodical in
          ret (rc_cmd rc)
      | _ => fail Uninitialized
      end
  end.

Definition fp_set_dt (fmt : cstring) (params : option (list Z)) (nparams : Z) : M (dat S) Z :=
  let! r := scan_params params fmt in
  match r with
  | None => ret CMD_SYNTAX_ERROR
  | Some (text, n, vals) =>
      if negb (n =? nparams - 1) then ret CMD_SYNTAX_ERROR else
      match vals with
      | [VInt seconds; VInt executions; VInt periodical; VStr command; VPos next] =>
          scan_into command SCH_CMD_MAX_STR_PARAMS ;!
          let! current := dat_get_time in
          let! args := copy_string (drop (Z.to_nat next) text) SCH_CMD_MAX_STR_PARAMS in
          let! when := cint (i32_of current + seconds) in
          let! rc := dat_set_fp when (Some command) (Some args) executions periodical in
          ret (rc_cmd rc)
      | _ => fail Uninitialized
      end
  end.

Definition fp_delete (fmt : cstring) (params : option (list Z)) (nparams : Z) : M (dat S) Z :=
  let! r := scan_params params fmt in
  match r with
  | None => ret CMD_SYNTAX_ERROR
  | Some (_, n, vals) =>
      if negb (n =? nparams) then ret CMD_SYNTAX_ERROR else
      match vals with
      | [VInt day; VInt month; VInt year; VInt hour; VInt min; VInt sec] =>
          let! tm_mon := cint (month - 1) in
          let! tm_year := cint (year - 1900) in
          let unixtime := mktime day tm_mon tm_year hour min sec in
          let! rc := dat_del_fp (i32_of unixtime) in
          ret (rc_cmd rc)
      | _ => fail Uninitialized
      end
  end.

Definition fp_delete_unix (fmt : cstring) (params : option (list Z)) (nparams : Z) : M (dat S) Z :=
  let! r := scan_params params fmt in
  match r with
  | None => ret CMD_SYNTAX_ERROR
  | Some (_, n, vals) =>
      if negb (n =? nparams) then ret CMD_SYNTAX_ERROR else
      match vals with
      | [VInt tmptime] => let! rc := dat_del_fp tmptime in ret (rc_cmd rc)
      | _ => fail Uninitialized
      end
  end.

Definition fp_show (fmt : cstring) (params : option (list Z)) (nparams : Z) : M (dat S) Z :=
  let! '(rc, _) := dat_show_fp in ret (rc_cmd rc).

Definition fp_reset (fmt : cstring) (params : option (list Z)) (nparams : Z) : M (dat S) Z :=
  let! rc := dat_reset_fp in ret (rc_cmd rc).

Definition fp_purge (fmt : cstring) (params : option (list Z)) (nparams : Z) : M (dat S) Z :=
  let! rc := dat_purge_fp in ret (rc_cmd rc).

End handlers.

(** The formats the handlers are registered with. *)
Definition fmt_fp_set : cstring := cs "%d %d %d %d %d %d %d %d %s %n".
Definition fmt_fp_set_unix : cstring := cs "%d %d %d %s %n ".
Definition fmt_fp_set_dt : cstring := cs "%d %d %d %s %n".
Definition fmt_fp_delete : cstring := cs "%d %d %d %d %d %d".
Definition fmt_fp_delete_unix : cstring := cs "%d".

End CmdFP.

(** ** Theorems *)
Module CmdFPTheorems.
Import RepoData RepoDataLaws RepoDataTheorems Calendar CmdFP.

(** The text of a parameter string: fields, then the rest of the line. *)
Definition line (vs : list scanval) (rest : cstring) : cstring := vals_text vs ++ tail_text rest.

Lemma scan_line {T} ks vs rest fmt trail (d : T) :
  Forall2 kind_val ks vs -> no_lead rest -> is_cstr rest ->
  fmt = kinds_fmt ks ++ [chr_space; chr_percent; 110] ++ (if trail : bool then [chr_space] else []) ->
  scan_params (Some (with_nul (line vs rest))) fmt d =
    Ret (Some (line vs rest, zlength vs, vs ++ [VPos (strlen (line vs rest) - strlen rest)]), d).
Proof.
  intros Hk Hl Hc ->. unfold scan_params, bind, lift, with_nul.
  rewrite cstr_of_buf_nul.
  - unfold line. by rewrite sscanf_kinds_rest.
  - apply is_cstr_app. split; [by eapply is_cstr_vals_text|].
    destruct rest; [constructor|]. constructor; [unfold chr_space; lia|done].
Qed.

(** The rest of the line, at the position that [%n] stored. *)
Lemma copy_rest {T} vs rest (d : T) :
  is_cstr rest -> strlen rest < SCH_CMD_MAX_STR_PARAMS ->
  copy_string (drop (Z.to_nat (strlen (line vs rest) - strlen rest)) (line vs rest))
    SCH_CMD_MAX_STR_PARAMS d = Ret (rest, d).
Proof.
  intros Hc Hl. unfold line, copy_string, lift.
  assert (exists pre, vals_text vs ++ tail_text rest = pre ++ rest) as [pre ->].
  { destruct rest as [|c rest]; [by exists (vals_text vs); cbn; rewrite !app_nil_r|].
    exists (vals_text vs ++ [chr_space]). by rewrite <- app_assoc. }
  unfold strlen. replace (Z.to_nat (zlength (pre ++ rest) - zlength rest)) with (length pre)
    by (unfold zlength; rewrite length_app; lia).
  rewrite drop_app_length, strncpy_short by done. by rewrite cstr_of_buf_nul.
Qed.

Section theorems.
Context {S : Type} `{StorageLaws S}.
Implicit Types (d : dat S).

(** A command and its arguments that fit the buffers of the handlers. *)
Definition cmd_text_ok (c a : cstring) : Prop :=
  is_word c /\ fits_fp c /\ no_lead a /\ fits_fp a.

Lemma set_fp_reply d t c a e p :
  fp_ok d -> st_room 1 (store d) -> int_ok t -> int_ok e -> int_ok p -> cmd_text_ok c a ->
  exists d', (let! rc := dat_set_fp t (Some c) (Some a) e p in ret (rc_cmd rc)) d =
      Ret (rc_cmd (fst (spec_set t c a e p (st_slots (store d)))), d') /\
    st_slots (store d') = snd (spec_set t c a e p (st_slots (store d))) /\ fp_ok d' /\
    (forall n, st_room (n + 1) (store d) -> st_room n (store d')).
Proof.
  intros Hfp Hroom Ht He Hp (_ & Hc & _ & Ha).
  destruct (dat_set_fp_ok d t c a e p Hfp Hroom Ht He Hp Hc Ha) as (s' & E & Hfp' & Hs & Hr).
  exists (set_store s' d). by rewrite (bind_step _ _ _ _ _ E).
Qed.

(** [fp_set_cmd_unix]: the line [time executions period command args]
    adds exactly that entry to the flight plan: the handler answers [CMD_OK]
    when the time is not negative and the table has a free slot, and
    [CMD_ERROR] with the table unchanged otherwise; the counter follows. *)
Theorem fp_set_unix_adds_entry d t e p c a :
  fp_ok d -> st_room 1 (store d) -> int_ok t -> int_ok e -> int_ok p -> cmd_text_ok c a ->
  exists d', fp_set_unix fmt_fp_set_unix (Some (with_nul (line [VInt t; VInt e; VInt p; VStr c] a))) 5 d =
      Ret (rc_cmd (fst (spec_set t c a e p (st_slots (store d)))), d') /\
    st_slots (store d') = snd (spec_set t c a e p (st_slots (store d))) /\ fp_ok d' /\
    (forall n, st_room (n + 1) (store d) -> st_room n (store d')).
Proof.
  intros Hfp Hroom Ht He Hp Hca. pose proof Hca as (Hw & [Hcs Hcl] & Hl & [Has Hal]).
  unfold fp_set_unix. assert (Forall2 kind_val [KInt; KInt; KInt; KStr] [VInt t; VInt e; VInt p; VStr c]) as Hk
    by (repeat (constructor; [done|]); constructor).
  rewrite (bind_step _ _ _ _ _ (scan_line _ _ a _ true d Hk Hl Has eq_refl)).
  cbn [app negb Z.eqb Z.sub]. change (zlength [VInt t; VInt e; VInt p; VStr c] =? 5 - 1) with true.
  cbn [negb]. unfold bind at 1, scan_into.
  rewrite (proj2 (Z.ltb_ge _ _)) by (unfold SCH_CMD_MAX_STR_NAME, SCH_CMD_MAX_STR_PARAMS in *; lia).
  unfold ret at 1. rewrite (bind_step _ _ _ _ _ (copy_rest _ a d Has ltac:(exact Hal))).
  by apply set_fp_reply.
Qed.

(** [fp_set_cmd_dt] adds the entry at the current time plus the given
    number of seconds. *)
Theorem fp_set_dt_adds_entry d dt e p c a :
  fp_ok d -> st_room 1 (store d) -> int_ok dt -> int_ok e -> int_ok p -> cmd_text_ok c a ->
  0 <= unixtime d <= INT_MAX -> int_ok (unixtime d + dt) ->
  exists d', fp_set_dt fmt_fp_set_dt (Some (with_nul (line [VInt dt; VInt e; VInt p; VStr c] a))) 5 d =
      Ret (rc_cmd (fst (spec_set (unixtime d + dt) c a e p (st_slots (store d)))), d') /\
    st_slots (store d') = snd (spec_set (unixtime d + dt) c a e p (st_slots (store d))) /\ fp_ok d' /\
    (forall n, st_room (n + 1) (store d) -> st_room n (store d')).
Proof.
  intros Hfp Hroom Ht He Hp Hca Hclk Hsum. pose proof Hca as (Hw & [Hcs Hcl] & Hl & [Has Hal]).
  unfold fp_set_dt. assert (Forall2 kind_val [KInt; KInt; KInt; KStr] [VInt dt; VInt e; VInt p; VStr c]) as Hk
    by (repeat (constructor; [done|]); constructor).
  rewrite (bind_step _ _ _ _ _ (scan_line _ _ a _ false d Hk Hl Has eq_refl)).
  cbn [app negb Z.eqb Z.sub]. change (zlength [VInt dt; VInt e; VInt p; VStr c] =? 5 - 1) with true.
  cbn [negb]. unfold bind at 1, scan_into.
  rewrite (proj2 (Z.ltb_ge _ _)) by (unfold SCH_CMD_MAX_STR_NAME, SCH_CMD_MAX_STR_PARAMS in *; lia).
  unfold ret at 1. unfold bind at 1, dat_get_time, gets.
  rewrite (bind_step _ _ _ _ _ (copy_rest _ a d Has ltac:(exact Hal))).
  rewrite i32_of_id by (unfold INT_MIN; lia). unfold bind at 1. rewrite cint_ok by exact Hsum.
  by apply set_fp_reply.
Qed.

(** [fp_set_cmd] with a date adds the entry at the Unix time of that date,
    truncated to 32 bits. *)
Theorem fp_set_date_adds_entry d day month year hour mn sec e p c a :
  fp_ok d -> st_room 1 (store d) -> int_ok e -> int_ok p -> cmd_text_ok c a ->
  int_ok day -> 1 <= month <= 12 -> 1970 <= year <= 9999 -> int_ok hour -> int_ok mn -> int_ok sec ->
  let t := i32_of (mktime day (month - 1) (year - 1900) hour mn sec) in
  exists d', fp_set fmt_fp_set
      (Some (with_nul (line [VInt day; VInt month; VInt year; VInt hour; VInt mn; VInt sec; VInt e; VInt p; VStr c] a))) 10 d =
      Ret (rc_cmd (fst (spec_set t c a e p (st_slots (store d)))), d') /\
    st_slots (store d') = snd (spec_set t c a e p (st_slots (store d))) /\ fp_ok d' /\
    (forall n, st_room (n + 1) (store d) -> st_room n (store d')).
Proof.
  intros Hfp Hroom He Hp Hca Hd Hm Hy Hh Hmn Hs t. pose proof Hca as (Hw & [Hcs Hcl] & Hl & [Has Hal]).
  unfold fp_set. assert (Forall2 kind_val [KInt; KInt; KInt; KInt; KInt; KInt; KInt; KInt; KStr]
    [VInt day; VInt month; VInt year; VInt hour; VInt mn; VInt sec; VInt e; VInt p; VStr c]) as Hk
    by (repeat (constructor; [first [done|cbn; unfold INT_MIN, INT_MAX; lia]|]); constructor).
  rewrite (bind_step _ _ _ _ _ (scan_line _ _ a _ false d Hk Hl Has eq_refl)).
  cbn [app negb Z.eqb Z.sub]. match goal with |- context [negb (?x =? ?y)] => change (x =? y) with true end.
  cbn [negb]. unfold bind at 1, scan_into.
  rewrite (proj2 (Z.ltb_ge _ _)) by (unfold SCH_CMD_MAX_STR_NAME, SCH_CMD_MAX_STR_PARAMS in *; lia).
  unfold ret at 1. unfold bind at 1. rewrite cint_ok by (unfold INT_MIN, INT_MAX; lia).
  unfold bind at 1. rewrite cint_ok by (unfold INT_MIN, INT_MAX; lia).
  rewrite (bind_step _ _ _ _ _ (copy_rest _ a d Has ltac:(exact Hal))). fold t.
  apply set_fp_reply; try done. apply i32_of_range.
Qed.

(** The flight plan commands refuse a missing or malformed line: with null
    parameters, or parameters that do not scan to the number of values the
    command was registered with, they return [CMD_SYNTAX_ERROR] and change
    nothing. *)
Theorem fp_syntax_errors d (params : option (list Z)) (fmt : cstring) (nparams : Z) n vals text :
  params = None \/ (exists buf, params = Some buf /\ cstr_of_buf buf = Ret text /\
                     sscanf text fmt = Ret (n, vals) /\ n <> nparams - 1 /\ n <> nparams) ->
  forall h, h ∈ [fp_set; fp_set_unix; fp_set_dt; fp_delete; fp_delete_unix] ->
    h fmt params nparams d = Ret (CMD_SYNTAX_ERROR, d).
Proof.
  intros Hp h Hh.
  assert (scan_params params fmt d = Ret (None, d) \/
          (scan_params params fmt d = Ret (Some (text, n, vals), d) /\ n <> nparams - 1 /\ n <> nparams)) as Hs.
  { destruct Hp as [->|(buf & -> & E1 & E2 & H1 & H2)]; [by left|right].
    unfold scan_params, bind, lift. rewrite E1, E2. done. }
  repeat (apply elem_of_cons in Hh as [->|Hh]; [
    unfold fp_set, fp_set_unix, fp_set_dt, fp_delete, fp_delete_unix;
    destruct Hs as [E|(E & H1 & H2)]; rewrite (bind_step _ _ _ _ _ E); [done|];
    rewrite ?(proj2 (Z.eqb_neq _ _) H1), ?(proj2 (Z.eqb_neq _ _) H2); done|]).
  by apply elem_of_nil in Hh.
Qed.

End theorems.

(** *** Instances *)
Lemma cmd_text_ping : cmd_text_ok (cs "com_ping") (cs "10").
Proof. repeat split; apply (bool_decide_unpack _); vm_compute; exact I. Qed.

Lemma int_ok_small z : -1000000 <= z <= 2000000000 -> int_ok z.
Proof. unfold int_ok, INT_MIN, INT_MAX. lia. Qed.

Lemma fp_set_unix_adds_entry_witness :
  exists d', fp_set_unix fmt_fp_set_unix (Some (with_nul (cs "1000 1 60 com_ping 10"))) 5 (ram_data 0) = Ret (CMD_OK, d') /\
    tbl_get 1000 (st_slots (store d')) = Some (FpRow 1000 (cs "com_ping") (cs "10") 1 60 1).
Proof.
  destruct (fp_set_unix_adds_entry (ram_data 0) 1000 1 60 (cs "com_ping") (cs "10")) as (d' & H1 & H2 & _).
  - apply ram_data_fp.
  - exact I.
  - apply int_ok_small. lia.
  - apply int_ok_small. lia.
  - apply int_ok_small. lia.
  - apply cmd_text_ping.
  - exists d'. split; [exact H1|]. rewrite H2. vm_compute. reflexivity.
Defined.

Lemma fp_set_dt_adds_entry_witness :
  exists d', fp_set_dt fmt_fp_set_dt (Some (with_nul (cs "30 1 0 com_ping 10"))) 5 (ram_data 1000) = Ret (CMD_OK, d') /\
    tbl_get 1030 (st_slots (store d')) = Some (FpRow 1030 (cs "com_ping") (cs "10") 1 0 1).
Proof.
  destruct (fp_set_dt_adds_entry (ram_data 1000) 30 1 0 (cs "com_ping") (cs "10")) as (d' & H1 & H2 & _).
  - apply ram_data_fp.
  - exact I.
  - apply int_ok_small. lia.
  - apply int_ok_small. lia.
  - apply int_ok_small. lia.
  - apply cmd_text_ping.
  - vm_compute. split; discriminate.
  - vm_compute. split; discriminate.
  - exists d'. split; [exact H1|]. rewrite H2. vm_compute. reflexivity.
Defined.

Lemma fp_set_date_adds_entry_witness :
  exists d', fp_set fmt_fp_set (Some (with_nul (cs "23 6 2017 3 59 0 1 0 com_ping 10"))) 10 (ram_data 0) = Ret (CMD_OK, d') /\
    tbl_get 1498190340 (st_slots (store d')) = Some (FpRow 1498190340 (cs "com_ping") (cs "10") 1 0 1).
Proof.
  destruct (fp_set_date_adds_entry (ram_data 0) 23 6 2017 3 59 0 1 0 (cs "com_ping") (cs "10")) as (d' & H1 & H2 & _).
  - apply ram_data_fp.
  - exact I.
  - apply int_ok_small. lia.
  - apply int_ok_small. lia.
  - apply cmd_text_ping.
  - apply int_ok_small. lia.
  - lia.
  - lia.
  - apply int_ok_small. lia.
  - apply int_ok_small. lia.
  - apply int_ok_small. lia.
  - exists d'. split; [exact H1|]. rewrite H2. vm_compute. reflexivity.
Defined.

Lemma fp_syntax_errors_witness :
  fp_set_unix fmt_fp_set_unix (Some (with_nul (cs "1000 x"))) 5 (ram_data 0) = Ret (CMD_SYNTAX_ERROR, ram_data 0).
Proof.
  apply (fp_syntax_errors (ram_data 0) (Some (with_nul (cs "1000 x"))) fmt_fp_set_unix 5 1 [VInt 1000] (cs "1000 x")).
  - right. exists (with_nul (cs "1000 x")). split; [reflexivity|]. split; [reflexivity|].
    split; [reflexivity|]. split; discriminate.
  - right. left.
Defined.

End CmdFPTheorems.
