(* ===== verification/CmdGSSB.v ===== *)
(** * Deployment and reaction wheel commands

    The handlers of [apps/suchai/src/cmdGSSB.c] (antenna interstages, sun
    sensors and power of the GSSB bus) and of [apps/suchai/src/cmdRW.c].  The
    drivers they call are not part of the repository: class [Bus] stands for
    them, a device state and, for each request, the return code, the contents of
    the output parameter after the call, and the next device state.  The state
    of the commands has the two static variables of [cmdGSSB.c], the device, the
    data repository, and what was done in order: requests, delays and reports
    (a line of [LOGR] as its label and values). *)
From S2P Require Import Prelude CStr Config Storage StorageRam Schema RepoCommand RepoData CmdFP.

Module CmdGSSB.
Import RepoCommand RepoData.

Definition GS_OK : Z := 0.
Definition CMD_ERROR_NONE : Z := CMD_OK.
Definition CMD_ERROR_SYNTAX : Z := CMD_SYNTAX_ERROR.
Definition CMD_ERROR_FAIL : Z := CMD_ERROR.

(** ** Data of the drivers

    The members the handlers use; the casts and formats of [cmdGSSB.c] give the
    widths: 16 bits for the three times, 8 bits for the others. *)
Record burn_settings := BurnSettings {
  std_time_ms : Z; increment_ms : Z; short_cnt_down : Z; max_repeat : Z; rep_time_s : Z;
  switch_polarity : Z; reboot_deploy_cnt : Z; bs_status : Z; locked : Z
}.
Record istage_status := IstageStatus {
  is_state : Z; release_status : Z; deploy_in_s : Z; number_of_deploys : Z; active_knife : Z;
  total_number_of_deploys : Z; is_reboot_deploy_cnt : Z
}.
Record release_channel := Channel { ch_state : Z; burn_time_left : Z; ch_status : Z; burn_tries : Z }.
Record release_channel2 := Channel2 { ch2_state : Z; ch2_time_left : Z; status_0 : Z; status_1 : Z; ch2_tries : Z }.
Record backup_status := BackupStatus { bk_state : Z; seconds_to_deploy : Z }.
Record board_status := BoardStatus { seconds_since_boot : Z; reboot_count : Z }.
Record backup_settings := BackupSettings { bk_minutes : Z; backup_active : Z; max_burn_duration : Z }.

(** ** Requests to the drivers *)
Inductive op :=
  | SunSampleSensor | SunReadSamples | SunSampleTemp | SunGetTemp | SunConf (conf : Z) | SunConfSave
  | SetI2cAddr (a : Z) | CommitI2cAddr | GetVersion (len : Z) | GetUuid | GetModel
  | IstageGetTemp | MspGetOutsideTemp | MspCalibrate (current resistor : Z) | IstageGetInternalTemp
  | IstageBurn | IstageGetSunVoltage | GetBurnSettings | SetBurnSettings (s : burn_settings)
  | SetBurnSettingsCnt (s : burn_settings) | SettingsUnlock | SettingsLock | SetArm (data : Z)
  | SetState (data : Z) | SoftReset | GetIstageStatus
  | Ar6Burn (duration : Z) | Ar6GetRelease | Ar6GetBoard
  | Ant6BurnChannel (channel duration : Z) | Ant6StopBurn | Ant6GetRelease | Ant6GetBackup | Ant6GetBoard
  | Ant6ResetCount | Ant6SetBackupSettings (s : backup_settings) | Ant6GetBackupSettings
  | I4GetRelease | I4GetBackup | I4GetBoard.

Inductive pwr_switch := PWR_GSSB | PWR_GSSB2.

Inductive request :=
  | Dev (addr timeout : Z) (o : op)
  | PwrSwitch (sw : pwr_switch) (on : bool)
  | BusScan (first last timeout : Z)
  | RwGetSpeed (motor : Z) | RwGetCurrent (motor : Z) | RwSetSpeed (motor speed : Z)
  | I2cTransaction (handle addr : Z) (tx : list Z) (rxlen timeout : Z).

(** What the output parameter holds after the call. *)
Definition answer (r : request) : Type :=
  match r with
  | Dev _ _ o =>
      match o with
      | SunReadSamples => list Z
      | SunGetTemp | GetUuid | GetModel | IstageGetTemp | MspGetOutsideTemp | IstageGetInternalTemp
      | IstageGetSunVoltage => Z
      | GetVersion _ => list Z
      | GetBurnSettings => burn_settings
      | GetIstageStatus => istage_status
      | Ar6GetRelease => release_channel
      | Ant6GetRelease => release_channel * release_channel
      | I4GetRelease => release_channel2 * release_channel2
      | Ant6GetBackup | I4GetBackup => backup_status
      | Ar6GetBoard | Ant6GetBoard | I4GetBoard => board_status
      | Ant6GetBackupSettings => backup_settings
      | _ => unit
      end
  | BusScan _ _ _ => Z -> Z
  | I2cTransaction _ _ _ _ _ => list Z
  | _ => unit
  end%type.

Class Bus (B : Type) := {
  bus_call : forall r : request, B -> Z * answer r * B;
  MOTOR1_ID : Z; MOTOR2_ID : Z; MOTOR3_ID : Z;
  GS_GSSB_MODEL_MSP : Z; GS_GSSB_MODEL_AR6 : Z; GS_GSSB_MODEL_ISTAGE : Z;
  GS_GSSB_MODEL_ANT6 : Z; GS_GSSB_MODEL_I4 : Z
}.

(** What a command does, in order. *)
Inductive event := Call (r : request) (rc : Z) | Delay (ms : Z) | Report (label : string) (values : list Z).

Record gssb (S B : Type) := Gssb {
  i2c_addr : Z;
  i2c_timeout_ms : Z;
  g_bus : B;
  g_dat : dat S;
  g_events : list event
}.
Arguments Gssb {S B} _ _ _ _ _.
Arguments i2c_addr {S B} _.
Arguments i2c_timeout_ms {S B} _.
Arguments g_bus {S B} _.
Arguments g_dat {S B} _.
Arguments g_events {S B} _.

Section gssb.
Context {S B : Type} `{Storage S} `{Bus B}.
Abbreviation G := (gssb S B).

(** The values of the static variables at boot. *)
Definition gssb_boot (b : B) (d : dat S) : G := Gssb 5 1000 b d [].

Definition happen (e : event) : M G unit :=
  modify (fun g => Gssb (i2c_addr g) (i2c_timeout_ms g) (g_bus g) (g_dat g) (g_events g ++ [e])).
Definition osDelay (ms : Z) : M G unit := happen (Delay ms).
Definition report (label : string) (values : list Z) : M G unit := happen (Report label values).

Definition request_ (r : request) : M G (Z * answer r) :=
  fun g => let '(rc, a, b) := bus_call r (g_bus g) in
           Ret ((rc, a), Gssb (i2c_addr g) (i2c_timeout_ms g) b (g_dat g) (g_events g ++ [Call r rc])).

(** [gs_gssb_...(addr, i2c_timeout_ms, ...)] *)
Definition gs_at (addr : Z) (o : op) : M G (Z * answer (Dev addr 0 o)) :=
  fun g => request_ (Dev addr (i2c_timeout_ms g) o) g.
Definition gs (o : op) : M G (Z * answer (Dev 0 0 o)) :=
  fun g => gs_at (i2c_addr g) o g.

(** [if(call != GS_OK) return CMD_ERROR_FAIL;] then [k] with the output. *)
Definition or_fail {A} (m : M G (Z * A)) (k : A -> M G Z) : M G Z :=
  let! '(rc, a) := m in
  if negb (rc =? GS_OK) then ret CMD_ERROR_FAIL else k a.

Definition set_i2c_addr (a : Z) : M G unit :=
  modify (fun g => Gssb (u8_of a) (i2c_timeout_ms g) (g_bus g) (g_dat g) (g_events g)).

Definition gssb_dat_lens : lens G (dat S) :=
  Lens g_dat (fun d g => Gssb (i2c_addr g) (i2c_timeout_ms g) (g_bus g) d (g_events g)).

(** [sscanf(params, fmt, ...) == nparams] for integer conversions: the values, or
    [None] when the count differs or [params] is null. *)
Definition int_of (v : scanval) : option Z := match v with VInt z => Some z | _ => None end.
Definition scan_ints (fmt : cstring) (params : option (list Z)) (nparams : Z) : M G (option (list Z)) :=
  let! r := scan_params params fmt in
  ret (match r with
       | Some (_, n, vals) => if n =? nparams then Some (omap int_of vals) else None
       | None => None
       end).

(** The same where the code does not test [params]. *)
Definition scan_ints_unchecked (fmt : cstring) (params : option (list Z)) (nparams : Z) : M G (option (list Z)) :=
  if issome params then scan_ints fmt params nparams else fail NullDeref.

(** ** [cmdGSSB.c] *)
Definition gssb_pwr (fmt : cstring) (params : option (list Z)) (nparams : Z) : M G Z :=
  let! r := scan_ints fmt params nparams in
  match r with
  | None => ret CMD_ERROR_SYNTAX
  | Some [vcc_on; vcc2_on] =>
      request_ (PwrSwitch PWR_GSSB (0 <? vcc_on)) ;!
      request_ (PwrSwitch PWR_GSSB2 (0 <? vcc2_on)) ;!
      osDelay 100 ;!
      report "Set GSSB switch state to" [vcc_on; vcc2_on] ;!
      ret CMD_OK
  | _ => fail Uninitialized
  end.

Definition gssb_select_addr (fmt : cstring) (params : option (list Z)) (nparams : Z) : M G Z :=
  let! r := scan_ints fmt params nparams in
  match r with
  | None => ret CMD_ERROR_SYNTAX
  | Some [addr] =>
      (if 0 <? addr then set_i2c_addr addr else ret tt) ;!
      let! a := gets i2c_addr in
      report "Selected I2C addr" [a] ;!
      ret CMD_ERROR_NONE
  | _ => fail Uninitialized
  end.

(** [int8_t devices[128]] *)
Definition device_at (devices : Z -> Z) (addr : Z) : M G Z :=
  if 128 <=? addr then fail OutOfBounds else ret (devices addr).

Definition gssb_bus_scan (fmt : cstring) (params : option (list Z)) (nparams : Z) : M G Z :=
  let! r := scan_ints fmt params nparams in
  let! '(start, end_) := match r with
                         | None => ret (1, 100)
                         | Some [start; end_] => ret (start, end_)
                         | _ => fail Uninitialized
                         end in
  report "Scanning I2C bus" [start; end_] ;!
  if (128 <? start) || (128 <? end_) then ret CMD_ERROR_SYNTAX else
  let! '(_, devices) := request_ (BusScan (u8_of start) (u8_of end_) 100) in
  for_ (seqZ (u8_of start) (u8_of end_ - u8_of start)) (fun addr =>
    let! d := device_at devices addr in
    if d =? GS_OK then report "Found device at" [addr] else ret tt) ;!
  ret CMD_ERROR_NONE.

Definition gssb_read_sunsensor (fmt : cstring) (params : option (list Z)) (nparams : Z) : M G Z :=
  or_fail (gs SunSampleSensor) (fun _ =>
  osDelay 30 ;!
  or_fail (gs SunReadSamples) (fun sun =>
  let! a := gets i2c_addr in
  for_ (range 4) (fun i => let! x := arr_get sun i in report "sun sensor" [a; i; x]) ;!
  ret CMD_ERROR_NONE)).

Definition gssb_get_temp (fmt : cstring) (params : option (list Z)) (nparams : Z) : M G Z :=
  or_fail (gs SunSampleTemp) (fun _ =>
  osDelay 20 ;!
  or_fail (gs SunGetTemp) (fun temp =>
  let! a := gets i2c_addr in
  report "temp" [a; temp] ;!
  ret CMD_ERROR_NONE)).

Definition gssb_sunsensor_conf (fmt : cstring) (params : option (list Z)) (nparams : Z) : M G Z :=
  let! r := scan_ints fmt params nparams in
  match r with
  | None => ret CMD_ERROR_SYNTAX
  | Some [conf] => or_fail (gs (SunConf (u16_of conf))) (fun _ => ret CMD_ERROR_NONE)
  | _ => fail Uninitialized
  end.

Definition gssb_sunsensor_conf_save (fmt : cstring) (params : option (list Z)) (nparams : Z) : M G Z :=
  or_fail (gs SunConfSave) (fun _ => ret CMD_ERROR_NONE).

(** The result of the request for the new address is not tested; the device
    must then answer at the new address. *)
Definition gssb_set_i2c_addr (fmt : cstring) (params : option (list Z)) (nparams : Z) : M G Z :=
  let! r := scan_ints fmt params nparams in
  match r with
  | None => ret CMD_ERROR_SYNTAX
  | Some [new_i2c_addr] =>
      report "Setting address to" [u8_of new_i2c_addr] ;!
      gs (SetI2cAddr (u8_of new_i2c_addr)) ;!
      or_fail (gs_at new_i2c_addr GetUuid) (fun _ =>
      set_i2c_addr new_i2c_addr ;!
      ret CMD_ERROR_NONE)
  | _ => fail Uninitialized
  end.

Definition gssb_commit_i2c_addr (fmt : cstring) (params : option (list Z)) (nparams : Z) : M G Z :=
  or_fail (gs CommitI2cAddr) (fun _ => ret CMD_ERROR_NONE).

(** [rx_buff[19] = 0] ends the string that is printed. *)
Definition gssb_get_version (fmt : cstring) (params : option (list Z)) (nparams : Z) : M G Z :=
  or_fail (gs (GetVersion 20)) (fun rx_buff =>
  let! rx_buff := arr_set rx_buff 19 0 in
  let! version := lift (cstr_of_buf rx_buff) in
  report "Git version" version ;!
  ret CMD_ERROR_NONE).

Definition gssb_get_uuid (fmt : cstring) (params : option (list Z)) (nparams : Z) : M G Z :=
  or_fail (gs GetUuid) (fun uuid => report "Device UUID" [uuid] ;! ret CMD_ERROR_NONE).

Definition gssb_get_model (fmt : cstring) (params : option (list Z)) (nparams : Z) : M G Z :=
  or_fail (gs GetModel) (fun model =>
  report (if model =? GS_GSSB_MODEL_MSP then "Model: MSP"
          else if model =? GS_GSSB_MODEL_AR6 then "Model: AR6"
          else if model =? GS_GSSB_MODEL_ISTAGE then "Model: Interstage"
          else if model =? GS_GSSB_MODEL_ANT6 then "Model: ANT6"
          else if model =? GS_GSSB_MODEL_I4 then "Model: I4"
          else "Model: Unknown") [] ;!
  ret CMD_ERROR_NONE).

Definition gssb_interstage_temp (fmt : cstring) (params : option (list Z)) (nparams : Z) : M G Z :=
  or_fail (gs IstageGetTemp) (fun temp => report "Temp" [temp] ;! ret CMD_ERROR_NONE).

Definition gssb_msp_outside_temp (fmt : cstring) (params : option (list Z)) (nparams : Z) : M G Z :=
  or_fail (gs MspGetOutsideTemp) (fun temp => report "Outside temp" [temp] ;! ret CMD_ERROR_NONE).

(** Nano ampere and milli ohm, sent in tens. *)
Definition gssb_msp_outside_temp_calibrate (fmt : cstring) (params : option (list Z)) (nparams : Z) : M G Z :=
  let! r := scan_ints fmt params nparams in
  match r with
  | None => ret CMD_ERROR_SYNTAX
  | Some [curr; res] =>
      if (400000 <? curr) || (curr <? 100000) then ret CMD_ERROR_SYNTAX else
      let current := u16_of (Z.quot curr 10) in
      if (200000 <? res) || (res <? 50000) then ret CMD_ERROR_SYNTAX else
      let resistor := u16_of (Z.quot res 10) in
      or_fail (gs (MspCalibrate current resistor)) (fun _ => ret CMD_ERROR_NONE)
  | _ => fail Uninitialized
  end.

Definition gssb_internal_temp (fmt : cstring) (params : option (list Z)) (nparams : Z) : M G Z :=
  or_fail (gs IstageGetInternalTemp) (fun temp => report "Internal temp" [temp] ;! ret CMD_ERROR_NONE).

Definition gssb_interstage_burn (fmt : cstring) (params : option (list Z)) (nparams : Z) : M G Z :=
  or_fail (gs IstageBurn) (fun _ => report "Istage burning..." [] ;! ret CMD_ERROR_NONE).

Definition gssb_common_sun_voltage (fmt : cstring) (params : option (list Z)) (nparams : Z) : M G Z :=
  or_fail (gs IstageGetSunVoltage) (fun voltage => report "Sun voltage" [voltage] ;! ret CMD_ERROR_NONE).

(** *** Interstages *)
Definition gssb_interstage_get_burn_settings (fmt : cstring) (params : option (list Z)) (nparams : Z) : M G Z :=
  if negb (issome params) || (nparams =? 0) then
    or_fail (gs GetBurnSettings) (fun settings =>
    report (if bs_status settings =? 2 then "Deploy mode: ARMED AUTO" else "Deploy mode: NOT ARMED") [] ;!
    report "Deploy delay from boot" [short_cnt_down settings] ;!
    report "Knife on time" [std_time_ms settings] ;!
    report "Increment" [increment_ms settings] ;!
    report "Max repeats" [max_repeat settings] ;!
    report "Repeat time" [rep_time_s settings] ;!
    report "Switch polarity" [switch_polarity settings] ;!
    report "Settings locked" [locked settings] ;!
    ret CMD_ERROR_NONE)
  else ret CMD_ERROR_SYNTAX.

(** The writes that both commands with new settings make: unlock, write, wait
    for the EEPROM, write the counter, wait, lock. *)
Definition write_settings (addr : Z) (settings : burn_settings) (k : M G Z) : M G Z :=
  or_fail (gs_at addr SettingsUnlock) (fun _ =>
  or_fail (gs_at addr (SetBurnSettings settings)) (fun _ =>
  osDelay 50 ;!
  or_fail (gs_at addr (SetBurnSettingsCnt settings)) (fun _ =>
  osDelay 20 ;!
  or_fail (gs_at addr SettingsLock) (fun _ => k)))).

Definition gssb_interstage_set_burn_settings (fmt : cstring) (params : option (list Z)) (nparams : Z) : M G Z :=
  let! r := scan_ints_unchecked fmt params nparams in
  match r with
  | None => ret CMD_ERROR_SYNTAX
  | Some [std_time; increment; short_cnt; repeat; rep_time; polarity; reboot_cnt] =>
      or_fail (gs GetBurnSettings) (fun settings =>
      if (65535 <? std_time) || (std_time <? 0) then ret CMD_ERROR_SYNTAX else
      if (65535 <? increment) || (increment <? 0) then ret CMD_ERROR_SYNTAX else
      if (65535 <? short_cnt) || (short_cnt <? 0) then ret CMD_ERROR_SYNTAX else
      if (255 <? repeat) || (repeat <? 0) then ret CMD_ERROR_SYNTAX else
      if (255 <? rep_time) || (rep_time <? 0) then ret CMD_ERROR_SYNTAX else
      if (1 <? polarity) || (polarity <? 0) then ret CMD_ERROR_SYNTAX else
      if (255 <? reboot_cnt) || (reboot_cnt <? 0) then ret CMD_ERROR_SYNTAX else
      let settings := BurnSettings (u16_of std_time) (u16_of increment) (u16_of short_cnt) (u8_of repeat)
                        (u8_of rep_time) (u8_of polarity) (u8_of reboot_cnt) (bs_status settings) (locked settings) in
      let! a := gets i2c_addr in
      write_settings a settings (
      gs SoftReset ;!
      ret CMD_ERROR_NONE))
  | _ => fail Uninitialized
  end.

Definition gssb_interstage_arm (fmt : cstring) (params : option (list Z)) (nparams : Z) : M G Z :=
  let! r := scan_ints fmt params nparams in
  match r with
  | None => ret CMD_ERROR_SYNTAX
  | Some [arm_auto] =>
      let data := if negb (arm_auto =? 0) then 4 else 8 in
      or_fail (gs SettingsUnlock) (fun _ =>
      or_fail (gs (SetArm data)) (fun _ =>
      or_fail (gs SettingsLock) (fun _ => ret CMD_ERROR_NONE)))
  | _ => fail Uninitialized
  end.

Definition gssb_interstage_state (fmt : cstring) (params : option (list Z)) (nparams : Z) : M G Z :=
  let! r := scan_ints fmt params nparams in
  match r with
  | None => ret CMD_ERROR_SYNTAX
  | Some [armed_manual] =>
      or_fail (gs SettingsUnlock) (fun _ =>
      or_fail (gs (SetState (u8_of armed_manual))) (fun _ =>
      or_fail (gs SettingsLock) (fun _ => ret CMD_ERROR_NONE)))
  | _ => fail Uninitialized
  end.

Definition gssb_interstage_settings_unlock (fmt : cstring) (params : option (list Z)) (nparams : Z) : M G Z :=
  let! r := scan_ints_unchecked fmt params nparams in
  match r with
  | None => ret CMD_ERROR_SYNTAX
  | Some [unlock] =>
      or_fail (gs (if negb (unlock =? 0) then SettingsUnlock else SettingsLock)) (fun _ =>
      report "Parameters unlock" [unlock] ;!
      ret CMD_ERROR_NONE)
  | _ => fail Uninitialized
  end.

Definition gssb_soft_reset (fmt : cstring) (params : option (list Z)) (nparams : Z) : M G Z :=
  let! a := gets i2c_addr in
  report "Resetting device" [a] ;!
  or_fail (gs SoftReset) (fun _ => ret CMD_ERROR_NONE).

Definition gssb_interstage_get_status (fmt : cstring) (params : option (list Z)) (nparams : Z) : M G Z :=
  or_fail (gs GetIstageStatus) (fun status =>
  report (match is_state status with
          | 0 => "Current state: Not armed"
          | 1 => "Current state: Armed for manual deploy"
          | 2 => "Current state: Armed for automatical deploy"
          | 3 | 4 => "Current state: Deploying"
          | _ => "Current state: Unknown state"
          end) [] ;!
  report (if release_status status =? 1 then "Antenna state: Released" else "Antenna state: Not released") [] ;!
  report "Delay till deploy" [deploy_in_s status] ;!
  report "Number of attempts since boot" [number_of_deploys status] ;!
  report "Knife that will be used in next deploy" [active_knife status] ;!
  report "Total deploy attempts" [total_number_of_deploys status] ;!
  report "Reboot deploy cnt" [is_reboot_deploy_cnt status] ;!
  ret CMD_ERROR_NONE).

(** *** Antenna boards *)
Definition gssb_ar6_burn (fmt : cstring) (params : option (list Z)) (nparams : Z) : M G Z :=
  let! r := scan_ints fmt params nparams in
  match r with
  | None => ret CMD_ERROR_SYNTAX
  | Some [duration] =>
      if (20 <? duration) || (duration <? 0) then ret CMD_ERROR_SYNTAX else
      or_fail (gs (Ar6Burn (u8_of duration))) (fun _ => ret CMD_ERROR_NONE)
  | _ => fail Uninitialized
  end.

(** The lines that the status commands share. *)
Definition report_burning (state : Z) : M G unit :=
  report (if state =? 1 then "Burn state: Burning" else "Burn state: Idle") [].
Definition report_released (released : bool) : M G unit :=
  report (if released then "Antenna state: Released" else "Antenna state: Not released") [].
Definition report_channel (c : release_channel) : M G unit :=
  report_burning (ch_state c) ;!
  report "Burn time left" [burn_time_left c] ;!
  report_released (ch_status c =? 1) ;!
  report "Burn attempts" [burn_tries c].
Definition report_channel2 (c : release_channel2) : M G unit :=
  report_burning (ch2_state c) ;!
  report "Burn time left" [ch2_time_left c] ;!
  report_released (status_0 c =? 1) ;!
  report_released (status_1 c =? 2) ;!
  report "Burn attempts" [ch2_tries c].
Definition report_backup (b : backup_status) : M G unit :=
  report "Backup" [] ;!
  match bk_state b with
  | 0 => report "Finished successful" []
  | 1 => report "Waiting to deploy" [] ;! report "Seconds to backup deploy" [seconds_to_deploy b]
  | 2 => report "Deploying" []
  | 3 => report "Finished unsuccessful" []
  | 4 => report "Not active" []
  | _ => ret tt
  end.
Definition report_board (b : board_status) : M G unit :=
  report "Board" [] ;!
  report "Seconds since boot" [seconds_since_boot b] ;!
  report "Number of reboots" [reboot_count b].

Definition gssb_ar6_get_status (fmt : cstring) (params : option (list Z)) (nparams : Z) : M G Z :=
  or_fail (gs Ar6GetRelease) (fun release =>
  report "Antenna release" [] ;! report_channel release ;!
  or_fail (gs Ant6GetBackup) (fun backup =>
  report_backup backup ;!
  or_fail (gs Ar6GetBoard) (fun board =>
  report_board board ;! ret CMD_ERROR_NONE))).

Definition gssb_common_burn_channel (fmt : cstring) (params : option (list Z)) (nparams : Z) : M G Z :=
  let! r := scan_ints fmt params nparams in
  match r with
  | None => ret CMD_ERROR_SYNTAX
  | Some [channel; duration] =>
      if (10 <? channel) || (channel <? 0) then ret CMD_ERROR_SYNTAX else
      if (60 <? duration) || (duration <? 0) then ret CMD_ERROR_SYNTAX else
      or_fail (gs (Ant6BurnChannel (u8_of channel) (u8_of duration))) (fun _ => ret CMD_ERROR_NONE)
  | _ => fail Uninitialized
  end.

Definition gssb_common_stop_burn (fmt : cstring) (params : option (list Z)) (nparams : Z) : M G Z :=
  if negb (issome params) then ret CMD_ERROR_SYNTAX else
  or_fail (gs Ant6StopBurn) (fun _ => ret CMD_ERROR_NONE).

Definition gssb_ant6_get_status_all_channels (fmt : cstring) (params : option (list Z)) (nparams : Z) : M G Z :=
  or_fail (gs Ant6GetRelease) (fun '(c0, c1) =>
  report "Channel 0" [] ;! report_channel c0 ;!
  report "Channel 1" [] ;! report_channel c1 ;!
  or_fail (gs Ant6GetBackup) (fun backup =>
  report_backup backup ;!
  or_fail (gs Ant6GetBoard) (fun board =>
  report_board board ;! ret CMD_ERROR_NONE))).

Definition gssb_i4_get_status_all_channels (fmt : cstring) (params : option (list Z)) (nparams : Z) : M G Z :=
  or_fail (gs I4GetRelease) (fun '(c0, c1) =>
  report "Channel 0" [] ;! report_channel2 c0 ;!
  report "Channel 1" [] ;! report_channel2 c1 ;!
  or_fail (gs I4GetBackup) (fun backup =>
  report_backup backup ;!
  or_fail (gs I4GetBoard) (fun board =>
  report_board board ;! ret CMD_ERROR_NONE))).

Definition gssb_common_reset_count (fmt : cstring) (params : option (list Z)) (nparams : Z) : M G Z :=
  if negb (issome params) then ret CMD_ERROR_SYNTAX else
  or_fail (gs Ant6ResetCount) (fun _ => ret CMD_ERROR_NONE).

Definition report_backup_settings (s : backup_settings) : M G unit :=
  report "Minutes until deploy" [bk_minutes s] ;!
  report (if backup_active s =? 1 then "Active" else "Not active") [] ;!
  report "Max burn duration" [max_burn_duration s].

(** Parameters that do not scan print the settings of the board. *)
Definition gssb_common_backup_settings (fmt : cstring) (params : option (list Z)) (nparams : Z) : M G Z :=
  let! r := scan_ints_unchecked fmt params nparams in
  match r with
  | Some [minutes; active; duration] =>
      if (5000 <? minutes) || (minutes <? 0) then ret CMD_ERROR_SYNTAX else
      if negb (active =? 1) && negb (active =? 0) then ret CMD_ERROR_SYNTAX else
      if (127 <? duration) || (duration <? 0) then ret CMD_ERROR_SYNTAX else
      let settings := BackupSettings (u16_of minutes) (u8_of active) (u8_of duration) in
      or_fail (gs (Ant6SetBackupSettings settings)) (fun _ =>
      report "Reboot board for changes to take effect" [] ;!
      report_backup_settings settings ;! ret CMD_ERROR_NONE)
  | None =>
      or_fail (gs Ant6GetBackupSettings) (fun settings =>
      report_backup_settings settings ;! ret CMD_ERROR_NONE)
  | _ => fail Uninitialized
  end.

(** *** Deployment

    The variable [dat_dep_ant_deployed] belongs to the schema of the
    application, which is not in the repository: its address is an argument. *)
Definition istage_addr : list Z := [0x10; 0x11; 0x12; 0x13].

(** One turn of the loop; [None] once a device failed. *)
Definition add_status (deploy_status : option Z) (addr : Z) : M G (option Z) :=
  match deploy_status with
  | None => ret None
  | Some n =>
      let! '(rc, status) := gs_at addr GetIstageStatus in
      if negb (rc =? GS_OK) then ret None else
      let! n := cint (n + release_status status) in
      ret (Some n)
  end.

Definition gssb_update_status (dat_dep_ant_deployed : Z) (fmt : cstring) (params : option (list Z)) (nparams : Z) : M G Z :=
  let! r := fold_m istage_addr add_status (Some 0) in
  match r with
  | None => ret CMD_ERROR_FAIL
  | Some deploy_status =>
      if 0 <=? deploy_status then
        zoom gssb_dat_lens (dat_set_system_var dat_dep_ant_deployed deploy_status) ;!
        ret CMD_OK
      else ret CMD_ERROR
  end.

Definition gssb_antenna_release (fmt : cstring) (params : option (list Z)) (nparams : Z) : M G Z :=
  let! r := scan_ints fmt params nparams in
  match r with
  | None => ret CMD_ERROR
  | Some [addr; knife_on; knife_off; repeats] =>
      or_fail (gs_at addr GetBurnSettings) (fun settings =>
      let settings := BurnSettings (u16_of knife_on) 0 0 (u8_of repeats) (u8_of knife_off)
                        (switch_polarity settings) (reboot_deploy_cnt settings) (bs_status settings) (locked settings) in
      write_settings addr settings (
      gs_at addr SoftReset ;!
      report "istage" [knife_on; knife_off; repeats; 1] ;!
      or_fail (gs_at addr SettingsUnlock) (fun _ =>
      or_fail (gs_at addr (SetArm 8)) (fun _ =>
      or_fail (gs_at addr IstageBurn) (fun _ =>
      report "GSSB istage deploying!" [addr; 1] ;!
      ret CMD_OK)))))
  | _ => fail Uninitialized
  end.

(** ** [cmdRW.c] *)
Definition rw_get_speed (fmt : cstring) (params : option (list Z)) (nparams : Z) : M G Z :=
  let! '(speed1, _) := request_ (RwGetSpeed MOTOR1_ID) in
  let! '(speed2, _) := request_ (RwGetSpeed MOTOR2_ID) in
  let! '(speed3, _) := request_ (RwGetSpeed MOTOR3_ID) in
  report "Sampled speeds" [u16_of speed1; u16_of speed2; u16_of speed3] ;!
  ret CMD_OK.

Definition rw_get_current (fmt : cstring) (params : option (list Z)) (nparams : Z) : M G Z :=
  let! '(current1, _) := request_ (RwGetCurrent MOTOR1_ID) in
  let! '(current2, _) := request_ (RwGetCurrent MOTOR2_ID) in
  let! '(current3, _) := request_ (RwGetCurrent MOTOR3_ID) in
  report "Sampled currents" [current1; current2; current3] ;!
  ret 1.

Definition rw_set_speed (fmt : cstring) (params : option (list Z)) (nparams : Z) : M G Z :=
  let! r := scan_ints fmt params nparams in
  match r with
  | None => ret CMD_SYNTAX_ERROR
  | Some [motor_id; speed] =>
      let! '(rc, _) := request_ (RwSetSpeed motor_id speed) in
      report "Setting motor" [motor_id; speed; rc] ;!
      ret (if rc =? GS_OK then CMD_OK else CMD_ERROR)
  | _ => fail Uninitialized
  end.

(** *** Upper interstage ([SCH_USE_ISTAGE2]) *)
Definition IS2_START_SENSORS_TEMP : Z := 30.
Definition IS2_STOP_SENSORS_TEMP : Z := 31.
Definition IS2_GET_TEMP : Z := 32.
Definition IS2_READ_SW_FACE : Z := 33.
Definition IS2_BURN_FACE : Z := 34.
Definition IS2_SET_BURN : Z := 35.
Definition IS2_SENSORS_TEMP_STATUS : Z := 36.
Definition ISTAGE_UPPER_ADD : Z := 0x40.
Definition ISTAGE_GSSB_TWI_HANDLER : Z := 2.

(** A transaction that sends the two bytes [cmd] and [(char)arg]. *)
Definition istage2 (cmd arg rxlen : Z) : M G (Z * list Z) :=
  request_ (I2cTransaction ISTAGE_GSSB_TWI_HANDLER ISTAGE_UPPER_ADD [cmd; u8_of arg] rxlen 250).

Definition istage2_get_temp (fmt : cstring) (params : option (list Z)) (nparams : Z) : M G Z :=
  let! '(rc, _) := istage2 IS2_START_SENSORS_TEMP 0 1 in
  if negb (rc =? GS_OK) then ret CMD_ERROR else
  let! '(rc, temps) := istage2 IS2_GET_TEMP 0 (8 * 2) in
  report "IS2_GET_TEMP" (temps ++ [rc]) ;!
  if negb (rc =? GS_OK) then ret CMD_ERROR else
  let! '(rc, _) := istage2 IS2_STOP_SENSORS_TEMP 0 0 in
  if negb (rc =? GS_OK) then ret CMD_ERROR else
  ret CMD_OK.

(** The commands with one parameter: a transaction and its report. *)
Definition istage2_face (cmd rxlen : Z) (label : string) (fmt : cstring) (params : option (list Z)) (nparams : Z) : M G Z :=
  let! r := scan_ints fmt params nparams in
  match r with
  | None => ret CMD_SYNTAX_ERROR
  | Some [x] =>
      let! '(rc, ans) := istage2 cmd x rxlen in
      report label (x :: ans ++ [rc]) ;!
      ret (if negb (rc =? GS_OK) then CMD_ERROR else CMD_OK)
  | _ => fail Uninitialized
  end.
Definition istage2_get_state_panel := istage2_face IS2_READ_SW_FACE 1 "IS2_READ_SW_FACE".
Definition istage2_deploy_panel := istage2_face IS2_BURN_FACE 0 "IS2_BURN_FACE".
Definition istage2_set_deploy := istage2_face IS2_SET_BURN 0 "IS2_SET_BURN".

Definition istage2_get_sensors_status (fmt : cstring) (params : option (list Z)) (nparams : Z) : M G Z :=
  let! '(rc, ans) := istage2 IS2_SENSORS_TEMP_STATUS 0 1 in
  report "IS2_SENSORS_TEMP_STATUS" (ans ++ [rc]) ;!
  ret (if negb (rc =? GS_OK) then CMD_ERROR else CMD_OK).

(** ** Registration *)
Definition handler := cstring -> option (list Z) -> Z -> M G Z.

Definition gssb_entries (dat_dep_ant_deployed : Z) : list (cstring * handler * cstring * Z) :=
  [ (cs "gssb_pwr", gssb_pwr, cs "%d %d", 2);
    (cs "gssb_select", gssb_select_addr, cs "%i", 1);
    (cs "gssb_scan", gssb_bus_scan, cs "%i %i", 2);
    (cs "gssb_fss_get_sun", gssb_read_sunsensor, [], 0);
    (cs "gssb_fss_get_temp", gssb_get_temp, [], 0);
    (cs "gssb_fss_set_config", gssb_sunsensor_conf, cs "%d", 1);
    (cs "gssb_fss_commit_config", gssb_sunsensor_conf_save, [], 0);
    (cs "gssb_set_addr", gssb_set_i2c_addr, cs "%i", 1);
    (cs "gssb_commit_addr", gssb_commit_i2c_addr, [], 0);
    (cs "gssb_get_version", gssb_get_version, [], 0);
    (cs "gssb_get_uuid", gssb_get_uuid, [], 0);
    (cs "gssb_get_model", gssb_get_model, [], 0);
    (cs "gssb_get_temp", gssb_interstage_temp, [], 0);
    (cs "gssb_msp_get_temp", gssb_msp_outside_temp, [], 0);
    (cs "gssb_msp_cal_temp", gssb_msp_outside_temp_calibrate, cs "%d %d", 2);
    (cs "gssb_get_temp_int", gssb_internal_temp, [], 0);
    (cs "gssb_burn", gssb_interstage_burn, [], 0);
    (cs "gssb_get_sun", gssb_common_sun_voltage, [], 0);
    (cs "gssb_get_burn_config", gssb_interstage_get_burn_settings, [], 0);
    (cs "gssb_set_burn_config", gssb_interstage_set_burn_settings, cs "%d %d %d %d %d %d %d", 7);
    (cs "gssb_arm_auto", gssb_interstage_arm, cs "%d", 1);
    (cs "gssb_arm_manual", gssb_interstage_state, cs "%d", 1);
    (cs "gssb_unlock_config", gssb_interstage_settings_unlock, cs "%d", 1);
    (cs "gssb_reset", gssb_soft_reset, [], 0);
    (cs "gssb_get_status", gssb_interstage_get_status, [], 0);
    (cs "gssb_update_status", gssb_update_status dat_dep_ant_deployed, [], 0);
    (cs "gssb_antenna_release", gssb_antenna_release, cs "%d %d %d %d", 4) ].

Definition rw_entries : list (cstring * handler * cstring * Z) :=
  [ (cs "rw_get_speed", rw_get_speed, [], 0);
    (cs "rw_get_current", rw_get_current, [], 0);
    (cs "rw_set_speed", rw_set_speed, cs "%d %d", 2) ].

Definition istage2_entries : list (cstring * handler * cstring * Z) :=
  [ (cs "is2_get_temp", istage2_get_temp, [], 0);
    (cs "is2_get_state", istage2_get_state_panel, cs "%d", 1);
    (cs "is2_deploy", istage2_deploy_panel, cs "%d", 1);
    (cs "is2_set_deploy", istage2_set_deploy, cs "%d", 1);
    (cs "is2_get_status", istage2_get_sensors_status, [], 0) ].

End gssb.

(** A repository whose functions are the handlers. *)
Definition cmd_gssb_init {S B} `{Storage S} `{Bus B} (deployed : Z) : M (cmd_repo (handler (S := S) (B := B))) unit :=
  add_entries (gssb_entries deployed).
Definition cmd_rw_init {S B} `{Storage S} `{Bus B} (use_istage2 : bool) : M (cmd_repo (handler (S := S) (B := B))) unit :=
  add_entries (rw_entries ++ if use_istage2 then istage2_entries else []).

End CmdGSSB.

(** ** Lemmas *)
Module GssbLaws.
Import RepoCommand RepoData RepoDataLaws CmdGSSB.

Section laws.
Context {S B : Type} `{Storage S} `{Bus B}.
Implicit Types g : gssb S B.

(** The commands change the device and the list of events only. *)
Definition after (b : B) (evs : list event) g : gssb S B :=
  Gssb (i2c_addr g) (i2c_timeout_ms g) b (g_dat g) (g_events g ++ evs).

Lemma after_after b1 l1 b2 l2 g : after b2 l2 (after b1 l1 g) = after b2 (l1 ++ l2) g.
Proof. unfold after. cbn. by rewrite app_assoc. Qed.
Lemma after_bus b l g : g_bus (after b l g) = b. Proof. done. Qed.
Lemma after_timeout b l g : i2c_timeout_ms (after b l g) = i2c_timeout_ms g. Proof. done. Qed.
Lemma after_addr b l g : i2c_addr (after b l g) = i2c_addr g. Proof. done. Qed.

Lemma happen_step e g : happen e g = Ret (tt, after (g_bus g) [e] g). Proof. done. Qed.

(** A request that must succeed. *)
Lemma or_fail_step addr o (k : answer (Dev addr 0 o) -> M (gssb S B) Z) g rc a b :
  bus_call (Dev addr (i2c_timeout_ms g) o) (g_bus g) = (rc, a, b) ->
  or_fail (gs_at addr o) k g =
    let g' := after b [Call (Dev addr (i2c_timeout_ms g) o) rc] g in
    if rc =? GS_OK then k a g' else Ret (CMD_ERROR_FAIL, g').
Proof. intros E. unfold or_fail, gs_at, request_, bind. rewrite E. by destruct (rc =? GS_OK). Qed.

Lemma gs_step addr o g rc a b :
  bus_call (Dev addr (i2c_timeout_ms g) o) (g_bus g) = (rc, a, b) ->
  gs_at addr o g = Ret ((rc, a), after b [Call (Dev addr (i2c_timeout_ms g) o) rc] g).
Proof. intros E. unfold gs_at, request_. by rewrite E. Qed.

Lemma scan_ints_ok ks zs g :
  Forall2 (fun k _ => k = KInt \/ k = KAuto) ks zs -> Forall int_ok zs ->
  scan_ints (kinds_fmt ks) (params_of (map VInt zs)) (zlength zs) g = Ret (Some zs, g).
Proof.
  intros Hk Hz. assert (Forall2 kind_val ks (map VInt zs)) as Hv.
  { apply Forall2_fmap_r. induction Hk as [|k z ks zs Hkz Hk IH]; [constructor|].
    inversion Hz; subst. constructor; [by destruct Hkz; subst|by apply IH]. }
  unfold scan_ints, params_of. rewrite (bind_step _ _ _ _ _ (scan_kinds ks (map VInt zs) g Hv)).
  unfold ret. replace (zlength (map VInt zs)) with (zlength zs) by (unfold zlength; by rewrite length_map).
  rewrite Z.eqb_refl. do 3 f_equal. clear. induction zs as [|z zs IH]; [done|]. cbn. by rewrite IH.
Qed.

(** The operations requested, and whether a successful unlock is pending. *)
Definition op_of (e : event) : option op := match e with Call (Dev _ _ o) _ => Some o | _ => None end.
Definition ops (evs : list event) : list op := omap op_of evs.
Definition lock_step (u : bool) (e : event) : bool :=
  match e with
  | Call (Dev _ _ SettingsUnlock) rc => u || (rc =? GS_OK)
  | Call (Dev _ _ SettingsLock) rc => u && negb (rc =? GS_OK)
  | _ => u
  end.
Definition unlocked (evs : list event) : bool := fold_left lock_step evs false.
(** Every request was answered [GS_OK], resets excepted. *)
Definition clean (evs : list event) : Prop :=
  Forall (fun e => match e with Call (Dev _ _ o) rc => rc = GS_OK \/ o = SoftReset | _ => True end) evs.
(** Every operation was sent to one device. *)
Definition at_addr (a : Z) (evs : list event) : Prop :=
  Forall (fun e => match e with Call (Dev a' _ _) _ => a' = a | Call _ _ => False | _ => True end) evs.
End laws.

(** Runs the next step of a handler; a request splits on its result. *)
Ltac gssb_call a o g :=
  let t := eval cbn [after i2c_timeout_ms] in (i2c_timeout_ms g) in
  let b0 := eval cbn [after g_bus] in (g_bus g) in
  let rc := fresh "rc" in let ans := fresh "ans" in let b := fresh "b" in let E := fresh "E" in
  destruct (bus_call (Dev a t o) b0) as [[rc ans] b] eqn:E.
Ltac gssb_step :=
  match goal with
  | |- context [or_fail (gs_at ?a ?o) ?k ?g] =>
      gssb_call a o g;
      match goal with
      | E : bus_call (Dev a _ o) _ = (?rc, ?ans, ?b) |- _ =>
          rewrite (or_fail_step a o k g rc ans b E); cbv zeta;
          let R := fresh "R" in destruct (rc =? GS_OK) eqn:R
      end
  | |- context [bind (gs_at ?a ?o) ?k ?g] =>
      gssb_call a o g;
      match goal with
      | E : bus_call (Dev a _ o) _ = (?rc, ?ans, ?b) |- _ =>
          rewrite (bind_step _ _ _ _ _ (gs_step a o g rc ans b E))
      end
  | |- context [bind (osDelay ?ms) _ ?g] => rewrite (bind_step _ _ _ _ _ (happen_step (Delay ms) g))
  | |- context [bind (report ?l ?v) _ ?g] => rewrite (bind_step _ _ _ _ _ (happen_step (Report l v) g))
  end; rewrite ?after_after, ?after_timeout, ?after_bus; cbn [app].
(** [clean] of a list of events whose codes are known. *)
Ltac clean_tac := repeat (constructor; [by (left; done) || (right; done) || exact I|]); constructor.
(** Gives the device and the events of the result. *)
Ltac gssb_events := match goal with |- context [after ?b ?l _] => exists b, l end.
End GssbLaws.

(** ** Theorems *)
Module GssbTheorems.
Import RepoCommand RepoData RepoDataLaws RepoDataTheorems CmdGSSB GssbLaws.

Section theorems.
Context {S B : Type} `{Storage S} `{Bus B}.
Implicit Types g : gssb S B.

(** The requests of [write_settings]. *)
Definition write_ops (s : burn_settings) : list op :=
  [SettingsUnlock; SetBurnSettings s; SetBurnSettingsCnt s; SettingsLock].

(** [write_settings] makes its requests up to the first that fails; then the
    settings are unlocked, unless it is the first one. *)
Lemma write_settings_ok addr s (k : M (gssb S B) Z) g :
  exists b evs, at_addr addr evs /\
    ((write_settings addr s k g = k (after b evs g) /\ ops evs = write_ops s /\ unlocked evs = false /\ clean evs) \/
     (exists n, write_settings addr s k g = Ret (CMD_ERROR, after b evs g) /\ (0 < n <= 4)%nat /\
        ops evs = take n (write_ops s) /\ unlocked evs = negb (n =? 1)%nat /\ evs <> [] /\ clean (removelast evs))).
Proof.
  unfold write_settings.
  repeat gssb_step; gssb_events; (split; [by repeat constructor|]).
  1: left; split; [reflexivity|].
  5: right; exists 1%nat. 4: right; exists 2%nat. 3: right; exists 3%nat. 2: right; exists 4%nat.
  2-5: split; [reflexivity|split; [lia|]].
  all: split; [done|unfold unlocked; cbn [fold_left lock_step app removelast]];
    rewrite ?R, ?R0, ?R1, ?R2; bool_to_prop; splits; try done;
    try clean_tac.
Qed.

Lemma ops_call a t o rc l : ops (Call (Dev a t o) rc :: l) = o :: ops l. Proof. done. Qed.
Lemma unlocked_get a t rc l : unlocked (Call (Dev a t GetBurnSettings) rc :: l) = unlocked l. Proof. done. Qed.
Lemma ops_app l1 l2 : ops (l1 ++ l2) = ops l1 ++ ops l2.
Proof. unfold ops. apply omap_app. Qed.
Lemma unlocked_app l1 l2 : unlocked (l1 ++ l2) = fold_left lock_step l2 (unlocked l1).
Proof. unfold unlocked. apply fold_left_app. Qed.

Lemma clean_last l1 l2 : clean l1 -> l2 <> [] -> clean (removelast l2) -> clean (removelast (l1 ++ l2)).
Proof. intros. rewrite removelast_app by done. by apply Forall_app. Qed.

Definition burn_range (v : list Z) : Prop :=
  Forall2 (fun x m => 0 <= x <= m) v [65535; 65535; 65535; 255; 255; 1; 255].

#[export] Instance burn_range_dec v : Decision (burn_range v).
Proof. unfold burn_range. apply _. Defined.

(** The settings the device had, with the seven values of the command. *)
Definition with_burn (s0 : burn_settings) (v : list Z) : option burn_settings :=
  match v with
  | [a; b; c; d; e; f; h] => Some (BurnSettings a b c d e f h (bs_status s0) (locked s0))
  | _ => None
  end.

(** What the device at [addr] answers when its settings are read first. *)
Definition stored_settings (addr : Z) g : burn_settings :=
  snd (fst (bus_call (Dev addr (i2c_timeout_ms g) GetBurnSettings) (g_bus g))).

(** New burn settings: whatever the device answers, the command ends and
    changes neither the selected address nor the stored data.  It succeeds
    after reading the settings, unlocking, writing them and their counter,
    locking again and resetting, in this order and at the selected address; the
    settings written are those the device answered with exactly the seven values given.
    Values out of range write nothing.  When a request fails, the command ends
    there, and the settings stay unlocked if it was one of those after the
    unlock. *)
Theorem set_burn_settings_protocol v g :
  length v = 7%nat -> Forall int_ok v ->
  exists rc b evs,
    let s0 := stored_settings (i2c_addr g) g in
    gssb_interstage_set_burn_settings (cs "%d %d %d %d %d %d %d") (params_of (map VInt v)) 7 g = Ret (rc, after b evs g) /\
    at_addr (i2c_addr g) evs /\
    match rc with
    | 1 => burn_range v /\ unlocked evs = false /\
           exists s, with_burn s0 v = Some s /\ ops evs = GetBurnSettings :: write_ops s ++ [SoftReset]
    | -1 => ~ burn_range v /\ ops evs = [GetBurnSettings]
    | _ => rc = CMD_ERROR /\
           (ops evs = [GetBurnSettings] \/
            exists s n, burn_range v /\ with_burn s0 v = Some s /\ (0 < n <= 4)%nat /\
              ops evs = GetBurnSettings :: take n (write_ops s) /\ unlocked evs = negb (n =? 1)%nat)
    end.
Proof.
  intros Hl Hv. do 7 (destruct v as [|? v]; [done|]). destruct v; [|done].
  unfold stored_settings, gssb_interstage_set_burn_settings, scan_ints_unchecked. cbn [issome params_of].
  pose proof (scan_ints_ok (replicate 7 KInt) _ g ltac:(repeat (constructor; [by left|]); constructor) Hv) as Hs.
  rewrite (bind_step _ _ _ _ _ Hs). clear Hs.
  change (or_fail (gs GetBurnSettings) ?k g) with (or_fail (gs_at (i2c_addr g) GetBurnSettings) k g).
  gssb_step.
  2: { exists CMD_ERROR. gssb_events. cbv zeta. split; [done|]. split; [by repeat constructor|]. by split; [|left]. }
  destruct (decide (burn_range [z; z0; z1; z2; z3; z4; z5])) as [Hr|Hr].
  - pose proof Hr as Hr'. unfold burn_range in Hr'. rewrite !Forall2_cons in Hr'.
    destruct Hr' as (R1 & R2 & R3 & R4 & R5 & R6 & R7 & _).
    repeat match goal with |- context [(?m <? ?x) || (?x <? 0)] => rewrite (proj2 (Z.ltb_ge m x)), (proj2 (Z.ltb_ge x 0)) by lia; cbn [orb] end.
    unfold u16_of, u8_of. rewrite !Z.mod_small by lia.
    unfold bind at 1, gets at 1. change (i2c_addr (after _ _ g)) with (i2c_addr g). cbv beta iota.
    match goal with |- context [write_settings ?a ?s ?k ?g'] =>
      destruct (write_settings_ok a s k g') as (b1 & evs & Ha & [(-> & Ho & Hu & _)|(n & -> & Hn & Ho & Hu & _)]) end;
      rewrite after_after; cbn [app].
    + change (bind (gs SoftReset) ?k (after b1 ?l g)) with (bind (gs_at (i2c_addr g) SoftReset) k (after b1 l g)).
      gssb_step. exists CMD_OK. gssb_events. cbv zeta. split; [done|].
      split; [constructor; [done|]; by apply Forall_app; split; [|repeat constructor]|]. cbn match.
      split; [done|]. split; [by rewrite unlocked_get, unlocked_app, Hu|].
      eexists. split; [done|]. by rewrite ops_call, ops_app, Ho.
    + exists CMD_ERROR. gssb_events. cbv zeta. split; [done|]. split; [by constructor|]. split; [done|].
      right. eexists _, n. split; [done|]. split; [done|]. split; [done|]. by rewrite ops_call, Ho, unlocked_get.
  - exists CMD_SYNTAX_ERROR. gssb_events. cbv zeta. split.
    { unfold burn_range in Hr. rewrite !Forall2_cons in Hr.
      repeat (case_head; [reflexivity|]). bool_to_prop. exfalso. apply Hr.
      repeat match goal with E : _ || _ = false |- _ => apply orb_false_iff in E as [] end. bool_to_prop.
      repeat (split; [lia|]). done. }
    split; [by repeat constructor|]. done.
Qed.

(** C25. Antenna release: whatever the device answers, the command ends.  It
    succeeds after reading, unlocking, writing and locking the settings,
    resetting the interstage, unlocking, arming and burning, in this order; the
    knife times and repeats it writes are the parameters modulo the width of
    their fields.  Every request is made only after the one before it was
    answered [GS_OK] (the reset excepted), so the burn is never requested
    without new settings and without arming; and a successful release leaves
    the settings unlocked. *)
Theorem antenna_release_sequence addr knife_on knife_off repeats g :
  Forall int_ok [addr; knife_on; knife_off; repeats] ->
  exists rc b evs,
    let s0 := stored_settings addr g in
    gssb_antenna_release (cs "%d %d %d %d") (params_of [VInt addr; VInt knife_on; VInt knife_off; VInt repeats]) 4 g =
      Ret (rc, after b evs g) /\
    at_addr addr evs /\
    let s := BurnSettings (knife_on mod 2 ^ 16) 0 0 (repeats mod 2 ^ 8) (knife_off mod 2 ^ 8)
               (switch_polarity s0) (reboot_deploy_cnt s0) (bs_status s0) (locked s0) in
    let script := GetBurnSettings :: write_ops s ++ [SoftReset; SettingsUnlock; SetArm 8; IstageBurn] in
    (rc = CMD_OK /\ ops evs = script /\ clean evs /\ unlocked evs = true) \/
    (rc = CMD_ERROR /\ (exists n, (0 < n <= 9)%nat /\ ops evs = take n script) /\ clean (removelast evs)).
Proof.
  intros Hv. unfold stored_settings, gssb_antenna_release.
  pose proof (scan_ints_ok (replicate 4 KInt) _ g ltac:(repeat (constructor; [by left|]); constructor) Hv) as Hs.
  rewrite (bind_step _ _ _ _ _ Hs). clear Hs. gssb_step.
  2: { exists CMD_ERROR. gssb_events. cbv zeta. split; [done|]. split; [by repeat constructor|]. cbv zeta.
       right. split; [done|]. split; [|constructor]. exists 1%nat. split; [lia|done]. }
  cbv zeta. unfold u16_of, u8_of.
  match goal with |- context [write_settings ?a ?s ?k ?g'] =>
    destruct (write_settings_ok a s k g') as (b1 & evs & Ha & [(-> & Ho & Hu & Hc)|(n & -> & Hn & Ho & Hu & Hne & Hc)]) end;
    rewrite after_after; cbn [app].
  2: { exists CMD_ERROR. gssb_events. cbv zeta. split; [done|]. split; [by constructor|].
       right. split; [done|]. bool_to_prop. split.
       - exists (1 + n)%nat. split; [lia|]. rewrite ops_call, Ho. cbn [Nat.add take]. f_equal.
         by rewrite take_app_le by (cbn; lia).
       - destruct evs as [|e evs]; [done|]. by constructor; [left|]. }
  repeat gssb_step; rewrite <- ?app_assoc; cbn [app];
    [exists CMD_OK|exists CMD_ERROR..]; gssb_events; cbv zeta; (split; [done|]);
    (split; [constructor; [done|]; apply Forall_app; split; [done|by repeat constructor]|]).
  1: left; split; [done|]. 4: right; split; [done|]. 3: right; split; [done|]. 2: right; split; [done|].
  all: rewrite ops_call, ops_app, Ho, ?unlocked_get; bool_to_prop.
  1: split; [done|split].
  2: rewrite unlocked_app, Hu; cbn [fold_left lock_step]; by rewrite (proj2 (Z.eqb_eq _ _) R0).
  1: constructor; [by left|]; apply Forall_app; split; [done|clean_tac].
  3: split; [by exists 7%nat; split; [lia|]|]. 2: split; [by exists 8%nat; split; [lia|]|]. 1: split; [by exists 9%nat; split; [lia|]|].
  all: rewrite app_comm_cons; apply clean_last; [by constructor; [left|]|done|];
    cbn [removelast]; clean_tac.
Qed.

(** A loop of reports. *)
Definition found (devices : Z -> Z) (l : list Z) : list event :=
  map (fun a => Report "Found device at" [a]) (filter (fun a => devices a = GS_OK) l).

Definition scan_body (devices : Z -> Z) (addr : Z) : M (gssb S B) unit :=
  let! d := device_at devices addr in
  if d =? GS_OK then report "Found device at" [addr] else ret tt.

Lemma scan_loop devices l g :
  Forall (fun a => a < 128) l -> for_ l (scan_body devices) g = Ret (tt, after (g_bus g) (found devices l) g).
Proof.
  revert g. induction l as [|a l IH]; intros g Hl.
  { unfold after, found. cbn. rewrite app_nil_r. by destruct g. }
  inversion Hl as [|? ? Ha Hl']; subst. cbn [for_]. unfold bind at 1, scan_body at 1, bind at 1, device_at.
  rewrite (proj2 (Z.leb_gt 128 a)) by lia. unfold ret at 1, found. rewrite filter_cons.
  destruct (devices a =? GS_OK) eqn:E; bool_to_prop.
  - rewrite decide_True by done. unfold report. rewrite happen_step, IH by done. by rewrite after_after.
  - rewrite decide_False by done. unfold ret at 1. by rewrite IH.
Qed.

Lemma scan_loop_fault devices l1 l2 g :
  Forall (fun a => a < 128) l1 -> for_ (l1 ++ 128 :: l2) (scan_body devices) g = Fault OutOfBounds.
Proof.
  revert g. induction l1 as [|a l IH]; intros g Hl.
  { done. }
  inversion Hl as [|? ? Ha Hl']; subst. cbn [app for_]. unfold bind at 1, scan_body at 1, bind at 1, device_at.
  rewrite (proj2 (Z.leb_gt 128 a)) by lia. unfold ret at 1.
  destruct (devices a =? GS_OK); [unfold report; rewrite happen_step|unfold ret at 1]; by apply IH.
Qed.

(** The scan reports exactly the addresses from the first up to, but not
    including, the last that answered, for bounds of at most 128. *)
Theorem bus_scan_reports start stop g :
  0 <= start <= 128 -> 0 <= stop <= 128 ->
  exists rc devices b,
    gssb_bus_scan (cs "%i %i") (params_of [VInt start; VInt stop]) 2 g =
    Ret (CMD_OK, after b (Report "Scanning I2C bus" [start; stop] :: Call (BusScan start stop 100) rc ::
                          found devices (seqZ start (stop - start))) g).
Proof.
  intros Hs He. unfold gssb_bus_scan.
  pose proof (scan_ints_ok (replicate 2 KAuto) [start; stop] g ltac:(repeat (constructor; [by right|]); constructor)
    ltac:(repeat constructor; unfold INT_MIN, INT_MAX; lia)) as Hp.
  rewrite (bind_step _ _ _ _ _ Hp), (bind_step _ _ g (start, stop) g eq_refl). cbv beta iota.
  rewrite (bind_step _ _ _ _ _ (happen_step (Report "Scanning I2C bus" [start; stop]) g)).
  rewrite (proj2 (Z.ltb_ge 128 start)), (proj2 (Z.ltb_ge 128 stop)) by lia. cbn [orb].
  unfold u8_of. rewrite !Z.mod_small by lia. unfold bind at 1, request_ at 1.
  change (g_bus (after ?b ?l g)) with b.
  destruct (bus_call (BusScan start stop 100) (g_bus g)) as [[rc devices] b]. exists rc, devices, b.
  fold (scan_body devices). change (Gssb (i2c_addr ?g') _ b _ (_ ++ ?l)) with (after b l g').
  unfold bind at 1. fold (scan_body devices). erewrite scan_loop.
  - rewrite !after_after. done.
  - apply Forall_forall. intros a Ha%elem_of_seqZ. lia.
Qed.

(** A negative end passes the test and becomes a large unsigned one: the loop
    reads past the array of 128 devices. *)
Theorem bus_scan_negative_end_faults start stop g :
  0 <= start <= 128 -> -128 < stop < 0 ->
  gssb_bus_scan (cs "%i %i") (params_of [VInt start; VInt stop]) 2 g = Fault OutOfBounds.
Proof.
  intros Hs He. unfold gssb_bus_scan.
  pose proof (scan_ints_ok (replicate 2 KAuto) [start; stop] g ltac:(repeat (constructor; [by right|]); constructor)
    ltac:(repeat constructor; unfold INT_MIN, INT_MAX; lia)) as Hp.
  rewrite (bind_step _ _ _ _ _ Hp), (bind_step _ _ g (start, stop) g eq_refl). cbv beta iota.
  rewrite (bind_step _ _ _ _ _ (happen_step (Report "Scanning I2C bus" [start; stop]) g)).
  rewrite (proj2 (Z.ltb_ge 128 start)), (proj2 (Z.ltb_ge 128 stop)) by lia. cbn [orb].
  unfold bind at 1, request_ at 1. destruct (bus_call _ _) as [[rc devices] b].
  unfold u8_of. rewrite (Z.mod_small start) by lia. replace (stop mod 2 ^ 8) with (stop + 256) by (apply (Z.mod_unique_pos _ _ (-1)); lia).
  unfold bind at 1. replace (seqZ start (stop + 256 - start)) with (seqZ start (128 - start) ++ 128 :: seqZ 129 (stop + 127)).
  - fold (scan_body devices). rewrite (scan_loop_fault devices (seqZ start (128 - start))); [done|]. apply Forall_forall. intros a Ha%elem_of_seqZ. lia.
  - replace (stop + 256 - start) with ((128 - start) + (stop + 128)) by lia. rewrite (seqZ_app start (128 - start)) by lia.
    f_equal. replace (start + (128 - start)) with 128 by lia. rewrite (seqZ_cons 128) by lia. f_equal. f_equal; lia.
Qed.

(** Changing the address of a device: the new address is selected exactly when
    the device answered there; the request for the change itself is not
    checked. *)
Theorem set_addr_confirms a g :
  int_ok a ->
  exists rc b evs, let new := if rc =? CMD_OK then a mod 2 ^ 8 else i2c_addr g in
    gssb_set_i2c_addr (cs "%i") (params_of [VInt a]) 1 g =
      Ret (rc, Gssb new (i2c_timeout_ms g) b (g_dat g) (g_events g ++ evs)) /\
    exists l rc', evs = l ++ [Call (Dev a (i2c_timeout_ms g) GetUuid) rc'] /\ rc = (if rc' =? GS_OK then CMD_OK else CMD_ERROR).
Proof.
  intros Ha. unfold gssb_set_i2c_addr.
  assert (Forall int_ok [a]) as Hz by (constructor; [done|constructor]).
  pose proof (scan_ints_ok [KAuto] [a] g ltac:(constructor; [by right|constructor]) Hz) as Hp.
  rewrite (bind_step _ _ _ _ _ Hp). gssb_step.
  change (bind (gs ?o) ?k (after ?b ?l g)) with (bind (gs_at (i2c_addr g) o) k (after b l g)).
  gssb_step. gssb_step; match goal with |- context [after ?b ?l g] =>
    exists (if rc0 =? GS_OK then CMD_OK else CMD_ERROR), b, l end; rewrite R;
    (split; [reflexivity|]); match goal with |- context [?x :: ?y :: [?z]] => exists [x; y], rc0 end; by rewrite R.
Qed.

(** Three commands scan their parameters without testing for a null pointer. *)
Theorem unchecked_params_fault fmt n g :
  gssb_interstage_set_burn_settings fmt None n g = Fault NullDeref /\
  gssb_interstage_settings_unlock fmt None n g = Fault NullDeref /\
  gssb_common_backup_settings fmt None n g = Fault NullDeref.
Proof. done. Qed.
End theorems.

Section status.
Context {S B : Type} `{StorageLaws S} `{Bus B}.
Implicit Types g : gssb S B.

(** A device whose interstages answer with a code and a status of their own. *)
Definition answers_status (code : Z -> Z) (status : Z -> istage_status) : Prop :=
  forall a t b, exists b', bus_call (Dev a t GetIstageStatus) b = (code a, status a, b').

Definition add_releases (status : Z -> istage_status) (n : Z) (l : list Z) : Z :=
  foldl (fun n a => n + release_status (status a)) n l.

Lemma add_status_ok code status n a g :
  answers_status code status -> 0 <= release_status (status a) < 2 ^ 8 -> 0 <= n <= 2 ^ 16 ->
  exists b evs, add_status (Some n) a g =
    Ret (if decide (code a = GS_OK) then Some (n + release_status (status a)) else None, after b evs g).
Proof.
  intros Hd Hs Hn. destruct (Hd a (i2c_timeout_ms g) (g_bus g)) as [b E].
  exists b, [Call (Dev a (i2c_timeout_ms g) GetIstageStatus) (code a)]. cbn [add_status].
  rewrite (bind_step _ _ _ _ _ (gs_step a GetIstageStatus g _ _ b E)). cbv beta iota.
  destruct (decide (code a = GS_OK)) as [Hc|Hc].
  - rewrite (proj2 (Z.eqb_eq _ _) Hc). cbn [negb]. unfold bind at 1. rewrite cint_ok by (unfold INT_MIN, INT_MAX; lia). reflexivity.
  - by rewrite (proj2 (Z.eqb_neq _ _) Hc).
Qed.

Lemma status_stopped l g : fold_m l add_status None g = Ret (None, g).
Proof. revert g. induction l as [|a l IH]; intros g; [done|]. cbn [fold_m]. unfold bind at 1. cbn. apply IH. Qed.

Lemma status_loop code status l : forall n g,
  answers_status code status -> (forall a, 0 <= release_status (status a) < 2 ^ 8) ->
  0 <= n -> n + 255 * Z.of_nat (length l) <= 2 ^ 16 ->
  exists b evs, fold_m l add_status (Some n) g =
    Ret (if decide (Forall (fun a => code a = GS_OK) l) then Some (add_releases status n l) else None, after b evs g).
Proof.
  induction l as [|a l IH]; intros n g Hd Hs Hn Hm.
  { exists (g_bus g), []. cbn. unfold after. rewrite app_nil_r. by destruct g. }
  cbn [fold_m]. cbn [length] in Hm. pose proof (Hs a) as Ha.
  destruct (add_status_ok code status n a g Hd Ha ltac:(lia)) as (b & evs & E). rewrite (bind_step _ _ _ _ _ E).
  destruct (decide (code a = GS_OK)) as [Hc|Hc].
  - destruct (IH (n + release_status (status a)) (after b evs g) Hd Hs ltac:(lia) ltac:(lia)) as (b2 & evs2 & ->).
    rewrite after_after. exists b2, (evs ++ evs2). do 3 f_equal. cbn [add_releases foldl].
    destruct (decide (Forall _ l)), (decide (Forall _ (a :: l))) as [F|F]; try done;
      [exfalso; apply F; by constructor|by inversion F].
  - exists b, evs. rewrite status_stopped, decide_False by (inversion 1; done). done.
Qed.

(** Deployment status: when the four interstages answer, [gssb_update_status]
    stores the sum of their release flags in the given variable and changes no
    other variable nor the flight plan; when one of them fails, the command
    fails and the data repository is as before. *)
Theorem update_status_stores_releases code status v g :
  answers_status code status -> (forall a, 0 <= release_status (status a) < 2 ^ 8) ->
  dat_ok (g_dat g) -> 0 <= v < dat_status_last_address ->
  exists rc g', gssb_update_status v [] None 0 g = Ret (rc, g') /\ i2c_addr g' = i2c_addr g /\
    if decide (Forall (fun a => code a = GS_OK) istage_addr)
    then rc = CMD_OK /\
      dat_get_system_var v (g_dat g') = Ret (add_releases status 0 istage_addr, g_dat g') /\
      st_slots (store (g_dat g')) = st_slots (store (g_dat g)) /\
      forall j, 0 <= j < dat_status_last_address -> j <> v -> var (g_dat g') j = var (g_dat g) j
    else rc = CMD_ERROR /\ g_dat g' = g_dat g.
Proof.
  intros Hd Hs Hok Hv. unfold gssb_update_status.
  destruct (status_loop code status istage_addr 0 g Hd Hs ltac:(lia) ltac:(cbn; lia)) as (b & evs & E).
  rewrite (bind_step _ _ _ _ _ E). destruct (decide (Forall _ istage_addr)) as [Hall|Hno].
  2: { eexists _, _. split; [reflexivity|]. done. }
  assert (0 <= add_releases status 0 istage_addr <= 4 * 255) as Hr.
  { cbn. pose proof (Hs 16). pose proof (Hs 17). pose proof (Hs 18). pose proof (Hs 19). lia. }
  set (n := add_releases status 0 istage_addr) in *. rewrite (proj2 (Z.leb_le 0 n)) by lia.
  pose proof Hok as [_ Hsz].
  destruct (set_status_ok (g_dat g) v (u32_of n) Hok ltac:(lia) (u32_of_range _)) as (st' & _ & Es & Hok' & _ & Hsl & _ & Hvar).
  rewrite (bind_step _ _ _ _ _ (zoom_step gssb_dat_lens _ (after b evs g) _ _ Es)).
  eexists _, _. split; [reflexivity|]. split; [done|]. cbn [g_dat lset gssb_dat_lens after]. split; [done|].
  split; [|split; [done|intros j Hj Hjv; rewrite Hvar by lia; by rewrite decide_False]].
  rewrite get_system_ok by done. rewrite Hvar, decide_True by lia. by rewrite i32_of_u32_of, i32_of_id by (unfold INT_MIN, INT_MAX; lia).
Qed.
End status.

(** *** Devices: one answers the first [n] requests, the other all of them *)
Definition idle_settings : burn_settings := BurnSettings 1000 0 10 3 5 1 2 0 1.
Definition idle_answer (r : request) : answer r :=
  match r with
  | Dev _ _ o =>
      match o return answer (Dev 0 0 o) with
      | SunReadSamples => [0; 0; 0; 0]
      | SunGetTemp | GetUuid | GetModel | IstageGetTemp | MspGetOutsideTemp | IstageGetInternalTemp
      | IstageGetSunVoltage => 0
      | GetVersion n => replicate (Z.to_nat n) 65
      | GetBurnSettings => idle_settings
      | GetIstageStatus => IstageStatus 0 1 0 0 0 0 0
      | Ar6GetRelease => Channel 0 0 0 0
      | Ant6GetRelease => (Channel 0 0 0 0, Channel 0 0 0 0)
      | I4GetRelease => (Channel2 0 0 0 0 0, Channel2 0 0 0 0 0)
      | Ant6GetBackup | I4GetBackup => BackupStatus 0 0
      | Ar6GetBoard | Ant6GetBoard | I4GetBoard => BoardStatus 0 0
      | Ant6GetBackupSettings => BackupSettings 0 0 0
      | _ => tt
      end
  | BusScan _ _ _ => fun a => a mod 2
  | I2cTransaction _ _ _ n _ => replicate (Z.to_nat n) 0
  | _ => tt
  end.
Definition bus_with {B} (call : forall r : request, B -> Z * answer r * B) : Bus B := {|
  bus_call := call; MOTOR1_ID := 1; MOTOR2_ID := 2; MOTOR3_ID := 3;
  GS_GSSB_MODEL_MSP := 0; GS_GSSB_MODEL_AR6 := 1; GS_GSSB_MODEL_ISTAGE := 2;
  GS_GSSB_MODEL_ANT6 := 3; GS_GSSB_MODEL_I4 := 4
|}.
#[local] Instance demo_bus : Bus nat := bus_with (fun r n => (if (n =? 0)%nat then -1 else GS_OK, idle_answer r, pred n)).
#[local] Instance good_bus : Bus unit := bus_with (fun r _ => (GS_OK, idle_answer r, tt)).

Definition demo_gssb (n : nat) : gssb Ram.ram_state nat := gssb_boot n (ram_data 0).

Definition code_of {T} (r : res (Z * T)) : option Z := match r with Ret (rc, _) => Some rc | Fault _ => None end.

Lemma set_burn_settings_protocol_witness : exists b evs,
  gssb_interstage_set_burn_settings (cs "%d %d %d %d %d %d %d")
    (params_of (map VInt [500; 100; 60; 5; 10; 1; 3])) 7 (demo_gssb 9) = Ret (CMD_OK, after b evs (demo_gssb 9)) /\
  unlocked evs = false.
Proof.
  assert (code_of (gssb_interstage_set_burn_settings (cs "%d %d %d %d %d %d %d")
    (params_of (map VInt [500; 100; 60; 5; 10; 1; 3])) 7 (demo_gssb 9)) = Some CMD_OK) as Hc by reflexivity.
  destruct (set_burn_settings_protocol [500; 100; 60; 5; 10; 1; 3] (demo_gssb 9)) as (rc & b & evs & E & _ & Hr);
    [reflexivity|repeat constructor; unfold INT_MIN, INT_MAX; lia|].
  rewrite E in Hc. injection Hc as ->. destruct Hr as (_ & Hu & _). exists b, evs. split; [exact E|exact Hu].
Defined.

(** The ninth request, the burn, is refused: the requests before it were made. *)
Lemma antenna_release_sequence_witness : exists b evs n,
  gssb_antenna_release (cs "%d %d %d %d") (params_of [VInt 16; VInt 500; VInt 30; VInt 5]) 4 (demo_gssb 8) =
    Ret (CMD_ERROR, after b evs (demo_gssb 8)) /\ length (ops evs) = n /\ clean (removelast evs).
Proof.
  assert (code_of (gssb_antenna_release (cs "%d %d %d %d") (params_of [VInt 16; VInt 500; VInt 30; VInt 5]) 4 (demo_gssb 8))
    = Some CMD_ERROR) as Hc by reflexivity.
  destruct (antenna_release_sequence 16 500 30 5 (demo_gssb 8)) as (rc & b & evs & E & _ & [(-> & _)|(-> & _ & Hl)]);
    [repeat constructor; unfold INT_MIN, INT_MAX; lia|rewrite E in Hc; discriminate Hc|].
  exists b, evs, (length (ops evs)). split; [exact E|split; [reflexivity|exact Hl]].
Defined.

Lemma update_status_stores_releases_witness : exists g',
  gssb_update_status 0 [] None 0 (gssb_boot tt (ram_data 0)) = Ret (CMD_OK, g') /\
  dat_get_system_var 0 (g_dat g') = Ret (4, g_dat g').
Proof.
  destruct (update_status_stores_releases (fun _ => GS_OK) (fun _ => IstageStatus 0 1 0 0 0 0 0) 0
    (gssb_boot tt (ram_data 0))) as (rc & g' & E & _ & Hr).
  - intros a t b. exists tt. reflexivity.
  - cbn. lia.
  - exact (proj1 (ram_data_fp 0)).
  - unfold dat_status_last_address. lia.
  - rewrite decide_True in Hr by (repeat constructor). destruct Hr as (-> & Hg & _).
    exists g'. split; [exact E|exact Hg].
Defined.
End GssbTheorems.
