(* ===== verification/CmdDRP.v ===== *)
(** * Data repository commands

    [src/system/cmdDRP.c]: the handlers that reset, print and set the status
    variables and clear the payload tables. *)
From S2P Require Import Prelude Float32 CStr Config Storage StorageRam Schema RepoData CmdFP.

Module CmdDRP.
Import RepoData CmdFP.

Definition SCH_DRP_MAGIC : Z := 1010.

Section handlers.
Context {S : Type} `{Storage S}.

Definition drp_execute_before_flight (fmt : cstring) (params : option (list Z)) (nparams : Z) : M (dat S) Z :=
  let! r := scan_params params fmt in
  match r with
  | None => ret CMD_SYNTAX_ERROR
  | Some (_, n, vals) =>
      if negb (n =? nparams) then ret CMD_SYNTAX_ERROR else
      match vals with
      | [VInt magic] =>
          if negb (magic =? SCH_DRP_MAGIC) then ret CMD_SYNTAX_ERROR else
          dat_reset_status_vars ;!
          let! now := dat_get_time in
          let! rc := dat_set_system_var dat_rtc_date_time (i32_of now) in
          let! r2 := dat_delete_memory_sections in
          let! rc := cint (rc + r2) in
          let! r3 := dat_reset_fp in
          let! rc := cint (rc + r3) in
          ret (if rc =? 0 then CMD_OK else CMD_ERROR)
      | _ => fail Uninitialized
      end
  end.

Definition drp_reset_payload (fmt : cstring) (params : option (list Z)) (nparams : Z) : M (dat S) Z :=
  let! r := scan_params params fmt in
  match r with
  | None => ret CMD_SYNTAX_ERROR
  | Some (_, n, vals) =>
      if negb (n =? nparams) then ret CMD_SYNTAX_ERROR else
      match vals with
      | [VInt payload; VInt magic] =>
          if (last_sensor <=? payload) || negb (magic =? SCH_DRP_MAGIC) then ret CMD_SYNTAX_ERROR else
          let! rc := dat_delete_payload payload in
          ret (if rc =? SCH_ST_OK then CMD_OK else CMD_ERROR)
      | _ => fail Uninitialized
      end
  end.

(** The number is scanned but not compared with the magic number. *)
Definition drp_reset_status (fmt : cstring) (params : option (list Z)) (nparams : Z) : M (dat S) Z :=
  let! r := scan_params params fmt in
  match r with
  | None => ret CMD_SYNTAX_ERROR
  | Some (_, n, vals) =>
      if negb (n =? nparams) then ret CMD_SYNTAX_ERROR else
      let! rc := dat_reset_status_vars in
      ret (if rc =? SCH_ST_OK then CMD_OK else CMD_ERROR)
  end.

(** The definitions printed, each with its current value. *)
Definition with_value (v : dat_sys_var_t) (value : Z) : dat_sys_var_t :=
  SysVar (var_address v) (var_name v) (var_type v) (var_status v) value.
Definition print_vars : M (dat S) (list dat_sys_var_t) :=
  fold_m dat_status_list (fun out v =>
    let! value := dat_get_status_var (var_address v) in
    ret (out ++ [with_value v value])) [].
Definition drp_print_system_vars (fmt : cstring) (params : option (list Z)) (nparams : Z) : M (dat S) Z :=
  print_vars ;! ret CMD_OK.

(** The [switch] on the type: the [float], or its truncation to [int32_t]. *)
Definition var_from_float (type bits : Z) : M (dat S) Z :=
  if type =? ch_f then ret bits
  else match f32_to_int bits with
       | Some z => ret (u32_of z)
       | None => fail SignedOverflow
       end.

Definition drp_update_sys_var_idx (fmt : cstring) (params : option (list Z)) (nparams : Z) : M (dat S) Z :=
  let! r := scan_params params fmt in
  match r with
  | None => ret CMD_SYNTAX_ERROR
  | Some (_, n, vals) =>
      if negb (n =? nparams) then ret CMD_SYNTAX_ERROR else
      match vals with
      | [VInt address; VFloat value] =>
          let var_address := u32_of address in
          if var_address <? dat_status_last_address then
            let variable_def := dat_get_status_var_def var_address in
            let! variable := var_from_float (var_type variable_def) value in
            let! rc := dat_set_status_var var_address variable in
            ret (if rc =? 0 then CMD_OK else CMD_ERROR)
          else ret CMD_ERROR
      | _ => fail Uninitialized
      end
  end.

(** [sscanf] writes the first word to [name[MAX_VAR_NAME]] even when the
    conversions that follow fail. *)
Definition drp_update_sys_var_name (fmt : cstring) (params : option (list Z)) (nparams : Z) : M (dat S) Z :=
  match params with
  | None => ret CMD_SYNTAX_ERROR
  | Some buf =>
      let! text := lift (cstr_of_buf buf) in
      if MAX_VAR_NAME <? strlen text then ret CMD_SYNTAX_ERROR else
      let! '(n, vals) := lift (sscanf text fmt) in
      (match vals with VStr name :: _ => scan_into name MAX_VAR_NAME | _ => ret tt end) ;!
      if negb (n =? nparams) then ret CMD_SYNTAX_ERROR else
      match vals with
      | [VStr name; VFloat value] =>
          match dat_get_status_var_def_name (Some name) with
          | None => ret CMD_ERROR
          | Some variable_def =>
              let! variable := var_from_float (var_type variable_def) value in
              let! rc := dat_set_status_var (var_address variable_def) variable in
              ret (if rc =? 0 then CMD_OK else CMD_ERROR)
          end
      | _ => fail Uninitialized
      end
  end.

Definition drp_get_sys_var_name (fmt : cstring) (params : option (list Z)) (nparams : Z) : M (dat S) Z :=
  match params with
  | None => ret CMD_SYNTAX_ERROR
  | Some buf =>
      let! text := lift (cstr_of_buf buf) in
      if MAX_VAR_NAME <? strlen text then ret CMD_SYNTAX_ERROR else
      let! '(n, vals) := lift (sscanf text fmt) in
      (match vals with VStr name :: _ => scan_into name MAX_VAR_NAME | _ => ret tt end) ;!
      if negb (n =? nparams) then ret CMD_SYNTAX_ERROR else
      match vals with
      | [VStr name] =>
          match dat_get_status_var_def_name (Some name) with
          | None => ret CMD_ERROR
          | Some variable_def =>
              dat_get_status_var (var_address variable_def) ;! ret CMD_OK
          end
      | _ => fail Uninitialized
      end
  end.

Definition drp_update_hours_alive (fmt : cstring) (params : option (list Z)) (nparams : Z) : M (dat S) Z :=
  let! r := scan_params params fmt in
  match r with
  | None => ret CMD_SYNTAX_ERROR
  | Some (_, n, vals) =>
      if n =? nparams then
        match vals with
        | [VInt value] =>
            let! current := dat_get_system_var dat_obc_hrs_alive in
            let! current := cint (current + value) in
            let! rc := dat_set_system_var dat_obc_hrs_alive current in
            let! current := dat_get_system_var dat_obc_hrs_wo_reset in
            let! current := cint (current + value) in
            let! r2 := dat_set_system_var dat_obc_hrs_wo_reset current in
            let! rc := cint (rc + r2) in
            ret (if rc =? 0 then CMD_OK else CMD_ERROR)
        | _ => fail Uninitialized
        end
      else ret CMD_SYNTAX_ERROR
  end.

Definition drp_clear_gnd_wdt (fmt : cstring) (params : option (list Z)) (nparams : Z) : M (dat S) Z :=
  dat_set_system_var dat_obc_sw_wdt 0 ;! ret CMD_OK.

End handlers.

Definition fmt_set_var : cstring := cs "%d %f".
Definition fmt_set_var_name : cstring := cs "%s %f".

End CmdDRP.

(** ** Theorems *)
Module CmdDRPTheorems.
Import RepoData RepoDataLaws RepoDataTheorems CmdFP CmdDRP.

(** The parameter text of [drp_set_var]: an address and an integer. *)
Definition set_var_text (address n : Z) : list Z :=
  with_nul (print_dec address ++ chr_space :: print_dec n).

(** The scan of [drp_set_var]. *)
Lemma scan_set_var {T} address n (d : T) :
  INT_MIN <= address <= INT_MAX -> - 2 ^ 31 <= n < 2 ^ 31 ->
  exists text, scan_params (Some (set_var_text address n)) fmt_set_var d =
    Ret (Some (text, 2, [VInt address; VFloat (f32_of_ratio (n <? 0) (Z.abs n) 1)]), d).
Proof.
  intros Ha Hn. exists (print_dec address ++ chr_space :: print_dec n).
  assert (is_cstr (print_dec address ++ chr_space :: print_dec n)) as Hc.
  { apply is_cstr_app. unfold INT_MIN, INT_MAX in Ha. split; [apply is_cstr_print_dec; lia|].
    constructor; [unfold chr_space; lia|]. apply is_cstr_print_dec. lia. }
  unfold scan_params, bind, lift, set_var_text, with_nul. rewrite cstr_of_buf_nul by done.
  unfold sscanf, fmt_set_var. change (cs "%d %f") with (kind_fmt KInt ++ [chr_space; chr_percent; 102]).
  change (print_dec address) with (val_text (VInt address)). rewrite scanf_field by done.
  cbn [scanf_loop]. replace (isspace chr_space) with true by done. cbn [skip_space].
  replace (isspace chr_space) with true by done.
  assert (kind_val KInt (VInt n)) as Hk by (cbn; unfold INT_MIN, INT_MAX; lia).
  destruct (kind_val_head KInt (VInt n) Hk) as (c & w & Hw & Hsp). cbn [val_text] in Hw.
  pose proof (scan_float_print n [] Hn I) as Hf. rewrite app_nil_r in Hf. rewrite Hw in *. rewrite skip_space_word by done.
  replace (isspace chr_percent) with false by done. cbn [Z.eqb Pos.eqb chr_percent].
  unfold conv_float. rewrite skip_space_word by done. rewrite Hf. done.
Qed.

Section theorems.
Context {S : Type} `{StorageLaws S}.
Implicit Types (d : dat S).

(** The address of an integer variable of the schema. *)
Definition int_var (address : Z) : Prop :=
  0 <= address < dat_status_last_address /\ var_type (dat_get_status_var_def address) <> ch_f.

Lemma set_var_reply d address n z :
  dat_ok d -> int_var address -> - 2 ^ 31 <= n < 2 ^ 31 ->
  f32_to_int (f32_of_ratio (n <? 0) (Z.abs n) 1) = Some z ->
  exists d', drp_update_sys_var_idx fmt_set_var (Some (set_var_text address n)) 2 d = Ret (CMD_OK, d') /\
    dat_ok d' /\ var d' address = u32_of z /\
    forall j, 0 <= j < dat_status_last_address -> j <> address -> var d' j = var d j.
Proof.
  intros Hok [Ha Ht] Hn Hz. pose proof Hok as [_ Hsz]. unfold dat_status_last_address in Ha.
  destruct (scan_set_var address n d ltac:(unfold INT_MIN, INT_MAX; lia) Hn) as [text E].
  unfold drp_update_sys_var_idx. rewrite (bind_step _ _ _ _ _ E). cbn [negb Z.eqb Pos.eqb].
  rewrite u32_of_id by lia. unfold dat_status_last_address in *. rewrite (proj2 (Z.ltb_lt _ _)) by lia.
  unfold bind at 1, var_from_float. rewrite (proj2 (Z.eqb_neq _ _) Ht), Hz. unfold ret at 1.
  destruct (set_status_ok d address (u32_of z) Hok ltac:(lia) (u32_of_range z))
    as (s' & _ & E2 & Hok' & Hsz' & _ & _ & Hj).
  rewrite (bind_step _ _ _ _ _ E2). exists (set_store s' d). split; [done|]. split; [done|].
  split; [rewrite Hj by lia; by rewrite decide_True|].
  intros j Hb Hne. rewrite Hj by lia. by rewrite decide_False.
Qed.

(** [drp_set_var address n] stores the integer [n] in an integer status
    variable and answers [CMD_OK], for every [n] of at most 24 bits; no other
    variable changes. *)
Theorem drp_set_var_stores_integer d address n :
  dat_ok d -> int_var address -> Z.abs n < 2 ^ 24 ->
  exists d', drp_update_sys_var_idx fmt_set_var (Some (set_var_text address n)) 2 d = Ret (CMD_OK, d') /\
    dat_get_system_var address d' = Ret (n, d') /\
    forall j, 0 <= j < dat_status_last_address -> j <> address -> var d' j = var d j.
Proof.
  intros Hok Hv Hn.
  destruct (set_var_reply d address n n Hok Hv ltac:(lia)) as (d' & E & Hok' & Hs & Ho).
  { rewrite f32_int_exact by lia. f_equal. destruct (n <? 0) eqn:Es; bool_to_prop; lia. }
  exists d'. split; [done|]. split; [|done].
  rewrite get_system_ok by (done || apply Hv). rewrite Hs, i32_of_u32_id; [done|unfold INT_MIN, INT_MAX; lia].
Qed.

(** The value goes through a [float]: an odd number of 25 bits is stored as
    an even one, so [drp_set_var] answers [CMD_OK] and stores another value. *)
Theorem drp_set_var_loses_precision d address n :
  dat_ok d -> int_var address -> 2 ^ 24 < n < 2 ^ 25 -> Z.odd n = true ->
  exists d' m, drp_update_sys_var_idx fmt_set_var (Some (set_var_text address n)) 2 d = Ret (CMD_OK, d') /\
    dat_get_system_var address d' = Ret (2 * m, d') /\ 2 * m <> n.
Proof.
  intros Hok Hv Hn Hodd. destruct (f32_int_odd25 n Hn Hodd) as (m & Hm & Hb).
  assert ((n <? 0) = false) as Hs by (apply Z.ltb_ge; lia).
  destruct (set_var_reply d address n (2 * m) Hok Hv ltac:(lia)) as (d' & E & Hok' & Hst & Ho).
  { by rewrite Hs, Z.abs_eq by lia. }
  exists d', m. split; [done|]. split.
  - rewrite get_system_ok by (done || apply Hv). rewrite Hst, i32_of_u32_id; [done|].
    unfold INT_MIN, INT_MAX. lia.
  - intros <-. by rewrite Z.odd_mul in Hodd.
Qed.

(** The critical commands are guarded: [drp_ebf] without the magic number
    and [drp_reset_payload] without it or for an unknown payload answer
    [CMD_SYNTAX_ERROR] and change nothing. *)
Theorem drp_magic_guards d buf text m payload :
  cstr_of_buf buf = Ret text ->
  (sscanf text (cs "%d") = Ret (1, [VInt m]) -> m <> SCH_DRP_MAGIC ->
   drp_execute_before_flight (cs "%d") (Some buf) 1 d = Ret (CMD_SYNTAX_ERROR, d)) /\
  (sscanf text (cs "%d %d") = Ret (2, [VInt payload; VInt m]) ->
   m <> SCH_DRP_MAGIC \/ last_sensor <= payload ->
   drp_reset_payload (cs "%d %d") (Some buf) 2 d = Ret (CMD_SYNTAX_ERROR, d)).
Proof.
  intros Hb. split; intros E Hm;
    unfold drp_execute_before_flight, drp_reset_payload, scan_params, bind, lift; rewrite Hb, E;
    unfold ret at 1; cbn [negb Z.eqb Pos.eqb].
  - by rewrite (proj2 (Z.eqb_neq _ _) Hm).
  - destruct Hm as [Hm|Hm].
    + rewrite (proj2 (Z.eqb_neq _ _) Hm). by rewrite orb_true_r.
    + by rewrite (proj2 (Z.leb_le _ _) Hm).
Qed.

(** [drp_reset_status] resets every status variable for any number, not
    only for the magic number its documentation asks for. *)
Theorem drp_reset_status_ignores_magic d buf text m :
  dat_ok d -> cstr_of_buf buf = Ret text -> sscanf text (cs "%d") = Ret (1, [VInt m]) ->
  exists d', drp_reset_status (cs "%d") (Some buf) 1 d = Ret (CMD_OK, d') /\
    forall i, 0 <= i < dat_status_last_address -> var d' i = var_value (dat_get_status_var_def i).
Proof.
  intros Hok Hb E. destruct (RepoDataMore.reset_vars_ok d Hok) as (s' & Er & _ & _ & Hv).
  exists (set_store s' d). split; [|done].
  unfold drp_reset_status, scan_params. unfold bind at 1 2, lift. rewrite Hb.
  unfold bind at 1. rewrite E. unfold ret at 1. cbn [negb Z.eqb Pos.eqb].
  by rewrite (bind_step _ _ _ _ _ Er).
Qed.

(** A name of exactly 24 characters passes the length check of
    [drp_get_var_name], but with its terminator it does not fit the buffer:
    the handler writes one byte outside [name[MAX_VAR_NAME]]. *)
Theorem drp_name_overflow d name :
  is_word name -> is_cstr name -> strlen name = MAX_VAR_NAME ->
  drp_get_sys_var_name (cs "%s") (Some (with_nul name)) 1 d = Fault OutOfBounds.
Proof.
  intros Hw Hc Hl. unfold drp_get_sys_var_name, with_nul. unfold bind at 1, lift.
  rewrite cstr_of_buf_nul by done. rewrite Hl, Z.ltb_irrefl.
  change (cs "%s") with (kinds_fmt [KStr]).
  assert (sscanf name (kinds_fmt [KStr]) = Ret (1, [VStr name])) as E.
  { unfold sscanf. change name with (vals_text [VStr name]) at 2.
    rewrite scanf_kinds; [done|]. constructor; [done|constructor]. }
  unfold bind at 1. rewrite E. unfold bind, scan_into. by rewrite Hl.
Qed.

(** [drp_add_hrs_alive h] adds [h] to the hours alive and to the hours
    without reset, and changes nothing else, as long as neither sum leaves the
    range of an [int]. *)
Theorem drp_hours_alive_adds d buf text h :
  dat_ok d -> cstr_of_buf buf = Ret text -> sscanf text (cs "%d") = Ret (1, [VInt h]) ->
  int_ok (i32_of (var d dat_obc_hrs_alive) + h) -> int_ok (i32_of (var d dat_obc_hrs_wo_reset) + h) ->
  exists d', drp_update_hours_alive (cs "%d") (Some buf) 1 d = Ret (CMD_OK, d') /\
    dat_get_system_var dat_obc_hrs_alive d' = Ret (i32_of (var d dat_obc_hrs_alive) + h, d') /\
    dat_get_system_var dat_obc_hrs_wo_reset d' = Ret (i32_of (var d dat_obc_hrs_wo_reset) + h, d') /\
    forall j, 0 <= j < dat_status_last_address -> j <> dat_obc_hrs_alive -> j <> dat_obc_hrs_wo_reset ->
      var d' j = var d j.
Proof.
  intros Hok Hb E H1 H2. pose proof Hok as [_ Hsz].
  unfold drp_update_hours_alive, scan_params. unfold bind at 1 2, lift. rewrite Hb.
  unfold bind at 1. rewrite E. unfold ret at 1. cbn [Z.eqb Pos.eqb].
  rewrite (bind_step _ _ _ _ _ (get_system_ok d dat_obc_hrs_alive Hok ltac:(done))).
  unfold bind at 1. rewrite cint_ok by exact H1. unfold dat_set_system_var.
  unfold dat_status_last_address, dat_obc_hrs_alive, dat_obc_hrs_wo_reset in *.
  destruct (set_status_ok d 2 (u32_of (i32_of (var d 2) + h)) Hok ltac:(lia) (u32_of_range _))
    as (s1 & _ & E1 & Hok1 & Hsz1 & _ & _ & Hv1).
  rewrite (bind_step _ _ _ _ _ E1).
  rewrite (bind_step _ _ _ _ _ (get_system_ok (set_store s1 d) 3 Hok1 ltac:(done))).
  rewrite (Hv1 3) by lia. rewrite decide_False by lia. unfold bind at 1. rewrite cint_ok by exact H2.
  destruct (set_status_ok (set_store s1 d) 3 (u32_of (i32_of (var d 3) + h)) Hok1 ltac:(cbn; lia) (u32_of_range _))
    as (s2 & _ & E2 & Hok2 & Hsz2 & _ & _ & Hv2).
  rewrite (bind_step _ _ _ _ _ E2). rewrite set_store_set in *. exists (set_store s2 d). cbn in Hv2.
  split; [done|]. rewrite !get_system_ok by done. rewrite !Hv2, !Hv1 by lia.
  rewrite !decide_False, !decide_True by lia. rewrite !i32_of_u32_id by done.
  split; [done|]. split; [done|]. intros j Hj Hn2 Hn3. rewrite Hv2, Hv1 by lia. by rewrite !decide_False.
Qed.

End theorems.

(** *** Instances *)
Lemma int_var_hrs : int_var dat_obc_hrs_alive.
Proof. split; [vm_compute; split; [discriminate|reflexivity]|vm_compute; discriminate]. Qed.

Lemma drp_set_var_stores_integer_witness :
  exists d', drp_update_sys_var_idx fmt_set_var (Some (with_nul (cs "2 -1234"))) 2 (ram_data 0) = Ret (CMD_OK, d') /\
    dat_get_system_var 2 d' = Ret (-1234, d').
Proof.
  destruct (drp_set_var_stores_integer (ram_data 0) 2 (-1234)) as (d' & H1 & H2 & _).
  - apply ram_data_fp.
  - apply int_var_hrs.
  - reflexivity.
  - exists d'. split; [exact H1|exact H2].
Defined.

Lemma drp_set_var_loses_precision_witness :
  exists d' m, drp_update_sys_var_idx fmt_set_var (Some (with_nul (cs "2 16777217"))) 2 (ram_data 0) = Ret (CMD_OK, d') /\
    dat_get_system_var 2 d' = Ret (2 * m, d').
Proof.
  destruct (drp_set_var_loses_precision (ram_data 0) 2 16777217) as (d' & m & H1 & H2 & _).
  - apply ram_data_fp.
  - apply int_var_hrs.
  - split; reflexivity.
  - reflexivity.
  - exists d', m. split; [exact H1|exact H2].
Defined.

Lemma drp_magic_guards_witness :
  drp_execute_before_flight (cs "%d") (Some (with_nul (cs "7"))) 1 (ram_data 0) = Ret (CMD_SYNTAX_ERROR, ram_data 0).
Proof.
  destruct (drp_magic_guards (ram_data 0) (with_nul (cs "7")) (cs "7") 7 0) as [H _].
  - reflexivity.
  - apply H; [reflexivity|discriminate].
Defined.

Lemma drp_reset_status_ignores_magic_witness :
  exists d', drp_reset_status (cs "%d") (Some (with_nul (cs "7"))) 1 (ram_data 0) = Ret (CMD_OK, d').
Proof.
  destruct (drp_reset_status_ignores_magic (ram_data 0) (with_nul (cs "7")) (cs "7") 7) as (d' & H & _).
  - apply ram_data_fp.
  - reflexivity.
  - reflexivity.
  - exists d'. exact H.
Defined.

Lemma drp_name_overflow_witness :
  drp_get_sys_var_name (cs "%s") (Some (with_nul (replicate 24 97))) 1 (ram_data 0) = Fault OutOfBounds.
Proof.
  apply (drp_name_overflow (ram_data 0) (replicate 24 97)).
  - apply (bool_decide_unpack _). vm_compute. exact I.
  - apply (bool_decide_unpack _). vm_compute. exact I.
  - reflexivity.
Defined.

Lemma drp_hours_alive_adds_witness :
  exists d', drp_update_hours_alive (cs "%d") (Some (with_nul (cs "5"))) 1 (ram_data 0) = Ret (CMD_OK, d') /\
    dat_get_system_var dat_obc_hrs_alive d' = Ret (5, d').
Proof.
  destruct (drp_hours_alive_adds (ram_data 0) (with_nul (cs "5")) (cs "5") 5) as (d' & H1 & H2 & _).
  - apply ram_data_fp.
  - reflexivity.
  - reflexivity.
  - vm_compute. split; discriminate.
  - vm_compute. split; discriminate.
  - exists d'. split; [exact H1|]. rewrite H2. vm_compute. reflexivity.
Defined.

End CmdDRPTheorems.
