(* ===== verification/Telemetry.v ===== *)
(** * Telemetry and file frames

    The senders of [src/system/cmdCOM.c] ([_com_send_data],
    [com_send_telemetry], [com_send_file], [com_send_file_parts]) and the frame
    structures of [src/system/include/suchai/cmdCOM.h].

    The CSP network library is not part of the sources: its calls are fields
    of the state ([n_connect], [n_buffer], [n_send], [n_close]) that say
    whether each call succeeds, and the packets handed to it are recorded. *)
From S2P Require Import Prelude Memory CStr Config.

Module Telemetry.

Definition COM_FRAME_MAX_LEN : Z := 192.
Definition TM_TYPE_GENERIC : Z := 0.
Definition TM_TYPE_STATUS : Z := 1.
Definition TM_TYPE_HELP : Z := 2.
Definition TM_TYPE_PAYLOAD : Z := 10.
Definition TM_TYPE_FILE_START : Z := 100.
Definition TM_TYPE_FILE_DATA : Z := 101.
Definition TM_TYPE_FILE_END : Z := 102.
Definition TM_TYPE_FILE_PART : Z := 103.
Definition TM_TYPE_FP : Z := 105.
Definition CSP_ERR_NONE : Z := 0.

(** [com_frame_t]: the fields as the host reads them in memory. *)
Record com_frame_t := Frame {
  f_nframe : Z; f_type : Z; f_node : Z; f_ndata : Z; f_data : list Z
}.

(** [com_frame_file_t] *)
Record com_frame_file_t := FileFrame {
  ff_nframe : Z; ff_type : Z; ff_node : Z; ff_fileid : Z; ff_total : Z; ff_data : list Z
}.

Inductive packet :=
  | TmPacket (node port : Z) (f : com_frame_t)
  | FilePacket (node : Z) (f : com_frame_file_t).

(** The network.  The [k]-th attempt to send a packet gets a buffer if
    [n_buffer k] and is sent if [n_send k]; [n_junk] is what a fresh CSP buffer
    holds in its data area. *)
Record net := Net {
  n_connect : bool;
  n_buffer : nat -> bool;
  n_send : nat -> bool;
  n_close : Z;
  n_junk : list Z;
  n_tick : nat;
  n_out : list packet
}.

Definition net_sent (p : packet) (s : net) : net :=
  Net (n_connect s) (n_buffer s) (n_send s) (n_close s) (n_junk s) (Datatypes.S (n_tick s)) (n_out s ++ [p]).
Definition net_failed (s : net) : net :=
  Net (n_connect s) (n_buffer s) (n_send s) (n_close s) (n_junk s) (Datatypes.S (n_tick s)) (n_out s).

(** A buffer and [csp_send]: 0 when there is no buffer or sending fails; [fill]
    builds the packet from the old contents of the buffer. *)
Definition send_packet (fill : list Z -> M net packet) : M net Z :=
  let! s := get in
  if negb (n_buffer s (n_tick s)) then modify net_failed ;! ret 0 else
  let! p := fill (n_junk s) in
  if n_send s (n_tick s) then modify (net_sent p) ;! ret 1
  else modify net_failed ;! ret 0.

(** [memcpy(frame->data, src, n)] into the 192 bytes of the frame. *)
Definition fill_data (junk src : list Z) (n : Z) : M net (list Z) :=
  if zlength src <? n then fail OutOfBounds
  else list_write junk 0 (take (Z.to_nat n) src).

Definition rc_final (rc_send rc_conn : Z) : Z :=
  if (rc_send =? 1) && (rc_conn =? CSP_ERR_NONE) then CMD_OK else CMD_ERROR.

(** [size_t] *)
Definition u64_of (z : Z) : Z := z mod 2 ^ 64.

(** ** [com_send_telemetry]

    The loop [while (n_bytes > 0)]; [None] when the fuel ends first. *)
Fixpoint send_structs (fuel : nat) (node port type size_data structs_per_frame : Z)
    (data : list Z) (n_bytes n_structs nframe rc_send : Z) : M net (option Z) :=
  match fuel with
  | O => ret None
  | Datatypes.S fuel =>
      if 0 <? n_bytes then
        let structs_sent := if n_structs <? structs_per_frame then n_structs else structs_per_frame in
        let bytes_sent := u64_of (structs_sent * size_data) in
        let! rc_send := send_packet (fun junk =>
          let! body := fill_data junk data bytes_sent in
          ret (TmPacket node port
            (Frame (bswap16 (u16_of nframe)) (u8_of type) SCH_COMM_NODE (bswap32 (u32_of structs_sent)) body))) in
        if rc_send =? 0 then ret (Some 0)
        else send_structs fuel node port type size_data structs_per_frame
               (drop (Z.to_nat bytes_sent) data) (u64_of (n_bytes - bytes_sent))
               (n_structs - structs_sent) (nframe + 1) rc_send
      else ret (Some rc_send)
  end.

Definition com_send_telemetry (fuel : nat) (node port type : Z) (data : list Z)
    (n_bytes n_structs n_frame : Z) : M net (option Z) :=
  if u64_of n_structs =? 0 then fail DivByZero else
  let size_data := i32_of (n_bytes / u64_of n_structs) in
  if u64_of size_data =? 0 then fail DivByZero else
  let structs_per_frame := i32_of (COM_FRAME_MAX_LEN / u64_of size_data) in
  let! ok := gets n_connect in
  if negb ok then ret (Some CMD_ERROR) else
  let! r := send_structs fuel node port type size_data structs_per_frame data n_bytes n_structs n_frame 0 in
  match r with
  | None => ret None
  | Some rc_send => let! rc_conn := gets n_close in ret (Some (rc_final rc_send rc_conn))
  end.

(** Debug text, as frames of one-byte structures.  The function is declared
    [int] and has no return statement: the result carries no value. *)
Definition com_send_debug (fuel : nat) (node : Z) (data : list Z) (len : Z) : M net (option unit) :=
  let! r := com_send_telemetry fuel node SCH_TRX_PORT_DBG_TM 0 data len (i32_of len) 0 in
  ret (match r with Some _ => Some tt | None => None end).

(** ** [_com_send_data] *)
Fixpoint send_data_loop (fuel : nat) (node type size_data : Z) (data : list Z)
    (len n_data nframe rc_send : Z) : M net (option Z) :=
  match fuel with
  | O => ret None
  | Datatypes.S fuel =>
      if 0 <? len then
        let sent := if len <? COM_FRAME_MAX_LEN then len else COM_FRAME_MAX_LEN in
        if u64_of size_data =? 0 then fail DivByZero else
        let data_sent := if u64_of n_data <? COM_FRAME_MAX_LEN / u64_of size_data then n_data
                         else Z.quot sent size_data in
        let payload := type =? TM_TYPE_PAYLOAD in
        let ndata := if payload then data_sent else n_data in
        let! rc_send := send_packet (fun junk =>
          let! body := fill_data junk data sent in
          ret (TmPacket node SCH_TRX_PORT_TM
            (Frame (bswap16 (u16_of nframe)) (u8_of type) SCH_COMM_NODE (bswap32 (u32_of ndata)) body))) in
        if rc_send =? 0 then ret (Some 0)
        else send_data_loop fuel node type size_data (drop (Z.to_nat sent) data) (len - sent)
               (if payload then n_data - data_sent else n_data) (nframe + 1) rc_send
      else ret (Some rc_send)
  end.

Definition _com_send_data (fuel : nat) (node : Z) (data : list Z) (len type n_data n_frame : Z)
  : M net (option Z) :=
  let! size_data := (if type =? TM_TYPE_PAYLOAD
                     then (if n_data =? 0 then fail DivByZero else ret (Z.quot (i32_of len) n_data))
                     else ret (i32_of len)) in
  let! ok := gets n_connect in
  if negb ok then fail AssertFail else
  let! r := send_data_loop fuel node type size_data data len n_data n_frame 0 in
  match r with
  | None => ret None
  | Some rc_send => let! rc_conn := gets n_close in ret (Some (rc_final rc_send rc_conn))
  end.

(** ** Files *)
Definition pad_byte : Z := 0xAA.

Fixpoint send_parts_loop (fuel : nat) (node fileid file_parts type : Z) (data : list Z)
    (n_bytes start_part rc_send : Z) : M net (option Z) :=
  match fuel with
  | O => ret None
  | Datatypes.S fuel =>
      if 0 <? n_bytes then
        let bytes_sent := if COM_FRAME_MAX_LEN <=? n_bytes then COM_FRAME_MAX_LEN else n_bytes in
        let! s := get in
        if negb (n_buffer s (n_tick s)) then modify net_failed ;! ret (Some 0) else
        let! body := fill_data (n_junk s) data bytes_sent in
        let! body := list_write body bytes_sent
          (replicate (Z.to_nat (COM_FRAME_MAX_LEN - bytes_sent)) pad_byte) in
        let p := FilePacket node (FileFrame (bswap16 (u16_of start_part)) (u8_of type) SCH_COMM_NODE
                   (bswap16 fileid) (bswap16 (u16_of file_parts)) body) in
        if n_send s (n_tick s) then
          modify (net_sent p) ;!
          send_parts_loop fuel node fileid file_parts type (drop (Z.to_nat bytes_sent) data)
            (n_bytes - bytes_sent) (start_part + 1) 1
        else modify net_failed ;! ret (Some (-1))
      else ret (Some rc_send)
  end.

(** [conn_prev] says whether the caller has a connection.  The loop returns
    [-1] when [csp_send] fails, in which case the function returns at once. *)
Definition com_send_file_parts (fuel : nat) (node : Z) (data : option (list Z))
    (n_bytes file_id start_part file_parts type : Z) (conn_prev : bool) : M net (option Z) :=
  match data with
  | None => ret (Some CMD_ERROR)
  | Some data =>
      let! ok := gets n_connect in
      if negb conn_prev && negb ok then ret (Some CMD_ERROR) else
      let! r := send_parts_loop fuel node (u16_of file_id) file_parts type data n_bytes start_part 0 in
      match r with
      | None => ret None
      | Some rc_send =>
          if rc_send =? -1 then ret (Some CMD_ERROR) else
          let! close := gets n_close in
          let rc_conn := if conn_prev then 0 else close in
          ret (Some (rc_final rc_send rc_conn))
      end
  end.

(** [rand_id] is the value of [rand() % USHRT_MAX]. *)
Definition com_send_file (fuel : nat) (rand_id node : Z) (name : option cstring)
    (data : option (list Z)) (n_bytes : Z) : M net (option Z) :=
  match name, data with
  | Some name, Some bytes =>
      let data_frames := i32_of (n_bytes / COM_FRAME_MAX_LEN) in
      let n_data_bytes := i32_of ((n_bytes / COM_FRAME_MAX_LEN) * COM_FRAME_MAX_LEN) in
      let n_tail_bytes := i32_of (n_bytes - n_data_bytes) in
      let fileid := u16_of rand_id in
      let! ok := gets n_connect in
      if negb ok then ret (Some CMD_ERROR) else
      let! rc := com_send_file_parts fuel node (Some (with_nul name)) (strlen name + 1) fileid 0
                   (data_frames + 1) TM_TYPE_FILE_START true in
      let! rc := match rc with
                 | Some r => if negb (r =? 0) && (0 <? n_data_bytes)
                             then com_send_file_parts fuel node data n_data_bytes fileid 1
                                    (data_frames + 1) TM_TYPE_FILE_DATA true
                             else ret (Some r)
                 | None => ret None
                 end in
      let! rc := match rc with
                 | Some r => if negb (r =? 0)
                             then com_send_file_parts fuel node (Some (drop (Z.to_nat n_data_bytes) bytes))
                                    (u64_of n_tail_bytes) fileid (data_frames + 1) (data_frames + 1)
                                    TM_TYPE_FILE_END true
                             else ret (Some r)
                 | None => ret None
                 end in
      match rc with
      | None => ret None
      | Some rc_send => let! rc_conn := gets n_close in ret (Some (rc_final rc_send rc_conn))
      end
  | _, _ => ret (Some CMD_ERROR)
  end.

(** ** Byte order of a buffer of 32-bit words *)
Fixpoint swap_words (bs : list Z) : list Z :=
  match bs with
  | a :: b :: c :: d :: bs => d :: c :: b :: a :: swap_words bs
  | _ => bs
  end.
(** [_hton32_buff] and [_ntoh32_buff] on the first [len] words. *)
Definition _hton32_buff (buff : list Z) (len : Z) : list Z :=
  swap_words (take (Z.to_nat (4 * len)) buff) ++ drop (Z.to_nat (4 * len)) buff.
Definition _ntoh32_buff (buff : list Z) (len : Z) : list Z := _hton32_buff buff len.

End Telemetry.

(** ** The network without losses *)
Module NetLaws.
Import Telemetry.

(** A network on which every call succeeds. *)
Definition net_ok (s : net) : Prop :=
  n_connect s = true /\ (forall k, n_buffer s k = true) /\ (forall k, n_send s k = true) /\
  n_close s = CSP_ERR_NONE /\ zlength (n_junk s) = COM_FRAME_MAX_LEN.

Definition net_after (s : net) (ps : list packet) : net :=
  Net (n_connect s) (n_buffer s) (n_send s) (n_close s) (n_junk s) (n_tick s + length ps)%nat (n_out s ++ ps).

Lemma net_after_nil s : net_after s [] = s.
Proof. destruct s. unfold net_after. cbn. by rewrite Nat.add_0_r, app_nil_r. Qed.
Lemma net_after_app s a b : net_after (net_after s a) b = net_after s (a ++ b).
Proof.
  unfold net_after. cbn. rewrite length_app, Nat.add_assoc, app_assoc. done.
Qed.
Lemma net_sent_after s p : net_sent p s = net_after s [p].
Proof. unfold net_sent, net_after. cbn. by rewrite Nat.add_1_r. Qed.
Lemma net_after_ok s ps : net_ok s -> net_ok (net_after s ps).
Proof. done. Qed.

(** An input for the theorems. *)
Definition good_net : net := Net true (fun _ => true) (fun _ => true) CSP_ERR_NONE (replicate 192 7) 0 [].
Lemma good_net_ok : net_ok good_net.
Proof. by repeat split. Qed.

(** Telemetry of a loss-free network: what [send_packet] and [fill_data] do. *)
Lemma send_packet_ok (fill : list Z -> M net packet) p s :
  net_ok s -> fill (n_junk s) s = Ret (p, s) -> send_packet fill s = Ret (1, net_after s [p]).
Proof.
  intros (Hc & Hb & Hs & _) E. unfold send_packet, bind at 1, get. rewrite Hb. cbn [negb].
  rewrite (bind_step _ _ _ _ _ E), Hs, <- net_sent_after. done.
Qed.

Lemma fill_data_ok (junk src : list Z) n (s : net) :
  zlength junk = COM_FRAME_MAX_LEN -> 0 <= n <= COM_FRAME_MAX_LEN -> n <= zlength src ->
  fill_data junk src n s = Ret (take (Z.to_nat n) src ++ drop (Z.to_nat n) junk, s).
Proof.
  unfold COM_FRAME_MAX_LEN. intros Hj Hn Hs. unfold fill_data. rewrite (proj2 (Z.ltb_ge _ _)) by lia.
  rewrite <- (take_drop (Z.to_nat n) junk) at 1.
  change (take (Z.to_nat n) junk ++ drop (Z.to_nat n) junk) with ([] ++ take (Z.to_nat n) junk ++ drop (Z.to_nat n) junk).
  change 0 with (zlength (@nil Z)) at 1. rewrite list_write_ok; [done|].
  rewrite !length_take. unfold zlength in *. lia.
Qed.

End NetLaws.

(** ** Theorems *)
Module TelemetryTheorems.
Import Telemetry NetLaws.

(** The structures of a frame, as the ground station reads them. *)
Definition frame_structs (size : Z) (f : com_frame_t) : list Z :=
  take (Z.to_nat (bswap32 (f_ndata f) * size)) (f_data f).
Definition frame_number (f : com_frame_t) : Z := bswap16 (f_nframe f).

(** The frames of [n] structures, sent from frame number [nframe] on. *)
Definition framing (size type nframe : Z) (data : list Z) (fs : list com_frame_t) : Prop :=
  concat (map (frame_structs size) fs) = data /\
  map frame_number fs = map u16_of (seqZ nframe (Z.of_nat (length fs))) /\
  Forall (fun f => f_type f = u8_of type /\ f_node f = SCH_COMM_NODE /\
                   1 <= bswap32 (f_ndata f) <= COM_FRAME_MAX_LEN / size /\
                   zlength (f_data f) = COM_FRAME_MAX_LEN) fs.

Lemma framing_cons size type nframe f data1 data2 fs :
  frame_structs size f = data1 -> frame_number f = u16_of nframe ->
  f_type f = u8_of type -> f_node f = SCH_COMM_NODE -> 1 <= bswap32 (f_ndata f) <= COM_FRAME_MAX_LEN / size ->
  zlength (f_data f) = COM_FRAME_MAX_LEN -> framing size type (nframe + 1) data2 fs -> framing size type nframe (data1 ++ data2) (f :: fs).
Proof.
  intros <- Hn Ht Hd Hb Hlen (H1 & H2 & H3). unfold framing. cbn [map concat]. rewrite H1, H2, Hn. splits; [done| |].
  - rewrite (seqZ_cons nframe) by (cbn [length]; lia). cbn [map]. unfold Z.succ. do 3 f_equal. cbn [length]. lia.
  - by constructor.
Qed.

Lemma send_structs_ok fuel node port type size : forall data n nframe rc s,
  net_ok s -> 1 <= size <= COM_FRAME_MAX_LEN -> zlength data = n * size -> 0 <= n -> n * size <= INT_MAX ->
  n < Z.of_nat fuel ->
  exists fs,
    send_structs fuel node port type size (COM_FRAME_MAX_LEN / size) data (n * size) n nframe rc s =
      Ret (Some (if n =? 0 then rc else 1), net_after s (map (TmPacket node port) fs)) /\
    framing size type nframe data fs.
Proof.
  induction fuel as [|fuel IH]; intros data n nframe rc s Hs Hsz Hl Hn Hmax Hf; [lia|].
  cbn [send_structs]. unfold COM_FRAME_MAX_LEN in *.
  destruct (0 <? n * size) eqn:E; bool_to_prop.
  2: { assert (n = 0) as -> by nia. exists []. cbn [map]. rewrite net_after_nil. split; [done|].
       destruct data; [|unfold zlength in Hl; cbn in Hl; lia]. by repeat split. }
  assert (0 < n) by nia.
  assert (1 <= 192 / size <= 192) as Hspf.
  { split; [apply Z.div_le_lower_bound; lia|apply Z.div_le_upper_bound; nia]. }
  assert (192 / size * size <= 192) as Hmul by (rewrite Z.mul_comm; apply Z.mul_div_le; lia).
  set (k := if n <? 192 / size then n else 192 / size).
  assert (k = Z.min n (192 / size)) as Hk by (subst k; case_match; bool_to_prop; lia). clearbody k.
  assert (1 <= k <= 192) as Hk1 by lia. assert (k * size <= 192) as Hk2 by nia.
  assert (k * size <= n * size) as Hk3 by nia.
  assert (u64_of (k * size) = k * size) as -> by (apply Z.mod_small; nia).
  unfold INT_MAX in *.
  assert (u64_of (n * size - k * size) = (n - k) * size) as -> by (unfold u64_of; rewrite Z.mod_small; nia).
  pose proof Hs as (_ & _ & _ & _ & Hj).
  set (body := take (Z.to_nat (k * size)) data ++ drop (Z.to_nat (k * size)) (n_junk s)).
  set (f := Frame (bswap16 (u16_of nframe)) (u8_of type) SCH_COMM_NODE (bswap32 (u32_of k)) body).
  erewrite bind_step.
  2: { apply (send_packet_ok _ (TmPacket node port f)); [done|].
       unfold bind. rewrite fill_data_ok by (unfold COM_FRAME_MAX_LEN; done || nia). done. }
  cbn [Z.eqb].
  destruct (IH (drop (Z.to_nat (k * size)) data) (n - k) (nframe + 1) 1 (net_after s [TmPacket node port f]))
    as (fs & E1 & Hfr); [done|done|unfold zlength in *; rewrite length_drop; nia|lia|nia|lia|].
  exists (f :: fs). rewrite E1, net_after_app. rewrite (proj2 (Z.eqb_neq n 0)) by lia.
  split; [by destruct (n - k =? 0)|].
  rewrite <- (take_drop (Z.to_nat (k * size)) data).
  assert (bswap32 (bswap32 (u32_of k)) = k) as Hsw by (rewrite bswap32_involutive, !u32_of_id; [done|lia|rewrite u32_of_id; lia]).
  apply framing_cons; try done.
  - unfold frame_structs. cbn [f_ndata f_data f]. rewrite Hsw. subst body.
    rewrite take_app_le by (rewrite length_take; unfold zlength in *; nia). by rewrite take_idemp.
  - unfold frame_number. cbn [f_nframe f]. rewrite bswap16_involutive. apply Z.mod_mod. lia.
  - cbn [f_ndata f]. rewrite Hsw. unfold COM_FRAME_MAX_LEN. lia.
  - cbn [f_data f]. subst body. unfold zlength, COM_FRAME_MAX_LEN in *. rewrite length_app, length_take, length_drop. nia.
Qed.

Lemma telemetry_framed fuel node port type data size n nframe s :
  net_ok s -> 1 <= size <= COM_FRAME_MAX_LEN -> zlength data = n * size -> 1 <= n ->
  n * size <= INT_MAX -> n < Z.of_nat fuel ->
  exists fs,
    com_send_telemetry fuel node port type data (zlength data) n nframe s =
      Ret (Some CMD_OK, net_after s (map (TmPacket node port) fs)) /\
    framing size type nframe data fs.
Proof.
  intros Hs Hsz Hl Hn Hmax Hf. unfold COM_FRAME_MAX_LEN, INT_MAX in *. unfold com_send_telemetry.
  assert (n <= 2147483647) by nia.
  assert (u64_of n = n) as -> by (apply Z.mod_small; lia).
  rewrite (proj2 (Z.eqb_neq n 0)) by lia. rewrite Hl. rewrite (Z.mul_comm n size), Z.div_mul, (Z.mul_comm size n) by lia.
  rewrite (i32_of_id size) by (unfold INT_MIN, INT_MAX; lia).
  assert (u64_of size = size) as -> by (apply Z.mod_small; lia).
  rewrite (proj2 (Z.eqb_neq size 0)) by lia.
  assert (i32_of (COM_FRAME_MAX_LEN / size) = COM_FRAME_MAX_LEN / size) as ->.
  { apply i32_of_id. unfold COM_FRAME_MAX_LEN, INT_MIN, INT_MAX.
    split; [apply Z.div_le_lower_bound; lia|apply Z.div_le_upper_bound; lia]. }
  pose proof Hs as (Hc & _ & _ & Hcl & _). unfold bind at 1, gets at 1. rewrite Hc. cbn [negb].
  destruct (send_structs_ok fuel node port type size data n nframe 0 s) as (fs & E & Hfr); try done; try lia.
  exists fs. split; [|done]. rewrite (bind_step _ _ _ _ _ E). rewrite (proj2 (Z.eqb_neq n 0)) by lia.
  unfold bind, gets, ret. cbn [net_after n_close]. by rewrite Hcl.
Qed.

(** Telemetry is sent completely and in order: over a network without
    losses [com_send_telemetry] returns success, and the structures read from
    the frames (number, node, type and count in network byte order) are exactly
    the structures given, with consecutive frame numbers. *)
Theorem com_send_telemetry_frames fuel node port type data size n nframe s :
  net_ok s -> 1 <= size <= COM_FRAME_MAX_LEN -> zlength data = n * size -> 1 <= n ->
  n * size <= INT_MAX -> n < Z.of_nat fuel ->
  exists fs,
    com_send_telemetry fuel node port type data (zlength data) n nframe s =
      Ret (Some CMD_OK, net_after s (map (TmPacket node port) fs)) /\
    framing size type nframe data fs.
Proof. apply telemetry_framed. Qed.

(** 5 structures of 80 bytes: three frames, of 2, 2 and 1 structures. *)
Lemma com_send_telemetry_frames_witness : exists fs,
  com_send_telemetry 10 3 15 1 (replicate 400 65) 400 5 0 good_net =
    Ret (Some CMD_OK, net_after good_net (map (TmPacket 3 15) fs)) /\
  framing 80 1 0 (replicate 400 65) fs.
Proof.
  apply (com_send_telemetry_frames 10 3 15 1 (replicate 400 65) 80 5 0 good_net good_net_ok); by vm_compute.
Defined.

(** Debug text arrives whole, in the frames of the debug port. *)
Theorem com_send_debug_frames fuel node data s :
  net_ok s -> 1 <= zlength data <= INT_MAX -> zlength data < Z.of_nat fuel ->
  exists fs,
    com_send_debug fuel node data (zlength data) s =
      Ret (Some tt, net_after s (map (TmPacket node SCH_TRX_PORT_DBG_TM) fs)) /\
    framing 1 0 0 data fs.
Proof.
  intros Hs Hl Hf. unfold com_send_debug. rewrite i32_of_id by (unfold INT_MIN; lia).
  destruct (telemetry_framed fuel node SCH_TRX_PORT_DBG_TM 0 data 1 (zlength data) 0 s) as (fs & E & Hfr);
    try (unfold COM_FRAME_MAX_LEN; done || lia).
  exists fs. by rewrite (bind_step _ _ _ _ _ E).
Qed.

(** The loop makes no progress when no structure fits a frame. *)
Lemma send_structs_stuck fuel node port type size data : forall n n_bytes nframe rc s,
  net_ok s -> 0 < n -> 0 < n_bytes < 2 ^ 64 ->
  exists s', send_structs fuel node port type size 0 data n_bytes n nframe rc s = Ret (None, s').
Proof.
  induction fuel as [|fuel IH]; intros n n_bytes nframe rc s Hs Hn Hb; [by eexists|].
  cbn [send_structs]. rewrite (proj2 (Z.ltb_lt 0 n_bytes)), (proj2 (Z.ltb_ge n 0)) by lia.
  change (u64_of (0 * size)) with 0. rewrite Z.sub_0_r. cbn [Z.to_nat]. rewrite drop_0.
  assert (u64_of n_bytes = n_bytes) as -> by (apply Z.mod_small; lia).
  pose proof Hs as (_ & _ & _ & _ & Hj).
  erewrite bind_step.
  2: { apply send_packet_ok; [done|]. unfold bind.
       rewrite fill_data_ok by (unfold COM_FRAME_MAX_LEN, zlength in *; done || lia). done. }
  cbn [Z.eqb]. rewrite Z.sub_0_r. by apply IH.
Qed.

(** A structure larger than a frame never fits: [com_send_telemetry] sends
    frames without structures for ever ([structs_per_frame] is 0), as
    [tm_send_fp] would with a larger [fp_container_t]. *)
Theorem com_send_telemetry_oversize_diverges fuel node port type data size n nframe s :
  net_ok s -> COM_FRAME_MAX_LEN < size -> zlength data = n * size -> 1 <= n -> n * size <= INT_MAX ->
  exists s', com_send_telemetry fuel node port type data (zlength data) n nframe s = Ret (None, s').
Proof.
  intros Hs Hsz Hl Hn Hmax. unfold COM_FRAME_MAX_LEN, INT_MAX in *. unfold com_send_telemetry.
  assert (n <= 2147483647 /\ size <= 2147483647) as [? ?] by nia.
  assert (u64_of n = n) as -> by (apply Z.mod_small; lia).
  rewrite (proj2 (Z.eqb_neq n 0)) by lia. rewrite Hl. rewrite (Z.mul_comm n size), Z.div_mul, (Z.mul_comm size n) by lia.
  rewrite (i32_of_id size) by (unfold INT_MIN, INT_MAX; lia).
  assert (u64_of size = size) as -> by (apply Z.mod_small; lia).
  rewrite (proj2 (Z.eqb_neq size 0)) by lia. unfold COM_FRAME_MAX_LEN.
  rewrite (Z.div_small 192) by lia. change (i32_of 0) with 0.
  pose proof Hs as (Hc & _). unfold bind at 1, gets at 1. rewrite Hc. cbn [negb].
  destruct (send_structs_stuck fuel node port type size data n (n * size) nframe 0 s) as (s' & E); try done; try nia.
  exists s'. by rewrite (bind_step _ _ _ _ _ E).
Qed.

Lemma com_send_telemetry_oversize_diverges_witness : exists s',
  com_send_telemetry 100 3 15 1 (replicate 200 65) 200 1 0 good_net = Ret (None, s').
Proof.
  apply (com_send_telemetry_oversize_diverges 100 3 15 1 (replicate 200 65) 200 1 0 good_net good_net_ok);
    by vm_compute.
Defined.

End TelemetryTheorems.
