(* ===== verification/FileTransfer.v ===== *)
(** * File transfer

    The receiver of file frames, [com_receive_file] of
    [src/system/taskCommunications.c] and [tm_parse_file] of
    [src/system/cmdTM.c], and the round trip with [com_send_file]. *)
From S2P Require Import Prelude Memory CStr Config Telemetry.

Module FileRx.
Import Telemetry.

(** The static variables of [tm_parse_file] and the files of the ground
    station; [rx_open] says whether [fopen] succeeds. *)
Record rx := Rx {
  rx_fname : option cstring;
  rx_last_id : Z;
  rx_last_frame : Z;
  rx_files : gmap (list Z) (list Z);
  rx_open : cstring -> bool
}.

Definition bname : cstring := cs "recv_files/".

(** [com_receive_file]: byte order, then the frame is passed on when its type
    is one of the file types. *)
Definition com_receive_file (f : com_frame_file_t) : option com_frame_file_t :=
  let f := FileFrame (bswap16 (ff_nframe f)) (ff_type f) (ff_node f) (bswap16 (ff_fileid f))
             (bswap16 (ff_total f)) (ff_data f) in
  if (TM_TYPE_FILE_START <=? ff_type f) && (ff_type f <=? TM_TYPE_FILE_PART) then Some f else None.

(** [snprintf(dst, n, ...)]: at most [n - 1] characters. *)
Definition snprintf_trunc (n : Z) (s : cstring) : cstring := take (Z.to_nat (n - 1)) s.

Definition idname (f : com_frame_file_t) : cstring := snprintf_trunc 10 (print_dec (ff_fileid f) ++ [95]).

Definition part_name (f : com_frame_file_t) : cstring :=
  snprintf_trunc (strlen bname + 20)
    (bname ++ print_dec (ff_fileid f) ++ [95] ++ print_dec (ff_nframe f) ++ [95]
           ++ print_dec (ff_total f) ++ cs ".part").

(** The number of bytes before the padding at the end. *)
Fixpoint drop_pad (rdata : list Z) : list Z :=
  match rdata with
  | b :: rest => if b =? pad_byte then drop_pad rest else rdata
  | [] => []
  end.
Definition unpad (data : list Z) : list Z := rev (drop_pad (rev data)).

(** The file name of a new file: the received name, with the file id in front
    when a file of that name exists. *)
Definition start_file (f : com_frame_file_t) : M rx unit :=
  let! s := get in
  let! rname := lift (cstr_of_buf (ff_data f)) in
  let expectedfname := bname ++ rname in
  let fname := match rx_files s !! expectedfname with
               | Some _ => bname ++ idname f ++ rname
               | None => expectedfname
               end in
  put (Rx (Some fname) (ff_fileid f) (ff_nframe f) (rx_files s) (rx_open s)).

Definition start_part (f : com_frame_file_t) : M rx unit :=
  modify (fun s => Rx (Some (part_name f)) (ff_fileid f) (ff_nframe f - 1) (rx_files s) (rx_open s)).

(** The data of the frame: appended, or written to a new file for a part. *)
Definition store_data (f : com_frame_file_t) : M rx Z :=
  let type := ff_type f in
  let! s := get in
  match rx_fname s with
  | None => ret CMD_ERROR
  | Some fname =>
      if negb (rx_last_id s =? ff_fileid f) || negb (rx_last_frame s =? ff_nframe f - 1)
      then ret CMD_ERROR else
      let data := if (type =? TM_TYPE_FILE_END) || ((type =? TM_TYPE_FILE_PART) && (ff_nframe f =? ff_total f))
                  then unpad (ff_data f) else ff_data f in
      if negb (rx_open s fname) then ret CMD_ERROR else
      let old := if type =? TM_TYPE_FILE_PART then [] else default [] (rx_files s !! fname) in
      put (Rx (Some fname) (ff_fileid f) (ff_nframe f) (<[fname := old ++ data]> (rx_files s)) (rx_open s)) ;!
      ret CMD_OK
  end.

Definition tm_parse_file (frame : option com_frame_file_t) : M rx Z :=
  match frame with
  | None => ret CMD_SYNTAX_ERROR
  | Some f =>
      let type := ff_type f in
      (if type =? TM_TYPE_FILE_START then start_file f else ret tt) ;!
      (if type =? TM_TYPE_FILE_PART then start_part f else ret tt) ;!
      let! rc := (if (type =? TM_TYPE_FILE_DATA) || (type =? TM_TYPE_FILE_PART) || (type =? TM_TYPE_FILE_END)
                  then store_data f else ret CMD_OK) in
      if negb (rc =? CMD_OK) then ret rc else
      if (type =? TM_TYPE_FILE_END) || (type =? TM_TYPE_FILE_PART) then
        modify (fun s => Rx None 0 0 (rx_files s) (rx_open s)) ;! ret CMD_OK
      else ret CMD_OK
  end.

(** The packets of a transmission, received in order and without loss. *)
Fixpoint receive_all (ps : list packet) : M rx (list Z) :=
  match ps with
  | [] => ret []
  | FilePacket _ f :: ps =>
      let! rcs := (match com_receive_file f with
                   | Some f => let! rc := tm_parse_file (Some f) in ret [rc]
                   | None => ret []
                   end) in
      let! rest := receive_all ps in
      ret (rcs ++ rest)
  | TmPacket _ _ _ :: ps => receive_all ps
  end.

End FileRx.

(** ** What is sent *)
Module FileTx.
Import Telemetry NetLaws FileRx.

(** One frame of a file. *)
Definition file_frame (fileid total type part : Z) (chunk : list Z) : com_frame_file_t :=
  FileFrame (bswap16 (u16_of part)) (u8_of type) SCH_COMM_NODE (bswap16 fileid) (bswap16 (u16_of total))
    (chunk ++ replicate (192 - length chunk) pad_byte).

(** The frames of [data], in chunks of 192 bytes; [fuel] bounds their number. *)
Fixpoint file_frames (fuel : nat) (fileid total type part : Z) (data : list Z) : list com_frame_file_t :=
  match fuel, data with
  | Datatypes.S fuel, _ :: _ =>
      file_frame fileid total type part (take 192 data)
        :: file_frames fuel fileid total type (part + 1) (drop 192 data)
  | _, _ => []
  end.

Lemma fill_frame (junk data : list Z) n (s : net) :
  zlength junk = 192 -> 0 <= n <= 192 -> n <= zlength data ->
  bind (fill_data junk data n) (fun body =>
    list_write body n (replicate (Z.to_nat (COM_FRAME_MAX_LEN - n)) pad_byte)) s =
  Ret (take (Z.to_nat n) data ++ replicate (192 - Z.to_nat n) pad_byte, s).
Proof.
  intros Hj Hn Hd. unfold fill_data. rewrite (proj2 (Z.ltb_ge _ _)) by lia.
  set (chunk := take (Z.to_nat n) data).
  assert (length chunk = Z.to_nat n) as Hc by (subst chunk; rewrite length_take; unfold zlength in *; lia).
  assert (junk = [] ++ take (Z.to_nat n) junk ++ drop (Z.to_nat n) junk) as Hjs by (cbn; by rewrite take_drop).
  assert (length (take (Z.to_nat n) junk) = Z.to_nat n) as Hl
    by (rewrite length_take; unfold zlength in *; lia).
  assert (length (drop (Z.to_nat n) junk) = (192 - Z.to_nat n)%nat) as Hd2
    by (rewrite length_drop; unfold zlength in *; lia).
  revert Hjs Hl Hd2. generalize (take (Z.to_nat n) junk) as j1, (drop (Z.to_nat n) junk) as j2.
  intros j1 j2 -> Hl Hd2. unfold bind.
  rewrite (list_write_ok [] j1 j2) by (rewrite Hc, Hl; done). cbn [app].
  replace n with (zlength chunk) at 1 by (unfold zlength; lia).
  rewrite <- (app_nil_r j2). rewrite list_write_ok.
  - rewrite app_nil_r. unfold COM_FRAME_MAX_LEN. by replace (Z.to_nat (192 - n)) with (192 - Z.to_nat n)%nat by lia.
  - rewrite length_replicate. unfold COM_FRAME_MAX_LEN. lia.
Qed.

(** The loop sends exactly the frames of the first [n_bytes] bytes. *)
Lemma send_parts_loop_ok fuel : forall node fileid total type data n_bytes part rc s,
  net_ok s -> 0 <= n_bytes <= zlength data -> n_bytes < Z.of_nat fuel ->
  send_parts_loop fuel node fileid total type data n_bytes part rc s =
    Ret (Some (if n_bytes =? 0 then rc else 1),
         net_after s (map (FilePacket node) (file_frames fuel fileid total type part (take (Z.to_nat n_bytes) data)))).
Proof.
  induction fuel as [|fuel IH]; intros node fileid total type data n_bytes part rc s Hs Hn Hf; [lia|].
  cbn [send_parts_loop]. destruct (0 <? n_bytes) eqn:E0; bool_to_prop.
  2: { assert (n_bytes = 0) as -> by lia. cbn. by rewrite net_after_nil. }
  rewrite (proj2 (Z.eqb_neq n_bytes 0)) by lia.
  set (k := if COM_FRAME_MAX_LEN <=? n_bytes then COM_FRAME_MAX_LEN else n_bytes).
  assert (k = Z.min n_bytes 192) as Hk by (subst k; unfold COM_FRAME_MAX_LEN; case_match; bool_to_prop; lia).
  clearbody k. pose proof Hs as (Hc & Hb & Hsd & Hcl & Hj). unfold bind at 1, get. rewrite Hb. cbn [negb].
  pose proof (fill_frame (n_junk s) data k s Hj ltac:(lia) ltac:(lia)) as Hfill.
  apply bind_inv in Hfill as (b1 & s1 & E1 & E2).
  rewrite (bind_step _ _ _ _ _ E1), (bind_step _ _ _ _ _ E2). rewrite Hsd.
  unfold bind at 1, modify. rewrite net_sent_after.
  rewrite IH; [|by apply net_after_ok|unfold zlength in *; rewrite length_drop; lia|lia].
  rewrite net_after_app. f_equal. f_equal; [by destruct (_ =? 0)|]. f_equal.
  assert (exists x l, take (Z.to_nat n_bytes) data = x :: l) as (x & l & Hxl).
  { destruct data as [|x data]; [unfold zlength in Hn; cbn in Hn; lia|].
    replace (Z.to_nat n_bytes) with (Datatypes.S (Z.to_nat (n_bytes - 1))) by lia. cbn. eauto. }
  cbn [file_frames]. rewrite Hxl. rewrite <- Hxl. cbn [map app]. unfold file_frame. f_equal.
  - rewrite length_take, take_take, length_take. unfold zlength in *.
    replace (192 `min` Z.to_nat n_bytes)%nat with (Z.to_nat k) by lia.
    replace (192 - (192 `min` (Z.to_nat n_bytes `min` length data)))%nat with (192 - Z.to_nat k)%nat by lia.
    done.
  - f_equal. f_equal. rewrite Hk. destruct (Z.le_gt_cases n_bytes 192).
    + rewrite Z.min_l by lia. rewrite Z.sub_diag. cbn [Z.to_nat take].
      symmetry. apply drop_ge. rewrite length_take. lia.
    + rewrite Z.min_r by lia. change (Z.to_nat 192) with 192%nat.
      rewrite take_drop_commute. do 2 f_equal. lia.
Qed.

(** The frames of one call with the caller's connection. *)
Lemma send_file_parts_ok fuel node data n_bytes fileid part total type s :
  net_ok s -> 0 <= n_bytes <= zlength data -> n_bytes < Z.of_nat fuel ->
  com_send_file_parts fuel node (Some data) n_bytes fileid part total type true s =
    Ret (Some (if n_bytes =? 0 then CMD_ERROR else CMD_OK),
         net_after s (map (FilePacket node)
           (file_frames fuel (u16_of fileid) total type part (take (Z.to_nat n_bytes) data)))).
Proof.
  intros Hs Hn Hf. unfold com_send_file_parts, bind at 1, gets. cbn [negb andb].
  rewrite (bind_step _ _ _ _ _ (send_parts_loop_ok fuel node _ total type data n_bytes part 0 s Hs Hn Hf)).
  by destruct (n_bytes =? 0).
Qed.

(** The packets of a whole file: name, whole frames, tail. *)
Definition file_packets (fuel : nat) (fileid node : Z) (name : cstring) (bytes : list Z) : list packet :=
  let n := zlength bytes / 192 in
  let whole := Z.to_nat (n * 192) in
  map (FilePacket node)
    (file_frames fuel fileid (n + 1) TM_TYPE_FILE_START 0 (with_nul name) ++
     file_frames fuel fileid (n + 1) TM_TYPE_FILE_DATA 1 (take whole bytes) ++
     file_frames fuel fileid (n + 1) TM_TYPE_FILE_END (n + 1) (drop whole bytes)).

Lemma file_frames_nil fuel fileid total type part : file_frames fuel fileid total type part [] = [].
Proof. by destruct fuel. Qed.

Lemma div192 n : 0 <= n -> n = 192 * (n / 192) + n mod 192 /\ 0 <= n mod 192 < 192 /\ 0 <= n / 192.
Proof. intros. split; [apply Z.div_mod; lia|]. split; [apply Z.mod_pos_bound; lia|apply Z.div_pos; lia]. Qed.

(** [com_send_file] sends these packets; it reports an error exactly when the
    size is a multiple of the frame size, because the last call has nothing to
    send. *)
Lemma com_send_file_ok fuel rand_id node name bytes s :
  net_ok s -> 0 <= zlength bytes <= INT_MAX -> zlength bytes < Z.of_nat fuel ->
  zlength name + 1 < Z.of_nat fuel ->
  com_send_file fuel rand_id node (Some name) (Some bytes) (zlength bytes) s =
    Ret (Some (if zlength bytes mod 192 =? 0 then CMD_ERROR else CMD_OK),
         net_after s (file_packets fuel (u16_of rand_id) node name bytes)).
Proof.
  intros Hs Hb Hf Hnm. pose proof (div192 (zlength bytes) ltac:(lia)) as (Hd & Hm & Hp).
  unfold com_send_file, COM_FRAME_MAX_LEN. set (q := zlength bytes / 192) in *.
  set (m := zlength bytes mod 192) in *.
  rewrite (i32_of_id q), (i32_of_id (q * 192)) by (unfold INT_MIN, INT_MAX in *; lia).
  rewrite (i32_of_id (zlength bytes - q * 192)) by (unfold INT_MIN, INT_MAX in *; lia).
  replace (zlength bytes - q * 192) with m by lia.
  assert (u64_of m = m) as -> by (apply Z.mod_small; lia).
  assert (u16_of (u16_of rand_id) = u16_of rand_id) as Hu by (apply Z.mod_mod; lia).
  pose proof Hs as (Hc & _ & _ & Hcl & _).
  unfold bind at 1, gets at 1. rewrite Hc. cbn [negb].
  assert (zlength (with_nul name) = zlength name + 1) as Hw.
  { unfold with_nul, zlength. rewrite length_app. cbn. lia. }
  assert (0 <= zlength name) as Hn0 by (unfold zlength; lia).
  assert (strlen name = zlength name) as Hsl by done.
  erewrite bind_step by (apply send_file_parts_ok; [done|rewrite Hsl; lia|rewrite Hsl; lia]).
  rewrite Hu, (proj2 (Z.eqb_neq (strlen name + 1) 0)) by lia. cbn [negb].
  change (negb (CMD_OK =? 0)) with true. cbn [andb].
  rewrite (take_ge (with_nul name)) by (unfold zlength in *; lia).
  set (s1 := net_after s _). assert (net_ok s1) as Hs1 by done.
  assert ((if 0 <? q * 192
           then com_send_file_parts fuel node (Some bytes) (q * 192) (u16_of rand_id) 1 (q + 1) TM_TYPE_FILE_DATA true
           else ret (Some CMD_OK)) s1 =
     Ret (Some CMD_OK, net_after s1 (map (FilePacket node)
       (file_frames fuel (u16_of rand_id) (q + 1) TM_TYPE_FILE_DATA 1 (take (Z.to_nat (q * 192)) bytes))))) as E2.
  { destruct (0 <? q * 192) eqn:E; bool_to_prop.
    - rewrite send_file_parts_ok by (done || lia). rewrite Hu.
      by rewrite (proj2 (Z.eqb_neq (q * 192) 0)) by lia.
    - replace (q * 192) with 0 by lia. cbn [Z.to_nat take]. rewrite file_frames_nil. cbn.
      by rewrite net_after_nil. }
  rewrite (bind_step _ _ _ _ _ E2). change (negb (CMD_OK =? 0)) with true. cbv iota.
  set (s2 := net_after s1 _). assert (net_ok s2) as Hs2 by done.
  erewrite bind_step by (apply send_file_parts_ok; [done|unfold zlength in *; rewrite length_drop; lia|lia]).
  rewrite Hu, (take_ge (drop _ _)) by (rewrite length_drop; unfold zlength in *; lia).
  subst s1 s2. rewrite !net_after_app. unfold bind, gets, ret. cbn [n_close net_after]. rewrite Hcl.
  unfold file_packets. fold q. rewrite !map_app. by destruct (m =? 0).
Qed.

End FileTx.

(** ** What is received *)
Module FileRxLaws.
Import Telemetry NetLaws FileRx FileTx.

Lemma last_drop {A} n (l : list A) : (n < length l)%nat -> last (drop n l) = last l.
Proof.
  intros H. rewrite <- (take_drop n l) at 2. rewrite last_app.
  destruct (last (drop n l)) eqn:E; [done|]. apply last_None in E.
  apply (f_equal length) in E. rewrite length_drop in E. cbn in E. lia.
Qed.

Lemma drop_pad_app a b : drop_pad (replicate a pad_byte ++ b) = drop_pad b.
Proof. induction a; cbn; [done|]. done. Qed.

Lemma unpad_frame data k : last data <> Some pad_byte -> unpad (data ++ replicate k pad_byte) = data.
Proof.
  intros H. unfold unpad. rewrite rev_app_distr, (rev_alt (replicate k pad_byte)).
  change (rev_append (replicate k pad_byte) []) with (reverse (replicate k pad_byte)).
  rewrite reverse_replicate.
  rewrite drop_pad_app. destruct data as [|b data _] using rev_ind; [done|].
  rewrite last_snoc in H. rewrite rev_app_distr. cbn.
  destruct (b =? pad_byte) eqn:E; bool_to_prop; [congruence|].
  cbn [rev]. by rewrite rev_involutive.
Qed.

Lemma drop_pad_le l : (length (drop_pad l) <= length l)%nat.
Proof. induction l; cbn; [done|]. case_match; cbn; lia. Qed.

Lemma unpad_le data k : (length (unpad (data ++ replicate k pad_byte)) <= length data)%nat.
Proof.
  unfold unpad. rewrite length_rev, rev_app_distr, (rev_alt (replicate k pad_byte)).
  change (rev_append (replicate k pad_byte) []) with (reverse (replicate k pad_byte)).
  rewrite reverse_replicate, drop_pad_app. etrans; [apply drop_pad_le|]. by rewrite length_rev.
Qed.

Lemma file_frames_type fuel : forall fileid total type part data,
  Forall (fun f => ff_type f = u8_of type) (file_frames fuel fileid total type part data).
Proof.
  induction fuel; intros; cbn; [constructor|]. destruct data; constructor; [done|]. apply IHfuel.
Qed.

(** The frame the receiver gets. *)
Definition rx_frame (fileid total type part : Z) (chunk : list Z) : com_frame_file_t :=
  FileFrame part type SCH_COMM_NODE fileid total (chunk ++ replicate (192 - length chunk) pad_byte).

Lemma com_receive_file_frame fileid total type part chunk :
  0 <= fileid < 2 ^ 16 -> 0 <= total < 2 ^ 16 -> 0 <= part < 2 ^ 16 ->
  TM_TYPE_FILE_START <= type <= TM_TYPE_FILE_PART ->
  com_receive_file (file_frame fileid total type part chunk) = Some (rx_frame fileid total type part chunk).
Proof.
  intros Hi Ht Hp Hty. unfold com_receive_file, file_frame.
  cbn [ff_nframe ff_type ff_node ff_fileid ff_total ff_data]. rewrite !bswap16_involutive.
  unfold TM_TYPE_FILE_START, TM_TYPE_FILE_PART in *.
  assert (u8_of type = type) as -> by (apply Z.mod_small; lia).
  unfold u16_of. rewrite !Z.mod_mod by lia. rewrite !Z.mod_small by lia.
  by rewrite (proj2 (Z.leb_le 100 type)), (proj2 (Z.leb_le type 103)) by lia.
Qed.

Lemma receive_all_app ps qs s rcs s1 :
  receive_all ps s = Ret (rcs, s1) ->
  receive_all (ps ++ qs) s =
    match receive_all qs s1 with Ret (r, s2) => Ret (rcs ++ r, s2) | Fault f => Fault f end.
Proof.
  revert s rcs. induction ps as [|p ps IH]; intros s rcs H.
  { cbn in H. injection H as <- <-. cbn. by destruct (receive_all qs s) as [[? ?]|]. }
  destruct p as [n port f|n f]; cbn [app receive_all] in *; [by apply IH|].
  apply bind_inv in H as (r1 & s2 & E1 & H). apply bind_inv in H as (r2 & s3 & E2 & H).
  injection H as <- ->. rewrite (bind_step _ _ _ _ _ E1). unfold bind at 1. rewrite (IH _ _ E2).
  destruct (receive_all qs s1) as [[? ?]|]; cbn; [by rewrite app_assoc|done].
Qed.

Lemma receive_one node fileid total type part chunk s rc s1 :
  0 <= fileid < 2 ^ 16 -> 0 <= total < 2 ^ 16 -> 0 <= part < 2 ^ 16 ->
  TM_TYPE_FILE_START <= type <= TM_TYPE_FILE_PART ->
  tm_parse_file (Some (rx_frame fileid total type part chunk)) s = Ret (rc, s1) ->
  receive_all [FilePacket node (file_frame fileid total type part chunk)] s = Ret ([rc], s1).
Proof.
  intros Hi Ht Hp Hty E. cbn [receive_all]. rewrite com_receive_file_frame by done.
  unfold bind. rewrite E. done.
Qed.

(** The first packet names the file. *)
Lemma parse_start fileid total part name files op last_id last_frame fn :
  is_cstr name -> files !! (bname ++ name) = None ->
  tm_parse_file (Some (rx_frame fileid total TM_TYPE_FILE_START part (with_nul name)))
    (Rx fn last_id last_frame files op) =
  Ret (CMD_OK, Rx (Some (bname ++ name)) fileid part files op).
Proof.
  intros Hn Hf. cbn. unfold start_file, bind, get, lift, put, ret. cbn [rx_frame ff_data rx_files].
  unfold with_nul at 1. rewrite <- app_assoc. cbn [app]. rewrite cstr_of_buf_nul by done.
  by rewrite Hf.
Qed.

(** A full data frame is appended. *)
Lemma parse_data fileid total part chunk files op fname :
  length chunk = 192%nat -> op fname = true ->
  tm_parse_file (Some (rx_frame fileid total TM_TYPE_FILE_DATA part chunk))
    (Rx (Some fname) fileid (part - 1) files op) =
  Ret (CMD_OK, Rx (Some fname) fileid part (<[fname := default [] (files !! fname) ++ chunk]> files) op).
Proof.
  intros Hl Ho. unfold rx_frame. rewrite Hl, Nat.sub_diag. cbn [replicate]. rewrite app_nil_r.
  cbn. unfold store_data, bind, get, ret, put. cbn. rewrite !Z.eqb_refl. cbn. by rewrite Ho.
Qed.

(** The last frame is appended without its padding, and closes the file. *)
Lemma parse_end fileid total part chunk files op fname :
  op fname = true ->
  tm_parse_file (Some (rx_frame fileid total TM_TYPE_FILE_END part chunk))
    (Rx (Some fname) fileid (part - 1) files op) =
  Ret (CMD_OK, Rx None 0 0
    (<[fname := default [] (files !! fname) ++ unpad (chunk ++ replicate (192 - length chunk) pad_byte)]> files) op).
Proof.
  intros Ho. unfold rx_frame. cbn. unfold store_data, bind, get, ret, put. cbn.
  rewrite !Z.eqb_refl. cbn. by rewrite Ho.
Qed.

Lemma file_frames_one fuel fileid total type part data :
  data <> [] -> (length data <= 192)%nat -> (0 < fuel)%nat ->
  file_frames fuel fileid total type part data = [file_frame fileid total type part data].
Proof.
  intros Hne Hl Hf. destruct fuel; [lia|]. assert (exists x l, data = x :: l) as (x & l & E) by (destruct data; [done|eauto]).
  cbn [file_frames]. rewrite E at 1. rewrite take_ge, drop_ge by lia. by rewrite file_frames_nil.
Qed.

(** The data frames of a whole number of chunks. *)
Lemma receive_data n : forall fuel node fileid total part data files op fname,
  length data = (n * 192)%nat -> (n <= fuel)%nat -> op fname = true ->
  0 <= fileid < 2 ^ 16 -> 0 <= total < 2 ^ 16 -> 0 <= part -> part + Z.of_nat n <= 2 ^ 16 ->
  receive_all (map (FilePacket node) (file_frames fuel fileid total TM_TYPE_FILE_DATA part data))
    (Rx (Some fname) fileid (part - 1) files op) =
  Ret (replicate n CMD_OK, Rx (Some fname) fileid (part + Z.of_nat n - 1)
    (if decide (data = []) then files else <[fname := default [] (files !! fname) ++ data]> files) op).
Proof.
  induction n as [|n IH]; intros fuel node fileid total part data files op fname Hl Hf Ho Hi Ht Hp Hb.
  { destruct data; [|done]. rewrite file_frames_nil. cbn. by rewrite Z.add_0_r. }
  destruct fuel as [|fuel]; [lia|]. assert (exists x l, data = x :: l) as (x & l & E) by (destruct data; [done|eauto]).
  cbn [file_frames]. rewrite E at 1. cbn [map].
  change (FilePacket node ?f :: ?l) with ([FilePacket node f] ++ l).
  assert (length (take 192 data) = 192%nat) as Ht192 by (rewrite length_take; lia).
  erewrite receive_all_app.
  2: { apply receive_one; try lia; [unfold TM_TYPE_FILE_START, TM_TYPE_FILE_DATA, TM_TYPE_FILE_PART; lia|].
       by apply parse_data. }
  replace (Rx (Some fname) fileid part) with (Rx (Some fname) fileid (part + 1 - 1)) by (f_equal; lia).
  rewrite IH by (try lia; try done; rewrite length_drop; lia).
  rewrite lookup_insert_eq. cbn [default replicate app]. do 2 f_equal.
  assert (data <> []) as Hne by (by rewrite E). rewrite (decide_False (P := data = []) _ _ Hne).
  f_equal; [lia|].
  case_decide as Hd.
  - f_equal. f_equal. rewrite <- (take_drop 192 data) at 2. by rewrite Hd, app_nil_r.
  - unfold id. rewrite insert_insert_eq. f_equal. rewrite <- app_assoc. by rewrite take_drop.
Qed.

End FileRxLaws.

(** ** Theorems *)
Module FileTheorems.
Import Telemetry NetLaws FileRx FileTx FileRxLaws.

(** What the receiver stores for the packets of a file. *)
Lemma receive_file_packets fuel fileid node name bytes files op :
  is_cstr name -> zlength name + 1 <= 192 -> zlength bytes < 192 * 65535 -> zlength bytes < Z.of_nat fuel ->
  zlength bytes mod 192 <> 0 -> 0 <= fileid < 2 ^ 16 ->
  files !! (bname ++ name) = None -> op (bname ++ name) = true ->
  forall fn last_id last_frame, exists rcs,
  receive_all (file_packets fuel fileid node name bytes) (Rx fn last_id last_frame files op) =
    Ret (rcs, Rx None 0 0 (<[bname ++ name := take (Z.to_nat (zlength bytes / 192 * 192)) bytes ++
       unpad (drop (Z.to_nat (zlength bytes / 192 * 192)) bytes ++
              replicate (192 - length (drop (Z.to_nat (zlength bytes / 192 * 192)) bytes)) pad_byte)]> files) op)
  /\ Forall (eq CMD_OK) rcs.
Proof.
  intros Hn Hnl Hbl Hf Hm Hi Hfile Ho fn li lf. unfold file_packets.
  pose proof (div192 (zlength bytes) ltac:(unfold zlength; lia)) as (Hd & Hmr & Hq).
  set (q := zlength bytes / 192) in *. rewrite !map_app.
  set (whole := take _ bytes). set (tail := drop _ bytes).
  assert (length whole = Z.to_nat q * 192)%nat as Hwl
    by (subst whole; rewrite length_take; unfold zlength in *; lia).
  assert (length tail = Z.to_nat (zlength bytes mod 192)) as Htl
    by (subst tail; rewrite length_drop; unfold zlength in *; lia).
  assert (0 < length tail < 192)%nat as Htl' by lia.
  assert (length (with_nul name) <= 192)%nat as Hwn
    by (unfold with_nul, zlength in *; rewrite length_app; cbn; lia).
  assert (with_nul name <> []) as Hwne by (by destruct name).
  assert (tail <> []) as Htne by (intros H0; rewrite H0 in Htl'; cbn in Htl'; lia).
  rewrite (file_frames_one _ _ _ TM_TYPE_FILE_START) by (done || lia).
  rewrite (file_frames_one _ _ _ TM_TYPE_FILE_END) by (done || lia).
  cbn [map].
  erewrite receive_all_app by (apply receive_one; try lia;
    [unfold TM_TYPE_FILE_START, TM_TYPE_FILE_PART; lia|by apply parse_start]).
  change (Rx (Some (bname ++ name)) fileid 0 files op) with (Rx (Some (bname ++ name)) fileid (1 - 1) files op).
  erewrite receive_all_app by (apply (receive_data (Z.to_nat q)); done || lia).
  replace (1 + Z.of_nat (Z.to_nat q) - 1) with (q + 1 - 1) by lia.
  erewrite receive_one; [|lia|lia|lia| |by apply parse_end].
  2: unfold TM_TYPE_FILE_START, TM_TYPE_FILE_END, TM_TYPE_FILE_PART; lia.
  eexists. split.
  - do 2 f_equal. f_equal. case_decide as Hw.
    + by rewrite Hfile, Hw.
    + by rewrite lookup_insert_eq, insert_insert_eq, Hfile.
  - repeat apply Forall_app_2; [by constructor|by apply Forall_replicate|by constructor].
Qed.

(** C14. A file sent with [com_send_file] over a network that loses nothing is
    stored by the receiver under its name with exactly its bytes, when its size
    is not a multiple of the frame size and its last byte is not the padding
    byte 0xAA: the sender reports success, and so does every received frame. *)
Theorem file_transfer_roundtrip fuel rand_id node name bytes s r :
  net_ok s -> n_out s = [] -> is_cstr name -> zlength name + 1 <= 192 ->
  zlength bytes < 192 * 65535 -> zlength bytes mod 192 <> 0 -> last bytes <> Some pad_byte ->
  zlength bytes + 200 < Z.of_nat fuel ->
  rx_files r !! (bname ++ name) = None -> rx_open r (bname ++ name) = true ->
  exists s' rcs,
    com_send_file fuel rand_id node (Some name) (Some bytes) (zlength bytes) s = Ret (Some CMD_OK, s') /\
    receive_all (n_out s') r =
      Ret (rcs, Rx None 0 0 (<[bname ++ name := bytes]> (rx_files r)) (rx_open r)) /\
    Forall (eq CMD_OK) rcs.
Proof.
  intros Hs Hout Hn Hnl Hbl Hm Hlast Hf Hfile Ho. assert (0 <= zlength bytes) by (unfold zlength; lia).
  rewrite com_send_file_ok by (done || (unfold INT_MAX; lia) || lia).
  rewrite (proj2 (Z.eqb_neq _ _) Hm).
  destruct r as [fn li lf files op]. cbn [rx_files rx_open] in *.
  destruct (receive_file_packets fuel (u16_of rand_id) node name bytes files op
              Hn Hnl Hbl ltac:(lia) Hm ltac:(apply Z.mod_pos_bound; lia) Hfile Ho fn li lf) as (rcs & E & HF).
  eexists _, rcs. split; [done|]. split; [|done].
  cbn [net_after n_out]. rewrite Hout, app_nil_l, E. do 4 f_equal.
  pose proof (div192 (zlength bytes) ltac:(lia)) as (Hd & Hmr & Hq).
  rewrite unpad_frame, take_drop; [done|]. 
  rewrite last_drop; [done|]. unfold zlength in *. lia.
Qed.

(** An input for the theorems: an empty disk. *)
Definition empty_disk : rx := Rx None 0 0 ∅ (fun _ => true).

(** 200 bytes: one whole frame and a tail of 8 bytes. *)
Lemma file_transfer_roundtrip_witness : exists s' rcs,
  com_send_file 500 77 3 (Some (cs "a.txt")) (Some (replicate 200 65)) 200 good_net = Ret (Some CMD_OK, s') /\
  receive_all (n_out s') empty_disk =
    Ret (rcs, Rx None 0 0 (<[bname ++ cs "a.txt" := replicate 200 65]> ∅) (fun _ => true)) /\
  Forall (eq CMD_OK) rcs.
Proof.
  apply (file_transfer_roundtrip 500 77 3 (cs "a.txt") (replicate 200 65) good_net empty_disk good_net_ok);
    vm_compute; try done.
  by repeat constructor.
Defined.

(** Trailing bytes 0xAA of a file are taken for padding: the transfer
    reports success at both ends and the stored file is shorter. *)
Theorem file_transfer_strips_trailing_padding fuel rand_id node name bytes s r :
  net_ok s -> n_out s = [] -> is_cstr name -> zlength name + 1 <= 192 ->
  zlength bytes < 192 * 65535 -> zlength bytes mod 192 <> 0 -> last bytes = Some pad_byte ->
  zlength bytes + 200 < Z.of_nat fuel ->
  rx_files r !! (bname ++ name) = None -> rx_open r (bname ++ name) = true ->
  exists s' rcs stored,
    com_send_file fuel rand_id node (Some name) (Some bytes) (zlength bytes) s = Ret (Some CMD_OK, s') /\
    receive_all (n_out s') r =
      Ret (rcs, Rx None 0 0 (<[bname ++ name := stored]> (rx_files r)) (rx_open r)) /\
    Forall (eq CMD_OK) rcs /\ zlength stored < zlength bytes.
Proof.
  intros Hs Hout Hn Hnl Hbl Hm Hlast Hf Hfile Ho. assert (0 <= zlength bytes) by (unfold zlength; lia).
  rewrite com_send_file_ok by (done || (unfold INT_MAX; lia) || lia).
  rewrite (proj2 (Z.eqb_neq _ _) Hm).
  destruct r as [fn li lf files op]. cbn [rx_files rx_open] in *.
  destruct (receive_file_packets fuel (u16_of rand_id) node name bytes files op
              Hn Hnl Hbl ltac:(lia) Hm ltac:(apply Z.mod_pos_bound; lia) Hfile Ho fn li lf) as (rcs & E & HF).
  eexists _, rcs, _. split; [done|]. split; [cbn [net_after n_out]; rewrite Hout, app_nil_l; exact E|].
  split; [done|]. pose proof (div192 (zlength bytes) ltac:(lia)) as (Hd & Hmr & Hq).
  set (w := Z.to_nat (zlength bytes / 192 * 192)) in *.
  assert (last (drop w bytes) = Some pad_byte) as Hl by (rewrite last_drop; [done|unfold zlength in *; lia]).
  apply last_Some in Hl as (front & Hl).
  assert (length (unpad (drop w bytes ++ replicate (192 - length (drop w bytes)) pad_byte)) < length (drop w bytes))%nat.
  { rewrite Hl. rewrite <- app_assoc. change ([pad_byte] ++ replicate ?k pad_byte) with (replicate (Datatypes.S k) pad_byte).
    rewrite length_app. cbn [length]. pose proof (unpad_le front (Datatypes.S (192 - (length front + 1)))). lia. }
  unfold zlength. rewrite length_app, length_take. rewrite length_drop in *. lia.
Qed.

Lemma file_transfer_strips_trailing_padding_witness : exists s' rcs stored,
  com_send_file 500 77 3 (Some (cs "a.bin")) (Some [1; 2; 170; 170]) 4 good_net = Ret (Some CMD_OK, s') /\
  receive_all (n_out s') empty_disk =
    Ret (rcs, Rx None 0 0 (<[bname ++ cs "a.bin" := stored]> ∅) (fun _ => true)) /\
  Forall (eq CMD_OK) rcs /\ zlength stored < 4.
Proof.
  apply (file_transfer_strips_trailing_padding 500 77 3 (cs "a.bin") [1; 2; 170; 170] good_net empty_disk good_net_ok);
    vm_compute; try done.
  by repeat constructor.
Defined.

(** A file whose size is a multiple of the frame size is sent without the
    frame that ends it, and the sender reports an error although every packet
    was sent: [com_send_file_parts] has no byte left for the last call. *)
Theorem com_send_file_multiple_never_ends fuel rand_id node name bytes s :
  net_ok s -> n_out s = [] -> zlength bytes mod 192 = 0 -> zlength bytes <= INT_MAX ->
  zlength bytes < Z.of_nat fuel -> zlength name + 1 < Z.of_nat fuel ->
  exists s',
    com_send_file fuel rand_id node (Some name) (Some bytes) (zlength bytes) s = Ret (Some CMD_ERROR, s') /\
    Forall (fun p => forall n f, p = FilePacket n f -> ff_type f <> TM_TYPE_FILE_END) (n_out s').
Proof.
  intros Hs Hout Hm Hb Hf Hn. assert (0 <= zlength bytes) by (unfold zlength; lia).
  rewrite com_send_file_ok by done. rewrite Hm. cbn [Z.eqb]. eexists. split; [done|].
  cbn [net_after n_out]. rewrite Hout, app_nil_l. unfold file_packets.
  pose proof (div192 (zlength bytes) ltac:(lia)) as (Hd & _).
  rewrite (drop_ge bytes) by (unfold zlength in *; lia). rewrite file_frames_nil, app_nil_r.
  apply Forall_fmap, Forall_app. split; (eapply Forall_impl; [apply file_frames_type|]);
    cbn; intros f Ht n f' [= _ <-]; rewrite Ht; by vm_compute.
Qed.

Lemma com_send_file_multiple_never_ends_witness : exists s',
  com_send_file 500 77 3 (Some (cs "a.bin")) (Some (replicate 192 65)) 192 good_net = Ret (Some CMD_ERROR, s') /\
  Forall (fun p => forall n f, p = FilePacket n f -> ff_type f <> TM_TYPE_FILE_END) (n_out s').
Proof.
  apply (com_send_file_multiple_never_ends 500 77 3 (cs "a.bin") (replicate 192 65) good_net good_net_ok);
    by vm_compute.
Defined.

End FileTheorems.
