(* ===== verification/CmdTM.v ===== *)
(** * Telemetry commands

    [src/system/cmdTM.c]: the handlers that send status variables, payload
    samples, the flight plan, the command list and files, and the handlers of
    the ground station that parse the frames it receives
    ([com_receive_tm] of [src/system/taskCommunications.c]).  [tm_parse_file]
    is in FileTransfer. *)
From S2P Require Import Prelude Memory CStr Config Storage Schema RepoCommand RepoData CmdFP Telemetry FileTransfer.

Module CmdTM.
Import RepoCommand RepoData Telemetry FileRx CmdFP.

Section handlers.
Context {S F : Type} `{Storage S}.

(** The state the handlers use: the data repository, the command repository,
    the network and the files that can be read. *)
Record sat := Sat {
  s_dat : dat S;
  s_cmds : cmd_repo F;
  s_net : net;
  s_files : gmap (list Z) (list Z)
}.
Definition dat_lens : lens sat (dat S) := Lens s_dat (fun d s => Sat d (s_cmds s) (s_net s) (s_files s)).
Definition cmds_lens : lens sat (cmd_repo F) := Lens s_cmds (fun c s => Sat (s_dat s) c (s_net s) (s_files s)).
Definition net_lens : lens sat net := Lens s_net (fun n s => Sat (s_dat s) (s_cmds s) n (s_files s)).
Definition on_dat {A} (m : M (dat S) A) : M sat A := zoom dat_lens m.
Definition on_cmds {A} (m : M (cmd_repo F) A) : M sat A := zoom cmds_lens m.
Definition on_net {A} (m : M net A) : M sat A := zoom net_lens m.

(** ** Status variables

    [dat_sys_var_short_t], packed: the address and the value, in network byte
    order. *)
Definition sizeof_short : Z := 6.
Definition short_bytes (address value : Z) : list Z :=
  le_bytes 2 (bswap16 address) ++ le_bytes 4 (bswap32 value).

Definition pack_status (vars : list dat_sys_var_t) : M sat (list Z) :=
  fold_m vars (fun buff v =>
    let! value := on_dat (dat_get_status_var (var_address v)) in
    ret (buff ++ short_bytes (var_address v) value)) [].

(** [None] when the fuel of the send loop ends. *)
Definition tm_send_status (fuel : nat) (fmt : cstring) (params : option (list Z)) (nparams : Z) : M sat (option Z) :=
  let! r := scan_params params fmt in
  match r with
  | None => ret (Some CMD_SYNTAX_ERROR)
  | Some (_, n, vals) =>
      if negb (n =? nparams) then ret (Some CMD_SYNTAX_ERROR) else
      match vals with
      | [VInt dest_node] =>
          let! status_buff := pack_status dat_status_list in
          on_net (_com_send_data fuel dest_node status_buff (zlength status_buff) TM_TYPE_STATUS dat_status_last_var 0)
      | _ => fail Uninitialized
      end
  end.

Definition tm_send_var (fuel : nat) (fmt : cstring) (params : option (list Z)) (nparams : Z) : M sat (option Z) :=
  let! r := scan_params params fmt in
  match r with
  | None => ret (Some CMD_SYNTAX_ERROR)
  | Some (_, n, vals) =>
      (match vals with [_; VStr name] => scan_into name SCH_CMD_MAX_STR_PARAMS | _ => ret tt end) ;!
      if negb (n =? nparams) then ret (Some CMD_SYNTAX_ERROR) else
      match vals with
      | [VInt dest_node; VStr name] =>
          match dat_get_status_var_def_name (Some name) with
          | None => fail Uninitialized
          | Some system_var =>
              let address := var_address system_var in
              let! value := on_dat (dat_get_status_var address) in
              let status_buff := short_bytes address value in
              on_net (_com_send_data fuel dest_node status_buff (zlength status_buff) TM_TYPE_GENERIC 1 0)
          end
      | _ => fail Uninitialized
      end
  end.

(** The variables printed by [dat_print_system_var]. *)
Definition parse_short (bs : list Z) : dat_sys_var_t :=
  let address := bswap16 (of_le (take 2 bs)) in
  let value := bswap32 (of_le (take 4 (drop 2 bs))) in
  let v := dat_get_status_var_def address in
  SysVar (var_address v) (var_name v) (var_type v) (var_status v) value.

Definition tm_parse_status (params : option com_frame_t) : M sat (Z * list dat_sys_var_t) :=
  match params with
  | None => ret (CMD_SYNTAX_ERROR, [])
  | Some frame =>
      if negb (f_type frame =? TM_TYPE_STATUS) || (COM_FRAME_MAX_LEN / sizeof_short <? f_ndata frame)
      then ret (CMD_SYNTAX_ERROR, []) else
      ret (CMD_OK, map (fun i => parse_short (take 6 (drop (Z.to_nat (sizeof_short * i)) (f_data frame))))
                       (range (f_ndata frame)))
  end.

(** What is printed.  The allocation is of [strlen(data)] bytes and the
    [memset] of [strlen(data + 1)]. *)
Definition tm_parse_string (params : option com_frame_t) : M sat (Z * cstring) :=
  match params with
  | None => ret (CMD_SYNTAX_ERROR, [])
  | Some frame =>
      let! text := lift (cstr_of_buf (f_data frame)) in
      let! text1 := lift (cstr_of_buf (drop 1 (f_data frame))) in
      if strlen text <? strlen text1 then fail OutOfBounds else ret (CMD_OK, text)
  end.

(** ** Payload samples

    The samples [j] of frame [i]: the bytes of the frame and its count. *)
Fixpoint fill_samples (js : list Z) (i spf n_samples index_pay stop payload size : Z) (body : list Z)
  : M sat (list Z * Z) :=
  match js with
  | [] => ret (body, spf)
  | j :: js =>
      let! k := cint (i * spf + j) in
      if n_samples <=? k then ret (body, j) else
      let! back := cint (index_pay - stop) in
      let! total := cint (n_samples + back) in
      let! offset := cint (total - (k + 1)) in
      let! '(_, buff) := on_dat (dat_get_recent_payload_sample payload offset) in
      match buff with
      | None => fail Uninitialized
      | Some bs =>
          let! body := list_write body (j * size) (take (Z.to_nat size) bs) in
          fill_samples js i spf n_samples index_pay stop payload size body
      end
  end.

(** The [for] loop over the frames, with its [break]s; the result is
    [rc_send]. *)
Fixpoint send_sample_frames (frames : list Z) (spf n_samples index_pay stop payload size dest_node rc_send : Z)
  : M sat Z :=
  match frames with
  | [] => ret rc_send
  | i :: frames =>
      let! n := gets s_net in
      if negb (n_buffer n (n_tick n)) then on_net (modify net_failed) ;! ret 0 else
      let! '(body, ndata) := fill_samples (range spf) i spf n_samples index_pay stop payload size
                               (replicate (Z.to_nat COM_FRAME_MAX_LEN) 0) in
      let p := TmPacket dest_node SCH_TRX_PORT_APP
                 (Frame (bswap16 (u16_of i)) (u8_of (TM_TYPE_PAYLOAD + payload)) SCH_COMM_NODE
                    (bswap32 (u32_of ndata)) (_hton32_buff body (COM_FRAME_MAX_LEN / 4))) in
      if n_send n (n_tick n) then
        on_net (modify (net_sent p)) ;!
        send_sample_frames frames spf n_samples index_pay stop payload size dest_node 1
      else on_net (modify net_failed) ;! ret 0
  end.

Definition tm_send_tel_from_to (start stop payload dest_node : Z) : M sat Z :=
  let! schema := arr_get data_map payload in
  let! spf := cdiv COM_FRAME_MAX_LEN (map_size schema) in
  let payload_size := map_size schema in
  let! n_samples := cint (stop - start) in
  let! q := cdiv n_samples spf in
  let! r := cmod n_samples spf in
  let! n_frames := (if negb (r =? 0) then cint (q + 1) else ret q) in
  let! index_pay := on_dat (dat_get_system_var (map_sys_index schema)) in
  let! n := gets s_net in
  if negb (n_connect n) then ret CMD_ERROR else
  let! rc_send := send_sample_frames (range n_frames) spf n_samples index_pay stop payload payload_size dest_node 0 in
  let! n := gets s_net in
  ret (if negb (n_close n =? CSP_ERR_NONE) then CMD_ERROR
       else if rc_send =? 0 then CMD_ERROR else CMD_OK).

(** The handlers below print a sample, or send a range of samples. *)
Definition tm_get_single (fmt : cstring) (params : option (list Z)) (nparams : Z)
  : M sat (Z * list (cstring * (cstring * list Z))) :=
  let! r := scan_params params fmt in
  match r with
  | None => ret (CMD_SYNTAX_ERROR, [])
  | Some (_, n, vals) =>
      if n =? nparams then
        match vals with
        | [VUInt payload; VUInt index] =>
            if last_sensor <=? payload then ret (CMD_SYNTAX_ERROR, []) else
            let! '(rc, buff) := on_dat (dat_get_payload_sample payload (i32_of index)) in
            if rc =? -1 then ret (CMD_ERROR, []) else
            match buff with
            | None => fail Uninitialized
            | Some bs => let! '(_, out) := on_dat (dat_print_payload_struct bs payload) in ret (CMD_OK, out)
            end
        | _ => fail Uninitialized
        end
      else ret (CMD_SYNTAX_ERROR, [])
  end.

(** The sample is printed before the return code is looked at. *)
Definition tm_get_last (fmt : cstring) (params : option (list Z)) (nparams : Z)
  : M sat (Z * list (cstring * (cstring * list Z))) :=
  let! r := scan_params params fmt in
  match r with
  | None => ret (CMD_SYNTAX_ERROR, [])
  | Some (_, n, vals) =>
      if n =? nparams then
        match vals with
        | [VUInt payload] =>
            if last_sensor <=? payload then ret (CMD_SYNTAX_ERROR, []) else
            let! schema := arr_get data_map payload in
            let! index_pay := on_dat (dat_get_system_var (map_sys_index schema)) in
            if index_pay <? 1 then ret (CMD_ERROR, []) else
            let! '(rc, buff) := on_dat (dat_get_recent_payload_sample payload 0) in
            match buff with
            | None => fail Uninitialized
            | Some bs =>
                let! '(_, out) := on_dat (dat_print_payload_struct bs payload) in
                ret (if rc =? -1 then CMD_ERROR else CMD_OK, out)
            end
        | _ => fail Uninitialized
        end
      else ret (CMD_SYNTAX_ERROR, [])
  end.

Definition tm_send_last (fmt : cstring) (params : option (list Z)) (nparams : Z) : M sat Z :=
  let! r := scan_params params fmt in
  match r with
  | None => ret CMD_SYNTAX_ERROR
  | Some (_, n, vals) =>
      if n =? nparams then
        match vals with
        | [VUInt payload; VUInt dest_node] =>
            if last_sensor <=? payload then ret CMD_SYNTAX_ERROR else
            let! schema := arr_get data_map payload in
            let! index_pay := on_dat (dat_get_system_var (map_sys_index schema)) in
            if index_pay <? 1 then ret CMD_ERROR else
            let! spf := cdiv COM_FRAME_MAX_LEN (map_size schema) in
            let spf := if index_pay <? spf then index_pay else spf in
            tm_send_tel_from_to (index_pay - spf) index_pay payload (i32_of dest_node)
        | _ => fail Uninitialized
        end
      else ret CMD_SYNTAX_ERROR
  end.

Definition tm_send_all (fmt : cstring) (params : option (list Z)) (nparams : Z) : M sat Z :=
  let! r := scan_params params fmt in
  match r with
  | None => ret CMD_SYNTAX_ERROR
  | Some (_, n, vals) =>
      if n =? nparams then
        match vals with
        | [VUInt payload; VUInt dest_node] =>
            if last_sensor <=? payload then ret CMD_SYNTAX_ERROR else
            let! schema := arr_get data_map payload in
            let! index_pay := on_dat (dat_get_system_var (map_sys_index schema)) in
            let! index_ack := on_dat (dat_get_system_var (map_sys_ack schema)) in
            tm_send_tel_from_to index_ack index_pay payload (i32_of dest_node)
        | _ => fail Uninitialized
        end
      else ret CMD_SYNTAX_ERROR
  end.

Definition tm_send_from (fmt : cstring) (params : option (list Z)) (nparams : Z) : M sat Z :=
  let! r := scan_params params fmt in
  match r with
  | None => ret CMD_SYNTAX_ERROR
  | Some (_, n, vals) =>
      if n =? nparams then
        match vals with
        | [VUInt payload; VUInt dest_node; VUInt samples] =>
            if last_sensor <=? payload then ret CMD_SYNTAX_ERROR else
            if samples <? 1 then ret CMD_SYNTAX_ERROR else
            let! schema := arr_get data_map payload in
            let! index_pay := on_dat (dat_get_system_var (map_sys_index schema)) in
            let! index_ack := on_dat (dat_get_system_var (map_sys_ack schema)) in
            let des := i32_of (index_ack + samples) in
            let des := if index_pay <? des then index_pay else des in
            tm_send_tel_from_to index_ack des payload (i32_of dest_node)
        | _ => fail Uninitialized
        end
      else ret CMD_SYNTAX_ERROR
  end.

(** The product in the [assert] is of 32 bits. *)
Definition tm_parse_payload (params : option com_frame_t) : M sat Z :=
  match params with
  | None => ret CMD_SYNTAX_ERROR
  | Some frame =>
      let payload := f_type frame - TM_TYPE_PAYLOAD in
      if last_sensor <=? payload then ret CMD_SYNTAX_ERROR else
      let data := _ntoh32_buff (f_data frame) (COM_FRAME_MAX_LEN / 4) in
      let! schema := arr_get data_map payload in
      if COM_FRAME_MAX_LEN <? u32_of (f_ndata frame * map_size schema) then fail AssertFail else
      let! errors := fold_m (range (f_ndata frame)) (fun errors j =>
        let! offset := cint (j * map_size schema) in
        let! rc := on_dat (dat_add_payload_sample
                    (Some (take (Z.to_nat (map_size schema)) (drop (Z.to_nat offset) data))) payload) in
        if rc =? -1 then cint (errors + 1) else ret errors) 0 in
      ret (if 0 <? errors then CMD_ERROR else CMD_OK)
  end.

(** The comparisons are of [uint32_t]. *)
Definition tm_set_ack (fmt : cstring) (params : option (list Z)) (nparams : Z) : M sat Z :=
  let! r := scan_params params fmt in
  match r with
  | None => ret CMD_SYNTAX_ERROR
  | Some (_, n, vals) =>
      if n =? nparams then
        match vals with
        | [VUInt payload; VUInt k_samples] =>
            if last_sensor <=? payload then ret CMD_ERROR else
            if k_samples <? 1 then ret CMD_ERROR else
            let! schema := arr_get data_map payload in
            let! ack_pay := on_dat (dat_get_system_var (map_sys_ack schema)) in
            let! index_pay := on_dat (dat_get_system_var (map_sys_index schema)) in
            if (ack_pay =? -1) || (index_pay =? -1) then ret CMD_ERROR else
            if k_samples <? u32_of ack_pay then ret CMD_ERROR else
            let ack_pay := if u32_of index_pay <? k_samples then index_pay else i32_of k_samples in
            on_dat (dat_set_system_var (map_sys_ack schema) ack_pay) ;! ret CMD_OK
        | _ => fail Uninitialized
        end
      else ret CMD_SYNTAX_ERROR
  end.

(** [cmd_save_all] is called twice; both buffers are lost. *)
Definition tm_send_cmds (fuel : nat) (fmt : cstring) (params : option (list Z)) (nparams : Z) : M sat (option Z) :=
  let! r := scan_params params fmt in
  match r with
  | None => ret (Some CMD_SYNTAX_ERROR)
  | Some (_, n, vals) =>
      if negb (n =? nparams) then ret (Some CMD_SYNTAX_ERROR) else
      match vals with
      | [VInt node] =>
          let! names := on_cmds cmd_save_all in
          let! names2 := on_cmds cmd_save_all in
          let! text := lift (cstr_of_buf names2) in
          on_net (_com_send_data fuel node names (strlen text) TM_TYPE_HELP 1 0)
      | _ => fail Uninitialized
      end
  end.

(** ** Flight plan

    [fp_container_t]: four integers in network byte order and the text of the
    command, 192 bytes.  A null string prints as [(null)]. *)
Definition FP_CMDARGS_MAX_LEN : Z := 192 - 16.
Definition text_of (s : option cstring) : cstring := default (cs "(null)") s.
Definition be32 (z : Z) : list Z := le_bytes 4 (bswap32 (u32_of z)).
Definition fp_container (e : fp_entry) : list Z :=
  be32 (fp_unixtime e) ++ be32 (fp_executions e) ++ be32 (fp_periodical e) ++ be32 (fp_node e) ++
  strncpy_bytes (snprintf_trunc FP_CMDARGS_MAX_LEN (text_of (fp_cmd e) ++ [chr_space] ++ text_of (fp_args e)))
    FP_CMDARGS_MAX_LEN.

(** The containers of the used entries, [fp_entries] at most. *)
Definition collect_fp (fp_entries : Z) : M sat (list (list Z)) :=
  fold_m (range SCH_FP_MAX_ENTRIES) (fun fp_send i =>
    let! '(ok, e) := on_dat (dat_get_fp_st_index i) in
    if ok =? SCH_ST_OK then
      match e with
      | None => fail Uninitialized
      | Some e => ret (if negb (fp_unixtime e =? ST_FP_NULL) && (zlength fp_send <? fp_entries)
                       then fp_send ++ [fp_container e] else fp_send)
      end
    else ret fp_send) [].

(** [junk] is what the array [fp_send[fp_entries]] holds before it is filled:
    entries that are not found are sent as they are. *)
Definition tm_send_fp (fuel : nat) (junk : list (list Z)) (fmt : cstring) (params : option (list Z)) (nparams : Z)
  : M sat (option Z) :=
  let! r := scan_params params fmt in
  match r with
  | None => ret (Some CMD_SYNTAX_ERROR)
  | Some (_, n, vals) =>
      if negb (n =? nparams) then ret (Some CMD_SYNTAX_ERROR) else
      match vals with
      | [VInt node] =>
          let! fp_entries := on_dat (dat_get_system_var dat_fpl_queue) in
          if fp_entries <? 0 then fail OutOfBounds else
          let! found := collect_fp fp_entries in
          let fp_send := concat (found ++ drop (length found) (take (Z.to_nat fp_entries) junk)) in
          on_net (com_send_telemetry fuel node SCH_TRX_PORT_TM TM_TYPE_FP fp_send (192 * fp_entries) fp_entries 0)
      | _ => fail Uninitialized
      end
  end.

(** The line printed for the first container of the frame. *)
Definition read_be32 (bs : list Z) (off : nat) : Z := i32_of (bswap32 (of_le (take 4 (drop off bs)))).
Definition tm_print_fp (params : option com_frame_t) : M sat (Z * cstring) :=
  match params with
  | None => ret (CMD_SYNTAX_ERROR, [])
  | Some frame =>
      let data := f_data frame in
      let! cmd_args := lift (cstr_of_buf (drop 16 data)) in
      let tab := [9] in
      ret (CMD_OK, snprintf_trunc (FP_CMDARGS_MAX_LEN + 50)
        (cmd_args ++ tab ++ print_dec (read_be32 data 0) ++ tab ++ print_dec (read_be32 data 12) ++ tab ++
         print_dec (read_be32 data 4) ++ tab ++ print_dec (read_be32 data 8)))
  end.

(** ** Files

    [tm_dump]: the header line and the fields of each sample that is read;
    [open_ok] says whether [fopen(filename, "w")] succeeds.  The payload is not
    checked. *)
Definition tm_dump (open_ok : bool) (fmt : cstring) (params : option (list Z)) (nparams : Z)
  : M sat (Z * option (cstring * list (list (cstring * list Z)))) :=
  let! r := scan_params params fmt in
  match r with
  | None => ret (CMD_SYNTAX_ERROR, None)
  | Some (_, n, vals) =>
      (match vals with [_; VStr name] => scan_into name SCH_CMD_MAX_STR_PARAMS | _ => ret tt end) ;!
      if negb (n =? nparams) then ret (CMD_SYNTAX_ERROR, None) else
      match vals with
      | [VInt payload_id; VStr _] =>
          if negb open_ok then ret (CMD_ERROR, None) else
          let! schema := arr_get data_map payload_id in
          let header := map (fun c => if c =? chr_space then 44 else c) (map_var_names schema) ++ [44; 10] in
          let! payload_len := on_dat (dat_get_system_var (map_sys_index schema)) in
          let! rows := fold_m (range payload_len) (fun rows i =>
            let! '(rc, buff) := on_dat (dat_get_payload_sample payload_id i) in
            if rc =? 0 then
              match buff with
              | None => fail Uninitialized
              | Some bs => let! '(_, fields) := on_dat (dat_fprint_payload_struct true bs payload_id) in
                           ret (rows ++ [fields])
              end
            else ret rows) [] in
          ret (CMD_OK, Some (header, rows))
      | _ => fail Uninitialized
      end
  end.

(** [basename]: what follows the last slash of a name that does not end in
    one. *)
Fixpoint basename (s : cstring) : cstring :=
  match s with
  | [] => []
  | c :: s' => if (c =? 47) || existsb (Z.eqb 47) s' then basename s' else s
  end.

Definition tm_send_file (fuel : nat) (rand_id : Z) (fmt : cstring) (params : option (list Z)) (nparams : Z)
  : M sat (option Z) :=
  let! r := scan_params params fmt in
  match r with
  | None => ret (Some CMD_SYNTAX_ERROR)
  | Some (_, n, vals) =>
      (match vals with VStr name :: _ => scan_into name SCH_CMD_MAX_STR_PARAMS | _ => ret tt end) ;!
      if n =? nparams then
        match vals with
        | [VStr file_name; VInt node] =>
            let! files := gets s_files in
            match files !! file_name with
            | None => ret (Some CMD_ERROR)
            | Some buffer => on_net (com_send_file fuel rand_id node (Some (basename file_name)) (Some buffer) (zlength buffer))
            end
        | _ => fail Uninitialized
        end
      else ret (Some CMD_SYNTAX_ERROR)
  end.

(** Products and sums with [COM_FRAME_MAX_LEN] are of [size_t]. *)
Definition tm_send_file_parts (fuel : nat) (fmt : cstring) (params : option (list Z)) (nparams : Z)
  : M sat (option Z) :=
  let! r := scan_params params fmt in
  match r with
  | None => ret (Some CMD_SYNTAX_ERROR)
  | Some (_, n, vals) =>
      (match vals with VStr name :: _ => scan_into name SCH_CMD_MAX_STR_PARAMS | _ => ret tt end) ;!
      if negb (n =? nparams) then ret (Some CMD_SYNTAX_ERROR) else
      match vals with
      | [VStr file_name; VInt file_id; VInt start_frame; VInt end_frame; VInt node] =>
          let! files := gets s_files in
          match files !! file_name with
          | None => ret (Some CMD_ERROR)
          | Some bytes =>
              let file_size := zlength bytes in
              let start_byte := i32_of (u64_of (start_frame * COM_FRAME_MAX_LEN)) in
              let! frames := cint (end_frame - start_frame) in
              let read_bytes := u64_of (frames * COM_FRAME_MAX_LEN) in
              let read_bytes := if end_frame <? 0 then file_size
                else if file_size <? u64_of (start_byte + read_bytes) then u64_of (file_size - start_byte)
                else read_bytes in
              if (file_size <? start_byte) || (file_size <? u64_of (start_byte + read_bytes))
              then ret (Some CMD_SYNTAX_ERROR) else
              if start_byte <? 0 then fail OutOfBounds else
              let buffer := take (Z.to_nat read_bytes) (drop (Z.to_nat start_byte) bytes) in
              let total_frames := i32_of (file_size / COM_FRAME_MAX_LEN) in
              let total_frames := total_frames + (if file_size mod COM_FRAME_MAX_LEN =? 0 then 0 else 1) in
              on_net (com_send_file_parts fuel node (Some buffer) read_bytes file_id start_frame
                        (total_frames - 1) TM_TYPE_FILE_PART false)
          end
      | _ => fail Uninitialized
      end
  end.

(** [_filter_file_part_name]: the part files of one file id. *)
Definition part_fmt : cstring := cs "%d_%d_%d.part".
Definition _filter_file_part_name (merging_file_id : Z) (name : cstring) : bool :=
  match sscanf name part_fmt with
  | Ret (3, VInt id :: _) => id =? merging_file_id
  | _ => false
  end.

(** [while(++last != frame)]: the frames reported missing before [frame];
    [None] when the fuel ends. *)
Fixpoint missing_before (fuel : nat) (last frame : Z) (out : list Z) : option (list Z) :=
  match fuel with
  | O => None
  | Datatypes.S fuel => if last + 1 =? frame then Some out
                        else missing_before fuel (last + 1) frame (out ++ [last + 1])
  end.

(** The check for missing frames over the names that [scandir] returns, in
    version order; the numbers reported. *)
Definition missing_step (fuel : nat) (acc : option (Z * Z * list Z)) (name : cstring) : option (Z * Z * list Z) :=
  match acc with
  | None => None
  | Some (last, mx, out) =>
      match sscanf name part_fmt with
      | Ret (3, [VInt _; VInt frame; VInt mx']) =>
          match missing_before fuel last frame out with
          | Some out => Some (frame, mx', out)
          | None => None
          end
      | _ => Some (last, mx, out)
      end
  end.

Definition missing_frames (fuel : nat) (names : list cstring) : option (list Z) :=
  match fold_left (missing_step fuel) names (Some (-1, -1, [])) with
  | None => None
  | Some (last, mx, out) => Some (out ++ seqZ (last + 1) (mx - last))
  end.

(** [tm_merge_file]: the frames reported missing, and the shell command that
    concatenates the parts.  [names] is the directory [recv_files] in version
    order, [system] the shell. *)
Definition merge_cmd (file_id : Z) (file_name : cstring) : cstring :=
  cs "cat $(find -name " ++ [34] ++ print_dec file_id ++ cs "_*.part" ++ [34]
    ++ cs " | sort -V) > recv_files/" ++ file_name.

Definition tm_merge_file (fuel : nat) (names : list cstring) (system : cstring -> Z)
    (fmt : cstring) (params : option (list Z)) (nparams : Z) : M sat (option (Z * list Z)) :=
  let! r := scan_params params fmt in
  match r with
  | None => ret (Some (CMD_SYNTAX_ERROR, []))
  | Some (_, n, vals) =>
      (match vals with VStr name :: _ => scan_into name SCH_CMD_MAX_STR_PARAMS | _ => ret tt end) ;!
      if negb (n =? nparams) then ret (Some (CMD_SYNTAX_ERROR, [])) else
      match vals with
      | [VStr file_name; VInt file_id] =>
          let namelist := List.filter (_filter_file_part_name file_id) names in
          match (match namelist with [] => Some [] | _ => missing_frames fuel namelist end) with
          | None => ret None
          | Some missing =>
              let rc := system (snprintf_trunc (SCH_CMD_MAX_STR_PARAMS - 1) (merge_cmd file_id file_name)) in
              ret (Some (if rc =? 0 then CMD_OK else CMD_ERROR, missing))
          end
      | _ => fail Uninitialized
      end
  end.

(** [tm_list_files]: one text telemetry per directory entry, until one
    fails; [dir] is the directory, [None] when it cannot be opened. *)
Fixpoint send_listing (fuel : nat) (node : Z) (entries : list (cstring * Z)) : M sat (option unit) :=
  match entries with
  | [] => ret (Some tt)
  | (name, size) :: entries =>
      let buff := snprintf_trunc COM_FRAME_MAX_LEN (print_dec size ++ [9; chr_space] ++ name) in
      let! rc := on_net (com_send_telemetry fuel node SCH_TRX_PORT_DBG_TM 0 buff (strlen buff) (strlen buff) 0) in
      match rc with
      | None => ret None
      | Some rc => if negb (rc =? CMD_OK) then ret (Some tt) else send_listing fuel node entries
      end
  end.

Definition tm_list_files (fuel : nat) (dir : cstring -> option (list (cstring * Z)))
    (fmt : cstring) (params : option (list Z)) (nparams : Z) : M sat (option Z) :=
  let! r := scan_params params fmt in
  match r with
  | None => ret (Some CMD_SYNTAX_ERROR)
  | Some (_, n, vals) =>
      (match vals with VStr name :: _ => scan_into name SCH_CMD_MAX_STR_PARAMS | _ => ret tt end) ;!
      if negb (n =? nparams) then ret (Some CMD_SYNTAX_ERROR) else
      match vals with
      | [VStr path; VInt node] =>
          match dir path with
          | None => ret (Some CMD_ERROR)
          | Some entries =>
              let! r := send_listing fuel node entries in
              ret (match r with Some _ => Some CMD_OK | None => None end)
          end
      | _ => fail Uninitialized
      end
  end.

(** ** Reception

    [com_receive_tm]: byte order, and the command that parses the frame. *)
Definition com_receive_tm (f : com_frame_t) : com_frame_t * option cstring :=
  let f := Frame (bswap16 (f_nframe f)) (f_type f) (f_node f) (bswap32 (f_ndata f)) (f_data f) in
  let t := f_type f in
  (f, if t =? TM_TYPE_STATUS then Some (cs "tm_parse_status")
      else if t =? TM_TYPE_HELP then Some (cs "tm_parse_string")
      else if t =? TM_TYPE_FP then Some (cs "tm_print_fp")
      else if (TM_TYPE_PAYLOAD <=? t) && (t <? TM_TYPE_PAYLOAD + last_sensor) then Some (cs "tm_parse_payload")
      else None).

End handlers.
Arguments sat : clear implicits.
End CmdTM.
