(* ===== verification/Downlink.v ===== *)
(** * Theorems on the telemetry commands

    What the satellite sends with the handlers of CmdTM is what the ground
    station reads with the parsers. *)
From S2P Require Import Prelude Memory CStr Config Storage StorageRam Schema RepoCommand RepoData CmdFP.
From S2P Require Import Telemetry FileTransfer CmdTM.

Module DownlinkLaws.
Import RepoCommand RepoData RepoDataLaws RepoDataMore Telemetry NetLaws FileRx CmdFP CmdTM.

(** The only payload of the schema. *)
Definition temp_schema : data_map_t :=
  DataMap (cs "temp_data") sizeof_temp_data dat_drp_idx_temp dat_drp_ack_temp
          (cs "%u %u %f") (cs "sat_index timestamp obc_temp_1").
Lemma arr_temp {T} (s : T) : arr_get data_map temp_sensors s = Ret (temp_schema, s).
Proof. done. Qed.

(** *** Arrays of structures of equal size *)
Lemma chunk_nth (k : nat) (cs : list (list Z)) rest i c :
  Forall (fun c => length c = k) cs -> cs !! i = Some c ->
  take k (drop (k * i) (concat cs ++ rest)) = c.
Proof.
  intros Hl. revert i. induction Hl as [|x cs Hx Hl IH]; intros i Hi; [done|].
  destruct i as [|i]; cbn in Hi.
  - injection Hi as ->. rewrite Nat.mul_0_r, drop_0. cbn. rewrite <- app_assoc, <- Hx. apply take_app_length.
  - rewrite <- (IH i Hi). f_equal. cbn [concat]. rewrite <- app_assoc.
    replace (k * S i)%nat with (length x + k * i)%nat by lia. by rewrite <- drop_drop, drop_app_length.
Qed.

Lemma chunk_map {B} (f : list Z -> B) (k : nat) (cs : list (list Z)) rest :
  Forall (fun c => length c = k) cs ->
  map (fun i => f (take k (drop (Z.to_nat (Z.of_nat k * i)) (concat cs ++ rest)))) (range (zlength cs)) = map f cs.
Proof.
  intros Hl. apply list_eq. intros i. rewrite !list_lookup_fmap. unfold range, zlength.
  destruct (cs !! i) as [c|] eqn:E.
  - rewrite lookup_seqZ_lt by (apply lookup_lt_Some in E; lia). cbn. f_equal. f_equal.
    replace (Z.to_nat (Z.of_nat k * (0 + Z.of_nat i))) with (k * i)%nat by lia. by apply chunk_nth.
  - rewrite lookup_seqZ_ge by (apply lookup_ge_None in E; lia). done.
Qed.

Lemma zlength_concat (k : nat) (cs : list (list Z)) :
  Forall (fun c => length c = k) cs -> length (concat cs) = (k * length cs)%nat.
Proof. induction 1; cbn; [lia|]. rewrite length_app. lia. Qed.

(** *** Status variables *)
Section status.
Context {S F : Type} `{StorageLaws S}.
Implicit Types (s : sat S F).

Definition status_chunks (d : dat S) (vars : list dat_sys_var_t) : list (list Z) :=
  map (fun v => short_bytes (var_address v) (var d (var_address v))) vars.

Lemma on_dat_step {A} (m : M (dat S) A) s a d : m (s_dat s) = Ret (a, d) -> on_dat m s = Ret (a, lset dat_lens d s).
Proof. apply (zoom_step dat_lens). Qed.
Lemma on_dat_pure {A} (m : M (dat S) A) s a : m (s_dat s) = Ret (a, s_dat s) -> on_dat m s = Ret (a, s).
Proof. intros E. rewrite (on_dat_step _ _ _ _ E). by destruct s. Qed.
Lemma on_net_step {A} (m : M net A) s a n : m (s_net s) = Ret (a, n) -> on_net m s = Ret (a, lset net_lens n s).
Proof. apply (zoom_step net_lens). Qed.

Lemma pack_status_ok s vars :
  dat_ok (s_dat s) -> Forall (fun v => 0 <= var_address v < dat_status_last_address) vars ->
  pack_status vars s = Ret (concat (status_chunks (s_dat s) vars), s).
Proof.
  intros Hok Hv. unfold pack_status.
  assert (forall buff, fold_m vars (fun buff v =>
      let! value := on_dat (dat_get_status_var (var_address v)) in
      ret (buff ++ short_bytes (var_address v) value)) buff s =
      Ret (buff ++ concat (status_chunks (s_dat s) vars), s)) as Hgen; [|apply Hgen].
  induction Hv as [|v vars Hv Hvs IH]; intros buff; cbn [fold_m]; [cbn; by rewrite app_nil_r|].
  pose proof Hok as [_ Hsz].
  assert (on_dat (dat_get_status_var (var_address v)) s = Ret (var (s_dat s) (var_address v), s)) as E
    by (apply on_dat_pure, get_status_ok; [done|lia]).
  unfold bind at 1. rewrite (bind_step _ _ _ _ _ E). unfold ret at 1. rewrite IH.
  cbn. by rewrite <- app_assoc.
Qed.

Lemma length_short a v : length (short_bytes a v) = 6%nat.
Proof. unfold short_bytes. by rewrite length_app, !length_le_bytes. Qed.

Lemma parse_short_bytes a v :
  0 <= a < 2 ^ 16 -> 0 <= v < 2 ^ 32 ->
  parse_short (short_bytes a v) =
    let d := dat_get_status_var_def a in SysVar (var_address d) (var_name d) (var_type d) (var_status d) v.
Proof.
  intros Ha Hv. unfold parse_short, short_bytes.
  rewrite take_app_le by (rewrite length_le_bytes; lia).
  rewrite drop_app_ge, length_le_bytes by (rewrite length_le_bytes; lia). cbn [Nat.sub drop].
  rewrite drop_0, !take_ge by (rewrite length_le_bytes; lia).
  rewrite !of_le_bytes. change (8 * Z.of_nat 2) with 16. change (8 * Z.of_nat 4) with 32.
  assert (forall n z, 0 <= of_le (rev (le_bytes n z)) < 2 ^ (8 * Z.of_nat n)) as Hr.
  { intros n z. pose proof (of_le_range (rev (le_bytes n z)) (Forall_rev (is_bytes_le_bytes n z))) as Hb.
    unfold zlength in Hb. by rewrite length_rev, length_le_bytes in Hb. }
  pose proof (Hr 2%nat a). pose proof (Hr 4%nat v).
  rewrite (Z.mod_small (bswap16 a)), (Z.mod_small (bswap32 v)) by assumption.
  rewrite bswap16_involutive, bswap32_involutive.
  unfold u16_of. rewrite Z.mod_small by lia. by rewrite u32_of_id.
Qed.

(** A buffer that fits one frame. *)
Lemma send_data_one fuel node (data : list Z) type n_data (n : net) :
  net_ok n -> (2 <= fuel)%nat -> 0 < zlength data <= COM_FRAME_MAX_LEN -> type <> TM_TYPE_PAYLOAD ->
  _com_send_data fuel node data (zlength data) type n_data 0 n =
    Ret (Some CMD_OK, net_after n [TmPacket node SCH_TRX_PORT_TM
      (Frame (bswap16 0) (u8_of type) SCH_COMM_NODE (bswap32 (u32_of n_data))
         (data ++ drop (length data) (n_junk n)))]).
Proof.
  unfold COM_FRAME_MAX_LEN. intros Hn Hf Hl Ht. pose proof Hn as (Hc & _ & _ & Hcl & Hj).
  unfold _com_send_data. rewrite (proj2 (Z.eqb_neq _ _) Ht). unfold bind at 1, ret at 1.
  rewrite i32_of_id by (unfold INT_MIN, INT_MAX; lia).
  unfold bind at 1, gets at 1. rewrite Hc. cbn [negb].
  destruct fuel as [|[|fuel]]; [lia|lia|]. cbn [send_data_loop].
  rewrite (proj2 (Z.ltb_lt 0 _)) by lia. unfold COM_FRAME_MAX_LEN.
  set (sent := if zlength data <? 192 then zlength data else 192).
  assert (sent = zlength data) as -> by (subst sent; case_match; bool_to_prop; lia).
  assert (u64_of (zlength data) = zlength data) as -> by (apply Z.mod_small; lia).
  rewrite (proj2 (Z.eqb_neq _ 0)) by lia. rewrite (proj2 (Z.eqb_neq _ _) Ht).
  erewrite (bind_step (bind _ _)).
  2: { erewrite bind_step.
       2: { apply send_packet_ok; [done|]. unfold bind.
            rewrite fill_data_ok by (unfold COM_FRAME_MAX_LEN; done || lia). done. }
       cbn [Z.eqb]. rewrite Z.sub_diag. cbn [Z.ltb Z.compare]. done. }
  unfold bind, gets, ret. cbn [net_after n_close]. rewrite Hcl.
  unfold zlength. rewrite Nat2Z.id, take_ge by lia. done.
Qed.

End status.

(** *** Payload samples *)
Section payload.
Context {S F : Type} `{PayloadLaws S}.
Implicit Types (s g : sat S F) (d : dat S).

Definition sample d (k : Z) : list Z := pay_read (store d) temp_sensors k sizeof_temp_data.

(** The samples of a repository have their size. *)
Definition samples_sized d (idx : Z) : Prop :=
  forall k, 0 <= k < idx -> zlength (sample d k) = sizeof_temp_data.

Definition samples d (from n : Z) : list (list Z) := map (sample d) (seqZ from n).

Lemma samples_cons d from n : 0 < n -> samples d from n = sample d from :: samples d (from + 1) (n - 1).
Proof. intros. unfold samples. rewrite seqZ_cons by lia. done. Qed.

(** Filling a frame from its [j]-th sample on, when [c] samples are left. *)
Lemma fill_samples_ok s idx start stop i (m : nat) : forall j c pre rest,
  payload_ok (s_dat s) idx -> samples_sized (s_dat s) idx ->
  0 <= start -> start + (16 * i + j + c) = stop -> stop <= idx -> 0 <= i -> 0 <= j -> 0 <= c ->
  j + Z.of_nat m = 16 -> zlength pre = 12 * j -> zlength rest = 12 * Z.of_nat m ->
  exists rest',
  fill_samples (seqZ j (Z.of_nat m)) i 16 (stop - start) idx stop temp_sensors sizeof_temp_data (pre ++ rest) s =
    Ret ((pre ++ concat (samples (s_dat s) (start + 16 * i + j) (Z.min c (Z.of_nat m))) ++ rest',
          j + Z.min c (Z.of_nat m)), s) /\
  zlength rest' = 12 * (Z.of_nat m - Z.min c (Z.of_nat m)).
Proof.
  induction m as [|m IH]; intros j c pre rest Hp Hsz Hs Hstop Hidx Hi Hj Hc Hjm Hpre Hrest;
    pose proof Hp as (_ & _ & _ & _ & Hir & Him).
  { exists rest. change (Z.of_nat 0) with 0 in *. rewrite Z.min_r by lia. split; [|lia].
    change (seqZ j 0) with (@nil Z). change (samples _ _ 0) with (@nil (list Z)).
    assert (j = 16) as -> by lia. done. }
  rewrite seqZ_cons by lia. cbn [fill_samples].
  unfold INT_MAX in *. unfold bind at 1. rewrite cint_ok by (unfold INT_MIN, INT_MAX; lia).
  destruct (stop - start <=? i * 16 + j) eqn:E; bool_to_prop.
  { assert (c = 0) as -> by lia. rewrite Z.min_l by lia. exists rest. split; [|lia].
    change (samples _ _ 0) with (@nil (list Z)). by rewrite Z.add_0_r. }
  unfold bind at 1. rewrite cint_ok by (unfold INT_MIN, INT_MAX; lia).
  unfold bind at 1. rewrite cint_ok by (unfold INT_MIN, INT_MAX; lia).
  unfold bind at 1. rewrite cint_ok by (unfold INT_MIN, INT_MAX; lia).
  set (off := stop - start + (idx - stop) - (i * 16 + j + 1)).
  pose proof (recent_read (s_dat s) idx off Hp ltac:(subst off; lia)) as Er.
  rewrite (bind_step _ _ _ _ _ (on_dat_pure _ s _ Er)).
  replace (idx - 1 - off) with (start + 16 * i + j) by (subst off; lia). fold (sample (s_dat s) (start + 16 * i + j)).
  set (smp := sample (s_dat s) (start + 16 * i + j)).
  assert (zlength smp = sizeof_temp_data) as Hsl by (apply Hsz; lia).
  rewrite take_ge by (unfold zlength, sizeof_temp_data in *; lia).
  unfold sizeof_temp_data in Hsl.
  rewrite <- (take_drop 12 rest). replace (j * sizeof_temp_data) with (zlength pre) by (unfold sizeof_temp_data; lia).
  unfold bind at 1. rewrite list_write_ok by (rewrite length_take; unfold zlength in *; lia).
  rewrite app_assoc. replace (Z.pred (Z.of_nat (Datatypes.S m))) with (Z.of_nat m) by lia. unfold Z.succ.
  destruct (IH (j + 1) (c - 1) (pre ++ smp) (drop 12 rest)) as (rest' & E' & Hr'); try done; try lia.
  { unfold zlength in *. rewrite length_app. lia. }
  { unfold zlength in *. rewrite length_drop. lia. }
  exists rest'. rewrite E'. replace (Z.min c (Z.of_nat (Datatypes.S m))) with (Z.min (c - 1) (Z.of_nat m) + 1) by lia.
  split; [|lia]. rewrite (samples_cons _ (start + 16 * i + j)) by lia. cbn [concat]. rewrite <- !app_assoc.
  replace (start + 16 * i + (j + 1)) with (start + 16 * i + j + 1) by lia.
  do 3 f_equal; [|lia]. do 3 f_equal. do 2 f_equal. lia.
Qed.

Lemma swap_words_involutive bs : swap_words (swap_words bs) = bs.
Proof.
  assert (forall n bs, (length bs <= n)%nat -> swap_words (swap_words bs) = bs) as Hn.
  { induction n; intros [|a [|b [|c [|e l]]]] Hl; cbn in *; try done; try lia. f_equal. f_equal. f_equal. f_equal. apply IHn. lia. }
  by apply (Hn (length bs)).
Qed.
Lemma length_swap_words bs : length (swap_words bs) = length bs.
Proof.
  assert (forall n bs, (length bs <= n)%nat -> length (swap_words bs) = length bs) as Hn.
  { induction n; intros [|a [|b [|c [|e l]]]] Hl; cbn in *; try done; try lia. rewrite IHn; lia. }
  by apply (Hn (length bs)).
Qed.
Lemma ntoh_hton body : zlength body = 192 -> _ntoh32_buff (_hton32_buff body 48) 48 = body.
Proof.
  intros Hl. unfold _ntoh32_buff, _hton32_buff, zlength in *. change (Z.to_nat (4 * 48)) with 192%nat.
  rewrite (take_ge body), (drop_ge body), app_nil_r by lia.
  rewrite take_ge, drop_ge, app_nil_r by (rewrite length_swap_words; lia). apply swap_words_involutive.
Qed.

(** *** Sending

    The frames of groups of samples, each with the rest of its body; [i] is the
    number of the first. *)
Definition payload_frame (i : Z) (smps : list (list Z)) (rest : list Z) : com_frame_t :=
  Frame (bswap16 (u16_of i)) (u8_of (TM_TYPE_PAYLOAD + temp_sensors)) SCH_COMM_NODE
    (bswap32 (u32_of (zlength smps))) (_hton32_buff (concat smps ++ rest) (COM_FRAME_MAX_LEN / 4)).
Fixpoint payload_frames (i : Z) (parts : list (list (list Z) * list Z)) : list com_frame_t :=
  match parts with
  | [] => []
  | p :: parts => payload_frame i p.1 p.2 :: payload_frames (i + 1) parts
  end.
Definition part_ok (p : list (list Z) * list Z) : Prop :=
  zlength p.1 <= 16 /\ Forall (fun c => length c = 12%nat) p.1 /\ zlength (concat p.1 ++ p.2) = 192.

Lemma zlength_samples d from n : 0 <= n -> zlength (samples d from n) = n.
Proof. intros. unfold zlength, samples. rewrite length_map, length_seqZ. lia. Qed.

Lemma samples_app d from n1 n2 :
  0 <= n1 -> 0 <= n2 -> samples d from (n1 + n2) = samples d from n1 ++ samples d (from + n1) n2.
Proof. intros. unfold samples. by rewrite seqZ_app, map_app by lia. Qed.

Lemma samples_12 d idx from n :
  samples_sized d idx -> 0 <= from -> from + n <= idx -> Forall (fun c => length c = 12%nat) (samples d from n).
Proof.
  intros Hs Hf Hn. apply Forall_fmap, Forall_forall. intros k Hk%elem_of_seqZ. cbn.
  pose proof (Hs k ltac:(lia)) as Hl. unfold zlength, sizeof_temp_data in Hl. lia.
Qed.

Definition sent s (ps : list packet) : sat S F := lset net_lens (net_after (s_net s) ps) s.
Lemma sent_sent s a b : sent (sent s a) b = sent s (a ++ b).
Proof. unfold sent. cbn. by rewrite net_after_app. Qed.
Lemma sent_nil s : sent s [] = s.
Proof. unfold sent. rewrite net_after_nil. by destruct s. Qed.

Lemma send_sample_frames_ok idx start stop dest (m : nat) : forall i c rc s,
  payload_ok (s_dat s) idx -> samples_sized (s_dat s) idx -> net_ok (s_net s) ->
  0 <= start -> 0 <= i -> 0 <= c -> (0 < c -> start + (16 * i + c) = stop) -> stop <= idx ->
  c <= 16 * Z.of_nat m -> 16 * (Z.of_nat m - 1) < c ->
  exists parts,
    send_sample_frames (seqZ i (Z.of_nat m)) 16 (stop - start) idx stop temp_sensors sizeof_temp_data dest rc s =
      Ret (if decide (m = 0%nat) then rc else 1,
           sent s (map (TmPacket dest SCH_TRX_PORT_APP) (payload_frames i parts))) /\
    concat (map fst parts) = samples (s_dat s) (start + 16 * i) c /\ Forall part_ok parts.
Proof.
  induction m as [|m IH]; intros i c rc s Hp Hsz Hn Hs Hi Hc Hstop Hidx Hm1 Hm2.
  { exists []. assert (c = 0) as -> by lia. change (seqZ i (Z.of_nat 0)) with (@nil Z).
    cbn [payload_frames map]. rewrite sent_nil. by repeat split. }
  rewrite seqZ_cons by lia. cbn [send_sample_frames]. pose proof Hn as (_ & Hb & Hsd & _).
  unfold bind at 1, gets. rewrite Hb. cbn [negb]. unfold range.
  change (replicate _ 0) with ([] ++ replicate (Z.to_nat COM_FRAME_MAX_LEN) 0).
  destruct (fill_samples_ok s idx start stop i 16 0 c [] (replicate (Z.to_nat COM_FRAME_MAX_LEN) 0))
    as (rest' & E & Hr'); try done; try lia.
  change (Z.of_nat 16) with 16 in *. rewrite (bind_step _ _ _ _ _ E). rewrite Hsd.
  cbn [app]. rewrite !Z.add_0_r, !Z.add_0_l.
  set (k := Z.min c 16) in *. set (smps := samples (s_dat s) (start + 16 * i) k) in *.
  assert (zlength smps = k) as Hk by (apply zlength_samples; lia).
  set (p := TmPacket _ _ _).
  assert (on_net (modify (net_sent p)) s = Ret (tt, sent s [p])) as Es.
  { unfold sent. rewrite <- net_sent_after. done. }
  rewrite (bind_step _ _ _ _ _ Es). replace (Z.pred (Z.of_nat (Datatypes.S m))) with (Z.of_nat m) by lia.
  assert (part_ok (smps, rest')) as Hpart.
  { assert (Forall (fun c => length c = 12%nat) smps) as H12 by (eapply samples_12; [exact Hsz|lia|lia]).
    split; [cbn; lia|]. split; [done|]. cbn. pose proof (zlength_concat 12 smps H12) as Hcc.
    unfold zlength in *. rewrite length_app. lia. }
  destruct (IH (i + 1) (c - k) 1 (sent s [p])) as (parts & E2 & Hcat & Hparts); try done; try lia.
  exists ((smps, rest') :: parts). unfold Z.succ. rewrite E2, sent_sent. split; [|split].
  - rewrite (decide_False (P := Datatypes.S m = 0%nat)) by done. cbn [map payload_frames app fst snd].
    unfold payload_frame at 1. rewrite Hk. by destruct (decide (m = 0%nat)).
  - cbn [map concat fst]. rewrite Hcat. subst smps. cbn [s_dat sent lset net_lens].
    replace (samples (s_dat s) (start + 16 * i) c) with (samples (s_dat s) (start + 16 * i) (k + (c - k)))
      by (f_equal; lia).
    rewrite samples_app by lia. f_equal. destruct (Z.le_gt_cases c 16).
    + assert (c - k = 0) as -> by lia. done.
    + f_equal. lia.
  - by constructor.
Qed.

(** *** Receiving

    What was appended to the samples of the ground station. *)
Definition appended d d' (idx : Z) (smps : list (list Z)) : Prop :=
  payload_ok d' (idx + zlength smps) /\ samples d' 0 (idx + zlength smps) = samples d 0 idx ++ smps.

Lemma appended_nil d idx : payload_ok d idx -> appended d d idx [].
Proof. intros Hp. unfold appended. change (zlength []) with 0. by rewrite Z.add_0_r, app_nil_r. Qed.
Lemma appended_trans d1 d2 d3 idx a b :
  appended d1 d2 idx a -> appended d2 d3 (idx + zlength a) b -> appended d1 d3 idx (a ++ b).
Proof.
  intros [Hp1 E1] [Hp2 E2]. unfold appended.
  assert (idx + zlength (a ++ b) = idx + zlength a + zlength b) as -> by (unfold zlength; rewrite length_app; lia).
  split; [done|]. by rewrite E2, E1, <- app_assoc.
Qed.

(** There is room for [n] more samples. *)
Definition ground_room (idx n : Z) : Prop := idx + n <= pay_capacity sizeof_temp_data /\ idx + n < INT_MAX.

Lemma add_sample_appended d idx data :
  payload_ok d idx -> ground_room idx 1 -> zlength data = sizeof_temp_data ->
  exists d', dat_add_payload_sample (Some data) temp_sensors d = Ret (0, d') /\ appended d d' idx [data].
Proof.
  intros Hp [Hc Hm] Hl. pose proof Hp as (_ & _ & _ & _ & Hi & _).
  destruct (add_sample_ok d idx data Hp ltac:(lia) ltac:(lia) Hl) as (s' & E & Hp' & Hr & _ & _ & Ho).
  exists (set_store s' d). split; [done|]. split; [done|]. change (zlength [data]) with 1.
  rewrite samples_app by lia. f_equal.
  - unfold samples. apply map_seqZ_ext. intros k Hk. apply Ho; lia.
  - rewrite Z.add_0_l. unfold samples. rewrite seqZ_cons by lia.
    change (seqZ (Z.succ idx) (Z.pred 1)) with (@nil Z). cbn [map]. unfold sample. cbn. by rewrite Hr.
Qed.

Lemma parse_samples g data smps rest (m : nat) : forall d j idx,
  data = concat smps ++ rest -> Forall (fun c => length c = 12%nat) smps -> 0 <= j -> zlength smps <= 16 ->
  j + Z.of_nat m = zlength smps -> payload_ok d idx -> ground_room idx (Z.of_nat m) ->
  exists d',
    fold_m (seqZ j (Z.of_nat m)) (fun errors j =>
        let! offset := cint (j * sizeof_temp_data) in
        let! rc := on_dat (dat_add_payload_sample
                    (Some (take (Z.to_nat sizeof_temp_data) (drop (Z.to_nat offset) data))) temp_sensors) in
        if rc =? -1 then cint (errors + 1) else ret errors) 0 (lset dat_lens d g) =
      Ret (0, lset dat_lens d' g) /\
    appended d d' idx (drop (Z.to_nat j) smps).
Proof.
  induction m as [|m IH]; intros d j idx Hd H12 Hj H16 Hjm Hp [Hr1 Hr2].
  { exists d. change (seqZ j (Z.of_nat 0)) with (@nil Z). split; [done|].
    rewrite drop_ge by (unfold zlength in *; lia). by apply appended_nil. }
  rewrite seqZ_cons by lia. cbn [fold_m]. unfold sizeof_temp_data at 1.
  destruct (lookup_lt_is_Some_2 smps (Z.to_nat j) ltac:(unfold zlength in *; lia)) as [c Hc].
  assert (take 12 (drop (Z.to_nat (j * 12)) data) = c) as Htake.
  { rewrite Hd. replace (Z.to_nat (j * 12)) with (12 * Z.to_nat j)%nat by lia. by apply chunk_nth. }
  assert (length c = 12%nat) as Hlc by (by apply (proj1 (Forall_lookup _ _) H12 (Z.to_nat j))).
  destruct (add_sample_appended d idx c Hp) as (d1 & E1 & Ha1);
    [split; lia|unfold zlength, sizeof_temp_data; lia|].
  unfold bind at 1 2. rewrite cint_ok by (unfold INT_MIN, INT_MAX; lia).
  change (Z.to_nat sizeof_temp_data) with 12%nat. rewrite Htake.
  rewrite (bind_step _ _ _ _ _ (on_dat_step _ (lset dat_lens d g) _ _ E1)). cbn [Z.eqb]. unfold ret at 1.
  replace (Z.pred (Z.of_nat (Datatypes.S m))) with (Z.of_nat m) by lia. unfold Z.succ.
  pose proof Ha1 as [Hp1 _]. change (zlength [c]) with 1 in Hp1.
  destruct (IH d1 (j + 1) (idx + 1) Hd H12 ltac:(lia) H16 ltac:(lia) Hp1 ltac:(split; lia)) as (d' & E2 & Ha2).
  exists d'. split; [exact E2|]. rewrite (drop_S smps c (Z.to_nat j)) by done.
  replace (Z.to_nat (j + 1)) with (Datatypes.S (Z.to_nat j)) in Ha2 by lia.
  apply (appended_trans d d1 d' idx [c]); [done|exact Ha2].
Qed.

(** One frame. *)
Lemma receive_frame g i p idx :
  part_ok p -> payload_ok (s_dat g) idx -> ground_room idx (zlength p.1) ->
  exists f' d', com_receive_tm (payload_frame i p.1 p.2) = (f', Some (cs "tm_parse_payload")) /\
    tm_parse_payload (Some f') g = Ret (CMD_OK, lset dat_lens d' g) /\ appended (s_dat g) d' idx p.1.
Proof.
  destruct p as [smps rest]. cbn [fst snd]. intros (H16 & H12 & Hl) Hp Hr. cbn in H16, Hl.
  destruct (parse_samples g (concat smps ++ rest) smps rest (length smps) (s_dat g) 0 idx) as (d' & E & Ha);
    try done; try lia.
  eexists _, d'. split; [unfold com_receive_tm, payload_frame; cbn [f_nframe f_type f_node f_ndata f_data]; done|].
  split; [|exact Ha].
  cbn [tm_parse_payload f_type f_data f_ndata]. change (u8_of (TM_TYPE_PAYLOAD + temp_sensors) - TM_TYPE_PAYLOAD) with temp_sensors.
  change (last_sensor <=? temp_sensors) with false. cbv iota.
  change (COM_FRAME_MAX_LEN / 4) with 48. rewrite ntoh_hton by done.
  rewrite (bind_step _ _ _ _ _ (arr_temp _)). cbn [temp_schema map_size].
  assert (0 <= zlength smps) by (unfold zlength; lia).
  assert (bswap32 (bswap32 (u32_of (zlength smps))) = zlength smps) as ->.
  { rewrite bswap32_involutive, !u32_of_id; [done|lia|rewrite u32_of_id; lia]. }
  unfold sizeof_temp_data at 1. rewrite u32_of_id by lia. unfold COM_FRAME_MAX_LEN.
  rewrite (proj2 (Z.ltb_ge 192 _)) by lia. unfold range.
  replace g with (lset dat_lens (s_dat g) g) at 1 by (by destruct g).
  rewrite (bind_step _ _ _ _ _ E). done.
Qed.

(** The frames of a pass, received in order: the results of the parser. *)
Fixpoint receive_payload (ps : list packet) : M (sat S F) (list Z) :=
  match ps with
  | TmPacket _ _ f :: ps =>
      let '(f', c) := com_receive_tm f in
      let! rc := (if decide (c = Some (cs "tm_parse_payload")) then tm_parse_payload (Some f') else ret CMD_ERROR) in
      let! rcs := receive_payload ps in
      ret (rc :: rcs)
  | _ :: ps => receive_payload ps
  | [] => ret []
  end.

Lemma receive_payload_ok node port parts : forall i g idx,
  Forall part_ok parts -> payload_ok (s_dat g) idx -> ground_room idx (zlength (concat (map fst parts))) ->
  exists d' rcs, receive_payload (map (TmPacket node port) (payload_frames i parts)) g = Ret (rcs, lset dat_lens d' g) /\
    Forall (eq CMD_OK) rcs /\ appended (s_dat g) d' idx (concat (map fst parts)).
Proof.
  induction parts as [|p parts IH]; intros i g idx Hparts Hp Hr.
  { exists (s_dat g), []. split; [by destruct g|]. split; [done|]. by apply appended_nil. }
  apply Forall_cons in Hparts as [Hpt Hparts].
  assert (zlength (concat (map fst (p :: parts))) = zlength p.1 + zlength (concat (map fst parts))) as Hz
    by (unfold zlength; cbn; rewrite length_app; lia).
  rewrite Hz in Hr. destruct Hr as [Hr1 Hr2]. assert (0 <= zlength (concat (map fst parts))) by (unfold zlength; lia).
  destruct (receive_frame g i p idx Hpt Hp ltac:(split; lia)) as (f' & d1 & E1 & E2 & Ha1).
  cbn [map payload_frames receive_payload]. rewrite E1. rewrite decide_True by done.
  rewrite (bind_step _ _ _ _ _ E2).
  destruct (IH (i + 1) (lset dat_lens d1 g) (idx + zlength p.1) Hparts) as (d' & rcs & E3 & Hrcs & Ha2);
    [apply Ha1|split; lia|].
  rewrite (bind_step _ _ _ _ _ E3). exists d', (CMD_OK :: rcs). split; [done|]. split; [by constructor|].
  cbn [map concat]. by eapply appended_trans.
Qed.

(** A range of samples. *)
Lemma send_range_ok s idx start stop dest :
  payload_ok (s_dat s) idx -> samples_sized (s_dat s) idx -> net_ok (s_net s) ->
  0 <= start < stop -> stop <= idx ->
  exists parts,
    tm_send_tel_from_to start stop temp_sensors dest s =
      Ret (CMD_OK, sent s (map (TmPacket dest SCH_TRX_PORT_APP) (payload_frames 0 parts))) /\
    concat (map fst parts) = samples (s_dat s) start (stop - start) /\ Forall part_ok parts.
Proof.
  intros Hp Hsz Hn Hs Hstop. pose proof Hp as (_ & _ & _ & _ & Hi & Him). unfold INT_MAX in *.
  set (n := stop - start). set (m := (if n mod 16 =? 0 then n / 16 else n / 16 + 1)).
  pose proof (Z.div_mod n 16 ltac:(lia)) as Hdm. pose proof (Z.mod_pos_bound n 16 ltac:(lia)) as Hmb.
  assert (0 < m /\ n <= 16 * m /\ 16 * (m - 1) < n) as (Hm & Hm1 & Hm2).
  { subst m n. destruct (_ =? 0) eqn:E; bool_to_prop; lia. }
  destruct (send_sample_frames_ok idx start stop dest (Z.to_nat m) 0 n 0 s) as (parts & E & Hcat & Hparts);
    try done; try lia.
  exists parts. rewrite Z.mul_0_r, Z.add_0_r in Hcat. split; [|done].
  unfold tm_send_tel_from_to.
  rewrite (bind_step _ _ _ _ _ (arr_temp _)). cbn [temp_schema map_size map_sys_index].
  change (cdiv COM_FRAME_MAX_LEN sizeof_temp_data) with (ret (S := sat S F) 16). unfold bind at 1, ret at 1.
  unfold bind at 1. rewrite cint_ok by (unfold INT_MIN, INT_MAX; lia). fold n.
  unfold cdiv, cmod. cbn [Z.eqb]. unfold bind at 1 2, ret at 1 2.
  rewrite Z.quot_div_nonneg, Z.rem_mod_nonneg by lia.
  assert ((if negb (n mod 16 =? 0) then cint (n / 16 + 1) else ret (n / 16)) s = Ret (m, s)) as Em.
  { subst m. destruct (n mod 16 =? 0); cbn [negb]; [done|].
    rewrite cint_ok by (unfold INT_MIN, INT_MAX; lia). done. }
  rewrite (bind_step _ _ _ _ _ Em).
  rewrite (bind_step _ _ _ _ _ (on_dat_pure _ s _ (idx_read (s_dat s) idx Hp))).
  pose proof Hn as (Hc & _ & _ & Hcl & _). unfold bind at 1, gets at 1. rewrite Hc. cbn [negb].
  unfold range. replace (seqZ 0 m) with (seqZ 0 (Z.of_nat (Z.to_nat m))) by (f_equal; lia).
  rewrite (bind_step _ _ _ _ _ E). rewrite decide_False by lia. cbn [Z.eqb].
  unfold bind, gets, ret. cbn [s_net sent lset net_lens net_after n_close]. rewrite Hcl. done.
Qed.

End payload.
End DownlinkLaws.

(** ** Theorems *)
Module DownlinkTheorems.
Import RepoCommand RepoData RepoDataLaws RepoDataMore RepoDataTheorems Telemetry NetLaws FileRx CmdFP CmdTM DownlinkLaws.

Section status.
Context {S F : Type} `{StorageLaws S}.
Implicit Types (s g : sat S F).

(** The definition of a variable with a value. *)
Definition with_val (v : dat_sys_var_t) (value : Z) : dat_sys_var_t :=
  SysVar (var_address v) (var_name v) (var_type v) (var_status v) value.

Lemma status_defs :
  Forall (fun v => 0 <= var_address v < dat_status_last_address /\ dat_get_status_var_def (var_address v) = v) dat_status_list.
Proof. apply (bool_decide_unpack _). vm_compute. exact I. Qed.

(** The status of the satellite reaches the ground: [tm_send_status]
    sends one frame, which [com_receive_tm] passes to [tm_parse_status], which
    prints every status variable, in the order of the schema, with its name,
    type and current value. *)
Theorem tm_status_roundtrip fuel node s g :
  dat_ok (s_dat s) -> net_ok (s_net s) -> n_out (s_net s) = [] -> (2 <= fuel)%nat -> INT_MIN <= node <= INT_MAX ->
  exists s' f f',
    tm_send_status fuel (cs "%d") (Some (with_nul (print_dec node))) 1 s = Ret (Some CMD_OK, s') /\
    n_out (s_net s') = [TmPacket node SCH_TRX_PORT_TM f] /\
    com_receive_tm f = (f', Some (cs "tm_parse_status")) /\
    tm_parse_status (Some f') g =
      Ret ((CMD_OK, map (fun v => with_val v (var (s_dat s) (var_address v))) dat_status_list), g).
Proof.
  intros Hok Hn Hout Hf Hnode. pose proof Hok as [Hst Hsz]. unfold tm_send_status.
  change (cs "%d") with (kinds_fmt [KInt]). change (print_dec node) with (vals_text [VInt node]).
  rewrite (bind_step _ _ _ _ _ (scan_kinds [KInt] [VInt node] s ltac:(repeat (constructor; [done|]); constructor))).
  cbn [negb]. change (negb (zlength [VInt node] =? 1)) with false. cbv iota.
  rewrite (bind_step _ _ _ _ _ (pack_status_ok s dat_status_list Hok ltac:(eapply Forall_impl; [apply status_defs|tauto]))).
  set (cks := status_chunks (s_dat s) dat_status_list).
  assert (Forall (fun c => length c = 6%nat) cks) as Hck.
  { subst cks. apply Forall_fmap, Forall_true. intros v. apply length_short. }
  assert (length cks = 17%nat) as Hc17 by done.
  assert (zlength (concat cks) = 102) as Hl by (unfold zlength; rewrite (zlength_concat 6); [by rewrite Hc17|done]).
  erewrite on_net_step by (apply send_data_one; [done|done|rewrite Hl; done|done]).
  eexists _, _, _. split; [done|]. cbn [lset net_lens s_net net_after n_out]. rewrite Hout. split; [done|].
  unfold com_receive_tm. cbn [f_nframe f_type f_node f_ndata f_data]. split; [done|].
  cbn [tm_parse_status f_type f_ndata]. rewrite bswap32_involutive.
  change (u32_of (u32_of dat_status_last_var)) with 17. change (u8_of TM_TYPE_STATUS) with TM_TYPE_STATUS.
  cbn [negb orb]. change (_ || _) with false. cbv iota. unfold ret. do 3 f_equal. cbn [f_data].
  change 17 with (zlength cks). change sizeof_short with (Z.of_nat 6).
  rewrite (chunk_map parse_short 6 cks) by done. subst cks. unfold status_chunks. rewrite map_map.
  apply map_ext_in. intros v Hv%list_elem_of_In.
  destruct (proj1 (Forall_forall _ _) status_defs v Hv) as [Ha Hd].
  unfold dat_status_last_address in *.
  rewrite parse_short_bytes; [by rewrite Hd|lia|]. apply law_status_u32; [done|]. lia.
Qed.
End status.

Section payload.
Context {S F : Type} `{PayloadLaws S}.
Implicit Types (s g : sat S F).

(** The frames that [s'] has sent bring the samples [start .. stop - 1] of [s]
    to the end of the samples of the ground station [g]. *)
Definition delivers s s' g (gidx start stop : Z) : Prop :=
  exists rcs d', receive_payload (n_out (s_net s')) g = Ret (rcs, lset dat_lens d' g) /\
    Forall (eq CMD_OK) rcs /\ appended (s_dat g) d' gidx (samples (s_dat s) start (stop - start)).

Lemma send_range_delivers s g idx gidx start stop dest :
  payload_ok (s_dat s) idx -> samples_sized (s_dat s) idx -> net_ok (s_net s) -> n_out (s_net s) = [] ->
  payload_ok (s_dat g) gidx -> 0 <= start < stop -> stop <= idx -> ground_room gidx (stop - start) ->
  exists s', tm_send_tel_from_to start stop temp_sensors dest s = Ret (CMD_OK, s') /\ s_dat s' = s_dat s /\
    delivers s s' g gidx start stop.
Proof.
  intros Hp Hsz Hn Hout Hg Hs Hst Hr.
  destruct (send_range_ok s idx start stop dest Hp Hsz Hn Hs Hst) as (parts & E & Hcat & Hparts).
  eexists. split; [exact E|]. split; [done|]. unfold delivers. cbn [s_net sent lset net_lens net_after n_out].
  rewrite Hout, app_nil_l.
  destruct (receive_payload_ok dest SCH_TRX_PORT_APP parts 0 g gidx Hparts Hg) as (d' & rcs & E2 & Hrcs & Ha).
  { rewrite Hcat, zlength_samples by lia. done. }
  exists rcs, d'. rewrite <- Hcat. done.
Qed.

(** What the three handlers read before they send a range. *)
Lemma handler_reads s idx ack :
  payload_ok (s_dat s) idx -> var (s_dat s) dat_drp_ack_temp = ack -> 0 <= ack <= INT_MAX ->
  on_dat (dat_get_system_var dat_drp_idx_temp) s = Ret (idx, s) /\
  on_dat (dat_get_system_var dat_drp_ack_temp) s = Ret (ack, s).
Proof.
  intros Hp Hack Ha. split; apply on_dat_pure; [by apply idx_read|].
  rewrite get_system_ok by (done || apply Hp). rewrite Hack, i32_of_id; [done|]. unfold INT_MIN. lia.
Qed.

Lemma uints_ok ns : Forall (fun n => 0 <= n < 2 ^ 32) ns ->
  Forall2 kind_val (replicate (length ns) KUInt) (map VUInt ns).
Proof. induction 1; constructor; [done|exact IHForall]. Qed.

(** The parameters of a handler that takes unsigned numbers. *)
Ltac scan_uints ns :=
  let H := fresh in
  assert (Forall (fun n => 0 <= n < 2 ^ 32) ns) as H by (repeat (constructor; [lia|]); constructor);
  let ks := eval cbn in (replicate (length ns) KUInt) in
  let vs := eval cbn in (map VUInt ns) in
  match goal with |- context [scan_params _ ?fmt] => change fmt with (kinds_fmt ks) end;
  rewrite (bind_step _ _ _ _ _ (scan_kinds ks vs _ (uints_ok ns H))); clear H;
  match goal with |- context [zlength vs =? ?n] => change (zlength vs =? n) with true end; cbv iota;
  change (last_sensor <=? 0) with false; cbv iota.


(** [tm_set_ack] acknowledges at most the samples there are and never
    takes an acknowledgement back: [k] below the current mark (or zero) is
    refused and changes nothing; otherwise the mark becomes the smaller of [k]
    and the number of samples, and no other variable changes. *)
Theorem tm_set_ack_bounds s idx ack k :
  payload_ok (s_dat s) idx -> var (s_dat s) dat_drp_ack_temp = ack -> 0 <= ack <= idx -> 0 <= k < 2 ^ 32 ->
  exists s', tm_set_ack (cs "%u %u") (params_of [VUInt 0; VUInt k]) 2 s =
      Ret (if (k <? 1) || (k <? ack) then CMD_ERROR else CMD_OK, s') /\
    let ack' := if (k <? 1) || (k <? ack) then ack else Z.min k idx in
    var (s_dat s') dat_drp_ack_temp = ack' /\ ack <= ack' <= idx /\
    s_net s' = s_net s /\ payload_ok (s_dat s') idx /\
    forall j, 0 <= j < dat_status_last_address -> j <> dat_drp_ack_temp -> var (s_dat s') j = var (s_dat s) j.
Proof.
  intros Hp Hack Ha Hk. pose proof Hp as (Hok & Hpo & Hpt & Hv & Hi & Him). unfold INT_MAX in Him.
  destruct (handler_reads s idx ack Hp Hack ltac:(unfold INT_MAX; lia)) as [Ei Ek].
  unfold tm_set_ack, params_of. scan_uints [0; k].
  destruct (k <? 1) eqn:E1; bool_to_prop; cbn [orb]; [exists s; splits; (done || lia)|].
  rewrite (bind_step _ _ _ _ _ (arr_temp s)). cbn [temp_schema map_sys_index map_sys_ack].
  rewrite (bind_step _ _ _ _ _ Ek), (bind_step _ _ _ _ _ Ei).
  rewrite (proj2 (Z.eqb_neq ack (-1))), (proj2 (Z.eqb_neq idx (-1))) by lia. cbn [orb].
  rewrite (u32_of_id ack) by lia.
  destruct (k <? ack) eqn:E2; bool_to_prop; [exists s; splits; (done || lia)|].
  rewrite (u32_of_id idx) by lia.
  assert ((if idx <? k then idx else i32_of k) = Z.min k idx) as ->.
  { destruct (idx <? k) eqn:E3; bool_to_prop; [lia|]. rewrite i32_of_id by (unfold INT_MIN, INT_MAX; lia). lia. }
  unfold dat_set_system_var. rewrite u32_of_id by lia. pose proof Hok as [_ Hsz].
  destruct (set_status_ok (s_dat s) dat_drp_ack_temp (Z.min k idx) Hok) as (s1 & Ew & E & Hok1 & Hsz1 & _ & _ & Hv1).
  { unfold dat_drp_ack_temp, dat_status_last_address in *. lia. }
  { lia. }
  destruct (law_pay_status _ _ _ _ _ Hpo Ew) as (Hp1 & Ht1 & _).
  rewrite (bind_step _ _ _ _ _ (on_dat_step _ s _ _ E)). eexists. split; [done|].
  cbn [s_dat lset dat_lens s_net]. unfold dat_drp_ack_temp, dat_drp_idx_temp, dat_status_last_address in *.
  splits; [by rewrite Hv1, decide_True by lia|lia|done| |].
  - unfold payload_ok. cbn [store set_store]. rewrite Ht1. splits; try done; try lia.
    unfold dat_drp_idx_temp. rewrite Hv1, decide_False by lia. done.
  - intros j Hj Hne. rewrite Hv1 by lia. by rewrite decide_False.
Qed.

End payload.

(** *** Instances: the RAM storage *)
Import Ram RamLaws RamPayload.

Definition no_cmds : cmd_repo unit := repo_boot.
Definition sat_of (d : dat ram_state) : sat ram_state unit := Sat d no_cmds good_net ∅.

(** The satellite and the ground station after their start. *)
Definition sat0 : sat ram_state unit := sat_of (ram_data 0).
Lemma sat0_ok : dat_ok (s_dat sat0).
Proof. exact (proj1 (ram_data_fp 0)). Qed.

Lemma tm_status_roundtrip_witness : exists s' f f',
  tm_send_status 3 (cs "%d") (Some (with_nul (print_dec 10))) 1 sat0 = Ret (Some CMD_OK, s') /\
  n_out (s_net s') = [TmPacket 10 SCH_TRX_PORT_TM f] /\
  com_receive_tm f = (f', Some (cs "tm_parse_status")) /\
  tm_parse_status (Some f') sat0 =
    Ret ((CMD_OK, map (fun v => with_val v (var (s_dat sat0) (var_address v))) dat_status_list), sat0).
Proof.
  apply (tm_status_roundtrip 3 10 sat0 sat0).
  - exact sat0_ok.
  - exact good_net_ok.
  - reflexivity.
  - lia.
  - unfold INT_MIN, INT_MAX. lia.
Defined.

(** A repository with [n] samples. *)
Definition with_samples (n : nat) : dat ram_state :=
  fold_left (fun d i => match dat_add_payload_sample (Some (replicate 12 i)) temp_sensors d with
                        | Ret (_, d) => d | Fault _ => d end) (map Z.of_nat (seq 0 n)) (ram_data 0).

Lemma ram_capacity : 100 <= pay_capacity (S := ram_state) sizeof_temp_data.
Proof. vm_compute. discriminate. Qed.

Lemma with_samples_ok n : Z.of_nat n <= 100 ->
  payload_ok (with_samples n) (Z.of_nat n) /\
  samples (with_samples n) 0 (Z.of_nat n) = map (fun i => replicate 12 (Z.of_nat i)) (seq 0 n).
Proof.
  induction n as [|n IH]; intros Hn; [split; [apply (ram_data_payload 0)|done]|].
  destruct IH as [Hp Hs]; [lia|].
  destruct (add_sample_appended (with_samples n) (Z.of_nat n) (replicate 12 (Z.of_nat n)))
    as (d' & E & Hp' & Hs'); [done| |done|].
  - split; [|unfold INT_MAX; lia]. etrans; [|apply ram_capacity]. lia.
  - change (zlength [_]) with 1 in *. replace (Z.of_nat (Datatypes.S n)) with (Z.of_nat n + 1) by lia.
    assert (with_samples (Datatypes.S n) = d') as ->.
    { unfold with_samples. rewrite seq_S, map_app, fold_left_app. fold (with_samples n). cbn [map fold_left Nat.add].
      by rewrite E. }
    split; [done|]. by rewrite Hs', Hs, seq_S, map_app.
Qed.

Lemma with_samples_sized n : Z.of_nat n <= 100 -> samples_sized (with_samples n) (Z.of_nat n).
Proof.
  intros Hn k Hk. destruct (with_samples_ok n Hn) as [_ Hs].
  apply (f_equal (fun l => l !! Z.to_nat k)) in Hs. unfold samples in Hs.
  rewrite !list_lookup_fmap, lookup_seqZ_lt, lookup_seq_lt in Hs by lia.
  apply (inj Some) in Hs. replace (0 + Z.of_nat (Z.to_nat k)) with k in Hs by lia. by rewrite Hs.
Qed.

(** A satellite with 17 samples (two frames), and a ground station. *)
Definition sat17 : sat ram_state unit := sat_of (with_samples 17).

Lemma sat17_ack : var (s_dat sat17) dat_drp_ack_temp = 0.
Proof. vm_compute. reflexivity. Qed.


Lemma tm_set_ack_bounds_witness :
  exists s', tm_set_ack (cs "%u %u") (params_of [VUInt 0; VUInt 30]) 2 sat17 = Ret (CMD_OK, s') /\
    var (s_dat s') dat_drp_ack_temp = 17.
Proof.
  destruct (tm_set_ack_bounds sat17 17 0 30) as (s' & H1 & H2 & _).
  - exact (proj1 (with_samples_ok 17 ltac:(lia))).
  - exact sat17_ack.
  - lia.
  - lia.
  - exists s'. split; [exact H1|exact H2].
Defined.

End DownlinkTheorems.
