(* ===== verification/FpDownlink.v ===== *)
(** * The flight plan reaches the ground

    What [tm_send_fp] sends and what [tm_print_fp] prints on the other node, for
    any storage: one frame for each entry, in the order of the slots. *)
From S2P Require Import Prelude Memory CStr Config Storage StorageRam Schema RepoCommand RepoData CmdFP.
From S2P Require Import Telemetry FileTransfer CmdTM Downlink.

Open Scope Z_scope.

Module FpDownlinkLaws.
Import RepoCommand RepoData RepoDataLaws Telemetry NetLaws TelemetryTheorems FileRx CmdFP CmdTM DownlinkLaws.

(** ** One container *)

(** The integers and the strings of an entry, as the data repository stores them. *)
Definition row_plain (r : fp_row) : Prop :=
  int_ok (row_time r) /\ int_ok (row_executions r) /\ int_ok (row_period r) /\ int_ok (row_node r) /\
  is_cstr (row_cmd r) /\ is_cstr (row_args r).
Definition container (r : fp_row) : list Z := fp_container (row_entry r).
Definition cmd_line (r : fp_row) : cstring := snprintf_trunc FP_CMDARGS_MAX_LEN (row_cmd r ++ [chr_space] ++ row_args r).

Lemma container_eq r : container r =
  be32 (row_time r) ++ be32 (row_executions r) ++ be32 (row_period r) ++ be32 (row_node r) ++
  strncpy_bytes (cmd_line r) FP_CMDARGS_MAX_LEN.
Proof. done. Qed.
Lemma length_be32 z : length (be32 z) = 4%nat.
Proof. apply length_le_bytes. Qed.
Lemma length_cmd_line r : (length (cmd_line r) <= 175)%nat.
Proof. unfold cmd_line, snprintf_trunc, FP_CMDARGS_MAX_LEN. rewrite length_take. lia. Qed.

Lemma length_container r : length (container r) = 192%nat.
Proof.
  rewrite container_eq, !length_app, !length_be32.
  pose proof (length_strncpy (cmd_line r) FP_CMDARGS_MAX_LEN ltac:(unfold FP_CMDARGS_MAX_LEN; lia)) as H.
  unfold zlength, FP_CMDARGS_MAX_LEN in *. lia.
Qed.

Lemma read_be32_at (a b : list Z) z : int_ok z -> read_be32 (a ++ be32 z ++ b) (length a) = z.
Proof.
  intros Hz. unfold read_be32, be32. rewrite drop_app_length, take_app_le by (by rewrite length_le_bytes).
  rewrite take_ge by (by rewrite length_le_bytes). rewrite of_le_bytes4.
  replace (u32_of (bswap32 (u32_of z))) with (bswap32 (u32_of z)).
  - rewrite bswap32_involutive, u32_of_id by apply u32_of_range. by apply i32_of_u32_id.
  - symmetry. apply u32_of_id, bswap32_range.
Qed.

Lemma cmd_line_cstr r : row_plain r -> is_cstr (cmd_line r).
Proof.
  intros (_ & _ & _ & _ & Hc & Ha). unfold cmd_line, snprintf_trunc. apply is_cstr_take, is_cstr_app. split; [done|].
  apply is_cstr_app. split; [|done]. constructor; [unfold chr_space; lia|constructor].
Qed.

(** The line printed for a container: the command with its parameters, cut to
    175 bytes, then time, node, executions and period. *)
Definition fp_line (r : fp_row) : cstring :=
  cmd_line r ++ [9] ++ print_dec (row_time r) ++ [9] ++ print_dec (row_node r) ++ [9] ++
  print_dec (row_executions r) ++ [9] ++ print_dec (row_period r).

Lemma print_container {T F} (r : fp_row) f (g : sat T F) :
  row_plain r -> f_data f = container r -> tm_print_fp (Some f) g = Ret ((CMD_OK, fp_line r), g).
Proof.
  intros Hr Hd. pose proof Hr as (Ht & He & Hp & Hn & _). unfold tm_print_fp. rewrite Hd.
  assert (cstr_of_buf (drop 16 (container r)) = Ret (cmd_line r)) as Hc.
  { rewrite container_eq, !app_assoc, drop_app_ge by (by rewrite !length_app, !length_be32).
    rewrite !length_app, !length_be32, drop_0, strncpy_short; [apply cstr_of_buf_nul, cmd_line_cstr, Hr|].
    pose proof (length_cmd_line r). unfold strlen, zlength, FP_CMDARGS_MAX_LEN. lia. }
  unfold bind, lift. rewrite Hc. unfold ret.
  assert (read_be32 (container r) 0 = row_time r) as -> by (by apply (read_be32_at [])).
  assert (read_be32 (container r) 4 = row_executions r) as -> by (by apply (read_be32_at (be32 (row_time r)))).
  assert (read_be32 (container r) 8 = row_period r) as ->
    by (apply (read_be32_at (be32 (row_time r) ++ be32 (row_executions r))); done).
  assert (read_be32 (container r) 12 = row_node r) as ->
    by (apply (read_be32_at (be32 (row_time r) ++ be32 (row_executions r) ++ be32 (row_period r))); done).
  do 4 f_equal. unfold snprintf_trunc. rewrite take_ge; [done|].
  pose proof (length_cmd_line r). unfold fp_line in *. rewrite !length_app.
  pose proof (length_print_int _ Ht). pose proof (length_print_int _ He).
  pose proof (length_print_int _ Hp). pose proof (length_print_int _ Hn). unfold FP_CMDARGS_MAX_LEN. cbn [length]. lia.
Qed.

(** ** The frames *)
Section collect.
Context {S F : Type} `{StorageIndexLaws S}.
Implicit Types (s g : sat S F).

Definition rows s : list fp_row := omap id (st_slots (store (s_dat s))).

Lemma get_index_ok s i o :
  dat_ok (s_dat s) -> zlookup (st_slots (store (s_dat s))) i = Some o ->
  exists e, on_dat (dat_get_fp_st_index i) s = Ret ((SCH_ST_OK, Some e), s) /\
    match o with Some r => e = row_entry r /\ row_time r <> ST_FP_NULL | None => fp_unixtime e = ST_FP_NULL end.
Proof.
  intros [Hok _] Hl. destruct (law_fp_get_idx _ i o Hok Hl) as (e & E & Ht & He).
  exists e. split; [apply on_dat_pure; etrans; [exact (st_step _ (s_dat s) _ _ E)|by destruct (s_dat s)]|]. destruct o as [r|]; [|done].
  split; [by apply He|]. unfold zlookup in Hl. destruct (i <? 0); [done|]. by eapply law_slots_time.
Qed.

Lemma collect_from s limit : forall os k found,
  dat_ok (s_dat s) -> drop k (st_slots (store (s_dat s))) = os ->
  zlength found + zlength (omap id os) <= limit ->
  fold_m (seqZ (Z.of_nat k) (Z.of_nat (length os))) (fun fp_send i =>
    let! '(ok, e) := on_dat (dat_get_fp_st_index i) in
    if ok =? SCH_ST_OK then
      match e with
      | None => fail Uninitialized
      | Some e => ret (if negb (fp_unixtime e =? ST_FP_NULL) && (zlength fp_send <? limit)
                       then fp_send ++ [fp_container e] else fp_send)
      end
    else ret fp_send) found s = Ret (found ++ map container (omap id os), s).
Proof.
  induction os as [|o os IH]; intros k found Hok Hk Hlim.
  - cbn. by rewrite app_nil_r.
  - cbn [length]. rewrite seqZ_cons by lia. cbn [fold_m].
    assert (zlookup (st_slots (store (s_dat s))) (Z.of_nat k) = Some o) as Hl.
    { unfold zlookup. rewrite (proj2 (Z.ltb_ge _ _)), Nat2Z.id by lia.
      rewrite <- (Nat.add_0_r k), <- lookup_drop, Hk. done. }
    destruct (get_index_ok s (Z.of_nat k) o Hok Hl) as (e & E & He).
    assert (drop (Datatypes.S k) (st_slots (store (s_dat s))) = os) as Hk'.
    { rewrite <- Nat.add_1_r, <- drop_drop, Hk. done. }
    replace (Z.succ (Z.of_nat k)) with (Z.of_nat (Datatypes.S k)) by lia.
    replace (Z.pred (Z.of_nat (Datatypes.S (length os)))) with (Z.of_nat (length os)) by lia.
    unfold bind at 1 2. rewrite E. change (SCH_ST_OK =? SCH_ST_OK) with true. cbv iota. unfold ret at 1.
    destruct o as [r|].
    + destruct He as [-> Ht]. change (omap id (Some r :: os)) with (r :: omap id os) in *.
      change (fp_unixtime (row_entry r)) with (row_time r). rewrite (proj2 (Z.eqb_neq _ _) Ht).
      unfold zlength in *. cbn [length] in Hlim. rewrite (proj2 (Z.ltb_lt _ _)) by lia. cbn [negb andb].
      rewrite (IH (Datatypes.S k) (found ++ [fp_container (row_entry r)]) Hok Hk') by (rewrite length_app; cbn [length]; lia).
      by rewrite <- app_assoc.
    + rewrite He, Z.eqb_refl. cbn [negb andb]. by apply IH.
Qed.

Lemma collect_ok s : fp_ok (s_dat s) -> collect_fp (used (st_slots (store (s_dat s)))) s = Ret (map container (rows s), s).
Proof.
  intros [Hok _]. pose proof (law_slots_len _ (proj1 Hok)) as Hlen. unfold zlength in Hlen. unfold collect_fp, range.
  rewrite <- Hlen. apply (collect_from s _ (st_slots (store (s_dat s))) 0 []); [done|done|]. unfold used. change (zlength (@nil (list Z))) with 0. lia.
Qed.
End collect.

(** A list of blocks of equal length is determined by its concatenation. *)
Lemma concat_blocks {A} (n : nat) : forall (a b : list (list A)),
  n <> 0%nat -> Forall (fun x => length x = n) a -> Forall (fun x => length x = n) b -> concat a = concat b -> a = b.
Proof.
  induction a as [|x a IH]; intros [|y b] Hn Ha Hb E; try done.
  - apply Forall_inv in Hb. cbn in E. destruct y; [done|]. done.
  - apply Forall_inv in Ha. cbn in E. destruct x; done.
  - apply Forall_cons in Ha as [Hx Ha], Hb as [Hy Hb]. cbn in E.
    apply app_inj_1 in E as [-> E]; [|congruence]. f_equal. by apply IH.
Qed.

(** The frames of telemetry whose structures fill a frame. *)
Lemma full_frames type (cs : list (list Z)) fs :
  Forall (fun c => length c = 192%nat) cs -> framing 192 type 0 (concat cs) fs ->
  map f_data fs = cs /\ Forall (fun f => f_type f = u8_of type) fs.
Proof.
  intros Hc (Hd & _ & Hf). split; [|eapply Forall_impl; [exact Hf|intros f Hx; apply Hx]].
  assert (map (frame_structs 192) fs = map f_data fs) as E.
  { apply map_ext_in. intros f Hin%list_elem_of_In. destruct (proj1 (Forall_forall _ _) Hf f Hin) as (_ & _ & Hn & Hl).
    unfold frame_structs. change (COM_FRAME_MAX_LEN / 192) with 1 in Hn. replace (bswap32 (f_ndata f)) with 1 by lia.
    apply take_ge. unfold zlength, COM_FRAME_MAX_LEN in Hl. lia. }
  rewrite <- E. apply (concat_blocks 192); [done| |done|done]. rewrite E. apply Forall_map, Forall_forall.
  intros f Hin. destruct (proj1 (Forall_forall _ _) Hf f Hin) as (_ & _ & _ & Hl). unfold zlength, COM_FRAME_MAX_LEN in Hl. lia.
Qed.

End FpDownlinkLaws.

Module FpDownlinkTheorems.
Import RepoCommand RepoData RepoDataLaws Telemetry NetLaws TelemetryTheorems FileRx CmdFP CmdTM DownlinkLaws FpDownlinkLaws.

Section plan.
Context {S F : Type} `{StorageIndexLaws S}.
Implicit Types (s g : sat S F).

(** C38. The flight plan reaches the ground: over a network without losses
    [tm_send_fp] sends one frame for each entry of the plan, in the order of the
    slots, and [com_receive_tm] hands each to [tm_print_fp], which prints the
    command with its parameters, the time, the node, the executions and the
    period of that entry. *)
Theorem flight_plan_reaches_ground fuel junk node s g :
  fp_ok (s_dat s) -> rows s <> [] -> Forall row_plain (rows s) ->
  net_ok (s_net s) -> n_out (s_net s) = [] -> INT_MIN <= node <= INT_MAX -> (256 <= fuel)%nat ->
  exists s' fs,
    tm_send_fp fuel junk (cs "%d") (Some (with_nul (print_dec node))) 1 s = Ret (Some CMD_OK, s') /\
    s_dat s' = s_dat s /\ n_out (s_net s') = map (TmPacket node SCH_TRX_PORT_TM) fs /\
    Forall2 (fun r f => exists f', com_receive_tm f = (f', Some (cs "tm_print_fp")) /\
      tm_print_fp (Some f') g = Ret ((CMD_OK, fp_line r), g)) (rows s) fs.
Proof.
  intros Hfp Hne Hrows Hn Hout Hnode Hfuel. unfold tm_send_fp.
  change (cs "%d") with (kinds_fmt [KInt]). change (print_dec node) with (vals_text [VInt node]).
  rewrite (bind_step _ _ _ _ _ (scan_kinds [KInt] [VInt node] s ltac:(repeat (constructor; [done|]); constructor))).
  change (negb (zlength [VInt node] =? 1)) with false. cbv iota.
  pose proof (used_range (s_dat s) (proj1 Hfp)) as Hu. set (n := used (st_slots (store (s_dat s)))) in *.
  assert (on_dat (dat_get_system_var dat_fpl_queue) s = Ret (n, s)) as E0 by (by apply on_dat_pure, counter_read).
  rewrite (bind_step _ _ _ _ _ E0). rewrite (proj2 (Z.ltb_ge n 0)) by lia.
  rewrite (bind_step _ _ _ _ _ (collect_ok s Hfp)).
  assert (n = zlength (rows s)) as Hnr by done.
  assert (1 <= n) as Hn1 by (rewrite Hnr; destruct (rows s); [done|unfold zlength; cbn; lia]).
  rewrite length_map, (drop_ge (take _ junk)), app_nil_r by (rewrite length_take; unfold zlength in Hnr; lia).
  assert (Forall (fun c => length c = 192%nat) (map container (rows s))) as Hc
    by (apply Forall_map, Forall_true; intros; apply length_container).
  assert (zlength (concat (map container (rows s))) = n * 192) as Hl.
  { unfold zlength. rewrite (zlength_concat 192), length_map by done. unfold zlength in Hnr. lia. }
  rewrite (Z.mul_comm 192), <- Hl.
  destruct (telemetry_framed fuel node SCH_TRX_PORT_TM TM_TYPE_FP (concat (map container (rows s))) 192 n 0 (s_net s) Hn)
    as (fs & E & Hfr); [unfold COM_FRAME_MAX_LEN; lia|done|done|unfold INT_MAX, SCH_FP_MAX_ENTRIES in *; lia|unfold SCH_FP_MAX_ENTRIES in *; lia|].
  rewrite (on_net_step _ s _ _ E). eexists _, fs. split; [done|]. split; [done|]. split; [cbn; by rewrite Hout|].
  destruct (full_frames _ _ _ Hc Hfr) as [Hd Ht]. clear - Hd Ht Hrows.
  revert Hd. generalize (rows s) Hrows. clear Hrows. induction Ht as [|f fs Hf Ht IH]; intros [|r rs] Hr Hd; try done.
  cbn in Hd. injection Hd as Hd1 Hd2. apply Forall_cons in Hr as [Hr Hrs]. constructor; [|by apply IH].
  unfold com_receive_tm. rewrite Hf. eexists. split; [done|]. by apply print_container.
Qed.

(** With an empty plan [com_send_telemetry] divides by the number of entries. *)
Theorem empty_plan_divides_by_zero fuel junk node s :
  fp_ok (s_dat s) -> rows s = [] -> INT_MIN <= node <= INT_MAX ->
  tm_send_fp fuel junk (cs "%d") (Some (with_nul (print_dec node))) 1 s = Fault DivByZero.
Proof.
  intros Hfp He Hnode. unfold tm_send_fp.
  change (cs "%d") with (kinds_fmt [KInt]). change (print_dec node) with (vals_text [VInt node]).
  rewrite (bind_step _ _ _ _ _ (scan_kinds [KInt] [VInt node] s ltac:(repeat (constructor; [done|]); constructor))).
  change (negb (zlength [VInt node] =? 1)) with false. cbv iota.
  assert (used (st_slots (store (s_dat s))) = 0) as Hu by (unfold used; fold (rows s); by rewrite He).
  assert (on_dat (dat_get_system_var dat_fpl_queue) s = Ret (0, s)) as E0 by (apply on_dat_pure; rewrite <- Hu; by apply counter_read).
  rewrite (bind_step _ _ _ _ _ E0). change (0 <? 0) with false. cbv iota.
  rewrite <- Hu, (bind_step _ _ _ _ _ (collect_ok s Hfp)), Hu. done.
Qed.
End plan.

Import StorageRam.Ram RepoDataTheorems DownlinkTheorems.

(** Two entries on the RAM storage, the second one periodical. *)
Lemma two_entries : exists d : dat ram_state, fp_ok d /\
  omap id (st_slots (store d)) = [FpRow 100 (cs "tm_send_status") (cs "10") 1 0 1; FpRow 200 (cs "obc_debug") (cs "0") 3 60 1].
Proof.
  destruct (dat_set_fp_ok (ram_data 0) 100 (cs "tm_send_status") (cs "10") 1 0 (ram_data_fp 0)) as (s1 & _ & H1 & E1 & _);
    [exact I|unfold int_ok, INT_MIN, INT_MAX; lia|unfold int_ok, INT_MIN, INT_MAX; lia|unfold int_ok, INT_MIN, INT_MAX; lia| | |];
    [apply (bool_decide_unpack _); vm_compute; exact I..|].
  destruct (dat_set_fp_ok (set_store s1 (ram_data 0)) 200 (cs "obc_debug") (cs "0") 3 60 H1) as (s2 & _ & H2 & E2 & _);
    [exact I|unfold int_ok, INT_MIN, INT_MAX; lia|unfold int_ok, INT_MIN, INT_MAX; lia|unfold int_ok, INT_MIN, INT_MAX; lia| | |];
    [apply (bool_decide_unpack _); vm_compute; exact I..|].
  eexists. split; [exact H2|]. etrans; [apply (f_equal (omap id)), E2|]. cbn [store set_store]. rewrite E1. vm_compute. reflexivity.
Qed.

Lemma flight_plan_reaches_ground_witness : exists (s s' : sat ram_state unit) fs,
  rows s = [FpRow 100 (cs "tm_send_status") (cs "10") 1 0 1; FpRow 200 (cs "obc_debug") (cs "0") 3 60 1] /\
  tm_send_fp 256 [] (cs "%d") (Some (with_nul (print_dec 10))) 1 s = Ret (Some CMD_OK, s') /\
  n_out (s_net s') = map (TmPacket 10 SCH_TRX_PORT_TM) fs /\ length fs = 2%nat /\
  fp_line (FpRow 200 (cs "obc_debug") (cs "0") 3 60 1) =
    cs "obc_debug 0" ++ [9] ++ cs "200" ++ [9] ++ cs "1" ++ [9] ++ cs "3" ++ [9] ++ cs "60".
Proof.
  destruct two_entries as (d & Hfp & Hr). pose (s := lset dat_lens d sat0).
  destruct (flight_plan_reaches_ground 256 [] 10 s s) as (s' & fs & E & _ & Eo & Hf).
  - exact Hfp.
  - unfold rows, s. cbn [s_dat lset dat_lens]. rewrite Hr. discriminate.
  - unfold rows, s. cbn [s_dat lset dat_lens]. rewrite Hr.
    constructor; [|constructor; [|constructor]]; unfold row_plain, int_ok, INT_MIN, INT_MAX; cbn [row_time row_executions row_period row_node row_cmd row_args];
      repeat split; try lia; apply (bool_decide_unpack _); vm_compute; exact I.
  - exact good_net_ok.
  - reflexivity.
  - unfold INT_MIN, INT_MAX. lia.
  - lia.
  - exists s, s', fs. split; [exact Hr|]. split; [exact E|]. split; [exact Eo|]. split; [|vm_compute; reflexivity].
    apply Forall2_length in Hf. rewrite <- Hf. unfold rows, s. cbn [s_dat lset dat_lens]. by rewrite Hr.
Defined.
End FpDownlinkTheorems.
