(* ===== verification/MergeFile.v ===== *)
(** * The missing frames of a file

    What [tm_merge_file] of CmdTM reports before it joins the parts: exactly the
    frames that did not arrive; and when its check does not end. *)
From S2P Require Import Prelude CStr Config Storage StorageRam Schema RepoCommand RepoData CmdFP.
From S2P Require Import Telemetry FileTransfer CmdTM Downlink.

Open Scope Z_scope.

Module MergeFileLaws.
Import RepoData RepoDataLaws FileRx CmdFP CmdTM.

(** The name of a part file in its directory. *)
Definition part_file (file_id frame total : Z) : cstring :=
  print_dec file_id ++ [95] ++ print_dec frame ++ [95] ++ print_dec total ++ cs ".part".

Lemma scanf_int all z r fmt cnt acc :
  INT_MIN <= z <= INT_MAX -> match r with [] => True | c :: _ => isdigit c = false end ->
  scanf_loop all (chr_percent :: 100 :: fmt) (print_dec z ++ r) cnt acc = scanf_loop all fmt r (cnt + 1) (VInt z :: acc).
Proof.
  intros Hz Hr. cbn [scanf_loop]. change (isspace chr_percent) with false. rewrite Z.eqb_refl.
  change (100 =? 110) with false. change (100 =? 100) with true. cbv iota. by rewrite conv_int_print.
Qed.
Lemma scanf_underscore all r fmt cnt acc :
  scanf_loop all (95 :: fmt) (95 :: r) cnt acc = scanf_loop all fmt r cnt acc.
Proof. done. Qed.

Lemma scan_part_file id frame total :
  INT_MIN <= id <= INT_MAX -> INT_MIN <= frame <= INT_MAX -> INT_MIN <= total <= INT_MAX ->
  sscanf (part_file id frame total) part_fmt = Ret (3, [VInt id; VInt frame; VInt total]).
Proof.
  intros Hi Hf Ht. unfold sscanf, part_file, part_fmt.
  change (cs "%d_%d_%d.part") with (chr_percent :: 100 :: 95 :: chr_percent :: 100 :: 95 :: chr_percent :: 100 :: cs ".part").
  generalize (print_dec id ++ [95] ++ print_dec frame ++ [95] ++ print_dec total ++ cs ".part") at 1. intros all.
  rewrite scanf_int by done. cbn [app]. rewrite scanf_underscore, scanf_int by done. cbn [app].
  rewrite scanf_underscore, scanf_int by done. vm_compute (cs ".part"). reflexivity.
Qed.

(** ** The check *)

Definition absent (fs : list Z) (l : list Z) : list Z := filter (fun i => i ∉ fs) l.

Lemma absent_all fs l : (forall i, i ∈ l -> i ∉ fs) -> absent fs l = l.
Proof.
  induction l as [|x l IH]; intros H; [done|]. unfold absent in *. rewrite filter_cons_True by (apply H; constructor).
  f_equal. apply IH. intros. apply H. by constructor.
Qed.
Lemma absent_below f fs l : (forall i, i ∈ l -> f < i) -> absent (f :: fs) l = absent fs l.
Proof.
  induction l as [|x l IH]; intros H; [done|]. unfold absent in *.
  assert (f < x) by (apply H; constructor). assert (forall i, i ∈ l -> f < i) as Hl by (intros; apply H; by constructor).
  destruct (decide (x ∈ fs)).
  - rewrite !filter_cons_False by set_solver. by apply IH.
  - rewrite !filter_cons_True by (rewrite ?not_elem_of_cons; try split; done || lia). f_equal. by apply IH.
Qed.

Lemma missing_before_ok frame : forall fuel last out,
  last < frame -> frame - last <= Z.of_nat fuel ->
  missing_before fuel last frame out = Some (out ++ seqZ (last + 1) (frame - last - 1)).
Proof.
  induction fuel as [|fuel IH]; intros last out Hl Hf; [lia|]. cbn [missing_before].
  destruct (last + 1 =? frame) eqn:E; bool_to_prop.
  - replace (frame - last - 1) with 0 by lia. change (seqZ (last + 1) 0) with (@nil Z). by rewrite app_nil_r.
  - rewrite IH by lia. rewrite (seqZ_cons (last + 1)) by lia. unfold Z.succ, Z.pred. rewrite <- app_assoc. cbn [app].
    do 4 f_equal. lia.
Qed.

(** A number that is not ahead is never reached. *)
Lemma missing_before_behind frame : forall fuel last out, frame <= last -> missing_before fuel last frame out = None.
Proof.
  induction fuel as [|fuel IH]; intros last out Hl; [done|]. cbn [missing_before].
  rewrite (proj2 (Z.eqb_neq _ _)) by lia. apply IH. lia.
Qed.

Definition numbered (id total : Z) (fs : list Z) : list cstring := map (fun f => part_file id f total) fs.

(** Frame numbers in ascending order after [last], and the last of them. *)
Fixpoint ascending (last : Z) (fs : list Z) : Prop :=
  match fs with [] => True | f :: fs => last < f /\ ascending f fs end.
Fixpoint final (last : Z) (fs : list Z) : Z := match fs with [] => last | f :: fs => final f fs end.

Lemma ascending_above fs : forall last, ascending last fs -> forall f, f ∈ fs -> last < f.
Proof.
  induction fs as [|x fs IH]; intros last Ha f Hf; [by apply elem_of_nil in Hf|]. destruct Ha as [Hx Ha].
  apply elem_of_cons in Hf as [->|Hf]; [done|]. specialize (IH x Ha f Hf). lia.
Qed.
Lemma ascending_final fs : forall last, ascending last fs -> last <= final last fs /\ forall f, f ∈ fs -> f <= final last fs.
Proof.
  induction fs as [|x fs IH]; intros last Ha; cbn [final].
  - split; [lia|]. intros f Hf. by apply elem_of_nil in Hf.
  - destruct Ha as [Hx Ha]. destruct (IH x Ha) as [H1 H2]. split; [lia|].
    intros f [->|Hf]%elem_of_cons; [done|by apply H2].
Qed.

Lemma missing_fold fuel id total : int_ok id -> int_ok total -> forall fs last mx out,
  Forall int_ok fs -> ascending last fs -> final last fs - last <= Z.of_nat fuel ->
  fold_left (missing_step fuel) (numbered id total fs) (Some (last, mx, out)) =
    Some (final last fs, match fs with [] => mx | _ => total end, out ++ absent fs (seqZ (last + 1) (final last fs - last))).
Proof.
  intros Hi Ht. induction fs as [|f fs IH]; intros last mx out Hfs Ha Hfuel.
  - cbn [fold_left numbered map final]. rewrite Z.sub_diag. change (seqZ (last + 1) 0) with (@nil Z). cbn. by rewrite app_nil_r.
  - apply Forall_cons in Hfs as [Hf Hfs]. destruct Ha as [Hlf Ha]. cbn [final] in *.
    destruct (ascending_final fs f Ha) as [Hfin _]. cbn [numbered map fold_left].
    unfold missing_step at 2. rewrite scan_part_file by done. rewrite missing_before_ok by lia.
    fold (numbered id total fs). rewrite IH by (done || lia). do 2 f_equal; [by destruct fs|].
    rewrite <- app_assoc. f_equal.
    replace (seqZ (last + 1) (final f fs - last)) with
      (seqZ (last + 1) (f - last - 1) ++ f :: seqZ (f + 1) (final f fs - f)).
    2: { replace (final f fs - last) with ((f - last - 1) + (1 + (final f fs - f))) by lia.
         rewrite !seqZ_app by lia. replace (last + 1 + (f - last - 1)) with f by lia. done. }
    unfold absent at 2. rewrite filter_app, filter_cons_False by set_solver. f_equal.
    + symmetry. apply absent_all. intros i Hi'%elem_of_seqZ [->|Hin]%elem_of_cons; [lia|].
      pose proof (ascending_above fs f Ha i Hin). lia.
    + symmetry. apply absent_below. intros i Hi'%elem_of_seqZ. lia.
Qed.

Lemma missing_frames_ok fuel id total fs :
  int_ok id -> int_ok total -> fs <> [] -> ascending (-1) fs -> final (-1) fs <= total -> total < Z.of_nat fuel ->
  missing_frames fuel (numbered id total fs) = Some (absent fs (seqZ 0 (total + 1))).
Proof.
  intros Hi Ht Hne Ha Hfin Hfuel. destruct (ascending_final fs (-1) Ha) as [Hf1 Hf2].
  assert (Forall int_ok fs) as Hfs.
  { apply Forall_forall. intros f Hf. pose proof (ascending_above fs (-1) Ha f Hf). specialize (Hf2 f Hf).
    unfold int_ok, INT_MIN, INT_MAX in *. lia. }
  unfold missing_frames. rewrite (missing_fold fuel id total Hi Ht fs (-1) (-1) [] Hfs Ha) by lia.
  destruct fs as [|f fs]; [done|]. cbn iota. f_equal. rewrite app_nil_l.
  change (-1 + 1) with 0. set (l := final (-1) (f :: fs)) in *.
  replace (total + 1) with ((l - -1) + (total - l)) by lia. rewrite seqZ_app by lia. unfold absent. rewrite filter_app. f_equal.
  replace (0 + (l - -1)) with (l + 1) by lia. symmetry. apply (absent_all (f :: fs)).
  intros i Hi'%elem_of_seqZ Hin. specialize (Hf2 i Hin). lia.
Qed.

Lemma filter_numbered id total fs :
  int_ok id -> int_ok total -> Forall int_ok fs -> List.filter (_filter_file_part_name id) (numbered id total fs) = numbered id total fs.
Proof.
  intros Hi Ht. induction 1 as [|f fs Hf Hfs IH]; [done|]. cbn [numbered map List.filter].
  unfold _filter_file_part_name at 1. rewrite scan_part_file by done. rewrite Z.eqb_refl. f_equal. exact IH.
Qed.

End MergeFileLaws.

Module MergeFileTheorems.
Import RepoData RepoDataLaws FileRx CmdFP CmdTM MergeFileLaws.

(** C39. Joining a file: when the parts of file [file_id] in the directory are the
    frames [fs] of [total], in order, [tm_merge_file] ends, reports exactly the
    frames from 0 to [total] that are not among them, joins the parts with one
    shell command, and answers its result. *)
Theorem tm_merge_file_reports_missing {S F} fuel names (system : cstring -> Z) file_name file_id total fs (s : sat S F) :
  is_word file_name -> is_cstr file_name -> strlen file_name <= 184 -> int_ok file_id -> int_ok total ->
  List.filter (_filter_file_part_name file_id) names = numbered file_id total fs ->
  fs <> [] -> ascending (-1) fs -> final (-1) fs <= total -> total < Z.of_nat fuel ->
  tm_merge_file fuel names system (cs "%s %d") (params_of [VStr file_name; VInt file_id]) 2 s =
    Ret (Some (if system (merge_cmd file_id file_name) =? 0 then CMD_OK else CMD_ERROR,
               absent fs (seqZ 0 (total + 1))), s).
Proof.
  intros Hw Hc Hl Hi Ht Hnames Hne Ha Hfin Hfuel. unfold tm_merge_file, params_of.
  change (cs "%s %d") with (kinds_fmt [KStr; KInt]).
  rewrite (bind_step _ _ _ _ _ (scan_kinds [KStr; KInt] [VStr file_name; VInt file_id] s
    ltac:(constructor; [by split|]; constructor; [exact Hi|constructor]))).
  unfold scan_into, SCH_CMD_MAX_STR_PARAMS. rewrite (proj2 (Z.ltb_ge _ _)) by lia. unfold bind at 1, ret at 1.
  change (negb (zlength [VStr file_name; VInt file_id] =? 2)) with false. cbv iota. rewrite Hnames.
  assert (match numbered file_id total fs with [] => Some [] | _ => missing_frames fuel (numbered file_id total fs) end =
    Some (absent fs (seqZ 0 (total + 1)))) as ->.
  { rewrite (missing_frames_ok fuel file_id total fs) by done. by destruct fs. }
  assert (snprintf_trunc (248 - 1) (merge_cmd file_id file_name) = merge_cmd file_id file_name) as ->; [|done].
  unfold snprintf_trunc, merge_cmd. apply take_ge. rewrite !length_app. pose proof (length_print_int _ Hi).
  unfold strlen, zlength in Hl. change (length (cs "cat $(find -name ")) with 17%nat.
  change (length (cs "_*.part")) with 7%nat. change (length (cs " | sort -V) > recv_files/")) with 25%nat. cbn [length]. lia.
Qed.

Lemma tm_merge_file_reports_missing_witness :
  tm_merge_file 10 [part_file 7 0 4; part_file 7 1 4; part_file 12 0 2; part_file 7 4 4] (fun _ => 0) (cs "%s %d")
    (params_of [VStr (cs "photo.jpg"); VInt 7]) 2 (DownlinkTheorems.sat0) = Ret (Some (CMD_OK, [2; 3]), DownlinkTheorems.sat0).
Proof.
  etrans; [apply (tm_merge_file_reports_missing 10 _ (fun _ => 0) (cs "photo.jpg") 7 4 [0; 1; 4])|reflexivity].
  - apply (bool_decide_unpack _). vm_compute. exact I.
  - apply (bool_decide_unpack _). vm_compute. exact I.
  - vm_compute. discriminate.
  - unfold int_ok, INT_MIN, INT_MAX. lia.
  - unfold int_ok, INT_MIN, INT_MAX. lia.
  - vm_compute. reflexivity.
  - discriminate.
  - cbn. lia.
  - cbn. lia.
  - lia.
Defined.

(** Two parts with the same frame number, left by transfers that announced
    different totals: the check for missing frames never ends. *)
Theorem merge_duplicate_never_ends fuel id total1 total2 frame :
  int_ok id -> int_ok total1 -> int_ok total2 -> int_ok frame -> -1 < frame ->
  missing_frames fuel [part_file id frame total1; part_file id frame total2] = None.
Proof.
  intros Hi H1 H2 Hf Hneg. unfold missing_frames. cbn [fold_left]. unfold missing_step at 2. rewrite scan_part_file by done.
  destruct (missing_before fuel (-1) frame []); [|done]. unfold missing_step. rewrite scan_part_file by done.
  by rewrite missing_before_behind by lia.
Qed.

End MergeFileTheorems.
