(* ===== verification/FileParts.v ===== *)
(** * A file by parts

    [tm_send_file_parts] on the satellite, [tm_parse_file] on the ground station
    and the parts that [tm_merge_file] joins: whatever is lost, repeated or
    reordered on the way, what is stored of a part is the part, and once every
    part has arrived their concatenation is the file. *)
From S2P Require Import Prelude Memory CStr Config Storage StorageRam Schema RepoCommand RepoData CmdFP.
From S2P Require Import Telemetry FileTransfer CmdTM Downlink MergeFile.

Open Scope Z_scope.

Module FilePartsLaws.
Import RepoData RepoDataLaws Telemetry NetLaws FileRx FileTx FileRxLaws CmdFP CmdTM DownlinkLaws MergeFileLaws.

(** ** The chunks of a file *)
Definition nframes (bytes : list Z) : Z := (zlength bytes + 191) / 192.
Definition chunk (bytes : list Z) (k : Z) : list Z := take 192 (drop (Z.to_nat (192 * k)) bytes).

Lemma nframes_bounds bytes : 192 * (nframes bytes - 1) < zlength bytes <= 192 * nframes bytes \/ (bytes = [] /\ nframes bytes = 0).
Proof.
  unfold nframes. pose proof (Z.div_mod (zlength bytes + 191) 192 ltac:(lia)).
  pose proof (Z.mod_pos_bound (zlength bytes + 191) 192 ltac:(lia)).
  destruct bytes as [|b bs]; [right; by split|]. left. unfold zlength in *. cbn [length] in *. lia.
Qed.
Lemma nframes_nonneg bytes : 0 <= nframes bytes.
Proof. destruct (nframes_bounds bytes) as [H|[_ ->]]; unfold zlength in *; lia. Qed.
Lemma nframes_drop bytes : bytes <> [] -> nframes bytes = 1 + nframes (drop 192 bytes).
Proof.
  intros Hne. unfold nframes, zlength. rewrite length_drop.
  assert (0 < length bytes)%nat by (destruct bytes; [done|cbn; lia]).
  destruct (Nat.le_gt_cases (length bytes) 192).
  - replace (length bytes - 192)%nat with 0%nat by lia. change ((Z.of_nat 0 + 191) / 192) with 0.
    symmetry. apply (Z.div_unique _ 192 1 (Z.of_nat (length bytes) - 1)); lia.
  - replace (Z.of_nat (length bytes) + 191) with (Z.of_nat (length bytes - 192) + 191 + 1 * 192) by lia.
    rewrite Z.div_add by lia. lia.
Qed.

Lemma chunks_whole : forall (n : nat) bytes, nframes bytes = Z.of_nat n ->
  concat (map (chunk bytes) (seqZ 0 (Z.of_nat n))) = bytes.
Proof.
  induction n as [|n IH]; intros bytes Hn.
  - destruct bytes as [|b bs]; [done|]. destruct (nframes_bounds (b :: bs)) as [H|[E _]]; [|done].
    rewrite Hn in H. unfold zlength in H. cbn [length] in H. lia.
  - assert (bytes <> []) as Hne by (intros ->; done). rewrite nframes_drop in Hn by done.
    rewrite seqZ_cons by lia. cbn [map concat].
    replace (Z.pred (Z.of_nat (Datatypes.S n))) with (Z.of_nat n) by lia.
    assert (map (chunk bytes) (seqZ (Z.succ 0) (Z.of_nat n)) = map (chunk (drop 192 bytes)) (seqZ 0 (Z.of_nat n))) as ->.
    { change (Z.succ 0) with (1 + 0). rewrite <- fmap_add_seqZ. change (?f <$> ?l) with (map f l). rewrite map_map. apply map_ext_in. intros k Hk%list_elem_of_In%elem_of_seqZ.
      unfold chunk. rewrite drop_drop. do 2 f_equal. lia. }
    rewrite IH by lia. apply take_drop.
Qed.

(** The frames of a piece of a file are those of its chunks. *)
Lemma frames_chunks fileid total type : forall fuel part data,
  nframes data <= Z.of_nat fuel ->
  file_frames fuel fileid total type part data =
    map (fun k => file_frame fileid total type k (chunk data (k - part))) (seqZ part (nframes data)).
Proof.
  induction fuel as [|fuel IH]; intros part data Hf.
  - destruct data as [|b bs]; [done|]. destruct (nframes_bounds (b :: bs)) as [H|[E _]]; [|done].
    unfold zlength in H. cbn [length] in H. lia.
  - destruct data as [|x l]; [done|]. set (data := x :: l) in *. assert (data <> []) as Hne by done.
    assert (file_frames (Datatypes.S fuel) fileid total type part data =
      file_frame fileid total type part (take 192 data) :: file_frames fuel fileid total type (part + 1) (drop 192 data)) as -> by done.
    clearbody data. rewrite nframes_drop in Hf |- * by done. pose proof (nframes_nonneg (drop 192 data)).
    rewrite seqZ_cons by lia. cbn [map]. f_equal.
    + rewrite Z.sub_diag. done.
    + rewrite IH by lia. replace (Z.pred (1 + nframes (drop 192 data))) with (nframes (drop 192 data)) by lia.
      apply map_ext_in. intros k Hk%list_elem_of_In%elem_of_seqZ. f_equal. unfold chunk. rewrite drop_drop. do 2 f_equal. lia.
Qed.

(** ** One part on the ground *)

(** The file that keeps part [k]. *)
Definition part_path (id k total : Z) : cstring := bname ++ part_file id k total.

Definition id_ok (id : Z) : Prop := 0 <= id < 2 ^ 16.
Definition small (z : Z) : Prop := 0 <= z < 1000.

Lemma part_name_path id total type k data :
  id_ok id -> small k -> small total -> part_name (rx_frame id total type k data) = part_path id k total.
Proof.
  unfold id_ok, small. intros Hi Hk Ht. unfold part_name, part_path, part_file, snprintf_trunc. cbn [rx_frame ff_fileid ff_nframe ff_total].
  apply take_ge. rewrite !length_app.
  assert (forall z, 0 <= z < 1000 -> (length (print_dec z) <= 3)%nat) as H3.
  { intros z Hz. unfold print_dec. rewrite (proj2 (Z.ltb_ge z 0)) by lia. apply (length_dec_digits 2 20 z []). cbn. lia. }
  assert (length (print_dec id) <= 5)%nat as H5.
  { unfold print_dec. rewrite (proj2 (Z.ltb_ge id 0)) by lia. apply (length_dec_digits 4 20 id []). cbn. lia. }
  pose proof (H3 k Hk). pose proof (H3 total Ht). unfold strlen, zlength. change (length (cs ".part")) with 5%nat. cbn [length]. lia.
Qed.

Lemma part_path_inj id total k k' :
  id_ok id -> small total -> small k -> small k' -> part_path id k total = part_path id k' total -> k = k'.
Proof.
  unfold id_ok, small. intros Hi Ht Hk Hk' E%app_inv_head. apply (f_equal (fun n => sscanf n part_fmt)) in E.
  rewrite !scan_part_file in E by (unfold INT_MIN, INT_MAX; lia). congruence.
Qed.

(** What the ground has of the file: its bytes, which do not end in padding. *)
Section file.
Context (id : Z) (bytes : list Z).
Hypothesis Hid : id_ok id.
Hypothesis Hsize : 0 < zlength bytes <= 192 * 1000.
Hypothesis Hlast : last bytes <> Some pad_byte.

Definition total : Z := nframes bytes - 1.
Definition part_frame (k : Z) : com_frame_file_t := file_frame id total TM_TYPE_FILE_PART k (chunk bytes k).
Definition path (k : Z) : cstring := part_path id k total.

Lemma total_small : small total.
Proof.
  unfold small, total. destruct (nframes_bounds bytes) as [H|[E _]]; [lia|]. subst bytes. unfold zlength in Hsize. cbn in Hsize. lia.
Qed.

Lemma part_range k : 0 <= k <= total -> small k.
Proof. pose proof total_small. unfold small in *. lia. Qed.

(** What is stored for a part is the part. *)
Lemma part_stored k : 0 <= k <= total ->
  (if k =? total then unpad (chunk bytes k ++ replicate (192 - length (chunk bytes k)) pad_byte)
   else chunk bytes k ++ replicate (192 - length (chunk bytes k)) pad_byte) = chunk bytes k.
Proof.
  intros Hk. unfold total in *. destruct (nframes_bounds bytes) as [Hb|[E _]].
  2: { rewrite E in Hsize. unfold zlength in Hsize. cbn in Hsize. lia. }
  destruct (k =? nframes bytes - 1) eqn:Ek; bool_to_prop.
  - apply unpad_frame. unfold chunk. rewrite take_ge; [rewrite last_drop; [done|]|].
    + unfold zlength in *. lia.
    + rewrite length_drop. unfold zlength in *. lia.
  - assert (length (chunk bytes k) = 192%nat) as -> by (unfold chunk; rewrite length_take, length_drop; unfold zlength in *; lia).
    apply app_nil_r.
Qed.

Lemma receive_part node k fn li lf files op :
  0 <= k <= total -> op (path k) = true ->
  receive_all [FilePacket node (part_frame k)] (Rx fn li lf files op) = Ret ([CMD_OK], Rx None 0 0 (<[path k := chunk bytes k]> files) op).
Proof.
  intros Hk Ho. pose proof total_small as Ht. pose proof (part_range k Hk) as Hks. unfold small, id_ok in *.
  unfold part_frame. apply receive_one; try lia; [unfold TM_TYPE_FILE_START, TM_TYPE_FILE_PART; lia|].
  unfold tm_parse_file. cbn [rx_frame ff_type].
  change (TM_TYPE_FILE_PART =? TM_TYPE_FILE_START) with false. change (TM_TYPE_FILE_PART =? TM_TYPE_FILE_DATA) with false.
  change (TM_TYPE_FILE_PART =? TM_TYPE_FILE_END) with false. rewrite !Z.eqb_refl. cbn [orb]. cbv iota.
  unfold start_part, store_data, bind, ret, modify, get, put. cbn [rx_fname rx_last_id rx_last_frame rx_files rx_open].
  cbn [ff_type ff_fileid ff_nframe ff_total ff_data rx_frame].
  change (TM_TYPE_FILE_PART =? TM_TYPE_FILE_END) with false. rewrite !Z.eqb_refl. cbn [negb orb andb].
  change (part_name (FileFrame k TM_TYPE_FILE_PART SCH_COMM_NODE id total ?d)) with
    (part_name (rx_frame id total TM_TYPE_FILE_PART k (chunk bytes k))).
  rewrite part_name_path by done. fold (path k). rewrite Ho. cbn [negb].
  change (CMD_OK =? CMD_OK) with true. cbn [negb]. by rewrite part_stored.
Qed.

Lemma receive_parts node ks : forall r : rx,
  Forall (fun k => 0 <= k <= total) ks -> (forall k, 0 <= k <= total -> rx_open r (path k) = true) ->
  exists r', receive_all (map (fun k => FilePacket node (part_frame k)) ks) r = Ret (replicate (length ks) CMD_OK, r') /\
    (forall k, k ∈ ks -> rx_files r' !! path k = Some (chunk bytes k)) /\
    (forall name, (forall k, k ∈ ks -> name <> path k) -> rx_files r' !! name = rx_files r !! name).
Proof.
  induction ks as [|k ks IH]; intros r Hks Ho.
  - exists r. split; [done|]. split; [|done]. intros k Hk. by apply elem_of_nil in Hk.
  - apply Forall_cons in Hks as [Hk Hks]. destruct r as [fn li lf files op].
    destruct (IH (Rx None 0 0 (<[path k := chunk bytes k]> files) op) Hks Ho) as (r' & E & H1 & H2).
    exists r'. split; [|split].
    + cbn [map length replicate]. change (FilePacket node (part_frame k) :: ?l) with ([FilePacket node (part_frame k)] ++ l).
      rewrite (receive_all_app _ _ _ _ _ (receive_part node k fn li lf files op Hk (Ho k Hk))). by rewrite E.
    + intros j [->|Hj]%elem_of_cons; [|by apply H1]. destruct (decide (k ∈ ks)) as [Hin|Hin]; [by apply H1|].
      rewrite H2; [apply lookup_insert_eq|]. intros j Hj Ep. apply Hin.
      assert (0 <= j <= total) as Hjr by (by apply (proj1 (Forall_forall _ _) Hks)).
      assert (k = j) as -> by (apply (part_path_inj id total); [done|apply total_small|by apply part_range..|done]). done.
    + intros name Hn. rewrite H2 by (intros; apply Hn; by constructor). cbn [rx_files].
      apply lookup_insert_ne. intros E'. apply (Hn k); [by constructor|done].
Qed.

(** ** A request of the ground *)

(** The frames that a request for [a .. b - 1] asks for. *)
Definition asked (r : Z * Z) : list Z := seqZ r.1 (Z.min r.2 (total + 1) - r.1).
Definition piece (a b : Z) : list Z :=
  take (Z.to_nat (Z.min ((b - a) * 192) (zlength bytes - a * 192))) (drop (Z.to_nat (a * 192)) bytes).

Lemma piece_frames a b : 0 <= a <= total -> a < b ->
  zlength (piece a b) = Z.min ((b - a) * 192) (zlength bytes - a * 192) /\
  nframes (piece a b) = Z.min b (total + 1) - a /\
  forall k, a <= k < Z.min b (total + 1) -> chunk (piece a b) (k - a) = chunk bytes k.
Proof.
  intros Ha Hb. destruct (nframes_bounds bytes) as [Hn|[E _]].
  2: { rewrite E in Hsize. unfold zlength in Hsize. cbn in Hsize. lia. }
  unfold total in *. set (q := nframes bytes) in *.
  assert (zlength (piece a b) = Z.min ((b - a) * 192) (zlength bytes - a * 192)) as Hl
    by (unfold piece, zlength in *; rewrite length_take, length_drop; lia).
  split; [done|]. split.
  - unfold nframes. rewrite Hl. symmetry. destruct (Z.le_gt_cases b q).
    + apply (Z.div_unique _ 192 _ (if Z.leb ((b - a) * 192) (zlength bytes - a * 192) then 191 else zlength bytes - a * 192 + 191 - (b - a) * 192));
        destruct (Z.leb_spec ((b - a) * 192) (zlength bytes - a * 192)); lia.
    + apply (Z.div_unique _ 192 _ (zlength bytes - a * 192 + 191 - (q - a) * 192)); lia.
  - intros k Hk. unfold chunk, piece. rewrite skipn_firstn_comm, drop_drop, take_take.
    replace (Z.to_nat (a * 192) + Z.to_nat (192 * (k - a)))%nat with (Z.to_nat (192 * k)) by lia.
    set (m := (_ - _)%nat). assert (length (drop (Z.to_nat (192 * k)) bytes) <= m \/ 192 <= m)%nat as [Hm|Hm]
      by (subst m; rewrite length_drop; unfold zlength in *; lia).
    + destruct (Nat.le_gt_cases 192 m); [by rewrite Nat.min_l|]. rewrite Nat.min_r, !take_ge by lia. done.
    + by rewrite Nat.min_l.
Qed.

(** [tm_send_file_parts] sends the frames asked for. *)
Lemma send_request {S F} fuel name node a b (s : sat S F) :
  is_word name -> is_cstr name -> strlen name < SCH_CMD_MAX_STR_PARAMS -> int_ok node ->
  s_files s !! name = Some bytes -> net_ok (s_net s) -> 0 <= a <= total -> a < b < 2 ^ 20 -> zlength bytes < Z.of_nat fuel ->
  tm_send_file_parts fuel (cs "%s %d %d %d %d") (params_of [VStr name; VInt id; VInt a; VInt b; VInt node]) 5 s =
    Ret (Some CMD_OK, lset net_lens (net_after (s_net s) (map (fun k => FilePacket node (part_frame k)) (asked (a, b)))) s).
Proof.
  intros Hw Hc Hl Hnode Hfile Hnet Ha Hb Hfuel. pose proof (piece_frames a b Ha ltac:(lia)) as (Hpl & Hpn & Hpc).
  destruct (nframes_bounds bytes) as [Hn|[E _]].
  2: { rewrite E in Hsize. unfold zlength in Hsize. cbn in Hsize. lia. }
  unfold tm_send_file_parts, params_of.
  change (cs "%s %d %d %d %d") with (kinds_fmt [KStr; KInt; KInt; KInt; KInt]).
  assert (Forall2 kind_val [KStr; KInt; KInt; KInt; KInt] [VStr name; VInt id; VInt a; VInt b; VInt node]) as Hk.
  { unfold id_ok, total, int_ok, INT_MIN, INT_MAX in *. repeat constructor; cbn; unfold INT_MIN, INT_MAX; try done; lia || apply Hw. }
  rewrite (bind_step _ _ _ _ _ (scan_kinds _ _ s Hk)).
  unfold scan_into, SCH_CMD_MAX_STR_PARAMS in *. rewrite (proj2 (Z.ltb_ge _ _)) by lia. unfold bind at 1, ret at 1.
  change (negb (zlength [VStr name; VInt id; VInt a; VInt b; VInt node] =? 5)) with false. cbv iota.
  unfold bind at 1, gets at 1. rewrite Hfile. unfold COM_FRAME_MAX_LEN, total in *.
  assert (i32_of (u64_of (a * 192)) = a * 192) as ->.
  { unfold u64_of. rewrite Z.mod_small by lia. apply i32_of_id. unfold INT_MIN, INT_MAX. lia. }
  unfold bind at 1. rewrite cint_ok by (unfold INT_MIN, INT_MAX; lia). rewrite (proj2 (Z.ltb_ge b 0)) by lia.
  assert (u64_of ((b - a) * 192) = (b - a) * 192) as -> by (apply Z.mod_small; lia).
  assert (u64_of (a * 192 + (b - a) * 192) = b * 192) as -> by (unfold u64_of; rewrite Z.mod_small; lia).
  set (rb := if _ <? b * 192 then _ else _).
  assert (rb = zlength (piece a b)) as Hrb.
  { subst rb. rewrite Hpl. unfold u64_of. destruct (_ <? _) eqn:E; bool_to_prop; [rewrite Z.mod_small by lia|]; lia. }
  clearbody rb. subst rb.
  rewrite (proj2 (Z.ltb_ge (zlength bytes) (a * 192))) by lia.
  assert (u64_of (a * 192 + zlength (piece a b)) = a * 192 + zlength (piece a b)) as ->
    by (apply Z.mod_small; unfold zlength in *; lia).
  rewrite (proj2 (Z.ltb_ge (zlength bytes) (_ + _))) by lia. cbn [orb]. rewrite (proj2 (Z.ltb_ge (a * 192) 0)) by lia.
  assert (take (Z.to_nat (zlength (piece a b))) (drop (Z.to_nat (a * 192)) bytes) = piece a b) as -> by (by rewrite Hpl).
  assert (i32_of (zlength bytes / 192) + (if zlength bytes mod 192 =? 0 then 0 else 1) - 1 = nframes bytes - 1) as ->.
  { pose proof (Z.div_mod (zlength bytes) 192 ltac:(lia)) as Hdm. pose proof (Z.mod_pos_bound (zlength bytes) 192 ltac:(lia)).
    rewrite i32_of_id by (unfold INT_MIN, INT_MAX; nia). destruct (_ =? 0) eqn:E; bool_to_prop; lia. }
  apply on_net_step. unfold com_send_file_parts, bind at 1, gets. pose proof Hnet as (Hcn & _ & _ & Hcl & _). rewrite Hcn. cbn [negb andb].
  rewrite (bind_step _ _ _ _ _ (send_parts_loop_ok fuel node _ _ TM_TYPE_FILE_PART (piece a b) (zlength (piece a b)) a 0 (s_net s) Hnet
    ltac:(unfold zlength; lia) ltac:(lia))).
  rewrite (proj2 (Z.eqb_neq (zlength (piece a b)) 0)) by lia. unfold bind, gets, ret. change (1 =? -1) with false. cbv beta iota. cbn [net_after n_close]. rewrite Hcl.
  do 3 f_equal. rewrite take_ge by (unfold zlength; lia). rewrite frames_chunks by lia. rewrite Hpn, map_map. unfold asked, total. cbn [fst snd].
  apply map_ext_in. intros k Hk'%list_elem_of_In%elem_of_seqZ. unfold part_frame. rewrite Hpc by lia.
  do 2 f_equal. apply Z.mod_small. unfold id_ok in Hid. lia.
Qed.

(** ** Several requests *)
Definition request {S F} (fuel : nat) (name : cstring) (node : Z) (r : Z * Z) : M (sat S F) (option Z) :=
  tm_send_file_parts fuel (cs "%s %d %d %d %d") (params_of [VStr name; VInt id; VInt r.1; VInt r.2; VInt node]) 5.
Fixpoint send_requests {S F} (fuel : nat) (name : cstring) (node : Z) (rs : list (Z * Z)) : M (sat S F) (list (option Z)) :=
  match rs with
  | [] => ret []
  | r :: rs => let! rc := request fuel name node r in let! rcs := send_requests fuel name node rs in ret (rc :: rcs)
  end.
Definition valid (r : Z * Z) : Prop := 0 <= r.1 <= total /\ r.1 < r.2 < 2 ^ 20.
Definition part_packet (node k : Z) : packet := FilePacket node (part_frame k).

Lemma asked_range r k : valid r -> k ∈ asked r -> 0 <= k <= total.
Proof. intros [Ha Hb] Hk%elem_of_seqZ. lia. Qed.

Lemma send_requests_ok {S F} fuel name node : 
  is_word name -> is_cstr name -> strlen name < SCH_CMD_MAX_STR_PARAMS -> int_ok node -> zlength bytes < Z.of_nat fuel ->
  forall rs (s : sat S F), s_files s !! name = Some bytes -> net_ok (s_net s) -> Forall valid rs ->
  send_requests fuel name node rs s =
    Ret (map (fun _ => Some CMD_OK) rs, lset net_lens (net_after (s_net s) (map (part_packet node) (concat (map asked rs)))) s).
Proof.
  intros Hw Hc Hl Hnode Hfuel. induction rs as [|[a b] rs IH]; intros s Hf Hn Hrs.
  - cbn. rewrite net_after_nil. by destruct s.
  - apply Forall_cons in Hrs as [[Ha Hb] Hrs]. cbn [fst snd] in *. cbn [send_requests map concat].
    rewrite (bind_step _ _ _ _ _ (send_request fuel name node a b s Hw Hc Hl Hnode Hf Hn Ha Hb Hfuel)).
    set (s1 := lset net_lens _ s). rewrite (bind_step _ _ _ _ _ (IH s1 Hf Hn Hrs)). unfold ret. subst s1.
    rewrite map_app, <- net_after_app. done.
Qed.

End file.
End FilePartsLaws.

Module FilePartsTheorems.
Import RepoData RepoDataLaws Telemetry NetLaws FileRx FileTx FileRxLaws CmdFP CmdTM DownlinkLaws MergeFileLaws FilePartsLaws.

(** C15. A file recovered by parts: of 1 to 192000 bytes, the last of them not 0xAA
    (the padding of the frames, which the receiver strips from the last part; the
    names of the parts of a larger file are cut, [large_file_part_name_cut]), over a
    network that takes every frame, to a receiver that can open its files.  The
    satellite answers requests for ranges of parts with one frame for each part;
    whatever selection of these frames arrives, in whatever order and with whatever repetitions, every frame is
    accepted, each part that arrived is stored whole in its own file, and no
    other file changes.  Once every part has arrived, the parts in order, which
    is what [tm_merge_file] joins, are the file. *)
Theorem file_recovered_by_parts {S F} fuel id name node rs bytes (s : sat S F) (r : rx) :
  id_ok id -> 0 < zlength bytes <= 192 * 1000 -> last bytes <> Some pad_byte ->
  is_word name -> is_cstr name -> strlen name < SCH_CMD_MAX_STR_PARAMS -> int_ok node -> zlength bytes < Z.of_nat fuel ->
  s_files s !! name = Some bytes -> net_ok (s_net s) -> n_out (s_net s) = [] -> Forall (valid bytes) rs ->
  (forall k, 0 <= k <= total bytes -> rx_open r (path id bytes k) = true) ->
  exists s', send_requests id fuel name node rs s = Ret (map (fun _ => Some CMD_OK) rs, s') /\
    n_out (s_net s') = map (part_packet id bytes node) (concat (map (asked bytes) rs)) /\
    forall ks, (forall k, k ∈ ks -> k ∈ concat (map (asked bytes) rs)) ->
      exists r', receive_all (map (part_packet id bytes node) ks) r = Ret (replicate (length ks) CMD_OK, r') /\
        (forall k, k ∈ ks -> rx_files r' !! path id bytes k = Some (chunk bytes k)) /\
        (forall n, (forall k, k ∈ ks -> n <> path id bytes k) -> rx_files r' !! n = rx_files r !! n) /\
        ((forall k, 0 <= k <= total bytes -> k ∈ ks) ->
         concat (map (fun k => default [] (rx_files r' !! path id bytes k)) (seqZ 0 (total bytes + 1))) = bytes).
Proof.
  intros Hid Hsize Hlast Hw Hc Hl Hnode Hfuel Hf Hn Hout Hrs Hop.
  eexists. split; [apply (send_requests_ok id bytes Hid Hsize fuel name node Hw Hc Hl Hnode Hfuel rs s Hf Hn Hrs)|].
  cbn [s_net lset net_lens net_after n_out]. rewrite Hout, app_nil_l. split; [done|]. intros ks Hks.
  assert (Forall (fun k => 0 <= k <= total bytes) ks) as Hr.
    { apply Forall_forall. intros k Hk. destruct (proj1 (in_concat _ _) (proj1 (list_elem_of_In _ _) (Hks k Hk))) as (l & Hl' & Hkl).
      apply list_elem_of_In in Hl', Hkl. apply list_elem_of_fmap in Hl' as (q & -> & Hq). apply (asked_range bytes q); [|done].
      by apply (proj1 (Forall_forall _ _) Hrs). }
  destruct (receive_parts id bytes Hid Hsize Hlast node ks r Hr Hop) as (r' & E & H1 & H2).
  exists r'. split; [done|]. split; [done|]. split; [done|]. intros Hall.
    pose proof (nframes_nonneg bytes). etrans; [|apply (chunks_whole (Z.to_nat (nframes bytes)) bytes); lia].
    unfold total. replace (nframes bytes - 1 + 1) with (Z.of_nat (Z.to_nat (nframes bytes))) by lia.
    f_equal. apply map_ext_in. intros k Hk%list_elem_of_In%elem_of_seqZ. rewrite H1; [done|]. apply Hall. unfold total. lia.
Qed.

(** 500 bytes in parts 0 to 2, asked for in two requests and received backwards. *)
Definition demo_bytes : list Z := replicate 500 65.
Definition demo_sat : sat StorageRam.Ram.ram_state unit :=
  let s := DownlinkTheorems.sat0 in Sat (s_dat s) (s_cmds s) good_net {[cs "photo" := demo_bytes]}.

Lemma file_recovered_by_parts_witness : exists s' r',
  send_requests 7 501 (cs "photo") 3 [(0, 2); (2, 9)] demo_sat = Ret ([Some CMD_OK; Some CMD_OK], s') /\
  receive_all (map (part_packet 7 demo_bytes 3) [2; 0; 2; 1]) (Rx None 0 0 ∅ (fun _ => true)) = Ret ([CMD_OK; CMD_OK; CMD_OK; CMD_OK], r') /\
  concat (map (fun k => default [] (rx_files r' !! path 7 demo_bytes k)) [0; 1; 2]) = demo_bytes.
Proof.
  destruct (file_recovered_by_parts 501 7 (cs "photo") 3 [(0, 2); (2, 9)] demo_bytes demo_sat (Rx None 0 0 ∅ (fun _ => true)))
    as (s' & E & _ & Hps).
  - by split.
  - by vm_compute.
  - by vm_compute.
  - apply (bool_decide_unpack _). vm_compute. exact I.
  - apply (bool_decide_unpack _). vm_compute. exact I.
  - by vm_compute.
  - by vm_compute.
  - by vm_compute.
  - by vm_compute.
  - exact good_net_ok.
  - reflexivity.
  - repeat constructor; by vm_compute.
  - reflexivity.
  - assert (concat (map (asked demo_bytes) [(0, 2); (2, 9)]) = [0; 1; 2]) as Ea by (vm_compute; reflexivity).
    destruct (Hps [2; 0; 2; 1]) as (r' & Er & _ & _ & Hc); [rewrite Ea; intros k; rewrite !elem_of_cons; tauto|].
    exists s', r'. split; [exact E|]. split; [exact Er|]. apply Hc. change (total demo_bytes) with 2. intros k Hk.
    assert (k = 0 \/ k = 1 \/ k = 2) as [->|[->| ->]] by lia; rewrite !elem_of_cons; tauto.
Defined.

(** A part of a larger file: its name has no room for the whole suffix.  The check
    of [tm_merge_file] still counts it, because [sscanf] does not need the
    suffix, but the shell command joins only names that end in [.part]. *)
Theorem large_file_part_name_cut data :
  let name := cs "10000_1000_1500.par" in
  part_name (rx_frame 10000 1500 TM_TYPE_FILE_PART 1000 data) = bname ++ name /\
  sscanf name part_fmt = Ret (3, [VInt 10000; VInt 1000; VInt 1500]).
Proof. by vm_compute. Qed.

End FilePartsTheorems.
