(* ===== verification/CmdAPP.v ===== *)
(** * The temperature commands

    The two handlers of [apps/simple/src/system/cmdAPP.c] on Linux:
    [obc_get_sensors] adds a sample of the temperature to the payload store, and
    [obc_update_status] puts the temperature in its status variable.  The text
    of [thermal_zone0/temp] is an argument, [None] when it cannot be opened;
    [time(NULL)] is an argument too.  What is logged is left out. *)
From S2P Require Import Prelude Memory CStr Float32 Config Storage StorageRam Schema RepoCommand RepoData Downlink.

Open Scope Z_scope.

Module CmdAPP.
Import RepoData.

(** [f / 1000] for the bits of a [float]: infinity and NaN stay, another value
    is the quotient rounded once. *)
Definition f32_div1000 (bits : Z) : Z :=
  if f32_exp bits =? 255 then bits
  else
    let m := if f32_exp bits =? 0 then f32_frac bits else 2 ^ 23 + f32_frac bits in
    let k := Z.max 1 (f32_exp bits) - 150 in
    f32_of_ratio (f32_sign bits) (scale_num m k) (scale_den 1 k * 1000).

(** [fscanf(thermal, "%f", &millideg)] and the division: the temperature in
    degrees, [None] when [n] is not 1. *)
Definition read_temp (thermal : option cstring) : option Z :=
  match thermal with
  | None => None
  | Some text => match conv_float text with
                 | Conv (VFloat millideg) _ => Some (f32_div1000 millideg)
                 | _ => None
                 end
  end.

(** [struct temp_data] *)
Definition temp_data (index curr_time systemp : Z) : list Z :=
  le_bytes 4 (u32_of index) ++ le_bytes 4 (u32_of curr_time) ++ le_bytes 4 systemp.

Section commands.
Context {S : Type} `{Storage S}.

Definition obc_get_sensors (time : Z) (thermal : option cstring) : M (dat S) Z :=
  let curr_time := i32_of time in
  match read_temp thermal with
  | None => ret CMD_ERROR
  | Some systemp =>
      let! schema := arr_get data_map temp_sensors in
      let! index_temp := dat_get_system_var (map_sys_index schema) in
      dat_add_payload_sample (Some (temp_data index_temp curr_time systemp)) temp_sensors ;!
      ret CMD_OK
  end.

Definition obc_update_status (thermal : option cstring) : M (dat S) Z :=
  match read_temp thermal with
  | None => ret CMD_ERROR
  | Some temp_1 => dat_set_status_var dat_obc_temp_1 temp_1 ;! ret CMD_OK
  end.
End commands.

End CmdAPP.

Module CmdAPPLaws.
Import RepoData RepoDataLaws RepoDataMore CmdAPP DownlinkLaws.

(** ** The temperature in degrees *)

Lemma round_scale num den c : 0 < den -> 0 < c -> round_half_even (num * c) (den * c) = round_half_even num den.
Proof.
  intros Hd Hc. unfold round_half_even. rewrite Z.div_mul_cancel_r by lia. rewrite Zmult_mod_distr_r.
  assert (forall x y, (x * c <? y * c) = (x <? y)) as Hlt.
  { intros. destruct (Z.ltb_spec (x * c) (y * c)), (Z.ltb_spec x y); nia. }
  by rewrite Z.mul_assoc, !Hlt.
Qed.

Lemma scale_num_mul num c k : scale_num (num * c) k = scale_num num k * c.
Proof. unfold scale_num. destruct (0 <=? k); lia. Qed.
Lemma scale_den_mul den c k : scale_den (den * c) k = scale_den den k * c.
Proof. unfold scale_den. destruct (0 <=? k); lia. Qed.
Lemma scale_den_pos den k : 0 < den -> 0 < scale_den den k.
Proof.
  intros. unfold scale_den. destruct (0 <=? k) eqn:E; bool_to_prop; [done|].
  pose proof (pow2_pos (- k) ltac:(lia)). lia.
Qed.

(** The nearest [float] depends on the quotient only. *)
Lemma f32_pos_scale num den j : 0 < num -> 0 < den -> 0 <= j ->
  f32_pos (num * 2 ^ j) (den * 2 ^ j) = f32_pos num den.
Proof.
  intros Hn Hd Hj. pose proof (pow2_pos j Hj) as Hp.
  assert (ratio_exp (num * 2 ^ j) (den * 2 ^ j) = ratio_exp num den) as He.
  { unfold ratio_exp. rewrite !Z.log2_mul_pow2 by lia.
    replace (j + Z.log2 num - (j + Z.log2 den)) with (Z.log2 num - Z.log2 den) by lia.
    set (k := Z.log2 num - Z.log2 den). rewrite scale_den_mul, scale_num_mul.
    destruct (Z.leb_spec (scale_den den (- k) * 2 ^ j) (scale_num num (- k) * 2 ^ j)),
      (Z.leb_spec (scale_den den (- k)) (scale_num num (- k))); nia || done. }
  unfold f32_pos. rewrite (proj2 (Z.eqb_neq (num * 2 ^ j) 0)), (proj2 (Z.eqb_neq num 0)) by nia.
  rewrite He. cbv zeta. rewrite scale_num_mul, scale_den_mul, round_scale by (by apply scale_den_pos || done).
  done.
Qed.

(** The quotient of a whole number of up to 24 bits is rounded once. *)
Lemma f32_div1000_int (neg : bool) n : 0 <= n < 2 ^ 24 ->
  f32_div1000 (f32_of_ratio neg n 1) = f32_of_ratio neg n 1000.
Proof.
  intros Hn. destruct (Z.eq_dec n 0) as [->|Hne]; [by destruct neg|].
  destruct (f32_pos_int n ltac:(lia)) as (Hp & Hm & Hl).
  unfold f32_of_ratio at 1. rewrite Hp.
  destruct (f32_parts neg (Z.log2 n + 127) (n * 2 ^ (23 - Z.log2 n)) ltac:(lia) Hm) as (Hs & He & Hf).
  unfold f32_div1000. rewrite Hs, He, Hf.
  rewrite (proj2 (Z.eqb_neq _ 255)), (proj2 (Z.eqb_neq _ 0)) by lia. rewrite Z.max_r by lia.
  replace (2 ^ 23 + (n * 2 ^ (23 - Z.log2 n) - 2 ^ 23)) with (n * 2 ^ (23 - Z.log2 n)) by lia.
  replace (Z.log2 n + 127 - 150) with (- (23 - Z.log2 n)) by lia. set (j := 23 - Z.log2 n) in *.
  assert (scale_num (n * 2 ^ j) (- j) = n * 2 ^ j) as ->.
  { unfold scale_num. destruct (0 <=? - j) eqn:E; bool_to_prop; [|done]. replace j with 0 by lia. cbn. lia. }
  assert (scale_den 1 (- j) = 2 ^ j) as ->.
  { unfold scale_den. destruct (0 <=? - j) eqn:E; bool_to_prop.
    - by replace j with 0 by lia.
    - rewrite Z.opp_involutive. lia. }
  unfold f32_of_ratio. f_equal. rewrite (Z.mul_comm (2 ^ j)). apply f32_pos_scale; lia.
Qed.

(** A thousandth of a number of up to 24 bits is in the range of a positive [float]. *)
Lemma f32_pos_range m : 0 <= m < 2 ^ 24 -> 0 <= f32_pos m 1000 < 2 ^ 31.
Proof.
  intros Hm. destruct (Z.eq_dec m 0) as [->|Hne]; [by cbn|].
  pose proof (Z.log2_spec m ltac:(lia)) as Hs. pose proof (Z.log2_nonneg m) as H0.
  assert (Z.log2 m <= 23) as H23 by (apply Z.lt_succ_r, Z.log2_lt_pow2; [lia|exact (proj2 Hm)]).
  unfold f32_pos. rewrite (proj2 (Z.eqb_neq m 0)) by lia.
  set (e := Z.max (ratio_exp m 1000) (-126)).
  assert (Z.log2 m - 10 <= e <= Z.log2 m - 9) as He.
  { subst e. unfold ratio_exp. change (Z.log2 1000) with 9. destruct (_ <=? _); lia. }
  clearbody e. unfold scale_num, scale_den. rewrite (proj2 (Z.leb_le 0 (23 - e))) by lia.
  set (r := round_half_even _ _).
  assert (0 <= r <= 2 ^ 25) as Hr.
  { assert (0 <= m * 2 ^ (23 - e) <= 2 ^ 34) as Hb.
    { pose proof (pow2_pos (23 - e) ltac:(lia)). split; [nia|].
      assert (2 ^ (23 - e) <= 2 ^ (33 - Z.log2 m)) by (apply Z.pow_le_mono_r; lia).
      assert (2 ^ Z.succ (Z.log2 m) * 2 ^ (33 - Z.log2 m) = 2 ^ 34) by (rewrite <- Z.pow_add_r by lia; f_equal; lia).
      nia. }
    subst r. unfold round_half_even. pose proof (Z.div_mod (m * 2 ^ (23 - e)) 1000 ltac:(lia)).
    pose proof (Z.mod_pos_bound (m * 2 ^ (23 - e)) 1000 ltac:(lia)). repeat destruct (_ <? _); try destruct (Z.even _); lia. }
  clearbody r. destruct (r =? 2 ^ 24) eqn:E1; cbn beta iota; bool_to_prop.
  - rewrite (proj2 (Z.ltb_ge 127 _)) by lia. cbn [Z.ltb Z.compare Pos.compare Pos.compare_cont].
    change (2 ^ 23 <? 2 ^ 23) with false. cbv iota. lia.
  - rewrite (proj2 (Z.ltb_ge 127 _)) by lia. destruct (r <? 2 ^ 23) eqn:E2; bool_to_prop; lia.
Qed.

(** The file of the kernel: the temperature in thousandths of a degree. *)
Definition thermal_text (millideg : option Z) : option cstring := option_map (fun n => print_dec n ++ [10]) millideg.
Definition thermal_ok (millideg : option Z) : Prop :=
  match millideg with Some n => - 2 ^ 24 < n < 2 ^ 24 | None => True end.
Definition degrees (n : Z) : Z := f32_of_ratio (n <? 0) (Z.abs n) 1000.

Lemma read_temp_line millideg : thermal_ok millideg -> read_temp (thermal_text millideg) = option_map degrees millideg.
Proof.
  intros H. destruct millideg as [n|]; [|done]. cbn [thermal_text option_map read_temp thermal_ok] in *.
  rewrite conv_float_print by (lia || (cbn; repeat split; lia || done)).
  by rewrite f32_div1000_int by lia.
Qed.

Lemma degrees_range n : - 2 ^ 24 < n < 2 ^ 24 -> 0 <= degrees n < 2 ^ 32.
Proof.
  intros Hn. unfold degrees, f32_of_ratio.
  assert (0 <= f32_pos (Z.abs n) 1000 < 2 ^ 31) by (
    assert (0 <= Z.abs n < 2 ^ 24) as Hm by lia; clear Hn; revert Hm; generalize (Z.abs n); apply f32_pos_range).
  destruct (n <? 0); lia.
Qed.

(** ** Samples *)
Lemma zlength_temp_data index now temp : zlength (temp_data index now temp) = sizeof_temp_data.
Proof. unfold zlength, temp_data. by rewrite !length_app, !length_le_bytes. Qed.

Section samples.
Context {S : Type} `{PayloadLaws S}.
Implicit Types (d : dat S).

(** Executions of [obc_get_sensors], each at its time with the file as it is. *)
Fixpoint run_sensors (rs : list (Z * option cstring)) : M (dat S) (list Z) :=
  match rs with
  | [] => ret []
  | (now, thermal) :: rs =>
      let! rc := obc_get_sensors now thermal in
      let! rcs := run_sensors rs in
      ret (rc :: rcs)
  end.

(** What they should answer, and the samples they should add from number [index] on. *)
Definition answer (r : Z * option Z) : Z := match r.2 with Some _ => CMD_OK | None => CMD_ERROR end.
Fixpoint temperatures (index : Z) (rs : list (Z * option Z)) : list (list Z) :=
  match rs with
  | [] => []
  | (now, Some n) :: rs => temp_data index (i32_of now) (degrees n) :: temperatures (index + 1) rs
  | (_, None) :: rs => temperatures index rs
  end.

Lemma get_sensors_ok d idx now n :
  payload_ok d idx -> ground_room idx 1 -> thermal_ok (Some n) ->
  exists d', obc_get_sensors now (thermal_text (Some n)) d = Ret (CMD_OK, d') /\
    appended d d' idx [temp_data idx (i32_of now) (degrees n)].
Proof.
  intros Hp Hr Hn. unfold obc_get_sensors. rewrite read_temp_line by done. cbn [option_map].
  rewrite (bind_step _ _ _ _ _ (arr_temp d)). cbn [temp_schema map_sys_index].
  rewrite (bind_step _ _ _ _ _ (idx_read d idx Hp)).
  destruct (add_sample_appended d idx (temp_data idx (i32_of now) (degrees n)) Hp Hr) as (d' & E & Ha);
    [apply zlength_temp_data|].
  exists d'. by rewrite (bind_step _ _ _ _ _ E).
Qed.

Lemma run_sensors_ok rs : forall d idx,
  payload_ok d idx -> Forall (fun r => thermal_ok r.2) rs -> ground_room idx (zlength (temperatures idx rs)) ->
  exists d', run_sensors (map (fun r => (r.1, thermal_text r.2)) rs) d = Ret (map answer rs, d') /\
    appended d d' idx (temperatures idx rs).
Proof.
  induction rs as [|[now [n|]] rs IH]; intros d idx Hp Hrs Hr.
  - exists d. split; [done|]. by apply appended_nil.
  - apply Forall_cons in Hrs as [Hn Hrs]. cbn [temperatures] in *.
    assert (forall x (l : list (list Z)), zlength (x :: l) = 1 + zlength l) as Hz by (intros; unfold zlength; cbn; lia).
    rewrite Hz in Hr. destruct Hr as [Hr1 Hr2].
    assert (0 <= zlength (temperatures (idx + 1) rs)) by (unfold zlength; lia).
    destruct (get_sensors_ok d idx now n Hp ltac:(split; lia) Hn) as (d1 & E1 & Ha1).
    cbn [map run_sensors fst snd]. rewrite (bind_step _ _ _ _ _ E1).
    destruct (IH d1 (idx + 1) (proj1 Ha1) Hrs ltac:(split; lia)) as (d2 & E2 & Ha2).
    rewrite (bind_step _ _ _ _ _ E2). exists d2. split; [done|].
    apply (appended_trans d d1 d2 idx [_]); [done|exact Ha2].
  - apply Forall_cons in Hrs as [_ Hrs]. cbn [temperatures] in *.
    destruct (IH d idx Hp Hrs Hr) as (d2 & E2 & Ha2).
    cbn [map run_sensors fst snd]. unfold bind at 1. unfold obc_get_sensors at 1. cbn [thermal_text option_map read_temp ret].
    unfold ret at 1. rewrite (bind_step _ _ _ _ _ E2). by exists d2.
Qed.
End samples.
End CmdAPPLaws.

Module CmdAPPTheorems.
Import RepoData RepoDataLaws RepoDataMore RepoDataTheorems CmdAPP DownlinkLaws CmdAPPLaws.

Section theorems.
Context {S : Type} `{PayloadLaws S}.
Implicit Types (d : dat S).

(** A series of executions of [obc_get_sensors]: each one that finds a
    temperature of [n] thousandths of a degree succeeds and adds one sample,
    numbered one after the last, with the time and the [float] nearest to
    [n / 1000]; each one that cannot open the file answers an error and adds
    nothing; and every older sample stays as it was. *)
Theorem temperature_samples d idx rs :
  payload_ok d idx -> Forall (fun r => thermal_ok r.2) rs -> ground_room idx (zlength (temperatures idx rs)) ->
  exists d', run_sensors (map (fun r => (r.1, thermal_text r.2)) rs) d = Ret (map answer rs, d') /\
    payload_ok d' (idx + zlength (temperatures idx rs)) /\
    samples d' 0 (idx + zlength (temperatures idx rs)) = samples d 0 idx ++ temperatures idx rs.
Proof. intros. by apply run_sensors_ok. Qed.

(** [obc_update_status] keeps the temperature in its status variable and
    changes no other. *)
Theorem update_status_temperature d n :
  dat_ok d -> thermal_ok (Some n) ->
  exists d', obc_update_status (thermal_text (Some n)) d = Ret (CMD_OK, d') /\ dat_ok d' /\
    forall j, 0 <= j < dat_status_last_address ->
      var d' j = if decide (j = dat_obc_temp_1) then degrees n else var d j.
Proof.
  intros Hok Hn. unfold obc_update_status. rewrite read_temp_line by done. cbn [option_map].
  pose proof Hok as [_ Hsz].
  destruct (set_status_ok d dat_obc_temp_1 (degrees n) Hok) as (s' & _ & E & Hok' & _ & _ & _ & Hv);
    [unfold dat_obc_temp_1, dat_status_last_address in *; lia|by apply degrees_range|].
  rewrite (bind_step _ _ _ _ _ E). exists (set_store s' d). split; [done|]. split; [done|].
  intros j Hj. apply Hv. lia.
Qed.
End theorems.

Lemma temperature_samples_witness :
  exists d' b, run_sensors (map (fun r => (r.1, thermal_text r.2))
        [(1600000000, Some 45123); (1600000060, None); (1600000120, Some (-500))]) (ram_data 0) =
      Ret ([CMD_OK; CMD_ERROR; CMD_OK], d') /\ b = samples d' 0 2 /\
    b = [[0; 0; 0; 0; 0; 16; 94; 95; 244; 125; 52; 66]; [1; 0; 0; 0; 120; 16; 94; 95; 0; 0; 0; 191]].
Proof.
  destruct (temperature_samples (ram_data 0) 0 [(1600000000, Some 45123); (1600000060, None); (1600000120, Some (-500))])
    as (d' & E & _ & Hs).
  - apply ram_data_payload.
  - repeat constructor; cbn; lia.
  - vm_compute. done.
  - exists d', (samples d' 0 2). split; [exact E|]. split; [done|].
    etrans; [exact Hs|]. vm_compute. reflexivity.
Defined.
End CmdAPPTheorems.
