(* ===== verification/Dispatcher.v ===== *)
(** * Dispatcher and executer

    [src/system/taskDispatcher.c] and [src/system/taskExecuter.c]: the two tasks
    that take the commands the clients send and run them one at a time, as a
    transition system over the three queues of [src/system/mainFS.c].  A queue
    is the bounded list that OsQueue proves its ring buffer to be; the clients
    are any task that calls [cmd_send]. *)
From stdpp Require Import relations.
From S2P Require Import Prelude CStr Config Storage StorageRam Schema RepoCommand RepoData CmdFP CmdDRP.

Open Scope Z_scope.

Module Dispatcher.
Import RepoCommand RepoData.

Section tasks.
Context {S F : Type} `{Storage S}.

(** [exec c] is the call [run_cmd->function(run_cmd->fmt, run_cmd->params,
    run_cmd->nparams)], on the data repository; [env] is what the client tasks
    do to the data repository on their own. *)
Context (exec : cmd_t F -> M (dat S) Z) (env : dat S -> dat S -> Prop).

(** The program counters of the two loops. *)
Inductive dpc :=
  | DReceive              (** before [osQueueReceive(dispatcher_queue, ...)] *)
  | DCount (c : cmd_t F)      (** before the executed commands are counted *)
  | DSend (c : cmd_t F)       (** before [osQueueSend(executer_cmd_queue, ...)] *)
  | DLog (c : cmd_t F)        (** before the [LOGD] that reads [new_cmd] *)
  | DResult.              (** before [osQueueReceive(executer_stat_queue, ...)] *)
Inductive xpc :=
  | XReceive              (** before [osQueueReceive(executer_cmd_queue, ...)] *)
  | XRun (c : cmd_t F)        (** before the command is executed and freed *)
  | XSend (cmd_stat : Z). (** before [osQueueSend(executer_stat_queue, ...)] *)

(** [y_sent] and [y_done] are history: the commands that were sent, and those
    that were executed with their results. *)
Record sys := Sys {
  y_dat : dat S;
  dispatcher_queue : list (cmd_t F);
  executer_cmd_queue : list (cmd_t F);
  executer_stat_queue : list Z;
  y_disp : dpc;
  y_exec : xpc;
  y_sent : list (cmd_t F);
  y_done : list (cmd_t F * Z)
}.

Definition check_if_executable (c : cmd_t F) : bool := true.

(** [v = v + 1] on a status variable: two calls of the data repository, one step
    of the dispatcher.  Only the dispatcher writes the two counters, so nothing another
    task does between the calls changes what the second one stores; the
    interleavings of the calls of several writers are the subject of [Locks]. *)
Definition count_var (index : Z) : M (dat S) unit :=
  let! n := dat_get_system_var index in
  let! n := cint (n + 1) in
  dat_set_system_var index n ;! ret tt.

Definition count_failed (cmd_result : Z) : M (dat S) unit :=
  if negb (cmd_result =? CMD_OK) then count_var dat_obc_failed_cmds else ret tt.

(** One step of a client: [cmd_send], which blocks while the queue is full, or
    an access to the data repository. *)
Inductive client_step : sys -> sys -> Prop :=
  | client_send y c :
      zlength (dispatcher_queue y) < SCH_CMD_QUEUE_LEN ->
      client_step y (Sys (y_dat y) (dispatcher_queue y ++ [c]) (executer_cmd_queue y) (executer_stat_queue y)
                         (y_disp y) (y_exec y) (y_sent y ++ [c]) (y_done y))
  | client_data y d' :
      env (y_dat y) d' ->
      client_step y (Sys d' (dispatcher_queue y) (executer_cmd_queue y) (executer_stat_queue y)
                         (y_disp y) (y_exec y) (y_sent y) (y_done y)).

(** One step of [taskDispatcher]. *)
Inductive disp_step : sys -> sys -> Prop :=
  | disp_receive d c q xq sq x sent done :
      disp_step (Sys d (c :: q) xq sq DReceive x sent done)
                (Sys d q xq sq (if check_if_executable c then DCount c else DReceive) x sent done)
  | disp_count d d' c q xq sq x sent done :
      count_var dat_obc_executed_cmds d = Ret (tt, d') ->
      disp_step (Sys d q xq sq (DCount c) x sent done) (Sys d' q xq sq (DSend c) x sent done)
  | disp_send d c q xq sq x sent done :
      zlength xq < 1 ->
      disp_step (Sys d q xq sq (DSend c) x sent done) (Sys d q (xq ++ [c]) sq (DLog c) x sent done)
  | disp_log d c q xq sq x sent done :
      disp_step (Sys d q xq sq (DLog c) x sent done) (Sys d q xq sq DResult x sent done)
  | disp_result d d' z q xq sq x sent done :
      count_failed z d = Ret (tt, d') ->
      disp_step (Sys d q xq (z :: sq) DResult x sent done) (Sys d' q xq sq DReceive x sent done).

(** One step of [taskExecuter]; the command is freed when it has run.  The name
    it reads for the log ([cmd_get_name]) changes nothing. *)
Inductive exec_step : sys -> sys -> Prop :=
  | exec_receive d c q xq sq p sent done :
      exec_step (Sys d q (c :: xq) sq p XReceive sent done) (Sys d q xq sq p (XRun c) sent done)
  | exec_run d d' c z q xq sq p sent done :
      exec c d = Ret (z, d') ->
      exec_step (Sys d q xq sq p (XRun c) sent done) (Sys d' q xq sq p (XSend z) sent (done ++ [(c, z)]))
  | exec_send d z q xq sq p sent done :
      zlength sq < 1 ->
      exec_step (Sys d q xq sq p (XSend z) sent done) (Sys d q xq (sq ++ [z]) p XReceive sent done).

Definition task_step (y y' : sys) : Prop := disp_step y y' \/ exec_step y y'.
Definition step (y y' : sys) : Prop := client_step y y' \/ task_step y y'.

Definition start (d : dat S) : sys := Sys d [] [] [] DReceive XReceive [] [].

End tasks.
Arguments dpc : clear implicits.
Arguments xpc : clear implicits.
Arguments sys : clear implicits.
End Dispatcher.

Module DispatcherLaws.
Import RepoCommand RepoData RepoDataLaws Dispatcher.

Section laws.
Context {S F : Type} `{StorageLaws S}.
Context (exec : cmd_t F -> M (dat S) Z) (env : dat S -> dat S -> Prop).
Implicit Types (y : sys S F) (d : dat S).

(** The command the tasks hold, which is neither queued nor done. *)
Definition in_flight y : list (cmd_t F) :=
  match y_disp y with
  | DReceive => []
  | DCount c | DSend c => [c]
  | DLog _ | DResult =>
      executer_cmd_queue y ++ match y_exec y with XRun c => [c] | _ => [] end
  end.

(** The tasks take turns: what the queues and the executer hold for each place
    of the dispatcher. *)
Definition turns y : Prop :=
  match y_disp y with
  | DReceive | DCount _ | DSend _ =>
      executer_cmd_queue y = [] /\ executer_stat_queue y = [] /\ y_exec y = XReceive
  | DLog _ | DResult =>
      (exists c, executer_cmd_queue y = [c] /\ executer_stat_queue y = [] /\ y_exec y = XReceive) \/
      (exists c, executer_cmd_queue y = [] /\ executer_stat_queue y = [] /\ y_exec y = XRun c) \/
      (exists z, executer_cmd_queue y = [] /\ executer_stat_queue y = [] /\ y_exec y = XSend z) \/
      (exists z, executer_cmd_queue y = [] /\ executer_stat_queue y = [z] /\ y_exec y = XReceive)
  end.

Definition inv y : Prop :=
  turns y /\ zlength (dispatcher_queue y) <= SCH_CMD_QUEUE_LEN /\
  y_sent y = map fst (y_done y) ++ in_flight y ++ dispatcher_queue y.

Ltac turns_cases H :=
  let Hq := fresh "Hq" in let Hs := fresh "Hs" in let Hx := fresh "Hx" in
  let a := fresh "a" in
  destruct H as [(a & Hq & Hs & Hx)|[(a & Hq & Hs & Hx)|[(a & Hq & Hs & Hx)|(a & Hq & Hs & Hx)]]];
  cbn in Hq, Hs, Hx; simplify_eq.

Lemma inv_start d : inv (start d).
Proof. repeat split; try done. Qed.

Lemma inv_client y y' : inv y -> client_step env y y' -> inv y'.
Proof.
  intros (Ht & Hl & Hs) Hstep. destruct Hstep as [y c Hq|y d' He].
  - split; [done|]. split; [cbn; unfold zlength in *; rewrite length_app; cbn; lia|].
    cbn. rewrite Hs. unfold in_flight. cbn. by rewrite !app_assoc.
  - done.
Qed.

Lemma inv_disp y y' : inv y -> disp_step y y' -> inv y'.
Proof.
  intros (Ht & Hl & Hs) Hstep. destruct Hstep; unfold inv, turns, in_flight in *; cbn in *.
  - destruct Ht as (-> & -> & ->). split; [done|]. split; [unfold zlength in *; cbn in *; lia|]. done.
  - done.
  - destruct Ht as (-> & -> & ->). split; [left; eauto|]. done.
  - done.
  - turns_cases Ht. split; [done|]. split; [done|]. done.
Qed.

Lemma inv_exec y y' : inv y -> exec_step exec y y' -> inv y'.
Proof.
  intros (Ht & Hl & Hs) Hstep. destruct Hstep; unfold inv, turns, in_flight in *; cbn in *.
  all: destruct p; try (destruct Ht as (? & ? & ?); done); turns_cases Ht.
  all: split; [first [right; left; by eauto | right; right; left; by eauto | right; right; right; by eauto]|].
  all: split; [done|]; rewrite ?map_app, <- ?app_assoc; done.
Qed.

Lemma inv_step y y' : inv y -> step exec env y y' -> inv y'.
Proof.
  intros Hi [Hc|[Hd|Hx]]; [by eapply inv_client|by eapply inv_disp|by eapply inv_exec].
Qed.

Lemma inv_reachable d y : rtc (step exec env) (start d) y -> inv y.
Proof.
  intros Hr. assert (inv (start d)) as Hi by apply inv_start. revert Hi.
  induction Hr; [done|]. intros. apply IHHr. by eapply inv_step.
Qed.

(** *** Progress

    Every step of the two tasks lowers this number. *)
Definition stage y : nat :=
  match y_disp y with
  | DReceive => 0
  | DCount _ => 8
  | DSend _ => 7
  | DLog _ | DResult =>
      (match y_disp y with DLog _ => 1 | _ => 0 end) +
      (match executer_cmd_queue y, y_exec y, executer_stat_queue y with
       | _ :: _, _, _ => 5 | [], XRun _, _ => 4 | [], XSend _, _ => 3 | [], XReceive, _ => 1 end)
  end%nat.
Definition measure_of y : nat := (9 * length (dispatcher_queue y) + stage y)%nat.

Lemma task_step_measure y y' : inv y -> task_step exec y y' -> (measure_of y' < measure_of y)%nat.
Proof.
  intros (Ht & _ & _) [Hs|Hs]; destruct Hs; unfold measure_of, stage, turns in *; cbn in *.
  - lia.
  - lia.
  - destruct Ht as (-> & -> & ->). cbn. lia.
  - destruct xq; [|lia]. destruct x; lia.
  - turns_cases Ht. lia.
  - destruct p; try (destruct Ht as (? & ? & ?); done); turns_cases Ht; cbn; lia.
  - destruct p; try (destruct Ht as (? & ? & ?); done); turns_cases Ht; cbn; lia.
  - destruct p; try (destruct Ht as (? & ? & ?); done); turns_cases Ht; cbn; lia.
Qed.

Lemma idle_done y : inv y -> measure_of y = 0%nat -> map fst (y_done y) = y_sent y.
Proof.
  intros (Ht & _ & Hs) Hm. unfold measure_of, stage, in_flight, turns in *.
  destruct (y_disp y); try lia.
  2: destruct (executer_cmd_queue y), (y_exec y); lia.
  destruct (dispatcher_queue y); [|cbn in Hm; lia]. by rewrite Hs, !app_nil_r.
Qed.

(** [good n d]: on the data [d] every command returns, and the counters have
    room for [n] more. *)
Section progress.
Context (good : nat -> dat S -> Prop).
Hypothesis good_mono : forall m n d, (n <= m)%nat -> good m d -> good n d.
Hypothesis exec_total : forall n c d, good n d -> exists z d', exec c d = Ret (z, d') /\ good n d'.
Hypothesis count_total : forall n i d, i = dat_obc_executed_cmds \/ i = dat_obc_failed_cmds ->
  good (Datatypes.S n) d -> exists d', count_var i d = Ret (tt, d') /\ good n d'.

(** A task can always run while something is left to do. *)
Lemma task_enabled n y :
  inv y -> good (Datatypes.S n) (y_dat y) -> measure_of y <> 0%nat ->
  exists y', task_step exec y y' /\ good n (y_dat y').
Proof.
  intros (Ht & Hl & Hs) Hg Hm. destruct y as [d q xq sq p x sent done].
  assert (good n d) as Hgn by (eapply good_mono; [|exact Hg]; lia).
  unfold measure_of, stage, turns in *; cbn in *. destruct p as [|c|c|c|].
  - destruct q as [|c q]; [cbn in Hm; lia|]. eexists. split; [left; apply disp_receive|done].
  - destruct (count_total n dat_obc_executed_cmds d) as (d' & E & Hg'); [by left|done|].
    eexists. split; [left; by apply disp_count|done].
  - destruct Ht as (-> & -> & ->). eexists. split; [left; by apply disp_send|done].
  - eexists. split; [left; apply disp_log|done].
  - turns_cases Ht.
    + eexists. split; [right; apply exec_receive|done].
    + destruct (exec_total n a d Hgn) as (z & d' & E & Hg'). eexists. split; [right; by apply exec_run|done].
    + eexists. split; [right; by apply exec_send|done].
    + assert (exists d', count_failed a d = Ret (tt, d') /\ good n d') as (d' & E & Hg').
      { unfold count_failed. destruct (negb _); [|by exists d]. apply count_total; [by right|done]. }
      eexists. split; [left; by apply disp_result|done].
Qed.

Lemma run_to_idle n y :
  inv y -> (measure_of y <= n)%nat -> good n (y_dat y) ->
  exists y', rtc (task_step exec) y y' /\ inv y' /\ measure_of y' = 0%nat.
Proof.
  revert y. induction n as [|n IH]; intros y Hi Hm Hg; [exists y; split; [done|]; split; [done|lia]|].
  destruct (decide (measure_of y = 0%nat)) as [Hz|Hz]; [by exists y|].
  destruct (task_enabled n y Hi Hg Hz) as (y1 & Hs & Hg1).
  pose proof (task_step_measure y y1 Hi Hs) as Hlt.
  assert (inv y1) as Hi1 by (eapply (inv_step y y1); [done|by right]).
  destruct (IH y1 Hi1 ltac:(lia) Hg1) as (y2 & Hr & Hrest).
  exists y2. split; [by eapply rtc_l|done].
Qed.
End progress.

Lemma task_steps_sent y y' : rtc (task_step exec) y y' -> y_sent y' = y_sent y.
Proof. induction 1 as [|y1 y2 y3 Hs _ IH]; [done|]. rewrite IH. by destruct Hs as [Hs|Hs]; destruct Hs. Qed.


(** *** The counters *)
Definition counter d (i : Z) : Z := i32_of (var d i).
Definition counter_room (n : nat) d : Prop :=
  dat_ok d /\ counter d dat_obc_executed_cmds + Z.of_nat n <= INT_MAX /\
  counter d dat_obc_failed_cmds + Z.of_nat n <= INT_MAX.

Lemma count_var_ok d i :
  dat_ok d -> 0 <= i < dat_status_last_address -> counter d i < INT_MAX ->
  exists d', count_var i d = Ret (tt, d') /\ dat_ok d' /\ counter d' i = counter d i + 1 /\
    forall j, 0 <= j < dat_status_last_address -> j <> i -> var d' j = var d j.
Proof.
  intros Hok Hi Hr. pose proof Hok as [_ Hsz]. unfold count_var.
  rewrite (bind_step _ _ _ _ _ (get_system_ok d i Hok Hi)). fold (counter d i).
  pose proof (i32_of_range (var d i)) as Hrange. fold (counter d i) in Hrange.
  unfold bind at 1. rewrite cint_ok by lia. unfold dat_set_system_var.
  destruct (set_status_ok d i (u32_of (counter d i + 1)) Hok ltac:(lia) (u32_of_range _))
    as (s' & _ & E & Hok' & _ & _ & _ & Hv).
  rewrite (bind_step _ _ _ _ _ E). exists (set_store s' d). split; [done|]. split; [done|]. split.
  - unfold counter at 1. rewrite Hv, decide_True by (done || lia). apply i32_of_u32_id. lia.
  - intros j Hj Hne. rewrite Hv by lia. by rewrite decide_False.
Qed.

Lemma counter_room_count n i d :
  i = dat_obc_executed_cmds \/ i = dat_obc_failed_cmds ->
  counter_room (Datatypes.S n) d -> exists d', count_var i d = Ret (tt, d') /\ counter_room n d'.
Proof.
  intros Hi (Hok & He & Hf).
  destruct (count_var_ok d i Hok) as (d' & E & Hok' & Hc & Ho).
  { destruct Hi as [-> | ->]; done. }
  { destruct Hi as [-> | ->]; lia. }
  exists d'. split; [done|]. split; [done|]. unfold counter in *.
  destruct Hi as [-> | ->]; rewrite Hc, (Ho dat_obc_executed_cmds) || rewrite Hc, (Ho dat_obc_failed_cmds); try done; lia.
Qed.

(** The results that are not [CMD_OK]. *)
Definition failures (rs : list Z) : Z := zlength (List.filter (fun z => negb (z =? CMD_OK)) rs).
Lemma failures_app a b : failures (a ++ b) = failures a + failures b.
Proof. unfold failures, zlength. rewrite List.filter_app, length_app. lia. Qed.

(** Results on their way to the dispatcher. *)
Definition pending y : list Z :=
  executer_stat_queue y ++ match y_exec y with XSend z => [z] | _ => [] end.
Definition uncounted y : Z := match y_disp y with DCount _ => 1 | _ => 0 end.

Definition counted (e0 f0 : Z) y : Prop :=
  dat_ok (y_dat y) /\
  counter (y_dat y) dat_obc_executed_cmds =
    e0 + zlength (y_done y) + zlength (in_flight y) - uncounted y /\
  counter (y_dat y) dat_obc_failed_cmds + failures (pending y) = f0 + failures (map snd (y_done y)).

(** Commands and clients that leave the two counters alone. *)
Definition keeps_counters d d' : Prop :=
  dat_ok d' /\ var d' dat_obc_executed_cmds = var d dat_obc_executed_cmds /\
  var d' dat_obc_failed_cmds = var d dat_obc_failed_cmds.
Hypothesis exec_keeps : forall c d z d', dat_ok d -> exec c d = Ret (z, d') -> keeps_counters d d'.
Hypothesis env_keeps : forall d d', dat_ok d -> env d d' -> keeps_counters d d'.

Lemma counter_next i d d' : dat_ok d -> 0 <= i < dat_status_last_address -> count_var i d = Ret (tt, d') ->
  dat_ok d' /\ counter d' i = counter d i + 1 /\
    forall j, 0 <= j < dat_status_last_address -> j <> i -> var d' j = var d j.
Proof.
  intros Hok Hi E. destruct (decide (counter d i < INT_MAX)) as [Hr|Hr].
  - destruct (count_var_ok d i Hok Hi Hr) as (d1 & E1 & Hrest). rewrite E in E1. by injection E1 as <-.
  - pose proof (i32_of_range (var d i)) as Hrange. fold (counter d i) in Hrange.
    unfold count_var in E. rewrite (bind_step _ _ _ _ _ (get_system_ok d i Hok Hi)) in E. fold (counter d i) in E.
    unfold bind, cint, is_int in E. rewrite (proj2 (Z.leb_gt (counter d i + 1) INT_MAX)) in E by lia. by rewrite andb_false_r in E.
Qed.

Lemma counted_step e0 f0 y y' : inv y -> counted e0 f0 y -> step exec env y y' -> counted e0 f0 y'.
Proof.
  intros (Ht & _ & _) (Hok & He & Hf) Hstep. unfold counted.
  destruct Hstep as [Hs|[Hs|Hs]]; destruct Hs; unfold turns, in_flight, pending, uncounted, counter in *; cbn in *.
  - done.
  - destruct (env_keeps _ _ Hok H1) as (Hok' & E1 & E2). rewrite E1, E2. done.
  - destruct Ht as (-> & -> & ->). cbn in *. unfold zlength in *. cbn in *. split; [done|]. lia.
  - destruct (counter_next dat_obc_executed_cmds _ _ Hok ltac:(done) H1) as (Hok' & E1 & Ho). unfold counter in E1.
    rewrite E1, He, (Ho dat_obc_failed_cmds) by done. split; [done|]. split; [lia|done].
  - destruct Ht as (-> & -> & ->). cbn in *. done.
  - done.
  - turns_cases Ht. cbn in *. unfold count_failed in H1. unfold failures in *; cbn in *.
    destruct (negb (a =? CMD_OK)).
    + destruct (counter_next dat_obc_failed_cmds _ _ Hok ltac:(done) H1) as (Hok' & E1 & Ho). unfold counter in E1.
      rewrite E1, (Ho dat_obc_executed_cmds) by done. split; [done|].
      unfold zlength in *. cbn in *. lia.
    + injection H1 as <-. done.
  - destruct p; try (destruct Ht as (? & ? & ?); done); turns_cases Ht; cbn in *; done.
  - destruct (exec_keeps _ _ _ _ Hok H1) as (Hok' & E1 & E2). rewrite E1, E2, zlength_app, map_app, !failures_app.
    change (zlength [(c, z)]) with 1. cbn [map snd].
    destruct p; try (destruct Ht as (? & ? & ?); done); turns_cases Ht; cbn in *;
      unfold zlength in *; cbn in *; (split; [done|]); split; lia.
  - destruct p; try (destruct Ht as (? & ? & ?); done); turns_cases Ht; cbn in *; done.
Qed.

Lemma counted_reachable d y :
  dat_ok d -> rtc (step exec env) (start d) y ->
  counted (counter d dat_obc_executed_cmds) (counter d dat_obc_failed_cmds) y.
Proof.
  intros Hok Hr.
  assert (counted (counter d dat_obc_executed_cmds) (counter d dat_obc_failed_cmds) (start d)) as Hc.
  { split; [done|]. unfold failures, zlength; cbn; lia. }
  assert (inv (start d)) as Hi by apply inv_start. revert Hi Hc.
  induction Hr as [|y1 y2 y3 Hs _ IH]; [done|]. intros Hi Hc. apply IH.
  - by eapply inv_step.
  - by eapply counted_step.
Qed.

End laws.
End DispatcherLaws.

(** ** Theorems *)
Module DispatcherTheorems.
Import RepoCommand RepoData RepoDataLaws RepoDataTheorems Dispatcher DispatcherLaws.

Section theorems.
Context {S F : Type} `{StorageLaws S}.
Context (exec : cmd_t F -> M (dat S) Z) (env : dat S -> dat S -> Prop).

(** C1. Commands are executed in the order in which they were sent, one at a
    time, none lost and none executed twice, whatever the interleaving of the
    clients, the dispatcher and the executer: at every moment the commands sent
    are those executed, then at most one that the tasks hold, then the queue,
    which never exceeds its size. *)
Theorem commands_executed_in_order d y :
  rtc (step exec env) (start d) y ->
  exists flight, y_sent y = map fst (y_done y) ++ flight ++ dispatcher_queue y /\
    (length flight <= 1)%nat /\ zlength (dispatcher_queue y) <= SCH_CMD_QUEUE_LEN /\
    zlength (executer_cmd_queue y) <= 1 /\ zlength (executer_stat_queue y) <= 1.
Proof.
  intros Hr. destruct (inv_reachable exec env d y Hr) as (Ht & Hl & Hs). exists (in_flight y).
  split; [done|]. unfold turns, in_flight in *. destruct y as [d1 q xq sq p x sent don]. cbn in *.
  destruct p; [destruct Ht as (-> & -> & ->); cbn; unfold zlength in *; cbn; lia..| |];
    destruct Ht as [(a & -> & -> & ->)|[(a & -> & -> & ->)|[(a & -> & -> & ->)|(a & -> & -> & ->)]]];
    unfold zlength in *; cbn; lia.
Qed.

(** C2. No command waits for ever: from every reachable state, when the
    commands return (on data for which the counters have room), the dispatcher
    and the executer alone reach a state in which every command that was sent
    has been executed; every step they take brings them closer to it. *)
Theorem sent_commands_complete d y :
  rtc (step exec env) (start d) y ->
  (forall n c d, counter_room n d -> exists z d', exec c d = Ret (z, d') /\ counter_room n d') ->
  counter_room (measure_of y) (y_dat y) ->
  (forall y1 y2, inv y1 -> task_step exec y1 y2 -> (measure_of y2 < measure_of y1)%nat) /\
  exists y', rtc (task_step exec) y y' /\ map fst (y_done y') = y_sent y.
Proof.
  intros Hr Hx Hg. split; [apply task_step_measure|].
  pose proof (inv_reachable exec env d y Hr) as Hi.
  destruct (run_to_idle exec env counter_room) with (n := measure_of y) (y := y) as (y' & Hsteps & Hi' & Hz).
  - intros m n d1 Hle (Hok & He & Hf). split; [done|]. lia.
  - exact Hx.
  - apply counter_room_count.
  - done.
  - lia.
  - done.
  - exists y'. split; [done|]. rewrite (idle_done y' Hi' Hz). by eapply task_steps_sent.
Qed.

(** C22. The status variables count the commands: when the dispatcher waits for
    the next command, [obc_executed_cmds] has grown by the number of commands
    executed and [obc_failed_cmds] by the number of results other than
    [CMD_OK], as long as neither the commands nor the clients write the two
    variables. *)
Theorem command_counters_exact d y :
  dat_ok d -> rtc (step exec env) (start d) y ->
  (forall c d z d', dat_ok d -> exec c d = Ret (z, d') -> keeps_counters d d') ->
  (forall d d', dat_ok d -> env d d' -> keeps_counters d d') ->
  y_disp y = DReceive ->
  counter (y_dat y) dat_obc_executed_cmds = counter d dat_obc_executed_cmds + zlength (y_done y) /\
  counter (y_dat y) dat_obc_failed_cmds = counter d dat_obc_failed_cmds + failures (map snd (y_done y)).
Proof.
  intros Hok Hr Hx He Hd. destruct (inv_reachable exec env d y Hr) as (Ht & _ & _).
  destruct (counted_reachable exec env Hx He d y Hok Hr) as (_ & E1 & E2).
  unfold turns, in_flight, pending, uncounted in *. rewrite Hd in *. destruct Ht as (_ & Hs & Hxr).
  rewrite Hs, Hxr in E2. change (zlength []) with 0 in E1. change (failures ([] ++ [])) with 0 in E2. lia.
Qed.

(** The [LOGD] of the dispatcher reads [new_cmd->id] after the command was
    handed to the executer, which frees it when it has run: the read can come
    after the [free]. *)
Theorem dispatcher_logs_freed_command c d d1 d2 z :
  count_var dat_obc_executed_cmds d = Ret (tt, d1) -> exec c d1 = Ret (z, d2) ->
  exists y, rtc (step exec env) (start d) y /\ y_disp y = DLog c /\ y_exec y = XSend z /\ y_done y = [(c, z)].
Proof.
  intros Hc Hx. exists (Sys d2 [] [] [] (DLog c) (XSend z) [c] [(c, z)]). split; [|done].
  eapply rtc_l; [left; apply (client_send env (start d) c); done|]. cbn.
  eapply rtc_l; [right; left; apply disp_receive|]. cbn.
  eapply rtc_l; [right; left; by apply disp_count|].
  eapply rtc_l; [right; left; by apply disp_send|]. cbn.
  eapply rtc_l; [right; right; apply exec_receive|].
  eapply rtc_l; [right; right; by apply exec_run|]. done.
Qed.

End theorems.
(** *** Instances: two commands on the RAM storage *)
Import Ram RamLaws CmdDRP.

(** A command that clears the ground watchdog and one that fails. *)
Inductive demo_fn := Demo_clear_gnd_wdt | Demo_fail.
Definition demo_exec (c : cmd_t demo_fn) : M (dat ram_state) Z :=
  match c_function c with
  | Some Demo_clear_gnd_wdt => drp_clear_gnd_wdt [] None 0
  | _ => ret CMD_SYNTAX_ERROR
  end.
Definition demo_env (d d' : dat ram_state) : Prop := d' = d.
Definition demo_cmd (f : demo_fn) : cmd_t demo_fn := Cmd 0 0 (Live []) Null (Some f).

Lemma demo_exec_keeps c d : dat_ok d -> exists z d', demo_exec c d = Ret (z, d') /\ keeps_counters d d'.
Proof.
  intros Hok. pose proof Hok as [_ Hsz]. unfold demo_exec.
  destruct (c_function c) as [[]|]; [|eexists _, d; split; [reflexivity|]; split; done..].
  unfold drp_clear_gnd_wdt, dat_set_system_var.
  destruct (set_status_ok d dat_obc_sw_wdt (u32_of 0) Hok) as (s' & _ & E & Hok' & _ & _ & _ & Hv);
    [unfold dat_obc_sw_wdt, dat_status_last_address in *; lia|apply u32_of_range|].
  rewrite (bind_step _ _ _ _ _ E). eexists _, _. split; [done|]. split; [done|].
  unfold dat_status_last_address in Hsz. rewrite !Hv by (unfold dat_obc_executed_cmds, dat_obc_failed_cmds; lia). done.
Qed.

Lemma demo_exec_keeps' c d z d' : dat_ok d -> demo_exec c d = Ret (z, d') -> keeps_counters d d'.
Proof.
  intros Hok E. destruct (demo_exec_keeps c d Hok) as (z1 & d1 & E1 & Hk). rewrite E in E1. by injection E1 as <- <-.
Qed.

Lemma demo_exec_room n c d : counter_room n d -> exists z d', demo_exec c d = Ret (z, d') /\ counter_room n d'.
Proof.
  intros (Hok & He & Hf). destruct (demo_exec_keeps c d Hok) as (z & d' & E & Hok' & E1 & E2).
  exists z, d'. split; [done|]. unfold counter_room, counter in *. rewrite E1, E2. done.
Qed.

Lemma demo_room : counter_room 100 (ram_data 0).
Proof. split; [exact (proj1 (ram_data_fp 0))|]. vm_compute. split; discriminate. Qed.

(** The system after two commands were sent. *)
Definition two_sent : sys ram_state demo_fn :=
  Sys (ram_data 0) [demo_cmd Demo_fail; demo_cmd Demo_clear_gnd_wdt] [] [] DReceive XReceive
      [demo_cmd Demo_fail; demo_cmd Demo_clear_gnd_wdt] [].
Lemma two_sent_reachable : rtc (step demo_exec demo_env) (start (ram_data 0)) two_sent.
Proof.
  eapply rtc_l; [left; apply (client_send demo_env (start (ram_data 0)) (demo_cmd Demo_fail)); done|].
  eapply rtc_l; [left; eapply (client_send demo_env _ (demo_cmd Demo_clear_gnd_wdt)); done|]. apply rtc_refl.
Qed.

Lemma two_done_reachable : exists y, rtc (step demo_exec demo_env) (start (ram_data 0)) y /\
  y_disp y = DReceive /\ map fst (y_done y) = [demo_cmd Demo_fail; demo_cmd Demo_clear_gnd_wdt].
Proof.
  pose proof (inv_reachable _ _ _ _ two_sent_reachable) as Hi.
  destruct (run_to_idle demo_exec demo_env counter_room) with (n := 100%nat) (y := two_sent) as (y & Hr & Hi' & Hz).
  - intros m n d1 Hle (Hok & He & Hf). split; [done|]. lia.
  - apply demo_exec_room.
  - apply counter_room_count.
  - exact Hi.
  - cbn. lia.
  - exact demo_room.
  - exists y. split; [|split].
    + etrans; [exact two_sent_reachable|]. clear -Hr. induction Hr; [done|].
      eapply rtc_l; [right; eassumption|done].
    + unfold measure_of, stage in Hz. destruct (y_disp y); try done; try lia;
        destruct (executer_cmd_queue y), (y_exec y); lia.
    + rewrite (idle_done y Hi' Hz). by rewrite (task_steps_sent _ _ _ Hr).
Qed.

Lemma commands_executed_in_order_witness :
  exists flight, y_sent two_sent = map fst (y_done two_sent) ++ flight ++ dispatcher_queue two_sent /\
    (length flight <= 1)%nat.
Proof.
  destruct (commands_executed_in_order demo_exec demo_env (ram_data 0) two_sent two_sent_reachable)
    as (fl & H1 & H2 & _).
  exists fl. split; [exact H1|exact H2].
Defined.

Lemma sent_commands_complete_witness :
  exists y', rtc (task_step demo_exec) two_sent y' /\
    map fst (y_done y') = [demo_cmd Demo_fail; demo_cmd Demo_clear_gnd_wdt].
Proof.
  destruct (sent_commands_complete demo_exec demo_env (ram_data 0) two_sent two_sent_reachable demo_exec_room) as [_ H1].
  - exact (let '(conj a (conj b c)) := demo_room in
           conj a (conj (Z.le_trans _ _ _ (Zplus_le_compat_l 18 100 _ ltac:(lia)) b)
                        (Z.le_trans _ _ _ (Zplus_le_compat_l 18 100 _ ltac:(lia)) c))).
  - exact H1.
Defined.

Lemma command_counters_exact_witness : exists y,
  map fst (y_done y) = [demo_cmd Demo_fail; demo_cmd Demo_clear_gnd_wdt] /\
  counter (y_dat y) dat_obc_executed_cmds = counter (ram_data 0) dat_obc_executed_cmds + zlength (y_done y).
Proof.
  destruct two_done_reachable as (y & Hr & Hd & Hm). exists y. split; [exact Hm|].
  apply (command_counters_exact demo_exec demo_env (ram_data 0) y (proj1 (ram_data_fp 0)) Hr demo_exec_keeps').
  - intros d d' Hok ->. split; [exact Hok|done].
  - exact Hd.
Defined.

End DispatcherTheorems.
