(* ===== verification/Registry.v ===== *)
(** * The commands of the flight software

    The [cmd_add] calls of [cmd_obc_init], [cmd_drp_init], [cmd_console_init],
    [cmd_fp_init], [cmd_com_init], [cmd_tm_init] and [cmd_app_init] (a Linux
    build with every module enabled), and the repository that [cmd_repo_init]
    builds from them. *)
From S2P Require Import Prelude CStr Config RepoCommand.

Module Registry.
Import RepoCommand.

(** The command functions, by their names in the source. *)
Inductive cmd_fn :=
  | cmd_null
  | obc_ident | obc_debug | obc_exit | obc_reset | obc_get_os_memory | obc_set_time | obc_get_time
  | obc_reset_wdt | obc_system | obc_set_cwd | obc_get_cwd | obc_ls | obc_rm | obc_mkdir
  | drp_execute_before_flight | drp_reset_payload | drp_reset_status | drp_print_system_vars
  | drp_update_sys_var_idx | drp_update_sys_var_name | drp_get_sys_var_name | drp_update_hours_alive
  | drp_clear_gnd_wdt
  | con_debug_msg | con_help | con_set_logger
  | fp_set | fp_set_unix | fp_set_dt | fp_delete | fp_delete_unix | fp_show | fp_reset | fp_purge
  | com_ping | com_send_rpt | com_send_cmd | com_send_tc_frame | com_send_data | com_debug | com_set_time_node
  | tm_parse_status | tm_parse_string | tm_send_status | tm_send_var | tm_get_last | tm_get_single
  | tm_send_last | tm_send_all | tm_send_from | tm_parse_payload | tm_set_ack | tm_send_cmds | tm_send_fp
  | tm_print_fp | tm_dump | tm_send_file | tm_parse_file | tm_send_file_parts | tm_merge_file | tm_list_files
  | obc_get_sensors | obc_update_status.

#[export] Instance cmd_fn_eq_dec : EqDecision cmd_fn.
Proof. solve_decision. Defined.

(** One [cmd_add]: name, function, format, number of parameters. *)
Definition entry : Type := cstring * cmd_fn * cstring * Z.
Definition obc_entries : list entry := [
  (cs "obc_ident", obc_ident, [], 0); (cs "obc_debug", obc_debug, cs "%d", 1);
  (cs "obc_exit", obc_exit, [], 0); (cs "obc_reset", obc_reset, cs "%d", 1);
  (cs "obc_get_mem", obc_get_os_memory, [], 0); (cs "obc_set_time", obc_set_time, cs "%d", 1);
  (cs "obc_get_time", obc_get_time, cs "%d", 1); (cs "obc_reset_wdt", obc_reset_wdt, cs "%d", 1);
  (cs "obc_system", obc_system, cs "%s", 1); (cs "obc_set_cwd", obc_set_cwd, cs "%s", 1);
  (cs "obc_get_cwd", obc_get_cwd, [], 0); (cs "obc_ls", obc_ls, cs "%s", 1);
  (cs "obc_rm", obc_rm, cs "%s", 1); (cs "obc_mkdir", obc_mkdir, cs "%s", 1)].
Definition cmd_obc_init : M (cmd_repo cmd_fn) unit := add_entries obc_entries.

Definition drp_entries : list entry := [
  (cs "drp_ebf", drp_execute_before_flight, cs "%d", 1); (cs "drp_reset_payload", drp_reset_payload, cs "%d %d", 2);
  (cs "drp_reset_status", drp_reset_status, cs "%d", 1); (cs "drp_print_vars", drp_print_system_vars, [], 0);
  (cs "drp_set_var", drp_update_sys_var_idx, cs "%d %f", 2);
  (cs "drp_set_var_name", drp_update_sys_var_name, cs "%s %f", 2);
  (cs "drp_get_var_name", drp_get_sys_var_name, cs "%s", 1);
  (cs "drp_add_hrs_alive", drp_update_hours_alive, cs "%d", 1);
  (cs "drp_clear_gnd_wdt", drp_clear_gnd_wdt, [], 0)].
Definition cmd_drp_init : M (cmd_repo cmd_fn) unit := add_entries drp_entries.

Definition console_entries : list entry := [
  (cs "test", con_debug_msg, cs "%s", 1); (cs "help", con_help, [], 0);
  (cs "log_set", con_set_logger, cs "%d %d", 2)].
Definition cmd_console_init : M (cmd_repo cmd_fn) unit := add_entries console_entries.

Definition fp_entries : list entry := [
  (cs "fp_set_cmd", fp_set, cs "%d %d %d %d %d %d %d %d %s %n", 10);
  (cs "fp_set_cmd_unix", fp_set_unix, cs "%d %d %d %s %n ", 5);
  (cs "fp_set_cmd_dt", fp_set_dt, cs "%d %d %d %s %n", 5);
  (cs "fp_del_cmd", fp_delete, cs "%d %d %d %d %d %d", 6); (cs "fp_del_cmd_unix", fp_delete_unix, cs "%d", 1);
  (cs "fp_show", fp_show, [], 0); (cs "fp_reset", fp_reset, [], 0); (cs "fp_purge", fp_purge, [], 0)].
Definition cmd_fp_init : M (cmd_repo cmd_fn) unit := add_entries fp_entries.

Definition com_entries : list entry := [
  (cs "com_ping", com_ping, cs "%d", 1); (cs "com_send_rpt", com_send_rpt, cs "%d %s", 2);
  (cs "com_send_cmd", com_send_cmd, cs "%d %n", 2); (cs "com_send_tc", com_send_tc_frame, cs "%d %n", 2);
  (cs "com_send_data", com_send_data, cs "%d %d %n", 3); (cs "com_debug", com_debug, [], 0);
  (cs "com_set_time_node", com_set_time_node, cs "%d", 1)].
Definition cmd_com_init : M (cmd_repo cmd_fn) unit := add_entries com_entries.

Definition tm_entries : list entry := [
  (cs "tm_parse_status", tm_parse_status, [], 0); (cs "tm_parse_string", tm_parse_string, [], 0);
  (cs "tm_send_status", tm_send_status, cs "%d", 1); (cs "tm_send_var", tm_send_var, cs "%d %s", 2);
  (cs "tm_get_last", tm_get_last, cs "%u", 1); (cs "tm_get_single", tm_get_single, cs "%u %u", 2);
  (cs "tm_send_last", tm_send_last, cs "%u %u", 2); (cs "tm_send_all", tm_send_all, cs "%u %u", 2);
  (cs "tm_send_n", tm_send_from, cs "%u %u %u", 3); (cs "tm_parse_payload", tm_parse_payload, cs "%", 0);
  (cs "tm_set_ack", tm_set_ack, cs "%u %u", 2); (cs "tm_send_cmds", tm_send_cmds, cs "%d", 1);
  (cs "tm_send_fp", tm_send_fp, cs "%d", 1); (cs "tm_print_fp", tm_print_fp, [], 0);
  (cs "tm_dump", tm_dump, cs "%d %s", 2); (cs "tm_send_file", tm_send_file, cs "%s %d", 2);
  (cs "tm_parse_file", tm_parse_file, [], 0);
  (cs "tm_send_file_part", tm_send_file_parts, cs "%s %d %d %d %d", 5);
  (cs "tm_merge_file", tm_merge_file, cs "%s %d", 2); (cs "tm_ls", tm_list_files, cs "%s %d", 2)].
Definition cmd_tm_init : M (cmd_repo cmd_fn) unit := add_entries tm_entries.

(** The application [simple] adds its commands in [initAppHook], after
    [cmd_repo_init]. *)
Definition app_entries : list entry := [
  (cs "obc_get_sensors", obc_get_sensors, [], 0); (cs "obc_update_status", obc_update_status, [], 0)].
Definition cmd_app_init : M (cmd_repo cmd_fn) unit := add_entries app_entries.

Definition system_inits : M (cmd_repo cmd_fn) unit :=
  cmd_obc_init ;! cmd_drp_init ;! cmd_console_init ;! cmd_fp_init ;! cmd_com_init ;! cmd_tm_init.

Definition all_entries : list entry :=
  obc_entries ++ drp_entries ++ console_entries ++ fp_entries ++ com_entries ++ tm_entries ++ app_entries.

(** The repository after the start. *)
Definition boot_repo : cmd_repo cmd_fn :=
  match (cmd_repo_init system_inits cmd_null 300 ;! cmd_app_init) repo_boot with
  | Ret (_, s) => s
  | Fault _ => repo_boot
  end.

End Registry.

Module RegistryTheorems.
Import RepoCommand RepoCommandLaws Registry.

Definition resolves (e : nat * entry) : Prop :=
  let '(i, (name, f, fmt, n)) := e in
  cmd_get_str name boot_repo = Ret (Live (Cmd (Z.of_nat i) n (Live fmt) Null (Some f)), boot_repo).

Lemma boot_init : (cmd_repo_init system_inits cmd_null 300 ;! cmd_app_init) repo_boot = Ret (tt, boot_repo).
Proof. vm_compute. reflexivity. Qed.

Lemma boot_repo_ok : repo_ok boot_repo.
Proof. apply repo_okb_ok. vm_compute. reflexivity. Qed.

(** The start registers every command of the flight software: after
    [cmd_repo_init] and the commands of the application, each name finds its
    own function, format and number of parameters, and the table is ready for
    look-ups. *)
Theorem registered_commands_resolve :
  (cmd_repo_init system_inits cmd_null 300 ;! cmd_app_init) repo_boot = Ret (tt, boot_repo) /\
  repo_ok boot_repo /\ Forall resolves (zip (seq 0 (length all_entries)) all_entries).
Proof.
  split; [exact boot_init|]. split; [exact boot_repo_ok|].
  repeat (constructor; [vm_compute; reflexivity|]). constructor.
Qed.
End RegistryTheorems.
