(* ===== verification/Clients.v ===== *)
(** * The client tasks

    The bodies of the loops of [taskWatchdog.c], [taskFlightPlan.c],
    [taskConsole.c], [taskHousekeeping.c] (application [simple]) and
    [taskCommunications.c], and the start of [taskInit.c]: what each of them does
    to the repositories and which commands it sends.  The order of the sends
    is the order in which they enter the queue of Dispatcher. *)
From S2P Require Import Prelude Memory CStr Config Storage StorageRam Schema RepoCommand RepoData.
From S2P Require Import Telemetry FileTransfer CmdTM Registry.

Module Clients.
Import RepoCommand RepoData Telemetry FileRx CmdTM.

Section clients.
Context {S F : Type} `{Storage S}.

(** [cl_sent] are the commands given to [cmd_send]. *)
Record client := Client {
  cl_dat : dat S;
  cl_cmds : cmd_repo F;
  cl_sent : list (cmd_t F)
}.
Definition cl_dat_lens : lens client (dat S) := Lens cl_dat (fun d s => Client d (cl_cmds s) (cl_sent s)).
Definition cl_cmds_lens : lens client (cmd_repo F) := Lens cl_cmds (fun c s => Client (cl_dat s) c (cl_sent s)).
Definition data {A} (m : M (dat S) A) : M client A := zoom cl_dat_lens m.
Definition cmds {A} (m : M (cmd_repo F) A) : M client A := zoom cl_cmds_lens m.

(** The macro [cmd_send]: a null command is not sent. *)
Definition cmd_send (p : ptr (cmd_t F)) : M client unit :=
  if is_null p then ret tt else
  let! c := deref p in
  modify (fun s => Client (cl_dat s) (cl_cmds s) (cl_sent s ++ [c])).

(** ** [taskWatchdog]

    One turn of the loop; [elapsed_obc_timer] is its local variable. *)
Definition watchdog_tick (elapsed_obc_timer : Z) : M client Z :=
  let elapsed_obc_timer := u32_of (elapsed_obc_timer + 1) in
  let! sw := data (dat_get_system_var dat_obc_sw_wdt) in
  let elapsed_sw_timer := u32_of (u32_of sw + 1) in
  data (dat_set_system_var dat_obc_sw_wdt (i32_of elapsed_sw_timer)) ;!
  let! elapsed_obc_timer :=
    (if SCH_MAX_WDT_TIMER <? elapsed_obc_timer then
       let! rst_wdt := cmds (cmd_get_str (cs "obc_reset_wdt")) in
       cmd_send rst_wdt ;! ret 0
     else ret elapsed_obc_timer) in
  (if SCH_MAX_GND_WDT_TIMER <? elapsed_sw_timer then
     let! rst_obc := cmds (cmd_build_from_str (cs "obc_reset 1")) in
     cmd_send rst_obc
   else ret tt) ;!
  ret elapsed_obc_timer.

(** [n] turns. *)
Fixpoint watchdog_ticks (n : nat) (elapsed_obc_timer : Z) : M client Z :=
  match n with
  | O => ret elapsed_obc_timer
  | Datatypes.S n => let! e := watchdog_tick elapsed_obc_timer in watchdog_ticks n e
  end.

(** ** [taskFlightPlan] *)
Definition fp_tick : M client unit :=
  let! elapsed_sec := data dat_get_time in
  let! '(rc, out) := data (dat_get_fp (i32_of elapsed_sec)) in
  if rc =? -1 then ret tt else
  match out with
  | None => fail Uninitialized
  | Some o =>
      data (dat_set_system_var dat_fpl_last (i32_of elapsed_sec)) ;!
      (if (0 <? out_period o) && (1 <? out_executions o) then
         let! when := cint (i32_of elapsed_sec + out_period o) in
         data (dat_set_fp when (Some (out_cmd o)) (Some (out_args o)) (out_executions o - 1) (out_period o)) ;! ret tt
       else ret tt) ;!
      let! new_cmd := cmds (cmd_get_str (out_cmd o)) in
      let! new_cmd := cmds (cmd_add_params_str new_cmd (out_args o)) in
      cmd_send new_cmd
  end.

(** The clock of the system moves on between two turns of a task. *)
Definition set_clock (t : Z) (s : client) : client :=
  Client (Dat (store (cl_dat s)) t (settime_ok (cl_dat s)) (status_machine (cl_dat s))) (cl_cmds s) (cl_sent s).

(** ** [taskHousekeeping] *)
Definition LOG_LVL_DEBUG : Z := 5.
Definition LOG_LVL_VERBOSE : Z := 6.
Definition housekeeping_tick (log_lvl elapsed_sec : Z) : M client Z :=
  let elapsed_sec := u32_of (elapsed_sec + 1) in
  let! now := data dat_get_time in
  data (dat_set_system_var dat_rtc_date_time (i32_of now)) ;!
  (if LOG_LVL_DEBUG <? log_lvl then
     let! cmd_dbg := cmds (cmd_get_str (cs "obc_debug")) in
     let! cmd_dbg := cmds (cmd_add_params_var cmd_dbg [VInt 0]) in
     cmd_send cmd_dbg
   else ret tt) ;!
  (if elapsed_sec mod 60 =? 0 then
     let! cmd_update := cmds (cmd_get_str (cs "obc_get_sensors")) in
     cmd_send cmd_update ;!
     let! cmd_update := cmds (cmd_get_str (cs "obc_update_status")) in
     cmd_send cmd_update
   else ret tt) ;!
  (if elapsed_sec mod 3600 =? 0 then
     let! cmd_1h := cmds (cmd_build_from_str (cs "drp_add_hrs_alive 1")) in
     cmd_send cmd_1h
   else ret tt) ;!
  ret elapsed_sec.

(** ** [taskConsole]

    [console_read] on Linux: [line] is what [linenoise] returns, [None] at the
    end of the input.  The buffer has 256 bytes, all zero, and [len] is 255. *)
Definition exit_prefix : cstring := cs "/exit".
Definition console_read (line : option cstring) (len : Z) : res (option cstring) :=
  match line with
  | None => Ret None
  | Some line =>
      let buffer := take (Z.to_nat (len - 1)) line in
      if bool_decide (take 5 buffer = exit_prefix) then Ret (Some (cs "obc_exit")) else
      match sscanf buffer (cs "%d: %n") with
      | Fault f => Fault f
      | Ret (1, [VInt node; VPos next]) =>
          if (next <? len) && negb (next =? 0) then
            let tmp_buff := take (Z.to_nat (len - next)) (drop (Z.to_nat next) buffer) in
            Ret (Some (snprintf_trunc len (cs "com_send_cmd " ++ print_dec node ++ [chr_space] ++ tmp_buff)))
          else Ret (Some buffer)
      | Ret _ => Ret (Some buffer)
      end
  end.

(** The name of the command is read for the log. *)
Definition console_tick (log_lvl : Z) (line : option cstring) : M client unit :=
  let! buffer := lift (console_read line (SCH_BUFF_MAX_LEN - 1)) in
  match buffer with
  | None => ret tt
  | Some buffer =>
      let! new_cmd := cmds (cmd_build_from_str buffer) in
      if is_null new_cmd then ret tt else
      (if LOG_LVL_DEBUG <=? log_lvl then
         let! c := deref new_cmd in
         let! _ := cmds (cmd_get_name (c_id c)) in ret tt
       else ret tt) ;!
      cmd_send new_cmd
  end.

(** ** [taskCommunications]

    A packet: its buffer ([SCH_BUFF_MAX_LEN] bytes) and its length. *)
Record csp_packet := Packet { p_data : list Z; p_length : Z }.

(** [packet->data[packet->length] = '\0'] and the string in the buffer. *)
Definition packet_text (p : csp_packet) : M client cstring :=
  let! buf := list_write (p_data p) (p_length p) [0] in
  lift (cstr_of_buf buf).

Definition com_receive_tc (p : csp_packet) : M client unit :=
  let! text := packet_text p in
  for_ (strtok_all 59 text) (fun cmd_str =>
    let! new_cmd := cmds (cmd_build_from_str cmd_str) in
    cmd_send new_cmd).

Definition com_receive_cmd (p : csp_packet) : M client unit :=
  let! text := packet_text p in
  let! new_cmd := cmds (cmd_build_from_str text) in
  cmd_send new_cmd.

(** The frame structures in the buffer, packed and little-endian. *)
Definition field (bs : list Z) (off n : nat) : Z := of_le (take n (drop off bs)).
Definition frame_of (bs : list Z) : com_frame_t :=
  Frame (field bs 0 2) (field bs 2 1) (field bs 3 1) (field bs 4 4) (take 192 (drop 8 bs)).
Definition frame_bytes (f : com_frame_t) : list Z :=
  le_bytes 2 (f_nframe f) ++ le_bytes 1 (f_type f) ++ le_bytes 1 (f_node f) ++ le_bytes 4 (f_ndata f) ++ f_data f.
Definition file_frame_of (bs : list Z) : com_frame_file_t :=
  FileFrame (field bs 0 2) (field bs 2 1) (field bs 3 1) (field bs 4 2) (field bs 6 2) (take 192 (drop 8 bs)).
Definition file_frame_bytes (f : com_frame_file_t) : list Z :=
  le_bytes 2 (ff_nframe f) ++ le_bytes 1 (ff_type f) ++ le_bytes 1 (ff_node f) ++
  le_bytes 2 (ff_fileid f) ++ le_bytes 2 (ff_total f) ++ ff_data f.
Definition sizeof_frame : Z := 200.

(** The command that parses a frame, with the frame as its parameters. *)
Definition send_raw (name : cstring) (bytes : list Z) : M client unit :=
  let! c := cmds (cmd_get_str name) in
  let! c := cmds (cmd_add_params_raw c (Some bytes) sizeof_frame) in
  cmd_send c.

Definition receive_tm (p : csp_packet) : M client unit :=
  let '(f, name) := com_receive_tm (frame_of (p_data p)) in
  match name with
  | Some name => send_raw name (frame_bytes f)
  | None => ret tt
  end.

Definition receive_file (p : csp_packet) : M client unit :=
  match com_receive_file (file_frame_of (p_data p)) with
  | Some f => send_raw (cs "tm_parse_file") (file_frame_bytes f)
  | None => ret tt
  end.

(** What the server does with the network for a packet: the reply, the
    repeater, text for the console, or the CSP service handler. *)
Inductive com_action := ReplyOk | Repeat (data : list Z) | PrintText (text : cstring) | ServiceHandler.

(** One packet on port [dport], addressed to node [dst]. *)
Definition com_packet (dport dst : Z) (p : csp_packet) : M client (list com_action) :=
  let! n := data (dat_get_system_var dat_com_count_tc) in
  let! count_tc := cint (n + 1) in
  data (dat_set_system_var dat_com_count_tc count_tc) ;!
  let! now := data dat_get_time in
  data (dat_set_system_var dat_com_last_tc (i32_of now)) ;!
  if dport =? SCH_TRX_PORT_FILE then receive_file p ;! ret []
  else if dport =? SCH_TRX_PORT_TC then com_receive_tc p ;! ret [ReplyOk]
  else if dport =? SCH_TRX_PORT_RPT then
    if dst =? SCH_COMM_NODE then ret [Repeat (take (Z.to_nat (p_length p)) (p_data p))]
    else let! text := lift (cstr_of_buf (p_data p)) in ret [PrintText text]
  else if dport =? SCH_TRX_PORT_CMD then com_receive_cmd p ;! ret [ReplyOk]
  else if dport =? SCH_TRX_PORT_DBG then
    let! text := lift (cstr_of_buf (p_data p)) in ret [PrintText text]
  else if dport =? SCH_TRX_PORT_DBG_TM then
    let! text := lift (cstr_of_buf (drop 8 (p_data p))) in ret [PrintText text]
  else if dport =? SCH_TRX_PORT_TM then receive_tm p ;! ret []
  else ret [ServiceHandler].

(** ** [taskInit] *)
Definition init_update_status_vars : M (dat S) Z :=
  let! r1 := dat_set_system_var dat_obc_hrs_wo_reset 0 in
  let! n := dat_get_system_var dat_obc_reset_counter in
  let! n := cint (n + 1) in
  let! r2 := dat_set_system_var dat_obc_reset_counter n in
  let! rc := cint (r1 + r2) in
  let! r3 := dat_set_system_var dat_obc_sw_wdt 0 in
  cint (rc + r3).

(** The repositories are set up, then the application registers its
    commands. *)
Definition taskInit (ram : bool) (module_inits app_init : M (cmd_repo F) unit) (null : F) (fuel : nat)
  : M client (option unit) :=
  let! r := cmds (cmd_repo_init module_inits null fuel) in
  match r with
  | None => ret None
  | Some _ =>
      data (dat_repo_init ram) ;!
      data init_update_status_vars ;!
      data dat_purge_fp ;!
      cmds app_init ;!
      ret (Some tt)
  end.

End clients.
Arguments client : clear implicits.
End Clients.
