(* ===== verification/Tasks.v ===== *)
(** * Theorems on the client tasks *)
From S2P Require Import Prelude Memory CStr Config Storage StorageRam Schema RepoCommand RepoData.
From S2P Require Import Telemetry FileTransfer CmdTM Registry Clients.

Module TaskLaws.
Import RepoCommand RepoCommandLaws RepoCommandParse RepoData RepoDataLaws Clients.

Section laws.
Context {S F : Type} `{StorageLaws S}.
Implicit Types (s : client S F) (d : dat S).

Definition with_dat d s : client S F := lset cl_dat_lens d s.
Definition with_sent (cs : list (cmd_t F)) s : client S F := Client (cl_dat s) (cl_cmds s) (cl_sent s ++ cs).

Lemma data_step {A} (m : M (dat S) A) s a d : m (cl_dat s) = Ret (a, d) -> data m s = Ret (a, with_dat d s).
Proof. apply (zoom_step cl_dat_lens). Qed.
Lemma data_pure {A} (m : M (dat S) A) s a : m (cl_dat s) = Ret (a, cl_dat s) -> data m s = Ret (a, s).
Proof. intros E. rewrite (data_step _ _ _ _ E). by destruct s. Qed.
Lemma cmds_pure {A} (m : M (cmd_repo F) A) s a : m (cl_cmds s) = Ret (a, cl_cmds s) -> cmds m s = Ret (a, s).
Proof. intros E. unfold cmds, zoom. cbn. rewrite E. by destruct s. Qed.
Lemma send_live s c : cmd_send (Live c) s = Ret (tt, with_sent [c] s).
Proof. done. Qed.
Lemma with_sent_nil s : with_sent [] s = s.
Proof. unfold with_sent. rewrite app_nil_r. by destruct s. Qed.
Lemma with_sent_app a b s : with_sent b (with_sent a s) = with_sent (a ++ b) s.
Proof. unfold with_sent. cbn. by rewrite app_assoc. Qed.

(** A line of text as a command. *)
Definition line_cmd (r : cmd_repo F) (line : cstring) : list (cmd_t F) :=
  match build_spec line (cmd_list r) with Live c => [c] | _ => [] end.

Lemma build_send s line :
  repo_ok (cl_cmds s) -> is_cstr line ->
  (let! c := cmds (cmd_build_from_str line) in cmd_send c) s = Ret (tt, with_sent (line_cmd (cl_cmds s) line) s).
Proof.
  intros Hok Hl. rewrite (bind_step _ _ _ _ _ (cmds_pure _ s _ (build_ok _ _ Hok Hl))). unfold line_cmd.
  unfold build_spec. destruct (take_word (skip_space line)) as [[|w0 w] r]; [by rewrite with_sent_nil|].
  destruct (find_name (w0 :: w) (cmd_list (cl_cmds s))) as [[i e]|]; [done|by rewrite with_sent_nil].
Qed.

(** Two states of the data with the same flight plan and counter. *)
Definition same_plan (d d' : dat S) : Prop :=
  dat_ok d' /\ st_slots (store d') = st_slots (store d) /\ var d' dat_fpl_queue = var d dat_fpl_queue /\
  forall n, st_room n (store d) -> st_room n (store d').
Lemma same_plan_fp d d' : fp_ok d -> same_plan d d' -> fp_ok d'.
Proof. intros [_ Hq] (Hok & Hsl & Hv & _). split; [done|]. by rewrite Hv, Hsl. Qed.
Lemma same_plan_trans d1 d2 d3 : same_plan d1 d2 -> same_plan d2 d3 -> same_plan d1 d3.
Proof. intros (_ & E1 & E2 & E3) (? & E1' & E2' & E3'). split; [done|]. rewrite E1', E2'. auto. Qed.

(** The data changes in one status variable. *)
Lemma data_set_ok s i v :
  dat_ok (cl_dat s) -> 0 <= i < dat_status_last_address ->
  exists st', data (dat_set_system_var i v) s = Ret (SCH_ST_OK, with_dat (set_store st' (cl_dat s)) s) /\
    dat_ok (set_store st' (cl_dat s)) /\ st_slots st' = st_slots (store (cl_dat s)) /\
    (forall n, st_room n (store (cl_dat s)) -> st_room n st') /\
    forall j, 0 <= j < dat_status_last_address ->
      var (set_store st' (cl_dat s)) j = if decide (j = i) then u32_of v else var (cl_dat s) j.
Proof.
  intros Hok Hi. pose proof Hok as [_ Hsz]. unfold dat_set_system_var.
  destruct (set_status_ok (cl_dat s) i (u32_of v) Hok ltac:(lia) (u32_of_range _))
    as (st' & _ & E & Hok' & _ & Hsl & Hr & Hv).
  exists st'. split; [by apply data_step|]. split; [done|]. split; [done|]. split; [exact Hr|]. intros j Hj. apply Hv. lia.
Qed.

End laws.

(** *** Watchdog *)
Section watchdog.
Context {S : Type} `{StorageLaws S}.
Import Registry.
Implicit Types (s : client S cmd_fn).

(** The two commands the task sends. *)
Definition wdt_cmd : cmd_t cmd_fn := Cmd 7 1 (Live (cs "%d")) Null (Some obc_reset_wdt).
Definition rst_cmd : cmd_t cmd_fn := Cmd 3 1 (Live (cs "%d")) (Live (with_nul (cs "1"))) (Some obc_reset).

Lemma boot_wdt : cmd_get_str (cs "obc_reset_wdt") boot_repo = Ret (Live wdt_cmd, boot_repo).
Proof. vm_compute. reflexivity. Qed.
Lemma boot_rst : cmd_build_from_str (cs "obc_reset 1") boot_repo = Ret (Live rst_cmd, boot_repo).
Proof. vm_compute. reflexivity. Qed.

(** A repository that has them. *)
Context (repo : cmd_repo cmd_fn).
Hypothesis has_wdt : cmd_get_str (cs "obc_reset_wdt") repo = Ret (Live wdt_cmd, repo).
Hypothesis has_rst : cmd_build_from_str (cs "obc_reset 1") repo = Ret (Live rst_cmd, repo).

Definition sw_timer s : Z := i32_of (var (cl_dat s) dat_obc_sw_wdt).

(** What the turn [k] (from 1) sends when the timers start at [e] and [c]. *)
Definition tick_sends (e c k : Z) : list (cmd_t cmd_fn) :=
  (if (e + k) mod 61 =? 0 then [wdt_cmd] else []) ++
  (if SCH_MAX_GND_WDT_TIMER <? c + k then [rst_cmd] else []).

Lemma watchdog_tick_ok s e c :
  dat_ok (cl_dat s) -> cl_cmds s = repo -> sw_timer s = c -> 0 <= e <= 60 -> 0 <= c -> c + 1 <= INT_MAX ->
  exists d', watchdog_tick e s = Ret ((e + 1) mod 61, with_sent (tick_sends e c 1) (with_dat d' s)) /\
    dat_ok d' /\ i32_of (var d' dat_obc_sw_wdt) = c + 1.
Proof.
  intros Hok Hc Hsw He Hc0 Hc1. unfold watchdog_tick, sw_timer, INT_MAX in *.
  assert (data (dat_get_system_var dat_obc_sw_wdt) s = Ret (c, s)) as Eg
    by (apply data_pure; rewrite get_system_ok, Hsw by done; done).
  rewrite (bind_step _ _ _ _ _ Eg). rewrite !u32_of_id, i32_of_id by (unfold INT_MIN, INT_MAX; rewrite ?u32_of_id; lia).
  destruct (data_set_ok s dat_obc_sw_wdt (c + 1) Hok ltac:(done)) as (st' & E & Hok' & _ & _ & Hv).
  rewrite (bind_step _ _ _ _ _ E). set (d' := set_store st' (cl_dat s)) in *. exists d'.
  assert (i32_of (var d' dat_obc_sw_wdt) = c + 1) as Hsw'.
  { rewrite Hv, decide_True by done. apply i32_of_u32_id. unfold INT_MIN, INT_MAX. lia. }
  split; [|done]. unfold tick_sends, SCH_MAX_WDT_TIMER. set (s1 := with_dat d' s).
  assert ((if 60 <? e + 1
           then let! rst_wdt := cmds (cmd_get_str (cs "obc_reset_wdt")) in cmd_send rst_wdt ;! ret 0
           else ret (e + 1)) s1 =
    Ret ((e + 1) mod 61, with_sent (if (e + 1) mod 61 =? 0 then [wdt_cmd] else []) s1)) as E1.
  { destruct (60 <? e + 1) eqn:E60; bool_to_prop.
    - assert (e = 60) as -> by lia. change ((60 + 1) mod 61) with 0. cbn [Z.eqb].
      assert (cmd_get_str (cs "obc_reset_wdt") (cl_cmds s1) = Ret (Live wdt_cmd, cl_cmds s1)) as Eb
        by (cbn; rewrite Hc; exact has_wdt).
      by rewrite (bind_step _ _ _ _ _ (cmds_pure _ s1 _ Eb)).
    - rewrite Z.mod_small by lia. rewrite (proj2 (Z.eqb_neq (e + 1) 0)) by lia. by rewrite with_sent_nil. }
  rewrite (bind_step _ _ _ _ _ E1). rewrite <- with_sent_app. set (s2 := with_sent _ s1).
  assert ((if SCH_MAX_GND_WDT_TIMER <? c + 1
           then let! rst_obc := cmds (cmd_build_from_str (cs "obc_reset 1")) in cmd_send rst_obc
           else ret tt) s2 =
    Ret (tt, with_sent (if SCH_MAX_GND_WDT_TIMER <? c + 1 then [rst_cmd] else []) s2)) as E2.
  { destruct (SCH_MAX_GND_WDT_TIMER <? c + 1).
    - assert (cmd_build_from_str (cs "obc_reset 1") (cl_cmds s2) = Ret (Live rst_cmd, cl_cmds s2)) as Eb
        by (cbn; rewrite Hc; exact has_rst).
      by rewrite (bind_step _ _ _ _ _ (cmds_pure _ s2 _ Eb)).
    - by rewrite with_sent_nil. }
  by rewrite (bind_step _ _ _ _ _ E2).
Qed.

Lemma watchdog_ticks_ok n : forall s e c,
  dat_ok (cl_dat s) -> cl_cmds s = repo -> sw_timer s = c -> 0 <= e <= 60 -> 0 <= c ->
  c + Z.of_nat n <= INT_MAX ->
  exists s', watchdog_ticks n e s = Ret ((e + Z.of_nat n) mod 61, s') /\
    cl_sent s' = cl_sent s ++ concat (map (tick_sends e c) (seqZ 1 (Z.of_nat n))) /\
    sw_timer s' = c + Z.of_nat n /\ dat_ok (cl_dat s') /\ cl_cmds s' = repo.
Proof.
  induction n as [|n IH]; intros s e c Hok Hc Hsw He Hc0 Hcn; cbn [watchdog_ticks].
  { exists s. change (Z.of_nat 0) with 0. rewrite !Z.add_0_r, Z.mod_small by lia. cbn. by rewrite app_nil_r. }
  destruct (watchdog_tick_ok s e c Hok Hc Hsw He Hc0 ltac:(lia)) as (d' & E & Hok' & Hsw').
  rewrite (bind_step _ _ _ _ _ E).
  pose proof (Z.mod_pos_bound (e + 1) 61 ltac:(lia)) as Hb.
  destruct (IH (with_sent (tick_sends e c 1) (with_dat d' s)) ((e + 1) mod 61) (c + 1))
    as (s' & E' & Hs' & Hsw2 & Hok2 & Hc2); try done; try lia.
  exists s'. split; [|split; [|split; [lia|done]]].
  - rewrite E'. rewrite Zplus_mod_idemp_l. do 3 f_equal. lia.
  - rewrite Hs'. cbn [cl_sent with_sent with_dat lset cl_dat_lens]. rewrite <- app_assoc. f_equal.
    rewrite (seqZ_cons 1 (Z.of_nat (Datatypes.S n))) by lia. cbn [map concat]. f_equal. f_equal.
    replace (Z.pred (Z.of_nat (Datatypes.S n))) with (Z.of_nat n) by lia.
    change (Z.succ 1) with (1 + 1). rewrite <- (fmap_add_seqZ 1 1 (Z.of_nat n)).
    change (@fmap list list_fmap) with (@map). rewrite map_map. apply map_ext. intros k. unfold tick_sends.
    rewrite Zplus_mod_idemp_l. by replace (e + 1 + k) with (e + (1 + k)) by lia;
      replace (c + 1 + k) with (c + (1 + k)) by lia.
Qed.

End watchdog.
(** *** Flight plan *)
Section flightplan.
Context {S F : Type} `{StorageLaws S}.
Implicit Types (s : client S F).

Definition slots s : list (option fp_row) := st_slots (store (cl_dat s)).
Definition clock s : Z := unixtime (cl_dat s).

(** The entry fits the interface and can be scheduled again. *)
Definition row_ok (r : fp_row) : Prop :=
  fits_fp (row_cmd r) /\ fits_fp (row_args r) /\ int_ok (row_executions r) /\ int_ok (row_period r) /\
  int_ok (row_time r + row_period r).

(** The command of an entry. *)
Definition row_command (r : cmd_repo F) (row : fp_row) : list (cmd_t F) :=
  match find_name (row_cmd row) (cmd_list r) with
  | Some (i, e) => [with_args (cmd_of (Z.of_nat i) e) (row_args row)]
  | None => []
  end.

(** The table after the turn at time [t]: the entry of that time is removed,
    and a periodic one is set for its next time with one execution less. *)
Definition fire (t : Z) (tbl : list (option fp_row)) : list (option fp_row) :=
  match tbl_get t tbl with
  | None => tbl
  | Some r =>
      let tbl := default tbl (tbl_delete t tbl) in
      if (0 <? row_period r) && (1 <? row_executions r)
      then snd (spec_set (t + row_period r) (row_cmd r) (row_args r) (row_executions r - 1) (row_period r) tbl)
      else tbl
  end.

(** A periodic entry is set again. *)
Definition again (r : fp_row) (t : Z) : M (client S F) unit :=
  if (0 <? row_period r) && (1 <? row_executions r)
  then let! when := cint (t + row_period r) in
       data (dat_set_fp when (Some (row_cmd r)) (Some (row_args r)) (row_executions r - 1) (row_period r)) ;! ret tt
  else ret tt.
Lemma again_ok r t s :
  fp_ok (cl_dat s) -> st_room 1 (store (cl_dat s)) -> fits_fp (row_cmd r) -> fits_fp (row_args r) ->
  int_ok (row_executions r) -> int_ok (row_period r) -> int_ok (t + row_period r) -> 0 <= t ->
  exists st', again r t s = Ret (tt, with_dat (set_store st' (cl_dat s)) s) /\
    fp_ok (set_store st' (cl_dat s)) /\
    st_slots st' = (if (0 <? row_period r) && (1 <? row_executions r)
      then snd (spec_set (t + row_period r) (row_cmd r) (row_args r) (row_executions r - 1) (row_period r)
                  (st_slots (store (cl_dat s))))
      else st_slots (store (cl_dat s))) /\
    (forall n, st_room (n + 1) (store (cl_dat s)) -> st_room n st').
Proof.
  intros Hfp Hroom Hfc Hfa Hie Hip Hit Ht. unfold again.
  destruct ((0 <? row_period r) && (1 <? row_executions r)) eqn:Ep; bool_to_prop.
  - unfold bind at 1. rewrite cint_ok by exact Hit. unfold int_ok in *.
    destruct (dat_set_fp_ok (cl_dat s) (t + row_period r) (row_cmd r) (row_args r) (row_executions r - 1) (row_period r))
      as (st3 & E3 & Hfp3 & Hsl3 & Hr3); try done.
    { unfold int_ok, INT_MIN in *. lia. }
    rewrite (bind_step _ _ _ _ _ (data_step _ s _ _ E3)). exists st3. done.
  - exists (store (cl_dat s)). destruct s as [[? ? ? ?] ? ?]. splits; try done.
    intros n. apply law_room_le. lia.
Qed.

(** A command that is sent without arguments. *)
Lemma send_named name s : repo_ok (cl_cmds s) ->
  (let! new_cmd := cmds (cmd_get_str name) in cmd_send new_cmd) s =
    Ret (tt, with_sent (match find_name name (cmd_list (cl_cmds s)) with
                        | Some (i, e) => [cmd_of (Z.of_nat i) e] | None => [] end) s).
Proof.
  intros Hrepo. rewrite (bind_step _ _ _ _ _ (cmds_pure _ s _ (cmd_get_str_ok _ name Hrepo))).
  destruct (find_name name (cmd_list (cl_cmds s))) as [[i e]|]; cbn [found_cmd]; [done|]. by rewrite with_sent_nil.
Qed.

(** The command of an entry is sent with its arguments, if it exists. *)
Lemma launch_ok r s : repo_ok (cl_cmds s) ->
  (let! new_cmd := cmds (cmd_get_str (row_cmd r)) in
   let! new_cmd := cmds (cmd_add_params_str new_cmd (row_args r)) in
   cmd_send new_cmd) s = Ret (tt, with_sent (row_command (cl_cmds s) r) s).
Proof.
  intros Hrepo.
  assert (cmds (cmd_get_str (row_cmd r)) s = Ret (found_cmd (find_name (row_cmd r) (cmd_list (cl_cmds s))), s)) as E4
    by (apply cmds_pure; by apply cmd_get_str_ok).
  rewrite (bind_step _ _ _ _ _ E4).
  unfold row_command. destruct (find_name (row_cmd r) (cmd_list (cl_cmds s))) as [[i e]|]; cbn [found_cmd].
  - rewrite (bind_step _ _ _ _ _ (cmds_pure _ s _ (add_params_str_ok _ _ (cl_cmds s)))). done.
  - assert (cmd_add_params_str Null (row_args r) (cl_cmds s) = Ret (Null (A := cmd_t F), cl_cmds s)) as E5 by done.
    rewrite (bind_step _ _ _ _ _ (cmds_pure _ s _ E5)). by rewrite with_sent_nil.
Qed.

Lemma fp_tick_ok s :
  fp_ok (cl_dat s) -> st_room 1 (store (cl_dat s)) -> repo_ok (cl_cmds s) -> 0 <= clock s <= INT_MAX ->
  (forall r, tbl_get (clock s) (slots s) = Some r -> row_ok r) ->
  exists st', let d' := set_store st' (cl_dat s) in
    fp_tick s = Ret (tt, with_sent (match tbl_get (clock s) (slots s) with
                                    | Some r => row_command (cl_cmds s) r | None => [] end) (with_dat d' s)) /\
    fp_ok d' /\ st_slots st' = fire (clock s) (slots s) /\
    (forall n, st_room (n + Z.b2z (issome (tbl_get (clock s) (slots s)))) (store (cl_dat s)) -> st_room n st').
Proof.
  intros Hfp Hroom Hrepo Ht Hrow. unfold clock, slots in *. set (t := unixtime (cl_dat s)) in *.
  assert (t <> ST_FP_NULL) as Hnn by (unfold ST_FP_NULL; lia).
  unfold fp_tick. unfold bind at 1.
  change (data dat_get_time s) with (Ret (t, with_dat (cl_dat s) s)).
  replace (with_dat (cl_dat s) s) with s by (by destruct s).
  rewrite i32_of_id by (unfold INT_MIN; lia).
  destruct (dat_get_fp_ok (cl_dat s) t Hfp Hnn) as (st1 & E1 & Hfp1 & Hsl1 & Hr1).
  rewrite (bind_step _ _ _ _ _ (data_step _ s _ _ E1)). unfold spec_get, fire in *.
  destruct (tbl_get t (st_slots (store (cl_dat s)))) as [r|] eqn:Eg; cbn [fst snd] in *.
  2: { exists st1. rewrite with_sent_nil. splits; try done. intros n. rewrite Z.add_0_r. apply Hr1. }
  change (SCH_ST_OK =? -1) with false. cbv iota.
  destruct (tbl_get_Some _ _ _ Hnn Eg) as (k & _ & _ & Hrt).
  destruct (Hrow r eq_refl) as (Hfc & Hfa & Hie & Hip & Hit). rewrite Hrt in Hit.
  set (d1 := set_store st1 (cl_dat s)) in *.
  destruct (data_set_ok (with_dat d1 s) dat_fpl_last t (proj1 Hfp1) ltac:(done)) as (st2 & E2 & Hok2 & Hsl2 & Hr2 & Hv2).
  rewrite (bind_step _ _ _ _ _ E2). cbn [cl_dat with_dat lset cl_dat_lens store set_store d1] in Hsl2.
  set (s2 := with_dat _ (with_dat d1 s)).
  assert (fp_ok (cl_dat s2)) as Hfp2.
  { split; [exact Hok2|]. change (var (cl_dat s2) dat_fpl_queue = used (st_slots st2)). rewrite Hsl2.
    transitivity (var d1 dat_fpl_queue); [|apply Hfp1]. etrans; [apply (Hv2 dat_fpl_queue); done|done]. }
  cbn [out_period out_executions out_cmd out_args row_out].
  destruct (again_ok r t s2 Hfp2 (Hr2 _ (Hr1 _ Hroom)) Hfc Hfa Hie Hip Hit ltac:(lia)) as (st3 & E3 & Hfp3 & Hsl3 & Hr3).
  unfold again in E3. rewrite (bind_step _ _ _ _ _ E3). exists st3.
  cbn [cl_dat s2 with_dat lset cl_dat_lens store set_store] in Hsl3. rewrite Hsl2 in Hsl3.
  split; [|split; [exact Hfp3|split; [by rewrite Hsl3, Hsl1|]]].
  2: { intros n Hn. apply Hr3, Hr2, Hr1. exact Hn. }
  exact (launch_ok r (with_dat (set_store st3 (cl_dat s)) s) Hrepo).
Qed.

(** The task running at the given times. *)
Definition fp_second (t : Z) : M (client S F) unit := modify (set_clock t) ;! fp_tick.
Definition fp_seconds (ts : list Z) : M (client S F) unit := for_ ts fp_second.

Lemma fp_second_eq t s : fp_second t s = fp_tick (set_clock t s).
Proof. done. Qed.

Lemma fp_seconds_app a b s : fp_seconds (a ++ b) s =
  match fp_seconds a s with Ret (_, s1) => fp_seconds b s1 | Fault f => Fault f end.
Proof.
  unfold fp_seconds. revert s. induction a as [|t a IH]; intros s; [done|]. cbn [app for_].
  unfold bind. destruct (fp_second t s) as [[u s1]|]; [apply IH|done].
Qed.

(** A plan with one entry, and the empty plan. *)
Definition only (r : fp_row) : list (option fp_row) := Some r :: replicate 254 None.
Definition no_plan : list (option fp_row) := replicate 255 None.

Lemma find_time_none t n : t <> ST_FP_NULL -> find_time t (replicate n None) = None.
Proof.
  intros Ht. induction n as [|n IH]; [done|]. cbn [replicate find_time slot_time]. rewrite IH.
  by rewrite (proj2 (Z.eqb_neq ST_FP_NULL t)) by (by intros <-).
Qed.
Lemma get_no_plan t : t <> ST_FP_NULL -> tbl_get t no_plan = None.
Proof. intros. unfold tbl_get, no_plan. by rewrite find_time_none. Qed.
Lemma get_only t r : t <> ST_FP_NULL -> tbl_get t (only r) = if t =? row_time r then Some r else None.
Proof.
  intros. unfold tbl_get, only. cbn [find_time slot_time]. rewrite (Z.eqb_sym t). destruct (row_time r =? t); [done|].
  by rewrite find_time_none.
Qed.
Lemma delete_only r : tbl_delete (row_time r) (only r) = Some no_plan.
Proof. unfold tbl_delete, only. cbn [find_time slot_time]. rewrite Z.eqb_refl. done. Qed.
Lemma set_no_plan r : tbl_set r no_plan = Some (only r).
Proof. done. Qed.

(** The state between two turns: the plan [tbl], [sent] commands sent, and
    room for a number of entries. *)
Definition fp_state (repo : cmd_repo F) (tbl : list (option fp_row)) (sent : list (cmd_t F)) (room : Z) s : Prop :=
  fp_ok (cl_dat s) /\ st_room room (store (cl_dat s)) /\ cl_cmds s = repo /\ slots s = tbl /\ cl_sent s = sent.

(** Turns at times at which nothing is planned. *)
Lemma fp_seconds_idle repo tbl sent room ts : forall s,
  repo_ok repo -> 1 <= room -> fp_state repo tbl sent room s ->
  Forall (fun t => 0 <= t <= INT_MAX /\ tbl_get t tbl = None) ts ->
  exists s', fp_seconds ts s = Ret (tt, s') /\ fp_state repo tbl sent room s'.
Proof.
  induction ts as [|t ts IH]; intros s Hr Hone Hs Hts; [by exists s|].
  apply Forall_cons in Hts as [[Ht Hg] Hts]. destruct Hs as (Hfp & Hroom & Hc & Hsl & Hsent).
  set (s0 := set_clock t s).
  assert (slots s0 = tbl) as Hsl0 by done. assert (clock s0 = t) as Hck by done.
  destruct (fp_tick_ok s0) as (st' & E & Hfp' & Hsl' & Hr'); [done|by apply (law_room_le _ room)|by rewrite <- Hc in Hr|by rewrite Hck| |].
  { rewrite Hck, Hsl0, Hg. done. }
  rewrite Hck, Hsl0, Hg, with_sent_nil in E. unfold fire in Hsl'. rewrite Hck, Hsl0, Hg in Hsl'.
  set (s1 := with_dat _ s0) in E.
  rewrite Hck, Hsl0, Hg in Hr'.
  destruct (IH s1 Hr Hone) as (s' & E' & Hs'); [|done|].
  { split; [done|]. split; [|done]. apply Hr'. by rewrite Z.add_0_r. }
  exists s'. split; [|done]. unfold fp_seconds in *. cbn [for_].
  by rewrite (bind_step (fp_second t) _ s _ _ E).
Qed.

Definition later (r : fp_row) (k : Z) : fp_row :=
  FpRow (row_time r + row_period r) (row_cmd r) (row_args r) k (row_period r) SCH_COMM_NODE.

(** The turn at the time of the only entry. *)
Lemma fp_turn repo r sent room s :
  repo_ok repo -> 0 <= room -> fp_state repo (only r) sent (room + 1) s -> row_ok r -> 0 <= row_time r <= INT_MAX -> 0 < row_period r ->
  exists s', fp_seconds [row_time r] s = Ret (tt, s') /\
    fp_state repo (if 1 <? row_executions r then only (later r (row_executions r - 1)) else no_plan)
      (sent ++ row_command repo r) room s'.
Proof.
  intros Hr Hone (Hfp & Hroom & Hc & Hsl & Hsent) Hrow Ht Hp. set (t := row_time r) in *. set (s0 := set_clock t s).
  assert (slots s0 = only r) as Hsl0 by done. assert (clock s0 = t) as Hck by done.
  assert (t <> ST_FP_NULL) as Hnn by (unfold ST_FP_NULL; lia).
  assert (tbl_get t (only r) = Some r) as Hg by (rewrite get_only by done; subst t; by rewrite Z.eqb_refl).
  destruct (fp_tick_ok s0) as (st' & E & Hfp' & Hsl' & Hr'); [done|apply (law_room_le _ (room + 1)); [lia|done]|by rewrite <- Hc in Hr|by rewrite Hck| |].
  { rewrite Hck, Hsl0, Hg. by intros ? [= <-]. }
  rewrite Hck, Hsl0, Hg in E. unfold fire in Hsl'. rewrite Hck, Hsl0, Hg in Hsl'. subst t.
  rewrite delete_only in Hsl'. cbn [default] in Hsl'. rewrite (proj2 (Z.ltb_lt 0 (row_period r)) Hp) in Hsl'. cbn [andb] in Hsl'.
  eexists. unfold fp_seconds. cbn [for_]. split.
  - rewrite (bind_step (fp_second (row_time r)) _ s _ _ E). done.
  - split; [exact Hfp'|]. split; [apply Hr'; by rewrite Hck, Hsl0, Hg|]. split; [exact Hc|]. split; [|cbn; by rewrite Hsent, Hc].
    change (st_slots st' = if 1 <? row_executions r then only (later r (row_executions r - 1)) else no_plan).
    rewrite Hsl'. destruct (1 <? row_executions r); [|done]. unfold spec_set.
    rewrite (proj2 (Z.ltb_ge _ 0)) by lia. by rewrite set_no_plan.
Qed.

(** An entry with [n] executions, over [n] periods. *)
Lemma fp_periodic n : forall repo r sent s,
  repo_ok repo -> fp_state repo (only r) sent (Z.of_nat (Datatypes.S n) + 1) s -> fits_fp (row_cmd r) -> fits_fp (row_args r) ->
  row_executions r = Z.of_nat (Datatypes.S n) -> Z.of_nat (Datatypes.S n) <= INT_MAX -> 0 < row_period r -> 0 <= row_time r ->
  row_time r + row_period r * Z.of_nat (Datatypes.S n) <= INT_MAX ->
  exists s', fp_seconds (seqZ (row_time r) (row_period r * Z.of_nat (Datatypes.S n))) s = Ret (tt, s') /\
    fp_state repo no_plan (sent ++ concat (replicate (Datatypes.S n) (row_command repo r))) 1 s'.
Proof.
  induction n as [|n IH]; intros repo r sent s Hr Hs Hc Ha He Hm Hp Ht Hmax.
  all: assert (row_ok r) as Hrow by (unfold row_ok, int_ok, INT_MIN in *; splits; (done || nia)).
  all: match type of Hs with fp_state _ _ _ (?k + 1) _ =>
    destruct (fp_turn repo r sent k s Hr ltac:(lia) Hs Hrow ltac:(nia) Hp) as (s1 & E1 & Hs1) end.
  all: rewrite He in Hs1.
  - change (1 <? Z.of_nat 1) with false in Hs1. cbv iota in Hs1.
    rewrite Z.mul_1_r. rewrite seqZ_cons by lia.
    change (row_time r :: ?l) with ([row_time r] ++ l). rewrite fp_seconds_app, E1.
    destruct (fp_seconds_idle repo no_plan (sent ++ row_command repo r) 1 (seqZ (Z.succ (row_time r)) (Z.pred (row_period r))) s1)
      as (s' & E' & Hs'); [done|lia|done| |].
    { apply Forall_forall. intros x Hx%elem_of_seqZ. split; [nia|]. apply get_no_plan. unfold ST_FP_NULL. lia. }
    exists s'. split; [done|]. cbn. by rewrite app_nil_r.
  - rewrite (proj2 (Z.ltb_lt 1 _)) in Hs1 by lia. set (r' := later r (Z.of_nat (Datatypes.S (Datatypes.S n)) - 1)) in *.
    assert (seqZ (row_time r) (row_period r * Z.of_nat (Datatypes.S (Datatypes.S n))) =
      [row_time r] ++ seqZ (row_time r + 1) (row_period r - 1) ++
      seqZ (row_time r + row_period r) (row_period r * Z.of_nat (Datatypes.S n))) as ->.
    { rewrite seqZ_cons by nia. cbn [app]. f_equal. unfold Z.succ.
      replace (Z.pred (row_period r * Z.of_nat (Datatypes.S (Datatypes.S n))))
        with ((row_period r - 1) + row_period r * Z.of_nat (Datatypes.S n)) by nia.
      rewrite seqZ_app by nia. do 2 f_equal. lia. }
    rewrite fp_seconds_app, E1. rewrite fp_seconds_app.
    destruct (fp_seconds_idle repo (only r') (sent ++ row_command repo r) (Z.of_nat (Datatypes.S (Datatypes.S n))) (seqZ (row_time r + 1) (row_period r - 1)) s1)
      as (s2 & E2 & Hs2); [done|lia|done| |].
    { apply Forall_forall. intros x Hx%elem_of_seqZ. split; [nia|].
      rewrite get_only by (unfold ST_FP_NULL; lia). cbn [row_time r' later]. by rewrite (proj2 (Z.eqb_neq x _)) by lia. }
    rewrite E2. replace (Z.of_nat (Datatypes.S (Datatypes.S n))) with (Z.of_nat (Datatypes.S n) + 1) in Hs2 by lia.
    destruct (IH repo r' (sent ++ row_command repo r) s2) as (s' & E' & Hs'); try done;
      cbn [row_time row_executions row_period r' later]; try nia.
    exists s'. cbn [row_time row_executions row_period r' later] in E'.
    split; [done|]. cbn [replicate concat]. rewrite app_assoc. exact Hs'.
Qed.

End flightplan.
(** *** Telecommands *)
Section telecommands.
Context {S F : Type} `{StorageLaws S}.
Implicit Types (s : client S F).

Fixpoint tc_text (ls : list cstring) : cstring :=
  match ls with
  | [] => []
  | [l] => l
  | l :: ls => l ++ 59 :: tc_text ls
  end.
(** A command line of a frame: not empty, and without semicolon. *)
Definition tc_line (l : cstring) : Prop := l <> [] /\ Forall (fun c => c <> 59) l.

Lemma tokens_line l rest acc :
  Forall (fun c => c <> 59) l -> tokens_acc 59 (l ++ rest) acc = tokens_acc 59 rest (rev l ++ acc).
Proof.
  revert acc. induction l as [|c l IH]; intros acc Hl; [done|]. apply Forall_cons in Hl as [Hc Hl].
  cbn [app tokens_acc]. rewrite (proj2 (Z.eqb_neq c 59) Hc), IH by done. cbn [rev]. by rewrite <- app_assoc.
Qed.

Lemma strtok_tc ls : Forall tc_line ls -> strtok_all 59 (tc_text ls) = ls.
Proof.
  induction ls as [|l ls IH]; intros Hls; [done|]. apply Forall_cons in Hls as [[Hne Hl] Hls].
  unfold strtok_all in *. assert (exists c w, rev l = c :: w) as (c & w & Hrev).
  { destruct l as [|x l _] using rev_ind; [done|]. rewrite rev_app_distr. cbn. eauto. }
  assert (rev (c :: w) = l) as Hl2 by (rewrite <- Hrev; apply rev_involutive).
  destruct ls as [|l2 ls]; cbn [tc_text].
  - rewrite <- (app_nil_r l) at 1. rewrite tokens_line, app_nil_r, Hrev by done. cbn [tokens_acc]. by rewrite Hl2.
  - rewrite tokens_line, app_nil_r, Hrev by done. cbn [tokens_acc Z.eqb Pos.eqb]. rewrite Hl2. f_equal. by apply IH.
Qed.

Lemma tc_text_cstr ls : Forall is_cstr ls -> is_cstr (tc_text ls).
Proof.
  induction ls as [|l ls IH]; intros Hls; [constructor|]. apply Forall_cons in Hls as [Hl Hls].
  destruct ls as [|l2 ls]; [done|]. apply is_cstr_app. split; [done|]. constructor; [lia|]. by apply IH.
Qed.

Lemma packet_text_ok text junk s :
  is_cstr text -> junk <> [] -> packet_text (Packet (text ++ junk) (zlength text)) s = Ret (text, s).
Proof.
  intros Ht Hj. unfold packet_text. cbn [p_data p_length]. destruct junk as [|x junk]; [done|].
  unfold bind. change (text ++ x :: junk) with (text ++ [x] ++ junk). rewrite list_write_ok by done.
  unfold lift. cbn [app]. by rewrite cstr_of_buf_nul.
Qed.

Lemma send_lines ls : forall s,
  repo_ok (cl_cmds s) -> Forall is_cstr ls ->
  for_ ls (fun cmd_str => let! new_cmd := cmds (cmd_build_from_str cmd_str) in cmd_send new_cmd) s =
    Ret (tt, with_sent (concat (map (line_cmd (cl_cmds s)) ls)) s).
Proof.
  induction ls as [|l ls IH]; intros s Hr Hls; cbn [for_ map concat]; [by rewrite with_sent_nil|].
  apply Forall_cons in Hls as [Hl Hls]. rewrite (bind_step _ _ _ _ _ (build_send s l Hr Hl)).
  rewrite IH by done. by rewrite with_sent_app.
Qed.

End telecommands.
End TaskLaws.

(** ** Theorems *)
Module TaskTheorems.
Import RepoCommand RepoCommandLaws RepoCommandParse RepoData RepoDataLaws RepoDataTheorems
  Telemetry FileRx CmdTM Registry Clients TaskLaws.

Section theorems.
Context {S : Type} `{StorageLaws S}.
Implicit Types (s : client S cmd_fn).

(** C19. The watchdog task over [n] seconds: it sends [obc_reset_wdt] every 61
    seconds (one more than [SCH_MAX_WDT_TIMER]), it counts the seconds since
    the ground last cleared the software timer, and it sends [obc_reset 1] in
    every second after the timer has passed [SCH_MAX_GND_WDT_TIMER] and in no
    other; it sends nothing else. *)
Theorem watchdog_sends n s c :
  dat_ok (cl_dat s) -> cl_cmds s = boot_repo -> sw_timer s = c -> 0 <= c -> c + Z.of_nat n <= INT_MAX ->
  exists s', watchdog_ticks n 0 s = Ret (Z.of_nat n mod 61, s') /\ sw_timer s' = c + Z.of_nat n /\
    cl_sent s' = cl_sent s ++ concat (map (fun k =>
      (if k mod 61 =? 0 then [wdt_cmd] else []) ++
      (if SCH_MAX_GND_WDT_TIMER <? c + k then [rst_cmd] else [])) (seqZ 1 (Z.of_nat n))).
Proof.
  intros Hok Hc Hsw Hc0 Hn.
  destruct (watchdog_ticks_ok boot_repo boot_wdt boot_rst n s 0 c) as (s' & E & Hs & Hsw' & _);
    [exact Hok|exact Hc|exact Hsw|lia|exact Hc0|exact Hn|].
  exists s'. split; [exact E|]. split; [exact Hsw'|exact Hs].
Qed.

End theorems.

Section flightplan.
Context {S F : Type} `{StorageLaws S}.
Implicit Types (s : client S F).



End flightplan.

Section telecommands.
Context {S F : Type} `{StorageLaws S}.
Implicit Types (s : client S F).

(** A telecommand packet. *)
Lemma tc_packet_ok s ls junk dst :
  dat_ok (cl_dat s) -> repo_ok (cl_cmds s) -> Forall tc_line ls -> Forall is_cstr ls -> junk <> [] ->
  i32_of (var (cl_dat s) dat_com_count_tc) < INT_MAX ->
  exists s', com_packet SCH_TRX_PORT_TC dst (Packet (tc_text ls ++ junk) (zlength (tc_text ls))) s = Ret ([ReplyOk], s') /\
    cl_sent s' = cl_sent s ++ concat (map (line_cmd (cl_cmds s)) ls) /\
    i32_of (var (cl_dat s') dat_com_count_tc) = i32_of (var (cl_dat s) dat_com_count_tc) + 1 /\
    var (cl_dat s') dat_com_last_tc = u32_of (unixtime (cl_dat s)) /\
    settime_ok (cl_dat s') = settime_ok (cl_dat s) /\
    same_plan (cl_dat s) (cl_dat s') /\ cl_cmds s' = cl_cmds s /\
    (forall j, 0 <= j < dat_status_last_address -> j <> dat_com_count_tc -> j <> dat_com_last_tc ->
       var (cl_dat s') j = var (cl_dat s) j).
Proof.
  intros Hok Hr Hl Hc Hj Hcount. set (n := i32_of (var (cl_dat s) dat_com_count_tc)) in *.
  pose proof (i32_of_range (var (cl_dat s) dat_com_count_tc)) as Hrange. fold n in Hrange.
  unfold com_packet.
  assert (data (dat_get_system_var dat_com_count_tc) s = Ret (n, s)) as E0
    by (apply data_pure; by rewrite get_system_ok).
  rewrite (bind_step _ _ _ _ _ E0). unfold bind at 1. rewrite cint_ok by lia.
  destruct (data_set_ok s dat_com_count_tc (n + 1) Hok ltac:(done)) as (st1 & E1 & Hok1 & Hsl1 & Hr1 & Hv1).
  rewrite (bind_step _ _ _ _ _ E1). set (s1 := with_dat _ s).
  unfold bind at 1. change (data dat_get_time s1) with (Ret (unixtime (cl_dat s), s1)).
  destruct (data_set_ok s1 dat_com_last_tc (i32_of (unixtime (cl_dat s))) Hok1 ltac:(done)) as (st2 & E2 & Hok2 & Hsl2 & Hr2 & Hv2).
  rewrite (bind_step _ _ _ _ _ E2). set (s2 := with_dat _ s1).
  change (SCH_TRX_PORT_TC =? SCH_TRX_PORT_FILE) with false. rewrite Z.eqb_refl. cbv iota.
  assert (com_receive_tc (Packet (tc_text ls ++ junk) (zlength (tc_text ls))) s2 =
    Ret (tt, with_sent (concat (map (line_cmd (cl_cmds s)) ls)) s2)) as E3.
  { unfold com_receive_tc.
    rewrite (bind_step _ _ _ _ _ (packet_text_ok (tc_text ls) junk s2 (tc_text_cstr ls Hc) Hj)).
    rewrite strtok_tc by done. exact (send_lines ls s2 Hr Hc). }
  rewrite (bind_step _ _ _ _ _ E3). eexists. split; [done|]. split; [done|].
  cbn [cl_dat with_sent s2 with_dat lset cl_dat_lens]. cbn [cl_dat s1 with_dat lset cl_dat_lens] in Hv2.
  assert (forall j, 0 <= j < dat_status_last_address -> j <> dat_com_count_tc -> j <> dat_com_last_tc ->
    var (set_store st2 (set_store st1 (cl_dat s))) j = var (cl_dat s) j) as Hothers.
  { intros j Hjr Hj1 Hj2. etrans; [apply Hv2; done|]. rewrite decide_False by done.
    etrans; [apply Hv1; done|]. by rewrite decide_False. }
  assert (same_plan (cl_dat s) (set_store st2 (set_store st1 (cl_dat s)))) as Hsame.
  { split; [exact Hok2|]. cbn. cbn in Hsl2, Hr2. rewrite Hsl2, Hsl1. split; [done|]. split; [by apply Hothers|auto]. }
  rewrite !Hv2 by done. rewrite decide_False, decide_True by done. split; [|split; [apply u32_of_i32_of|by split]].
  etrans; [apply f_equal, (Hv1 dat_com_count_tc); done|]. rewrite decide_True by done. apply i32_of_u32_id. lia.
Qed.

(** C21. A telecommand frame [cmd1;cmd2;...] received on port
    [SCH_TRX_PORT_TC] is acknowledged and sends its commands in order, each
    with its parameters; lines that name no command are skipped.  The counter
    of telecommands grows by one and the time of the last one is set. *)
Theorem tc_frame_commands s ls junk dst :
  dat_ok (cl_dat s) -> repo_ok (cl_cmds s) -> Forall tc_line ls -> Forall is_cstr ls -> junk <> [] ->
  i32_of (var (cl_dat s) dat_com_count_tc) < INT_MAX ->
  exists s', com_packet SCH_TRX_PORT_TC dst (Packet (tc_text ls ++ junk) (zlength (tc_text ls))) s = Ret ([ReplyOk], s') /\
    cl_sent s' = cl_sent s ++ concat (map (line_cmd (cl_cmds s)) ls) /\
    i32_of (var (cl_dat s') dat_com_count_tc) = i32_of (var (cl_dat s) dat_com_count_tc) + 1 /\
    var (cl_dat s') dat_com_last_tc = u32_of (unixtime (cl_dat s)).
Proof.
  intros Hok Hr Hl Hc Hj Hn. destruct (tc_packet_ok s ls junk dst Hok Hr Hl Hc Hj Hn) as (s' & E & E1 & E2 & E3 & _). eauto.
Qed.

End telecommands.

Section init.
Context {S : Type} `{StorageSlotLaws S}.

(** What [taskInit] does with stored data once the storage is open. *)
Definition start_data : M (dat S) Z := init_update_status_vars ;! dat_purge_fp.

(** The variables that the start writes. *)
Definition start_vars : list Z := [dat_obc_hrs_wo_reset; dat_obc_reset_counter; dat_obc_sw_wdt; dat_fpl_queue].

(** What the start does to the data it finds, where [dat_purge_fp] can read the
    slots: on RAM, whose plan is empty at a start, always, on FLASH when the first slot
    is used.  The reset counter grows by one, the hours without reset and the ground
    watchdog start at zero, flight plan entries whose time has passed are purged and the
    others stay in their slots, the plan counter is right, whatever it was, and no
    other variable changes. *)
Theorem start_data_ok (d : dat S) :
  dat_ok d -> purgeable (store d) -> i32_of (var d dat_obc_reset_counter) < INT_MAX -> 0 <= unixtime d < INT_MAX ->
  exists s', start_data d = Ret (SCH_ST_OK, set_store s' d) /\ fp_ok (set_store s' d) /\
    i32_of (var (set_store s' d) dat_obc_reset_counter) = i32_of (var d dat_obc_reset_counter) + 1 /\
    var (set_store s' d) dat_obc_hrs_wo_reset = 0 /\ var (set_store s' d) dat_obc_sw_wdt = 0 /\
    st_slots s' = map (keep (unixtime d + 1)) (st_slots (store d)) /\
    (forall n, st_room n (store d) -> st_room n s') /\
    forall j, 0 <= j < dat_status_last_address -> j ∉ start_vars -> var (set_store s' d) j = var d j.
Proof.
  intros Hok Hp Hr Ht. pose proof (i32_of_range (var d dat_obc_reset_counter)) as Hrange.
  pose proof Hok as [_ Hsz]. unfold start_data, start_vars, init_update_status_vars, dat_set_system_var.
  unfold dat_status_last_address, dat_obc_reset_counter, dat_obc_hrs_wo_reset, dat_obc_sw_wdt in *.
  destruct (set_status_ok d 3 (u32_of 0) Hok ltac:(lia) (u32_of_range _)) as (s1 & _ & E1 & Hok1 & Hsz1 & Hsl1 & Hr1 & Hv1).
  destruct (set_status_ok (set_store s1 d) 4 (u32_of (i32_of (var d 4) + 1)) Hok1 ltac:(cbn; lia) (u32_of_range _))
    as (s2 & _ & E2 & Hok2 & Hsz2 & Hsl2 & Hr2 & Hv2).
  destruct (set_status_ok (set_store s2 d) 5 (u32_of 0) Hok2 ltac:(cbn in *; lia) (u32_of_range _))
    as (s3 & _ & E3 & Hok3 & Hsz3 & Hsl3 & Hr3 & Hv3).
  rewrite set_store_set in *. cbn [store set_store] in *.
  assert (purgeable s3) as Hp3 by (unfold purgeable in *; by rewrite Hsl3, Hsl2, Hsl1).
  destruct (dat_purge_fp_vars (set_store s3 d) Hok3 Hp3 Ht) as (s4 & E4 & Hfp4 & Hsl4 & Hr4 & Hv4).
  exists s4. rewrite !set_store_set in *.
  assert (init_update_status_vars d = Ret (SCH_ST_OK, set_store s3 d)) as Ei.
  { unfold init_update_status_vars, dat_set_system_var. rewrite (bind_step _ _ _ _ _ E1).
    rewrite (bind_step _ _ _ _ _ (get_system_ok (set_store s1 d) 4 Hok1 ltac:(done))).
    rewrite (Hv1 4) by lia. rewrite decide_False by done. unfold bind at 1. rewrite cint_ok by lia.
    rewrite (bind_step _ _ _ _ _ E2). unfold bind at 1. rewrite cint_ok by (unfold SCH_ST_OK, INT_MIN, INT_MAX; lia).
    rewrite (bind_step _ _ _ _ _ E3). done. }
  unfold init_update_status_vars, dat_set_system_var in Ei. rewrite (bind_step _ _ _ _ _ Ei).
  cbn [store set_store] in *. split; [exact E4|]. split; [done|].
  unfold dat_fpl_queue, dat_status_last_address in *.
  assert (forall j, 0 <= j < 17 -> j <> 14 -> var (set_store s4 d) j =
    if decide (j = 5) then 0 else if decide (j = 4) then u32_of (i32_of (var d 4) + 1) else if decide (j = 3) then 0 else var d j) as Hv
    by (intros j Hj Hne; rewrite Hv4, Hv3, Hv2, Hv1 by lia; done).
  rewrite (Hv 4), (Hv 3), (Hv 5) by lia. cbn [decide]. rewrite !decide_False, !decide_True by done.
  rewrite i32_of_u32_id by lia. splits; try done.
  - by rewrite Hsl4, Hsl3, Hsl2, Hsl1.
  - auto.
  - intros j Hj Hn. rewrite !not_elem_of_cons in Hn. rewrite Hv by tauto. by rewrite !decide_False by tauto.
Qed.
End init.

(** A console line for another node. *)
Definition remote_line (node : Z) (line : cstring) : cstring := print_dec node ++ 58 :: chr_space :: line.

(** The console sends a line [<node>: <command>] to a remote node: it
    becomes the command [com_send_cmd] with the node and the line as
    parameters. *)
Theorem console_remote_command node line :
  INT_MIN <= node <= INT_MAX -> is_cstr line -> no_lead line -> line <> [] -> strlen line <= 220 ->
  console_read (Some (remote_line node line)) (SCH_BUFF_MAX_LEN - 1) =
    Ret (Some (cs "com_send_cmd " ++ print_dec node ++ [chr_space] ++ line)).
Proof.
  intros Hn Hc Hl Hne Hlen. unfold console_read, remote_line. change (SCH_BUFF_MAX_LEN - 1) with 255.
  pose proof (length_print_int node Hn) as Hd. unfold strlen, zlength in Hlen.
  rewrite (take_ge (print_dec node ++ _)) by (rewrite length_app; cbn [length]; lia).
  set (buffer := print_dec node ++ 58 :: chr_space :: line).
  assert (take 5 buffer <> exit_prefix) as Hex.
  { destruct (kind_val_head KInt (VInt node) Hn) as (c & w & Hv & Hsp). cbn in Hv. subst buffer.
    destruct (print_dec_cases node Hn) as (neg & ds & E & Hne' & Hds & _). rewrite E.
    destruct neg; [done|]. destruct ds as [|d0 ds]; [done|]. cbn. intros [= Hd0 _].
    pose proof (Forall_inv Hds) as Hdig. rewrite Hd0 in Hdig. done. }
  rewrite bool_decide_false by done.
  assert (sscanf buffer (cs "%d: %n") = Ret (1, [VInt node; VPos (strlen buffer - strlen line)])) as ->.
  { unfold sscanf. change (cs "%d: %n") with [37; 100; 58; 32; 37; 110]. unfold buffer at 2. cbn -[conv_int strlen print_dec].
    rewrite conv_int_print by done. cbn -[strlen].
    destruct line as [|c line]; [done|]. cbn in Hl. cbn -[strlen]. rewrite Hl. done. }
  assert (strlen buffer - strlen line = Z.of_nat (length (print_dec node) + 2)) as ->.
  { subst buffer. unfold strlen, zlength. rewrite length_app. cbn [length]. lia. }
  rewrite (proj2 (Z.ltb_lt _ 255)), (proj2 (Z.eqb_neq _ 0)) by lia. cbn [andb negb].
  assert (drop (Z.to_nat (Z.of_nat (length (print_dec node) + 2))) buffer = line) as ->.
  { rewrite Nat2Z.id. subst buffer. rewrite <- drop_drop, drop_app_length. done. }
  rewrite (take_ge line) by lia. unfold snprintf_trunc. rewrite take_ge; [done|].
  rewrite !length_app. cbn [length]. change (length (cs "com_send_cmd ")) with 13%nat. lia.
Qed.
(** *** Instances: the RAM storage and the registered commands *)
Import Ram RamLaws RegistryTheorems.

Definition sat_boot (d : dat ram_state) : client ram_state cmd_fn := Client d boot_repo [].

Lemma ram_timer0 : sw_timer (sat_boot (ram_data 0)) = 0.
Proof. vm_compute. reflexivity. Qed.

(** Two minutes after a start: the watchdog was reset once. *)
Lemma watchdog_sends_witness : exists s',
  watchdog_ticks 120 0 (sat_boot (ram_data 0)) = Ret (59, s') /\ cl_sent s' = [wdt_cmd].
Proof.
  destruct (watchdog_sends 120 (sat_boot (ram_data 0)) 0) as (s' & H1 & _ & H2).
  - exact (proj1 (ram_data_fp 0)).
  - exact eq_refl.
  - exact ram_timer0.
  - lia.
  - unfold INT_MAX. lia.
  - exists s'. split; [exact H1|exact H2].
Defined.

Definition demo_row : fp_row := FpRow 100 (cs "tm_send_status") (cs "10") 3 5 SCH_COMM_NODE.

Lemma ram_no_plan : st_slots (store (ram_data 100)) = no_plan.
Proof. vm_compute. reflexivity. Qed.

Lemma demo_fits : fits_fp (row_cmd demo_row) /\ fits_fp (row_args demo_row).
Proof. split; apply (bool_decide_unpack _); vm_compute; exact I. Qed.

(** A plan with one entry, at the time of the clock. *)
Lemma demo_plan : exists d : dat ram_state,
  fp_ok d /\ st_slots (store d) = only demo_row /\ unixtime d = 100.
Proof.
  destruct demo_fits as [Hc Ha].
  destruct (dat_set_fp_ok (ram_data 100) 100 (cs "tm_send_status") (cs "10") 3 5 (ram_data_fp 100))
    as (s' & _ & Hfp & Hsl & _).
  - exact I.
  - unfold int_ok, INT_MIN, INT_MAX. lia.
  - unfold int_ok, INT_MIN, INT_MAX. lia.
  - unfold int_ok, INT_MIN, INT_MAX. lia.
  - exact Hc.
  - exact Ha.
  - exists (set_store s' (ram_data 100)). split; [exact Hfp|]. split; [|vm_compute; reflexivity].
    cbn [store set_store]. rewrite Hsl, ram_no_plan. reflexivity.
Qed.



Lemma tc_frame_commands_witness : exists s',
  com_packet SCH_TRX_PORT_TC 1 (Packet (cs "help;drp_set_var 2 5" ++ replicate 236 0) 20) (sat_boot (ram_data 0)) =
    Ret ([ReplyOk], s') /\
  cl_sent s' = line_cmd boot_repo (cs "help") ++ line_cmd boot_repo (cs "drp_set_var 2 5").
Proof.
  destruct (tc_frame_commands (sat_boot (ram_data 0)) [cs "help"; cs "drp_set_var 2 5"] (replicate 236 0) 1)
    as (s' & H1 & H2 & _).
  - exact (proj1 (ram_data_fp 0)).
  - exact boot_repo_ok.
  - repeat constructor; try discriminate.
  - apply (bool_decide_unpack _). vm_compute. exact I.
  - discriminate.
  - vm_compute. reflexivity.
  - exists s'. split; [exact H1|]. rewrite H2. cbn [map concat cl_sent sat_boot cl_cmds app]. by rewrite app_nil_r.
Defined.

Lemma console_remote_command_witness :
  console_read (Some (cs "10: help")) 255 = Ret (Some (cs "com_send_cmd 10 help")).
Proof.
  apply (console_remote_command 10 (cs "help")).
  - unfold INT_MIN, INT_MAX. lia.
  - apply (bool_decide_unpack _). vm_compute. exact I.
  - reflexivity.
  - discriminate.
  - vm_compute. discriminate.
Defined.

Example start_data_on_ram : exists s',
  start_data (ram_data 1000) = Ret (SCH_ST_OK, set_store s' (ram_data 1000)) /\
  i32_of (var (set_store s' (ram_data 1000)) dat_obc_reset_counter) = i32_of (var (ram_data 1000) dat_obc_reset_counter) + 1.
Proof.
  destruct (start_data_ok (ram_data 1000)) as (s' & H1 & _ & H2 & _).
  - exact (proj1 (ram_data_fp 1000)).
  - by left.
  - vm_compute. reflexivity.
  - split; vm_compute; [discriminate|reflexivity].
  - exists s'. split; [exact H1|exact H2].
Qed.

End TaskTheorems.
