(* ===== verification/FlashStart.v ===== *)
(** * A start of the software on the FLASH back end

    What [taskInit] finds and leaves after the processor restarted: [power_cycle] of
    [FlashRepo] and [start_data] of [Tasks] together. *)
From S2P Require Import Prelude CStr Memory Config Storage StorageFlash FlashLaws FlashPayload.
From S2P Require Import Schema RepoData FlashRepo Clients Tasks.

Module FlashStart.
Import Flash FlashLaws FlashPayload RepoData RepoDataLaws RepoDataHistory FlashRepo Clients TaskTheorems.

(** The clock that the software reads after the restart. *)
Definition clock_reads (now : Z) : M (dat flash_state) unit :=
  modify (fun d => Dat (store d) now (settime_ok d) (status_machine d)).
Definition flash_start (jk : Z -> Z) (now : Z) : M (dat flash_state) Z :=
  power_cycle jk ;! clock_reads now ;! start_data.

(** ** What the start leaves on the chips

    [start_data] writes the FRAM and the copy of the TLB, never the FLASH chip. *)
Definition same_chip (d d' : dat flash_state) : Prop :=
  flash (store d') = flash (store d) /\ same_tables (store d) (store d').

#[export] Instance same_chip_preorder : PreOrder same_chip.
Proof. split; [by split|]. intros d1 d2 d3 [H1 H2] [H3 H4]. split; [congruence|]. by etransitivity. Qed.

Definition same_chip_st (s s' : flash_state) : Prop := flash s' = flash s /\ same_tables s s'.
#[export] Instance same_chip_st_preorder : PreOrder same_chip_st.
Proof. split; [by split|]. intros s1 s2 s3 [H1 H2] [H3 H4]. split; [congruence|]. by etransitivity. Qed.

Lemma keeps_chip_fram b : keeps same_chip_st (modify (set_fram b)).
Proof. by apply keeps_modify. Qed.
Lemma keeps_chip_tlb t : keeps same_chip_st (modify (set_tlb t)).
Proof. by apply keeps_modify. Qed.
#[local] Hint Resolve keeps_chip_fram keeps_chip_tlb : keeps.

Lemma keeps_chip_get_idx i : keeps same_chip_st (Flash.storage_flight_plan_get_idx i).
Proof. unfold Flash.storage_flight_plan_get_idx, container_entry, storage_read_flash. keeps_tac. Qed.
Lemma keeps_chip_delete_idx i : keeps same_chip_st (Flash.storage_flight_plan_delete_row_idx i).
Proof.
  unfold Flash.storage_flight_plan_delete_row_idx, flight_plan_erase_index_tlb, storage_flightplan_dump_tlb, storage_write_fram.
  keeps_tac.
Qed.
Lemma keeps_chip_status_get i : keeps same_chip_st (Flash.storage_status_get_value_idx i).
Proof. unfold Flash.storage_status_get_value_idx, storage_read_fram. keeps_tac. Qed.
Lemma keeps_chip_status_set i v : keeps same_chip_st (Flash.storage_status_set_value_idx i v).
Proof. unfold Flash.storage_status_set_value_idx, storage_write_fram. keeps_tac. Qed.

Lemma keeps_chip_st {A} (m : M flash_state A) : keeps same_chip_st m -> keeps same_chip (st m).
Proof.
  intros H d a d' E. unfold st, zoom in E. cbn [lget store_lens] in E.
  destruct (m (store d)) as [[x s']|] eqn:Em; [|done]. injection E as _ <-. by apply (H _ _ _ Em).
Qed.

Lemma keeps_start_data : keeps same_chip (start_data (S := flash_state)).
Proof.
  pose proof keeps_chip_get_idx. pose proof keeps_chip_delete_idx.
  pose proof keeps_chip_status_get. pose proof keeps_chip_status_set.
  assert (forall i, keeps same_chip (dat_get_system_var i)) as Hg
    by (intros; unfold dat_get_system_var, dat_get_status_var; keeps_tac; by apply keeps_chip_st).
  assert (forall i v, keeps same_chip (dat_set_system_var i v)) as Hs
    by (intros; unfold dat_set_system_var, dat_set_status_var; keeps_tac; by apply keeps_chip_st).
  unfold start_data, init_update_status_vars, dat_purge_fp, purge_entry, dat_get_time; keeps_tac; try done;
    by apply keeps_chip_st.
Qed.

(** ** The plan after the purge *)
Lemma tbl_get_cons t o slots : tbl_get t (o :: slots) = if slot_time o =? t then o else tbl_get t slots.
Proof. unfold tbl_get. cbn. destruct (slot_time o =? t); cbn; [by destruct o|]. by destruct (find_time t slots). Qed.

Lemma tbl_get_keep time_min t slots :
  t <> ST_FP_NULL -> tbl_get t (map (keep time_min) slots) = if time_min <? t then tbl_get t slots else None.
Proof.
  intros Ht. assert ((slot_time None =? t) = false) as Hn by (apply Z.eqb_neq; intros <-; by apply Ht).
  induction slots as [|o slots IH]; [by destruct (_ <? _)|]. cbn [map]. rewrite !tbl_get_cons, IH.
  destruct o as [r|]; cbn [keep]; [|by rewrite Hn; destruct (_ <? _)]. destruct (time_min <? row_time r) eqn:E; cbn [slot_time] in *.
  - destruct (row_time r =? t) eqn:E2; [|done]. apply Z.eqb_eq in E2 as <-. by rewrite E.
  - rewrite Hn. destruct (row_time r =? t) eqn:E2; [|done]. apply Z.eqb_eq in E2 as <-. by rewrite E.
Qed.

Lemma flash_start_ok jk now d r :
  dat_ok d -> pay_ok (store d) -> pay_tables (store d) = last_sensor ->
  zlookup (st_slots (store d)) 0 = Some (Some r) ->
  i32_of (var d dat_obc_reset_counter) < INT_MAX -> 0 <= now < INT_MAX ->
  exists d', flash_start jk now d = Ret (SCH_ST_OK, d') /\ flash_repo_ok d' /\ flash (store d') = flash (store d) /\
    i32_of (var d' dat_obc_reset_counter) = i32_of (var d dat_obc_reset_counter) + 1 /\
    var d' dat_obc_hrs_wo_reset = 0 /\ var d' dat_obc_sw_wdt = 0 /\
    st_slots (store d') = map (keep (now + 1)) (st_slots (store d)) /\
    (forall n, st_room n (store d) -> st_room n (store d')) /\
    forall j, 0 <= j < dat_status_last_address -> j ∉ start_vars -> var d' j = var d j.
Proof.
  intros [Hst Hsz] Hp Ht Hfirst Hcount Hnow.
  destruct (restart_ok jk d Hst Hp Ht) as (s1 & E1 & Hf1 & Hf2 & Hf3 & Hok1 & Hpi & Hn1).
  assert (flash_slots s1 = flash_slots (store d)) as Hsl1 by (unfold flash_slots; by rewrite Hf1, Hf3).
  set (d1 := Dat s1 now (settime_ok d) (status_machine d)).
  assert (forall j, var d1 j = var d j) as Hv1 by (intros; unfold var; cbn; unfold flash_status; by rewrite Hf2).
  destruct (start_data_ok d1) as (s2 & E2 & Hfp2 & H1 & H2 & H3 & H4 & H5 & H6); [by split| | |done|].
  { right. exists r. cbn in *. by rewrite Hsl1. }
  { by rewrite Hv1. }
  pose proof (keeps_start_data _ _ _ E2) as [K1 [K2 K3]]. cbn [store set_store d1] in K1, K2, K3.
  exists (set_store s2 d1). unfold flash_start. rewrite (bind_step _ _ _ _ _ E1). split; [exact E2|].
  split; [|split; [|rewrite <- !Hv1]].
  - split; [exact Hfp2|]. destruct Hfp2 as [[(Ho & _ & Hb & _ & Hfl & _) _] _]. destruct Hpi as (_ & He & Ha & _).
    cbn in *. unfold payload_inv. rewrite K2, K3. by splits.
  - cbn. congruence.
  - splits; try done.
    + cbn in *. rewrite H4. by rewrite Hsl1.
    + intros n Hn. apply H5. cbn in *. unfold flash_written in *. by rewrite Hf3.
    + intros j Hj Hns. rewrite <- Hv1. by apply H6.
Qed.

End FlashStart.

Module FlashStartTheorems.
Import Flash FlashLaws FlashPayload RepoData RepoDataLaws RepoDataHistory FlashRepo Clients TaskTheorems FlashStart.

(** C11. A restart with stored data, on the FLASH back end: when the power goes
    between two calls and the processor restarts, at any time [now] below [INT_MAX], on
    the chips of a repository whose first slot of the plan is used, the start
    ([dat_repo_init], [init_update_status_vars] and [dat_purge_fp]) succeeds.  The reset counter has grown by one, the hours without
    reset and the ground watchdog start at zero and every other variable but the counter
    of entries is as it was; the entries of the plan whose time is not after the next
    second are gone, the others are in their slots, so [dat_get_fp] finds exactly
    them, with what was set, and the counter of entries is right, whatever it was;
    the payload samples and the room of the section are as before.  (With a free first
    slot the start faults: [flash_purge_reads_uninitialized].) *)
Theorem flash_start_prepares_stored_data jk now (d : dat flash_state) r :
  dat_ok d -> pay_ok (store d) -> pay_tables (store d) = last_sensor ->
  zlookup (st_slots (store d)) 0 = Some (Some r) ->
  i32_of (var d dat_obc_reset_counter) < INT_MAX -> 0 <= now < INT_MAX ->
  exists d', flash_start jk now d = Ret (SCH_ST_OK, d') /\ flash_repo_ok d' /\
    i32_of (var d' dat_obc_reset_counter) = i32_of (var d dat_obc_reset_counter) + 1 /\
    var d' dat_obc_hrs_wo_reset = 0 /\ var d' dat_obc_sw_wdt = 0 /\
    (forall j, 0 <= j < dat_status_last_address -> j ∉ start_vars -> var d' j = var d j) /\
    st_slots (store d') = map (keep (now + 1)) (st_slots (store d)) /\
    dat_get_system_var dat_fpl_queue d' = Ret (used (st_slots (store d')), d') /\
    (forall t, t <> ST_FP_NULL -> exists d2, dat_get_fp t d' =
       Ret (if now + 1 <? t then fst (spec_get t (st_slots (store d))) else (SCH_ST_ERROR, None), d2)) /\
    (forall p i size, 0 <= p < last_sensor -> 0 < size < 2 ^ 16 -> 0 <= i < pay_capacity size ->
       storage_payload_get_data p i (Some size) (store d') = Ret ((SCH_ST_OK, Some (pay_read (store d) p i size)), store d')) /\
    forall n, st_room n (store d) -> st_room n (store d').
Proof.
  intros Hok Hp Ht Hfirst Hcount Hnow.
  destruct (flash_start_ok jk now d r Hok Hp Ht Hfirst Hcount Hnow) as (d' & E & Hd' & Hfl & H1 & H2 & H3 & H4 & H5 & H6).
  exists d'. split; [exact E|]. split; [exact Hd'|]. do 5 (split; [done|]). split; [apply counter_read, Hd'|].
  split; [|split; [|done]].
  - intros t Hne. destruct (dat_get_fp_ok d' t (proj1 Hd') Hne) as (s2 & E2 & _). exists (set_store s2 d'). rewrite E2.
    do 2 f_equal. unfold spec_get. rewrite H4, tbl_get_keep by done. destruct (now + 1 <? t); [|done].
    by destruct (tbl_get t (st_slots (store d))).
  - intros p i size Hp1 Hs1 Hi1. destruct Hd' as (_ & Hpay & Htab).
    pose proof (law_pay_get (store d') p i size Hpay) as L. rewrite Htab in L. etransitivity; [by apply L|].
    do 3 f_equal. cbn. unfold flash_pay_read. by rewrite Hfl.
Qed.

(** Two entries are set, the counter of entries is corrupted, the power goes, and the
    software starts at second 1000: the first entry is past, the second one is found. *)
Definition start_ops : list fp_op := [OpSet 100 (cs "help") [] 1 0; OpSet 2000 (cs "test") (cs "x") 2 5].

Lemma start_ops_valid : Forall valid_op start_ops.
Proof.
  repeat constructor; cbn; unfold int_ok, INT_MIN, INT_MAX; try lia; apply (bool_decide_unpack _); vm_compute; exact I.
Qed.

Lemma set_var_repo (d : dat flash_state) i v :
  dat_ok d -> pay_ok (store d) -> 0 <= i < dat_status_last_address -> 0 <= v < 2 ^ 32 ->
  exists d', dat_ok d' /\ pay_ok (store d') /\ pay_tables (store d') = pay_tables (store d) /\
    st_slots (store d') = st_slots (store d) /\
    forall j, 0 <= j < dat_status_last_address -> var d' j = if decide (j = i) then v else var d j.
Proof.
  intros Hok Hp Hi Hv. pose proof Hok as [_ Hsz]. unfold dat_status_last_address in *.
  destruct (set_status_ok d i v Hok ltac:(lia) Hv) as (s' & E & _ & Hok' & _ & Hsl & _ & Hj).
  destruct (law_pay_status _ _ _ _ _ Hp E) as (Hp' & Ht' & _).
  exists (set_store s' d). split; [exact Hok'|]. split; [exact Hp'|]. split; [exact Ht'|]. split; [exact Hsl|].
  intros j Hjr. apply Hj. lia.
Qed.

Lemma start_plan : exists d : dat flash_state,
  dat_ok d /\ pay_ok (store d) /\ pay_tables (store d) = last_sensor /\
  st_slots (store d) = snd (spec_ops start_ops (replicate 255 None)) /\
  var d dat_obc_reset_counter = 6 /\ var d dat_fpl_queue = 77.
Proof.
  destruct FlashTheorems.flash_formatted as (d0 & Hd0 & Hs0 & Hw).
  destruct (run_ops_repo start_ops d0 Hd0) as (s1 & _ & ((Hok1 & _) & Hp1 & Ht1) & Hs1 & _).
  { cbn -[zlength start_ops]. rewrite Hw. vm_compute. discriminate. } { exact start_ops_valid. }
  destruct (set_var_repo (set_store s1 d0) dat_obc_reset_counter 6 Hok1 Hp1) as (d2 & Hok2 & Hp2 & Ht2 & Hs2 & Hv2); [done|done|].
  destruct (set_var_repo d2 dat_fpl_queue 77 Hok2 Hp2) as (d3 & Hok3 & Hp3 & Ht3 & Hs3 & Hv3); [done|done|].
  exists d3. split; [exact Hok3|]. split; [exact Hp3|]. split; [by rewrite Ht3, Ht2|].
  split; [by rewrite Hs3, Hs2, <- Hs0|]. by rewrite !Hv3, !Hv2 by done.
Qed.

Lemma flash_start_prepares_stored_data_witness : exists d d' : dat flash_state,
  var d dat_fpl_queue = 77 /\ flash_start (fun _ => 0) 1000 d = Ret (SCH_ST_OK, d') /\
  i32_of (var d' dat_obc_reset_counter) = 7 /\ dat_get_system_var dat_fpl_queue d' = Ret (1, d') /\
  st_slots (store d') = [None; Some (FpRow 2000 (cs "test") (cs "x") 2 5 1)] ++ replicate 253 None /\
  exists d2, dat_get_fp 2000 d' = Ret ((SCH_ST_OK, Some (FpOut (cs "test") (cs "x") 2 5 1)), d2).
Proof.
  destruct start_plan as (d & Hok & Hp & Ht & Hs & Hv & Hq).
  destruct (flash_start_prepares_stored_data (fun _ => 0) 1000 d (FpRow 100 (cs "help") [] 1 0 1) Hok Hp Ht)
    as (d' & E & _ & H1 & _ & _ & _ & H2 & H3 & H4 & _).
  - rewrite Hs. vm_compute. reflexivity.
  - rewrite Hv. vm_compute. reflexivity.
  - unfold INT_MAX. lia.
  - rewrite H2, Hs in H3. rewrite Hs in H2. rewrite Hv in H1.
    exists d, d'. split; [exact Hq|]. split; [exact E|]. split; [rewrite H1; vm_compute; reflexivity|].
    split; [rewrite H3; vm_compute; reflexivity|]. split; [rewrite H2; vm_compute; reflexivity|].
    destruct (H4 2000) as (d2 & E2); [done|]. exists d2. rewrite E2, Hs. vm_compute. reflexivity.
Defined.

End FlashStartTheorems.
