(* ===== verification/ComServer.v ===== *)
(** * The server of the communications task

    The loop of [system/taskCommunications.c] with the buffers of libcsp.  The
    documentation of libcsp ([csp.h], [csp_buffer.h]) says who must release a
    packet: [csp_read] gives it to the caller, [csp_send] and [csp_sendto] take
    it unless they fail, [csp_service_handler] takes it always.  The pool
    records the owner of each buffer, so that releasing a packet twice or using
    it after it was given away is a fault, and a packet that nobody releases
    stays with the task.  What the packets do to the repositories is
    [com_packet] of Clients. *)
From stdpp Require Import relations.
From S2P Require Import Prelude Memory CStr Config Storage StorageRam Schema RepoCommand RepoData.
From S2P Require Import Telemetry FileTransfer CmdTM Registry Clients Tasks.


Module ComServer.
Import RepoCommand RepoData Telemetry FileRx CmdTM Clients.

(** ** libcsp

    A buffer is free, or belongs to the task or to the network with the packet
    it holds. *)
Inductive owner := Free | Task (p : csp_packet) | Net (p : csp_packet).

(** What [csp_buffer_get] returns: "pointer to a free csp_packet_t or NULL if
    out of memory", with whatever the memory holds. *)
Class Csp := {
  csp_free_buffer : list owner -> option nat;
  csp_garbage : csp_packet
}.
Class CspLaws `{Csp} : Prop := {
  csp_free_some : forall l b, csp_free_buffer l = Some b -> l !! b = Some Free;
  csp_free_none : forall l, csp_free_buffer l = None -> forall b, l !! b <> Some Free;
  csp_garbage_size : zlength (p_data csp_garbage) = SCH_BUFF_MAX_LEN
}.

(** The calls of the task that the network sees. *)
Inductive net_event :=
  | Reply (bytes : option (list Z)) (ok : bool)
  | Broadcast (bytes : list Z) (ok : bool)
  | Resent (node : Z) (bytes : list Z) (ok : bool)
  | Printed (text : cstring)
  | Service (bytes : list Z).

(** An accepted connection: [csp_conn_dport], [csp_conn_dst]. *)
Record conn := Conn { c_dport : Z; c_dst : Z }.

Section server.
Context {F S : Type} `{Storage S} `{Csp}.

(** The task: the state of its handlers, the buffers, the connection [conn]
    (none while it waits in [csp_accept]), the packet [rep_ok_tmp], and what it
    has sent. *)
Record server := Server {
  sv_client : client S F;
  sv_pool : list owner;
  sv_conn : option conn;
  sv_rep : nat;
  sv_net : list net_event
}.
Definition sv_client_lens : lens server (client S F) :=
  Lens sv_client (fun c s => Server c (sv_pool s) (sv_conn s) (sv_rep s) (sv_net s)).
Definition handle {A} (m : M (client S F) A) : M server A := zoom sv_client_lens m.
Definition set_pool (l : list owner) (s : server) : server :=
  Server (sv_client s) l (sv_conn s) (sv_rep s) (sv_net s).
Definition net (e : net_event) : M server unit :=
  modify (fun s => Server (sv_client s) (sv_pool s) (sv_conn s) (sv_rep s) (sv_net s ++ [e])).

(** The packet behind a pointer the task may use. *)
Definition packet_at (b : nat) : M server csp_packet :=
  let! l := gets sv_pool in
  match l !! b with Some (Task p) => ret p | _ => fail UseAfterFree end.
Definition set_owner (b : nat) (o : owner) : M server unit :=
  modify (fun s => set_pool (<[b := o]> (sv_pool s)) s).

Definition csp_buffer_get : M server (option nat) :=
  let! l := gets sv_pool in
  match csp_free_buffer l with
  | Some b => set_owner b (Task csp_garbage) ;! ret (Some b)
  | None => ret None
  end.
Definition csp_buffer_free (b : nat) : M server unit :=
  let! l := gets sv_pool in
  match l !! b with Some (Task _) => set_owner b Free | _ => fail DoubleFree end.
Definition csp_buffer_clone (b : nat) : M server (option nat) :=
  let! p := packet_at b in
  let! c := csp_buffer_get in
  match c with
  | Some c => set_owner c (Task p) ;! ret (Some c)
  | None => ret None
  end.
(** The packet leaves the task. *)
Definition give (b : nat) : M server unit :=
  let! p := packet_at b in set_owner b (Net p).

Definition payload (p : csp_packet) : list Z := take (Z.to_nat (p_length p)) (p_data p).

(** "returns 1 if successful and 0 otherwise. you MUST free the frame yourself
    if the transmission was not successful"; a null packet is not sent. *)
Definition csp_send (packet : option nat) (ok : bool) : M server Z :=
  match packet with
  | None => net (Reply None ok) ;! ret 0
  | Some b =>
      let! p := packet_at b in
      net (Reply (Some (payload p)) ok) ;!
      if ok then give b ;! ret 1 else ret 0
  end.
(** "-1 if error (you must free packet), 0 if OK (you must discard pointer)" *)
Definition csp_sendto (ev : list Z -> bool -> net_event) (b : nat) (ok : bool) : M server Z :=
  let! p := packet_at b in
  net (ev (payload p) ok) ;!
  if ok then give b ;! ret 0 else ret (-1).
(** "This function will either use the packet buffer or delete it" *)
Definition csp_service_handler (b : nat) : M server unit :=
  let! p := packet_at b in
  net (Service (payload p)) ;! give b.

(** ** The task *)
Context (hook : option (conn -> nat -> M server unit)).  (* [SCH_HOOK_COMM] *)
Context (resend : option Z).  (* [SCH_RESEND_TM_NODE] *)

(** [csp_bind] and [csp_listen] return [bind_rc] and [listen_rc]; [None] is the
    return of the task. *)
Definition com_start (bind_rc listen_rc : Z) : M server (option unit) :=
  if negb (bind_rc =? 0) then ret None
  else if negb (listen_rc =? 0) then ret None
  else
    let! rep_ok_tmp := csp_buffer_get in
    match rep_ok_tmp with
    | None => fail NullDeref
    | Some b =>
        let! p := packet_at b in
        let! data := list_write (p_data p) 0 [200] in
        set_owner b (Task (Packet data 1)) ;!
        modify (fun s => Server (sv_client s) (sv_pool s) (sv_conn s) b (sv_net s)) ;!
        ret (Some tt)
    end.

Definition count_telecommand : M (client S F) unit :=
  let! n := data (dat_get_system_var dat_com_count_tc) in
  let! count_tc := cint (n + 1) in
  data (dat_set_system_var dat_com_count_tc count_tc) ;!
  let! now := data dat_get_time in
  data (dat_set_system_var dat_com_last_tc (i32_of now)) ;!
  ret tt.

(** The reply to a telecommand or a command; [ok] says whether the network
    takes it. *)
Definition reply_ok (ok : bool) : M server unit :=
  let! rep_ok_tmp := gets sv_rep in
  let! rep_ok := csp_buffer_clone rep_ok_tmp in
  csp_send rep_ok ok ;!
  ret tt.

(** The copy of a telemetry packet for another node. *)
Definition resend_tm (packet : nat) (ok : bool) : M server unit :=
  match resend with
  | None => ret tt
  | Some node =>
      let! tmp_packet := csp_buffer_clone packet in
      match tmp_packet with
      | None => fail AssertFail
      | Some tmp =>
          if bool_decide (tmp = packet) then fail AssertFail else
          let! rc := csp_sendto (Resent node) tmp ok in
          if rc =? -1 then csp_buffer_free tmp else ret tt
      end
  end.

Definition print_text (text : res cstring) : M server unit :=
  let! t := lift text in net (Printed t).

(** The body of the loop over the packets of connection [c]; [ok] is what the
    network answers to the packet it is sent, when there is one. *)
Definition com_turn (c : conn) (packet : nat) (ok : bool) : M server unit :=
  handle count_telecommand ;!
  let dport := c_dport c in
  if dport =? SCH_TRX_PORT_FILE then
    let! p := packet_at packet in
    handle (receive_file p) ;!
    csp_buffer_free packet
  else if dport =? SCH_TRX_PORT_TC then
    reply_ok ok ;!
    let! p := packet_at packet in
    handle (com_receive_tc p) ;!
    csp_buffer_free packet
  else if dport =? SCH_TRX_PORT_RPT then
    if c_dst c =? SCH_COMM_NODE then
      let! rc := csp_sendto Broadcast packet ok in
      if negb (rc =? 0) then csp_buffer_free packet else ret tt
    else
      let! p := packet_at packet in
      print_text (cstr_of_buf (p_data p)) ;!
      csp_buffer_free packet
  else if dport =? SCH_TRX_PORT_CMD then
    reply_ok ok ;!
    let! p := packet_at packet in
    handle (com_receive_cmd p) ;!
    csp_buffer_free packet
  else if dport =? SCH_TRX_PORT_DBG then
    let! p := packet_at packet in
    print_text (cstr_of_buf (p_data p)) ;!
    csp_buffer_free packet
  else if dport =? SCH_TRX_PORT_DBG_TM then
    let! p := packet_at packet in
    print_text (cstr_of_buf (drop 8 (p_data p))) ;!
    csp_buffer_free packet
  else if dport =? SCH_TRX_PORT_TM then
    resend_tm packet ok ;!
    let! p := packet_at packet in
    handle (receive_tm p) ;!
    csp_buffer_free packet
  else
    (match hook with
     | Some taskCommunicationsHook =>
         if SCH_TRX_PORT_TM <? dport then taskCommunicationsHook c packet else ret tt
     | None => ret tt
     end) ;!
    csp_service_handler packet.

(** [csp_read] hands a packet of the network to the task. *)
Definition csp_read (b : nat) : M server unit :=
  let! l := gets sv_pool in
  match l !! b with Some (Net p) => set_owner b (Task p) | _ => fail OutOfBounds end.

(** ** The loop, among what the network does with its buffers

    [csp_accept] and [csp_read] also time out, which ends the connection or
    leaves the task where it is. *)
Definition set_conn (c : option conn) (s : server) : server :=
  Server (sv_client s) (sv_pool s) c (sv_rep s) (sv_net s).

Inductive com_step : server -> server -> Prop :=
  | step_accept s c : sv_conn s = None -> com_step s (set_conn (Some c) s)
  | step_packet s c b ok s' :
      sv_conn s = Some c -> (csp_read b ;! com_turn c b ok) s = Ret (tt, s') -> com_step s s'
  | step_close s c : sv_conn s = Some c -> com_step s (set_conn None s)
  | step_arrival s b p :
      sv_pool s !! b = Some Free -> com_step s (set_pool (<[b := Net p]> (sv_pool s)) s)
  | step_done s b p :
      sv_pool s !! b = Some (Net p) -> com_step s (set_pool (<[b := Free]> (sv_pool s)) s).

End server.
Arguments server : clear implicits.
End ComServer.

(** ** Lemmas *)
Module ComServerLaws.
Import RepoCommand RepoData Telemetry FileRx CmdTM Clients ComServer.

(** *** Counting *)
Definition task_of (o : owner) : nat := match o with Task _ => 1 | _ => 0 end.
Definition owned (l : list owner) : nat := sum_list_with task_of l.
Definition refusal (e : net_event) : nat := match e with Reply (Some _) false => 1 | _ => 0 end.
Definition refused (es : list net_event) : nat := sum_list_with refusal es.
Definition acknowledgement (e : net_event) : nat := match e with Reply (Some _) _ => 1 | _ => 0 end.
Definition acknowledged (es : list net_event) : nat := sum_list_with acknowledgement es.

Lemma sum_insert {A} (f : A -> nat) l b o o' :
  l !! b = Some o -> (sum_list_with f (<[b := o']> l) + f o = sum_list_with f l + f o')%nat.
Proof.
  revert b. induction l as [|x l IH]; intros [|b] E; csimpl in *; try done.
  - injection E as ->. lia.
  - specialize (IH b E). lia.
Qed.

Lemma owned_insert l b o o' :
  l !! b = Some o -> (owned (<[b := o']> l) + task_of o = owned l + task_of o')%nat.
Proof. apply sum_insert. Qed.

Lemma sum_snoc {A} (f : A -> nat) l x : sum_list_with f (l ++ [x]) = (sum_list_with f l + f x)%nat.
Proof. rewrite sum_list_with_app. cbn. lia. Qed.

Lemma refused_snoc es e : refused (es ++ [e]) = (refused es + refusal e)%nat.
Proof. apply sum_snoc. Qed.

Lemma acknowledged_snoc es e : acknowledged (es ++ [e]) = (acknowledged es + acknowledgement e)%nat.
Proof. apply sum_snoc. Qed.

Lemma sum_le {A} (f : A -> nat) l : (forall x, f x <= 1)%nat -> (sum_list_with f l <= length l)%nat.
Proof. intros Hf. induction l as [|x l IH]; cbn; [lia|]. specialize (Hf x). lia. Qed.

Lemma owned_le l : (owned l <= length l)%nat.
Proof. apply sum_le. intros []; cbn; lia. Qed.

Section laws.
Context {F S : Type} `{Storage S} `{CspLaws}.
Implicit Types (s : server F S).

(** *** The invariant

    The task owns [n] buffers besides one for each reply the network refused,
    among them the packet of the reply, and every reply is the byte 200. *)
Definition reply_byte (e : net_event) : Prop :=
  match e with Reply (Some bs) _ => bs = [200] | _ => True end.
Record buffers (n : nat) (s : server F S) : Prop := Buffers {
  bu_owned : owned (sv_pool s) = (n + refused (sv_net s))%nat;
  bu_rep : exists p, sv_pool s !! sv_rep s = Some (Task p) /\ payload p = [200];
  bu_bytes : Forall reply_byte (sv_net s)
}.

(** The packet [p] the task works on. *)
Definition working (b : nat) (p : csp_packet) (s : server F S) : Prop :=
  buffers 2 s /\ sv_pool s !! b = Some (Task p) /\ b <> sv_rep s.

(** A reply needs a buffer besides the packet, the reply's own and those of the
    replies that were refused. *)
Definition quiet (s s' : server F S) : Prop :=
  (refused (sv_net s) <= refused (sv_net s'))%nat /\
  (acknowledged (sv_net s') = acknowledged (sv_net s) \/ (3 + refused (sv_net s) <= length (sv_pool s))%nat).

(** What a step of a turn leaves alone. *)
Definition same_task (s s' : server F S) : Prop :=
  sv_client s' = sv_client s /\ sv_conn s' = sv_conn s /\ sv_rep s' = sv_rep s /\
  length (sv_pool s') = length (sv_pool s) /\ quiet s s'.

Lemma quiet_net s s' : sv_net s' = sv_net s -> quiet s s'.
Proof. intros E. unfold quiet. rewrite E. auto. Qed.

Lemma quiet_snoc s s' e :
  sv_net s' = sv_net s ++ [e] -> acknowledgement e = 0%nat \/ (3 + refused (sv_net s) <= length (sv_pool s))%nat ->
  quiet s s'.
Proof. intros E He. unfold quiet. rewrite E, refused_snoc, acknowledged_snoc. lia. Qed.

#[export] Instance same_task_preorder : PreOrder same_task.
Proof.
  split; [by intros s; repeat split; auto|]. intros s1 s2 s3 (E1 & E2 & E3 & E4 & Q1) (F1 & F2 & F3 & F4 & Q2).
  split; [congruence|]. split; [congruence|]. split; [congruence|]. split; [congruence|].
  destruct Q1 as [L1 Q1], Q2 as [L2 Q2]. split; [lia|]. rewrite E4 in Q2. lia.
Qed.

Definition set_client (c : client S F) (s : server F S) : server F S :=
  Server c (sv_pool s) (sv_conn s) (sv_rep s) (sv_net s).

Lemma handle_ret {A} (m : M (client S F) A) s a c :
  m (sv_client s) = Ret (a, c) -> handle m s = Ret (a, set_client c s).
Proof. unfold handle, zoom. cbn. by intros ->. Qed.
Lemma handle_fault {A} (m : M (client S F) A) s f : m (sv_client s) = Fault f -> handle m s = Fault f.
Proof. unfold handle, zoom. cbn. by intros ->. Qed.
Lemma working_client b p c s : working b p s -> working b p (set_client c s).
Proof. intros ([] & ? & ?). split; [by split|done]. Qed.

Lemma packet_at_ok b p s : sv_pool s !! b = Some (Task p) -> packet_at b s = Ret (p, s).
Proof. intros E. unfold packet_at. munfold. by rewrite E. Qed.

(** The packet leaves the task: freed, or taken by the network. *)
Lemma drop_owner b p o s :
  working b p s -> task_of o = 0%nat ->
  let s' := set_pool (<[b := o]> (sv_pool s)) s in buffers 1 s' /\ same_task s s'.
Proof.
  intros ([Ho (q & Er & Eq) Hb] & Eb & Hne) E0 s'. split; [split|].
  - pose proof (owned_insert _ b _ o Eb) as E. rewrite E0 in E. cbn [sv_pool sv_net set_pool task_of s'] in *. lia.
  - exists q. cbn. by rewrite list_lookup_insert_ne.
  - exact Hb.
  - split; [done|]. split; [done|]. split; [done|]. split; [cbn; by rewrite length_insert|by apply quiet_net].
Qed.

Lemma csp_buffer_free_ok b p s :
  working b p s -> exists s', csp_buffer_free b s = Ret (tt, s') /\ buffers 1 s' /\ same_task s s'.
Proof.
  intros Hw. pose proof Hw as (_ & Eb & _). unfold csp_buffer_free. munfold. rewrite Eb.
  eexists. split; [reflexivity|]. by apply (drop_owner b p).
Qed.

Lemma give_ok b p s :
  working b p s -> exists s', give b s = Ret (tt, s') /\ buffers 1 s' /\ same_task s s'.
Proof.
  intros Hw. pose proof Hw as (_ & Eb & _). unfold give.
  rewrite (bind_step _ _ _ _ _ (packet_at_ok _ _ _ Eb)). eexists. split; [reflexivity|]. by apply (drop_owner b p).
Qed.

(** A call that is no reply. *)
Lemma net_ok e b p s :
  working b p s -> acknowledgement e = 0%nat -> refusal e = 0%nat -> reply_byte e ->
  exists s', net e s = Ret (tt, s') /\ working b p s' /\ same_task s s'.
Proof.
  intros ([Ho Hr Hb] & Eb & Hne) Ea E0 He. eexists. split; [reflexivity|].
  split; [|repeat split; cbn; rewrite ?refused_snoc, ?acknowledged_snoc; lia].
  split; [|done]. split; [|done|].
  - cbn [sv_pool sv_net]. rewrite refused_snoc, E0. lia.
  - cbn. apply Forall_app. split; [done|by constructor].
Qed.

(** A copy of a packet the task owns, in a buffer that was free. *)
Lemma csp_buffer_clone_ok a p s :
  sv_pool s !! a = Some (Task p) ->
  (csp_buffer_clone a s = Ret (None, s) /\ forall b, sv_pool s !! b <> Some Free) \/
  exists c, sv_pool s !! c = Some Free /\
    csp_buffer_clone a s = Ret (Some c, set_pool (<[c := Task p]> (sv_pool s)) s).
Proof.
  intros Ea. unfold csp_buffer_clone. rewrite (bind_step _ _ _ _ _ (packet_at_ok _ _ _ Ea)).
  unfold csp_buffer_get. munfold.
  destruct (csp_free_buffer (sv_pool s)) as [c|] eqn:E.
  - right. exists c. split; [by apply csp_free_some|]. cbn. unfold set_pool. cbn. by rewrite list_insert_insert_eq.
  - left. split; [done|]. by apply csp_free_none.
Qed.

(** The reply: a copy is sent, or stays with the task when the network refuses
    it. *)
Lemma reply_ok_ok ok b p s :
  working b p s -> exists s', reply_ok ok s = Ret (tt, s') /\ working b p s' /\ same_task s s'.
Proof.
  intros ([Ho (q & Er & Eq) Hb] & Eb & Hne). unfold reply_ok. unfold bind at 1, gets at 1.
  destruct (csp_buffer_clone_ok (sv_rep s) q s Er) as [[E _]|(c & Ec & E)]; rewrite (bind_step _ _ _ _ _ E); cbn [csp_send].
  - destruct (net_ok (Reply None ok) b p s) as (s' & En & Hw & Hs).
    { by split; [split; eauto|]. } { done. } { done. } { done. }
    exists s'. split; [|done]. unfold bind at 1 2. by rewrite En.
  - set (s1 := set_pool _ s) in *.
    assert (sv_pool s1 !! c = Some (Task q)) as Ec1 by (apply list_lookup_insert_eq; by eapply lookup_lt_Some).
    assert (b <> c /\ sv_rep s <> c) as [Hbc Hrc] by (split; intros Hc; subst c; congruence).
    pose proof (owned_insert _ c _ (Task q) Ec) as Es1. cbn [task_of] in Es1.
    assert (3 + refused (sv_net s) <= length (sv_pool s))%nat as Hroom.
    { pose proof (owned_le (sv_pool s1)) as Hl. cbn [s1 set_pool sv_pool] in Hl. rewrite length_insert in Hl. lia. }
    unfold csp_send. unfold bind at 1 2. rewrite (packet_at_ok _ _ _ Ec1).
    unfold net at 1. unfold bind at 1, modify at 1. cbn [sv_net s1 set_pool sv_client sv_pool sv_conn sv_rep]. rewrite Eq.
    destruct ok.
    + set (s2 := Server _ _ _ _ _). unfold bind at 1, give.
      rewrite (bind_step _ _ _ _ _ (packet_at_ok c q s2 Ec1)). cbn. eexists. split; [reflexivity|].
      unfold set_pool. cbn. rewrite list_insert_insert_eq.
      pose proof (owned_insert _ c _ (Net q) Ec) as Es2. cbn [task_of] in Es2.
      split; [split; [split|]|].
      * cbn [sv_pool sv_net]. rewrite refused_snoc. cbn [refusal]. lia.
      * exists q. cbn. by rewrite list_lookup_insert_ne.
      * cbn. apply Forall_app. split; [done|by constructor].
      * cbn. by rewrite list_lookup_insert_ne.
      * split; [done|]. split; [done|]. split; [done|]. split; [cbn; by rewrite length_insert|].
        eapply quiet_snoc; [done|right; exact Hroom].
    + eexists. split; [reflexivity|]. split; [split; [split|]|].
      * cbn [sv_pool sv_net]. rewrite refused_snoc. cbn [refusal]. lia.
      * exists q. cbn. by rewrite list_lookup_insert_ne.
      * cbn. apply Forall_app. split; [done|by constructor].
      * cbn. by rewrite list_lookup_insert_ne.
      * split; [done|]. split; [done|]. split; [done|]. split; [cbn; by rewrite length_insert|].
        eapply quiet_snoc; [done|right; exact Hroom].
Qed.

Lemma csp_sendto_ok (ev : list Z -> bool -> net_event) (ok : bool) b p s :
  working b p s -> (forall bs o, acknowledgement (ev bs o) = 0%nat /\ refusal (ev bs o) = 0%nat /\ reply_byte (ev bs o)) ->
  exists s', same_task s s' /\
    if ok then csp_sendto ev b ok s = Ret (0, s') /\ buffers 1 s'
    else csp_sendto ev b ok s = Ret (-1, s') /\ working b p s'.
Proof.
  intros Hw Hev. pose proof Hw as (_ & Eb & _). unfold csp_sendto.
  rewrite (bind_step _ _ _ _ _ (packet_at_ok _ _ _ Eb)).
  destruct (net_ok (ev (payload p) ok) b p s Hw) as (s1 & E1 & Hw1 & Hs1); [apply Hev..|].
  rewrite (bind_step _ _ _ _ _ E1). destruct ok; [|by exists s1].
  destruct (give_ok b p s1 Hw1) as (s2 & E2 & Hb2 & Hs2). exists s2. split; [by etrans|].
  by rewrite (bind_step _ _ _ _ _ E2).
Qed.

Lemma csp_service_handler_ok b p s :
  working b p s -> exists s', csp_service_handler b s = Ret (tt, s') /\ buffers 1 s' /\ same_task s s'.
Proof.
  intros Hw. pose proof Hw as (_ & Eb & _). unfold csp_service_handler.
  rewrite (bind_step _ _ _ _ _ (packet_at_ok _ _ _ Eb)).
  destruct (net_ok (Service (payload p)) b p s Hw) as (s1 & E1 & Hw1 & Hs1); [done..|].
  rewrite (bind_step _ _ _ _ _ E1). destruct (give_ok b p s1 Hw1) as (s2 & E2 & Hb2 & Hs2).
  exists s2. split; [done|]. split; [done|]. by etrans.
Qed.

(** A second buffer the task owns for the time of a call. *)
Lemma resend_tm_ok resend ok b p s :
  working b p s ->
  (exists s', resend_tm resend b ok s = Ret (tt, s') /\ working b p s' /\ same_task s s') \/
  (resend_tm resend b ok s = Fault AssertFail /\ resend <> None /\ forall b', sv_pool s !! b' <> Some Free).
Proof.
  intros Hw. pose proof Hw as ([Ho (q & Er & Eq) Hb] & Eb & Hne). unfold resend_tm.
  destruct resend as [node|]; [|left; exists s; split; [done|split; [exact Hw|reflexivity]]].
  destruct (csp_buffer_clone_ok b p s Eb) as [[E Hf]|(c & Ec & E)]; rewrite (bind_step _ _ _ _ _ E); [by right|].
  left. set (s1 := set_pool _ s) in *.
  assert (sv_pool s1 !! c = Some (Task p)) as Ec1 by (apply list_lookup_insert_eq; by eapply lookup_lt_Some).
  assert (b <> c /\ sv_rep s <> c) as [Hbc Hrc] by (split; intros Hc; subst c; congruence).
  rewrite bool_decide_false by congruence.
  pose proof (owned_insert _ c _ (Task p) Ec) as Es1. cbn [task_of] in Es1.
  unfold csp_sendto. unfold bind at 1 2. rewrite (packet_at_ok _ _ _ Ec1).
  unfold bind at 1, net, modify at 1. set (s2 := Server _ _ _ _ _). fold (payload p).
  assert (forall o, task_of o = 0%nat ->
    let s' := set_pool (<[c := o]> (sv_pool s2)) s2 in working b p s' /\ same_task s s') as Hdone.
  { intros o E0 s'. pose proof (owned_insert (sv_pool s1) c _ o Ec1) as Es2. cbn [task_of] in Es2. rewrite E0 in Es2.
    split; [split; [split|]|].
    - cbn [s' s2 set_pool sv_pool sv_net]. rewrite refused_snoc. cbn [refusal]. cbn [s1 set_pool sv_pool sv_net] in *. lia.
    - exists q. cbn. by rewrite !list_lookup_insert_ne.
    - cbn. apply Forall_app. split; [done|by constructor].
    - cbn. by rewrite !list_lookup_insert_ne.
    - split; [done|]. split; [done|]. split; [done|]. split; [cbn; by rewrite !length_insert|].
      eapply quiet_snoc; [done|by left]. }
  destruct ok.
  - unfold bind at 1, give. rewrite (bind_step _ _ _ _ _ (packet_at_ok c p s2 Ec1)). cbn.
    eexists. split; [reflexivity|]. by apply Hdone.
  - unfold ret at 1. change (-1 =? -1) with true. cbv iota. unfold csp_buffer_free, bind, gets.
    change (sv_pool s2) with (sv_pool s1). rewrite Ec1. eexists. split; [reflexivity|]. by apply (Hdone Free).
Qed.

(** The same as [com_packet], after the counters. *)
Definition port_actions (dport dst : Z) (p : csp_packet) : M (client S F) (list com_action) :=
  if dport =? SCH_TRX_PORT_FILE then receive_file p ;! ret []
  else if dport =? SCH_TRX_PORT_TC then com_receive_tc p ;! ret [ReplyOk]
  else if dport =? SCH_TRX_PORT_RPT then
    if dst =? SCH_COMM_NODE then ret [Repeat (payload p)]
    else let! text := lift (cstr_of_buf (p_data p)) in ret [PrintText text]
  else if dport =? SCH_TRX_PORT_CMD then com_receive_cmd p ;! ret [ReplyOk]
  else if dport =? SCH_TRX_PORT_DBG then
    let! text := lift (cstr_of_buf (p_data p)) in ret [PrintText text]
  else if dport =? SCH_TRX_PORT_DBG_TM then
    let! text := lift (cstr_of_buf (drop 8 (p_data p))) in ret [PrintText text]
  else if dport =? SCH_TRX_PORT_TM then receive_tm p ;! ret []
  else ret [ServiceHandler].

Lemma com_packet_count dport dst p (c : client S F) :
  com_packet dport dst p c = (count_telecommand ;! port_actions dport dst p) c.
Proof.
  unfold com_packet, count_telecommand, bind.
  destruct (data (dat_get_system_var dat_com_count_tc) c) as [[n c1]|]; [|done].
  destruct (cint (n + 1) c1) as [[m c2]|]; [|done].
  destruct (data (dat_set_system_var dat_com_count_tc m) c2) as [[? c3]|]; [|done].
  destruct (data dat_get_time c3) as [[t c4]|]; [|done].
  by destruct (data (dat_set_system_var dat_com_last_tc (i32_of t)) c4) as [[? c5]|].
Qed.

(** *** A turn of the loop *)
Definition turned (c : client S F) (s s' : server F S) : Prop :=
  buffers 1 s' /\ same_task (set_client c s) s'.

Lemma turned_after c s0 s s' : same_task s0 s -> turned c s s' -> turned c s0 s'.
Proof.
  intros (E1 & E2 & E3 & E4 & Q1) (Hb & F1 & F2 & F3 & F4 & Q2). split; [done|].
  unfold same_task, quiet in *. cbn [set_client sv_client sv_pool sv_conn sv_rep sv_net] in *.
  rewrite E4 in *. repeat split; try congruence; lia.
Qed.

Lemma handle_free {A} (m : M (client S F) A) b p s :
  working b p s ->
  match m (sv_client s) with
  | Ret (_, c) => exists s', (handle m ;! csp_buffer_free b) s = Ret (tt, s') /\ turned c s s'
  | Fault f => (handle m ;! csp_buffer_free b) s = Fault f
  end.
Proof.
  intros Hw. destruct (m (sv_client s)) as [[x c]|f] eqn:E.
  - rewrite (bind_step _ _ _ _ _ (handle_ret m s x c E)).
    destruct (csp_buffer_free_ok b p (set_client c s) (working_client b p c s Hw)) as (s' & E' & Hb & Hs).
    by exists s'.
  - by rewrite (bind_fault _ _ _ _ (handle_fault m s f E)).
Qed.

Lemma print_free text b p s :
  working b p s ->
  match text with
  | Ret _ => exists s', (print_text text ;! csp_buffer_free b) s = Ret (tt, s') /\ turned (sv_client s) s s'
  | Fault f => (print_text text ;! csp_buffer_free b) s = Fault f
  end.
Proof.
  intros Hw. destruct text as [t|f]; [|done].
  destruct (net_ok (Printed t) b p s Hw) as (s1 & E1 & Hw1 & Hs1); [done..|].
  destruct (csp_buffer_free_ok b p s1 Hw1) as (s' & E' & Hb & Hs).
  exists s'. split.
  - unfold print_text. unfold bind at 1 2. cbn [lift]. rewrite E1. exact E'.
  - split; [done|]. etrans; [|by etrans]. by destruct s.
Qed.

(** A handler that answers first. *)
Lemma reply_free {A} (m : csp_packet -> M (client S F) A) ok b p s :
  working b p s ->
  let turn := (reply_ok ok ;! let! q := packet_at b in handle (m q) ;! csp_buffer_free b) in
  match m p (sv_client s) with
  | Ret (_, c) => exists s', turn s = Ret (tt, s') /\ turned c s s'
  | Fault f => turn s = Fault f
  end.
Proof.
  intros Hw turn. destruct (reply_ok_ok ok b p s Hw) as (s1 & E1 & Hw1 & Hs1). subst turn.
  rewrite (bind_step _ _ _ _ _ E1). pose proof Hw1 as (_ & Eb1 & _).
  rewrite (bind_step _ _ _ _ _ (packet_at_ok _ _ _ Eb1)).
  pose proof (handle_free (m p) b p s1 Hw1) as Hf. pose proof Hs1 as (Ec & _). rewrite Ec in Hf.
  destruct (m p (sv_client s)) as [[x c]|f]; [|done]. destruct Hf as (s' & E' & Ht). exists s'. split; [done|].
  by apply (turned_after _ _ s1).
Qed.

(** What a turn does, besides what [com_packet] does with the packet. *)
Definition turn_outcome (resend : option Z) (s : server F S) (r : res (unit * server F S)) (c : res (list com_action * client S F)) : Prop :=
  match c with
  | Ret (_, c) => exists s', r = Ret (tt, s') /\ turned c s s'
  | Fault f => r = Fault f
  end \/
  (r = Fault AssertFail /\ resend <> None /\ forall b, sv_pool s !! b <> Some Free).

Lemma outcome_of {A} (m : M (client S F) A) acts (r : res (unit * server F S)) resend s :
  match m (sv_client s) with
  | Ret (_, c) => exists s', r = Ret (tt, s') /\ turned c s s'
  | Fault f => r = Fault f
  end ->
  turn_outcome resend s r ((m ;! ret acts) (sv_client s)).
Proof. intros Hr. left. unfold bind. destruct (m (sv_client s)) as [[x c]|f]; exact Hr. Qed.

Lemma outcome_text (text : res cstring) (r : res (unit * server F S)) resend s :
  match text with
  | Ret _ => exists s', r = Ret (tt, s') /\ turned (sv_client s) s s'
  | Fault f => r = Fault f
  end ->
  turn_outcome resend s r ((let! t := lift text in ret [PrintText t]) (sv_client s)).
Proof. intros Hr. left. destruct text; exact Hr. Qed.

Lemma com_turn_ok resend cn b p ok s :
  working b p s -> turn_outcome resend s (com_turn None resend cn b ok s) (com_packet (c_dport cn) (c_dst cn) p (sv_client s)).
Proof.
  intros Hw. rewrite com_packet_count. unfold com_turn.
  destruct (count_telecommand (sv_client s)) as [[[] c]|f] eqn:Ec.
  2:{ left. rewrite (bind_fault _ _ _ _ Ec). by rewrite (bind_fault _ _ _ _ (handle_fault _ _ _ Ec)). }
  rewrite (bind_step _ _ _ _ _ Ec), (bind_step _ _ _ _ _ (handle_ret _ _ _ _ Ec)).
  apply (working_client b p c) in Hw.
  match goal with |- turn_outcome _ _ (?turn _) _ =>
    change (turn_outcome resend (set_client c s) (turn (set_client c s))
      (port_actions (c_dport cn) (c_dst cn) p (sv_client (set_client c s)))) end.
  revert Hw. generalize (set_client c s).
  clear s c Ec. intros s Hw. pose proof Hw as (_ & Eb & _). unfold port_actions.
  destruct (c_dport cn =? SCH_TRX_PORT_FILE).
  { rewrite (bind_step _ _ _ _ _ (packet_at_ok _ _ _ Eb)). apply outcome_of, (handle_free _ _ _ _ Hw). }
  destruct (c_dport cn =? SCH_TRX_PORT_TC); [by apply outcome_of, (reply_free com_receive_tc)|].
  destruct (c_dport cn =? SCH_TRX_PORT_RPT).
  { destruct (c_dst cn =? SCH_COMM_NODE).
    - left. cbn [ret]. destruct (csp_sendto_ok Broadcast ok b p s Hw) as (s1 & Hs1 & E1); [done|].
      destruct ok; destruct E1 as [E1 Hb1]; rewrite (bind_step _ _ _ _ _ E1).
      + exists s1. split; [done|]. split; [done|]. by destruct s.
      + change (negb (-1 =? 0)) with true. cbv iota.
        destruct (csp_buffer_free_ok b p s1 Hb1) as (s2 & E2 & Hb2 & Hs2). exists s2. split; [done|].
        split; [done|]. etrans; [|by etrans]. by destruct s.
    - rewrite (bind_step _ _ _ _ _ (packet_at_ok _ _ _ Eb)). apply outcome_text, (print_free _ _ _ _ Hw). }
  destruct (c_dport cn =? SCH_TRX_PORT_CMD); [by apply outcome_of, (reply_free com_receive_cmd)|].
  destruct (c_dport cn =? SCH_TRX_PORT_DBG).
  { rewrite (bind_step _ _ _ _ _ (packet_at_ok _ _ _ Eb)). apply outcome_text, (print_free _ _ _ _ Hw). }
  destruct (c_dport cn =? SCH_TRX_PORT_DBG_TM).
  { rewrite (bind_step _ _ _ _ _ (packet_at_ok _ _ _ Eb)). apply outcome_text, (print_free _ _ _ _ Hw). }
  destruct (c_dport cn =? SCH_TRX_PORT_TM).
  { destruct (resend_tm_ok resend ok b p s Hw) as [(s1 & E1 & Hw1 & Hs1)|(E1 & Hr)].
    - rewrite (bind_step _ _ _ _ _ E1). pose proof Hw1 as (_ & Eb1 & _).
      rewrite (bind_step _ _ _ _ _ (packet_at_ok _ _ _ Eb1)). apply outcome_of.
      pose proof (handle_free (receive_tm p) b p s1 Hw1) as Hf. pose proof Hs1 as (E & _). rewrite E in Hf.
      destruct (receive_tm p (sv_client s)) as [[x c]|f]; [|done]. destruct Hf as (s' & E' & Ht).
      exists s'. split; [done|]. by apply (turned_after _ _ s1).
    - right. by rewrite (bind_fault _ _ _ _ E1). }
  left. cbn [ret]. unfold bind at 1. cbn [ret].
  destruct (csp_service_handler_ok b p s Hw) as (s1 & E1 & Hb1 & Hs1). exists s1. split; [done|]. split; [done|].
  by destruct s.
Qed.

(** *** The loop *)
Lemma csp_read_ok b p s :
  buffers 1 s -> sv_pool s !! b = Some (Net p) ->
  exists s', csp_read b s = Ret (tt, s') /\ working b p s' /\ same_task s s' /\ sv_net s' = sv_net s /\
    forall b', sv_pool s' !! b' = Some Free <-> sv_pool s !! b' = Some Free.
Proof.
  intros [Ho (q & Er & Eq) Hb] Eb. unfold csp_read, bind, gets. rewrite Eb. eexists. split; [reflexivity|].
  assert (b <> sv_rep s) as Hne by congruence. pose proof (lookup_lt_Some _ _ _ Eb) as Hlt.
  pose proof (owned_insert _ b _ (Task p) Eb) as Es. cbn [task_of] in Es.
  split; [split; [split|split]|split; [|split]].
  - cbn [set_pool sv_pool sv_net]. lia.
  - exists q. cbn. by rewrite list_lookup_insert_ne.
  - exact Hb.
  - cbn. by apply list_lookup_insert_eq.
  - exact Hne.
  - split; [done|]. split; [done|]. split; [done|]. split; [cbn; by rewrite length_insert|by apply quiet_net].
  - done.
  - intros b'. cbn. destruct (decide (b = b')) as [<-|Hn].
    + rewrite list_lookup_insert_eq by done. rewrite Eb. done.
    + by rewrite list_lookup_insert_ne.
Qed.

(** The network's own steps. *)
Lemma network_step o o' b s :
  buffers 1 s -> sv_pool s !! b = Some o -> task_of o = 0%nat -> task_of o' = 0%nat ->
  buffers 1 (set_pool (<[b := o']> (sv_pool s)) s).
Proof.
  intros [Ho (q & Er & Eq) Hb] Eb E0 E1. pose proof (owned_insert _ b _ o' Eb) as Es. rewrite E0, E1 in Es.
  split; [cbn [set_pool sv_pool sv_net]; lia| |done].
  exists q. cbn. rewrite list_lookup_insert_ne; [done|]. intros ->. rewrite Er in Eb. by injection Eb as <-.
Qed.

Lemma com_read_turn resend cn b p ok s :
  buffers 1 s -> sv_pool s !! b = Some (Net p) ->
  turn_outcome resend s ((csp_read b ;! com_turn None resend cn b ok) s)
    (com_packet (c_dport cn) (c_dst cn) p (sv_client s)).
Proof.
  intros Hb Eb. destruct (csp_read_ok b p s Hb Eb) as (s1 & E1 & Hw & Hs & _ & Hf).
  rewrite (bind_step _ _ _ _ _ E1). pose proof Hs as (Ec & _).
  destruct (com_turn_ok resend cn b p ok s1 Hw) as [Ho|(E & Hr & Hn)].
  - left. rewrite Ec in Ho. destruct (com_packet _ _ _ _) as [[acts c]|f]; [|done].
    destruct Ho as (s' & E' & Ht). exists s'. split; [done|]. by apply (turned_after _ _ s1).
  - right. split; [done|]. split; [done|]. intros b' E'. apply (Hn b'). by apply Hf.
Qed.

Lemma com_step_buffers resend s s' :
  com_step None resend s s' -> buffers 1 s ->
  buffers 1 s' /\ length (sv_pool s') = length (sv_pool s) /\ quiet s s'.
Proof.
  intros Hst Hb. destruct Hst as [s c Ec|s c b ok s' Ec E|s c Ec|s b p Eb|s b p Eb].
  - split; [by destruct Hb; split|]. split; [done|by apply quiet_net].
  - destruct (sv_pool s !! b) as [[|p|p]|] eqn:Eb; try (unfold csp_read, bind, gets in E; by rewrite Eb in E).
    destruct (com_read_turn resend c b p ok s Hb Eb) as [Ho|(Hf & _)]; [|by rewrite Hf in E].
    destruct (com_packet _ _ _ _) as [[acts cl]|f]; [|by rewrite Ho in E].
    destruct Ho as (s1 & E1 & Hb1 & _ & _ & _ & Hlen & Hq). rewrite E1 in E. by injection E as <-.
  - split; [by destruct Hb; split|]. split; [done|by apply quiet_net].
  - split; [by apply (network_step Free)|]. split; [cbn; by rewrite length_insert|by apply quiet_net].
  - split; [by apply (network_step (Net p))|]. split; [cbn; by rewrite length_insert|by apply quiet_net].
Qed.

Lemma com_steps_buffers resend s s' :
  rtc (com_step None resend) s s' -> buffers 1 s ->
  buffers 1 s' /\ length (sv_pool s') = length (sv_pool s) /\ quiet s s'.
Proof.
  induction 1 as [s|s1 s2 s3 Hst _ IH]; [intros; split; [done|]; split; [done|by apply quiet_net]|].
  intros Hb. destruct (com_step_buffers _ _ _ Hst Hb) as (Hb2 & Hl & L1 & Q1).
  destruct (IH Hb2) as (Hb3 & Hl3 & L2 & Q2). split; [done|]. split; [congruence|]. split; [lia|].
  rewrite Hl in Q2. lia.
Qed.

Lemma com_start_ok s :
  owned (sv_pool s) = 0%nat -> sv_net s = [] ->
  match csp_free_buffer (sv_pool s) with
  | None => com_start 0 0 s = Fault NullDeref
  | Some _ => exists s', com_start 0 0 s = Ret (Some tt, s') /\ buffers 1 s' /\ sv_client s' = sv_client s /\
                sv_conn s' = sv_conn s /\ length (sv_pool s') = length (sv_pool s)
  end.
Proof.
  intros Ho Hn. unfold com_start. cbn [negb Z.eqb].
  assert (csp_buffer_get s = match csp_free_buffer (sv_pool s) with
    | Some b => Ret (Some b, set_pool (<[b := Task csp_garbage]> (sv_pool s)) s) | None => Ret (None, s) end) as Eg.
  { unfold csp_buffer_get, bind, gets. by destruct (csp_free_buffer (sv_pool s)). }
  destruct (csp_free_buffer (sv_pool s)) as [b|] eqn:E; rewrite (bind_step _ _ _ _ _ Eg); [|done].
  apply csp_free_some in E. pose proof (lookup_lt_Some _ _ _ E) as Hlt.
  set (s1 := set_pool _ s).
  assert (sv_pool s1 !! b = Some (Task csp_garbage)) as Eb by (cbn; by apply list_lookup_insert_eq).
  rewrite (bind_step _ _ _ _ _ (packet_at_ok _ _ _ Eb)).
  unfold list_write. pose proof csp_garbage_size as Hg. rewrite Hg. cbn [Z.leb Z.add zlength length Z.of_nat].
  change ((0 <=? 0) && (1 <=? SCH_BUFF_MAX_LEN)) with true. cbv iota. eexists. split; [reflexivity|].
  cbn [set_pool sv_pool sv_client sv_conn sv_rep sv_net s1]. rewrite list_insert_insert_eq, length_insert.
  split; [|done]. set (p := Packet _ 1). pose proof (owned_insert _ b _ (Task p) E) as Es. cbn [task_of] in Es.
  split; cbn [sv_pool sv_net sv_rep].
  - rewrite Hn. cbn [refused sum_list_with]. unfold refused. cbn. lia.
  - exists p. split; [by apply list_lookup_insert_eq|done].
  - by rewrite Hn.
Qed.

End laws.
End ComServerLaws.

(** ** Properties *)
Module ComServerTheorems.
Import Ram RepoDataTheorems Registry RepoCommand RepoData Telemetry FileRx CmdTM Clients ComServer ComServerLaws TaskTheorems.

Section server.
Context {F S : Type} `{Storage S} `{CspLaws}.
Implicit Types (s : server F S).

(** C17. The buffers of the CSP server.  After the start and whatever arrives,
    is refused or is closed: the task owns the packet of its reply and one more
    buffer for each reply the network refused, and nothing else; every reply is
    the byte 200 that [com_send_cmd] waits for; and the next packet is handled
    as [com_packet] says, without using or releasing a packet that is not the
    task's, unless a telemetry packet is to be resent and no buffer is free,
    where the assertion fails. *)
Theorem com_server_buffers resend s s0 s' :
  owned (sv_pool s) = 0%nat -> sv_net s = [] ->
  com_start 0 0 s = Ret (Some tt, s0) -> rtc (com_step None resend) s0 s' ->
  owned (sv_pool s') = (1 + refused (sv_net s'))%nat /\
  length (sv_pool s') = length (sv_pool s) /\
  Forall reply_byte (sv_net s') /\
  forall cn b p ok, sv_pool s' !! b = Some (Net p) ->
    turn_outcome resend s' ((csp_read b ;! com_turn None resend cn b ok) s')
      (com_packet (c_dport cn) (c_dst cn) p (sv_client s')).
Proof.
  intros Ho Hn E Hst. pose proof (com_start_ok s Ho Hn) as Hs.
  destruct (csp_free_buffer (sv_pool s)) as [b|]; [|by rewrite Hs in E].
  destruct Hs as (s1 & E1 & Hb & _ & _ & Hl). rewrite E1 in E. injection E as <-.
  destruct (com_steps_buffers _ _ _ Hst Hb) as (Hb' & Hl' & _). pose proof Hb' as [Hown _ Hbytes].
  split; [done|]. split; [congruence|]. split; [done|]. intros. by apply com_read_turn.
Qed.

(** A reply that the network refuses is not released.  Once as many replies
    were refused as there are buffers besides the reply's own and one for a
    packet, the server never sends a reply again, whatever happens: each
    telecommand is executed, and its sender is told that it failed. *)
Theorem refused_replies_silence resend s s' :
  buffers 1 s -> (2 + refused (sv_net s))%nat = length (sv_pool s) -> rtc (com_step None resend) s s' ->
  acknowledged (sv_net s') = acknowledged (sv_net s).
Proof.
  intros Hb Hfull Hst. destruct (com_steps_buffers _ _ _ Hst Hb) as (_ & _ & _ & Hq). lia.
Qed.

(** Without a buffer at the start the task writes through a null pointer. *)
Theorem com_start_no_buffer s :
  owned (sv_pool s) = 0%nat -> sv_net s = [] -> csp_free_buffer (sv_pool s) = None ->
  com_start 0 0 s = Fault NullDeref.
Proof. intros Ho Hn E. pose proof (com_start_ok s Ho Hn) as Hs. by rewrite E in Hs. Qed.

(** A hook of the application that releases or sends the packet cannot say so:
    the packet goes to the service handler all the same. *)
Theorem hook_must_not_release hook resend cn b ok s s1 s2 :
  SCH_TRX_PORT_TM < c_dport cn ->
  handle count_telecommand s = Ret (tt, s1) -> hook cn b s1 = Ret (tt, s2) ->
  (forall p, sv_pool s2 !! b <> Some (Task p)) ->
  com_turn (Some hook) resend cn b ok s = Fault UseAfterFree.
Proof.
  intros Hp E1 E2 Hb. unfold com_turn. rewrite (bind_step _ _ _ _ _ E1).
  unfold SCH_TRX_PORT_FILE, SCH_TRX_PORT_TC, SCH_TRX_PORT_RPT, SCH_TRX_PORT_CMD, SCH_TRX_PORT_DBG,
    SCH_TRX_PORT_DBG_TM, SCH_TRX_PORT_TM in *.
  rewrite !(proj2 (Z.eqb_neq _ _)) by lia. rewrite (proj2 (Z.ltb_lt _ _)) by lia.
  rewrite (bind_step _ _ _ _ _ E2). unfold csp_service_handler, packet_at, bind, gets.
  destruct (sv_pool s2 !! b) as [[]|] eqn:E; try done. by destruct (Hb p).
Qed.

End server.

(** *** Concrete runs

    A pool that gives out its first free buffer. *)
Definition is_free (o : owner) : bool := match o with Free => true | _ => false end.
#[export] Instance first_free : Csp := {
  csp_free_buffer l := fst <$> list_find is_free l;
  csp_garbage := Packet (replicate 256 170) 0
}.
#[export] Instance first_free_laws : CspLaws.
Proof.
  split.
  - intros l b E. cbn in E. destruct (list_find _ l) as [[i o]|] eqn:El; [|done]. injection E as <-.
    apply list_find_Some in El as (E & Ho & _). by destruct o.
  - intros l E b Eb. cbn in E. destruct (list_find _ l) as [[i o]|] eqn:El; [done|].
    apply list_find_None in El. by apply (Forall_lookup_1 _ _ _ _ El Eb).
  - done.
Qed.

(** Three buffers; two telecommand packets wait in the network. *)
Definition tc_packet : csp_packet := Packet (cs "help" ++ replicate 252 0) 4.
Definition demo_server : server cmd_fn ram_state :=
  Server (sat_boot (ram_data 0)) [Free; Net tc_packet; Net tc_packet] None 0 [].
Definition tc_conn : conn := Conn SCH_TRX_PORT_TC SCH_COMM_NODE.
Definition demo_started : server cmd_fn ram_state :=
  match com_start 0 0 demo_server with Ret (Some tt, s) => s | _ => demo_server end.

Lemma com_server_buffers_witness :
  turn_outcome None (set_conn (Some tc_conn) demo_started)
    ((csp_read 1 ;! com_turn None None tc_conn 1 true) (set_conn (Some tc_conn) demo_started))
    (com_packet SCH_TRX_PORT_TC SCH_COMM_NODE tc_packet (sat_boot (ram_data 0))).
Proof.
  apply (com_server_buffers None demo_server demo_started (set_conn (Some tc_conn) demo_started)).
  - reflexivity.
  - reflexivity.
  - vm_compute. reflexivity.
  - eapply rtc_once. apply step_accept. vm_compute. reflexivity.
  - vm_compute. reflexivity.
Defined.

(** Four buffers: two refused replies, and the third telecommand is executed
    without an answer, also over a network that would take it. *)
Definition four_buffers : server cmd_fn ram_state :=
  Server (sat_boot (ram_data 0)) [Free; Net tc_packet; Free; Free] None 0 [].
Definition telecommand (ok : bool) : M (server cmd_fn ram_state) unit :=
  csp_read 1 ;! com_turn None None tc_conn 1 ok ;! modify (fun s => set_pool (<[1%nat := Net tc_packet]> (sv_pool s)) s).
Definition refused_run : M (server cmd_fn ram_state) unit :=
  com_start 0 0 ;! telecommand false ;! telecommand false ;! telecommand true.

Example refused_run_result :
  match refused_run four_buffers with
  | Ret (_, s) => sv_net s = [Reply (Some [200]) false; Reply (Some [200]) false; Reply None true] /\
                  owned (sv_pool s) = 3%nat /\ length (cl_sent (sv_client s)) = 3%nat
  | Fault _ => False
  end.
Proof. vm_compute. done. Qed.

End ComServerTheorems.
