(* ===== verification/Boot.v ===== *)
(** * The start of the flight software

    [suchai_main] of [system/mainFS.c] creates the semaphores, the queues and
    four tasks; [taskInit] of [system/taskInit.c], one of the four, sets up the
    repositories and libcsp and creates the client tasks, and the hook of the
    application ([apps/simple/src/system/main.c], [apps/suchai/src/initApp.c])
    the last ones.  Main, [taskInit] and the tasks they have created run
    concurrently, so that the order of these calls is all that keeps a task from
    using what is not there yet.  What [taskInit] does to stored data is in
    Clients and Tasks. *)
From stdpp Require Import relations sets.
From S2P Require Import Prelude CStr Config Storage StorageRam Schema RepoCommand RepoData.
From S2P Require Import Registry Clients Tasks.

#[local] Set Warnings "-clear-no-such-hyp".

Module Boot.

Inductive task :=
  | taskDispatcher | taskExecuter | taskWatchdog | taskInit
  | taskConsole | taskCommunications | taskFlightPlan
  | taskHousekeeping | taskSensors | taskADCS.

(** What the calls of the start set up. *)
Inductive resource :=
  | LogMutex | RepoCmdSem | RepoDataSem
  | DispatcherQueue | ExecuterStatQueue | ExecuterCmdQueue
  | CmdRepo | DataRepo | CspBuffers | Csp | CspRouter | AppCommands | CspInterface.

#[export] Instance task_eq_dec : EqDecision task.
Proof. solve_decision. Defined.
#[export] Instance resource_eq_dec : EqDecision resource.
Proof. solve_decision. Defined.

(** The calls, those that neither set up a resource nor create a task left
    as [Call] with the name of the function. *)
Inductive call :=
  | SetUp (r : resource)
  | osCreateTask (t : task) (priority : Z)
  | Call (function : cstring).

(** ** The programs *)
Definition suchai_main : list call :=
  [Call (cs "on_reset");
   SetUp LogMutex; SetUp RepoCmdSem; SetUp RepoDataSem;
   SetUp DispatcherQueue; SetUp ExecuterStatQueue; SetUp ExecuterCmdQueue;
   osCreateTask taskDispatcher 3; osCreateTask taskExecuter 4;
   osCreateTask taskWatchdog 2; osCreateTask taskInit 3;
   Call (cs "osScheduler")].

Definition init_setup_libcsp : list call :=
  [SetUp CspBuffers; Call (cs "csp_set_hostname"); SetUp Csp; SetUp CspRouter].

(** [SCH_CON_ENABLED], [SCH_COMM_ENABLE] and [SCH_FP_ENABLED]. *)
Record options := Options { con : bool; comm : bool; fp : bool }.
Definition when (b : bool) (l : list call) : list call := if b then l else [].

Definition init_create_task (o : options) : list call :=
  when (con o) [osCreateTask taskConsole 2] ++
  when (comm o) [osCreateTask taskCommunications 2] ++
  when (fp o) [osCreateTask taskFlightPlan 2].

Definition init_program (o : options) (initAppHook : list call) : list call :=
  [SetUp CmdRepo; SetUp DataRepo; Call (cs "init_update_status_vars"); Call (cs "dat_purge_fp")] ++
  when (comm o) init_setup_libcsp ++
  init_create_task o ++ initAppHook ++ [Call (cs "osTaskDelete")].

(** [csp_zmqhub_init_w_name_endpoints_rxfilter] and [csp_route_set]. *)
Definition csp_add_zmq_iface : list call := [Call (cs "csp_zmqhub_init"); SetUp CspInterface].

(** [initAppHook] of the application [simple] and of [suchai], which does not
    register its commands. *)
Definition simple_hook : list call :=
  [SetUp AppCommands] ++ csp_add_zmq_iface ++ [osCreateTask taskHousekeeping 2].
Definition suchai_hook : list call :=
  [osCreateTask taskSensors 2; osCreateTask taskADCS 2].

(** ** What the tasks use

    A client looks commands up, reads and writes status variables, and sends. *)
Definition client_uses : list resource :=
  [LogMutex; RepoCmdSem; CmdRepo; RepoDataSem; DataRepo; DispatcherQueue].
(** The use of a command that was sent: its function and the counters. *)
Definition command_uses : list resource := [RepoCmdSem; CmdRepo; RepoDataSem; DataRepo].

(** Before its first second has passed the watchdog uses the log only; the
    dispatcher and the executer use the repositories once there is a command. *)
Definition uses (awake sent : bool) (t : task) : list resource :=
  match t with
  | taskDispatcher => [LogMutex; DispatcherQueue; ExecuterCmdQueue; ExecuterStatQueue] ++ (if sent then command_uses else [])
  | taskExecuter => [LogMutex; ExecuterCmdQueue; ExecuterStatQueue] ++ (if sent then command_uses else [])
  | taskWatchdog => LogMutex :: if awake then client_uses else []
  | taskInit => [LogMutex; RepoCmdSem; RepoDataSem]
  | taskCommunications => [CspBuffers; Csp; CspRouter] ++ client_uses
  | _ => client_uses
  end.

(** The tasks that send commands. *)
Definition is_client (t : task) : bool :=
  match t with taskDispatcher | taskExecuter | taskInit => false | _ => true end.

(** ** The system while it starts

    What [main] and, once it is created, [taskInit] have still to do. *)
Record boot := Boot {
  b_main : list call;
  b_init : option (list call);
  b_started : list task;
  b_ready : list resource;
  b_awake : bool;
  b_sent : bool
}.
Definition boot0 : boot := Boot suchai_main None [] [] false false.

Section boot.
Context (o : options) (initAppHook : list call).

(** The creation of a task succeeds or fails; a failure is only logged, as the
    callers mean it ([osCreateTask_failure] of OsThread says what Linux does
    before). *)
Definition after_call (c : call) (ok : bool) (s : boot) : boot :=
  match c with
  | SetUp r => Boot (b_main s) (b_init s) (b_started s) (b_ready s ++ [r]) (b_awake s) (b_sent s)
  | osCreateTask t _ =>
      if ok then
        Boot (b_main s) (if bool_decide (t = taskInit) then Some (init_program o initAppHook) else b_init s)
          (b_started s ++ [t]) (b_ready s) (b_awake s) (b_sent s)
      else s
  | Call _ => s
  end.
Definition set_main (l : list call) (s : boot) : boot :=
  Boot l (b_init s) (b_started s) (b_ready s) (b_awake s) (b_sent s).
Definition set_init (l : list call) (s : boot) : boot :=
  Boot (b_main s) (Some l) (b_started s) (b_ready s) (b_awake s) (b_sent s).

(** [timely] restricts the runs to those in which the first second of the
    watchdog does not pass before the data repository is set up. *)
Inductive boot_step (timely : bool) : boot -> boot -> Prop :=
  | boot_main s c l ok :
      b_main s = c :: l -> boot_step timely s (after_call c ok (set_main l s))
  | boot_init s c l ok :
      b_init s = Some (c :: l) -> boot_step timely s (after_call c ok (set_init l s))
  | boot_wake s :
      taskWatchdog ∈ b_started s -> (timely = true -> DataRepo ∈ b_ready s) ->
      boot_step timely s (Boot (b_main s) (b_init s) (b_started s) (b_ready s) true (b_sent s))
  | boot_send s t :
      t ∈ b_started s -> is_client t = true -> (t = taskWatchdog -> b_awake s = true) ->
      boot_step timely s (Boot (b_main s) (b_init s) (b_started s) (b_ready s) (b_awake s) true).

(** Every task has what it uses. *)
Definition supplied (s : boot) : Prop :=
  forall t r, t ∈ b_started s -> r ∈ uses (b_awake s) (b_sent s) t -> r ∈ b_ready s.
End boot.
End Boot.

Module BootLaws.
Import Boot.

(** *** The order of the calls

    Before a task is created, what it uses from its first instruction on is set
    up; before the data repository, everything a client uses.  [body] is what
    the creation of [taskInit] needs. *)
Fixpoint ordered (body : list resource -> Prop) (ready : list resource) (l : list call) : Prop :=
  match l with
  | [] => True
  | SetUp r :: l => (r = DataRepo -> client_uses ⊆ ready ++ [r]) /\ ordered body (ready ++ [r]) l
  | osCreateTask t _ :: l =>
      uses false false t ⊆ ready /\ (t = taskInit -> body ready) /\ ordered body ready l
  | Call _ :: l => ordered body ready l
  end.

Lemma ordered_mono (body : list resource -> Prop) l R R' :
  (forall R R', R ⊆ R' -> body R -> body R') -> R ⊆ R' -> ordered body R l -> ordered body R' l.
Proof.
  intros Hb. revert R R'. induction l as [|[r|t p|f] l IH]; intros R R' HR; cbn.
  - done.
  - intros [H1 H2]. split; [intros E; etrans; [by apply H1|set_solver]|]. eapply IH; [|exact H2]. set_solver.
  - intros (H1 & H2 & H3). split; [by etrans|]. split; [eauto|eauto].
  - eauto.
Qed.

Definition set_up (c : call) : list resource := match c with SetUp r => [r] | _ => [] end.
Definition setups (l : list call) : list resource := concat (map set_up l).

Lemma ordered_app body l1 l2 R :
  ordered body R l1 -> (forall R', R ++ setups l1 ⊆ R' -> ordered body R' l2) -> ordered body R (l1 ++ l2).
Proof.
  unfold setups. revert R. induction l1 as [|[r|t p|f] l1 IH]; intros R; cbn [ordered map concat set_up app].
  - intros _ H2. apply H2. set_solver.
  - intros [H1 H1'] H2. split; [done|]. apply IH; [done|]. intros R' HR. apply H2. set_solver.
  - intros (H1 & H1' & H1'') H2. auto.
  - auto.
Qed.

Definition never (R : list resource) : Prop := False.
Lemma never_mono R R' : R ⊆ R' -> never R -> never R'.
Proof. done. Qed.

(** A hook creates tasks of the application. *)
Definition hook_call (c : call) : Prop :=
  match c with
  | osCreateTask t _ => t = taskHousekeeping \/ t = taskSensors \/ t = taskADCS
  | SetUp r => r <> DataRepo
  | Call _ => True
  end.

Lemma ordered_hook l R : Forall hook_call l -> client_uses ⊆ R -> ordered never R l.
Proof.
  intros Hl. revert R. induction Hl as [|[r|t p|f] l Hc _ IH]; intros R HR; cbn in *; [done| | |].
  - split; [done|]. apply IH. set_solver.
  - split; [|split; [|auto]]; destruct Hc as [-> | [-> | ->]]; done.
  - auto.
Qed.

Section laws.
Context (o : options) (hook : list call).
Hypothesis Hhook : Forall hook_call hook.

Definition init_ordered (R : list resource) : Prop := ordered never R (init_program o hook).

Lemma init_ordered_main R :
  [LogMutex; RepoCmdSem; RepoDataSem; DispatcherQueue] ⊆ R -> init_ordered R.
Proof.
  intros HR. unfold init_ordered, init_program.
  apply ordered_app; [cbn; split; [done|split; [intros _; set_solver|done]]|].
  intros R1 HR1. assert (client_uses ⊆ R1) as Hc by (unfold client_uses; cbn in HR1; set_solver).
  apply ordered_app.
  { destruct (comm o); [|done]. cbn. repeat split; done. }
  intros R2 HR2. assert (client_uses ⊆ R2) as Hc2 by set_solver.
  apply ordered_app.
  - unfold init_create_task. destruct (con o), (comm o), (fp o); cbn -[client_uses] in *; repeat split; try done; set_solver.
  - intros R3 HR3. apply ordered_hook; [|set_solver]. apply Forall_app. split; [done|by repeat constructor].
Qed.

Lemma main_ordered : ordered init_ordered [] suchai_main.
Proof.
  unfold suchai_main. cbn -[init_ordered]. splits; try done; try set_solver.
  intros _. apply init_ordered_main. set_solver.
Qed.

Lemma init_ordered_mono R R' : R ⊆ R' -> init_ordered R -> init_ordered R'.
Proof. apply ordered_mono, never_mono. Qed.

(** *** The invariant *)
Record supplying (s : boot) : Prop := Supplying {
  su_tasks : forall t, t ∈ b_started s -> uses false false t ⊆ b_ready s;
  su_data : DataRepo ∈ b_ready s -> client_uses ⊆ b_ready s;
  su_awake : b_awake s = true -> client_uses ⊆ b_ready s;
  su_sent : b_sent s = true -> client_uses ⊆ b_ready s
}.
Record starting (s : boot) : Prop := Starting {
  bo_main : ordered init_ordered (b_ready s) (b_main s);
  bo_init : forall l, b_init s = Some l -> ordered never (b_ready s) l;
  bo_supply : supplying s
}.

Lemma ready_after c ok s : b_ready (after_call o hook c ok s) = b_ready s ++ set_up c.
Proof. destruct c as [r|t p|f]; cbn; [done| |by rewrite app_nil_r]. destruct ok; cbn; by rewrite app_nil_r. Qed.

Lemma ordered_next body c l R : ordered body R (c :: l) -> ordered body (R ++ set_up c) l.
Proof. destruct c; cbn; rewrite ?app_nil_r; tauto. Qed.

(** A call of either program, in order, keeps the tasks supplied. *)
Lemma supplying_call body c ok l s :
  supplying s -> ordered body (b_ready s) (c :: l) -> supplying (after_call o hook c ok s).
Proof.
  intros [Ht Hd Ha Hs] Hc. destruct c as [r|t p|f]; cbn in Hc.
  - destruct Hc as [Hr _]. assert (forall R, R ⊆ b_ready s -> R ⊆ b_ready s ++ [r]) as Hsub by set_solver.
    split; cbn.
    + intros t E. by apply Hsub, Ht.
    + intros Hin. apply elem_of_app in Hin as [Hin|Hin]; [by apply Hsub, Hd|].
      apply list_elem_of_singleton in Hin. by apply Hr.
    + intros E. by apply Hsub, Ha.
    + intros E. by apply Hsub, Hs.
  - destruct Hc as (Hu & _). cbn. destruct ok; [|by split]. split; cbn; try done.
    intros t'. rewrite elem_of_app, list_elem_of_singleton. intros [E| ->]; [by apply Ht|done].
  - by split.
Qed.

(** The creation of [taskInit] finds what its program relies on. *)
Lemma init_after c ok l s l' :
  ordered init_ordered (b_ready s) (c :: l) -> (forall l, b_init s = Some l -> ordered never (b_ready s) l) ->
  b_init (after_call o hook c ok s) = Some l' -> ordered never (b_ready s ++ set_up c) l'.
Proof.
  intros Hc Hi E. eapply ordered_mono; [apply never_mono|by apply list_subseteq_app_l|].
  destruct c as [r|t p|f]; cbn in *; [by apply Hi| |by apply Hi].
  destruct ok; [|by apply Hi]. cbn in E. case_bool_decide as Et; [|by apply Hi].
  injection E as <-. by apply Hc.
Qed.

Lemma boot_step_starting s s' : boot_step o hook true s s' -> starting s -> starting s'.
Proof.
  intros Hst [Hm Hi Hs]. pose proof Hs as [Ht Hd Ha Hse].
  destruct Hst as [s c l ok E|s c l ok E|s Hw Hr|s t Hin Hc Hw].
  - rewrite E in Hm. split.
    + rewrite ready_after. replace (b_main _) with l by (destruct c, ok; done). by apply ordered_next.
    + intros l' E'. rewrite ready_after. by apply (init_after c ok l (set_main l s)).
    + apply (supplying_call init_ordered c ok l (set_main l s)); [by split|done].
  - specialize (Hi _ E). split.
    + rewrite ready_after. replace (b_main _) with (b_main s) by (destruct c, ok; done).
      eapply ordered_mono; [apply init_ordered_mono|by apply list_subseteq_app_l|exact Hm].
    + intros l'. rewrite ready_after. cbn [set_init b_ready].
      replace (b_init _) with (Some l).
      * intros [= <-]. by apply ordered_next.
      * destruct c as [r|t p|f], ok; try done. cbn in *. case_bool_decide as Et; [|done]. by destruct (proj1 (proj2 Hi) Et).
    + apply (supplying_call never c ok l (set_init l s)); [by split|done].
  - split; [done|done|]. split; cbn; auto.
  - split; [done|done|]. split; cbn; auto. intros _. specialize (Ht t Hin). destruct t; try done; cbn in Ht; auto.
    etrans; [|exact Ht]. set_solver.
Qed.

Lemma starting0 : starting boot0.
Proof. split; [exact main_ordered|done|]. split; cbn; try done; [intros t E|intros E]; by apply not_elem_of_nil in E. Qed.

Lemma starting_supplied s : starting s -> supplied s.
Proof.
  intros [_ _ [Ht Hd Ha Hs]] t r Hin. specialize (Ht t Hin).
  destruct (b_awake s), (b_sent s); destruct t; cbn in *; intros Hr; try (apply Ht; exact Hr);
    try specialize (Ha eq_refl); try specialize (Hs eq_refl); set_solver.
Qed.
End laws.
End BootLaws.

Module BootTheorems.
Import Ram RepoCommand RepoData RepoDataTheorems Registry Clients TaskTheorems Boot BootLaws.

(** C18. However main, [taskInit], the watchdog and the clients interleave, and
    whichever tasks cannot be created, every task that runs finds the semaphores,
    the queues, the repositories and libcsp set up before it uses them, for any
    hook that creates tasks of the application, provided the data repository is
    set up within the watchdog's first second. *)
Theorem boot_supplies_tasks o hook s :
  Forall hook_call hook -> rtc (boot_step o hook true) boot0 s -> supplied s.
Proof.
  intros Hh Hst. apply (starting_supplied o hook Hh s). pose proof (starting0 o hook Hh) as H0. revert H0.
  induction Hst as [s|s1 s2 s3 Hstep _ IH]; [done|]. intros H1. apply IH. by apply (boot_step_starting o hook Hh s1).
Qed.

(** The order alone does not keep the watchdog from the repositories: it is
    created before [taskInit], and only its first second delays it. *)
Theorem watchdog_may_be_early o hook :
  exists s, rtc (boot_step o hook false) boot0 s /\ ~ supplied s.
Proof.
  exists (Boot (drop 10 suchai_main) None [taskDispatcher; taskExecuter; taskWatchdog]
    [LogMutex; RepoCmdSem; RepoDataSem; DispatcherQueue; ExecuterStatQueue; ExecuterCmdQueue] true false).
  split.
  - do 10 (eapply rtc_l; [eapply (boot_main o hook false _ _ _ true); reflexivity|cbn]).
    eapply rtc_l; [apply boot_wake; cbn; [set_solver|done]|]. cbn. apply rtc_refl.
  - intros H. specialize (H taskWatchdog DataRepo ltac:(cbn; set_solver) ltac:(cbn; set_solver)). cbn in H. set_solver.
Qed.

(** What it would do then: the RAM back end refuses, and the timer is read from
    an uninitialised variable. *)
Example watchdog_without_repository :
  watchdog_tick 0 (Client (Dat ram_boot 0 true machine0) boot_repo []) = Fault Uninitialized.
Proof. vm_compute. reflexivity. Qed.

(** The hook of the application [suchai] registers no command, so none of the
    commands its tasks send every second is found, nor those of the
    operators. *)
Definition suchai_repo : cmd_repo cmd_fn :=
  match cmd_repo_init system_inits cmd_null 300 repo_boot with Ret (_, s) => s | Fault _ => repo_boot end.
Example suchai_commands_not_registered :
  map (fun name => match cmd_get_str name suchai_repo with Ret (p, _) => is_null p | Fault _ => false end)
    [cs "adcs_quat"; cs "adcs_mag"; cs "adcs_do_control"; cs "adcs_mag_moment"; cs "adcs_send_attitude";
     cs "sen_take_sample"; cs "gssb_antenna_release"; cs "drp_add_hrs_alive"] =
  [true; true; true; true; true; true; true; false].
Proof. vm_compute. reflexivity. Qed.

(** The whole start of the application [simple], and a first command. *)
Definition all_options : options := Options true true true.
Lemma simple_run : exists s, rtc (boot_step all_options simple_hook true) boot0 s /\
  b_main s = [] /\ b_init s = Some [] /\ b_awake s = true /\ b_sent s = true /\
  b_started s = [taskDispatcher; taskExecuter; taskWatchdog; taskInit; taskConsole; taskCommunications;
                 taskFlightPlan; taskHousekeeping].
Proof.
  eexists. split.
  - do 12 (eapply rtc_l; [eapply (boot_main _ _ true _ _ _ true); reflexivity|cbn]).
    do 16 (eapply rtc_l; [eapply (boot_init _ _ true _ _ _ true); reflexivity|cbn]).
    eapply rtc_l; [eapply boot_wake; cbn; [set_solver|intros _; set_solver]|cbn].
    eapply rtc_l; [eapply (boot_send _ _ true _ taskFlightPlan); cbn; [set_solver|done|done]|cbn]. apply rtc_refl.
  - done.
Qed.

Lemma boot_supplies_tasks_witness : exists s, b_sent s = true /\ taskHousekeeping ∈ b_started s /\ supplied s.
Proof.
  destruct simple_run as (s & Hs & _ & _ & _ & Hsent & Ht). exists s. split; [exact Hsent|]. split.
  - rewrite Ht. set_solver.
  - apply (boot_supplies_tasks all_options simple_hook); [repeat constructor; discriminate|exact Hs].
Defined.

End BootTheorems.
