(* ===== verification/CmdSys.v ===== *)
(** * Communication, system and console commands

    [src/system/cmdCOM.c] (the handlers that send text to other nodes),
    [src/system/cmdOBC.c] with the [x86] processor of [src/drivers/x86/cpu.c],
    [src/system/cmdConsole.c] and the settings of [src/lib/utils/log_utils.c]. *)
From S2P Require Import Prelude CStr Config Storage StorageRam Schema RepoCommand RepoData CmdFP.
From S2P Require Import Telemetry FileTransfer CmdTM Downlink Registry Clients Tasks.

(** ** [cmdCOM.c] *)
Module CmdCOM.
Import RepoData Telemetry FileRx CmdFP.

Section handlers.
Context {S : Type} `{Storage S}.

(** The CSP calls that are not part of the sources: the result of [csp_ping],
    the result of [csp_transaction] with the first byte of the reply, whether a
    buffer is available, and the result of [csp_sendto].  [k_log] records the
    messages (node, port, bytes). *)
Record csp := Csp {
  k_dat : dat S;
  k_ping : Z -> Z;
  k_transaction : Z -> Z -> list Z -> Z * option Z;
  k_buffer : bool;
  k_sendto : Z;
  k_log : list (Z * Z * list Z)
}.
Definition k_record (node port : Z) (bs : list Z) (s : csp) : csp :=
  Csp (k_dat s) (k_ping s) (k_transaction s) (k_buffer s) (k_sendto s) (k_log s ++ [(node, port, bs)]).

Definition com_ping (fmt : cstring) (params : option (list Z)) (nparams : Z) : M csp Z :=
  let! r := scan_params params fmt in
  match r with
  | None => ret CMD_SYNTAX_ERROR
  | Some (_, n, vals) =>
      if n =? nparams then
        match vals with
        | [VInt node] => let! s := get in ret (if 0 <? k_ping s (u8_of node) then CMD_OK else CMD_ERROR)
        | _ => fail Uninitialized
        end
      else ret CMD_SYNTAX_ERROR
  end.

(** The lines it prints, before the routing table and before the interfaces,
    which libcsp prints; [address] is what [csp_get_address] returns. *)
Definition com_debug (address : Z) (fmt : cstring) (params : option (list Z)) (nparams : Z) : M csp (list cstring * Z) :=
  ret ([cs "CSP Node " ++ print_dec address; cs "Route table"; cs "Interfaces"], CMD_OK).

Definition com_send_rpt (fmt : cstring) (params : option (list Z)) (nparams : Z) : M csp Z :=
  let! r := scan_params params fmt in
  match r with
  | None => ret CMD_SYNTAX_ERROR
  | Some (_, n, vals) =>
      (match vals with [_; VStr msg] => scan_into msg SCH_CMD_MAX_STR_PARAMS | _ => ret tt end) ;!
      if n =? nparams then
        match vals with
        | [VInt node; VStr msg] =>
            let! s := get in
            if negb (k_buffer s) then ret CMD_ERROR else
            modify (k_record (u8_of node) SCH_TRX_PORT_RPT (with_nul msg)) ;!
            ret (if k_sendto s =? 0 then CMD_OK else CMD_ERROR)
        | _ => fail Uninitialized
        end
      else ret CMD_SYNTAX_ERROR
  end.

(** The common part of [com_send_cmd] and [com_send_tc_frame]: the rest of the
    line is copied to a zeroed array of [size] bytes, at most [limit] of them,
    and sent to the telecommand port; the node answers with 200. *)
Definition send_tc (size limit : Z) (fmt : cstring) (params : option (list Z)) (nparams : Z) : M csp Z :=
  let! r := scan_params params fmt in
  match r with
  | None => ret CMD_SYNTAX_ERROR
  | Some (text, n, vals) =>
      if negb (n =? nparams - 1) then ret CMD_SYNTAX_ERROR else
      match vals with
      | [VInt node; VPos next] =>
          if next <=? 1 then ret CMD_SYNTAX_ERROR else
          let! buf := list_write (replicate (Z.to_nat size) 0) 0 (strncpy_bytes (drop (Z.to_nat next) text) limit) in
          let! msg := lift (cstr_of_buf buf) in
          let! s := get in
          let '(rc, rep) := k_transaction s (u8_of node) SCH_TRX_PORT_TC msg in
          modify (k_record (u8_of node) SCH_TRX_PORT_TC msg) ;!
          match rep with
          | Some b => ret (if (0 <? rc) && (b =? 200) then CMD_OK else CMD_ERROR)
          | None => if 0 <? rc then fail Uninitialized else ret CMD_ERROR
          end
      | _ => fail Uninitialized
      end
  end.

Definition com_send_cmd (fmt : cstring) (params : option (list Z)) (nparams : Z) : M csp Z :=
  send_tc SCH_CMD_MAX_STR_PARAMS SCH_CMD_MAX_STR_PARAMS fmt params nparams.
Definition com_send_tc_frame (fmt : cstring) (params : option (list Z)) (nparams : Z) : M csp Z :=
  send_tc COM_FRAME_MAX_LEN (COM_FRAME_MAX_LEN - 1) fmt params nparams.

Definition com_send_data (fmt : cstring) (params : option (list Z)) (nparams : Z) : M csp Z :=
  let! r := scan_params params fmt in
  match r with
  | None => ret CMD_SYNTAX_ERROR
  | Some (text, n, vals) =>
      if negb (n =? nparams - 1) then ret CMD_SYNTAX_ERROR else
      match vals with
      | [VInt node; VInt port; VPos next] =>
          if next <=? 0 then ret CMD_ERROR else
          let bytes := drop (Z.to_nat next) text in
          let! s := get in
          let '(rc, _) := k_transaction s (u8_of node) (u8_of port) bytes in
          modify (k_record (u8_of node) (u8_of port) bytes) ;!
          ret (if rc =? 1 then CMD_OK else CMD_ERROR)
      | _ => fail Uninitialized
      end
  end.

(** The parameters of [com_send_cmd] are printed to an array of
    [SCH_CMD_MAX_STR_NAME] bytes. *)
Definition com_set_time_node (fmt : cstring) (params : option (list Z)) (nparams : Z) : M csp Z :=
  let! r := scan_params params fmt in
  match r with
  | None => ret CMD_SYNTAX_ERROR
  | Some (_, n, vals) =>
      if negb (n =? nparams) then ret CMD_SYNTAX_ERROR else
      match vals with
      | [VInt node] =>
          let! s := get in
          let cmd := snprintf_trunc SCH_CMD_MAX_STR_NAME
                       (print_dec node ++ cs " obc_set_time " ++ print_dec (i32_of (unixtime (k_dat s)))) in
          com_send_cmd (cs "%d %n") (Some (with_nul cmd)) 2
      | _ => fail Uninitialized
      end
  end.

End handlers.
Arguments csp : clear implicits.
End CmdCOM.

(** ** [cmdOBC.c] *)
Module CmdOBC.
Import RepoCommand RepoData CmdFP Clients.

(** A handler returns a result, or the process exits. *)
Inductive outcome := Returns (rc : Z) | Exits.

(** [cpu.c] for x86. *)
Definition cpu_debug (arg : Z) : Z := 1.
Definition cpu_reset_wdt (arg : Z) : Z := 0.
Definition cpu_reboot (arg : Z) : option outcome := if arg =? 1 then None else Some Exits.

Section handlers.
Context {S F : Type} `{Storage S}.

(** An optional integer parameter. *)
Definition int_param {T} (fmt : cstring) (params : option (list Z)) (nparams : Z) : M T Z :=
  let! r := scan_params params fmt in
  match r with
  | None => ret 0
  | Some (_, n, vals) =>
      if negb (n =? nparams) then ret 0 else
      match vals with [VInt arg] => ret arg | _ => fail Uninitialized end
  end.

Definition obc_debug (fmt : cstring) (params : option (list Z)) (nparams : Z) : M (client S F) Z :=
  let! dbg_type := int_param fmt params nparams in
  ret (if cpu_debug dbg_type =? 0 then CMD_OK else CMD_ERROR).

Definition obc_reset_wdt (fmt : cstring) (params : option (list Z)) (nparams : Z) : M (client S F) Z :=
  let! arg := int_param fmt params nparams in
  ret (if cpu_reset_wdt arg =? 1 then CMD_OK else CMD_ERROR).

Definition obc_exit (fmt : cstring) (params : option (list Z)) (nparams : Z) : M (client S F) outcome :=
  cmds cmd_repo_close ;!
  data dat_repo_close ;!
  ret (default (Returns CMD_OK) (cpu_reboot 0)).

Definition obc_reset (fmt : cstring) (params : option (list Z)) (nparams : Z) : M (client S F) outcome :=
  let! arg := int_param fmt params nparams in
  ret (default (Returns CMD_OK) (cpu_reboot arg)).

Definition obc_set_time (fmt : cstring) (params : option (list Z)) (nparams : Z) : M (dat S) Z :=
  let! r := scan_params params fmt in
  match r with
  | None => ret CMD_SYNTAX_ERROR
  | Some (_, n, vals) =>
      if negb (n =? nparams) then ret CMD_SYNTAX_ERROR else
      match vals with
      | [VInt time_to_set] =>
          let! rc := dat_set_time time_to_set in
          ret (if rc =? 0 then CMD_OK else CMD_ERROR)
      | _ => fail Uninitialized
      end
  end.

(** Fewer values than [nparams] select the default format. *)
Definition obc_get_time (fmt : cstring) (params : option (list Z)) (nparams : Z) : M (dat S) (Z * list bool) :=
  let! r := scan_params params fmt in
  let! format := match r with
                 | None => ret 0
                 | Some (_, n, vals) =>
                     if n <? nparams then ret 0 else
                     match vals with VInt format :: _ => ret format | _ => ret 0 end
                 end in
  let! '(rc, out) := dat_show_time format in
  ret (if rc =? 0 then CMD_OK else CMD_ERROR, out).

(** The commands that hand their parameters to the operating system; [os] is
    the result of the call ([system], [chdir], [mkdir]). *)
Definition obc_system (os : cstring -> Z) (params : option (list Z)) : M (dat S) Z :=
  match params with
  | None => ret CMD_SYNTAX_ERROR
  | Some buf => let! text := lift (cstr_of_buf buf) in ret (if os text <? 0 then CMD_ERROR else CMD_OK)
  end.
Definition obc_set_cwd (os : cstring -> Z) (params : option (list Z)) : M (dat S) Z :=
  match params with
  | None => ret CMD_SYNTAX_ERROR
  | Some buf => let! text := lift (cstr_of_buf buf) in ret (if negb (os text =? 0) then CMD_ERROR else CMD_OK)
  end.
Definition obc_mkdir (exists_dir : cstring -> bool) (os : cstring -> Z) (params : option (list Z)) : M (dat S) Z :=
  match params with
  | None => ret CMD_SYNTAX_ERROR
  | Some buf =>
      let! text := lift (cstr_of_buf buf) in
      let rc := if negb (exists_dir text) then os text else -1 in
      ret (if rc =? 0 then CMD_OK else CMD_ERROR)
  end.
(** [cmd] has [strlen(params) + 5] bytes for [rm ], the name and the
    terminator. *)
Definition obc_rm (os : cstring -> Z) (params : option (list Z)) : M (dat S) Z :=
  match params with
  | None => ret CMD_SYNTAX_ERROR
  | Some buf =>
      let! text := lift (cstr_of_buf buf) in
      let cmd := cs "rm " ++ text in
      if strlen text + 5 <? strlen cmd + 1 then fail OutOfBounds else
      ret (if os cmd =? 0 then CMD_OK else CMD_ERROR)
  end.

End handlers.
End CmdOBC.

(** ** [cmdConsole.c] and [log_utils.c] *)
Module CmdConsole.
Import CmdFP FileRx Clients.

(** Where the log goes. *)
Inductive log_sink := LogPrint | LogSend | LogFile.
Record log_state := Log {
  log_lvl : Z;
  log_function : log_sink;
  log_node : Z;
  log_file_name : cstring
}.

Definition log_set (level node : Z) : M log_state unit :=
  if negb (is_int (- node)) then fail SignedOverflow else
  modify (fun s =>
    if node =? 0 then Log level LogPrint (log_node s) (log_file_name s)
    else if 0 <? node then Log level LogSend (u8_of node) (log_file_name s)
    else Log level LogFile (log_node s)
           (snprintf_trunc SCH_BUFF_MAX_LEN (cs "suchai_" ++ print_dec (- node) ++ cs ".log"))).

Definition con_set_logger (fmt : cstring) (params : option (list Z)) (nparams : Z) : M log_state Z :=
  let! r := scan_params params fmt in
  match r with
  | None => ret CMD_SYNTAX_ERROR
  | Some (_, n, vals) =>
      if negb (n =? nparams) then ret CMD_SYNTAX_ERROR else
      match vals with
      | [VInt lvl; VInt node] =>
          if LOG_LVL_VERBOSE <? lvl then ret CMD_ERROR else
          log_set lvl node ;! ret CMD_OK
      | _ => fail Uninitialized
      end
  end.

(** The text that [con_debug_msg] prints. *)
Definition con_debug_msg (params : option (list Z)) : M log_state (Z * cstring) :=
  match params with
  | None => ret (CMD_SYNTAX_ERROR, [])
  | Some buf => let! text := lift (cstr_of_buf buf) in ret (CMD_OK, text)
  end.

(** [log_send]: the message goes to a zeroed buffer of [SCH_BUFF_MAX_LEN]
    bytes, when a buffer is available; [vsnprintf] returns the length of the
    whole message.  The result is the packet given to [csp_sendto]. *)
Definition log_send (have_buffer : bool) (msg : cstring) : M log_state (option (list Z * Z)) :=
  if negb have_buffer then ret None else
  let len := strlen msg in
  let! data := list_write (replicate (Z.to_nat SCH_BUFF_MAX_LEN) 0) 0
                 (with_nul (snprintf_trunc SCH_BUFF_MAX_LEN msg)) in
  let! data := list_write data len [0] in
  ret (Some (data, u16_of len)).

End CmdConsole.

(** ** Theorems *)
Module CmdSysTheorems.
Import RepoCommand RepoCommandLaws RepoCommandParse RepoData RepoDataLaws RepoDataTheorems FileRx CmdFP CmdFPTheorems Registry Clients
  DownlinkLaws TaskLaws TaskTheorems CmdCOM CmdOBC.

Section clock.
Context {S : Type} `{StorageLaws S}.

Definition time_line (t : Z) : cstring := cs "obc_set_time " ++ print_dec t.
Definition time_cmd (t : Z) : cmd_t cmd_fn :=
  Cmd 5 1 (Live (cs "%d")) (Live (with_nul (print_dec t))) (Some Registry.obc_set_time).

Lemma find_set_time : find_name (cs "obc_set_time") (cmd_list boot_repo) =
  Some (5%nat, CmdEntry 1 (Live (cs "%d")) (Live (cs "obc_set_time")) (Some Registry.obc_set_time)).
Proof. vm_compute. reflexivity. Qed.

Lemma skip_space_print t : INT_MIN <= t <= INT_MAX -> skip_space (print_dec t) = print_dec t.
Proof.
  intros Ht. destruct (kind_val_head KInt (VInt t) Ht) as (c & w & E & Hc). cbn in E. rewrite E. cbn. by rewrite Hc.
Qed.

Lemma print_int_cstr t : INT_MIN <= t <= INT_MAX -> is_cstr (print_dec t).
Proof. unfold INT_MIN, INT_MAX. intros. apply is_cstr_print_dec. lia. Qed.

Lemma time_line_cmd t : INT_MIN <= t <= INT_MAX -> line_cmd boot_repo (time_line t) = [time_cmd t].
Proof.
  intros Ht. unfold line_cmd, build_spec, time_line.
  assert (take_word (skip_space (cs "obc_set_time " ++ print_dec t)) = (cs "obc_set_time", chr_space :: print_dec t)) as E
    by (vm_compute (cs _); cbn -[print_dec]; reflexivity).
  rewrite E. assert (skip_space (chr_space :: print_dec t) = print_dec t) as Hs by (by apply skip_space_print).
  pose proof find_set_time as Hf. remember (cs "obc_set_time") as name eqn:Hname in Hf |- *.
  destruct name as [|z name]; [exfalso; clear - Hname; vm_compute in Hname; discriminate Hname|]. rewrite Hf, Hs. clear Hf.
  unfold with_args. destruct (print_dec t) as [|c w] eqn:Ep.
  { destruct (kind_val_head KInt (VInt t) Ht) as (c & w & E2 & _). cbn in E2. congruence. }
  rewrite <- Ep. unfold time_cmd, set_params. cbn [cmd_of c_id c_nparams c_fmt c_function e_nparams e_fmt e_function].
  do 3 f_equal. apply params_buf_short; [by apply print_int_cstr|].
  pose proof (length_print_int t Ht). unfold strlen, zlength, SCH_CMD_MAX_STR_PARAMS. lia.
Qed.

(** What a node does with [com_set_time_node]: one telecommand. *)
Lemma set_time_node_ok (s : csp S) node :
  let t := unixtime (k_dat s) in
  INT_MIN <= node <= INT_MAX -> INT_MIN <= t <= INT_MAX ->
  k_transaction s (u8_of node) SCH_TRX_PORT_TC (time_line t) = (1, Some 200) ->
  com_set_time_node (cs "%d") (Some (with_nul (print_dec node))) 1 s =
    Ret (CMD_OK, k_record (u8_of node) SCH_TRX_PORT_TC (time_line t) s).
Proof.
  intros t Hn Ht Htr. unfold com_set_time_node.
  assert (Forall2 kind_val [KInt] [VInt node]) as Hk by (constructor; [done|constructor]).
  change (cs "%d") with (kinds_fmt [KInt]). change (print_dec node) with (vals_text [VInt node]) at 1.
  rewrite (bind_step _ _ _ _ _ (scan_kinds [KInt] [VInt node] s Hk)).
  change (negb (zlength [VInt node] =? 1)) with false. cbv iota.
  unfold bind at 1, get at 1. fold t. rewrite i32_of_id by done.
  pose proof (length_print_int node Hn) as Hln. pose proof (length_print_int t Ht) as Hlt.
  assert (snprintf_trunc SCH_CMD_MAX_STR_NAME (print_dec node ++ cs " obc_set_time " ++ print_dec t) =
          line [VInt node] (time_line t)) as ->.
  { unfold snprintf_trunc. rewrite take_ge; [done|]. rewrite !length_app.
    change (length (cs " obc_set_time ")) with 14%nat. unfold SCH_CMD_MAX_STR_NAME. lia. }
  assert (is_cstr (time_line t)) as Htc.
  { apply is_cstr_app. split; [apply (bool_decide_unpack _); vm_compute; exact I|by apply print_int_cstr]. }
  unfold com_send_cmd, send_tc.
  rewrite (bind_step _ _ _ _ _ (scan_line [KInt] [VInt node] (time_line t) (cs "%d %n") false s Hk eq_refl Htc eq_refl)).
  change (negb (zlength [VInt node] =? 2 - 1)) with false. cbv iota. cbn [app].
  set (next := strlen (line [VInt node] (time_line t)) - strlen (time_line t)).
  assert (next = Z.of_nat (length (print_dec node) + 1)) as Hnext.
  { subst next. unfold line, strlen, zlength. rewrite length_app. cbn -[length]. unfold time_line.
    change (tail_text (cs "obc_set_time " ++ print_dec t)) with (chr_space :: cs "obc_set_time " ++ print_dec t).
    cbn [length]. lia. }
  assert (0 < length (print_dec node))%nat as Hpos.
  { destruct (kind_val_head KInt (VInt node) Hn) as (c & w & E & _). cbn in E. rewrite E. cbn. lia. }
  rewrite (proj2 (Z.leb_gt next 1)) by lia.
  assert (drop (Z.to_nat next) (line [VInt node] (time_line t)) = time_line t) as Hdrop.
  { rewrite Hnext, Nat2Z.id. unfold line. change (vals_text [VInt node]) with (print_dec node).
    rewrite <- drop_drop, drop_app_length. done. }
  rewrite Hdrop. assert (strlen (time_line t) < SCH_CMD_MAX_STR_PARAMS) as Hshort.
  { unfold time_line, strlen, zlength, SCH_CMD_MAX_STR_PARAMS. rewrite length_app.
    change (length (cs "obc_set_time ")) with 13%nat. lia. }
  rewrite strncpy_short by lia. set (buf := time_line t ++ _).
  assert (list_write (replicate (Z.to_nat SCH_CMD_MAX_STR_PARAMS) 0) 0 buf s = Ret (buf, s)) as Ew.
  { pose proof (list_write_ok [] (replicate (Z.to_nat SCH_CMD_MAX_STR_PARAMS) 0) [] buf s) as Hw.
    change (zlength (@nil Z)) with 0 in Hw. cbn [app] in Hw. rewrite !app_nil_r in Hw. apply Hw.
    subst buf. rewrite length_app. cbn [length]. rewrite !length_replicate. unfold strlen, zlength in *. lia. }
  rewrite (bind_step _ _ _ _ _ Ew). subst buf. unfold bind at 1, lift. rewrite cstr_of_buf_nul by done.
  unfold bind at 1, get. rewrite Htr. done.
Qed.

(** Clocks are synchronised: [com_set_time_node] on one node and the
    telecommand it sends, received and executed on the other, set the clock of
    the second to the time of the first; both commands report success. *)
Theorem com_set_time_node_sets_clock (a : csp S) (b : client S cmd_fn) node junk dst :
  let t := unixtime (k_dat a) in
  INT_MIN <= node <= INT_MAX -> INT_MIN <= t <= INT_MAX ->
  k_transaction a (u8_of node) SCH_TRX_PORT_TC (time_line t) = (1, Some 200) ->
  dat_ok (cl_dat b) -> cl_cmds b = boot_repo -> cl_sent b = [] -> settime_ok (cl_dat b) = true ->
  i32_of (var (cl_dat b) dat_com_count_tc) < INT_MAX -> junk <> [] ->
  exists a' msg b' params d',
    com_set_time_node (cs "%d") (Some (with_nul (print_dec node))) 1 a = Ret (CMD_OK, a') /\
    k_log a' = k_log a ++ [(u8_of node, SCH_TRX_PORT_TC, msg)] /\
    com_packet SCH_TRX_PORT_TC dst (Packet (msg ++ junk) (zlength msg)) b = Ret ([ReplyOk], b') /\
    cl_sent b' = [Cmd 5 1 (Live (cs "%d")) (Live params) (Some Registry.obc_set_time)] /\
    obc_set_time (cs "%d") (Some params) 1 (cl_dat b') = Ret (CMD_OK, d') /\ unixtime d' = t.
Proof.
  intros t Hn Ht Htr Hok Hrepo Hsent Hset Hcount Hj.
  assert (is_cstr (time_line t)) as Htc.
  { apply is_cstr_app. split; [apply (bool_decide_unpack _); vm_compute; exact I|by apply print_int_cstr]. }
  assert (tc_line (time_line t)) as Htl.
  { split; [unfold time_line; by destruct (print_dec t)|]. unfold time_line. apply Forall_app. split.
    - apply (bool_decide_unpack _). vm_compute. exact I.
    - destruct (print_dec_cases t Ht) as (neg & ds & E & _ & Hd & _). rewrite E.
      assert (Forall (fun c => c <> 59) ds) as H59 by (eapply Forall_impl; [exact Hd|]; intros c Hc ->; done).
      destruct neg; [by constructor|done]. }
  destruct (tc_packet_ok b [time_line t] junk dst) as (b' & Eb & Hb & _ & _ & Hset' & _).
  { exact Hok. } { rewrite Hrepo. exact RegistryTheorems.boot_repo_ok. } { by constructor. } { by constructor. }
  { exact Hj. } { exact Hcount. }
  eexists _, (time_line t), b', (with_nul (print_dec t)), _.
  split; [exact (set_time_node_ok a node Hn Ht Htr)|]. split; [done|]. split; [exact Eb|]. split.
  - rewrite Hb, Hsent, Hrepo. cbn [map concat app]. rewrite time_line_cmd by done. done.
  - rewrite Hset in Hset'. unfold obc_set_time. assert (Forall2 kind_val [KInt] [VInt t]) as Hk by (constructor; [done|constructor]).
    change (cs "%d") with (kinds_fmt [KInt]). change (print_dec t) with (vals_text [VInt t]).
    rewrite (bind_step _ _ _ _ _ (scan_kinds [KInt] [VInt t] (cl_dat b') Hk)).
    change (negb (zlength [VInt t] =? 1)) with false. cbv iota.
    unfold dat_set_time, bind, get. rewrite Hset'. clear. cbn. split; reflexivity.
Qed.

End clock.

(** A ground station at time 1000 and a satellite whose clock is at 0. *)
Definition ground : csp Ram.ram_state :=
  Csp (ram_data 1000) (fun _ => 1) (fun _ _ _ => (1, Some 200)) true 0 [].

Lemma com_set_time_node_sets_clock_witness : exists a' msg b' params d',
  com_set_time_node (cs "%d") (Some (with_nul (print_dec 7))) 1 ground = Ret (CMD_OK, a') /\
  com_packet SCH_TRX_PORT_TC 1 (Packet (msg ++ [0]) (zlength msg)) (sat_boot (ram_data 0)) = Ret ([ReplyOk], b') /\
  cl_sent b' = [Cmd 5 1 (Live (cs "%d")) (Live params) (Some Registry.obc_set_time)] /\
  obc_set_time (cs "%d") (Some params) 1 (cl_dat b') = Ret (CMD_OK, d') /\ unixtime d' = 1000.
Proof.
  destruct (com_set_time_node_sets_clock ground (sat_boot (ram_data 0)) 7 [0] 1)
    as (a' & msg & b' & params & d' & H1 & _ & H2 & H3 & H4 & H5).
  - unfold INT_MIN, INT_MAX. lia.
  - vm_compute. split; discriminate.
  - exact eq_refl.
  - exact (proj1 (ram_data_fp 0)).
  - exact eq_refl.
  - exact eq_refl.
  - exact eq_refl.
  - vm_compute. reflexivity.
  - discriminate.
  - exists a', msg, b', params, d'. split; [exact H1|]. split; [exact H2|]. split; [exact H3|]. split; [exact H4|].
    rewrite H5. vm_compute. reflexivity.
Defined.
End CmdSysTheorems.
