(* ===== verification/Log.v ===== *)
(** * The log

    [lib/utils/log_utils.c] and the macros of [log_utils.h]: the level and the
    sink that [log_set] chooses, the three functions that write a message, and
    what a node that receives a message prints.  A message is its text after
    formatting; its task runs alone because the macros hold [log_mutex]. *)
From S2P Require Import Prelude CStr Config Storage StorageRam Schema RepoCommand RepoData FileTransfer CmdFP.
From S2P Require Import Clients Tasks CmdSys.

Open Scope Z_scope.

Module Log.
Import FileRx Clients CmdConsole.

Definition LOG_LVL_RESULT : Z := 1.
Definition LOG_LVL_ERROR : Z := 2.
Definition LOG_LVL_WARN : Z := 3.
Definition LOG_LVL_INFO : Z := 4.
Definition CRLF : cstring := [13; 10].

(** A message that goes to the network: the node, the buffer and the length. *)
Record log_packet := LogPacket { lp_node : Z; lp_data : list Z; lp_length : Z }.

(** The settings, the standard output, the files, the packets sent, the clock,
    the free buffers of CSP and the files that can be opened. *)
Record log_world := World {
  w_log : log_state;
  w_out : cstring;
  w_files : gmap (list Z) (list Z);
  w_net : list log_packet;
  w_clock : Z;
  w_buffer : bool;
  w_fopen : cstring -> bool
}.
Definition log_lens : lens log_world log_state :=
  Lens w_log (fun l w => World l (w_out w) (w_files w) (w_net w) (w_clock w) (w_buffer w) (w_fopen w)).
Definition write_out (text : cstring) (w : log_world) : log_world :=
  World (w_log w) (w_out w ++ text) (w_files w) (w_net w) (w_clock w) (w_buffer w) (w_fopen w).
Definition append_file (name text : cstring) (w : log_world) : log_world :=
  World (w_log w) (w_out w) (<[name := default [] (w_files w !! name) ++ text]> (w_files w))
    (w_net w) (w_clock w) (w_buffer w) (w_fopen w).
Definition send_packet (p : log_packet) (w : log_world) : log_world :=
  World (w_log w) (w_out w) (w_files w) (w_net w ++ [p]) (w_clock w) (w_buffer w) (w_fopen w).

(** [[%s][%lu][%s] ], the message and the end of the line. *)
Definition log_line (lvl tag msg : cstring) (time : Z) : cstring :=
  cs "[" ++ lvl ++ cs "][" ++ print_dec (time mod 2 ^ 64) ++ cs "][" ++ tag ++ cs "] " ++ msg ++ CRLF.

Definition log_print (lvl tag msg : cstring) : M log_world unit :=
  modify (fun w => write_out (log_line lvl tag msg (w_clock w)) w).

(** Sent with the settings of the log; the level, the time and the tag are not. *)
Definition log_send (lvl tag msg : cstring) : M log_world unit :=
  let! w := get in
  let! r := zoom log_lens (CmdConsole.log_send (w_buffer w) msg) in
  match r with
  | None => ret tt
  | Some (data, len) => modify (send_packet (LogPacket (log_node (w_log w)) data len))
  end.

Definition log_file (lvl tag msg : cstring) : M log_world unit :=
  modify (fun w =>
    let fname := log_file_name (w_log w) in
    if w_fopen w fname then append_file fname (log_line lvl tag msg (w_clock w)) w else w).

(** The macros [LOGR] to [LOGV], by level. *)
Definition lvl_name (level : Z) : cstring :=
  if level =? LOG_LVL_RESULT then cs "RES  " else if level =? LOG_LVL_ERROR then cs "ERROR"
  else if level =? LOG_LVL_WARN then cs "WARN " else if level =? LOG_LVL_INFO then cs "INFO "
  else if level =? LOG_LVL_DEBUG then cs "DEBUG" else cs "VERB ".
Definition call_log_function (lvl tag msg : cstring) : M log_world unit :=
  let! w := get in
  match log_function (w_log w) with
  | LogPrint => log_print lvl tag msg
  | LogSend => log_send lvl tag msg
  | LogFile => log_file lvl tag msg
  end.
Definition LOG (level : Z) (tag msg : cstring) : M log_world unit :=
  let! w := get in
  if level <=? log_lvl (w_log w) then call_log_function (lvl_name level) tag msg else ret tt.
Definition LOGP (tag msg : cstring) : M log_world unit := log_print (cs "REMOT") tag msg.

(** [log_init]; [rc] is what [osSemaphoreCreate] returns. *)
Definition log_init (rc level node : Z) : M log_world Z :=
  zoom log_lens (log_set level node) ;! ret rc.

End Log.

Module LogTheorems.
Import RepoData RepoDataLaws FileRx TaskLaws CmdConsole Clients Log.

(** A message: its level, tag and text. *)
Record message := Message { m_level : Z; m_tag : cstring; m_text : cstring }.
Definition log_all (ms : list message) : M log_world unit := for_ ms (fun m => LOG (m_level m) (m_tag m) (m_text m)).

(** The messages that a level lets through, as lines and as packets. *)
Definition shown (level : Z) (ms : list message) : list message := filter (fun m => m_level m <= level) ms.
Definition line_of (time : Z) (m : message) : cstring := log_line (lvl_name (m_level m)) (m_tag m) (m_text m) time.
Definition lines (time : Z) (ms : list message) : cstring := concat (map (line_of time) ms).
Definition padded (text : cstring) : list Z := text ++ replicate (Z.to_nat (SCH_BUFF_MAX_LEN - strlen text)) 0.
Definition packet_of (node : Z) (m : message) : log_packet := LogPacket node (padded (m_text m)) (strlen (m_text m)).
Definition log_name (node : Z) : cstring := cs "suchai_" ++ print_dec (- node) ++ cs ".log".

(** What the messages [ms] do to the world, by the settings. *)
Definition logged (ms : list message) (w : log_world) : log_world :=
  let ms := shown (log_lvl (w_log w)) ms in
  match log_function (w_log w) with
  | LogPrint => write_out (lines (w_clock w) ms) w
  | LogSend => if w_buffer w
               then World (w_log w) (w_out w) (w_files w) (w_net w ++ map (packet_of (log_node (w_log w))) ms)
                      (w_clock w) (w_buffer w) (w_fopen w)
               else w
  | LogFile => if w_fopen w (log_file_name (w_log w)) && negb (bool_decide (ms = []))
               then append_file (log_file_name (w_log w)) (lines (w_clock w) ms) w else w
  end.
Definition short_enough (m : message) : Prop := strlen (m_text m) < SCH_BUFF_MAX_LEN.

(** ** One message *)
Lemma write_packet msg (l : log_state) :
  strlen msg < SCH_BUFF_MAX_LEN -> CmdConsole.log_send true msg l = Ret (Some (padded msg, u16_of (strlen msg)), l).
Proof.
  intros H. unfold CmdConsole.log_send, SCH_BUFF_MAX_LEN in *. cbn [negb].
  assert (0 <= zlength msg) as H0 by (unfold zlength; lia). unfold strlen in *.
  assert (snprintf_trunc 256 msg = msg) as -> by (unfold snprintf_trunc; rewrite take_ge; [done|unfold zlength in *; lia]).
  assert (replicate (Z.to_nat 256) 0 =
    [] ++ replicate (length (with_nul msg)) 0 ++ replicate (Z.to_nat (255 - zlength msg)) 0) as ->.
  { cbn [app]. rewrite <- replicate_add. f_equal. unfold with_nul. rewrite length_app. unfold zlength in *. cbn. lia. }
  rewrite (bind_step _ _ _ _ _ (list_write_ok [] _ _ (with_nul msg) l ltac:(by rewrite length_replicate))).
  cbn [app]. unfold with_nul. rewrite <- app_assoc.
  rewrite (bind_step _ _ _ _ _ (list_write_ok msg [0] _ [0] l eq_refl)).
  unfold padded, SCH_BUFF_MAX_LEN, strlen. do 4 f_equal.
  replace (Z.to_nat (256 - zlength msg)) with (Datatypes.S (Z.to_nat (255 - zlength msg))) by lia. done.
Qed.

Lemma LOG_ok m w :
  (log_function (w_log w) = LogSend -> short_enough m) -> LOG (m_level m) (m_tag m) (m_text m) w = Ret (tt, logged [m] w).
Proof.
  intros Hs. unfold LOG, bind, get, logged, shown. cbn [filter list_filter].
  destruct (decide (m_level m <= log_lvl (w_log w))) as [Hl|Hl].
  - rewrite (proj2 (Z.leb_le _ _)) by done. unfold call_log_function, bind, get.
    destruct (log_function (w_log w)).
    + unfold lines. cbn. by rewrite app_nil_r.
    + specialize (Hs eq_refl). unfold log_send, bind, get, zoom. destruct (w_buffer w) eqn:Eb.
      * rewrite write_packet by done. unfold modify, ret.
        assert (lset log_lens (lget log_lens w) w = w) as -> by (by destruct w).
        assert (u16_of (strlen (m_text m)) = strlen (m_text m)) as ->; [|unfold send_packet; cbn; by rewrite Eb].
        apply Z.mod_small. unfold short_enough, SCH_BUFF_MAX_LEN, strlen, zlength in *. lia.
      * cbn. unfold ret. by destruct w.
    + unfold log_file, modify, lines. cbn. rewrite app_nil_r. by destruct (w_fopen w _).
  - rewrite (proj2 (Z.leb_gt _ _)) by lia. unfold ret. do 2 f_equal.
    destruct (log_function (w_log w)), w as [lg o f n c [|] fo]; cbn; unfold write_out; cbn; rewrite ?app_nil_r; try done.
    all: by rewrite andb_false_r.
Qed.

Lemma logged_settings ms w : w_log (logged ms w) = w_log w /\ w_clock (logged ms w) = w_clock w.
Proof. unfold logged. destruct (log_function _); repeat case_match; done. Qed.

Lemma write_out_out a b w : write_out b (write_out a w) = write_out (a ++ b) w.
Proof. unfold write_out. cbn. by rewrite app_assoc. Qed.
Lemma append_append n a b w : append_file n b (append_file n a w) = append_file n (a ++ b) w.
Proof. unfold append_file. cbn. by rewrite lookup_insert_eq, insert_insert_eq, app_assoc. Qed.

Lemma logged_cons m ms w : logged (m :: ms) w = logged ms (logged [m] w).
Proof.
  destruct (logged_settings [m] w) as [Hl Hc]. unfold logged at 1 2. rewrite Hl, Hc.
  assert (shown (log_lvl (w_log w)) (m :: ms) = shown (log_lvl (w_log w)) [m] ++ shown (log_lvl (w_log w)) ms) as ->
    by (unfold shown; apply (filter_app _ [m])).
  unfold logged. set (a := shown _ [m]). set (b := shown _ ms).
  unfold lines. rewrite map_app, concat_app, map_app. destruct (log_function (w_log w)).
  - by rewrite write_out_out.
  - destruct w as [lg o f n c [|] fo]; cbn; [by rewrite app_assoc|done].
  - destruct (w_fopen w (log_file_name (w_log w))) eqn:E.
    + destruct a as [|x a]; [by cbn; rewrite E|]. cbn [andb app negb]. rewrite !bool_decide_eq_false_2 by done. cbn [negb].
      assert (forall k t, w_fopen (append_file k t w) = w_fopen w) as -> by done. rewrite E.
      destruct b as [|y b].
      * by rewrite bool_decide_eq_true_2, app_nil_r.
      * rewrite bool_decide_eq_false_2 by done. cbn [andb negb]. by rewrite append_append.
    + cbn [andb]. by rewrite E.
Qed.

Lemma log_all_ok ms : forall w,
  (log_function (w_log w) = LogSend -> Forall short_enough ms) -> log_all ms w = Ret (tt, logged ms w).
Proof.
  induction ms as [|m ms IH]; intros w Hs.
  - unfold log_all, logged, shown. cbn. destruct w as [lg o f n c [|] fo], (log_function _) eqn:E; cbn;
      unfold write_out; cbn; rewrite ?app_nil_r, ?andb_false_r; done.
  - rewrite logged_cons. unfold log_all. cbn [for_].
    assert (log_function (w_log w) = LogSend -> short_enough m) as Hm by (intros HE; exact (Forall_inv (Hs HE))).
    rewrite (bind_step _ _ _ _ _ (LOG_ok m w Hm)).
    apply IH. rewrite (proj1 (logged_settings _ _)). intros HE. exact (Forall_inv_tail (Hs HE)).
Qed.

(** ** The sink that [log_set] chooses *)
Lemma log_set_ok level node l :
  - INT_MAX <= node <= INT_MAX ->
  exists l', log_set level node l = Ret (tt, l') /\ log_lvl l' = level /\
    log_function l' = (if node =? 0 then LogPrint else if 0 <? node then LogSend else LogFile) /\
    (0 < node -> log_node l' = u8_of node) /\ (node < 0 -> log_file_name l' = log_name node).
Proof.
  intros Hn. unfold log_set.
  assert (is_int (- node) = true) as -> by (unfold is_int, INT_MIN, INT_MAX in *; rewrite andb_true_iff, !Z.leb_le; lia).
  cbn [negb]. eexists. split; [reflexivity|]. destruct (node =? 0) eqn:E0; [|destruct (0 <? node) eqn:E1]; bool_to_prop.
  - repeat split; cbn; intros; lia.
  - repeat split; cbn; intros; lia || done.
  - repeat split; cbn [log_lvl log_function log_node log_file_name]; intros; try lia.
    change (snprintf_trunc SCH_BUFF_MAX_LEN (log_name node) = log_name node). unfold snprintf_trunc. apply take_ge.
    pose proof (length_print_int (- node)) as Hl. unfold INT_MIN, INT_MAX, SCH_BUFF_MAX_LEN in *. specialize (Hl ltac:(lia)).
    unfold log_name. rewrite !length_app. change (length (cs "suchai_")) with 7%nat. change (length (cs ".log")) with 4%nat. lia.
Qed.

(** After [log_set level node] the messages of that level or below reach
    the sink it names, in order and whole, and the others nothing: lines with
    level, time and tag on the standard output ([node] 0) or at the end of
    [suchai_<n>.log] ([node] negative), one packet with the text for each to
    [node] when it is positive and a buffer is free.  Nothing else changes. *)
Theorem log_set_directs level node ms w :
  - INT_MAX <= node <= INT_MAX -> (0 < node -> Forall short_enough ms) ->
  exists w', (zoom log_lens (log_set level node) ;! log_all ms) w = Ret (tt, w') /\
    let ms := shown level ms in
    w_out w' = w_out w ++ (if node =? 0 then lines (w_clock w) ms else []) /\
    w_net w' = w_net w ++ (if (0 <? node) && w_buffer w then map (packet_of (u8_of node)) ms else []) /\
    (forall name, default [] (w_files w' !! name) = default [] (w_files w !! name) ++
       (if (node <? 0) && bool_decide (name = log_name node) && w_fopen w name then lines (w_clock w) ms else [])).
Proof.
  intros Hn Hs. destruct (log_set_ok level node (w_log w) Hn) as (l' & E & Hl & Hf & Hnode & Hname).
  assert (zoom log_lens (log_set level node) w = Ret (tt, lset log_lens l' w)) as Ez by (by apply zoom_step).
  rewrite (bind_step _ _ _ _ _ Ez). set (w1 := lset log_lens l' w).
  assert (log_function (w_log w1) = LogSend -> Forall short_enough ms) as Hs1.
  { intros H. apply Hs. cbn in H. rewrite Hf in H. destruct (node =? 0), (0 <? node) eqn:E1; bool_to_prop; done. }
  rewrite (log_all_ok ms w1 Hs1). eexists. split; [reflexivity|]. cbv zeta.
  unfold logged. change (w_log w1) with l'. rewrite Hl, Hf. set (sh := shown level ms).
  destruct (node =? 0) eqn:E0; bool_to_prop.
  - subst node. cbn -[log_name]. rewrite app_nil_r. split; [done|]. split; [done|]. intros name. by rewrite app_nil_r.
  - destruct (0 <? node) eqn:E1; bool_to_prop.
    + rewrite (proj2 (Z.ltb_ge node 0)) by lia. change (w_buffer w1) with (w_buffer w). rewrite Hnode by done.
      destruct (w_buffer w); cbn -[log_name]; rewrite ?app_nil_r; (split; [done|]; split; [done|]; intros; by rewrite app_nil_r).
    + rewrite (proj2 (Z.ltb_lt node 0)) by lia. rewrite Hname by lia. change (w_fopen w1) with (w_fopen w).
      destruct (w_fopen w (log_name node)) eqn:Ef; cbn [andb].
      * destruct (decide (sh = [])) as [->|Hne].
        { rewrite bool_decide_eq_true_2 by done. cbn -[log_name]. rewrite !app_nil_r. split; [done|]. split; [done|].
          intros name. by destruct (_ && _); rewrite app_nil_r. }
        rewrite bool_decide_eq_false_2 by done. cbn -[log_name]. rewrite !app_nil_r. split; [done|]. split; [done|].
        intros name. case_bool_decide as Hd.
        { subst name. rewrite lookup_insert_eq, Ef. done. }
        { rewrite lookup_insert_ne by congruence. cbn -[log_name]. by rewrite app_nil_r. }
      * cbn -[log_name]. rewrite !app_nil_r. split; [done|]. split; [done|]. intros name.
        case_bool_decide as Hd; cbn -[log_name]; [subst; rewrite Ef|]; by rewrite app_nil_r.
Qed.

(** A message of [SCH_BUFF_MAX_LEN] bytes or more writes its terminator outside
    the packet. *)
Theorem log_send_long_faults lvl tag msg w :
  w_buffer w = true -> SCH_BUFF_MAX_LEN <= strlen msg -> log_send lvl tag msg w = Fault OutOfBounds.
Proof.
  intros Hb Hm. unfold log_send, bind, get, zoom. rewrite Hb. unfold CmdConsole.log_send. cbn [negb].
  assert (zlength (with_nul (snprintf_trunc SCH_BUFF_MAX_LEN msg)) = 256) as Hz.
  { unfold with_nul, snprintf_trunc, SCH_BUFF_MAX_LEN, strlen, zlength in *. rewrite length_app, length_take. cbn [length]. lia. }
  set (text := with_nul _) in *. clearbody text.
  assert (list_write (replicate (Z.to_nat SCH_BUFF_MAX_LEN) 0) 0 text (lget log_lens w) = Ret (text, lget log_lens w)) as E.
  { pose proof (list_write_ok (S := log_state) [] (replicate (Z.to_nat 256) 0) [] text (lget log_lens w)) as H. rewrite !app_nil_r in H.
    apply H. rewrite length_replicate. unfold zlength in Hz. lia. }
  rewrite (bind_step _ _ _ _ _ E). unfold bind, list_write.
  rewrite (proj2 (Z.leb_gt (strlen msg + zlength [0]) _)); [by rewrite andb_false_r|].
  change (zlength [0]) with 1. rewrite Hz. unfold SCH_BUFF_MAX_LEN in *. lia.
Qed.

(** What the other node prints for a packet of [log_send]: only [lp_length]
    bytes travel, the terminator does not, so the text goes on with what an
    earlier packet left in the buffer, up to its first zero. *)
Definition arrived (p : log_packet) (stale : list Z) : csp_packet :=
  Packet (take (Z.to_nat (lp_length p)) (lp_data p) ++ stale) (lp_length p).

Lemma arrived_text node m stale old rest :
  short_enough m -> is_cstr (m_text m) -> is_cstr old -> stale = old ++ 0 :: rest ->
  cstr_of_buf (p_data (arrived (packet_of node m) stale)) = Ret (m_text m ++ old).
Proof.
  intros Hs Hm Ho ->. unfold arrived, packet_of, padded. cbn [p_data lp_data lp_length].
  rewrite take_app_le by (unfold strlen, zlength; lia). rewrite take_ge by (unfold strlen, zlength; lia).
  rewrite app_assoc. apply cstr_of_buf_nul. by apply is_cstr_app.
Qed.

Section reception.
Context {S F : Type} `{StorageLaws S}.

(** The node that receives it on [SCH_TRX_PORT_DBG] prints the text and [old]. *)
Theorem debug_packet_printed (s : client S F) node dst m old rest :
  dat_ok (cl_dat s) -> i32_of (var (cl_dat s) dat_com_count_tc) < INT_MAX ->
  short_enough m -> is_cstr (m_text m) -> is_cstr old ->
  exists s', com_packet SCH_TRX_PORT_DBG dst (arrived (packet_of node m) (old ++ 0 :: rest)) s =
    Ret ([PrintText (m_text m ++ old)], s').
Proof.
  intros Hok Hcount Hs Hm Ho. pose proof (i32_of_range (var (cl_dat s) dat_com_count_tc)) as Hrange.
  unfold com_packet.
  assert (data (dat_get_system_var dat_com_count_tc) s = Ret (i32_of (var (cl_dat s) dat_com_count_tc), s)) as E0
    by (apply data_pure; by rewrite get_system_ok).
  rewrite (bind_step _ _ _ _ _ E0). unfold bind at 1. rewrite cint_ok by lia.
  destruct (data_set_ok s dat_com_count_tc (i32_of (var (cl_dat s) dat_com_count_tc) + 1) Hok ltac:(done))
    as (st1 & E1 & Hok1 & _).
  rewrite (bind_step _ _ _ _ _ E1). set (s1 := with_dat _ s).
  unfold bind at 1. change (data dat_get_time s1) with (Ret (unixtime (cl_dat s), s1)).
  destruct (data_set_ok s1 dat_com_last_tc (i32_of (unixtime (cl_dat s))) Hok1 ltac:(done)) as (st2 & E2 & _).
  rewrite (bind_step _ _ _ _ _ E2). set (s2 := with_dat _ s1).
  do 4 (lazymatch goal with |- context[SCH_TRX_PORT_DBG =? ?p] => change (SCH_TRX_PORT_DBG =? p) with false end; cbv iota).
  rewrite Z.eqb_refl. exists s2. unfold bind, lift. by rewrite (arrived_text node m _ old rest).
Qed.
End reception.

End LogTheorems.
