(* ===== verification/CmdHost.v ===== *)
(** * Commands on the host, and the Raspberry Pi processor

    The handlers of [src/system/cmdOBC.c] that report on the host ([obc_ident],
    [obc_get_os_memory], [obc_get_cwd], [obc_ls]) and [src/drivers/rpi/cpu.c].
    The directories, the allocator statistics and [system] are arguments; what is
    logged is returned. *)
From S2P Require Import Prelude CStr Config Storage StorageRam Schema RepoCommand RepoData FileTransfer CmdFP.
From S2P Require Import Tasks CmdSys.

Open Scope Z_scope.

Module CmdHost.
Import FileRx.

(** ** [cmdOBC.c] *)
Section handlers.
Context {T : Type}.

(** The text printed for the constants of the build. *)
Definition obc_ident (sch_name sch_sw_version : cstring) (sch_device_id : Z) : M T (Z * cstring) :=
  ret (CMD_OK, cs "Name: " ++ sch_name ++ [13; 10] ++ cs "ID  : " ++ print_dec sch_device_id ++ [13; 10] ++
               cs "Ver : " ++ sch_sw_version ++ [13; 10] ++ cs "Node: " ++ print_dec SCH_COMM_NODE ++ [13; 10]).

(** [mallinfo], the ten numbers in the order of the report; [None] without
    [SCH_HAVE_MALLOC]. *)
Definition obc_get_os_memory (mallinfo : option (list Z)) : M T (Z * list Z) :=
  match mallinfo with
  | Some mi => ret (CMD_OK, take 10 mi)
  | None => ret (CMD_ERROR, [])
  end.

Definition obc_get_cwd (getcwd : option cstring) : M T (Z * option cstring) :=
  match getcwd with
  | Some cwd => ret (CMD_OK, Some cwd)
  | None => ret (CMD_ERROR, None)
  end.

(** The loop of [obc_ls]: [fstat] keeps what an earlier [stat] wrote, nothing
    at first; [file_path] has [path_len] bytes; [%d] prints 32 bits of the size. *)
Fixpoint ls_loop (stat : cstring -> option Z) (path : cstring) (fstat : option Z) (names : list cstring)
  : M T (list (Z * cstring)) :=
  match names with
  | [] => ret []
  | d_name :: names =>
      let path_len := strlen path + strlen d_name + 2 in
      let file_path := snprintf_trunc path_len (path ++ [47] ++ d_name) in
      let fstat := match stat file_path with Some n => Some n | None => fstat end in
      match fstat with
      | None => fail Uninitialized
      | Some st_size =>
          let! lines := ls_loop stat path fstat names in
          ret ((i32_of st_size, d_name) :: lines)
      end
  end.

Definition obc_ls (opendir : cstring -> option (list cstring)) (stat : cstring -> option Z)
    (params : option (list Z)) : M T (Z * list (Z * cstring)) :=
  let! path := match params with Some buf => lift (cstr_of_buf buf) | None => ret (cs ".") end in
  match opendir path with
  | Some names => let! lines := ls_loop stat path None names in ret (CMD_OK, lines)
  | None => ret (CMD_ERROR, [])
  end.
End handlers.

(** ** [rpi/cpu.c]

    The commands given to [system] are returned. *)
Definition toggle (pin : cstring) : list cstring := [cs "gpio -g mode " ++ pin ++ cs " out"; cs "gpio -g toggle " ++ pin].
Definition cpu_debug (arg : Z) : Z * list cstring :=
  (1, if (arg =? 0) || (arg =? 16) then toggle (cs "16")
      else if (arg =? 1) || (arg =? 17) then toggle (cs "17")
      else if (arg =? 2) || (arg =? 22) then toggle (cs "22")
      else if (arg =? 3) || (arg =? 23) then toggle (cs "23")
      else if (arg =? 4) || (arg =? 24) then toggle (cs "24")
      else if (arg =? 5) || (arg =? 25) then toggle (cs "25")
      else if (arg =? 6) || (arg =? 26) then toggle (cs "26")
      else if (arg =? 7) || (arg =? 27) then toggle (cs "27")
      else []).
Definition cpu_reset_wdt (arg : Z) : Z := 0.

(** [cpu_set_unixtime]: the command, in an array of 64 bytes, and the result. *)
Definition time_command (time : Z) : cstring := snprintf_trunc 64 (cs "sudo date +%s -s @" ++ print_dec time).
Definition cpu_set_unixtime (system : cstring -> Z) (time : Z) : Z :=
  if negb (system (time_command time) =? 0) then 1 else 0.

(** The process exits, or asks for a restart of the machine and goes on. *)
Definition cpu_reboot (arg : Z) : option CmdOBC.outcome * list cstring :=
  if arg =? 0 then (Some CmdOBC.Exits, [])
  else if arg =? 1 then (None, [cs "sudo reboot"])
  else (Some CmdOBC.Exits, []).

End CmdHost.

Module CmdHostTheorems.
Import FileRx CmdHost.

(** [obc_ls] reports every name of the directory with its size, and looks each
    up under its whole path: no path is cut. *)
Theorem obc_ls_lists {T} opendir (stat : cstring -> option Z) (size : cstring -> Z) path names rest (s : T) :
  is_cstr path -> opendir path = Some names ->
  Forall (fun n => stat (path ++ [47] ++ n) = Some (size n)) names ->
  obc_ls opendir stat (Some (path ++ 0 :: rest)) s = Ret ((CMD_OK, map (fun n => (i32_of (size n), n)) names), s).
Proof.
  intros Hp Ho Hs. unfold obc_ls, bind, lift. rewrite cstr_of_buf_nul, Ho by done.
  assert (forall names fs, Forall (fun n => stat (path ++ [47] ++ n) = Some (size n)) names ->
    ls_loop stat path fs names s = Ret (map (fun n => (i32_of (size n), n)) names, s)) as Hl; [|by rewrite Hl].
  clear. induction names as [|n names IH]; intros fs Hs; [done|]. apply Forall_cons in Hs as [Hn Hs]. cbn [ls_loop map].
  assert (snprintf_trunc (strlen path + strlen n + 2) (path ++ [47] ++ n) = path ++ [47] ++ n) as ->.
  { unfold snprintf_trunc. apply take_ge. rewrite !length_app. unfold strlen, zlength. cbn [length]. lia. }
  rewrite Hn. unfold bind. by rewrite IH.
Qed.

(** The result of [stat] is not looked at: a name that cannot be examined, such
    as a link to nothing, is reported with the size of the one before it, and
    when it comes first with an indeterminate one. *)
Theorem obc_ls_stale_size {T} (stat : cstring -> option Z) path bad n good names (s : T) :
  stat (path ++ [47] ++ bad) = None ->
  ls_loop stat path None (bad :: names) s = Fault Uninitialized /\
  (stat (path ++ [47] ++ good) = Some n ->
   ls_loop stat path None [good; bad] s = Ret ([(i32_of n, good); (i32_of n, bad)], s)).
Proof.
  intros Hb.
  assert (forall m, snprintf_trunc (strlen path + strlen m + 2) (path ++ [47] ++ m) = path ++ [47] ++ m) as Hc.
  { intros m. unfold snprintf_trunc. apply take_ge. rewrite !length_app. unfold strlen, zlength. cbn [length]. lia. }
  cbn [ls_loop]. rewrite !Hc, Hb. split; [done|]. intros Hg. by rewrite Hg.
Qed.

Lemma length_print_64 z : - 2 ^ 63 <= z < 2 ^ 63 -> (length (print_dec z) <= 20)%nat.
Proof.
  unfold print_dec. intros Hz. destruct (z <? 0) eqn:E; bool_to_prop; cbn [length].
  - pose proof (length_dec_digits 18 20 (- z) [] ltac:(cbn; lia)). cbn [length] in *. lia.
  - pose proof (length_dec_digits 18 20 z [] ltac:(cbn; lia)). cbn [length] in *. lia.
Qed.

(** The array of [cpu_set_unixtime] holds the whole command for every 64-bit
    time. *)
Theorem time_command_whole time :
  - 2 ^ 63 <= time < 2 ^ 63 -> time_command time = cs "sudo date +%s -s @" ++ print_dec time.
Proof.
  intros Ht. pose proof (length_print_64 time Ht). unfold time_command, snprintf_trunc. apply take_ge.
  rewrite length_app. change (length (cs "sudo date +%s -s @")) with 18%nat. lia.
Qed.

(** The pins of the header comment: argument [i] and the pin it stands for do
    the same, other arguments nothing, and every answer is 1, which
    [obc_debug] takes for a failure. *)
Theorem cpu_debug_pins arg :
  (cpu_debug arg).1 = 1 /\
  (forall i pin, (i, pin) ∈ [(0, 16); (1, 17); (2, 22); (3, 23); (4, 24); (5, 25); (6, 26); (7, 27)] ->
     (cpu_debug i).2 = toggle (print_dec pin) /\ (cpu_debug pin).2 = toggle (print_dec pin)) /\
  ((cpu_debug arg).2 <> [] -> arg ∈ [0; 1; 2; 3; 4; 5; 6; 7; 16; 17; 22; 23; 24; 25; 26; 27]).
Proof.
  split; [done|]. split.
  - intros i pin Hi. repeat (apply elem_of_cons in Hi as [[= -> ->]|Hi]; [by vm_compute|]). by apply elem_of_nil in Hi.
  - intros Hne. cbn in Hne. destruct (decide (arg ∈ [0; 1; 2; 3; 4; 5; 6; 7; 16; 17; 22; 23; 24; 25; 26; 27])) as [|Hn]; [done|].
    exfalso. rewrite !not_elem_of_cons in Hn. destruct_and? Hn.
    repeat match goal with H : arg <> _ |- _ => apply Z.eqb_neq in H; rewrite H in Hne; clear H end. by cbn in Hne.
Qed.

End CmdHostTheorems.
