(* ===== verification/Sensors.v ===== *)
(** * Sampling of the sensors

    The sampling state machine of the application [suchai]:
    [apps/suchai/src/taskSensors.c] and the commands of
    [apps/suchai/src/cmdSensors.c] that drive it.  The data schema of this
    application is not in the repository; the five status variables the task
    uses are parameters, [mach_vars].  [take_sample] fills structures of that
    schema and is left out. *)
From S2P Require Import Prelude Memory CStr Config Storage StorageRam Schema RepoCommand RepoData.
From S2P Require Import CmdFP Telemetry FileTransfer CmdTM Registry Clients Tasks.

Module Sensors.
Import RepoCommand RepoData Clients.

Definition ACT_PAUSE : Z := 0.
Definition ACT_START : Z := 1.
Definition ACT_STAND_BY : Z := 2.
Definition ST_PAUSE : Z := 0.
Definition ST_SAMPLING : Z := 1.

(** The addresses of the status variables of the task. *)
Record mach_vars := MachVars {
  dat_drp_mach_action : Z;
  dat_drp_mach_state : Z;
  dat_drp_mach_step : Z;
  dat_drp_mach_payloads : Z;
  dat_drp_mach_left : Z
}.

Definition nsensors : Z := 4.
Definition init_cmds : list cstring := replicate 4 (cs "sen_init_dummy").
Definition get_cmds : list cstring := replicate 4 (cs "sen_take_sample").

Section sensors.
Context {S F : Type} `{Storage S}.
Variable V : mach_vars.

Definition set_machine (m : dat_stmachine_t) : M (dat S) unit :=
  modify (fun d => Dat (store d) (unixtime d) (settime_ok d) m).

(** ** [taskSensors] before its loop *)
Definition sensors_start : M (client S F) unit :=
  let! action := data (dat_get_system_var (dat_drp_mach_action V)) in
  let! state := data (dat_get_system_var (dat_drp_mach_state V)) in
  let! step := data (dat_get_system_var (dat_drp_mach_step V)) in
  let! active_payloads := data (dat_get_system_var (dat_drp_mach_payloads V)) in
  let! samples_left := data (dat_get_system_var (dat_drp_mach_left V)) in
  data (set_machine
    (if (action <? 0) || (state <? 0) || (active_payloads <? 0) || (step <? 0)
     then StMachine ST_PAUSE ACT_START 0 5 (-1) nsensors
     else StMachine state action active_payloads step samples_left nsensors)) ;!
  for_ (range nsensors) (fun i =>
    let! name := arr_get init_cmds i in
    let! cmd_init := cmds (cmd_get_str name) in
    cmd_send cmd_init).

(** ** One turn of the loop *)
Definition apply_action (m : dat_stmachine_t) : dat_stmachine_t :=
  let set st := StMachine st ACT_STAND_BY (sm_active_payloads m) (sm_step m) (sm_samples_left m) (sm_total_sensors m) in
  if negb (sm_action m =? ACT_STAND_BY) then
    if sm_action m =? ACT_START then set ST_SAMPLING
    else if sm_action m =? ACT_PAUSE then set ST_PAUSE
    else m
  else m.

(** The command of sensor [i], when it is active. *)
Definition sample_sensor (m : dat_stmachine_t) (i : Z) : M (client S F) unit :=
  let! active := data (dat_stmachine_is_sensor_active i (i32_of (sm_active_payloads m)) (i32_of (sm_total_sensors m))) in
  if negb (active =? 0) then
    let! name := arr_get get_cmds i in
    let! cmd_get := cmds (cmd_get_str name) in
    let! cmd_get := cmds (cmd_add_params_str cmd_get (chr_space :: print_dec i)) in
    cmd_send cmd_get
  else ret tt.

(** What the state asks for: end of the quota, a round of samples, or nothing. *)
Definition run_state (elapsed_sec : Z) (m : dat_stmachine_t) : M (client S F) unit :=
  if sm_state m =? ST_SAMPLING then
    if sm_samples_left m =? 0 then
      data (set_machine (StMachine ST_PAUSE ACT_STAND_BY (sm_active_payloads m) (sm_step m)
                           (sm_samples_left m) (sm_total_sensors m)))
    else if sm_step m =? 0 then fail DivByZero
    else if u32_of elapsed_sec mod sm_step m =? 0 then
      for_ (range nsensors) (sample_sensor m) ;!
      if negb (sm_samples_left m =? -1) then
        let! left := cint (sm_samples_left m - 1) in
        data (set_machine (StMachine (sm_state m) (sm_action m) (sm_active_payloads m) (sm_step m)
                             left (sm_total_sensors m)))
      else ret tt
    else ret tt
  else ret tt.

Definition sensors_tick (elapsed_sec : Z) : M (client S F) Z :=
  let! m := data (gets status_machine) in
  let m := apply_action m in
  data (set_machine m) ;!
  run_state elapsed_sec m ;!
  let! m := data (gets status_machine) in
  data (dat_set_system_var (dat_drp_mach_action V) (i32_of (sm_action m))) ;!
  data (dat_set_system_var (dat_drp_mach_state V) (i32_of (sm_state m))) ;!
  data (dat_set_system_var (dat_drp_mach_step V) (i32_of (sm_step m))) ;!
  data (dat_set_system_var (dat_drp_mach_payloads V) (i32_of (sm_active_payloads m))) ;!
  data (dat_set_system_var (dat_drp_mach_left V) (sm_samples_left m)) ;!
  cint (elapsed_sec + 1).

(** [n] turns. *)
Fixpoint sensors_ticks (n : nat) (elapsed_sec : Z) : M (client S F) Z :=
  match n with
  | O => ret elapsed_sec
  | Datatypes.S n => let! e := sensors_tick elapsed_sec in sensors_ticks n e
  end.

(** ** Commands *)
Definition set_state (fmt : cstring) (params : option (list Z)) (nparams : Z) : M (dat S) Z :=
  let! r := scan_params params fmt in
  match r with
  | None => ret CMD_SYNTAX_ERROR
  | Some (_, n, vals) =>
      if n =? nparams then
        match vals with
        | [VUInt action; VUInt step; VInt nsamples] =>
            let! rc := dat_set_stmachine_state action step nsamples in
            ret (if negb (rc =? 0) then CMD_OK else CMD_ERROR)
        | _ => fail Uninitialized
        end
      else ret CMD_SYNTAX_ERROR
  end.

Definition set_active (f : Z -> Z) : M (dat S) unit :=
  modify (fun d =>
    let m := status_machine d in
    Dat (store d) (unixtime d) (settime_ok d)
      (StMachine (sm_state m) (sm_action m) (f (sm_active_payloads m)) (sm_step m) (sm_samples_left m) (sm_total_sensors m))).

(** [(unsigned int)1 << n] *)
Definition ushift1 (n : Z) : M (dat S) Z :=
  if (0 <=? n) && (n <? 32) then ret (Z.shiftl 1 n) else fail BadShift.

Definition activate_sensor (fmt : cstring) (params : option (list Z)) (nparams : Z) : M (dat S) Z :=
  let! r := scan_params params fmt in
  match r with
  | None => ret CMD_SYNTAX_ERROR
  | Some (_, n, vals) =>
      if n =? nparams then
        match vals with
        | [VInt payload; VInt activate] =>
            let! m := gets status_machine in
            if payload <? 0 then
              (if activate =? 0 then set_active (fun _ => 0)
               else set_active (fun _ => 0) ;!
                    for_ (range (sm_total_sensors m)) (fun i =>
                      let! b := shift1 i in set_active (fun a => u32_of (a + b)))) ;!
              ret CMD_OK
            else if sm_total_sensors m <=? u32_of payload then ret CMD_SYNTAX_ERROR else
            let! active := dat_stmachine_is_sensor_active payload (i32_of (sm_active_payloads m)) (i32_of (sm_total_sensors m)) in
            if (activate =? 1) && (active =? 0) then
              let! bit := ushift1 payload in
              set_active (Z.lor bit) ;! ret CMD_OK
            else if (activate =? 0) && negb (active =? 0) then
              let! bit := ushift1 payload in
              set_active (Z.lxor bit) ;! ret CMD_OK
            else ret CMD_SYNTAX_ERROR
        | _ => fail Uninitialized
        end
      else ret CMD_SYNTAX_ERROR
  end.

Definition init_dummy_sensor (fmt : cstring) (params : option (list Z)) (nparams : Z) : M (dat S) Z :=
  ret CMD_OK.

End sensors.

(** ** Registration *)
Inductive sensor_fn := cmd_null | fn_set_state | fn_activate_sensor | fn_take_sample | fn_init_dummy_sensor.
Definition cmd_sensors_init : M (cmd_repo sensor_fn) unit :=
  cmd_add (cs "sen_set_machine") fn_set_state (cs "%u %u %d") 3 ;!
  cmd_add (cs "sen_activate") fn_activate_sensor (cs "%d %d") 2 ;!
  cmd_add (cs "sen_take_sample") fn_take_sample (cs "%u") 1 ;!
  cmd_add (cs "sen_init_dummy") fn_init_dummy_sensor [] 0 ;!
  ret tt.
End Sensors.

(** ** Laws *)
Module SensorsLaws.
Import RepoCommand RepoCommandLaws RepoCommandParse RepoData RepoDataLaws Clients TaskLaws Sensors.

(** The values the fields of the machine can have: [step] is an [unsigned int]. *)
Definition machine_ok (m : dat_stmachine_t) : Prop :=
  0 <= sm_state m < 2 /\ 0 <= sm_action m < ACT_LAST /\ 0 < sm_step m < 2 ^ 32 /\
  -1 <= sm_samples_left m <= INT_MAX /\ sm_total_sensors m = nsensors /\ 0 <= sm_active_payloads m < 16.

#[export] Instance machine_ok_dec m : Decision (machine_ok m).
Proof. unfold machine_ok. apply _. Defined.

(** Distinct variables of the status table. *)
Definition vars_list (V : mach_vars) : list Z :=
  [dat_drp_mach_action V; dat_drp_mach_state V; dat_drp_mach_step V; dat_drp_mach_payloads V; dat_drp_mach_left V].
Definition vars_ok (V : mach_vars) : Prop :=
  NoDup (vars_list V) /\ Forall (fun a => 0 <= a < dat_status_last_address) (vars_list V).

(** The reference: one turn of the machine, and whether it samples. *)
Definition sampling (m : dat_stmachine_t) : bool := (sm_state m =? ST_SAMPLING) && negb (sm_samples_left m =? 0).
Definition due (e : Z) (m : dat_stmachine_t) : bool := sampling (apply_action m) && (e mod sm_step m =? 0).
Definition next (e : Z) (m : dat_stmachine_t) : dat_stmachine_t :=
  let m := apply_action m in
  if negb (sm_state m =? ST_SAMPLING) then m
  else if sm_samples_left m =? 0
  then StMachine ST_PAUSE ACT_STAND_BY (sm_active_payloads m) (sm_step m) 0 (sm_total_sensors m)
  else if (e mod sm_step m =? 0) && negb (sm_samples_left m =? -1)
  then StMachine (sm_state m) (sm_action m) (sm_active_payloads m) (sm_step m) (sm_samples_left m - 1) (sm_total_sensors m)
  else m.

Lemma apply_action_ok m : machine_ok m ->
  machine_ok (apply_action m) /\ sm_action (apply_action m) = ACT_STAND_BY /\ sm_step (apply_action m) = sm_step m /\
  sm_active_payloads (apply_action m) = sm_active_payloads m /\ sm_samples_left (apply_action m) = sm_samples_left m.
Proof.
  unfold machine_ok, apply_action, ACT_LAST, ACT_STAND_BY, ACT_START, ACT_PAUSE, ST_SAMPLING, ST_PAUSE.
  intros (Hst & Hac & Hsp & Hl & Ht & Hp).
  destruct (sm_action m =? 2) eqn:E2; cbn [negb]; bool_to_prop; [splits; lia|].
  destruct (sm_action m =? 1) eqn:E1; bool_to_prop; [cbn; splits; lia|].
  destruct (sm_action m =? 0) eqn:E0; bool_to_prop; [cbn; splits; lia|lia].
Qed.

Lemma next_ok e m : machine_ok m -> machine_ok (next e m).
Proof.
  intros Hm. destruct (apply_action_ok m Hm) as [Ha _]. unfold next.
  destruct (negb (sm_state (apply_action m) =? ST_SAMPLING)); [done|].
  pose proof Ha as (Hst & Hac & Hsp & Hl & Ht & Hp).
  destruct (sm_samples_left (apply_action m) =? 0) eqn:E0; bool_to_prop.
  { unfold machine_ok, ST_PAUSE, ACT_STAND_BY, ACT_LAST, INT_MAX in *; cbn; splits; try done; lia. }
  destruct (_ && _) eqn:E; [|done]. bool_to_prop. unfold machine_ok; cbn; splits; try done; lia.
Qed.

Section laws.
Context {S F : Type} `{StorageLaws S}.
Implicit Types (s : client S F) (d : dat S).

Definition with_machine (m : dat_stmachine_t) d : dat S := Dat (store d) (unixtime d) (settime_ok d) m.

Lemma with_machine_ok m d : dat_ok d -> dat_ok (with_machine m d).
Proof. done. Qed.

Lemma set_machine_step m s : data (set_machine m) s = Ret (tt, with_dat (with_machine m (cl_dat s)) s).
Proof. done. Qed.

(** The commands of one round of sampling. *)
Definition sample_cmd (r : cmd_repo F) (i : Z) : list (cmd_t F) :=
  match find_name (cs "sen_take_sample") (cmd_list r) with
  | Some (k, e) => [with_args (cmd_of (Z.of_nat k) e) (chr_space :: print_dec i)]
  | None => []
  end.
Definition round (r : cmd_repo F) (active : Z) : list (cmd_t F) :=
  concat (map (fun i => if Z.testbit active i then sample_cmd r i else []) (range nsensors)).

Lemma active_ok i a d : 0 <= i < 4 -> 0 <= a < 16 ->
  dat_stmachine_is_sensor_active i a 4 d = Ret (Z.b2z (Z.testbit a i), d).
Proof.
  intros Hi Ha. unfold dat_stmachine_is_sensor_active, shift1. change ((0 <=? 4) && (4 <? 31)) with true. cbv iota.
  unfold bind at 1, ret at 1. change (Z.shiftl 1 4) with 16. rewrite (proj2 (Z.leb_gt 16 a)) by lia.
  rewrite (proj2 (Z.leb_le 0 i)), (proj2 (Z.ltb_lt i 31)) by lia. cbn [andb]. unfold bind, ret.
  destruct (Z.testbit a i) eqn:E; (destruct (Z.land a (Z.shiftl 1 i) =? 0) eqn:E0; cbn [negb Z.b2z]; bool_to_prop; [|]); try done.
  - assert (Z.testbit (Z.land a (Z.shiftl 1 i)) i = true) as K; [|by rewrite E0, Z.bits_0 in K].
    rewrite Z.land_spec, E, Z.shiftl_spec, Z.sub_diag by lia. done.
  - destruct E0. apply Z.bits_inj'. intros n Hn. rewrite Z.land_spec, Z.shiftl_spec, Z.bits_0 by lia.
    destruct (decide (n = i)) as [->|Hne]; [by rewrite E|].
    destruct (decide (n < i)) as [Hlt|Hge]; [by rewrite (Z.testbit_neg_r 1), andb_false_r by lia|].
    replace (n - i) with (Z.succ (n - i - 1)) by lia. change 1 with (2 * 0 + 1).
    rewrite Z.testbit_odd_succ, Z.bits_0, andb_false_r by lia. done.
Qed.

Lemma sample_sensor_ok m i s : machine_ok m -> repo_ok (cl_cmds s) -> 0 <= i < 4 ->
  sample_sensor m i s =
    Ret (tt, with_sent (if Z.testbit (sm_active_payloads m) i then sample_cmd (cl_cmds s) i else []) s).
Proof.
  intros (_ & _ & _ & _ & Ht & Hp) Hr Hi. unfold sample_sensor. rewrite Ht.
  rewrite (i32_of_id (sm_active_payloads m)) by (unfold INT_MIN, INT_MAX; lia). change (i32_of nsensors) with 4.
  rewrite (bind_step _ _ _ _ _ (data_pure _ s _ (active_ok i _ (cl_dat s) Hi Hp))).
  destruct (Z.testbit (sm_active_payloads m) i); cbn [Z.b2z Z.eqb negb]; [|by rewrite with_sent_nil].
  assert (zlookup get_cmds i = Some (cs "sen_take_sample")) as Hg.
  { unfold zlookup, get_cmds. rewrite (proj2 (Z.ltb_ge i 0)) by lia. apply lookup_replicate_2. lia. }
  rewrite (bind_step _ _ _ _ _ (arr_get_Some _ _ _ s Hg)).
  exact (launch_ok (FpRow 0 (cs "sen_take_sample") (chr_space :: print_dec i) 0 0 0) s Hr).
Qed.

Lemma round_ok m s : machine_ok m -> repo_ok (cl_cmds s) ->
  for_ (range nsensors) (sample_sensor m) s = Ret (tt, with_sent (round (cl_cmds s) (sm_active_payloads m)) s).
Proof.
  intros Hm Hr. unfold round.
  assert (Forall (fun i => 0 <= i < 4) (range nsensors)) as Hx by (apply (bool_decide_unpack _); vm_compute; exact I).
  revert s Hr. induction Hx as [|i xs Hi _ IH]; intros s Hr; cbn [for_ map concat]; [by rewrite with_sent_nil|].
  rewrite (bind_step _ _ _ _ _ (sample_sensor_ok m i s Hm Hr Hi)). rewrite IH by exact Hr. by rewrite with_sent_app.
Qed.

(** The machine is saved in the status variables. *)
Definition saved (V : mach_vars) (m : dat_stmachine_t) d : Prop :=
  var d (dat_drp_mach_action V) = sm_action m /\ var d (dat_drp_mach_state V) = sm_state m /\
  var d (dat_drp_mach_step V) = sm_step m /\ var d (dat_drp_mach_payloads V) = sm_active_payloads m /\
  var d (dat_drp_mach_left V) = u32_of (sm_samples_left m).

Lemma save_ok V m s : vars_ok V -> machine_ok m -> dat_ok (cl_dat s) ->
  exists st', (data (dat_set_system_var (dat_drp_mach_action V) (i32_of (sm_action m))) ;!
    data (dat_set_system_var (dat_drp_mach_state V) (i32_of (sm_state m))) ;!
    data (dat_set_system_var (dat_drp_mach_step V) (i32_of (sm_step m))) ;!
    data (dat_set_system_var (dat_drp_mach_payloads V) (i32_of (sm_active_payloads m))) ;!
    data (dat_set_system_var (dat_drp_mach_left V) (sm_samples_left m))) s =
      Ret (SCH_ST_OK, with_dat (set_store st' (cl_dat s)) s) /\
    dat_ok (set_store st' (cl_dat s)) /\ saved V m (set_store st' (cl_dat s)) /\
    st_slots st' = st_slots (store (cl_dat s)) /\
    forall j, 0 <= j < dat_status_last_address -> j ∉ vars_list V -> var (set_store st' (cl_dat s)) j = var (cl_dat s) j.
Proof.
  intros [Hnd Hall] (Hst & Hac & Hsp & Hl & Ht & Hp) Hok.
  unfold vars_list in *. rewrite !Forall_cons in Hall. destruct Hall as (Ra & Rs & Rp & Ry & Rl & _).
  rewrite !NoDup_cons, !not_elem_of_cons in Hnd. destruct_and! Hnd. unfold ACT_LAST in Hac.
  destruct (data_set_ok s _ (i32_of (sm_action m)) Hok Ra) as (s1 & E1 & Hok1 & Hs1 & _ & V1). rewrite (bind_step _ _ _ _ _ E1).
  destruct (data_set_ok (with_dat (set_store s1 (cl_dat s)) s) _ (i32_of (sm_state m)) Hok1 Rs) as (s2 & E2 & Hok2 & Hs2 & _ & V2).
  rewrite (bind_step _ _ _ _ _ E2).
  destruct (data_set_ok (with_dat (set_store s2 (cl_dat s)) s) _ (i32_of (sm_step m)) Hok2 Rp) as (s3 & E3 & Hok3 & Hs3 & _ & V3).
  rewrite (bind_step _ _ _ _ _ E3).
  destruct (data_set_ok (with_dat (set_store s3 (cl_dat s)) s) _ (i32_of (sm_active_payloads m)) Hok3 Ry) as (s4 & E4 & Hok4 & Hs4 & _ & V4).
  rewrite (bind_step _ _ _ _ _ E4).
  destruct (data_set_ok (with_dat (set_store s4 (cl_dat s)) s) _ (sm_samples_left m) Hok4 Rl) as (s5 & E5 & Hok5 & Hs5 & _ & V5).
  exists s5. split; [exact E5|]. split; [exact Hok5|].
  cbn [cl_dat with_dat lset cl_dat_lens store set_store unixtime settime_ok status_machine] in *.
  unfold var in *. cbn [store set_store] in *.
  split; [|split; [congruence|]].
  - unfold saved, var. cbn [store set_store].
    rewrite !u32_of_i32_of in *.
    rewrite (u32_of_id (sm_step m)), (u32_of_id (sm_state m)), (u32_of_id (sm_action m)), (u32_of_id (sm_active_payloads m)) in * by lia.
    rewrite !V5, !V4, !V3, !V2, !V1 by done.
    splits; repeat case_decide; congruence.
  - intros j Hj Hn. rewrite !not_elem_of_cons in Hn. destruct_and! Hn.
    rewrite V5, V4, V3, V2, V1 by done. repeat case_decide; congruence.
Qed.

End laws.

Section tick.
Context {S F : Type} `{StorageLaws S}.
Implicit Types (s : client S F) (d : dat S).

(** The state of the task between two turns. *)
Definition task_ok s (m : dat_stmachine_t) : Prop :=
  dat_ok (cl_dat s) /\ repo_ok (cl_cmds s) /\ status_machine (cl_dat s) = m /\ machine_ok m.

(** The part of a turn that samples. *)
Lemma sampling_ok e m s : machine_ok m -> repo_ok (cl_cmds s) -> 0 <= e < 2 ^ 32 -> sm_action m = ACT_STAND_BY ->
  status_machine (cl_dat s) = m ->
  run_state e m s =
  Ret (tt, with_sent (if due e m then round (cl_cmds s) (sm_active_payloads m) else [])
             (with_dat (with_machine (next e m) (cl_dat s)) s)).
Proof.
  intros Hm Hr He Hact Hst. unfold run_state. pose proof Hm as (Hs & _ & Hsp & Hl & _).
  assert (apply_action m = m) as Ha by (unfold apply_action; by rewrite Hact).
  assert (with_dat (with_machine m (cl_dat s)) s = s) as Hsame
    by (destruct s as [d ? ?]; destruct d; cbn in Hst; by subst).
  unfold due, next, sampling. rewrite Ha. destruct (sm_state m =? ST_SAMPLING); cbn [negb andb].
  2: { by rewrite with_sent_nil, Hsame. }
  destruct (sm_samples_left m =? 0) eqn:E0; cbn [negb andb]; bool_to_prop.
  { rewrite set_machine_step, with_sent_nil, E0. done. }
  rewrite (proj2 (Z.eqb_neq (sm_step m) 0)) by lia. rewrite u32_of_id by done.
  destruct (e mod sm_step m =? 0); cbn [andb].
  2: { by rewrite with_sent_nil, Hsame. }
  rewrite (bind_step _ _ _ _ _ (round_ok m s Hm Hr)).
  destruct (sm_samples_left m =? -1); cbn [negb]; [by rewrite Hsame|].
  unfold bind at 1. rewrite cint_ok by (unfold INT_MIN; lia). by rewrite set_machine_step.
Qed.

Lemma tick_ok V e m s : vars_ok V -> task_ok s m -> 0 <= e < INT_MAX ->
  exists s', sensors_tick V e s = Ret (e + 1, s') /\ task_ok s' (next e m) /\ saved V (next e m) (cl_dat s') /\
    cl_cmds s' = cl_cmds s /\
    cl_sent s' = cl_sent s ++ (if due e m then round (cl_cmds s) (sm_active_payloads m) else []) /\
    st_slots (store (cl_dat s')) = st_slots (store (cl_dat s)) /\
    forall j, 0 <= j < dat_status_last_address -> j ∉ vars_list V -> var (cl_dat s') j = var (cl_dat s) j.
Proof.
  intros HV (Hok & Hr & Hst & Hm) He. unfold INT_MAX in He.
  destruct (apply_action_ok m Hm) as (Hm1 & Hact & Hsp & Hac & _).
  unfold sensors_tick. unfold bind at 1. change (data (gets status_machine) s) with (Ret (status_machine (cl_dat s), with_dat (cl_dat s) s)).
  rewrite Hst. replace (with_dat (cl_dat s) s) with s by (by destruct s). cbv zeta.
  rewrite (bind_step _ _ _ _ _ (set_machine_step (apply_action m) s)).
  set (s1 := with_dat (with_machine (apply_action m) (cl_dat s)) s).
  rewrite (bind_step _ _ _ _ _ (sampling_ok e (apply_action m) s1 Hm1 Hr ltac:(lia) Hact eq_refl)).
  assert (next e (apply_action m) = next e m /\ due e (apply_action m) = due e m) as [-> ->].
  { unfold next, due. assert (apply_action (apply_action m) = apply_action m) as ->; [|by rewrite Hsp].
    unfold apply_action at 1. by rewrite Hact. }
  rewrite Hac. change (cl_cmds s1) with (cl_cmds s). set (out := if due e m then _ else _).
  set (s2 := with_sent out (with_dat (with_machine (next e m) (cl_dat s1)) s1)).
  unfold bind at 1. change (data (gets status_machine) s2) with (Ret (next e m, s2)).
  destruct (save_ok V (next e m) s2 HV (next_ok e m Hm) Hok) as (st' & E & Hok' & Hsv & Hsl & Hv).
  exists (with_dat (set_store st' (cl_dat s2)) s2). split.
  - unfold bind in E |- *. do 5 (case_match; [|done]; simplify_eq; try case_match; simplify_eq).
    rewrite cint_ok by (unfold INT_MIN, INT_MAX; lia). done.
  - split; [by split; [|split; [|split; [|apply next_ok]]]|]. split; [exact Hsv|]. split; [done|]. split; [done|].
    split; [exact Hsl|]. intros j Hj Hn. rewrite Hv by done. done.
Qed.

End tick.

(** *** Turns and rounds *)

(** The machine after [n] turns from second [e], and the rounds it sampled. *)
Fixpoint run (n : nat) (e : Z) (m : dat_stmachine_t) : dat_stmachine_t * nat :=
  match n with
  | O => (m, O)
  | Datatypes.S n => let (m', k) := run n (e + 1) (next e m) in (m', if due e m then Datatypes.S k else k)
  end.

(** The multiples of [p] among [e .. e + n - 1]. *)
Definition multiples (p e : Z) (n : nat) : nat := length (filter (fun k => k mod p = 0) (seqZ e (Z.of_nat n))).

Lemma multiples_S p e n :
  multiples p e (Datatypes.S n) = if e mod p =? 0 then Datatypes.S (multiples p (e + 1) n) else multiples p (e + 1) n.
Proof.
  unfold multiples. rewrite seqZ_cons by lia. replace (Z.pred (Z.of_nat (Datatypes.S n))) with (Z.of_nat n) by lia.
  rewrite filter_cons. unfold Z.succ. case_decide as E; [by rewrite (proj2 (Z.eqb_eq _ _) E)|].
  by rewrite (proj2 (Z.eqb_neq _ _) E).
Qed.

Lemma multiples_app p e n k : multiples p e (n + k) = (multiples p e n + multiples p (e + Z.of_nat n) k)%nat.
Proof. unfold multiples. by rewrite Nat2Z.inj_add, seqZ_app, filter_app, length_app by lia. Qed.

Lemma multiples_none p e n : (forall k, e <= k < e + Z.of_nat n -> k mod p <> 0) -> multiples p e n = 0%nat.
Proof.
  revert e. induction n as [|n IH]; intros e Hk; [done|]. rewrite multiples_S.
  rewrite (proj2 (Z.eqb_neq _ 0)) by (apply Hk; lia). apply IH. intros k H. apply Hk. lia.
Qed.

(** A span of [p] seconds has one multiple of [p]. *)
Lemma multiples_period p e (n : nat) : 0 < p -> Z.of_nat n = p -> multiples p e n = 1%nat.
Proof.
  intros Hp Hn. assert (forall q k, q * p < k < (q + 1) * p -> k mod p <> 0) as Hno.
  { intros q k Hk Hm. apply Z.mod_divide in Hm as [b Hb]; [|lia].
    assert (q < b) by nia. assert (b < q + 1) by nia. lia. }
  pose proof (Z.div_mod e p ltac:(lia)) as Hq. set (q := e / p) in *.
  pose proof (Z.mod_pos_bound e p Hp) as Hr. destruct (decide (e mod p = 0)) as [H0|H0].
  - destruct n as [|n]; [lia|]. rewrite multiples_S, H0. cbn [Z.eqb]. f_equal. apply multiples_none. intros k Hk.
    apply (Hno q). lia.
  - set (r := p - e mod p). replace n with (Z.to_nat r + Z.to_nat (p - r))%nat by lia. rewrite multiples_app.
    rewrite (multiples_none p e (Z.to_nat r)) by (intros k Hk; apply (Hno q); lia).
    replace (Z.to_nat (p - r)) with (Datatypes.S (Z.to_nat (e mod p - 1))) by lia. rewrite multiples_S.
    replace (e + Z.of_nat (Z.to_nat r)) with ((q + 1) * p) by lia. rewrite Z.mod_mul by lia. cbn [Z.eqb Nat.add]. f_equal.
    apply multiples_none. intros k Hk. apply (Hno (q + 1)). lia.
Qed.

Lemma multiples_periods p e k (n : nat) : 0 < p -> Z.of_nat n = p -> multiples p e (k * n) = k.
Proof.
  intros Hp Hn. revert e. induction k as [|k IH]; intros e; [done|]. cbn [Nat.mul].
  by rewrite multiples_app, IH, multiples_period.
Qed.

(** What the machine still has to sample. *)
Definition quota (left : Z) (k : nat) : nat := if left =? -1 then k else Nat.min (Z.to_nat left) k.

(** Sampling, with no action pending. *)
Definition running (m : dat_stmachine_t) : Prop := sm_state m = ST_SAMPLING /\ sm_action m = ACT_STAND_BY.

Lemma next_running e m : machine_ok m -> running m -> sm_samples_left m <> 0 ->
  let k := sm_samples_left m in
  next e m = StMachine ST_SAMPLING ACT_STAND_BY (sm_active_payloads m) (sm_step m)
    (if (e mod sm_step m =? 0) && negb (k =? -1) then k - 1 else k) (sm_total_sensors m) /\
  due e m = (e mod sm_step m =? 0).
Proof.
  intros Hm [Hs Ha] Hl. assert (apply_action m = m) as Happ by (unfold apply_action; by rewrite Ha).
  unfold next, due, sampling. rewrite Happ, Hs. rewrite (proj2 (Z.eqb_neq _ 0) Hl). cbn.
  split; [|done]. destruct (_ && _); [by rewrite Ha|]. destruct m; cbn in *; congruence.
Qed.

Lemma next_paused e m : machine_ok m -> sm_state m = ST_PAUSE -> sm_action m = ACT_STAND_BY ->
  next e m = m /\ due e m = false.
Proof.
  intros Hm Hs Ha. assert (apply_action m = m) as Happ by (unfold apply_action; by rewrite Ha).
  unfold next, due, sampling. rewrite Happ, Hs. done.
Qed.

Lemma run_paused n e m : machine_ok m -> sm_state m = ST_PAUSE -> sm_action m = ACT_STAND_BY -> run n e m = (m, O).
Proof.
  intros Hm Hs Ha. revert e. induction n as [|n IH]; intros e; [done|]. cbn.
  destruct (next_paused e m Hm Hs Ha) as [-> ->]. by rewrite IH.
Qed.

Lemma run_running n : forall e m, machine_ok m -> running m ->
  let k := multiples (sm_step m) e n in
  snd (run n e m) = quota (sm_samples_left m) k /\
  sm_samples_left (fst (run n e m)) =
    (if sm_samples_left m =? -1 then -1 else sm_samples_left m - Z.of_nat (quota (sm_samples_left m) k)).
Proof.
  induction n as [|n IH]; intros e m Hm Hr; cbv zeta.
  { cbn. unfold quota. change (multiples (sm_step m) e 0) with 0%nat. rewrite Nat.min_0_r.
    destruct (sm_samples_left m =? -1) eqn:E; bool_to_prop; [done|]. split; [done|lia]. }
  pose proof Hm as (_ & _ & Hsp & Hl & _). pose proof (next_ok e m Hm) as Hn. rewrite multiples_S. cbn [run].
  destruct (decide (sm_samples_left m = 0)) as [E0|E0].
  - assert (next e m = StMachine ST_PAUSE ACT_STAND_BY (sm_active_payloads m) (sm_step m) 0 (sm_total_sensors m) /\ due e m = false) as [En Ed].
    { destruct Hr as [Hs Ha]. assert (apply_action m = m) as Happ by (unfold apply_action; by rewrite Ha).
      unfold next, due, sampling. rewrite Happ, Hs, E0. done. }
    rewrite Ed. rewrite run_paused by (done || by rewrite En). cbn. rewrite E0, En. done.
  - destruct (next_running e m Hm Hr E0) as [En Ed]. rewrite Ed.
    destruct (IH (e + 1) (next e m) Hn) as [IH1 IH2]; [by rewrite En|].
    destruct (run n (e + 1) (next e m)) as [m' k'] eqn:Erun. cbn [fst snd] in *.
    rewrite En in IH1, IH2. cbn [sm_step sm_samples_left] in IH1, IH2. unfold quota in *.
    destruct (e mod sm_step m =? 0); cbn [andb] in *.
    + destruct (sm_samples_left m =? -1) eqn:E1; cbn [negb] in *; [by rewrite E1 in *; subst|]. bool_to_prop.
      rewrite (proj2 (Z.eqb_neq (sm_samples_left m - 1) (-1))) in * by lia. split; lia.
    + by split.
Qed.

(** Enough turns leave the machine paused. *)
Lemma run_ends n : forall e m, machine_ok m -> running m -> 0 <= sm_samples_left m ->
  (Z.to_nat (sm_samples_left m) <= multiples (sm_step m) e n)%nat ->
  sm_state (fst (run (Datatypes.S n) e m)) = ST_PAUSE.
Proof.
  induction n as [|n IH]; intros e m Hm Hr Hl Hk; pose proof (next_ok e m Hm) as Hn;
    (destruct (decide (sm_samples_left m = 0)) as [E0|E0];
     [assert (sm_state (next e m) = ST_PAUSE /\ sm_action (next e m) = ACT_STAND_BY) as [Hp1 Hp2];
      [destruct Hr as [Hs Ha]; assert (apply_action m = m) as Happ by (unfold apply_action; by rewrite Ha);
       unfold next; rewrite Happ, Hs, E0; done|] |]).
  - done.
  - change (multiples (sm_step m) e 0) with 0%nat in Hk. lia.
  - change (run (Datatypes.S (Datatypes.S n)) e m) with
      (let (m', k) := run (Datatypes.S n) (e + 1) (next e m) in (m', if due e m then Datatypes.S k else k)).
    rewrite run_paused by done. exact Hp1.
  - change (run (Datatypes.S (Datatypes.S n)) e m) with
      (let (m', k) := run (Datatypes.S n) (e + 1) (next e m) in (m', if due e m then Datatypes.S k else k)).
    destruct (next_running e m Hm Hr E0) as [En Ed].
    assert (sm_state (fst (run (Datatypes.S n) (e + 1) (next e m))) = ST_PAUSE) as H.
    { rewrite multiples_S in Hk. apply IH; [done|by rewrite En|rewrite En; cbn|rewrite En; cbn [sm_step sm_samples_left]];
        rewrite (proj2 (Z.eqb_neq (sm_samples_left m) (-1))) by lia;
        destruct (e mod sm_step m =? 0); cbn [andb negb]; lia. }
    by destruct (run (Datatypes.S n) (e + 1) (next e m)).
Qed.

Lemma run_active n : forall e m, machine_ok m -> sm_active_payloads (fst (run n e m)) = sm_active_payloads m.
Proof.
  induction n as [|n IH]; intros e m Hm; [done|]. cbn [run]. specialize (IH (e + 1) (next e m) (next_ok e m Hm)).
  destruct (run n (e + 1) (next e m)) as [m' k]. cbn [fst] in *. rewrite IH.
  destruct (apply_action_ok m Hm) as (_ & _ & _ & Ha & _). unfold next. repeat case_match; cbn; done.
Qed.

Section ticks.
Context {S F : Type} `{StorageLaws S}.
Implicit Types (s : client S F) (d : dat S).

(** The task follows the machine. *)
Lemma ticks_ok V n : forall e m s, vars_ok V -> task_ok s m -> 0 <= e -> e + Z.of_nat n <= INT_MAX ->
  exists s', sensors_ticks V n e s = Ret (e + Z.of_nat n, s') /\ task_ok s' (fst (run n e m)) /\
    ((0 < n)%nat -> saved V (fst (run n e m)) (cl_dat s')) /\
    cl_sent s' = cl_sent s ++ concat (replicate (snd (run n e m)) (round (cl_cmds s) (sm_active_payloads m))).
Proof.
  induction n as [|n IH]; intros e m s HV Hs He Hmax; cbn [sensors_ticks].
  { exists s. cbn. rewrite Z.add_0_r, app_nil_r. splits; try done. lia. }
  destruct (tick_ok V e m s HV Hs ltac:(lia)) as (s1 & E1 & Hs1 & Hsv1 & Hc1 & Ho1 & _).
  rewrite (bind_step _ _ _ _ _ E1).
  destruct (IH (e + 1) (next e m) s1 HV Hs1 ltac:(lia) ltac:(lia)) as (s2 & E2 & Hs2 & Hsv2 & Ho2).
  exists s2. replace (e + Z.of_nat (Datatypes.S n)) with (e + 1 + Z.of_nat n) by lia. split; [exact E2|].
  assert (sm_active_payloads (next e m) = sm_active_payloads m) as Hact.
  { destruct Hs as (_ & _ & _ & Hm). pose proof (run_active 1 e m Hm) as H1. done. }
  cbn [run]. destruct (run n (e + 1) (next e m)) as [m' k] eqn:Erun. cbn [fst snd] in *.
  split; [exact Hs2|]. split.
  - intros _. destruct n as [|n']; [|apply Hsv2; lia]. cbn in Erun. injection Erun as <- <-.
    cbn in E2. unfold ret in E2. injection E2 as _ <-. exact Hsv1.
  - rewrite Ho2, Ho1, Hc1, Hact. destruct (due e m); [|by rewrite app_nil_r].
    cbn [replicate concat]. by rewrite <- app_assoc.
Qed.
End ticks.

(** *** Start, commands *)
Lemma vars_ok_left V : vars_ok V -> 0 <= dat_drp_mach_left V < dat_status_last_address.
Proof. intros [_ H]. unfold vars_list in H. rewrite !Forall_cons in H. tauto. Qed.

Lemma run_start n e m : machine_ok m -> sm_action m = ACT_START -> (0 < n)%nat ->
  exists m1, machine_ok m1 /\ running m1 /\ run n e m = run n e m1 /\ sm_step m1 = sm_step m /\
    sm_samples_left m1 = sm_samples_left m.
Proof.
  intros Hm Ha Hn. destruct (apply_action_ok m Hm) as (H1 & H2 & H3 & _ & H5). exists (apply_action m). splits; try done.
  - split; [|done]. unfold apply_action. by rewrite Ha.
  - destruct n as [|n]; [lia|]. cbn [run].
    assert (apply_action (apply_action m) = apply_action m) as Hid by (unfold apply_action at 1; by rewrite H2).
    unfold next, due. by rewrite Hid, H3.
Qed.

Section handlers.
Context {S F : Type} `{StorageLaws S}.
Implicit Types (s : client S F) (d : dat S).

(** The command that initialises a sensor. *)
Definition init_cmd (r : cmd_repo F) : list (cmd_t F) :=
  match find_name (cs "sen_init_dummy") (cmd_list r) with Some (i, e) => [cmd_of (Z.of_nat i) e] | None => [] end.

Lemma start_ok V s : dat_ok (cl_dat s) -> repo_ok (cl_cmds s) -> vars_ok V ->
  let v a := i32_of (var (cl_dat s) (a V)) in
  exists s', sensors_start V s = Ret (tt, s') /\
    status_machine (cl_dat s') =
      (if (v dat_drp_mach_action <? 0) || (v dat_drp_mach_state <? 0) || (v dat_drp_mach_payloads <? 0) || (v dat_drp_mach_step <? 0)
       then StMachine ST_PAUSE ACT_START 0 5 (-1) nsensors
       else StMachine (v dat_drp_mach_state) (v dat_drp_mach_action) (v dat_drp_mach_payloads) (v dat_drp_mach_step)
              (v dat_drp_mach_left) nsensors) /\
    store (cl_dat s') = store (cl_dat s) /\
    cl_sent s' = cl_sent s ++ concat (replicate 4 (init_cmd (cl_cmds s))).
Proof.
  intros Hok Hr [_ HV] v. unfold vars_list in HV. rewrite !Forall_cons in HV. destruct HV as (Ra & Rs & Rp & Ry & Rl & _).
  assert (forall a, 0 <= a < dat_status_last_address -> data (dat_get_system_var a) s = Ret (i32_of (var (cl_dat s) a), s)) as Hg
    by (intros a Ha; apply data_pure; by apply get_system_ok).
  unfold sensors_start. rewrite (bind_step _ _ _ _ _ (Hg _ Ra)), (bind_step _ _ _ _ _ (Hg _ Rs)), (bind_step _ _ _ _ _ (Hg _ Rp)).
  rewrite (bind_step _ _ _ _ _ (Hg _ Ry)), (bind_step _ _ _ _ _ (Hg _ Rl)).
  fold (v dat_drp_mach_action) (v dat_drp_mach_state) (v dat_drp_mach_payloads) (v dat_drp_mach_step) (v dat_drp_mach_left).
  rewrite (bind_step _ _ _ _ _ (set_machine_step _ s)). set (s1 := with_dat _ s).
  assert (forall xs s2, Forall (fun i => 0 <= i < 4) xs -> cl_cmds s2 = cl_cmds s ->
    for_ xs (fun i => let! name := arr_get init_cmds i in let! cmd_init := cmds (cmd_get_str name) in cmd_send cmd_init) s2 =
      Ret (tt, with_sent (concat (replicate (length xs) (init_cmd (cl_cmds s)))) s2)) as Hloop.
  { induction xs as [|i xs IH]; intros s2 Hx Hc; cbn [for_ length replicate concat]; [by rewrite with_sent_nil|].
    inversion Hx as [|? ? Hi Hxs]; subst.
    assert (zlookup init_cmds i = Some (cs "sen_init_dummy")) as Hz.
    { unfold zlookup, init_cmds. rewrite (proj2 (Z.ltb_ge i 0)) by lia. apply lookup_replicate_2. lia. }
    unfold bind at 1. rewrite (bind_step _ _ _ _ _ (arr_get_Some _ _ _ s2 Hz)).
    assert (repo_ok (cl_cmds s2)) as Hr2 by (by rewrite Hc).
    pose proof (send_named (cs "sen_init_dummy") s2 Hr2) as E. rewrite Hc in E. rewrite E.
    rewrite IH by done. by rewrite with_sent_app. }
  eexists. split; [apply (Hloop (range nsensors) s1); [apply (bool_decide_unpack _); vm_compute; exact I|done]|].
  split; [done|]. split; [done|]. done.
Qed.

Lemma set_state_ok d action step n :
  machine_ok (status_machine d) -> 0 <= action < 2 ^ 32 -> 0 <= step < 2 ^ 32 -> int_ok n ->
  let ok := (action <? ACT_LAST) && (0 <? step) && (-2 <? n) in
  let m := status_machine d in
  let m' := if ok then StMachine (sm_state m) action (sm_active_payloads m) step n (sm_total_sensors m) else m in
  set_state (cs "%u %u %d") (params_of [VUInt action; VUInt step; VInt n]) 3 d =
    Ret (if ok then CMD_OK else CMD_ERROR, with_machine m' d) /\ machine_ok m'.
Proof.
  intros Hm Ha Hs Hn ok m m'. split.
  - assert (Forall2 kind_val [KUInt; KUInt; KInt] [VUInt action; VUInt step; VInt n]) as Hk.
    { constructor; [done|]. constructor; [exact Hs|]. constructor; [exact Hn|constructor]. }
    unfold set_state, params_of. change (cs "%u %u %d") with (kinds_fmt [KUInt; KUInt; KInt]).
    rewrite (bind_step _ _ _ _ _ (scan_kinds _ _ d Hk)). change (zlength [VUInt action; VUInt step; VInt n] =? 3) with true.
    cbv iota. unfold dat_set_stmachine_state. rewrite (proj2 (Z.leb_le 0 action)) by lia. cbn [andb]. fold ok.
    unfold m'. destruct ok; [reflexivity|]. unfold bind, ret. cbn. by destruct d.
  - unfold m'. destruct ok eqn:E; [|exact Hm]. unfold ok in E. bool_to_prop.
    destruct Hm as (K1 & _ & _ & _ & K5 & K6). unfold machine_ok; cbn; unfold int_ok, INT_MIN, INT_MAX, ACT_LAST in *. fold m in K6. splits; try done; lia.
Qed.

(** The mask after [sen_activate p a], when the command is accepted. *)
Definition activated (p a mask : Z) : option Z :=
  if p <? 0 then Some (if a =? 0 then 0 else 15)
  else if nsensors <=? p then None
  else if (a =? 1) && negb (Z.testbit mask p) then Some (Z.lor (Z.shiftl 1 p) mask)
  else if (a =? 0) && Z.testbit mask p then Some (Z.lxor (Z.shiftl 1 p) mask)
  else None.

Lemma mask_range mask p : 0 <= mask < 16 -> 0 <= p < 4 ->
  0 <= Z.lor (Z.shiftl 1 p) mask < 16 /\ 0 <= Z.lxor (Z.shiftl 1 p) mask < 16.
Proof.
  intros Hm Hp.
  assert (Forall (fun p => Forall (fun mask => 0 <= Z.lor (Z.shiftl 1 p) mask < 16 /\ 0 <= Z.lxor (Z.shiftl 1 p) mask < 16)
    (seqZ 0 16)) (seqZ 0 4)) as Hall by (apply (bool_decide_unpack _); vm_compute; exact I).
  rewrite Forall_forall in Hall. specialize (Hall p ltac:(apply elem_of_seqZ; lia)). rewrite Forall_forall in Hall.
  apply Hall, elem_of_seqZ. lia.
Qed.

Lemma bit_shift p i : 0 <= p -> Z.testbit (Z.shiftl 1 p) i = (i =? p).
Proof. intros Hp. rewrite Z.shiftl_1_l, Z.pow2_bits_eqb by done. apply Z.eqb_sym. Qed.

Lemma activated_spec p a mask new i : 0 <= mask < 16 -> activated p a mask = Some new -> 0 <= i < 4 ->
  0 <= new < 16 /\ Z.testbit new i = if (p <? 0) || (i =? p) then negb (a =? 0) else Z.testbit mask i.
Proof.
  intros Hm. unfold activated, nsensors. destruct (p <? 0) eqn:E0; cbn [orb]; bool_to_prop.
  { intros [= <-] Hi. destruct (a =? 0); [by rewrite Z.bits_0|]. split; [lia|].
    assert (Forall (fun i => Z.testbit 15 i = true) (seqZ 0 4)) as Hall by (apply (bool_decide_unpack _); vm_compute; exact I).
    rewrite Forall_forall in Hall. apply Hall, elem_of_seqZ. lia. }
  destruct (4 <=? p) eqn:E4; bool_to_prop; [done|]. pose proof (mask_range mask p Hm ltac:(lia)) as [Ho Hx].
  destruct ((a =? 1) && _) eqn:E1; bool_to_prop.
  { intros [= <-] Hi. split; [exact Ho|]. rewrite Z.lor_spec, bit_shift by done. subst a. by destruct (i =? p). }
  destruct ((a =? 0) && _) eqn:E2; bool_to_prop; [|done].
  intros [= <-] Hi. split; [exact Hx|]. rewrite Z.lxor_spec, bit_shift by done. subst a.
  destruct (i =? p) eqn:Ei; bool_to_prop; [|by destruct (Z.testbit mask i)]. subst i.
  match goal with K : Z.testbit mask p = true |- _ => by rewrite K end.
Qed.

Lemma activate_ok d p a :
  machine_ok (status_machine d) -> int_ok p -> int_ok a ->
  let m := status_machine d in
  let new := activated p a (sm_active_payloads m) in
  activate_sensor (cs "%d %d") (params_of [VInt p; VInt a]) 2 d =
    Ret (if issome new then CMD_OK else CMD_SYNTAX_ERROR,
         with_machine (StMachine (sm_state m) (sm_action m) (default (sm_active_payloads m) new) (sm_step m)
                         (sm_samples_left m) (sm_total_sensors m)) d).
Proof.
  intros (_ & _ & _ & _ & Ht & Hm) Hp Ha m new.
  assert (Forall2 kind_val [KInt; KInt] [VInt p; VInt a]) as Hk by (constructor; [exact Hp|constructor; [exact Ha|constructor]]).
  unfold activate_sensor, params_of. change (cs "%d %d") with (kinds_fmt [KInt; KInt]).
  rewrite (bind_step _ _ _ _ _ (scan_kinds _ _ d Hk)). change (zlength [VInt p; VInt a] =? 2) with true. cbv iota.
  unfold bind at 1, gets. fold m in Ht, Hm |- *. unfold new, activated. rewrite Ht.
  assert (with_machine (StMachine (sm_state m) (sm_action m) (sm_active_payloads m) (sm_step m) (sm_samples_left m) nsensors) d = d) as Hid.
  { rewrite <- Ht. unfold m, with_machine. destruct d as [? ? ? []]. done. }
  destruct (p <? 0) eqn:E0; cbn [issome default]; bool_to_prop.
  { destruct (a =? 0); [unfold bind, set_active, modify, ret; cbn; by fold m; rewrite Ht|].
    change (range nsensors) with [0; 1; 2; 3]. unfold for_, bind, set_active, modify, ret, shift1. cbn. fold m. by rewrite Ht. }
  unfold nsensors in *. unfold int_ok, INT_MIN, INT_MAX in Hp. rewrite u32_of_id by lia.
  destruct (4 <=? p) eqn:E4; cbn [issome default]; bool_to_prop; [by rewrite Hid|].
  rewrite (i32_of_id (sm_active_payloads m)) by (unfold INT_MIN, INT_MAX; lia). change (i32_of 4) with 4.
  rewrite (bind_step _ _ _ _ _ (active_ok p _ d ltac:(lia) Hm)). unfold ushift1.
  rewrite (proj2 (Z.leb_le 0 p)), (proj2 (Z.ltb_lt p 32)) by lia. cbn [andb].
  destruct (Z.testbit (sm_active_payloads m) p); cbn [Z.b2z Z.eqb negb]; rewrite ?andb_false_r, ?andb_true_r;
    destruct (a =? 1), (a =? 0); cbn [issome default]; try (by rewrite Hid);
    unfold bind, set_active, modify, ret; cbn; fold m; by rewrite Ht.
Qed.

Lemma activated_ok d p a :
  machine_ok (status_machine d) -> machine_ok (StMachine (sm_state (status_machine d)) (sm_action (status_machine d))
    (default (sm_active_payloads (status_machine d)) (activated p a (sm_active_payloads (status_machine d))))
    (sm_step (status_machine d)) (sm_samples_left (status_machine d)) (sm_total_sensors (status_machine d))).
Proof.
  intros (H1 & H2 & H3 & H4 & H5 & H6). unfold machine_ok; cbn. splits; try done; try lia;
    (destruct (activated _ _ _) as [new|] eqn:E; cbn; [|lia]);
    destruct (activated_spec _ _ _ _ 0 H6 E ltac:(lia)); lia.
Qed.

End handlers.
End SensorsLaws.

(** ** Theorems *)
Module SensorsTheorems.
Import RepoCommand RepoCommandLaws RepoCommandParse RepoData RepoDataLaws RepoDataTheorems Clients TaskLaws Sensors SensorsLaws.

Section theorems.
Context {S F : Type} `{StorageLaws S}.
Variable V : mach_vars.
Hypothesis HV : vars_ok V.
Implicit Types (s : client S F) (d : dat S).

(** C24. Well-typed states: the fields of the sampling machine keep their ranges
    (a state and an action of the enumerations, a positive step, at least -1
    samples left, a mask of the four sensors) under every turn of the task (until its
    [int] of seconds overflows, after 2^31 - 1 of them) and under the commands that set the machine or a sensor, for every value of their
    parameters' types ([%u] and [%d]). *)
Theorem machine_stays_well_typed e m s d action step n p a :
  task_ok s m -> 0 <= e < INT_MAX ->
  machine_ok (status_machine d) -> 0 <= action < 2 ^ 32 -> 0 <= step < 2 ^ 32 -> int_ok n -> int_ok p -> int_ok a ->
  (exists s', sensors_tick V e s = Ret (e + 1, s') /\ machine_ok (status_machine (cl_dat s'))) /\
  (exists rc d', set_state (cs "%u %u %d") (params_of [VUInt action; VUInt step; VInt n]) 3 d = Ret (rc, d') /\
     machine_ok (status_machine d')) /\
  (exists rc d', activate_sensor (cs "%d %d") (params_of [VInt p; VInt a]) 2 d = Ret (rc, d') /\
     machine_ok (status_machine d')).
Proof.
  intros Hs He Hm Hact Hstep Hn Hp Ha. splits.
  - destruct (tick_ok V e m s HV Hs He) as (s' & E & (_ & _ & Hst & Hm') & _). exists s'. split; [exact E|]. by rewrite Hst.
  - destruct (set_state_ok d action step n Hm Hact Hstep Hn) as (E & Hm'). eexists _, _. split; [exact E|exact Hm'].
  - eexists _, _. split; [exact (activate_ok d p a Hm Hp Ha)|]. by apply activated_ok.
Qed.

(** [sen_activate] sets exactly the sensors it names: a negative payload
    with 0 clears all four sensors and with any other value sets all four;
    otherwise sensor [p] is set with 1 and cleared with 0, and the command is
    refused, changing nothing, when the payload does not exist, when the sensor
    already is as asked, or for another value. *)
Theorem activate_sensor_sets_bit d p a :
  machine_ok (status_machine d) -> int_ok p -> int_ok a ->
  exists rc d', activate_sensor (cs "%d %d") (params_of [VInt p; VInt a]) 2 d = Ret (rc, d') /\
    let old := Z.testbit (sm_active_payloads (status_machine d)) in
    let new := Z.testbit (sm_active_payloads (status_machine d')) in
    (rc = CMD_OK <-> p < 0 \/ p < nsensors /\ (a = 1 /\ old p = false \/ a = 0 /\ old p = true)) /\
    (rc <> CMD_OK -> d' = d) /\
    (rc = CMD_OK -> forall i, 0 <= i < nsensors ->
       new i = if (p <? 0) || (i =? p) then negb (a =? 0) else old i).
Proof.
  intros Hm Hp Ha. pose proof Hm as (_ & _ & _ & _ & _ & Hmask). eexists _, _. split; [exact (activate_ok d p a Hm Hp Ha)|].
  destruct (activated p a (sm_active_payloads (status_machine d))) as [new|] eqn:E; cbn [issome default].
  - splits; [|done|].
    + split; [|done]. intros _. unfold activated in E. destruct (p <? 0) eqn:E0; bool_to_prop; [by left|]. right.
      destruct (nsensors <=? p) eqn:E4; bool_to_prop; [done|]. split; [done|].
      destruct ((a =? 1) && _) eqn:E1; bool_to_prop; [by left|]. destruct ((a =? 0) && _) eqn:E2; bool_to_prop; [by right|done].
    + intros _ i Hi. by apply (activated_spec _ _ _ _ _ Hmask E).
  - splits; [|intros _; by destruct d as [? ? ? []]|done].
    split; [done|]. unfold activated in E. intros [Hlt|[Hlt Hcase]]; [by rewrite (proj2 (Z.ltb_lt _ _) Hlt) in E|].
    destruct (p <? 0) eqn:E0; [done|]. rewrite (proj2 (Z.leb_gt _ _) Hlt) in E.
    destruct Hcase as [[-> Hb]|[-> Hb]]; rewrite Hb in E; done.
Qed.

(** C23. Sampling as often as asked: from a pending start with [left] samples
    to take (-1: no limit) every [step] seconds, after [n] turns the task has
    sent one round, the commands of the active sensors in order, for each
    multiple of [step] among the seconds, but no more than [left] rounds; what
    is left has been counted down and saved, and the machine has stopped one
    turn after the last round. *)
Theorem sensors_sample_quota n e m s :
  task_ok s m -> sm_action m = ACT_START -> 0 <= e -> e + Z.of_nat (Datatypes.S n) <= INT_MAX ->
  let k := quota (sm_samples_left m) (multiples (sm_step m) e (Datatypes.S n)) in
  exists s', sensors_ticks V (Datatypes.S n) e s = Ret (e + Z.of_nat (Datatypes.S n), s') /\
    cl_sent s' = cl_sent s ++ concat (replicate k (round (cl_cmds s) (sm_active_payloads m))) /\
    dat_get_system_var (dat_drp_mach_left V) (cl_dat s') =
      Ret (if sm_samples_left m =? -1 then -1 else sm_samples_left m - Z.of_nat k, cl_dat s') /\
    (0 <= sm_samples_left m -> (Z.to_nat (sm_samples_left m) <= multiples (sm_step m) e n)%nat ->
     sm_state (status_machine (cl_dat s')) = ST_PAUSE).
Proof.
  intros Hs Hact He Hmax k. pose proof Hs as (_ & _ & _ & Hm).
  destruct (ticks_ok V (Datatypes.S n) e m s HV Hs He Hmax) as (s' & E & (Hok & _ & Hst & Hm') & Hsv & Hsent).
  destruct (run_start (Datatypes.S n) e m Hm Hact ltac:(lia)) as (m1 & Hm1 & Hr1 & Erun & Hst1 & Hl1).
  rewrite Erun in *. destruct (run_running (Datatypes.S n) e m1 Hm1 Hr1) as [K1 K2]. rewrite Hst1, Hl1 in *. fold k in K1, K2.
  exists s'. split; [exact E|]. rewrite K1 in Hsent. split; [exact Hsent|].
  destruct Hm' as (_ & _ & _ & Hl' & _). specialize (Hsv ltac:(lia)). destruct Hsv as (_ & _ & _ & _ & Hv). split.
  - rewrite get_system_ok; [|done|apply (vars_ok_left V HV)]. rewrite Hv, i32_of_u32_id by (unfold INT_MIN; lia). by rewrite K2.
  - intros Hl0 Hk. rewrite Hst. apply run_ends; [done|done|by rewrite Hl1|by rewrite Hl1, Hst1].
Qed.

(** A restart does not lose the schedule: the machine that a turn of the
    task saved is the machine that the task loads when it starts again, as long as
    its step is a positive [int]. *)
Theorem sensors_restart_resumes m s :
  dat_ok (cl_dat s) -> repo_ok (cl_cmds s) -> machine_ok m -> sm_step m <= INT_MAX -> saved V m (cl_dat s) ->
  exists s', sensors_start V s = Ret (tt, s') /\ status_machine (cl_dat s') = m /\
    store (cl_dat s') = store (cl_dat s) /\
    cl_sent s' = cl_sent s ++ concat (replicate 4 (init_cmd (cl_cmds s))).
Proof.
  intros Hok Hr Hm Hint (Va & Vs & Vp & Vy & Vl). pose proof Hm as (Hst & Hac & Hsp & Hl & Ht & Hp). unfold ACT_LAST in Hac.
  destruct (start_ok V s Hok Hr HV) as (s' & E & Hmach & Hstore & Hsent). exists s'. split; [exact E|].
  split; [|by split]. rewrite Hmach, Va, Vs, Vp, Vy, Vl. rewrite i32_of_u32_id by (unfold INT_MIN in *; lia).
  unfold INT_MAX in *. rewrite !i32_of_id by (unfold INT_MIN, INT_MAX; lia).
  rewrite !(proj2 (Z.ltb_ge _ 0)) by lia. cbn [orb]. rewrite <- Ht. by destruct m.
Qed.

(** A larger step, which [sen_set_machine] accepts, is read back as a negative
    [int]: the start takes the saved machine for an empty one and begins
    the default schedule. *)
Theorem sensors_restart_drops_large_step m s :
  dat_ok (cl_dat s) -> repo_ok (cl_cmds s) -> machine_ok m -> INT_MAX < sm_step m -> saved V m (cl_dat s) ->
  exists s', sensors_start V s = Ret (tt, s') /\
    status_machine (cl_dat s') = StMachine ST_PAUSE ACT_START 0 5 (-1) nsensors.
Proof.
  intros Hok Hr (_ & _ & Hsp & _) Hbig (_ & _ & Vp & _).
  destruct (start_ok V s Hok Hr HV) as (s' & E & Hmach & _). exists s'. split; [exact E|]. rewrite Hmach, Vp.
  rewrite (proj2 (Z.ltb_lt (i32_of (sm_step m)) 0)); [by rewrite orb_true_r|].
  unfold i32_of, INT_MAX in *. rewrite <- (Z.mod_unique_pos (sm_step m + 2 ^ 31) (2 ^ 32) 1 (sm_step m - 2 ^ 31)); lia.
Qed.

(** A step of zero among the status variables passes the check of the start
    ([step < 0]), and the first turn that samples divides by it. *)
Theorem sensors_zero_step_faults s e :
  dat_ok (cl_dat s) -> repo_ok (cl_cmds s) ->
  saved V (StMachine ST_PAUSE ACT_START 1 0 (-1) nsensors) (cl_dat s) ->
  exists s', sensors_start V s = Ret (tt, s') /\ sensors_tick V e s' = Fault DivByZero.
Proof.
  intros Hok Hr (Va & Vs & Vp & Vy & Vl).
  destruct (start_ok V s Hok Hr HV) as (s' & E & Hmach & _). exists s'. split; [exact E|].
  rewrite Va, Vs, Vp, Vy, Vl in Hmach. cbn in Hmach.
  unfold sensors_tick. unfold bind at 1.
  change (data (gets status_machine) s') with (Ret (status_machine (cl_dat s'), with_dat (cl_dat s') s')).
  rewrite Hmach. reflexivity.
Qed.

End theorems.

(** *** Instances *)
Definition demo_vars : mach_vars := MachVars 0 1 2 3 4.
Lemma demo_vars_ok : vars_ok demo_vars.
Proof. split; apply (bool_decide_unpack _); vm_compute; exact I. Qed.

Definition sensor_repo : cmd_repo sensor_fn :=
  match cmd_repo_init cmd_sensors_init cmd_null 300 repo_boot with
  | Ret (_, s) => s
  | Fault _ => repo_boot
  end.
Lemma sensor_repo_ok : repo_ok sensor_repo.
Proof. apply repo_okb_ok. vm_compute. reflexivity. Qed.

(** Two samples of sensors 0 and 2, every three seconds. *)
Definition demo_machine : dat_stmachine_t := StMachine ST_PAUSE ACT_START 5 3 2 nsensors.
Definition demo_task : client Ram.ram_state sensor_fn :=
  Client (with_machine demo_machine (ram_data 0)) sensor_repo [].
Lemma demo_task_ok : task_ok demo_task demo_machine.
Proof.
  split; [exact (with_machine_ok demo_machine (ram_data 0) (proj1 (ram_data_fp 0)))|]. split; [exact sensor_repo_ok|]. split; [reflexivity|].
  apply (bool_decide_unpack _). vm_compute. exact I.
Qed.

Lemma sensors_sample_quota_witness : exists s',
  sensors_ticks demo_vars 10 0 demo_task = Ret (10, s') /\
  cl_sent s' = concat (replicate 2 (round sensor_repo 5)) /\ sm_state (status_machine (cl_dat s')) = ST_PAUSE.
Proof.
  destruct (sensors_sample_quota demo_vars demo_vars_ok 9 0 demo_machine demo_task demo_task_ok) as (s' & H1 & H2 & _ & H3).
  - reflexivity.
  - lia.
  - vm_compute. discriminate.
  - exists s'. split; [exact H1|]. split; [|apply H3; vm_compute; [discriminate|lia]].
    rewrite H2. vm_compute. reflexivity.
Defined.

Lemma machine_stays_well_typed_witness : exists rc d',
  set_state (cs "%u %u %d") (params_of [VUInt 1; VUInt 4294967295; VInt (-1)]) 3 (cl_dat demo_task) = Ret (rc, d') /\
  machine_ok (status_machine d').
Proof.
  destruct (machine_stays_well_typed demo_vars demo_vars_ok 0 demo_machine demo_task (cl_dat demo_task) 1 4294967295 (-1) 2 1 demo_task_ok)
    as (_ & H2 & _); try (unfold int_ok, INT_MIN, INT_MAX; lia).
  - apply (bool_decide_unpack _). vm_compute. exact I.
  - exact H2.
Defined.

Lemma activate_sensor_sets_bit_witness : exists rc d',
  activate_sensor (cs "%d %d") (params_of [VInt 1; VInt 1]) 2 (cl_dat demo_task) = Ret (rc, d') /\ rc = CMD_OK.
Proof.
  destruct (activate_sensor_sets_bit (cl_dat demo_task) 1 1) as (rc & d' & H1 & [_ H2] & _).
  - apply (bool_decide_unpack _). vm_compute. exact I.
  - unfold int_ok, INT_MIN, INT_MAX. lia.
  - unfold int_ok, INT_MIN, INT_MAX. lia.
  - exists rc, d'. split; [exact H1|]. apply H2. right. split; [unfold nsensors; lia|]. left. split; vm_compute; reflexivity.
Defined.

(** The task saves its machine and finds it after a restart. *)
Lemma sensors_restart_resumes_witness : exists s1 s',
  sensors_ticks demo_vars 2 0 demo_task = Ret (2, s1) /\ sensors_start demo_vars s1 = Ret (tt, s') /\
  status_machine (cl_dat s') = StMachine ST_SAMPLING ACT_STAND_BY 5 3 1 nsensors.
Proof.
  destruct (ticks_ok demo_vars 2 0 demo_machine demo_task demo_vars_ok demo_task_ok) as (s1 & E & (Hok & Hr & _ & Hm) & Hsv & _).
  - lia.
  - vm_compute. discriminate.
  - destruct (sensors_restart_resumes demo_vars demo_vars_ok (fst (run 2 0 demo_machine)) s1 Hok Hr Hm ltac:(vm_compute; discriminate) (Hsv ltac:(lia)))
      as (s' & H1 & H2 & _).
    exists s1, s'. split; [exact E|]. split; [exact H1|]. rewrite H2. vm_compute. reflexivity.
Defined.

End SensorsTheorems.
