(* ===== verification/Adcs.v ===== *)
(** * Attitude determination and control

    [apps/suchai/src/cmdADCS.c] and [apps/suchai/src/taskADCS.c], with the
    functions of [system/repoData.c] that store quaternions and vectors in
    status variables.  As in MathUtils the numbers are a parameter, with the
    conversions of class [Double]: to and from the bits of a [float], to text
    and from text, and to integers.  The addresses of the
    attitude variables belong to a schema that is not in the repository and are
    a parameter ([adcs_vars]).  The network is a field of the state: whether a
    buffer is available, what [csp_sendto] returns, and the answer of
    [csp_transaction]; sent packets are recorded with the length the code gives
    them and the text in their buffer. *)
From S2P Require Import Prelude CStr Config Storage Schema RepoCommand RepoData Telemetry Clients MathUtils.

Module Adcs.
Import RepoCommand RepoData Telemetry Clients MathUtils.

Definition DAT_OBC_OPMODE_REF_POINT : Z := 4.
Definition DAT_OBC_OPMODE_NAD_POINT : Z := 5.
Definition DAT_OBC_OPMODE_DETUMB_MAG : Z := 6.

Record adcs_vars := AdcsVars {
  dat_ads_q0 : Z; dat_tgt_q0 : Z; dat_ads_omega_x : Z; dat_tgt_omega_x : Z; dat_ads_mag_x : Z; dat_ads_pos_x : Z
}.

Section storage.
Context {K S : Type} `{Num K} `{Double K} `{Storage S}.

(** ** [_get_sat_quaterion] and its relatives *)
Definition get_doubles (index n : Z) : M (dat S) (list K) :=
  if index + n <? dat_status_last_address then
    fold_m (range n) (fun l i => let! v := dat_get_status_var (index + i) in ret (l ++ [of_f32 v])) []
  else fail AssertFail.
Definition set_doubles (l : list K) (index n : Z) : M (dat S) unit :=
  if index + n <? dat_status_last_address then
    for_ (range n) (fun i => let! x := arr_get l i in dat_set_status_var (index + i) (to_f32 x) ;! ret tt)
  else fail AssertFail.

Definition _get_sat_quaterion (index : Z) : M (dat S) (quaternion K) :=
  let! l := get_doubles index 4 in quat_of l.
Definition _set_sat_quaterion (q : quaternion K) (index : Z) : M (dat S) unit := set_doubles (quat_list q) index 4.
Definition _get_sat_vector (index : Z) : M (dat S) (vector3 K) :=
  let! l := get_doubles index 3 in vec_of l.
Definition _set_sat_vector (r : vector3 K) (index : Z) : M (dat S) unit := set_doubles (vec_list r) index 3.
End storage.

Section adcs.
Context {K S F : Type} `{Num K} `{Double K} `{Storage S}.
Variable V : adcs_vars.
Local Open Scope num_scope.

(** In-place calls: [vec_normalize(&v, NULL)] and the like. *)
Definition vec_normalized (v : vector3 K) : vector3 K := default v (vec_normalize v).
Definition quat_normalized (q : quaternion K) : quaternion K := default q (quat_normalize q).
Definition neg1 : K := nlit (-1) 1.
Definition vec_zero : vector3 K := Vec zero zero zero.

(** ** State of the commands *)
Record adcs := AdcsState {
  a_client : client S F;
  a_buffer : bool;
  a_sendto : Z;
  a_transaction : cstring -> Z * list Z;
  a_packets : list (Z * cstring)
}.
Definition a_client_lens : lens adcs (client S F) :=
  Lens a_client (fun c s => AdcsState c (a_buffer s) (a_sendto s) (a_transaction s) (a_packets s)).
Definition on_client {A} (m : M (client S F) A) : M adcs A := zoom a_client_lens m.
Definition on_data {A} (m : M (dat S) A) : M adcs A := on_client (data m).

(** [csp_buffer_get], [snprintf] to the packet and [csp_sendto]; [no_buffer] is
    what the command returns without a buffer.  The length is that of the whole
    text, the buffer holds what fits. *)
Definition send_text (text : cstring) : M adcs Z :=
  let! s := get in
  put (AdcsState (a_client s) (a_buffer s) (a_sendto s) (a_transaction s)
        (a_packets s ++ [(strlen text, take (Z.to_nat (COM_FRAME_MAX_LEN - 1)) text)])) ;!
  ret (if negb (Z.eqb (a_sendto s) 0) then CMD_ERROR else CMD_OK).
Definition with_buffer (no_buffer : Z) (m : M adcs Z) : M adcs Z :=
  let! s := get in
  if a_buffer s then m else ret no_buffer.

(** A word followed by [%lf] fields. *)
Definition lf_text (word : cstring) (xs : list K) : cstring :=
  word ++ concat (map (fun x => chr_space :: print_lf x) xs).

(** [sscanf(params, "%lf ... %lf", ...)]: the numbers scanned, at most [n]. *)
Fixpoint scan_lfs (n : nat) (s : cstring) : list K :=
  match n with
  | O => []
  | Datatypes.S n => match scan_lf (skip_space s) with
                     | Some (x, r) => x :: scan_lfs n r
                     | None => []
                     end
  end.
(** [sscanf(params, fmt, ...) == nparams] for a format of [%lf] fields: the
    numbers, or [None] when the count differs or [params] is null. *)
Definition lf_params (fmt : cstring) (params : option (list Z)) (nparams : Z) : M adcs (option (list K)) :=
  match params with
  | None => ret None
  | Some buf => let! s := lift (cstr_of_buf buf) in
                let l := scan_lfs (length (filter (fun c => c = chr_percent) fmt)) s in
                ret (if Z.eqb (zlength l) nparams then Some l else None)
  end.

(** ** [cmdADCS.c] *)
Definition adcs_point (fmt : cstring) (params : option (list Z)) (nparams : Z) : M adcs Z :=
  with_buffer CMD_SYNTAX_ERROR (
  let! r := on_data (_get_sat_vector (dat_ads_pos_x V)) in
  send_text (lf_text (cs "adcs_point_to") (vec_list r))).

Definition adcs_get_quaternion (fmt : cstring) (params : option (list Z)) (nparams : Z) : M adcs Z :=
  let! s := get in
  let '(rc, in_buff) := a_transaction s (cs "adcs_get_quaternion 0") in
  if Z.eqb rc COM_FRAME_MAX_LEN then
    let! text := lift (cstr_of_buf in_buff) in
    match scan_lfs 4 text with
    | [x0; x1; x2; x3] =>
        on_data (_set_sat_quaterion (Quat x0 x1 x2 x3) (dat_ads_q0 V)) ;!
        on_data (_get_sat_quaterion (K := K) (dat_ads_q0 V)) ;!
        ret CMD_OK
    | _ => ret CMD_SYNTAX_ERROR
    end
  else ret CMD_SYNTAX_ERROR.

(** Without NANOMIND the sensors are not read. *)
Definition adcs_get_omega (fmt : cstring) (params : option (list Z)) (nparams : Z) : M adcs Z := ret CMD_OK.
Definition adcs_get_mag (fmt : cstring) (params : option (list Z)) (nparams : Z) : M adcs Z := ret CMD_OK.

(** The control law of [adcs_control_torque]: [junk] are the result vectors
    before they are written. *)
Definition control_torque {T} (q_est q_tar : quaternion K) (omega_est omega_tar : vector3 K) (ctrl_cycle : K)
    (junk : vector3 K) : M T (vector3 K) :=
  let I_quat := mat_set_diag zero zero zero in
  let P_quat := mat_set_diag (nlit 1 1000) (nlit 1 1000) (nlit 1 1000) in
  let P_omega := mat_set_diag (nlit 3 1000) (nlit 3 1000) (nlit 3 1000) in
  let q_now2tar := quat_normalized (quat_mult (quat_conjugate q_est) q_tar) in
  let torq_dir := Vec (q0 q_now2tar) (q1 q_now2tar) (q2 q_now2tar) in
  if negb (neqb (v0 torq_dir) (q0 q_now2tar) && neqb (v1 torq_dir) (q1 q_now2tar) && neqb (v2 torq_dir) (q2 q_now2tar))
  then fail AssertFail else
  let torq_dir := vec_normalized torq_dir in
  let att_rot := two * nacos (q3 q_now2tar) in
  let error_integral := vec_cons_mult (att_rot * ctrl_cycle) torq_dir in
  let torque_rot := vec_cons_mult att_rot torq_dir in
  let! P := mat_vec_mult P_quat torque_rot junk in
  let! I := mat_vec_mult I_quat error_integral junk in
  let omega_b := vec_sum omega_tar (vec_cons_mult neg1 omega_est) in
  let! P_o := mat_vec_mult P_omega omega_b junk in
  ret (vec_sum P_o (vec_sum P I)).

Definition adcs_control_torque (junk : vector3 K) (fmt : cstring) (params : option (list Z)) (nparams : Z) : M adcs Z :=
  let! r := lf_params fmt params nparams in
  match r with
  | Some [ctrl_cycle] =>
      let! q_est := on_data (_get_sat_quaterion (dat_ads_q0 V)) in
      let! q_tar := on_data (_get_sat_quaterion (dat_tgt_q0 V)) in
      let! omega_est := on_data (_get_sat_vector (dat_ads_omega_x V)) in
      let! omega_tar := on_data (_get_sat_vector (dat_tgt_omega_x V)) in
      let! torque := control_torque q_est q_tar omega_est omega_tar ctrl_cycle junk in
      with_buffer CMD_ERROR (send_text (lf_text (cs "adcs_set_torque") (vec_list torque)))
  | None => ret CMD_SYNTAX_ERROR
  | _ => fail Uninitialized
  end.

(** [adcs_mag_moment], from the mode, the measured field and the rates: the
    torque that is wanted, limited by what the torquers can give, and the
    magnetic moment for it. *)
Definition nT2T : K := nlit 1 (10 ^ 9).
Definition mag_torque {T} (mode : Z) (mag_earth omega_est omega_tar junk : vector3 K) : M T (vector3 K) :=
  let I_c := mat_set_diag (nlit 35 1000) (nlit 35 1000) (nlit 7 1000) in
  let max_mag_am2 := Vec (nlit 35 100) (nlit 35 100) (nlit 35 100) in
  let select x := if Z.eqb mode DAT_OBC_OPMODE_DETUMB_MAG then one else if nltb (nabs x) zero then one else zero in
  let error_angular_vel := vec_sum omega_est (vec_cons_mult neg1 omega_tar) in
  let! control_torque := mat_vec_mult I_c (vec_cons_mult neg1 error_angular_vel) junk in
  let norm_torque := vec_norm control_torque in
  let inv_norm_torque := if nleb (nlit 1 (10 ^ 9)) norm_torque then one / norm_torque else one in
  let control_torque := vec_cons_mult inv_norm_torque control_torque in
  let max_torque := vec_outer_product max_mag_am2 (vec_cons_mult nT2T mag_earth) in
  ret (Vec (v0 control_torque * (select (v0 omega_est) * nabs (v0 max_torque)))
           (v1 control_torque * (select (v1 omega_est) * nabs (v1 max_torque)))
           (v2 control_torque * (select (v2 omega_est) * nabs (v2 max_torque)))).

Definition mag_moment {T} (mode : Z) (mag_earth omega_est omega_tar junk : vector3 K) : M T (vector3 K) :=
  let! control_torque := mag_torque mode mag_earth omega_est omega_tar junk in
  let inv_b_norm2 := one / sq (nT2T * vec_norm mag_earth) in
  ret (vec_cons_mult inv_b_norm2 (vec_outer_product (vec_cons_mult nT2T mag_earth) control_torque)).

(** [(uint8_t)x] of a [double]. *)
Definition to_u8 {T} (x : K) : M T Z :=
  let z := ntrunc x in
  if Z.leb 0 z && Z.ltb z 256 then ret z else fail FloatRange.

(** [cmd_get_str], the parameters and [cmd_send]. *)
Definition send_cmd (name : cstring) (add : ptr (cmd_t F) -> M (cmd_repo F) (ptr (cmd_t F))) : M (client S F) unit :=
  let! c := cmds (cmd_get_str name) in
  let! c := cmds (add c) in
  cmd_send c.
Definition no_params (c : ptr (cmd_t F)) : M (cmd_repo F) (ptr (cmd_t F)) := ret c.

(** The duty cycles come from the moment itself; the scaled unit vector the code
    computes for them is not used. *)
Definition adcs_mag_moment (junk : vector3 K) (fmt : cstring) (params : option (list Z)) (nparams : Z) : M adcs Z :=
  let! mag := on_data (_get_sat_vector (dat_ads_mag_x V)) in
  let! omega_est := on_data (_get_sat_vector (dat_ads_omega_x V)) in
  let! omega_tar := on_data (_get_sat_vector (dat_tgt_omega_x V)) in
  let! mode := on_data (dat_get_system_var dat_obc_opmode) in
  let! m := mag_moment mode mag omega_est omega_tar junk in
  with_buffer CMD_ERROR (
  let! duty0 := to_u8 (v0 m) in
  let! duty1 := to_u8 (v1 m) in
  let! duty2 := to_u8 (v2 m) in
  on_client (
    send_cmd (cs "obc_pwm_pwr") (fun c => cmd_add_params_str c (cs "1")) ;!
    send_cmd (cs "obc_set_pwm_duty") (fun c => cmd_add_params_var c [VInt duty0; VInt 0]) ;!
    send_cmd (cs "obc_set_pwm_duty") (fun c => cmd_add_params_var c [VInt duty1; VInt 1]) ;!
    send_cmd (cs "obc_set_pwm_duty") (fun c => cmd_add_params_var c [VInt duty2; VInt 2])) ;!
  send_text (lf_text (cs "adcs_set_mag_moment") (vec_list m))).

(** The attitude that points the Z+ face of the body to [i_tar]. *)
Definition target_quaternion (q_i2b_est : quaternion K) (i_tar : vector3 K) : quaternion K :=
  let b_dir := vec_normalized (Vec zero zero one) in
  let i_tar := vec_normalized i_tar in
  let b_tar := vec_normalized (quat_frame_conv q_i2b_est i_tar) in
  let b_lambda := vec_normalized (vec_outer_product b_dir b_tar) in
  let rot := nacos (vec_inner_product b_dir b_tar) in
  let q_b2b_now2tar := quat_normalized (axis_rotation_to_quat b_lambda rot) in
  quat_mult q_i2b_est q_b2b_now2tar.

Definition adcs_set_target (fmt : cstring) (params : option (list Z)) (nparams : Z) : M adcs Z :=
  let! r := lf_params fmt params nparams in
  match r with
  | Some [x; y; z; wx; wy; wz] =>
      let! q_i2b_est := on_data (_get_sat_quaterion (dat_ads_q0 V)) in
      let q_i2b_tar := target_quaternion q_i2b_est (Vec x y z) in
      on_data (_set_sat_quaterion q_i2b_tar (dat_tgt_q0 V)) ;!
      on_data (_set_sat_vector (Vec wx wy wz) (dat_tgt_omega_x V)) ;!
      on_data (_get_sat_quaterion (K := K) (dat_tgt_q0 V)) ;!
      ret CMD_OK
  | None => ret CMD_ERROR
  | _ => fail Uninitialized
  end.

(** Six [%lf] fields in a zeroed array of [SCH_CMD_MAX_STR_PARAMS] bytes. *)
Definition lf_fields (xs : list K) : cstring :=
  match xs with [] => [] | x :: xs => print_lf x ++ concat (map (fun x => chr_space :: print_lf x) xs) end.
Definition set_target_text (i_tar omega : vector3 K) : M adcs Z :=
  let text := take (Z.to_nat (SCH_CMD_MAX_STR_PARAMS - 1)) (lf_fields (vec_list i_tar ++ vec_list omega)) in
  adcs_set_target (cs "%lf %lf %lf %lf %lf %lf") (Some (with_nul text)) 6.

Definition omega_i_tar : vector3 K :=
  Vec (nlit 38772452510785394 (10 ^ 20)) (nlit (-10289117582512489) (10 ^ 19)) (nlit (-14131086334682821) (10 ^ 20)).

Definition nadir : M adcs (vector3 K) :=
  let! r := on_data (_get_sat_vector (dat_ads_pos_x V)) in
  ret (vec_normalized (vec_cons_mult neg1 r)).

Definition adcs_target_nadir (fmt : cstring) (params : option (list Z)) (nparams : Z) : M adcs Z :=
  let! i_tar := nadir in
  let! q_i2b_est := on_data (_get_sat_quaterion (dat_ads_q0 V)) in
  set_target_text i_tar (quat_frame_conv q_i2b_est omega_i_tar).

(** Only the first component of the rate is written (three times): the others
    are what the local variable held. *)
Definition adcs_detumbling_mag (junk : vector3 K) (fmt : cstring) (params : option (list Z)) (nparams : Z) : M adcs Z :=
  let! i_tar := nadir in
  set_target_text i_tar (Vec zero (v1 junk) (v2 junk)).

Definition adcs_send_attitude (fmt : cstring) (params : option (list Z)) (nparams : Z) : M adcs Z :=
  let! q_est := on_data (_get_sat_quaterion (dat_ads_q0 V)) in
  let! q_tgt := on_data (_get_sat_quaterion (dat_tgt_q0 V)) in
  with_buffer CMD_ERROR (send_text (lf_text (cs "adcs_set_attitude") (quat_list q_est ++ quat_list q_tgt))).

Definition adcs_entries (junk : vector3 K) : list (cstring * (cstring -> option (list Z) -> Z -> M adcs Z) * cstring * Z) :=
  [ (cs "adcs_quat", adcs_get_quaternion, [], 0%Z);
    (cs "adcs_omega", adcs_get_omega, [], 0%Z);
    (cs "adcs_mag", adcs_get_mag, [], 0%Z);
    (cs "adcs_do_control", adcs_control_torque junk, cs "%lf", 1%Z);
    (cs "adcs_mag_moment", adcs_mag_moment junk, [], 0%Z);
    (cs "adcs_set_target", adcs_set_target, cs "%lf %lf %lf %lf %lf %lf", 6%Z);
    (cs "adcs_set_to_nadir", adcs_target_nadir, [], 0%Z);
    (cs "adcs_detumbling_mag", adcs_detumbling_mag junk, [], 0%Z);
    (cs "adcs_send_attitude", adcs_send_attitude, [], 0%Z) ].
Definition cmd_adcs_init (junk : vector3 K) : M (cmd_repo (cstring -> option (list Z) -> Z -> M adcs Z)) unit :=
  add_entries (adcs_entries junk).

(** ** [taskADCS.c]

    [twopi] and [deg2rad] are constants of a library that is not in the
    repository. *)
Variables twopi deg2rad : K.

Definition unixt_to_jd (unix_time : Z) : K := nlit unix_time 86400 + nlit 24405875 10.

(** The direction of the sun; its distance is computed but not used. *)
Definition calc_sun_pos_i (jd : K) : vector3 K :=
  let n := jd - nlit 2451545 1 in
  let l := nlit 280459 1000 + nlit 98564736 (10 ^ 8) * n in
  let m := nlit 357529 1000 + nlit 98560023 (10 ^ 8) * n in
  let m := m * deg2rad in
  let lam := l + nlit 1915 1000 * nsin m + nlit 2 100 * nsin (two * m) in
  let lam := lam * deg2rad in
  let e := nlit 23439 1000 - nlit 356 (10 ^ 9) * n in
  let e := e * deg2rad in
  Vec (ncos lam) (ncos e * nsin lam) (nsin lam * nsin e).

Definition fmod2p {T} (x : K) : M T K :=
  let! i := cint (ntrunc (x / twopi)) in
  let ret_val := x - nlit i 1 * twopi in
  ret (if nltb ret_val zero then ret_val + twopi else ret_val).

Definition jd_to_dec (jd : K) : K :=
  let temp := jd - nlit 24150195 10 in
  let tu := temp / nlit 36525 100 in
  let year := (1900 + nfloor tu)%Z in
  let leap year := nfloor (nlit (year - 1901) 1 * nlit 25 100) in
  let days year := temp - (nlit (year - 1900) 1 * nlit 365 1 + nlit (leap year) 1) in
  let d := days year + nlit 1 (10 ^ 11) in
  let '(year, d) := if nltb d one then ((year - 1)%Z, days (year - 1)%Z) else (year, d) in
  nlit year 1 + d / nlit 36525 100.

(** The prediction step: reads attitude and rate, integrates, stores the
    attitude, and propagates the covariance [P]. *)
Definition eskf_predict_state (P : list K) (dt : K) (junk36 junk6 junk3 : list K) : M (client S F) (list K) :=
  let! q := data (_get_sat_quaterion (dat_ads_q0 V)) in
  let! w := data (_get_sat_vector (dat_ads_omega_x V)) in
  let wb := vec_cons_mult neg1 vec_zero in
  let diffw := vec_sum w wb in
  data (_set_sat_quaterion (eskf_integrate q diffw dt) (dat_ads_q0 V)) ;!
  let! Q := _mat_set_diag junk36 one 6 6 in
  let! '(P, _) := eskf_compute_error diffw dt P Q junk6 junk3 in
  ret P.

Definition adcs_start : M (client S F) unit :=
  send_cmd (cs "obc_set_tle") (fun c => cmd_add_params_str c (cs "1 42788U 17036Z   20027.14771603  .00000881  00000-0  39896-4 0  9992")) ;!
  send_cmd (cs "obc_set_tle") (fun c => cmd_add_params_str c (cs "2 42788  97.3234  85.2817 0012095 159.3521 200.8207 15.23399088144212")) ;!
  send_cmd (cs "obc_update_tle") no_params ;!
  send_cmd (cs "obc_get_tle") no_params ;!
  data (dat_set_system_var dat_obc_opmode DAT_OBC_OPMODE_DETUMB_MAG) ;!
  ret tt.

(** Every half second: the attitude and the rate are read and written back (the
    update of the filter is commented out); the position is read. *)
Definition adcs_estimate : M (client S F) unit :=
  send_cmd (cs "obc_prop_tle") (fun c => cmd_add_params_str c (cs "0")) ;!
  data (_get_sat_vector (K := K) (dat_ads_pos_x V)) ;!
  let! q_est := data (_get_sat_quaterion (K := K) (dat_ads_q0 V)) in
  let! w := data (_get_sat_vector (K := K) (dat_ads_omega_x V)) in
  data (_set_sat_quaterion q_est (dat_ads_q0 V)) ;!
  data (_set_sat_vector w (dat_ads_omega_x V)).

(** Every control period.  For a mode of none of the three kinds [cmd_point] is
    not initialised; [adcs_do_control] gets an [unsigned int] where its format
    has [%lf]. *)
Definition adcs_control : M (client S F) unit :=
  send_cmd (cs "obc_prop_tle") (fun c => cmd_add_params_str c (cs "0")) ;!
  send_cmd (cs "adcs_quat") no_params ;!
  send_cmd (cs "adcs_acc") no_params ;!
  send_cmd (cs "adcs_mag") no_params ;!
  let! mode := data (dat_get_system_var dat_obc_opmode) in
  (if Z.eqb mode DAT_OBC_OPMODE_REF_POINT then
     send_cmd (cs "adcs_set_target") (fun c => cmd_add_params_var c
       [VDouble (cs "1.000000"); VDouble (cs "1.000000"); VDouble (cs "1.000000");
        VDouble (cs "0.010000"); VDouble (cs "0.010000"); VDouble (cs "0.010000")])
   else if Z.eqb mode DAT_OBC_OPMODE_NAD_POINT then send_cmd (cs "adcs_set_to_nadir") no_params
   else if Z.eqb mode DAT_OBC_OPMODE_DETUMB_MAG then send_cmd (cs "adcs_detumbling_mag") no_params
   else fail Uninitialized) ;!
  (if Z.eqb mode DAT_OBC_OPMODE_DETUMB_MAG then send_cmd (cs "adcs_mag_moment") no_params
   else send_cmd (cs "adcs_do_control") (fun c => cmd_add_params_var c [VUInt (1000 * 1000)])) ;!
  send_cmd (cs "adcs_send_attitude") no_params.

(** One turn of the loop. *)
Definition adcs_tick (elapsed_msec : Z) : M (client S F) Z :=
  let elapsed_msec := u32_of (elapsed_msec + 100) in
  (if Z.eqb (elapsed_msec mod 10) 0 && Z.eqb (elapsed_msec mod 500) 0 then adcs_estimate else ret tt) ;!
  let! now := data (gets unixtime) in
  data (dat_set_system_var dat_rtc_date_time (i32_of now)) ;!
  (if Z.eqb (elapsed_msec mod 1000) 0 then adcs_control else ret tt) ;!
  (if Z.eqb (elapsed_msec mod (60 * 60 * 1000)) 0 then
     send_cmd (cs "drp_add_hrs_alive") (fun c => cmd_add_params_var c [VInt 1])
   else ret tt) ;!
  ret elapsed_msec.

End adcs.
Arguments adcs : clear implicits.
End Adcs.
