(* ===== verification/AdcsReal.v ===== *)
(** * Attitude control in real arithmetic

    The formulas of Adcs over the real numbers: where the target attitude
    points, what the control law of the wheels is, what torque the magnetic
    moment gives; and the commands that store their results. *)
From Stdlib Require Import Reals Lra.
From S2P Require Import Prelude Float32 CStr Config Storage StorageRam Schema RepoCommand RepoData Telemetry Clients MathUtils MathLoops MathReal Adcs.

Module AdcsLaws.
Import RepoData RepoDataLaws MathUtils Adcs.

(** ** Quaternions and vectors in status variables *)
Section storage.
Context {K S : Type} `{DoubleLaws K} `{StorageLaws S}.
Implicit Types d : dat S.

Lemma get_doubles_ok d index n :
  dat_ok d -> 0 <= index -> 0 <= n -> index + n < dat_status_last_address ->
  get_doubles index n d = Ret (map (fun i => of_f32 (var d (index + i))) (range n), d).
Proof.
  intros Hok Hi Hn Hlt. unfold get_doubles. rewrite (proj2 (Z.ltb_lt _ _)) by lia.
  assert (forall l acc, Forall (fun i => 0 <= i < n) l ->
    fold_m l (fun l i => let! v := dat_get_status_var (index + i) in ret (l ++ [of_f32 v])) acc d =
    Ret (acc ++ map (fun i => of_f32 (K := K) (var d (index + i))) l, d)) as Hl.
  { induction l as [|i l IH]; intros acc Hf; cbn [fold_m map]; [by rewrite app_nil_r|].
    inversion Hf as [|? ? Hj Hf']; subst. pose proof Hok as [_ Hsz].
    unfold bind at 1 2. rewrite get_status_ok by (done || lia). unfold ret at 1. rewrite IH by done.
    by rewrite <- app_assoc. }
  rewrite Hl; [done|]. apply Forall_forall. intros i Hi'%elem_of_seqZ. lia.
Qed.

(** The last [k] turns of the loop of [set_doubles]. *)
Lemma set_loop (l : list K) index k : forall d,
  (k <= length l)%nat -> dat_ok d -> 0 <= index -> index + zlength l < dat_status_last_address ->
  exists st', for_ (seqZ (zlength l - Z.of_nat k) (Z.of_nat k))
      (fun i => let! x := arr_get l i in dat_set_status_var (index + i) (to_f32 x) ;! ret tt) d = Ret (tt, set_store st' d) /\
    dat_ok (set_store st' d) /\ st_slots st' = st_slots (store d) /\
    forall j, 0 <= j < dat_status_last_address ->
      var (set_store st' d) j = match zlookup l (j - index) with
        | Some x => if decide (zlength l - Z.of_nat k <= j - index) then to_f32 x else var d j
        | None => var d j
        end.
Proof.
  induction k as [|k IH]; intros d Hk Hok Hi Hlt.
  - exists (store d). replace (set_store (store d) d) with d by (by destruct d).
    split; [done|]. split; [done|]. split; [done|]. intros j Hj.
    destruct (zlookup l (j - index)) eqn:E; [|done]. apply zlookup_Some_lt in E. rewrite decide_False by lia. done.
  - set (i := zlength l - Z.of_nat (Datatypes.S k)). unfold zlength in *. rewrite seqZ_cons by lia. cbn [for_].
    destruct (zlookup_lt l i) as [x Ex]; [unfold zlength; lia|]. pose proof Hok as [_ Hsz].
    destruct (set_status_ok d (index + i) (to_f32 x) Hok ltac:(lia) (to_f32_range x)) as (s1 & _ & E1 & Hok1 & _ & Hsl & _ & Hv).
    unfold bind at 1 2. rewrite (arr_get_Some _ _ _ _ Ex). unfold bind at 1. rewrite E1. unfold ret at 1.
    destruct (IH (set_store s1 d) ltac:(lia) Hok1 Hi Hlt) as (s2 & E2 & Hok2 & Hsl2 & Hv2).
    replace (Z.succ i) with (Z.of_nat (length l) - Z.of_nat k) by lia.
    replace (Z.pred (Z.of_nat (Datatypes.S k))) with (Z.of_nat k) by lia.
    exists s2. rewrite E2. split; [done|]. split; [exact Hok2|]. split; [by rewrite Hsl2|].
    intros j Hj. change (set_store s2 d) with (set_store s2 (set_store s1 d)). rewrite Hv2, Hv by lia.
    destruct (decide (j = index + i)) as [->|Hne].
    + replace (index + i - index) with i by lia. rewrite Ex. rewrite decide_False, decide_True by lia. done.
    + destruct (zlookup l (j - index)); [|done].
      destruct (decide (_ <= _)), (decide (_ <= _)); try done; lia.
Qed.

Lemma set_doubles_ok (l : list K) d index :
  dat_ok d -> 0 <= index -> index + zlength l < dat_status_last_address ->
  exists st', set_doubles l index (zlength l) d = Ret (tt, set_store st' d) /\ dat_ok (set_store st' d) /\
    st_slots st' = st_slots (store d) /\
    forall j, 0 <= j < dat_status_last_address ->
      var (set_store st' d) j = match zlookup l (j - index) with Some x => to_f32 x | None => var d j end.
Proof.
  intros Hok Hi Hlt. unfold set_doubles. rewrite (proj2 (Z.ltb_lt _ _)) by lia.
  destruct (set_loop l index (length l) d ltac:(lia) Hok Hi Hlt) as (st' & E & Hok' & Hsl & Hv).
  exists st'. unfold zlength in *. rewrite Z.sub_diag in E. split; [exact E|]. split; [done|]. split; [done|].
  intros j Hj. rewrite Hv by done. destruct (zlookup l (j - index)) eqn:Ej; [|done].
  apply zlookup_Some_lt in Ej. unfold zlength in Ej. by rewrite decide_True by lia.
Qed.

Lemma get_quat_ok d index : dat_ok d -> 0 <= index -> index + 4 < dat_status_last_address ->
  _get_sat_quaterion (K := K) index d =
    Ret (Quat (of_f32 (var d index)) (of_f32 (var d (index + 1))) (of_f32 (var d (index + 2))) (of_f32 (var d (index + 3))), d).
Proof.
  intros Hok Hi Hlt. unfold _get_sat_quaterion. unfold bind at 1. rewrite get_doubles_ok by (done || lia).
  change (range 4) with [0; 1; 2; 3]. cbn [map]. by rewrite Z.add_0_r.
Qed.

Lemma get_vec_ok d index : dat_ok d -> 0 <= index -> index + 3 < dat_status_last_address ->
  _get_sat_vector (K := K) index d =
    Ret (Vec (of_f32 (var d index)) (of_f32 (var d (index + 1))) (of_f32 (var d (index + 2))), d).
Proof.
  intros Hok Hi Hlt. unfold _get_sat_vector. unfold bind at 1. rewrite get_doubles_ok by (done || lia).
  change (range 3) with [0; 1; 2]. cbn [map]. by rewrite Z.add_0_r.
Qed.
End storage.
End AdcsLaws.

(** ** Real arithmetic *)
Module AdcsReal.
Import MathUtils MathLoops MathReal Adcs.
Local Open Scope R_scope.

Ltac to_R := rewrite ?lit_zero, ?lit_one, ?lit_two, ?lit_four, ?lit_minus;
  cbv [sq]; cbn [nadd nsub nmul ndiv nopp nsqrt nsin ncos nacos R_num q0 q1 q2 q3 v0 v1 v2].

Definition vscale (k : R) (v : vector3 R) : vector3 R := Vec (k * v0 v) (k * v1 v) (k * v2 v).
Definition dot (v w : vector3 R) : R := v0 v * v0 w + v1 v * v1 w + v2 v * v2 w.

Lemma vec_ext (v w : vector3 R) : v0 v = v0 w -> v1 v = v1 w -> v2 v = v2 w -> v = w.
Proof. destruct v, w. cbn. by intros -> -> ->. Qed.

Lemma vnorm2_nonneg v : 0 <= vnorm2 v.
Proof. unfold vnorm2. nra. Qed.

(** A vector other than zero is normalised, zero stays. *)
Lemma vec_normalized_ok v : vnorm2 v <> 0 -> vec_normalized v = vscale (1 / sqrt (vnorm2 v)) v.
Proof.
  intros Hv. unfold vec_normalized, vec_normalize. rewrite vec_norm_eq, lit_zero, lit_one. cbn [neqb R_num].
  pose proof (vnorm2_nonneg v). assert (0 < sqrt (vnorm2 v)) as Hs by (apply sqrt_lt_R0; lra).
  destruct (Req_dec_T (sqrt (vnorm2 v)) 0) as [E|_]; [lra|]. cbn.
  apply vec_ext; cbn; ring.
Qed.

Lemma vec_normalized_zero v : vnorm2 v = 0 -> vec_normalized v = v.
Proof.
  intros Hv. unfold vec_normalized, vec_normalize. rewrite vec_norm_eq, lit_zero, Hv, sqrt_0. cbn [neqb R_num].
  by destruct (Req_dec_T 0 0).
Qed.

Lemma vec_normalized_unit v : vnorm2 v <> 0 -> vnorm2 (vec_normalized v) = 1.
Proof.
  intros Hv. rewrite vec_normalized_ok by done. pose proof (vnorm2_nonneg v) as H0.
  assert (0 < sqrt (vnorm2 v)) as Hs by (apply sqrt_lt_R0; lra).
  assert (sqrt (vnorm2 v) * sqrt (vnorm2 v) = vnorm2 v) as Hq by (apply sqrt_def; lra).
  set (n := sqrt (vnorm2 v)) in *. clearbody n.
  transitivity (vnorm2 v / (n * n)); [unfold vnorm2, vscale; cbn; field; lra|rewrite Hq; field; lra].
Qed.

Lemma quat_normalized_unit q : norm2 q = 1 -> quat_normalized q = q.
Proof.
  intros Hq. unfold quat_normalized. rewrite normalize_ok by lra. cbn. rewrite Hq, sqrt_1. unfold qscale, quat_map.
  apply quat_ext; cbn; field.
Qed.

Lemma unit_vec_normalized v : vnorm2 v = 1 -> vec_normalized v = v.
Proof. intros Hv. rewrite vec_normalized_ok by lra. rewrite Hv, sqrt_1. apply vec_ext; cbn; field. Qed.

(** Half angles: for [x] between -1 and 1, cosine and sine of half of [acos x]. *)
Lemma half_acos x : -1 <= x <= 1 ->
  let c := cos (acos x * nlit 1 2) in let s := sin (acos x * nlit 1 2) in
  c * c = (1 + x) / 2 /\ s * s = (1 - x) / 2 /\ 0 <= c /\ 0 <= s.
Proof.
  intros Hx c s. cbn [nlit R_num] in *.
  assert (cos (2 * (acos x * (1 / 2))) = x) as Hc by (replace (2 * (acos x * (1 / 2))) with (acos x) by field; by apply cos_acos).
  rewrite cos_2a in Hc. pose proof (sin2_cos2 (acos x * (1 / 2))) as Ht. unfold Rsqr in Ht.
  pose proof (acos_bound x) as Hb. pose proof PI_RGT_0.
  split; [unfold c; lra|]. split; [unfold s; lra|]. split; [apply cos_ge_0; lra|apply sin_ge_0; lra].
Qed.

(** The rotation from the Z axis to a unit vector [b] other than its opposite. *)
Definition z_to (b : vector3 R) : quaternion R :=
  quat_normalized (axis_rotation_to_quat (vec_normalized (vec_outer_product (Vec 0 0 1) b)) (acos (v2 b))).

(** Its components: [c] and [u] with [2 c u = 1] give the axis and the angle. *)
Lemma z_to_form b : vnorm2 b = 1 -> v2 b <> -1 ->
  exists c u, z_to b = Quat (- v1 b * u) (v0 b * u) 0 c /\
    c * c = (1 + v2 b) / 2 /\ 2 * c * u = 1.
Proof.
  intros Hb Hz. destruct b as [x y z]. unfold vnorm2 in Hb. cbn [v0 v1 v2] in *.
  assert (-1 <= z <= 1) as Hzr by nra. destruct (half_acos z Hzr) as (Hc & Hs & Hc0 & Hs0).
  set (c := cos (acos z * nlit 1 2)) in *. set (s := sin (acos z * nlit 1 2)) in *.
  assert (0 < c) as Hcp by nra. exists c, (1 / (2 * c)).
  assert (vec_outer_product (Vec 0 0 1) (Vec x y z) = Vec (- y) x 0) as Ho
    by (apply vec_ext; cbn [vec_outer_product v0 v1 v2]; to_R; ring).
  assert (axis_rotation_to_quat (vec_normalized (Vec (- y) x 0)) (acos z) = Quat (- y * (1 / (2 * c))) (x * (1 / (2 * c))) 0 c) as Hq.
  { destruct (Req_dec_T (x * x + y * y) 0) as [Hxy|Hxy].
    - assert (x = 0) as -> by nra. assert (y = 0) as -> by nra.
      rewrite vec_normalized_zero by (unfold vnorm2; cbn; ring). unfold axis_rotation_to_quat.
      apply quat_ext; cbn [q0 q1 q2 q3 v0 v1 v2]; to_R; fold c s; try ring; field; lra.
    - assert (vnorm2 (Vec (- y) x 0) = 4 * (c * c) * (s * s)) as Hn by (unfold vnorm2; cbn; nra).
      assert (0 < s) as Hsp by nra.
      rewrite vec_normalized_ok by (rewrite Hn; nra). rewrite Hn.
      replace (4 * (c * c) * (s * s)) with ((2 * c * s) * (2 * c * s)) by ring. rewrite sqrt_square by nra.
      unfold axis_rotation_to_quat, vscale. apply quat_ext; cbn [q0 q1 q2 q3 v0 v1 v2]; to_R; fold c s; try ring; field; lra. }
  unfold z_to. rewrite Ho. cbn [v2]. rewrite Hq. split; [|split; [exact Hc|field; lra]].
  apply quat_normalized_unit. unfold norm2. cbn.
  transitivity ((x * x + y * y) / (4 * (c * c)) + c * c); [field; lra|].
  replace (x * x + y * y) with ((1 - z) * (1 + z)) by nra. rewrite Hc. field. nra.
Qed.

(** It takes [b] to the Z axis. *)
Lemma z_to_points b : vnorm2 b = 1 -> v2 b <> -1 -> quat_frame_conv (z_to b) b = Vec 0 0 1 /\ norm2 (z_to b) = 1.
Proof.
  intros Hb Hz. destruct (z_to_form b Hb Hz) as (c & u & -> & Hc & Hu).
  destruct b as [x y z]. unfold vnorm2, norm2 in *. cbn [q0 q1 q2 q3 v0 v1 v2] in *.
  assert (u * u * (1 + z) = 1 / 2) as Hu2 by nra.
  assert (u * u * (x * x + y * y) = (1 - z) / 2) as Hxy
    by (replace (x * x + y * y) with ((1 - z) * (1 + z)) by nra; nra).
  split; [|nra].
  apply vec_ext; unfold quat_frame_conv; cbn [quat_mult quat_conjugate q0 q1 q2 q3 v0 v1 v2]; to_R.
  - transitivity (x * (c * c - u * u * (x * x + y * y) - z * (2 * c * u))); [ring|]. rewrite Hc, Hxy, Hu. field.
  - transitivity (y * (c * c - u * u * (x * x + y * y) - z * (2 * c * u))); [ring|]. rewrite Hc, Hxy, Hu. field.
  - transitivity ((x * x + y * y) * (2 * c * u) + z * (c * c - u * u * (x * x + y * y))); [ring|].
    rewrite Hc, Hxy, Hu. nra.
Qed.

Lemma frame_conv_comp q p v : quat_frame_conv (quat_mult q p) v = quat_frame_conv p (quat_frame_conv q v).
Proof. apply vec_ext; unfold quat_frame_conv; cbn [quat_mult quat_conjugate q0 q1 q2 q3 v0 v1 v2]; to_R; ring. Qed.

Lemma frame_conv_scale q k v : quat_frame_conv q (vscale k v) = vscale k (quat_frame_conv q v).
Proof. apply vec_ext; unfold quat_frame_conv, vscale; cbn [quat_mult quat_conjugate q0 q1 q2 q3 v0 v1 v2]; to_R; ring. Qed.

(** A change of frame and its direction. *)
Lemma frame_conv_direction q v : norm2 q <> 0 -> vnorm2 v = 1 ->
  vnorm2 (vec_normalized (quat_frame_conv q v)) = 1 /\
  quat_frame_conv q v = vscale (norm2 q) (vec_normalized (quat_frame_conv q v)).
Proof.
  intros Hq Hv. pose proof (norm2_pos q Hq) as Hp. pose proof (frame_conv_norm q v) as Hn. rewrite Hv in Hn.
  assert (vnorm2 (quat_frame_conv q v) <> 0) as Hne by nra.
  split; [by apply vec_normalized_unit|]. rewrite vec_normalized_ok by done. rewrite Hn.
  replace (norm2 q * norm2 q * 1) with (norm2 q * norm2 q) by ring. rewrite sqrt_square by lra.
  apply vec_ext; unfold vscale; cbn [v0 v1 v2]; field; exact Hq.
Qed.

Lemma z_axis : vec_normalized (Vec zero zero one) = Vec 0 0 1.
Proof. rewrite lit_zero, lit_one. apply unit_vec_normalized. unfold vnorm2. cbn. ring. Qed.

(** The body axis in the direction of the target: -1 when it points away. *)
Definition seen_z (q : quaternion R) (i_tar : vector3 R) : R :=
  v2 (vec_normalized (quat_frame_conv q (vec_normalized i_tar))).

Lemma target_points q i_tar : norm2 q <> 0 -> vnorm2 i_tar <> 0 -> seen_z q i_tar <> -1 ->
  quat_frame_conv (target_quaternion q i_tar) (vec_normalized i_tar) = Vec 0 0 (norm2 q) /\
  norm2 (target_quaternion q i_tar) = norm2 q.
Proof.
  intros Hq Hi Hz. unfold seen_z in Hz. pose proof (vec_normalized_unit i_tar Hi) as Hu.
  destruct (frame_conv_direction q _ Hq Hu) as (Hb & Hw).
  set (b := vec_normalized (quat_frame_conv q (vec_normalized i_tar))) in *.
  assert (target_quaternion q i_tar = quat_mult q (z_to b)) as ->.
  { unfold target_quaternion. rewrite z_axis. fold b. unfold z_to. do 3 f_equal. unfold vec_inner_product. cbn [nacos R_num]. f_equal.
    cbn [v0 v1 v2]. to_R. ring. }
  destruct (z_to_points b Hb Hz) as (Hp & Hn). split.
  - rewrite frame_conv_comp, Hw, frame_conv_scale, Hp. apply vec_ext; cbn; ring.
  - destruct (quat_mult_algebra q (z_to b) q) as (_ & -> & _). rewrite Hn. ring.
Qed.

(** A target straight behind: the axis of the rotation is the zero vector and
    the target quaternion is zero, not an attitude. *)
Theorem target_behind_is_zero q i_tar : norm2 q <> 0 -> vnorm2 i_tar <> 0 -> seen_z q i_tar = -1 ->
  norm2 (target_quaternion q i_tar) = 0.
Proof.
  intros Hq Hi Hz. unfold seen_z in Hz. pose proof (vec_normalized_unit i_tar Hi) as Hu.
  destruct (frame_conv_direction q _ Hq Hu) as (Hb & _). unfold target_quaternion.
  set (b := vec_normalized (quat_frame_conv q (vec_normalized i_tar))) in *. destruct b as [x y z].
  unfold vnorm2 in Hb. cbn [v0 v1 v2] in *. subst z. assert (x = 0) as -> by nra. assert (y = 0) as -> by nra.
  rewrite z_axis.
  rewrite vec_normalized_zero by (unfold vnorm2, vec_outer_product; cbn [v0 v1 v2]; to_R; ring).
  assert (nacos (vec_inner_product (Vec 0 0 1) (Vec 0 0 (-1))) = PI) as ->.
  { cbn [nacos R_num]. unfold vec_inner_product. cbn [v0 v1 v2]. to_R.
    replace (0 + 0 * 0 + 0 * 0 + 1 * -1) with (- (1)) by ring. rewrite acos_opp, acos_1. ring. }
  assert (axis_rotation_to_quat (vec_outer_product (Vec 0 0 1) (Vec 0 0 (-1))) PI = Quat 0 0 0 0) as ->.
  { unfold axis_rotation_to_quat, vec_outer_product. apply quat_ext; cbn [q0 q1 q2 q3 v0 v1 v2 nlit R_num]; to_R; try ring.
    cbn [nlit R_num]. replace (PI * (1 / 2)) with (PI / 2) by field. apply cos_PI2. }
  assert (quat_normalized (Quat 0 0 0 0) = Quat 0 0 0 0) as ->.
  { unfold quat_normalized, quat_normalize. rewrite quat_norm2_eq, lit_zero. unfold norm2. cbn [q0 q1 q2 q3 neqb R_num].
    destruct (Req_dec_T _ 0) as [_|E]; [done|]. exfalso. apply E. ring. }
  unfold norm2, quat_mult. cbn [q0 q1 q2 q3]. to_R. ring.
Qed.

(** *** The control law of the wheels *)
Definition vec_part (q : quaternion R) : vector3 R := Vec (q0 q) (q1 q) (q2 q).

(** A unit quaternion is the rotation about its vector part by twice the angle of
    its scalar. *)
Lemma unit_quat_rotation e : norm2 e = 1 -> vnorm2 (vec_part e) <> 0 ->
  axis_rotation_to_quat (vec_normalized (vec_part e)) (2 * acos (q3 e)) = e.
Proof.
  intros He Hv. destruct e as [x y z w]. unfold norm2, vec_part, vnorm2 in *. cbn [q0 q1 q2 q3 v0 v1 v2] in *.
  assert (-1 <= w <= 1) as Hw by nra.
  rewrite vec_normalized_ok by (unfold vnorm2; cbn; lra). unfold axis_rotation_to_quat, vscale, vnorm2. cbn [v0 v1 v2].
  assert (nmul (2 * acos w) (nlit 1 2) = acos w) as -> by (cbn [nmul nlit R_num]; field).
  set (r := sqrt _). assert (0 < r) as Hr by (apply sqrt_lt_R0; nra).
  assert (sin (acos w) = r) as Hs.
  { rewrite sin_acos by exact Hw. unfold r. f_equal. unfold Rsqr. lra. }
  apply quat_ext; cbn [q0 q1 q2 q3 nsin ncos nmul R_num]; rewrite ?Hs, ?cos_acos by exact Hw; try reflexivity; field; lra.
Qed.

Lemma mult_conjugate q p : norm2 q = 1 -> quat_mult q (quat_mult (quat_conjugate q) p) = p.
Proof.
  intros Hq.
  apply quat_ext; cbn [quat_mult quat_conjugate q0 q1 q2 q3]; to_R.
  all: match goal with |- _ = ?y => transitivity (norm2 q * y); [unfold norm2; ring|rewrite Hq; ring] end.
Qed.

(** The torque of the wheels: for unit attitudes that are not the same, the
    torque is proportional, along the axis [n] of the rotation that takes the
    current attitude to the target, to its angle (gain 0.001), plus the
    difference of the rates (gain 0.003); the integral term has gain zero. *)
Theorem control_torque_law {T} q_est q_tar w_est w_tar cycle junk (t : T) :
  norm2 q_est = 1 -> norm2 q_tar = 1 ->
  vnorm2 (vec_part (quat_mult (quat_conjugate q_est) q_tar)) <> 0 ->
  exists n theta, vnorm2 n = 1 /\ 0 <= theta <= 2 * PI /\
    q_tar = quat_mult q_est (axis_rotation_to_quat n theta) /\
    control_torque q_est q_tar w_est w_tar cycle junk t =
      Ret (Vec (theta / 1000 * v0 n + 3 / 1000 * (v0 w_tar - v0 w_est))
               (theta / 1000 * v1 n + 3 / 1000 * (v1 w_tar - v1 w_est))
               (theta / 1000 * v2 n + 3 / 1000 * (v2 w_tar - v2 w_est)), t).
Proof.
  intros He Ht Hv. set (e := quat_mult (quat_conjugate q_est) q_tar) in *.
  assert (norm2 e = 1) as Hn.
  { unfold e. destruct (quat_mult_algebra (quat_conjugate q_est) q_tar q_est) as (_ & -> & _). rewrite Ht.
    replace (norm2 (quat_conjugate q_est)) with (norm2 q_est); [rewrite He; ring|].
    unfold norm2, quat_conjugate. cbn [q0 q1 q2 q3]. to_R. ring. }
  exists (vec_normalized (vec_part e)), (2 * acos (q3 e)). split; [by apply vec_normalized_unit|].
  split; [pose proof (acos_bound (q3 e)); lra|].
  split; [rewrite unit_quat_rotation by done; unfold e; by rewrite mult_conjugate|].
  unfold control_torque. fold e. rewrite (quat_normalized_unit e Hn).
  change (Vec (q0 e) (q1 e) (q2 e)) with (vec_part e). cbn [v0 v1 v2 vec_part].
  assert (forall x : R, neqb x x = true) as Heq by (intros; cbn [neqb R_num]; by destruct (Req_dec_T x x)).
  rewrite !Heq. cbn [negb andb]. destruct (vec_normalized (vec_part e)) as [x y z].
  unfold mat_set_diag, vec_cons_mult, vec_map, vec_sum. cbn [v0 v1 v2]. unfold bind. rewrite !mat_vec_mult_3.
  cbn [ret]. unfold ret. do 2 f_equal. apply vec_ext; cbn [v0 v1 v2]; unfold neg1; cbn [nlit R_num]; to_R;
    cbn [nlit R_num]; field.
Qed.

Lemma control_torque_law_witness : exists n theta,
  Quat 0 0 (3 / 5) (4 / 5) = quat_mult (Quat 0 0 0 1) (axis_rotation_to_quat n theta) /\
  control_torque (Quat 0 0 0 1) (Quat 0 0 (3 / 5) (4 / 5)) (Vec 0 0 0) (Vec 0 0 1) 1 (Vec 0 0 0) tt =
    Ret (Vec (theta / 1000 * v0 n + 3 / 1000 * (0 - 0)) (theta / 1000 * v1 n + 3 / 1000 * (0 - 0))
             (theta / 1000 * v2 n + 3 / 1000 * (1 - 0)), tt).
Proof.
  destruct (control_torque_law (Quat 0 0 0 1) (Quat 0 0 (3 / 5) (4 / 5)) (Vec 0 0 0) (Vec 0 0 1) 1 (Vec 0 0 0) tt)
    as (n & theta & _ & _ & Hq & E).
  - unfold norm2. cbn. lra.
  - unfold norm2. cbn. lra.
  - unfold vnorm2. cbn. lra.
  - exists n, theta. split; [exact Hq|exact E].
Defined.

(** *** The magnetic moment *)
Definition vsub (v w : vector3 R) : vector3 R := Vec (v0 v - v0 w) (v1 v - v1 w) (v2 v - v2 w).

(** The moment that gives the part of a torque normal to the field. *)
Lemma moment_torque B t : vnorm2 B <> 0 ->
  let m := vec_cons_mult (1 / vnorm2 B) (vec_outer_product B t) in
  dot m B = 0 /\ vec_outer_product m B = vsub t (vscale (dot t B / vnorm2 B) B).
Proof.
  intros HB m. unfold m. split.
  - unfold dot, vec_cons_mult, vec_map, vec_outer_product. cbn [v0 v1 v2]. to_R. ring.
  - apply vec_ext; unfold vec_cons_mult, vec_map, vec_outer_product, vsub, vscale, dot; cbn [v0 v1 v2]; to_R;
      unfold vnorm2 in *; field; exact HB.
Qed.

Lemma nT2T_eq : (nT2T : R) = 1 / 10 ^ 9.
Proof. unfold nT2T. cbn [nlit R_num]. change (10 ^ 9)%Z with 1000000000%Z. lra. Qed.

(** The wanted torque: it opposes the error of the rate when detumbling. *)
Lemma mag_torque_ok {T} mode mag w_est w_tar junk (t : T) :
  exists tq, mag_torque mode mag w_est w_tar junk t = Ret (tq, t) /\
    (mode = DAT_OBC_OPMODE_DETUMB_MAG ->
     let dw := vsub w_est w_tar in v0 tq * v0 dw <= 0 /\ v1 tq * v1 dw <= 0 /\ v2 tq * v2 dw <= 0).
Proof.
  unfold mag_torque, mat_set_diag.
  destruct (vec_cons_mult neg1 (vec_sum w_est (vec_cons_mult neg1 w_tar))) as [e0 e1 e2] eqn:Ee.
  unfold bind at 1. rewrite mat_vec_mult_3. cbv beta iota zeta. eexists. split; [reflexivity|].
  intros ->. rewrite Z.eqb_refl. cbn [v0 v1 v2 vsub vec_cons_mult vec_map].
  assert (e0 = - (v0 w_est - v0 w_tar) /\ e1 = - (v1 w_est - v1 w_tar) /\ e2 = - (v2 w_est - v2 w_tar)) as (-> & -> & ->).
  { unfold vec_cons_mult, vec_map, vec_sum, neg1 in Ee. cbn [v0 v1 v2] in Ee. injection Ee as <- <- <-.
    to_R. cbn [nlit R_num]. repeat split; field. }
  set (inv := if nleb _ _ then _ else _).
  assert (0 < inv) as Hinv.
  { unfold inv. cbn [nleb R_num]. rewrite vec_norm_eq. destruct (Rle_dec _ _) as [Hle|_]; rewrite lit_one; [|lra].
    apply Rdiv_lt_0_compat; [lra|]. eapply Rlt_le_trans; [|exact Hle].
    cbn [nlit R_num]. apply Rdiv_lt_0_compat; [lra|apply IZR_lt; done]. }
  rewrite !nabs_eq. to_R. cbn [nlit R_num].
  set (mx := vec_outer_product _ _). generalize (Rabs_pos (v0 mx)) (Rabs_pos (v1 mx)) (Rabs_pos (v2 mx)).
  generalize (Rabs (v0 mx)) (Rabs (v1 mx)) (Rabs (v2 mx)).
  intros a b c Ha Hb Hc. clearbody inv.
  assert (forall k d m, 0 <= m -> 0 < k -> (0 + k * - d) * inv * (1 * m) * d <= 0) as Hs.
  { intros k d m Hm Hk. assert (0 <= k * inv * m * (d * d)) by (apply Rmult_le_pos; [apply Rmult_le_pos; [apply Rmult_le_pos; lra|lra]|nra]).
    nra. }
  repeat split; [eapply Rle_trans; [right|apply (Hs (35 / 1000) (v0 w_est - v0 w_tar) a); lra]
    |eapply Rle_trans; [right|apply (Hs (35 / 1000) (v1 w_est - v1 w_tar) b); lra]
    |eapply Rle_trans; [right|apply (Hs (7 / 1000) (v2 w_est - v2 w_tar) c); lra]]; ring.
Qed.

(** The magnetic torquers: for a measured field other than zero, the moment is
    normal to the field [B], and the torque it gives in the field is the part
    of the wanted torque [tq] that is normal to the field.  When detumbling, [tq]
    opposes the error of the rate in every component. *)
Theorem mag_moment_torque {T} mode mag w_est w_tar junk (t : T) :
  vnorm2 mag <> 0 ->
  exists m tq, mag_torque mode mag w_est w_tar junk t = Ret (tq, t) /\
    mag_moment mode mag w_est w_tar junk t = Ret (m, t) /\
    let B := vscale (1 / 10 ^ 9) mag in
    dot m B = 0 /\ vec_outer_product m B = vsub tq (vscale (dot tq B / vnorm2 B) B) /\
    (mode = DAT_OBC_OPMODE_DETUMB_MAG ->
     let dw := vsub w_est w_tar in
     v0 tq * v0 dw <= 0 /\ v1 tq * v1 dw <= 0 /\ v2 tq * v2 dw <= 0).
Proof.
  intros Hm. destruct (mag_torque_ok mode mag w_est w_tar junk t) as (tq & E & Hd).
  unfold mag_moment. rewrite (bind_step _ _ _ _ _ E). eexists _, tq. split; [exact E|]. split; [reflexivity|]. cbv zeta.
  assert (vec_cons_mult nT2T mag = vscale (1 / 10 ^ 9) mag) as ->
    by (apply vec_ext; unfold vec_cons_mult, vec_map, vscale; rewrite nT2T_eq; cbn [v0 v1 v2 nmul R_num]; ring).
  set (B := vscale (1 / 10 ^ 9) mag).
  assert (vnorm2 B = (1 / 10 ^ 9) * (1 / 10 ^ 9) * vnorm2 mag) as HB by (unfold B, vnorm2, vscale; cbn [v0 v1 v2]; ring).
  assert (vnorm2 B <> 0) as HB0.
  { rewrite HB. apply Rmult_integral_contrapositive. split; [|exact Hm]. lra. }
  assert (ndiv one (sq (nmul nT2T (vec_norm mag))) = 1 / vnorm2 B) as ->.
  { rewrite HB, vec_norm_eq, nT2T_eq, lit_one. unfold sq. cbn [ndiv nmul R_num]. f_equal.
    transitivity (1 / 10 ^ 9 * (1 / 10 ^ 9) * (sqrt (vnorm2 mag) * sqrt (vnorm2 mag))); [ring|].
    rewrite sqrt_def by apply vnorm2_nonneg. reflexivity. }
  destruct (moment_torque B tq HB0) as (H1 & H2). split; [exact H1|]. split; [exact H2|exact Hd].
Qed.

Lemma mag_moment_torque_witness : exists m tq,
  mag_moment DAT_OBC_OPMODE_DETUMB_MAG (Vec 1 0 0) (Vec 0 0 1) (Vec 0 0 0) (Vec 0 0 0) tt = Ret (m, tt) /\
  dot m (vscale (1 / 10 ^ 9) (Vec 1 0 0)) = 0 /\ v2 tq * (1 - 0) <= 0.
Proof.
  destruct (mag_moment_torque DAT_OBC_OPMODE_DETUMB_MAG (Vec 1 0 0) (Vec 0 0 1) (Vec 0 0 0) (Vec 0 0 0) tt)
    as (m & tq & _ & E & Hd & _ & Ho).
  - unfold vnorm2. cbn. lra.
  - exists m, tq. split; [exact E|]. split; [exact Hd|]. destruct (Ho eq_refl) as (_ & _ & Hz). exact Hz.
Defined.

(** *** The sun *)
(** The direction of the sun is a unit vector, whatever the date. *)
Theorem sun_direction_unit (deg jd : R) : vnorm2 (calc_sun_pos_i deg jd) = 1.
Proof.
  unfold calc_sun_pos_i. cbv zeta. set (lam := nmul (nadd _ _) deg). set (e := nmul (nsub _ _) deg).
  unfold vnorm2. cbn [v0 v1 v2]. to_R. clearbody lam e.
  pose proof (sin2_cos2 lam) as H1. pose proof (sin2_cos2 e) as H2. unfold Rsqr in *.
  transitivity (cos lam * cos lam + (sin e * sin e + cos e * cos e) * (sin lam * sin lam)); [ring|]. rewrite H2. lra.
Qed.

(** *** The conversions, over the reals *)
Definition f32_real (b : Z) : R :=
  let sg := if Z.testbit b 31 then -1 else 1 in
  let e := ((b / 2 ^ 23) mod 256)%Z in
  let m := (b mod 2 ^ 23)%Z in
  if Z.eqb e 0 then sg * IZR m * powerRZ 2 (-149) else sg * IZR (m + 2 ^ 23) * powerRZ 2 (e - 150).
Definition real_f32 (x : R) : Z :=
  u32_of (f32_of_ratio (if Rlt_dec x 0 then true else false) (Int_part (Rabs x * IZR (2 ^ 149))) (2 ^ 149)).
Definition print_real (x : R) : cstring :=
  let n := Int_part (Rabs x * 1000000 + 1 / 2) in
  (if Rlt_dec x 0 then [45%Z] else []) ++ print_dec (n / 1000000) ++ [46%Z] ++ tail (print_dec (1000000 + n mod 1000000)).
Definition scan_real (s : cstring) : option (R * cstring) :=
  let (neg, s1) := take_sign s in
  let (ints, s2) := take_digits s1 in
  let (fracs, s3) := match s2 with
                     | c :: s2' => if Z.eqb c 46 then take_digits s2' else ([], s2)
                     | [] => ([], [])
                     end in
  match ints ++ fracs with
  | [] => None
  | ds => let (e, r) := scan_exponent s3 in
          let k := (e - zlength fracs)%Z in
          let x := IZR (scale10_num (dec_value ds) k) / IZR (scale10_den k) in
          Some (if neg then - x else x, r)
  end.
Definition trunc_real (x : R) : Z := if Rlt_dec x 0 then (- Int_part (- x))%Z else Int_part x.

#[export] Instance R_double : Double R := {
  of_f32 := f32_real; to_f32 := real_f32; print_lf := print_real; scan_lf := scan_real;
  ntrunc := trunc_real; nfloor := Int_part
}.
#[export] Instance R_double_laws : DoubleLaws R.
Proof. constructor. intros x. apply u32_of_range. Qed.

(** [fmod2p] brings an angle into one turn. *)
Theorem fmod2p_range {T} (turn x : R) (t : T) :
  0 < turn -> Rabs (x / turn) < 2147483647 ->
  exists y k, fmod2p turn x t = Ret (y, t) /\ 0 <= y < turn /\ x = y + IZR k * turn.
Proof.
  intros Ht Hx. unfold fmod2p. cbn [ntrunc R_double ndiv R_num]. set (r := x / turn) in *.
  assert (exists i : Z, trunc_real r = i /\ -2147483647 < IZR i < 2147483647 /\
    (r < 0 /\ -1 < r - IZR i <= 0 \/ 0 <= r /\ 0 <= r - IZR i < 1)) as (i & Hti & Hi & Hf).
  { apply Rabs_def2 in Hx. unfold trunc_real. destruct (Rlt_dec r 0) as [Hn|Hn].
    - exists (- Int_part (- r))%Z. rewrite opp_IZR. destruct (base_Int_part (- r)) as [H1 H2].
      assert (0 <= IZR (Int_part (- r))).
      { apply IZR_le. assert (-1 < IZR (Int_part (- r))) as H3%(lt_IZR (-1)) by lra. lia. }
      split; [done|]. lra.
    - exists (Int_part r). destruct (base_Int_part r) as [H1 H2].
      assert (0 <= IZR (Int_part r)).
      { apply IZR_le. assert (-1 < IZR (Int_part r)) as H3%(lt_IZR (-1)) by lra. lia. }
      split; [done|]. lra. }
  rewrite Hti. destruct Hi as [H1%(lt_IZR (-2147483647)) H2%lt_IZR]. unfold bind at 1.
  rewrite cint_ok by (unfold INT_MIN, INT_MAX; lia). unfold ret. cbn [nsub nmul nlit nltb nadd R_num]. rewrite lit_zero.
  assert (x = r * turn) as Hr by (unfold r; field; lra).
  set (y := x - IZR i / 1 * turn). assert (y = (r - IZR i) * turn) as Hy by (unfold y; rewrite Hr; field).
  destruct (Rlt_dec y 0) as [Hn|Hn].
  - exists (y + turn), (i - 1)%Z. split; [done|]. rewrite minus_IZR. split; [nra|lra].
  - exists y, i. split; [done|]. split; [nra|lra].
Qed.
End AdcsReal.


(** ** Commands *)
Module AdcsTheorems.
Import RepoData RepoDataLaws RepoDataTheorems Clients MathUtils MathReal Adcs AdcsLaws AdcsReal.

Section commands.
Context {S F : Type} `{StorageLaws S} `{DoubleLaws R}.
Implicit Types s : adcs S F.
Implicit Types d : dat S.

Definition a_dat s : dat S := cl_dat (a_client s).
Definition with_a_dat d s : adcs S F :=
  AdcsState (Client d (cl_cmds (a_client s)) (cl_sent (a_client s))) (a_buffer s) (a_sendto s) (a_transaction s) (a_packets s).

Lemma on_data_step {A} (m : M (dat S) A) s a d :
  m (a_dat s) = Ret (a, d) -> on_data m s = Ret (a, with_a_dat d s).
Proof. intros E. unfold on_data, on_client, data, zoom. cbn. unfold a_dat in E. by rewrite E. Qed.

Lemma lf_params_ok fmt text (l : list R) s :
  is_cstr text -> scan_lfs (length (filter (fun c => c = chr_percent) fmt)) text = l ->
  lf_params fmt (Some (with_nul text)) (zlength l) s = Ret (Some l, s).
Proof.
  intros Ht Hl. unfold lf_params, with_nul, bind, lift. rewrite cstr_of_buf_nul by done. rewrite Hl.
  by rewrite Z.eqb_refl.
Qed.

(** A quaternion and a vector as they are stored. *)
Definition quat_at d (index : Z) : quaternion R :=
  Quat (of_f32 (var d index)) (of_f32 (var d (index + 1))) (of_f32 (var d (index + 2))) (of_f32 (var d (index + 3))).
Definition vec_at d (index : Z) : vector3 R :=
  Vec (of_f32 (var d index)) (of_f32 (var d (index + 1))) (of_f32 (var d (index + 2))).
Definition stored (l : list R) d (index : Z) : Prop :=
  forall i x, zlookup l i = Some x -> var d (index + i) = to_f32 x.

(** Pointing: with a stored attitude and a target direction other than zero,
    and unless the target is straight behind, [adcs_set_target] stores the
    rates it is given and a target attitude, rounded to [float]s: the change
    of frame with this attitude takes the direction of the target to the Z axis
    of the body (times the square of the norm of the stored attitude, which is
    1 for a unit quaternion).  No other variable and no entry of the flight plan
    changes. *)
Theorem adcs_set_target_points (V : adcs_vars) text x y z wx wy wz s :
  let d := a_dat s in
  let q := quat_at d (dat_ads_q0 V) in
  let target := Vec x y z in
  dat_ok d -> is_cstr text -> scan_lfs 6 text = [x; y; z; wx; wy; wz] ->
  (0 <= dat_ads_q0 V)%Z -> (dat_ads_q0 V + 4 < dat_status_last_address)%Z ->
  (0 <= dat_tgt_q0 V)%Z -> (dat_tgt_q0 V + 4 <= dat_tgt_omega_x V)%Z -> (dat_tgt_omega_x V + 3 < dat_status_last_address)%Z ->
  norm2 q <> 0%R -> vnorm2 target <> 0%R -> seen_z q target <> (-1)%R ->
  exists s' qt,
    adcs_set_target V (cs "%lf %lf %lf %lf %lf %lf") (Some (with_nul text)) 6 s = Ret (CMD_OK, s') /\
    quat_frame_conv qt (vec_normalized target) = Vec 0%R 0%R (norm2 q) /\ norm2 qt = norm2 q /\
    stored (quat_list qt) (a_dat s') (dat_tgt_q0 V) /\ stored [wx; wy; wz] (a_dat s') (dat_tgt_omega_x V) /\
    st_slots (store (a_dat s')) = st_slots (store d) /\
    forall j, (0 <= j < dat_status_last_address)%Z ->
      ~ (dat_tgt_q0 V <= j < dat_tgt_q0 V + 4)%Z -> ~ (dat_tgt_omega_x V <= j < dat_tgt_omega_x V + 3)%Z ->
      var (a_dat s') j = var d j.
Proof.
  intros d q target Hok Ht Hs Hq1 Hq2 Ht1 Ht2 Ht3 Hq Hi Hz. unfold adcs_set_target.
  rewrite (bind_step _ _ _ _ _ (lf_params_ok (cs "%lf %lf %lf %lf %lf %lf") text _ s Ht Hs)).
  rewrite (bind_step _ _ _ _ _ (on_data_step _ s _ _ (get_quat_ok d (dat_ads_q0 V) Hok Hq1 Hq2))).
  fold (quat_at d (dat_ads_q0 V)). fold q. fold target.
  replace (with_a_dat d s) with s by (by destruct s as [[] ? ? ? ?]).
  destruct (target_points q target Hq Hi Hz) as (Hp & Hn). set (qt := target_quaternion q target) in *.
  destruct (set_doubles_ok (quat_list qt) d (dat_tgt_q0 V) Hok Ht1 ltac:(change (zlength (quat_list qt)) with 4%Z; lia))
    as (s1 & E1 & Hok1 & Hsl1 & Hv1).
  rewrite (bind_step _ _ _ _ _ (on_data_step (_set_sat_quaterion qt (dat_tgt_q0 V)) s _ _ E1)).
  destruct (set_doubles_ok [wx; wy; wz] (set_store s1 d) (dat_tgt_omega_x V) Hok1 ltac:(lia)
    ltac:(change (zlength [wx; wy; wz]) with 3%Z; lia)) as (s2 & E2 & Hok2 & Hsl2 & Hv2).
  rewrite (bind_step _ _ _ _ _ (on_data_step (_set_sat_vector (Vec wx wy wz) (dat_tgt_omega_x V)) (with_a_dat (set_store s1 d) s) _ _ E2)).
  rewrite (bind_step _ _ _ _ _ (on_data_step _ (with_a_dat (set_store s2 (set_store s1 d)) _) _ _
    (get_quat_ok (set_store s2 (set_store s1 d)) (dat_tgt_q0 V) Hok2 Ht1 ltac:(lia)))).
  eexists _, qt. split; [reflexivity|]. split; [exact Hp|]. split; [exact Hn|]. 
  assert (forall j, (0 <= j < dat_status_last_address)%Z -> var (set_store s2 (set_store s1 d)) j =
    match zlookup [wx; wy; wz] (j - dat_tgt_omega_x V) with Some v => to_f32 v | None =>
    match zlookup (quat_list qt) (j - dat_tgt_q0 V) with Some v => to_f32 v | None => var d j end end) as Hv.
  { intros j Hj. rewrite Hv2 by done. destruct (zlookup [wx; wy; wz] _); [done|]. by apply Hv1. }
  assert (forall (l : list R) i, (i < 0 \/ zlength l <= i)%Z -> zlookup l i = None) as Hout.
  { intros l i Hr. destruct (zlookup l i) eqn:E; [|done]. apply zlookup_Some_lt in E. lia. }
  splits.
  - intros i v Hl. pose proof (zlookup_Some_lt _ _ _ Hl) as Hlt. change (zlength (quat_list qt)) with 4%Z in Hlt.
    change (var _ _) with (var (set_store s2 (set_store s1 d)) (dat_tgt_q0 V + i)). rewrite Hv by lia.
    rewrite Hout by lia. replace (dat_tgt_q0 V + i - dat_tgt_q0 V)%Z with i by lia. by rewrite Hl.
  - intros i v Hl. pose proof (zlookup_Some_lt _ _ _ Hl) as Hlt. change (zlength [wx; wy; wz]) with 3%Z in Hlt.
    change (var _ _) with (var (set_store s2 (set_store s1 d)) (dat_tgt_omega_x V + i)). rewrite Hv by lia.
    replace (dat_tgt_omega_x V + i - dat_tgt_omega_x V)%Z with i by lia. by rewrite Hl.
  - change (st_slots s2 = st_slots (store d)). by rewrite Hsl2, <- Hsl1.
  - intros j Hj Hj1 Hj2. change (var (set_store s2 (set_store s1 d)) j = var d j). rewrite Hv by done.
    rewrite (Hout [wx; wy; wz]) by (change (zlength [wx; wy; wz]) with 3%Z; lia).
    by rewrite Hout by (change (zlength (quat_list qt)) with 4%Z; lia).
Qed.
End commands.


(** *** A concrete satellite: attitude one, target straight ahead *)
Local Open Scope R_scope.
Definition demo_vars : adcs_vars := AdcsVars 1 5 12 9 12 12.
Definition demo_adcs (d : dat Ram.ram_state) : adcs Ram.ram_state unit :=
  AdcsState (Client d RepoCommand.RepoCommand.repo_boot []) true 0 (fun _ => (0%Z, [])) [].

Lemma f32_real_one : f32_real 0x3F800000 = 1.
Proof.
  unfold f32_real. change (Z.testbit _ 31) with false. change ((0x3F800000 / 2 ^ 23) mod 256)%Z with 127%Z.
  change (0x3F800000 mod 2 ^ 23 + 2 ^ 23)%Z with 8388608%Z. change (127 =? 0)%Z with false. cbv iota beta zeta.
  change (127 - 150)%Z with (-23)%Z. cbn [powerRZ]. change (Pos.to_nat 23) with 23%nat. cbn [pow]. field.
Qed.
Lemma f32_real_zero : f32_real 0 = 0.
Proof. unfold f32_real. change (Z.testbit 0 31) with false. change ((0 / 2 ^ 23) mod 256 =? 0)%Z with true. cbv iota beta zeta. change (0 mod 2 ^ 23)%Z with 0%Z. ring. Qed.

(** The boot values with the attitude one. *)
Lemma boot_vars : st_status_size (store (ram_data 0)) = dat_status_last_address /\
  Forall (fun i => var (ram_data 0) i = 0%Z) [1; 2; 3]%Z.
Proof. split; [vm_compute; reflexivity|]. repeat (constructor; [vm_compute; reflexivity|]). constructor. Qed.
Lemma one_stored : exists d : dat Ram.ram_state, dat_ok d /\ quat_at d 1 = Quat 0 0 0 1.
Proof.
  destruct boot_vars as (Hsz & Hb). pose proof (proj1 (ram_data_fp 0)) as Hok. revert Hsz Hb Hok.
  generalize (ram_data 0). intros d0 Hsz Hb Hok. rewrite !Forall_cons in Hb. destruct Hb as (H1 & H2 & H3 & _).
  destruct (set_status_ok d0 4 0x3F800000 Hok) as (st' & _ & _ & Hok' & _ & _ & _ & Hv);
    [rewrite Hsz; unfold dat_status_last_address; lia|lia|].
  exists (set_store st' d0). split; [exact Hok'|].
  unfold quat_at. cbn [of_f32 R_double]. rewrite !Hv by (rewrite Hsz; unfold dat_status_last_address; lia).
  repeat first [rewrite decide_False by lia|rewrite decide_True by lia].
  change (1 + 1)%Z with 2%Z. change (1 + 2)%Z with 3%Z. by rewrite H1, H2, H3, f32_real_one, f32_real_zero.
Qed.

Lemma adcs_set_target_points_witness : exists d s' qt,
  adcs_set_target demo_vars (cs "%lf %lf %lf %lf %lf %lf") (Some (with_nul (cs "0 0 1 0 0 0.5"))) 6 (demo_adcs d) = Ret (CMD_OK, s') /\
  quat_frame_conv qt (vec_normalized (Vec (0 / 1) (0 / 1) (1 / 1))) = Vec 0 0 1.
Proof.
  destruct one_stored as (d & Hok & Hq).
  assert (Vec (0 / 1) (0 / 1) (1 / 1) = Vec 0 0 1 :> vector3 R) as Ht by (apply vec_ext; cbn; field).
  destruct (adcs_set_target_points demo_vars (cs "0 0 1 0 0 0.5") (0/1) (0/1) (1/1) (0/1) (0/1) (5/10) (demo_adcs d))
    as (s' & qt & E & Hp & _).
  1: exact Hok.
  1: by repeat constructor.
  1: reflexivity.
  1-5: unfold dat_status_last_address; cbn; lia.
  1-3: change (a_dat (demo_adcs d)) with d; change (dat_ads_q0 demo_vars) with 1%Z; rewrite ?Hq, ?Ht.
  - unfold norm2. cbn. lra.
  - unfold vnorm2. cbn. lra.
  - unfold seen_z. rewrite (unit_vec_normalized (Vec 0 0 1)) by (unfold vnorm2; cbn; ring).
    assert (quat_frame_conv (Quat 0 0 0 1) (Vec 0 0 1) = Vec 0 0 1) as ->
      by (apply vec_ext; unfold quat_frame_conv; cbn [quat_mult quat_conjugate q0 q1 q2 q3 v0 v1 v2]; to_R; ring).
    rewrite (unit_vec_normalized (Vec 0 0 1)) by (unfold vnorm2; cbn; ring). cbn. lra.
  - exists d, s', qt. split; [exact E|]. rewrite Hp. change (a_dat (demo_adcs d)) with d.
    change (dat_ads_q0 demo_vars) with 1%Z. rewrite Hq. f_equal. unfold norm2. cbn. ring.
Defined.
End AdcsTheorems.
