(* ===== verification/Igrf.v ===== *)
(** * The geomagnetic reference field

    [src/lib/igrf/igrf13.c]: the coefficients of the thirteenth generation of
    the IGRF, their extrapolation in time, the spherical harmonics of [shval3]
    and the rotation of the field to inertial axes.  As in MathUtils the
    numbers are a parameter; class [Transcendental] adds the functions of
    [math.h] that only this file uses.

    The global variables of the file are the record [igrf].  The variables [x],
    [y], [z], [d], [i], [h], [f] and those with the suffix [temp] are two
    records [field], which the argument [gh] selects together with [gha] or
    [ghb] (3 and 4; with another value the functions only print a message).
    The arrays of model headers are one array of records.  The local arrays of
    [shval3] start uninitialised: reading a cell before it is written is a
    fault, as is an index outside of an array.  The file that [read_model] and
    [getshc] read is a field of the state; messages are left out. *)
From S2P Require Import Prelude CStr MathUtils.

Class Transcendental (K : Type) := {
  natan2 : K -> K -> K;
  npow : K -> K -> K;
  nlog : K -> K
}.

Module Igrf.
Import MathUtils.

Definition RECL : Z := 81.
Definition MAXINBUFF : Z := RECL + 14.
Definition MAXREAD : Z := RECL + 14 - 2.
Definition MAXMOD : Z := 30.
Definition MAXDEG : Z := 13.
Definition MAXCOEFF : Z := MAXDEG * (MAXDEG + 2) + 1.
Definition IEXT : Z := 0.

(** The coefficients of the year 2020 and their yearly change, in hundredths
    of nT; the second table has 80 entries, the others are zero. *)
Definition gh1_init : list Z :=
  [0; -2940480; -145090; 465250; -249960; 298200; -299160; 167700; -73460; 136320; -238120; -8210;
   123620; 24190; 52570; -54340; 90300; 80950; 28190; 8630; -15840; -30940; 19970; 4800; -34970;
   -23430; 36320; 4770; 18780; 20830; -14070; -12120; -15120; 3230; 1350; 9890; 6600; 6550; -1910;
   7290; 2510; -12150; 5280; -3620; -6450; 1350; 890; -6470; 6810; 8060; -7670; -5150; -820; -1690;
   5650; 220; 1580; 2350; 640; -220; -720; -2720; 980; -180; 2370; 970; 840; -1760; -1530; -50; 1280;
   -2110; -1170; 1530; 1490; 1370; 360; -1650; -690; -30; 280; 500; 840; -2340; 290; 1100; -150; 980;
   -110; -510; -1320; -630; 110; 780; 880; 40; -930; -140; -1190; 960; -190; -620; 340; -10; -20; 170;
   360; -90; 480; 70; -860; -90; -10; 190; -430; 140; -340; -240; -10; -380; -880; 300; -140; 0; -250;
   250; 230; -60; -90; -40; 30; 60; -70; -20; -10; -170; 140; -160; -60; -300; 20; -200; 310; -260;
   -200; -10; -120; 50; 50; 130; 140; -120; -180; 70; 10; 30; 80; 50; -20; -30; 60; -50; 20; 10; -90;
   -110; 0; -30; 50; 10; -90; -90; 50; 60; 70; 140; -30; -40; 80; -130; 0; -10; 80; 30; 0; -10; 40;
   50; 10; 50; 50; -40; -50; -40; -40; -60].
Definition gh2_init : list Z :=
  [0; 570; 740; -2590; -1100; -700; -3020; -210; -2240; 220; -590; 600; 310; -110; -1200; 50; -120;
   -160; -10; -590; 650; 520; 360; -510; -500; -30; 50; 0; -60; 250; 20; -60; 130; 300; 90; 30; -50;
   -30; 0; 40; -160; 130; -130; -140; 80; 0; 0; 90; 100; -10; -20; 60; 0; 60; 70; -80; 10; -20; -50;
   -110; -80; 10; 80; 30; 0; 10; -20; -10; 60; 40; -20; -10; 50; 40; -30; 30; -40; -10; 50; 40].

Section defs.
Context {K : Type} `{Num K} `{Double K} `{Transcendental K}.
Local Open Scope num_scope.

Definition of_int (n : Z) : K := nlit n 1.
Definition NaN : K := nlog (nlit (-1) 1).
Definition PI : K := nlit 3141592654 (10 ^ 9).
Definition DEG2RAD : K := nlit 17453292519943295769236907684886 (10 ^ 33).
Definition RAD2DEG : K := nlit 180 1 / PI.

(** ** State *)
Record field := Field { f_x : K; f_y : K; f_z : K; f_d : K; f_i : K; f_h : K; f_f : K }.
Record rates := Rates { ddot : K; fdot : K; hdot : K; idot : K; xdot : K; ydot : K; zdot : K }.
Record warnings := Warnings {
  warn_H : Z; warn_H_strong : Z; warn_P : Z; warn_H_val : K; warn_H_strong_val : K
}.
Record header := Header {
  m_model : cstring; m_epoch : K; m_max1 : Z; m_max2 : Z; m_max3 : Z;
  m_yrmin : K; m_yrmax : K; m_altmin : K; m_altmax : K; m_irec_pos : Z
}.
(** The tables of coefficients. *)
Record tables := Tables { gh1 : list K; gh2 : list K; gha : list K; ghb : list K }.
(** What is known of the model file. *)
Record file_vars := FileVars {
  models : list header; modelI : Z; nmodel : Z; minyr : K; maxyr : K; fileline : Z; mdfile : cstring; first_flg : bool
}.
(** Where and when the field is computed. *)
Record place_vars := PlaceVars {
  sdate : K; alt : K; latitude : K; longitude : K; minalt : K; maxalt : K; igdgc : Z; nmax : Z
}.
Record results := Results { now : field; temp : field; rate : rates; warn : warnings; gccolat : K }.
Record igrf := IgrfState {
  tabs : tables; mfile : file_vars; place : place_vars; rslt : results; files : cstring -> option (list Z)
}.

Definition upd_tabs f s := IgrfState (f (tabs s)) (mfile s) (place s) (rslt s) (files s).
Definition upd_mfile f s := IgrfState (tabs s) (f (mfile s)) (place s) (rslt s) (files s).
Definition upd_place f s := IgrfState (tabs s) (mfile s) (f (place s)) (rslt s) (files s).
Definition upd_res f s := IgrfState (tabs s) (mfile s) (place s) (f (rslt s)) (files s).

Definition set_gh1 l := upd_tabs (fun t => Tables l (gh2 t) (gha t) (ghb t)).
Definition set_gh2 l := upd_tabs (fun t => Tables (gh1 t) l (gha t) (ghb t)).
Definition set_gha l := upd_tabs (fun t => Tables (gh1 t) (gh2 t) l (ghb t)).
Definition set_ghb l := upd_tabs (fun t => Tables (gh1 t) (gh2 t) (gha t) l).

Definition set_models ms :=
  upd_mfile (fun v => FileVars ms (modelI v) (nmodel v) (minyr v) (maxyr v) (fileline v) (mdfile v) (first_flg v)).
Definition set_modelI i :=
  upd_mfile (fun v => FileVars (models v) i (nmodel v) (minyr v) (maxyr v) (fileline v) (mdfile v) (first_flg v)).
Definition set_nmodel n :=
  upd_mfile (fun v => FileVars (models v) (modelI v) n (minyr v) (maxyr v) (fileline v) (mdfile v) (first_flg v)).
Definition set_years lo hi :=
  upd_mfile (fun v => FileVars (models v) (modelI v) (nmodel v) lo hi (fileline v) (mdfile v) (first_flg v)).
Definition set_fileline n :=
  upd_mfile (fun v => FileVars (models v) (modelI v) (nmodel v) (minyr v) (maxyr v) n (mdfile v) (first_flg v)).
Definition set_mdfile f :=
  upd_mfile (fun v => FileVars (models v) (modelI v) (nmodel v) (minyr v) (maxyr v) (fileline v) f (first_flg v)).
Definition set_first_flg b :=
  upd_mfile (fun v => FileVars (models v) (modelI v) (nmodel v) (minyr v) (maxyr v) (fileline v) (mdfile v) b).

Definition set_place date a lat lon :=
  upd_place (fun v => PlaceVars date a lat lon (minalt v) (maxalt v) (igdgc v) (nmax v)).
Definition set_alts lo hi a :=
  upd_place (fun v => PlaceVars (sdate v) a (latitude v) (longitude v) lo hi (igdgc v) (nmax v)).
Definition set_igdgc c :=
  upd_place (fun v => PlaceVars (sdate v) (alt v) (latitude v) (longitude v) (minalt v) (maxalt v) c (nmax v)).
Definition set_nmax n :=
  upd_place (fun v => PlaceVars (sdate v) (alt v) (latitude v) (longitude v) (minalt v) (maxalt v) (igdgc v) n).

Definition set_now v := upd_res (fun r => Results v (temp r) (rate r) (warn r) (gccolat r)).
Definition set_temp v := upd_res (fun r => Results (now r) v (rate r) (warn r) (gccolat r)).
Definition set_rate v := upd_res (fun r => Results (now r) (temp r) v (warn r) (gccolat r)).
Definition set_warn w := upd_res (fun r => Results (now r) (temp r) (rate r) w (gccolat r)).
Definition set_gccolat c := upd_res (fun r => Results (now r) (temp r) (rate r) (warn r) c).

(** The variables before the first call.  [hdr] is a header of zeros. *)
Definition zero_header : header := Header [] zero 0 0 0 zero zero zero zero 0.
Definition zero_field : field := Field zero zero zero zero zero zero zero.
Definition hundredths (l : list Z) : list K :=
  map (fun c => nlit c 100) (l ++ repeat 0%Z (Z.to_nat (MAXCOEFF - zlength l))).
Definition igrf_init (fs : cstring -> option (list Z)) : igrf := IgrfState
  (Tables (hundredths gh1_init) (hundredths gh2_init) (hundredths []) (hundredths []))
  (FileVars (repeat zero_header (Z.to_nat MAXMOD)) 0 0 zero zero 0 [] false)
  (PlaceVars (nlit (-1) 1) (nlit (-999999) 1) (nlit 200 1) (nlit 200 1) zero zero 3 0)
  (Results zero_field zero_field (Rates zero zero zero zero zero zero zero) (Warnings 0 0 0 zero zero) zero) fs.

(** The variables that [gh] selects. *)
Inductive slot := Now | Temp.
Definition slot_of (gh : Z) : option slot :=
  if Z.eqb gh 3 then Some Now else if Z.eqb gh 4 then Some Temp else None.
Definition coeffs (c : slot) (s : igrf) : list K := match c with Now => gha (tabs s) | Temp => ghb (tabs s) end.
Definition set_coeffs (c : slot) (l : list K) (s : igrf) : igrf :=
  match c with Now => set_gha l s | Temp => set_ghb l s end.
Definition fieldv (c : slot) (s : igrf) : field := match c with Now => now (rslt s) | Temp => temp (rslt s) end.
Definition set_fieldv (c : slot) (v : field) (s : igrf) : igrf :=
  match c with Now => set_now v s | Temp => set_temp v s end.
Definition set_xyz (c : slot) (x y z : K) : M igrf unit :=
  modify (fun s => let v := fieldv c s in set_fieldv c (Field x y z (f_d v) (f_i v) (f_h v) (f_f v)) s).

(** ** Rotations *)
Definition my_isnan (d : K) : Z := if negb (neqb d d) then 1 else 0.

Definition RotationZ (bfr : vector3 K) (theta : K) : vector3 K :=
  Vec (ncos theta * v0 bfr - nsin theta * v1 bfr) (nsin theta * v0 bfr + ncos theta * v1 bfr) (v2 bfr).
Definition RotationY (bfr : vector3 K) (theta : K) : vector3 K :=
  Vec (ncos theta * v0 bfr + nsin theta * v2 bfr) (v1 bfr) (- nsin theta * v0 bfr + ncos theta * v2 bfr).
Definition RotationX (bfr : vector3 K) (theta : K) : vector3 K :=
  Vec (v0 bfr) (ncos theta * v1 bfr + nsin theta * v2 bfr) (- nsin theta * v1 bfr + ncos theta * v2 bfr).

Definition TransMagaxisToECI (mag_ned : vector3 K) (lonrad thetarad gmst : K) : vector3 K :=
  let temp1 := RotationY mag_ned (nlit (-1) 1 * (nlit 180 1 * DEG2RAD - thetarad)) in
  let temp2 := RotationZ temp1 lonrad in
  RotationZ temp2 gmst.

(** ** Degrees *)
Definition degrees_to_decimal (degrees minutes seconds : Z) : K :=
  let deg := of_int degrees in
  let min := of_int minutes / nlit 60 1 in
  let sec := of_int seconds / nlit 3600 1 in
  let decimal := nabs sec + nabs min + nabs deg in
  if nltb deg zero then - decimal
  else if neqb deg zero then
    if nltb min zero then - decimal
    else if neqb min zero then
      if nltb sec zero then - decimal else decimal
    else decimal
  else decimal.

(** ** The model file *)

(** What successive calls of [fgets(buf, n, stream)] return. *)
Fixpoint fgets_lines (n : Z) (line bs : list Z) : list (list Z) :=
  match bs with
  | [] => if Z.eqb (zlength line) 0 then [] else [line]
  | c :: bs => let line := line ++ [c] in
               if Z.eqb c 10 || Z.eqb (zlength line) (n - 1) then line :: fgets_lines n [] bs
               else fgets_lines n line bs
  end.
(** The text in the buffer, and with each line the position after it. *)
Fixpoint until_nul (l : list Z) : cstring :=
  match l with [] => [] | c :: l => if Z.eqb c 0 then [] else c :: until_nul l end.
Fixpoint with_ftell (pos : Z) (ls : list (list Z)) : list (cstring * Z) :=
  match ls with [] => [] | l :: ls => (until_nul l, pos + zlength l)%Z :: with_ftell (pos + zlength l)%Z ls end.

(** [sscanf] with the conversions [%s], [%d] and [%lg]: the values in order,
    up to the first that fails. *)
Inductive item := IS | ID | IG.
Inductive value := VS (w : cstring) | VD (z : Z) | VG (x : K).
Fixpoint scan_items (fmt : list item) (s : cstring) : res (list value) :=
  let next v r fmt := match scan_items fmt r with Ret vs => Ret (v :: vs) | Fault f => Fault f end in
  match fmt with
  | [] => Ret []
  | IS :: fmt => match conv_str s with Conv (VStr w) r => next (VS w) r fmt | _ => Ret [] end
  | ID :: fmt => match conv_int s with
                 | Conv (VInt z) r => next (VD z) r fmt
                 | BadRange => Fault ScanOverflow
                 | _ => Ret []
                 end
  | IG :: fmt => match scan_lf (skip_space s) with Some (x, r) => next (VG x) r fmt | None => Ret [] end
  end.
(** The new value of a variable, or the old one. *)
Definition got_d {A} (wrap : Z -> A) (vs : list value) (i : nat) (old : A) : A := match vs !! i with Some (VD z) => wrap z | _ => old end.
Definition got_g {A} (wrap : K -> A) (vs : list value) (i : nat) (old : A) : A := match vs !! i with Some (VG x) => wrap x | _ => old end.
(** A word for an array of [n] characters. *)
Definition got_s {S} (n : Z) (vs : list value) (i : nat) (old : cstring) : M S cstring :=
  match vs !! i with
  | Some (VS w) => if Z.ltb (strlen w) n then ret w else fail OutOfBounds
  | _ => ret old
  end.

Definition scan_header (line : cstring) (m : header) (pos : Z) : M igrf header :=
  let! vs := lift (scan_items [IS; IG; ID; ID; ID; IG; IG; IG; IG] line) in
  let! name := got_s 9 vs 0 (m_model m) in
  ret (Header name (got_g id vs 1 (m_epoch m)) (got_d id vs 2 (m_max1 m)) (got_d id vs 3 (m_max2 m)) (got_d id vs 4 (m_max3 m))
        (got_g id vs 5 (m_yrmin m)) (got_g id vs 6 (m_yrmax m)) (got_g id vs 7 (m_altmin m)) (got_g id vs 8 (m_altmax m)) pos).

(** One turn of the loop over the lines: [Some] code when the program exits. *)
Definition read_model_line (lp : cstring * Z) : M igrf (option Z) :=
  let '(line, pos) := lp in
  modify (fun s => set_fileline (fileline (mfile s) + 1)%Z s) ;!
  if negb (Z.eqb (strlen line) RECL) then ret (Some 5%Z) else
  if bool_decide (take 3 line = cs "   ") then
    modify (fun s => set_modelI (modelI (mfile s) + 1)%Z s) ;!
    let! i := gets (fun s => modelI (mfile s)) in
    if Z.ltb MAXMOD i then ret (Some 6%Z) else
    let! ms := gets (fun s => models (mfile s)) in
    let! m := arr_get ms i in
    let! m := scan_header line m pos in
    let! ms := arr_set ms i m in
    modify (set_models ms) ;!
    (if Z.eqb i 0 then modify (fun s => set_years (m_yrmin m) (m_yrmax m) s)
     else modify (fun s => set_years (if nltb (m_yrmin m) (minyr (mfile s)) then m_yrmin m else minyr (mfile s))
                                     (if nltb (maxyr (mfile s)) (m_yrmax m) then m_yrmax m else maxyr (mfile s)) s)) ;!
    ret None
  else ret None.

(** Without the file [rewind] is called on a null pointer. *)
Definition read_model : M igrf (option Z) :=
  modify (set_mdfile (cs "IGRF13.COF")) ;!
  let! s := get in
  put (set_warn (Warnings 0 0 0 (nlit 99999 1) (nlit 99999 1)) s) ;!
  match files s (cs "IGRF13.COF") with
  | None => fail NullDeref
  | Some bs =>
      modify (set_fileline 0%Z) ;! modify (set_modelI (-1)%Z) ;!
      let! r := for_ret (with_ftell 0 (fgets_lines MAXREAD [] bs)) read_model_line in
      match r with
      | Some code => ret (Some code)
      | None => modify (fun s => set_nmodel (modelI (mfile s) + 1)%Z s) ;! ret None
      end
  end.

(** The locals of [getshc] that its loop changes; [None] is uninitialised. *)
Record shc := Shc {
  c_lines : list (list Z); c_inbuff : option cstring; c_ii : Z;
  c_n : option Z; c_m : option Z; c_g : option K; c_hh : option K
}.
Definition init {S A} (o : option A) : M S A := match o with Some x => ret x | None => fail Uninitialized end.
Definition store_gh (gh i : Z) (x : K) : M igrf unit :=
  if Z.eqb gh 1 then let! l := gets (fun s => gh1 (tabs s)) in let! l := arr_set l i x in modify (set_gh1 l)
  else if Z.eqb gh 2 then let! l := gets (fun s => gh2 (tabs s)) in let! l := arr_set l i x in modify (set_gh2 l)
  else ret tt.

(** One coefficient pair; [None] when the degree or order differ. *)
Definition getshc_step (iflag gh nn mm : Z) (c : shc) : M igrf (option shc) :=
  let '(line, rest) := match c_lines c with
                       | l :: ls => (Some (until_nul l), ls)
                       | [] => (c_inbuff c, [])
                       end in
  let! text := init line in
  let! vs := lift (scan_items [ID; ID; IG; IG; IG; IG; IS; ID] text) in
  got_s 9 vs 6 [] ;!
  let n := got_d Some vs 0 (c_n c) in
  let m := got_d Some vs 1 (c_m c) in
  let g := got_g Some vs (if Z.eqb iflag 1 then 2 else 4) (c_g c) in
  let hh := got_g Some vs (if Z.eqb iflag 1 then 3 else 5) (c_hh c) in
  (if Z.eqb iflag 1 then let! _ := init g in ret tt else ret tt) ;!
  let! n' := init n in
  let! m' := init m in
  if negb (Z.eqb nn n') || negb (Z.eqb mm m') then ret None else
  let ii := (c_ii c + 1)%Z in
  let! g' := init g in
  store_gh gh ii g' ;!
  if negb (Z.eqb m' 0) then
    let! hh' := init hh in
    store_gh gh (ii + 1)%Z hh' ;!
    ret (Some (Shc rest line (ii + 1)%Z n m g hh))
  else ret (Some (Shc rest line ii n m g hh)).

Fixpoint getshc_loop (iflag gh : Z) (nms : list (Z * Z)) (c : shc) : M igrf Z :=
  match nms with
  | [] => ret 0%Z
  | (nn, mm) :: nms => let! r := getshc_step iflag gh nn mm c in
                       match r with Some c => getshc_loop iflag gh nms c | None => ret (-2)%Z end
  end.

(** The degrees and orders in the order of the loops. *)
Definition degree_orders (nmax : Z) : list (Z * Z) :=
  concat (map (fun nn => map (pair nn) (range (nn + 1))) (seqZ 1 nmax)).

(** Without the file, [fclose] is called on a null pointer. *)
Definition getshc (file : cstring) (iflag strec nmax_of_gh gh : Z) : M igrf Z :=
  let! s := get in
  match files s file with
  | None => fail NullDeref
  | Some bs => getshc_loop iflag gh (degree_orders nmax_of_gh)
                 (Shc (fgets_lines MAXREAD [] (drop (Z.to_nat strec) bs)) None 0 None None None None)
  end.

(** ** Coefficients at a date *)

(** [for (ii = lo; ii <= hi; ++ii) gha[ii] = v(gh1[ii], gh2[ii])], and the same
    with [ghb]. *)
Definition fill_coeffs (gh lo hi : Z) (v : K -> K -> K) : M igrf unit :=
  match slot_of gh with
  | None => ret tt
  | Some c =>
      for_ (seqZ lo (hi + 1 - lo)) (fun ii =>
        let! s := get in
        let! a := arr_get (gh1 (tabs s)) ii in
        let! b := arr_get (gh2 (tabs s)) ii in
        let! l := arr_set (coeffs c s) ii (v a b) in
        modify (set_coeffs c l))
  end.
Definition count (nmax : Z) : M igrf Z := cint (nmax * (nmax + 2)).

Definition extrapsh (date dte1 : K) (nmax1 nmax2 gh : Z) : M igrf Z :=
  let factor := date - dte1 in
  let! '(k, nmax) :=
    if Z.eqb nmax1 nmax2 then let! k := count nmax1 in ret (k, nmax1)
    else if Z.ltb nmax2 nmax1 then
      let! k := count nmax2 in
      let! l := count nmax1 in
      fill_coeffs gh (k + 1) l (fun a b => a) ;! ret (k, nmax1)
    else
      let! k := count nmax1 in
      let! l := count nmax2 in
      fill_coeffs gh (k + 1) l (fun a b => factor * b) ;! ret (k, nmax2) in
  fill_coeffs gh 1 k (fun a b => a + factor * b) ;!
  ret nmax.

Definition interpsh (date dte1 : K) (nmax1 : Z) (dte2 : K) (nmax2 gh : Z) : M igrf Z :=
  let factor := (date - dte1) / (dte2 - dte1) in
  let! '(k, nmax) :=
    if Z.eqb nmax1 nmax2 then let! k := count nmax1 in ret (k, nmax1)
    else if Z.ltb nmax2 nmax1 then
      let! k := count nmax2 in
      let! l := count nmax1 in
      fill_coeffs gh (k + 1) l (fun a b => a + factor * (- a)) ;! ret (k, nmax1)
    else
      let! k := count nmax1 in
      let! l := count nmax2 in
      fill_coeffs gh (k + 1) l (fun a b => factor * b) ;! ret (k, nmax2) in
  fill_coeffs gh 1 k (fun a b => a + factor * (b - a)) ;!
  ret nmax.

(** ** Spherical harmonics *)
Definition earths_radius : K := nlit 63712 10.
Definition dtr : K := nlit 1745329 (10 ^ 8).
Definition sq_semi_major : K := nlit 4068063159 100.
Definition sq_semi_minor : K := nlit 4040829998 100.

(** The locals of the loop over the harmonics. *)
Record sh := Sh {
  s_n : Z; s_m : Z; s_l : Z; s_rr : option K; s_fn : option K;
  s_sl : list (option K); s_cl : list (option K); s_p : list (option K); s_q : list (option K)
}.
Definition rd {S} (a : list (option K)) (i : Z) : M S K := let! o := arr_get a i in init o.
Definition wr {S} (a : list (option K)) (i : Z) (x : K) : M S (list (option K)) := arr_set a i (Some x).
Definition junk (n : nat) : list (option K) := repeat None n.

(** The latitude, kept off the poles for the cosine. *)
Definition off_pole (flat : K) : K :=
  if nltb (nlit 90 1 - flat) (nlit 1 1000) then nlit 89999 1000
  else if nltb (nlit 90 1 + flat) (nlit 1 1000) then nlit (-89999) 1000
  else flat.

(** From geodetic to geocentric coordinates: [slat], [clat], [sd], [cd], [r]. *)
Definition geocentric (elev slat clat : K) : K * K * K * K * K :=
  let a2 := sq_semi_major in
  let b2 := sq_semi_minor in
  let aa := a2 * clat * clat in
  let bb := b2 * slat * slat in
  let cc := aa + bb in
  let dd := nsqrt cc in
  let r := nsqrt (elev * (elev + two * dd) + (a2 * aa + b2 * bb) / cc) in
  let cd := (elev + dd) / r in
  let sd := (a2 - b2) / dd * slat * clat / r in
  (slat * cd - clat * sd, clat * cd + slat * sd, sd, cd, r).

Definition legendre_start {S} (slat clat : K) : M S (list (option K) * list (option K)) :=
  let aa := nsqrt (nlit 3 1) in
  let! p := wr (junk 119) 1 (two * slat) in
  let! p := wr p 2 (two * clat) in
  let! p := wr p 3 (nlit 45 10 * slat * slat - nlit 15 10) in
  let! p := wr p 4 (nlit 3 1 * aa * clat * slat) in
  let! q := wr (junk 119) 1 (- clat) in
  let! q := wr q 2 slat in
  let! q := wr q 3 (nlit (-3) 1 * clat * slat) in
  let! q := wr q 4 (aa * (slat * slat - clat * clat)) in
  ret (p, q).

(** The next degree when the orders of one are done. *)
Definition next_degree (ratio : K) (h : sh) : sh :=
  if Z.ltb (s_n h) (s_m h) then
    let n := (s_n h + 1)%Z in
    Sh n 0 (s_l h) (Some (npow ratio (of_int (n + 2)))) (Some (of_int n)) (s_sl h) (s_cl h) (s_p h) (s_q h)
  else h.

(** [p[k]], [q[k]] and the multiples of the longitude, for [k >= 5]. *)
Definition legendre_step {S} (slat clat : K) (k : Z) (h : sh) : M S sh :=
  if Z.ltb k 5 then ret h else
  let n := s_n h in
  let m := s_m h in
  let fm := of_int m in
  let! fn := init (s_fn h) in
  if Z.eqb m n then
    let aa := nsqrt (one - nlit 1 2 / fm) in
    let j := (k - n - 1)%Z in
    let! pj := rd (s_p h) j in
    let! p := wr (s_p h) k ((one + one / fm) * aa * clat * pj) in
    let! qj := rd (s_q h) j in
    let! pj := rd p j in
    let! q := wr (s_q h) k (aa * (clat * qj + slat / fm * pj)) in
    let! s1 := rd (s_sl h) (m - 1) in
    let! c1 := rd (s_cl h) (m - 1) in
    let! cl1 := rd (s_cl h) 1 in
    let! sl1 := rd (s_sl h) 1 in
    let! sl := wr (s_sl h) m (s1 * cl1 + c1 * sl1) in
    let! c1 := rd (s_cl h) (m - 1) in
    let! s1 := rd sl (m - 1) in
    let! cl1 := rd (s_cl h) 1 in
    let! sl1 := rd sl 1 in
    let! cl := wr (s_cl h) m (c1 * cl1 - s1 * sl1) in
    ret (Sh n m (s_l h) (s_rr h) (s_fn h) sl cl p q)
  else
    let aa := nsqrt (fn * fn - fm * fm) in
    let bb := nsqrt ((fn - one) * (fn - one) - fm * fm) / aa in
    let cc := (two * fn - one) / aa in
    let ii := (k - n)%Z in
    let j := (k - 2 * n + 1)%Z in
    let! pii := rd (s_p h) ii in
    let! pj := rd (s_p h) j in
    let! p := wr (s_p h) k ((fn + one) * (cc * slat / fn * pii - bb / (fn - one) * pj)) in
    let! qii := rd (s_q h) ii in
    let! pii := rd p ii in
    let! qj := rd (s_q h) j in
    let! q := wr (s_q h) k (cc * (slat * qii - clat / fn * pii) - bb * qj) in
    ret (Sh n m (s_l h) (s_rr h) (s_fn h) (s_sl h) (s_cl h) p q).

(** The terms of the harmonic added to the field; the new [l]. *)
Definition add_terms (c : slot) (slat clat : K) (k : Z) (h : sh) : M igrf Z :=
  let m := s_m h in
  let l := s_l h in
  let! s := get in
  let! rr := init (s_rr h) in
  let! g := arr_get (coeffs c s) l in
  let aa := rr * g in
  let v := fieldv c s in
  if Z.eqb m 0 then
    let! qk := rd (s_q h) k in
    let! pk := rd (s_p h) k in
    set_xyz c (f_x v + aa * qk) (f_y v) (f_z v - aa * pk) ;!
    ret (l + 1)%Z
  else
    let! g1 := arr_get (coeffs c s) (l + 1) in
    let bb := rr * g1 in
    let! clm := rd (s_cl h) m in
    let! slm := rd (s_sl h) m in
    let cc := aa * clm + bb * slm in
    let! qk := rd (s_q h) k in
    let! pk := rd (s_p h) k in
    let! fn := init (s_fn h) in
    let y := if nltb zero clat
             then f_y v + (aa * slm - bb * clm) * of_int m * pk / ((fn + one) * clat)
             else f_y v + (aa * slm - bb * clm) * qk * slat in
    set_xyz c (f_x v + cc * qk) y (f_z v - cc * pk) ;!
    ret (l + 2)%Z.

Definition shval3_step (gh : Z) (slat clat ratio : K) (h : sh) (k : Z) : M igrf sh :=
  let! h := legendre_step slat clat k (next_degree ratio h) in
  let! l := match slot_of gh with
            | Some c => add_terms c slat clat k h
            | None => ret (if Z.eqb (s_m h) 0 then s_l h + 1 else s_l h)%Z
            end in
  ret (Sh (s_n h) (s_m h + 1) l (s_rr h) (s_fn h) (s_sl h) (s_cl h) (s_p h) (s_q h)).

(** The terms of external sources. *)
Definition external_terms (gh iext : Z) (ext1 ext2 ext3 slat clat : K) (h : sh) : M igrf unit :=
  if Z.eqb iext 0 then ret tt else
  let! cl1 := rd (s_cl h) 1 in
  let! sl1 := rd (s_sl h) 1 in
  let aa := ext2 * cl1 + ext3 * sl1 in
  match slot_of gh with
  | Some c => let! s := get in
              let v := fieldv c s in
              set_xyz c (f_x v - ext1 * clat + aa * slat) (f_y v + ext2 * sl1 - ext3 * cl1) (f_z v + ext1 * slat + aa * clat)
  | None => ret tt
  end.

(** Back to the geodetic vertical. *)
Definition to_geodetic (gh : Z) (cd sd : K) : M igrf unit :=
  match slot_of gh with
  | Some c => let! s := get in
              let v := fieldv c s in
              set_xyz c (f_x v * cd + f_z v * sd) (f_y v) (f_z v * cd - f_x v * sd)
  | None => ret tt
  end.

Definition shval3 (igdgc : Z) (flat flon elev : K) (nmax gh iext : Z) (ext1 ext2 ext3 : K) : M igrf Z :=
  let slat := nsin (flat * dtr) in
  let clat := ncos (off_pole flat * dtr) in
  let! sl := wr (junk 14) 1 (nsin (flon * dtr)) in
  let! cl := wr (junk 14) 1 (ncos (flon * dtr)) in
  (match slot_of gh with Some c => set_xyz c zero zero zero | None => ret tt end) ;!
  let! npq := cint (nmax * (nmax + 3)) in
  let npq := Z.quot npq 2 in
  let '(slat, clat, sd, cd, r) :=
    if Z.eqb igdgc 1 then geocentric elev slat clat else (slat, clat, zero, one, elev) in
  (if Z.eqb igdgc 1 then modify (set_gccolat (natan2 clat slat)) else ret tt) ;!
  let ratio := earths_radius / r in
  let! '(p, q) := legendre_start slat clat in
  let! h := fold_m (seqZ 1 npq) (shval3_step gh slat clat ratio) (Sh 0 1 1 None None sl cl p q) in
  external_terms gh iext ext1 ext2 ext3 slat clat h ;!
  to_geodetic gh cd sd ;!
  ret 0%Z.

(** ** Declination, inclination and intensity *)
Definition dihf (gh : Z) : M igrf Z :=
  match slot_of gh with
  | None => ret gh
  | Some c =>
      let! s := get in
      let v := fieldv c s in
      let sn := nlit 1 10000 in
      let h2 := f_x v * f_x v + f_y v * f_y v in
      let h := nsqrt h2 in
      let f := nsqrt (h2 + f_z v * f_z v) in
      let '(d, i) :=
        if nltb f sn then (NaN, NaN) else
        let i := natan2 (f_z v) h in
        if nltb h sn then (NaN, i) else
        let hpx := h + f_x v in
        if nltb hpx sn then (PI, i) else (two * natan2 (f_y v) hpx, i) in
      modify (set_fieldv c (Field (f_x v) (f_y v) (f_z v) d i h f)) ;!
      ret gh
  end.

(** ** The field at the coordinates in the global variables *)
Definition secular_variation (v w : field) : rates :=
  let dd := (f_d w - f_d v) * RAD2DEG in
  let dd := if nltb (nlit 180 1) dd then dd - nlit 360 1 else dd in
  let dd := if nleb dd (nlit (-180) 1) then dd + nlit 360 1 else dd in
  Rates (dd * nlit 60 1) (f_f w - f_f v) (f_h w - f_h v) ((f_i w - f_i v) * RAD2DEG * nlit 60 1)
        (f_x w - f_x v) (f_y w - f_y v) (f_z w - f_z v).

(** The magnetic poles. *)
Definition magnetic_poles : M igrf unit :=
  let! s := get in
  let v := now (rslt s) in
  (if nltb (f_h v) (nlit 100 1) then
     modify (set_now (Field (f_x v) (f_y v) (f_z v) NaN (f_i v) (f_h v) (f_f v))) ;!
     modify (set_rate (let r := rate (rslt s) in Rates NaN (fdot r) (hdot r) (idot r) (xdot r) (ydot r) (zdot r)))
   else ret tt) ;!
  let w := warn (rslt s) in
  if nltb (f_h v) (nlit 1000 1) then
    modify (set_warn (Warnings 0 1 (warn_P w) (warn_H_val w)
      (if nltb (f_h v) (warn_H_strong_val w) then f_h v else warn_H_strong_val w)))
  else if nltb (f_h v) (nlit 5000 1) && Z.eqb (warn_H_strong w) 0 then
    modify (set_warn (Warnings 1 (warn_H_strong w) (warn_P w)
      (if nltb (f_h v) (warn_H_val w) then f_h v else warn_H_val w) (warn_H_strong_val w)))
  else ret tt.

(** The geographic poles. *)
Definition geographic_poles : M igrf unit :=
  let! s := get in
  if nleb (nlit 90 1 - nabs (latitude (place s))) (nlit 1 1000) then
    let v := now (rslt s) in
    let r := rate (rslt s) in
    let w := warn (rslt s) in
    modify (set_now (Field NaN NaN (f_z v) NaN (f_i v) (f_h v) (f_f v))) ;!
    modify (set_rate (Rates NaN (fdot r) (hdot r) (idot r) NaN NaN (zdot r))) ;!
    modify (set_warn (Warnings 0 0 1 (warn_H_val w) (warn_H_strong_val w)))
  else ret tt.

(** The coefficients at the date and a year later. *)
Definition coeffs_at_date (m : header) : M igrf unit :=
  let! s := get in
  let step date gh :=
    (if Z.eqb (m_max2 m) 0 then
       let! m1 := arr_get (models (mfile s)) (modelI (mfile s) + 1) in
       interpsh date (m_yrmin m) (m_max1 m) (m_yrmin m1) (m_max1 m1) gh
     else extrapsh date (m_epoch m) (m_max1 m) (m_max2 m) gh) in
  let! n := step (sdate (place s)) 3%Z in
  modify (set_nmax n) ;!
  let! n := step (sdate (place s) + one) 4%Z in
  modify (set_nmax n).

Definition calc_mag_coords : M igrf unit :=
  let! s := get in
  let! m := arr_get (models (mfile s)) (modelI (mfile s)) in
  modify (set_alts (m_altmin m * nlit 1000 1) (m_altmax m * nlit 1000 1) (alt (place s) * nlit 1 1000)) ;!
  modify (set_igdgc 1%Z) ;!
  coeffs_at_date m ;!
  let! s := get in
  shval3 (igdgc (place s)) (latitude (place s)) (longitude (place s)) (alt (place s)) (nmax (place s)) 3 IEXT zero zero zero ;!
  dihf 3 ;!
  let! s := get in
  shval3 (igdgc (place s)) (latitude (place s)) (longitude (place s)) (alt (place s)) (nmax (place s)) 4 IEXT zero zero zero ;!
  dihf 4 ;!
  let! s := get in
  let v := now (rslt s) in
  modify (set_rate (secular_variation v (temp (rslt s)))) ;!
  modify (set_now (Field (f_x v) (f_y v) (f_z v) (f_d v * RAD2DEG) (f_i v * RAD2DEG) (f_h v) (f_f v))) ;!
  magnetic_poles ;!
  geographic_poles.

(** The header that [IgrfCalc] writes in place of reading the file; the name
    and the position of the record stay. *)
Definition igrf13_header (old : header) : header :=
  Header (m_model old) (nlit 2020 1) 13 8 0 (nlit 2020 1) (nlit 2025 1) (nlit (-1) 1) (nlit 600 1) (m_irec_pos old).

(** [inl code] when the program exits, else the field in inertial axes. *)
Definition IgrfCalc (decyear latrad lonrad altm side : K) : M igrf (Z + vector3 K) :=
  modify (set_place decyear altm (latrad * RAD2DEG) (lonrad * RAD2DEG)) ;!
  let! s := get in
  let! r :=
    (if first_flg (mfile s) then
       let! r := read_model in
       match r with
       | Some code => ret (Some code)
       | None => modify (set_first_flg false) ;! ret None
       end
     else
       let! m := arr_get (models (mfile s)) 0 in
       let! ms := arr_set (models (mfile s)) 0 (igrf13_header m) in
       modify (set_models ms) ;!
       modify (set_modelI 0%Z) ;!
       modify (set_years (nlit 2020 1) (nlit 2025 1)) ;!
       ret None) in
  match r with
  | Some code => ret (inl code)
  | None =>
      calc_mag_coords ;!
      let! s := get in
      let mag_ned := Vec (f_x (now (rslt s))) (f_y (now (rslt s))) (f_z (now (rslt s))) in
      ret (inr (TransMagaxisToECI mag_ned lonrad (gccolat (rslt s)) side))
  end.

End defs.
End Igrf.
