(* ===== verification/IgrfLaws.v ===== *)
(** * The loops of the field model

    What [shval3] of Igrf computes, for any arithmetic: its arrays hold the
    values of a recursion over degree and order, every index is inside its
    array and every cell is written before it is read, and the field is the
    sum of the terms of the harmonics in the order of the loop. *)
From S2P Require Import Prelude CStr MathUtils MathLoops Igrf.

Module IgrfLaws.
Import MathUtils MathLoops Igrf.

(** ** The cell of degree [n] and order [m] *)
Fixpoint tri (n : nat) : nat := match n with O => O | Datatypes.S n' => (tri n' + n)%nat end.
Definition cell (n m : nat) : Z := Z.of_nat (tri n + m).
(** The first coefficient of the harmonic. *)
Definition coef_at (n m : nat) : Z := Z.of_nat (n * n + (2 * m - 1)).

Lemma tri_double n : (2 * tri n = n * (n + 1))%nat.
Proof. induction n; cbn [tri]; lia. Qed.
Lemma tri_pred n : (1 <= n)%nat -> tri n = (tri (n - 1) + n)%nat.
Proof. intros. destruct n as [|n]; [lia|]. cbn [tri]. by replace (S n - 1)%nat with n by lia. Qed.
Lemma tri_mono n n' : (n <= n')%nat -> (tri n <= tri n')%nat.
Proof. induction 1; cbn [tri]; lia. Qed.
Lemma tri_13 n m : (n <= 13)%nat -> (m <= n)%nat -> (tri n + m <= 104)%nat.
Proof. intros Hn Hm. pose proof (tri_mono n 13 Hn) as H. change (tri 13) with 91%nat in H. lia. Qed.
Lemma tri_ge n : (n <= tri n)%nat.
Proof. induction n; cbn [tri]; lia. Qed.
Lemma tri_5 n : (3 <= n)%nat -> (6 <= tri n)%nat.
Proof. intros H. pose proof (tri_mono 3 n H). by change (tri 3) with 6%nat in *. Qed.

(** Degrees and orders in the order of the loop. *)
Definition orders (n : nat) : list (nat * nat) := map (pair n) (seq 0 (S n)).
Definition harmonics (N : nat) : list (nat * nat) := concat (map orders (seq 1 N)).

Section reference.
Context {K : Type} `{Num K} `{Double K} `{Transcendental K}.
Local Open Scope num_scope.

(** ** The reference: recursion over the degree *)
Section point.
Variables slat clat : K.
Definition num (n : nat) : K := of_int (Z.of_nat n).

(** The values of [p] and [q] for a degree and an order. *)
Definition leg_diag (n : nat) (pq : K * K) : K * K :=
  let aa := nsqrt (one - nlit 1 2 / num n) in
  ((one + one / num n) * aa * clat * fst pq, aa * (clat * snd pq + slat / num n * fst pq)).
Definition leg_next (n m : nat) (pq pq' : K * K) : K * K :=
  let fn := num n in
  let fm := num m in
  let aa := nsqrt (fn * fn - fm * fm) in
  let bb := nsqrt ((fn - one) * (fn - one) - fm * fm) / aa in
  let cc := (two * fn - one) / aa in
  ((fn + one) * (cc * slat / fn * fst pq - bb / (fn - one) * fst pq'),
   cc * (slat * snd pq - clat / fn * fst pq) - bb * snd pq').
Fixpoint leg (n : nat) : nat -> K * K :=
  match n with
  | O => fun _ => (zero, zero)
  | S O => fun m => match m with O => (two * slat, - clat) | _ => (two * clat, slat) end
  | S ((S n2) as n1) => fun m =>
      if Nat.eqb n2 0 && Nat.eqb m 0 then (nlit 45 10 * slat * slat - nlit 15 10, nlit (-3) 1 * clat * slat)
      else if Nat.eqb n2 0 && Nat.eqb m 1 then
        (nlit 3 1 * nsqrt (nlit 3 1) * clat * slat, nsqrt (nlit 3 1) * (slat * slat - clat * clat))
      else if Nat.eqb m n then leg_diag n (leg n1 n1)
      else leg_next n m (leg n1 m) (if Nat.eqb m n1 then leg n1 0 else leg n2 m)
  end.
End point.

(** Sine and cosine of the multiples of an angle. *)
Fixpoint multiple (s1 c1 : K) (m : nat) : K * K :=
  match m with
  | O => (zero, one)
  | S O => (s1, c1)
  | S m' => let '(s, c) := multiple s1 c1 m' in (s * c1 + c * s1, c * c1 - s * s1)
  end.

(** The term of one harmonic. *)
Definition term (cf : list K) (slat clat ratio s1 c1 : K) (v : K * K * K) (nm : nat * nat) : K * K * K :=
  let '(n, m) := nm in
  let '(x, y, z) := v in
  let '(pk, qk) := leg slat clat n m in
  let rr := npow ratio (of_int (Z.of_nat n + 2)) in
  let coef i := default zero (zlookup cf i) in
  if Nat.eqb m 0 then
    let aa := rr * coef (Z.of_nat (n * n)) in (x + aa * qk, y, z - aa * pk)
  else
    let aa := rr * coef (coef_at n m) in
    let bb := rr * coef (coef_at n m + 1)%Z in
    let '(slm, clm) := multiple s1 c1 m in
    let cc := aa * clm + bb * slm in
    (x + cc * qk,
     (if nltb zero clat then y + (aa * slm - bb * clm) * num m * pk / ((num n + one) * clat)
      else y + (aa * slm - bb * clm) * qk * slat),
     z - cc * pk).
Definition synthesis (cf : list K) (slat clat ratio s1 c1 : K) (N : nat) : K * K * K :=
  foldl (term cf slat clat ratio s1 c1) (zero, zero, zero) (harmonics N).
End reference.

(** ** The loop of [shval3] *)
Section loop.
Context {K : Type} `{Num K} `{Double K} `{Transcendental K}.
Implicit Types (h : sh (K := K)) (s : igrf (K := K)).
Variables (slat clat ratio s1 c1 : K).
Local Abbreviation leg := (leg slat clat).
Local Abbreviation multiple := (multiple s1 c1).

Definition holds (a : list (option K)) (i : Z) (x : K) : Prop := zlookup a i = Some (Some x).

Lemma rd_ok {S} a i x (s : S) : holds a i x -> rd a i s = Ret (x, s).
Proof. intros E. unfold rd. by rewrite (bind_step _ _ _ _ _ (arr_get_Some _ _ _ _ E)). Qed.
Lemma wr_ok {S} (a : list (option K)) i x (s : S) : 0 <= i < zlength a -> wr a i x s = Ret (zinsert a i (Some x), s).
Proof. apply arr_set_ok. Qed.
Lemma holds_eq a i x : 0 <= i < zlength a -> holds (zinsert a i (Some x)) i x.
Proof. apply zlookup_zinsert_eq. Qed.
Lemma holds_ne a i j x y : i <> j -> holds a j y -> holds (zinsert a i (Some x)) j y.
Proof. intros Hne Hy. unfold holds. by rewrite zlookup_zinsert_ne. Qed.

(** The cells below [k] and the first [j] multiples are known. *)
Record known (k : nat) (j : nat) h : Prop := {
  known_p : zlength (s_p h) = 119;
  known_q : zlength (s_q h) = 119;
  known_sl : zlength (s_sl h) = 14;
  known_cl : zlength (s_cl h) = 14;
  known_leg : forall n m, (1 <= n)%nat -> (m <= n)%nat -> (tri n + m < k)%nat ->
    holds (s_p h) (cell n m) (fst (leg n m)) /\ holds (s_q h) (cell n m) (snd (leg n m));
  known_mult : forall i, (1 <= i <= j)%nat ->
    holds (s_sl h) (Z.of_nat i) (fst (multiple i)) /\ holds (s_cl h) (Z.of_nat i) (snd (multiple i))
}.

(** [h] is at degree [n] and order [m]. *)
Record at_harmonic (n m : nat) h : Prop := {
  at_n : s_n h = Z.of_nat n;
  at_m : s_m h = Z.of_nat m;
  at_l : s_l h = (if Nat.eqb m 0 then Z.of_nat (n * n) else coef_at n m);
  at_rr : s_rr h = Some (npow ratio (of_int (Z.of_nat n + 2)));
  at_fn : s_fn h = Some (num n)
}.

Lemma leg_SS n m : leg (S (S n)) m =
  if Nat.eqb n 0 && Nat.eqb m 0 then leg 2 0
  else if Nat.eqb n 0 && Nat.eqb m 1 then leg 2 1
  else if Nat.eqb m (S (S n)) then leg_diag slat clat (S (S n)) (leg (S n) (S n))
  else leg_next slat clat (S (S n)) m (leg (S n) m) (if Nat.eqb m (S n) then leg (S n) 0 else leg n m).
Proof. reflexivity. Qed.

Lemma leg_diag_eq n : (2 <= n)%nat -> leg n n = leg_diag slat clat n (leg (n - 1) (n - 1)).
Proof.
  intros Hn. destruct n as [|[|n]]; [lia..|]. rewrite leg_SS.
  replace (Nat.eqb (S (S n)) 0) with false by done. replace (Nat.eqb (S (S n)) 1) with false by done.
  rewrite !andb_false_r, Nat.eqb_refl. by replace (S (S n) - 1)%nat with (S n) by lia.
Qed.

Lemma leg_next_eq n m : (3 <= n)%nat -> (m < n)%nat ->
  leg n m = leg_next slat clat n m (leg (n - 1) m) (if Nat.eqb m (n - 1) then leg (n - 1) 0 else leg (n - 2) m).
Proof.
  intros Hn Hm. destruct n as [|[|n]]; [lia..|]. rewrite leg_SS.
  replace (Nat.eqb n 0) with false by (symmetry; apply Nat.eqb_neq; lia). cbn [andb].
  replace (Nat.eqb m (S (S n))) with false by (symmetry; apply Nat.eqb_neq; lia).
  by replace (S (S n) - 1)%nat with (S n) by lia; replace (S (S n) - 2)%nat with n by lia.
Qed.

Lemma multiple_S m : (1 <= m)%nat ->
  multiple (S m) = (nadd (nmul (fst (multiple m)) c1) (nmul (snd (multiple m)) s1),
                    nsub (nmul (snd (multiple m)) c1) (nmul (fst (multiple m)) s1)).
Proof. intros Hm. destruct m as [|m]; [lia|]. change (multiple (S (S m))) with (let '(s, c) := multiple (S m) in
  (nadd (nmul s c1) (nmul c s1), nsub (nmul c c1) (nmul s s1))). by destruct (multiple (S m)). Qed.

Lemma cell_diag n : (1 <= n)%nat -> cell n n - Z.of_nat n - 1 = cell (n - 1) (n - 1).
Proof. intros Hn. unfold cell. destruct n as [|n]; [lia|]. cbn [tri]. replace (S n - 1)%nat with n by lia. lia. Qed.
Lemma cell_up n m : (1 <= n)%nat -> cell n m - Z.of_nat n = cell (n - 1) m.
Proof. intros Hn. unfold cell. destruct n as [|n]; [lia|]. cbn [tri]. replace (S n - 1)%nat with n by lia. lia. Qed.
(** Two degrees up; for the last order the index is that of order 0 one
    degree up. *)
Lemma cell_up2 n m : (3 <= n)%nat -> (m < n)%nat -> exists n' m', cell n m - 2 * Z.of_nat n + 1 = cell n' m' /\
  (1 <= n')%nat /\ (m' <= n')%nat /\ (tri n' + m' < tri n + m)%nat /\
  leg n' m' = (if Nat.eqb m (n - 1) then leg (n - 1) 0 else leg (n - 2) m).
Proof.
  intros Hn Hm. destruct n as [|[|n]]; [lia..|]. unfold cell.
  replace (S (S n) - 1)%nat with (S n) by lia. replace (S (S n) - 2)%nat with n by lia.
  destruct (Nat.eqb_spec m (S n)) as [->|Hne].
  - exists (S n), 0%nat. cbn [tri]. splits; [lia..|done].
  - exists n, m. cbn [tri]. splits; [lia..|done].
Qed.
Lemma known_write k j (h h' : sh (K := K)) n m (p q : K) j' :
  known k j h -> k = (tri n + m)%nat -> (1 <= n <= 13)%nat -> (m <= n)%nat ->
  s_p h' = zinsert (s_p h) (cell n m) (Some p) -> s_q h' = zinsert (s_q h) (cell n m) (Some q) ->
  p = fst (leg n m) -> q = snd (leg n m) -> zlength (s_sl h') = 14 -> zlength (s_cl h') = 14 ->
  (forall i, (1 <= i <= j')%nat ->
     holds (s_sl h') (Z.of_nat i) (fst (multiple i)) /\ holds (s_cl h') (Z.of_nat i) (snd (multiple i))) ->
  known (S k) j' h'.
Proof.
  intros Hk -> Hn Hm Ep Eq -> -> Hsl Hcl Hj. pose proof (tri_13 n m ltac:(lia) Hm) as Hb.
  destruct Hk as [Hp Hq _ _ Hl _].
  assert (0 <= cell n m < 119) as Hc by (unfold cell; lia).
  split; [by rewrite Ep, zlength_zinsert|by rewrite Eq, zlength_zinsert|done|done| |done].
  intros n' m' Hn' Hm' Hlt. rewrite Ep, Eq.
  destruct (decide (tri n' + m' = tri n + m)%nat) as [E|Hne].
  - assert (n' = n /\ m' = m) as [-> ->].
    { assert (~ (n' < n)%nat /\ ~ (n < n')%nat) as [? ?]; [|assert (n' = n) as -> by lia; lia].
      split; intros Hx; [pose proof (tri_mono (S n') n Hx)|pose proof (tri_mono (S n) n' Hx)]; cbn [tri] in *; lia. }
    split; apply holds_eq; lia.
  - destruct (Hl n' m' Hn' Hm' ltac:(lia)) as [A B].
    split; apply holds_ne; try done; unfold cell; lia.
Qed.

Ltac wr_step := erewrite bind_step by (apply wr_ok; rewrite ?zlength_zinsert; lia).

(** One turn of the recursion: the next cell of [p] and [q] and, at the end
    of a degree, the next multiple. *)
Lemma legendre_step_ok {T} n m h (s : T) :
  at_harmonic n m h -> known (max (tri n + m) 5) (max 1 (n - 1)) h -> (1 <= n <= 13)%nat -> (m <= n)%nat ->
  exists h', legendre_step slat clat (cell n m) h s = Ret (h', s) /\ at_harmonic n m h' /\
    known (max (tri n + m + 1) 5) (if Nat.eqb m n then max 1 n else max 1 (n - 1)) h'.
Proof.
  intros Ha Hk Hn Hm. pose proof (tri_13 n m ltac:(lia) Hm) as Hb. destruct Ha as [An Am Al Ar Af].
  unfold legendre_step. destruct (cell n m <? 5) eqn:E5; bool_to_prop; unfold cell in E5.
  { exists h. split; [done|]. split; [done|]. replace (max (tri n + m + 1) 5) with (max (tri n + m) 5) by lia.
    destruct (Nat.eqb_spec m n) as [->|]; [|done]. assert (n <= 1)%nat by (destruct n as [|[|n]]; cbn [tri] in *; lia).
    by replace (max 1 n) with (max 1 (n - 1)) by lia. }
  replace (max (tri n + m) 5) with (tri n + m)%nat in Hk by lia.
  replace (max (tri n + m + 1) 5) with (S (tri n + m)) by lia.
  assert (2 <= n)%nat as Hn2 by (destruct n as [|[|n]]; cbn [tri] in *; lia).
  assert (n = 2 -> m = 2)%nat as H22 by (intros ->; cbn [tri] in *; lia).
  replace (max 1 n) with n by lia. replace (max 1 (n - 1)) with (n - 1)%nat in * by lia.
  rewrite Af, An, Am. cbn [init]. unfold ret at 1, bind at 1. cbn beta iota.
  assert (0 <= cell n m < 119) as Hc by (unfold cell; lia).
  pose proof (known_write (tri n + m) (n - 1) h) as Hw.
  destruct Hk as [Kp Kq Ks Kc Kl Km]. pose proof (Build_known (tri n + m) (n - 1) h Kp Kq Ks Kc Kl Km) as Hk.
  destruct (Nat.eqb_spec m n) as [->|Hne].
  - rewrite (proj2 (Z.eqb_eq _ _) eq_refl). rewrite cell_diag by lia.
    destruct (Kl (n - 1)%nat (n - 1)%nat) as [Hp Hq]; [lia..|rewrite (tri_pred n) by lia; lia|].
    destruct (Km (n - 1)%nat ltac:(lia)) as [Hs1 Hc1]. destruct (Km 1%nat ltac:(lia)) as [Hs0 Hc0].
    replace (Z.of_nat n - 1) with (Z.of_nat (n - 1)) by lia.
    assert (Z.of_nat n <> Z.of_nat (n - 1)) as Hn1 by lia. assert (Z.of_nat n <> Z.of_nat 1) as Hn0 by lia.
    assert (cell n n <> cell (n - 1) (n - 1)) as Hd by (rewrite <- cell_diag by lia; lia).
    rewrite (bind_step _ _ _ _ _ (rd_ok _ _ _ _ Hp)).
    wr_step.
    rewrite (bind_step _ _ _ _ _ (rd_ok _ _ _ _ Hq)).
    rewrite (bind_step _ _ _ _ _ (rd_ok _ _ _ _ (holds_ne _ _ _ _ _ Hd Hp))).
    wr_step.
    rewrite (bind_step _ _ _ _ _ (rd_ok _ _ _ _ Hs1)), (bind_step _ _ _ _ _ (rd_ok _ _ _ _ Hc1)).
    rewrite (bind_step _ _ _ _ _ (rd_ok _ _ _ _ Hc0)), (bind_step _ _ _ _ _ (rd_ok _ _ _ _ Hs0)).
    wr_step.
    rewrite (bind_step _ _ _ _ _ (rd_ok _ _ _ _ Hc1)).
    rewrite (bind_step _ _ _ _ _ (rd_ok _ _ _ _ (holds_ne _ _ _ _ _ Hn1 Hs1))).
    rewrite (bind_step _ _ _ _ _ (rd_ok _ _ _ _ Hc0)).
    rewrite (bind_step _ _ _ _ _ (rd_ok _ _ _ _ (holds_ne _ _ _ _ _ Hn0 Hs0))).
    wr_step.
    eexists. split; [reflexivity|]. split; [by split|].
    eapply (Hw _ n n); cbn [s_p s_q s_sl s_cl]; rewrite ?zlength_zinsert, ?leg_diag_eq by lia; try done.
    intros i Hi. destruct (decide (i = n)) as [->|Hin].
    + pose proof (multiple_S (n - 1) ltac:(lia)) as E. replace (S (n - 1)) with n in E by lia. rewrite E.
      split; apply holds_eq; lia.
    + destruct (Km i ltac:(lia)) as [A B]. split; apply holds_ne; try done; lia.
  - rewrite (proj2 (Z.eqb_neq _ _)) by lia. rewrite cell_up by lia.
    destruct (cell_up2 n m ltac:(lia) ltac:(lia)) as (n2 & m2 & -> & Hn2' & Hm2 & Hlt2 & El).
    destruct (Kl (n - 1)%nat m) as [Hp Hq]; [lia..|rewrite (tri_pred n) by lia; lia|].
    destruct (Kl n2 m2 Hn2' Hm2 Hlt2) as [Hp2 Hq2].
    assert (cell n m <> cell (n - 1) m) as Hd by (rewrite <- cell_up by lia; lia).
    rewrite (bind_step _ _ _ _ _ (rd_ok _ _ _ _ Hp)), (bind_step _ _ _ _ _ (rd_ok _ _ _ _ Hp2)).
    wr_step.
    rewrite (bind_step _ _ _ _ _ (rd_ok _ _ _ _ Hq)).
    rewrite (bind_step _ _ _ _ _ (rd_ok _ _ _ _ (holds_ne _ _ _ _ _ Hd Hp))).
    rewrite (bind_step _ _ _ _ _ (rd_ok _ _ _ _ Hq2)).
    wr_step.
    eexists. split; [reflexivity|]. split; [by split|].
    eapply (Hw _ n m); cbn [s_p s_q s_sl s_cl]; rewrite ?leg_next_eq, ?El by lia; done.
Qed.
(** ** The field in the state *)
Definition xyz c s : K * K * K := let v := fieldv c s in (f_x v, f_y v, f_z v).
Definition put_xyz c (v : K * K * K) s : igrf :=
  let '(x, y, z) := v in let w := fieldv c s in set_fieldv c (Field x y z (f_d w) (f_i w) (f_h w) (f_f w)) s.

Lemma set_xyz_eq c x y z s : set_xyz c x y z s = Ret (tt, put_xyz c (x, y, z) s).
Proof. reflexivity. Qed.
Lemma coeffs_put c c' v s : coeffs c' (put_xyz c v s) = coeffs c' s.
Proof. by destruct c, c', v as [[? ?] ?]. Qed.
Lemma xyz_put c v s : xyz c (put_xyz c v s) = v.
Proof. by destruct c, v as [[? ?] ?]. Qed.
Lemma put_put c v w s : put_xyz c v (put_xyz c w s) = put_xyz c v s.
Proof. by destruct c, v as [[? ?] ?], w as [[? ?] ?]. Qed.

Definition next_coef (n m : nat) : Z := coef_at n (S m).

Lemma coef_get s c i : zlength (coeffs c s) = MAXCOEFF -> 0 <= i < MAXCOEFF ->
  arr_get (coeffs c s) i s = Ret (default zero (zlookup (coeffs c s) i), s).
Proof.
  intros Hl Hi. destruct (zlookup_lt (coeffs c s) i) as [x Hx]; [lia|]. rewrite Hx. by apply arr_get_Some.
Qed.

Lemma coef_bound n m : (1 <= n <= 13)%nat -> (m <= n)%nat -> 0 <= Z.of_nat (n * n) < MAXCOEFF /\
  0 <= coef_at n m /\ ((1 <= m)%nat -> coef_at n m + 1 < MAXCOEFF).
Proof. intros Hn Hm. unfold coef_at, MAXCOEFF, MAXDEG. split; [|split]; nia. Qed.

Local Abbreviation term_at cf := (term cf slat clat ratio s1 c1).

(** The terms of one harmonic are added to the field. *)
Lemma add_terms_ok n m h c s j k :
  at_harmonic n m h -> known k j h -> (tri n + m < k)%nat -> (m <= j)%nat -> (1 <= n <= 13)%nat -> (m <= n)%nat ->
  zlength (coeffs c s) = MAXCOEFF ->
  add_terms c slat clat (cell n m) h s =
    Ret (next_coef n m, put_xyz c (term_at (coeffs c s) (xyz c s) (n, m)) s).
Proof.
  intros [An Am Al Ar Af] Hk Hlt Hj Hn Hm Hc. unfold add_terms. rewrite Am, Al, Ar, Af.
  unfold get at 1. unfold bind at 1. cbn beta iota. cbn [init]. unfold ret at 1. unfold bind at 1. cbn beta iota.
  destruct (known_leg _ _ _ Hk n m ltac:(lia) Hm Hlt) as [Hp Hq].
  destruct (coef_bound n m Hn Hm) as (B1 & B2 & B3).
  unfold term, xyz. destruct (leg n m) as [pk qk] eqn:El. cbn [fst snd] in Hp, Hq.
  destruct (Nat.eqb_spec m 0) as [->|Hm0].
  - rewrite (bind_step _ _ _ _ _ (coef_get s c _ Hc B1)). change (Z.of_nat 0 =? 0) with true. cbv zeta. cbn iota.
    rewrite (bind_step _ _ _ _ _ (rd_ok _ _ _ _ Hq)), (bind_step _ _ _ _ _ (rd_ok _ _ _ _ Hp)).
    rewrite (bind_step _ _ _ _ _ (set_xyz_eq _ _ _ _ _)). unfold ret, next_coef, coef_at. do 2 f_equal. lia.
  - rewrite (bind_step _ _ _ _ _ (coef_get s c (coef_at n m) Hc ltac:(lia))).
    replace (Z.of_nat m =? 0) with false by (symmetry; apply Z.eqb_neq; lia). cbv zeta. cbn iota.
    rewrite (bind_step _ _ _ _ _ (coef_get s c (coef_at n m + 1) Hc ltac:(lia))).
    destruct (known_mult _ _ _ Hk m ltac:(lia)) as [Hs Hcl].
    destruct (multiple m) as [slm clm]. cbn [fst snd] in Hs, Hcl.
    rewrite (bind_step _ _ _ _ _ (rd_ok _ _ _ _ Hcl)), (bind_step _ _ _ _ _ (rd_ok _ _ _ _ Hs)).
    rewrite (bind_step _ _ _ _ _ (rd_ok _ _ _ _ Hq)), (bind_step _ _ _ _ _ (rd_ok _ _ _ _ Hp)).
    cbn [init]. unfold ret at 1. unfold bind at 1. cbn beta iota. rewrite (bind_step _ _ _ _ _ (set_xyz_eq _ _ _ _ _)).
    unfold ret, next_coef, coef_at. do 2 f_equal. lia.
Qed.

(** ** One turn and the whole loop *)
Definition ready (n m : nat) h : Prop :=
  at_harmonic n m (next_degree ratio h) /\ known (max (tri n + m) 5) (max 1 (n - 1)) (next_degree ratio h).

Lemma shval3_step_ok gh c n m h s :
  slot_of gh = Some c -> ready n m h -> (1 <= n <= 13)%nat -> (m <= n)%nat -> zlength (coeffs c s) = MAXCOEFF ->
  exists h', shval3_step gh slat clat ratio h (cell n m) s =
      Ret (h', put_xyz c (term_at (coeffs c s) (xyz c s) (n, m)) s) /\
    (if Nat.eqb m n then ready (S n) 0 h' else ready n (S m) h').
Proof.
  intros Hg [Ha Hk] Hn Hm Hc. unfold shval3_step.
  destruct (legendre_step_ok n m _ s Ha Hk Hn Hm) as (h1 & E & Ha1 & Hk1). rewrite (bind_step _ _ _ _ _ E), Hg.
  rewrite (bind_step _ _ _ _ _ (add_terms_ok n m h1 c s _ _ Ha1 Hk1 ltac:(lia) ltac:(destruct (Nat.eqb_spec m n); lia) Hn Hm Hc)).
  eexists. split; [reflexivity|]. destruct Ha1 as [An Am Al Ar Af]. destruct Hk1 as [Kp Kq Ks Kc Kl Km].
  unfold ready, next_degree. cbn [s_n s_m]. rewrite An, Am. destruct (Nat.eqb_spec m n) as [->|Hne].
  - replace (Z.of_nat n <? Z.of_nat n + 1) with true by (symmetry; apply Z.ltb_lt; lia). split.
    + split; cbn [s_n s_m s_l s_rr s_fn]; try lia.
      * cbn [Nat.eqb]. unfold next_coef, coef_at. lia.
      * do 3 f_equal. lia.
      * unfold num. do 2 f_equal. lia.
    + replace (tri (S n) + 0)%nat with (tri n + n + 1)%nat by (cbn [tri]; lia).
      replace (S n - 1)%nat with n by lia. by split.
  - replace (Z.of_nat n <? Z.of_nat m + 1) with false by (symmetry; apply Z.ltb_ge; lia). split.
    + split; cbn [s_n s_m s_l s_rr s_fn]; try done; lia.
    + replace (tri n + S m)%nat with (tri n + m + 1)%nat by lia. by split.
Qed.

Definition field_after cf (v : K * K * K) l : K * K * K := foldl (term_at cf) v l.

(** The orders of one degree. *)
Lemma degree_loop gh c n s h : forall j,
  slot_of gh = Some c -> ready n 0 h -> (1 <= n <= 13)%nat -> (j <= S n)%nat -> zlength (coeffs c s) = MAXCOEFF ->
  exists h', fold_m (seqZ (cell n 0) (Z.of_nat j)) (shval3_step gh slat clat ratio) h s =
      Ret (h', put_xyz c (field_after (coeffs c s) (xyz c s) (map (pair n) (seq 0 j))) s) /\
    (if Nat.eqb j (S n) then ready (S n) 0 h' else ready n j h').
Proof.
  induction j as [|j IH]; intros Hg Hr Hn Hj Hc.
  { exists h. split; [|done]. cbn. unfold ret. do 2 f_equal. unfold xyz, put_xyz, set_fieldv.
    destruct c; cbn [fieldv]; destruct s as [? ? ? [[] [] ? ? ?] ?]; reflexivity. }
  destruct (IH Hg Hr Hn ltac:(lia) Hc) as (h1 & E & Hr1).
  replace (Nat.eqb j (S n)) with false in Hr1 by (symmetry; apply Nat.eqb_neq; lia).
  set (s' := put_xyz _ _ _) in E.
  destruct (shval3_step_ok gh c n j h1 s' Hg Hr1 Hn ltac:(lia)) as (h2 & E2 & Hr2).
  { unfold s'. by rewrite coeffs_put. }
  exists h2. split.
  - rewrite Nat2Z.inj_succ, <- Z.add_1_r, seqZ_app by lia.
    rewrite fold_m_app, (bind_step _ _ _ _ _ E). replace (cell n 0 + Z.of_nat j) with (cell n j) by (unfold cell; lia).
    rewrite seqZ_cons by lia. cbn [fold_m]. rewrite (bind_step _ _ _ _ _ E2). rewrite seqZ_nil by lia. cbn [fold_m].
    unfold ret, s'. rewrite coeffs_put, xyz_put, put_put. do 3 f_equal.
    rewrite seq_S, map_app. unfold field_after. by rewrite foldl_app.
  - replace (Nat.eqb (S j) (S n)) with (Nat.eqb j n) by done. exact Hr2.
Qed.

Lemma harmonics_S N : harmonics (S N) = harmonics N ++ orders (S N).
Proof. unfold harmonics. rewrite seq_S, map_app, concat_app. cbn. by rewrite app_nil_r. Qed.

Lemma shval3_loop gh c s h : forall N,
  slot_of gh = Some c -> ready 1 0 h -> (N <= 13)%nat -> zlength (coeffs c s) = MAXCOEFF ->
  exists h', fold_m (seqZ 1 (cell (S N) 0 - 1)) (shval3_step gh slat clat ratio) h s =
      Ret (h', put_xyz c (field_after (coeffs c s) (xyz c s) (harmonics N)) s) /\ ready (S N) 0 h'.
Proof.
  induction N as [|N IH]; intros Hg Hr HN Hc.
  { destruct (degree_loop gh c 1 s h 0 Hg Hr ltac:(lia) ltac:(lia) Hc) as (h' & E & Hr'). exists h'. by split. }
  destruct (IH Hg Hr ltac:(lia) Hc) as (h1 & E & Hr1). set (s' := put_xyz _ _ _) in E.
  destruct (degree_loop gh c (S N) s' h1 (S (S N)) Hg Hr1 ltac:(lia) ltac:(lia)) as (h2 & E2 & Hr2).
  { unfold s'. by rewrite coeffs_put. }
  rewrite Nat.eqb_refl in Hr2. exists h2. split; [|done].
  pose proof (tri_ge (S N)) as Ht.
  replace (cell (S (S N)) 0 - 1) with (cell (S N) 0 - 1 + Z.of_nat (S (S N))) by (unfold cell; cbn [tri]; lia).
  rewrite seqZ_app by (unfold cell; lia). rewrite fold_m_app, (bind_step _ _ _ _ _ E).
  replace (1 + (cell (S N) 0 - 1)) with (cell (S N) 0) by lia. rewrite E2. unfold s'.
  rewrite coeffs_put, xyz_put, put_put, harmonics_S. unfold field_after. by rewrite foldl_app.
Qed.
Lemma calc_start_ok {T} (t : T) : exists p q,
  legendre_start slat clat t = Ret ((p, q), t) /\
  (forall sl cl, zlength sl = 14 -> zlength cl = 14 -> holds sl 1 s1 -> holds cl 1 c1 ->
     ready 1 0 (Sh 0 1 1 None None sl cl p q)).
Proof.
  unfold legendre_start. repeat (erewrite bind_step by (apply wr_ok; rewrite ?zlength_zinsert; change (zlength (junk 119)) with 119; lia)).
  eexists _, _. split; [reflexivity|]. intros sl cl Hs Hc Hs1 Hc1. split; [by split|].
  cbn [next_degree Z.ltb Z.compare s_n s_m s_l s_sl s_cl s_p s_q]. split; cbn [s_p s_q s_sl s_cl]; try done.
  - intros n m Hn Hm Hlt. change (max (tri 1 + 0) 5) with 5%nat in Hlt.
    assert (n <= 2)%nat as Hn2 by (pose proof (tri_5 n); lia).
    destruct n as [|[|[|n]]]; [lia| |cbn [tri] in Hlt|lia]; destruct m as [|[|m]]; try lia; split; reflexivity.
  - intros i Hi. change (max 1 (1 - 1)) with 1%nat in Hi. assert (i = 1)%nat as -> by lia. by split.
Qed.
End loop.

Section shval3.
Context {K : Type} `{Num K} `{Double K} `{Transcendental K}.
Implicit Types (s : igrf (K := K)).
Local Open Scope num_scope.

(** ** [shval3] as a function *)

(** Sine and cosine of the latitude, sine and cosine of the rotation to the
    geodetic vertical, and the distance to the centre. *)
Definition station (igdgc : Z) (flat elev : K) : K * K * K * K * K :=
  let slat := nsin (flat * dtr) in
  let clat := ncos (off_pole flat * dtr) in
  if Z.eqb igdgc 1 then geocentric elev slat clat else (slat, clat, zero, one, elev).
Definition external (iext : Z) (ext1 ext2 ext3 slat clat s1 c1 : K) (v : K * K * K) : K * K * K :=
  if Z.eqb iext 0 then v else
  let '(x, y, z) := v in
  let aa := ext2 * c1 + ext3 * s1 in
  (x - ext1 * clat + aa * slat, y + ext2 * s1 - ext3 * c1, z + ext1 * slat + aa * clat).
Definition turned (cd sd : K) (v : K * K * K) : K * K * K :=
  let '(x, y, z) := v in (x * cd + z * sd, y, z * cd - x * sd).
(** The field at a place, from the coefficients [cf]. *)
Definition model_field (cf : list K) (igdgc : Z) (flat flon elev : K) (N : nat) (iext : Z) (ext1 ext2 ext3 : K) : K * K * K :=
  let '(slat, clat, sd, cd, r) := station igdgc flat elev in
  let s1 := nsin (flon * dtr) in
  let c1 := ncos (flon * dtr) in
  turned cd sd (external iext ext1 ext2 ext3 slat clat s1 c1 (synthesis cf slat clat (earths_radius / r) s1 c1 N)).
Definition colatitude (igdgc : Z) (flat elev : K) s : igrf :=
  if Z.eqb igdgc 1 then let '(slat, clat, _, _, _) := station igdgc flat elev in set_gccolat (natan2 clat slat) s else s.

Lemma external_ok gh c iext (e1 e2 e3 slat clat s1 c1 : K) (h : sh) s :
  slot_of gh = Some c -> holds (s_sl h) 1 s1 -> holds (s_cl h) 1 c1 ->
  external_terms gh iext e1 e2 e3 slat clat h s =
    Ret (tt, put_xyz c (external iext e1 e2 e3 slat clat s1 c1 (xyz c s)) s).
Proof.
  intros Hg Hs Hc. unfold external_terms, external. destruct (Z.eqb iext 0).
  { unfold ret. do 2 f_equal. unfold xyz, put_xyz. destruct c, s as [? ? ? [[] [] ? ? ?] ?]; reflexivity. }
  rewrite (bind_step _ _ _ _ _ (rd_ok _ _ _ _ Hc)), (bind_step _ _ _ _ _ (rd_ok _ _ _ _ Hs)), Hg. reflexivity.
Qed.

Lemma synthesis_after (cf : list K) (slat clat ratio s1 c1 : K) N :
  field_after slat clat ratio s1 c1 cf (zero, zero, zero) (harmonics N) = synthesis cf slat clat ratio s1 c1 N.
Proof. reflexivity. Qed.

Lemma coeffs_colat c igdgc flat elev s : coeffs c (colatitude igdgc flat elev s) = coeffs c s.
Proof. unfold colatitude. destruct (Z.eqb igdgc 1); [|done]. destruct (station _ _ _) as [[[[? ?] ?] ?] ?]. by destruct c. Qed.
Lemma xyz_colat c igdgc flat elev s : xyz c (colatitude igdgc flat elev s) = xyz c s.
Proof. unfold colatitude. destruct (Z.eqb igdgc 1); [|done]. destruct (station _ _ _) as [[[[? ?] ?] ?] ?]. by destruct c. Qed.

Lemma multiple_one (s1 c1 : K) sl cl :
  (forall i, (1 <= i <= 1)%nat -> holds sl (Z.of_nat i) (fst (multiple s1 c1 i)) /\ holds cl (Z.of_nat i) (snd (multiple s1 c1 i))) ->
  holds sl 1 s1 /\ holds cl 1 c1.
Proof. intros Hi. exact (Hi 1%nat ltac:(lia)). Qed.

Lemma shval3_ok igdgc flat flon elev N gh c iext e1 e2 e3 s :
  slot_of gh = Some c -> (N <= 13)%nat -> zlength (coeffs c s) = MAXCOEFF ->
  shval3 igdgc flat flon elev (Z.of_nat N) gh iext e1 e2 e3 s =
    Ret (0%Z, colatitude igdgc flat elev
                (put_xyz c (model_field (coeffs c s) igdgc flat flon elev N iext e1 e2 e3) s)).
Proof.
  intros Hg HN Hc. unfold shval3, model_field, colatitude. cbv zeta.
  set (s1 := nsin (flon * dtr)). set (c1 := ncos (flon * dtr)).
  do 2 erewrite bind_step by (apply wr_ok; change (zlength (junk 14)) with 14; lia).
  rewrite Hg, (bind_step _ _ _ _ _ (set_xyz_eq _ _ _ _ _)).
  erewrite bind_step by (apply cint_ok; unfold INT_MIN, INT_MAX; nia).
  fold (station igdgc flat elev). destruct (station igdgc flat elev) as [[[[slat clat] sd] cd] r] eqn:Est.
  set (s2 := put_xyz c (zero, zero, zero) s).
  set (s3 := if Z.eqb igdgc 1 then set_gccolat (natan2 clat slat) s2 else s2).
  assert ((if Z.eqb igdgc 1 then modify (set_gccolat (natan2 clat slat)) else ret tt) s2 = Ret (tt, s3)) as Hg2
    by (unfold s3; by destruct (Z.eqb igdgc 1)).
  rewrite (bind_step _ _ _ _ _ Hg2).
  destruct (calc_start_ok slat clat (earths_radius / r) s1 c1 s3) as (p & q & Es & Hr). rewrite (bind_step _ _ _ _ _ Es).
  assert (coeffs c s3 = coeffs c s) as Hcs by (unfold s3, s2; destruct (Z.eqb igdgc 1); by destruct c).
  assert (Z.quot (Z.of_nat N * (Z.of_nat N + 3)) 2 = cell (S N) 0 - 1)%Z as ->.
  { unfold cell. pose proof (tri_double (S N)). rewrite Z.quot_div_nonneg by lia. symmetry. apply Z.div_unique_exact; [lia|nia]. }
  destruct (shval3_loop slat clat (earths_radius / r) s1 c1 gh c s3 _ N Hg (Hr (zinsert (junk 14) 1 (Some s1)) (zinsert (junk 14) 1 (Some c1)) eq_refl eq_refl eq_refl eq_refl) HN
    ltac:(by rewrite Hcs)) as (h & El & [_ Hk]).
  rewrite (bind_step _ _ _ _ _ El).
  assert (holds (s_sl h) 1 s1 /\ holds (s_cl h) 1 c1) as [Hs1 Hc1].
  { apply multiple_one. destruct Hk as [_ _ _ _ _ Hm]. intros i Hi. specialize (Hm i ltac:(lia)).
    unfold next_degree in Hm. destruct (_ <? _)%Z; exact Hm. }
  rewrite (bind_step _ _ _ _ _ (external_ok gh c iext e1 e2 e3 slat clat s1 c1 h _ Hg Hs1 Hc1)).
  unfold to_geodetic. rewrite Hg, Hcs, xyz_put, put_put.
  assert (xyz c s3 = (zero, zero, zero)) as -> by (unfold s3, s2; destruct (Z.eqb igdgc 1); by destruct c).
  rewrite synthesis_after. destruct (external _ _ _ _ _ _ _ _ _) as [[x y] z].
  unfold get at 1. unfold bind at 1. cbn beta iota. unfold bind at 1. rewrite set_xyz_eq. cbn beta iota. unfold ret. do 2 f_equal.
  unfold s3, s2. destruct (Z.eqb igdgc 1); by destruct c.
Qed.

Lemma shval3_ok' igdgc flat flon elev nmax gh c iext e1 e2 e3 s :
  slot_of gh = Some c -> 0 <= nmax <= MAXDEG -> zlength (coeffs c s) = MAXCOEFF ->
  shval3 igdgc flat flon elev nmax gh iext e1 e2 e3 s =
    Ret (0%Z, colatitude igdgc flat elev
                (put_xyz c (model_field (coeffs c s) igdgc flat flon elev (Z.to_nat nmax) iext e1 e2 e3) s)).
Proof.
  intros Hg Hn Hc. unfold MAXDEG in Hn. rewrite <- (Z2Nat.id nmax) at 1 by lia. apply shval3_ok; [done|lia|done].
Qed.
End shval3.

Section coefficients.
Context {K : Type} `{Num K} `{Double K} `{Transcendental K}.
Implicit Types (s : igrf (K := K)).
Local Open Scope num_scope.

(** ** Coefficients at a date *)
Record sized s : Prop := {
  sized_gh1 : zlength (gh1 (tabs s)) = MAXCOEFF;
  sized_gh2 : zlength (gh2 (tabs s)) = MAXCOEFF;
  sized_gha : zlength (gha (tabs s)) = MAXCOEFF;
  sized_ghb : zlength (ghb (tabs s)) = MAXCOEFF;
  sized_models : zlength (models (mfile s)) = MAXMOD
}.
Lemma sized_coeffs s c : sized s -> zlength (coeffs c s) = MAXCOEFF.
Proof. by intros []; destruct c. Qed.
Lemma sized_set s c l : sized s -> zlength l = MAXCOEFF -> sized (set_coeffs c l s).
Proof. intros [] Hl. destruct c; by split. Qed.

(** The coefficients of the two models, zero outside of the tables. *)
Definition c1_at s (i : Z) : K := default zero (zlookup (gh1 (tabs s)) i).
Definition c2_at s (i : Z) : K := default zero (zlookup (gh2 (tabs s)) i).

Lemma tables_set s c l : tabs (set_coeffs c l s) = match c with
  | Now => Tables (gh1 (tabs s)) (gh2 (tabs s)) l (ghb (tabs s))
  | Temp => Tables (gh1 (tabs s)) (gh2 (tabs s)) (gha (tabs s)) l end.
Proof. by destruct c. Qed.
Lemma coeffs_set s c l : coeffs c (set_coeffs c l s) = l.
Proof. by destruct c. Qed.
Lemma set_set s c l l' : set_coeffs c l' (set_coeffs c l s) = set_coeffs c l' s.
Proof. by destruct c. Qed.
Lemma c_at_set s c l : c1_at (set_coeffs c l s) = c1_at s /\ c2_at (set_coeffs c l s) = c2_at s.
Proof. by destruct c. Qed.

Lemma fill_loop_ok gh c (v : K -> K -> K) n : forall lo s, slot_of gh = Some c -> sized s ->
  0 <= lo -> lo + Z.of_nat n <= MAXCOEFF ->
  exists l, for_ (seqZ lo (Z.of_nat n)) (fun ii =>
        let! s := get in
        let! a := arr_get (gh1 (tabs s)) ii in
        let! b := arr_get (gh2 (tabs s)) ii in
        let! l := arr_set (coeffs c s) ii (v a b) in
        modify (set_coeffs c l)) s = Ret (tt, set_coeffs c l s) /\ zlength l = MAXCOEFF /\
    (forall i, lo <= i < lo + Z.of_nat n -> zlookup l i = Some (v (c1_at s i) (c2_at s i))) /\
    (forall i, i < lo \/ lo + Z.of_nat n <= i -> zlookup l i = zlookup (coeffs c s) i).
Proof.
  induction n as [|n IH]; intros lo s Hg Hs Hlo Hhi.
  { exists (coeffs c s). splits; [|by apply sized_coeffs|lia|done]. cbn. unfold ret. do 2 f_equal. by destruct c, s as [[] ? ? ? ?]. }
  rewrite seqZ_cons by lia. cbn [for_]. replace (Z.pred (Z.of_nat (S n))) with (Z.of_nat n) by lia.
  pose proof (sized_coeffs s c Hs) as Hc. pose proof Hs as [Hs1 Hs2 _ _ _].
  destruct (zlookup_lt (gh1 (tabs s)) lo) as [a Ha]; [lia|]. destruct (zlookup_lt (gh2 (tabs s)) lo) as [b Hb]; [lia|].
  unfold get at 1. unfold bind at 1. unfold bind at 1. cbn beta iota.
  rewrite (bind_step _ _ _ _ _ (arr_get_Some _ _ _ _ Ha)), (bind_step _ _ _ _ _ (arr_get_Some _ _ _ _ Hb)).
  erewrite bind_step by (apply arr_set_ok; lia). unfold modify at 1. cbn beta iota.
  destruct (IH (Z.succ lo) (set_coeffs c (zinsert (coeffs c s) lo (v a b)) s)) as (l & E & Hl & Hin & Hout);
    [done|apply sized_set; [done|by rewrite zlength_zinsert]|lia..|].
  rewrite set_set, coeffs_set in *. destruct (c_at_set s c (zinsert (coeffs c s) lo (v a b))) as [E1 E2]. rewrite E1, E2 in Hin.
  exists l. splits; [exact E|done| |].
  - intros i Hi. destruct (decide (i = lo)) as [->|Hne]; [|apply Hin; lia].
    rewrite Hout by lia. rewrite zlookup_zinsert_eq by lia. unfold c1_at, c2_at. by rewrite Ha, Hb.
  - intros i Hi. rewrite Hout by lia. apply zlookup_zinsert_ne. lia.
Qed.

Lemma fill_ok gh c lo hi (v : K -> K -> K) s : slot_of gh = Some c -> sized s -> 0 <= lo -> lo <= hi + 1 -> hi < MAXCOEFF ->
  exists l, fill_coeffs gh lo hi v s = Ret (tt, set_coeffs c l s) /\ zlength l = MAXCOEFF /\
    (forall i, lo <= i <= hi -> zlookup l i = Some (v (c1_at s i) (c2_at s i))) /\
    (forall i, i < lo \/ hi < i -> zlookup l i = zlookup (coeffs c s) i).
Proof.
  intros Hg Hs Hlo Hle Hhi. unfold fill_coeffs. rewrite Hg.
  destruct (fill_loop_ok gh c v (Z.to_nat (hi + 1 - lo)) lo s Hg Hs Hlo ltac:(lia)) as (l & E & Hl & Hin & Hout).
  rewrite Z2Nat.id in * by lia. exists l. splits; [exact E|done|intros; apply Hin; lia|intros; apply Hout; lia].
Qed.

Lemma count_ok n s : 0 <= n <= MAXDEG -> count n s = Ret ((n * (n + 2))%Z, s).
Proof. intros Hn. unfold count. apply cint_ok. unfold MAXDEG, INT_MIN, INT_MAX in *. nia. Qed.

(** The shared shape of [extrapsh] and [interpsh]: up to the smaller degree
    both models count, above it only the one that reaches higher. *)
Definition blend (both : K -> K -> K) (first second : K -> K -> K) (nmax1 nmax2 : Z) (a b : K) (i : Z) : K :=
  if Z.leb i (Z.min nmax1 nmax2 * (Z.min nmax1 nmax2 + 2)) then both a b
  else if Z.ltb nmax2 nmax1 then first a b else second a b.

Lemma blend_ok both first second nmax1 nmax2 gh c s :
  slot_of gh = Some c -> sized s -> 0 <= nmax1 <= MAXDEG -> 0 <= nmax2 <= MAXDEG ->
  exists l,
    bind (if Z.eqb nmax1 nmax2 then let! k := count nmax1 in ret (k, nmax1)
          else if Z.ltb nmax2 nmax1 then
            let! k := count nmax2 in let! l := count nmax1 in
            fill_coeffs gh (k + 1)%Z l first ;! ret (k, nmax1)
          else
            let! k := count nmax1 in let! l := count nmax2 in
            fill_coeffs gh (k + 1)%Z l second ;! ret (k, nmax2))
         (fun x => match x with (k, nmax) => fill_coeffs gh 1 k both ;! ret nmax end) s =
      Ret (Z.max nmax1 nmax2, set_coeffs c l s) /\ zlength l = MAXCOEFF /\
    (forall i, 1 <= i <= Z.max nmax1 nmax2 * (Z.max nmax1 nmax2 + 2) ->
       zlookup l i = Some (blend both first second nmax1 nmax2 (c1_at s i) (c2_at s i) i)) /\
    (forall i, i < 1 \/ Z.max nmax1 nmax2 * (Z.max nmax1 nmax2 + 2) < i -> zlookup l i = zlookup (coeffs c s) i).
Proof.
  intros Hg Hs H1' H2'. set (mn := Z.min nmax1 nmax2). set (mx := Z.max nmax1 nmax2).
  assert (0 <= mn <= mx /\ mx <= MAXDEG) as [[Hmn Hmx] Hd] by lia.
  assert (mn * (mn + 2) <= mx * (mx + 2)) as Hle by nia.
  assert (mx * (mx + 2) < MAXCOEFF) as Hlt by (unfold MAXCOEFF, MAXDEG in *; nia).
  assert (exists l, (if Z.eqb nmax1 nmax2 then let! k := count nmax1 in ret (k, nmax1)
          else if Z.ltb nmax2 nmax1 then
            let! k := count nmax2 in let! l := count nmax1 in
            fill_coeffs gh (k + 1)%Z l first ;! ret (k, nmax1)
          else
            let! k := count nmax1 in let! l := count nmax2 in
            fill_coeffs gh (k + 1)%Z l second ;! ret (k, nmax2)) s = Ret ((mn * (mn + 2), mx)%Z, set_coeffs c l s) /\
     zlength l = MAXCOEFF /\
     (forall i, mn * (mn + 2) < i <= mx * (mx + 2) ->
        zlookup l i = Some ((if Z.ltb nmax2 nmax1 then first else second) (c1_at s i) (c2_at s i))) /\
     (forall i, i < 1 \/ mx * (mx + 2) < i -> zlookup l i = zlookup (coeffs c s) i)) as (l & E & Hl & Hin & Hout).
  { destruct (Z.eqb_spec nmax1 nmax2) as [<-|Hne]; [|destruct (Z.ltb_spec nmax2 nmax1)].
    - exists (coeffs c s). rewrite (bind_step _ _ _ _ _ (count_ok _ _ H1')). unfold mn, mx. rewrite Z.min_id, Z.max_id.
      splits; [|by apply sized_coeffs|lia|done]. unfold ret. do 2 f_equal. by destruct c, s as [[] ? ? ? ?].
    - assert (mn = nmax2 /\ mx = nmax1) as [-> ->] by lia.
      rewrite (bind_step _ _ _ _ _ (count_ok _ _ H2')), (bind_step _ _ _ _ _ (count_ok _ _ H1')).
      destruct (fill_ok gh c (nmax2 * (nmax2 + 2) + 1) (nmax1 * (nmax1 + 2)) first s Hg Hs) as (l & E & Hl & Hin & Hout); [lia..|].
      rewrite (bind_step _ _ _ _ _ E). exists l. splits; [done..|intros; apply Hin; lia|intros; apply Hout; nia].
    - assert (mn = nmax1 /\ mx = nmax2) as [-> ->] by lia.
      rewrite (bind_step _ _ _ _ _ (count_ok _ _ H1')), (bind_step _ _ _ _ _ (count_ok _ _ H2')).
      destruct (fill_ok gh c (nmax1 * (nmax1 + 2) + 1) (nmax2 * (nmax2 + 2)) second s Hg Hs) as (l & E & Hl & Hin & Hout); [lia..|].
      rewrite (bind_step _ _ _ _ _ E). exists l. splits; [done..|intros; apply Hin; lia|intros; apply Hout; nia]. }
  rewrite (bind_step _ _ _ _ _ E).
  destruct (fill_ok gh c 1 (mn * (mn + 2)) both (set_coeffs c l s) Hg (sized_set _ _ _ Hs Hl)) as (l2 & E2 & Hl2 & Hin2 & Hout2); [nia..|].
  rewrite (bind_step _ _ _ _ _ E2), set_set, coeffs_set in *. destruct (c_at_set s c l) as [Q1 Q2]. rewrite Q1, Q2 in Hin2.
  exists l2. splits; [done..| |].
  - intros i Hi. unfold blend. fold mn. destruct (Z.leb_spec i (mn * (mn + 2))); [apply Hin2; lia|].
    rewrite Hout2 by lia. rewrite Hin by lia. by destruct (_ <? _)%Z.
  - intros i Hi. rewrite Hout2 by nia. apply Hout. lia.
Qed.
End coefficients.
End IgrfLaws.

(** ** Properties *)
Module IgrfTheorems.
Import MathUtils Igrf IgrfLaws.

Section theorems.
Context {K : Type} `{Num K} `{Double K} `{Transcendental K}.
Implicit Types (s : igrf (K := K)).
Local Open Scope num_scope.

Lemma extrapsh_eq date dte1 nmax1 nmax2 gh c s :
  slot_of gh = Some c -> sized s -> 0 <= nmax1 <= MAXDEG -> 0 <= nmax2 <= MAXDEG ->
  exists l, extrapsh date dte1 nmax1 nmax2 gh s = Ret (Z.max nmax1 nmax2, set_coeffs c l s) /\ zlength l = MAXCOEFF /\
    (forall i, 1 <= i <= Z.max nmax1 nmax2 * (Z.max nmax1 nmax2 + 2) ->
       zlookup l i = Some (blend (fun a b => a + (date - dte1) * b) (fun a b => a) (fun a b => (date - dte1) * b)
                             nmax1 nmax2 (c1_at s i) (c2_at s i) i)) /\
    (forall i, i < 1 \/ Z.max nmax1 nmax2 * (Z.max nmax1 nmax2 + 2) < i -> zlookup l i = zlookup (coeffs c s) i).
Proof. intros. unfold extrapsh. by apply (blend_ok (fun a b => a + (date - dte1) * b)). Qed.

Lemma interpsh_eq date dte1 nmax1 dte2 nmax2 gh c s :
  slot_of gh = Some c -> sized s -> 0 <= nmax1 <= MAXDEG -> 0 <= nmax2 <= MAXDEG ->
  let factor := (date - dte1) / (dte2 - dte1) in
  exists l, interpsh date dte1 nmax1 dte2 nmax2 gh s = Ret (Z.max nmax1 nmax2, set_coeffs c l s) /\ zlength l = MAXCOEFF /\
    (forall i, 1 <= i <= Z.max nmax1 nmax2 * (Z.max nmax1 nmax2 + 2) ->
       zlookup l i = Some (blend (fun a b => a + factor * (b - a)) (fun a b => a + factor * (- a)) (fun a b => factor * b)
                             nmax1 nmax2 (c1_at s i) (c2_at s i) i)) /\
    (forall i, i < 1 \/ Z.max nmax1 nmax2 * (Z.max nmax1 nmax2 + 2) < i -> zlookup l i = zlookup (coeffs c s) i).
Proof. intros. unfold interpsh. by apply (blend_ok (fun a b => a + factor * (b - a))). Qed.

(** ** The whole computation *)
Definition polar (lat : K) : bool := nleb (nlit 90 1 - nabs lat) (nlit 1 1000).

Lemma poles_ok s : exists s', (magnetic_poles ;! geographic_poles) s = Ret (tt, s') /\
  tabs s' = tabs s /\ mfile s' = mfile s /\ gccolat (rslt s') = gccolat (rslt s) /\
  xyz Now s' = (if polar (latitude (place s)) then let '(_, _, z) := xyz Now s in (NaN, NaN, z) else xyz Now s).
Proof.
  unfold magnetic_poles, geographic_poles, polar, xyz. munfold. cbn beta iota zeta.
  destruct (nltb (f_h _) (nlit 100 1)); cbn beta iota.
  all: destruct (nltb (f_h _) (nlit 1000 1)); [|destruct (nltb (f_h _) (nlit 5000 1) && _)]; cbn beta iota.
  all: cbn [place upd_place upd_res set_warn set_now set_rate latitude].
  all: destruct (nleb _ (nlit 1 1000)); (eexists; split; [reflexivity|done]).
Qed.

Lemma dihf_eq gh c s : slot_of gh = Some c -> exists d i h f,
  dihf gh s = Ret (gh, let v := fieldv c s in set_fieldv c (Field (f_x v) (f_y v) (f_z v) d i h f) s).
Proof.
  intros Hg. unfold dihf. rewrite Hg. munfold. cbn beta iota zeta.
  destruct (nltb _ _); [by eexists _, _, _, _|]. destruct (nltb _ _); [by eexists _, _, _, _|].
  destruct (nltb _ _); by eexists _, _, _, _.
Qed.

Lemma coeffs_at_date_ok m s : sized s -> 0 <= m_max1 m <= MAXDEG -> 0 < m_max2 m <= MAXDEG ->
  exists la lb, coeffs_at_date m s =
    Ret (tt, set_nmax (Z.max (m_max1 m) (m_max2 m)) (set_coeffs Temp lb (set_coeffs Now la s))) /\
  zlength la = MAXCOEFF /\ zlength lb = MAXCOEFF /\
  (forall i, 1 <= i <= Z.max (m_max1 m) (m_max2 m) * (Z.max (m_max1 m) (m_max2 m) + 2) ->
     let at_date date := let fac := date - m_epoch m in
       blend (fun a b => a + fac * b) (fun a b => a) (fun a b => fac * b) (m_max1 m) (m_max2 m) (c1_at s i) (c2_at s i) i in
     zlookup la i = Some (at_date (sdate (place s))) /\ zlookup lb i = Some (at_date (sdate (place s) + one))).
Proof.
  intros Hs Hm1 Hm2. unfold coeffs_at_date. unfold get at 1. unfold bind at 1. cbn beta iota zeta.
  rewrite (proj2 (Z.eqb_neq (m_max2 m) 0)) by lia.
  destruct (extrapsh_eq (sdate (place s)) (m_epoch m) (m_max1 m) (m_max2 m) 3 Now s eq_refl Hs Hm1 ltac:(lia))
    as (la & E & Hl & Hin & _). rewrite (bind_step _ _ _ _ _ E). unfold modify at 1. unfold bind at 1. cbn beta iota.
  set (s1 := set_nmax _ _). assert (sized s1) as Hs1 by by destruct (sized_set s Now la Hs Hl); split.
  destruct (extrapsh_eq (sdate (place s) + one) (m_epoch m) (m_max1 m) (m_max2 m) 4 Temp s1 eq_refl Hs1 Hm1 ltac:(lia))
    as (lb & E2 & Hl2 & Hin2 & _). rewrite (bind_step _ _ _ _ _ E2).
  exists la, lb. splits; [reflexivity|done|done|]. intros i Hi. cbv zeta. split; [by apply Hin|by apply Hin2].
Qed.

Lemma frame_calc c v w igdgc flat elev s :
  let s' := set_fieldv c w (colatitude igdgc flat elev (put_xyz c v s)) in
  tabs s' = tabs s /\ mfile s' = mfile s /\ place s' = place s /\ (c = Temp -> xyz Now s' = xyz Now s).
Proof.
  unfold colatitude. destruct v as [[? ?] ?]. destruct (Z.eqb igdgc 1); [destruct (station _ _ _) as [[[[? ?] ?] ?] ?]|]; by destruct c.
Qed.

(** What [calc_mag_coords] leaves in [x], [y], [z] and [gccolat]. *)
Lemma calc_ok m s : sized s -> zlookup (models (mfile s)) (modelI (mfile s)) = Some m ->
  0 <= m_max1 m <= MAXDEG -> 0 < m_max2 m <= MAXDEG ->
  let p := place s in
  let elev := alt p * nlit 1 1000 in
  let N := Z.to_nat (Z.max (m_max1 m) (m_max2 m)) in
  exists la lb s', calc_mag_coords s = Ret (tt, s') /\ sized s' /\ mfile s' = mfile s /\
    c1_at s' = c1_at s /\ c2_at s' = c2_at s /\
    gccolat (rslt s') = gccolat (rslt (colatitude 1 (latitude p) elev s)) /\
    xyz Now s' = (let '(x, y, z) := model_field la 1 (latitude p) (longitude p) elev N 0 zero zero zero in
                  if polar (latitude p) then (NaN, NaN, z) else (x, y, z)) /\
    (forall i, 1 <= i <= Z.max (m_max1 m) (m_max2 m) * (Z.max (m_max1 m) (m_max2 m) + 2) ->
       let at_date date := let fac := date - m_epoch m in
         blend (fun a b => a + fac * b) (fun a b => a) (fun a b => fac * b) (m_max1 m) (m_max2 m) (c1_at s i) (c2_at s i) i in
       zlookup la i = Some (at_date (sdate p)) /\ zlookup lb i = Some (at_date (sdate p + one))).
Proof.
  intros Hs Hm Hm1 Hm2. cbv zeta. unfold calc_mag_coords. unfold get at 1. unfold bind at 1. cbn beta iota.
  rewrite (bind_step _ _ _ _ _ (arr_get_Some _ _ _ _ Hm)). unfold modify at 1 2. unfold bind at 1 2. cbn beta iota.
  set (s1 := set_igdgc 1%Z _). assert (sized s1) as Hs1 by by destruct Hs; split.
  destruct (coeffs_at_date_ok m s1 Hs1 Hm1 Hm2) as (la & lb & E & Hla & Hlb & Hco).
  rewrite (bind_step _ _ _ _ _ E). set (s2 := set_nmax _ _).
  assert (sized s2) as Hs2 by by destruct Hs1; split.
  exists la, lb. unfold get at 1. unfold bind at 1. cbn beta iota.
  set (N := Z.to_nat (Z.max (m_max1 m) (m_max2 m))). change (nmax (place s2)) with (Z.max (m_max1 m) (m_max2 m)).
  assert (0 <= Z.max (m_max1 m) (m_max2 m) <= MAXDEG) as HN by lia.
  erewrite bind_step by (apply (shval3_ok' _ _ _ _ _ 3 Now); [done|exact HN|by destruct Hs2]). fold N.
  set (s3 := colatitude _ _ _ _). destruct (dihf_eq 3 Now s3 eq_refl) as (d & i & h & f & E3).
  rewrite (bind_step _ _ _ _ _ E3). set (s4 := set_fieldv _ _ _).
  pose proof (frame_calc Now (model_field (coeffs Now s2) (igdgc (place s2)) (latitude (place s2)) (longitude (place s2))
    (alt (place s2)) N IEXT zero zero zero) (let v := fieldv Now s3 in Field (f_x v) (f_y v) (f_z v) d i h f)
    (igdgc (place s2)) (latitude (place s2)) (alt (place s2)) s2) as (T4 & M4 & P4 & _).
  change (tabs s4 = tabs s2) in T4. change (mfile s4 = mfile s2) in M4. change (place s4 = place s2) in P4.
  assert (sized s4) as Hs4 by (destruct Hs2; split; rewrite ?T4, ?M4; done).
  assert (xyz Now s4 = model_field la 1 (latitude (place s)) (longitude (place s)) (alt (place s) * nlit 1 1000) N 0 zero zero zero) as X4.
  { transitivity (xyz Now s3); [done|]. unfold s3. rewrite xyz_colat, xyz_put. reflexivity. }
  unfold get at 1. unfold bind at 1. cbn beta iota. rewrite P4. change (nmax (place s2)) with (Z.max (m_max1 m) (m_max2 m)).
  erewrite bind_step by (apply (shval3_ok' _ _ _ _ _ 4 Temp); [done|exact HN|by destruct Hs4]). fold N.
  set (s5 := colatitude _ _ _ _). destruct (dihf_eq 4 Temp s5 eq_refl) as (d2 & i2 & h2 & f2 & E5).
  rewrite (bind_step _ _ _ _ _ E5). set (s6 := set_fieldv _ _ _).
  pose proof (frame_calc Temp (model_field (coeffs Temp s4) (igdgc (place s2)) (latitude (place s2)) (longitude (place s2))
    (alt (place s2)) N IEXT zero zero zero) (let v := fieldv Temp s5 in Field (f_x v) (f_y v) (f_z v) d2 i2 h2 f2)
    (igdgc (place s2)) (latitude (place s2)) (alt (place s2)) s4) as (T6 & M6 & P6 & X6).
  specialize (X6 eq_refl). change (tabs s6 = tabs s4) in T6. change (mfile s6 = mfile s4) in M6.
  change (place s6 = place s4) in P6. change (xyz Now s6 = xyz Now s4) in X6.
  unfold get at 1. unfold bind at 1. cbn beta iota zeta. unfold modify at 1 2. unfold bind at 1 2. cbn beta iota.
  set (s7 := set_now _ _). destruct (poles_ok s7) as (s8 & E8 & T8 & M8 & G8 & X8). exists s8.
  change (tabs s7) with (tabs s6) in T8. change (mfile s7) with (mfile s6) in M8.
  split; [exact E8|]. split; [|split; [|split; [|split; [|split; [|split]]]]].
  - destruct Hs4. split; by rewrite ?T8, ?M8, ?T6, ?M6.
  - by rewrite M8, M6, M4.
  - unfold c1_at. by rewrite T8, T6, T4.
  - unfold c2_at. by rewrite T8, T6, T4.
  - rewrite G8. change (gccolat (rslt s7)) with (gccolat (rslt s5)).
    assert (forall flat elev s s', gccolat (rslt (colatitude 1 flat elev s)) = gccolat (rslt (colatitude 1 flat elev s'))) as Hg.
    { intros. unfold colatitude. cbn [Z.eqb Pos.eqb]. by destruct (station _ _ _) as [[[[? ?] ?] ?] ?]. }
    apply Hg.
  - rewrite X8. change (xyz Now s7) with (xyz Now s6). rewrite X6, X4. change (latitude (place s7)) with (latitude (place s6)).
    rewrite P6, P4. change (latitude (place s2)) with (latitude (place s)). by destruct (model_field _ _ _ _ _ _ _ _ _ _) as [[? ?] ?].
  - intros j Hj. exact (Hco j Hj).
Qed.

(** [IgrfCalc] returns the field of the harmonics up to degree 13 at the place
    and date, turned to inertial axes. *)
Lemma igrf_calc_eq (decyear latrad lonrad altm side : K) s :
  sized s -> first_flg (mfile s) = false ->
  let lat := latrad * RAD2DEG in
  let elev := altm * nlit 1 1000 in
  exists cf s' x y z, IgrfCalc decyear latrad lonrad altm side s =
      Ret (inr (TransMagaxisToECI (if polar lat then Vec NaN NaN z else Vec x y z) lonrad (gccolat (rslt s')) side), s') /\
    (x, y, z) = model_field cf 1 lat (lonrad * RAD2DEG) elev 13 0 zero zero zero /\
    (forall i, 1 <= i < MAXCOEFF ->
       zlookup cf i = Some (if Z.leb i 80 then c1_at s i + (decyear - nlit 2020 1) * c2_at s i else c1_at s i)) /\
    gccolat (rslt s') = (let '(slat, clat, _, _, _) := station 1 lat elev in natan2 clat slat) /\
    sized s' /\ first_flg (mfile s') = false /\ c1_at s' = c1_at s /\ c2_at s' = c2_at s.
Proof.
  intros Hs Hf. cbv zeta. unfold IgrfCalc. unfold modify at 1. unfold bind at 1. cbn beta iota.
  unfold get at 1. unfold bind at 1. cbn beta iota. change (first_flg (mfile (set_place _ _ _ _ s))) with (first_flg (mfile s)).
  rewrite Hf. set (s1 := set_place _ _ _ _ s). change (models (mfile s1)) with (models (mfile s)).
  pose proof (sized_models _ Hs) as Hm. destruct (zlookup_lt (models (mfile s)) 0) as [m Hm0]; [by rewrite Hm|].
  set (ms := zinsert (models (mfile s)) 0 (igrf13_header m)).
  set (s2 := set_years (nlit 2020 1) (nlit 2025 1) (set_modelI 0 (set_models ms s1))).
  erewrite bind_step.
  2: { rewrite (bind_step _ _ _ _ _ (arr_get_Some _ _ _ _ Hm0)). erewrite bind_step by (apply arr_set_ok; by rewrite Hm).
       munfold. cbn beta iota. fold ms. fold s2. reflexivity. }
  cbn beta iota.
  assert (sized s2) as Hs2 by (destruct Hs; split; try done; change (zlength ms = MAXMOD); unfold ms; by rewrite zlength_zinsert).
  assert (zlookup (models (mfile s2)) (modelI (mfile s2)) = Some (igrf13_header m)) as Hm2.
  { change (zlookup ms 0 = Some (igrf13_header m)). unfold ms. apply zlookup_zinsert_eq. by rewrite Hm. }
  destruct (calc_ok _ s2 Hs2 Hm2) as (la & lb & s3 & E & Hs3 & M3 & C1 & C2 & G3 & X3 & Hco); [done..|].
  rewrite (bind_step _ _ _ _ _ E). unfold get at 1. unfold bind at 1. cbn beta iota.
  change (place s2) with (place s1) in *. change (latitude (place s1)) with (latrad * RAD2DEG) in *.
  change (longitude (place s1)) with (lonrad * RAD2DEG) in *. change (alt (place s1)) with altm in *.
  change (Z.to_nat (m_max1 (igrf13_header m) `max` m_max2 (igrf13_header m))) with 13%nat in X3.
  destruct (model_field la 1 (latrad * RAD2DEG) (lonrad * RAD2DEG) (altm * nlit 1 1000) 13 0 zero zero zero) as [[x y] z] eqn:Ef.
  exists la, s3, x, y, z. split; [|split; [done|split; [|split; [|split; [done|split; [|by split]]]]]].
  - unfold ret. do 3 f_equal. unfold xyz in X3. cbn [fieldv] in X3. by destruct (polar _); injection X3 as -> -> ->.
  - intros i Hi. destruct (Hco i ltac:(exact ltac:(change (1 <= i <= 195); unfold MAXCOEFF, MAXDEG in Hi; lia))) as [-> _].
    reflexivity.
  - rewrite G3. unfold colatitude. cbn [Z.eqb Pos.eqb]. by destruct (station _ _ _) as [[[[? ?] ?] ?] ?].
  - rewrite M3. done.
Qed.

(** *** A function of the arguments *)

(** The coefficients of a date and the field, without the state. *)
Definition coefficients (date : K) : list K :=
  map (fun i => let a := default zero (zlookup (hundredths gh1_init) i) in
                let b := default zero (zlookup (hundredths gh2_init) i) in
                if Z.leb i 80 then a + (date - nlit 2020 1) * b else a) (range MAXCOEFF).
Record request := Request { r_decyear : K; r_latrad : K; r_lonrad : K; r_altm : K; r_side : K }.
Definition igrf_value (r : request) : vector3 K :=
  let lat := r_latrad r * RAD2DEG in
  let elev := r_altm r * nlit 1 1000 in
  let '(x, y, z) := model_field (coefficients (r_decyear r)) 1 lat (r_lonrad r * RAD2DEG) elev 13 0 zero zero zero in
  let '(slat, clat, _, _, _) := station 1 lat elev in
  TransMagaxisToECI (if polar lat then Vec NaN NaN z else Vec x y z) (r_lonrad r) (natan2 clat slat) (r_side r).
Fixpoint igrf_calls (rs : list request) : M igrf (list (Z + vector3 K)) :=
  match rs with
  | [] => ret []
  | r :: rs => let! v := IgrfCalc (r_decyear r) (r_latrad r) (r_lonrad r) (r_altm r) (r_side r) in
               let! vs := igrf_calls rs in
               ret (v :: vs)
  end.

(** Only the coefficients of the harmonics count. *)
Lemma model_field_ext cf cf' igdgc flat flon elev N iext e1 e2 e3 : (N <= 13)%nat ->
  (forall i, 1 <= i < MAXCOEFF -> zlookup cf i = zlookup cf' i) ->
  model_field cf igdgc flat flon elev N iext e1 e2 e3 = model_field cf' igdgc flat flon elev N iext e1 e2 e3.
Proof.
  intros HN Hi. unfold model_field. destruct (station _ _ _) as [[[[slat clat] sd] cd] r]. do 2 f_equal. unfold synthesis.
  assert (forall L v, (forall n m, (n, m) ∈ L -> (1 <= n <= 13)%nat /\ (m <= n)%nat) ->
    foldl (term cf slat clat (earths_radius / r) (nsin (flon * dtr)) (ncos (flon * dtr))) v L =
    foldl (term cf' slat clat (earths_radius / r) (nsin (flon * dtr)) (ncos (flon * dtr))) v L) as E.
  { induction L as [|[n m] L IH]; intros v HL; [done|]. cbn [foldl]. rewrite IH by (intros n' m' Hx; apply HL; by right).
    f_equal. destruct (HL n m) as [Hn Hm]; [left|]. unfold term, coef_at.
    rewrite !Hi by (unfold coef_at, MAXCOEFF, MAXDEG; first [nia | destruct (Nat.eqb_spec m 0); nia]). done. }
  apply E. intros n m. unfold harmonics, orders.
  rewrite list_elem_of_In, in_concat. intros (l & (k & <- & Hk)%in_map_iff & (j & [= -> ->] & Hj)%in_map_iff).
  apply in_seq in Hk, Hj. lia.
Qed.

Definition fresh s : Prop :=
  sized s /\ first_flg (mfile s) = false /\
  c1_at s = (fun i => default zero (zlookup (hundredths gh1_init) i)) /\
  c2_at s = (fun i => default zero (zlookup (hundredths gh2_init) i)).

Lemma igrf_calc_pure r s : fresh s -> exists s',
  IgrfCalc (r_decyear r) (r_latrad r) (r_lonrad r) (r_altm r) (r_side r) s = Ret (inr (igrf_value r), s') /\ fresh s'.
Proof.
  intros (Hs & Hf & H1' & H2').
  destruct (igrf_calc_eq (r_decyear r) (r_latrad r) (r_lonrad r) (r_altm r) (r_side r) s Hs Hf)
    as (cf & s' & x & y & z & E & Ef & Hcf & Hcol & Hs' & Hf' & C1 & C2).
  exists s'. split; [|by split; [|split; [|split; congruence]]].
  rewrite E. unfold igrf_value. rewrite (model_field_ext (coefficients (r_decyear r)) cf); [|done|].
  2: { intros i Hi. rewrite (Hcf i Hi), H1', H2'. unfold coefficients, zlookup at 1.
       replace (i <? 0)%Z with false by (symmetry; apply Z.ltb_ge; lia).
       change (map ?f ?l) with (f <$> l). rewrite list_lookup_fmap. unfold range. rewrite lookup_seqZ_lt by lia. cbn [fmap option_fmap option_map].
       by replace (0 + Z.of_nat (Z.to_nat i))%Z with i by lia. }
  rewrite <- Ef, Hcol. by destruct (station _ _ _) as [[[[? ?] ?] ?] ?].
Qed.

(** The table of model headers has 30 entries, and the check for too many
    of them lets a thirty-first through: it is written outside of the table
    where the program means to stop with code 6. *)
Theorem read_model_thirty_first line pos s :
  sized s -> modelI (mfile s) = (MAXMOD - 1)%Z -> strlen line = RECL -> take 3 line = cs "   " ->
  read_model_line (line, pos) s = Fault OutOfBounds.
Proof.
  intros Hs Hi Hl Ht. unfold read_model_line. munfold. cbn beta iota. rewrite Hl, Z.eqb_refl. cbn [negb].
  rewrite bool_decide_true by done. cbn beta iota. change (modelI (mfile (set_modelI ?i ?t))) with i.
  change (modelI (mfile (set_fileline ?i ?t))) with (modelI (mfile t)). rewrite Hi. change (MAXMOD <? MAXMOD - 1 + 1)%Z with false.
  cbn beta iota. change (models (mfile (set_modelI ?i ?t))) with (models (mfile t)).
  change (models (mfile (set_fileline ?i ?t))) with (models (mfile t)).
  unfold arr_get. rewrite zlookup_ge; [done|]. by rewrite (sized_models _ Hs).
Qed.

Lemma igrf_init_sized fs : sized (igrf_init (K := K) fs).
Proof. by split; vm_compute. Qed.

(** C26. However often it is called and in any arithmetic, [IgrfCalc] reads and
    writes only inside its arrays, reads no cell before it is written, and
    returns a vector that depends on nothing but its arguments, although it
    works on global variables that the next call finds as the last one left
    them: the field of the harmonics up to degree 13, where the first 80
    coefficients are those of 2020 plus their yearly change times the years
    since and the others those of 2020, turned to inertial axes; at the
    geographic poles the horizontal components are not numbers. *)
Theorem igrf_calls_pure fs (rs : list request) :
  exists s', igrf_calls rs (igrf_init fs) = Ret (map (fun r => inr (igrf_value r)) rs, s').
Proof.
  assert (forall s, fresh s -> exists s', igrf_calls rs s = Ret (map (fun r => inr (igrf_value r)) rs, s')) as E.
  { induction rs as [|r rs IH]; intros s Hs; [by exists s|]. cbn [igrf_calls map].
    destruct (igrf_calc_pure r s Hs) as (s1 & E1 & Hs1). rewrite (bind_step _ _ _ _ _ E1).
    destruct (IH s1 Hs1) as (s2 & E2). exists s2. by rewrite (bind_step _ _ _ _ _ E2). }
  apply E. split; [apply igrf_init_sized|by split].
Qed.
End theorems.
End IgrfTheorems.
