(* ===== verification/IgrfReal.v ===== *)
(** * The reference field as the gradient of a potential

    The formulas of Igrf over the real numbers (as in MathReal, rounding is
    left aside): the values of [p] and [q] are associated Legendre functions in
    the normalisation of Schmidt and their derivatives, so that the components
    [shval3] adds up are the gradient of a harmonic potential; the angles of
    [dihf]; the rotation to inertial axes. *)
From Stdlib Require Import Reals Lra.
From S2P Require Import Prelude CStr MathUtils MathLoops MathReal AdcsReal Igrf IgrfLaws.

(** [atan2], and [pow] for a positive base.  The logarithm of a negative
    number, which the code uses for a value that is not a number, is not one:
    the theorems keep away from it. *)
Definition R_atan2 (y x : R) : R :=
  (if Rlt_dec 0 x then atan (y / x)
   else if Rlt_dec x 0 then
     if Rlt_dec y 0 then atan (y / x) - PI else atan (y / x) + PI
   else if Rlt_dec 0 y then PI / 2 else if Rlt_dec y 0 then - (PI / 2) else 0)%R.
#[export] Instance R_transcendental : Transcendental R := {
  natan2 := R_atan2; npow := Rpower; nlog := ln
}.

Module IgrfReal.
Import MathUtils MathReal AdcsReal Igrf IgrfLaws IgrfTheorems.
Local Open Scope R_scope.
(** The number, not the literal of the code. *)
Local Abbreviation pi := Rtrigo1.PI.

Lemma num_INR n : (num n : R) = INR n.
Proof. unfold num, of_int. cbn. rewrite INR_IZR_INZ. field. Qed.

Ltac lits := unfold zero, one, two, of_int; cbn [nadd nsub nmul ndiv nopp nsqrt nsin ncos nlit npow R_num R_transcendental].

(** ** The recursion over the degree *)

(** The associated Legendre functions of the colatitude and their
    derivatives; degree 0 is the constant 1. *)
Definition LP (n m : nat) (t : R) : R :=
  match n with O => 1 | _ => fst (leg (cos t) (sin t) n m) / (INR n + 1) end.
Definition LQ (n m : nat) (t : R) : R :=
  match n with O => 0 | _ => snd (leg (cos t) (sin t) n m) end.
Definition kap (n m : nat) : R := sqrt (INR n * INR n - INR m * INR m).
Definition dia (n : nat) : R := sqrt (1 - / (2 * INR n)).

Lemma kap_sq n m : (m <= n)%nat -> kap n m * kap n m = INR n * INR n - INR m * INR m.
Proof. intros Hm%le_INR. apply sqrt_sqrt. pose proof (pos_INR m). nra. Qed.
Lemma kap_pos n m : (m < n)%nat -> 0 < kap n m.
Proof. intros Hm%lt_INR. apply sqrt_lt_R0. pose proof (pos_INR m). nra. Qed.
Lemma kap_diag n : kap n n = 0.
Proof. unfold kap. rewrite Rminus_diag. apply sqrt_0. Qed.

Lemma leg_p n m t : (1 <= n)%nat -> fst (leg (cos t) (sin t) n m) = (INR n + 1) * LP n m t.
Proof. intros Hn. unfold LP. destruct n as [|n]; [lia|]. field. pose proof (pos_INR (S n)). lra. Qed.
Lemma leg_q n m t : (1 <= n)%nat -> snd (leg (cos t) (sin t) n m) = LQ n m t.
Proof. intros Hn. unfold LQ. by destruct n; [lia|]. Qed.

Lemma LP_1 t : LP 1 0 t = cos t /\ LP 1 1 t = sin t /\ LQ 1 0 t = - sin t /\ LQ 1 1 t = cos t.
Proof. unfold LP, LQ. cbn [leg fst snd INR]. lits. repeat split; field. Qed.
Lemma LP_2 t : LP 2 0 t = (3 * (cos t * cos t) - 1) / 2 /\ LQ 2 0 t = - 3 * (sin t * cos t) /\
  LP 2 1 t = sqrt 3 * (sin t * cos t) /\ LQ 2 1 t = sqrt 3 * (cos t * cos t - sin t * sin t).
Proof.
  unfold LP, LQ. cbn [leg Nat.eqb andb fst snd INR]. lits. replace (3 / 1) with 3 by field. repeat split; field.
Qed.

(** The recursion along the diagonal. *)
Lemma LP_diag n t : (2 <= n)%nat ->
  LP n n t = dia n * (sin t * LP (n - 1) (n - 1) t) /\
  LQ n n t = dia n * (sin t * LQ (n - 1) (n - 1) t + cos t * LP (n - 1) (n - 1) t).
Proof.
  intros Hn. assert (0 < INR n) as Hp by (apply (lt_INR 0); lia).
  assert (INR (n - 1) + 1 = INR n) as E by (rewrite <- S_INR; f_equal; lia).
  assert (nsqrt (nsub (one : R) (ndiv (nlit 1 2) (num n))) = dia n) as Ed.
  { lits. unfold dia. rewrite num_INR. f_equal. field. lra. }
  unfold LP at 1, LQ at 1. destruct n as [|n']; [lia|]. set (n := S n') in *.
  rewrite leg_diag_eq by done. unfold leg_diag. rewrite Ed. cbn [fst snd].
  rewrite leg_p, leg_q by lia. rewrite E, num_INR. lits. split; field; lra.
Qed.

(** The three-term recursion; for the last order the third term is absent. *)
Lemma LP_next n m t : (2 <= n)%nat -> (m < n)%nat ->
  kap n m * LP n m t = (2 * INR n - 1) * (cos t * LP (n - 1) m t) - kap (n - 1) m * LP (n - 2) m t /\
  kap n m * LQ n m t = (2 * INR n - 1) * (cos t * LQ (n - 1) m t - sin t * LP (n - 1) m t) - kap (n - 1) m * LQ (n - 2) m t.
Proof.
  intros Hn Hm. destruct (decide (n = 2)%nat) as [->|Hn3].
  { destruct (LP_2 t) as (A & B & C & D), (LP_1 t) as (A1 & B1 & C1 & D1). cbn [Nat.sub].
    replace (INR 2) with 2 by (cbn; lra). destruct m as [|[|m]]; [| |lia].
    - rewrite A, B, A1, C1. unfold LP, LQ, kap. cbn [INR].
      replace (sqrt ((1 + 1) * (1 + 1) - 0 * 0)) with 2 by (replace ((1 + 1) * (1 + 1) - 0 * 0) with (2 * 2) by ring; rewrite sqrt_square; lra).
      replace (1 * 1 - 0 * 0) with 1 by ring. rewrite sqrt_1. split; field.
    - rewrite C, D, B1, D1, kap_diag. unfold kap. cbn [INR]. replace ((1 + 1) * (1 + 1) - 1 * 1) with 3 by ring.
      rewrite <- !Rmult_assoc, (sqrt_sqrt 3) by lra. split; ring. }
  assert (0 < INR n) as Hp by (apply (lt_INR 0); lia).
  assert (3 <= INR n) as Hp3 by (replace 3 with (INR 3) by (cbn; lra); apply le_INR; lia).
  assert (INR (n - 1) = INR n - 1) as E1 by (rewrite minus_INR by lia; cbn; lra).
  assert (INR (n - 2) = INR n - 2) as E2 by (rewrite minus_INR by lia; cbn; lra).
  pose proof (kap_pos n m Hm) as Hk.
  assert (nsqrt (nsub (nmul (num n) (num n : R)) (nmul (num m) (num m))) = kap n m) as Ek.
  { unfold kap. rewrite !num_INR. reflexivity. }
  assert (nsqrt (nsub (nmul (nsub (num n) one) (nsub (num n : R) one)) (nmul (num m) (num m))) = kap (n - 1) m) as Ek1.
  { unfold kap. rewrite !num_INR, E1. lits. f_equal. field. }
  unfold LP at 1, LQ at 1. destruct n as [|n']; [lia|]. set (n := S n') in *.
  rewrite leg_next_eq by lia. unfold leg_next. cbv zeta. rewrite Ek, Ek1. cbn [fst snd].
  rewrite !(leg_p (n - 1) m), !(leg_q (n - 1) m) by lia. rewrite E1, !num_INR.
  destruct (Nat.eqb_spec m (n - 1)) as [->|Hne].
  - rewrite kap_diag. lits. split; field; lra.
  - rewrite !(leg_p (n - 2) m), !(leg_q (n - 2) m) by lia. rewrite E2. lits. split; field; lra.
Qed.

(** ** The derivative *)
Lemma LP_derivative n : forall m t, (m <= n)%nat -> derivable_pt_lim (LP n m) t (LQ n m t).
Proof.
  induction n as [n IH] using lt_wf_ind. intros m t Hm.
  destruct (decide (n = 0)%nat) as [->|Hn0]. { apply derivable_pt_lim_const. }
  destruct (decide (n = 1)%nat) as [->|Hn1].
  { destruct (LP_1 t) as (_ & _ & C & D). destruct m as [|[|m]]; [| |lia].
    - rewrite C. apply (derivable_pt_lim_ext cos); [intros z; by destruct (LP_1 z) as (-> & _)|apply derivable_pt_lim_cos].
    - rewrite D. apply (derivable_pt_lim_ext sin); [intros z; by destruct (LP_1 z) as (_ & -> & _)|apply derivable_pt_lim_sin]. }
  destruct (decide (m = n)) as [->|Hmn].
  - destruct (LP_diag n t ltac:(lia)) as [_ ->].
    apply (derivable_pt_lim_ext (mult_real_fct (dia n) (sin * LP (n - 1) (n - 1))%F)).
    { intros z. by destruct (LP_diag n z ltac:(lia)) as [-> _]. }
    apply derivable_pt_lim_scal. rewrite Rplus_comm.
    apply (derivable_pt_lim_mult sin); [apply derivable_pt_lim_sin|apply IH; lia].
  - pose proof (kap_pos n m ltac:(lia)) as Hk.
    assert (LQ n m t = / kap n m * ((2 * INR n - 1) * (- sin t * LP (n - 1) m t + cos t * LQ (n - 1) m t)
              - kap (n - 1) m * LQ (n - 2) m t)) as ->.
    { destruct (LP_next n m t ltac:(lia) ltac:(lia)) as [_ E]. apply (Rmult_eq_reg_l (kap n m)); [|lra]. rewrite E. field. lra. }
    apply (derivable_pt_lim_ext (mult_real_fct (/ kap n m)
      (mult_real_fct (2 * INR n - 1) (cos * LP (n - 1) m) - mult_real_fct (kap (n - 1) m) (LP (n - 2) m))%F)).
    { intros z. destruct (LP_next n m z ltac:(lia) ltac:(lia)) as [E _]. apply (Rmult_eq_reg_l (kap n m)); [|lra]. rewrite E.
      unfold mult_real_fct, minus_fct, mult_fct. field. lra. }
    apply derivable_pt_lim_scal, derivable_pt_lim_minus.
    + apply derivable_pt_lim_scal, (derivable_pt_lim_mult cos); [apply derivable_pt_lim_cos|apply IH; lia].
    + destruct (decide (m = n - 1)%nat) as [->|Hne].
      * rewrite kap_diag. apply (derivable_pt_lim_ext (fct_cte 0)); [intros z; unfold mult_real_fct, fct_cte; ring|].
        rewrite Rmult_0_l. apply derivable_pt_lim_const.
      * apply derivable_pt_lim_scal, IH; lia.
Qed.

(** ** The equation of Legendre *)
Lemma sc1 t : sin t * sin t + cos t * cos t = 1.
Proof. pose proof (sin2_cos2 t) as E. unfold Rsqr in E. exact E. Qed.

(** The derivative in terms of the functions of two degrees. *)
Lemma LQ_up n : forall m t, (1 <= n)%nat -> (m <= n)%nat ->
  sin t * LQ n m t = INR n * (cos t * LP n m t) - kap n m * LP (n - 1) m t.
Proof.
  induction n as [n IH] using lt_wf_ind. intros m t Hn Hm. pose proof (sc1 t) as Hsc.
  assert (forall j, (2 <= j <= n)%nat -> (m < j)%nat ->
    sin t * LQ (j - 1) m t = kap j m * LP j m t - INR j * (cos t * LP (j - 1) m t)) as HB.
  { intros j Hj Hmj. rewrite (IH (j - 1)%nat) by lia. replace (j - 1 - 1)%nat with (j - 2)%nat by lia.
    destruct (LP_next j m t ltac:(lia) Hmj) as [-> _]. rewrite minus_INR by lia. cbn [INR]. ring. }
  destruct (decide (n = 1)%nat) as [->|Hn1].
  { destruct (LP_1 t) as (A & B & C & D). destruct m as [|[|m]]; [| |lia].
    - rewrite A, C. unfold kap, LP. cbn [INR Nat.sub]. replace (1 * 1 - 0 * 0) with 1 by ring. rewrite sqrt_1. lra.
    - rewrite B, D, kap_diag. cbn [INR]. ring. }
  destruct (decide (m = n)) as [->|Hmn].
  { destruct (LP_diag n t ltac:(lia)) as [-> ->]. rewrite kap_diag.
    pose proof (IH (n - 1)%nat ltac:(lia) (n - 1)%nat t ltac:(lia) ltac:(lia)) as E. rewrite kap_diag in E.
    transitivity (dia n * (sin t * (sin t * LQ (n - 1) (n - 1) t) + sin t * (cos t * LP (n - 1) (n - 1) t))); [ring|].
    rewrite E, minus_INR by lia. cbn [INR]. ring. }
  pose proof (kap_pos n m ltac:(lia)) as Hk. pose proof (kap_sq n m ltac:(lia)) as Hk2.
  destruct (LP_next n m t ltac:(lia) ltac:(lia)) as [E1 E2]. apply (Rmult_eq_reg_l (kap n m)); [|lra].
  transitivity (sin t * (kap n m * LQ n m t)); [ring|]. rewrite E2.
  transitivity ((2 * INR n - 1) * (cos t * (sin t * LQ (n - 1) m t) - sin t * sin t * LP (n - 1) m t)
    - kap (n - 1) m * (sin t * LQ (n - 2) m t)); [ring|].
  rewrite (HB n ltac:(lia) ltac:(lia)).
  assert (kap (n - 1) m * (sin t * LQ (n - 2) m t) =
    ((INR n - 1) * (INR n - 1) - INR m * INR m) * LP (n - 1) m t - (INR n - 1) * (cos t * (kap (n - 1) m * LP (n - 2) m t))) as ->.
  { destruct (decide (m = n - 1)%nat) as [->|Hne].
    { rewrite kap_diag, minus_INR by lia. cbn [INR]. ring. }
    destruct (decide (n = 2)%nat) as [->|Hn2].
    { assert (m = 0)%nat as -> by lia. unfold LQ, LP, kap. cbn [Nat.sub INR leg fst]. lits.
      replace (1 * 1 - 0 * 0) with 1 by ring. rewrite sqrt_1. field. }
    replace (INR n - 1) with (INR (n - 1)) by (rewrite minus_INR by lia; cbn [INR]; ring).
    rewrite <- (kap_sq (n - 1) m) by lia.
    replace (n - 2)%nat with (n - 1 - 1)%nat by lia. rewrite (HB (n - 1)%nat ltac:(lia) ltac:(lia)). ring. }
  replace (kap (n - 1) m * LP (n - 2) m t) with ((2 * INR n - 1) * (cos t * LP (n - 1) m t) - kap n m * LP n m t) by lra.
  replace (sin t * sin t) with (1 - cos t * cos t) by lra.
  transitivity (INR n * (cos t * LP n m t) * kap n m - (kap n m * kap n m) * LP (n - 1) m t); [rewrite Hk2; ring|ring].
Qed.

Lemma LQ_down n m t : (1 <= n)%nat -> (m < n)%nat ->
  sin t * LQ (n - 1) m t = kap n m * LP n m t - INR n * (cos t * LP (n - 1) m t).
Proof.
  intros Hn Hm. destruct (decide (n = 1)%nat) as [->|Hn1].
  { assert (m = 0)%nat as -> by lia. destruct (LP_1 t) as (-> & _). unfold LQ, LP, kap. cbn [Nat.sub INR].
    replace (1 * 1 - 0 * 0) with 1 by ring. rewrite sqrt_1. ring. }
  rewrite LQ_up by lia. replace (n - 1 - 1)%nat with (n - 2)%nat by lia.
  destruct (LP_next n m t ltac:(lia) Hm) as [-> _]. rewrite minus_INR by lia. cbn [INR]. ring.
Qed.

Definition LS (n m : nat) (t : R) : R :=
  ((INR m * INR m - INR n * (INR n + 1) * (sin t * sin t)) * LP n m t - sin t * cos t * LQ n m t) / (sin t * sin t).

Lemma LQ_derivative n m t : (1 <= n)%nat -> (m <= n)%nat -> 0 < t < pi -> derivable_pt_lim (LQ n m) t (LS n m t).
Proof.
  intros Hn Hm Ht. assert (0 < sin t) as Hs by (apply sin_gt_0; lra).
  set (g := (mult_real_fct (INR n) (cos * LP n m) - (if decide (m = n) then fct_cte 0 else mult_real_fct (kap n m) (LP (n - 1) m)))%F).
  assert (forall z, g z = sin z * LQ n m z) as Hg.
  { intros z. rewrite LQ_up by done. unfold g, minus_fct, mult_real_fct, mult_fct.
    destruct (decide (m = n)) as [->|]; [rewrite kap_diag; unfold fct_cte; ring|done]. }
  apply (derivable_pt_lim_locally_ext (g / sin)%F _ t 0 pi); [done| |].
  { intros z Hz. unfold div_fct. rewrite Hg. field. apply Rgt_not_eq, sin_gt_0; lra. }
  set (dk := if decide (m = n) then 0 else kap n m * LQ (n - 1) m t).
  assert (sin t * dk = (INR n * INR n - INR m * INR m) * LP n m t - INR n * cos t * (INR n * (cos t * LP n m t) - sin t * LQ n m t)) as Hdk.
  { rewrite LQ_up by done. unfold dk. destruct (decide (m = n)) as [->|Hne]; [rewrite kap_diag; ring|].
    rewrite <- (kap_sq n m) by lia. transitivity (kap n m * (sin t * LQ (n - 1) m t)); [ring|]. rewrite LQ_down by lia. ring. }
  assert (LS n m t = ((INR n * (- sin t * LP n m t + cos t * LQ n m t) - dk) * sin t - cos t * g t) / Rsqr (sin t)) as ->.
  { unfold LS, Rsqr. rewrite Hg. f_equal.
    replace ((INR n * (- sin t * LP n m t + cos t * LQ n m t) - dk) * sin t) with
      (INR n * sin t * (- sin t * LP n m t + cos t * LQ n m t) - sin t * dk) by ring.
    rewrite Hdk. pose proof (sc1 t) as E. replace (sin t * sin t) with (1 - cos t * cos t) by lra.
    replace (INR n * sin t * (- sin t * LP n m t + cos t * LQ n m t)) with
      (- INR n * (sin t * sin t) * LP n m t + INR n * sin t * cos t * LQ n m t) by ring.
    replace (sin t * sin t) with (1 - cos t * cos t) by lra. ring. }
  apply derivable_pt_lim_div; [|apply derivable_pt_lim_sin|lra].
  apply derivable_pt_lim_minus.
  - apply derivable_pt_lim_scal, (derivable_pt_lim_mult cos); [apply derivable_pt_lim_cos|by apply LP_derivative].
  - unfold dk. destruct (decide (m = n)); [apply derivable_pt_lim_const|]. apply derivable_pt_lim_scal, LP_derivative. lia.
Qed.

(** ** The potential *)
Fixpoint rsum {X} (f : X -> R) (l : list X) : R :=
  match l with [] => 0 | x :: l => f x + rsum f l end.

Lemma rsum_ext {X} (f g : X -> R) l : (forall x, x ∈ l -> f x = g x) -> rsum f l = rsum g l.
Proof.
  induction l as [|x l IH]; intros E; [done|]. cbn. rewrite (E x) by left. f_equal. apply IH. intros y Hy. apply E. by right.
Qed.
Lemma rsum_scal {X} (f : X -> R) k l : k * rsum f l = rsum (fun x => k * f x) l.
Proof. induction l as [|x l IH]; cbn; [ring|]. rewrite <- IH. ring. Qed.
Lemma rsum_plus {X} (f g : X -> R) l : rsum f l + rsum g l = rsum (fun x => f x + g x) l.
Proof. induction l as [|x l IH]; cbn; [ring|]. rewrite <- IH. ring. Qed.
Lemma rsum_zero {X} (f : X -> R) l : (forall x, x ∈ l -> f x = 0) -> rsum f l = 0.
Proof. intros E. rewrite (rsum_ext f (fun _ => 0) l E). clear E. induction l as [|x l IH]; cbn; [done|]. lra. Qed.
Lemma rsum_derivative {X} (f : X -> R -> R) (g : X -> R) l t :
  (forall x, x ∈ l -> derivable_pt_lim (f x) t (g x)) ->
  derivable_pt_lim (fun u => rsum (fun x => f x u) l) t (rsum g l).
Proof.
  induction l as [|x l IH]; intros E; cbn; [apply derivable_pt_lim_const|].
  apply (derivable_pt_lim_plus (f x) (fun u => rsum (fun x => f x u) l)); [apply E; left|apply IH; intros y Hy; apply E; by right].
Qed.

Lemma derivative_eq (f g : R -> R) x a b : (forall z, f z = g z) -> a = b -> derivable_pt_lim f x a -> derivable_pt_lim g x b.
Proof. intros E <-. by apply derivable_pt_lim_ext. Qed.
(** The same over pairs. *)
Lemma rsum_derivative2 {X Y} (f : X -> Y -> R -> R) (g : X -> Y -> R) l t :
  (forall x y, (x, y) ∈ l -> derivable_pt_lim (f x y) t (g x y)) ->
  derivable_pt_lim (fun u => rsum (fun '(x, y) => f x y u) l) t (rsum (fun '(x, y) => g x y) l).
Proof.
  intros E. apply (derivative_eq (fun u => rsum (fun p => f (fst p) (snd p) u) l) _ _ (rsum (fun p => g (fst p) (snd p)) l)).
  - intros z. apply rsum_ext. by intros [? ?].
  - apply rsum_ext. by intros [? ?].
  - apply (rsum_derivative (fun p => f (fst p) (snd p))). intros [x y]. apply E.
Qed.

Lemma elem_of_harmonics N n m : (n, m) ∈ harmonics N -> (1 <= n <= N)%nat /\ (m <= n)%nat.
Proof.
  unfold harmonics, orders. rewrite list_elem_of_In, in_concat. intros (l & (k & <- & Hk)%in_map_iff & (j & [= -> ->] & Hj)%in_map_iff).
  apply in_seq in Hk, Hj. lia.
Qed.

Definition ra : R := 63712 / 10.
Lemma ra_pos : 0 < ra. Proof. unfold ra. lra. Qed.

Section potential.
Variable cf : list R.
Variable N : nat.

(** The coefficients of a harmonic, and its dependence on the longitude and on
    the distance. *)
Definition g_coef (n m : nat) : R := default 0 (zlookup cf (if Nat.eqb m 0 then Z.of_nat (n * n) else coef_at n m)).
Definition h_coef (n m : nat) : R := default 0 (zlookup cf (coef_at n m + 1)%Z).
Definition amp (n m : nat) (l : R) : R := g_coef n m * cos (INR m * l) + h_coef n m * sin (INR m * l).
Definition damp (n m : nat) (l : R) : R := INR m * (h_coef n m * cos (INR m * l) - g_coef n m * sin (INR m * l)).
Definition rad (n : nat) (r : R) : R := ra * (ra / r) ^ (n + 1).
Definition drad (n : nat) (r : R) : R := - INR (n + 1) * (ra / r) ^ (n + 2).
Definition ddrad (n : nat) (r : R) : R := INR (n + 1) * INR (n + 2) * (ra / r) ^ (n + 3) / ra.

(** [a sum (a/r)^(n+1) (g cos ml + h sin ml) P(cos t)], and its partial
    derivatives. *)
Definition potential (r t l : R) : R := rsum (fun '(n, m) => rad n r * amp n m l * LP n m t) (harmonics N).
Definition potential_r (r t l : R) : R := rsum (fun '(n, m) => drad n r * amp n m l * LP n m t) (harmonics N).
Definition potential_t (r t l : R) : R := rsum (fun '(n, m) => rad n r * amp n m l * LQ n m t) (harmonics N).
Definition potential_l (r t l : R) : R := rsum (fun '(n, m) => rad n r * damp n m l * LP n m t) (harmonics N).
Definition potential_rr (r t l : R) : R := rsum (fun '(n, m) => ddrad n r * amp n m l * LP n m t) (harmonics N).
Definition potential_tt (r t l : R) : R := rsum (fun '(n, m) => rad n r * amp n m l * LS n m t) (harmonics N).
Definition potential_ll (r t l : R) : R :=
  rsum (fun '(n, m) => rad n r * (- (INR m * INR m) * amp n m l) * LP n m t) (harmonics N).

Lemma ratio_derivative k r : r <> 0 -> derivable_pt_lim (fun u => (ra / u) ^ k) r (- INR k * (ra / r) ^ (k + 1) / ra).
Proof.
  intros Hr. pose proof ra_pos.
  assert (derivable_pt_lim (fun u => ra / u) r (- ra / (r * r))) as Hd.
  { replace (- ra / (r * r)) with ((0 * r - 1 * ra) / Rsqr r) by (unfold Rsqr; field; lra).
    apply (derivable_pt_lim_div (fct_cte ra) id); [apply derivable_pt_lim_const|apply derivable_pt_lim_id|done]. }
  destruct k as [|k].
  { cbn. replace (- 0 * _ / ra) with 0 by (field; lra). apply derivable_pt_lim_const. }
  replace (- INR (S k) * (ra / r) ^ (S k + 1) / ra) with (INR (S k) * (ra / r) ^ (pred (S k)) * (- ra / (r * r))).
  - apply (derivable_pt_lim_comp (fun u => ra / u) (fun u => u ^ S k)); [done|apply derivable_pt_lim_pow].
  - cbn [pred]. rewrite Nat.add_1_r. cbn [pow]. field. lra.
Qed.

Lemma rad_derivative n r : r <> 0 -> derivable_pt_lim (rad n) r (drad n r).
Proof.
  intros Hr. pose proof ra_pos. unfold rad, drad.
  replace (- INR (n + 1) * (ra / r) ^ (n + 2)) with (ra * (- INR (n + 1) * (ra / r) ^ (n + 1 + 1) / ra)).
  - apply (derivable_pt_lim_scal (fun u => (ra / u) ^ (n + 1))). by apply ratio_derivative.
  - replace (n + 1 + 1)%nat with (n + 2)%nat by lia. field. lra.
Qed.
Lemma drad_derivative n r : r <> 0 -> derivable_pt_lim (drad n) r (ddrad n r).
Proof.
  intros Hr. pose proof ra_pos. unfold drad, ddrad.
  replace (INR (n + 1) * INR (n + 2) * (ra / r) ^ (n + 3) / ra) with (- INR (n + 1) * (- INR (n + 2) * (ra / r) ^ (n + 2 + 1) / ra)).
  - apply (derivable_pt_lim_scal (fun u => (ra / u) ^ (n + 2))). by apply ratio_derivative.
  - replace (n + 2 + 1)%nat with (n + 3)%nat by lia. field. lra.
Qed.

Lemma multiple_derivative (f f' : R -> R) k l : derivable_pt_lim f (k * l) (f' (k * l)) ->
  derivable_pt_lim (fun u => f (k * u)) l (f' (k * l) * k).
Proof.
  intros Hf. apply (derivable_pt_lim_comp (fun u => k * u) f); [|done].
  apply (derivative_eq (mult_real_fct k id) _ _ (k * 1)); [done|ring|apply derivable_pt_lim_scal, derivable_pt_lim_id].
Qed.
Lemma amp_derivative n m l : derivable_pt_lim (amp n m) l (damp n m l).
Proof.
  unfold damp. replace (INR m * _) with (g_coef n m * (- sin (INR m * l) * INR m) + h_coef n m * (cos (INR m * l) * INR m)) by ring.
  apply (derivable_pt_lim_plus (mult_real_fct (g_coef n m) (fun u => cos (INR m * u))) (mult_real_fct (h_coef n m) (fun u => sin (INR m * u)))).
  - apply derivable_pt_lim_scal, (multiple_derivative cos (fun x => - sin x)), derivable_pt_lim_cos.
  - apply derivable_pt_lim_scal, (multiple_derivative sin cos), derivable_pt_lim_sin.
Qed.
Lemma damp_derivative n m l : derivable_pt_lim (damp n m) l (- (INR m * INR m) * amp n m l).
Proof.
  unfold amp. replace (- (INR m * INR m) * _) with
    (INR m * (h_coef n m * (- sin (INR m * l) * INR m) - g_coef n m * (cos (INR m * l) * INR m))) by ring.
  apply (derivable_pt_lim_scal (mult_real_fct (h_coef n m) (fun u => cos (INR m * u)) - mult_real_fct (g_coef n m) (fun u => sin (INR m * u)))%F).
  apply derivable_pt_lim_minus.
  - apply derivable_pt_lim_scal, (multiple_derivative cos (fun x => - sin x)), derivable_pt_lim_cos.
  - apply derivable_pt_lim_scal, (multiple_derivative sin cos), derivable_pt_lim_sin.
Qed.

(** A sum of products differentiated in one factor. *)
Lemma scaled_derivative (f : R -> R) f' a b x : derivable_pt_lim f x f' -> derivable_pt_lim (fun u => a * f u * b) x (a * f' * b).
Proof.
  intros Hf. apply (derivable_pt_lim_ext (mult_real_fct (a * b) f)); [intros z; unfold mult_real_fct; ring|].
  replace (a * f' * b) with (a * b * f') by ring. by apply derivable_pt_lim_scal.
Qed.

Lemma potential_dr r t l : r <> 0 -> derivable_pt_lim (fun u => potential u t l) r (potential_r r t l).
Proof.
  intros. apply (rsum_derivative2 (fun n m u => rad n u * amp n m l * LP n m t)). intros n m [Hn Hm]%elem_of_harmonics.
  apply (derivative_eq (fun u => 1 * rad n u * (amp n m l * LP n m t)) _ _ (1 * drad n r * (amp n m l * LP n m t))); [intros ?; ring|ring|].
  apply scaled_derivative. by apply rad_derivative.
Qed.
Lemma potential_dt r t l : derivable_pt_lim (fun u => potential r u l) t (potential_t r t l).
Proof.
  intros. apply (rsum_derivative2 (fun n m u => rad n r * amp n m l * LP n m u)). intros n m [Hn Hm]%elem_of_harmonics.
  apply (derivative_eq (fun u => (rad n r * amp n m l) * LP n m u * 1) _ _ ((rad n r * amp n m l) * LQ n m t * 1)); [intros ?; ring|ring|].
  apply scaled_derivative. by apply LP_derivative.
Qed.
Lemma potential_dl r t l : derivable_pt_lim (fun u => potential r t u) l (potential_l r t l).
Proof.
  intros. apply (rsum_derivative2 (fun n m u => rad n r * amp n m u * LP n m t)). intros n m [Hn Hm]%elem_of_harmonics.
  apply (derivative_eq (fun u => rad n r * amp n m u * LP n m t) _ _ (rad n r * damp n m l * LP n m t)); [intros ?; ring|ring|].
  apply scaled_derivative. apply amp_derivative.
Qed.
Lemma potential_drr r t l : r <> 0 -> derivable_pt_lim (fun u => potential_r u t l) r (potential_rr r t l).
Proof.
  intros. apply (rsum_derivative2 (fun n m u => drad n u * amp n m l * LP n m t)). intros n m [Hn Hm]%elem_of_harmonics.
  apply (derivative_eq (fun u => 1 * drad n u * (amp n m l * LP n m t)) _ _ (1 * ddrad n r * (amp n m l * LP n m t))); [intros ?; ring|ring|].
  apply scaled_derivative. by apply drad_derivative.
Qed.
Lemma potential_dtt r t l : 0 < t < pi -> derivable_pt_lim (fun u => potential_t r u l) t (potential_tt r t l).
Proof.
  intros. apply (rsum_derivative2 (fun n m u => rad n r * amp n m l * LQ n m u)). intros n m [Hn Hm]%elem_of_harmonics.
  apply (derivative_eq (fun u => (rad n r * amp n m l) * LQ n m u * 1) _ _ ((rad n r * amp n m l) * LS n m t * 1)); [intros ?; ring|ring|].
  apply scaled_derivative. by apply LQ_derivative; [lia|..].
Qed.
Lemma potential_dll r t l : derivable_pt_lim (fun u => potential_l r t u) l (potential_ll r t l).
Proof.
  intros. apply (rsum_derivative2 (fun n m u => rad n r * damp n m u * LP n m t)). intros n m [Hn Hm]%elem_of_harmonics.
  apply (derivative_eq (fun u => rad n r * damp n m u * LP n m t) _ _ (rad n r * (fun u => - (INR m * INR m) * amp n m u) l * LP n m t)); [intros ?; ring|ring|].
  apply scaled_derivative. apply damp_derivative.
Qed.


(** The equation of Laplace in spherical coordinates, away from the axis. *)
Definition harmonic_at (V : R -> R -> R -> R) (r t l : R) : Prop :=
  exists (Vr Vt Vl : R -> R -> R -> R) (rr tt ll : R),
    (forall a b c, 0 < a -> derivable_pt_lim (fun u => V u b c) a (Vr a b c) /\
       derivable_pt_lim (fun u => V a u c) b (Vt a b c) /\ derivable_pt_lim (fun u => V a b u) c (Vl a b c)) /\
    derivable_pt_lim (fun u => Vr u t l) r rr /\ derivable_pt_lim (fun u => Vt r u l) t tt /\
    derivable_pt_lim (fun u => Vl r t u) l ll /\
    r * r * rr + 2 * r * Vr r t l + tt + cos t / sin t * Vt r t l + ll / (sin t * sin t) = 0.

(** The field that is the gradient of the potential has no sources outside of
    the Earth. *)
Lemma potential_harmonic r t l : 0 < r -> 0 < t < pi -> harmonic_at potential r t l.
Proof.
  intros Hr Ht. exists potential_r, potential_t, potential_l, (potential_rr r t l), (potential_tt r t l), (potential_ll r t l).
  split; [intros a b c Ha; split; [apply potential_dr; lra|split; [apply potential_dt|apply potential_dl]]|].
  split; [apply potential_drr; lra|]. split; [by apply potential_dtt|]. split; [apply potential_dll|].
  unfold Rdiv at 2. rewrite (Rmult_comm (potential_ll r t l)).
  unfold potential_rr, potential_r, potential_tt, potential_t, potential_ll. rewrite !rsum_scal, !rsum_plus.
  apply rsum_zero. intros [n m] [Hn Hm]%elem_of_harmonics. pose proof ra_pos. assert (0 < sin t) by (apply sin_gt_0; lra).
  unfold LS, rad, drad, ddrad. rewrite !plus_INR, !pow_add. cbn [INR pow]. field. lra.
Qed.
End potential.

(** ** The sums of [shval3] *)
Lemma multiple_angle l m : multiple (sin l) (cos l) m = (sin (INR m * l), cos (INR m * l)).
Proof.
  induction m as [|m IH]; [cbn; rewrite Rmult_0_l, sin_0, cos_0; unfold zero, one; cbn; f_equal; field|].
  destruct m as [|m]; [cbn; by rewrite Rmult_1_l|].
  rewrite multiple_S by lia. rewrite IH. cbn [fst snd]. lits.
  replace (INR (S (S m)) * l) with (INR (S m) * l + l) by (rewrite (S_INR (S m)); ring).
  by rewrite sin_plus, cos_plus.
Qed.

Lemma ratio_power r n : 0 < r -> npow (ndiv (earths_radius : R) r) (of_int (Z.of_nat n + 2)) = (ra / r) ^ (n + 2).
Proof.
  intros Hr. lits. replace (IZR (Z.of_nat n + 2) / 1) with (INR (n + 2)).
  - unfold earths_radius. cbn [nlit R_num]. fold ra. apply Rpower_pow. apply Rdiv_lt_0_compat; [apply ra_pos|done].
  - rewrite INR_IZR_INZ. replace (Z.of_nat (n + 2)) with (Z.of_nat n + 2)%Z by lia. field.
Qed.

Lemma nzero : (zero : R) = 0.
Proof. apply lit_zero. Qed.

(** One term, as numbers. *)
Lemma term_real cf r t l x y z n m : 0 < r -> 0 < sin t -> (1 <= n)%nat ->
  term cf (cos t) (sin t) (ndiv earths_radius r) (sin l) (cos l) (x, y, z) (n, m) =
    (x + rad n r * amp cf n m l * LQ n m t / r, y - rad n r * damp cf n m l * LP n m t / (r * sin t),
     z + drad n r * amp cf n m l * LP n m t).
Proof.
  intros Hr Ht Hn. unfold term. rewrite (surjective_pairing (leg (cos t) (sin t) n m)), leg_p, leg_q by done.
  rewrite ratio_power by done. rewrite multiple_angle.
  assert (0 < INR n) as Hn0 by (apply (lt_INR 0); lia). pose proof ra_pos.
  unfold rad, drad, amp, damp, g_coef, h_coef. replace (ra * (ra / r) ^ (n + 1)) with (r * (ra / r) ^ (n + 2)).
  2: { replace (n + 2)%nat with (S (n + 1)) by lia. cbn [pow]. field. lra. }
  rewrite plus_INR. cbn [INR]. rewrite !nzero. set (w := (ra / r) ^ (n + 2)).
  destruct (Nat.eqb_spec m 0) as [->|Hm].
  - cbn [INR]. rewrite Rmult_0_l, cos_0, sin_0. unfold nadd, nsub, nmul, R_num. f_equal; [f_equal|]; field; lra.
  - cbn [nltb R_num]. destruct (Rlt_dec 0 (sin t)); [|lra]. rewrite !num_INR. lits. f_equal; [f_equal|]; field; lra.
Qed.

Lemma synthesis_real cf r t l N : 0 < r -> 0 < sin t ->
  synthesis cf (cos t) (sin t) (ndiv earths_radius r) (sin l) (cos l) N =
    (potential_t cf N r t l / r, - potential_l cf N r t l / (r * sin t), potential_r cf N r t l).
Proof.
  intros Hr Ht. unfold synthesis, potential_t, potential_l, potential_r.
  assert (forall L x y z, (forall n m, (n, m) ∈ L -> (1 <= n)%nat) ->
    foldl (term cf (cos t) (sin t) (ndiv earths_radius r) (sin l) (cos l)) (x, y, z) L =
      (x + rsum (fun '(n, m) => rad n r * amp cf n m l * LQ n m t) L / r,
       y - rsum (fun '(n, m) => rad n r * damp cf n m l * LP n m t) L / (r * sin t),
       z + rsum (fun '(n, m) => drad n r * amp cf n m l * LP n m t) L)) as E.
  { induction L as [|[n m] L IH]; intros x y z HL.
    - cbn [foldl rsum]. f_equal; [f_equal|]; field; lra.
    - cbn [foldl rsum]. rewrite term_real by (done || (apply (HL n m); left)).
      rewrite IH by (intros n' m' Hx; apply (HL n' m'); by right). f_equal; [f_equal|]; field; lra. }
  rewrite E, !nzero by (intros n m [? ?]%elem_of_harmonics; lia). f_equal; [f_equal|]; field; lra.
Qed.

(** ** The place *)
Definition aa2 : R := 4068063159 / 100.
Definition bb2 : R := 4040829998 / 100.

(** Geodetic and geocentric coordinates: [t] is the angle to the axis. *)
Lemma geocentric_real elev s c : s * s + c * c = 1 -> 0 < c -> 0 <= elev ->
  let dd := sqrt (aa2 * (c * c) + bb2 * (s * s)) in
  exists t r, geocentric elev s c = (cos t, sin t, s * sin t - c * cos t, s * cos t + c * sin t, r) /\
    0 < t < pi /\ 0 < r /\ r * sin t = (aa2 / dd + elev) * c /\ r * cos t = (bb2 / dd + elev) * s.
Proof.
  intros Hsc Hc He dd. unfold geocentric, sq_semi_major, sq_semi_minor. lits. fold aa2 bb2.
  assert (0 < aa2 /\ 0 < bb2) as [Ha Hb] by (unfold aa2, bb2; lra).
  replace (aa2 * c * c) with (aa2 * (c * c)) by ring. replace (bb2 * s * s) with (bb2 * (s * s)) by ring. fold dd.
  assert (0 < aa2 * (c * c) + bb2 * (s * s)) as Hcc.
  { apply Rplus_lt_le_0_compat; [by apply Rmult_lt_0_compat; [|apply Rmult_lt_0_compat]|].
    apply Rmult_le_pos; [lra|apply Rle_0_sqr]. }
  assert (0 < dd) as Hdd by (by apply sqrt_lt_R0).
  assert (dd * dd = aa2 * (c * c) + bb2 * (s * s)) as Hd2 by (apply sqrt_sqrt; lra).
  rewrite <- Hd2. replace (2 / 1) with 2 by field.
  set (X := (aa2 / dd + elev) * c). set (Y := (bb2 / dd + elev) * s).
  assert (elev * (elev + 2 * dd) + (aa2 * (aa2 * (c * c)) + bb2 * (bb2 * (s * s))) / (dd * dd) = X * X + Y * Y) as ->.
  { assert (X * X + Y * Y = elev * elev * (s * s + c * c) + 2 * elev * ((aa2 * (c * c) + bb2 * (s * s)) / dd)
      + (aa2 * (aa2 * (c * c)) + bb2 * (bb2 * (s * s))) / (dd * dd)) as -> by (unfold X, Y; field; lra).
    rewrite <- Hd2, Hsc. field. lra. }
  assert (0 < X) as HX by (apply Rmult_lt_0_compat; [|done]; assert (0 < aa2 / dd) by (by apply Rdiv_lt_0_compat); lra).
  set (r := sqrt (X * X + Y * Y)). assert (0 < r) as Hr by (apply sqrt_lt_R0; nra).
  assert (r * r = X * X + Y * Y) as Hr2 by (apply sqrt_sqrt; nra).
  assert (-1 < Y / r < 1) as Hy.
  { assert (Rabs Y < r) as Hab.
    { apply Rsqr_incrst_0; [unfold Rsqr; rewrite <- Rabs_mult, Rabs_pos_eq by nra; nra|apply Rabs_pos|lra]. }
    apply Rabs_def2 in Hab as [? ?]. split; [apply (Rmult_lt_reg_r r)|apply (Rmult_lt_reg_r r)]; try done;
      unfold Rdiv; rewrite Rmult_assoc, Rinv_l by lra; lra. }
  exists (acos (Y / r)), r. rewrite cos_acos, sin_acos by lra.
  assert (sqrt (1 - (Y / r)²) = X / r) as Hs.
  { replace (1 - (Y / r)²) with ((X / r)²) by (unfold Rsqr; field_simplify_eq; [nra|lra]). apply sqrt_Rsqr.
    apply Rlt_le, Rdiv_lt_0_compat; lra. }
  rewrite Hs.
  pose proof (acos_bound_lt _ Hy) as Ht.
  split; [|split; [done|split; [done|split; field; lra]]].
  assert ((elev + dd) / r = s * (Y / r) + c * (X / r)) as Ecd.
  { transitivity ((elev * (s * s + c * c) + (aa2 * (c * c) + bb2 * (s * s)) / dd) / r); [|unfold X, Y; field; lra].
    rewrite Hsc, <- Hd2. field. lra. }
  assert ((aa2 - bb2) / dd * s * c / r = s * (X / r) - c * (Y / r)) as Esd by (unfold X, Y; field; lra).
  rewrite Ecd, Esd.
  assert (s * (s * (Y / r) + c * (X / r)) - c * (s * (X / r) - c * (Y / r)) = Y / r) as ->.
  { transitivity ((s * s + c * c) * (Y / r)); [ring|rewrite Hsc; ring]. }
  assert (c * (s * (Y / r) + c * (X / r)) + s * (s * (X / r) - c * (Y / r)) = X / r) as ->.
  { transitivity ((s * s + c * c) * (X / r)); [ring|rewrite Hsc; ring]. }
  reflexivity.
Qed.

Definition rdtr : R := 1745329 / 100000000.
Lemma dtr_eq : (dtr : R) = rdtr.
Proof. reflexivity. Qed.

Lemma off_pole_real flat : Rabs flat <= 89999 / 1000 -> off_pole flat = flat.
Proof.
  intros Hf. unfold off_pole. cbn [nltb nsub nadd nlit R_num]. change (10 ^ 3)%Z with 1000%Z.
  pose proof (Rle_abs flat). pose proof (Rle_abs (- flat)) as H2. rewrite Rabs_Ropp in H2.
  destruct (Rlt_dec _ _); [exfalso; lra|]. destruct (Rlt_dec _ _); [exfalso; lra|done].
Qed.

Lemma station_real flat elev : Rabs flat <= 89999 / 1000 ->
  station 1 flat elev = geocentric elev (sin (flat * rdtr)) (cos (flat * rdtr)).
Proof. intros Hf. unfold station. rewrite off_pole_real by done. reflexivity. Qed.

(** The field at a place away from the poles: the gradient of the potential
    at the geocentric coordinates, turned to the geodetic vertical. *)
Lemma model_field_real cf flat flon elev N :
  Rabs flat <= 89999 / 1000 -> 0 < cos (flat * rdtr) -> 0 <= elev ->
  let phi := flat * rdtr in let l := flon * rdtr in
  let dd := sqrt (aa2 * (cos phi * cos phi) + bb2 * (sin phi * sin phi)) in
  exists r t, 0 < r /\ 0 < t < pi /\ r * sin t = (aa2 / dd + elev) * cos phi /\ r * cos t = (bb2 / dd + elev) * sin phi /\
    station 1 flat elev = (cos t, sin t, sin phi * sin t - cos phi * cos t, sin phi * cos t + cos phi * sin t, r) /\
    forall e1 e2 e3, model_field cf 1 flat flon elev N 0 e1 e2 e3 =
    (let X := potential_t cf N r t l / r in
     let Y := - potential_l cf N r t l / (r * sin t) in
     let Z := potential_r cf N r t l in
     let cd := sin phi * cos t + cos phi * sin t in
     let sd := sin phi * sin t - cos phi * cos t in
     (X * cd + Z * sd, Y, Z * cd - X * sd)).
Proof.
  intros Hf Hc He phi l dd.
  destruct (geocentric_real elev (sin phi) (cos phi) (sc1 phi) Hc He) as (t & r & E & Ht & Hr & Hx & Hy).
  exists r, t. split; [done|split; [done|split; [done|split; [done|]]]].
  rewrite station_real by done. split; [exact E|]. intros e1 e2 e3. unfold model_field. rewrite station_real by done. fold phi. rewrite E.
  unfold external. cbn [Z.eqb]. change (nsin (nmul flon (dtr : R))) with (sin l). change (ncos (nmul flon (dtr : R))) with (cos l).
  rewrite synthesis_real by (done || (apply sin_gt_0; lra)). reflexivity.
Qed.

(** C27. Away from the geographic poles, what [shval3] leaves in the variables
    of the field is the gradient of a potential that satisfies the equation of
    Laplace, taken at the point with the given geodetic coordinates (height
    over the WGS84 ellipsoid) and turned to the geodetic north and vertical:
    the arrays of the recursion hold the associated Legendre functions and
    their derivatives. *)
Theorem shval3_gradient flat flon elev nmax gh c s :
  slot_of gh = Some c -> zlength (coeffs c s) = MAXCOEFF -> (0 <= nmax <= MAXDEG)%Z ->
  Rabs flat <= 89999 / 1000 -> 0 < cos (flat * rdtr) -> 0 <= elev ->
  let phi := flat * rdtr in let l := flon * rdtr in
  let V := potential (coeffs c s) (Z.to_nat nmax) in
  let dd := sqrt (aa2 * (cos phi * cos phi) + bb2 * (sin phi * sin phi)) in
  exists s' r t Vr Vt Vl, shval3 1 flat flon elev nmax gh 0 zero zero zero s = Ret (0%Z, s') /\
    0 < r /\ 0 < t < pi /\ r * sin t = (aa2 / dd + elev) * cos phi /\ r * cos t = (bb2 / dd + elev) * sin phi /\
    derivable_pt_lim (fun u => V u t l) r Vr /\ derivable_pt_lim (fun u => V r u l) t Vt /\ derivable_pt_lim (fun u => V r t u) l Vl /\
    (let X := Vt / r in let Y := - Vl / (r * sin t) in let Z := Vr in
     let cd := sin phi * cos t + cos phi * sin t in let sd := sin phi * sin t - cos phi * cos t in
     xyz c s' = (X * cd + Z * sd, Y, Z * cd - X * sd)) /\
    (forall r t l, 0 < r -> 0 < t < pi -> harmonic_at V r t l).
Proof.
  intros Hg Hl Hn Hf Hc He phi l V dd.
  destruct (model_field_real (coeffs c s) flat flon elev (Z.to_nat nmax) Hf Hc He) as (r & t & Hr & Ht & Hx & Hy & Est & Em).
  eexists _, r, t, _, _, _. split; [by apply (shval3_ok' 1 flat flon elev nmax gh c 0)|].
  split; [done|split; [done|split; [done|split; [done|]]]].
  split; [apply potential_dr; lra|]. split; [apply potential_dt|]. split; [apply potential_dl|].
  split; [cbv zeta; rewrite xyz_colat, xyz_put; apply Em|apply potential_harmonic].
Qed.

(** ** The angles *)
Lemma atan2_polar y x : x * x + y * y <> 0 ->
  let rho := sqrt (x * x + y * y) in rho * cos (R_atan2 y x) = x /\ rho * sin (R_atan2 y x) = y.
Proof.
  intros Hn rho. assert (0 < x * x + y * y) as Hp by (pose proof (Rle_0_sqr x); pose proof (Rle_0_sqr y); unfold Rsqr in *; lra).
  assert (0 < rho) as Hr by (by apply sqrt_lt_R0). assert (rho * rho = x * x + y * y) as Hr2 by (apply sqrt_sqrt; lra).
  assert (forall k, 0 < k -> (k = x \/ k = - x) -> sqrt (1 + (y / x)²) = rho / k) as Hs.
  { intros k Hk Hkx. assert (k * k = x * x) as Hkk by (destruct Hkx as [->| ->]; ring). assert (x <> 0) by (destruct Hkx; lra).
    replace (1 + (y / x)²) with ((rho / k)²); [apply sqrt_Rsqr; apply Rlt_le; by apply Rdiv_lt_0_compat|].
    unfold Rsqr. replace (rho / k * (rho / k)) with (rho * rho / (k * k)) by (field; lra). rewrite Hkk, Hr2. by field. }
  assert (forall a b, a - b = a + - b) as Hm by (intros; ring).
  unfold R_atan2. destruct (Rlt_dec 0 x) as [Hx|Hx]; [|destruct (Rlt_dec x 0) as [Hx'|Hx']].
  - rewrite cos_atan, sin_atan, (Hs x) by auto. split; field; lra.
  - assert (cos (atan (y / x)) = - x / rho /\ sin (atan (y / x)) = - y / rho) as [Ec Es].
    { rewrite cos_atan, sin_atan, (Hs (- x)) by (lra || auto). split; field; lra. }
    destruct (Rlt_dec y 0).
    + rewrite <- (cos_period _ 1), <- (sin_period _ 1). replace (atan (y / x) - pi + 2 * INR 1 * pi) with (atan (y / x) + pi) by (cbn; ring).
      rewrite neg_cos, neg_sin, Ec, Es. split; field; lra.
    + rewrite neg_cos, neg_sin, Ec, Es. split; field; lra.
  - assert (x = 0) as -> by lra. assert (rho = Rabs y) as -> by (unfold rho; rewrite Rmult_0_l, Rplus_0_l; apply sqrt_Rsqr_abs).
    destruct (Rlt_dec 0 y); [rewrite cos_PI2, sin_PI2, Rabs_right by lra; lra|].
    destruct (Rlt_dec y 0); [rewrite cos_neg, sin_neg, cos_PI2, sin_PI2, Rabs_left by lra; lra|]. exfalso. apply Hn. nra.
Qed.

(** Twice the angle of [(h + x, y)] is the angle of [(x, y)]. *)
Lemma half_angle x y : let h := sqrt (x * x + y * y) in 0 < h -> 0 < h + x ->
  x = h * cos (2 * R_atan2 y (h + x)) /\ y = h * sin (2 * R_atan2 y (h + x)).
Proof.
  intros h Hh Hx. assert (h * h = x * x + y * y) as Hh2 by (apply sqrt_sqrt, Rplus_le_le_0_compat; apply Rle_0_sqr).
  destruct (atan2_polar y (h + x)) as [Ec Es]; [pose proof (Rle_0_sqr y); unfold Rsqr in *; nra|]. set (a := R_atan2 y (h + x)) in *.
  set (rho := sqrt ((h + x) * (h + x) + y * y)) in *. assert (rho * rho = 2 * h * (h + x)) as Hr.
  { unfold rho. rewrite sqrt_sqrt by (apply Rplus_le_le_0_compat; apply Rle_0_sqr).
    transitivity (h * h + 2 * h * x + (x * x + y * y)); [ring|rewrite <- Hh2; ring]. }
  assert (0 < h * (h + x)) by nra.
  rewrite cos_2a, sin_2a. split; apply (Rmult_eq_reg_l (2 * (h + x))); try lra.
  - transitivity (rho * cos a * (rho * cos a) - rho * sin a * (rho * sin a)); [rewrite Ec, Es; nra|].
    transitivity (rho * rho * (cos a * cos a - sin a * sin a)); [ring|rewrite Hr; ring].
  - transitivity (2 * (rho * sin a) * (rho * cos a)); [rewrite Ec, Es; ring|].
    transitivity (rho * rho * (2 * sin a * cos a)); [ring|rewrite Hr; ring].
Qed.

(** [dihf] leaves the field as it is and stores its horizontal and total
    intensity, the declination and the inclination: the horizontal components
    are those of a vector of length [h] in the direction [d] from the north,
    and the vertical one and [h] those of a vector of length [f] at the angle
    [i] below the horizon, unless the horizontal field is too small or points
    south. *)
Theorem dihf_angles gh c s x y z :
  slot_of gh = Some c -> xyz c s = (x, y, z) ->
  1 / 10000 <= sqrt (x * x + y * y) -> 1 / 10000 <= sqrt (x * x + y * y) + x ->
  exists s', dihf gh s = Ret (gh, s') /\ xyz c s' = (x, y, z) /\
    (let w := fieldv c s' in
     f_h w = sqrt (x * x + y * y) /\ f_f w = sqrt (x * x + y * y + z * z) /\
     x = f_h w * cos (f_d w) /\ y = f_h w * sin (f_d w) /\ f_h w = f_f w * cos (f_i w) /\ z = f_f w * sin (f_i w)).
Proof.
  intros Hg Hxyz Hh Hx. injection Hxyz as Ex Ey Ez. unfold dihf. rewrite Hg. munfold. cbn beta iota zeta.
  rewrite Ex, Ey, Ez. cbn [nmul nadd nsqrt nltb nlit natan2 R_num R_transcendental]. change (10 ^ 4)%Z with 10000%Z.
  set (h := sqrt (x * x + y * y)) in *. assert (h * h = x * x + y * y) as Hh2 by (apply sqrt_sqrt; nra).
  set (f := sqrt (x * x + y * y + z * z)).
  assert (h <= f) as Hf by (apply sqrt_le_1; nra).
  assert (f = sqrt (h * h + z * z)) as Hfh by (unfold f; by rewrite Hh2).
  destruct (Rlt_dec f _); [exfalso; lra|]. destruct (Rlt_dec h _); [exfalso; lra|]. destruct (Rlt_dec (h + x) _); [exfalso; lra|].
  destruct (half_angle x y) as [E1 E2]; [fold h; lra|fold h; lra|]. fold h in E1, E2.
  destruct (atan2_polar z h) as [E3 E4]; [nra|]. rewrite <- Hfh in E3, E4.
  assert ((two : R) = 2) as -> by apply lit_two.
  eexists. split; [reflexivity|]. destruct c; cbn; rewrite ?Ex, ?Ey, ?Ez; (split; [done|]); by repeat split.
Qed.

(** ** The rotation to inertial axes *)

(** The field keeps its strength in inertial axes, where east, north and
    down at the colatitude and the right ascension of the place become the
    directions they are; the code's value of 180 degrees is that of its
    literal. *)
Theorem mag_to_eci lonrad thetarad gmst v :
  let t := thetarad + (pi - 180 * DEG2RAD) in
  let L := lonrad + gmst in
  vnorm2 (TransMagaxisToECI v lonrad thetarad gmst) = vnorm2 v /\
  TransMagaxisToECI (Vec 1 0 0) lonrad thetarad gmst = Vec (- cos t * cos L) (- cos t * sin L) (sin t) /\
  TransMagaxisToECI (Vec 0 1 0) lonrad thetarad gmst = Vec (- sin L) (cos L) 0 /\
  TransMagaxisToECI (Vec 0 0 1) lonrad thetarad gmst = Vec (- (sin t * cos L)) (- (sin t * sin L)) (- cos t).
Proof.
  intros t L.
  assert (nmul (nlit (-1) 1) (nsub (nmul (nlit 180 1) (DEG2RAD : R)) thetarad) = t - pi) as E by (unfold t; lits; field).
  assert (cos (t - pi) = - cos t /\ sin (t - pi) = - sin t) as [Ec Es].
  { split; [rewrite cos_minus|rewrite sin_minus]; rewrite cos_PI, sin_PI; ring. }
  unfold TransMagaxisToECI. cbv zeta. rewrite E. unfold RotationY, RotationZ. cbn [v0 v1 v2 nadd nsub nmul nopp nsin ncos R_num].
  rewrite Ec, Es. unfold L. rewrite (cos_plus lonrad), (sin_plus lonrad). split; [|split; [|split]].
  - unfold vnorm2. cbn [v0 v1 v2]. pose proof (sc1 t) as H1. pose proof (sc1 lonrad) as H2. pose proof (sc1 gmst) as H3.
    set (a := - cos t * v0 v + - sin t * v2 v). set (b := - - sin t * v0 v + - cos t * v2 v).
    assert (a * a + b * b = v0 v * v0 v + v2 v * v2 v) as Hab.
    { transitivity ((sin t * sin t + cos t * cos t) * (v0 v * v0 v + v2 v * v2 v)); [unfold a, b; ring|rewrite H1; ring]. }
    transitivity ((sin gmst * sin gmst + cos gmst * cos gmst) * ((sin lonrad * sin lonrad + cos lonrad * cos lonrad) * (a * a + v1 v * v1 v)) + b * b); [ring|].
    rewrite H2, H3. lra.
  - f_equal; ring.
  - f_equal; ring.
  - f_equal; ring.
Qed.

(** ** The yearly change *)
Definition coef (cf : list R) (i : Z) : R := default 0 (zlookup cf i).

Lemma coef_index N n m : (n, m) ∈ harmonics N ->
  (1 <= (if Nat.eqb m 0 then Z.of_nat (n * n) else coef_at n m) <= Z.of_nat N * (Z.of_nat N + 2))%Z /\
  (1 <= coef_at n m + 1 <= Z.of_nat N * (Z.of_nat N + 2))%Z.
Proof.
  intros [Hn Hm]%elem_of_harmonics. unfold coef_at. destruct (Nat.eqb_spec m 0) as [->|Hm0]; split; nia.
Qed.

Lemma potential_sum cf cf1 cf2 N r t l :
  (forall i, (1 <= i <= Z.of_nat N * (Z.of_nat N + 2))%Z -> coef cf i = coef cf1 i + coef cf2 i) ->
  potential_r cf N r t l = potential_r cf1 N r t l + potential_r cf2 N r t l /\
  potential_t cf N r t l = potential_t cf1 N r t l + potential_t cf2 N r t l /\
  potential_l cf N r t l = potential_l cf1 N r t l + potential_l cf2 N r t l.
Proof.
  intros Hi.
  assert (forall n m, (n, m) ∈ harmonics N -> g_coef cf n m = g_coef cf1 n m + g_coef cf2 n m /\ h_coef cf n m = h_coef cf1 n m + h_coef cf2 n m) as E.
  { intros n m Hx. destruct (coef_index N n m Hx) as [? ?]. split; by apply Hi. }
  unfold potential_r, potential_t, potential_l. rewrite !rsum_plus.
  split; [|split]; apply rsum_ext; intros [n m] Hx; destruct (E n m Hx) as [Eg Eh]; unfold amp, damp; rewrite Eg, Eh; ring.
Qed.

(** The field is linear in the coefficients, so the change of each
    component that [calc_mag_coords] finds by computing the field a second
    time, a year later, is the field of the yearly changes of the
    coefficients. *)
Theorem secular_field m s flat flon elev :
  sized s -> (0 <= m_max1 m <= MAXDEG)%Z -> (0 < m_max2 m <= m_max1 m)%Z ->
  Rabs flat <= 89999 / 1000 -> 0 < cos (flat * rdtr) -> 0 <= elev ->
  let N := Z.to_nat (m_max1 m) in
  let changes := map (fun i => if Z.leb i (m_max2 m * (m_max2 m + 2)) then c2_at s i else 0) (range MAXCOEFF) in
  exists s', coeffs_at_date m s = Ret (tt, s') /\
    (let '(x, y, z) := model_field (gha (tabs s')) 1 flat flon elev N 0 0 0 0 in
     let '(dx, dy, dz) := model_field changes 1 flat flon elev N 0 0 0 0 in
     model_field (ghb (tabs s')) 1 flat flon elev N 0 0 0 0 = (x + dx, y + dy, z + dz)).
Proof.
  intros Hs Hm1 Hm2 Hf Hc He N changes.
  destruct (coeffs_at_date_ok m s Hs Hm1 ltac:(lia)) as (la & lb & E & Hla & Hlb & Hco). eexists. split; [exact E|].
  change (gha (tabs (set_nmax ?n (set_coeffs Temp lb (set_coeffs Now la s))))) with la.
  change (ghb (tabs (set_nmax ?n (set_coeffs Temp lb (set_coeffs Now la s))))) with lb.
  destruct (model_field_real la flat flon elev N Hf Hc He) as (r & t & Hr & Ht & _ & _ & Est & ->).
  destruct (model_field_real changes flat flon elev N Hf Hc He) as (r1 & t1 & _ & Ht1 & _ & _ & Est1 & ->).
  destruct (model_field_real lb flat flon elev N Hf Hc He) as (r2 & t2 & _ & Ht2 & _ & _ & Est2 & ->).
  assert (forall t' r', 0 < t' < pi -> station 1 flat elev = (cos t', sin t', sin (flat * rdtr) * sin t' - cos (flat * rdtr) * cos t',
    sin (flat * rdtr) * cos t' + cos (flat * rdtr) * sin t', r') -> t' = t /\ r' = r) as Hu.
  { intros t' r' Ht' E'. rewrite Est in E'. injection E' as Ec _ _ _ ->. split; [|done].
    rewrite <- (acos_cos t), <- (acos_cos t') by lra. by rewrite Ec. }
  destruct (Hu t1 r1 Ht1 Est1) as [-> ->]. destruct (Hu t2 r2 Ht2 Est2) as [-> ->].
  assert (0 < sin t) as Hst by (apply sin_gt_0; lra).
  destruct (potential_sum lb la changes N r t (flon * rdtr)) as (-> & -> & ->).
  2: { cbv zeta. f_equal; [f_equal|]; field; lra. }
  intros i Hi. unfold coef. rewrite Z.max_l in Hco by lia.
  assert (Z.of_nat N * (Z.of_nat N + 2) = m_max1 m * (m_max1 m + 2))%Z as EN by (unfold N; by rewrite Z2Nat.id by lia).
  rewrite EN in Hi. assert (i < MAXCOEFF)%Z as Hlt by (unfold MAXCOEFF, MAXDEG in *; nia).
  assert (zlookup changes i = Some (if Z.leb i (m_max2 m * (m_max2 m + 2)) then c2_at s i else 0)) as ->.
  { unfold changes, zlookup. replace (i <? 0)%Z with false by (symmetry; apply Z.ltb_ge; lia).
    change (map ?f ?l) with (f <$> l). rewrite list_lookup_fmap. unfold range. rewrite lookup_seqZ_lt by lia. cbn [fmap option_fmap option_map].
    by replace (0 + Z.of_nat (Z.to_nat i))%Z with i by lia. }
  destruct (Hco i Hi) as [-> ->]. cbn [default from_option]. unfold blend. rewrite Z.min_r by lia.
  destruct (Z.leb_spec i (m_max2 m * (m_max2 m + 2))).
  - cbn [nadd nsub nmul R_num]. unfold Datatypes.id. rewrite lit_one. ring.
  - replace (m_max2 m <? m_max1 m)%Z with true by (symmetry; apply Z.ltb_lt; nia). unfold Datatypes.id. ring.
Qed.

(** From the place and the date to inertial axes: away from the poles
    [IgrfCalc] returns a vector whose strength is that of the gradient of the
    potential, at the geocentric position of the place. *)
Theorem igrf_calc_strength (decyear latrad lonrad altm side : R) s :
  sized s -> first_flg (mfile s) = false ->
  let flat := latrad * RAD2DEG in let phi := flat * rdtr in let l := lonrad * RAD2DEG * rdtr in
  let elev := altm * (1 / 1000) in
  Rabs flat < 89999 / 1000 -> 0 < cos phi -> 0 <= elev ->
  let dd := sqrt (aa2 * (cos phi * cos phi) + bb2 * (sin phi * sin phi)) in
  exists cf v s' r t Vr Vt Vl, IgrfCalc decyear latrad lonrad altm side s = Ret (inr v, s') /\ sized s' /\
    (forall i, (1 <= i < MAXCOEFF)%Z ->
       zlookup cf i = Some (if Z.leb i 80 then c1_at s i + (decyear - 2020) * c2_at s i else c1_at s i)) /\
    0 < r /\ 0 < t < pi /\ r * sin t = (aa2 / dd + elev) * cos phi /\ r * cos t = (bb2 / dd + elev) * sin phi /\
    cos (gccolat (rslt s')) = cos t /\ sin (gccolat (rslt s')) = sin t /\
    derivable_pt_lim (fun u => potential cf 13 u t l) r Vr /\
    derivable_pt_lim (fun u => potential cf 13 r u l) t Vt /\
    derivable_pt_lim (fun u => potential cf 13 r t u) l Vl /\
    vnorm2 v = (Vt / r) * (Vt / r) + (Vl / (r * sin t)) * (Vl / (r * sin t)) + Vr * Vr.
Proof.
  intros Hs Hf flat phi l elev Hlat Hc He dd.
  destruct (igrf_calc_eq decyear latrad lonrad altm side s Hs Hf) as (cf & s' & x & y & z & E & Ef & Hcf & Hcol & Hs' & _).
  change (nmul latrad (RAD2DEG : R)) with flat in *. change (nmul altm (nlit 1 1000 : R)) with elev in *.
  change (nmul lonrad (RAD2DEG : R)) with (lonrad * RAD2DEG) in *.
  destruct (model_field_real cf flat (lonrad * RAD2DEG) elev 13 ltac:(lra) Hc He) as (r & t & Hr & Ht & Hx & Hy & Est & Em).
  fold phi dd l in Hx, Hy, Est, Em. rewrite (Em zero zero zero) in Ef. rewrite Est in Hcol. cbn [natan2 R_transcendental] in Hcol.
  assert (polar flat = false) as Hp.
  { unfold polar. cbn [nleb nsub nlit R_num]. rewrite nabs_eq. destruct (Rle_dec _ _); [exfalso; lra|done]. }
  rewrite Hp in E. assert (0 < sin t) as Hst by (apply sin_gt_0; lra).
  destruct (atan2_polar (sin t) (cos t)) as [Ec Es]; [pose proof (sc1 t); lra|].
  rewrite (Rplus_comm (cos t * cos t)), sc1, sqrt_1, !Rmult_1_l in Ec, Es. rewrite <- Hcol in Ec, Es.
  eexists cf, _, s', r, t, _, _, _. split; [exact E|]. split; [done|].
  split. { intros i Hi. rewrite (Hcf i Hi). cbn [nadd nsub nmul nlit R_num]. by replace (2020 / 1) with 2020 by field. }
  split; [done|split; [done|split; [done|split; [done|split; [done|split; [done|]]]]]].
  split; [apply potential_dr; lra|]. split; [apply potential_dt|]. split; [apply potential_dl|].
  destruct (mag_to_eci lonrad (gccolat (rslt s')) side (Vec x y z)) as [-> _]. injection Ef as -> -> ->.
  unfold vnorm2. cbn [v0 v1 v2]. set (cd := sin phi * cos t + cos phi * sin t). set (sd := sin phi * sin t - cos phi * cos t).
  assert (cd * cd + sd * sd = 1) as Hcs.
  { transitivity ((sin phi * sin phi + cos phi * cos phi) * (sin t * sin t + cos t * cos t)); [unfold cd, sd; ring|].
    by rewrite !sc1, Rmult_1_l. }
  set (X := potential_t cf 13 r t l / r). set (Z := potential_r cf 13 r t l).
  transitivity ((cd * cd + sd * sd) * (X * X + Z * Z) + (potential_l cf 13 r t l / (r * sin t)) * (potential_l cf 13 r t l / (r * sin t)));
    [field; lra|]. rewrite Hcs. ring.
Qed.

(** ** The properties at concrete states *)
Definition st0 : igrf (K := R) := igrf_init (fun _ => None).
Lemma st0_sized : sized st0.
Proof. apply igrf_init_sized. Qed.

Lemma zero_place : Rabs 0 <= 89999 / 1000 /\ 0 < cos (0 * rdtr).
Proof. rewrite Rabs_R0, Rmult_0_l, cos_0. lra. Qed.

Lemma igrf_calc_strength_witness : exists v s', IgrfCalc 2021 0 0 505000 0 st0 = Ret (inr v, s') /\ 0 <= vnorm2 v.
Proof.
  assert (0 * RAD2DEG = 0) as Ez by ring. destruct zero_place as [Hz1 Hz2].
  destruct (igrf_calc_strength 2021 0 0 505000 0 st0 st0_sized eq_refl) as (cf & v & s' & r & t & Vr & Vt & Vl & E & _).
  - rewrite Ez, Rabs_R0. lra.
  - rewrite Ez. exact Hz2.
  - lra.
  - exists v, s'. split; [exact E|apply vnorm2_nonneg].
Defined.

Lemma shval3_gradient_witness : exists s' r t, shval3 1 0 0 505 13 3 0 zero zero zero st0 = Ret (0%Z, s') /\ 0 < r /\ r * cos t = 0.
Proof.
  destruct zero_place as [Hz1 Hz2].
  destruct (shval3_gradient 0 0 505 13 3 Now st0 eq_refl (sized_gha _ st0_sized) ltac:(done) Hz1 Hz2 ltac:(lra))
    as (s' & r & t & Vr & Vt & Vl & E & Hr & _ & _ & Hy & _).
  exists s', r, t. split; [exact E|]. split; [exact Hr|]. rewrite Hy, Rmult_0_l, sin_0. ring.
Defined.

Definition st_345 : igrf (K := R) := put_xyz Now (3, 4, 12) st0.
Lemma dihf_angles_witness : exists s', dihf 3 st_345 = Ret (3%Z, s') /\ f_h (now (rslt s')) = 5.
Proof.
  assert (sqrt (3 * 3 + 4 * 4) = 5) as E5 by (replace (3 * 3 + 4 * 4) with (5 * 5) by ring; apply sqrt_square; lra).
  destruct (dihf_angles 3 Now st_345 3 4 12 eq_refl (xyz_put Now (3, 4, 12) st0)) as (s' & E & _ & H & _).
  - rewrite E5. lra.
  - rewrite E5. lra.
  - exists s'. split; [exact E|]. by rewrite <- E5.
Defined.

Lemma secular_field_witness : exists s' x y z dx dy dz, coeffs_at_date (igrf13_header zero_header) st0 = Ret (tt, s') /\
  model_field (gha (tabs s')) 1 0 0 505 13 0 0 0 0 = (x, y, z) /\
  model_field (ghb (tabs s')) 1 0 0 505 13 0 0 0 0 = (x + dx, y + dy, z + dz).
Proof.
  destruct zero_place as [Hz1 Hz2].
  destruct (secular_field (igrf13_header zero_header) st0 0 0 505 st0_sized ltac:(done) ltac:(done) Hz1 Hz2 ltac:(lra))
    as (s' & E & F). change (Z.to_nat (m_max1 (igrf13_header zero_header))) with 13%nat in F.
  destruct (model_field (gha (tabs s')) 1 0 0 505 13 0 0 0 0) as [[x y] z] eqn:E1.
  destruct (model_field (map _ _) 1 0 0 505 13 0 0 0 0) as [[dx dy] dz].
  exists s', x, y, z, dx, dy, dz. split; [exact E|]. split; [exact E1|exact F].
Defined.

Definition header_line : cstring := repeat 32%Z 81.
Lemma read_model_thirty_first_witness :
  strlen header_line = RECL /\ read_model_line (header_line, 81%Z) (set_modelI 29 st0) = Fault OutOfBounds.
Proof.
  split; [reflexivity|].
  apply (read_model_thirty_first header_line 81 (set_modelI 29 st0)); [split; vm_compute; reflexivity|reflexivity|reflexivity|reflexivity].
Defined.
End IgrfReal.
