(* ===== verification/Geodetic.v ===== *)
(** * From inertial to geographic coordinates

    [eci_to_geo] of [apps/suchai/src/taskADCS.c]: the loop that solves for the
    geodetic latitude, over any arithmetic, and over the real numbers the proof
    that it ends and what it computes.  The sidereal time [gstime] and the
    constants [pi] and [twopi] belong to a library that is not in the
    repository. *)
From Stdlib Require Import Reals Lra.
From S2P Require Import Prelude CStr MathUtils MathLoops MathReal Adcs AdcsReal Igrf IgrfLaws IgrfReal.

Module Geodetic.
Import MathUtils Adcs.

Section geo.
Context {K : Type} `{Num K} `{Double K} `{Transcendental K}.
Local Open Scope num_scope.
Variables pi twopi : K.
Variable gstime : K -> K.

Definition radiusearthkm : K := nlit 6378137 1000.
Definition flattening : K := one / nlit 298257223563 (10 ^ 9).
Definition e2 : K := flattening * (two - flattening).

(** One turn of the loop: [c] and the new latitude. *)
Definition geo_turn (z r phi : K) : K * K :=
  let c := one / nsqrt (one - e2 * nsin phi * nsin phi) in
  (c, natan2 (z + radiusearthkm * c * e2 * nsin phi * nlit 1000 1) r).

(** [do ... while]: at least one turn, then more while the latitude moves by
    [1E-10] or more.  [None] when [fuel] turns are not enough. *)
Fixpoint geo_loop (fuel : nat) (z r lat_rad_ : K) : option (K * K) :=
  match fuel with
  | O => None
  | Datatypes.S fuel =>
      let phi := lat_rad_ in
      let '(c, lat_rad_) := geo_turn z r phi in
      if nleb (nlit 1 (10 ^ 10)) (nabs (lat_rad_ - phi)) then geo_loop fuel z r lat_rad_
      else Some (c, lat_rad_)
  end.

(** Latitude, longitude and altitude.  The function has no return statement. *)
Definition eci_to_geo {T} (fuel : nat) (sat_pos : vector3 K) (current_jd : K) : M T (option (vector3 K)) :=
  let current_side := gstime current_jd in
  let theta := natan2 (v1 sat_pos) (v0 sat_pos) in
  let! lon_rad_ := fmod2p twopi (theta - current_side) in
  let r := nsqrt (v0 sat_pos * v0 sat_pos + v1 sat_pos * v1 sat_pos) in
  let lat_rad_ := natan2 (v2 sat_pos) r in
  ret match geo_loop fuel (v2 sat_pos) r lat_rad_ with
      | None => None
      | Some (c, lat_rad_) =>
          let alt_m_ := r / ncos lat_rad_ - radiusearthkm * c * nlit 1000 1 in
          let lat_rad_ := if nltb (pi / two) lat_rad_ then lat_rad_ - twopi else lat_rad_ in
          Some (Vec lat_rad_ lon_rad_ alt_m_)
      end.
End geo.
End Geodetic.

Module GeodeticReal.
Import MathUtils MathReal Adcs AdcsReal IgrfReal Geodetic.
Local Open Scope R_scope.
Local Abbreviation PI := Rtrigo1.PI.

(** ** The constants, in metres *)
Definition a_m : R := 6378137.
Definition ecc2 : R := e2.

Lemma ecc2_range : 66943 / 10000000 < ecc2 < 66944 / 10000000.
Proof. unfold ecc2, e2, flattening, one, two. cbn. lra. Qed.
Lemma radius_m : radiusearthkm * 1000 = a_m.
Proof. unfold radiusearthkm, a_m. cbn. lra. Qed.

(** The divisor of the radius of curvature. *)
Definition root (p : R) : R := sqrt (1 - ecc2 * sin p * sin p).

Lemma sin_sqr p : 0 <= sin p * sin p <= 1.
Proof. pose proof (sin2_cos2 p) as E. unfold Rsqr in E. nra. Qed.

Lemma root_range p : 9966 / 10000 < root p <= 1 /\ root p * root p = 1 - ecc2 * sin p * sin p.
Proof.
  pose proof ecc2_range as He. pose proof (sin_sqr p) as Hs. unfold root.
  assert (9933056 / 10000000 <= 1 - ecc2 * sin p * sin p <= 1) as Hb by (split; nra).
  split; [split|apply sqrt_sqrt; lra].
  - rewrite <- (sqrt_square (9966 / 10000)) by lra. apply sqrt_lt_1; lra.
  - rewrite <- sqrt_1 at 2. apply sqrt_le_1; lra.
Qed.

(** ** The turn of the loop *)
Definition height (z p : R) : R := z + a_m * ecc2 * sin p / root p.
Definition turn (z r p : R) : R := atan (height z p / r).

(** *** Its derivative *)
Lemma root_derivative p : derivable_pt_lim root p (- ecc2 * sin p * cos p / root p).
Proof.
  destruct (root_range p) as [[Hr _] Hs].
  apply (derivative_eq (comp sqrt (fun p => 1 - ecc2 * sin p * sin p)) _ p (/ (2 * sqrt (1 - ecc2 * sin p * sin p)) * (- (2 * ecc2 * sin p * cos p)))).
  - done.
  - fold (root p). field. lra.
  - apply derivable_pt_lim_comp; [|apply derivable_pt_lim_sqrt; rewrite <- Hs; nra].
    apply (derivative_eq (fct_cte 1 - mult_real_fct ecc2 (sin * sin))%F _ p (0 - ecc2 * (cos p * sin p + sin p * cos p))).
    + intros z. unfold minus_fct, fct_cte, mult_real_fct, mult_fct. ring.
    + ring.
    + apply derivable_pt_lim_minus; [apply derivable_pt_lim_const|].
      apply derivable_pt_lim_scal, derivable_pt_lim_mult; apply derivable_pt_lim_sin.
Qed.

Lemma height_derivative z p : derivable_pt_lim (height z) p (a_m * ecc2 * (cos p / (root p * root p * root p))).
Proof.
  destruct (root_range p) as [[Hr _] Hs].
  apply (derivative_eq (fct_cte z + mult_real_fct (a_m * ecc2) (sin / root))%F _ p
    (0 + a_m * ecc2 * ((cos p * root p - (- ecc2 * sin p * cos p / root p) * sin p) / Rsqr (root p)))).
  - intros q. unfold height, plus_fct, fct_cte, mult_real_fct, div_fct, Rdiv. ring.
  - rewrite Rplus_0_l. f_equal. unfold Rsqr.
    apply (Rmult_eq_reg_r (root p * root p * root p)); [|apply Rgt_not_eq; repeat apply Rmult_gt_0_compat; lra].
    replace ((cos p * root p - - ecc2 * sin p * cos p / root p * sin p) / (root p * root p) * (root p * root p * root p))
      with (cos p * (root p * root p) + ecc2 * sin p * sin p * cos p) by (field; lra).
    replace (cos p / (root p * root p * root p) * (root p * root p * root p)) with (cos p) by (field; lra).
    rewrite Hs. ring.
  - apply derivable_pt_lim_plus; [apply derivable_pt_lim_const|].
    apply derivable_pt_lim_scal, derivable_pt_lim_div; [apply derivable_pt_lim_sin|apply root_derivative|lra].
Qed.

Lemma turn_derivative z r p : 0 < r ->
  derivable_pt_lim (turn z r) p (r * (a_m * ecc2 * (cos p / (root p * root p * root p))) / (r * r + height z p * height z p)).
Proof.
  intros Hr. set (d := a_m * ecc2 * _).
  apply (derivative_eq (comp atan (mult_real_fct (/ r) (height z))) _ p (/ (1 + (/ r * height z p) ^ 2) * (/ r * d))).
  - intros q. unfold turn, comp, mult_real_fct, Rdiv. by rewrite Rmult_comm.
  - pose proof (Rle_0_sqr (height z p)) as Hh. unfold Rsqr in Hh.
    assert (r * r + height z p * height z p <> 0) by nra. field. split; [done|lra].
  - apply derivable_pt_lim_comp; [apply derivable_pt_lim_scal, height_derivative|].
    apply derivable_pt_lim_atan.
Qed.

(** *** It is a contraction *)
Lemma quot_pos x y : 0 <= x -> 0 < y -> 0 <= x / y.
Proof. intros Hx Hy. apply Rmult_le_pos; [done|]. left. by apply Rinv_0_lt_compat. Qed.
Lemma Rabs_between x b : Rabs x <= b -> - b <= x <= b.
Proof. intros H. pose proof (Rle_abs x). pose proof (Rle_abs (- x)) as H'. rewrite Rabs_Ropp in H'. lra. Qed.
Lemma Rabs_quot x y : 0 < y -> Rabs (x / y) = Rabs x / y.
Proof. intros Hy. unfold Rdiv. by rewrite Rabs_mult, Rabs_inv, (Rabs_pos_eq y) by lra. Qed.

Definition rate : R := 7 / 1000.

Lemma cube_root_bound p : Rabs (ecc2 * (cos p / (root p * root p * root p))) <= 68 / 10000.
Proof.
  destruct (root_range p) as [[Hr Hr1] _]. pose proof ecc2_range as He.
  assert (9898 / 10000 <= root p * root p * root p) as Hc.
  { assert (99321 / 100000 <= root p * root p) by nra. nra. }
  rewrite Rabs_mult, Rabs_quot, (Rabs_pos_eq ecc2) by lra.
  assert (Rabs (cos p) <= 1) as Hcos by (apply Rabs_le; apply COS_bound).
  assert (Rabs (cos p) / (root p * root p * root p) <= 1 / (9898 / 10000)) as Hq.
  { apply Rmult_le_compat; [apply Rabs_pos|left; apply Rinv_0_lt_compat; lra|done|apply Rinv_le_contravar; lra]. }
  pose proof (Rabs_pos (cos p)). assert (0 <= Rabs (cos p) / (root p * root p * root p)) by (apply quot_pos; lra).
  nra.
Qed.

(** A point at least as far from the centre as the poles. *)
Definition outside (z r : R) : Prop := 0 < r /\ (9933 / 10000 * a_m) * (9933 / 10000 * a_m) <= r * r + z * z.

Lemma height_far z r p : outside z r -> (986 / 1000 * a_m) * (986 / 1000 * a_m) <= r * r + height z p * height z p.
Proof.
  intros [Hr Hout]. destruct (root_range p) as [[Hp _] _]. pose proof ecc2_range as He.
  set (n := sqrt (r * r + z * z)).
  assert (n * n = r * r + z * z) as Hn by (apply sqrt_sqrt; nra).
  assert (9933 / 10000 * a_m <= n) as Hna.
  { unfold n. rewrite <- (sqrt_square (9933 / 10000 * a_m)) by (unfold a_m; lra). apply sqrt_le_1; unfold a_m in *; nra. }
  set (w := a_m * ecc2 * sin p / root p).
  assert (Rabs w <= 672 / 100000 * a_m) as Hw.
  { unfold w. rewrite Rabs_quot, !Rabs_mult, (Rabs_pos_eq a_m), (Rabs_pos_eq ecc2) by (unfold a_m in *; lra).
    assert (Rabs (sin p) <= 1) as Hs by (apply Rabs_le; apply SIN_bound). pose proof (Rabs_pos (sin p)).
    apply (Rmult_le_reg_r (root p)); [lra|]. unfold Rdiv. rewrite Rmult_assoc, Rinv_l, Rmult_1_r by lra.
    assert (ecc2 * Rabs (sin p) <= 66944 / 10000000) by nra. unfold a_m in *. nra. }
  unfold height. fold w. set (u := Rabs w) in *.
  assert (0 < n /\ z * z <= n * n) as [Hn0 Hzn] by (unfold a_m in *; nra).
  assert (Rabs z <= n) as Hz by (apply Rabs_le; split; nra).
  assert (0 < a_m) as Ha by (unfold a_m; lra).
  assert (0 <= u) as Hu by apply Rabs_pos.
  assert (- (n * u) <= z * w) as Hzw.
  { assert (Rabs (z * w) <= n * u) as Hm by (rewrite Rabs_mult; fold u; apply Rmult_le_compat_r; done).
    apply Rabs_between in Hm. lra. }
  assert (w * w = u * u) as Hww by (unfold u; rewrite <- Rabs_mult; symmetry; apply Rabs_pos_eq, Rle_0_sqr).
  assert ((n - u) * (n - u) <= r * r + (z + w) * (z + w)) as H1 by nra.
  assert (986 / 1000 * a_m <= n - u) as H2 by lra.
  nra.
Qed.

(** A derivative below [k] bounds the distance of the images. *)
Lemma lipschitz (f f' : R -> R) k :
  (forall p, derivable_pt_lim f p (f' p)) -> (forall p, Rabs (f' p) <= k) ->
  forall p q, Rabs (f p - f q) <= k * Rabs (p - q).
Proof.
  intros Hd Hk p q. destruct (MVT_abs f f' q p) as (c & E & _); [intros; apply Hd|]. rewrite E.
  apply Rmult_le_compat_r; [apply Rabs_pos|apply Hk].
Qed.

Lemma turn_contracts z r p q : outside z r -> Rabs (turn z r p - turn z r q) <= rate * Rabs (p - q).
Proof.
  intros Ho. pose proof Ho as [Hr _]. eapply lipschitz; [intros; by apply turn_derivative|]. clear p q. intros p. cbv beta.
  pose proof (height_far z r p Ho) as Hf. set (rho := r * r + height z p * height z p) in *.
  assert (0 < a_m) as Ha by (unfold a_m; lra). assert (0 < rho) as Hrho by nra.
  rewrite Rabs_quot by done. rewrite Rmult_assoc, (Rabs_mult r), (Rabs_mult a_m), (Rabs_pos_eq r), (Rabs_pos_eq a_m) by lra.
  pose proof (cube_root_bound p) as Hc. set (d := Rabs (ecc2 * _)) in *.
  assert (r * (986 / 1000 * a_m) <= rho) as Hrd.
  { assert (r * r <= rho) by (pose proof (Rle_0_sqr (height z p)); unfold Rsqr, rho in *; lra).
    pose proof (Rle_0_sqr (r - 986 / 1000 * a_m)) as Hs. unfold Rsqr in Hs. lra. }
  apply (Rmult_le_reg_r rho); [done|]. unfold Rdiv. rewrite Rmult_assoc, Rinv_l, Rmult_1_r by lra.
  apply (Rle_trans _ (r * (a_m * (68 / 10000)))); [apply Rmult_le_compat_l; [lra|apply Rmult_le_compat_l; lra]|].
  unfold rate. lra.
Qed.

(** ** The loop *)
Lemma geo_turn_eq z r p : 0 < r -> geo_turn z r p = (/ root p, turn z r p).
Proof.
  intros Hr. unfold geo_turn, turn, height. cbn [natan2 R_transcendental]. unfold R_atan2.
  destruct (Rlt_dec 0 r) as [_|]; [|done]. fold ecc2. cbn [nsqrt nsin nmul nadd nsub ndiv nlit R_num].
  replace (one : R) with 1 by (unfold one; cbn; lra). fold (root p). rewrite <- radius_m.
  pose proof (root_range p) as [[Hp _] _]. replace (1000 / 1) with 1000 by lra.
  f_equal; [lra|]. f_equal. f_equal. f_equal. field. lra.
Qed.

(** Once an iterate is within [d] of a fixed point, the loop ends before [d]
    has been reduced below the threshold by the rate. *)
Lemma loop_ends z r phi : outside z r -> turn z r phi = phi ->
  forall n p, Rabs (p - phi) * (1 + rate) * rate ^ n < 1 / 10 ^ 10 ->
  exists q, geo_loop (Datatypes.S n) z r p = Some (/ root q, turn z r q) /\ Rabs (turn z r q - q) < 1 / 10 ^ 10.
Proof.
  intros Ho Hfix. pose proof Ho as [Hr _].
  induction n as [|n IH]; intros p Hp; cbn [geo_loop]; rewrite geo_turn_eq by done;
    cbn [nleb nlit nsub R_num]; rewrite nabs_eq, !pow_IZR in *; change (10 ^ Z.of_nat 10)%Z with (10 ^ 10)%Z in *;
    (destruct (Rle_dec (IZR 1 / IZR (10 ^ 10)) (Rabs (turn z r p - p))) as [Hle|Hlt]; [|exists p; split; [done|lra]]).
  - exfalso. pose proof (turn_contracts z r p phi Ho) as Hc. rewrite Hfix in Hc.
    pose proof (Rabs_triang (turn z r p - phi) (phi - p)) as Ht.
    replace (turn z r p - phi + (phi - p)) with (turn z r p - p) in Ht by ring.
    rewrite (Rabs_minus_sym phi p) in Ht. cbn [pow] in Hp. lra.
  - destruct (IH (turn z r p)) as (q & E & Hq); [|by exists q].
    pose proof (turn_contracts z r p phi Ho) as Hc. rewrite Hfix in Hc.
    eapply Rle_lt_trans; [|exact Hp]. cbn [pow].
    assert (0 <= rate ^ n) by (apply pow_le; unfold rate; lra). assert (0 < 1 + rate) by (unfold rate; lra).
    replace (Rabs (p - phi) * (1 + rate) * (rate * rate ^ n)) with (rate * Rabs (p - phi) * ((1 + rate) * rate ^ n)) by ring.
    rewrite Rmult_assoc. apply Rmult_le_compat_r; [|done]. apply Rmult_le_pos; lra.
Qed.

(** How far the last iterates are from the fixed point. *)
Lemma last_turns z r phi q : outside z r -> turn z r phi = phi -> Rabs (turn z r q - q) < 1 / 10 ^ 10 ->
  Rabs (q - phi) <= 101 / 100 * / 10 ^ 10 /\ Rabs (turn z r q - phi) <= / 10 ^ 12.
Proof.
  intros Ho Hfix Hq. pose proof (turn_contracts z r q phi Ho) as Hc. rewrite Hfix in Hc.
  pose proof (Rabs_triang (q - turn z r q) (turn z r q - phi)) as Ht.
  replace (q - turn z r q + (turn z r q - phi)) with (q - phi) in Ht by ring.
  rewrite (Rabs_minus_sym q (turn z r q)) in Ht. unfold rate in Hc. cbn [pow] in *. lra.
Qed.

(** ** Geodetic coordinates

    The point at latitude [phi], inertial longitude [th] and height [h] over the
    ellipsoid, in metres. *)
Definition normal (phi : R) : R := a_m / root phi.
Definition equatorial (phi h : R) : R := (normal phi + h) * cos phi.
Definition polar_z (phi h : R) : R := (normal phi * (1 - ecc2) + h) * sin phi.
Definition position (phi th h : R) : vector3 R :=
  Vec (equatorial phi h * cos th) (equatorial phi h * sin th) (polar_z phi h).

Lemma normal_range phi : a_m <= normal phi <= 10035 / 10000 * a_m.
Proof.
  destruct (root_range phi) as [[Hr Hr1] _]. unfold normal. assert (0 < a_m) as Ha by (unfold a_m; lra).
  split; apply (Rmult_le_reg_r (root phi)); try lra; unfold Rdiv; rewrite Rmult_assoc, Rinv_l, Rmult_1_r by lra; nra.
Qed.

Section point.
Context (phi h : R) (Hphi : - (PI / 2) < phi < PI / 2) (Hh : 0 <= h).

Lemma cos_phi : 0 < cos phi.
Proof. apply cos_gt_0; lra. Qed.

Lemma equatorial_pos : 0 < equatorial phi h.
Proof.
  pose proof cos_phi. pose proof (normal_range phi) as Hn. apply Rmult_lt_0_compat; [unfold a_m in *; lra|done].
Qed.

Lemma point_outside : outside (polar_z phi h) (equatorial phi h).
Proof.
  split; [exact equatorial_pos|]. pose proof (normal_range phi) as [Hn _]. pose proof ecc2_range as He.
  unfold polar_z, equatorial. set (n := normal phi) in *. pose proof (sin2_cos2 phi) as E. unfold Rsqr in E.
  assert (0 < a_m) as Ha by (unfold a_m; lra). set (b := 9933 / 10000 * a_m).
  assert (b <= n + h /\ b <= n * (1 - ecc2) + h) as [H1 H2] by (unfold b; split; nra).
  assert (0 < b) as Hb by (unfold b; lra).
  assert (b * b <= (n + h) * (n + h) /\ b * b <= (n * (1 - ecc2) + h) * (n * (1 - ecc2) + h)) as [H3 H4].
  { split; apply Rmult_le_compat; lra. }
  pose proof (Rle_0_sqr (sin phi)) as Hs. pose proof (Rle_0_sqr (cos phi)) as Hc. unfold Rsqr in *.
  replace (b * b) with (b * b * (cos phi * cos phi) + b * b * (sin phi * sin phi)) by (rewrite <- Rmult_plus_distr_l, Rplus_comm, E; ring).
  apply Rplus_le_compat.
  - replace ((n + h) * cos phi * ((n + h) * cos phi)) with ((n + h) * (n + h) * (cos phi * cos phi)) by ring.
    by apply Rmult_le_compat_r.
  - replace ((n * (1 - ecc2) + h) * sin phi * ((n * (1 - ecc2) + h) * sin phi))
      with ((n * (1 - ecc2) + h) * (n * (1 - ecc2) + h) * (sin phi * sin phi)) by ring.
    by apply Rmult_le_compat_r.
Qed.

Lemma point_fixed : turn (polar_z phi h) (equatorial phi h) phi = phi.
Proof.
  destruct (root_range phi) as [[Hr _] _]. pose proof equatorial_pos as Hq. pose proof cos_phi as Hc.
  transitivity (atan (tan phi)); [|by apply atan_tan]. unfold turn, tan. f_equal.
  replace (height (polar_z phi h) phi) with ((normal phi + h) * sin phi) by (unfold height, polar_z, normal; field; lra).
  unfold equatorial in *. field. split; [lra|]. intros E. rewrite E in Hq. lra.
Qed.

(** *** The height *)
Lemma cos_lipschitz p q : Rabs (cos p - cos q) <= Rabs (p - q).
Proof.
  rewrite <- (Rmult_1_l (Rabs (p - q))). apply (lipschitz cos (fun x => - sin x)); [apply derivable_pt_lim_cos|].
  intros x. rewrite Rabs_Ropp. apply Rabs_le, SIN_bound.
Qed.

Lemma root_lipschitz p q : Rabs (root p - root q) <= 68 / 10000 * Rabs (p - q).
Proof.
  eapply lipschitz; [apply root_derivative|]. clear p q. intros p. cbv beta.
  destruct (root_range p) as [[Hr _] _]. pose proof ecc2_range as He.
  rewrite Rabs_quot by lra. rewrite !Rabs_mult, Rabs_Ropp, (Rabs_pos_eq ecc2) by lra.
  assert (Rabs (sin p) <= 1) as Hs by (apply Rabs_le, SIN_bound).
  assert (Rabs (cos p) <= 1) as Hc by (apply Rabs_le, COS_bound).
  pose proof (Rabs_pos (sin p)). pose proof (Rabs_pos (cos p)).
  apply (Rmult_le_reg_r (root p)); [lra|]. unfold Rdiv. rewrite Rmult_assoc, Rinv_l, Rmult_1_r by lra.
  assert (Rabs (sin p) * Rabs (cos p) <= 1) by nra. rewrite Rmult_assoc. nra.
Qed.

Lemma normal_close q : Rabs (q - phi) <= 101 / 100 * / 10 ^ 10 -> Rabs (a_m / root q - normal phi) <= 1 / 1000.
Proof.
  intros Hq. destruct (root_range q) as [[Hr _] _], (root_range phi) as [[Hp _] _].
  pose proof (root_lipschitz phi q) as Hl. rewrite (Rabs_minus_sym phi q) in Hl. unfold normal.
  replace (a_m / root q - a_m / root phi) with (a_m * (root phi - root q) / (root q * root phi)) by (field; lra).
  assert (99 / 100 <= root q * root phi) as Hd by nra.
  rewrite Rabs_quot, Rabs_mult by lra. rewrite (Rabs_pos_eq a_m) by (unfold a_m; lra).
  apply (Rmult_le_reg_r (root q * root phi)); [lra|]. unfold Rdiv. rewrite Rmult_assoc, Rinv_l, Rmult_1_r by lra.
  unfold a_m. cbn [pow] in *. nra.
Qed.

Lemma slant_close lat : 1 / 100 <= cos phi -> h <= 100000000 -> Rabs (lat - phi) <= / 10 ^ 12 ->
  Rabs (equatorial phi h / cos lat - (normal phi + h)) <= 9 / 100.
Proof.
  intros Hc Hmax Hl. pose proof (cos_lipschitz phi lat) as Hd. rewrite (Rabs_minus_sym phi lat) in Hd.
  pose proof (Rabs_between _ _ (Rle_trans _ _ _ Hd Hl)) as Hb. pose proof (normal_range phi) as Hn.
  assert (99 / 10000 <= cos lat) as Hcl by (cbn [pow] in Hb; lra).
  unfold equatorial. replace ((normal phi + h) * cos phi / cos lat - (normal phi + h))
    with ((normal phi + h) * (cos phi - cos lat) / cos lat) by (field; lra).
  rewrite Rabs_quot, Rabs_mult by lra. rewrite (Rabs_pos_eq (normal phi + h)) by (unfold a_m in *; lra).
  apply (Rmult_le_reg_r (cos lat)); [lra|]. unfold Rdiv. rewrite Rmult_assoc, Rinv_l, Rmult_1_r by lra.
  apply (Rle_trans _ ((normal phi + h) * / 10 ^ 12)).
  - apply Rmult_le_compat_l; [unfold a_m in *; lra|]. by eapply Rle_trans.
  - unfold a_m in *. cbn [pow]. lra.
Qed.
End point.

(** ** Properties *)
Lemma atan2_positive y x : 0 < x -> R_atan2 y x = atan (y / x).
Proof. intros Hx. unfold R_atan2. by destruct (Rlt_dec 0 x). Qed.

Lemma first_error z r phi : 0 < r -> - (PI / 2) < phi < PI / 2 ->
  Rabs (R_atan2 z r - phi) * (1 + rate) * rate ^ 5 < 1 / 10 ^ 10.
Proof.
  intros Hr Hphi. rewrite atan2_positive by done. pose proof (atan_bound (z / r)) as Hb. pose proof PI_4 as Hpi.
  assert (Rabs (atan (z / r) - phi) <= 4) as Hd by (apply Rabs_le; lra).
  unfold rate. cbn [pow]. lra.
Qed.

Lemma atan2_bounded y x : Rabs (R_atan2 y x) <= 8.
Proof.
  pose proof (atan_bound (y / x)) as Hb. pose proof PI_4. pose proof PI_RGT_0. apply Rabs_le. unfold R_atan2.
  repeat destruct (Rlt_dec _ _); lra.
Qed.

Lemma trig_turns x k : cos (x + 2 * IZR k * PI) = cos x /\ sin (x + 2 * IZR k * PI) = sin x.
Proof.
  assert (forall x n, cos (x + 2 * INR n * PI) = cos x /\ sin (x + 2 * INR n * PI) = sin x) as Hn
    by (intros; split; [apply cos_period|apply sin_period]).
  destruct (Z.le_ge_cases 0 k) as [Hk|Hk].
  - replace (IZR k) with (INR (Z.to_nat k)); [apply Hn|]. by rewrite INR_IZR_INZ, Z2Nat.id.
  - destruct (Hn (x + 2 * IZR k * PI) (Z.to_nat (- k))) as [E1 E2].
    rewrite INR_IZR_INZ, Z2Nat.id, opp_IZR in E1, E2 by lia.
    replace (x + 2 * IZR k * PI + 2 * - IZR k * PI) with x in E1, E2 by ring. by rewrite <- E1, <- E2.
Qed.

(** The longitude of the point, as an angle in one turn. *)
Lemma longitude_ok {T} q th side (t : T) :
  0 < q -> Rabs side <= 1000000 ->
  exists lon, fmod2p (2 * PI) (R_atan2 (q * sin th) (q * cos th) - side) t = Ret (lon, t) /\ 0 <= lon < 2 * PI /\
    cos (lon + side) = cos th /\ sin (lon + side) = sin th.
Proof.
  intros Hq Hside. set (theta := R_atan2 _ _). pose proof PI_RGT_0 as Hpi. pose proof PI2_1 as Hpi2.
  pose proof (sin2_cos2 th) as E. unfold Rsqr in E.
  destruct (atan2_polar (q * sin th) (q * cos th)) as [Ec Es].
  { replace (q * cos th * (q * cos th) + q * sin th * (q * sin th)) with (q * q * (sin th * sin th + cos th * cos th)) by ring.
    rewrite E. nra. }
  replace (q * cos th * (q * cos th) + q * sin th * (q * sin th)) with (q * q) in Ec, Es
    by (replace (q * q) with (q * q * (sin th * sin th + cos th * cos th)) by (rewrite E; ring); ring).
  rewrite sqrt_square in Ec, Es by lra. fold theta in Ec, Es.
  apply Rmult_eq_reg_l in Ec; [|lra]. apply Rmult_eq_reg_l in Es; [|lra].
  pose proof (atan2_bounded (q * sin th) (q * cos th)) as Hth. fold theta in Hth.
  destruct (fmod2p_range (2 * PI) (theta - side) t) as (lon & k & Ef & Hl & Ek); [lra| |].
  { rewrite Rabs_quot by lra. apply Rabs_between in Hth, Hside. apply (Rmult_lt_reg_r (2 * PI)); [lra|].
    unfold Rdiv. rewrite Rmult_assoc, Rinv_l, Rmult_1_r by lra.
    eapply Rle_lt_trans; [apply (Rabs_le _ 1000008); lra|]. lra. }
  exists lon. split; [exact Ef|]. split; [exact Hl|].
  assert (lon + side = theta + 2 * IZR (- k) * PI) as Elon by (rewrite opp_IZR; lra).
  rewrite Elon, <- Ec, <- Es. apply trig_turns.
Qed.

(** C40. [eci_to_geo] ends after at most six turns of its loop for every point
    that is not below the ellipsoid nor over a pole, and then its latitude is
    the geodetic one to a millionth of a millionth of a radian, its longitude
    lies in one turn and is the longitude of the point against the sidereal
    time, and its altitude is the height over the ellipsoid to ten centimetres
    (up to 100000 km and half a degree from the poles). *)
Theorem eci_to_geo_geodetic {T} (gstime : R -> R) phi th h jd (t : T) :
  - (PI / 2) < phi < PI / 2 -> 0 <= h -> Rabs (gstime jd) <= 1000000 ->
  exists lat lon alt,
    eci_to_geo PI (2 * PI) gstime 6 (position phi th h) jd t = Ret (Some (Vec lat lon alt), t) /\
    Rabs (lat - phi) <= / 10 ^ 12 /\
    0 <= lon < 2 * PI /\ cos (lon + gstime jd) = cos th /\ sin (lon + gstime jd) = sin th /\
    (1 / 100 <= cos phi -> h <= 100000000 -> Rabs (alt - h) <= 1 / 10).
Proof.
  intros Hphi Hh Hside. pose proof (equatorial_pos phi h Hphi Hh) as Hq. pose proof (point_outside phi h Hphi Hh) as Ho.
  pose proof (point_fixed phi h Hphi Hh) as Hfix.
  destruct (longitude_ok (equatorial phi h) th (gstime jd) t Hq Hside) as (lon & El & Hlon & Hc & Hs).
  destruct (loop_ends _ _ phi Ho Hfix 5 (R_atan2 (polar_z phi h) (equatorial phi h))) as (q & Eloop & Hlast).
  { apply first_error; [exact Hq|exact Hphi]. }
  destruct (last_turns _ _ phi q Ho Hfix Hlast) as [Hqp Hlat]. set (lat := turn _ _ q) in *.
  exists lat, lon, (equatorial phi h / cos lat - radiusearthkm * (/ root q) * 1000).
  assert (sqrt (equatorial phi h * cos th * (equatorial phi h * cos th) + equatorial phi h * sin th * (equatorial phi h * sin th))
    = equatorial phi h) as Er.
  { replace (_ + _) with (equatorial phi h * equatorial phi h * (sin th * sin th + cos th * cos th)) by ring.
    pose proof (sin2_cos2 th) as E. unfold Rsqr in E. rewrite E, Rmult_1_r. apply sqrt_square. lra. }
  split; [|split; [exact Hlat|]; split; [exact Hlon|]; split; [exact Hc|]; split; [exact Hs|]].
  - unfold eci_to_geo. cbn [position v0 v1 v2].
    unfold bind at 1. change (natan2 ?y ?x) with (R_atan2 y x). change (nsub ?x ?y) with (x - y).
    rewrite El. cbn [nsqrt nmul nadd R_num]. rewrite Er, Eloop. unfold ret. do 3 f_equal.
    cbn [nltb R_num]. unfold lat, turn. destruct (Rlt_dec _ _) as [Hlt|_].
    + exfalso. pose proof (atan_bound (height (polar_z phi h) q / equatorial phi h)) as Hb. unfold two in Hlt. cbn in Hlt. lra.
    + f_equal. cbn. lra.
  - intros Hcos Hmax. pose proof (normal_close phi q Hqp) as H1.
    pose proof (slant_close phi h Hh lat Hcos Hmax Hlat) as H2.
    replace (_ - h) with ((equatorial phi h / cos lat - (normal phi + h)) - (a_m / root q - normal phi))
      by (rewrite <- radius_m; unfold Rdiv; ring).
    eapply Rle_trans; [apply Rabs_triang|]. rewrite Rabs_Ropp. lra.
Qed.

(** Over Santiago, at the height of the satellite. *)
Lemma eci_to_geo_geodetic_witness : exists lat lon alt,
  eci_to_geo PI (2 * PI) (fun jd => jd) 6 (position (- (58 / 100)) 1 505000) 3 tt = Ret (Some (Vec lat lon alt), tt) /\
  Rabs (lat - - (58 / 100)) <= / 10 ^ 12.
Proof.
  destruct (eci_to_geo_geodetic (fun jd => jd) (- (58 / 100)) 1 505000 3 tt) as (lat & lon & alt & E & H & _).
  - pose proof PI2_1. lra.
  - lra.
  - rewrite Rabs_pos_eq by lra. lra.
  - exists lat, lon, alt. split; [exact E|exact H].
Defined.

End GeodeticReal.
