(* ===== verification/I2cBus.v ===== *)
(** * The I2C bus of the Linux ports

    [drivers/x86/i2c.c] and [drivers/rpi/i2c.c], which are the same file: each
    call opens the bus, selects a slave, transfers and closes.  The state has the
    descriptors of the process, because of the way the calls close theirs, and the
    transfers on the bus in order. *)
From S2P Require Import Prelude.

Module I2cBus.

Inductive transfer := Slave (addr : Z) | Wrote (bs : list Z) | Read (n : Z) | Slept (us : Z).

(** [nofile] is the limit of open descriptors of the process. *)
Record i2c := I2c { fds : gset Z; nofile : Z; bus : list transfer }.
Definition log (x : transfer) : M i2c unit := modify (fun s => I2c (fds s) (nofile s) (bus s ++ [x])).

(** What the device answers to one call: the results of [ioctl], [write] and
    [read], and the bytes that [read] stored. *)
Record answers := Answers { ioctl_rc : Z; write_rc : Z; read_rc : Z; read_bytes : list Z }.

(** The lowest descriptor from [n] on that is free. *)
Fixpoint lowest_free (fuel : nat) (n : Z) (l : gset Z) : Z :=
  match fuel with
  | O => n
  | S fuel => if bool_decide (n ∈ l) then lowest_free fuel (n + 1) l else n
  end.
(** [open]: the lowest free descriptor, -1 beyond the limit. *)
Definition sys_open : M i2c Z :=
  let! s := get in
  let n := lowest_free (S (size (fds s))) 0 (fds s) in
  if n <? nofile s then put (I2c ({[n]} ∪ fds s) (nofile s) (bus s)) ;! ret n else ret (-1).
Definition sys_close (n : Z) : M i2c unit :=
  modify (fun s => I2c (fds s ∖ {[n]}) (nofile s) (bus s)).

(** ["/dev/i2c-1"] *)
Definition deviceName : list Z := [47; 100; 101; 118; 47; 105; 50; 99; 45; 49; 0].
(** [close( *deviceName)]: the first character of the name. *)
Definition close_device : M i2c unit :=
  let! c := arr_get deviceName 0 in
  sys_close c.

Definition i2c_write_n (a : answers) (addr reg_addr : Z) (reg_data : list Z) (len : Z) : M i2c Z :=
  let! i2cHandle := sys_open in
  if i2cHandle <? 0 then ret 1 else
  log (Slave addr) ;!
  if ioctl_rc a <? 0 then close_device ;! ret 1 else
  let! data := list_read reg_data 0 len in
  let wbuf := reg_addr :: data in
  log (Wrote wbuf) ;!
  if negb (write_rc a =? len + 1) then ret 1 else
  close_device ;! ret 0.

(** The result with [reg_data] afterwards. *)
Definition i2c_read_n (a : answers) (dev_id reg_addr : Z) (reg_data : list Z) (len delay_ms : Z) : M i2c (Z * list Z) :=
  let! i2cHandle := sys_open in
  if i2cHandle <? 0 then ret (1, reg_data) else
  log (Slave dev_id) ;!
  if ioctl_rc a <? 0 then close_device ;! ret (1, reg_data) else
  let! reg_data := list_write reg_data 0 (replicate (Z.to_nat len) 0) in
  log (Wrote [reg_addr]) ;!
  log (Slept (delay_ms * 1000)) ;!
  log (Read len) ;!
  let! reg_data := list_write reg_data 0 (read_bytes a) in
  let bytes_r := u8_of (read_rc a) in
  if negb (bytes_r =? len) then ret (1, reg_data) else
  close_device ;! ret (0, reg_data).

Definition i2c_read_from_n (a : answers) (dev_id : Z) (reg_data : list Z) (len : Z) : M i2c (Z * list Z) :=
  let! i2cHandle := sys_open in
  if i2cHandle <? 0 then ret (1, reg_data) else
  log (Slave dev_id) ;!
  if ioctl_rc a <? 0 then close_device ;! ret (1, reg_data) else
  let! reg_data := list_write reg_data 0 (replicate (Z.to_nat len) 0) in
  log (Read len) ;!
  let! reg_data := list_write reg_data 0 (read_bytes a) in
  let bytes_r := u8_of (read_rc a) in
  if negb (bytes_r =? len) then ret (1, reg_data) else
  close_device ;! ret (0, reg_data).

Definition i2c_write_addr (a : answers) (dev_id addr data : Z) : M i2c Z :=
  let! i2cHandle := sys_open in
  if i2cHandle <? 0 then ret 1 else
  log (Slave addr) ;!
  if ioctl_rc a <? 0 then close_device ;! ret 1 else
  let wbuf := [data] in
  log (Wrote wbuf) ;!
  if negb (write_rc a =? 1) then ret 1 else
  close_device ;! ret 0.

End I2cBus.

Module I2cBusLaws.
Import I2cBus.

(** ** [open] gives the lowest free descriptor *)
Lemma lowest_free_below fuel n l m : n <= m < lowest_free fuel n l -> m ∈ l.
Proof.
  revert n. induction fuel as [|fuel IH]; intros n; cbn; [lia|].
  case_bool_decide as E; [|lia]. intros H. destruct (decide (m = n)) as [->|Hne]; [done|]. apply (IH (n + 1)). lia.
Qed.
Lemma lowest_free_range fuel n l : n <= lowest_free fuel n l <= n + Z.of_nat fuel.
Proof.
  revert n. induction fuel as [|fuel IH]; intros n; cbn; [lia|]. case_bool_decide; [|lia]. specialize (IH (n + 1)). lia.
Qed.
Lemma lowest_free_stop fuel n l : lowest_free fuel n l ∈ l -> lowest_free fuel n l = n + Z.of_nat fuel.
Proof.
  revert n. induction fuel as [|fuel IH]; intros n; cbn; [lia|].
  case_bool_decide as E; [|done]. intros H%IH. lia.
Qed.
Lemma size_interval (l : gset Z) n : (forall m, 0 <= m < n -> m ∈ l) -> n <= Z.of_nat (size l).
Proof.
  intros H. assert (list_to_set (seqZ 0 n) ⊆ l) as Hs.
  { intros m. rewrite elem_of_list_to_set, elem_of_seqZ. intros Hm. apply H. lia. }
  apply subseteq_size in Hs. rewrite size_list_to_set, length_seqZ in Hs by apply NoDup_seqZ. lia.
Qed.
Lemma lowest_free_fresh l : ~ (lowest_free (S (size l)) 0 l ∈ l).
Proof.
  intros H. pose proof (lowest_free_stop _ _ _ H) as E.
  assert (Z.of_nat (S (size l)) <= Z.of_nat (size l)); [|lia].
  apply size_interval. intros m Hm. eapply (lowest_free_below _ 0). rewrite E. lia.
Qed.

(** The descriptor of the next [open], when there is one. *)
Definition next_fd (l : gset Z) : Z := lowest_free (S (size l)) 0 l.

Lemma next_fd_spec l : 0 <= next_fd l /\ ~ (next_fd l ∈ l) /\ (forall m, 0 <= m < next_fd l -> m ∈ l).
Proof.
  splits; [apply lowest_free_range|apply lowest_free_fresh|].
  intros m Hm. by apply (lowest_free_below (S (size l)) 0).
Qed.

Lemma sys_open_ok s : next_fd (fds s) < nofile s ->
  sys_open s = Ret (next_fd (fds s), I2c ({[next_fd (fds s)]} ∪ fds s) (nofile s) (bus s)).
Proof. intros H. unfold sys_open, bind, get, put. fold (next_fd (fds s)). by rewrite (proj2 (Z.ltb_lt _ _)). Qed.
Lemma sys_open_full s : nofile s <= next_fd (fds s) -> sys_open s = Ret (-1, s).
Proof. intros H. unfold sys_open, bind, get. fold (next_fd (fds s)). by rewrite (proj2 (Z.ltb_ge _ _)). Qed.

(** ** The calls *)
Inductive call :=
  | CallWrite (addr reg_addr : Z) (reg_data : list Z) (len : Z)
  | CallRead (dev_id reg_addr : Z) (reg_data : list Z) (len delay_ms : Z)
  | CallReadFrom (dev_id : Z) (reg_data : list Z) (len : Z)
  | CallWriteAddr (dev_id addr data : Z).

Definition run (c : call) (a : answers) : M i2c Z :=
  match c with
  | CallWrite addr reg_addr reg_data len => i2c_write_n a addr reg_addr reg_data len
  | CallRead dev_id reg_addr reg_data len delay_ms =>
      let! r := i2c_read_n a dev_id reg_addr reg_data len delay_ms in ret r.1
  | CallReadFrom dev_id reg_data len => let! r := i2c_read_from_n a dev_id reg_data len in ret r.1
  | CallWriteAddr dev_id addr data => i2c_write_addr a dev_id addr data
  end.
Fixpoint runs (cs : list (call * answers)) : M i2c (list Z) :=
  match cs with
  | [] => ret []
  | (c, a) :: cs => let! r := run c a in let! rs := runs cs in ret (r :: rs)
  end.

(** The memory of the caller, and [read] within what was asked for. *)
Definition call_ok (c : call) (a : answers) : Prop :=
  match c with
  | CallWrite _ _ reg_data len => 0 <= len <= zlength reg_data
  | CallRead _ _ reg_data len _ | CallReadFrom _ reg_data len => 0 <= len <= zlength reg_data /\ zlength (read_bytes a) <= len
  | CallWriteAddr _ _ _ => True
  end.
(** The device did all that was asked for. *)
Definition served (c : call) (a : answers) : Prop :=
  0 <= ioctl_rc a /\
  match c with
  | CallWrite _ _ _ len => write_rc a = len + 1
  | CallRead _ _ _ len _ | CallReadFrom _ _ len => read_rc a = len
  | CallWriteAddr _ _ _ => write_rc a = 1
  end.
(** The code of the result sees only eight bits of what [read] returned. *)
Definition looks_served (c : call) (a : answers) : bool :=
  match c with
  | CallWrite _ _ _ len => write_rc a =? len + 1
  | CallRead _ _ _ len _ | CallReadFrom _ _ len => u8_of (read_rc a) =? len
  | CallWriteAddr _ _ _ => write_rc a =? 1
  end.

(** What the process has open after a call: the handle stays open, and
    descriptor 47 is closed unless the transfer failed. *)
Definition fds_after (c : call) (a : answers) (l : gset Z) : gset Z :=
  let opened := {[next_fd l]} ∪ l in
  if (ioctl_rc a <? 0) || looks_served c a then opened ∖ {[47]} else opened.

Lemma list_write_in (l bs : list Z) :
  zlength bs <= zlength l -> exists l', zlength l' = zlength l /\ forall S (s : S), list_write l 0 bs s = Ret (l', s).
Proof.
  intros H. unfold list_write. rewrite (proj2 (Z.leb_le _ _)), (proj2 (Z.leb_le (_ + _) _)) by lia.
  eexists. split; [|reflexivity]. unfold zlength in *. rewrite !length_app, length_take, length_drop. lia.
Qed.

Ltac bus_step := unfold log at 1; unfold bind at 1, modify at 1; cbn [fds nofile bus].

Lemma reg_writes (reg_data : list Z) len bs :
  0 <= len <= zlength reg_data -> zlength bs <= len -> exists l1 l2,
  (forall S (s : S), list_write reg_data 0 (replicate (Z.to_nat len) 0) s = Ret (l1, s)) /\
  (forall S (s : S), list_write l1 0 bs s = Ret (l2, s)).
Proof.
  intros H1 H2. destruct (list_write_in reg_data (replicate (Z.to_nat len) 0)) as (l1 & Hl1 & E1).
  { unfold zlength in *. rewrite length_replicate. lia. }
  destruct (list_write_in l1 bs) as (l2 & _ & E2); [lia|]. by exists l1, l2.
Qed.

Lemma run_ok c a s :
  call_ok c a -> next_fd (fds s) < nofile s -> exists s',
  run c a s = Ret (if negb (ioctl_rc a <? 0) && looks_served c a then 0 else 1, s') /\
  fds s' = fds_after c a (fds s) /\ nofile s' = nofile s.
Proof.
  intros Hok Hn. pose proof (proj1 (next_fd_spec (fds s))) as H0. unfold fds_after.
  assert ((next_fd (fds s) <? 0) = false) as Hlt by (apply Z.ltb_ge; lia).
  destruct c as [addr reg data len|dev reg data len delay|dev data len|dev addr data]; cbn [call_ok looks_served run] in *.
  - unfold i2c_write_n. rewrite (bind_step _ _ _ _ _ (sys_open_ok s Hn)), Hlt. bus_step.
    destruct (ioctl_rc a <? 0); cbn [negb andb orb]; [by eexists|].
    unfold list_read. rewrite (proj2 (Z.leb_le 0 0)), (proj2 (Z.leb_le 0 len)), (proj2 (Z.leb_le (0 + len) _)) by lia.
    cbn [andb]. unfold bind at 1, ret at 1. bus_step.
    destruct (write_rc a =? len + 1); cbn [negb]; by eexists.
  - unfold bind at 1, i2c_read_n. rewrite (bind_step _ _ _ _ _ (sys_open_ok s Hn)), Hlt. bus_step.
    destruct (ioctl_rc a <? 0); cbn [negb andb orb]; [by eexists|].
    destruct (reg_writes data len (read_bytes a)) as (l1 & l2 & E1 & E2); [lia..|].
    rewrite (bind_step _ _ _ _ _ (E1 _ _)). do 3 bus_step. rewrite (bind_step _ _ _ _ _ (E2 _ _)).
    destruct (u8_of (read_rc a) =? len); cbn [negb]; by eexists.
  - unfold bind at 1, i2c_read_from_n. rewrite (bind_step _ _ _ _ _ (sys_open_ok s Hn)), Hlt. bus_step.
    destruct (ioctl_rc a <? 0); cbn [negb andb orb]; [by eexists|].
    destruct (reg_writes data len (read_bytes a)) as (l1 & l2 & E1 & E2); [lia..|].
    rewrite (bind_step _ _ _ _ _ (E1 _ _)). bus_step. rewrite (bind_step _ _ _ _ _ (E2 _ _)).
    destruct (u8_of (read_rc a) =? len); cbn [negb]; by eexists.
  - unfold i2c_write_addr. rewrite (bind_step _ _ _ _ _ (sys_open_ok s Hn)), Hlt. bus_step.
    destruct (ioctl_rc a <? 0); cbn [negb andb orb]; [by eexists|]. bus_step.
    destruct (write_rc a =? 1); cbn [negb]; by eexists.
Qed.

Lemma run_full c a s : nofile s <= next_fd (fds s) -> run c a s = Ret (1, s).
Proof.
  intros H. destruct c; cbn [run]; unfold i2c_write_n, i2c_read_n, i2c_read_from_n, i2c_write_addr, bind;
    by rewrite (sys_open_full s H).
Qed.
End I2cBusLaws.

Module I2cBusTheorems.
Import I2cBus I2cBusLaws.

Definition short_read (c : call) : Prop :=
  match c with CallRead _ _ _ len _ | CallReadFrom _ _ len => len <= 255 | _ => True end.
Definition low_fds (l : gset Z) : Prop := forall m, m ∈ l -> 0 <= m < 47.

Lemma served_looks c a : call_ok c a -> short_read c -> served c a ->
  (ioctl_rc a <? 0) = false /\ looks_served c a = true.
Proof.
  intros Hok Hs [H1 H2]. split; [by apply Z.ltb_ge|].
  destruct c; cbn in *; rewrite H2; apply Z.eqb_eq; try done; apply Z.mod_small; lia.
Qed.

Lemma low_next l : low_fds l -> 0 <= next_fd l <= 47.
Proof.
  intros Hl. destruct (next_fd_spec l) as (H0 & _ & Hb). split; [done|]. apply Z.le_ngt. intros H.
  specialize (Hl 47 (Hb 47 ltac:(lia))). lia.
Qed.

Lemma low_size l : low_fds l -> Z.of_nat (size l) <= 47.
Proof.
  intros Hl. assert (l ⊆ list_to_set (seqZ 0 47)) as Hs
    by (intros m Hm%Hl; rewrite elem_of_list_to_set, elem_of_seqZ; lia).
  apply subseteq_size in Hs. rewrite size_list_to_set, length_seqZ in Hs by apply NoDup_seqZ. lia.
Qed.

(** One served call of a process whose descriptors are below 47. *)
Lemma served_fds c a l :
  low_fds l -> (ioctl_rc a <? 0) = false -> looks_served c a = true ->
  low_fds (fds_after c a l) /\ l ⊆ fds_after c a l /\
  Z.of_nat (size (fds_after c a l)) = Z.min 47 (Z.of_nat (size l) + 1).
Proof.
  intros Hl H1 H2. unfold fds_after. rewrite H1, H2. cbn [orb].
  destruct (next_fd_spec l) as (Hn0 & Hfresh & Hbelow). pose proof (low_next l Hl) as Hn.
  assert (forall m, m ∈ l -> m <> 47) as Hne by (intros m Hm%Hl; lia).
  splits.
  - intros m Hm. assert (m <> 47 /\ (m = next_fd l \/ m ∈ l)) as [H [->|Hin%Hl]] by set_solver; lia.
  - set_solver.
  - destruct (decide (next_fd l = 47)) as [E|E].
    + rewrite E. assert (({[47]} ∪ l) ∖ {[47]} = l) as -> by set_solver.
      pose proof (low_size l Hl). pose proof (size_interval l 47 ltac:(intros; apply Hbelow; lia)). lia.
    + assert (({[next_fd l]} ∪ l) ∖ {[47]} = {[next_fd l]} ∪ l) as -> by set_solver.
      rewrite size_union, size_singleton by set_solver.
      enough (low_fds ({[next_fd l]} ∪ l)) as Hlow%low_size
        by (rewrite size_union, size_singleton in Hlow by set_solver; lia).
      intros m [->%elem_of_singleton|?%Hl]%elem_of_union; lia.
Qed.

(** The calls close descriptor 47, the first character of the name of the
    bus, instead of their own.  With a device that serves every call they all
    succeed: each leaves its descriptor open, until the process has all of 0 to 46
    and the calls get 47 and close it. *)
Theorem i2c_calls_succeed cs s :
  Forall (fun '(c, a) => call_ok c a /\ short_read c /\ served c a) cs ->
  low_fds (fds s) -> 48 <= nofile s ->
  exists s', runs cs s = Ret (replicate (length cs) 0, s') /\ low_fds (fds s') /\ fds s ⊆ fds s' /\
    Z.of_nat (size (fds s')) = Z.min 47 (Z.of_nat (size (fds s)) + zlength cs).
Proof.
  revert s. induction cs as [|[c a] cs IH]; intros s Hcs Hl Hn.
  { exists s. pose proof (low_size _ Hl). change (zlength []) with 0. splits; done || lia. }
  apply Forall_cons in Hcs as [Hc Hcs]. cbv beta iota in Hc. destruct Hc as (Hok & Hshort & Hserved).
  destruct (served_looks c a Hok Hshort Hserved) as [H1 H2].
  pose proof (low_next _ Hl) as Hnext.
  destruct (run_ok c a s Hok ltac:(lia)) as (s1 & E & Hf & Hnf). rewrite H1, H2 in E. cbn [negb andb] in E.
  destruct (served_fds c a (fds s) Hl H1 H2) as (Hl1 & Hsub & Hsz). rewrite <- Hf in Hl1, Hsub, Hsz.
  destruct (IH s1 Hcs Hl1 ltac:(lia)) as (s' & E' & Hl' & Hsub' & Hsz').
  exists s'. cbn [runs length replicate]. rewrite (bind_step _ _ _ _ _ E), (bind_step _ _ _ _ _ E').
  splits; [done|done|by etransitivity|]. rewrite Hsz', Hsz, zlength_cons. unfold zlength. lia.
Qed.

(** A transfer that fails leaves its descriptor open for good: after as many as
    the process may have, no call reaches the bus any more. *)
Theorem i2c_failures_exhaust cs s c a :
  Forall (fun '(c, a) => call_ok c a /\ 0 <= ioctl_rc a /\ looks_served c a = false) cs ->
  0 <= nofile s <= zlength cs ->
  exists s', runs cs s = Ret (replicate (length cs) 1, s') /\ fds s ⊆ fds s' /\ run c a s' = Ret (1, s').
Proof.
  intros Hcs Hn.
  enough (forall k, nofile s - zlength cs <= k -> (forall m, 0 <= m < k -> m < nofile s -> m ∈ fds s) ->
    exists s', runs cs s = Ret (replicate (length cs) 1, s') /\ fds s ⊆ fds s' /\ run c a s' = Ret (1, s')) as H
    by (apply (H 0); [lia|intros; lia]).
  clear Hn. revert s Hcs. induction cs as [|[c1 a1] cs IH]; intros s Hcs k Hk Hin.
  { exists s. splits; [done|done|]. apply run_full. change (zlength []) with 0 in Hk.
    apply Z.le_ngt. intros Hlt. destruct (next_fd_spec (fds s)) as (H0 & Hfresh & _). apply Hfresh, Hin; lia. }
  apply Forall_cons in Hcs as [Hc Hcs]. cbv beta iota in Hc. destruct Hc as (Hok & Hio & Hfail).
  rewrite zlength_cons in Hk. cbn [runs length replicate].
  destruct (decide (next_fd (fds s) < nofile s)) as [Hlt|Hge].
  - destruct (run_ok c1 a1 s Hok Hlt) as (s1 & E & Hf & Hnf). unfold fds_after in Hf.
    rewrite Hfail, andb_false_r in E. rewrite Hfail, (proj2 (Z.ltb_ge _ _)) in Hf by lia. cbn [orb] in Hf.
    destruct (next_fd_spec (fds s)) as (H0 & Hfresh & Hbelow).
    assert (k <= next_fd (fds s)) as Hkn by (apply Z.le_ngt; intros ?; apply Hfresh, Hin; lia).
    destruct (IH s1 Hcs (k + 1)) as (s' & E' & Hsub & Hend).
    + rewrite Hnf. lia.
    + intros m Hm Hm2. rewrite Hf. apply elem_of_union. destruct (decide (m = next_fd (fds s))) as [->|?];
        [left; by apply elem_of_singleton|right]. apply Hbelow. lia.
    + exists s'. rewrite (bind_step _ _ _ _ _ E), (bind_step _ _ _ _ _ E'). splits; [done|rewrite Hf in Hsub; set_solver|done].
  - assert (nofile s <= next_fd (fds s)) as Hge' by lia.
    destruct (IH s Hcs (nofile s)) as (s' & E' & Hsub & Hend).
    + unfold zlength. lia.
    + intros m Hm Hm2. apply (proj2 (proj2 (next_fd_spec (fds s)))). lia.
    + exists s'. rewrite (bind_step _ _ _ _ _ (run_full c1 a1 s Hge')), (bind_step _ _ _ _ _ E'). by splits.
Qed.

(** A served call closes descriptor 47 when it is another file of the process. *)
Theorem i2c_closes_other_file c a s :
  call_ok c a -> short_read c -> served c a -> 47 ∈ fds s -> next_fd (fds s) < nofile s ->
  exists s', run c a s = Ret (0, s') /\ ~ (47 ∈ fds s') /\ next_fd (fds s) ∈ fds s'.
Proof.
  intros Hok Hs Hv H47 Hn. destruct (served_looks c a Hok Hs Hv) as [H1 H2].
  destruct (run_ok c a s Hok Hn) as (s' & E & Hf & _). exists s'. rewrite H1, H2 in E. unfold fds_after in Hf.
  rewrite H1, H2 in Hf. cbn [orb] in Hf. pose proof (proj1 (proj2 (next_fd_spec (fds s)))) as Hfresh.
  assert (next_fd (fds s) <> 47) by congruence. splits; [done|set_solver|set_solver].
Qed.

(** [uint8_t bytes_r] cuts the result of [read]: 256 bytes or more are never
    received, and a failed read of 255 bytes passes for a good one. *)
Theorem i2c_read_result_cut a dev_id reg_addr reg_data len delay_ms s :
  0 <= len <= zlength reg_data -> zlength (read_bytes a) <= len -> 0 <= ioctl_rc a -> next_fd (fds s) < nofile s ->
  exists r s', i2c_read_n a dev_id reg_addr reg_data len delay_ms s = Ret (r, s') /\
    (256 <= len -> r.1 = 1) /\ (len = 255 -> read_rc a = -1 -> r.1 = 0).
Proof.
  intros H1 H2 H3 H4. destruct (run_ok (CallRead dev_id reg_addr reg_data len delay_ms) a s (conj H1 H2) H4) as (s' & E & _).
  cbn [run] in E. apply bind_inv in E as (r & s1 & E & Er). injection Er as Er <-.
  exists r, s1. splits; [done| |]; cbn [looks_served] in Er; rewrite (proj2 (Z.ltb_ge _ _)) in Er by lia; cbn [negb andb] in Er.
  - intros Hl. destruct (u8_of (read_rc a) =? len) eqn:E8; [|done]. apply Z.eqb_eq in E8.
    pose proof (Z.mod_pos_bound (read_rc a) (2 ^ 8) ltac:(lia)). unfold u8_of in E8. lia.
  - intros -> Hr. by rewrite Hr in Er.
Qed.

(** [i2c_write_addr] selects the slave at [addr]; the device it is given has no effect. *)
Theorem i2c_write_addr_ignores_device a d1 d2 addr data s :
  i2c_write_addr a d1 addr data s = i2c_write_addr a d2 addr data s.
Proof. reflexivity. Qed.

End I2cBusTheorems.
