(* ===== verification/I2cUart.v ===== *)
(** * The I2C-UART interface of the Raspberry Pi port

    [drivers/rpi/libcsp/src/interfaces/csp_if_i2c_uart.c] and
    [drivers/rpi/libcsp/src/drivers/i2c_usart_linux.c]: CSP packets go to an
    external controller as frames of 265 bytes over a serial line; the
    controller answers ["TX"] when it has sent one over the I2C bus and
    forwards what it receives in frames that start with ["OK"].

    The memory of a packet or a frame is its list of bytes, so a cast between
    [csp_packet_t] and [i2c_uart_frame_t] is the identity and the fields are
    byte ranges.  [tx] is a C function; the receiving thread is a state machine
    whose transitions are the results of [read].  Of libcsp the model has what
    its headers say of binary semaphores, the buffer pool (the buffers it will
    hand out are a field of the state) and the queue of the router. *)
From Stdlib Require Import Sorted.
From S2P Require Import Prelude Memory.

Module I2cUart.

(** ** Frames and packets *)
Definition I2C_MTU : Z := 255.
Definition I2C_UART_SYNC : Z := 0x4F4B.
(** [sizeof(i2c_uart_frame_t)]: sync 0, padding 2, len 5, addr 7, len_tx 8, data 10. *)
Definition FRAME_SIZE : Z := 2 + 3 + 2 + 1 + 2 + I2C_MTU.
(** [csp_packet_t] with the 8 bytes of padding of the build: padding 0,
    length 8, id 10, data 14. *)
Definition CSP_PADDING_BYTES : Z := 8.
Definition CSP_BUFFER_PACKET_OVERHEAD : Z := CSP_PADDING_BYTES + 2 + 4.
Definition CSP_NODE_MAC : Z := 0xFF.
Definition CSP_ERR_NONE : Z := 0.
Definition CSP_ERR_NOMEM : Z := -1.
Definition CSP_ERR_INVAL : Z := -2.
Definition CSP_ERR_DRIVER : Z := -11.

(** The field [dst] of [csp_id_t], under 6 + 6 bits of ports and 8 of flags. *)
Definition id_dst (ext : Z) : Z := Z.land (Z.shiftr ext (8 + 6 + 6)) (2 ^ 5 - 1).

(** ** The state

    [i2c_uart_lock] and [i2c_uart_ans_lock] are binary semaphores; [written] has
    the bytes that the serial device took in each write, [bufs] the memory that
    [csp_buffer_get] returns on its next calls (null when there is none),
    [freed] what was given back, [fifo] what [csp_qfifo_write] took, [frame_err]
    the counter [csp_if_i2c_uart.frame]. *)
Record uart := Uart {
  i2c_uart_lock_init : bool;
  i2c_uart_lock : bool;
  i2c_uart_ans_lock : bool;
  fd : Z;
  i2c_usart_callback : bool;
  written : list (list Z);
  bufs : list (list Z);
  freed : list (list Z);
  fifo : list (list Z);
  frame_err : Z
}.
Definition set_lock b s := Uart (i2c_uart_lock_init s) b (i2c_uart_ans_lock s) (fd s) (i2c_usart_callback s)
  (written s) (bufs s) (freed s) (fifo s) (frame_err s).
Definition set_ans b s := Uart (i2c_uart_lock_init s) (i2c_uart_lock s) b (fd s) (i2c_usart_callback s)
  (written s) (bufs s) (freed s) (fifo s) (frame_err s).
Definition set_init b s := Uart b (i2c_uart_lock s) (i2c_uart_ans_lock s) (fd s) (i2c_usart_callback s)
  (written s) (bufs s) (freed s) (fifo s) (frame_err s).
Definition set_fd z s := Uart (i2c_uart_lock_init s) (i2c_uart_lock s) (i2c_uart_ans_lock s) z (i2c_usart_callback s)
  (written s) (bufs s) (freed s) (fifo s) (frame_err s).
Definition set_callback b s := Uart (i2c_uart_lock_init s) (i2c_uart_lock s) (i2c_uart_ans_lock s) (fd s) b
  (written s) (bufs s) (freed s) (fifo s) (frame_err s).
Definition add_written f s := Uart (i2c_uart_lock_init s) (i2c_uart_lock s) (i2c_uart_ans_lock s) (fd s) (i2c_usart_callback s)
  (written s ++ [f]) (bufs s) (freed s) (fifo s) (frame_err s).
Definition set_bufs l s := Uart (i2c_uart_lock_init s) (i2c_uart_lock s) (i2c_uart_ans_lock s) (fd s) (i2c_usart_callback s)
  (written s) l (freed s) (fifo s) (frame_err s).
Definition add_freed p s := Uart (i2c_uart_lock_init s) (i2c_uart_lock s) (i2c_uart_ans_lock s) (fd s) (i2c_usart_callback s)
  (written s) (bufs s) (freed s ++ [p]) (fifo s) (frame_err s).
Definition add_fifo p s := Uart (i2c_uart_lock_init s) (i2c_uart_lock s) (i2c_uart_ans_lock s) (fd s) (i2c_usart_callback s)
  (written s) (bufs s) (freed s) (fifo s ++ [p]) (frame_err s).
Definition add_frame_err s := Uart (i2c_uart_lock_init s) (i2c_uart_lock s) (i2c_uart_ans_lock s) (fd s) (i2c_usart_callback s)
  (written s) (bufs s) (freed s) (fifo s) (u32_of (frame_err s + 1)).

(** [csp_bin_sem_wait] with a timeout: [others] is what the other threads do to
    the state meanwhile; the wait fails when the semaphore is still taken. *)
Definition lock_wait (others : uart -> uart) : M uart bool :=
  modify others ;!
  let! free := gets i2c_uart_lock in
  if free then modify (set_lock false) ;! ret true else ret false.
Definition ans_wait (others : uart -> uart) : M uart bool :=
  modify others ;!
  let! free := gets i2c_uart_ans_lock in
  if free then modify (set_ans false) ;! ret true else ret false.

Definition csp_buffer_get : M uart (option (list Z)) :=
  let! l := gets bufs in
  match l with
  | [] => ret None
  | b :: l => modify (set_bufs l) ;! ret (Some b)
  end.

(** ** [csp_i2c_uart_tx] *)

(** The frame of a packet, up to [char *buff]: also the memory of the packet,
    whose identifier is put in network order in place.  [find_mac] is
    [csp_rtable_find_mac]. *)
Definition tx_frame {S} (find_mac : Z -> Z) (packet : list Z) : M S (list Z * list Z) :=
  let! len := list_read packet CSP_PADDING_BYTES 2 in
  let csp_data_len := of_le len + 4 in
  let csp_padding_len := CSP_PADDING_BYTES + 2 in
  if negb (csp_data_len <? I2C_MTU) then fail AssertFail else
  let! id := list_read packet 10 4 in
  let dst := id_dst (of_le id) in
  let i2c_addr := if find_mac dst =? CSP_NODE_MAC then u8_of dst else u8_of (find_mac dst) in
  let! packet := list_write packet 10 (le_bytes 4 (bswap32 (of_le id))) in
  let frame := replicate (Z.to_nat FRAME_SIZE) 0 in
  let! bs := list_read packet 0 (csp_padding_len + csp_data_len) in
  let! frame := list_write frame 0 bs in
  let! frame := list_write frame 7 [i2c_addr] in
  let! frame := list_write frame 5 (le_bytes 2 (csp_padding_len + csp_data_len)) in
  let! frame := list_write frame 8 (le_bytes 2 csp_data_len) in
  let! frame := list_write frame 0 (le_bytes 2 (bswap16 I2C_UART_SYNC)) in
  ret (packet, frame).

(** [write(fd, buf, len)] returns [n]: the number of bytes that the device took,
    from the first on, or -1. *)
Definition os_write (n : Z) (buf : list Z) : M uart Z := modify (add_written (take (Z.to_nat n) buf)) ;! ret n.
Definition i2c_usart_putstr (n : Z) (buf : list Z) : M uart unit :=
  let! rc := os_write n buf in
  if negb (rc =? zlength buf) then ret tt else ret tt.
Definition i2c_usart_putc (n : Z) (c : Z) : M uart unit :=
  let! rc := os_write n [c] in
  if negb (rc =? 1) then ret tt else ret tt.
Definition i2c_usart_set_callback (callback : bool) : M uart unit := modify (set_callback callback).

(** The result and the packet afterwards; [n] is the result of the write. *)
Definition csp_i2c_uart_tx (find_mac : Z -> Z) (others1 : uart -> uart) (n : Z) (others2 : uart -> uart) (packet : list Z) :
    M uart (Z * list Z) :=
  let! ' (packet, frame) := tx_frame find_mac packet in
  let! rc := lock_wait others1 in
  if negb rc then ret (CSP_ERR_DRIVER, packet) else
  i2c_usart_putstr n frame ;!
  let! rc := ans_wait others2 in
  modify (set_lock true) ;!
  if negb rc then ret (CSP_ERR_DRIVER, packet) else
  modify (add_freed packet) ;!
  ret (CSP_ERR_NONE, packet).

(** ** [csp_i2c_uart_rx] *)
Definition csp_i2c_uart_rx (buf : list Z) (len : Z) : M uart unit :=
  if FRAME_SIZE <? len then ret tt else
  let! frame := csp_buffer_get in
  match frame with
  | None => ret tt
  | Some frame =>
      let! bs := list_read buf 0 len in
      let! frame := list_write frame 0 bs in
      let! ltx := list_read frame 8 2 in
      let len_tx := of_le ltx in
      if (len_tx <? 4) || (I2C_MTU <? len_tx) then
        modify add_frame_err ;! modify (add_freed frame)
      else
        let! frame := list_write frame 8 (le_bytes 2 (len_tx - 4)) in
        let! id := list_read frame 10 4 in
        let! packet := list_write frame 10 (le_bytes 4 (bswap32 (of_le id))) in
        modify (add_fifo packet)
  end.

(** ** [serial_rx_thread]

    Between two calls of [read] the thread is in one of the two loops, with
    its buffer [cbuf]. *)
Inductive reader :=
  | Sync (cbuf : list Z)
  | Body (cbuf : list Z) (nbytes : Z).

(** A call of [read] stores bytes (none at the end of the file) or returns -1. *)
Inductive read_result := Bytes (bs : list Z) | ReadError.
Definition read_count (r : read_result) : Z := match r with Bytes bs => zlength bs | ReadError => -1 end.
Definition read_bytes (r : read_result) : list Z := match r with Bytes bs => bs | ReadError => [] end.

(** The number of bytes the thread asks for. *)
Definition wanted (r : reader) : Z := match r with Sync _ => 1 | Body _ _ => FRAME_SIZE - 2 end.

Definition char_O : Z := 0x4F.
Definition char_K : Z := 0x4B.
Definition char_T : Z := 0x54.
Definition char_X : Z := 0x58.

(** The top of the loop, up to the first [read]. *)
Definition rx_start : reader := Sync (replicate (Z.to_nat FRAME_SIZE) 0).

(** The test of the [while] that reads the rest of the frame, where [nbytes]
    is compared as a [size_t]; [None] is [exit(1)]. *)
Definition rx_rest (cbuf : list Z) (nbytes : Z) : M uart (option reader) :=
  if nbytes mod 2 ^ 64 <? FRAME_SIZE then ret (Some (Body cbuf nbytes)) else
  if nbytes <=? 0 then ret None else
  let! cb := gets i2c_usart_callback in
  (if cb then csp_i2c_uart_rx cbuf nbytes else ret tt) ;!
  ret (Some rx_start).

Definition rx_sync (cbuf : list Z) : M uart (option reader) :=
  let! c0 := arr_get cbuf 0 in
  let! c1 := arr_get cbuf 1 in
  if (c0 =? char_O) && (c1 =? char_K) then rx_rest cbuf (0 + 2) else
  if (c0 =? char_T) && (c1 =? char_X) then
    modify (set_ans true) ;! ret (Some rx_start)
  else
    let! cbuf := arr_set cbuf 0 c1 in
    ret (Some (Sync cbuf)).

(** From the return of a [read] to the next. *)
Definition rx_step (r : reader) (x : read_result) : M uart (option reader) :=
  match r with
  | Sync cbuf =>
      let! cbuf := list_write cbuf 1 (read_bytes x) in
      rx_sync cbuf
  | Body cbuf nbytes =>
      let! cbuf := list_write cbuf nbytes (read_bytes x) in
      let! nbytes := cint (nbytes + read_count x) in
      rx_rest cbuf nbytes
  end.

(** The thread over the results of its reads; [None]: it ended the process. *)
Fixpoint serial_rx_thread (xs : list read_result) (r : reader) : M uart (option reader) :=
  match xs with
  | [] => ret (Some r)
  | x :: xs =>
      let! o := rx_step r x in
      match o with None => ret None | Some r => serial_rx_thread xs r end
  end.

(** [i2c_usart_getc]: the byte that [read] stored, 0 when it stored none. *)
Definition i2c_usart_getc (x : read_result) : Z :=
  match x with Bytes [c] => c | _ => 0 end.

(** ** Start

    What the operating system answers in [i2c_usart_init]: the descriptor, the
    success of [tcsetattr], [tcflush] and [pthread_create], the attributes of the
    device, and whether the build has the rates above 230400. *)
Record usart_env := UsartEnv {
  env_open : Z;
  env_setattr : Z;
  env_flush : Z;
  env_thread : Z;
  env_macosx : bool
}.

(** The cases of the [switch]: the rates that have a constant [B...]. *)
Definition baud_supported (macosx : bool) (baudrate : Z) : bool :=
  bool_decide (baudrate ∈ [4800; 9600; 19200; 38400; 57600; 115200; 230400]) ||
  (negb macosx && bool_decide (baudrate ∈ [460800; 500000; 576000; 921600; 1000000; 1152000; 1500000;
     2000000; 2500000; 3000000; 3500000; 4000000])).

Definition i2c_usart_close_fd : M uart unit := modify (set_fd (-1)).

(** The line is set to the rate with 8 bits, no parity and raw input and output. *)
Definition i2c_usart_init (e : usart_env) (baudrate : Z) : M uart Z :=
  if negb (baud_supported (env_macosx e) baudrate) then ret CSP_ERR_INVAL else
  modify (set_fd (env_open e)) ;!
  if env_open e <? 0 then ret CSP_ERR_INVAL else
  if negb (env_setattr e =? 0) then i2c_usart_close_fd ;! ret CSP_ERR_DRIVER else
  if negb (env_flush e =? 0) then i2c_usart_close_fd ;! ret CSP_ERR_DRIVER else
  if negb (env_thread e =? 0) then i2c_usart_close_fd ;! ret CSP_ERR_NOMEM else
  ret CSP_ERR_NONE.

(** [csp_bin_sem_create] leaves a semaphore free. *)
Definition csp_i2c_uart_init (e : usart_env) (speed : Z) : M uart Z :=
  let! lock_init := gets i2c_uart_lock_init in
  (if lock_init then ret tt else
     modify (set_lock true) ;!
     modify (set_ans true) ;!
     ans_wait id ;!
     modify (set_init true)) ;!
  let! rc := i2c_usart_init e speed in
  if negb (rc =? CSP_ERR_NONE) then ret CSP_ERR_DRIVER else
  i2c_usart_set_callback true ;!
  ret CSP_ERR_NONE.

End I2cUart.
Module I2cUartLaws.
Import I2cUart.

(** A memory that holds a packet: its length, its identifier and its data. *)
Definition is_packet (m : list Z) (len id : Z) (data : list Z) : Prop :=
  exists pad rest, m = pad ++ le_bytes 2 len ++ le_bytes 4 id ++ data ++ rest /\
    length pad = 8%nat /\ zlength data = len /\ 0 <= id < 2 ^ 32.

(** The frame of a packet, byte by byte. *)
Definition frame_of (pad : list Z) (mac len id : Z) (data : list Z) : list Z :=
  [char_O; char_K] ++ pad ++ le_bytes 2 (10 + (len + 4)) ++ [mac] ++ le_bytes 2 (len + 4) ++
  le_bytes 4 (bswap32 id) ++ data ++ replicate (Z.to_nat (251 - len)) 0.

Definition mac_of (find_mac : Z -> Z) (id : Z) : Z :=
  if find_mac (id_dst id) =? CSP_NODE_MAC then u8_of (id_dst id) else u8_of (find_mac (id_dst id)).

Lemma zlength_le_bytes n z : zlength (le_bytes n z) = Z.of_nat n.
Proof. unfold zlength. by rewrite length_le_bytes. Qed.

Lemma list_read_at {S A} (a b c : list A) off n (s : S) :
  off = zlength a -> n = zlength b -> list_read (a ++ b ++ c) off n s = Ret (b, s).
Proof. intros -> ->. apply list_read_ok. Qed.

Lemma list_write_at {S A} (a b c bs : list A) off (s : S) :
  off = zlength a -> length bs = length b -> list_write (a ++ b ++ c) off bs s = Ret (a ++ bs ++ c, s).
Proof. intros ->. apply list_write_ok. Qed.

Lemma list_write_0 {S A} (b c bs : list A) (s : S) :
  length bs = length b -> list_write (b ++ c) 0 bs s = Ret (bs ++ c, s).
Proof. intros H. apply (list_write_at [] b c bs 0 s eq_refl H). Qed.

Lemma list_read_0 {S A} (b c : list A) n (s : S) :
  n = zlength b -> list_read (b ++ c) 0 n s = Ret (b, s).
Proof. intros H. by apply (list_read_at [] b c 0 n s). Qed.

Lemma bswap32_twice z : 0 <= z < 2 ^ 32 -> bswap32 (bswap32 z) = z.
Proof. intros H. rewrite bswap32_involutive. by apply u32_of_id. Qed.

Lemma of_le_2 z : 0 <= z < 2 ^ 16 -> of_le (le_bytes 2 z) = z.
Proof. intros. rewrite of_le_bytes. apply Z.mod_small. done. Qed.
Lemma of_le_4 z : 0 <= z < 2 ^ 32 -> of_le (le_bytes 4 z) = z.
Proof. intros. rewrite of_le_bytes. apply Z.mod_small. done. Qed.

Lemma sync_bytes : le_bytes 2 (bswap16 I2C_UART_SYNC) = [char_O; char_K].
Proof. reflexivity. Qed.

Lemma zlength_frame pad mac len id data :
  length pad = 3%nat -> zlength data = len -> 0 <= len <= 250 -> zlength (frame_of pad mac len id data) = FRAME_SIZE.
Proof.
  intros Hp Hd Hl. unfold frame_of, zlength in *.
  rewrite !length_app, !length_le_bytes, length_replicate, Hp. cbn [length]. unfold FRAME_SIZE, I2C_MTU. lia.
Qed.

(** The frame that is sent, and the packet after it. *)
Lemma tx_frame_ok {S} find_mac p0 p1 p2 p3 p4 p5 p6 p7 len id data rest (s : S) :
  let pad := [p0; p1; p2; p3; p4; p5; p6; p7] in
  zlength data = len -> len <= 250 -> 0 <= id < 2 ^ 32 ->
  tx_frame find_mac (pad ++ le_bytes 2 len ++ le_bytes 4 id ++ data ++ rest) s =
  Ret ((pad ++ le_bytes 2 len ++ le_bytes 4 (bswap32 id) ++ data ++ rest,
        frame_of [p2; p3; p4] (mac_of find_mac id) len id data), s).
Proof.
  intros pad Hd Hl Hid. assert (0 <= len) by (unfold zlength in *; lia). unfold tx_frame.
  rewrite (bind_step _ _ s (le_bytes 2 len) s)
    by (apply list_read_at; [done|by rewrite zlength_le_bytes]).
  cbv beta zeta. rewrite of_le_2 by lia.
  destruct (len + 4 <? I2C_MTU) eqn:E; bool_to_prop; [|unfold I2C_MTU in *; lia]. cbn [negb].
  rewrite (bind_step _ _ s (le_bytes 4 id) s)
    by (rewrite (app_assoc pad); apply list_read_at; [done|by rewrite zlength_le_bytes]).
  cbv beta zeta. rewrite of_le_4 by done. fold (mac_of find_mac id).
  rewrite (bind_step _ _ s (pad ++ le_bytes 2 len ++ le_bytes 4 (bswap32 id) ++ data ++ rest) s)
    by (rewrite (app_assoc pad), (list_write_at _ _ _ (le_bytes 4 (bswap32 id))) by done; by rewrite <- app_assoc).
  set (bs := pad ++ le_bytes 2 len ++ le_bytes 4 (bswap32 id) ++ data).
  assert (zlength bs = 14 + len) as Hbs.
  { unfold bs. rewrite !zlength_app, !zlength_le_bytes, Hd. change (zlength pad) with 8. lia. }
  rewrite (bind_step _ _ s bs s).
  2: { replace (pad ++ le_bytes 2 len ++ le_bytes 4 (bswap32 id) ++ data ++ rest) with (bs ++ rest)
         by (unfold bs; by rewrite <- !app_assoc).
       apply list_read_0. rewrite Hbs. unfold CSP_PADDING_BYTES. lia. }
  set (tl := replicate (Z.to_nat (251 - len)) 0).
  assert (Z.to_nat FRAME_SIZE = length bs + Z.to_nat (251 - len))%nat as Hn.
  { clear -Hbs Hl H. clearbody bs. unfold zlength in Hbs. unfold FRAME_SIZE, I2C_MTU. lia. }
  rewrite (bind_step _ _ s (bs ++ tl) s).
  2: { rewrite Hn.
       rewrite replicate_add. apply list_write_0. by rewrite length_replicate. }
  clear Hn. unfold bs, pad. clear bs Hbs.
  replace (([p0; p1; p2; p3; p4; p5; p6; p7] ++ le_bytes 2 len ++ le_bytes 4 (bswap32 id) ++ data) ++ tl)
    with ([p0; p1; p2; p3; p4; p5; p6] ++ [p7] ++ le_bytes 2 len ++ le_bytes 4 (bswap32 id) ++ data ++ tl)
    by (rewrite <- !app_assoc; reflexivity).
  rewrite (bind_step _ _ s _ s (list_write_at [p0; p1; p2; p3; p4; p5; p6] [p7] _ [mac_of find_mac id] 7 s eq_refl eq_refl)).
  change ([p0; p1; p2; p3; p4; p5; p6] ++ ?x) with ([p0; p1; p2; p3; p4] ++ [p5; p6] ++ x).
  rewrite (bind_step _ _ s _ s (list_write_at [p0; p1; p2; p3; p4] [p5; p6] _
    (le_bytes 2 (CSP_PADDING_BYTES + 2 + (len + 4))) 5 s eq_refl eq_refl)).
  set (l10 := le_bytes 2 (CSP_PADDING_BYTES + 2 + (len + 4))). set (mac := [mac_of find_mac id]).
  rewrite (app_assoc l10 mac), (app_assoc [p0; p1; p2; p3; p4] (l10 ++ mac)).
  rewrite (bind_step _ _ s _ s (list_write_at ([p0; p1; p2; p3; p4] ++ l10 ++ mac) (le_bytes 2 len) _
    (le_bytes 2 (len + 4)) 8 s eq_refl eq_refl)).
  rewrite <- (app_assoc [p0; p1; p2; p3; p4] (l10 ++ mac)).
  change ([p0; p1; p2; p3; p4] ++ ?x) with ([p0; p1] ++ [p2; p3; p4] ++ x).
  rewrite (bind_step _ _ s _ s (list_write_0 [p0; p1] _ (le_bytes 2 (bswap16 I2C_UART_SYNC)) s eq_refl)).
  rewrite sync_bytes. reflexivity.
Qed.

(** ** Receiving a frame *)
Lemma rx_frame_ok pad mac len id data b s l :
  length pad = 3%nat -> zlength data = len -> len <= 250 -> 0 <= id < 2 ^ 32 ->
  bufs s = b :: l -> FRAME_SIZE <= zlength b ->
  exists m, is_packet m len id data /\
    csp_i2c_uart_rx (frame_of pad mac len id data) FRAME_SIZE s = Ret (tt, add_fifo m (set_bufs l s)).
Proof.
  intros Hp Hd Hl Hid Hb Hlen. assert (0 <= len) by (unfold zlength in *; lia).
  pose proof (zlength_frame pad mac len id data Hp Hd ltac:(lia)) as Hfr.
  destruct pad as [|p2 [|p3 [|p4 [|? ?]]]]; try discriminate Hp.
  unfold csp_i2c_uart_rx. rewrite Z.ltb_irrefl.
  unfold csp_buffer_get. erewrite bind_step; [|unfold bind, gets; cbn beta iota; rewrite Hb; reflexivity].
  cbv beta iota. set (s1 := set_bufs l s).
  set (fr := frame_of [p2; p3; p4] mac len id data) in *.
  rewrite (bind_step _ _ s1 fr s1)
    by (rewrite <- (app_nil_r fr) at 1; by apply list_read_0).
  set (post := drop (Z.to_nat FRAME_SIZE) b).
  rewrite (bind_step _ _ s1 (fr ++ post) s1).
  2: { rewrite <- (take_drop (Z.to_nat FRAME_SIZE) b). apply list_write_0.
       rewrite length_take. unfold zlength in *. lia. }
  set (tl := replicate (Z.to_nat (251 - len)) 0).
  assert (fr ++ post = [char_O; char_K; p2; p3; p4] ++ le_bytes 2 (10 + (len + 4)) ++ [mac] ++ le_bytes 2 (len + 4) ++
            le_bytes 4 (bswap32 id) ++ data ++ tl ++ post) as ->
    by (unfold fr, frame_of; rewrite <- !app_assoc; reflexivity).
  set (hd := [char_O; char_K; p2; p3; p4] ++ le_bytes 2 (10 + (len + 4)) ++ [mac]).
  assert (forall x, [char_O; char_K; p2; p3; p4] ++ le_bytes 2 (10 + (len + 4)) ++ [mac] ++ x = hd ++ x) as Eh
    by (intros; unfold hd; by rewrite <- !app_assoc).
  rewrite !Eh. assert (zlength hd = 8) as Hh by reflexivity.
  rewrite (bind_step _ _ s1 (le_bytes 2 (len + 4)) s1)
    by (apply list_read_at; by rewrite ?Hh, ?zlength_le_bytes).
  cbv beta zeta. rewrite of_le_2 by lia.
  destruct ((len + 4 <? 4) || _) eqn:E; bool_to_prop; [unfold I2C_MTU in *; lia|].
  replace (len + 4 - 4) with len by lia.
  rewrite (bind_step _ _ s1 _ s1 (list_write_at hd (le_bytes 2 (len + 4)) _ (le_bytes 2 len) 8 s1 (eq_sym Hh) eq_refl)).
  rewrite (app_assoc hd).
  assert (10 = zlength (hd ++ le_bytes 2 len)) as H10 by (by rewrite zlength_app, Hh, zlength_le_bytes).
  rewrite (bind_step _ _ s1 (le_bytes 4 (bswap32 id)) s1)
    by (apply list_read_at; [done|by rewrite zlength_le_bytes]).
  rewrite of_le_4 by apply bswap32_range. rewrite bswap32_twice by done.
  erewrite bind_step by (apply list_write_at; [exact H10|reflexivity]).
  eexists. split; [|reflexivity]. exists hd, (tl ++ post). splits; try done; lia.
Qed.

(** ** The stream of bytes on the line

    What arrives is a sequence of messages: acknowledgements and frames, each
    after some noise.  The driver of the terminal may cut the bytes of a frame
    anywhere ([parts]). *)
Inductive message :=
  | Ack
  | Packet (pad : list Z) (mac len id : Z) (data : list Z) (parts : list (list Z)).

(** No pair of neighbours in [c :: bs] is a synchronisation mark. *)
Definition is_mark (c0 c1 : Z) : bool :=
  ((c0 =? char_O) && (c1 =? char_K)) || ((c0 =? char_T) && (c1 =? char_X)).
Fixpoint no_mark (c : Z) (bs : list Z) : bool :=
  match bs with [] => true | b :: bs => negb (is_mark c b) && no_mark b bs end.

Definition message_ok (m : message) : Prop :=
  match m with
  | Ack => True
  | Packet pad mac len id data parts =>
      length pad = 3%nat /\ zlength data = len /\ len <= 250 /\ 0 <= id < 2 ^ 32 /\
      concat parts = drop 2 (frame_of pad mac len id data) /\ Forall (fun p => p <> []) parts
  end.

(** The results of the thread's reads for one message. *)
Definition reads_of (m : message) : list read_result :=
  match m with
  | Ack => [Bytes [char_T]; Bytes [char_X]]
  | Packet pad mac len id data parts => [Bytes [char_O]; Bytes [char_K]] ++ map Bytes parts
  end.
Definition noise_reads (bs : list Z) : list read_result := map (fun b => Bytes [b]) bs.
Definition line (ms : list (list Z * message)) : list read_result :=
  concat (map (fun '(noise, m) => noise_reads noise ++ reads_of m) ms).

Definition is_ack (m : message) : bool := match m with Ack => true | _ => false end.
Definition packets (ms : list (list Z * message)) : list (Z * Z * list Z) :=
  flat_map (fun '(_, m) => match m with Ack => [] | Packet _ _ len id data _ => [(len, id, data)] end) ms.

Lemma serial_app xs ys r s r' s' :
  serial_rx_thread xs r s = Ret (Some r', s') -> serial_rx_thread (xs ++ ys) r s = serial_rx_thread ys r' s'.
Proof.
  revert r s. induction xs as [|x xs IH]; intros r s; cbn.
  - unfold ret. by intros [= -> ->].
  - unfold bind. destruct (rx_step r x s) as [[[r1|] s1]|f]; cbn; [apply IH|done|done].
Qed.

(** One byte outside a frame. *)
Lemma sync_step c tl b s : rx_step (Sync (c :: c :: tl)) (Bytes [b]) s = rx_sync (c :: b :: tl) s.
Proof.
  unfold rx_step. cbn [read_bytes].
  by rewrite (bind_step _ _ s (c :: b :: tl) s) by (exact (list_write_at [c] [c] tl [b] 1 s eq_refl eq_refl)).
Qed.

Lemma sync_byte c tl b s :
  is_mark c b = false ->
  rx_step (Sync (c :: c :: tl)) (Bytes [b]) s = Ret (Some (Sync (b :: b :: tl)), s).
Proof.
  intros H. rewrite sync_step. unfold is_mark in H. apply orb_false_iff in H as [H1 H2].
  unfold rx_sync. rewrite (bind_step _ _ s c s), (bind_step _ _ s b s), H1, H2 by reflexivity. reflexivity.
Qed.

Lemma not_mark_O c : is_mark c char_O = false.
Proof. unfold is_mark, char_O, char_K, char_T, char_X. cbn. by rewrite !andb_false_r. Qed.
Lemma not_mark_T c : is_mark c char_T = false.
Proof. unfold is_mark, char_O, char_K, char_T, char_X. cbn. by rewrite !andb_false_r. Qed.

Lemma sync_noise bs c tl s :
  no_mark c bs = true -> exists c',
  serial_rx_thread (noise_reads bs) (Sync (c :: c :: tl)) s = Ret (Some (Sync (c' :: c' :: tl)), s).
Proof.
  revert c. induction bs as [|b bs IH]; intros c; cbn [no_mark noise_reads map serial_rx_thread]; [by exists c|].
  intros [H1%negb_true_iff H2]%andb_prop. destruct (IH b H2) as [c' E]. exists c'.
  by rewrite (bind_step _ _ _ _ _ (sync_byte c tl b s H1)).
Qed.

Lemma ack_reads c tl s :
  serial_rx_thread (reads_of Ack) (Sync (c :: c :: tl)) s = Ret (Some rx_start, set_ans true s).
Proof.
  cbn [reads_of serial_rx_thread].
  rewrite (bind_step _ _ _ _ _ (sync_byte _ _ _ _ (not_mark_T c))). cbv beta iota.
  rewrite (bind_step _ _ _ (Some rx_start) (set_ans true s)); [done|]. by rewrite sync_step.
Qed.

(** The rest of a frame, however it is cut. *)
Lemma body_parts parts pre tl s s' :
  Forall (fun p => p <> []) parts -> length tl = length (concat parts) -> tl <> [] -> pre <> [] ->
  zlength (pre ++ tl) = FRAME_SIZE -> i2c_usart_callback s = true ->
  csp_i2c_uart_rx (pre ++ concat parts) FRAME_SIZE s = Ret (tt, s') ->
  serial_rx_thread (map Bytes parts) (Body (pre ++ tl) (zlength pre)) s = Ret (Some rx_start, s').
Proof.
  revert pre tl. induction parts as [|p parts IH]; intros pre tl Hne Hl Htl Hpre Hsz Hcb Hrx.
  { by destruct tl. }
  cbn [concat map serial_rx_thread] in *. rewrite length_app in Hl.
  assert (0 < zlength pre) as Hpos by (destruct pre; [done|unfold zlength; cbn; lia]).
  inversion Hne as [|? ? Hp Hps]; subst.
  pose proof (take_drop (length p) tl) as Etl.
  assert (length (take (length p) tl) = length p) as Ht by (rewrite length_take; lia).
  assert (length (drop (length p) tl) = length (concat parts)) as Hl' by (rewrite length_drop; lia).
  set (tl' := drop (length p) tl) in *.
  assert (zlength (pre ++ p) + zlength tl' = FRAME_SIZE) as Hsz'
    by (rewrite <- Hsz, !zlength_app; unfold zlength; lia).
  assert (rx_step (Body (pre ++ tl) (zlength pre)) (Bytes p) s = rx_rest ((pre ++ p) ++ tl') (zlength (pre ++ p)) s) as Estep.
  { unfold rx_step. cbn [read_bytes read_count].
    rewrite (bind_step _ _ s ((pre ++ p) ++ tl') s)
      by (rewrite <- Etl, <- app_assoc; by apply list_write_at).
    rewrite <- zlength_app.
    rewrite (bind_step _ _ s (zlength (pre ++ p)) s); [done|]. apply cint_ok.
    unfold INT_MIN, INT_MAX, FRAME_SIZE, I2C_MTU, zlength in *. lia. }
  unfold bind. rewrite Estep. unfold rx_rest. rewrite Z.mod_small
    by (unfold FRAME_SIZE, I2C_MTU, zlength in *; lia).
  rewrite app_assoc in Hrx. destruct tl' as [|t tl'].
  - destruct parts as [|p' parts]; [|inversion Hps as [|? ? Hp' _]; subst; destruct p'; [done|cbn in Hl'; lia]].
    cbn [concat] in Hrx. rewrite app_nil_r in *. change (zlength []) with 0 in Hsz'. rewrite Z.add_0_r in Hsz'.
    rewrite Hsz'. change (FRAME_SIZE <? FRAME_SIZE) with false. change (FRAME_SIZE <=? 0) with false. cbv iota.
    unfold bind, gets. cbn beta iota. rewrite Hcb. by rewrite Hrx.
  - destruct (_ <? _) eqn:E; bool_to_prop; [|rewrite zlength_cons in Hsz'; unfold zlength in *; lia].
    unfold ret. apply IH; try done.
    + by destruct pre.
    + by rewrite zlength_app.
Qed.

Lemma packet_reads (c : Z) pad mac len id data parts s b l :
  message_ok (Packet pad mac len id data parts) -> i2c_usart_callback s = true ->
  bufs s = b :: l -> FRAME_SIZE <= zlength b ->
  exists m, is_packet m len id data /\
    serial_rx_thread (reads_of (Packet pad mac len id data parts)) (Sync (c :: c :: replicate 263 0)) s =
    Ret (Some rx_start, add_fifo m (set_bufs l s)).
Proof.
  intros (Hp & Hd & Hl & Hid & Hparts & Hne) Hcb Hb Hlen.
  destruct (rx_frame_ok pad mac len id data b s l) as (m & Hm & Erx); try done.
  exists m. split; [done|]. cbn [reads_of app serial_rx_thread].
  rewrite (bind_step _ _ _ _ _ (sync_byte _ _ _ _ (not_mark_O c))). cbv beta iota.
  rewrite (bind_step _ _ s (Some (Body ([char_O; char_K] ++ replicate 263 0) 2)) s) by (by rewrite sync_step).
  assert (0 <= len) by (unfold zlength in *; lia).
  pose proof (zlength_frame pad mac len id data Hp Hd ltac:(lia)) as Hfr.
  assert ([char_O; char_K] ++ concat parts = frame_of pad mac len id data) as Efr
    by (rewrite Hparts; reflexivity).
  apply body_parts; try done.
  - rewrite Hparts, length_drop, length_replicate. unfold zlength, FRAME_SIZE, I2C_MTU in Hfr. lia.
  - by rewrite Efr.
Qed.

(** A state that differs only in what the messages brought. *)
Definition received (s : uart) (acked : bool) (ms : list (list Z)) (n : nat) (s' : uart) : Prop :=
  s' = Uart (i2c_uart_lock_init s) (i2c_uart_lock s) (acked || i2c_uart_ans_lock s) (fd s) (i2c_usart_callback s)
         (written s) (drop n (bufs s)) (freed s) (fifo s ++ ms) (frame_err s).
Lemma rx_start_eq : rx_start = Sync (0 :: 0 :: replicate 263 0).
Proof. reflexivity. Qed.

Lemma serial_delivers_lemma ms s :
  Forall (fun '(noise, m) => no_mark 0 noise = true /\ message_ok m) ms ->
  i2c_usart_callback s = true -> Forall (fun b => FRAME_SIZE <= zlength b) (bufs s) ->
  (length (packets ms) <= length (bufs s))%nat ->
  exists got s', serial_rx_thread (line ms) rx_start s = Ret (Some rx_start, s') /\
    received s (existsb (fun '(_, m) => is_ack m) ms) got (length got) s' /\
    Forall2 (fun m '(len, id, data) => is_packet m len id data) got (packets ms).
Proof.
  revert s. induction ms as [|[noise m] ms IH]; intros s Hok Hcb Hb Hn.
  { exists [], s. splits; [done| |by constructor]. unfold received. rewrite app_nil_r. by destruct s. }
  apply Forall_cons in Hok as [H0 Hms]. cbv beta iota in H0. destruct H0 as [Hnoise Hm]. unfold line. cbn [map concat]. fold (line ms).
  destruct (sync_noise noise 0 (replicate 263 0) s Hnoise) as [c Enoise]. rewrite <- rx_start_eq in Enoise.
  rewrite <- app_assoc, (serial_app _ _ _ _ _ _ Enoise).
  destruct m as [|pad mac len id data parts].
  - rewrite (serial_app _ _ _ _ _ _ (ack_reads _ _ _)).
    destruct (IH (set_ans true s) Hms Hcb Hb Hn) as (got & s' & E & Hs & HF).
    exists got, s'. splits; [done| |done]. unfold received in *. rewrite Hs. cbn. by rewrite orb_true_r.
  - cbn [packets flat_map app length] in Hn. destruct (bufs s) as [|b l] eqn:Eb; [cbn in Hn; lia|].
    inversion Hb as [|? ? Hb0 Hbs]; subst. cbn [length] in Hn.
    destruct (packet_reads c pad mac len id data parts s b l Hm Hcb Eb Hb0) as (m & Hpk & Ep).
    rewrite (serial_app _ _ _ _ _ _ Ep).
    destruct (IH (add_fifo m (set_bufs l s)) Hms Hcb Hbs ltac:(cbn; unfold packets; lia)) as (got & s' & E & Hs & HF).
    exists (m :: got), s'. splits; [done| |constructor; [exact Hpk|exact HF]].
    unfold received in *. rewrite Hs. cbn. rewrite Eb, <- app_assoc. done.
Qed.

(** ** Any input

    The thread's state between two reads. *)
Definition reader_ok (r : reader) : Prop :=
  match r with
  | Sync cbuf => zlength cbuf = FRAME_SIZE
  | Body cbuf nbytes => zlength cbuf = FRAME_SIZE /\ 0 <= nbytes < FRAME_SIZE
  end.
(** What a [read] may store: what was asked for, and in the body of a frame
    also no more than is missing of the frame. *)
Definition read_ok (r : reader) (x : read_result) : Prop :=
  match r with
  | Sync _ => read_count x <= 1
  | Body _ nbytes => read_count x <= FRAME_SIZE - nbytes
  end.

Lemma list_write_total {S} (l : list Z) off bs (s : S) :
  0 <= off -> off + zlength bs <= zlength l ->
  exists l', list_write l off bs s = Ret (l', s) /\ zlength l' = zlength l.
Proof.
  intros H1 H2. unfold list_write. rewrite (proj2 (Z.leb_le 0 off)), (proj2 (Z.leb_le (_ + _) _)) by done.
  eexists. split; [reflexivity|]. unfold zlength in *. rewrite !length_app, length_take, length_drop. lia.
Qed.
Lemma list_read_total {S} (l : list Z) off n (s : S) :
  0 <= off -> 0 <= n -> off + n <= zlength l ->
  exists bs, list_read l off n s = Ret (bs, s) /\ zlength bs = n.
Proof.
  intros H1 H2 H3. unfold list_read.
  rewrite (proj2 (Z.leb_le 0 off)), (proj2 (Z.leb_le 0 n)), (proj2 (Z.leb_le (_ + _) _)) by done.
  eexists. split; [reflexivity|]. unfold zlength in *. rewrite length_take, length_drop. lia.
Qed.

Definition pool_ok (s : uart) : Prop := Forall (fun b => FRAME_SIZE <= zlength b) (bufs s).

Lemma csp_i2c_uart_rx_total cbuf len s :
  zlength cbuf = FRAME_SIZE -> 0 < len -> pool_ok s ->
  exists s', csp_i2c_uart_rx cbuf len s = Ret (tt, s') /\ pool_ok s'.
Proof.
  intros Hc Hlen Hp. unfold csp_i2c_uart_rx.
  destruct (FRAME_SIZE <? len) eqn:E; bool_to_prop; [by exists s|].
  unfold csp_buffer_get, bind at 1 2, gets. cbn beta iota. unfold pool_ok in Hp.
  destruct (bufs s) as [|b l] eqn:Eb; [exists s; split; [done|]; unfold pool_ok; by rewrite Eb|].
  inversion Hp as [|? ? Hb Hl]; subst. cbn beta iota. unfold modify at 1, bind at 1, ret at 1. cbn beta iota.
  destruct (list_read_total cbuf 0 len (set_bufs l s)) as (bs & E1 & Hbs); [lia..|].
  rewrite (bind_step _ _ _ _ _ E1).
  destruct (list_write_total b 0 bs (set_bufs l s)) as (f1 & E2 & Hf1); [lia..|].
  rewrite (bind_step _ _ _ _ _ E2). unfold FRAME_SIZE, I2C_MTU in *.
  destruct (list_read_total f1 8 2 (set_bufs l s)) as (lt & E3 & Hlt); [lia..|].
  rewrite (bind_step _ _ _ _ _ E3). cbv beta zeta.
  destruct (_ || _); [eexists; split; [reflexivity|exact Hl]|].
  destruct (list_write_total f1 8 (le_bytes 2 (of_le lt - 4)) (set_bufs l s)) as (f2 & E4 & Hf2);
    [lia|rewrite zlength_le_bytes; lia|].
  rewrite (bind_step _ _ _ _ _ E4).
  destruct (list_read_total f2 10 4 (set_bufs l s)) as (i4 & E5 & Hi4); [lia..|].
  rewrite (bind_step _ _ _ _ _ E5).
  destruct (list_write_total f2 10 (le_bytes 4 (bswap32 (of_le i4))) (set_bufs l s)) as (f3 & E6 & Hf3);
    [lia|rewrite zlength_le_bytes; lia|].
  rewrite (bind_step _ _ _ _ _ E6). eexists. split; [reflexivity|exact Hl].
Qed.

Lemma rx_rest_total cbuf nbytes s :
  zlength cbuf = FRAME_SIZE -> -1 <= nbytes <= FRAME_SIZE -> pool_ok s ->
  exists o s', rx_rest cbuf nbytes s = Ret (o, s') /\ pool_ok s' /\ match o with Some r => reader_ok r | None => nbytes < 0 end.
Proof.
  intros Hc Hn Hp. unfold rx_rest. destruct (decide (nbytes = -1)) as [->|Hne].
  { exists None, s. splits; [reflexivity|done|lia]. }
  rewrite Z.mod_small by (unfold FRAME_SIZE, I2C_MTU in *; lia).
  destruct (nbytes <? FRAME_SIZE) eqn:E; bool_to_prop.
  { eexists _, s. splits; [reflexivity|done|]. cbn. lia. }
  destruct (nbytes <=? 0) eqn:E0; bool_to_prop; [unfold FRAME_SIZE, I2C_MTU in *; lia|].
  unfold bind at 1, gets. cbn beta iota. destruct (i2c_usart_callback s).
  - destruct (csp_i2c_uart_rx_total cbuf nbytes s Hc ltac:(lia) Hp) as (s' & E1 & Hp').
    rewrite (bind_step _ _ _ _ _ E1). by eexists _, s'.
  - by eexists _, s.
Qed.

Lemma rx_step_total r x s :
  reader_ok r -> read_ok r x -> pool_ok s ->
  exists o s', rx_step r x s = Ret (o, s') /\ pool_ok s' /\ (forall r', o = Some r' -> reader_ok r') /\
    (o = None -> exists cbuf, r = Body cbuf 0 /\ x = ReadError).
Proof.
  assert (zlength (read_bytes x) <= Z.max 0 (read_count x)) as Hx by (destruct x; cbn; unfold zlength; cbn; lia).
  assert (-1 <= read_count x) as Hx1 by (destruct x; cbn; unfold zlength; lia).
  destruct r as [cbuf|cbuf nbytes]; cbn [reader_ok read_ok rx_step].
  - intros Hc Hr Hp. destruct (list_write_total cbuf 1 (read_bytes x) s) as (c1 & E1 & Hc1);
      [lia|unfold FRAME_SIZE, I2C_MTU in *; lia|].
    rewrite (bind_step _ _ _ _ _ E1). unfold rx_sync.
    assert (FRAME_SIZE = 265) as H265 by done.
    destruct (zlookup_lt c1 0 ltac:(lia)) as [a Ea]. rewrite (bind_step _ _ s a s) by (by apply arr_get_Some).
    destruct (zlookup_lt c1 1 ltac:(lia)) as [b Eb]. rewrite (bind_step _ _ s b s) by (by apply arr_get_Some).
    destruct (_ && _).
    { destruct (rx_rest_total c1 (0 + 2) s ltac:(lia) ltac:(lia) Hp) as (o & s' & E & Hp' & Ho).
      exists o, s'. splits; [done|done|intros r' ->; done|intros ->; lia]. }
    destruct (_ && _).
    { eexists _, _. splits; [reflexivity|done|intros r' [= <-]; done|done]. }
    rewrite (bind_step _ _ _ _ _ (arr_set_ok c1 0 b s ltac:(lia))).
    eexists _, _. splits; [reflexivity|done| |done]. intros r' [= <-]. cbn [reader_ok]. rewrite zlength_zinsert. lia.
  - intros [Hc Hn] Hr Hp. destruct (list_write_total cbuf nbytes (read_bytes x) s) as (c1 & E1 & Hc1); [lia..|].
    rewrite (bind_step _ _ _ _ _ E1). rewrite (bind_step _ _ s (nbytes + read_count x) s)
      by (apply cint_ok; unfold FRAME_SIZE, I2C_MTU, INT_MIN, INT_MAX in *; lia).
    destruct (rx_rest_total c1 (nbytes + read_count x) s ltac:(lia) ltac:(lia) Hp) as (o & s' & E & Hp' & Ho).
    exists o, s'. splits; [done|done|intros r' ->; done|]. intros ->. exists cbuf.
    assert (nbytes = 0) as -> by lia. split; [done|]. destruct x; [cbn in Ho; unfold zlength in Ho; lia|done].
Qed.

(** ** Several senders

    [csp_i2c_uart_tx] is called by any number of threads.  What a thread does
    between two waits is one step; [wire] has the frames that were given to
    [write], with its thread and the result of the call, [answers] the position on
    the wire of the frame that each ["TX"] of the controller is about, and [replies]
    the thread and the position of the last frame on the wire for each call that
    returned [CSP_ERR_NONE]. *)
Inductive sender :=
  | Idle
  | WaitLock (packet frame : list Z)
  | WaitAns (packet : list Z).

Record link := Link {
  lk : uart;
  senders : gmap nat sender;
  wire : list (nat * list Z * Z);
  answers : list nat;
  replies : list (nat * nat)
}.
Definition sender_of (l : link) (t : nat) : sender := default Idle (senders l !! t).
Definition last_frame (l : link) : nat := Nat.pred (length (wire l)).

(** The four steps of a call: its start, the frame on the wire, the end after an
    answer and the two ends without. *)
Definition after_putstr n frame s : uart :=
  match i2c_usart_putstr n frame s with Ret (_, s') => s' | Fault _ => s end.
Definition after_call t packet frame l :=
  Link (lk l) (<[t := WaitLock packet frame]> (senders l)) (wire l) (answers l) (replies l).
Definition after_lock t packet frame n l :=
  Link (after_putstr n frame (set_lock false (lk l))) (<[t := WaitAns packet]> (senders l)) (wire l ++ [(t, frame, n)])
    (answers l) (replies l).
Definition after_no_lock t l := Link (lk l) (<[t := Idle]> (senders l)) (wire l) (answers l) (replies l).
Definition after_answer t packet l :=
  Link (add_freed packet (set_lock true (set_ans false (lk l)))) (<[t := Idle]> (senders l)) (wire l)
    (answers l) (replies l ++ [(t, last_frame l)]).
Definition after_no_answer t l :=
  Link (set_lock true (lk l)) (<[t := Idle]> (senders l)) (wire l) (answers l) (replies l).
(** The receiving thread reads ["TX"], the answer to the frame at [i]. *)
Definition after_tx i l := Link (set_ans true (lk l)) (senders l) (wire l) (answers l ++ [i]) (replies l).

(** The controller answers in time: the last frame, which it has got whole, and
    while its sender waits. *)
Definition in_time (l : link) (i : nat) : Prop :=
  i = last_frame l /\ (exists t frame, wire l !! i = Some (t, frame, zlength frame)) /\
  exists t packet, sender_of l t = WaitAns packet.

(** [timely]: the controller answers in time; otherwise when it likes. *)
Inductive link_step (timely : bool) : link -> link -> Prop :=
  | step_call l t packet frame :
      sender_of l t = Idle -> link_step timely l (after_call t packet frame l)
  | step_lock l t packet frame n :
      sender_of l t = WaitLock packet frame -> i2c_uart_lock (lk l) = true -> -1 <= n <= zlength frame ->
      link_step timely l (after_lock t packet frame n l)
  | step_no_lock l t packet frame :
      sender_of l t = WaitLock packet frame -> i2c_uart_lock (lk l) = false ->
      link_step timely l (after_no_lock t l)
  | step_answer l t packet :
      sender_of l t = WaitAns packet -> i2c_uart_ans_lock (lk l) = true ->
      link_step timely l (after_answer t packet l)
  | step_no_answer l t packet :
      sender_of l t = WaitAns packet -> i2c_uart_ans_lock (lk l) = false ->
      link_step timely l (after_no_answer t l)
  | step_tx l i :
      (i < length (wire l))%nat -> (timely = true -> in_time l i) ->
      link_step timely l (after_tx i l).

Definition link_start (s : uart) : link := Link s ∅ [] [] [].

Lemma sender_of_insert l t t' p r w a rp :
  sender_of (Link l (<[t := p]> r) w a rp) t' = if decide (t = t') then p else default Idle (r !! t').
Proof.
  unfold sender_of. cbn [senders]. case_decide as E; [subst; by rewrite lookup_insert_eq|by rewrite lookup_insert_ne].
Qed.

(** What the device took of a frame. *)
Definition taken (x : nat * list Z * Z) : list Z := take (Z.to_nat x.2) (x.1).2.

(** One sender at a time is between its write and its answer; a call that
    succeeds confirms the frame of its own thread, which no call confirmed before. *)
Record link_ok (l : link) : Prop := LinkOk {
  lo_lock : forall t packet, sender_of l t = WaitAns packet -> i2c_uart_lock (lk l) = false;
  lo_one : forall t1 t2 p1 p2, sender_of l t1 = WaitAns p1 -> sender_of l t2 = WaitAns p2 -> t1 = t2;
  lo_last : forall t packet, sender_of l t = WaitAns packet ->
    exists w frame n, wire l = w ++ [(t, frame, n)] /\ Forall (fun i => i < length w)%nat (replies l).*2;
  lo_written : map taken (wire l) = written (lk l);
  lo_count : (length (replies l) + Nat.b2n (i2c_uart_ans_lock (lk l)) <= length (answers l))%nat;
  lo_once : StronglySorted lt (replies l).*2;
  lo_own : forall t i, (t, i) ∈ replies l -> exists frame n, wire l !! i = Some (t, frame, n)
}.

Lemma putstr_eq n frame s : i2c_usart_putstr n frame s = Ret (tt, add_written (take (Z.to_nat n) frame) s).
Proof. unfold i2c_usart_putstr, os_write, bind, modify, ret. cbn. by destruct (negb _). Qed.
Lemma after_putstr_eq n frame s : after_putstr n frame s = add_written (take (Z.to_nat n) frame) s.
Proof. unfold after_putstr. by rewrite putstr_eq. Qed.

Lemma link_start_ok s : written s = [] -> i2c_uart_ans_lock s = false -> link_ok (link_start s).
Proof.
  intros Hw Ha. split; intros; try (unfold sender_of in *; cbn in *; by simplify_map_eq).
  - cbn. rewrite Ha. cbn. lia.
  - constructor.
  - by apply not_elem_of_nil in H.
Qed.

Lemma sender_call t p f l t' :
  sender_of (after_call t p f l) t' = if decide (t = t') then WaitLock p f else sender_of l t'.
Proof. apply sender_of_insert. Qed.
Lemma sender_lock t p f n l t' :
  sender_of (after_lock t p f n l) t' = if decide (t = t') then WaitAns p else sender_of l t'.
Proof. apply sender_of_insert. Qed.
Lemma sender_no_lock t l t' : sender_of (after_no_lock t l) t' = if decide (t = t') then Idle else sender_of l t'.
Proof. apply sender_of_insert. Qed.
Lemma sender_answer t p l t' : sender_of (after_answer t p l) t' = if decide (t = t') then Idle else sender_of l t'.
Proof. apply sender_of_insert. Qed.
Lemma sender_no_answer t l t' : sender_of (after_no_answer t l) t' = if decide (t = t') then Idle else sender_of l t'.
Proof. apply sender_of_insert. Qed.
Lemma sender_tx i l t' : sender_of (after_tx i l) t' = sender_of l t'.
Proof. done. Qed.

Ltac sender_cases :=
  repeat match goal with
  | H : context [sender_of (?f _ _) _] |- _ => first
      [ rewrite sender_call in H | rewrite sender_lock in H | rewrite sender_no_lock in H
      | rewrite sender_answer in H | rewrite sender_no_answer in H | rewrite sender_tx in H ]
  | H : context [decide (?a = ?b)] |- _ => destruct (decide (a = b)); [subst|]
  end; simplify_eq.

Lemma StronglySorted_snoc (l : list nat) x :
  StronglySorted lt l -> Forall (fun i => i < x)%nat l -> StronglySorted lt (l ++ [x]).
Proof.
  induction 1 as [|y l Hl IH Hy]; intros Hx; cbn; [repeat constructor|].
  apply Forall_cons in Hx as [H1 H2]. constructor; [by apply IH|]. apply Forall_app. split; [done|by constructor].
Qed.

(** The frame of the sender that waits. *)
Lemma lo_frame l t packet :
  link_ok l -> sender_of l t = WaitAns packet -> exists frame n, wire l !! last_frame l = Some (t, frame, n).
Proof.
  intros Hok (w & f & n & E & _)%(lo_last _ Hok). exists f, n. unfold last_frame. rewrite E, length_app, lookup_app_r; cbn; [|lia].
  by replace (Nat.pred (length w + 1) - length w)%nat with 0%nat by lia.
Qed.
Lemma lo_below l : link_ok l -> Forall (fun i => i < length (wire l))%nat (replies l).*2.
Proof.
  intros Hok. apply Forall_forall. intros i ([t j] & -> & H)%list_elem_of_fmap. apply (lo_own _ Hok) in H as (f & n & E).
  by apply lookup_lt_Some in E.
Qed.

Lemma after_lock_ok t packet frame n l :
  link_ok l -> sender_of l t = WaitLock packet frame -> i2c_uart_lock (lk l) = true -> link_ok (after_lock t packet frame n l).
Proof.
  intros Hok Ht Hl. assert (forall t p, sender_of l t <> WaitAns p) as Hno
    by (intros t' p' E%(lo_lock _ Hok); congruence).
  pose proof (lo_below l Hok) as Hb. destruct Hok as [_ _ _ Hwr Hcount Honce Hown].
  split; cbn [after_lock lk wire answers replies]; rewrite ?after_putstr_eq; cbn; try done.
  - intros t1 t2 p1 p2. rewrite !sender_lock. repeat case_decide; intros; congruence || by exfalso; eapply Hno.
  - intros t' p'. rewrite sender_lock. case_decide; intros E; [subst|by exfalso; eapply Hno]. by eexists (wire l), _, _.
  - by rewrite map_app, Hwr.
  - intros t' i (f & m & E)%Hown. exists f, m. by apply lookup_app_l_Some.
Qed.

Lemma after_answer_ok t packet l :
  link_ok l -> sender_of l t = WaitAns packet -> i2c_uart_ans_lock (lk l) = true -> link_ok (after_answer t packet l).
Proof.
  intros Hok Ht Ha. pose proof (lo_frame l t packet Hok Ht) as Hframe.
  destruct (lo_last _ Hok t packet Ht) as (w & f & n & Ew & Hb).
  assert (forall t1 p1, sender_of (after_answer t packet l) t1 = WaitAns p1 -> False) as Hno.
  { intros t1 p1. rewrite sender_answer. case_decide as E; [done|]. intros E1. apply E. by eapply (lo_one _ Hok). }
  destruct Hok as [_ _ _ Hwr Hcount Honce Hown].
  split; try (intros; exfalso; by eapply Hno); cbn [after_answer lk wire answers replies]; [done| | |].
  - rewrite Ha in Hcount. rewrite length_app. cbn in *. lia.
  - rewrite fmap_app. apply StronglySorted_snoc; [done|]. unfold last_frame. rewrite Ew, length_app. cbn [length].
    replace (Nat.pred (length w + 1)) with (length w) by lia. done.
  - intros t' i [H|H%list_elem_of_singleton]%elem_of_app; [by apply Hown|]. by injection H as -> ->.
Qed.

Lemma link_step_ok b l l' : link_ok l -> link_step b l l' -> link_ok l'.
Proof.
  intros Hok Hs.
  destruct Hs as [l t packet frame Ht|l t packet frame n Ht Hl Hn|l t packet frame Ht Hl|l t packet Ht Ha|l t packet Ht Ha|l i Hi Ht];
    [|by apply after_lock_ok| |by apply after_answer_ok| |].
  all: destruct Hok as [Hlock Hone Hlast Hwr Hcount Honce Hown]; split; intros; sender_cases; try done; eauto.
  - exfalso. eauto.
  - cbn. rewrite length_app. cbn. lia.
Qed.

Lemma link_reach_ok b l l' : link_ok l -> rtc (link_step b) l l' -> link_ok l'.
Proof. induction 2; [done|]. eauto using link_step_ok. Qed.

(** When the controller is in time, the answered frames are the confirmed ones
    and, while an answer is not taken yet, the one of the sender that waits. *)
Record link_timely (l : link) : Prop := LinkTimely {
  lt_answers : forall i, i ∈ answers l <-> i ∈ (replies l).*2 \/ i2c_uart_ans_lock (lk l) = true /\ i = last_frame l;
  lt_waits : i2c_uart_ans_lock (lk l) = true -> exists t packet, sender_of l t = WaitAns packet;
  lt_whole : forall i, i ∈ answers l -> exists t frame, wire l !! i = Some (t, frame, zlength frame)
}.

Lemma link_step_timely l l' : link_ok l -> link_timely l -> link_step true l l' -> link_timely l'.
Proof.
  intros Hok [Hans Hw Hwhole] Hs.
  destruct Hs as [l t packet frame Ht|l t packet frame n Ht Hl Hn|l t packet frame Ht Hl|l t packet Ht Ha|l t packet Ht Ha|l i Hi Ht].
  - split; [exact Hans| |exact Hwhole]. intros (t' & p & E)%Hw. exists t', p. rewrite sender_call. case_decide; congruence.
  - assert (i2c_uart_ans_lock (lk l) = false) as Ea.
    { destruct (i2c_uart_ans_lock (lk l)) eqn:Ea; [|done]. destruct Hw as (t' & p & E%(lo_lock _ Hok)); [done|congruence]. }
    split; cbn [after_lock lk wire answers replies]; rewrite ?after_putstr_eq; cbn; rewrite ?Ea; [|done|].
    + intros i. rewrite Hans, Ea. intuition discriminate.
    + intros i (t' & f & E)%Hwhole. exists t', f. by apply lookup_app_l_Some.
  - split; [exact Hans| |exact Hwhole]. intros (t' & p & E)%Hw. exists t', p. rewrite sender_no_lock. case_decide; congruence.
  - split; [|done|exact Hwhole]. intros i. rewrite Hans, Ha. cbn [after_answer answers replies].
    rewrite fmap_app, elem_of_app. cbn. rewrite list_elem_of_singleton. intuition discriminate.
  - split; [|cbn; congruence|exact Hwhole]. intros i. cbn. by rewrite Hans.
  - destruct (Ht eq_refl) as (-> & Hf & Hs). split; cbn; [|done|].
    + intros j. rewrite elem_of_app, Hans, list_elem_of_singleton. change (last_frame (after_tx (last_frame l) l)) with (last_frame l). tauto.
    + intros j [H|H%list_elem_of_singleton]%elem_of_app; [by apply Hwhole|by subst].
Qed.

Lemma link_reach_timely l l' :
  link_ok l -> link_timely l -> rtc (link_step true) l l' -> link_ok l' /\ link_timely l'.
Proof. intros H1 H2. induction 1; [done|]. eauto using link_step_ok, link_step_timely. Qed.

End I2cUartLaws.

Module I2cUartTheorems.
Import I2cUart I2cUartLaws.

(** The frame of any packet that fits. *)
Lemma tx_frame_packet find_mac m len id data :
  is_packet m len id data -> len <= 250 ->
  exists m' pad, length pad = 3%nat /\ is_packet m' len (bswap32 id) data /\
    forall S (s : S), tx_frame find_mac m s = Ret ((m', frame_of pad (mac_of find_mac id) len id data), s).
Proof.
  intros (pad & rest & -> & Hp & Hd & Hid) Hl.
  destruct pad as [|p0 [|p1 [|p2 [|p3 [|p4 [|p5 [|p6 [|p7 [|? ?]]]]]]]]]; try discriminate Hp.
  eexists _, [p2; p3; p4]. splits; [done| |intros S s; by apply tx_frame_ok].
  eexists [p0; p1; p2; p3; p4; p5; p6; p7], rest. splits; try done; apply bswap32_range.
Qed.

(** ** What goes over the line

    A sender's frame or the controller's ["TX"], cut into the reads of the
    receiver: it takes the first two bytes one at a time. *)
Inductive transmission := Answer | Sent (packet : list Z) (parts : list (list Z)).

Definition sent_ok (find_mac : Z -> Z) (t : transmission) : Prop :=
  match t with
  | Answer => True
  | Sent packet parts =>
      (exists len id data, is_packet packet len id data /\ len <= 250) /\
      (exists packet' frame, tx_frame find_mac packet tt = Ret ((packet', frame), tt) /\ concat parts = frame) /\
      (exists c0 c1 rest, parts = [c0] :: [c1] :: rest /\ Forall (fun p => p <> []) rest)
  end.
Definition reads (t : transmission) : list read_result :=
  match t with Answer => [Bytes [char_T]; Bytes [char_X]] | Sent _ parts => map Bytes parts end.
Definition stream (ts : list (list Z * transmission)) : list read_result :=
  concat (map (fun '(noise, t) => noise_reads noise ++ reads t) ts).
Definition sent_packets (ts : list (list Z * transmission)) : list (list Z) :=
  flat_map (fun '(_, t) => match t with Answer => [] | Sent packet _ => [packet] end) ts.
Definition is_answer (t : transmission) : bool := match t with Answer => true | _ => false end.
Definition same_packet (a b : list Z) : Prop :=
  exists len id data, is_packet a len id data /\ is_packet b len id data.

(** The message of a transmission. *)
Definition is_message (t : transmission) (m : message) : Prop :=
  message_ok m /\ reads_of m = reads t /\
  match t, m with
  | Answer, Ack => True
  | Sent packet _, Packet _ _ len id data _ => is_packet packet len id data
  | _, _ => False
  end.

Lemma sent_message find_mac t : sent_ok find_mac t -> exists m, is_message t m.
Proof.
  destruct t as [|packet parts]; [by exists Ack|].
  intros ((len & id & data & Hpk & Hl) & (packet' & frame & Etx & Hparts) & (c0 & c1 & rest & -> & Hrest)).
  destruct (tx_frame_packet find_mac packet len id data Hpk Hl) as (m' & pad & Hpad & _ & E).
  rewrite E in Etx. injection Etx as <- <-.
  pose proof Hpk as (? & ? & _ & _ & Hd & Hid).
  set (fr := frame_of pad (mac_of find_mac id) len id data) in *.
  assert (fr = char_O :: char_K :: drop 2 fr) as Efr by reflexivity. rewrite Efr in Hparts.
  injection Hparts as -> -> Hr.
  exists (Packet pad (mac_of find_mac id) len id data rest). split; [by repeat (split; [done|])|by split].
Qed.


(** A line at work: an answer, a packet to node 4 after noise, a second packet
    cut in three. *)
Definition uart0 : uart := Uart true true false 3 true [] [replicate 270 7; replicate 270 9] [] [] 0.
Definition pk (id : Z) (data : list Z) : list Z :=
  [1; 2; 3; 4; 5; 6; 7; 8] ++ le_bytes 2 (zlength data) ++ le_bytes 4 id ++ data ++ [0xAA; 0xBB].
Definition frame_bytes (packet : list Z) : list Z :=
  match tx_frame (fun _ => CSP_NODE_MAC) packet tt with Ret ((_, f), _) => f | Fault _ => [] end.
Definition cuts (packet : list Z) (n : nat) : list (list Z) :=
  let f := frame_bytes packet in [take 1 f; take 1 (drop 1 f); take n (drop 2 f); drop (2 + n) f].
Definition traffic0 : list (list Z * transmission) :=
  [([0x4F; 0x4F; 0x54], Answer);
   ([0; 0x4B; 0x4F], Sent (pk 0x82409A01 [104; 105]) (cuts (pk 0x82409A01 [104; 105]) 20));
   ([], Sent (pk 0x02409A02 []) (cuts (pk 0x02409A02 []) 262))].

Lemma pk_packet id data : 0 <= id < 2 ^ 32 -> is_packet (pk id data) (zlength data) id data.
Proof. intros. by eexists [1; 2; 3; 4; 5; 6; 7; 8], [0xAA; 0xBB]. Qed.

Lemma pk_sent_ok id data n :
  0 <= id < 2 ^ 32 -> zlength data <= 250 ->
  (exists p', tx_frame (fun _ => CSP_NODE_MAC) (pk id data) tt = Ret ((p', frame_bytes (pk id data)), tt)) ->
  length (frame_bytes (pk id data)) = 265%nat -> (0 < n < 263)%nat ->
  sent_ok (fun _ => CSP_NODE_MAC) (Sent (pk id data) (cuts (pk id data) n)).
Proof.
  intros Hid Hd [p' Etx] Hlen Hn. unfold cuts. split; [by exists (zlength data), id, data; split; [apply pk_packet|]|].
  set (f := frame_bytes (pk id data)) in *. clearbody f.
  destruct f as [|a [|b f]]; try discriminate Hlen. cbn [drop take Nat.add app]. cbn in Hlen.
  split.
  - exists p', (a :: b :: f). split; [exact Etx|]. cbn. by rewrite app_nil_r, take_drop.
  - exists a, b, [take n f; drop n f]. split; [by rewrite take_0|]. repeat constructor.
    + intros E%(f_equal length). rewrite length_take in E. cbn in E. lia.
    + intros E%(f_equal length). rewrite length_drop in E. cbn in E. lia.
Qed.

Lemma traffic0_ok : Forall (fun '(noise, t) => no_mark 0 noise = true /\ sent_ok (fun _ => CSP_NODE_MAC) t) traffic0.
Proof.
  apply Forall_cons. split; [split; [reflexivity|exact I]|].
  apply Forall_cons. split; [split; [reflexivity|]|apply Forall_cons; split; [split; [reflexivity|]|constructor]].
  all: apply pk_sent_ok; [lia|vm_compute; discriminate|eexists; vm_compute; reflexivity|reflexivity|lia].
Qed.


(** ** Safety of the receiver *)
Fixpoint reads_fit (xs : list read_result) (r : reader) (s : uart) : Prop :=
  match xs with
  | [] => True
  | x :: xs => read_ok r x /\ match rx_step r x s with Ret (Some r', s') => reads_fit xs r' s' | _ => True end
  end.

(** C31. Whatever bytes arrive and whichever reads fail, the receiving thread
    stays inside its buffer and the packet buffers, as long as no read brings more
    than the rest of the frame; it ends the process only after a failed read. *)
Theorem serial_rx_safe xs r s :
  reader_ok r -> pool_ok s -> reads_fit xs r s ->
  exists o s', serial_rx_thread xs r s = Ret (o, s') /\ pool_ok s' /\
    match o with Some r' => reader_ok r' | None => ReadError ∈ xs end.
Proof.
  revert r s. induction xs as [|x xs IH]; intros r s Hr Hp Hf; [by exists (Some r), s|].
  destruct Hf as [Hx Hf]. destruct (rx_step_total r x s Hr Hx Hp) as (o & s1 & E & Hp1 & Hr1 & Hnone).
  cbn [serial_rx_thread]. rewrite (bind_step _ _ _ _ _ E). rewrite E in Hf. destruct o as [r1|].
  - destruct (IH r1 s1 (Hr1 r1 eq_refl) Hp1 Hf) as (o & s' & E' & Hp' & Ho). exists o, s'. splits; [done|done|].
    destruct o; [done|by right].
  - exists None, s1. splits; [done|done|]. destruct (Hnone eq_refl) as (? & _ & ->). left.
Qed.

(** Half a frame, failed reads down to the end of the process, with garbage before. *)
Definition broken0 : list read_result :=
  [Bytes [7]; ReadError; Bytes [char_T]; Bytes [char_O]; Bytes [char_K]; Bytes [1]; ReadError; ReadError; ReadError; ReadError].
Lemma serial_rx_safe_witness :
  exists o s', serial_rx_thread broken0 rx_start uart0 = Ret (o, s') /\ pool_ok s' /\
    match o with Some r' => reader_ok r' | None => ReadError ∈ broken0 end.
Proof.
  apply (serial_rx_safe broken0 rx_start uart0).
  - reflexivity.
  - repeat constructor; vm_compute; discriminate.
  - vm_compute. repeat split; discriminate.
Defined.
Example broken0_exits : exists s', serial_rx_thread broken0 rx_start uart0 = Ret (None, s').
Proof. eexists. vm_compute. reflexivity. Qed.

(** The read of the body asks for 263 bytes each time, whatever it has: when a
    first read was short and the next frame is already there, the second read goes
    past the end of [cbuf]. *)
Theorem body_read_bounds cbuf nbytes bs s :
  reader_ok (Body cbuf nbytes) -> zlength bs <= wanted (Body cbuf nbytes) -> pool_ok s ->
  rx_step (Body cbuf nbytes) (Bytes bs) s = Fault OutOfBounds <-> FRAME_SIZE - nbytes < zlength bs.
Proof.
  intros Hr Hw Hp. split; intros H.
  - apply Z.lt_nge. intros Hle. destruct (rx_step_total (Body cbuf nbytes) (Bytes bs) s Hr Hle Hp) as (o & s' & E & _). congruence.
  - destruct Hr as [Hc Hn]. unfold rx_step. cbn [read_bytes]. unfold list_write.
    destruct (_ && _) eqn:E; [|done]. apply andb_prop in E as [_ E%Z.leb_le]. lia.
Qed.

Example short_read_then_next_frame :
  serial_rx_thread ([Bytes [char_O]; Bytes [char_K]; Bytes (replicate 100 0); Bytes (replicate 263 0)]) rx_start uart0 =
  Fault OutOfBounds.
Proof. vm_compute. reflexivity. Qed.

(** ** The senders *)

(** C30. However the calls of [csp_i2c_uart_tx], the receiver and the timeouts
    interleave, and whatever part of a frame each [write] puts on the line (all, some
    or, when it fails, nothing): at most one sender waits for an answer, it holds the
    lock, and its frame is the last on the line; every call that returned
    [CSP_ERR_NONE] confirms the frame that its own thread wrote last, no frame is
    confirmed twice, the confirmations come in the order of the line, and they
    are no more than the answers.  When the controller answers only a frame that it got
    whole, while its sender waits, the frames it answered are exactly those
    whose calls returned [CSP_ERR_NONE] and, while the answer is not taken yet, the last
    one: no success is reported for a frame that was cut short. *)
Theorem i2c_uart_confirmed b s l :
  written s = [] -> i2c_uart_ans_lock s = false -> rtc (link_step b) (link_start s) l ->
  (forall t1 t2 p1 p2, sender_of l t1 = WaitAns p1 -> sender_of l t2 = WaitAns p2 -> t1 = t2) /\
  (forall t p, sender_of l t = WaitAns p -> i2c_uart_lock (lk l) = false /\
     exists frame n, wire l !! last_frame l = Some (t, frame, n)) /\
  map taken (wire l) = written (lk l) /\
  (forall t i, (t, i) ∈ replies l -> exists frame n, wire l !! i = Some (t, frame, n)) /\
  StronglySorted lt (replies l).*2 /\ (length (replies l) <= length (answers l))%nat /\
  (b = true -> forall i,
     (i ∈ answers l <-> i ∈ (replies l).*2 \/ i2c_uart_ans_lock (lk l) = true /\ i = last_frame l) /\
     (i ∈ answers l -> exists t frame, wire l !! i = Some (t, frame, zlength frame))).
Proof.
  intros Hw Ha Hs. pose proof (link_start_ok s Hw Ha) as H0. pose proof (link_reach_ok b _ _ H0 Hs) as Hok.
  pose proof Hok as [Hlock Hone _ Hwr Hcount Honce Hown].
  splits; try done; [|lia|].
  - intros t p E. split; [by eapply Hlock|by eapply lo_frame].
  - intros -> i. assert (link_timely (link_start s)) as Ht
      by (split; cbn; rewrite ?Ha; [|done|]; intros j; rewrite ?elem_of_nil; intuition discriminate).
    destruct (link_reach_timely _ _ H0 Ht Hs) as [_ [H1 _ H2]]. by split; [apply H1|apply H2].
Qed.

(** Two calls in turn: the device takes the whole first frame, which is answered. *)
Definition link1 : link := after_call 0 [1] [10; 11] (link_start uart0).
Definition link2 (n : Z) : link := after_lock 0 [1] [10; 11] n (after_call 1 [2] [20] link1).
Definition link3 (n : Z) : link := after_answer 0 [1] (after_tx 0 (link2 n)).

Lemma link2_reached b n : -1 <= n <= 2 -> rtc (link_step b) (link_start uart0) (link2 n).
Proof.
  intros Hn. eapply rtc_l; [by apply (step_call b _ 0)|]. eapply rtc_l; [by apply (step_call b _ 1)|].
  eapply rtc_l; [by apply (step_lock b _ 0 [1] [10; 11])|]. apply rtc_refl.
Qed.
Lemma link3_reached b n : -1 <= n <= 2 -> (b = true -> n = 2) -> rtc (link_step b) (link_start uart0) (link3 n).
Proof.
  intros Hn Hb. etransitivity; [by apply (link2_reached b n)|].
  eapply rtc_l; [apply (step_tx b _ 0%nat); [cbn; lia|]|].
  - intros ->%Hb. split; [done|]. split; [by exists 0%nat, [10; 11]|by exists 0%nat, [1]].
  - eapply rtc_l; [by apply (step_answer b _ 0)|]. apply rtc_refl.
Qed.

Lemma i2c_uart_confirmed_witness :
  replies (link3 2) = [(0, 0)%nat] /\ 0%nat ∈ (replies (link3 2)).*2 /\
  map taken (wire (link3 2)) = [[10; 11]] /\ exists t frame, wire (link3 2) !! 0%nat = Some (t, frame, zlength frame).
Proof.
  pose proof (i2c_uart_confirmed true uart0 (link3 2) eq_refl eq_refl
    (link3_reached true 2 ltac:(lia) (fun _ => eq_refl))) as (_ & _ & Hw & _ & _ & _ & Ht).
  destruct (Ht eq_refl 0%nat) as [H1 H2]. assert (0%nat ∈ answers (link3 2)) as Ha by left.
  split; [reflexivity|]. split; [by destruct (proj1 H1 Ha) as [?|[? _]]|]. split; [exact Hw|exact (H2 Ha)].
Defined.

(** An answer that comes after its sender gave up releases the next one:
    its call succeeds though nothing was said of its frame. *)
Theorem late_answer_confirms_next_frame :
  exists l, rtc (link_step false) (link_start uart0) l /\ replies l = [(1, 1)%nat] /\ ~ (1%nat ∈ answers l) /\
    freed (lk l) = [[2]].
Proof.
  exists (after_answer 1 [2] (after_lock 1 [2] [20] 1 (after_tx 0 (after_no_answer 0 (link2 2))))).
  splits; [|done|intros H; by apply list_elem_of_singleton in H|done].
  etransitivity; [by apply (link2_reached false 2)|]. eapply rtc_l; [by apply (step_no_answer false _ 0 [1])|].
  eapply rtc_l; [apply (step_tx false _ 0%nat); [cbn; lia|done]|].
  eapply rtc_l; [by apply (step_lock false _ 1 [2] [20] 1)|]. eapply rtc_l; [by apply (step_answer false _ 1 [2])|]. apply rtc_refl.
Qed.

(** [i2c_usart_putstr] drops the result of [write]: whatever the device took of the
    frame, nothing of it included, the call goes on to wait, and any ["TX"] makes it
    return [CSP_ERR_NONE] and free the packet. *)
Theorem cut_frame_confirmed n :
  -1 <= n < 2 -> exists l frame, rtc (link_step false) (link_start uart0) l /\ replies l = [(0, 0)%nat] /\
    wire l = [(0%nat, frame, n)] /\ written (lk l) <> [frame] /\ freed (lk l) = [[1]].
Proof.
  intros Hn. exists (link3 n), [10; 11]. splits; try done; [by apply link3_reached; [lia|]| |by cbn; rewrite after_putstr_eq].
  cbn. rewrite after_putstr_eq. cbn. intros [= E%(f_equal length)]. rewrite length_take in E. cbn in E. lia.
Qed.

(** A call of [csp_i2c_uart_tx] by [t], with what the others do during its
    two waits, is a path of the transition system: it returns [CSP_ERR_NONE] with
    the packet freed exactly when it took the lock and an answer, and otherwise
    [CSP_ERR_DRIVER] with the packet kept; on both ways it gives the lock back. *)
Theorem csp_i2c_uart_tx_refines b find_mac packet packet' frame n t l l1 l2 :
  tx_frame find_mac packet (lk l) = Ret ((packet', frame), lk l) ->
  sender_of l t = Idle -> -1 <= n <= zlength frame ->
  rtc (link_step b) (after_call t packet' frame l) l1 -> sender_of l1 t = WaitLock packet' frame ->
  rtc (link_step b) (after_lock t packet' frame n l1) l2 -> sender_of l2 t = WaitAns packet' ->
  let took := i2c_uart_lock (lk l1) in
  let answered := took && i2c_uart_ans_lock (lk l2) in
  exists l', rtc (link_step b) l l' /\ sender_of l' t = Idle /\
    csp_i2c_uart_tx find_mac (fun _ => lk l1) n (fun _ => lk l2) packet (lk l) =
      Ret ((if answered then CSP_ERR_NONE else CSP_ERR_DRIVER, packet'), lk l') /\
    replies l' = (if took then replies l2 else replies l1) ++ (if answered then [(t, last_frame l2)] else []) /\
    (took = true -> i2c_uart_lock (lk l') = true).
Proof.
  intros Hf Hidle Hn H1 Hs1 H2 Hs2. cbv zeta.
  unfold csp_i2c_uart_tx. rewrite (bind_step _ _ _ _ _ Hf). cbv beta iota.
  assert (rtc (link_step b) l l1) as Hl1 by (eapply rtc_l; [by apply step_call|done]).
  unfold lock_wait, ans_wait, bind, modify, gets, ret. cbn beta iota.
  destruct (i2c_uart_lock (lk l1)) eqn:Elock; cbn [andb negb].
  2: { exists (after_no_lock t l1). splits.
       - eapply rtc_r; [exact Hl1|by eapply step_no_lock].
       - rewrite sender_no_lock. by rewrite decide_True.
       - done.
       - by rewrite app_nil_r.
       - done. }
  assert (rtc (link_step b) l l2) as Hl2
    by (etransitivity; [exact Hl1|]; eapply rtc_l; [by apply step_lock|done]).
  rewrite putstr_eq. cbn beta iota. destruct (i2c_uart_ans_lock (lk l2)) eqn:Eans; cbn [negb].
  - exists (after_answer t packet' l2). splits; try done.
    + eapply rtc_r; [exact Hl2|by eapply step_answer].
    + rewrite sender_answer. by rewrite decide_True.
  - exists (after_no_answer t l2). splits; try done.
    + eapply rtc_r; [exact Hl2|by eapply step_no_answer].
    + rewrite sender_no_answer. by rewrite decide_True.
    + by rewrite app_nil_r.
Qed.

(** A packet of more than 250 bytes of data stops the program. *)
Theorem csp_i2c_uart_tx_too_long find_mac o1 n o2 m len id data s :
  is_packet m len id data -> 250 < len < 65536 -> csp_i2c_uart_tx find_mac o1 n o2 m s = Fault AssertFail.
Proof.
  intros (pad & rest & -> & Hp & Hd & Hid) Hl. unfold csp_i2c_uart_tx. apply bind_fault. unfold tx_frame.
  rewrite (bind_step _ _ s (le_bytes 2 len) s)
    by (apply list_read_at; [unfold zlength; by rewrite Hp|by rewrite zlength_le_bytes]).
  cbv beta zeta. rewrite of_le_2 by lia. by destruct (len + 4 <? I2C_MTU) eqn:E; bool_to_prop; [unfold I2C_MTU in *; lia|].
Qed.

(** After a failed call the identifier is left in network order: the same call
    again sends a frame with the identifier reversed. *)
Theorem csp_i2c_uart_tx_again_reversed find_mac o1 n o2 m len id data s :
  is_packet m len id data -> len <= 250 -> i2c_uart_lock (o1 s) = false ->
  exists m' frame pad, csp_i2c_uart_tx find_mac o1 n o2 m s = Ret ((CSP_ERR_DRIVER, m'), o1 s) /\
    tx_frame find_mac m' tt = Ret ((frame.1, frame.2), tt) /\
    frame.2 = frame_of pad (mac_of find_mac (bswap32 id)) len (bswap32 id) data.
Proof.
  intros Hpk Hl Hlock. destruct (tx_frame_packet find_mac m len id data Hpk Hl) as (m' & pad & _ & Hpk' & E).
  destruct (tx_frame_packet find_mac m' len (bswap32 id) data Hpk' Hl) as (m2 & pad2 & _ & _ & E2).
  exists m', (m2, frame_of pad2 (mac_of find_mac (bswap32 id)) len (bswap32 id) data), pad2.
  splits; [|apply E2|done]. unfold csp_i2c_uart_tx. rewrite (bind_step _ _ _ _ _ (E _ s)). cbv beta iota.
  unfold lock_wait, bind, modify, gets. cbn beta iota. by rewrite Hlock.
Qed.

(** ** Start

    The semaphores are made once; whatever fails, the lock is free and the answer
    taken, no descriptor is left open, and the callback is set exactly on
    success. *)
Theorem csp_i2c_uart_init_ok e speed s :
  i2c_uart_lock_init s = false -> fd s = -1 -> i2c_usart_callback s = false ->
  exists rc s', csp_i2c_uart_init e speed s = Ret (rc, s') /\
    i2c_uart_lock_init s' = true /\ i2c_uart_lock s' = true /\ i2c_uart_ans_lock s' = false /\
    (rc = CSP_ERR_NONE <-> baud_supported (env_macosx e) speed = true /\ 0 <= env_open e /\ env_setattr e = 0 /\
       env_flush e = 0 /\ env_thread e = 0) /\
    (rc = CSP_ERR_NONE -> fd s' = env_open e /\ i2c_usart_callback s' = true) /\
    (rc <> CSP_ERR_NONE -> rc = CSP_ERR_DRIVER /\ fd s' < 0 /\ i2c_usart_callback s' = false).
Proof.
  intros Hi Hfd Hcb. unfold csp_i2c_uart_init, i2c_usart_set_callback, bind, gets, modify, ret, ans_wait, i2c_usart_init. cbn beta iota. rewrite Hi.
  cbn [i2c_uart_ans_lock set_ans set_lock]. cbn beta iota.
  destruct (baud_supported _ _); cbn [negb]; cbn -[Z.ltb Z.eqb].
  2: { eexists _, _. splits; [reflexivity|done..| | |]; cbn; [split; [done|by intros [? _]]|done|intros _; rewrite Hfd; splits; done || lia]. }
  destruct (env_open e <? 0) eqn:Eo; bool_to_prop.
  { eexists _, _. splits; [reflexivity|done..| | |]; cbn; [split; [done|intros (_ & ? & _); lia]|done|done]. }
  destruct (env_setattr e =? 0) eqn:E1; bool_to_prop; cbn [negb].
  2: { eexists _, _. splits; [reflexivity|done..| | |]; cbn; [split; [done|by intros (_ & _ & ? & _)]|done|done]. }
  destruct (env_flush e =? 0) eqn:E2; bool_to_prop; cbn [negb].
  2: { eexists _, _. splits; [reflexivity|done..| | |]; cbn; [split; [done|by intros (_ & _ & _ & ? & _)]|done|done]. }
  destruct (env_thread e =? 0) eqn:E3; bool_to_prop; cbn [negb].
  2: { eexists _, _. splits; [reflexivity|done..| | |]; cbn; [split; [done|by intros (_ & _ & _ & _ & ?)]|done|done]. }
  eexists _, _. splits; [reflexivity|done..| | |]; cbn; [done|done|done].
Qed.

End I2cUartTheorems.
