(* ===== verification/System.v ===== *)
(** * The composed system

    The parts of the flight software put together: the executer of Dispatcher
    calls the handlers of CmdFP, CmdDRP and CmdSys by the table of Registry, on the
    data repository; the clients of Tasks send it their commands. *)
From stdpp Require Import relations.
From S2P Require Import Prelude CStr Config Storage StorageRam Schema RepoCommand RepoData CmdFP CmdDRP.
From S2P Require Import Dispatcher Registry Clients Tasks CmdSys.

Open Scope Z_scope.

Module System.
Import RepoCommand RepoData Dispatcher.

Section system.
Context {S F : Type} `{Storage S}.

(** ** [run_cmd->function(run_cmd->fmt, run_cmd->params, run_cmd->nparams)] *)

(** The value of a pointer that may be null. *)
Definition opt_deref {T A} (p : ptr A) : M T (option A) :=
  match p with Null => ret None | Live a => ret (Some a) | Freed => fail UseAfterFree end.

Definition call_function (handler : F -> cstring -> option (list Z) -> Z -> M (dat S) Z) (c : cmd_t F) : M (dat S) Z :=
  let! fmt := deref (c_fmt c) in
  let! params := opt_deref (c_params c) in
  match c_function c with
  | Some f => handler f fmt params (c_nparams c)
  | None => fail NullDeref
  end.

(** The functions that work on the data repository; [other] stands for the
    rest, whose state (network, files, console) is not part of this file. *)
Definition functions (other : Registry.cmd_fn -> cstring -> option (list Z) -> Z -> M (dat S) Z)
    (f : Registry.cmd_fn) : cstring -> option (list Z) -> Z -> M (dat S) Z :=
  match f with
  | Registry.fp_set => CmdFP.fp_set
  | Registry.fp_set_unix => CmdFP.fp_set_unix
  | Registry.fp_set_dt => CmdFP.fp_set_dt
  | Registry.fp_delete => CmdFP.fp_delete
  | Registry.fp_delete_unix => CmdFP.fp_delete_unix
  | Registry.fp_show => CmdFP.fp_show
  | Registry.fp_reset => CmdFP.fp_reset
  | Registry.fp_purge => CmdFP.fp_purge
  | Registry.drp_execute_before_flight => CmdDRP.drp_execute_before_flight
  | Registry.drp_reset_payload => CmdDRP.drp_reset_payload
  | Registry.drp_reset_status => CmdDRP.drp_reset_status
  | Registry.drp_print_system_vars => CmdDRP.drp_print_system_vars
  | Registry.drp_update_sys_var_idx => CmdDRP.drp_update_sys_var_idx
  | Registry.drp_update_sys_var_name => CmdDRP.drp_update_sys_var_name
  | Registry.drp_get_sys_var_name => CmdDRP.drp_get_sys_var_name
  | Registry.drp_update_hours_alive => CmdDRP.drp_update_hours_alive
  | Registry.drp_clear_gnd_wdt => CmdDRP.drp_clear_gnd_wdt
  | Registry.obc_set_time => CmdOBC.obc_set_time
  | f => other f
  end.

(** ** The specification: one command after the other

    What the two tasks are for: the command is counted, called, and counted again
    when it failed. *)
Definition run_cmd (exec : cmd_t F -> M (dat S) Z) (c : cmd_t F) : M (dat S) Z :=
  count_var dat_obc_executed_cmds ;!
  let! z := exec c in
  count_failed z ;! ret z.

Fixpoint run_all (exec : cmd_t F -> M (dat S) Z) (cs : list (cmd_t F)) : M (dat S) (list Z) :=
  match cs with
  | [] => ret []
  | c :: cs => let! z := run_cmd exec c in let! zs := run_all exec cs in ret (z :: zs)
  end.

End system.
End System.

Module SystemLaws.
Import RepoCommand RepoData Dispatcher DispatcherLaws System.

Section laws.
Context {S F : Type} `{StorageLaws S}.
Context (exec : cmd_t F -> M (dat S) Z).
Implicit Types (y : sys S F) (d : dat S).

Lemma run_all_app cs cs' d zs d' :
  run_all exec cs d = Ret (zs, d') ->
  run_all exec (cs ++ cs') d = (let! zs' := run_all exec cs' in ret (zs ++ zs')) d'.
Proof.
  revert d zs d'. induction cs as [|c cs IH]; intros d zs d' E.
  - injection E as <- <-. unfold bind. cbn [app]. by destruct (run_all exec cs' d) as [[? ?]|].
  - cbn [run_all app] in *. apply bind_inv in E as (z & d1 & E1 & E2). apply bind_inv in E2 as (zs1 & d2 & E2 & E3).
    injection E3 as <- <-. rewrite (bind_step _ _ _ _ _ E1). unfold bind. rewrite (IH _ _ _ E2). unfold bind.
    by destruct (run_all exec cs' d2) as [[? ?]|].
Qed.

(** How far the data is: the commands done with their results, and what has
    been done of the next one. *)
Definition replayed d y : Prop :=
  exists cs zs d1, run_all exec cs d = Ret (zs, d1) /\
  match y_disp y with
  | DReceive | DCount _ => y_done y = zip cs zs /\ length cs = length zs /\ y_dat y = d1
  | DSend c => y_done y = zip cs zs /\ length cs = length zs /\ count_var dat_obc_executed_cmds d1 = Ret (tt, y_dat y)
  | DLog _ | DResult =>
      length cs = length zs /\
      match executer_cmd_queue y, y_exec y, executer_stat_queue y with
      | [], XSend z, _ | [], _, z :: _ =>
          exists c d2, y_done y = zip cs zs ++ [(c, z)] /\
            count_var dat_obc_executed_cmds d1 = Ret (tt, d2) /\ exec c d2 = Ret (z, y_dat y)
      | _, _, _ => y_done y = zip cs zs /\ count_var dat_obc_executed_cmds d1 = Ret (tt, y_dat y)
      end
  end.

Lemma zip_snoc {A B} (l : list A) (k : list B) a b : length l = length k -> zip (l ++ [a]) (k ++ [b]) = zip l k ++ [(a, b)].
Proof. intros Hl. by rewrite zip_with_app. Qed.

Lemma replayed_start d : replayed d (start d).
Proof. by exists [], [], d. Qed.

Ltac turns_cases H :=
  let Hq := fresh "Hq" in let Hs := fresh "Hs" in let Hx := fresh "Hx" in let a := fresh "a" in
  destruct H as [(a & Hq & Hs & Hx)|[(a & Hq & Hs & Hx)|[(a & Hq & Hs & Hx)|(a & Hq & Hs & Hx)]]];
  cbn in Hq, Hs, Hx; simplify_eq.

Lemma replayed_step d y y' : inv y -> replayed d y -> step exec eq y y' -> replayed d y'.
Proof.
  intros (Ht & _ & _) (cs & zs & d1 & E & Hy) Hstep. unfold replayed.
  destruct Hstep as [Hs|[Hs|Hs]]; destruct Hs; unfold turns in *; cbn in *.
  - by exists cs, zs, d1.
  - subst d'. by exists cs, zs, d1.
  - exists cs, zs, d1. split; [done|]. by destruct (check_if_executable c).
  - exists cs, zs, d1. split; [done|]. destruct Hy as (H1' & H2' & ->). done.
  - destruct Ht as (-> & -> & ->). exists cs, zs, d1. split; [done|]. cbn. destruct Hy as (? & ? & ?). done.
  - exists cs, zs, d1. done.
  - turns_cases Ht. destruct Hy as (Hl & c & d2 & Hd & Hc & Hx).
    exists (cs ++ [c]), (zs ++ [a]), d'. rewrite (run_all_app _ _ _ _ _ E). split.
    + cbn. unfold run_cmd, bind. rewrite Hc, Hx. unfold count_failed in *. by rewrite H1.
    + rewrite zip_snoc, !length_app by done. cbn. split; [done|]. by rewrite Hl.
  - destruct p; try (destruct Ht as (? & ? & ?); done); turns_cases Ht; by exists cs, zs, d1.
  - destruct p; try (destruct Ht as (? & ? & ?); done); turns_cases Ht; exists cs, zs, d1; (split; [done|]);
      destruct Hy as (Hl & Hd & Hc); (split; [done|]); eexists a, _; by rewrite Hd.
  - destruct p; try (destruct Ht as (? & ? & ?); done); turns_cases Ht; by exists cs, zs, d1.
Qed.

Lemma replayed_reachable d y : rtc (step exec eq) (start d) y -> inv y /\ replayed d y.
Proof.
  intros Hr. assert (inv (start (F := F) d) /\ replayed d (start d)) as Hi by (split; [apply inv_start|apply replayed_start]).
  revert Hi. induction Hr as [|y1 y2 y3 Hs _ IH]; [done|]. intros [Hi Hp]. apply IH.
  split; [by eapply inv_step|by eapply replayed_step].
Qed.

(** Nothing is queued, held or running. *)
Definition idle y : Prop := y_disp y = DReceive /\ dispatcher_queue y = [].

(** When the tasks are idle, the system is where the sequential program is. *)
Lemma idle_replay d y :
  rtc (step exec eq) (start d) y -> idle y ->
  exists zs, run_all exec (y_sent y) d = Ret (zs, y_dat y) /\ y_done y = zip (y_sent y) zs /\ length zs = length (y_sent y).
Proof.
  intros Hr [Hd Hq]. destruct (replayed_reachable d y Hr) as ((Ht & _ & Hs) & cs & zs & d1 & E & Hy).
  unfold in_flight in Hs. rewrite Hd in *. destruct Hy as (Hdone & Hl & Hdat). rewrite Hq, !app_nil_r, Hdone in Hs.
  assert (y_sent y = cs) as -> by (rewrite Hs; apply fst_zip; lia).
  exists zs. by rewrite Hdat.
Qed.

(** A command that runs, sent to an idle system, is done by it. *)
Lemma one_command y c z d' :
  inv y -> idle y -> run_cmd exec c (y_dat y) = Ret (z, d') ->
  exists y', rtc (step exec eq) y y' /\ idle y' /\ y_dat y' = d' /\ y_sent y' = y_sent y ++ [c] /\
    y_done y' = y_done y ++ [(c, z)].
Proof.
  intros (Ht & _ & _) [Hd Hq] E. destruct y as [d q xq sq p x sent don]. cbn in *. subst p q.
  destruct Ht as (E1 & E2 & E3). cbn in *. subst xq sq x.
  apply bind_inv in E as ([] & d1 & Ec & E). apply bind_inv in E as (z' & d2 & Ex & E).
  apply bind_inv in E as ([] & d3 & Ef & E). injection E as -> ->.
  exists (Sys d' [] [] [] DReceive XReceive (sent ++ [c]) (don ++ [(c, z)])). split; [|done].
  eapply rtc_l; [left; apply (client_send eq _ c); done|]. cbn.
  eapply rtc_l; [right; left; apply disp_receive|]. cbn. eapply rtc_l; [right; left; by apply disp_count|].
  eapply rtc_l; [right; left; by apply disp_send|]. eapply rtc_l; [right; left; apply disp_log|].
  eapply rtc_l; [right; right; apply exec_receive|]. eapply rtc_l; [right; right; by apply exec_run|].
  eapply rtc_l; [right; right; by apply exec_send|]. eapply rtc_l; [right; left; by apply disp_result|]. done.
Qed.

(** Every run of the sequential program is one of the system. *)
Lemma sequential_reached cs : forall y zs d',
  inv y -> idle y -> run_all exec cs (y_dat y) = Ret (zs, d') ->
  exists y', rtc (step exec eq) y y' /\ idle y' /\ y_dat y' = d' /\ y_sent y' = y_sent y ++ cs /\
    y_done y' = y_done y ++ zip cs zs.
Proof.
  induction cs as [|c cs IH]; intros y zs d' Hi Hidle E.
  - injection E as <- <-. exists y. by rewrite !app_nil_r.
  - apply bind_inv in E as (z & d1 & E1 & E). apply bind_inv in E as (zs1 & d2 & E2 & E). injection E as <- <-.
    destruct (one_command y c z d1 Hi Hidle E1) as (y1 & Hr & Hidle1 & Hd1 & Hs1 & Hd). subst d1.
    assert (inv y1) as Hi1 by (clear -Hi Hr; induction Hr; [done|]; eauto using inv_step).
    destruct (IH y1 zs1 d2 Hi1 Hidle1 E2) as (y' & Hr' & Hidle' & Hd' & Hs' & Hdone').
    exists y'. split; [by etransitivity|]. rewrite Hs', Hdone', Hs1, Hd, <- !app_assoc. done.
Qed.

End laws.
End SystemLaws.

Module PlanLaws.
Import RepoCommand RepoCommandLaws RepoCommandParse RepoData RepoDataLaws RepoDataTheorems.
Import Dispatcher DispatcherLaws System SystemLaws Registry Clients TaskLaws CmdFP CmdFPTheorems.

(** ** A command line as text *)

Lemma take_word_tail w rest : Forall (fun c => isspace c = false) w -> take_word (w ++ tail_text rest) = (w, tail_text rest).
Proof.
  induction 1 as [|c w Hc _ IH]; [by destruct rest|]. cbn [app take_word]. by rewrite Hc, IH.
Qed.
Lemma skip_space_tail rest : no_lead rest -> skip_space (tail_text rest) = rest.
Proof.
  destruct rest as [|c rest]; [done|]. cbn [tail_text skip_space]. replace (isspace chr_space) with true by done.
  cbn. by intros ->.
Qed.
Lemma skip_space_word_app w rest : w <> [] -> Forall (fun c => isspace c = false) w -> skip_space (w ++ rest) = w ++ rest.
Proof. intros Hne Hw. destruct Hw as [|c w Hc _]; [done|]. cbn. by rewrite Hc. Qed.

(** The line [name args] is the command of an entry with this name and these
    arguments. *)
Lemma named_line_eq {G} (r : cmd_repo G) row :
  is_word (row_cmd row) -> no_lead (row_args row) ->
  line_cmd r (row_cmd row ++ tail_text (row_args row)) = row_command r row.
Proof.
  intros [Hne Hw] Hl. unfold line_cmd, build_spec, row_command.
  rewrite skip_space_word_app, take_word_tail, skip_space_tail by done. destruct (row_cmd row) as [|c w]; [done|].
  by destruct (find_name (c :: w) (cmd_list r)) as [[i e]|].
Qed.
Lemma named_line {G} (r : cmd_repo G) name args i e :
  is_word name -> no_lead args -> find_name name (cmd_list r) = Some (i, e) ->
  line_cmd r (name ++ tail_text args) = [with_args (cmd_of (Z.of_nat i) e) args].
Proof.
  intros Hw Hl Hf. etrans; [exact (named_line_eq r (FpRow 0 name args 0 0 0) Hw Hl)|]. unfold row_command. cbn. by rewrite Hf.
Qed.

(** ** A telecommand for later *)

(** The telecommand [fp_set_cmd_unix time executions period command args]. *)
Definition plan_name : cstring := cs "fp_set_cmd_unix".
Definition plan_args (t e p : Z) (c a : cstring) : cstring := line [VInt t; VInt e; VInt p; VStr c] a.
Definition plan_cmd (t e p : Z) (c a : cstring) : cmd_t cmd_fn :=
  Cmd 27 5 (Live fmt_fp_set_unix) (Live (with_nul (plan_args t e p c a))) (Some Registry.fp_set_unix).

Lemma find_plan_name : find_name plan_name (cmd_list boot_repo) =
  Some (27%nat, CmdEntry 5 (Live fmt_fp_set_unix) (Live plan_name) (Some Registry.fp_set_unix)).
Proof. vm_compute. reflexivity. Qed.

Lemma no_semicolon_dec z : INT_MIN <= z <= INT_MAX -> Forall (fun c => c <> 59) (print_dec z).
Proof.
  intros Hz. destruct (print_dec_cases z Hz) as (neg & ds & -> & _ & Hd & _).
  assert (Forall (fun c => c <> 59) ds) as H59 by (eapply Forall_impl; [exact Hd|]; intros c Hc ->; done).
  destruct neg; [by constructor|done].
Qed.

Definition plan_ok (t e p : Z) (c a : cstring) : Prop :=
  0 <= t <= INT_MAX /\ int_ok e /\ int_ok p /\ cmd_text_ok c a /\ Forall (fun x => x <> 59) (c ++ a) /\
  strlen (plan_args t e p c a) <= SCH_CMD_MAX_STR_PARAMS.

Lemma plan_args_text t e p c a :
  plan_args t e p c a = print_dec t ++ chr_space :: print_dec e ++ chr_space :: print_dec p ++ chr_space :: c ++ tail_text a.
Proof. unfold plan_args, line. cbn [vals_text val_text]. by rewrite <- !app_assoc, <- !app_comm_cons, <- !app_assoc, <- !app_comm_cons, <- !app_assoc. Qed.

Lemma plan_line t e p c a : plan_ok t e p c a ->
  line_cmd boot_repo (plan_name ++ tail_text (plan_args t e p c a)) = [plan_cmd t e p c a] /\
  tc_line (plan_name ++ tail_text (plan_args t e p c a)) /\ is_cstr (plan_name ++ tail_text (plan_args t e p c a)).
Proof.
  intros (Ht & He & Hp & (Hw & [Hcs _] & Hlead & [Has _]) & H59 & Hlen).
  assert (INT_MIN <= t <= INT_MAX) as Ht' by (unfold INT_MIN; lia).
  destruct (kind_val_head KInt (VInt t) Ht') as (c0 & w0 & E0 & Hc0). cbn in E0.
  assert (no_lead (plan_args t e p c a) /\ plan_args t e p c a <> []) as [Hnl Hne]
    by (rewrite plan_args_text, E0; done).
  assert (is_cstr (plan_args t e p c a)) as Hcstr.
  { unfold plan_args, line. apply is_cstr_app. split.
    - apply (is_cstr_vals_text [KInt; KInt; KInt; KStr]). repeat (constructor; [done|]). constructor.
    - destruct a; [constructor|]. constructor; [unfold chr_space; lia|done]. }
  apply Forall_app in H59 as [H59c H59a].
  splits.
  - rewrite (named_line boot_repo plan_name (plan_args t e p c a) _ _ ltac:(by apply (bool_decide_unpack _); vm_compute) Hnl find_plan_name).
    unfold with_args. destruct (plan_args t e p c a) as [|x w] eqn:Ep; [done|]. rewrite <- Ep in *.
    unfold set_params, plan_cmd. rewrite params_buf_short by done. reflexivity.
  - split; [by destruct (plan_args t e p c a)|]. apply Forall_app. split; [apply (bool_decide_unpack _); by vm_compute|].
    destruct (plan_args t e p c a) as [|x w] eqn:Ep; [constructor|]. cbn [tail_text]. rewrite <- Ep. constructor; [done|].
    rewrite plan_args_text. repeat first [apply Forall_app; split | constructor; [done|]];
      try (by apply no_semicolon_dec); [done|]. destruct a; [constructor|]. constructor; [done|exact H59a].
  - apply is_cstr_app. split; [apply (bool_decide_unpack _); by vm_compute|].
    destruct (plan_args t e p c a); [constructor|]. constructor; [unfold chr_space; lia|done].
Qed.

(** ** Counting a command leaves the plan *)
Section plan.
Context {S : Type} `{StorageLaws S}.
Implicit Types (d : dat S).

Lemma count_var_plan d i :
  dat_ok d -> 0 <= i < dat_status_last_address -> i <> dat_fpl_queue -> counter d i < INT_MAX ->
  exists d', count_var i d = Ret (tt, d') /\ same_plan d d'.
Proof.
  intros Hok Hi Hq Hr. pose proof Hok as [_ Hsz]. unfold count_var.
  rewrite (bind_step _ _ _ _ _ (get_system_ok d i Hok Hi)). fold (counter d i).
  pose proof (i32_of_range (var d i)) as Hrange. fold (counter d i) in Hrange.
  unfold bind at 1. rewrite cint_ok by lia. unfold dat_set_system_var.
  destruct (set_status_ok d i (u32_of (counter d i + 1)) Hok ltac:(lia) (u32_of_range _))
    as (s' & _ & E & Hok' & _ & Hsl & Hroom & Hv).
  rewrite (bind_step _ _ _ _ _ E). exists (set_store s' d). split; [done|]. split; [done|]. split; [done|]. split; [|done].
  rewrite Hv, decide_False by (done || (unfold dat_fpl_queue, dat_status_last_address in *; lia)). done.
Qed.

(** The command of the telecommand, run by the executer. *)
Lemma plan_cmd_runs other d t e p c a :
  plan_ok t e p c a -> fp_ok d -> st_room 1 (store d) -> counter d dat_obc_executed_cmds < INT_MAX ->
  tbl_get t (st_slots (store d)) = None -> used (st_slots (store d)) < SCH_FP_MAX_ENTRIES ->
  exists d' slots', run_cmd (call_function (functions other)) (plan_cmd t e p c a) d = Ret (CMD_OK, d') /\
    fp_ok d' /\ st_slots (store d') = slots' /\ tbl_set (FpRow t c a e p SCH_COMM_NODE) (st_slots (store d)) = Some slots' /\
    (forall n, st_room (n + 1) (store d) -> st_room n (store d')).
Proof.
  intros Hplan Hfp Hroom Hcount Hnone Hfree. pose proof Hplan as (Ht & He & Hp & Hca & _).
  destruct (count_var_plan d dat_obc_executed_cmds (proj1 Hfp) ltac:(done) ltac:(done) Hcount) as (d1 & E1 & Hsame).
  pose proof Hsame as (Hok1 & Hsl1 & _ & Hr1).
  destruct (fp_set_unix_adds_entry d1 t e p c a (same_plan_fp _ _ Hfp Hsame) (Hr1 1 Hroom)) as (d2 & E2 & Hsl2 & Hfp2 & Hr2);
    try done. { unfold int_ok, INT_MIN. lia. }
  rewrite Hsl1 in E2, Hsl2. unfold spec_set in E2, Hsl2. rewrite (proj2 (Z.ltb_ge t 0)) in E2, Hsl2 by lia.
  destruct (tbl_set (FpRow t c a e p SCH_COMM_NODE) (st_slots (store d))) as [slots'|] eqn:Es.
  2: { exfalso. apply tbl_set_full in Es. rewrite (law_slots_len _ (proj1 (proj1 Hfp))) in Es. lia. }
  cbn [fst snd] in E2, Hsl2. exists d2, slots'. splits; [|done|done|done|auto].
  unfold run_cmd. rewrite (bind_step _ _ _ _ _ E1).
  assert (call_function (functions other) (plan_cmd t e p c a) d1 = Ret (CMD_OK, d2)) as E3 by exact E2.
  rewrite (bind_step _ _ _ _ _ E3). reflexivity.
Qed.

End plan.
End PlanLaws.

Module SystemTheorems.
Import RepoCommand RepoCommandLaws RepoData RepoDataLaws RepoDataTheorems Dispatcher DispatcherLaws DispatcherTheorems.
Import System SystemLaws PlanLaws Registry Clients TaskLaws TaskTheorems CmdFPTheorems Telemetry CmdTM.

Section theorems.
Context {S F : Type} `{StorageLaws S}.
Context (exec : cmd_t F -> M (dat S) Z).
Implicit Types (y : sys S F) (d : dat S).

(** C3. The queues, the dispatcher and the executer are the sequential program
    [run_all]: however the sends of the clients interleave with the tasks, whenever
    the dispatcher waits for a command the data repository and the results are
    those of running the commands done so far one after the other, each counted
    before and, when it failed, after, and these are all that was sent except what
    is in the queue; and every run of the sequential program is one of the system. *)
Theorem system_refines_sequential d y :
  rtc (step exec eq) (start d) y -> y_disp y = DReceive ->
  (exists cs zs, run_all exec cs d = Ret (zs, y_dat y) /\ y_done y = zip cs zs /\ length zs = length cs /\
     y_sent y = cs ++ dispatcher_queue y) /\
  (forall cs zs d', dispatcher_queue y = [] -> run_all exec cs (y_dat y) = Ret (zs, d') ->
     exists y', rtc (step exec eq) y y' /\ idle y' /\ y_dat y' = d' /\ y_sent y' = y_sent y ++ cs /\
       y_done y' = y_done y ++ zip cs zs).
Proof.
  intros Hr Hd. destruct (replayed_reachable exec d y Hr) as (Hinv & cs & zs & d1 & E & Hy). split.
  - destruct Hinv as (_ & _ & Hs). unfold in_flight in Hs. rewrite Hd in *. destruct Hy as (Hdone & Hl & ->).
    exists cs, zs. splits; try done. rewrite Hs, Hdone, fst_zip by lia. done.
  - intros cs' zs' d' Hq E'. by apply sequential_reached.
Qed.

End theorems.

Section telecommand.
Context {S : Type} `{StorageLaws S}.
Context (other : cmd_fn -> cstring -> option (list Z) -> Z -> M (dat S) Z).
Implicit Types (s : client S cmd_fn).

End telecommand.

(** *** Instances on the RAM storage *)
Import Ram RamLaws.

Definition demo_cmds : list (cmd_t demo_fn) := [demo_cmd Demo_fail; demo_cmd Demo_clear_gnd_wdt].
Lemma demo_run : exists d', run_all demo_exec demo_cmds (ram_data 0) = Ret ([CMD_SYNTAX_ERROR; CMD_OK], d').
Proof. eexists. vm_compute. reflexivity. Qed.

Lemma system_refines_sequential_witness :
  exists y, rtc (step demo_exec eq) (start (ram_data 0)) y /\ idle y /\
    y_done y = [(demo_cmd Demo_fail, CMD_SYNTAX_ERROR); (demo_cmd Demo_clear_gnd_wdt, CMD_OK)].
Proof.
  destruct demo_run as [d' E].
  destruct (system_refines_sequential demo_exec (ram_data 0) (start (ram_data 0)) (rtc_refl _ _) eq_refl) as [_ Hrun].
  destruct (Hrun demo_cmds [CMD_SYNTAX_ERROR; CMD_OK] d' eq_refl E) as (y & Hr & Hi & _ & _ & Hd). exists y. split; [exact Hr|]. split; [exact Hi|exact Hd].
Defined.

Lemma plan_ping_ok : plan_ok 1000 1 0 (cs "com_ping") (cs "10").
Proof.
  split; [unfold INT_MAX; lia|]. split; [apply int_ok_small; lia|]. split; [apply int_ok_small; lia|].
  split; [apply cmd_text_ping|]. split; [apply (bool_decide_unpack _); vm_compute; exact I|]. vm_compute. discriminate.
Qed.


End SystemTheorems.
